(* ===== verification/_CoqProject ===== *)
-Q . S2P
Prelude.v
Mmu.v
Kalloc.v
KString.v
Spinlock.v
HalBlock.v
Partition.v
VfsPath.v
Initramfs.v
Fat32.v
Fat32Dir.v
Vfs.v
Vm.v
Machine.v
Ioapic.v
Smp.v
Ring.v
Proc.v
Sleeplock.v
Virtio.v
Hid.v
Pci.v
VirtioPci.v
Usb.v
Uhci.v
Ata.v
Ahci.v
Pty.v
UserMem.v
Exec.v
Console.v
Ps2.v
Display.v
VirtGpu.v
Module.v
Syscall.v
Trap.v
Board.v
LibC.v
Wm.v
LibWm.v
Sh.v
Ld.v
