(* ===== verification/Prelude.v ===== *)
(** * PanicOS: a verification of the kernel, its drivers and its user space

    PanicOS is a small operating system in C for 32-bit x86 (PAE paging).  This
    library is a shallow embedding of it: each C function that is modelled is a
    Rocq function with the name of the original, on a state that has the fields
    of the C data, and the theorems are about these functions.  File names in the
    headers are relative to src/.

    ** Conventions

    A function of the program returns an [outcome] (below): a result, a panic
    with its message, an access outside an object, or no result within the fuel
    of a loop.  A theorem that says [... = Ret ...] therefore says that the code
    terminates, does not panic and stays inside its objects.  Machine integers
    are [Z] with the reductions of the C types written out ([u8], [u16], [u32],
    [u64], [s8], [s32]).  Memory is as concrete as the code that uses it needs:
    words at addresses for the page allocator, 4096-byte page frames for page
    tables and user memory, lists of bytes for buffers.  A lock that a function
    takes and releases is a boolean of the state, and taking it twice or releasing
    a free one is the panic of the lock code.  A call that sleeps is cut there: the
    part up to [sched] is one function, the part after it another, and interleavings
    are sequences of such parts.  Code that talks to a device is a function of the
    device ([Machine]): port and memory accesses are operations of a machine that is
    an argument, and what the hardware is documented to do is a hypothesis about it,
    which an executable device satisfies in the witnesses.

    Loops that are not structural have fuel, computed from their arguments where
    the code bounds them (sectors of a disk, clusters of a chain, bytes of a line,
    pages of a range); the theorems show that it is enough.  Where the code itself
    does not bound a loop (the free list, strings in user memory) fuel is an
    argument, and the theorems ask for as much as the data is long.

    ** The parts and their files

    Memory.  [Mmu]: address arithmetic (kernel/arch/x86/mmu.h, memlayout.h).
    [Kalloc]: the physical page allocator (core/kalloc.c), first fit on a list
    linked through the free blocks.  [Vm]: page tables and address spaces
    (arch/x86/vm.c), over the allocator as an interface ([PageAllocator],
    [AllocatorLaws]) that [Kalloc] implements.  [UserMem]: memory of a process as
    the kernel reaches it through the page table.

    Common code.  [KString]: common/string.c.  [Spinlock]: arch/x86/spinlock.c,
    as functions and as a machine of interleaved memory accesses.  [Sleeplock]:
    common/sleeplock.c over the process table.  [Ring]: the index arithmetic that
    the kernel's ring buffers share.

    Storage.  [HalBlock]: block devices, the sector cache and the partition
    tables (hal/block.c, mbr.c, gpt.c), over a disk driver as an interface
    ([BlockDriver], [BlockDriverLaws]).  [Partition]: the interface a partition
    offers to filesystems ([PartitionStore], [PartitionLaws]) and its
    implementation.  [Fat32], [Fat32Dir]: filesystem/fat32, over that interface.
    [Initramfs]: filesystem/initramfs.  [VfsPath], [Vfs]: filesystem/vfs, over the
    filesystem driver interface ([FilesystemDriver], [FilesystemLaws]) that FAT32
    implements.

    Processes.  [Proc]: core/proc.c, the process table and its interleavings.
    [Exec]: proc/exec, loading programs and building the first stack.
    [Syscall]: proc/syscall, argument fetching, all system calls and their
    dispatch, on the state of the whole kernel.  [Trap]: arch/x86/trap.c, the one
    entry for system calls, interrupts and faults, on top of [Syscall] and the drivers;
    and driver/x86/uart.c.

    Hardware.  [Machine]: port and memory accesses.  [Ioapic]:
    driver/x86/ioapic.c.  [Smp]: the processors and their interrupt controllers
    (arch/x86/mp.c, lapic.c, and [startothers] of core/main.c).  [Pci]: driver/pci,
    the two ways to the configuration space
    (driver/x86/pci-legacy.c, intel-pcie-mmcfg.c) and arch/x86/msi.c.  [Virtio]: the
    rings and the block driver of driver/virtio, with its interrupt handler and its
    sleeping processes.  [VirtioPci]: its discovery on the bus, registers and
    the set-up of queues.  [Ata]: driver/ata, which [Pci] binds to its controller.
    [Ahci]: driver/ahci, which carries the same commands to serial disks.  [Usb]:
    driver/usb, over a host controller driver as an interface ([HostController]) that [Uhci]
    (driver/uhci) implements.  [Board]:
    the clock, the old interrupt controller, the tables of the firmware, switching off
    (driver/x86/rtc.c, pic.c, driver/acpi, hal/power.c) and the display of the emulator
    (driver/bochs-display), which implements the interface of [Display].

    Devices and terminals.  [Hid]: proc/kcall.c and hal/hid.c.  [Ps2]: driver/ps2, the
    keyboard and the mouse.  [Pty]: proc/pty.c.  [Console]: core/console.c.
    [Display]: hal/display.c, over a framebuffer driver as an interface.  [VirtGpu]:
    module/virtgpu, a loadable module with such a driver, on the queues of [Virtio].
    [Module]: hal/module.c.

    User space.  [LibC]: string, number and stream routines of library/libc.
    [Wm]: program/wm/wm.c, the window manager.  [LibWm]: library/libwm, its clients'
    side of the protocol.  [Sh]: program/sh/sh.c.  [Ld]: library/ld/ld.c, the
    dynamic linker.

    ** What the theorems show

    Memory: allocation is first fit and live blocks never overlap, under any
    sequence of calls ([Kalloc.pgalloc_correct], [Kalloc.allocations_disjoint]);
    growing, shrinking and copying an address space change exactly the
    translations they should ([Vm.allocuvm_correct], [Vm.deallocuvm_correct],
    [Vm.copyuvm_correct]).

    Locks: mutual exclusion of the spin lock for every interleaving of its memory
    accesses ([Spinlock.spinlock_mutual_exclusion]); mutual exclusion of the sleep
    lock, no sleeper left behind, and progress on release
    ([Sleeplock.sleeplock_exclusive], [Sleeplock.sleeplock_progress]).

    Storage: the cache is invisible ([HalBlock.cache_refines_disk]); registration
    finds the partitions of a disk ([HalBlock.register_device_finds_partitions]);
    partitions are isolated ([Partition.partition_isolation]); FAT32 reads, and
    writes on a volume with room for them, are those of a byte string, take free
    clusters only and touch no other file
    ([Fat32.fat32_read_correct], [Fat32.fat32_write_correct],
    [Fat32.fat32_write_isolated], [Fat32.fat32_free_chain_correct]); directories
    are searched correctly, a file created under a name without upper-case letters
    is found, and such 8.3 names round trip ([Fat32Dir]); paths split and print as inverses ([VfsPath]); what is
    written through a descriptor is read back ([Vfs.fd_write_seek_read]); files of
    the boot archive are found with their contents ([Initramfs.initramfs_roundtrip]).

    Processes: process ids are unique in every reachable state, and without kills a
    waiting parent misses no exit ([Proc.pids_unique], [Proc.wait_no_lost_child]);
    segments and up to thirty arguments of a program are in its memory ([Exec.loaduvm_correct],
    [Exec.exec_stack_correct]); the read call delivers a file to user memory
    ([Syscall.sys_read_correct]); messages arrive in order and intact
    ([Syscall.message_queue_fifo]); calls on a descriptor that does not fit fail and
    change nothing ([Syscall.unfit_descriptor_refused]).  Traps: a killed process does
    not get back to user mode ([Trap.killed_never_returns]), and sleeping lasts as many
    ticks as asked ([Trap.sleep_lasts]).

    Hardware: under any interleaving of requests, completions and wakeups the
    descriptors of the concurrent requests to a disk are disjoint and say what the
    callers asked for, and every completed one is woken ([Virtio.virtio_requests_isolated], [Virtio.virtio_completion_wakes]), and the
    queue they start from is what set-up leaves in memory
    ([VirtioPci.virtio_init_queue_ready]); an
    ATA disk is an array of sectors, on either kind of controller
    ([Ata.ata_refines_array], [Ahci.sata_refines_array]); the processors of a machine are found and
    started ([Smp.mpinit_finds_cpus], [Smp.startothers_starts_all]); USB devices with
    eight-byte control packets are enumerated ([Usb.usb_register_device_enumerates]); both ways to the
    configuration space agree ([Pci.config_access_correct]), searches and start-up
    find every function of every bus ([Pci.pci_search_complete],
    [Pci.pci_init_finds_devices]), drivers are bound to the devices they match
    ([Pci.pci_register_driver_binds]), sizes of regions are found without changing
    registers ([Pci.pci_bar_size_correct]), and an interrupt reaches the handler its
    vector was allocated for ([Pci.msi_vector_correct]); lines of the interrupt
    controller are independent ([Ioapic.ioapic_lines_independent]).

    Devices: the console on a text screen refines a line editor and its formatted output is type
    safe ([Console.console_refines_line_editor], [Console.cprintf_type_safe]); a line
    typed on the keyboard is the line a program reads ([Ps2.typed_line_is_read]); the
    event queues refine lists ([Hid.input_queues_refine]); display modes are
    bounded whatever a monitor with a known interface sends ([Display.display_modes_bounded]); a virtio graphics
    adapter shows what was drawn in the framebuffer
    ([VirtGpu.framebuffer_shown]), the wait for it being as long as the adapter may take
    ([gpu_patience]).

    User space: the screen always shows the topmost sheets
    ([Wm.wm_screen_correct]); requests that fit their messages, and events, mean the same to the window
    manager and its clients ([LibWm.client_requests_served],
    [LibWm.client_events_reported]); the parser of the shell always ends and inverts printing
    ([Sh.parsecmd_total], [Sh.parse_print]); the symbol table of the linker is a
    finite map, relocation stores what it should and nothing else, and libraries
    load to a bounded depth ([Ld.symbol_table_refines_map],
    [Ld.ld_relocate_correct], [Ld.ld_load_library_depth]); [atoi] inverts [printf]
    ([LibC.atoi_printf]).

    Some theorems state what the code does where that is not what it is meant to
    do ([Exec.exec_31_args_overflow], [Kalloc.zero_pages_break_the_allocator],
    [Fat32.full_volume_write_corrupts], [Fat32Dir.upper_case_file_lost],
    [Proc.kill_zero_takes_slot], [Virtio.second_disk_not_served], and
    lemmas named for the defect they show).

    ** What is not modelled

    The assembly of start-up, trap entry and context switch; the loadable
    modules for a demonstration device and as an example; the RISC-V port, which is unfinished; the small user programs; the UEFI
    stub.  Weak memory order is not modelled: the x86 lock code relies on a locked
    exchange and full barriers.

    This file has the vocabulary: outcomes and their notation, machine integers,
    bytes and buffers, and the lemmas and tactics the other files share. *)

From stdpp Require Import base list strings option relations.
From Stdlib Require Import ZArith Lia.

Local Open Scope Z_scope.

(** ** Outcomes of kernel code

    A call either returns ([Ret]), stops the machine through [panic]
    ([Panic msg]), performs an access the C program has no business doing
    ([Fault]: a null or wild dereference, an index outside an array), or is
    still running when the fuel given to a loop is used up ([NoFuel]). *)

Inductive outcome (A : Type) : Type :=
| Ret (a : A)
| Panic (msg : string)
| Fault
| NoFuel.

Arguments Ret {A} a.
Arguments Panic {A} msg.
Arguments Fault {A}.
Arguments NoFuel {A}.

Definition obind {A B} (m : outcome A) (k : A -> outcome B) : outcome B :=
  match m with
  | Ret a => k a
  | Panic msg => Panic msg
  | Fault => Fault
  | NoFuel => NoFuel
  end.

Declare Scope outcome_scope.
Delimit Scope outcome_scope with outcome.

Notation "x <- m ;; k" := (obind m (fun x => k))
  (at level 100, m at next level, right associativity) : outcome_scope.
Notation "' pat <- m ;; k" := (obind m (fun x => match x with pat => k end))
  (at level 100, pat pattern, m at next level, right associativity) : outcome_scope.

Definition of_option {A} (o : option A) : outcome A :=
  match o with Some a => Ret a | None => Fault end.

(** ** Error codes of common/errorcode.h *)

Definition ERROR_INVAILD : Z := -1.
Definition ERROR_NOT_EXIST : Z := -2.
Definition ERROR_EXIST : Z := -3.
Definition ERROR_NOT_FILE : Z := -4.
Definition ERROR_NOT_DIRECTORY : Z := -5.
Definition ERROR_READ_FAIL : Z := -6.
Definition ERROR_OUT_OF_SPACE : Z := -7.
Definition ERROR_WRITE_FAIL : Z := -8.
Definition ERROR_NO_PERM : Z := -9.

(** ** Machine integers *)

Definition u8 (x : Z) : Z := x mod 2 ^ 8.
Definition u16 (x : Z) : Z := x mod 2 ^ 16.
Definition u32 (x : Z) : Z := x mod 2 ^ 32.
Definition u64 (x : Z) : Z := x mod 2 ^ 64.

(** Conversion of an [unsigned int] to [int] on the two's complement targets. *)
Definition s32 (x : Z) : Z :=
  let y := u32 x in if y <? 2 ^ 31 then y else y - 2 ^ 32.

(** Conversion of a byte to the signed [char] of both targets' ABI. *)
Definition s8 (x : Z) : Z :=
  let y := u8 x in if y <? 2 ^ 7 then y else y - 2 ^ 8.

Definition is_u8 (x : Z) : Prop := 0 <= x < 2 ^ 8.
Definition is_u16 (x : Z) : Prop := 0 <= x < 2 ^ 16.
Definition is_u32 (x : Z) : Prop := 0 <= x < 2 ^ 32.

(** ** Locks, seen from one thread of control

    [acquire] panics when this CPU already holds the lock and [release] when
    it does not; the interleaving of several CPUs is the subject of
    Spinlock.v.  The boolean is the lock's [locked] word. *)

Definition acquire_b (locked : bool) : outcome bool :=
  if locked then Panic "acquire" else Ret true.

Definition release_b (locked : bool) : outcome bool :=
  if locked then Ret false else Panic "release".

(** ** Memory

    The contents of addresses, as bytes or as words; each file says which. *)

Definition memory : Type := Z -> Z.

Definition store (m : memory) (a v : Z) : memory := fun x => if x =? a then v else m x.

(** ** Byte buffers *)

(** [slice off n l]: the [n] bytes of [l] from index [off]. *)
Definition slice {A} (off n : Z) (l : list A) : list A :=
  take (Z.to_nat n) (drop (Z.to_nat off) l).

(** [splice off s l]: [l] with the elements from [off] overwritten by [s]. *)
Definition splice {A} (off : Z) (s l : list A) : list A :=
  take (Z.to_nat off) l ++ s ++ drop (Z.to_nat off + length s) l.

(** Element at a [Z] index, for array reads that may leave the array. *)
Definition zget {A} (l : list A) (i : Z) : option A :=
  if i <? 0 then None else l !! Z.to_nat i.

(** Array store; [None] outside the array. *)
Definition zset {A} (l : list A) (i : Z) (v : A) : option (list A) :=
  if (i <? 0) || (Z.of_nat (length l) <=? i) then None
  else Some (<[Z.to_nat i := v]> l).

Definition zlen {A} (l : list A) : Z := Z.of_nat (length l).

(** Little-endian words inside a byte buffer. *)
Fixpoint le_val (bs : list Z) : Z :=
  match bs with
  | [] => 0
  | b :: bs' => b + 256 * le_val bs'
  end.

Fixpoint le_bytes (n : nat) (w : Z) : list Z :=
  match n with
  | O => []
  | S n' => w mod 256 :: le_bytes n' (w / 256)
  end.

Definition get16 (off : Z) (l : list Z) : Z := le_val (slice off 2 l).
Definition get32 (off : Z) (l : list Z) : Z := le_val (slice off 4 l).
Definition get64 (off : Z) (l : list Z) : Z := le_val (slice off 8 l).
Definition put32 (off w : Z) (l : list Z) : list Z := splice off (le_bytes 4 w) l.

Definition bytes_ok (l : list Z) : Prop := Forall is_u8 l.

(** ** Lemma library *)

Create HintDb panicos.

Lemma bind_Ret {A B} (m : outcome A) (k : A -> outcome B) b :
  obind m k = Ret b -> exists a, m = Ret a /\ k a = Ret b.
Proof. destruct m; simpl; intros; try discriminate. eauto. Qed.

(** Case analysis of a returning computation, one bind at a time. *)
Ltac inv_bind H :=
  let a := fresh "a" in let H1 := fresh "Hb" in
  apply bind_Ret in H; destruct H as (a & H1 & H).

(** Rule induction for invariants of step relations. *)
Lemma rtc_invariant {A} (R : relation A) (I : A -> Prop) x y :
  I x -> (forall s s', I s -> R s s' -> I s') -> rtc R x y -> I y.
Proof. intros Hx Hs Hr. induction Hr; eauto. Qed.

Lemma u32_range x : is_u32 (u32 x).
Proof. unfold is_u32, u32. apply Z.mod_pos_bound. lia. Qed.

Lemma u32_small x : is_u32 x -> u32 x = x.
Proof. unfold is_u32, u32. apply Z.mod_small. Qed.

Lemma u32_idem x : u32 (u32 x) = u32 x.
Proof. apply u32_small, u32_range. Qed.

Lemma u32_add_l x y : u32 (u32 x + y) = u32 (x + y).
Proof. unfold u32. apply Zplus_mod_idemp_l. Qed.

Lemma u32_add_r x y : u32 (x + u32 y) = u32 (x + y).
Proof. unfold u32. apply Zplus_mod_idemp_r. Qed.

Lemma s32_small x : 0 <= x < 2 ^ 31 -> s32 x = x.
Proof.
  intros H. unfold s32. rewrite u32_small by (unfold is_u32; lia).
  destruct (Z.ltb_spec x (2 ^ 31)); lia.
Qed.

Lemma s32_nonneg_iff x : is_u32 x -> 0 <= s32 x <-> x < 2 ^ 31.
Proof.
  intros H. unfold s32. rewrite u32_small by done.
  unfold is_u32 in H. destruct (Z.ltb_spec x (2 ^ 31)); lia.
Qed.

#[export] Hint Resolve u32_range : panicos.
#[export] Hint Rewrite u32_idem u32_add_l u32_add_r : panicos.

(** Turns boolean tests of the code into arithmetic facts. *)
Ltac bools :=
  repeat match goal with
  | H : (_ && _) = true |- _ => apply andb_true_iff in H; destruct H
  | H : (_ || _) = false |- _ => apply orb_false_iff in H; destruct H
  | H : (_ || _) = true |- _ => apply orb_true_iff in H
  | H : (_ && _) = false |- _ => apply andb_false_iff in H
  | H : negb _ = true |- _ => apply negb_true_iff in H
  | H : negb _ = false |- _ => apply negb_false_iff in H
  | H : (_ <? _) = true |- _ => apply Z.ltb_lt in H
  | H : (_ <? _) = false |- _ => apply Z.ltb_ge in H
  | H : (_ <=? _) = true |- _ => apply Z.leb_le in H
  | H : (_ <=? _) = false |- _ => apply Z.leb_gt in H
  | H : (_ =? _) = true |- _ => apply Z.eqb_eq in H
  | H : (_ =? _) = false |- _ => apply Z.eqb_neq in H
  end.

(** Splits on the first integer comparison of the goal. *)
Ltac zcase :=
  match goal with
  | |- context [?a <? ?b] => destruct (Z.ltb_spec a b)
  | |- context [?a <=? ?b] => destruct (Z.leb_spec a b)
  | |- context [?a =? ?b] => destruct (Z.eqb_spec a b)
  end.

Lemma store_eq m a v : store m a v a = v.
Proof. unfold store. by rewrite Z.eqb_refl. Qed.

Lemma store_ne m a v x : x <> a -> store m a v x = m x.
Proof. unfold store. intros. destruct (Z.eqb_spec x a); [done|done]. Qed.

(** Rewrites a read through stores to other addresses. *)
Ltac reads := rewrite ?store_eq; repeat (rewrite store_ne by lia; rewrite ?store_eq).

(** *** Slices and splices *)

Section slices.
Context {A : Type}.
Implicit Types (l s : list A) (off n i : Z).

Lemma zlen_nonneg l : 0 <= zlen l.
Proof. unfold zlen. lia. Qed.

Lemma slice_length off n l :
  0 <= off -> 0 <= n -> off + n <= zlen l -> zlen (slice off n l) = n.
Proof. unfold slice, zlen. intros. rewrite length_take, length_drop. lia. Qed.

Lemma splice_length off s l :
  0 <= off -> off + zlen s <= zlen l -> zlen (splice off s l) = zlen l.
Proof.
  unfold splice, zlen. intros.
  rewrite !length_app, length_take, length_drop. lia.
Qed.

Lemma slice_0 off l : slice off 0 l = [].
Proof. reflexivity. Qed.

Lemma slice_all l : slice 0 (zlen l) l = l.
Proof. unfold slice, zlen. rewrite Nat2Z.id. simpl. apply firstn_all. Qed.

(** Adjacent slices join. *)
Lemma slice_app off n m l :
  0 <= off -> 0 <= n -> 0 <= m ->
  slice off n l ++ slice (off + n) m l = slice off (n + m) l.
Proof.
  intros. unfold slice.
  rewrite !Z2Nat.inj_add by lia.
  rewrite <- (drop_drop l (Z.to_nat n) (Z.to_nat off)).
  generalize (drop (Z.to_nat off) l) as k; intros k.
  generalize (Z.to_nat n) as a, (Z.to_nat m) as b.
  intros a b. revert k. induction a as [|a IH]; intros k; [done|].
  destruct k as [|x k]; simpl.
  - by rewrite take_nil.
  - f_equal. apply IH.
Qed.

Lemma slice_splice_same off s l :
  0 <= off -> off + zlen s <= zlen l -> slice off (zlen s) (splice off s l) = s.
Proof.
  unfold slice, splice, zlen. intros. rewrite Nat2Z.id.
  rewrite drop_app_length' by (rewrite length_take; lia).
  by rewrite take_app_length.
Qed.

(** A splice does not touch what lies before or after it. *)
Lemma slice_splice_other off s l i n :
  0 <= off -> off + zlen s <= zlen l -> 0 <= i -> 0 <= n ->
  i + n <= off \/ off + zlen s <= i ->
  slice i n (splice off s l) = slice i n l.
Proof.
  unfold slice, splice, zlen. intros Ho Hl Hi Hn Hd.
  apply list_eq; intros k.
  destruct (decide (k < Z.to_nat n)%nat) as [Hk|Hk].
  2: { rewrite !lookup_take_ge by lia. done. }
  rewrite !lookup_take_lt, !lookup_drop by lia.
  destruct Hd as [Hd|Hd].
  - rewrite lookup_app_l by (rewrite length_take; lia).
    rewrite lookup_take_lt by lia. done.
  - rewrite lookup_app_r by (rewrite length_take; lia).
    rewrite length_take.
    rewrite lookup_app_r by lia. rewrite lookup_drop. f_equal. lia.
Qed.

Lemma slice_slice off n i m l :
  0 <= off -> 0 <= i -> 0 <= m -> i + m <= n ->
  slice i m (slice off n l) = slice (off + i) m l.
Proof.
  intros. unfold slice. rewrite skipn_firstn_comm, drop_drop, take_take.
  f_equal; [lia|]. f_equal. lia.
Qed.

Lemma splice_nil off l : splice off [] l = l.
Proof. unfold splice. simpl. rewrite Nat.add_0_r. apply take_drop. Qed.

Lemma splice_splice_adj off s t l :
  0 <= off -> off + zlen s + zlen t <= zlen l ->
  splice (off + zlen s) t (splice off s l) = splice off (s ++ t) l.
Proof.
  unfold splice, zlen. intros Ho Hl.
  replace (Z.to_nat (off + Z.of_nat (length s))) with (Z.to_nat off + length s)%nat by lia.
  set (o := Z.to_nat off).
  assert (Hlen : length (take o l) = o) by (rewrite length_take; lia).
  rewrite take_app, drop_app, Hlen.
  rewrite (take_ge (take o l)) by lia.
  rewrite (drop_ge (take o l)) by lia.
  replace (o + length s - o)%nat with (length s) by lia.
  replace (o + length s + length t - o)%nat with (length s + length t)%nat by lia.
  rewrite take_app_length, drop_app, (drop_ge s) by lia.
  rewrite drop_drop, length_app, <- !app_assoc. simpl.
  do 4 f_equal. lia.
Qed.

Lemma zget_Some l i x : zget l i = Some x -> 0 <= i < zlen l.
Proof.
  unfold zget, zlen. destruct (Z.ltb_spec i 0); [discriminate|].
  intros H1%lookup_lt_Some. lia.
Qed.

Lemma zget_is_Some l i : 0 <= i < zlen l -> exists x, zget l i = Some x.
Proof.
  unfold zget, zlen. intros. destruct (Z.ltb_spec i 0); [lia|].
  destruct (lookup_lt_is_Some_2 l (Z.to_nat i)) as [x Hx]; [lia|eauto].
Qed.

Lemma zset_Some l i v : 0 <= i < zlen l -> zset l i v = Some (<[Z.to_nat i := v]> l).
Proof.
  unfold zset, zlen. intros.
  destruct (Z.ltb_spec i 0); [lia|]. destruct (Z.leb_spec (Z.of_nat (length l)) i); [lia|]. done.
Qed.

Lemma zset_zlen l i v l' : zset l i v = Some l' -> zlen l' = zlen l.
Proof.
  unfold zset, zlen. destruct ((i <? 0) || _); [discriminate|].
  intros [= <-]. by rewrite length_insert.
Qed.

Lemma zget_zset_eq l i v l' : zset l i v = Some l' -> zget l' i = Some v.
Proof.
  unfold zset, zget. destruct (i <? 0) eqn:E; simpl; [discriminate|].
  destruct (Z.leb_spec (Z.of_nat (length l)) i); [discriminate|].
  intros [= <-]. apply list_lookup_insert_eq. bools. lia.
Qed.

Lemma zget_zset_ne l i v l' j : zset l i v = Some l' -> i <> j -> zget l' j = zget l j.
Proof.
  unfold zset, zget. destruct (i <? 0) eqn:E; simpl; [discriminate|].
  destruct (Z.leb_spec (Z.of_nat (length l)) i); [discriminate|].
  intros [= <-] Hne. destruct (j <? 0) eqn:E2; [done|].
  apply list_lookup_insert_ne. bools. lia.
Qed.

Lemma slice_lookup off n l (k : nat) :
  (k < Z.to_nat n)%nat -> slice off n l !! k = l !! (Z.to_nat off + k)%nat.
Proof. intros. unfold slice. rewrite lookup_take_lt, lookup_drop by lia. done. Qed.

End slices.

#[export] Hint Resolve zlen_nonneg : panicos.

(** *** Little-endian words *)

Lemma le_bytes_length n w : length (le_bytes n w) = n.
Proof. revert w. induction n; simpl; auto. Qed.

Lemma le_val_bytes_mod n : forall w, le_val (le_bytes n w) = w mod 256 ^ Z.of_nat n.
Proof.
  induction n as [|n IH]; intros w; cbn [le_bytes le_val]; [by rewrite Z.mod_1_r|].
  rewrite IH, Nat2Z.inj_succ, Z.pow_succ_r, Z.rem_mul_r by lia. lia.
Qed.

Lemma le_bytes_ok n w : bytes_ok (le_bytes n w).
Proof.
  revert w. induction n; intros w; constructor.
  - unfold is_u8. pose proof (Z.mod_pos_bound w 256). lia.
  - apply IHn.
Qed.

Lemma le_val_bytes n w :
  0 <= w < 256 ^ Z.of_nat n -> le_val (le_bytes n w) = w.
Proof.
  revert w. induction n as [|n IH]; intros w Hw; simpl.
  - simpl in Hw. lia.
  - rewrite Nat2Z.inj_succ, Z.pow_succ_r in Hw by lia.
    rewrite IH.
    + rewrite Z.add_comm. symmetry. apply Z.div_mod. lia.
    + split; [apply Z.div_pos; lia | apply Z.div_lt_upper_bound; lia].
Qed.

Lemma le_val_bound bs : bytes_ok bs -> 0 <= le_val bs < 256 ^ zlen bs.
Proof.
  unfold zlen. induction 1 as [|b bs Hb Hbs IH]; simpl le_val.
  - simpl. lia.
  - simpl length. rewrite Nat2Z.inj_succ, Z.pow_succ_r by lia. unfold is_u8 in Hb. lia.
Qed.

Lemma le_bytes_val bs : bytes_ok bs -> le_bytes (length bs) (le_val bs) = bs.
Proof.
  induction 1 as [|b bs Hb Hbs IH]; simpl; [done|]. unfold is_u8 in Hb.
  assert ((b + 256 * le_val bs) mod 256 = b) as ->.
  { rewrite (Z.mul_comm 256), Z.mod_add by lia. apply Z.mod_small; lia. }
  f_equal. rewrite (Z.mul_comm 256), Z.div_add, Z.div_small by lia. done.
Qed.

Lemma get32_put32_eq off w l :
  0 <= off -> off + 4 <= zlen l -> is_u32 w -> get32 off (put32 off w l) = w.
Proof.
  intros Ho Hl Hw. unfold get32, put32.
  assert (zlen (le_bytes 4 w) = 4) as E by (unfold zlen; by rewrite le_bytes_length).
  rewrite <- E at 1. rewrite slice_splice_same by lia.
  apply le_val_bytes. unfold is_u32 in Hw. lia.
Qed.

Lemma get32_put32_ne off off' w l :
  0 <= off -> off + 4 <= zlen l -> 0 <= off' -> off' + 4 <= off \/ off + 4 <= off' ->
  get32 off' (put32 off w l) = get32 off' l.
Proof.
  intros. unfold get32, put32. f_equal.
  apply slice_splice_other; unfold zlen in *; rewrite ?le_bytes_length; lia.
Qed.

Lemma put32_length off w l : 0 <= off -> off + 4 <= zlen l -> zlen (put32 off w l) = zlen l.
Proof. intros. apply splice_length; unfold zlen in *; rewrite ?le_bytes_length; lia. Qed.

(** ** More on machine integers and indices *)

(** A C [int]. *)
Definition is_s32 (x : Z) : Prop := -(2^31) <= x < 2^31.

Lemma s32_inj x y : is_s32 x -> is_s32 y -> u32 x = u32 y -> x = y.
Proof.
  unfold u32, is_s32. intros Hx Hy Hu. apply Z.cong_iff_0 in Hu.
  rewrite Z.mod_divide in Hu by lia. destruct Hu as [k Hk]. lia.
Qed.

Lemma zget_lookup {A} (l : list A) i x : zget l i = Some x <-> 0 <= i /\ l !! Z.to_nat i = Some x.
Proof.
  unfold zget. destruct (Z.ltb_spec i 0); [split; [done|lia]|]. split; [auto|tauto].
Qed.

Lemma Forall_zget {A} (P : A -> Prop) l i x : Forall P l -> zget l i = Some x -> P x.
Proof. intros Hf [_ Hl]%zget_lookup. by eapply Forall_lookup. Qed.

Lemma zget_insert_eq {A} (l : list A) i x : 0 <= i < zlen l -> zget (<[Z.to_nat i := x]> l) i = Some x.
Proof.
  intros Hi. apply zget_lookup. split; [lia|]. apply list_lookup_insert_eq. unfold zlen in Hi. lia.
Qed.

Lemma zget_insert_ne {A} (l : list A) i x j : j <> i -> 0 <= i -> zget (<[Z.to_nat i := x]> l) j = zget l j.
Proof. intros Hne Hi. unfold zget. destruct (Z.ltb_spec j 0); [done|]. apply list_lookup_insert_ne. lia. Qed.

Lemma zget_splice {A} off (s l : list A) i : 0 <= off -> off + zlen s <= zlen l ->
  zget (splice off s l) i = if decide (off <= i < off + zlen s) then zget s (i - off) else zget l i.
Proof.
  intros Ho Hl. unfold zget, splice, zlen in *. destruct (Z.ltb_spec i 0).
  { rewrite decide_False by lia. done. }
  case_decide as E.
  - destruct (Z.ltb_spec (i - off) 0); [lia|]. rewrite lookup_app_r by (rewrite length_take; lia).
    rewrite length_take, lookup_app_l by lia. f_equal. lia.
  - destruct (Z.lt_ge_cases i off).
    + rewrite lookup_app_l by (rewrite length_take; lia). apply lookup_take_lt. lia.
    + rewrite lookup_app_r by (rewrite length_take; lia). rewrite lookup_app_r by (rewrite length_take; lia).
      rewrite lookup_drop, length_take. f_equal. lia.
Qed.

Lemma zlen_repeat {A} (x : A) n : 0 <= n -> zlen (repeat x (Z.to_nat n)) = n.
Proof. intros. unfold zlen. rewrite repeat_length. lia. Qed.

Lemma zlen_insert {A} (l : list A) i x : zlen (<[i := x]> l) = zlen l.
Proof. unfold zlen. by rewrite length_insert. Qed.

Lemma slice_splice_0 (s l : list Z) : zlen s <= zlen l -> slice 0 (zlen s) (splice 0 s l) = s.
Proof. intros. apply slice_splice_same; lia. Qed.

Lemma slice_splice_prefix {A} (sec l : list A) off n :
  0 <= off -> 0 <= n -> off + n <= zlen sec -> zlen sec <= zlen l ->
  slice off n (splice 0 sec l) = slice off n sec.
Proof.
  intros Ho Hn Hs Hl. assert (E : slice 0 (zlen sec) (splice 0 sec l) = sec)
    by (apply slice_splice_same; lia).
  rewrite <- E at 2. rewrite slice_slice by lia. done.
Qed.

Lemma obind_map {A B C} (m : outcome A) (f : A -> B) (k : B -> outcome C) :
  obind m (fun x => k (f x)) = obind (obind m (fun x => Ret (f x))) k.
Proof. by destruct m. Qed.

Lemma u32_s32 x : u32 (s32 x) = u32 x.
Proof.
  unfold s32. assert (Hr := u32_range x). destruct (Z.ltb_spec (u32 x) (2 ^ 31)); [apply u32_idem|].
  unfold u32 at 1. replace (u32 x - 2 ^ 32) with (u32 x + (-1) * 2 ^ 32) by lia.
  rewrite Z.mod_add by lia. by apply u32_small.
Qed.

Lemma s32_range x : is_s32 (s32 x).
Proof.
  unfold s32, is_s32. assert (Hr := u32_range x). unfold is_u32 in Hr.
  destruct (Z.ltb_spec (u32 x) (2 ^ 31)); lia.
Qed.

Lemma s32_cong x y : u32 x = u32 y -> s32 x = s32 y.
Proof. unfold s32. by intros ->. Qed.

Lemma s32_id x : is_s32 x -> s32 x = x.
Proof. intros Hx. apply s32_inj; [apply s32_range|done|apply u32_s32]. Qed.

Lemma s32_u32 x : s32 (u32 x) = s32 x.
Proof. apply s32_cong, u32_idem. Qed.

Lemma splice_0_app {A} (s l : list A) : splice 0 s l = s ++ drop (length s) l.
Proof. done. Qed.

Lemma splice_app_l {A} off (s x t : list A) : 0 <= off -> off + zlen s <= zlen x ->
  splice off s (x ++ t) = splice off s x ++ t.
Proof.
  unfold splice, zlen. intros. rewrite take_app_le, drop_app_le by lia. by rewrite <- !app_assoc.
Qed.

Lemma slice_app_full {A} (x t : list A) n : zlen x = n -> slice 0 n (x ++ t) = x.
Proof. unfold slice, zlen. intros <-. rewrite Nat2Z.id. apply take_app_length. Qed.

(** Editing the front of a bigger buffer is editing the front. *)
Lemma slice_splice_front {A} off (s sec buf : list A) n :
  zlen sec = n -> 0 <= off -> off + zlen s <= n ->
  slice 0 n (splice off s (splice 0 sec buf)) = splice off s sec.
Proof.
  intros Hs Ho Hf. rewrite splice_0_app, splice_app_l by lia.
  apply slice_app_full. rewrite splice_length; lia.
Qed.

(** ** Copies between buffers of known size *)

(** [memmove(dst + off, bytes, n)] into a buffer of known size. *)
Definition copy_into (dst : list Z) (off : Z) (bytes : list Z) : outcome (list Z) :=
  if (0 <=? off) && (off + zlen bytes <=? zlen dst) then Ret (splice off bytes dst) else Fault.

(** The bytes [src + off .. src + off + n). *)
Definition copy_from (src : list Z) (off n : Z) : outcome (list Z) :=
  if (0 <=? off) && (0 <=? n) && (off + n <=? zlen src) then Ret (slice off n src) else Fault.

Lemma copy_from_ok src off n : 0 <= off -> 0 <= n -> off + n <= zlen src -> copy_from src off n = Ret (slice off n src).
Proof.
  intros. unfold copy_from. destruct (Z.leb_spec 0 off), (Z.leb_spec 0 n), (Z.leb_spec (off + n) (zlen src)); try lia. done.
Qed.

Lemma copy_into_ok dst off bytes : 0 <= off -> off + zlen bytes <= zlen dst -> copy_into dst off bytes = Ret (splice off bytes dst).
Proof.
  intros. unfold copy_into. destruct (Z.leb_spec 0 off), (Z.leb_spec (off + zlen bytes) (zlen dst)); try lia. done.
Qed.

Lemma zlen_app {A} (l1 l2 : list A) : zlen (l1 ++ l2) = zlen l1 + zlen l2.
Proof. unfold zlen. rewrite length_app. lia. Qed.

Lemma zget_app_l {A} (l1 l2 : list A) i x : zget l1 i = Some x -> zget (l1 ++ l2) i = Some x.
Proof. rewrite !zget_lookup. intros [Hi Hl]. split; [done|]. by apply lookup_app_l_Some. Qed.

Lemma splice_app_r {A} (x y sub : list A) off k : zlen x = k -> k <= off ->
  splice off sub (x ++ y) = x ++ splice (off - k) sub y.
Proof.
  unfold splice, zlen. intros Hk Ho. rewrite take_app_ge, drop_app_ge by lia. rewrite <- app_assoc.
  do 3 f_equal; [lia|f_equal; f_equal; lia].
Qed.
