(* ===== verification/Mmu.v ===== *)
(** Address arithmetic of arch/x86/mmu.h, memlayout.h and param.h: page
    rounding, the three-level split of a virtual address, page table entry
    fields, the kernel's virtual/physical translation and the constants of the
    process address space. *)

From stdpp Require Import base list.
From Stdlib Require Import ZArith Lia.
From S2P Require Import Prelude.

Local Open Scope Z_scope.

Definition PGSIZE : Z := 4096.
Definition PGROUNDUP (sz : Z) : Z := Z.land (u32 (sz + PGSIZE - 1)) (Z.lnot (PGSIZE - 1)).
Definition PGROUNDDOWN (a : Z) : Z := Z.land a (Z.lnot (PGSIZE - 1)).

Definition PDPTX (va : Z) : Z := Z.land (Z.shiftr va 30) 3.
Definition PDX (va : Z) : Z := Z.land (Z.shiftr va 21) 511.
Definition PTX (va : Z) : Z := Z.land (Z.shiftr va 12) 511.

Definition PGADDR (pdpte pde pte off : Z) : Z :=
  u32 (Z.lor (Z.lor (Z.lor (Z.shiftl pdpte 30) (Z.shiftl pde 21)) (Z.shiftl pte 12)) off).

Definition PTE_P : Z := 1.
Definition PTE_W : Z := 2.
Definition PTE_U : Z := 4.
Definition PTE_MASK : Z := 0xfff0000000000fff.
Definition PTE_ADDR (pte : Z) : Z := Z.ldiff pte PTE_MASK.
Definition PTE_FLAGS (pte : Z) : Z := Z.land pte PTE_MASK.

Definition KERNBASE : Z := 0x80000000.
Definition EXTMEM : Z := 0x100000.
Definition PHYSTOP : Z := 0x8000000.
Definition DEVSPACE : Z := 0xB0000000.
Definition KERNLINK : Z := KERNBASE + EXTMEM.
Definition V2P (a : Z) : Z := u32 (a - KERNBASE).
Definition P2V (a : Z) : Z := u32 (a + KERNBASE).

Definition PROC_STACK_BOTTOM : Z := 0x20000000.
Definition PROC_HEAP_BOTTOM : Z := 0x20000000.
Definition PROC_DYNAMIC_BOTTOM : Z := 0x40000000.
Definition PROC_MMAP_BOTTOM : Z := 0x70000000.
Definition PROC_MODULE_BOTTOM : Z := 0x90000000.

(** ** Rounding *)

Lemma land_page_mask a : Z.land a (Z.lnot 4095) = a - a mod 4096.
Proof.
  assert (E : Z.land a (Z.lnot (Z.ones 12)) = a - a mod 4096).
  { rewrite <- Z.ldiff_land, Z.ldiff_ones_r by lia.
    rewrite Z.shiftr_div_pow2, Z.shiftl_mul_pow2 by lia.
    change (2 ^ 12) with 4096. pose proof (Z.div_mod a 4096). lia. }
  exact E.
Qed.

Lemma PGROUNDDOWN_eq a : PGROUNDDOWN a = a - a mod 4096.
Proof. apply land_page_mask. Qed.

Lemma PGROUNDUP_eq sz : PGROUNDUP sz = u32 (sz + 4095) - u32 (sz + 4095) mod 4096.
Proof.
  unfold PGROUNDUP, PGSIZE. replace (sz + 4096 - 1) with (sz + 4095) by lia.
  apply land_page_mask.
Qed.

Lemma PGROUNDDOWN_aligned a : PGROUNDDOWN a mod PGSIZE = 0.
Proof.
  rewrite PGROUNDDOWN_eq. unfold PGSIZE.
  rewrite Zminus_mod_idemp_r, Z.sub_diag. done.
Qed.

Lemma PGROUNDDOWN_bounds a : PGROUNDDOWN a <= a < PGROUNDDOWN a + PGSIZE.
Proof.
  rewrite PGROUNDDOWN_eq. unfold PGSIZE. pose proof (Z.mod_pos_bound a 4096). lia.
Qed.

Lemma PGROUNDUP_aligned sz : PGROUNDUP sz mod PGSIZE = 0.
Proof.
  rewrite PGROUNDUP_eq. unfold PGSIZE. rewrite Zminus_mod_idemp_r, Z.sub_diag. done.
Qed.

(** Away from the top page of the address space, rounding up does what its
    name says. *)
Lemma PGROUNDUP_bounds sz :
  0 <= sz -> sz + 4095 < 2 ^ 32 -> sz <= PGROUNDUP sz < sz + PGSIZE.
Proof.
  intros. rewrite PGROUNDUP_eq. rewrite u32_small by (unfold is_u32; lia).
  unfold PGSIZE. pose proof (Z.mod_pos_bound (sz + 4095) 4096). lia.
Qed.

Lemma PGROUNDUP_id sz :
  0 <= sz -> sz + 4095 < 2 ^ 32 -> sz mod PGSIZE = 0 -> PGROUNDUP sz = sz.
Proof.
  intros H0 H1 Hm. rewrite PGROUNDUP_eq, u32_small by (unfold is_u32; lia).
  unfold PGSIZE in Hm. rewrite (Z.div_mod sz 4096), Hm by lia.
  rewrite Z.add_0_r, (Z.mul_comm 4096).
  rewrite (Z.add_comm (_ * _) 4095), Z.mod_add by lia.
  rewrite (Z.mod_small 4095) by lia. lia.
Qed.

(** In the top page the sum wraps and the result is 0. *)
Lemma PGROUNDUP_wraps sz : 2 ^ 32 - 4095 <= sz < 2 ^ 32 -> PGROUNDUP sz = 0.
Proof.
  intros. rewrite PGROUNDUP_eq. unfold u32.
  replace (sz + 4095) with ((sz + 4095 - 2 ^ 32) + 1 * 2 ^ 32) by lia.
  rewrite Z.mod_add, Z.mod_small by lia. rewrite Z.mod_small by lia. lia.
Qed.

Lemma P2V_V2P a : is_u32 a -> P2V (V2P a) = a.
Proof.
  intros H. unfold P2V, V2P. rewrite u32_add_l.
  replace (a - KERNBASE + KERNBASE) with a by lia. by apply u32_small.
Qed.

Lemma V2P_P2V a : is_u32 a -> V2P (P2V a) = a.
Proof.
  intros H. unfold P2V, V2P, u32. rewrite Zminus_mod_idemp_l.
  replace (a + KERNBASE - KERNBASE) with a by lia. by apply u32_small.
Qed.

(** ** The parts of an address *)

Lemma PDPTX_eq va : is_u32 va -> PDPTX va = va / 2 ^ 30.
Proof.
  intros H. unfold PDPTX. change 3 with (Z.ones 2).
  rewrite Z.land_ones, Z.shiftr_div_pow2 by lia. apply Z.mod_small.
  unfold is_u32 in H. split; [apply Z.div_pos|apply Z.div_lt_upper_bound]; lia.
Qed.

Lemma PDX_eq va : PDX va = (va / 2 ^ 21) mod 512.
Proof.
  unfold PDX. change 511 with (Z.ones 9).
  rewrite Z.land_ones, Z.shiftr_div_pow2 by lia. done.
Qed.

Lemma PTX_eq va : PTX va = (va / 2 ^ 12) mod 512.
Proof.
  unfold PTX. change 511 with (Z.ones 9).
  rewrite Z.land_ones, Z.shiftr_div_pow2 by lia. done.
Qed.

Lemma PDPTX_range va : 0 <= PDPTX va < 4.
Proof. unfold PDPTX. change 3 with (Z.ones 2). rewrite Z.land_ones by lia. apply Z.mod_pos_bound. lia. Qed.

Lemma PDX_range va : 0 <= PDX va < 512.
Proof. rewrite PDX_eq. apply Z.mod_pos_bound. lia. Qed.

Lemma PTX_range va : 0 <= PTX va < 512.
Proof. rewrite PTX_eq. apply Z.mod_pos_bound. lia. Qed.

(** The three indices determine the page of an address. *)
Lemma page_of_indices va :
  is_u32 va ->
  PGROUNDDOWN va = PDPTX va * 2 ^ 30 + PDX va * 2 ^ 21 + PTX va * 2 ^ 12.
Proof.
  intros H. rewrite PGROUNDDOWN_eq, PDPTX_eq, PDX_eq, PTX_eq by done.
  change (2 ^ 30) with 1073741824. change (2 ^ 21) with 2097152. change (2 ^ 12) with 4096.
  unfold is_u32 in H. Z.to_euclidean_division_equations. lia.
Qed.

Lemma indices_inj va vb :
  is_u32 va -> is_u32 vb ->
  PDPTX va = PDPTX vb -> PDX va = PDX vb -> PTX va = PTX vb ->
  PGROUNDDOWN va = PGROUNDDOWN vb.
Proof. intros Ha Hb H1 H2 H3. rewrite !page_of_indices by done. by rewrite H1, H2, H3. Qed.

(** ** Page table entries *)

Lemma PTE_MASK_bit n :
  0 <= n -> Z.testbit PTE_MASK n = ((n <? 12) || ((52 <=? n) && (n <? 64))).
Proof.
  intros Hn. change PTE_MASK with (Z.lor (Z.ones 12) (Z.shiftl (Z.ones 12) 52)).
  rewrite Z.lor_spec, Z.testbit_ones_nonneg, Z.shiftl_spec by lia.
  f_equal. destruct (Z.leb_spec 52 n).
  - rewrite Z.testbit_ones_nonneg by lia. repeat zcase; simpl; lia || done.
  - rewrite Z.testbit_neg_r by lia. done.
Qed.

Lemma bits_above x k n : 0 <= x < 2 ^ k -> 0 <= k <= n -> Z.testbit x n = false.
Proof.
  intros Hx Hn. destruct (decide (x = 0)) as [->|]; [apply Z.bits_0|].
  apply Z.bits_above_log2; [lia|]. apply Z.log2_lt_pow2; [lia|].
  apply Z.lt_le_trans with (2 ^ k); [lia|]. apply Z.pow_le_mono_r; lia.
Qed.

Lemma aligned_bits a n : a mod 4096 = 0 -> 0 <= n < 12 -> Z.testbit a n = false.
Proof.
  intros Ha Hn. rewrite <- (Z.mod_pow2_bits_low a 12 n) by lia.
  change (2 ^ 12) with 4096. by rewrite Ha, Z.bits_0.
Qed.

(** The entry [pa | flags] that [mappages] and [walkpgdir] write splits back
    into its address and its flags. *)
Lemma PTE_ADDR_lor pa fl :
  is_u32 pa -> pa mod PGSIZE = 0 -> 0 <= fl < PGSIZE -> PTE_ADDR (Z.lor pa fl) = pa.
Proof.
  unfold is_u32, PGSIZE. intros Hpa Hal Hfl. apply Z.bits_inj'. intros n Hn.
  unfold PTE_ADDR. rewrite Z.ldiff_spec, Z.lor_spec, PTE_MASK_bit by done.
  destruct (Z.ltb_spec n 12); simpl.
  - rewrite andb_false_r, aligned_bits by (done || lia). done.
  - rewrite (bits_above fl 12) by lia. rewrite orb_false_r.
    destruct (Z.leb_spec 52 n); simpl.
    + rewrite (bits_above pa 32) by lia. done.
    + by rewrite andb_true_r.
Qed.

Lemma PTE_FLAGS_lor pa fl :
  is_u32 pa -> pa mod PGSIZE = 0 -> 0 <= fl < PGSIZE -> PTE_FLAGS (Z.lor pa fl) = fl.
Proof.
  unfold is_u32, PGSIZE. intros Hpa Hal Hfl. apply Z.bits_inj'. intros n Hn.
  unfold PTE_FLAGS. rewrite Z.land_spec, Z.lor_spec, PTE_MASK_bit by done.
  destruct (Z.ltb_spec n 12); simpl.
  - rewrite andb_true_r, aligned_bits by (done || lia). done.
  - rewrite (bits_above fl 12) by lia. rewrite orb_false_r.
    destruct (Z.leb_spec 52 n); simpl.
    + rewrite (bits_above pa 32) by lia. done.
    + apply andb_false_r.
Qed.
