(* ===== verification/Kalloc.v ===== *)
(** kernel/core/kalloc.c: the physical page allocator.

    The free list is the C program's own data structure: [kmem.freelist] points
    at a [struct run] written into the first words of a free block, whose
    [next] field leads to the next block.  [mem] is the word at each address.
    [runs_rep] relates that chain to a list of blocks, [first_fit] is the
    abstract allocator on such lists, and the theorems show that [pgalloc] and
    [pgfree] implement it, that live blocks never overlap, and what happens on
    a request of zero pages. *)

From stdpp Require Import base list strings relations.
From Stdlib Require Import ZArith Lia.
From S2P Require Import Prelude Mmu.

Local Open Scope Z_scope.
Local Open Scope outcome_scope.

(** [memset(ptr, 1, len)] on whole words. *)
Definition memset1 (m : memory) (ptr len : Z) : memory :=
  fun x => if (ptr <=? x) && (x <? ptr + len) then 0x01010101 else m x.

(** Fields of a [struct run]. *)
Definition run_next (p : Z) : Z := p.
Definition run_num_pages (p : Z) : Z := p + 4.

Record kmem := Kmem {
  lock : bool;
  use_lock : bool;
  freelist : Z;
  mem : memory
}.

Definition kmem_acquire (k : kmem) : outcome kmem :=
  if use_lock k then
    l <- acquire_b (lock k) ;; Ret (Kmem l (use_lock k) (freelist k) (mem k))
  else Ret k.

Definition kmem_release (k : kmem) : outcome kmem :=
  if use_lock k then
    l <- release_b (lock k) ;; Ret (Kmem l (use_lock k) (freelist k) (mem k))
  else Ret k.

Definition kinit1 (vstart vend : Z) (k : kmem) : kmem :=
  let p := PGROUNDUP vstart in
  let m1 := store (mem k) (run_next p) 0 in
  let m2 := store m1 (run_num_pages p) (u32 (vend - PGROUNDUP vstart) / PGSIZE) in
  Kmem false false p m2.

Definition kinit2 (vstart vend : Z) (k : kmem) : outcome kmem :=
  if freelist k =? 0 then Fault else
  let m1 := store (mem k) (run_next (freelist k)) (PGROUNDUP vstart) in
  let m2 := store m1 (run_next (m1 (run_next (freelist k)))) 0 in
  let m3 := store m2 (run_num_pages (m2 (run_next (freelist k))))
                  (u32 (vend - PGROUNDUP vstart) / PGSIZE) in
  Ret (Kmem (lock k) true (freelist k) m3).

(** The search of [pgalloc] past the head of the list: the block found, or 0,
    and the memory with the block unlinked. *)
Fixpoint pgalloc_search (fuel : nat) (num_pages r : Z) (m : memory) : outcome (Z * memory) :=
  match fuel with
  | O => NoFuel
  | S fuel' =>
    if m (run_next r) =? 0 then Ret (0, m)
    else if num_pages <=? m (run_num_pages (m (run_next r))) then
      let p := m (run_next r) in
      if num_pages <? m (run_num_pages (m (run_next r))) then
        let newrun := u32 (m (run_next r) + u32 (num_pages * PGSIZE)) in
        let m1 := store m (run_next newrun) (m (run_next (m (run_next r)))) in
        let m2 := store m1 (run_num_pages newrun)
                        (u32 (m1 (run_num_pages (m1 (run_next r))) - num_pages)) in
        Ret (p, store m2 (run_next r) newrun)
      else if m (run_num_pages (m (run_next r))) =? num_pages then
        Ret (p, store m (run_next r) (m (run_next (m (run_next r)))))
      else Ret (p, m)
    else pgalloc_search fuel' num_pages (m (run_next r)) m
  end.

(** The body of [pgalloc] between taking and releasing the lock. *)
Definition pgalloc_body (fuel : nat) (num_pages : Z) (fl : Z) (m : memory)
    : outcome (Z * Z * memory) :=
  if num_pages <=? m (run_num_pages fl) then
    if num_pages <? m (run_num_pages fl) then
      let newfl := u32 (fl + u32 (num_pages * PGSIZE)) in
      let m1 := store m (run_next newfl) (m (run_next fl)) in
      let m2 := store m1 (run_num_pages newfl) (u32 (m1 (run_num_pages fl) - num_pages)) in
      Ret (fl, newfl, m2)
    else if m (run_num_pages fl) =? num_pages then
      Ret (fl, m (run_next fl), m)
    else Ret (fl, fl, m)
  else
    '(p, m') <- pgalloc_search fuel num_pages fl m ;;
    Ret (p, fl, m').

Definition pgalloc (fuel : nat) (num_pages : Z) (k : kmem) : outcome (Z * kmem) :=
  k1 <- kmem_acquire k ;;
  if freelist k1 =? 0 then Panic "out of memory" else
  '(p, fl, m) <- pgalloc_body fuel num_pages (freelist k1) (mem k1) ;;
  if p =? 0 then Panic "out of memory" else
  k2 <- kmem_release (Kmem (lock k1) (use_lock k1) fl m) ;;
  Ret (p, k2).

Definition pgfree (ptr num_pages : Z) (k : kmem) : outcome kmem :=
  k1 <- kmem_acquire k ;;
  let m1 := memset1 (mem k1) ptr (u32 (num_pages * PGSIZE)) in
  let orighead := freelist k1 in
  let m2 := store m1 (run_num_pages ptr) num_pages in
  let m3 := store m2 (run_next ptr) orighead in
  kmem_release (Kmem (lock k1) (use_lock k1) ptr m3).

(** [kalloc] and [kfree] of defs.h. *)
Definition kalloc (fuel : nat) (k : kmem) : outcome (Z * kmem) := pgalloc fuel 1 k.
Definition kfree (ptr : Z) (k : kmem) : outcome kmem := pgfree ptr 1 k.

(** The traversal of [print_memory_usage]: pages and clusters. *)
Fixpoint memory_usage (fuel : nat) (r pages clusters : Z) (m : memory) : outcome (Z * Z) :=
  match fuel with
  | O => NoFuel
  | S fuel' =>
    if r =? 0 then Ret (pages, clusters)
    else memory_usage fuel' (m (run_next r)) (u32 (pages + m (run_num_pages r)))
           (u32 (clusters + 1)) m
  end.

Definition print_memory_usage (fuel : nat) (k : kmem) : outcome ((Z * Z * Z) * kmem) :=
  k1 <- kmem_acquire k ;;
  '(pages, clusters) <- memory_usage fuel (freelist k1) 0 0 (mem k1) ;;
  k2 <- kmem_release k1 ;;
  Ret ((clusters, pages, pages / 256), k2).

(** ** Abstract allocator *)

(** A block: its address and its length in pages. *)
Notation block := (Z * Z)%type (only parsing).

Definition in_block (x : Z) (b : block) : Prop := b.1 <= x < b.1 + b.2 * PGSIZE.

Definition block_ok (b : block) : Prop :=
  b.1 mod PGSIZE = 0 /\ 0 < b.1 /\ 1 <= b.2 /\ b.1 + b.2 * PGSIZE <= 2 ^ 32.

Definition block_disj (b c : block) : Prop :=
  b.1 + b.2 * PGSIZE <= c.1 \/ c.1 + c.2 * PGSIZE <= b.1.

(** Well-formed collections of blocks: each in range, no two overlapping. *)
Fixpoint blocks_wf (l : list block) : Prop :=
  match l with
  | [] => True
  | b :: l' => block_ok b /\ Forall (block_disj b) l' /\ blocks_wf l'
  end.

Definition pages (l : list block) : Z := foldr (fun b acc => b.2 + acc) 0 l.

(** First fit on a list of blocks, splitting from the low end. *)
Fixpoint first_fit (n : Z) (l : list block) : option (Z * list block) :=
  match l with
  | [] => None
  | (a, k) :: l' =>
    if n <=? k then
      Some (a, if n =? k then l' else (a + n * PGSIZE, k - n) :: l')
    else
      match first_fit n l' with
      | None => None
      | Some (p, l'') => Some (p, (a, k) :: l'')
      end
  end.

(** The chain of [struct run]s starting at [p] describes the blocks [l]. *)
Fixpoint runs_rep (m : memory) (p : Z) (l : list block) : Prop :=
  match l with
  | [] => p = 0
  | (a, n) :: l' => p = a /\ m (run_num_pages a) = n /\ runs_rep m (m (run_next a)) l'
  end.

Definition kmem_rep (k : kmem) (l : list block) : Prop :=
  lock k = false /\ blocks_wf l /\ runs_rep (mem k) (freelist k) l.

(** ** Lemmas *)

Lemma blocks_wf_app l1 l2 :
  blocks_wf (l1 ++ l2) <->
  blocks_wf l1 /\ blocks_wf l2 /\ Forall (fun b => Forall (block_disj b) l2) l1.
Proof.
  induction l1 as [|b l1 IH]; simpl.
  - split; [intros H; repeat split; auto; constructor | tauto].
  - rewrite IH, Forall_app, Forall_cons. tauto.
Qed.

Lemma block_disj_sym b c : block_disj b c -> block_disj c b.
Proof. unfold block_disj. tauto. Qed.

Lemma blocks_wf_perm l1 l2 : l1 ≡ₚ l2 -> blocks_wf l1 -> blocks_wf l2.
Proof.
  induction 1 as [|b l1 l2 Hp IH|b c l|l1 l2 l3 H1 IH1 H2 IH2]; simpl; auto.
  - intros (Hb & Hf & Hw). rewrite Hp in Hf. auto.
  - intros (Hb & Hf & Hc & Hg & Hw). rewrite Forall_cons in Hf. destruct Hf as [Hbc Hbl].
    rewrite Forall_cons. auto using block_disj_sym.
Qed.

Lemma block_num_bound b : block_ok b -> 1 <= b.2 < 2 ^ 20.
Proof. unfold block_ok, PGSIZE. lia. Qed.

(** The header words of a block are inside it. *)
Lemma header_in_block b : block_ok b -> in_block (run_next b.1) b /\ in_block (run_num_pages b.1) b.
Proof. unfold block_ok, in_block, run_next, run_num_pages, PGSIZE. lia. Qed.

Lemma in_block_disj x b c : block_disj b c -> in_block x b -> ~ in_block x c.
Proof. unfold block_disj, in_block. lia. Qed.

(** Memory that agrees with [m] on the blocks of [l] still describes [l]. *)
Lemma runs_rep_frame m m' p l :
  blocks_wf l -> (forall x, Exists (in_block x) l -> m' x = m x) ->
  runs_rep m p l -> runs_rep m' p l.
Proof.
  revert p. induction l as [|[a n] l IH]; simpl; intros p Hwf Hfr; [done|].
  destruct Hwf as (Hok & _ & Hwf). intros (-> & Hn & Hrep).
  destruct (header_in_block _ Hok) as [H1 H2]; simpl in H1, H2.
  rewrite !Hfr by (by apply Exists_cons; left). repeat split; auto.
Qed.

(** Splitting a block, with the new header written into its tail. *)
Lemma split_addr a k n :
  block_ok (a, k) -> 1 <= n < k ->
  u32 (a + u32 (n * PGSIZE)) = a + n * PGSIZE /\ block_ok (a + n * PGSIZE, k - n) /\
  block_ok (a, n) /\ block_disj (a, n) (a + n * PGSIZE, k - n).
Proof.
  intros (Hal & Hpos & Hk & Hend) Hn. simpl in *. unfold block_ok, block_disj; simpl.
  assert (Hu : u32 (n * PGSIZE) = n * PGSIZE)
    by (apply u32_small; unfold is_u32, PGSIZE in *; lia).
  rewrite Hu, u32_small by (unfold is_u32, PGSIZE in *; lia).
  repeat split; try (unfold PGSIZE in *; lia).
  rewrite Z.mod_add by (unfold PGSIZE; lia). done.
Qed.

(** Sub-blocks inherit disjointness. *)
Lemma block_disj_sub b c d :
  c.1 <= d.1 -> d.1 + d.2 * PGSIZE <= c.1 + c.2 * PGSIZE -> block_disj b c -> block_disj b d.
Proof. unfold block_disj. lia. Qed.

(** What [first_fit] guarantees. *)
Lemma first_fit_spec n l p l' :
  1 <= n -> blocks_wf l -> first_fit n l = Some (p, l') ->
  block_ok (p, n) /\ blocks_wf ((p, n) :: l') /\ pages l' = pages l - n /\
  (forall b, Forall (block_disj b) l -> block_disj b (p, n) /\ Forall (block_disj b) l').
Proof.
  intros Hn. revert p l'. induction l as [|[a k] l IH]; simpl; intros p l' Hwf Hff; [done|].
  destruct Hwf as (Hok & Hdis & Hwf).
  destruct (Z.leb_spec n k) as [Hle|Hgt].
  - injection Hff as <- <-. destruct (Z.eqb_spec n k) as [->|Hne].
    + split_and!; simpl; auto with lia. intros b Hb. by apply Forall_cons in Hb.
    + destruct (split_addr a k n Hok) as (_ & Hok2 & Hok1 & Hd12); [lia|].
      assert (Hsub : forall b, block_disj b (a, k) -> block_disj b (a, n) /\
                 block_disj b (a + n * PGSIZE, k - n)).
      { intros b Hb. split; eapply block_disj_sub; eauto; simpl; unfold PGSIZE; lia. }
      assert (Hsub' : forall c, block_disj (a, k) c -> block_disj (a, n) c /\
                 block_disj (a + n * PGSIZE, k - n) c).
      { intros c Hc. split; apply block_disj_sym, Hsub, block_disj_sym, Hc. }
      split_and!; simpl; auto with lia.
      * constructor; [done|]. eapply Forall_impl; [exact Hdis|]. intros c Hc. by apply Hsub'.
      * split_and!; auto. eapply Forall_impl; [exact Hdis|]. intros c Hc. by apply Hsub'.
      * intros b [H1 H2]%Forall_cons. destruct (Hsub b H1). auto.
  - destruct (first_fit n l) as [[q l'']|] eqn:E; [|done]. injection Hff as -> <-.
    destruct (IH p l'' Hwf eq_refl) as (Hpok & (_ & Hpd & Hpw) & Hpg & Hdd).
    destruct (Hdd _ Hdis) as [Hdp Hdl].
    split_and!; simpl; auto with lia.
    + constructor; [apply block_disj_sym, Hdp|exact Hpd].
    + intros b [H1 H2]%Forall_cons. destruct (Hdd b H2). auto.
Qed.

Lemma first_fit_None n l : 1 <= n -> first_fit n l = None <-> Forall (fun b => b.2 < n) l.
Proof.
  intros Hn. induction l as [|[a k] l IH]; simpl; [split; [constructor|done]|].
  rewrite Forall_cons. simpl. destruct (Z.leb_spec n k); [split; [done|lia]|].
  destruct (first_fit n l) as [[q l'']|]; rewrite <- IH; naive_solver.
Qed.

(** Addresses outside all blocks of a list. *)
Definition outside (x : Z) (l : list block) : Prop := Forall (fun b => ~ in_block x b) l.

Lemma outside_header b l :
  block_ok b -> Forall (block_disj b) l ->
  outside (run_next b.1) l /\ outside (run_num_pages b.1) l.
Proof.
  intros Hok Hd. destruct (header_in_block b Hok) as [H1 H2].
  split; eapply Forall_impl; try exact Hd; intros c Hc; eapply in_block_disj; eauto.
Qed.

Lemma runs_rep_outside m m' p b l :
  blocks_wf l -> Forall (block_disj b) l ->
  (forall x, ~ in_block x b -> m' x = m x) -> runs_rep m p l -> runs_rep m' p l.
Proof.
  intros Hwf Hd Hfr. apply runs_rep_frame; [done|]. intros x Hx. apply Hfr.
  apply Exists_exists in Hx. destruct Hx as (c & Hc & Hin).
  rewrite Forall_forall in Hd. intros Hb. eapply in_block_disj; eauto.
Qed.

(** The search has arrived at the block it takes: unlinking or splitting it. *)
Lemma pgalloc_search_found n l m a k b j :
  1 <= n -> n <= j -> block_ok (a, k) -> block_disj (a, k) (b, j) ->
  Forall (block_disj (a, k)) l -> m (run_num_pages a) = k -> m (run_next a) = b ->
  m (run_num_pages b) = j -> runs_rep m (m (run_next b)) l -> blocks_wf ((b, j) :: l) ->
  exists m',
    (if n <? j then
       let newrun := u32 (b + u32 (n * PGSIZE)) in
       let m1 := store m (run_next newrun) (m (run_next b)) in
       let m2 := store m1 (run_num_pages newrun)
                       (u32 (m1 (run_num_pages (m1 (run_next a))) - n)) in
       Ret (b, store m2 (run_next a) newrun)
     else if j =? n then Ret (b, store m (run_next a) (m (run_next b)))
     else Ret (b, m)) = Ret (b, m') /\
    runs_rep m' a ((a, k) :: (if n =? j then l else (b + n * PGSIZE, j - n) :: l)) /\
    (forall x, outside x ((a, k) :: (b, j) :: l) -> m' x = m x).
Proof.
  intros Hn Hle Haok Hab Hal Hk Hb Hj Hrep (Hbok & Hbd & Hlwf).
  pose proof (block_num_bound _ Haok) as Hkb. pose proof (block_num_bound _ Hbok) as Hjb.
  assert (Hl : forall m', (forall x, ~ in_block x (a, k) -> ~ in_block x (b, j) -> m' x = m x) ->
             runs_rep m' (m (run_next b)) l).
  { intros m' Hm'. eapply runs_rep_frame; [exact Hlwf| |exact Hrep].
    intros x (c & Hc & Hx)%Exists_exists. rewrite Forall_forall in Hal, Hbd.
    apply Hm'; intros Hx'; eapply (in_block_disj x _ c); [| exact Hx' | done | | exact Hx' | done]; auto. }
  assert (Hout : forall m', (forall x, ~ in_block x (a, k) -> ~ in_block x (b, j) -> m' x = m x) ->
             forall x, outside x ((a, k) :: (b, j) :: l) -> m' x = m x).
  { intros m' Hm' x [H1 H2]%Forall_cons. apply Forall_cons in H2 as [H2 _]. auto. }
  unfold run_next, run_num_pages in *.
  destruct (Z.ltb_spec n j) as [Hlt|Hge].
  - destruct (split_addr b j n Hbok) as (Hadr & _ & _ & _); [lia|]. rewrite Hadr.
    destruct (Z.eqb_spec n j) as [|_]; [lia|].
    unfold block_ok, block_disj, in_block, PGSIZE in *. simpl in *.
    eexists; split; [reflexivity|].
    assert (E : forall v, store m (b + n * 4096) v a = b) by (intros; reads; done).
    rewrite E. clear E.
    match goal with |- context [runs_rep ?M _ _] => set (m' := M) end.
    assert (Hm' : forall x, ~ (a <= x < a + k * 4096) -> ~ (b <= x < b + j * 4096) -> m' x = m x).
    { intros x H1 H2. unfold m'. reads. done. }
    split; [|apply Hout, Hm'].
    cbn [runs_rep]. unfold run_next, run_num_pages.
    split_and!; auto; unfold m'; reads; auto.
    + rewrite Hj. apply u32_small. unfold is_u32. lia.
    + apply Hl. intros x H1 H2. reads. done.
  - assert (n = j) as -> by lia. rewrite !Z.eqb_refl. eexists; split; [reflexivity|].
    unfold block_ok, block_disj, in_block, PGSIZE in *. simpl in *.
    assert (Hm' : forall x, ~ (a <= x < a + k * 4096) -> ~ (b <= x < b + j * 4096) ->
               store m a (m b) x = m x) by (intros; reads; done).
    split; [|apply Hout, Hm'].
    cbn [runs_rep]. unfold run_next, run_num_pages.
    split_and!; auto; reads; auto.
Qed.

(** The words [pgalloc_search] writes lie inside the blocks it walks, and what
    it leaves behind is the list that [first_fit] leaves behind. *)
Lemma pgalloc_search_spec n l : forall (fuel : nat) m a k,
  1 <= n -> (length l < fuel)%nat -> blocks_wf ((a, k) :: l) -> runs_rep m a ((a, k) :: l) ->
  match first_fit n l with
  | None => pgalloc_search fuel n a m = Ret (0, m)
  | Some (p, l') => exists m', pgalloc_search fuel n a m = Ret (p, m') /\
      runs_rep m' a ((a, k) :: l') /\
      (forall x, outside x ((a, k) :: l) -> m' x = m x)
  end.
Proof.
  induction l as [|[b j] l IH]; intros fuel m a k Hn Hfuel Hwf Hrep;
    (destruct fuel as [|fuel]; [simpl in Hfuel; lia|]).
  { destruct Hrep as (_ & _ & H0). simpl in H0. simpl. by rewrite H0. }
  destruct Hwf as (Haok & Had & Hwf). apply Forall_cons in Had as [Hab Hal].
  destruct Hrep as (_ & Hk & Hb & Hj & Hrep).
  pose proof Hwf as (Hbok & Hbd & Hlwf).
  cbn [pgalloc_search first_fit]. rewrite Hb, Hj.
  assert (Hb0 : b =? 0 = false) by (destruct Hbok as (_ & ? & _); simpl in *; zcase; lia || done).
  rewrite Hb0. destruct (Z.leb_spec n j) as [Hle|Hgt].
  - exact (pgalloc_search_found n l m a k b j Hn Hle Haok Hab Hal Hk Hb Hj Hrep Hwf).
  - specialize (IH fuel m b j Hn ltac:(simpl in Hfuel; lia) Hwf (conj eq_refl (conj Hj Hrep))).
    destruct (first_fit n l) as [[p l']|]; [|exact IH].
    destruct IH as (m' & Hm' & Hrep' & Hfr). exists m'. split; [exact Hm'|].
    destruct (outside_header (a, k) ((b, j) :: l) Haok) as [Ho1 Ho2]; [by constructor|].
    split.
    + simpl in Ho1, Ho2 |- *. rewrite (Hfr _ Ho1), (Hfr _ Ho2), Hb.
      destruct Hrep' as (_ & ? & ?). auto.
    + intros x Hx. apply Hfr. by apply Forall_cons in Hx as [_ Hx].
Qed.

Lemma pgalloc_body_spec n fuel m a k l :
  1 <= n -> (length l < fuel)%nat -> blocks_wf ((a, k) :: l) -> runs_rep m a ((a, k) :: l) ->
  match first_fit n ((a, k) :: l) with
  | None => pgalloc_body fuel n a m = Ret (0, a, m)
  | Some (p, l') => exists fl m', pgalloc_body fuel n a m = Ret (p, fl, m') /\ runs_rep m' fl l'
  end.
Proof.
  intros Hn Hfuel Hwf Hrep. unfold pgalloc_body.
  pose proof Hwf as (Hok & Hd & Hlwf). pose proof Hrep as (_ & Hk & Hl).
  cbn [first_fit]. rewrite Hk. destruct (Z.leb_spec n k) as [Hle|Hgt].
  - destruct (Z.ltb_spec n k) as [Hlt|Hge].
    + destruct (Z.eqb_spec n k) as [|_]; [lia|].
      destruct (split_addr a k n Hok) as (Hadr & _ & _ & _); [lia|]. rewrite Hadr.
      do 2 eexists. split; [reflexivity|].
      pose proof (block_num_bound _ Hok) as Hkb. simpl in Hkb.
      assert (Hfr : forall m', (forall x, ~ in_block x (a, k) -> m' x = m x) ->
                 runs_rep m' (m (run_next a)) l)
        by (intros; eapply runs_rep_outside; eauto).
      unfold in_block, PGSIZE, run_next, run_num_pages in *; simpl in *.
      unfold run_next, run_num_pages in *.
      split_and!; auto; reads.
      * rewrite Hk. apply u32_small. unfold is_u32. lia.
      * apply Hfr. intros x Hx. reads. done.
    + assert (n = k) as -> by lia. rewrite !Z.eqb_refl. eauto.
  - pose proof (pgalloc_search_spec n l fuel m a k Hn Hfuel Hwf Hrep) as Hs.
    destruct (first_fit n l) as [[p l']|].
    + destruct Hs as (m' & -> & Hrep' & _). simpl. eauto.
    + rewrite Hs. done.
Qed.

Lemma first_fit_addr n l p l' :
  1 <= n -> blocks_wf l -> first_fit n l = Some (p, l') -> p <> 0.
Proof. intros Hn Hwf Hff. destruct (first_fit_spec n l p l' Hn Hwf Hff) as ((_ & Hp & _) & _). simpl in Hp. lia. Qed.

(** [pgalloc] implements [first_fit]. *)
Lemma pgalloc_first_fit fuel n k l :
  1 <= n -> (length l < fuel)%nat -> kmem_rep k l ->
  match first_fit n l with
  | None => pgalloc fuel n k = Panic "out of memory"
  | Some (p, l') => exists k', pgalloc fuel n k = Ret (p, k') /\ kmem_rep k' l' /\
                        use_lock k' = use_lock k
  end.
Proof.
  intros Hn Hfuel (Hlk & Hwf & Hrep). unfold pgalloc, kmem_acquire, kmem_release.
  destruct k as [lk ul fl m]; simpl in *. subst lk.
  destruct l as [|[a j] l].
  { simpl in Hrep. subst fl. destruct ul; reflexivity. }
  pose proof Hrep as (-> & _). pose proof Hwf as ((_ & Ha & _) & _). simpl in Ha.
  assert (a =? 0 = false) as Ha0 by (zcase; lia || done).
  assert (Hf : (length l < fuel)%nat) by (simpl in Hfuel; lia).
  pose proof (pgalloc_body_spec n fuel m a j l Hn Hf Hwf Hrep) as Hb.
  destruct (first_fit n ((a, j) :: l)) as [[p l']|] eqn:E.
  - pose proof (first_fit_addr _ _ _ _ Hn Hwf E) as Hp0. apply Z.eqb_neq in Hp0.
    destruct (first_fit_spec _ _ _ _ Hn Hwf E) as (_ & (_ & _ & Hwf') & _ & _).
    destruct Hb as (fl' & m' & Hb & Hrep').
    eexists. split; [destruct ul; simpl; rewrite Ha0, Hb; simpl; rewrite Hp0; reflexivity|].
    unfold kmem_rep; destruct ul; simpl; auto.
  - destruct ul; simpl; rewrite Ha0, Hb; reflexivity.
Qed.

Lemma pgfree_cons ptr n k l :
  block_ok (ptr, n) -> Forall (block_disj (ptr, n)) l -> kmem_rep k l ->
  exists k', pgfree ptr n k = Ret k' /\ kmem_rep k' ((ptr, n) :: l) /\ use_lock k' = use_lock k.
Proof.
  intros Hok Hd (Hlk & Hwf & Hrep). unfold pgfree, kmem_acquire, kmem_release.
  destruct k as [lk ul fl m]; simpl in *. subst lk.
  pose proof (block_num_bound _ Hok) as Hnb. simpl in Hnb.
  assert (Hu : u32 (n * PGSIZE) = n * PGSIZE)
    by (apply u32_small; unfold is_u32, PGSIZE; lia).
  rewrite Hu.
  set (m' := store (store (memset1 m ptr (n * PGSIZE)) (run_num_pages ptr) n) (run_next ptr) fl).
  assert (Hm' : forall x, ~ in_block x (ptr, n) -> m' x = m x).
  { intros x Hx. destruct (header_in_block _ Hok) as [H1 H2].
    unfold m'. rewrite !store_ne by (intros ->; auto).
    unfold memset1, in_block in *. simpl in *. repeat zcase; simpl; lia || done. }
  assert (Hrep' : runs_rep m' ptr ((ptr, n) :: l)).
  { split; [done|]. split.
    - unfold m'. rewrite store_ne, store_eq by (unfold run_num_pages, run_next; lia). done.
    - unfold m' at 2. rewrite store_eq. by eapply runs_rep_outside. }
  exists (Kmem false ul ptr m'). split; [destruct ul; reflexivity|].
  split; [|done]. unfold kmem_rep; simpl. auto.
Qed.

Lemma pages_app l1 l2 : pages (l1 ++ l2) = pages l1 + pages l2.
Proof. unfold pages. induction l1 as [|b l1 IH]; simpl in *; lia. Qed.

Lemma pages_perm l1 l2 : l1 ≡ₚ l2 -> pages l1 = pages l2.
Proof. unfold pages. induction 1; simpl; lia. Qed.

(** ** Traces of clients

    Clients of the allocator ask for at least one page, hold the blocks they
    were given and give back only blocks they hold. *)
Inductive kstep : kmem * list block -> kmem * list block -> Prop :=
| kstep_alloc fuel n p k k' own :
    1 <= n -> pgalloc fuel n k = Ret (p, k') -> kstep (k, own) (k', (p, n) :: own)
| kstep_free p n k k' own own' :
    own ≡ₚ (p, n) :: own' -> pgfree p n k = Ret k' -> kstep (k, own) (k', own').

(** The state of the trace: free and held blocks together tile the pool. *)
Definition kinv (total : Z) (s : kmem * list block) : Prop :=
  exists l, kmem_rep s.1 l /\ blocks_wf (s.2 ++ l) /\ pages s.2 + pages l = total.

(** Extra fuel does not change a search that has returned. *)
Lemma pgalloc_search_fuel f1 f2 n r m x :
  pgalloc_search f1 n r m = Ret x -> (f1 <= f2)%nat -> pgalloc_search f2 n r m = Ret x.
Proof.
  revert f2 r. induction f1 as [|f1 IH]; intros f2 r H Hle; [done|].
  destruct f2 as [|f2]; [lia|]. cbn [pgalloc_search] in *.
  repeat (case_match; try done). apply IH; [done|lia].
Qed.

Lemma pgalloc_fuel f1 f2 n k x :
  pgalloc f1 n k = Ret x -> (f1 <= f2)%nat -> pgalloc f2 n k = Ret x.
Proof.
  unfold pgalloc. intros H Hle. destruct (kmem_acquire k) as [k1| | |]; simpl in *; try done.
  destruct (freelist k1 =? 0); [done|]. unfold pgalloc_body in *.
  repeat (case_match; simpl in *; try done).
  destruct (pgalloc_search f1 n (freelist k1) (mem k1)) as [[p m']| | |] eqn:E; try done.
  by rewrite (pgalloc_search_fuel _ _ _ _ _ _ E Hle).
Qed.

(** A block taken by first fit is apart from the blocks already held. *)
Lemma first_fit_own n l p l' own : 1 <= n -> blocks_wf (own ++ l) -> first_fit n l = Some (p, l') ->
  blocks_wf (((p, n) :: own) ++ l').
Proof.
  intros Hn (Hwo & Hwl & Hcross)%blocks_wf_app E.
  destruct (first_fit_spec _ _ _ _ Hn Hwl E) as (Hok & (_ & Hd & Hwf') & _ & Hsub).
  assert (Hcross' : Forall (fun b => block_disj b (p, n) /\ Forall (block_disj b) l') own)
    by (eapply Forall_impl; [exact Hcross|]; auto).
  apply Forall_and in Hcross' as [Hc1 Hc2]. simpl. split; [done|]. split.
  - apply Forall_app. split; [|done]. eapply Forall_impl; [exact Hc1|]. simpl. auto using block_disj_sym.
  - apply blocks_wf_app. auto.
Qed.

(** First fit hands out and leaves parts of the blocks it is given. *)
Lemma first_fit_within (lo hi n : Z) l p l' : 0 <= n ->
  Forall (fun b => lo <= b.1 /\ b.1 + b.2 * PGSIZE <= hi) l -> first_fit n l = Some (p, l') ->
  (lo <= p /\ p + n * PGSIZE <= hi) /\ Forall (fun b => lo <= b.1 /\ b.1 + b.2 * PGSIZE <= hi) l'.
Proof.
  intros Hn. revert p l'. induction l as [|[a k] l IH]; simpl; intros p l' Hw Hff; [done|].
  apply Forall_cons in Hw as [Ha Hw]. simpl in Ha. unfold PGSIZE in *. destruct (Z.leb_spec n k).
  - injection Hff as <- <-. split; [lia|]. destruct (n =? k); [done|]. constructor; [simpl; lia|done].
  - destruct (first_fit n l) as [[q l'']|] eqn:E; [|done]. injection Hff as -> <-.
    destruct (IH p l'' Hw eq_refl) as [? ?]. split; [done|]. by constructor.
Qed.

Lemma kstep_kinv total s s' : kinv total s -> kstep s s' -> kinv total s'.
Proof.
  intros (l & Hrep & Hwf & Hpg) Hs. destruct Hs as [fuel n p k k' own Hn Ha|p n k k' own own' Hp Hf];
    simpl in *.
  - set (f := max fuel (S (length l))).
    pose proof (pgalloc_fuel fuel f n k _ Ha ltac:(lia)) as Ha'.
    pose proof (pgalloc_first_fit f n k l Hn ltac:(lia) Hrep) as Hspec.
    destruct (first_fit n l) as [[q l']|] eqn:E; [|rewrite Ha' in Hspec; done].
    destruct Hspec as (k'' & Hk'' & Hrep' & _). rewrite Ha' in Hk''. injection Hk'' as <- <-.
    destruct (first_fit_spec _ _ _ _ Hn (proj1 (proj2 (proj1 (blocks_wf_app _ _) Hwf))) E) as (_ & _ & Hpg' & _).
    exists l'. split; [done|]. split; [by eapply first_fit_own|simpl; unfold pages in *; simpl; lia].
  - assert (Hperm : own ++ l ≡ₚ own' ++ (p, n) :: l)
      by (rewrite Hp; simpl; apply Permutation_middle).
    pose proof (blocks_wf_perm _ _ Hperm Hwf) as Hwf'.
    apply blocks_wf_app in Hwf' as (Hwo & (Hok & Hd & Hwl) & Hcross).
    destruct (pgfree_cons p n k l Hok Hd Hrep) as (k'' & Hk'' & Hrep' & _).
    rewrite Hf in Hk''. injection Hk'' as <-.
    exists ((p, n) :: l). split; [done|]. split.
    + apply blocks_wf_app. simpl. auto.
    + rewrite (pages_perm _ _ Hp) in Hpg. unfold pages in *; simpl in *. lia.
Qed.

(** ** Initialisation and accounting *)

Lemma kinit1_rep vstart vend k :
  0 < vstart -> vstart + 4095 < 2 ^ 32 -> PGROUNDUP vstart + PGSIZE <= vend < 2 ^ 32 ->
  kmem_rep (kinit1 vstart vend k) [(PGROUNDUP vstart, (vend - PGROUNDUP vstart) / PGSIZE)].
Proof.
  intros Hs Ho He. pose proof (PGROUNDUP_bounds vstart ltac:(lia) Ho) as Hb.
  pose proof (PGROUNDUP_aligned vstart) as Hal.
  set (p := PGROUNDUP vstart) in *.
  assert (Hu : u32 (vend - p) = vend - p) by (apply u32_small; unfold is_u32, PGSIZE in *; lia).
  unfold kinit1. fold p. rewrite Hu. set (n := (vend - p) / PGSIZE).
  assert (Hn : 1 <= n /\ n * PGSIZE <= vend - p)
    by (unfold n, PGSIZE in *; Z.to_euclidean_division_equations; lia).
  unfold kmem_rep; simpl. unfold block_ok; simpl. split_and!; try done; try lia.
  - unfold run_num_pages. reads. done.
  - unfold run_num_pages, run_next. reads. done.
Qed.

Lemma kinit2_rep vstart vend k a n :
  0 < vstart -> vstart + 4095 < 2 ^ 32 -> PGROUNDUP vstart + PGSIZE <= vend < 2 ^ 32 ->
  kmem_rep k [(a, n)] ->
  block_disj (a, n) (PGROUNDUP vstart, (vend - PGROUNDUP vstart) / PGSIZE) ->
  exists k', kinit2 vstart vend k = Ret k' /\ use_lock k' = true /\
    kmem_rep k' [(a, n); (PGROUNDUP vstart, (vend - PGROUNDUP vstart) / PGSIZE)].
Proof.
  intros Hs Ho He (Hlk & (Hok & _) & (Hfl & Hn & _)) Hd.
  pose proof (PGROUNDUP_bounds vstart ltac:(lia) Ho) as Hb.
  pose proof (PGROUNDUP_aligned vstart) as Hal.
  destruct k as [lk ul fl m]; simpl in *. subst fl lk.
  set (p := PGROUNDUP vstart) in *.
  assert (Hu : u32 (vend - p) = vend - p) by (apply u32_small; unfold is_u32, PGSIZE in *; lia).
  unfold kinit2; simpl. fold p. rewrite Hu. set (j := (vend - p) / PGSIZE) in *.
  assert (Hj : 1 <= j /\ j * PGSIZE <= vend - p)
    by (unfold j, PGSIZE in *; Z.to_euclidean_division_equations; lia).
  assert (Hok2 : block_ok (p, j)) by (unfold block_ok, PGSIZE in *; simpl; lia).
  destruct (Z.eqb_spec a 0); [unfold block_ok in Hok; simpl in Hok; lia|].
  eexists. split; [reflexivity|]. split; [done|].
  unfold kmem_rep; simpl. split_and!; auto.
  all: unfold block_ok, block_disj, run_num_pages, run_next, PGSIZE in *; simpl in *.
  all: rewrite ?store_eq; assert (E : store (store m a p) p 0 a = p) by (reads; done);
       rewrite ?E; reads; auto.
Qed.

Lemma memory_usage_spec m l : forall fuel p pg cl,
  (length l < fuel)%nat -> runs_rep m p l -> blocks_wf l -> is_u32 pg -> is_u32 cl ->
  memory_usage fuel p pg cl m = Ret (u32 (pg + pages l), u32 (cl + zlen l)).
Proof.
  induction l as [|[a n] l IH]; intros fuel p pg cl Hf Hrep Hwf Hpg Hcl;
    (destruct fuel as [|fuel]; [simpl in Hf; lia|]).
  - simpl in Hrep. subst p. simpl. unfold zlen, pages; simpl.
    by rewrite !Z.add_0_r, !u32_small.
  - destruct Hrep as (-> & Hn & Hrep). destruct Hwf as ((_ & Ha & _) & _ & Hwf). simpl in Ha.
    cbn [memory_usage]. destruct (Z.eqb_spec a 0); [lia|].
    rewrite IH; auto with panicos; [|simpl in Hf; lia].
    rewrite Hn. do 2 f_equal; rewrite u32_add_l; f_equal; unfold pages, zlen; simpl; lia.
Qed.

(** ** Properties *)

(** C6: [pgalloc] on a well-formed free list. It panics exactly when no
    free block has [n] pages; otherwise it returns the start of a block of [n]
    free pages, and the list it leaves represents the pool without those pages:
    the remaining blocks are well-formed, disjoint from the returned one, and
    their total has dropped by exactly [n].  The lock is released. *)
Theorem pgalloc_correct fuel n k l :
  1 <= n -> (length l < fuel)%nat -> kmem_rep k l ->
  (pgalloc fuel n k = Panic "out of memory" /\ Forall (fun b => b.2 < n) l) \/
  (exists p k' l', pgalloc fuel n k = Ret (p, k') /\ first_fit n l = Some (p, l') /\
     kmem_rep k' l' /\ blocks_wf ((p, n) :: l') /\ pages l' = pages l - n).
Proof.
  intros Hn Hf Hrep. pose proof (pgalloc_first_fit fuel n k l Hn Hf Hrep) as H.
  destruct (first_fit n l) as [[p l']|] eqn:E.
  - right. destruct H as (k' & Hk' & Hrep' & _). destruct Hrep as (_ & Hwf & _).
    destruct (first_fit_spec n l p l' Hn Hwf E) as (_ & Hwf' & Hpg & _).
    exists p, k', l'. auto.
  - left. by rewrite <- first_fit_None.
Qed.

(** A pool of six pages in two blocks, for the witnesses. *)
Definition ex_kmem : kmem :=
  Kmem false true 0x10000
    (store (store (store (store (fun _ => 0) 0x10000 0x40000) 0x10004 2) 0x40000 0) 0x40004 4).

Lemma ex_kmem_rep : kmem_rep ex_kmem [(0x10000, 2); (0x40000, 4)].
Proof.
  split; [done|]. split; [|vm_compute; auto].
  simpl. unfold block_ok, block_disj, PGSIZE; simpl.
  split_and!; try done; try lia; repeat constructor; simpl; lia.
Qed.

Lemma pgalloc_correct_witness :
  (pgalloc 5 3 ex_kmem = Panic "out of memory" /\ Forall (fun b => b.2 < 3) [(0x10000, 2); (0x40000, 4)]) \/
  (exists p k' l', pgalloc 5 3 ex_kmem = Ret (p, k') /\
     first_fit 3 [(0x10000, 2); (0x40000, 4)] = Some (p, l') /\
     kmem_rep k' l' /\ blocks_wf ((p, 3) :: l') /\ pages l' = pages [(0x10000, 2); (0x40000, 4)] - 3).
Proof. apply pgalloc_correct; [lia | simpl; lia | apply ex_kmem_rep]. Defined.

(** C5: whatever sequence of allocations, of at least one page each, and frees of
    blocks they hold the clients perform, two
    blocks held at the same time never overlap, no held block overlaps the
    free list, and held and free pages always add up to the initial pool. *)
Theorem allocations_disjoint k l k' own :
  kmem_rep k l -> rtc kstep (k, []) (k', own) ->
  blocks_wf own /\
  exists l', kmem_rep k' l' /\ Forall (fun b => Forall (block_disj b) l') own /\
    pages own + pages l' = pages l.
Proof.
  intros Hrep Hs.
  assert (Hi : kinv (pages l) (k', own)).
  { eapply (rtc_invariant kstep); [|apply kstep_kinv|exact Hs].
    exists l. split_and!; [done|apply Hrep|done]. }
  destruct Hi as (l' & Hrep' & Hwf & Hpg). simpl in *.
  apply blocks_wf_app in Hwf as (Hwo & _ & Hc). eauto.
Qed.

Lemma allocations_disjoint_witness :
  exists k' own,
    rtc kstep (ex_kmem, []) (k', own) /\ own = [(0x40000, 3); (0x10000, 1)] /\
    blocks_wf own.
Proof.
  assert (E1 : exists k1, pgalloc 5 1 ex_kmem = Ret (0x10000, k1) /\
             exists k2, pgalloc 5 3 k1 = Ret (0x40000, k2))
    by (eexists; split; [reflexivity|eexists; reflexivity]).
  destruct E1 as (k1 & E1 & k2 & E2).
  assert (Hs : rtc kstep (ex_kmem, []) (k2, [(0x40000, 3); (0x10000, 1)])).
  { eapply rtc_l; [apply (kstep_alloc 5 1 0x10000 ex_kmem k1 []); [lia|exact E1]|].
    eapply rtc_l; [apply (kstep_alloc 5 3 0x40000 k1 k2); [lia|exact E2]|]. apply rtc_refl. }
  exists k2, [(0x40000, 3); (0x10000, 1)]. split; [exact Hs|]. split; [reflexivity|].
  exact (proj1 (allocations_disjoint _ _ _ _ ex_kmem_rep Hs)).
Defined.

(** A run whose [next] is itself and which has no pages: the search never ends. *)
Lemma pgalloc_search_loops fuel n a m :
  1 <= n -> a <> 0 -> m (run_next a) = a -> m (run_num_pages a) = 0 ->
  pgalloc_search fuel n a m = NoFuel.
Proof.
  intros Hn Ha Hnext Hnum. induction fuel as [|fuel IH]; [done|]. cbn [pgalloc_search].
  rewrite Hnext, Hnum. destruct (Z.eqb_spec a 0); [lia|]. destruct (Z.leb_spec n 0); [lia|]. exact IH.
Qed.

(** a request of zero pages, which [sys_message_send] makes for an empty
    message, returns the head of the free list without removing it; freeing
    that result as zero pages (which [sys_message_receive] does) turns the
    free list into a cycle, after which no allocation ever returns. *)
Theorem zero_pages_break_the_allocator fuel k a j l :
  kmem_rep k ((a, j) :: l) ->
  exists k1 k2, pgalloc fuel 0 k = Ret (a, k1) /\ pgfree a 0 k1 = Ret k2 /\
    forall fuel' n, 1 <= n -> pgalloc fuel' n k2 = NoFuel.
Proof.
  intros (Hlk & (Hok & _) & (Hfl & Hj & _)). destruct k as [lk ul fl m]; simpl in *. subst lk fl.
  destruct Hok as (_ & Ha & Hj1 & He). simpl in *. unfold PGSIZE in He.
  assert (Ha0 : a =? 0 = false) by (zcase; lia || done).
  assert (Hu : u32 (a + u32 (0 * PGSIZE)) = a).
  { change (u32 (0 * PGSIZE)) with 0. rewrite Z.add_0_r. apply u32_small. unfold is_u32. lia. }
  set (m1 := store (store m (run_next a) (m (run_next a))) (run_num_pages a)
               (u32 (store m (run_next a) (m (run_next a)) (run_num_pages a) - 0))).
  set (m2 := store (store (memset1 m1 a (u32 (0 * PGSIZE))) (run_num_pages a) 0) (run_next a) a).
  exists (Kmem false ul a m1), (Kmem false ul a m2). split; [|split].
  - unfold pgalloc, kmem_acquire, kmem_release, pgalloc_body; destruct ul; simpl; rewrite Ha0, Hj.
    all: destruct (Z.leb_spec 0 j); [|lia]; destruct (Z.ltb_spec 0 j); [|lia].
    all: cbn -[u32 store PGSIZE]; rewrite Hu, Ha0; reflexivity.
  - unfold pgfree, kmem_acquire, kmem_release; destruct ul; reflexivity.
  - intros fuel' n Hn.
    assert (E1 : m2 (run_next a) = a) by (unfold m2; by rewrite store_eq).
    assert (E2 : m2 (run_num_pages a) = 0)
      by (unfold m2; rewrite store_ne, store_eq by (unfold run_num_pages, run_next; lia); done).
    unfold pgalloc, kmem_acquire, pgalloc_body; destruct ul; simpl; rewrite Ha0, E2.
    all: destruct (Z.leb_spec n 0); [lia|]; rewrite pgalloc_search_loops; auto; lia.
Qed.

Lemma zero_pages_break_the_allocator_witness :
  exists k1 k2, pgalloc 5 0 ex_kmem = Ret (0x10000, k1) /\ pgfree 0x10000 0 k1 = Ret k2 /\
    forall fuel' n, 1 <= n -> pgalloc fuel' n k2 = NoFuel.
Proof. exact (zero_pages_break_the_allocator 5 ex_kmem _ _ _ ex_kmem_rep). Defined.
