(* ===== verification/KString.v ===== *)
(** kernel/common/string.c: the memory and string routines of the kernel.

    The routines that move bytes between addresses ([memset], [memmove],
    [memcmp]) work on a byte memory; the string routines work on the bytes
    from a pointer onward, [None] standing for a read past the last byte known
    to belong to the object. *)

From stdpp Require Import base list.
From Stdlib Require Import ZArith Lia.
From S2P Require Import Prelude.

Local Open Scope Z_scope.

(** ** Memory routines *)

(** [rep stosb]: [n] byte stores of [c]. *)
Fixpoint stosb (m : memory) (addr c : Z) (n : nat) : memory :=
  match n with
  | O => m
  | S n' => stosb (store m addr (u8 c)) (addr + 1) c n'
  end.

(** A little-endian 32-bit store. *)
Definition store32 (m : memory) (a w : Z) : memory :=
  store (store (store (store m a (u8 w)) (a + 1) (u8 (Z.shiftr w 8)))
               (a + 2) (u8 (Z.shiftr w 16))) (a + 3) (u8 (Z.shiftr w 24)).

(** [rep stosl]: [n] word stores of [w]. *)
Fixpoint stosl (m : memory) (addr w : Z) (n : nat) : memory :=
  match n with
  | O => m
  | S n' => stosl (store32 m addr w) (addr + 4) w n'
  end.

Definition memset (m : memory) (dst c n : Z) : memory :=
  if (dst mod 4 =? 0) && (n mod 4 =? 0) then
    let c := Z.land c 255 in
    stosl m dst (Z.lor (Z.lor (Z.lor (Z.shiftl c 24) (Z.shiftl c 16)) (Z.shiftl c 8)) c)
          (Z.to_nat (n / 4))
  else stosb m dst c (Z.to_nat n).

(** The byte loop of [memset_volatile], and of [memset] on RISC-V. *)
Fixpoint memset_volatile (m : memory) (p c : Z) (n : nat) : memory :=
  match n with
  | O => m
  | S n' => memset_volatile (store m p (u8 c)) (p + 1) c n'
  end.

Fixpoint memcmp (m : memory) (s1 s2 : Z) (n : nat) : Z :=
  match n with
  | O => 0
  | S n' => if m s1 =? m s2 then memcmp m (s1 + 1) (s2 + 1) n' else m s1 - m s2
  end.

(** The descending copy: [s] and [d] point one past the last byte. *)
Fixpoint copy_down (m : memory) (d s : Z) (n : nat) : memory :=
  match n with
  | O => m
  | S n' => copy_down (store m (d - 1) (m (s - 1))) (d - 1) (s - 1) n'
  end.

Fixpoint copy_up (m : memory) (d s : Z) (n : nat) : memory :=
  match n with
  | O => m
  | S n' => copy_up (store m d (m s)) (d + 1) (s + 1) n'
  end.

Definition memmove (m : memory) (dst src n : Z) : memory :=
  if (src <? dst) && (dst <? src + n) then copy_down m (dst + n) (src + n) (Z.to_nat n)
  else copy_up m dst src (Z.to_nat n).

Definition memcpy (m : memory) (dst src n : Z) : memory := memmove m dst src n.

(** ** String routines *)

(** Bytes are values 0..255; [strncmp] compares them as [unsigned char]. *)
Fixpoint strncmp (p q : list Z) (n : nat) {struct n} : option Z :=
  match n with
  | O => Some 0
  | S n' =>
    match p, q with
    | a :: p', b :: q' =>
      if negb (a =? 0) && (a =? b) then strncmp p' q' n' else Some (a - b)
    | _, _ => None
    end
  end.

(** The [n] bytes that [strncpy(s, t, n)] stores at [s]. *)
Fixpoint strncpy (t : list Z) (n : nat) {struct n} : option (list Z) :=
  match n with
  | O => Some []
  | S n' =>
    match t with
    | [] => None
    | c :: t' =>
      if c =? 0 then Some (0 :: repeat 0 n')
      else match strncpy t' n' with None => None | Some r => Some (c :: r) end
    end
  end.

(** The bytes that [safestrcpy(s, t, n)] stores at [s]; the loop runs while
    [--n > 0] and the byte just copied is not NUL, and one more NUL is stored
    after it. *)
Fixpoint safestrcpy_loop (t : list Z) (n : nat) {struct n} : option (list Z) :=
  match n with
  | O => Some [0]
  | S n' =>
    match t with
    | [] => None
    | c :: t' =>
      if c =? 0 then Some [0; 0]
      else match safestrcpy_loop t' n' with None => None | Some r => Some (c :: r) end
    end
  end.

Definition safestrcpy (t : list Z) (n : Z) : option (list Z) :=
  if n <=? 0 then Some [] else safestrcpy_loop t (Z.to_nat (n - 1)).

Fixpoint strlen (s : list Z) : option Z :=
  match s with
  | [] => None
  | c :: s' => if c =? 0 then Some 0 else match strlen s' with None => None | Some n => Some (n + 1) end
  end.

(** ** What they compute *)

(** The C string at the start of a buffer: its bytes up to the first NUL. *)
Fixpoint cstr (s : list Z) : list Z :=
  match s with
  | [] => []
  | c :: s' => if c =? 0 then [] else c :: cstr s'
  end.

(** A buffer that holds the NUL-terminated string [w]. *)
Definition holds_str (w s : list Z) : Prop :=
  Forall (fun c => c <> 0) w /\ exists rest, s = w ++ 0 :: rest.

Lemma holds_str_cstr w s : holds_str w s -> cstr s = w.
Proof.
  intros (Hnz & rest & ->). induction Hnz as [|c w Hc Hw IH]; simpl; [done|].
  destruct (Z.eqb_spec c 0); [done|]. by rewrite IH.
Qed.

Lemma holds_str_cons c w s : c <> 0 -> holds_str w s -> holds_str (c :: w) (c :: s).
Proof. intros Hc (Hnz & rest & ->). split; [by constructor|]. by exists rest. Qed.

Lemma strlen_holds w s : holds_str w s -> strlen s = Some (zlen w).
Proof.
  intros (Hnz & rest & ->). induction Hnz as [|c w Hc Hw IH]; simpl; [done|].
  destruct (Z.eqb_spec c 0); [done|]. rewrite IH. unfold zlen. simpl. f_equal. lia.
Qed.

Lemma strlen_Some s n : strlen s = Some n -> exists w, holds_str w s /\ zlen w = n.
Proof.
  revert n. induction s as [|c s IH]; simpl; intros n H; [done|].
  destruct (Z.eqb_spec c 0) as [->|Hc].
  - injection H as <-. exists []. split; [|done]. split; [constructor|]. by exists s.
  - destruct (strlen s) as [k|]; [|done]. injection H as <-.
    destruct (IH k eq_refl) as (w & Hw & Hl). exists (c :: w).
    split; [by apply holds_str_cons|]. unfold zlen in *. simpl. lia.
Qed.

(** Two strings that fit in [n] bytes compare equal exactly when they are equal. *)
Lemma strncmp_zero_iff n : forall w v p q,
  holds_str w p -> holds_str v q ->
  exists r, strncmp p q n = Some r /\ (r = 0 <-> take n w = take n v).
Proof.
  induction n as [|n IH]; intros w v p q (Hw & rw & ->) (Hv & rv & ->); cbn [strncmp].
  { exists 0. done. }
  destruct w as [|a w], v as [|b v]; simpl.
  - exists 0. done.
  - apply Forall_cons in Hv as [Hb _]. exists (0 - b). split; [done|]. simpl. split; [lia|done].
  - apply Forall_cons in Hw as [Ha _]. exists (a - 0).
    destruct (Z.eqb_spec a 0); [done|]. simpl. split; [done|]. split; [lia|done].
  - apply Forall_cons in Hw as [Ha Hw]. apply Forall_cons in Hv as [Hb Hv].
    destruct (Z.eqb_spec a 0); [done|]. simpl. destruct (Z.eqb_spec a b) as [->|Hne].
    + destruct (IH w v (w ++ 0 :: rw) (v ++ 0 :: rv)) as (r & Hr & Hiff);
        [split; eauto|split; eauto|].
      exists r. split; [done|]. rewrite Hiff. split; [by intros ->|by intros [=]].
    + exists (a - b). split; [done|]. split; [lia|]. intros [=]. done.
Qed.

(** [strncpy] stores exactly [n] bytes: the string cut to [n], zero padded. *)
Lemma strncpy_spec n : forall w t,
  holds_str w t -> strncpy t n = Some (take n w ++ repeat 0 (n - length w)).
Proof.
  induction n as [|n IH]; intros w t (Hw & r & ->); [done|].
  destruct w as [|c w]; cbn [strncpy app]; [done|].
  apply Forall_cons in Hw as [Hc Hw]. destruct (Z.eqb_spec c 0); [done|].
  rewrite (IH w (w ++ 0 :: r)) by (split; eauto). done.
Qed.

(** [safestrcpy] never stores more than [n] bytes and leaves the string cut to
    [n - 1], NUL terminated. *)
Lemma safestrcpy_loop_spec n : forall w t,
  holds_str w t ->
  exists out, safestrcpy_loop t n = Some out /\ (length out <= S n)%nat /\
    cstr out = take n w /\ exists pad, out = take n w ++ 0 :: pad.
Proof.
  induction n as [|n IH]; intros w t (Hw & r & ->); cbn [safestrcpy_loop].
  { exists [0]. split_and!; auto. by exists []. }
  destruct w as [|c w]; cbn [app].
  - exists [0; 0]. simpl. split_and!; auto; [lia|]. by exists [0].
  - apply Forall_cons in Hw as [Hc Hw]. destruct (Z.eqb_spec c 0); [done|].
    destruct (IH w (w ++ 0 :: r)) as (out & -> & Hl & Hs & pad & Hp); [split; eauto|].
    exists (c :: out). simpl. destruct (Z.eqb_spec c 0); [done|].
    split_and!; auto; [lia|by rewrite Hs|]. exists pad. by rewrite Hp.
Qed.

(** A string that fits is copied whole; the byte after its NUL may be cleared too. *)
Lemma safestrcpy_loop_fits n : forall w t, holds_str w t -> (length w <= n)%nat ->
  exists pad, safestrcpy_loop t n = Some (w ++ 0 :: pad) /\ (length pad <= 1)%nat.
Proof.
  induction n as [|n IH]; intros w t (Hw & r & ->) Hl; cbn [safestrcpy_loop].
  - destruct w; [|simpl in Hl; lia]. exists []. auto.
  - destruct w as [|c w]; cbn [app]; [by exists [0]|].
    apply Forall_cons in Hw as [Hc Hw]. destruct (Z.eqb_spec c 0); [done|]. simpl in Hl.
    destruct (IH w (w ++ 0 :: r)) as (pad & -> & Hp); [split; eauto|lia|]. by exists pad.
Qed.

Lemma safestrcpy_fits n w t : holds_str w t -> zlen w < n ->
  exists pad, safestrcpy t n = Some (w ++ 0 :: pad) /\ (length pad <= 1)%nat.
Proof.
  intros Hw Hn. unfold safestrcpy, zlen in *. destruct (Z.leb_spec n 0); [lia|].
  apply safestrcpy_loop_fits; [done|lia].
Qed.

Lemma safestrcpy_spec n w t :
  1 <= n -> holds_str w t ->
  exists out, safestrcpy t n = Some out /\ zlen out <= n /\
    cstr out = take (Z.to_nat (n - 1)) w /\
    exists pad, out = take (Z.to_nat (n - 1)) w ++ 0 :: pad.
Proof.
  intros Hn Hw. unfold safestrcpy. destruct (Z.leb_spec n 0); [lia|].
  destruct (safestrcpy_loop_spec (Z.to_nat (n - 1)) w t Hw) as (out & -> & Hl & Hs & Hp).
  exists out. split_and!; auto. unfold zlen. lia.
Qed.

(** *** Copies *)

Lemma copy_up_spec n : forall m d s,
  d <= s \/ s + Z.of_nat n <= d ->
  forall x, copy_up m d s n x = if (d <=? x) && (x <? d + Z.of_nat n) then m (s + (x - d)) else m x.
Proof.
  induction n as [|n IH]; intros m d s Hd x; cbn [copy_up].
  - repeat zcase; simpl; lia || done.
  - rewrite IH by lia. unfold store.
    repeat (zcase; simpl); try lia; f_equal; lia.
Qed.

Lemma copy_down_spec n : forall m d s,
  s <= d \/ d + Z.of_nat n <= s ->
  forall x, copy_down m d s n x =
    if (d - Z.of_nat n <=? x) && (x <? d) then m (s - (d - x)) else m x.
Proof.
  induction n as [|n IH]; intros m d s Hd x; cbn [copy_down].
  - repeat zcase; simpl; lia || done.
  - rewrite IH by lia. unfold store.
    repeat (zcase; simpl); try lia; f_equal; lia.
Qed.

(** [memmove] copies as if through a temporary buffer, whatever the overlap of
    source and destination, and changes nothing outside the destination. *)
Theorem memmove_spec m dst src n x :
  0 <= n ->
  memmove m dst src n x = if (dst <=? x) && (x <? dst + n) then m (src + (x - dst)) else m x.
Proof.
  intros Hn. unfold memmove. destruct (Z.ltb_spec src dst); simpl.
  - destruct (Z.ltb_spec dst (src + n)).
    + rewrite copy_down_spec by lia. rewrite Z2Nat.id by lia.
      repeat (zcase; simpl); try lia; f_equal; lia.
    + rewrite copy_up_spec by lia. rewrite Z2Nat.id by lia. done.
  - rewrite copy_up_spec by lia. rewrite Z2Nat.id by lia. done.
Qed.

Lemma stosb_spec n : forall m a c x,
  stosb m a c n x = if (a <=? x) && (x <? a + Z.of_nat n) then u8 c else m x.
Proof.
  induction n as [|n IH]; intros m a c x; cbn [stosb].
  - repeat zcase; simpl; lia || done.
  - rewrite IH. unfold store. repeat (zcase; simpl); try lia; done.
Qed.

(** Every byte of the replicated word is the byte. *)
Lemma replicated_byte c k :
  0 <= c < 256 -> k = 0 \/ k = 8 \/ k = 16 \/ k = 24 ->
  u8 (Z.shiftr (Z.lor (Z.lor (Z.lor (Z.shiftl c 24) (Z.shiftl c 16)) (Z.shiftl c 8)) c) k) = c.
Proof.
  intros Hc Hk.
  assert (Hlor : Z.lor (Z.lor (Z.lor (Z.shiftl c 24) (Z.shiftl c 16)) (Z.shiftl c 8)) c
                 = c * 0x01010101).
  { assert (Hno : forall a b j, 0 <= b < 2 ^ j -> 0 <= j -> Z.lor (Z.shiftl a j) b = a * 2 ^ j + b).
    { intros a b j Hb Hj. rewrite <- Z.shiftl_mul_pow2 by done. symmetry.
      rewrite Z.add_nocarry_lxor, Z.lxor_lor; auto.
      all: apply Z.bits_inj'; intros i Hi; rewrite Z.land_spec, Z.bits_0.
      all: destruct (Z.ltb_spec i j); [rewrite Z.shiftl_spec_low by lia; done|].
      all: rewrite (Z.mod_small b (2 ^ j)) || idtac.
      all: rewrite <- (Z.mod_small b (2 ^ j)) by lia; rewrite Z.mod_pow2_bits_high by lia.
      all: apply andb_false_r. }
    replace (Z.lor (Z.shiftl c 24) (Z.shiftl c 16)) with (Z.shiftl (Z.lor (Z.shiftl c 8) c) 16)
      by (rewrite Z.shiftl_lor, Z.shiftl_shiftl by lia; done).
    rewrite (Hno c c 8) by lia.
    rewrite <- Z.lor_assoc, (Hno c c 8) by lia. rewrite Hno by lia. lia. }
  rewrite Hlor, Z.shiftr_div_pow2 by lia. unfold u8.
  destruct Hk as [->|[->|[->| ->]]]; Z.to_euclidean_division_equations; lia.
Qed.

Lemma stosl_spec n : forall m a c x, 0 <= c < 256 ->
  stosl m a (Z.lor (Z.lor (Z.lor (Z.shiftl c 24) (Z.shiftl c 16)) (Z.shiftl c 8)) c) n x
  = if (a <=? x) && (x <? a + 4 * Z.of_nat n) then c else m x.
Proof.
  intros m a c x Hc. revert m a. induction n as [|n IH]; intros m a; cbn [stosl].
  - repeat zcase; simpl; lia || done.
  - rewrite IH. unfold store32.
    rewrite <- (Z.shiftr_0_r (Z.lor _ c)) at 1.
    rewrite !replicated_byte by (done || auto).
    unfold store. repeat (zcase; simpl); try lia; done.
Qed.

(** [memset] fills exactly its range with the low byte of the value, whether
    it stores bytes or, on an aligned range, whole words. *)
Theorem memset_spec m dst c n x :
  0 <= n -> memset m dst c n x = if (dst <=? x) && (x <? dst + n) then u8 c else m x.
Proof.
  intros Hn. unfold memset. destruct ((dst mod 4 =? 0) && (n mod 4 =? 0)) eqn:E.
  - bools. change 255 with (Z.ones 8). rewrite Z.land_ones by lia.
    pose proof (Z.mod_pos_bound c (2 ^ 8) ltac:(lia)) as Hb.
    rewrite stosl_spec by lia.
    assert (4 * (n / 4) = n) by (Z.to_euclidean_division_equations; lia).
    rewrite Z2Nat.id by (apply Z.div_pos; lia). by rewrite H1.
  - rewrite stosb_spec, Z2Nat.id by lia. done.
Qed.

Lemma memset_volatile_spec n m p c x :
  memset_volatile m p c n x = stosb m p c n x.
Proof. revert m p. induction n as [|n IH]; intros m p; simpl; auto. Qed.

Lemma memcmp_zero_iff n : forall m a b,
  memcmp m a b n = 0 <-> forall i, 0 <= i < Z.of_nat n -> m (a + i) = m (b + i).
Proof.
  induction n as [|n IH]; intros m a b; cbn [memcmp]; [split; [lia|done]|].
  destruct (Z.eqb_spec (m a) (m b)) as [E|E].
  - rewrite IH. split; intros H i Hi.
    + destruct (decide (i = 0)) as [->|]; [by rewrite !Z.add_0_r|].
      specialize (H (i - 1) ltac:(lia)).
      by replace (a + i) with (a + 1 + (i - 1)) by lia; replace (b + i) with (b + 1 + (i - 1)) by lia.
    + rewrite <- !Z.add_assoc. apply H. lia.
  - split; [lia|]. intros H. specialize (H 0 ltac:(lia)). rewrite !Z.add_0_r in H. done.
Qed.

(** Overlapping by two bytes, moving up. *)
Lemma memmove_spec_witness :
  memmove (fun a => a) 102 100 4 103 = 101 /\ memmove (fun a => a) 102 100 4 104 = 102.
Proof. split; [exact (memmove_spec (fun a => a) 102 100 4 103 ltac:(lia))|exact (memmove_spec (fun a => a) 102 100 4 104 ltac:(lia))]. Defined.

(** An aligned range, filled by words. *)
Lemma memset_spec_witness : memset (fun a => a) 8 0x1ff 8 13 = 255 /\ memset (fun a => a) 8 0x1ff 8 16 = 16.
Proof. split; [exact (memset_spec (fun a => a) 8 0x1ff 8 13 ltac:(lia))|exact (memset_spec (fun a => a) 8 0x1ff 8 16 ltac:(lia))]. Defined.
