(* ===== verification/Spinlock.v ===== *)
(** kernel/arch/x86/spinlock.c: interrupt nesting and the spin lock, and the
    CPU lookup of core/proc.c they rely on.

    [pushcli], [popcli] and [holding] are functions on the state of one CPU.
    [acquire] and [release] are also given as the steps of a machine in which
    any number of CPUs interleave, one memory access at a time; mutual
    exclusion and freedom from the code's own panics are invariants of it. *)

From stdpp Require Import base list strings relations.
From Stdlib Require Import ZArith Lia.
From S2P Require Import Prelude Mmu.

Local Open Scope Z_scope.
Local Open Scope outcome_scope.

(** ** One CPU *)

Record cpu := Cpu {
  fl_if : bool;    (* EFLAGS.IF *)
  ncli : Z;        (* depth of pushcli nesting *)
  intena : bool    (* were interrupts enabled before pushcli *)
}.

(** [mycpu]: the index of the CPU whose APIC id is the current one. *)
Fixpoint mycpu_search (i : Z) (apicids : list Z) (apicid : Z) : outcome Z :=
  match apicids with
  | [] => Panic "unknown apicid"
  | a :: rest => if a =? apicid then Ret i else mycpu_search (i + 1) rest apicid
  end.

Definition mycpu (c : cpu) (apicids : list Z) (lapicid : Z) : outcome Z :=
  if fl_if c then Panic "mycpu called with interrupts enabled"
  else mycpu_search 0 apicids lapicid.

Definition pushcli (c : cpu) : cpu :=
  let eflags_if := fl_if c in
  let ena := if ncli c =? 0 then eflags_if else intena c in
  Cpu false (ncli c + 1) ena.

Definition popcli (c : cpu) : outcome cpu :=
  if fl_if c then Panic "popcli - interruptible" else
  let n := ncli c - 1 in
  if n <? 0 then Panic "popcli" else
  Ret (Cpu (if (n =? 0) && intena c then true else fl_if c) n (intena c)).

Record spinlock := Spinlock { locked : Z; lk_cpu : option nat }.

Definition initlock : spinlock := Spinlock 0 None.

Definition holding (me : nat) (lk : spinlock) (c : cpu) : outcome (bool * cpu) :=
  let c1 := pushcli c in
  let r := negb (locked lk =? 0) && bool_decide (lk_cpu lk = Some me) in
  c2 <- popcli c1 ;;
  Ret (r, c2).

(** [acquire] when the lock is free or already ours, and [release], as one
    CPU sees them; [NoFuel] is a CPU spinning on a lock held elsewhere. *)
Definition acquire (me : nat) (lk : spinlock) (c : cpu) : outcome (spinlock * cpu) :=
  let c1 := pushcli c in
  '(r, c2) <- holding me lk c1 ;;
  if r then Panic "acquire" else
  if locked lk =? 0 then Ret (Spinlock 1 (Some me), c2) else NoFuel.

Definition release (me : nat) (lk : spinlock) (c : cpu) : outcome (spinlock * cpu) :=
  '(r, c1) <- holding me lk c ;;
  if r then
    c2 <- popcli c1 ;;
    Ret (Spinlock 0 None, c2)
  else Panic "release".

(** [getcallerpcs]: the saved return addresses along the frame pointers, zero
    after the chain leaves the kernel; [m] is word memory. *)
Fixpoint callerpcs (m : memory) (ebp : Z) (n : nat) : list Z :=
  match n with
  | O => []
  | S n' =>
    if (ebp =? 0) || (ebp <? KERNBASE) || (ebp =? 0xffffffff) then repeat 0 (S n')
    else m (ebp + 4) :: callerpcs m (m ebp) n'
  end.

Definition getcallerpcs (m : memory) (v : Z) : list Z := callerpcs m (v - 8) 10.

(** ** The machine *)

(** Where a CPU is in [acquire] or [release]. *)
Inductive pc :=
| Idle          (* outside *)
| AcqLocked     (* in holding(): about to read lk->locked *)
| AcqCpu        (* in holding(): about to read lk->cpu *)
| AcqSpin       (* at the xchg *)
| AcqRecord     (* xchg returned 0, about to store lk->cpu *)
| Crit          (* acquire has returned *)
| RelLocked     (* release: reading lk->locked *)
| RelCpu        (* release: reading lk->cpu *)
| RelClear      (* about to store lk->cpu = 0 *)
| RelStore      (* about to store locked = 0 *)
| RelPop        (* about to popcli *)
| Panicked (msg : string).

Record machine := Machine {
  the_lock : spinlock;
  pcs : nat -> pc;
  cpus : nat -> cpu
}.

Definition upd {A} (f : nat -> A) (i : nat) (x : A) : nat -> A :=
  fun j => if bool_decide (j = i) then x else f j.

Definition goto (i : nat) (p : pc) (s : machine) : machine :=
  Machine (the_lock s) (upd (pcs s) i p) (cpus s).

Inductive step : machine -> machine -> Prop :=
(* the CPU changes its interrupt flag while it holds no pushcli *)
| step_flag i b s :
    pcs s i = Idle -> ncli (cpus s i) = 0 ->
    step s (Machine (the_lock s) (pcs s) (upd (cpus s) i (Cpu b 0 (intena (cpus s i)))))
(* acquire *)
| step_acq i s :
    pcs s i = Idle ->
    step s (Machine (the_lock s) (upd (pcs s) i AcqLocked) (upd (cpus s) i (pushcli (cpus s i))))
| step_acq_locked i s :
    pcs s i = AcqLocked ->
    step s (goto i (if locked (the_lock s) =? 0 then AcqSpin else AcqCpu) s)
| step_acq_cpu i s :
    pcs s i = AcqCpu ->
    step s (goto i (if bool_decide (lk_cpu (the_lock s) = Some i) then Panicked "acquire" else AcqSpin) s)
| step_xchg i s :
    pcs s i = AcqSpin ->
    step s (Machine (Spinlock 1 (lk_cpu (the_lock s)))
              (upd (pcs s) i (if locked (the_lock s) =? 0 then AcqRecord else AcqSpin)) (cpus s))
| step_record i s :
    pcs s i = AcqRecord ->
    step s (Machine (Spinlock (locked (the_lock s)) (Some i)) (upd (pcs s) i Crit) (cpus s))
(* release *)
| step_rel i s : pcs s i = Crit -> step s (goto i RelLocked s)
| step_rel_locked i s :
    pcs s i = RelLocked ->
    step s (goto i (if locked (the_lock s) =? 0 then Panicked "release" else RelCpu) s)
| step_rel_cpu i s :
    pcs s i = RelCpu ->
    step s (goto i (if bool_decide (lk_cpu (the_lock s) = Some i) then RelClear else Panicked "release") s)
| step_rel_clear i s :
    pcs s i = RelClear ->
    step s (Machine (Spinlock (locked (the_lock s)) None) (upd (pcs s) i RelStore) (cpus s))
| step_rel_store i s :
    pcs s i = RelStore ->
    step s (Machine (Spinlock 0 (lk_cpu (the_lock s))) (upd (pcs s) i RelPop) (cpus s))
| step_rel_pop i s :
    pcs s i = RelPop ->
    step s (match popcli (cpus s i) with
            | Ret c => Machine (the_lock s) (upd (pcs s) i Idle) (upd (cpus s) i c)
            | Panic msg => goto i (Panicked msg) s
            | _ => s
            end).

(** CPUs that have won the xchg and not yet stored 0. *)
Definition owns (p : pc) : bool :=
  match p with
  | AcqRecord | Crit | RelLocked | RelCpu | RelClear | RelStore => true
  | _ => false
  end.

(** CPUs between the pushcli of acquire and the popcli of release. *)
Definition inside (p : pc) : bool :=
  match p with Idle | Panicked _ => false | _ => true end.

(** CPUs between recording themselves and clearing the record. *)
Definition recorded (p : pc) : bool :=
  match p with Crit | RelLocked | RelCpu | RelClear => true | _ => false end.

Definition cpu_ok (c : cpu) : Prop := 0 <= ncli c /\ (0 < ncli c -> fl_if c = false).

Definition initial (s : machine) : Prop :=
  the_lock s = initlock /\ forall i, pcs s i = Idle /\ cpu_ok (cpus s i).

Record inv (s : machine) : Prop := {
  inv_cpu : forall i, cpu_ok (cpus s i);
  inv_inside : forall i, inside (pcs s i) = true -> 0 < ncli (cpus s i);
  inv_unlocked : locked (the_lock s) = 0 -> forall i, owns (pcs s i) = false;
  inv_one : forall i j, owns (pcs s i) = true -> owns (pcs s j) = true -> i = j;
  inv_recorded : forall i, recorded (pcs s i) = true -> lk_cpu (the_lock s) = Some i;
  inv_record : forall i, lk_cpu (the_lock s) = Some i -> recorded (pcs s i) = true;
  inv_no_panic : forall i msg, pcs s i <> Panicked msg
}.

(** ** Proofs *)

Lemma upd_eq {A} (f : nat -> A) i x : upd f i x i = x.
Proof. unfold upd. by rewrite bool_decide_eq_true_2. Qed.

Lemma upd_ne {A} (f : nat -> A) i j x : j <> i -> upd f i x j = f j.
Proof. intros. unfold upd. by rewrite bool_decide_eq_false_2. Qed.

(** Case analysis on whether each CPU mentioned is the one that moved. *)
Ltac upds :=
  repeat match goal with
  | H : context [upd _ ?i _ ?j] |- _ =>
    destruct (decide (j = i)) as [->|]; [rewrite ?upd_eq in * | rewrite ?upd_ne in * by done]
  | |- context [upd _ ?i _ ?j] =>
    destruct (decide (j = i)) as [->|]; [rewrite ?upd_eq in * | rewrite ?upd_ne in * by done]
  end.

Lemma pushcli_ok c : cpu_ok c -> cpu_ok (pushcli c) /\ 0 < ncli (pushcli c).
Proof. unfold cpu_ok, pushcli. simpl. intuition lia. Qed.

(** A [popcli] that matches a [pushcli] cannot panic. *)
Lemma popcli_returns c :
  cpu_ok c -> 0 < ncli c ->
  exists c', popcli c = Ret c' /\ cpu_ok c' /\ ncli c' = ncli c - 1.
Proof.
  intros [H0 Hif] Hn. unfold popcli. rewrite Hif by done.
  destruct (Z.ltb_spec (ncli c - 1) 0); [lia|].
  eexists; split; [reflexivity|]. split; [|done]. split; simpl; [lia|].
  intros. destruct (Z.eqb_spec (ncli c - 1) 0); [lia|]. done.
Qed.

Lemma initial_inv s : initial s -> inv s.
Proof.
  intros [Hl Hi]. constructor; intros; rewrite ?Hl, ?(fun i => proj1 (Hi i)) in *; try done.
  apply Hi.
Qed.

(** Steps that only move one program counter between positions of the same
    ownership keep the invariant. *)
Lemma goto_inv i p s :
  inv s -> inside p = inside (pcs s i) -> owns p = owns (pcs s i) ->
  recorded p = recorded (pcs s i) -> (forall msg, p <> Panicked msg) -> inv (goto i p s).
Proof.
  intros [] Hin Ho Hr Hp. constructor; simpl; intros; upds; eauto; try congruence.
Qed.

(** Contradictions and agreements drawn from the invariant at the CPU that
    moves. *)
Ltac mov :=
  match goal with
  | Hinv : inv ?s, Hpc : pcs ?s ?i = _ |- _ =>
    first
    [ congruence | apply (inv_inside s Hinv i); rewrite Hpc; done
    | match goal with
      | E : lk_cpu (the_lock s) = Some i |- _ =>
        apply (inv_record s Hinv) in E; rewrite Hpc in E; done
      | E : locked (the_lock s) = 0 |- _ =>
        let X := fresh in pose proof (inv_unlocked s Hinv E i) as X; rewrite Hpc in X; done
      | E : locked (the_lock s) = 0, H : owns (pcs s ?j) = true |- _ =>
        rewrite (inv_unlocked s Hinv E j) in H; done
      | H : owns (pcs s ?j) = true |- _ =>
        let X := fresh in
        assert (X : j = i) by (apply (inv_one s Hinv); rewrite ?Hpc; done); congruence
      | |- owns (pcs s ?j) = false =>
        let X := fresh in
        destruct (owns (pcs s j)) eqn:X; [|done];
        assert (j = i) by (apply (inv_one s Hinv); rewrite ?Hpc; done); congruence
      | H : recorded (pcs s ?j) = true |- _ =>
        let X := fresh in
        assert (X : owns (pcs s j) = true) by (destruct (pcs s j); done);
        assert (j = i) by (apply (inv_one s Hinv); rewrite ?Hpc; done); congruence
      end ]
  end.

Lemma step_inv s s' : inv s -> step s s' -> inv s'.
Proof.
  intros Hinv Hs. pose proof Hinv as [Hc Hin Hun Hone Hrec Hrd Hnp].
  destruct Hs as [i b s Hpc Hn|i s Hpc|i s Hpc|i s Hpc|i s Hpc|i s Hpc|i s Hpc
                 |i s Hpc|i s Hpc|i s Hpc|i s Hpc|i s Hpc].
  - constructor; simpl; intros; upds; eauto.
    + split; simpl; [lia|lia].
    + rewrite Hpc in *. done.
  - destruct (pushcli_ok _ (Hc i)) as [Hok Hpos].
    constructor; simpl; intros; upds; eauto; try done. mov.
  - apply goto_inv; auto; rewrite ?Hpc; destruct (locked (the_lock s) =? 0); done.
  - rewrite bool_decide_eq_false_2 by (intros E; mov).
    apply goto_inv; auto; by rewrite ?Hpc.
  - destruct (Z.eqb_spec (locked (the_lock s)) 0) as [E|E].
    + constructor; simpl; intros; upds; eauto; try done; mov.
    + constructor; simpl; intros; upds; eauto; try done; mov.
  - constructor; simpl; intros; upds; eauto; try done; mov.
  - apply goto_inv; auto; by rewrite ?Hpc.
  - destruct (Z.eqb_spec (locked (the_lock s)) 0) as [E|E]; [mov|].
    apply goto_inv; auto; by rewrite ?Hpc.
  - rewrite bool_decide_eq_true_2 by (apply Hrec; by rewrite Hpc).
    apply goto_inv; auto; by rewrite ?Hpc.
  - constructor; simpl; intros; upds; eauto; try done; mov.
  - constructor; simpl; intros; upds; eauto; try done; mov.
  - destruct (popcli_returns (cpus s i) (Hc i)) as (c & -> & Hok & Hn); [apply Hin; by rewrite Hpc|].
    constructor; simpl; intros; upds; eauto; try done; mov.
Qed.

(** *** Nesting *)

(** A program's interrupt bracketing: [true] for pushcli, [false] for popcli. *)
Fixpoint run_cli (ops : list bool) (c : cpu) : outcome cpu :=
  match ops with
  | [] => Ret c
  | true :: ops' => run_cli ops' (pushcli c)
  | false :: ops' => c' <- popcli c ;; run_cli ops' c'
  end.

(** Matched brackets, [d] of them open at the start and none at the end. *)
Fixpoint balanced (d : Z) (ops : list bool) : Prop :=
  match ops with
  | [] => d = 0
  | true :: ops' => balanced (d + 1) ops'
  | false :: ops' => 1 <= d /\ balanced (d - 1) ops'
  end.

(** What is remembered while [d] brackets opened since [c0] are open. *)
Definition opened (c0 : cpu) (d : Z) (c : cpu) : Prop :=
  ncli c = ncli c0 + d /\ 0 <= d /\ 0 <= ncli c0 /\
  (0 < ncli c -> fl_if c = false) /\ (d = 0 -> fl_if c = fl_if c0) /\
  (0 < d -> ncli c0 = 0 -> intena c = fl_if c0) /\
  (0 < ncli c0 -> fl_if c0 = false).

Lemma run_cli_balanced ops : forall c0 d c,
  opened c0 d c -> balanced d ops ->
  exists c', run_cli ops c = Ret c' /\ ncli c' = ncli c0 /\ fl_if c' = fl_if c0.
Proof.
  induction ops as [|[] ops IH]; intros c0 d c Ho Hb; simpl in *.
  - subst d. destruct Ho as (Hn & _ & _ & _ & Hf & _). exists c. split_and!; auto. lia.
  - apply (IH c0 (d + 1)); [|done]. destruct Ho as (Hn & Hd & H0 & Hif & Hf & Hi & Hc0).
    unfold opened, pushcli; simpl. split_and!; try lia; auto.
    intros _ Hz. destruct (Z.eqb_spec (ncli c) 0); [apply Hf; lia|apply Hi; lia].
  - destruct Hb as [Hd1 Hb]. destruct Ho as (Hn & Hd & H0 & Hif & Hf & Hi & Hc0).
    unfold popcli. rewrite Hif by lia. destruct (Z.ltb_spec (ncli c - 1) 0); [lia|]. simpl.
    apply (IH c0 (d - 1)); [|done]. unfold opened; simpl.
    destruct (Z.eqb_spec (ncli c - 1) 0); simpl; split_and!; try lia; auto.
    all: try (intros; exfalso; lia); try (intros; apply Hi; lia).
    + intros Hd0. assert (ncli c0 = 0) as Hz by lia. specialize (Hi ltac:(lia) Hz).
      rewrite <- Hi. by destruct (intena c).
    + intros Hd0. symmetry. apply Hc0. lia.
Qed.

(** ** Properties *)

(** C7: mutual exclusion. However the CPUs interleave their memory accesses
    inside [acquire] and [release], two CPUs are never both past [acquire];
    a CPU past [acquire] runs with interrupts off; and none of the panics
    "acquire", "release", "popcli" is ever reached. *)
Theorem spinlock_mutual_exclusion s0 s :
  initial s0 -> rtc step s0 s ->
  (forall i j, pcs s i = Crit -> pcs s j = Crit -> i = j) /\
  (forall i, pcs s i = Crit -> fl_if (cpus s i) = false) /\
  (forall i msg, pcs s i <> Panicked msg).
Proof.
  intros H0 Hr.
  assert (Hi : inv s) by (eapply rtc_invariant; [apply initial_inv, H0|apply step_inv|exact Hr]).
  split_and!.
  - intros i j Hpi Hpj. apply (inv_one s Hi); [by rewrite Hpi|by rewrite Hpj].
  - intros i Hpi. apply (inv_cpu s Hi). apply (inv_inside s Hi). by rewrite Hpi.
  - apply (inv_no_panic s Hi).
Qed.

Definition ex_machine : machine :=
  Machine initlock (fun _ => Idle) (fun i => Cpu (bool_decide (i = 0%nat)) 0 false).

Lemma spinlock_mutual_exclusion_witness :
  exists s, rtc step ex_machine s /\ pcs s 1%nat = Crit /\ pcs s 0%nat = AcqSpin /\
    (forall i, pcs s i = Crit -> i = 1%nat).
Proof.
  assert (H0 : initial ex_machine)
    by (split; [done|]; intros i; split; [done|]; split; simpl; lia).
  assert (Hr : exists s, rtc step ex_machine s /\ pcs s 1%nat = Crit /\ pcs s 0%nat = AcqSpin).
  { eexists. split.
    - eapply rtc_l; [apply (step_acq 0%nat); reflexivity|].
      eapply rtc_l; [apply (step_acq 1%nat); reflexivity|].
      eapply rtc_l; [apply (step_acq_locked 0%nat); reflexivity|].
      eapply rtc_l; [apply (step_acq_locked 1%nat); reflexivity|].
      eapply rtc_l; [apply (step_xchg 1%nat); reflexivity|].
      eapply rtc_l; [apply (step_xchg 0%nat); reflexivity|].
      eapply rtc_l; [apply (step_record 1%nat); reflexivity|].
      apply rtc_refl.
    - split; reflexivity. }
  destruct Hr as (s & Hr & H1 & H2). exists s. split; [exact Hr|]. split; [exact H1|].
  split; [exact H2|]. intros i Hi.
  exact (proj1 (spinlock_mutual_exclusion _ _ H0 Hr) i 1%nat Hi H1).
Defined.

(** pushcli and popcli are matched: any properly nested sequence of them
    returns without a panic to the interrupt flag and nesting depth it started
    with, whatever they were. *)
Theorem cli_nesting_restores ops c :
  cpu_ok c -> balanced 0 ops ->
  exists c', run_cli ops c = Ret c' /\ ncli c' = ncli c /\ fl_if c' = fl_if c.
Proof.
  intros [H0 Hf] Hb. apply (run_cli_balanced ops c 0 c); [|done].
  unfold opened. split_and!; auto; lia.
Qed.

Lemma cli_nesting_restores_witness :
  exists c', run_cli [true; true; false; true; false; false] (Cpu true 0 false) = Ret c' /\
    ncli c' = 0 /\ fl_if c' = true.
Proof.
  apply (cli_nesting_restores [true; true; false; true; false; false] (Cpu true 0 false)).
  - split; simpl; lia.
  - simpl. lia.
Defined.
