(* ===== verification/HalBlock.v ===== *)
(** kernel/hal/block.c, hal/mbr.c and hal/gpt.c: block devices, the sector
    cache in front of them, the partition table cache and the two partition
    table formats.

    A device driver is a parameter of this layer, as the [BlockDeviceDriver]
    function pointers are in the code; [BlockDriverLaws] states what a working
    driver promises.  Buffers that the code takes from [kalloc] are lists of
    bytes whose initial contents are the parameter [junk]. *)

From stdpp Require Import base list strings relations.
From Stdlib Require Import ZArith Lia.
From S2P Require Import Prelude.

Local Open Scope Z_scope.
Local Open Scope outcome_scope.

Definition SECTORSIZE : Z := 512.
Definition HAL_BLOCK_MAX : Z := 8.
Definition HAL_PARTITION_MAX : Z := 8.
Definition HAL_BLOCK_CACHE_MAX : Z := 512.

(** [block_read begin count buf d]: the return value, the buffer and the
    device afterwards. *)
Class BlockDriver (D : Type) := {
  block_read : Z -> Z -> list Z -> D -> Z * list Z * D;
  block_write : Z -> Z -> list Z -> D -> Z * D
}.

Inductive HalPartitionFilesystemType :=
| HAL_PARTITION_TYPE_NONE
| HAL_PARTITION_TYPE_OTHER
| HAL_PARTITION_TYPE_FAT32
| HAL_PARTITION_TYPE_LINUX
| HAL_PARTITION_TYPE_DATA
| HAL_PARTITION_TYPE_ESP.

#[export] Instance fstype_eq_dec : EqDecision HalPartitionFilesystemType.
Proof. solve_decision. Defined.

Record HalPartitionMap := Partition {
  fs_type : HalPartitionFilesystemType;
  dev : Z;
  part_begin : Z;
  part_size : Z
}.

(** The [buf] pointer of a cache entry: null, a page in use, or a page that
    has been given back to the allocator while the pointer was kept. *)
Inductive cache_buf :=
| BufNull
| BufPage (bs : list Z)
| BufFreed.

#[export] Instance cache_buf_eq_dec : EqDecision cache_buf.
Proof. solve_decision. Defined.

Record BlockCache := CacheEntry { lba : Z; cbuf : cache_buf }.

Record BlockDevice (D : Type) := BlkDev {
  driver : option D;
  cache : list BlockCache;
  cache_next : Z;
  cache_lock : bool
}.
Arguments BlkDev {D}.
Arguments driver {D}.
Arguments cache {D}.
Arguments cache_next {D}.
Arguments cache_lock {D}.

Record hal (D : Type) := Hal {
  hal_block_map : list (BlockDevice D);
  hal_partition_map : list HalPartitionMap;
  hal_pages : Z    (* pages taken from kalloc and not given back *)
}.
Arguments Hal {D}.
Arguments hal_block_map {D}.
Arguments hal_partition_map {D}.
Arguments hal_pages {D}.

Section hal.
Context {D : Type} `{BlockDriver D}.
(** Contents of a page just taken from the allocator. *)
Variable junk : list Z.

Definition set_block (id : Z) (b : BlockDevice D) (s : hal D) : outcome (hal D) :=
  m <- of_option (zset (hal_block_map s) id b) ;;
  Ret (Hal m (hal_partition_map s) (hal_pages s)).

Definition add_pages (n : Z) (s : hal D) : hal D :=
  Hal (hal_block_map s) (hal_partition_map s) (hal_pages s + n).

Definition empty_block : BlockDevice D := BlkDev None [] 0 false.
Definition empty_partition : HalPartitionMap := Partition HAL_PARTITION_TYPE_NONE 0 0 0.

Definition hal_block_init (s : hal D) : hal D :=
  Hal (repeat empty_block 8) (repeat empty_partition 8) (hal_pages s).

(** ** Direct device access *)

Definition hal_disk_read (id begin count : Z) (buf : list Z) (s : hal D)
    : outcome (Z * list Z * hal D) :=
  if HAL_BLOCK_MAX <=? id then Ret (ERROR_INVAILD, buf, s) else
  b <- of_option (zget (hal_block_map s) id) ;;
  match driver b with
  | None => Ret (ERROR_INVAILD, buf, s)
  | Some d =>
    let '(r, buf', d') := block_read (u32 begin) count buf d in
    s' <- set_block id (BlkDev (Some d') (cache b) (cache_next b) (cache_lock b)) s ;;
    Ret (r, buf', s')
  end.

Definition hal_disk_write (id begin count : Z) (buf : list Z) (s : hal D)
    : outcome (Z * hal D) :=
  if HAL_BLOCK_MAX <=? id then Ret (-1, s) else
  b <- of_option (zget (hal_block_map s) id) ;;
  match driver b with
  | None => Ret (ERROR_INVAILD, s)
  | Some d =>
    let '(r, d') := block_write (u32 begin) count buf d in
    s' <- set_block id (BlkDev (Some d') (cache b) (cache_next b) (cache_lock b)) s ;;
    Ret (r, s')
  end.

(** ** The sector cache *)

(** The search loop: index and buffer of the entry caching [begin]. *)
Fixpoint cache_find (i : Z) (c : list BlockCache) (begin : Z) : option (Z * cache_buf) :=
  match c with
  | [] => None
  | e :: c' =>
    match cbuf e with
    | BufNull => cache_find (i + 1) c' begin
    | b => if lba e =? begin then Some (i, b) else cache_find (i + 1) c' begin
    end
  end.

(** The device whose cache is scanned; before [hal_block_cache_init] the
    [cache] pointer is null. *)
Definition cached_block (id : Z) (s : hal D) : outcome (BlockDevice D) :=
  b <- of_option (zget (hal_block_map s) id) ;;
  match cache b with [] => Fault | _ => Ret b end.

(** The three phases of a cached read: up to the first [release], the device
    access without the lock, and the copy out. *)
Definition read_lookup (id begin : Z) (buf : list Z) (s : hal D)
    : outcome (option (list Z) * hal D) :=
  b <- cached_block id s ;;
  l <- acquire_b (cache_lock b) ;;
  match cache_find 0 (cache b) begin with
  | Some (_, BufPage bs) =>
    l' <- release_b l ;;
    s' <- set_block id (BlkDev (driver b) (cache b) (cache_next b) l') s ;;
    Ret (Some (splice 0 (slice 0 512 bs) buf), s')
  | Some (_, _) => Fault
  | None =>
    e <- of_option (zget (cache b) (cache_next b)) ;;
    let '(pg, n) := match cbuf e with BufNull => (BufPage junk, 1) | p => (p, 0) end in
    c' <- of_option (zset (cache b) (cache_next b) (CacheEntry begin pg)) ;;
    l' <- release_b l ;;
    s' <- set_block id (BlkDev (driver b) c' (cache_next b) l') s ;;
    Ret (None, add_pages n s')
  end.

Definition read_fill (id begin count : Z) (s : hal D) : outcome (hal D) :=
  b <- of_option (zget (hal_block_map s) id) ;;
  e <- of_option (zget (cache b) (cache_next b)) ;;
  match cbuf e with
  | BufPage bs =>
    '(_, bs', s1) <- hal_disk_read id begin count bs s ;;
    b1 <- of_option (zget (hal_block_map s1) id) ;;
    c' <- of_option (zset (cache b1) (cache_next b) (CacheEntry (lba e) (BufPage bs'))) ;;
    set_block id (BlkDev (driver b1) c' (cache_next b1) (cache_lock b1)) s1
  | _ => Fault
  end.

Definition read_copy (id : Z) (buf : list Z) (s : hal D) : outcome (list Z * hal D) :=
  b <- of_option (zget (hal_block_map s) id) ;;
  l <- acquire_b (cache_lock b) ;;
  e <- of_option (zget (cache b) (cache_next b)) ;;
  match cbuf e with
  | BufPage bs =>
    let next := cache_next b + 1 in
    let next' := if HAL_BLOCK_CACHE_MAX <=? next then 0 else next in
    l' <- release_b l ;;
    s' <- set_block id (BlkDev (driver b) (cache b) next' l') s ;;
    Ret (splice 0 (slice 0 512 bs) buf, s')
  | _ => Fault
  end.

Definition hal_block_read (id begin count : Z) (buf : list Z) (s : hal D)
    : outcome (Z * list Z * hal D) :=
  if 1 <? count then hal_disk_read id begin count buf s else
  '(hit, s1) <- read_lookup id begin buf s ;;
  match hit with
  | Some buf' => Ret (0, buf', s1)
  | None =>
    s2 <- read_fill id begin count s1 ;;
    '(buf', s3) <- read_copy id buf s2 ;;
    Ret (0, buf', s3)
  end.

(** The loop that gives back every cached page and keeps the pointers. *)
Definition free_entry (e : BlockCache) : BlockCache :=
  match cbuf e with BufNull => e | _ => CacheEntry (lba e) BufFreed end.

Definition live_pages (c : list BlockCache) : Z :=
  zlen (filter (fun e => cbuf e <> BufNull) c).

Definition hal_block_write (id begin count : Z) (buf : list Z) (s : hal D)
    : outcome (Z * hal D) :=
  s1 <- (if 1 <? count then
           b <- cached_block id s ;;
           sf <- set_block id (BlkDev (driver b) (map free_entry (cache b)) (cache_next b) (cache_lock b)) s ;;
           '(_, sw) <- hal_disk_write id begin count buf (add_pages (- live_pages (cache b)) sf) ;;
           Ret sw
         else Ret s) ;;
  b <- cached_block id s1 ;;
  l <- acquire_b (cache_lock b) ;;
  match cache_find 0 (cache b) begin with
  | Some (i, BufPage bs) =>
    let bs' := splice 0 (slice 0 512 buf) bs in
    c' <- of_option (zset (cache b) i (CacheEntry begin (BufPage bs'))) ;;
    l' <- release_b l ;;
    s2 <- set_block id (BlkDev (driver b) c' (cache_next b) l') s1 ;;
    hal_disk_write id begin count bs' s2
  | Some (_, _) => Fault
  | None =>
    l' <- release_b l ;;
    s2 <- set_block id (BlkDev (driver b) (cache b) (cache_next b) l') s1 ;;
    hal_disk_write id begin count buf s2
  end.

(** ** Partitions *)

Definition hal_partition_read (id begin count : Z) (buf : list Z) (s : hal D)
    : outcome (Z * list Z * hal D) :=
  if HAL_PARTITION_MAX <=? id then Ret (-1, buf, s) else
  p <- of_option (zget (hal_partition_map s) id) ;;
  if decide (fs_type p = HAL_PARTITION_TYPE_NONE) then Ret (-1, buf, s) else
  hal_block_read (s32 (dev p)) (s32 (part_begin p + begin)) count buf s.

Definition hal_partition_write (id begin count : Z) (buf : list Z) (s : hal D)
    : outcome (Z * hal D) :=
  if HAL_PARTITION_MAX <=? id then Ret (-1, s) else
  p <- of_option (zget (hal_partition_map s) id) ;;
  if decide (fs_type p = HAL_PARTITION_TYPE_NONE) then Ret (-1, s) else
  hal_block_write (s32 (dev p)) (s32 (part_begin p + begin)) count buf s.

(** The first free slot of the partition map; [None] when it is full. *)
Fixpoint hal_partition_map_insert (m : list HalPartitionMap) (p : HalPartitionMap)
    : option (list HalPartitionMap) :=
  match m with
  | [] => None
  | q :: m' =>
    if decide (fs_type q = HAL_PARTITION_TYPE_NONE) then Some (p :: m')
    else match hal_partition_map_insert m' p with None => None | Some m'' => Some (q :: m'') end
  end.

Definition insert_partition (p : HalPartitionMap) (s : hal D) : outcome (hal D) :=
  match hal_partition_map_insert (hal_partition_map s) p with
  | None => Panic "hal too many partition"
  | Some m => Ret (Hal (hal_block_map s) m (hal_pages s))
  end.

(** *** Master boot record *)

Definition mbr_fs_type (type : Z) : HalPartitionFilesystemType :=
  if (type =? 0xb) || (type =? 0xc) then HAL_PARTITION_TYPE_FAT32
  else if type =? 0x83 then HAL_PARTITION_TYPE_LINUX
  else HAL_PARTITION_TYPE_OTHER.

(** Entry [j] of the boot sector: type byte, start sector, sector count. *)
Definition mbr_entry (bootsect : list Z) (j : Z) : Z * Z * Z :=
  let off := 0x1be + j * 0x10 in
  (le_val (slice (off + 4) 1 bootsect), get32 (off + 8) bootsect, get32 (off + 12) bootsect).

Fixpoint mbr_loop (block_id : Z) (bootsect : list Z) (js : list Z) (s : hal D) : outcome (hal D) :=
  match js with
  | [] => Ret s
  | j :: js' =>
    let '(type, start, size) := mbr_entry bootsect j in
    if type =? 0 then mbr_loop block_id bootsect js' s
    else
      s' <- insert_partition (Partition (mbr_fs_type type) (u32 block_id) start size) s ;;
      mbr_loop block_id bootsect js' s'
  end.

Definition mbr_probe_partition (block_id : Z) (s : hal D) : outcome (hal D) :=
  '(r, bootsect, s1) <- hal_disk_read block_id 0 1 junk (add_pages 1 s) ;;
  if r <? 0 then Panic "disk read error" else
  s2 <- mbr_loop block_id bootsect [0; 1; 2; 3] s1 ;;
  Ret (add_pages (-1) s2).

(** *** GUID partition table *)

Definition GPT_HEADER_SIGNATURE : Z := 0x5452415020494645.

Definition gpt_fs_type (lower upper : Z) : HalPartitionFilesystemType :=
  if (lower =? 0x3bc93ec9a0004bba) && (upper =? 0x11d2f81fc12a7328) then HAL_PARTITION_TYPE_ESP
  else if (lower =? 0xc79926b7b668c087) && (upper =? 0x4433b9e5ebd0a0a2) then HAL_PARTITION_TYPE_DATA
  else if (lower =? 0xe47d47d8693d798e) && (upper =? 0x477284830fc63daf) then HAL_PARTITION_TYPE_LINUX
  else HAL_PARTITION_TYPE_OTHER.

(** Entry [i] of a table sector: type GUID (upper, lower), first and last LBA. *)
Definition gpt_entry (data : list Z) (i : Z) : Z * Z * Z * Z :=
  let off := i * 128 in
  (get64 off data, get64 (off + 8) data, get64 (off + 32) data, get64 (off + 40) data).

Fixpoint gpt_entries (block_id : Z) (data : list Z) (ixs : list Z) (s : hal D) : outcome (hal D) :=
  match ixs with
  | [] => Ret s
  | i :: ixs' =>
    let '(upper, lower, first, last) := gpt_entry data i in
    if (lower =? 0) && (upper =? 0) then gpt_entries block_id data ixs' s
    else
      s' <- insert_partition (Partition (gpt_fs_type lower upper) (u32 block_id) (u32 first)
                                (u32 (u64 (u32 last - first + 1)))) s ;;
      gpt_entries block_id data ixs' s'
  end.

Fixpoint gpt_sectors (block_id : Z) (sectors : list Z) (s : hal D) : outcome (hal D) :=
  match sectors with
  | [] => Ret s
  | sector :: rest =>
    '(r, data, s1) <- hal_disk_read block_id sector 1 junk (add_pages 1 s) ;;
    if r <? 0 then Panic "disk read error" else
    s2 <- gpt_entries block_id data [0; 1; 2; 3] s1 ;;
    gpt_sectors block_id rest (add_pages (-1) s2)
  end.

Definition gpt_probe_partition (block_id : Z) (s : hal D) : outcome (hal D) :=
  '(r, hdr, s1) <- hal_disk_read block_id 1 1 junk (add_pages 1 s) ;;
  if r <? 0 then Panic "disk read error" else
  if negb (get64 24 hdr =? 1) then Panic "invalid GPT" else
  gpt_sectors block_id (seqZ 2 32) (add_pages (-1) s1).

(** ** Device registration *)

Definition hal_block_probe_partition (block_id : Z) (s : hal D) : outcome (hal D) :=
  '(r, gptsect, s1) <- hal_disk_read block_id 1 1 junk (add_pages 1 s) ;;
  if r <? 0 then Panic "disk read error" else
  s2 <- (if get64 0 gptsect =? GPT_HEADER_SIGNATURE then gpt_probe_partition block_id s1
         else mbr_probe_partition block_id s1) ;;
  Ret (add_pages (-1) s2).

Definition hal_block_cache_init (block_id : Z) (s : hal D) : outcome (hal D) :=
  b <- of_option (zget (hal_block_map s) block_id) ;;
  s' <- set_block block_id (BlkDev (driver b) (repeat (CacheEntry 0 BufNull) 512) 0 false) s ;;
  Ret (add_pages 1 s').

Fixpoint first_free_block (i : Z) (m : list (BlockDevice D)) : option Z :=
  match m with
  | [] => None
  | b :: m' => match driver b with None => Some i | Some _ => first_free_block (i + 1) m' end
  end.

Definition hal_block_register_device (d : D) (s : hal D) : outcome (hal D) :=
  match first_free_block 0 (hal_block_map s) with
  | None => Panic "too many block devices"
  | Some i =>
    b <- of_option (zget (hal_block_map s) i) ;;
    s1 <- set_block i (BlkDev (Some d) (cache b) (cache_next b) (cache_lock b)) s ;;
    s2 <- hal_block_probe_partition i s1 ;;
    hal_block_cache_init i s2
  end.

End hal.

(** ** What a working driver promises

    [dsector d i] is the contents of sector [i] of a device of [dsize d]
    sectors.  Reads and writes of a sector in range succeed; a read leaves the
    contents alone and a write changes its own sector only. *)
Class BlockDriverLaws (D : Type) `{BlockDriver D} := {
  dsector : D -> Z -> list Z;
  dsize : D -> Z;
  dsector_length d i : zlen (dsector d i) = 512;
  block_read_law d begin buf :
    0 <= begin < dsize d -> 512 <= zlen buf ->
    exists r d', block_read begin 1 buf d = (r, splice 0 (dsector d begin) buf, d') /\
      0 <= r /\ dsize d' = dsize d /\ forall i, dsector d' i = dsector d i;
  block_write_law d begin buf :
    0 <= begin < dsize d -> 512 <= zlen buf ->
    exists r d', block_write begin 1 buf d = (r, d') /\ 0 <= r /\ dsize d' = dsize d /\
      forall i, dsector d' i = if decide (i = begin) then slice 0 512 buf else dsector d i
}.

Section coherence.
Context {D : Type} `{BlockDriverLaws D}.
Variable junk : list Z.
Hypothesis junk_page : 512 <= zlen junk.

Definition same_disk (d d' : D) : Prop :=
  dsize d' = dsize d /\ forall i, dsector d' i = dsector d i.

(** A cache entry agrees with the device. *)
Definition entry_ok (d : D) (e : BlockCache) : Prop :=
  match cbuf e with
  | BufNull => True
  | BufPage bs => is_s32 (lba e) /\ 512 <= zlen bs /\
      (0 <= u32 (lba e) < dsize d -> slice 0 512 bs = dsector d (u32 (lba e)))
  | BufFreed => False
  end.

(** No sector is cached twice. *)
Definition uniq (c : list BlockCache) : Prop :=
  forall i j e e', c !! i = Some e -> c !! j = Some e' ->
    cbuf e <> BufNull -> cbuf e' <> BufNull -> lba e = lba e' -> i = j.

Definition coherent (d : D) (b : BlockDevice D) : Prop :=
  driver b = Some d /\ zlen (cache b) = 512 /\ 0 <= cache_next b < 512 /\
  cache_lock b = false /\ uniq (cache b) /\ Forall (entry_ok d) (cache b).

(** Block device [id] of the state is coherent, with device contents [d]. *)
Definition hal_ok (s : hal D) (id : Z) (d : D) : Prop :=
  0 <= id < HAL_BLOCK_MAX /\ exists b, zget (hal_block_map s) id = Some b /\ coherent d b.

Definition put_block (s : hal D) (id : Z) (b : BlockDevice D) : hal D :=
  Hal (<[Z.to_nat id := b]> (hal_block_map s)) (hal_partition_map s) (hal_pages s).

Lemma set_block_put id b b' s :
  zget (hal_block_map s) id = Some b' -> set_block id b s = Ret (put_block s id b).
Proof.
  intros Hz. unfold set_block. rewrite zset_Some; [done|]. by apply zget_Some in Hz.
Qed.

Lemma zget_put id b b' s :
  zget (hal_block_map s) id = Some b' -> zget (hal_block_map (put_block s id b)) id = Some b.
Proof.
  rewrite !zget_lookup. intros [Hi Hl]. split; [done|].
  apply list_lookup_insert_eq. by eapply lookup_lt_Some.
Qed.

Lemma put_put s id b b' : put_block (put_block s id b) id b' = put_block s id b'.
Proof. unfold put_block; simpl. by rewrite list_insert_insert_eq. Qed.

(** What the other devices and the partition map see. *)
Definition frame (id : Z) (s s' : hal D) : Prop :=
  hal_partition_map s' = hal_partition_map s /\
  forall j, j <> id -> zget (hal_block_map s') j = zget (hal_block_map s) j.

Lemma frame_refl id s : frame id s s.
Proof. done. Qed.

Lemma frame_put id b s s' : 0 <= id -> frame id s s' -> frame id s (put_block s' id b).
Proof.
  intros Hid [Hp Hb]. split; [done|]. intros j Hj. rewrite <- (Hb j Hj). unfold zget.
  destruct (Z.ltb_spec j 0); [done|]. apply list_lookup_insert_ne. lia.
Qed.

Lemma frame_pages id n s s' : frame id s s' -> frame id s (add_pages n s').
Proof. done. Qed.

Lemma put_parts id b s : hal_partition_map (put_block s id b) = hal_partition_map s.
Proof. done. Qed.

#[local] Opaque put_block.

Lemma entry_ok_same d d' e : same_disk d d' -> entry_ok d e -> entry_ok d' e.
Proof.
  intros [Hs Hd]. unfold entry_ok. destruct (cbuf e); auto.
  rewrite Hs, Hd. done.
Qed.

Lemma cache_find_Some c : forall i begin k p,
  cache_find i c begin = Some (k, p) ->
  i <= k /\ p <> BufNull /\ zget c (k - i) = Some (CacheEntry begin p).
Proof.
  induction c as [|e c IH]; intros i begin k p Hf; [done|]. cbn [cache_find] in Hf.
  assert (Hrec : cache_find (i + 1) c begin = Some (k, p) ->
     i <= k /\ p <> BufNull /\ zget (e :: c) (k - i) = Some (CacheEntry begin p)).
  { intros Hr. destruct (IH _ _ _ _ Hr) as (Hle & Hp & Hg). split; [lia|]. split; [done|].
    rewrite zget_lookup in *. destruct Hg as [Hk Hg]. split; [lia|].
    replace (Z.to_nat (k - i)) with (S (Z.to_nat (k - (i + 1)))) by lia. done. }
  assert (Hhit : p <> BufNull -> cbuf e = p -> lba e = begin -> k = i ->
     i <= k /\ p <> BufNull /\ zget (e :: c) (k - i) = Some (CacheEntry begin p)).
  { intros Hp <- <- ->. split_and!; [lia|done|]. rewrite Z.sub_diag. by destruct e. }
  destruct (cbuf e) eqn:Ec; [auto| |].
  all: destruct (Z.eqb_spec (lba e) begin) as [El|]; [injection Hf as <- <-; by apply Hhit|auto].
Qed.

Lemma cache_find_None c : forall i begin,
  cache_find i c begin = None ->
  forall j e, c !! j = Some e -> cbuf e <> BufNull -> lba e <> begin.
Proof.
  induction c as [|e0 c IH]; intros i begin Hf j e Hj He; [done|]. cbn [cache_find] in Hf.
  destruct j as [|j].
  - injection Hj as ->. intros <-. destruct (cbuf e); [done| |]; by rewrite Z.eqb_refl in Hf.
  - eapply (IH (i + 1)); [|exact Hj|done].
    destruct (cbuf e0); [done| |]; by destruct (lba e0 =? begin).
Qed.

Lemma cache_find_insert c : forall k i a b pg,
  a <> b -> cache_find k c b = None -> cache_find k (<[i := CacheEntry a pg]> c) b = None.
Proof.
  induction c as [|e c IH]; intros k [|i] a b pg Hab Hf; try done; cbn in *.
  - destruct (Z.eqb_spec a b); [done|]. destruct (cbuf e), pg, (lba e =? b); done.
  - destruct (cbuf e), (lba e =? b); by auto.
Qed.

Lemma uniq_insert c i begin pg :
  (forall j e, c !! j = Some e -> cbuf e <> BufNull -> lba e = begin -> j = i) -> uniq c ->
  uniq (<[i := CacheEntry begin pg]> c).
Proof.
  intros Hnew Hu j k e e' Hj Hk He He' Hl.
  apply list_lookup_insert_Some in Hj as [(-> & <- & _)|[Hij Hj]];
    apply list_lookup_insert_Some in Hk as [(<- & <- & _)|[Hik Hk]].
  - done.
  - simpl in Hl. symmetry. by eapply Hnew.
  - simpl in Hl. by eapply Hnew.
  - by eapply Hu.
Qed.

(** One sector from the device. *)
Lemma hal_disk_read_ok id begin buf s b d :
  0 <= id < HAL_BLOCK_MAX -> zget (hal_block_map s) id = Some b -> driver b = Some d ->
  0 <= u32 begin < dsize d -> 512 <= zlen buf ->
  exists r d', hal_disk_read id begin 1 buf s
    = Ret (r, splice 0 (dsector d (u32 begin)) buf,
           put_block s id (BlkDev (Some d') (cache b) (cache_next b) (cache_lock b)))
    /\ 0 <= r /\ same_disk d d'.
Proof.
  intros Hid Hz Hd Hr Hb. unfold hal_disk_read.
  destruct (Z.leb_spec HAL_BLOCK_MAX id); [lia|]. rewrite Hz. simpl. rewrite Hd.
  destruct (block_read_law d (u32 begin) buf Hr Hb) as (r & d' & -> & Hr0 & Hsame).
  erewrite set_block_put by done. simpl. exists r, d'. split; [done|]. split; [done|exact Hsame].
Qed.

Lemma hal_disk_write_ok id begin buf s b d :
  0 <= id < HAL_BLOCK_MAX -> zget (hal_block_map s) id = Some b -> driver b = Some d ->
  0 <= u32 begin < dsize d -> 512 <= zlen buf ->
  exists r d', hal_disk_write id begin 1 buf s
    = Ret (r, put_block s id (BlkDev (Some d') (cache b) (cache_next b) (cache_lock b)))
    /\ 0 <= r /\ dsize d' = dsize d /\
    forall i, dsector d' i = if decide (i = u32 begin) then slice 0 512 buf else dsector d i.
Proof.
  intros Hid Hz Hd Hr Hb. unfold hal_disk_write.
  destruct (Z.leb_spec HAL_BLOCK_MAX id); [lia|]. rewrite Hz. simpl. rewrite Hd.
  destruct (block_write_law d (u32 begin) buf Hr Hb) as (r & d' & -> & Hr0 & Hs & Hsec).
  erewrite set_block_put by done. simpl. exists r, d'. auto.
Qed.

Lemma coherent_cached id s b d :
  zget (hal_block_map s) id = Some b -> coherent d b -> cached_block id s = Ret b.
Proof.
  intros Hz (_ & Hl & _). unfold cached_block. rewrite Hz. simpl.
  destruct (cache b); [done|]. done.
Qed.

(** A hit: the copy in the cache is the sector. *)
Lemma read_lookup_hit id begin buf s b d k p :
  zget (hal_block_map s) id = Some b -> coherent d b ->
  cache_find 0 (cache b) begin = Some (k, p) -> 0 <= u32 begin < dsize d ->
  read_lookup junk id begin buf s
    = Ret (Some (splice 0 (dsector d (u32 begin)) buf), put_block s id b).
Proof.
  intros Hz Hc Hf Hr. unfold read_lookup. rewrite (coherent_cached _ _ _ _ Hz Hc). simpl.
  destruct Hc as (Hd & Hl & Hn & Hk & Hu & Hall). rewrite Hk, Hf. simpl.
  destruct (cache_find_Some _ _ _ _ _ Hf) as (_ & Hp & Hg).
  pose proof (Forall_zget _ _ _ _ Hall Hg) as He. unfold entry_ok in He. simpl in He.
  destruct p as [|bs|]; [done| |done].
  erewrite set_block_put by done. simpl. rewrite (proj2 (proj2 He) Hr).
  do 3 f_equal. destruct b; simpl in *. by subst.
Qed.

(** A miss reserves the slot [cache_next]. *)
Definition slot_page (b : BlockDevice D) : list Z :=
  match zget (cache b) (cache_next b) with Some (CacheEntry _ (BufPage bs)) => bs | _ => junk end.

Definition slot_new (b : BlockDevice D) : Z :=
  match zget (cache b) (cache_next b) with Some (CacheEntry _ BufNull) => 1 | _ => 0 end.

Definition reserve (b : BlockDevice D) (begin : Z) (bs : list Z) : list BlockCache :=
  <[Z.to_nat (cache_next b) := CacheEntry begin (BufPage bs)]> (cache b).

Lemma slot_page_length d b : coherent d b -> 512 <= zlen (slot_page b).
Proof.
  intros (_ & _ & _ & _ & _ & Hall). unfold slot_page.
  destruct (zget (cache b) (cache_next b)) as [[l [|bs|]]|] eqn:Hg; auto.
  by destruct (Forall_zget _ _ _ _ Hall Hg) as (_ & ? & _).
Qed.

Lemma read_lookup_miss id begin buf s b d e :
  zget (hal_block_map s) id = Some b -> driver b = Some d -> cache_lock b = false ->
  zget (cache b) (cache_next b) = Some e -> cbuf e <> BufFreed ->
  cache_find 0 (cache b) begin = None ->
  read_lookup junk id begin buf s
    = Ret (None, add_pages (slot_new b)
         (put_block s id (BlkDev (Some d) (reserve b begin (slot_page b)) (cache_next b) false))).
Proof.
  intros Hz Hd Hk Hg He Hf. unfold read_lookup, cached_block. rewrite Hz. simpl.
  pose proof (zget_Some _ _ _ Hg) as Hn.
  destruct (cache b) as [|e0 c0] eqn:Ec; [simpl in Hn; unfold zlen in Hn; simpl in Hn; lia|].
  rewrite <- Ec in *. simpl. rewrite Hk, Hf. simpl. rewrite Hg. simpl.
  unfold slot_new, slot_page, reserve. rewrite Hg. destruct e as [l [|bs|]]; [| |done]; simpl;
    rewrite zset_Some by lia; simpl; erewrite set_block_put by done; simpl; by rewrite Hd.
Qed.

Lemma coherent_slot d b : coherent d b ->
  exists e, zget (cache b) (cache_next b) = Some e /\ cbuf e <> BufFreed.
Proof.
  intros (Hd & Hl & Hn & Hk & Hu & Hall).
  destruct (zget_is_Some (cache b) (cache_next b)) as [e Hg]; [lia|]. exists e. split; [done|].
  pose proof (Forall_zget _ _ _ _ Hall Hg) as He. unfold entry_ok in He. by destruct (cbuf e).
Qed.

(** Filling the slot: whoever runs it writes the slot [cache_next] names now. *)
Lemma read_fill_ok id begin s d c n lk l bs :
  0 <= id < HAL_BLOCK_MAX ->
  zget (hal_block_map s) id = Some (BlkDev (Some d) c n lk) ->
  zget c n = Some (CacheEntry l (BufPage bs)) -> 512 <= zlen bs -> 0 <= u32 begin < dsize d ->
  exists d', same_disk d d' /\
    read_fill id begin 1 s = Ret (put_block s id
      (BlkDev (Some d') (<[Z.to_nat n := CacheEntry l (BufPage (splice 0 (dsector d (u32 begin)) bs))]> c) n lk)).
Proof.
  intros Hid Hz Hg Hb Hr. unfold read_fill. rewrite Hz. simpl. rewrite Hg. simpl.
  edestruct (hal_disk_read_ok id begin bs) as (r & d' & -> & _ & Hsame); [done..|].
  simpl. erewrite zget_put by done. simpl.
  rewrite zset_Some by (by apply zget_Some in Hg). simpl.
  erewrite set_block_put by (by eapply zget_put). rewrite put_put. eauto.
Qed.

Lemma read_copy_ok id buf s d c n l bs :
  zget (hal_block_map s) id = Some (BlkDev d c n false) ->
  zget c n = Some (CacheEntry l (BufPage bs)) ->
  read_copy id buf s = Ret (splice 0 (slice 0 512 bs) buf,
    put_block s id (BlkDev d c (if 512 <=? n + 1 then 0 else n + 1) false)).
Proof.
  intros Hz Hg. unfold read_copy. rewrite Hz. simpl. rewrite Hg. simpl.
  by erewrite set_block_put by done.
Qed.

Lemma coherent_filled d d' b begin bs n' :
  coherent d b -> cache_find 0 (cache b) begin = None -> is_s32 begin ->
  same_disk d d' -> 0 <= n' < 512 -> 512 <= zlen bs ->
  (0 <= u32 begin < dsize d -> slice 0 512 bs = dsector d (u32 begin)) ->
  coherent d' (BlkDev (Some d') (reserve b begin bs) n' false).
Proof.
  intros (Hd & Hl & Hn & Hk & Hu & Hall) Hf Hb Hsame Hn' Hlen Hs. unfold coherent, reserve; simpl.
  split_and!; try done; try lia.
  - unfold zlen in *. by rewrite length_insert.
  - apply uniq_insert; [|done]. intros j e Hj He Hl'. by destruct (cache_find_None _ _ _ Hf j e).
  - apply Forall_insert.
    + eapply Forall_impl; [done|]. intros. by eapply entry_ok_same.
    + unfold entry_ok; simpl. destruct Hsame as [-> Hsec]. rewrite Hsec. auto.
Qed.

Lemma slice_splice_512 d i (bs : list Z) : 512 <= zlen bs -> slice 0 512 (splice 0 (dsector d i) bs) = dsector d i.
Proof. intros. rewrite <- (dsector_length d i). apply slice_splice_0. by rewrite dsector_length. Qed.

Lemma hal_ok_put s id b d : hal_ok s id d -> forall d', coherent d' b -> hal_ok (put_block s id b) id d'.
Proof. intros [Hid (b0 & Hz & _)] d' Hc. split; [done|]. exists b. split; [by eapply zget_put|done]. Qed.

(** A cached one-sector read returns the sector the device holds, leaves
    the device contents, the other devices and the partition map alone, and
    keeps the cache coherent; hits and misses look the same to the caller. *)
Lemma hal_block_read_ok id begin buf s d :
  hal_ok s id d -> is_s32 begin -> 0 <= u32 begin < dsize d -> 512 <= zlen buf ->
  exists s' d', hal_block_read junk id begin 1 buf s = Ret (0, splice 0 (dsector d (u32 begin)) buf, s')
    /\ hal_ok s' id d' /\ same_disk d d' /\ frame id s s'.
Proof.
  intros Hok Hs Hr Hb. pose proof Hok as [Hid (b & Hz & Hc)]. unfold hal_block_read.
  change (1 <? 1) with false. cbn iota.
  destruct (cache_find 0 (cache b) begin) as [[k p]|] eqn:Hf.
  - erewrite read_lookup_hit by done. simpl. eexists _, d. split; [done|].
    split; [by apply (hal_ok_put s id b d)|]. split; [done|]. by apply frame_put; [lia|].
  - pose proof (slot_page_length _ _ Hc) as Hlen. pose proof Hc as (Hd & Hl & Hn & Hk & Hu & Hall).
    destruct (coherent_slot _ _ Hc) as (e & Hg & He).
    erewrite read_lookup_miss by done. simpl.
    set (b1 := BlkDev _ (reserve _ _ _) _ _). set (s1 := add_pages _ _).
    assert (Hz1 : zget (hal_block_map s1) id = Some b1) by (by eapply zget_put).
    edestruct (read_fill_ok id begin s1) as (d' & Hsame & ->); [done..| |done|done|].
    { unfold reserve. apply zget_insert_eq. lia. }
    simpl. unfold reserve. rewrite list_insert_insert_eq.
    erewrite read_copy_ok; [|by eapply zget_put|apply zget_insert_eq; lia].
    rewrite slice_splice_512 by done. simpl. rewrite put_put.
    eexists _, d'. split; [done|]. split_and!; [|done|].
    + split; [done|]. eexists. split; [by eapply zget_put|].
      apply (coherent_filled d d' b); [done..|destruct (Z.leb_spec 512 (cache_next b + 1)); lia| |].
      * rewrite splice_length; rewrite ?dsector_length; lia.
      * intros _. by apply slice_splice_512.
    + apply frame_put; [lia|]. apply frame_pages. by apply frame_put; [lia|].
Qed.

(** The device after a write of one sector. *)
Definition wrote_disk (d d' : D) (i : Z) (bs : list Z) : Prop :=
  dsize d' = dsize d /\ forall j, dsector d' j = if decide (j = i) then bs else dsector d j.

Lemma entry_ok_wrote d d' begin bs e :
  wrote_disk d d' (u32 begin) bs -> is_s32 begin -> (cbuf e <> BufNull -> lba e <> begin) ->
  entry_ok d e -> entry_ok d' e.
Proof.
  intros [Hsz Hsec] Hb Hne. unfold entry_ok. destruct (cbuf e); [done| |done].
  intros (Hi & Hlen & Hs). split_and!; [done..|]. rewrite Hsz, Hsec. intros Hr.
  rewrite decide_False; [by apply Hs|]. intros Heq. by apply Hne; [|apply s32_inj].
Qed.

Lemma coherent_wrote_miss d d' b begin bs :
  coherent d b -> cache_find 0 (cache b) begin = None -> is_s32 begin ->
  wrote_disk d d' (u32 begin) bs ->
  coherent d' (BlkDev (Some d') (cache b) (cache_next b) false).
Proof.
  intros (Hd & Hl & Hn & Hk & Hu & Hall) Hf Hb Hw. split_and!; simpl; try done; try lia.
  apply Forall_lookup. intros j e Hj. eapply entry_ok_wrote; [done..| |by eapply Forall_lookup].
  by eapply cache_find_None.
Qed.

Lemma coherent_wrote_hit d d' b begin bs k pg :
  coherent d b -> cache_find 0 (cache b) begin = Some (k, pg) -> is_s32 begin -> 512 <= zlen bs ->
  wrote_disk d d' (u32 begin) (slice 0 512 bs) ->
  coherent d' (BlkDev (Some d') (<[Z.to_nat k := CacheEntry begin (BufPage bs)]> (cache b)) (cache_next b) false).
Proof.
  intros (Hd & Hl & Hn & Hk & Hu & Hall) Hf Hb Hlen Hw.
  destruct (cache_find_Some _ _ _ _ _ Hf) as (Hk0 & Hpg & [_ Hg]%zget_lookup).
  rewrite Z.sub_0_r in Hg.
  assert (Honly : forall j e, cache b !! j = Some e -> cbuf e <> BufNull -> lba e = begin -> j = Z.to_nat k).
  { intros j e Hj He Hle. by eapply Hu. }
  split_and!; simpl; try done; try lia.
  - unfold zlen in *. by rewrite length_insert.
  - by apply uniq_insert.
  - apply Forall_lookup. intros j e [(<- & <- & _)|[Hij Hj]]%list_lookup_insert_Some.
    + split_and!; [done..|]. intros _. destruct Hw as [_ ->]. by rewrite decide_True.
    + eapply entry_ok_wrote; [done..| |by eapply Forall_lookup].
      intros He Hle. by apply Hij, eq_sym, (Honly j e).
Qed.

(** A one-sector write goes through the cache to the device and changes
    that sector only; the cache stays coherent with the new contents. *)
Lemma hal_block_write_ok id begin buf s d :
  hal_ok s id d -> is_s32 begin -> 0 <= u32 begin < dsize d -> 512 <= zlen buf ->
  exists r s' d', hal_block_write id begin 1 buf s = Ret (r, s') /\ 0 <= r
    /\ hal_ok s' id d' /\ wrote_disk d d' (u32 begin) (slice 0 512 buf) /\ frame id s s'.
Proof.
  intros Hok Hs Hr Hb. pose proof Hok as [Hid (b & Hz & Hc)]. unfold hal_block_write.
  change (1 <? 1) with false. simpl. erewrite coherent_cached by done. simpl.
  pose proof Hc as (Hd & Hl & Hn & Hk & Hu & Hall). rewrite Hk. simpl.
  destruct (cache_find 0 (cache b) begin) as [[k p]|] eqn:Hf.
  - destruct (cache_find_Some _ _ _ _ _ Hf) as (Hk0 & Hp & Hg). rewrite Z.sub_0_r in Hg.
    pose proof (Forall_zget _ _ _ _ Hall Hg) as He.
    unfold entry_ok in He; simpl in He. destruct p as [|bs|]; [done| |done].
    destruct He as (_ & Hlen & _).
    assert (Hsl : zlen (slice 0 512 buf) = 512) by (apply slice_length; lia).
    set (bs' := splice 0 (slice 0 512 buf) bs).
    assert (Hbs' : slice 0 512 bs' = slice 0 512 buf).
    { unfold bs'. rewrite <- Hsl at 1. apply slice_splice_0. lia. }
    assert (Hlen' : 512 <= zlen bs') by (unfold bs'; rewrite splice_length; lia).
    rewrite zset_Some by (by apply zget_Some in Hg). simpl.
    erewrite set_block_put by done. simpl.
    edestruct (hal_disk_write_ok id begin bs') as (r & d' & -> & Hr0 & Hw);
      [done|by eapply zget_put|done|done|done|].
    rewrite put_put. rewrite Hbs' in Hw. eexists r, _, d'. split_and!; [done|done| | |].
    + eapply hal_ok_put; [done|]. apply (coherent_wrote_hit d d' b begin bs' k (BufPage bs)); [done..|]. by rewrite Hbs'.
    + done.
    + by apply frame_put; [lia|].
  - simpl. erewrite set_block_put by done. simpl.
    edestruct (hal_disk_write_ok id begin buf) as (r & d' & -> & Hr0 & Hw);
      [done|by eapply zget_put|done|done|done|].
    rewrite put_put. eexists r, _, d'. split_and!; [done|done| | |].
    + eapply hal_ok_put; [done|]. by apply (coherent_wrote_miss d d' b begin (slice 0 512 buf)).
    + done.
    + by apply frame_put; [lia|].
Qed.

(** *** The cache against a plain array of sectors

    A client's sequence of one-sector operations, run on the cached device and
    on the abstract disk: a function from sector numbers to contents. *)
Inductive blk_op :=
| OpRead (begin : Z) (buf : list Z)
| OpWrite (begin : Z) (buf : list Z).

Definition op_ok (size : Z) (o : blk_op) : Prop :=
  match o with
  | OpRead begin buf | OpWrite begin buf =>
    is_s32 begin /\ 0 <= u32 begin < size /\ 512 <= zlen buf
  end.

Fixpoint run_hal (id : Z) (ops : list blk_op) (s : hal D) : outcome (list (list Z) * hal D) :=
  match ops with
  | [] => Ret ([], s)
  | OpRead begin buf :: ops' =>
    '(r, buf', s1) <- hal_block_read junk id begin 1 buf s ;;
    if r <? 0 then Fault else
    '(out, s2) <- run_hal id ops' s1 ;; Ret (buf' :: out, s2)
  | OpWrite begin buf :: ops' =>
    '(r, s1) <- hal_block_write id begin 1 buf s ;;
    if r <? 0 then Fault else run_hal id ops' s1
  end.

Fixpoint run_disk (ops : list blk_op) (f : Z -> list Z) : list (list Z) :=
  match ops with
  | [] => []
  | OpRead begin buf :: ops' => splice 0 (f (u32 begin)) buf :: run_disk ops' f
  | OpWrite begin buf :: ops' =>
    run_disk ops' (fun i => if decide (i = u32 begin) then slice 0 512 buf else f i)
  end.

Lemma run_disk_ext ops : forall f g, (forall i, f i = g i) -> run_disk ops f = run_disk ops g.
Proof.
  induction ops as [|[b buf|b buf] ops IH]; intros f g Hfg; simpl; [done| |].
  - rewrite Hfg. f_equal. by apply IH.
  - apply IH. intros i. by destruct (decide (i = u32 b)).
Qed.

(** C4: refinement.  Any sequence of one-sector reads and writes through the
    sector cache succeeds and returns exactly what the same sequence returns on
    a plain array of sectors holding the device's initial contents: the cache
    is never visible to its clients. *)
Theorem cache_refines_disk id ops s d :
  hal_ok s id d -> Forall (op_ok (dsize d)) ops ->
  exists s', run_hal id ops s = Ret (run_disk ops (dsector d), s').
Proof.
  revert s d. induction ops as [|[b buf|b buf] ops IH]; intros s d Hok Hops; simpl; [eauto| |].
  all: apply Forall_cons in Hops as [(Hs & Hr & Hb) Hops].
  - destruct (hal_block_read_ok id b buf s d) as (s1 & d' & -> & Hok1 & [Hsz Hsec] & _); [done..|].
    simpl. destruct (IH s1 d') as [s' ->]; [done|by rewrite Hsz|]. simpl.
    rewrite (run_disk_ext ops _ _ Hsec). eauto.
  - destruct (hal_block_write_ok id b buf s d) as (r & s1 & d' & -> & Hr0 & Hok1 & [Hsz Hsec] & _); [done..|].
    simpl. destruct (Z.ltb_spec r 0); [lia|].
    destruct (IH s1 d') as [s' ->]; [done|by rewrite Hsz|]. simpl.
    rewrite (run_disk_ext ops _ _ Hsec). eauto.
Qed.

(** *** Two readers at once *)

(** the cache is not safe for concurrent readers.  [hal_block_read] drops
    the lock between reserving the slot and filling it, and [cache_next] only
    moves on afterwards, so a second reader that misses in between reserves the
    same slot: if both have filled it when the first one copies it out, the
    reader of sector [a] gets the contents of sector [b]. *)
Theorem concurrent_reads_mix_sectors id a b buf bufb s d blk :
  0 <= id < HAL_BLOCK_MAX -> zget (hal_block_map s) id = Some blk -> coherent d blk ->
  cache_find 0 (cache blk) a = None -> cache_find 0 (cache blk) b = None -> a <> b ->
  0 <= u32 a < dsize d -> 0 <= u32 b < dsize d ->
  exists s1 s2 s3 s4 s5,
    read_lookup junk id a buf s = Ret (None, s1) /\
    read_lookup junk id b bufb s1 = Ret (None, s2) /\
    read_fill id a 1 s2 = Ret s3 /\
    read_fill id b 1 s3 = Ret s4 /\
    read_copy id buf s4 = Ret (splice 0 (dsector d (u32 b)) buf, s5).
Proof.
  intros Hid Hz Hc Ha Hb Hab Hra Hrb. pose proof (slot_page_length _ _ Hc) as Hlen.
  pose proof Hc as (Hd & Hl & Hn & Hk & _). destruct (coherent_slot _ _ Hc) as (e & Hg & He).
  assert (Hres : forall x bs, zget (reserve blk x bs) (cache_next blk) = Some (CacheEntry x (BufPage bs))).
  { intros. unfold reserve. apply zget_insert_eq. lia. }
  set (b1 := BlkDev (Some d) (reserve blk a (slot_page blk)) (cache_next blk) false).
  set (s1 := add_pages (slot_new blk) (put_block s id b1)).
  assert (Hz1 : zget (hal_block_map s1) id = Some b1) by (by eapply zget_put).
  assert (Hsp : slot_page b1 = slot_page blk) by (unfold slot_page at 1; simpl; by rewrite Hres).
  set (b2 := BlkDev (Some d) (reserve b1 b (slot_page b1)) (cache_next b1) false).
  set (s2 := add_pages (slot_new b1) (put_block s1 id b2)).
  assert (Hz2 : zget (hal_block_map s2) id = Some b2) by (by eapply zget_put).
  assert (Hg2 : zget (reserve b1 b (slot_page b1)) (cache_next blk) = Some (CacheEntry b (BufPage (slot_page blk)))).
  { rewrite Hsp. unfold reserve at 1. simpl. apply zget_insert_eq. unfold reserve, zlen in *.
    rewrite length_insert. lia. }
  destruct (read_fill_ok id a s2 d _ _ _ _ _ Hid Hz2 Hg2 Hlen Hra) as (d3 & [Hsz3 Hsec3] & H3).
  match type of H3 with _ = Ret (put_block _ _ ?x) => pose proof (zget_put _ x _ _ Hz2) as Hz3 end.
  edestruct (read_fill_ok id b) as (d4 & [Hsz4 Hsec4] & H4); [done|exact Hz3| | |by rewrite Hsz3|].
  { apply zget_insert_eq. by apply zget_Some in Hg2. }
  { rewrite splice_length; rewrite ?dsector_length; lia. }
  match type of H4 with _ = Ret (put_block _ _ ?x) => pose proof (zget_put _ x _ _ Hz3) as Hz4 end.
  eexists s1, s2, _, _, _. split_and!; [| |exact H3|exact H4|].
  - by eapply read_lookup_miss.
  - by eapply (read_lookup_miss id b); [done|done|done|apply Hres|done|apply cache_find_insert].
  - erewrite read_copy_ok; [|exact Hz4|apply zget_insert_eq].
    + rewrite slice_splice_512, Hsec3; [done|]. rewrite splice_length; rewrite ?dsector_length; lia.
    + apply zget_Some in Hg2. unfold zlen in *. by rewrite length_insert.
Qed.

Lemma cache_find_freed c : forall i begin k p,
  cache_find i c begin = Some (k, p) -> cache_find i (map free_entry c) begin = Some (k, BufFreed).
Proof.
  induction c as [|e c IH]; intros i begin k p Hf; [done|]. cbn in *. unfold free_entry.
  destruct (cbuf e) eqn:Ec; [rewrite Ec; by eapply IH| |]; cbn;
    (destruct (lba e =? begin); [by simplify_eq|by eapply IH]).
Qed.

(** a multi-sector write frees every page of the cache but leaves the
    pointers in the entries; when its first sector is one of those cached the
    very same call goes on to copy the data into a page it has just freed. *)
Theorem multi_sector_write_uses_freed_page id begin count buf s d blk k p :
  0 <= id < HAL_BLOCK_MAX -> 1 < count ->
  zget (hal_block_map s) id = Some blk -> coherent d blk ->
  cache_find 0 (cache blk) begin = Some (k, p) ->
  hal_block_write id begin count buf s = Fault.
Proof.
  intros Hid Hcnt Hz Hc Hf. pose proof Hc as (Hd & Hl & Hn & Hk & _). unfold hal_block_write.
  destruct (Z.ltb_spec 1 count); [|lia]. rewrite (coherent_cached _ _ _ _ Hz Hc). simpl.
  erewrite set_block_put by done. simpl. unfold hal_disk_write.
  destruct (Z.leb_spec HAL_BLOCK_MAX id); [lia|].
  pose proof (zget_put _ (BlkDev (driver blk) (map free_entry (cache blk)) (cache_next blk) (cache_lock blk)) _ _ Hz) as Hz1.
  unfold add_pages; simpl. rewrite Hz1. simpl. rewrite Hd in *.
  destruct (block_write (u32 begin) count buf d) as [r d'].
  erewrite set_block_put by exact Hz1. simpl. unfold cached_block.
  erewrite zget_put by exact Hz1. cbn [of_option obind cache].
  destruct (map free_entry (cache blk)) eqn:Em; [done|]. rewrite <- Em.
  cbn [obind cache cache_lock]. rewrite Hk. cbn [acquire_b obind].
  by rewrite (cache_find_freed _ _ _ _ _ Hf).
Qed.

(** *** The partition map *)

(** A map filled from the front. *)
Definition layout (used : list HalPartitionMap) : list HalPartitionMap :=
  used ++ repeat empty_partition (8 - length used).

Definition with_parts (s : hal D) (used : list HalPartitionMap) : hal D :=
  Hal (hal_block_map s) (layout used) (hal_pages s).

Definition in_use (p : HalPartitionMap) : Prop := fs_type p <> HAL_PARTITION_TYPE_NONE.

Lemma insert_app used m p : Forall in_use used ->
  hal_partition_map_insert (used ++ m) p =
  match hal_partition_map_insert m p with None => None | Some m' => Some (used ++ m') end.
Proof.
  induction 1 as [|q used Hq _ IH]; simpl; [by destruct (hal_partition_map_insert m p)|].
  rewrite decide_False by done. rewrite IH. by destruct (hal_partition_map_insert m p).
Qed.

Lemma insert_layout used p : Forall in_use used -> (length used <= 8)%nat ->
  hal_partition_map_insert (layout used) p =
  if decide (length used = 8)%nat then None else Some (layout (used ++ [p])).
Proof.
  intros Hu Hl. unfold layout at 1. rewrite insert_app by done. case_decide as Hd.
  - by rewrite Hd.
  - destruct (8 - length used)%nat as [|n] eqn:En; [lia|]. simpl. unfold layout.
    rewrite length_app. simpl. replace (8 - (length used + 1))%nat with n by lia.
    by rewrite <- app_assoc.
Qed.

(** Inserting a list of partitions one after the other. *)
Fixpoint insert_all (ps : list HalPartitionMap) (s : hal D) : outcome (hal D) :=
  match ps with
  | [] => Ret s
  | p :: ps' => s' <- insert_partition p s ;; insert_all ps' s'
  end.

Lemma insert_all_layout ps : forall used s,
  hal_partition_map s = layout used -> Forall in_use used -> Forall in_use ps ->
  (length used <= 8)%nat ->
  insert_all ps s = if decide (length (used ++ ps) <= 8)%nat then Ret (with_parts s (used ++ ps))
                    else Panic "hal too many partition".
Proof.
  induction ps as [|p ps IH]; intros used s Hm Hu Hps Hl; simpl.
  - rewrite app_nil_r, decide_True by done. unfold with_parts. rewrite <- Hm. by destruct s.
  - apply Forall_cons in Hps as [Hp Hps]. unfold insert_partition. rewrite Hm, insert_layout by done.
    destruct (decide (length used = 8)%nat) as [E|E]; simpl.
    + rewrite decide_False; [done|]. rewrite length_app. simpl. lia.
    + rewrite (IH (used ++ [p])); [|done| |done|].
      * unfold with_parts. simpl. by rewrite <- app_assoc.
      * apply Forall_app. auto.
      * rewrite length_app. simpl. lia.
Qed.

Lemma insert_all_app ps qs s : insert_all (ps ++ qs) s = (s' <- insert_all ps s ;; insert_all qs s').
Proof.
  revert s. induction ps as [|p ps IH]; intros s; simpl; [done|].
  destruct (insert_partition p s); simpl; auto.
Qed.

(** The partitions a boot sector, a table sector and a device describe. *)
Definition mbr_parts (id : Z) (sect : list Z) : list HalPartitionMap :=
  flat_map (fun j => let '(type, start, size) := mbr_entry sect j in
    if type =? 0 then [] else [Partition (mbr_fs_type type) (u32 id) start size]) [0; 1; 2; 3].

Definition gpt_parts (id : Z) (sect : list Z) : list HalPartitionMap :=
  flat_map (fun j => let '(upper, lower, first, last) := gpt_entry sect j in
    if (lower =? 0) && (upper =? 0) then []
    else [Partition (gpt_fs_type lower upper) (u32 id) (u32 first) (u32 (u64 (u32 last - first + 1)))])
    [0; 1; 2; 3].

Definition is_gpt (d : D) : bool := get64 0 (dsector d 1) =? GPT_HEADER_SIGNATURE.

Definition disk_parts (id : Z) (d : D) : list HalPartitionMap :=
  if is_gpt d then flat_map (fun k => gpt_parts id (dsector d k)) (seqZ 2 32)
  else mbr_parts id (dsector d 0).

Lemma mbr_loop_insert id sect js s :
  mbr_loop id sect js s = insert_all (flat_map (fun j => let '(type, start, size) := mbr_entry sect j in
    if type =? 0 then [] else [Partition (mbr_fs_type type) (u32 id) start size]) js) s.
Proof.
  revert s. induction js as [|j js IH]; intros s; [done|]. cbn [mbr_loop flat_map].
  destruct (mbr_entry sect j) as [[type start] size]. destruct (type =? 0); simpl; [apply IH|].
  destruct (insert_partition _ s); simpl; auto.
Qed.

Lemma gpt_entries_insert id sect js s :
  gpt_entries id sect js s = insert_all (flat_map (fun j => let '(upper, lower, first, last) := gpt_entry sect j in
    if (lower =? 0) && (upper =? 0) then []
    else [Partition (gpt_fs_type lower upper) (u32 id) (u32 first) (u32 (u64 (u32 last - first + 1)))]) js) s.
Proof.
  revert s. induction js as [|j js IH]; intros s; [done|]. cbn [gpt_entries flat_map].
  destruct (gpt_entry sect j) as [[[upper lower] first] last].
  destruct ((lower =? 0) && (upper =? 0)); simpl; [apply IH|].
  destruct (insert_partition _ s); simpl; auto.
Qed.

Lemma mbr_parts_in_use id sect : Forall in_use (mbr_parts id sect).
Proof.
  apply Forall_flat_map, Forall_true. intros j. destruct (mbr_entry sect j) as [[type start] size].
  destruct (type =? 0); constructor; [|done]. unfold in_use, mbr_fs_type; simpl.
  by destruct (type =? 11), (type =? 12), (type =? 131).
Qed.

Lemma gpt_parts_in_use id sect : Forall in_use (gpt_parts id sect).
Proof.
  apply Forall_flat_map, Forall_true. intros j. destruct (gpt_entry sect j) as [[[upper lower] first] last].
  destruct ((lower =? 0) && (upper =? 0)); constructor; [|done]. unfold in_use, gpt_fs_type; simpl.
  by repeat case_match.
Qed.

(** The state once a scan of device [id] has found the partitions [used]. *)
Definition scanned (s : hal D) (id : Z) (b : BlockDevice D) (d : D) (used : list HalPartitionMap) : hal D :=
  Hal (<[Z.to_nat id := BlkDev (Some d) (cache b) (cache_next b) (cache_lock b)]> (hal_block_map s))
    (layout used) (hal_pages s).

Lemma probe_read id k s b d :
  0 <= id < HAL_BLOCK_MAX -> zget (hal_block_map s) id = Some b -> driver b = Some d ->
  0 <= u32 k < dsize d ->
  exists r d', 0 <= r /\ same_disk d d' /\
    hal_disk_read id k 1 junk (add_pages 1 s) =
    Ret (r, splice 0 (dsector d (u32 k)) junk,
      add_pages 1 (put_block s id (BlkDev (Some d') (cache b) (cache_next b) (cache_lock b)))).
Proof.
  intros Hid Hz Hd Hr.
  destruct (hal_disk_read_ok id k junk (add_pages 1 s) b d) as (r & d' & -> & Hr0 & Hs); [done..|].
  by exists r, d'.
Qed.

Lemma probe_insert s id b d' ps used :
  hal_partition_map s = layout used -> Forall in_use used -> Forall in_use ps ->
  (length (used ++ ps) <= 8)%nat ->
  (s2 <- insert_all ps (add_pages 1 (put_block s id (BlkDev (Some d') (cache b) (cache_next b) (cache_lock b)))) ;;
   Ret (add_pages (-1) s2)) = Ret (scanned s id b d' (used ++ ps)).
Proof.
  intros Hm Hu Hps Hl. rewrite (insert_all_layout _ used); [|done..|rewrite length_app in Hl; lia].
  rewrite decide_True by done. unfold with_parts, add_pages, scanned. simpl. do 2 f_equal.
  change (hal_pages s + 1 + -1 = hal_pages s). lia.
Qed.

Lemma mbr_parts_splice id sec : zlen sec = 512 -> mbr_parts id (splice 0 sec junk) = mbr_parts id sec.
Proof.
  intros Hs. unfold mbr_parts. cbn [flat_map]. unfold mbr_entry, get32.
  rewrite !slice_splice_prefix; [done|lia..].
Qed.

Lemma gpt_parts_splice id sec : zlen sec = 512 -> gpt_parts id (splice 0 sec junk) = gpt_parts id sec.
Proof.
  intros Hs. unfold gpt_parts. cbn [flat_map]. unfold gpt_entry, get64.
  rewrite !slice_splice_prefix; [done|lia..].
Qed.

Lemma mbr_probe_ok id s b d used :
  0 <= id < HAL_BLOCK_MAX -> zget (hal_block_map s) id = Some b -> driver b = Some d -> 0 < dsize d ->
  hal_partition_map s = layout used -> Forall in_use used ->
  (length (used ++ mbr_parts id (dsector d 0)) <= 8)%nat ->
  exists d', same_disk d d' /\
    mbr_probe_partition junk id s = Ret (scanned s id b d' (used ++ mbr_parts id (dsector d 0))).
Proof.
  intros Hid Hz Hd Hr Hm Hu Hl. unfold mbr_probe_partition.
  destruct (probe_read id 0 s b d) as (r & d' & Hr0 & Hs & ->); [done..|]. cbn [obind].
  destruct (Z.ltb_spec r 0); [lia|]. exists d'. split; [done|]. rewrite mbr_loop_insert.
  fold (mbr_parts id (splice 0 (dsector d (u32 0)) junk)). rewrite mbr_parts_splice by apply dsector_length.
  apply probe_insert; [done..|apply mbr_parts_in_use|done].
Qed.

Lemma zget_scanned s id b b0 d used : zget (hal_block_map s) id = Some b0 ->
  zget (hal_block_map (scanned s id b d used)) id = Some (BlkDev (Some d) (cache b) (cache_next b) (cache_lock b)).
Proof. intros Hz%zget_Some. by apply zget_insert_eq. Qed.

Lemma same_disk_trans d1 d2 d3 : same_disk d1 d2 -> same_disk d2 d3 -> same_disk d1 d3.
Proof. intros [H1 H2] [H3 H4]. split; [congruence|]. intros i. by rewrite H4. Qed.

Lemma gpt_sectors_ok id sectors : forall s b d used,
  0 <= id < HAL_BLOCK_MAX -> zget (hal_block_map s) id = Some b -> driver b = Some d ->
  Forall (fun k => 0 <= k < dsize d /\ k < 2^32) sectors ->
  hal_partition_map s = layout used -> Forall in_use used ->
  (length (used ++ flat_map (fun k => gpt_parts id (dsector d k)) sectors) <= 8)%nat ->
  exists d', same_disk d d' /\ gpt_sectors junk id sectors s =
    Ret (scanned s id b d' (used ++ flat_map (fun k => gpt_parts id (dsector d k)) sectors)).
Proof.
  induction sectors as [|k ks IH]; intros s b d used Hid Hz Hd Hks Hm Hu Hl; cbn [gpt_sectors flat_map] in *.
  - exists d. split; [done|]. rewrite app_nil_r. unfold scanned. destruct s; simpl in *. subst.
    rewrite list_insert_id; [done|]. apply zget_lookup in Hz as [_ ->]. destruct b; simpl in *. by subst.
  - apply Forall_cons in Hks as [[Hk Hk32] Hks].
    assert (Eu : u32 k = k) by (apply u32_small; unfold is_u32; lia).
    destruct (probe_read id k s b d) as (r & d1 & Hr0 & Hs1 & ->); [done|done|done|by rewrite Eu|]. cbn [obind].
    destruct (Z.ltb_spec r 0); [lia|]. rewrite Eu, gpt_entries_insert.
    fold (gpt_parts id (splice 0 (dsector d k) junk)). rewrite gpt_parts_splice by apply dsector_length.
    rewrite app_assoc in Hl.
    assert (Hl1 : (length (used ++ gpt_parts id (dsector d k)) <= 8)%nat) by (rewrite length_app in Hl; lia).
    rewrite (obind_map _ (add_pages (-1)) (gpt_sectors junk id ks)).
    rewrite (probe_insert s id b d1 _ used) by (done || apply gpt_parts_in_use). cbn [obind].
    assert (Efm : flat_map (fun k => gpt_parts id (dsector d1 k)) ks = flat_map (fun k => gpt_parts id (dsector d k)) ks).
    { apply flat_map_ext. intros j. by rewrite (proj2 Hs1). }
    destruct (IH (scanned s id b d1 (used ++ gpt_parts id (dsector d k)))
      (BlkDev (Some d1) (cache b) (cache_next b) (cache_lock b)) d1 (used ++ gpt_parts id (dsector d k)))
      as (d' & Hs' & Hrun); [done|by eapply zget_scanned|done|by rewrite (proj1 Hs1)|done| | |].
    { apply Forall_app. split; [done|apply gpt_parts_in_use]. }
    { by rewrite Efm. }
    exists d'. split; [by eapply same_disk_trans|]. rewrite Hrun, Efm, <- app_assoc.
    unfold scanned. simpl. by rewrite list_insert_insert_eq.
Qed.

(** A table the probe accepts: a GPT header names itself as sector 1. *)
Definition table_ok (d : D) : Prop := is_gpt d = true -> get64 24 (dsector d 1) = 1.

Lemma get64_probe off sec : zlen sec = 512 -> 0 <= off <= 504 ->
  get64 off (splice 0 sec junk) = get64 off sec.
Proof. intros. unfold get64. rewrite slice_splice_prefix by lia. done. Qed.

Lemma scanned_scanned s id b d1 d2 used used' b' :
  cache b' = cache b -> cache_next b' = cache_next b -> cache_lock b' = cache_lock b ->
  scanned (scanned s id b d1 used) id b' d2 used' = scanned s id b d2 used'.
Proof. intros E1 E2 E3. unfold scanned. simpl. by rewrite list_insert_insert_eq, E1, E2, E3. Qed.

Lemma gpt_probe_ok id s b d used :
  0 <= id < HAL_BLOCK_MAX -> zget (hal_block_map s) id = Some b -> driver b = Some d -> 34 <= dsize d ->
  get64 24 (dsector d 1) = 1 -> hal_partition_map s = layout used -> Forall in_use used ->
  (length (used ++ flat_map (fun k => gpt_parts id (dsector d k)) (seqZ 2 32)) <= 8)%nat ->
  exists d', same_disk d d' /\ gpt_probe_partition junk id s =
    Ret (scanned s id b d' (used ++ flat_map (fun k => gpt_parts id (dsector d k)) (seqZ 2 32))).
Proof.
  intros Hid Hz Hd Hr Ht Hm Hu Hl. unfold gpt_probe_partition.
  destruct (probe_read id 1 s b d) as (r & d1 & Hr0 & Hs & ->); [done..|change (u32 1) with 1; lia|]. cbn [obind].
  change (u32 1) with 1. destruct (Z.ltb_spec r 0); [lia|].
  rewrite get64_probe, Ht by (apply dsector_length || lia). simpl negb. cbn iota.
  assert (Es : add_pages (-1) (add_pages 1 (put_block s id (BlkDev (Some d1) (cache b) (cache_next b) (cache_lock b))))
    = scanned s id b d1 used).
  { unfold add_pages, scanned. simpl. rewrite <- Hm. f_equal.
    change (hal_pages s + 1 + -1 = hal_pages s). lia. }
  rewrite Es.
  edestruct (gpt_sectors_ok id (seqZ 2 32) (scanned s id b d1 used) (BlkDev (Some d1) (cache b) (cache_next b) (cache_lock b)) d1 used) as (d' & Hs' & ->);
    [done|by eapply zget_scanned|done| |done|done| |].
  { apply Forall_seqZ. rewrite (proj1 Hs). lia. }
  { erewrite flat_map_ext; [exact Hl|]. intros j. by rewrite (proj2 Hs). }
  exists d'. split; [by eapply same_disk_trans|]. rewrite scanned_scanned by done. do 3 f_equal.
  apply flat_map_ext. intros j. by rewrite (proj2 Hs).
Qed.

Lemma probe_ok id s b d used :
  0 <= id < HAL_BLOCK_MAX -> zget (hal_block_map s) id = Some b -> driver b = Some d -> 34 <= dsize d ->
  table_ok d -> hal_partition_map s = layout used -> Forall in_use used ->
  (length (used ++ disk_parts id d) <= 8)%nat ->
  exists d', same_disk d d' /\
    hal_block_probe_partition junk id s = Ret (scanned s id b d' (used ++ disk_parts id d)).
Proof.
  intros Hid Hz Hd Hr Ht Hm Hu Hl. unfold hal_block_probe_partition.
  destruct (probe_read id 1 s b d) as (r & d1 & Hr0 & Hs & ->); [done..|change (u32 1) with 1; lia|]. cbn [obind].
  change (u32 1) with 1. destruct (Z.ltb_spec r 0); [lia|].
  rewrite get64_probe by (apply dsector_length || lia). fold (is_gpt d).
  set (s1 := add_pages 1 (put_block _ _ _)).
  assert (Hz1 : zget (hal_block_map s1) id = Some (BlkDev (Some d1) (cache b) (cache_next b) (cache_lock b)))
    by (by eapply zget_put).
  assert (Esc : forall d2 l, add_pages (-1) (scanned s1 id (BlkDev (Some d1) (cache b) (cache_next b) (cache_lock b)) d2 l)
    = scanned s id b d2 l).
  { intros. unfold scanned, add_pages. simpl. f_equal; [by apply list_insert_insert_eq|].
    change (hal_pages s + 1 + -1 = hal_pages s). lia. }
  unfold disk_parts in *. destruct (is_gpt d) eqn:Eg.
  - assert (Efm : flat_map (fun k => gpt_parts id (dsector d1 k)) (seqZ 2 32) =
      flat_map (fun k => gpt_parts id (dsector d k)) (seqZ 2 32))
      by (apply flat_map_ext; intros; by rewrite (proj2 Hs)).
    destruct (gpt_probe_ok id s1 _ d1 used Hid Hz1 eq_refl) as (d2 & Hs2 & ->);
      [by rewrite (proj1 Hs)|rewrite (proj2 Hs); auto|done|done|by rewrite Efm|].
    rewrite Efm. exists d2. split; [by eapply same_disk_trans|]. cbn [obind]. by rewrite Esc.
  - destruct (mbr_probe_ok id s1 _ d1 used Hid Hz1 eq_refl) as (d2 & Hs2 & ->);
      [rewrite (proj1 Hs); lia|done|done|by rewrite (proj2 Hs)|].
    rewrite (proj2 Hs). exists d2. split; [by eapply same_disk_trans|]. cbn [obind]. by rewrite Esc.
Qed.

Lemma first_free_block_Some m : forall i k, first_free_block i m = Some k ->
  i <= k < i + zlen m /\ exists b : BlockDevice D, zget m (k - i) = Some b /\ driver b = None.
Proof.
  induction m as [|b m IH]; intros i k Hf; [done|]. cbn in Hf. unfold zlen in *. cbn [length].
  destruct (driver b) eqn:Eb.
  - destruct (IH _ _ Hf) as (Hr & b' & Hz & Hb). split; [lia|]. exists b'. split; [|done].
    rewrite zget_lookup in *. destruct Hz as [Hk Hz]. split; [lia|].
    by replace (Z.to_nat (k - i)) with (S (Z.to_nat (k - (i + 1)))) by lia.
  - injection Hf as ->. split; [lia|]. exists b. by rewrite Z.sub_diag.
Qed.

Lemma repeat_null n (e : BlockCache) : e ∈ repeat (CacheEntry 0 BufNull) n -> e = CacheEntry 0 BufNull.
Proof. by intros Hi%list_elem_of_In%repeat_spec. Qed.

Lemma coherent_fresh d : coherent d (BlkDev (Some d) (repeat (CacheEntry 0 BufNull) 512) 0 false).
Proof.
  split; [done|]. split; [done|]. split; [done|]. split; [done|]. cbn [cache]. split.
  - intros i j e e' Hi _ He. exfalso. apply He.
    apply list_elem_of_lookup_2, repeat_null in Hi. by subst.
  - apply Forall_forall. intros e Hi%repeat_null. by subst.
Qed.

(** a registered device takes the first free slot, every partition its MBR (or, when sector 1
    carries the signature, its GPT) describes is appended to the partition map
    in table order, the cache starts out coherent with the disk, other devices
    are untouched, and one page (the cache array) stays allocated. *)
Theorem register_device_finds_partitions d s used id :
  zlen (hal_block_map s) = HAL_BLOCK_MAX -> first_free_block 0 (hal_block_map s) = Some id ->
  hal_partition_map s = layout used -> Forall in_use used ->
  34 <= dsize d -> table_ok d -> (length (used ++ disk_parts id d) <= 8)%nat ->
  exists s' d', hal_block_register_device junk d s = Ret s' /\
    hal_partition_map s' = layout (used ++ disk_parts id d) /\
    hal_ok s' id d' /\ same_disk d d' /\ hal_pages s' = hal_pages s + 1 /\
    forall j, j <> id -> zget (hal_block_map s') j = zget (hal_block_map s) j.
Proof.
  intros Hlen Hf Hm Hu Hr Ht Hl. unfold hal_block_register_device. rewrite Hf.
  destruct (first_free_block_Some _ _ _ Hf) as (Hid & b & Hz & Hb).
  rewrite Z.sub_0_r in Hz. rewrite Hz. cbn [of_option obind].
  erewrite set_block_put by done. cbn [obind].
  set (b1 := BlkDev (Some d) _ _ _). pose proof (zget_put id b1 _ _ Hz) as Hz1.
  destruct (probe_ok id (put_block s id b1) b1 d used) as (d' & Hs & ->); [lia|done..|]. cbn [obind].
  unfold hal_block_cache_init. rewrite (zget_scanned _ _ _ _ _ _ Hz1). cbn [of_option obind].
  pose proof (zget_scanned _ _ b1 _ d' (used ++ disk_parts id d) Hz1) as Hz2.
  erewrite set_block_put by done. cbn [obind driver]. eexists _, d'. split_and!; [done|done| |done|done|].
  - split; [lia|]. eexists. split; [by eapply zget_put|apply coherent_fresh].
  - intros j Hj. assert (Hfr : frame id s (put_block s id b1)) by (by apply frame_put; [lia|]).
    rewrite <- (proj2 Hfr j Hj). simpl. unfold zget.
    destruct (Z.ltb_spec j 0); [done|]. etrans; [apply list_lookup_insert_ne; lia|].
    apply list_lookup_insert_ne. lia.
Qed.

End coherence.

(** ** A concrete device

    A RAM disk, the smallest driver that satisfies the laws; the examples below
    run the layer on it. *)
Notation ramdisk := (list (list Z)).

Definition ram_sector (d : ramdisk) (i : Z) : list Z :=
  match zget d i with
  | Some s => slice 0 512 (s ++ repeat 0 512)
  | None => repeat 0 512
  end.

#[export] Instance ramdisk_driver : BlockDriver ramdisk := {
  block_read begin count buf d :=
    if (0 <=? begin) && (begin + count <=? zlen d) then
      (0, splice 0 (flat_map (ram_sector d) (seqZ begin count)) buf, d)
    else (ERROR_READ_FAIL, buf, d);
  block_write begin count buf d :=
    if (0 <=? begin) && (begin + count <=? zlen d) then
      (0, fold_right (fun i d' => <[Z.to_nat (begin + i) := slice (i * 512) 512 buf]> d') d (seqZ 0 count))
    else (ERROR_WRITE_FAIL, d)
}.

Lemma ram_sector_length d i : zlen (ram_sector d i) = 512.
Proof.
  unfold ram_sector. destruct (zget d i) as [s|]; [|done].
  apply slice_length; [lia..|]. unfold zlen. rewrite length_app, repeat_length. lia.
Qed.

#[export] Program Instance ramdisk_laws : BlockDriverLaws ramdisk := {
  dsector := ram_sector;
  dsize := zlen;
  dsector_length := ram_sector_length
}.
Next Obligation.
  intros d begin buf Hr Hb. exists 0, d. unfold block_read, ramdisk_driver.
  destruct (Z.leb_spec 0 begin); [|lia]. destruct (Z.leb_spec (begin + 1) (zlen d)); [|lia].
  change (seqZ begin 1) with ([0 + begin]). simpl. by rewrite app_nil_r.
Qed.
Next Obligation.
  intros d begin buf Hr Hb. unfold block_write, ramdisk_driver. eexists 0, _.
  destruct (Z.leb_spec 0 begin); [|lia]. destruct (Z.leb_spec (begin + 1) (zlen d)); [|lia].
  change (seqZ 0 1) with [0]. cbn [fold_right andb]. rewrite Z.add_0_r. change (0 * 512) with 0.
  split; [done|]. split; [lia|]. split; [unfold zlen; by rewrite length_insert|].
  intros i. unfold ram_sector. case_decide as Ei.
  - subst i. rewrite zget_insert_eq by done. unfold slice at 1.
    assert (Hl : zlen (slice 0 512 buf) = 512) by (apply slice_length; lia).
    rewrite drop_0, take_app_le, take_ge; [done|unfold zlen in Hl; lia..].
  - assert (E : zget (<[Z.to_nat begin:=slice 0 512 buf]> d) i = zget d i); [|by rewrite E].
    unfold zget. destruct (Z.ltb_spec i 0); [done|]. apply list_lookup_insert_ne. lia.
Qed.

(** A 34-sector disk whose boot sector has one FAT32 partition, sectors 8..33. *)
Definition ex_mbr : list Z :=
  splice 0x1be [0; 0; 0; 0; 0xc; 0; 0; 0; 8; 0; 0; 0; 26; 0; 0; 0] (repeat 0 512).

Definition ex_disk : ramdisk := ex_mbr :: repeat (repeat 7 512) 33.

Definition ex_junk : list Z := repeat 0xcc 4096.

Definition ex_hal : hal ramdisk :=
  Hal (BlkDev (Some ex_disk) (repeat (CacheEntry 0 BufNull) 512) 0 false :: repeat empty_block 7)
      (layout [Partition HAL_PARTITION_TYPE_FAT32 0 8 26]) 1.

Lemma ex_hal_ok : hal_ok ex_hal 0 ex_disk.
Proof. split; [done|]. eexists. split; [done|apply coherent_fresh]. Qed.

Lemma ex_op_ok begin buf : is_s32 begin -> 0 <= u32 begin < 34 -> 512 <= zlen buf ->
  op_ok (dsize ex_disk) (OpRead begin buf) /\ op_ok (dsize ex_disk) (OpWrite begin buf).
Proof. done. Qed.

Lemma cache_refines_disk_witness :
  let ops := [OpRead 3 ex_junk; OpWrite 3 (repeat 9 512); OpRead 3 ex_junk; OpRead 0 ex_junk] in
  exists s', run_hal ex_junk 0 ops ex_hal = Ret (run_disk ops (dsector ex_disk), s').
Proof.
  apply cache_refines_disk; [done|apply ex_hal_ok|].
  repeat (constructor; [split; [by vm_compute|split; [by vm_compute|done]]|]). constructor.
Defined.

Lemma concurrent_reads_mix_sectors_witness :
  exists s1 s2 s3 s4 s5,
    read_lookup ex_junk 0 0 ex_junk ex_hal = Ret (None, s1) /\
    read_lookup ex_junk 0 1 ex_junk s1 = Ret (None, s2) /\
    read_fill 0 0 1 s2 = Ret s3 /\ read_fill 0 1 1 s3 = Ret s4 /\
    read_copy 0 ex_junk s4 = Ret (splice 0 (repeat 7 512) ex_junk, s5).
Proof.
  assert (E : repeat 7 512 = dsector ex_disk (u32 1)) by (by vm_compute). rewrite E.
  apply (concurrent_reads_mix_sectors ex_junk) with (bufb := ex_junk) (d := ex_disk)
    (blk := BlkDev (Some ex_disk) (repeat (CacheEntry 0 BufNull) 512) 0 false) (b := 1);
    [done|done|done|apply coherent_fresh|done..].
Defined.

(** Sector 0 is cached; the write of two sectors from it faults. *)
Definition ex_cached : BlockDevice ramdisk :=
  BlkDev (Some ex_disk) (<[0%nat := CacheEntry 0 (BufPage ex_mbr)]> (repeat (CacheEntry 0 BufNull) 512)) 1 false.

Lemma ex_cached_coherent : coherent ex_disk ex_cached.
Proof.
  apply (coherent_filled ex_disk ex_disk (BlkDev (Some ex_disk) (repeat (CacheEntry 0 BufNull) 512) 0 false) 0 ex_mbr 1);
    [apply coherent_fresh|done|done|done|done|done|]. intros _. by vm_compute.
Qed.

Lemma multi_sector_write_uses_freed_page_witness :
  hal_block_write 0 0 2 (repeat 1 1024) (Hal (ex_cached :: repeat empty_block 7) (layout []) 2) = Fault.
Proof.
  apply (multi_sector_write_uses_freed_page 0 0 2 _ _ ex_disk ex_cached 0 (BufPage ex_mbr));
    [done|done|done|apply ex_cached_coherent|done].
Defined.

Lemma register_device_finds_partitions_witness :
  exists s' d', hal_block_register_device ex_junk ex_disk (Hal (repeat empty_block 8) (layout []) 0) = Ret s' /\
    hal_partition_map s' = layout [Partition HAL_PARTITION_TYPE_FAT32 0 8 26] /\
    hal_ok s' 0 d' /\ same_disk ex_disk d' /\ hal_pages s' = 0 + 1 /\
    forall j, j <> 0 -> zget (hal_block_map s') j = zget (repeat empty_block 8) j.
Proof.
  assert (E : [Partition HAL_PARTITION_TYPE_FAT32 0 8 26] = [] ++ disk_parts 0 ex_disk) by (by vm_compute).
  rewrite E. apply (register_device_finds_partitions ex_junk); try done.
  rewrite <- E. simpl. lia.
Defined.
