(* ===== verification/Partition.v ===== *)
(** The interface between the block layer and the filesystems: a partition is
    an array of 512-byte sectors ([PartitionStore], [PartitionLaws]), and
    [hal_partition_read] and [hal_partition_write] of kernel/hal/block.c
    implement it on top of the sector cache ([hal_store], [hal_store_laws]). *)

From stdpp Require Import base list strings relations.
From Stdlib Require Import ZArith Lia.
From S2P Require Import Prelude HalBlock.

Local Open Scope Z_scope.
Local Open Scope outcome_scope.

(** [pread id sect buf s]: read sector [sect] of partition [id] into the start
    of [buf].  [pwrite id sect buf s]: write the first 512 bytes of [buf]. *)
Class PartitionStore (S : Type) := {
  pread : Z -> Z -> list Z -> S -> outcome (Z * list Z * S);
  pwrite : Z -> Z -> list Z -> S -> outcome (Z * S)
}.

Class PartitionLaws (S : Type) `{PartitionStore S} := {
  pvalid : S -> Z -> Prop;
  psize : S -> Z -> Z;
  psector : S -> Z -> Z -> list Z;
  psector_length s id i : zlen (psector s id i) = 512;
  pread_law s id sect buf :
    pvalid s id -> 0 <= sect < psize s id -> 512 <= zlen buf ->
    exists r s', pread id sect buf s = Ret (r, splice 0 (psector s id sect) buf, s') /\ 0 <= r /\
      pvalid s' id /\ psize s' id = psize s id /\ forall i, psector s' id i = psector s id i;
  pwrite_law s id sect buf :
    pvalid s id -> 0 <= sect < psize s id -> 512 <= zlen buf ->
    exists r s', pwrite id sect buf s = Ret (r, s') /\ 0 <= r /\
      pvalid s' id /\ psize s' id = psize s id /\
      forall i, 0 <= i < psize s id ->
        psector s' id i = if decide (i = sect) then slice 0 512 buf else psector s id i
}.

Section hal_partitions.
Context {D : Type} `{BlockDriverLaws D}.
Variable junk : list Z.
Hypothesis junk_page : 512 <= zlen junk.

#[export] Instance hal_store : PartitionStore (hal D) := {
  pread id sect buf s := hal_partition_read junk id (s32 sect) 1 buf s;
  pwrite id sect buf s := hal_partition_write id (s32 sect) 1 buf s
}.

(** Sector [i] of partition [p] in state [s]. *)
Definition part_sector (s : hal D) (p : HalPartitionMap) (i : Z) : list Z :=
  match zget (hal_block_map s) (dev p) with
  | Some b => match driver b with Some d => dsector d (part_begin p + i) | None => repeat 0 512 end
  | None => repeat 0 512
  end.

(** Partition [p] lies on a registered device, whose contents are [d]. *)
Definition part_ok (s : hal D) (p : HalPartitionMap) (d : D) : Prop :=
  in_use p /\ hal_ok s (dev p) d /\ 0 <= part_begin p /\ 0 <= part_size p /\
  part_begin p + part_size p <= dsize d <= 2^32.

Definition hal_pvalid (s : hal D) (id : Z) : Prop :=
  0 <= id < HAL_PARTITION_MAX /\ exists p d, zget (hal_partition_map s) id = Some p /\ part_ok s p d.

Definition hal_psize (s : hal D) (id : Z) : Z :=
  match zget (hal_partition_map s) id with Some p => part_size p | None => 0 end.

Definition hal_psector (s : hal D) (id i : Z) : list Z :=
  match zget (hal_partition_map s) id with Some p => part_sector s p i | None => repeat 0 512 end.

Lemma hal_psector_length s id i : zlen (hal_psector s id i) = 512.
Proof.
  unfold hal_psector, part_sector. repeat case_match; try done. apply dsector_length.
Qed.

Lemma hal_ok_driver s id d : hal_ok s id d ->
  exists b, zget (hal_block_map s) id = Some b /\ driver b = Some d.
Proof. intros [_ (b & Hz & Hd & _)]. eauto. Qed.

Lemma part_sector_ok s p d i : part_ok s p d -> part_sector s p i = dsector d (part_begin p + i).
Proof.
  intros (_ & Hok & _). destruct (hal_ok_driver _ _ _ Hok) as (b & Hz & Hd).
  unfold part_sector. by rewrite Hz, Hd.
Qed.

Lemma part_lba p sect : 0 <= part_begin p -> 0 <= sect -> part_begin p + sect < 2^32 ->
  u32 (s32 (part_begin p + s32 sect)) = part_begin p + sect.
Proof.
  intros. rewrite u32_s32, <- u32_add_r, u32_s32, u32_add_r.
  apply u32_small. unfold is_u32. lia.
Qed.

Lemma hal_partition_read_ok id sect buf s p d :
  0 <= id < HAL_PARTITION_MAX -> zget (hal_partition_map s) id = Some p -> part_ok s p d ->
  0 <= sect < part_size p -> 512 <= zlen buf ->
  exists s' d', hal_partition_read junk id (s32 sect) 1 buf s
      = Ret (0, splice 0 (dsector d (part_begin p + sect)) buf, s')
    /\ hal_ok s' (dev p) d' /\ same_disk d d' /\ frame (dev p) s s'.
Proof.
  intros Hid Hz (Hu & Hok & Hb & Hsz & Hfit) Hs Hbuf. unfold hal_partition_read.
  destruct (Z.leb_spec HAL_PARTITION_MAX id); [lia|]. rewrite Hz. cbn [of_option obind].
  rewrite decide_False by done. pose proof (part_lba p sect) as E.
  assert (Hdev : 0 <= dev p < 8) by apply Hok. rewrite (s32_small (dev p)) by lia.
  rewrite <- E by lia. eapply hal_block_read_ok; [done|done|apply s32_range| |done].
  rewrite E; lia.
Qed.

Lemma hal_partition_write_ok id sect buf s p d :
  0 <= id < HAL_PARTITION_MAX -> zget (hal_partition_map s) id = Some p -> part_ok s p d ->
  0 <= sect < part_size p -> 512 <= zlen buf ->
  exists r s' d', hal_partition_write id (s32 sect) 1 buf s = Ret (r, s') /\ 0 <= r
    /\ hal_ok s' (dev p) d' /\ wrote_disk d d' (part_begin p + sect) (slice 0 512 buf)
    /\ frame (dev p) s s'.
Proof.
  intros Hid Hz (Hu & Hok & Hb & Hsz & Hfit) Hs Hbuf. unfold hal_partition_write.
  destruct (Z.leb_spec HAL_PARTITION_MAX id); [lia|]. rewrite Hz. cbn [of_option obind].
  rewrite decide_False by done. pose proof (part_lba p sect) as E.
  assert (Hdev : 0 <= dev p < 8) by apply Hok. rewrite (s32_small (dev p)) by lia.
  rewrite <- E by lia. eapply hal_block_write_ok; [done|apply s32_range| |done].
  rewrite E; lia.
Qed.

Lemma part_ok_after s s' p d d' :
  part_ok s p d -> hal_ok s' (dev p) d' -> dsize d' = dsize d -> part_ok s' p d'.
Proof. intros (Hu & _ & Hb & Hs & Hf) Hok Hsz. unfold part_ok. rewrite Hsz. auto. Qed.

#[export] Program Instance hal_store_laws : PartitionLaws (hal D) := {
  pvalid := hal_pvalid;
  psize := hal_psize;
  psector := hal_psector;
  psector_length := hal_psector_length
}.
Next Obligation.
  intros s id sect buf [Hid (p & d & Hz & Hp)] Hs Hb. unfold hal_psize, hal_psector in *. rewrite Hz in *.
  destruct (hal_partition_read_ok id sect buf s p d) as (s' & d' & Hrun & Hok & [Hsz Hsec] & [Hpm Hfr]); [done..|].
  exists 0, s'. rewrite (part_sector_ok _ _ _ _ Hp), Hpm, Hz. pose proof (part_ok_after _ _ _ _ _ Hp Hok Hsz) as Hp'.
  split_and!; [exact Hrun|done| |done|].
  - split; [done|]. exists p, d'. by rewrite Hpm.
  - intros i. by rewrite (part_sector_ok _ _ _ _ Hp), (part_sector_ok _ _ _ _ Hp').
Qed.
Next Obligation.
  intros s id sect buf [Hid (p & d & Hz & Hp)] Hs Hb. unfold hal_psize, hal_psector in *. rewrite Hz in *.
  destruct (hal_partition_write_ok id sect buf s p d) as (r & s' & d' & Hrun & Hr & Hok & [Hsz Hsec] & [Hpm Hfr]); [done..|].
  exists r, s'. rewrite Hpm, Hz. pose proof (part_ok_after _ _ _ _ _ Hp Hok Hsz) as Hp'.
  split_and!; [exact Hrun|done| |done|].
  - split; [done|]. exists p, d'. by rewrite Hpm.
  - intros i Hi. rewrite (part_sector_ok _ _ _ _ Hp), (part_sector_ok _ _ _ _ Hp'), Hsec.
    repeat case_decide; try done; lia.
Qed.

(** Two partitions that share no sector. *)
Definition parts_disjoint (p q : HalPartitionMap) : Prop :=
  dev p <> dev q \/ part_begin p + part_size p <= part_begin q \/ part_begin q + part_size q <= part_begin p.

(** partition isolation.  A write inside one partition succeeds and leaves
    every sector of every other, disjoint partition as it was, on the same
    device or on another. *)
Theorem partition_isolation id q_id sect buf s p q d dq :
  0 <= id < HAL_PARTITION_MAX -> zget (hal_partition_map s) id = Some p -> part_ok s p d ->
  zget (hal_partition_map s) q_id = Some q -> part_ok s q dq -> parts_disjoint p q ->
  0 <= sect < part_size p -> 512 <= zlen buf ->
  exists r s', pwrite id sect buf s = Ret (r, s') /\ 0 <= r /\
    hal_psector s' id sect = slice 0 512 buf /\
    forall i, 0 <= i < part_size q -> hal_psector s' q_id i = hal_psector s q_id i.
Proof.
  intros Hid Hz Hp Hzq Hq Hdis Hs Hb.
  destruct (hal_partition_write_ok id sect buf s p d) as (r & s' & d' & Hrun & Hr & Hok & [Hsz Hsec] & [Hpm Hfr]); [done..|].
  exists r, s'. pose proof (part_ok_after _ _ _ _ _ Hp Hok Hsz) as Hp'. unfold hal_psector.
  rewrite Hpm, Hz, Hzq. split_and!; [exact Hrun|done| |].
  - rewrite (part_sector_ok _ _ _ _ Hp'), Hsec. by rewrite decide_True.
  - intros i Hi. destruct (decide (dev q = dev p)) as [E|E].
    + destruct Hp as (_ & Hokp & _). assert (dq = d) as ->.
      { destruct (hal_ok_driver _ _ _ Hokp) as (b1 & Hb1 & Hd1).
        destruct Hq as (_ & Hokq & _). rewrite E in Hokq.
        destruct (hal_ok_driver _ _ _ Hokq) as (b2 & Hb2 & Hd2). congruence. }
      assert (Hq' : part_ok s' q d') by (eapply part_ok_after; [done|by rewrite E|done]).
      rewrite (part_sector_ok _ _ _ _ Hq), (part_sector_ok _ _ _ _ Hq'), Hsec.
      rewrite decide_False; [done|]. destruct Hdis as [|[|]]; congruence || lia.
    + unfold part_sector. by rewrite (Hfr _ E).
Qed.

End hal_partitions.

(** Two partitions on the example disk. *)
Definition ex_two : hal ramdisk :=
  Hal (hal_block_map ex_hal)
    (layout [Partition HAL_PARTITION_TYPE_FAT32 0 8 10; Partition HAL_PARTITION_TYPE_LINUX 0 18 16]) 1.

Lemma partition_isolation_witness :
  exists r s', @pwrite _ (hal_store ex_junk) 0 9 (repeat 5 512) ex_two = Ret (r, s') /\ 0 <= r /\
    hal_psector s' 0 9 = slice 0 512 (repeat 5 512) /\
    forall i, 0 <= i < 16 -> hal_psector s' 1 i = hal_psector ex_two 1 i.
Proof.
  apply (partition_isolation ex_junk 0 1 9 _ ex_two (Partition HAL_PARTITION_TYPE_FAT32 0 8 10)
    (Partition HAL_PARTITION_TYPE_LINUX 0 18 16) ex_disk ex_disk); try done.
  1-2: split; [done|]; split; [split; [done|]; eexists; split; [done|apply coherent_fresh]|by vm_compute].
  right. left. by vm_compute.
Defined.

(** The interface on the example device, for the examples of the filesystems. *)
Lemma ex_junk_page : 512 <= zlen ex_junk.
Proof. done. Qed.

Definition ex_store : PartitionStore (hal ramdisk) := hal_store ex_junk.
Definition ex_store_laws : @PartitionLaws (hal ramdisk) ex_store := hal_store_laws ex_junk ex_junk_page.
