(* ===== verification/VfsPath.v ===== *)
(** kernel/filesystem/vfs/path.c: paths split into parts of 128 bytes, compared,
    printed and made absolute.

    A [VfsPath] is the number of parts and the page that holds them; the
    abstract path is the list of its names ([path_names]). *)

From stdpp Require Import base list strings relations.
From Stdlib Require Import ZArith Lia.
From S2P Require Import Prelude KString.

Local Open Scope Z_scope.
Local Open Scope outcome_scope.

Record VfsPath := Path { parts : Z; pathbuf : list Z }.

(** [path.pathbuf + i * 128] *)
Definition path_part (path : VfsPath) (i : Z) : list Z := drop (Z.to_nat (i * 128)) (pathbuf path).

(** The inner loop: the characters up to a slash or the end of the string, and
    what follows them. *)
Fixpoint path_word (p : list Z) : outcome (list Z * list Z) :=
  match p with
  | [] => Fault
  | c :: p' =>
    if (c =? 47) || (c =? 0) then Ret ([], p)
    else '(w, r) <- path_word p' ;; Ret (c :: w, r)
  end.

(** [p] is [path + x]. *)
Fixpoint split_loop (n : nat) (p : list Z) (count : Z) (buf : list Z) : outcome (Z * list Z) :=
  c <- of_option (head p) ;;
  if c =? 0 then Ret (count, buf) else
  match n with
  | O => NoFuel
  | S n' =>
    '(w, r) <- path_word p ;;
    if bool_decide (w = []) then split_loop n' (tail r) count buf
    else
      bytes <- of_option (strncpy p (length w)) ;;
      buf1 <- copy_into buf (count * 128) bytes ;;
      buf2 <- of_option (zset buf1 (count * 128 + zlen w) 0) ;;
      cy <- of_option (head r) ;;
      if cy =? 0 then Ret (count + 1, buf2) else split_loop n' (tail r) (count + 1) buf2
  end.

Definition vfs_path_split (path buf : list Z) : outcome (Z * list Z) :=
  split_loop (length path) path 0 buf.

Fixpoint path_compare_loop (ixs : list Z) (lhs rhs : VfsPath) : outcome Z :=
  match ixs with
  | [] => Ret 1
  | i :: ixs' =>
    c <- of_option (strncmp (path_part lhs i) (path_part rhs i) 128) ;;
    if negb (c =? 0) then Ret 0 else path_compare_loop ixs' lhs rhs
  end.

Definition vfs_path_compare (lhs_parts : Z) (lhs_buf : list Z) (rhs_parts : Z) (rhs_buf : list Z) : outcome Z :=
  if negb (lhs_parts =? rhs_parts) then Ret 0
  else path_compare_loop (seqZ 0 lhs_parts) (Path lhs_parts lhs_buf) (Path rhs_parts rhs_buf).

Fixpoint tostring_loop (ixs : list Z) (path : VfsPath) (next : Z) (buf : list Z) : outcome (list Z) :=
  match ixs with
  | [] => of_option (zset buf next 0)
  | i :: ixs' =>
    bytes <- of_option (safestrcpy (path_part path i) 128) ;;
    buf1 <- copy_into buf next bytes ;;
    n <- of_option (strlen (path_part path i)) ;;
    buf2 <- of_option (zset buf1 (next + n) 47) ;;
    tostring_loop ixs' path (next + n + 1) buf2
  end.

Definition vfs_path_tostring (path : VfsPath) (buf : list Z) : outcome (list Z) :=
  buf1 <- of_option (zset buf 0 47) ;;
  tostring_loop (seqZ 0 (parts path)) path 1 buf1.

(** [cwd] is the current process's; [newpath] the page just allocated.  The old
    buffer is given back and the new one taken, so the page count is unchanged. *)
Definition vfs_get_absolute_path (cwd : VfsPath) (newpath : list Z) (path : VfsPath) : outcome VfsPath :=
  a <- copy_from (pathbuf cwd) 0 (parts cwd * 128) ;;
  n1 <- copy_into newpath 0 a ;;
  r <- copy_from (pathbuf path) 0 (parts path * 128) ;;
  n2 <- copy_into n1 (parts cwd * 128) r ;;
  Ret (Path (parts path + parts cwd) n2).

(** ** Specification *)

(** The names of a path string: split at slashes, empty names dropped. *)
Fixpoint names_from (cur w : list Z) : list (list Z) :=
  match w with
  | [] => if bool_decide (cur = []) then [] else [cur]
  | c :: w' =>
    if c =? 47 then (if bool_decide (cur = []) then names_from [] w' else cur :: names_from [] w')
    else names_from (cur ++ [c]) w'
  end.

Definition names (w : list Z) : list (list Z) := names_from [] w.

(** A name that fits a part: no slash, no NUL, at most 127 bytes, not empty. *)
Definition name_ok (nm : list Z) : Prop :=
  nm <> [] /\ zlen nm <= 127 /\ Forall (fun c => c <> 0 /\ c <> 47) nm.

(** [path] has exactly the names [nms]. *)
Definition path_names (path : VfsPath) (nms : list (list Z)) : Prop :=
  parts path = zlen nms /\ Forall name_ok nms /\ zlen nms * 128 <= zlen (pathbuf path) /\
  forall i nm, zget nms i = Some nm -> holds_str nm (path_part path i).

(** ** Splitting *)

(** A maximal run of non-slashes. *)
Definition word_of (w u v : list Z) : Prop :=
  w = u ++ v /\ Forall (fun c => c <> 47) u /\ (v = [] \/ exists v', v = 47 :: v').

Lemma word_exists w : exists u v, word_of w u v.
Proof.
  induction w as [|c w (u & v & -> & Hu & Hv)].
  - exists [], []. split_and!; auto.
  - destruct (decide (c = 47)) as [->|Hc].
    + exists [], (47 :: u ++ v). split_and!; eauto.
    + exists (c :: u), v. split_and!; auto.
Qed.

Lemma path_word_ok w u v rest : word_of w u v -> Forall (fun c => c <> 0) w ->
  path_word (w ++ 0 :: rest) = Ret (u, v ++ 0 :: rest).
Proof.
  intros (-> & Hu & Hv) Hnz. induction Hu as [|c u Hc Hu IH]; simpl.
  - destruct Hv as [->|[v' ->]]; done.
  - apply Forall_cons in Hnz as [Hn0 Hnz].
    destruct (Z.eqb_spec c 47), (Z.eqb_spec c 0); try done. simpl. by rewrite IH.
Qed.

Lemma names_from_word cur u v : Forall (fun c => c <> 47) u -> names_from cur (u ++ v) = names_from (cur ++ u) v.
Proof.
  intros Hu. revert cur. induction Hu as [|c u Hc Hu IH]; intros cur; simpl; [by rewrite app_nil_r|].
  destruct (Z.eqb_spec c 47); [done|]. rewrite IH, <- app_assoc. done.
Qed.

Lemma names_word w u v : word_of w u v ->
  names w = (if bool_decide (u = []) then [] else [u]) ++ names (tail v).
Proof.
  intros (-> & Hu & Hv). unfold names. rewrite names_from_word by done. simpl.
  destruct Hv as [->|[v' ->]]; simpl; [by rewrite app_nil_r|]. by case_bool_decide.
Qed.

Lemma strncpy_prefix u t : Forall (fun c => c <> 0) u -> strncpy (u ++ t) (length u) = Some u.
Proof.
  induction 1 as [|c u Hc Hu IH]; [done|]. simpl. destruct (Z.eqb_spec c 0); [done|]. by rewrite IH.
Qed.

Lemma holds_str_take nm b b' k m : holds_str nm (drop k b) -> (length nm < m)%nat ->
  take (k + m) b' = take (k + m) b -> holds_str nm (drop k b').
Proof.
  intros (Hnz & r & Hd) Hm Ht. split; [done|]. exists (take (m - S (length nm)) r ++ drop m (drop k b')).
  rewrite <- (take_drop m (drop k b')) at 1. rewrite take_drop_commute, Ht, <- take_drop_commute, Hd.
  rewrite take_app_ge by lia. destruct (m - length nm)%nat as [|x] eqn:E; [lia|]. simpl.
  replace (m - S (length nm))%nat with x by lia. by rewrite <- app_assoc.
Qed.

(** Storing one name into slot [count]. *)
Lemma store_name buf count u : 0 <= count -> name_ok u -> (count + 1) * 128 <= zlen buf ->
  exists buf2, zset (splice (count * 128) u buf) (count * 128 + zlen u) 0 = Some buf2 /\
    zlen buf2 = zlen buf /\ holds_str u (drop (Z.to_nat (count * 128)) buf2) /\
    take (Z.to_nat (count * 128)) buf2 = take (Z.to_nat (count * 128)) buf.
Proof.
  intros Hc (Hne & Hlen & Hok) Hb. unfold zlen in *.
  assert (Hl : length (splice (count * 128) u buf) = length buf).
  { pose proof (splice_length (count * 128) u buf) as Hs. unfold zlen in Hs. lia. }
  rewrite zset_Some by (unfold zlen; lia). eexists. split; [done|].
  set (k := Z.to_nat (count * 128)). replace (Z.to_nat (count * 128 + Z.of_nat (length u))) with (k + length u)%nat by lia.
  assert (E : splice (count * 128) u buf = take k buf ++ u ++ drop (k + length u) buf) by done.
  assert (Hk : length (take k buf) = k) by (rewrite length_take; lia).
  split_and!.
  - rewrite length_insert. lia.
  - rewrite E, insert_app_r_alt by lia. rewrite drop_app_length' by done.
    rewrite Hk, insert_app_r_alt by lia.
    replace (k + length u - k - length u)%nat with 0%nat by lia.
    split; [eapply Forall_impl; [done|]; by intros ? []|].
    destruct (drop (k + length u) buf) as [|x r] eqn:Ed; [|simpl; eauto].
    apply (f_equal length) in Ed. rewrite length_drop in Ed. simpl in Ed. lia.
  - rewrite take_insert_ge by lia. rewrite E. by rewrite take_app_length'.
Qed.

Lemma zget_nil {A} i : zget (@nil A) i = None.
Proof. unfold zget. by destruct (i <? 0). Qed.

Lemma zget_cons_inv {A} (x y : A) l i : zget (x :: l) i = Some y ->
  (i = 0 /\ y = x) \/ (0 < i /\ zget l (i - 1) = Some y).
Proof.
  rewrite !zget_lookup. intros [Hi Hl]. destruct (Z.to_nat i) as [|k] eqn:E.
  - left. injection Hl as ->. split; [lia|done].
  - right. split; [lia|]. split; [lia|]. by replace (Z.to_nat (i - 1)) with k by lia.
Qed.

(** What splitting [w] from part [count] on does to the buffer. *)
Definition split_spec (w : list Z) (count : Z) (buf buf' : list Z) : Prop :=
  zlen buf' = zlen buf /\ take (Z.to_nat (count * 128)) buf' = take (Z.to_nat (count * 128)) buf /\
  forall i nm, zget (names w) i = Some nm -> holds_str nm (drop (Z.to_nat ((count + i) * 128)) buf').

Lemma split_spec_nil count buf : split_spec [] count buf buf.
Proof. split_and!; [done..|]. intros i nm Hz. change (names []) with (@nil (list Z)) in Hz. by rewrite zget_nil in Hz. Qed.

Lemma split_spec_cons u v' w count buf buf2 buf' :
  names w = u :: names v' -> 0 <= count -> zlen u <= 127 ->
  zlen buf2 = zlen buf -> holds_str u (drop (Z.to_nat (count * 128)) buf2) ->
  take (Z.to_nat (count * 128)) buf2 = take (Z.to_nat (count * 128)) buf ->
  split_spec v' (count + 1) buf2 buf' -> split_spec w count buf buf'.
Proof.
  intros Hn Hc Hu Hl Hh Ht (Hl' & Ht' & Hs). split_and!; [lia| |].
  - rewrite <- Ht. pose proof (f_equal (take (Z.to_nat (count * 128))) Ht') as E.
    rewrite !take_take in E. by rewrite !Nat.min_l in E by lia.
  - intros i nm Hz. rewrite Hn in Hz. apply zget_cons_inv in Hz as [[-> ->]|[Hi Hz]].
    + rewrite Z.add_0_r. apply (holds_str_take u buf2 _ _ 128); [done|unfold zlen in Hu; lia|].
      by replace (Z.to_nat (count * 128) + 128)%nat with (Z.to_nat ((count + 1) * 128)) by lia.
    + replace (count + i) with (count + 1 + (i - 1)) by lia. by apply Hs.
Qed.

Lemma split_loop_ok n : forall w rest count buf,
  (length w <= n)%nat -> Forall (fun c => c <> 0) w -> Forall name_ok (names w) -> 0 <= count ->
  (count + zlen (names w)) * 128 <= zlen buf ->
  exists buf', split_loop n (w ++ 0 :: rest) count buf = Ret (count + zlen (names w), buf') /\
    split_spec w count buf buf'.
Proof.
  induction n as [|n IH]; intros w rest count buf Hn Hnz Hok Hc Hb;
    (destruct w as [|c w]; [exists buf; split; [simpl; by rewrite Z.add_0_r|apply split_spec_nil]|]).
  { simpl in Hn. lia. }
  cbn [split_loop]. assert (Hc0 : c <> 0) by (by apply Forall_cons in Hnz as [? _]).
  change (head ((c :: w) ++ 0 :: rest)) with (Some c). cbn [of_option obind].
  destruct (Z.eqb_spec c 0); [done|]. destruct (word_exists (c :: w)) as (u & v & Hw).
  rewrite (path_word_ok _ _ _ rest Hw Hnz). cbn [obind]. pose proof (names_word _ _ _ Hw) as En.
  destruct Hw as (Ew & Hu & Hv). rewrite Ew in Hnz. apply Forall_app in Hnz as [Hnzu Hnzv].
  assert (Hlen : length (c :: w) = (length u + length v)%nat) by (rewrite Ew; apply length_app).
  case_bool_decide as Eu.
  - subst u. destruct Hv as [->|[v' ->]]; [done|]. cbn [tail app] in *. rewrite En.
    apply Forall_cons in Hnzv as [_ Hnzv]. simpl in *.
    destruct (IH v' rest count buf) as (buf' & -> & Hs); [lia|done|by rewrite <- En|done|by rewrite <- En|].
    exists buf'. split; [done|]. destruct Hs as (Hl & Ht & Hh). split_and!; [done..|]. rewrite En. done.
  - rewrite Ew, <- app_assoc, strncpy_prefix by done. cbn [of_option obind].
    rewrite En in Hok, Hb. rewrite zlen_app in Hb. change (zlen [u]) with 1 in Hb.
    apply Forall_cons in Hok as [Hu_ok Hok]. assert (0 <= zlen (names (tail v))) by (unfold zlen; lia).
    assert (Hul : zlen u <= 127) by apply Hu_ok.
    rewrite copy_into_ok by lia. cbn [obind].
    destruct (store_name buf count u) as (buf2 & -> & Hl2 & Hh2 & Ht2); [done|done|lia|]. cbn [of_option obind].
    rewrite <- Ew, En. assert (En' : names (c :: w) = u :: names (tail v)) by done.
    destruct Hv as [->|[v' ->]].
    + cbn. exists buf2. split; [done|]. apply (split_spec_cons u [] _ count buf buf2); try done.
      apply split_spec_nil.
    + cbn [app head of_option obind tail] in *. change (47 =? 0) with false. cbn iota.
      apply Forall_cons in Hnzv as [_ Hnzv].
      assert (Hun : u <> []) by done. assert (0 < length u)%nat by (destruct u; [done|simpl; lia]).
      destruct (IH v' rest (count + 1) buf2) as (buf' & -> & Hs); [simpl in *; lia|done|done|lia|lia|].
      exists buf'. split; [do 2 f_equal; unfold zlen; simpl; lia|]. by eapply split_spec_cons.
Qed.

(** splitting a path.  For any NUL-terminated string whose names fit the
    128-byte parts and the page, [vfs_path_split] stores exactly its names
    (slashes separate, empty names vanish) and returns how many there are. *)
Theorem vfs_path_split_correct w rest buf :
  Forall (fun c => c <> 0) w -> Forall name_ok (names w) -> zlen (names w) * 128 <= zlen buf ->
  exists buf', vfs_path_split (w ++ 0 :: rest) buf = Ret (zlen (names w), buf') /\
    path_names (Path (zlen (names w)) buf') (names w).
Proof.
  intros Hnz Hok Hb. unfold vfs_path_split.
  destruct (split_loop_ok (length (w ++ 0 :: rest)) w rest 0 buf) as (buf' & -> & Hl & _ & Hs);
    [rewrite length_app; lia|done|done|done|lia|].
  exists buf'. split; [done|]. split_and!; [done|done|simpl; lia|]. intros i nm Hz. by apply (Hs i nm).
Qed.

(** ** Comparing *)

Lemma zget_ext {A} (a b : list A) : zlen a = zlen b -> (forall i, 0 <= i < zlen a -> zget a i = zget b i) -> a = b.
Proof.
  intros Hl He. apply list_eq. intros i. destruct (decide (i < length a)%nat) as [Hi|Hi].
  - specialize (He (Z.of_nat i)). unfold zget, zlen in *. destruct (Z.ltb_spec (Z.of_nat i) 0); [lia|].
    rewrite Nat2Z.id in He. apply He. lia.
  - rewrite !lookup_ge_None_2; [done|unfold zlen in Hl; lia..].
Qed.

Lemma path_compare_loop_ok p q a b : path_names p a -> path_names q b -> zlen a = zlen b -> forall ixs,
  Forall (fun i => 0 <= i < zlen a) ixs ->
  path_compare_loop ixs p q = Ret (if forallb (fun i => bool_decide (zget a i = zget b i)) ixs then 1 else 0).
Proof.
  intros (_ & Hoka & _ & Ha) (_ & Hokb & _ & Hb) Hl ixs. induction ixs as [|i ixs IH]; intros Hi; cbn [path_compare_loop forallb]; [done|].
  apply Forall_cons in Hi as [Hi Hixs].
  destruct (zget_is_Some a i) as [x Hx]; [lia|]. destruct (zget_is_Some b i) as [y Hy]; [lia|].
  destruct (strncmp_zero_iff 128 x y (path_part p i) (path_part q i)) as (r & Hr & Hiff); [auto..|].
  assert (Hlx : zlen x <= 127) by (apply (Forall_zget _ _ _ _ Hoka Hx)).
  assert (Hly : zlen y <= 127) by (apply (Forall_zget _ _ _ _ Hokb Hy)).
  rewrite !take_ge in Hiff by (unfold zlen in *; lia).
  rewrite Hr. cbn [of_option obind]. rewrite Hx, Hy.
  destruct (Z.eqb_spec r 0) as [E|E]; cbn [negb].
  - rewrite (bool_decide_eq_true_2 (Some x = Some y)) by (f_equal; by apply Hiff). cbn [andb]. by apply IH.
  - rewrite (bool_decide_eq_false_2 (Some x = Some y)); [done|]. intros [= He]. by apply E, Hiff.
Qed.

(** [vfs_path_compare] is 1 exactly when the two paths have the same list
    of names, and 0 otherwise. *)
Theorem vfs_path_compare_correct p q a b : path_names p a -> path_names q b ->
  vfs_path_compare (parts p) (pathbuf p) (parts q) (pathbuf q) = Ret (if decide (a = b) then 1 else 0).
Proof.
  intros Hp Hq. pose proof Hp as (Epa & _). pose proof Hq as (Epb & _). unfold vfs_path_compare.
  destruct p as [pp pb], q as [qp qb]. simpl in *. destruct (Z.eqb_spec pp qp) as [E|E]; simpl.
  - assert (Hl : zlen a = zlen b) by lia.
    rewrite (path_compare_loop_ok _ _ a b Hp Hq Hl) by (apply Forall_seqZ; lia). do 2 f_equal.
    destruct (forallb _ _) eqn:Ef; case_decide as Ed; try done.
    + exfalso. apply Ed, zget_ext; [done|]. intros i Hi. rewrite forallb_forall in Ef.
      specialize (Ef i). rewrite bool_decide_eq_true in Ef. apply Ef, list_elem_of_In, elem_of_seqZ. lia.
    + subst b. assert (Et : forallb (fun i => bool_decide (zget a i = zget a i)) (seqZ 0 pp) = true); [|congruence].
      apply forallb_forall. intros i _. by apply bool_decide_eq_true_2.
  - rewrite decide_False; [done|]. intros ->. lia.
Qed.

(** ** Printing *)

(** The string form: every name followed by a slash, a slash in front. *)
Definition path_string (nms : list (list Z)) : list Z := 47 :: flat_map (fun nm => nm ++ [47]) nms.

Lemma tostring_loop_ok path : forall nms k next buf,
  Forall name_ok nms -> 0 <= next ->
  (forall i nm, zget nms i = Some nm -> holds_str nm (path_part path (k + i))) ->
  next + zlen (flat_map (fun nm => nm ++ [47]) nms) + 1 <= zlen buf ->
  exists tl, tostring_loop (seqZ k (zlen nms)) path next buf
    = Ret (take (Z.to_nat next) buf ++ flat_map (fun nm => nm ++ [47]) nms ++ 0 :: tl).
Proof.
  induction nms as [|nm nms IH]; intros k next buf Hok Hn Hh Hb.
  - simpl in *. change (zlen (@nil Z)) with 0 in Hb. rewrite zset_Some by lia. cbn [of_option].
    exists (drop (S (Z.to_nat next)) buf). f_equal. apply insert_take_drop. unfold zlen in Hb. lia.
  - apply Forall_cons in Hok as [Hnm Hok]. replace (zlen (nm :: nms)) with (1 + zlen nms) by (unfold zlen; simpl; lia).
    assert (Hs : holds_str nm (path_part path k)) by (rewrite <- (Z.add_0_r k); by apply Hh).
    rewrite seqZ_cons by (unfold zlen; lia). cbn [tostring_loop flat_map] in *.
    destruct (safestrcpy_fits 128 nm (path_part path k)) as (pad & -> & Hpad); [done|destruct Hnm as (_ & ? & _); lia|].
    cbn [of_option obind]. rewrite !zlen_app in Hb. change (zlen [47]) with 1 in Hb.
    assert (Hfl : 0 <= zlen (flat_map (fun nm0 => nm0 ++ [47]) nms)) by (unfold zlen; lia).
    assert (Hbl : zlen (nm ++ 0 :: pad) <= zlen nm + 2) by (unfold zlen; rewrite length_app; simpl; lia).
    rewrite copy_into_ok by lia. cbn [obind]. rewrite (strlen_holds nm) by done. cbn [of_option obind].
    assert (Hsl : zlen (splice next (nm ++ 0 :: pad) buf) = zlen buf) by (apply splice_length; lia).
    rewrite zset_Some by (unfold zlen in *; lia). cbn [of_option obind].
    set (buf2 := <[Z.to_nat (next + zlen nm) := 47]> _).
    assert (E2 : buf2 = (take (Z.to_nat next) buf ++ nm ++ [47]) ++ pad ++ drop (Z.to_nat next + length (nm ++ 0 :: pad)) buf).
    { unfold buf2, splice. rewrite insert_app_r_alt by (rewrite length_take; unfold zlen in *; lia).
      rewrite length_take, Nat.min_l by (unfold zlen in *; lia). rewrite <- !app_assoc. f_equal.
      rewrite insert_app_r_alt by (unfold zlen; lia). f_equal.
      by replace (Z.to_nat (next + zlen nm) - Z.to_nat next - length nm)%nat with 0%nat by (unfold zlen; lia). }
    assert (Et : take (Z.to_nat (next + zlen nm + 1)) buf2 = take (Z.to_nat next) buf ++ nm ++ [47]).
    { rewrite E2. apply take_app_length'. rewrite !length_app, length_take. simpl. unfold zlen in *. lia. }
    replace (1 + zlen nms - 1) with (zlen nms) by lia. replace (k + 1) with (Z.succ k) by lia.
    replace (Z.pred (1 + zlen nms)) with (zlen nms) by lia.
    destruct (IH (Z.succ k) (next + zlen nm + 1) buf2) as (tl & ->); [done|unfold zlen; lia| | |].
    + intros i nm' Hz. replace (Z.succ k + i) with (k + (i + 1)) by lia. apply Hh. apply zget_lookup in Hz as [Hi Hz].
      apply zget_lookup. split; [lia|]. by replace (Z.to_nat (i + 1)) with (S (Z.to_nat i)) by lia.
    + replace (zlen buf2) with (zlen buf); [lia|]. unfold buf2, zlen in *. rewrite length_insert. lia.
    + exists tl. rewrite Et. by rewrite <- !app_assoc.
Qed.

Lemma names_string nms : Forall name_ok nms -> names (path_string nms) = nms.
Proof.
  intros Hok. unfold path_string, names. simpl. induction Hok as [|nm nms (Hne & _ & Hf) _ IH]; [done|].
  cbn [flat_map]. rewrite <- app_assoc, names_from_word by (eapply Forall_impl; [done|]; by intros ? []).
  cbn. rewrite bool_decide_eq_false_2 by done. by rewrite IH.
Qed.

(** printing and splitting are inverse.  [vfs_path_tostring] of a path is
    the NUL-terminated string of its names, and [vfs_path_split] of what it
    prints recovers exactly those names. *)
Theorem vfs_path_roundtrip path nms buf buf2 :
  path_names path nms -> zlen (path_string nms) + 1 <= zlen buf -> zlen nms * 128 <= zlen buf2 ->
  exists out buf', vfs_path_tostring path buf = Ret out /\ holds_str (path_string nms) out /\
    vfs_path_split out buf2 = Ret (zlen nms, buf') /\ path_names (Path (zlen nms) buf') nms.
Proof.
  intros (Hp & Hok & Hl & Hh) Hb Hb2. unfold vfs_path_tostring, path_string in *.
  rewrite zset_Some by (unfold zlen in *; simpl in *; lia). cbn [of_option obind]. rewrite Hp.
  destruct (tostring_loop_ok path nms 0 1 (<[Z.to_nat 0:=47]> buf)) as (tl & ->); [done|lia|done| |].
  { replace (zlen (<[Z.to_nat 0:=47]> buf)) with (zlen buf) by (unfold zlen; by rewrite length_insert).
    unfold zlen in *. simpl in Hb. lia. }
  assert (Et : take (Z.to_nat 1) (<[Z.to_nat 0:=47]> buf) = [47]) by (destruct buf; [unfold zlen in Hb; simpl in Hb; lia|done]).
  rewrite Et. set (w := 47 :: flat_map (fun nm => nm ++ [47]) nms).
  assert (Hnz : Forall (fun c => c <> 0) w).
  { constructor; [done|]. apply Forall_flat_map. eapply Forall_impl; [done|]. intros nm (_ & _ & Hf).
    apply Forall_app. split; [eapply Forall_impl; [done|]; by intros ? []|by repeat constructor]. }
  exists (w ++ 0 :: tl). assert (En : names w = nms) by (by apply names_string).
  destruct (split_loop_ok (length (w ++ 0 :: tl)) w tl 0 buf2) as (buf' & Hrun & Hl' & _ & Hs);
    [rewrite length_app; lia|done|by rewrite En|done|rewrite En; lia|].
  rewrite En in *. exists buf'. split_and!; [done|split; eauto|exact Hrun|].
  split_and!; [done|done|simpl; lia|]. intros i nm Hz. by apply (Hs i nm).
Qed.

(** ** Absolute paths *)

Lemma slots_prefix (b b' : list Z) n : take n b' = take n b -> forall k m, (k + m <= n)%nat -> take (k + m) b' = take (k + m) b.
Proof.
  intros Ht k m Hkm. pose proof (f_equal (take (k + m)) Ht) as E. rewrite !take_take in E.
  by rewrite Nat.min_l in E by lia.
Qed.

(** making a path absolute puts the names of the working directory in
    front of its own. *)
Theorem vfs_get_absolute_path_correct cwd path a b newpath :
  path_names cwd a -> path_names path b -> (zlen a + zlen b) * 128 <= zlen newpath ->
  exists r, vfs_get_absolute_path cwd newpath path = Ret r /\ path_names r (a ++ b).
Proof.
  intros (Hpa & Hoka & Hla & Ha) (Hpb & Hokb & Hlb & Hb) Hn. unfold vfs_get_absolute_path. rewrite Hpa, Hpb.
  assert (0 <= zlen a) by (unfold zlen; lia). assert (0 <= zlen b) by (unfold zlen; lia).
  rewrite copy_from_ok by lia. cbn [obind]. set (A := slice 0 (zlen a * 128) (pathbuf cwd)).
  assert (HA : zlen A = zlen a * 128) by (apply slice_length; lia).
  rewrite copy_into_ok by lia. cbn [obind]. rewrite copy_from_ok by lia. cbn [obind].
  set (R := slice 0 (zlen b * 128) (pathbuf path)). assert (HR : zlen R = zlen b * 128) by (apply slice_length; lia).
  rewrite copy_into_ok; [|lia|rewrite splice_length; lia]. cbn [obind]. eexists. split; [done|].
  rewrite splice_0_app, (splice_app_r _ _ _ _ (zlen a * 128)) by lia. rewrite Z.sub_diag, splice_0_app.
  set (rest := drop (length R) _). split_and!; simpl.
  - rewrite zlen_app. lia.
  - by apply Forall_app.
  - rewrite !zlen_app. assert (0 <= zlen rest) by (unfold zlen; lia). lia.
  - intros i nm Hz. unfold path_part. simpl. destruct (decide (i < zlen a)) as [Hi|Hi].
    + assert (Hz' : zget a i = Some nm).
      { rewrite zget_lookup in *. destruct Hz as [Hi0 Hz]. split; [done|].
        by rewrite lookup_app_l in Hz by (unfold zlen in Hi; lia). }
      pose proof (proj1 (zget_lookup _ _ _) Hz') as [Hi0 _].
      assert (Hnm : zlen nm <= 127) by (apply (Forall_zget _ _ _ _ Hoka Hz')).
      apply (holds_str_take nm (pathbuf cwd) _ _ 128); [by apply Ha|unfold zlen in Hnm; lia|].
      apply (slots_prefix _ _ (length A)); [|unfold zlen in *; lia].
      rewrite take_app_length. unfold A, slice. rewrite drop_0. f_equal.
      unfold zlen in *. rewrite length_take. lia.
    + assert (Hz' : zget b (i - zlen a) = Some nm).
      { rewrite zget_lookup in *. destruct Hz as [Hi0 Hz]. split; [lia|].
        rewrite lookup_app_r in Hz by (unfold zlen in Hi; lia). rewrite <- Hz. f_equal. unfold zlen. lia. }
      pose proof (zget_Some _ _ _ Hz') as Hib.
      assert (Hnm : zlen nm <= 127) by (apply (Forall_zget _ _ _ _ Hokb Hz')).
      replace (Z.to_nat (i * 128)) with (length A + Z.to_nat ((i - zlen a) * 128))%nat by (unfold zlen in *; lia).
      rewrite <- drop_drop, drop_app_length.
      apply (holds_str_take nm (pathbuf path) _ _ 128); [by apply Hb|unfold zlen in Hnm; lia|].
      apply (slots_prefix _ _ (length R)); [|unfold zlen in *; lia].
      rewrite take_app_length. unfold R, slice. rewrite drop_0. f_equal.
      unfold zlen in *. rewrite length_take. lia.
Qed.

(** ** Examples: ["/usr//a"] and the path it is split into. *)
Definition ex_str : list Z := [47; 117; 115; 114; 47; 47; 97].
Definition ex_names : list (list Z) := [[117; 115; 114]; [97]].

Lemma ex_names_ok : Forall name_ok ex_names.
Proof. repeat constructor; done. Qed.

Definition ex_path : VfsPath :=
  Path 2 ([117; 115; 114; 0] ++ repeat 0 124 ++ [97; 0] ++ repeat 0 3966).

Lemma ex_path_names : path_names ex_path ex_names.
Proof.
  split_and!; [done|apply ex_names_ok|by vm_compute|]. intros i nm Hz.
  apply zget_cons_inv in Hz as [[-> ->]|[Hi Hz]]; [split; [by repeat constructor|]; eexists; reflexivity|].
  apply zget_cons_inv in Hz as [[E ->]|[Hi' Hz]]; [|by rewrite zget_nil in Hz].
  assert (i = 1) as -> by lia. split; [by repeat constructor|]. eexists; reflexivity.
Qed.

Lemma vfs_path_split_correct_witness :
  exists buf', vfs_path_split (ex_str ++ [0]) (repeat 0 4096) = Ret (2, buf') /\ path_names (Path 2 buf') ex_names.
Proof.
  apply (vfs_path_split_correct ex_str [] (repeat 0 4096)); [by repeat constructor|apply ex_names_ok|by vm_compute].
Defined.

Lemma vfs_path_compare_correct_witness :
  vfs_path_compare 2 (pathbuf ex_path) 2 (pathbuf ex_path) = Ret (if decide (ex_names = ex_names) then 1 else 0).
Proof. apply (vfs_path_compare_correct ex_path ex_path); apply ex_path_names. Defined.

Lemma vfs_path_roundtrip_witness :
  exists out buf', vfs_path_tostring ex_path (repeat 0 64) = Ret out /\ holds_str (path_string ex_names) out /\
    vfs_path_split out (repeat 0 4096) = Ret (2, buf') /\ path_names (Path 2 buf') ex_names.
Proof. apply (vfs_path_roundtrip ex_path ex_names); [apply ex_path_names|by vm_compute|by vm_compute]. Defined.

Lemma vfs_get_absolute_path_correct_witness :
  exists r, vfs_get_absolute_path ex_path (repeat 0 4096) ex_path = Ret r /\ path_names r (ex_names ++ ex_names).
Proof. apply vfs_get_absolute_path_correct; [apply ex_path_names..|by vm_compute]. Defined.
