(* ===== verification/Initramfs.v ===== *)
(** kernel/filesystem/initramfs/initramfs.c: the archive loaded at boot.

    The memory from [INITRAMFS_BASE] on is a list of bytes [ar]; a header
    pointer is its offset.  The archive is a cpio archive in the old binary
    format: entries with a header of 26 bytes, the name with its terminator and
    the data, both padded to even length, ended by an entry of a fixed name.

    The theorem: looking up a file in an encoded archive, and reading from it,
    finds what was encoded. *)

From stdpp Require Import base list strings.
From Stdlib Require Import ZArith Lia.
From S2P Require Import Prelude KString.

Local Open Scope Z_scope.
Local Open Scope outcome_scope.

(** ** Definitions *)

Record cpio_binary_header := Cpio { c_magic : Z; c_mode : Z; c_namesize : Z; c_filesize0 : Z; c_filesize1 : Z }.

Definition HEADER_SIZE : Z := 26.
Definition CPIO_MAGIC : Z := 0x71c7.

Definition read16 (ar : list Z) (off : Z) : outcome Z := bs <- copy_from ar off 2 ;; Ret (le_val bs).

Definition read_header (ar : list Z) (off : Z) : outcome cpio_binary_header :=
  magic <- read16 ar off ;;
  mode <- read16 ar (off + 6) ;;
  namesize <- read16 ar (off + 20) ;;
  f0 <- read16 ar (off + 22) ;;
  f1 <- read16 ar (off + 24) ;;
  Ret (Cpio magic mode namesize f0 f1).

(** [filesize[0] << 16 | filesize[1]], an [int]. *)
Definition filesize (h : cpio_binary_header) : Z := s32 (Z.lor (Z.shiftl (c_filesize0 h) 16) (c_filesize1 h)).

(** The distance to the next header. *)
Definition entry_size (h : cpio_binary_header) : Z :=
  HEADER_SIZE + c_namesize h + filesize h + c_namesize h mod 2 + c_filesize1 h mod 2.

(** "TRAILER!!!" *)
Definition trailer_name : list Z := [84; 82; 65; 73; 76; 69; 82; 33; 33; 33].

(** The name of an entry. *)
Definition name_at (ar : list Z) (off : Z) : list Z := drop (Z.to_nat (off + HEADER_SIZE)) ar.

Fixpoint search_loop (n : nat) (ar filename : list Z) (off : Z) : outcome (option Z) :=
  t <- of_option (strncmp (name_at ar off) (trailer_name ++ [0]) 11) ;;
  if t =? 0 then Ret None else
  r <- of_option (strncmp (name_at ar off) filename 64) ;;
  if r =? 0 then Ret (Some off) else
  match n with
  | O => NoFuel
  | S n' => h <- read_header ar off ;; search_loop n' ar filename (off + entry_size h)
  end.

(** Every entry takes bytes. *)
Definition initramfs_search (ar filename : list Z) : outcome (option Z) := search_loop (length ar) ar filename 0.

Definition initramfs_dir_open (ar : list Z) : outcome Z :=
  m <- read16 ar 0 ;; Ret (if m =? CPIO_MAGIC then 0 else ERROR_INVAILD).

(** The 64 bytes stored at [name], when there is an entry. *)
Definition initramfs_dir_read (ar : list Z) (ino : Z) : outcome (Z * option (list Z)) :=
  m <- read16 ar 0 ;;
  if negb (m =? CPIO_MAGIC) then Ret (ERROR_INVAILD, None) else
  t <- of_option (strncmp (name_at ar ino) (trailer_name ++ [0]) 11) ;;
  if t =? 0 then Ret (0, None) else
  name <- of_option (strncpy (name_at ar ino) 64) ;;
  h <- read_header ar ino ;;
  Ret (s32 (ino + entry_size h), Some name).

Definition initramfs_init (ar : list Z) : outcome Z :=
  m <- read16 ar 0 ;; Ret (if m =? CPIO_MAGIC then 0 else ERROR_NOT_EXIST).

Definition initramfs_file_get_size (ar filename : list Z) : outcome Z :=
  r <- initramfs_search ar filename ;;
  match r with
  | None => Ret ERROR_NOT_EXIST
  | Some off => h <- read_header ar off ;; Ret (filesize h)
  end.

Definition initramfs_open (ar filename : list Z) : outcome Z :=
  r <- initramfs_search ar filename ;;
  match r with
  | None => Ret ERROR_NOT_EXIST
  | Some off => Ret (s32 off)
  end.

Definition initramfs_file_get_mode (ar filename : list Z) : outcome Z :=
  r <- initramfs_search ar filename ;;
  match r with
  | None => Ret ERROR_NOT_EXIST
  | Some off => h <- read_header ar off ;; Ret (c_mode h)
  end.

(** The result and the bytes stored at [buf]. *)
Definition initramfs_read (ar : list Z) (block offset size : Z) : outcome (Z * list Z) :=
  h <- read_header ar block ;;
  let data := block + HEADER_SIZE + c_namesize h + c_namesize h mod 2 in
  let copysize := if u32 (filesize h) <? u32 (offset + size) then u32 (filesize h - offset) else size in
  if copysize <=? 0 then Ret (0, []) else
  bs <- copy_from ar (data + offset) copysize ;;
  Ret (s32 copysize, bs).

(** ** Archives *)

(** An entry; [e_node] are the device and inode numbers, [e_attr] the owner,
    the links and the time. *)
Record entry := Entry { e_node : list Z; e_mode : Z; e_attr : list Z; e_name : list Z; e_data : list Z }.

Definition pad (n : Z) : list Z := if n mod 2 =? 0 then [] else [0].

Definition encode_header (e : entry) : list Z :=
  le_bytes 2 CPIO_MAGIC ++ e_node e ++ le_bytes 2 (e_mode e) ++ e_attr e ++ le_bytes 2 (zlen (e_name e) + 1) ++
  le_bytes 2 (zlen (e_data e) / 2 ^ 16) ++ le_bytes 2 (zlen (e_data e) mod 2 ^ 16).

Definition encode_entry (e : entry) : list Z :=
  encode_header e ++ (e_name e ++ [0] ++ pad (zlen (e_name e) + 1)) ++ e_data e ++ pad (zlen (e_data e)).

Definition header_ok (e : entry) : Prop :=
  zlen (e_node e) = 4 /\ is_u16 (e_mode e) /\ zlen (e_attr e) = 12 /\
  Forall (fun c => c <> 0) (e_name e) /\ zlen (e_name e) + 1 < 2 ^ 16 /\ zlen (e_data e) < 2 ^ 31.

(** A file; the lookup compares 64 characters. *)
Definition file_ok (e : entry) : Prop := header_ok e /\ e_name e <> trailer_name /\ zlen (e_name e) < 64.

(** The memory of an archive, up to its last entry and what follows. *)
Definition encode (fs : list entry) (last : entry) (rest : list Z) : list Z := flat_map encode_entry fs ++ encode_entry last ++ rest.

(** The first file of a name, with the offset of its header. *)
Fixpoint find_file (fs : list entry) (name : list Z) (off : Z) : option (Z * entry) :=
  match fs with
  | [] => None
  | e :: fs' => if decide (e_name e = name) then Some (off, e) else find_file fs' name (off + zlen (encode_entry e))
  end.

(** [ar] holds the bytes [l] from offset [off] to its end. *)
Definition stands (ar : list Z) (off : Z) (l : list Z) : Prop := 0 <= off /\ off + zlen l = zlen ar /\ drop (Z.to_nat off) ar = l.

Lemma stands_app ar off x l : stands ar off (x ++ l) -> stands ar (off + zlen x) l.
Proof.
  intros (H1 & H2 & H3). rewrite zlen_app in H2. pose proof (zlen_nonneg x). split; [lia|]. split; [lia|].
  replace (Z.to_nat (off + zlen x)) with (Z.to_nat off + length x)%nat by (unfold zlen; lia).
  by rewrite <- drop_drop, H3, drop_app_length.
Qed.

Lemma stands_read ar off x l n : stands ar off (x ++ l) -> zlen x = n -> copy_from ar off n = Ret x.
Proof.
  intros (H1 & H2 & H3) <-. rewrite zlen_app in H2. pose proof (zlen_nonneg x). pose proof (zlen_nonneg l).
  rewrite copy_from_ok by lia. unfold slice. rewrite H3. replace (Z.to_nat (zlen x)) with (length x) by (unfold zlen; lia). by rewrite take_app_length.
Qed.

Lemma stands_read16 ar off w l : stands ar off (le_bytes 2 w ++ l) -> is_u16 w -> read16 ar off = Ret w.
Proof.
  intros H Hw. unfold read16. rewrite (stands_read _ _ _ _ 2 H) by (unfold zlen; by rewrite le_bytes_length). cbn [obind].
  rewrite le_val_bytes; [done|exact Hw].
Qed.

Lemma encode_header_zlen e : header_ok e -> zlen (encode_header e) = HEADER_SIZE.
Proof. intros (H1 & _ & H2 & _). unfold encode_header. rewrite !zlen_app, H1, H2. unfold zlen. by rewrite !le_bytes_length. Qed.

(** The header of an encoded entry. *)
Definition header_of (e : entry) : cpio_binary_header :=
  Cpio CPIO_MAGIC (e_mode e) (zlen (e_name e) + 1) (zlen (e_data e) / 2 ^ 16) (zlen (e_data e) mod 2 ^ 16).

Lemma read_header_ok ar off e l : header_ok e -> stands ar off (encode_header e ++ l) -> read_header ar off = Ret (header_of e).
Proof.
  intros (Hn & Hm & Ha & _ & Hz & Hd) H. unfold encode_header in H. rewrite <- !app_assoc in H.
  pose proof (zlen_nonneg (e_name e)). pose proof (zlen_nonneg (e_data e)).
  assert (H2 : forall w, zlen (le_bytes 2 w) = 2) by (intros w; unfold zlen; by rewrite le_bytes_length).
  unfold read_header. rewrite (stands_read16 _ _ _ _ H) by done. cbn [obind].
  apply stands_app in H. rewrite H2 in H. apply stands_app in H. rewrite Hn in H. replace (off + 2 + 4) with (off + 6) in H by lia.
  rewrite (stands_read16 _ _ _ _ H Hm). cbn [obind].
  apply stands_app in H. rewrite H2 in H. apply stands_app in H. rewrite Ha in H. replace (off + 6 + 2 + 12) with (off + 20) in H by lia.
  rewrite (stands_read16 _ _ _ _ H) by (unfold is_u16; lia). cbn [obind].
  apply stands_app in H. rewrite H2 in H. replace (off + 20 + 2) with (off + 22) in H by lia.
  rewrite (stands_read16 _ _ _ _ H) by (unfold is_u16; Z.div_mod_to_equations; lia). cbn [obind].
  apply stands_app in H. rewrite H2 in H. replace (off + 22 + 2) with (off + 24) in H by lia.
  rewrite (stands_read16 _ _ _ _ H) by (unfold is_u16; Z.div_mod_to_equations; lia). done.
Qed.

Lemma halves_lor x : 0 <= x -> Z.lor (Z.shiftl (x / 2 ^ 16) 16) (x mod 2 ^ 16) = x.
Proof.
  intros Hx. apply Z.bits_inj'. intros k Hk. rewrite Z.lor_spec, Z.shiftl_spec by lia. destruct (Z.lt_ge_cases k 16).
  - rewrite Z.testbit_neg_r, Z.mod_pow2_bits_low by lia. done.
  - rewrite Z.mod_pow2_bits_high by lia. rewrite Z.div_pow2_bits by lia. rewrite Bool.orb_false_r. f_equal. lia.
Qed.

Lemma filesize_ok e : header_ok e -> filesize (header_of e) = zlen (e_data e).
Proof.
  intros (_ & _ & _ & _ & _ & Hd). pose proof (zlen_nonneg (e_data e)). unfold filesize. cbn [c_filesize0 c_filesize1 header_of].
  rewrite halves_lor by lia. apply s32_small. lia.
Qed.

Lemma pad_zlen n : 0 <= n -> zlen (pad n) = n mod 2.
Proof. intros Hn. unfold pad. destruct (Z.eqb_spec (n mod 2) 0) as [->|]; [done|]. change (zlen [0]) with 1. Z.div_mod_to_equations; lia. Qed.

Lemma encode_entry_zlen e : header_ok e -> zlen (encode_entry e) = entry_size (header_of e).
Proof.
  intros He. pose proof (zlen_nonneg (e_name e)). pose proof (zlen_nonneg (e_data e)). unfold encode_entry, entry_size. rewrite !zlen_app, encode_header_zlen by done.
  rewrite filesize_ok by done. rewrite !pad_zlen by lia. cbn [c_namesize c_filesize1 header_of]. change (zlen [0]) with 1.
  replace ((zlen (e_data e) mod 2 ^ 16) mod 2) with (zlen (e_data e) mod 2); [lia|]. Z.div_mod_to_equations; lia.
Qed.

(** The name of an encoded entry. *)
Lemma name_at_ok ar off e l : header_ok e -> stands ar off (encode_entry e ++ l) -> holds_str (e_name e) (name_at ar off).
Proof.
  intros He H. unfold encode_entry in H. rewrite <- !app_assoc in H. apply stands_app in H. rewrite encode_header_zlen in H by done.
  destruct H as (_ & _ & H). unfold name_at. rewrite H. split; [apply He|]. eauto.
Qed.

Lemma trailer_test w p : holds_str w p -> exists r, strncmp p (trailer_name ++ [0]) 11 = Some r /\ (r = 0 <-> w = trailer_name).
Proof.
  intros Hw. destruct (strncmp_zero_iff 11 w trailer_name p (trailer_name ++ [0]) Hw) as (r & -> & Hr).
  { split; [repeat constructor; lia|by exists []]. }
  exists r. split; [done|]. rewrite Hr. change (take 11 trailer_name) with trailer_name. split; [|by intros ->].
  intros E. rewrite <- (take_drop 11 w), E. destruct (drop 11 w) eqn:Ed; [by rewrite app_nil_r|].
  assert (length (take 11 w) = 11%nat) as Hl.
  { rewrite length_take. assert (length (drop 11 w) <> 0%nat) by by rewrite Ed. rewrite length_drop in *. lia. }
  by rewrite E in Hl.
Qed.

Lemma name_test w v p q : holds_str w p -> holds_str v q -> zlen w < 64 -> zlen v < 64 ->
  exists r, strncmp p q 64 = Some r /\ (r = 0 <-> w = v).
Proof.
  intros Hw Hv Lw Lv. destruct (strncmp_zero_iff 64 w v p q Hw Hv) as (r & -> & Hr). exists r. split; [done|].
  unfold zlen in *. rewrite Hr, !take_ge by lia. done.
Qed.

Section lookup.
Context (ar : list Z) (last : entry) (tail : list Z).
Hypothesis last_ok : header_ok last.
Hypothesis last_name : e_name last = trailer_name.

Lemma search_loop_ok name filename fs : Forall file_ok fs -> holds_str name filename -> zlen name < 64 -> forall n off,
  (length fs <= n)%nat -> stands ar off (encode fs last tail) ->
  search_loop n ar filename off = Ret (option_map fst (find_file fs name off)).
Proof.
  intros Hfs Hf Hl. induction Hfs as [|e fs (He & Ht & Hn) _ IH]; intros n off Hlen H; unfold encode in H; cbn [flat_map app find_file] in *.
  - destruct (trailer_test _ _ (name_at_ok _ _ _ _ last_ok H)) as (r & E & Hr).
    assert (r = 0) as -> by by apply Hr. destruct n; cbn [search_loop]; rewrite E; done.
  - rewrite <- app_assoc in H. pose proof (name_at_ok _ _ _ _ He H) as Hna. destruct (trailer_test _ _ Hna) as (r & E & Hr).
    destruct (name_test _ _ _ _ Hna Hf Hn Hl) as (r2 & E2 & Hr2). cbn [length] in Hlen. destruct n as [|n]; [lia|]. cbn [search_loop]. rewrite E. cbn [of_option obind].
    destruct (Z.eqb_spec r 0) as [Hz|_]; [by apply Hr in Hz|]. rewrite E2. cbn [of_option obind]. destruct (decide (e_name e = name)) as [En|En].
    + assert (r2 = 0) as -> by by apply Hr2. done.
    + destruct (Z.eqb_spec r2 0) as [Hz|_]; [by apply Hr2 in Hz|].
      pose proof H as Hh. unfold encode_entry in Hh. rewrite <- app_assoc in Hh. rewrite (read_header_ok _ _ _ _ He Hh). cbn [obind].
      apply stands_app in H. rewrite <- encode_entry_zlen by done. apply IH; [lia|done].
Qed.

(** The bytes of a file in the archive. *)
Lemma find_file_stands name fs : Forall file_ok fs -> forall off o e, stands ar off (encode fs last tail) -> find_file fs name off = Some (o, e) ->
  header_ok e /\ exists l, stands ar o (encode_entry e ++ l).
Proof.
  induction 1 as [|e' fs (He & _) _ IH]; intros off o e H Hf; [done|]. unfold encode in H. cbn [flat_map find_file] in *. rewrite <- app_assoc in H.
  destruct (decide (e_name e' = name)); [injection Hf as <- <-; eauto|]. apply stands_app in H. by eapply IH.
Qed.

Lemma encode_length fs : Forall file_ok fs -> forall off, stands ar off (encode fs last tail) -> (length fs <= length ar)%nat.
Proof.
  assert (G : forall fs, (length fs <= length (flat_map encode_entry fs))%nat).
  { induction fs0 as [|e fs0 IH]; [done|]. cbn [flat_map length]. rewrite length_app.
    assert (Hp : (2 <= length (encode_entry e))%nat) by (unfold encode_entry, encode_header; rewrite !length_app, !le_bytes_length; lia). lia. }
  intros _ off (H1 & H2 & _). specialize (G fs). unfold encode in H2. rewrite zlen_app in H2. pose proof (zlen_nonneg (encode_entry last ++ tail)).
  unfold zlen in *. lia.
Qed.

Lemma initramfs_read_ok off e l offset size : header_ok e -> stands ar off (encode_entry e ++ l) -> 0 <= offset <= zlen (e_data e) -> 0 <= size -> offset + size < 2 ^ 32 ->
  initramfs_read ar off offset size = Ret (Z.min size (zlen (e_data e) - offset), slice offset size (e_data e)).
Proof.
  intros He H Ho Hs Hb. pose proof H as Hh. unfold encode_entry in Hh. rewrite <- app_assoc in Hh. unfold initramfs_read.
  rewrite (read_header_ok _ _ _ _ He Hh). cbn [obind]. rewrite filesize_ok by done. pose proof He as (_ & _ & _ & _ & _ & Hd). pose proof (zlen_nonneg (e_data e)).
  rewrite (u32_small (zlen (e_data e))), (u32_small (offset + size)), (u32_small (zlen (e_data e) - offset)) by (unfold is_u32; lia).
  set (n := if zlen (e_data e) <? offset + size then zlen (e_data e) - offset else size).
  assert (Hn : n = Z.min size (zlen (e_data e) - offset)) by (unfold n; destruct (Z.ltb_spec (zlen (e_data e)) (offset + size)); lia).
  assert (Hsl : slice offset size (e_data e) = slice offset n (e_data e)).
  { unfold slice. destruct (Z.ltb_spec size (zlen (e_data e) - offset)); [f_equal; lia|].
    rewrite !take_ge; [done|rewrite length_drop; unfold zlen in *; lia..]. }
  rewrite Hsl, <- Hn. clearbody n. destruct (Z.leb_spec n 0); [replace n with 0 by lia; by rewrite slice_0|].
  cbn [c_namesize header_of].
  assert (Hdata : stands ar (off + HEADER_SIZE + (zlen (e_name e) + 1) + (zlen (e_name e) + 1) mod 2) (e_data e ++ pad (zlen (e_data e)) ++ l)).
  { apply stands_app in Hh. rewrite encode_header_zlen in Hh by done. rewrite <- !app_assoc in Hh. apply stands_app in Hh. apply stands_app in Hh. apply stands_app in Hh.
    rewrite pad_zlen in Hh by (pose proof (zlen_nonneg (e_name e)); lia). change (zlen [0]) with 1 in Hh.
    by replace (off + HEADER_SIZE + (zlen (e_name e) + 1) + (zlen (e_name e) + 1) mod 2) with (off + HEADER_SIZE + zlen (e_name e) + 1 + (zlen (e_name e) + 1) mod 2) by lia. }
  clear Hh H. rewrite <- (take_drop (Z.to_nat offset) (e_data e)), <- app_assoc in Hdata. apply stands_app in Hdata.
  replace (zlen (take (Z.to_nat offset) (e_data e))) with offset in Hdata by (unfold zlen in *; rewrite length_take; lia).
  rewrite <- (take_drop (Z.to_nat n) (drop (Z.to_nat offset) (e_data e))), <- app_assoc in Hdata.
  rewrite (stands_read _ _ _ _ n Hdata) by (unfold zlen in *; rewrite length_take, length_drop; lia). cbn [obind]. by rewrite s32_small by lia.
Qed.
End lookup.

(** C19: looking a file up in the boot archive and reading it gives what was
    archived.  For every archive of files in the binary cpio format, the four
    operations on a name agree: if there is no file of that name all report so;
    otherwise they give the position, the size and the mode of the first one,
    and reading at that position any range from inside the file gives the bytes
    of the file there, as many as are left of it. *)
Theorem initramfs_roundtrip fs last tail name filename :
  let ar := encode fs last tail in
  Forall file_ok fs -> header_ok last -> e_name last = trailer_name -> holds_str name filename -> zlen name < 64 -> zlen ar < 2 ^ 31 ->
  match find_file fs name 0 with
  | None => initramfs_open ar filename = Ret ERROR_NOT_EXIST /\ initramfs_file_get_size ar filename = Ret ERROR_NOT_EXIST /\
      initramfs_file_get_mode ar filename = Ret ERROR_NOT_EXIST
  | Some (off, e) => e ∈ fs /\ e_name e = name /\ initramfs_open ar filename = Ret off /\
      initramfs_file_get_size ar filename = Ret (zlen (e_data e)) /\ initramfs_file_get_mode ar filename = Ret (e_mode e) /\
      forall offset size, 0 <= offset <= zlen (e_data e) -> 0 <= size -> offset + size < 2 ^ 32 ->
        initramfs_read ar off offset size = Ret (Z.min size (zlen (e_data e) - offset), slice offset size (e_data e))
  end.
Proof.
  intros ar Hfs Hl Hln Hf Hn Har. assert (H0 : stands ar 0 (encode fs last tail)) by (split; [done|]; split; [reflexivity|by rewrite drop_0]).
  assert (Hs : initramfs_search ar filename = Ret (option_map fst (find_file fs name 0))).
  { apply (search_loop_ok ar last tail Hl Hln name); try done. by eapply encode_length. }
  assert (Hin : forall off o e, find_file fs name off = Some (o, e) -> e ∈ fs /\ e_name e = name).
  { clear. induction fs as [|e' fs IH]; intros off o e H; [done|]. cbn [find_file] in H. destruct (decide (e_name e' = name)).
    - injection H as _ <-. split; [by left|done].
    - apply IH in H as [H1 H2]. split; [by right|done]. }
  unfold initramfs_open, initramfs_file_get_size, initramfs_file_get_mode. rewrite Hs. cbn [obind].
  destruct (find_file fs name 0) as [[off e]|] eqn:E; [|done]. cbn [option_map fst]. destruct (Hin _ _ _ E) as [Hi1 Hi2].
  destruct (find_file_stands ar last tail name fs Hfs 0 off e H0 E) as (He & l & Hst). pose proof Hst as Hh. unfold encode_entry in Hh. rewrite <- app_assoc in Hh.
  rewrite (read_header_ok _ _ _ _ He Hh). cbn [obind]. split; [done|]. split; [done|]. split.
  { destruct Hst as (H1 & H2 & _). rewrite s32_small; [done|]. pose proof (zlen_nonneg (encode_entry e ++ l)). lia. }
  split; [by rewrite filesize_ok|]. split; [done|]. intros offset size Ho Hsz Hb. by eapply initramfs_read_ok.
Qed.

Definition ex_file (name data : list Z) : entry := Entry [0; 0; 1; 0] 0x81a4 (repeat 0 12) name data.

(** Files "a", "bc" and a second "a". *)
Lemma initramfs_roundtrip_witness : exists off e, find_file [ex_file [97] [1; 2; 3]; ex_file [98; 99] [4; 5]; ex_file [97] []] [98; 99] 0 = Some (off, e) /\
  initramfs_open (encode [ex_file [97] [1; 2; 3]; ex_file [98; 99] [4; 5]; ex_file [97] []] (ex_file trailer_name []) [0; 0]) [98; 99; 0] = Ret off /\
  initramfs_read (encode [ex_file [97] [1; 2; 3]; ex_file [98; 99] [4; 5]; ex_file [97] []] (ex_file trailer_name []) [0; 0]) off 1 5 = Ret (1, [5]).
Proof.
  pose proof (initramfs_roundtrip [ex_file [97] [1; 2; 3]; ex_file [98; 99] [4; 5]; ex_file [97] []] (ex_file trailer_name []) [0; 0] [98; 99] [98; 99; 0]) as H.
  cbn zeta in H. destruct (find_file _ _ 0) as [[off e]|] eqn:E; [|by vm_compute in E]. exists off, e. split; [done|].
  destruct H as (_ & _ & H1 & _ & _ & H2).
  - repeat constructor; unfold is_u16; cbn; lia || done.
  - repeat constructor; unfold is_u16; cbn; lia.
  - done.
  - split; [repeat constructor; lia|by exists []].
  - done.
  - done.
  - vm_compute in E. injection E as <- <-. split; [exact H1|]. apply (H2 1 5); [split; by vm_compute|done|done].
Defined.

(** A read from behind the end of a file does not return 0: the number of bytes
    left wraps around. *)
Lemma read_behind_end ar off e l : header_ok e -> stands ar off (encode_entry e ++ l) -> zlen ar < 2 ^ 31 ->
  initramfs_read ar off (zlen (e_data e) + 1) 1 = Fault.
Proof.
  intros He H Har. pose proof H as Hh. unfold encode_entry in Hh. rewrite <- app_assoc in Hh. unfold initramfs_read.
  rewrite (read_header_ok _ _ _ _ He Hh). cbn [obind]. rewrite filesize_ok by done. pose proof He as (_ & _ & _ & _ & Hnm & Hd). pose proof (zlen_nonneg (e_data e)).
  rewrite (u32_small (zlen (e_data e))), (u32_small (zlen (e_data e) + 1 + 1)) by (unfold is_u32; lia). destruct (Z.ltb_spec (zlen (e_data e)) (zlen (e_data e) + 1 + 1)); [|lia].
  replace (u32 (zlen (e_data e) - (zlen (e_data e) + 1))) with (2 ^ 32 - 1) by (replace (zlen (e_data e) - (zlen (e_data e) + 1)) with (-1) by lia; done).
  cbn [Z.leb Z.compare]. unfold copy_from. destruct (Z.leb_spec (2 ^ 32 - 1) 0); [lia|]. cbn [c_namesize header_of]. destruct H as (Hoff & _).
  pose proof (zlen_nonneg (e_name e)). pose proof (Z.mod_pos_bound (zlen (e_name e) + 1) 2 ltac:(lia)). unfold HEADER_SIZE.
  destruct (Z.leb_spec (off + 26 + (zlen (e_name e) + 1) + (zlen (e_name e) + 1) mod 2 + (zlen (e_data e) + 1) + (2 ^ 32 - 1)) (zlen ar)); [lia|].
  by rewrite Bool.andb_false_r.
Qed.
