(* ===== verification/Fat32.v ===== *)
(** kernel/filesystem/fat32: the FAT (fat.c), clusters (cluster.c) and mounting
    (mount.c).  Directories are in [Fat32Dir].

    The code is written against the partition interface [PartitionStore]; its
    theorems assume [PartitionLaws] and so hold on top of the block layer and
    its cache, which implement them.  The state pairs the store with the number
    of pages taken from [kalloc] and not given back. *)

From stdpp Require Import base list strings relations.
From Stdlib Require Import ZArith Lia.
From S2P Require Import Prelude KString HalBlock Partition.

Local Open Scope Z_scope.
Local Open Scope outcome_scope.

(** ** Data *)

Record FAT32BootSector := BootSector {
  sector_per_cluster : Z;
  reserved_sector : Z;
  fat_number : Z;
  fat_size : Z;
  root_cluster : Z;
  volume_label : list Z;
  fstype : list Z
}.

(** The packed structure at its offsets in sector 0. *)
Definition boot_sector_of (bs : list Z) : FAT32BootSector :=
  BootSector (le_val (slice 13 1 bs)) (get16 14 bs) (le_val (slice 16 1 bs)) (get32 36 bs)
    (get32 44 bs) (slice 71 11 bs) (slice 82 8 bs).

Record FAT32Private := Private {
  partition_id : Z;
  boot_sector : FAT32BootSector;
  mode : Z;
  uid : Z;
  gid : Z
}.

Record fs (S : Type) := FS { disk : S; pages : Z }.
Arguments FS {S}.
Arguments disk {S}.
Arguments pages {S}.

Definition divu (x y : Z) : outcome Z := if y =? 0 then Fault else Ret (x / y).

Section fat32.
Context {S : Type} `{PartitionStore S}.
(** Contents of a page just taken from the allocator. *)
Variable junk : list Z.
(** Bound on the length of a cluster chain a loop follows. *)
Variable fuel : nat.

Definition take_page (s : fs S) : fs S := FS (disk s) (pages s + 1).
Definition give_page (s : fs S) : fs S := FS (disk s) (pages s - 1).

Definition part_read (id sect : Z) (buf : list Z) (s : fs S) : outcome (Z * list Z * fs S) :=
  '(r, buf', d) <- pread id sect buf (disk s) ;; Ret (r, buf', FS d (pages s)).

Definition part_write (id sect : Z) (buf : list Z) (s : fs S) : outcome (Z * fs S) :=
  '(r, d) <- pwrite id sect buf (disk s) ;; Ret (r, FS d (pages s)).

(** ** fat.c *)

Definition fat32_fat_read (priv : FAT32Private) (current : Z) (s : fs S) : outcome (Z * fs S) :=
  let s0 := take_page s in
  let sect := u32 (reserved_sector (boot_sector priv) + current / 128) in
  '(_, buf, s1) <- part_read (partition_id priv) sect junk s0 ;;
  let val := get32 (current mod 128 * 4) buf in
  Ret (val, give_page s1).

(** [while (n--)]: follow [n] links, 0 past the end of the chain. *)
Fixpoint follow (priv : FAT32Private) (n : nat) (cluster : Z) (s : fs S) : outcome (Z * fs S) :=
  match n with
  | O => Ret (cluster, s)
  | Datatypes.S n' =>
    '(cluster', s1) <- fat32_fat_read priv cluster s ;;
    if 0x0ffffff8 <=? cluster' then Ret (0, s1) else follow priv n' cluster' s1
  end.

Definition fat32_offset_cluster (priv : FAT32Private) (cluster offset : Z) (s : fs S)
    : outcome (Z * fs S) :=
  n <- divu (offset / 512) (sector_per_cluster (boot_sector priv)) ;;
  follow priv (Z.to_nat n) cluster s.

Definition fat32_write_fat (priv : FAT32Private) (cluster data : Z) (s : fs S) : outcome (Z * fs S) :=
  let s0 := take_page s in
  let sect := s32 (reserved_sector (boot_sector priv) + cluster / 128) in
  '(r, buf, s1) <- part_read (partition_id priv) sect junk s0 ;;
  if r <? 0 then Ret (ERROR_READ_FAIL, give_page s1) else
  let buf' := put32 (cluster mod 128 * 4) data buf in
  '(r1, s2) <- part_write (partition_id priv) sect buf' s1 ;;
  if r1 <? 0 then Ret (ERROR_WRITE_FAIL, give_page s2) else
  '(r2, s3) <- part_write (partition_id priv) (u32 (sect + fat_size (boot_sector priv))) buf' s2 ;;
  if r2 <? 0 then Ret (ERROR_WRITE_FAIL, give_page s3) else
  Ret (0, give_page s3).

(** The loop that looks for the last cluster reads every entry twice. *)
Fixpoint last_cluster (priv : FAT32Private) (n : nat) (clus : Z) (s : fs S) : outcome (Z * fs S) :=
  match n with
  | O => NoFuel
  | Datatypes.S n' =>
    '(v, s1) <- fat32_fat_read priv clus s ;;
    if v <? 0x0ffffff8 then
      '(clus', s2) <- fat32_fat_read priv clus s1 ;; last_cluster priv n' clus' s2
    else Ret (clus, s1)
  end.

Definition fat32_append_cluster (priv : FAT32Private) (begin_cluster end_cluster : Z) (s : fs S)
    : outcome (Z * fs S) :=
  '(clus, s1) <- last_cluster priv fuel begin_cluster s ;;
  fat32_write_fat priv clus end_cluster s1.

Fixpoint free_chain (priv : FAT32Private) (n : nat) (cluster : Z) (s : fs S) : outcome (Z * fs S) :=
  match n with
  | O => NoFuel
  | Datatypes.S n' =>
    '(clus, s1) <- fat32_fat_read priv cluster s ;;
    '(r, s2) <- fat32_write_fat priv cluster 0 s1 ;;
    if r <? 0 then Ret (ERROR_WRITE_FAIL, s2)
    else if clus <? 0x0ffffff8 then free_chain priv n' clus s2
    else Ret (0, s2)
  end.

Definition fat32_free_chain (priv : FAT32Private) (cluster : Z) (s : fs S) : outcome (Z * fs S) :=
  free_chain priv fuel cluster s.

(** ** cluster.c *)

Definition fat32_cluster_to_sector (priv : FAT32Private) (cluster : Z) : Z :=
  let b := boot_sector priv in
  s32 (u32 (cluster - 2) * sector_per_cluster b + reserved_sector b + fat_number b * fat_size b).

(** How much of [size] bytes starting at [begin] the chunk (a sector, a
    cluster) holding byte [begin + off] serves. *)
Definition copysize_at (chunk begin off size : Z) : Z :=
  if u32 (begin + off) / chunk <? u32 (begin + size) / chunk then
    s32 ((u32 (begin + off) / chunk + 1) * chunk - (begin + off))
  else s32 (size - off).

Fixpoint read_cluster_loop (priv : FAT32Private) (n : nat) (dest : list Z) (doff cluster begin size off : Z)
    (sect : list Z) (s : fs S) : outcome (Z * list Z * fs S) :=
  if size <=? off then Ret (0, dest, give_page s) else
  match n with
  | O => NoFuel
  | Datatypes.S n' =>
    let copysize := copysize_at 512 begin off size in
    let sector := u32 (fat32_cluster_to_sector priv cluster + u32 (begin + off) / 512) in
    '(r, sect', s1) <- part_read (partition_id priv) sector sect s ;;
    if r <? 0 then Ret (ERROR_READ_FAIL, dest, give_page s1) else
    bytes <- copy_from sect' (u32 (begin + off) mod 512) copysize ;;
    dest' <- copy_into dest (doff + off) bytes ;;
    read_cluster_loop priv n' dest' doff cluster begin size (u32 (off + copysize)) sect' s1
  end.

(** [dest] is the buffer, [doff] where in it the caller's pointer is. *)
Definition fat32_read_cluster (priv : FAT32Private) (dest : list Z) (doff cluster begin size : Z) (s : fs S)
    : outcome (Z * list Z * fs S) :=
  read_cluster_loop priv (Z.to_nat size) dest doff cluster begin size 0 junk (take_page s).

Definition clussize (priv : FAT32Private) : Z := sector_per_cluster (boot_sector priv) * 512.

Fixpoint read_loop (priv : FAT32Private) (n : nat) (cluster : Z) (buf : list Z) (offset size off : Z) (s : fs S)
    : outcome (Z * list Z * fs S) :=
  if size <=? off then Ret (s32 size, buf, s) else
  match n with
  | O => NoFuel
  | Datatypes.S n' =>
    _ <- divu (u32 (offset + off)) (clussize priv) ;;
    let copysize := copysize_at (clussize priv) offset off size in
    '(clus, s1) <- fat32_offset_cluster priv cluster (u32 (offset + off)) s ;;
    '(r, buf', s2) <- fat32_read_cluster priv buf off clus (u32 (offset + off) mod clussize priv) (u32 copysize) s1 ;;
    if r <? 0 then Ret (ERROR_READ_FAIL, buf', s2) else
    read_loop priv n' cluster buf' offset size (u32 (off + copysize)) s2
  end.

Definition fat32_read (priv : FAT32Private) (cluster : Z) (buf : list Z) (offset size : Z) (s : fs S)
    : outcome (Z * list Z * fs S) :=
  read_loop priv (Z.to_nat size) cluster buf offset size 0 s.

Fixpoint write_cluster_loop (priv : FAT32Private) (n : nat) (src : list Z) (soff cluster begin size off : Z)
    (sect : list Z) (s : fs S) : outcome (Z * fs S) :=
  if size <=? off then Ret (0, give_page s) else
  match n with
  | O => NoFuel
  | Datatypes.S n' =>
    let copysize := copysize_at 512 begin off size in
    let sector := u32 (fat32_cluster_to_sector priv cluster + u32 (begin + off) / 512) in
    '(r, sect', s1) <- part_read (partition_id priv) sector sect s ;;
    if r <? 0 then Ret (ERROR_READ_FAIL, give_page s1) else
    bytes <- copy_from src (soff + off) copysize ;;
    sect'' <- copy_into sect' (u32 (begin + off) mod 512) bytes ;;
    '(r1, s2) <- part_write (partition_id priv) sector sect'' s1 ;;
    if r1 <? 0 then Ret (ERROR_WRITE_FAIL, give_page s2) else
    write_cluster_loop priv n' src soff cluster begin size (u32 (off + copysize)) sect'' s2
  end.

Definition fat32_write_cluster (priv : FAT32Private) (src : list Z) (soff cluster begin size : Z) (s : fs S)
    : outcome (Z * fs S) :=
  write_cluster_loop priv (Z.to_nat size) src soff cluster begin size 0 junk (take_page s).

(** Index of the first zero entry of a FAT sector. *)
Fixpoint free_slot (buf : list Z) (i : Z) (n : nat) : option Z :=
  match n with
  | O => None
  | Datatypes.S n' => if get32 (i * 4) buf =? 0 then Some i else free_slot buf (i + 1) n'
  end.

(** The error returns keep [buf] and hand the (negative) error code to callers
    as an unsigned cluster number. *)
Fixpoint allocate_loop (priv : FAT32Private) (n : nat) (fat : Z) (buf : list Z) (s : fs S)
    : outcome (Z * fs S) :=
  match n with
  | O => Ret (0, give_page s)
  | Datatypes.S n' =>
    let b := boot_sector priv in
    let sect := s32 (reserved_sector b + fat) in
    '(r, buf', s1) <- part_read (partition_id priv) sect buf s ;;
    if r <? 0 then Ret (u32 ERROR_READ_FAIL, s1) else
    match free_slot buf' 0 128 with
    | Some i =>
      let buf'' := put32 (i * 4) 0x0fffffff buf' in
      '(r1, s2) <- part_write (partition_id priv) sect buf'' s1 ;;
      if r1 <? 0 then Ret (u32 ERROR_WRITE_FAIL, s2) else
      '(r2, s3) <- part_write (partition_id priv) (u32 (sect + fat_size b)) buf'' s2 ;;
      if r2 <? 0 then Ret (u32 ERROR_WRITE_FAIL, s3) else
      Ret (u32 (fat * 128 + i), give_page s3)
    | None => allocate_loop priv n' (fat + 1) buf' s1
    end
  end.

Definition fat32_allocate_cluster (priv : FAT32Private) (s : fs S) : outcome (Z * fs S) :=
  allocate_loop priv (Z.to_nat (fat_size (boot_sector priv))) 0 junk (take_page s).

(** The test [(clus = fat32_allocate_cluster(priv)) < 0] compares an unsigned
    value with zero. *)
Fixpoint write_loop (priv : FAT32Private) (n : nat) (cluster : Z) (buf : list Z) (offset size off : Z) (s : fs S)
    : outcome (Z * fs S) :=
  if size <=? off then Ret (s32 size, s) else
  match n with
  | O => NoFuel
  | Datatypes.S n' =>
    _ <- divu (u32 (offset + off)) (clussize priv) ;;
    let copysize := copysize_at (clussize priv) offset off size in
    '(clus, s1) <- fat32_offset_cluster priv cluster (u32 (offset + off)) s ;;
    let tail clus s1 :=
      '(r, s2) <- fat32_write_cluster priv buf off clus (u32 (offset + off) mod clussize priv) (u32 copysize) s1 ;;
      if r <? 0 then Ret (ERROR_WRITE_FAIL, s2) else
      write_loop priv n' cluster buf offset size (u32 (off + copysize)) s2 in
    if clus =? 0 then
      '(clus', s2) <- fat32_allocate_cluster priv s1 ;;
      if clus' <? 0 then Ret (ERROR_OUT_OF_SPACE, s2) else
      '(r, s3) <- fat32_append_cluster priv cluster clus' s2 ;;
      if r <? 0 then Ret (ERROR_WRITE_FAIL, s3) else tail clus' s3
    else tail clus s1
  end.

Definition fat32_write (priv : FAT32Private) (cluster : Z) (buf : list Z) (offset size : Z) (s : fs S)
    : outcome (Z * fs S) :=
  write_loop priv (Z.to_nat size) cluster buf offset size 0 s.

(** ** mount.c *)

(** ["FAT32"] with its terminator. *)
Definition fat32_str : list Z := [70; 65; 84; 51; 50; 0].

(** The label is only printed.  A failed read keeps the page. *)
Definition fat32_mount (partition_id : Z) (s : fs S) : outcome (Z * option FAT32Private * fs S) :=
  '(r, bootsect, s1) <- part_read partition_id 0 junk (take_page s) ;;
  if r <? 0 then Ret (ERROR_READ_FAIL, None, s1) else
  let b := boot_sector_of bootsect in
  c <- of_option (strncmp (fstype b) fat32_str 5) ;;
  if negb (c =? 0) then Panic "Mounting a non-FAT32 filesystem" else
  Ret (0, Some (Private (u32 partition_id) b 511 0 0), take_page s1).

(** The page is never given back. *)
Definition fat32_probe (partition_id : Z) (s : fs S) : outcome (Z * fs S) :=
  '(r, bootsect, s1) <- part_read partition_id 0 junk (take_page s) ;;
  if r <? 0 then Ret (ERROR_READ_FAIL, s1) else
  c <- of_option (strncmp (fstype (boot_sector_of bootsect)) fat32_str 5) ;;
  Ret (c, s1).

Definition fat32_set_default_attr (priv : FAT32Private) (uid gid mode : Z) : FAT32Private :=
  Private (partition_id priv) (boot_sector priv) mode uid gid.

End fat32.

(** ** Geometry and the disk image

    A disk image is a function from sector numbers to sector contents;
    everything below is stated on images. *)
Notation image := (Z -> list Z).

(** [nclus] data clusters, two copies of the FAT that cover them, and room for
    all of it in a partition of [size] sectors. *)
Record geometry (priv : FAT32Private) (nclus size : Z) : Prop := {
  geo_spc : 0 < sector_per_cluster (boot_sector priv) < 256;
  geo_res : 0 <= reserved_sector (boot_sector priv);
  geo_fats : fat_number (boot_sector priv) = 2;
  geo_fat_size : 0 < fat_size (boot_sector priv);
  geo_cover : 2 + nclus <= fat_size (boot_sector priv) * 128;
  geo_fat_max : fat_size (boot_sector priv) * 128 <= 2^28;
  geo_nclus : 0 <= nclus < 0x0ffffff6;
  geo_fits : reserved_sector (boot_sector priv) + 2 * fat_size (boot_sector priv)
             + nclus * sector_per_cluster (boot_sector priv) <= size;
  geo_size : size < 2^31
}.

(** Sectors are 512 bytes. *)
Definition image_ok (v : image) : Prop := forall i, zlen (v i) = 512.

Definition set_sector (v : image) (i : Z) (bs : list Z) : image :=
  fun j => if decide (j = i) then bs else v j.

Section image.
Variable priv : FAT32Private.
Local Notation b := (boot_sector priv).
Local Notation spc := (sector_per_cluster b).

(** FAT entry of cluster [c] in the first FAT. *)
Definition fat_sector (c : Z) : Z := reserved_sector b + c / 128.
Definition fat_entry (v : image) (c : Z) : Z := get32 (c mod 128 * 4) (v (fat_sector c)).

(** First sector and contents of a data cluster. *)
Definition data_start : Z := reserved_sector b + 2 * fat_size b.
Definition first_sector (c : Z) : Z := data_start + (c - 2) * spc.
Definition cluster_data (v : image) (c : Z) : list Z := flat_map v (seqZ (first_sector c) spc).

(** [chain v c l]: the clusters of the chain that starts at [c], in order. *)
Inductive chain (nclus : Z) (v : image) : Z -> list Z -> Prop :=
| chain_last c : 2 <= c < 2 + nclus -> 0x0ffffff8 <= fat_entry v c -> chain nclus v c [c]
| chain_next c l : 2 <= c < 2 + nclus -> fat_entry v c < 0x0ffffff8 ->
    chain nclus v (fat_entry v c) l -> chain nclus v c (c :: l).

Definition file_data (v : image) (l : list Z) : list Z := flat_map (cluster_data v) l.

(** Both FATs hold the same. *)
Definition mirrored (v : image) : Prop :=
  forall k, 0 <= k < fat_size b -> v (reserved_sector b + fat_size b + k) = v (reserved_sector b + k).

Definition set_fat (v : image) (c data : Z) : image :=
  let bs := put32 (c mod 128 * 4) data (v (fat_sector c)) in
  set_sector (set_sector v (fat_sector c) bs) (fat_sector c + fat_size b) bs.
End image.

Section refine.
Context {S : Type} `{PartitionLaws S}.
Variable junk : list Z.
Hypothesis junk_page : 512 <= zlen junk.
Variable fuel : nat.
Variable priv : FAT32Private.
Variables nclus size : Z.
Hypothesis geo : geometry priv nclus size.
Local Notation b := (boot_sector priv).
Local Notation spc := (sector_per_cluster b).
Local Notation id := (partition_id priv).

(** The partition holds image [v], and [g] pages are out. *)
Definition holds (s : fs S) (v : image) (g : Z) : Prop :=
  pvalid (disk s) id /\ psize (disk s) id = size /\ pages s = g /\
  image_ok v /\ forall i, 0 <= i < size -> psector (disk s) id i = v i.

Lemma holds_image s v g : holds s v g -> image_ok v.
Proof. by intros (_ & _ & _ & Hv & _). Qed.

Lemma part_read_ok s v g sect buf :
  holds s v g -> 0 <= sect < size -> 512 <= zlen buf ->
  exists r s', part_read id sect buf s = Ret (r, splice 0 (v sect) buf, s') /\ 0 <= r /\ holds s' v g.
Proof.
  intros (Hv & Hs & Hg & Hl & Hi) Hr Hb. unfold part_read.
  destruct (pread_law (disk s) id sect buf) as (r & d & -> & Hr0 & Hv' & Hs' & Hi'); [done|lia|done|].
  cbn [obind]. rewrite Hi by done. exists r, (FS d (pages s)). unfold holds; simpl. split_and!; try done.
  - congruence.
  - intros i Hin. rewrite Hi'. auto.
Qed.

Lemma part_write_ok s v g sect buf :
  holds s v g -> 0 <= sect < size -> 512 <= zlen buf ->
  exists r s', part_write id sect buf s = Ret (r, s') /\ 0 <= r /\
    holds s' (set_sector v sect (slice 0 512 buf)) g.
Proof.
  intros (Hv & Hs & Hg & Hl & Hi) Hr Hb. unfold part_write.
  destruct (pwrite_law (disk s) id sect buf) as (r & d & -> & Hr0 & Hv' & Hs' & Hi'); [done|lia|done|].
  cbn [obind]. exists r, (FS d (pages s)). unfold holds; simpl. split_and!; try done.
  - congruence.
  - intros i. unfold set_sector. case_decide; [|done]. apply slice_length; lia.
  - intros i Hin. rewrite Hi' by lia. unfold set_sector. case_decide; auto.
Qed.

Lemma take_ok s v g : holds s v g -> holds (take_page s) v (g + 1).
Proof. intros (Hv & Hs & Hg & Hl & Hi). unfold holds; simpl. split_and!; try done. lia. Qed.

Lemma give_ok s v g : holds s v (g + 1) -> holds (give_page s) v g.
Proof. intros (Hv & Hs & Hg & Hl & Hi). unfold holds; simpl. split_and!; try done. lia. Qed.

(** ** The FAT *)

(** A cluster number the FAT has an entry for. *)
Definition in_fat (c : Z) : Prop := 0 <= c < fat_size b * 128.

Lemma fat_sector_range c : in_fat c ->
  reserved_sector b <= fat_sector priv c < reserved_sector b + fat_size b /\
  0 <= fat_sector priv c < size /\ 0 <= fat_sector priv c + fat_size b < size.
Proof.
  destruct geo. unfold in_fat, fat_sector. intros Hc.
  assert (0 <= c / 128 < fat_size b) by (split; [apply Z.div_pos|apply Z.div_lt_upper_bound]; lia).
  nia.
Qed.

Lemma fat_read_ok c s v g : holds s v g -> in_fat c ->
  exists s', fat32_fat_read junk priv c s = Ret (fat_entry priv v c, s') /\ holds s' v g.
Proof.
  intros Hh Hc. unfold fat32_fat_read. destruct (fat_sector_range c Hc) as (_ & Hr & _).
  fold (fat_sector priv c). destruct geo. rewrite u32_small by (unfold is_u32; lia).
  destruct (part_read_ok (take_page s) v (g + 1) (fat_sector priv c) junk) as (r & s1 & -> & _ & Hh1);
    [by apply take_ok|done|done|]. cbn [obind].
  exists (give_page s1). split; [|by apply give_ok]. do 2 f_equal. unfold fat_entry, get32.
  rewrite slice_splice_prefix; [done|..]; destruct Hh as (_ & _ & _ & Hl & _); rewrite ?Hl;
    assert (0 <= c mod 128 < 128) by (apply Z.mod_pos_bound; lia); lia.
Qed.

Lemma mod128 c : 0 <= c mod 128 * 4 /\ c mod 128 * 4 + 4 <= 512.
Proof. assert (0 <= c mod 128 < 128) by (apply Z.mod_pos_bound; lia). lia. Qed.

Lemma put32_front off w sec (buf : list Z) : zlen sec = 512 -> 0 <= off -> off + 4 <= 512 ->
  slice 0 512 (put32 off w (splice 0 sec buf)) = put32 off w sec.
Proof.
  intros Hs Ho Ho'. apply slice_splice_front; [done..|]. unfold zlen. rewrite le_bytes_length. lia.
Qed.

Lemma put32_buf_length off w sec (buf : list Z) :
  zlen sec = 512 -> 512 <= zlen buf -> 0 <= off -> off + 4 <= 512 ->
  zlen (put32 off w (splice 0 sec buf)) = zlen buf.
Proof.
  intros Hs Hb Ho Ho'. assert (E : zlen (splice 0 sec buf) = zlen buf) by (apply splice_length; lia).
  rewrite <- E. apply put32_length; lia.
Qed.

(** The tail shared by [fat32_write_fat] and [fat32_allocate_cluster]: the
    edited sector goes to both FATs. *)
Lemma write_both_ok s v g sect buf bs :
  holds s v g -> 0 <= sect < size -> 0 <= sect + fat_size b < size -> 512 <= zlen buf -> slice 0 512 buf = bs ->
  exists r1 s1 r2 s2, part_write id sect buf s = Ret (r1, s1) /\ 0 <= r1 /\
    part_write id (sect + fat_size b) buf s1 = Ret (r2, s2) /\ 0 <= r2 /\
    holds s2 (set_sector (set_sector v sect bs) (sect + fat_size b) bs) g.
Proof.
  intros Hh Hr Hr2 Hb <-. destruct (part_write_ok s v g sect buf) as (r1 & s1 & E1 & Hr1 & Hh1); [done..|].
  destruct (part_write_ok s1 _ g (sect + fat_size b) buf Hh1) as (r2 & s2 & E2 & Hr2' & Hh2); [done..|].
  exists r1, s1, r2, s2. auto.
Qed.

Lemma write_fat_ok c data s v g : holds s v g -> in_fat c ->
  exists s', fat32_write_fat junk priv c data s = Ret (0, s') /\ holds s' (set_fat priv v c data) g.
Proof.
  intros Hh Hc. unfold fat32_write_fat. destruct (fat_sector_range c Hc) as (_ & Hr & Hr2).
  fold (fat_sector priv c). destruct geo. rewrite s32_small by lia. rewrite u32_small by (unfold is_u32; lia).
  pose proof (holds_image _ _ _ Hh (fat_sector priv c)) as Hlen. destruct (mod128 c).
  destruct (part_read_ok (take_page s) v (g + 1) (fat_sector priv c) junk) as (r & s1 & -> & Hr0 & Hh1);
    [by apply take_ok|done|done|]. cbn [obind]. destruct (Z.ltb_spec r 0); [lia|].
  edestruct (write_both_ok s1 v (g + 1) (fat_sector priv c)) as (r1 & s2 & r2 & s3 & -> & Hr1 & E2 & Hr2' & Hh3);
    [done..| | |].
  2: by apply put32_front.
  { by rewrite put32_buf_length. }
  cbn [obind]. destruct (Z.ltb_spec r1 0); [lia|]. rewrite E2. cbn [obind]. destruct (Z.ltb_spec r2 0); [lia|].
  exists (give_page s3). split; [done|]. by apply give_ok.
Qed.

(** Following links. *)
Lemma chain_cons v c l : chain priv nclus v c l -> 2 <= c < 2 + nclus /\ exists l', l = c :: l'.
Proof. destruct 1; eauto. Qed.

Lemma cluster_in_fat c : 2 <= c < 2 + nclus -> in_fat c.
Proof. destruct geo. unfold in_fat. lia. Qed.

Lemma follow_ok v n : forall c l s g, holds s v g -> chain priv nclus v c l ->
  exists s', follow junk priv n c s = Ret (default 0 (l !! n), s') /\ holds s' v g.
Proof.
  induction n as [|n IH]; intros c l s g Hh Hc; cbn [follow].
  - destruct (chain_cons _ _ _ Hc) as [_ [l' ->]]. eauto.
  - destruct (chain_cons _ _ _ Hc) as [Hr [l' ->]].
    destruct (fat_read_ok c s v g Hh (cluster_in_fat _ Hr)) as (s1 & -> & Hh1). cbn [obind lookup list_lookup].
    inversion Hc as [c' _ He|c' l'' _ He Hn]; subst.
    + destruct (Z.leb_spec 0x0ffffff8 (fat_entry priv v c)); [|lia]. eauto.
    + destruct (Z.leb_spec 0x0ffffff8 (fat_entry priv v c)); [lia|]. by apply IH.
Qed.

Lemma last_cluster_ok v : forall n c l s g, holds s v g -> chain priv nclus v c l -> (length l <= n)%nat ->
  exists s', last_cluster junk priv n c s = Ret (List.last l 0, s') /\ holds s' v g.
Proof.
  induction n as [|n IH]; intros c l s g Hh Hc Hn.
  - destruct (chain_cons _ _ _ Hc) as [_ [l' ->]]. simpl in Hn. lia.
  - cbn [last_cluster]. destruct (chain_cons _ _ _ Hc) as [Hr _].
    destruct (fat_read_ok c s v g Hh (cluster_in_fat _ Hr)) as (s1 & -> & Hh1). cbn [obind].
    inversion Hc as [c' _ He|c' l'' _ He Hnx]; subst.
    + destruct (Z.ltb_spec (fat_entry priv v c) 0x0ffffff8); [lia|]. eauto.
    + destruct (Z.ltb_spec (fat_entry priv v c) 0x0ffffff8); [|lia].
      destruct (fat_read_ok c s1 v g Hh1 (cluster_in_fat _ Hr)) as (s2 & -> & Hh2). cbn [obind].
      simpl in Hn. destruct (IH _ _ s2 g Hh2 Hnx) as (s3 & -> & Hh3); [lia|]. exists s3. split; [|done].
      destruct (chain_cons _ _ _ Hnx) as [_ [l3 ->]]. done.
Qed.

(** *** Algebra of the FAT *)

Lemma fat_entry_set_fat v c c' data : image_ok v -> in_fat c -> in_fat c' -> is_u32 data ->
  fat_entry priv (set_fat priv v c data) c' = if decide (c' = c) then data else fat_entry priv v c'.
Proof.
  intros Hv Hc Hc' Hd. destruct (fat_sector_range c Hc) as (Hs & _), (fat_sector_range c' Hc') as (Hs' & _).
  unfold fat_entry, set_fat, set_sector. destruct geo, (mod128 c), (mod128 c').
  rewrite decide_False by lia. destruct (decide (fat_sector priv c' = fat_sector priv c)) as [E|E].
  - case_decide as Ec.
    + subst c'. apply get32_put32_eq; [done|by rewrite Hv|done].
    + rewrite get32_put32_ne; rewrite ?Hv; try lia; [by rewrite E|].
      unfold fat_sector in E. assert (c mod 128 <> c' mod 128); [|lia].
      intros Em. apply Ec. rewrite (Z.div_mod c 128), (Z.div_mod c' 128) by lia. lia.
  - rewrite decide_False; [done|]. by intros ->.
Qed.

(** Sectors outside both FATs are untouched. *)
Lemma set_fat_other v c data i : in_fat c -> data_start priv <= i -> set_fat priv v c data i = v i.
Proof.
  intros Hc Hi. destruct (fat_sector_range c Hc) as (Hs & _). unfold set_fat, set_sector, data_start in *.
  destruct geo. rewrite !decide_False by lia. done.
Qed.

Lemma first_sector_range c : 2 <= c < 2 + nclus ->
  data_start priv <= first_sector priv c /\ first_sector priv c + spc <= size.
Proof. destruct geo. unfold first_sector, data_start. intros. split; nia. Qed.

Lemma flat_map_ext_in {A B} (f g : A -> list B) l : (forall x, x ∈ l -> f x = g x) -> flat_map f l = flat_map g l.
Proof.
  induction l as [|x l IH]; intros Hfg; simpl; [done|]. rewrite Hfg by left.
  rewrite IH; [done|]. intros y Hy. apply Hfg. by right.
Qed.

Lemma cluster_data_ext v v' c : (forall i, first_sector priv c <= i < first_sector priv c + spc -> v' i = v i) ->
  cluster_data priv v' c = cluster_data priv v c.
Proof. intros Hv. apply flat_map_ext_in. intros i Hi%elem_of_seqZ. apply Hv. lia. Qed.

Lemma cluster_data_set_fat v c c' data : in_fat c -> 2 <= c' < 2 + nclus ->
  cluster_data priv (set_fat priv v c data) c' = cluster_data priv v c'.
Proof.
  intros Hc Hc'. apply cluster_data_ext. intros i Hi. apply set_fat_other; [done|].
  destruct (first_sector_range c' Hc'). lia.
Qed.

Lemma image_ok_set_sector v i bs : image_ok v -> zlen bs = 512 -> image_ok (set_sector v i bs).
Proof. intros Hv Hb j. unfold set_sector. by case_decide. Qed.

Lemma image_ok_set_fat v c data : image_ok v -> image_ok (set_fat priv v c data).
Proof.
  intros Hv. destruct (mod128 c).
  assert (zlen (put32 (c mod 128 * 4) data (v (fat_sector priv c))) = 512)
    by (rewrite put32_length; rewrite ?Hv; lia).
  unfold set_fat. by repeat apply image_ok_set_sector.
Qed.

Lemma mirrored_set_fat v c data : in_fat c -> mirrored priv v -> mirrored priv (set_fat priv v c data).
Proof.
  intros Hc Hm k Hk. destruct (fat_sector_range c Hc) as (Hs & _). unfold set_fat, set_sector. destruct geo.
  destruct (decide (reserved_sector b + fat_size b + k = fat_sector priv c + fat_size b)) as [E|E].
  - rewrite (decide_False (P := reserved_sector b + k = fat_sector priv c + fat_size b)) by lia.
    rewrite decide_True by lia. done.
  - rewrite !decide_False by lia. by apply Hm.
Qed.

(** Chains are determined by the FAT and have no repetition. *)
Lemma chain_det v c l : chain priv nclus v c l -> forall l', chain priv nclus v c l' -> l' = l.
Proof.
  induction 1 as [c Hc He|c l Hc He Hl IH]; intros l' Hl'; inversion Hl'; subst; [done|lia|lia|].
  f_equal. auto.
Qed.

Lemma chain_suffix v c l : chain priv nclus v c l -> forall x, x ∈ l -> exists l1 l2, l = l1 ++ l2 /\ chain priv nclus v x l2.
Proof.
  induction 1 as [c Hc He|c l Hc He Hl IH]; intros x Hx.
  - apply list_elem_of_singleton in Hx as ->. exists [], [c]. split; [done|]. by constructor.
  - apply elem_of_cons in Hx as [->|Hx].
    + exists [], (c :: l). split; [done|]. by constructor.
    + destruct (IH x Hx) as (l1 & l2 & -> & Hl2). exists (c :: l1), l2. auto.
Qed.

Lemma chain_NoDup v c l : chain priv nclus v c l -> NoDup l.
Proof.
  intros Hc. pose proof Hc as Hc0. induction Hc as [c Hc He|c l Hc He Hl IH].
  - apply NoDup_singleton.
  - apply NoDup_cons. split; [|auto]. intros Hin.
    destruct (chain_suffix _ _ _ Hl c Hin) as (l1 & l2 & -> & Hl2).
    pose proof (chain_det _ _ _ Hl2 _ Hc0) as E. apply (f_equal length) in E.
    simpl in E. rewrite length_app in E. lia.
Qed.

Lemma chain_range v c l : chain priv nclus v c l -> Forall (fun x => 2 <= x < 2 + nclus) l.
Proof. induction 1; auto. Qed.

(** A chain whose FAT entries are untouched stays the same chain. *)
Lemma chain_frame v v' c l : chain priv nclus v c l ->
  (forall x, x ∈ l -> fat_entry priv v' x = fat_entry priv v x) -> chain priv nclus v' c l.
Proof.
  induction 1 as [c Hc He|c l Hc He Hl IH]; intros Hv.
  - constructor; [done|]. rewrite Hv by (by left). done.
  - assert (E : fat_entry priv v' c = fat_entry priv v c) by (apply Hv; by left).
    constructor; [done|by rewrite E|]. rewrite E. apply IH. intros x Hx. apply Hv. by right.
Qed.

Lemma last_elem (x : Z) l : List.last (x :: l) 0 ∈ x :: l.
Proof.
  revert x. induction l as [|y l IH]; intros x; [by left|]. right. apply IH.
Qed.

(** Linking one chain behind another. *)
Lemma chain_link v c l e le : image_ok v -> chain priv nclus v c l -> chain priv nclus v e le ->
  (forall x, x ∈ l -> x ∉ le) ->
  chain priv nclus (set_fat priv v (List.last l 0) e) c (l ++ le).
Proof.
  intros Hv Hc He Hdis. destruct (chain_cons _ _ _ He) as [Her _]. destruct geo.
  assert (Hu : is_u32 e) by (unfold is_u32; lia).
  induction Hc as [c Hcr Heoc|c l Hcr Hlt Hl IH].
  - pose proof (fat_entry_set_fat v c c e Hv (cluster_in_fat _ Hcr) (cluster_in_fat _ Hcr) Hu) as E.
    rewrite decide_True in E by done. simpl. constructor; [done|rewrite E; lia|]. rewrite E.
    apply (chain_frame v); [done|]. intros x Hx. pose proof (chain_range _ _ _ He) as Hr.
    rewrite Forall_forall in Hr. rewrite fat_entry_set_fat; auto using cluster_in_fat.
    rewrite decide_False; [done|]. intros ->. by apply (Hdis c); [left|].
  - destruct (chain_cons _ _ _ Hl) as [_ [l' ->]]. change (List.last (c :: fat_entry priv v c :: l') 0)
      with (List.last (fat_entry priv v c :: l') 0). set (y := List.last _ 0) in *.
    assert (Hy : y ∈ fat_entry priv v c :: l') by apply last_elem. clearbody y.
    pose proof (chain_range _ _ _ Hl) as Hr. rewrite Forall_forall in Hr.
    assert (Hcd : c <> y).
    { intros Ey. rewrite <- Ey in Hy.
      assert (Hnd : NoDup (c :: fat_entry priv v c :: l')) by (eapply chain_NoDup; by constructor).
      by apply NoDup_cons in Hnd as [? _]. }
    assert (E : fat_entry priv (set_fat priv v y e) c = fat_entry priv v c).
    { rewrite fat_entry_set_fat; auto using cluster_in_fat. by rewrite decide_False. }
    simpl. constructor; [done|by rewrite E|]. rewrite E. apply IH. intros x Hx. apply Hdis. by right.
Qed.

Lemma append_ok v c l e s g : holds s v g -> chain priv nclus v c l -> (length l <= fuel)%nat ->
  exists s', fat32_append_cluster junk fuel priv c e s = Ret (0, s') /\
    holds s' (set_fat priv v (List.last l 0) e) g.
Proof.
  intros Hh Hc Hf. unfold fat32_append_cluster.
  destruct (last_cluster_ok v fuel c l s g Hh Hc Hf) as (s1 & -> & Hh1). cbn [obind].
  apply write_fat_ok; [done|]. apply cluster_in_fat.
  pose proof (chain_range _ _ _ Hc) as Hr. rewrite Forall_forall in Hr. apply Hr.
  destruct (chain_cons _ _ _ Hc) as [_ [l' ->]]. apply last_elem.
Qed.

(** Freeing a chain clears its entries one after the other. *)
Definition clear_all (v : image) (l : list Z) : image := fold_left (fun v c => set_fat priv v c 0) l v.

Lemma clear_all_entry l : forall v c, image_ok v -> Forall in_fat l -> in_fat c ->
  fat_entry priv (clear_all v l) c = if decide (c ∈ l) then 0 else fat_entry priv v c.
Proof.
  induction l as [|x l IH]; intros v c Hv Hl Hc; unfold clear_all; cbn [fold_left]; fold (clear_all v).
  - rewrite decide_False by apply not_elem_of_nil. done.
  - apply Forall_cons in Hl as [Hx Hl]. fold (clear_all (set_fat priv v x 0) l).
    rewrite IH; [|by apply image_ok_set_fat|done..]. rewrite fat_entry_set_fat by done.
    destruct (decide (c ∈ l)) as [Hin|Hin]; [rewrite decide_True by (by right); done|].
    destruct (decide (c = x)) as [->|Hne]; [by rewrite decide_True by left|].
    rewrite decide_False; [done|]. by intros [|]%elem_of_cons.
Qed.

Lemma clear_all_data l : forall v c, Forall in_fat l -> 2 <= c < 2 + nclus ->
  cluster_data priv (clear_all v l) c = cluster_data priv v c.
Proof.
  induction l as [|x l IH]; intros v c Hl Hc; simpl; [done|].
  apply Forall_cons in Hl as [Hx Hl]. rewrite IH by done. by apply cluster_data_set_fat.
Qed.

Lemma free_chain_ok n : forall c l v s g, holds s v g -> chain priv nclus v c l -> (length l <= n)%nat ->
  exists s', free_chain junk priv n c s = Ret (0, s') /\ holds s' (clear_all v l) g.
Proof.
  induction n as [|n IH]; intros c l v s g Hh Hc Hn.
  - destruct (chain_cons _ _ _ Hc) as [_ [l' ->]]. simpl in Hn. lia.
  - cbn [free_chain]. destruct (chain_cons _ _ _ Hc) as [Hr _]. pose proof (cluster_in_fat _ Hr) as Hin.
    destruct (fat_read_ok c s v g Hh Hin) as (s1 & -> & Hh1). cbn [obind].
    destruct (write_fat_ok c 0 s1 v g Hh1 Hin) as (s2 & -> & Hh2). cbn [obind].
    change (0 <? 0) with false. cbn iota. pose proof (holds_image _ _ _ Hh) as Hv.
    pose proof (chain_NoDup _ _ _ Hc) as Hnd. inversion Hc as [c' _ He|c' l' _ He Hnx]; subst.
    + destruct (Z.ltb_spec (fat_entry priv v c) 0x0ffffff8); [lia|]. eauto.
    + destruct (Z.ltb_spec (fat_entry priv v c) 0x0ffffff8); [|lia]. simpl in Hn.
      apply NoDup_cons in Hnd as [Hnin _]. simpl. apply IH; [done| |lia].
      apply (chain_frame v); [done|]. intros x Hx. pose proof (chain_range _ _ _ Hnx) as Hrg.
      rewrite Forall_forall in Hrg. rewrite fat_entry_set_fat; auto using cluster_in_fat; [|done].
      rewrite decide_False; [done|]. by intros ->.
Qed.

(** *** Allocation takes the first free entry *)

Lemma free_slot_spec sec (buf : list Z) : zlen sec = 512 -> 512 <= zlen buf -> forall n i,
  0 <= i -> i + Z.of_nat n <= 128 ->
  match free_slot (splice 0 sec buf) i n with
  | Some k => i <= k < i + Z.of_nat n /\ get32 (k * 4) sec = 0 /\ forall j, i <= j < k -> get32 (j * 4) sec <> 0
  | None => forall j, i <= j < i + Z.of_nat n -> get32 (j * 4) sec <> 0
  end.
Proof.
  intros Hs Hb. induction n as [|n IH]; intros i Hi Hn; cbn [free_slot]; [lia|].
  assert (E : get32 (i * 4) (splice 0 sec buf) = get32 (i * 4) sec)
    by (unfold get32; rewrite slice_splice_prefix; [done|lia..]).
  rewrite E. destruct (Z.eqb_spec (get32 (i * 4) sec) 0) as [E0|E0].
  - split; [lia|]. split; [done|]. lia.
  - specialize (IH (i + 1)). destruct (free_slot _ (i + 1) n) as [k|].
    + destruct IH as (Hk & Hz & Hj); [lia..|]. split; [lia|]. split; [done|]. intros j Hij.
      destruct (decide (j = i)) as [->|]; [done|]. apply Hj. lia.
    + intros j Hij. destruct (decide (j = i)) as [->|]; [done|]. apply IH; lia.
Qed.

Lemma fat_entry_at v k i : 0 <= i < 128 ->
  fat_entry priv v (k * 128 + i) = get32 (i * 4) (v (reserved_sector b + k)).
Proof.
  intros Hi. unfold fat_entry, fat_sector. rewrite Z.add_comm, Z.mod_add, Z.div_add, Z.mod_small, Z.div_small by lia.
  done.
Qed.

(** [c] is the lowest cluster number whose FAT entry is 0. *)
Definition first_free (v : image) (c : Z) : Prop :=
  in_fat c /\ fat_entry priv v c = 0 /\ forall c', 0 <= c' < c -> fat_entry priv v c' <> 0.

Definition no_free (v : image) : Prop := forall c, in_fat c -> fat_entry priv v c <> 0.

Lemma used_upto v k : (forall c', 0 <= c' < k * 128 -> fat_entry priv v c' <> 0) ->
  (forall j, 0 <= j < 128 -> get32 (j * 4) (v (reserved_sector b + k)) <> 0) ->
  forall c', 0 <= c' < (k + 1) * 128 -> fat_entry priv v c' <> 0.
Proof.
  intros Hlow Hk c' Hc'. destruct (decide (c' < k * 128)); [apply Hlow; lia|].
  replace c' with (k * 128 + (c' - k * 128)) by lia. rewrite fat_entry_at by lia. apply Hk. lia.
Qed.

Lemma allocate_loop_ok v n : forall k (buf : list Z) s g,
  holds s v (g + 1) -> 0 <= k -> k + Z.of_nat n = fat_size b -> 512 <= zlen buf ->
  (forall c', 0 <= c' < k * 128 -> fat_entry priv v c' <> 0) ->
  exists c s', allocate_loop priv n k buf s = Ret (c, s') /\
    ((first_free v c /\ holds s' (set_fat priv v c 0x0fffffff) g) \/
     (no_free v /\ c = 0 /\ holds s' v g)).
Proof.
  induction n as [|n IH]; intros k buf s g Hh Hk Hn Hb Hlow; cbn [allocate_loop].
  - exists 0, (give_page s). split; [done|]. right. split; [|split; [done|by apply give_ok]].
    intros c Hc. apply Hlow. unfold in_fat in Hc. lia.
  - destruct geo. assert (Hr : 0 <= reserved_sector b + k < size) by nia.
    assert (Hr2 : 0 <= reserved_sector b + k + fat_size b < size) by nia.
    rewrite (s32_small (reserved_sector b + k)) by lia.
    destruct (part_read_ok s v (g + 1) (reserved_sector b + k) buf) as (r & s1 & -> & Hr0 & Hh1); [done..|].
    cbn [obind]. destruct (Z.ltb_spec r 0); [lia|]. set (sec := v (reserved_sector b + k)) in *.
    assert (Hsec : zlen sec = 512) by (apply (holds_image _ _ _ Hh)).
    pose proof (free_slot_spec sec buf Hsec Hb 128 0) as Hfs.
    destruct (free_slot (splice 0 sec buf) 0 128) as [i|].
    + destruct Hfs as (Hi & Hz & Hj); [lia..|].
      edestruct (write_both_ok s1 v (g + 1) (reserved_sector b + k)) as (r1 & s2 & r2 & s3 & -> & Hr1 & E2 & Hr2' & Hh3);
        [done..| | |].
      2: apply put32_front; [done|lia..].
      { rewrite put32_buf_length; [done|done|done|lia..]. }
      cbn [obind]. destruct (Z.ltb_spec r1 0); [lia|].
      rewrite (u32_small (reserved_sector b + k + fat_size b)) by (unfold is_u32; lia).
      rewrite E2. cbn [obind]. destruct (Z.ltb_spec r2 0); [lia|].
      assert (Hc : in_fat (k * 128 + i)) by (unfold in_fat; nia). unfold in_fat in Hc.
      rewrite (u32_small (k * 128 + i)) by (unfold is_u32; lia). exists (k * 128 + i), (give_page s3). split; [done|]. left.
      split; [split; [done|]; split|].
      * rewrite fat_entry_at by lia. done.
      * intros c' Hc'. destruct (decide (c' < k * 128)); [apply Hlow; lia|].
        replace c' with (k * 128 + (c' - k * 128)) by lia. rewrite fat_entry_at by lia. apply Hj. lia.
      * apply give_ok. unfold set_fat, fat_sector.
        rewrite (Z.add_comm (k * 128)), Z.mod_add, Z.div_add, Z.mod_small, Z.div_small by lia. done.
    + destruct (IH (k + 1) (splice 0 sec buf) s1 g) as (c & s' & -> & Hres); [done|lia|lia| | |eauto].
      * rewrite splice_length; lia.
      * apply used_upto; [done|]. intros j Hj. apply Hfs; lia.
Qed.

Lemma allocate_ok v s g : holds s v g ->
  exists c s', fat32_allocate_cluster junk priv s = Ret (c, s') /\
    ((first_free v c /\ holds s' (set_fat priv v c 0x0fffffff) g) \/
     (no_free v /\ c = 0 /\ holds s' v g)).
Proof.
  intros Hh. destruct geo. apply allocate_loop_ok; [by apply take_ok|lia..|done|lia].
Qed.

(** ** Clusters *)

Lemma cluster_to_sector_ok c : 2 <= c < 2 + nclus -> fat32_cluster_to_sector priv c = first_sector priv c.
Proof.
  intros Hc. destruct (first_sector_range c Hc) as [Hlo Hhi]. unfold fat32_cluster_to_sector. destruct geo.
  rewrite u32_small by (unfold is_u32; lia). rewrite geo_fats0.
  unfold first_sector, data_start in *. rewrite s32_small by lia. lia.
Qed.

Lemma copysize_at_spec chunk begin off sz :
  0 < chunk -> 0 <= begin -> 0 <= off < sz -> begin + sz < 2^31 -> chunk < 2^31 ->
  0 < copysize_at chunk begin off sz <= sz - off /\
  (begin + off) mod chunk + copysize_at chunk begin off sz <= chunk.
Proof.
  intros Hch Hb Ho Hs Hc. unfold copysize_at. rewrite !u32_small by (unfold is_u32; lia).
  set (x := begin + off). set (q := x / chunk).
  assert (Hx : x = chunk * q + x mod chunk) by (apply Z.div_mod; lia).
  assert (Hm : 0 <= x mod chunk < chunk) by (apply Z.mod_pos_bound; lia).
  destruct (Z.ltb_spec q ((begin + sz) / chunk)) as [Hlt|Hge].
  - replace ((q + 1) * chunk - x) with (chunk - x mod chunk) by nia. rewrite s32_small by lia.
    assert ((q + 1) * chunk <= begin + sz).
    { transitivity ((begin + sz) / chunk * chunk); [nia|]. rewrite Z.mul_comm. apply Z.mul_div_le. lia. }
    nia.
  - rewrite s32_small by lia. assert (Hlt2 : begin + sz < (q + 1) * chunk).
    { assert (Hd : (begin + sz) / chunk < q + 1) by lia. apply Z.div_lt_upper_bound in Hd || idtac.
      pose proof (Z.mul_succ_div_gt (begin + sz) chunk). nia. }
    nia.
Qed.

Lemma slice_drop_app {A} (x y : list A) off n k : zlen x = k -> k <= off -> slice off n (x ++ y) = slice (off - k) n y.
Proof.
  unfold slice, zlen. intros Hk Ho. rewrite drop_app_ge by lia. do 2 f_equal. lia.
Qed.

Lemma slice_take_app {A} (x y : list A) off n : 0 <= off -> 0 <= n -> off + n <= zlen x -> slice off n (x ++ y) = slice off n x.
Proof.
  unfold slice, zlen. intros. rewrite drop_app_le by lia. apply take_app_le. rewrite length_drop. lia.
Qed.

(** Bytes inside one chunk of a list made of equal chunks. *)
Lemma slice_flat_map {A} (f : A -> list Z) ch : 0 < ch -> forall l k x o n,
  (forall y, y ∈ l -> zlen (f y) = ch) -> zget l k = Some x -> 0 <= o -> 0 <= n -> o + n <= ch ->
  slice (k * ch + o) n (flat_map f l) = slice o n (f x).
Proof.
  intros Hch. induction l as [|y l IH]; intros k x o n Hf [Hk Hl]%zget_lookup Ho Hn Hon; [done|].
  cbn [flat_map]. assert (Hy : zlen (f y) = ch) by (apply Hf; left).
  destruct (Z.to_nat k) as [|k'] eqn:Ek.
  - injection Hl as ->. assert (k = 0) as -> by lia. apply slice_take_app; lia.
  - rewrite (slice_drop_app _ _ _ _ ch) by nia. replace (k * ch + o - ch) with ((k - 1) * ch + o) by lia.
    apply IH; try done; [intros; apply Hf; by right|]. apply zget_lookup. split; [lia|].
    by replace (Z.to_nat (k - 1)) with k' by lia.
Qed.

Lemma zget_seqZ a m k : 0 <= k < m -> zget (seqZ a m) k = Some (a + k).
Proof.
  intros Hk. apply zget_lookup. split; [lia|]. rewrite lookup_seqZ_lt by lia. f_equal. lia.
Qed.

Lemma cluster_slice v c x n : image_ok v -> 0 <= x -> 0 < n -> x mod 512 + n <= 512 -> x + n <= clussize priv ->
  slice x n (cluster_data priv v c) = slice (x mod 512) n (v (first_sector priv c + x / 512)).
Proof.
  intros Hv Hx Hn Hfit Hin. unfold cluster_data, clussize in *.
  assert (Hm : 0 <= x mod 512 < 512) by (apply Z.mod_pos_bound; lia).
  assert (Hd : x = 512 * (x / 512) + x mod 512) by (apply Z.div_mod; lia).
  rewrite Hd at 1. rewrite (Z.mul_comm 512).
  apply slice_flat_map; [lia|intros; apply Hv| |lia..]. apply zget_seqZ. nia.
Qed.

(** A cluster number whose sectors the code computes inside the partition: the
    data clusters, but on many volumes cluster 0 as well. *)
Definition addressable (c : Z) : Prop :=
  fat32_cluster_to_sector priv c = first_sector priv c /\ 0 <= first_sector priv c /\
  first_sector priv c + spc <= size.

Lemma cluster_addressable c : 2 <= c < 2 + nclus -> addressable c.
Proof.
  intros Hc. destruct (first_sector_range c Hc). split; [by apply cluster_to_sector_ok|].
  destruct geo. unfold data_start in *. lia.
Qed.

Lemma cluster_data_length v c : image_ok v -> zlen (cluster_data priv v c) = clussize priv.
Proof.
  intros Hv. unfold cluster_data, clussize. assert (Hs : 0 < spc) by apply geo.
  assert (E : forall l, zlen (flat_map v l) = 512 * zlen l).
  { induction l as [|x l IH]; [done|]. cbn [flat_map]. unfold zlen in *. rewrite length_app. cbn [length].
    specialize (Hv x). unfold zlen in Hv. lia. }
  rewrite E. unfold zlen. rewrite length_seqZ. lia.
Qed.

Lemma clussize_range : 0 < clussize priv < 2^20.
Proof. destruct geo. unfold clussize. lia. Qed.

Lemma read_cluster_loop_ok v c begin sz doff n : forall off dest sect s g,
  holds s v (g + 1) -> addressable c -> 0 <= begin -> 0 <= off <= sz -> begin + sz <= clussize priv ->
  sz - off <= Z.of_nat n -> 512 <= zlen sect -> 0 <= doff -> doff + sz <= zlen dest ->
  exists s', read_cluster_loop priv n dest doff c begin sz off sect s
    = Ret (0, splice (doff + off) (slice (begin + off) (sz - off) (cluster_data priv v c)) dest, s') /\ holds s' v g.
Proof.
  induction n as [|n IH]; intros off dest sect s g Hh Hc Hb Ho Hin Hn Hsect Hd Hdest; cbn [read_cluster_loop].
  all: destruct (Z.leb_spec sz off);
    [exists (give_page s); split; [|by apply give_ok]; replace (sz - off) with 0 by lia;
     by rewrite slice_0, splice_nil|].
  { lia. }
  pose proof clussize_range as Hcs.
  destruct (copysize_at_spec 512 begin off sz) as [Hcp Hfit]; [lia..|].
  set (cp := copysize_at 512 begin off sz) in *. destruct Hc as (Ecs & Hlo & Hhi). rewrite Ecs.
  rewrite (u32_small (begin + off)) by (unfold is_u32; lia).
  assert (Hq : 0 <= (begin + off) / 512 < spc).
  { split; [apply Z.div_pos; lia|]. apply Z.div_lt_upper_bound; [lia|]. unfold clussize in Hin. lia. }
  assert (Hsz : size < 2^31) by apply geo.
  rewrite u32_small by (unfold is_u32; lia).
  set (sec := first_sector priv c + (begin + off) / 512).
  destruct (part_read_ok s v (g + 1) sec sect) as (r & s1 & -> & Hr0 & Hh1); [done|unfold sec; lia|done|].
  cbn [obind]. destruct (Z.ltb_spec r 0); [lia|]. pose proof (holds_image _ _ _ Hh) as Hv.
  assert (Hm : 0 <= (begin + off) mod 512 < 512) by (apply Z.mod_pos_bound; lia).
  assert (Hl1 : zlen (splice 0 (v sec) sect) = zlen sect) by (rewrite splice_length; rewrite ?Hv; lia).
  rewrite copy_from_ok by lia. cbn [obind]. rewrite slice_splice_prefix by (rewrite ?Hv; lia).
  assert (Ebytes : slice ((begin + off) mod 512) cp (v sec) = slice (begin + off) cp (cluster_data priv v c))
    by (rewrite cluster_slice; [done|done|lia..]).
  rewrite Ebytes. pose proof (cluster_data_length v c Hv) as Hcl.
  assert (Hbl : zlen (slice (begin + off) cp (cluster_data priv v c)) = cp) by (apply slice_length; lia).
  rewrite copy_into_ok by lia. cbn [obind]. rewrite u32_small by (unfold is_u32; lia).
  edestruct (IH (off + cp)) as (s' & -> & Hh'); [exact Hh1|by split_and!|done|lia|done|lia|lia|done| |].
  { rewrite splice_length; lia. }
  exists s'. split; [|done]. do 3 f_equal.
  replace (doff + (off + cp)) with (doff + off + zlen (slice (begin + off) cp (cluster_data priv v c))) by lia.
  assert (Hrl : zlen (slice (begin + (off + cp)) (sz - (off + cp)) (cluster_data priv v c)) = sz - (off + cp))
    by (apply slice_length; lia).
  rewrite splice_splice_adj by lia.
  replace (begin + (off + cp)) with (begin + off + cp) by lia. rewrite slice_app by lia. do 2 f_equal. lia.
Qed.

(** A read inside a cluster copies exactly the bytes asked for. *)
Lemma read_cluster_ok v c begin sz doff dest s g :
  holds s v g -> addressable c -> 0 <= begin -> 0 <= sz -> begin + sz <= clussize priv ->
  0 <= doff -> doff + sz <= zlen dest ->
  exists s', fat32_read_cluster junk priv dest doff c begin sz s
    = Ret (0, splice doff (slice begin sz (cluster_data priv v c)) dest, s') /\ holds s' v g.
Proof.
  intros Hh Hc Hb Hs Hin Hd Hdest. unfold fat32_read_cluster.
  destruct (read_cluster_loop_ok v c begin sz doff (Z.to_nat sz) 0 dest junk (take_page s) g) as (s' & -> & Hh');
    [by apply take_ok|done|done|lia|done|lia|done|done|done|].
  exists s'. split; [|done]. by rewrite !Z.add_0_r, Z.sub_0_r.
Qed.

(** Editing one chunk of a list made of equal chunks. *)
Lemma splice_flat_map {A} `{EqDecision A} (f : A -> list Z) ch (sub : list Z) : 0 < ch -> forall l k x o,
  NoDup l -> (forall y, y ∈ l -> zlen (f y) = ch) -> zget l k = Some x -> 0 <= o -> o + zlen sub <= ch ->
  flat_map (fun y => if decide (y = x) then splice o sub (f x) else f y) l = splice (k * ch + o) sub (flat_map f l).
Proof.
  intros Hch. induction l as [|y l IH]; intros k x o Hnd Hf [Hk Hl]%zget_lookup Ho Hon; [done|].
  cbn [flat_map]. assert (Hy : zlen (f y) = ch) by (apply Hf; left). apply NoDup_cons in Hnd as [Hni Hnd].
  destruct (Z.to_nat k) as [|k'] eqn:Ek.
  - injection Hl as ->. assert (k = 0) as -> by lia. rewrite decide_True by done.
    rewrite splice_app_l by lia. f_equal. apply flat_map_ext_in. intros z Hz.
    rewrite decide_False; [done|]. by intros ->.
  - assert (Hx : x ∈ l) by (by eapply list_elem_of_lookup_2).
    rewrite decide_False by (by intros ->). rewrite (splice_app_r _ _ _ _ ch) by nia. f_equal.
    replace (k * ch + o - ch) with ((k - 1) * ch + o) by lia.
    apply IH; try done; [intros; apply Hf; by right|]. apply zget_lookup. split; [lia|].
    by replace (Z.to_nat (k - 1)) with k' by lia.
Qed.

Lemma cluster_splice v c x (sub : list Z) : image_ok v -> 0 <= x -> 0 < zlen sub -> x mod 512 + zlen sub <= 512 ->
  x + zlen sub <= clussize priv ->
  let sec := first_sector priv c + x / 512 in
  cluster_data priv (set_sector v sec (splice (x mod 512) sub (v sec))) c = splice x sub (cluster_data priv v c).
Proof.
  intros Hv Hx Hn Hfit Hin sec. unfold cluster_data, clussize in *.
  assert (Hm : 0 <= x mod 512 < 512) by (apply Z.mod_pos_bound; lia).
  assert (Hd : x = 512 * (x / 512) + x mod 512) by (apply Z.div_mod; lia).
  rewrite Hd at 2. rewrite (Z.mul_comm 512).
  apply splice_flat_map; [lia|apply NoDup_seqZ|intros; apply Hv| |lia..]. apply zget_seqZ. nia.
Qed.

(** The image differs from [v] only in the data sectors of cluster [c]. *)
Definition only_cluster (c : Z) (v v' : image) : Prop :=
  forall i, i < first_sector priv c \/ first_sector priv c + spc <= i -> v' i = v i.

Lemma write_cluster_loop_ok c begin sz soff src n : forall v off sect s g,
  holds s v (g + 1) -> addressable c -> 0 <= begin -> 0 <= off <= sz -> begin + sz <= clussize priv ->
  sz - off <= Z.of_nat n -> 512 <= zlen sect -> 0 <= soff -> soff + sz <= zlen src ->
  exists s' v', write_cluster_loop priv n src soff c begin sz off sect s = Ret (0, s') /\ holds s' v' g /\
    cluster_data priv v' c = splice (begin + off) (slice (soff + off) (sz - off) src) (cluster_data priv v c) /\
    only_cluster c v v'.
Proof.
  induction n as [|n IH]; intros v off sect s g Hh Hc Hb Ho Hin Hn Hsect Hso Hsrc; cbn [write_cluster_loop].
  all: destruct (Z.leb_spec sz off);
    [exists (give_page s), v; split; [done|]; split; [by apply give_ok|]; replace (sz - off) with 0 by lia;
     rewrite slice_0, splice_nil; done|].
  { lia. }
  pose proof clussize_range as Hcs.
  destruct (copysize_at_spec 512 begin off sz) as [Hcp Hfit]; [lia..|].
  set (cp := copysize_at 512 begin off sz) in *. destruct Hc as (Ecs & Hlo & Hhi). rewrite Ecs.
  rewrite (u32_small (begin + off)) by (unfold is_u32; lia).
  assert (Hq : 0 <= (begin + off) / 512 < spc).
  { split; [apply Z.div_pos; lia|]. apply Z.div_lt_upper_bound; [lia|]. unfold clussize in Hin. lia. }
  assert (Hsz : size < 2^31) by apply geo.
  rewrite u32_small by (unfold is_u32; lia).
  set (sec := first_sector priv c + (begin + off) / 512).
  assert (Hsec : 0 <= sec < size) by (unfold sec; lia).
  destruct (part_read_ok s v (g + 1) sec sect) as (r & s1 & -> & Hr0 & Hh1); [done..|].
  cbn [obind]. destruct (Z.ltb_spec r 0); [lia|]. pose proof (holds_image _ _ _ Hh) as Hv.
  assert (Hm : 0 <= (begin + off) mod 512 < 512) by (apply Z.mod_pos_bound; lia).
  set (bytes := slice (soff + off) cp src). assert (Hbl : zlen bytes = cp) by (apply slice_length; lia).
  assert (Hl1 : zlen (splice 0 (v sec) sect) = zlen sect) by (rewrite splice_length; rewrite ?Hv; lia).
  rewrite copy_from_ok by lia. cbn [obind]. fold bytes. rewrite copy_into_ok by lia. cbn [obind].
  assert (Hl2 : zlen (splice ((begin + off) mod 512) bytes (splice 0 (v sec) sect)) = zlen sect)
    by (rewrite splice_length; lia).
  edestruct (part_write_ok s1 v (g + 1) sec) as (r1 & s2 & -> & Hr1 & Hh2); [done|done|by rewrite Hl2|].
  cbn [obind]. destruct (Z.ltb_spec r1 0); [lia|]. rewrite slice_splice_front in Hh2 by (rewrite ?Hv; lia).
  rewrite u32_small by (unfold is_u32; lia).
  edestruct (IH _ (off + cp) (splice ((begin + off) mod 512) bytes (splice 0 (v sec) sect)) s2 g Hh2) as (s' & v' & -> & Hh' & Hcd & Hoc); [by split_and!|done|lia|done|lia|by rewrite Hl2|done|done|].
  exists s', v'. split; [done|]. split; [done|]. split.
  - rewrite Hcd. unfold sec. rewrite cluster_splice by (rewrite ?Hbl; lia || done).
    replace (begin + (off + cp)) with (begin + off + zlen bytes) by lia.
    rewrite splice_splice_adj; [|lia|].
    + unfold bytes. replace (soff + (off + cp)) with (soff + off + cp) by lia.
      rewrite slice_app by lia. do 2 f_equal. lia.
    + rewrite cluster_data_length, slice_length by (done || lia). lia.
  - intros i Hi. rewrite Hoc by done. unfold set_sector. rewrite decide_False; [done|]. unfold sec. lia.
Qed.

Lemma write_cluster_ok v c begin sz soff src s g :
  holds s v g -> addressable c -> 0 <= begin -> 0 <= sz -> begin + sz <= clussize priv ->
  0 <= soff -> soff + sz <= zlen src ->
  exists s' v', fat32_write_cluster junk priv src soff c begin sz s = Ret (0, s') /\ holds s' v' g /\
    cluster_data priv v' c = splice begin (slice soff sz src) (cluster_data priv v c) /\ only_cluster c v v'.
Proof.
  intros Hh Hc Hb Hs Hin Hd Hdest. unfold fat32_write_cluster.
  edestruct (write_cluster_loop_ok c begin sz soff src (Z.to_nat sz) v 0 junk) as (s' & v' & -> & Hh' & Hcd & Ho);
    [by apply take_ok|done|done|lia|done|lia|done|done|done|].
  exists s', v'. rewrite !Z.add_0_r, Z.sub_0_r in Hcd. auto.
Qed.

(** ** Files *)

Lemma offset_cluster_ok v c l offset s g : holds s v g -> chain priv nclus v c l -> 0 <= offset ->
  exists s', fat32_offset_cluster junk priv c offset s
    = Ret (default 0 (l !! Z.to_nat (offset / clussize priv)), s') /\ holds s' v g.
Proof.
  intros Hh Hc Ho. unfold fat32_offset_cluster, divu. assert (Hs : 0 < spc) by apply geo.
  destruct (Z.eqb_spec spc 0); [lia|]. cbn [obind]. rewrite Z.div_div by lia.
  replace (512 * spc) with (clussize priv) by (unfold clussize; lia). by apply follow_ok.
Qed.

Lemma chain_lookup v c l x : chain priv nclus v c l -> 0 <= x -> x < zlen l * clussize priv ->
  exists y, zget l (x / clussize priv) = Some y /\ l !! Z.to_nat (x / clussize priv) = Some y /\ 2 <= y < 2 + nclus.
Proof.
  intros Hc Hx Hl. pose proof clussize_range as Hcs.
  assert (Hq : 0 <= x / clussize priv < zlen l) by (split; [apply Z.div_pos|apply Z.div_lt_upper_bound]; lia).
  destruct (zget_is_Some l (x / clussize priv) Hq) as [y Hy]. exists y. split; [done|].
  pose proof (Forall_zget _ _ _ _ (chain_range _ _ _ Hc) Hy). apply zget_lookup in Hy as [_ Hy]. auto.
Qed.

Lemma file_slice v l x n y : image_ok v -> 0 <= x -> 0 <= n -> x mod clussize priv + n <= clussize priv ->
  zget l (x / clussize priv) = Some y ->
  slice x n (file_data priv v l) = slice (x mod clussize priv) n (cluster_data priv v y).
Proof.
  intros Hv Hx Hn Hfit Hy. pose proof clussize_range as Hcs.
  assert (Hm : 0 <= x mod clussize priv < clussize priv) by (apply Z.mod_pos_bound; lia).
  assert (Hd : x = clussize priv * (x / clussize priv) + x mod clussize priv) by (apply Z.div_mod; lia).
  rewrite Hd at 1. rewrite (Z.mul_comm (clussize priv)).
  apply slice_flat_map; [lia|intros; by apply cluster_data_length|done|lia..].
Qed.

Lemma file_data_length v l : image_ok v -> zlen (file_data priv v l) = zlen l * clussize priv.
Proof.
  intros Hv. unfold file_data. induction l as [|x l IH]; [done|]. cbn [flat_map].
  pose proof (cluster_data_length v x Hv). unfold zlen in *. rewrite length_app. cbn [length]. lia.
Qed.

Lemma read_loop_ok v c l offset sz n : forall off buf s g,
  holds s v g -> chain priv nclus v c l -> 0 <= offset -> 0 <= off <= sz ->
  offset + sz <= zlen l * clussize priv -> offset + sz < 2^31 -> sz - off <= Z.of_nat n -> sz <= zlen buf ->
  exists s', read_loop junk priv n c buf offset sz off s
    = Ret (sz, splice off (slice (offset + off) (sz - off) (file_data priv v l)) buf, s') /\ holds s' v g.
Proof.
  induction n as [|n IH]; intros off buf s g Hh Hc Hof Ho Hin H31 Hn Hbuf; cbn [read_loop].
  all: destruct (Z.leb_spec sz off);
    [exists s; split; [|done]; rewrite s32_small by lia; replace (sz - off) with 0 by lia;
     by rewrite slice_0, splice_nil|].
  { lia. }
  pose proof clussize_range as Hcs. unfold divu at 1. destruct (Z.eqb_spec (clussize priv) 0); [lia|]. cbn [obind].
  destruct (copysize_at_spec (clussize priv) offset off sz) as [Hcp Hfit]; [lia..|].
  set (cp := copysize_at (clussize priv) offset off sz) in *.
  rewrite (u32_small (offset + off)) by (unfold is_u32; lia). rewrite (u32_small cp) by (unfold is_u32; lia).
  destruct (chain_lookup v c l (offset + off)) as (y & Hy & Hy' & Hyr); [done|lia|lia|].
  destruct (offset_cluster_ok v c l (offset + off) s g) as (s1 & -> & Hh1); [done|done|lia|]. cbn [obind].
  rewrite Hy'. change (default 0 (Some y)) with y. pose proof (holds_image _ _ _ Hh) as Hv.
  assert (Hm : 0 <= (offset + off) mod clussize priv < clussize priv) by (apply Z.mod_pos_bound; lia).
  edestruct (read_cluster_ok v y ((offset + off) mod clussize priv) cp off buf s1 g) as (s2 & -> & Hh2);
    [done|by apply cluster_addressable|lia..|]. cbn [obind]. change (0 <? 0) with false. cbn iota.
  rewrite <- (file_slice v l (offset + off) cp y) by (done || lia).
  rewrite u32_small by (unfold is_u32; lia). pose proof (file_data_length v l Hv) as Hfl.
  assert (Hbl : zlen (slice (offset + off) cp (file_data priv v l)) = cp) by (apply slice_length; lia).
  edestruct (IH (off + cp)) as (s' & -> & Hh'); [exact Hh2|done|done|lia|done|done|lia| |].
  { rewrite splice_length; lia. }
  exists s'. split; [|done]. do 3 f_equal.
  rewrite <- Hbl at 1. rewrite splice_splice_adj; [|lia|].
  - replace (offset + (off + cp)) with (offset + off + cp) by lia. rewrite slice_app by lia. do 2 f_equal. lia.
  - rewrite Hbl, slice_length; lia.
Qed.

Lemma read_ok v c l offset sz buf s g :
  holds s v g -> chain priv nclus v c l -> 0 <= offset -> 0 <= sz ->
  offset + sz <= zlen l * clussize priv -> offset + sz < 2^31 -> sz <= zlen buf ->
  exists s', fat32_read junk priv c buf offset sz s
    = Ret (sz, splice 0 (slice offset sz (file_data priv v l)) buf, s') /\ holds s' v g.
Proof.
  intros. unfold fat32_read. edestruct (read_loop_ok v c l offset sz (Z.to_nat sz) 0) as (s' & -> & Hh');
    [done..|lia|done|done|lia|done|].
  exists s'. by rewrite Z.add_0_r, Z.sub_0_r.
Qed.

(** *** Writing a file *)

Definition valid_cluster (c : Z) : Prop := 2 <= c < 2 + nclus.

(** What writing the chain [l], lengthened by the formerly free clusters [ext],
    leaves alone. *)
Definition extends (v v' : image) (l ext : list Z) : Prop :=
  (forall x, x ∈ ext -> valid_cluster x /\ fat_entry priv v x = 0) /\
  (forall x, in_fat x -> x ∉ l ++ ext -> fat_entry priv v' x = fat_entry priv v x) /\
  (forall y, valid_cluster y -> y ∉ l ++ ext -> cluster_data priv v' y = cluster_data priv v y) /\
  (mirrored priv v -> mirrored priv v').

Lemma only_cluster_fat y v v' x : only_cluster y v v' -> valid_cluster y -> in_fat x ->
  fat_entry priv v' x = fat_entry priv v x.
Proof.
  intros Ho Hy Hx. unfold fat_entry. rewrite Ho; [done|]. left.
  destruct (first_sector_range y Hy), (fat_sector_range x Hx) as (? & _ & _).
  destruct geo. unfold data_start in *. lia.
Qed.

Lemma only_cluster_data y v v' z : only_cluster y v v' -> z <> y ->
  cluster_data priv v' z = cluster_data priv v z.
Proof.
  intros Ho Hz. apply cluster_data_ext. intros i Hi. apply Ho. unfold first_sector in *.
  destruct geo. destruct (Z.lt_trichotomy z y) as [|[|]]; [left; nia|done|right; nia].
Qed.

Lemma only_cluster_mirrored y v v' : only_cluster y v v' -> valid_cluster y -> mirrored priv v -> mirrored priv v'.
Proof.
  intros Ho Hy Hm k Hk. destruct (first_sector_range y Hy). unfold data_start in *. destruct geo.
  rewrite !Ho by (left; lia). by apply Hm.
Qed.

Lemma extends_refl v l : extends v v l [].
Proof. split_and!; try done. by intros x ?%not_elem_of_nil. Qed.

Lemma only_cluster_extends y v v' l : only_cluster y v v' -> valid_cluster y -> y ∈ l -> extends v v' l [].
Proof.
  intros Ho Hy Hin. split_and!.
  - by intros x ?%not_elem_of_nil.
  - intros x Hx _. by eapply only_cluster_fat.
  - intros z Hz Hni. eapply only_cluster_data; [done|]. intros ->. apply Hni. rewrite app_nil_r. done.
  - by eapply only_cluster_mirrored.
Qed.

Lemma chain_entry v c l x : chain priv nclus v c l -> x ∈ l -> fat_entry priv v x <> 0.
Proof.
  intros Hc Hx. destruct (chain_suffix _ _ _ Hc x Hx) as (l1 & l2 & _ & Hl2).
  inversion Hl2 as [? ? He|? ? ? ? Hn]; subst; [lia|]. destruct (chain_cons _ _ _ Hn). lia.
Qed.

Lemma extends_trans v v1 v2 l e1 e2 : extends v v1 l e1 -> extends v1 v2 (l ++ e1) e2 ->
  NoDup (l ++ e1 ++ e2) -> extends v v2 l (e1 ++ e2).
Proof.
  intros (Hz1 & Hf1 & Hd1 & Hm1) (Hz2 & Hf2 & Hd2 & Hm2) Hnd. rewrite app_assoc in Hnd.
  split_and!; [| | |auto].
  - intros x [Hx|Hx]%elem_of_app; [auto|]. destruct (Hz2 x Hx) as [Hv Hz]. split; [done|].
    rewrite <- Hf1; [done|by apply cluster_in_fat|]. intros Hx1.
    apply NoDup_app in Hnd as (_ & Hdis & _). by apply (Hdis x).
  - intros x Hx Hni. rewrite app_assoc in Hni. rewrite Hf2 by done. apply Hf1; [done|].
    intros Hin. apply Hni. apply elem_of_app. by left.
  - intros x Hx Hni. rewrite app_assoc in Hni. rewrite Hd2 by done. apply Hd1; [done|].
    intros Hin. apply Hni. apply elem_of_app. by left.
Qed.

(** Every free entry of the FAT stands for a data cluster. *)
Definition fat_wf (v : image) : Prop := forall c, in_fat c -> fat_entry priv v c = 0 -> valid_cluster c.

(** At least [n] clusters are free. *)
Definition has_free (v : image) (n : nat) : Prop :=
  exists F, NoDup F /\ (n <= length F)%nat /\ forall x, x ∈ F -> in_fat x /\ fat_entry priv v x = 0.

Lemma is_u32_eoc : is_u32 0x0fffffff.
Proof. unfold is_u32. lia. Qed.

Lemma is_u32_cluster c : valid_cluster c -> is_u32 c.
Proof. destruct geo. unfold valid_cluster, is_u32. lia. Qed.

(** The image after cluster [c0] was allocated and linked behind [z]. *)
Definition linked (v : image) (c0 z : Z) : image := set_fat priv (set_fat priv v c0 0x0fffffff) z c0.

Lemma linked_entry v c0 z x : image_ok v -> valid_cluster c0 -> in_fat z -> in_fat x ->
  fat_entry priv (linked v c0 z) x =
  if decide (x = z) then c0 else if decide (x = c0) then 0x0fffffff else fat_entry priv v x.
Proof.
  intros Hv Hc Hz Hx. unfold linked. pose proof (cluster_in_fat _ Hc).
  rewrite fat_entry_set_fat by (auto using image_ok_set_fat, is_u32_cluster).
  case_decide; [done|]. by rewrite fat_entry_set_fat by auto using is_u32_eoc.
Qed.

Lemma has_free_linked v c0 z n : image_ok v -> valid_cluster c0 -> in_fat z -> fat_entry priv v z <> 0 ->
  has_free v (Datatypes.S n) -> has_free (linked v c0 z) n.
Proof.
  intros Hv Hc Hz Hz0 (F & Hnd & Hlen & HF).
  assert (HF' : exists F', NoDup F' /\ (n <= length F')%nat /\ c0 ∉ F' /\ forall x, x ∈ F' -> x ∈ F).
  { destruct (decide (c0 ∈ F)) as [Hin|Hni]; [|exists F; split_and!; [done|lia|done|done]].
    apply elem_of_Permutation in Hin as [F' Hp]. exists F'. rewrite Hp in Hnd.
    apply NoDup_cons in Hnd as [Hni Hnd]. split_and!; [done| |done|].
    - rewrite Hp in Hlen. simpl in Hlen. lia.
    - intros x Hx. rewrite Hp. by right. }
  destruct HF' as (F' & Hnd' & Hlen' & Hni & Hsub). exists F'. split_and!; [done..|].
  intros x Hx. destruct (HF x (Hsub x Hx)) as [Hin Hx0]. split; [done|].
  rewrite linked_entry by done. rewrite !decide_False; [done|by intros ->|by intros ->].
Qed.

Lemma fat_wf_linked v c0 z : image_ok v -> valid_cluster c0 -> in_fat z -> fat_wf v -> fat_wf (linked v c0 z).
Proof.
  intros Hv Hc Hz Hw x Hx. rewrite linked_entry by done.
  case_decide; [intros ->; unfold valid_cluster in Hc; lia|]. case_decide; [done|]. by apply Hw.
Qed.

Lemma linked_data v c0 z y : in_fat c0 -> in_fat z -> valid_cluster y ->
  cluster_data priv (linked v c0 z) y = cluster_data priv v y.
Proof. intros. unfold linked. by rewrite !cluster_data_set_fat. Qed.

Lemma last_valid v c l : chain priv nclus v c l -> List.last l 0 ∈ l /\ valid_cluster (List.last l 0).
Proof.
  intros Hc. assert (Hin : List.last l 0 ∈ l) by (destruct (chain_cons _ _ _ Hc) as [_ [l' ->]]; apply last_elem).
  split; [done|]. pose proof (chain_range _ _ _ Hc) as Hr. rewrite Forall_forall in Hr. by apply Hr.
Qed.

(** Marking a free cluster used disturbs no chain and no contents. *)
Lemma chain_alloc v c l c0 : image_ok v -> chain priv nclus v c l -> in_fat c0 -> fat_entry priv v c0 = 0 ->
  chain priv nclus (set_fat priv v c0 0x0fffffff) c l.
Proof.
  intros Hv Hc Hin Hz. apply (chain_frame v); [done|]. intros x Hx.
  pose proof (chain_range _ _ _ Hc) as Hr. rewrite Forall_forall in Hr.
  rewrite fat_entry_set_fat by auto using cluster_in_fat, is_u32_eoc. rewrite decide_False; [done|].
  intros ->. by apply (chain_entry _ _ _ _ Hc Hx).
Qed.

Lemma file_data_set_fat v c l c0 data : chain priv nclus v c l -> in_fat c0 ->
  file_data priv (set_fat priv v c0 data) l = file_data priv v l.
Proof.
  intros Hc Hin. apply flat_map_ext_in. intros x Hx. apply cluster_data_set_fat; [done|].
  pose proof (chain_range _ _ _ Hc) as Hr. rewrite Forall_forall in Hr. by apply Hr.
Qed.

Lemma chain_linked v c l c0 : image_ok v -> chain priv nclus v c l -> valid_cluster c0 -> fat_entry priv v c0 = 0 ->
  chain priv nclus (linked v c0 (List.last l 0)) c (l ++ [c0]) /\ c0 ∉ l.
Proof.
  intros Hv Hc Hc0 Hz. assert (Hni : c0 ∉ l) by (intros Hin; by apply (chain_entry _ _ _ _ Hc Hin)).
  split; [|done]. apply chain_link; [by apply image_ok_set_fat| | |].
  - apply chain_alloc; auto using cluster_in_fat.
  - constructor; [done|]. rewrite fat_entry_set_fat by auto using cluster_in_fat, is_u32_eoc. by rewrite decide_True.
  - intros x Hx ->%list_elem_of_singleton. done.
Qed.

Lemma extends_linked v c l c0 : image_ok v -> chain priv nclus v c l -> valid_cluster c0 -> fat_entry priv v c0 = 0 ->
  extends v (linked v c0 (List.last l 0)) l [c0].
Proof.
  intros Hv Hc Hc0 Hz. destruct (last_valid _ _ _ Hc) as [Hin Hlv]. split_and!.
  - by intros x ->%list_elem_of_singleton.
  - intros x Hx Hni. apply not_elem_of_app in Hni as [Hni1 Hni2]. rewrite linked_entry by auto using cluster_in_fat.
    rewrite !decide_False; [done| |].
    + intros ->. apply Hni2. by left.
    + by intros ->.
  - intros y Hy _. apply linked_data; auto using cluster_in_fat.
  - intros Hm. unfold linked. by repeat apply mirrored_set_fat; auto using cluster_in_fat.
Qed.

(** Allocating a cluster and linking it behind the chain. *)
Lemma alloc_append_ok v c l s g n : holds s v g -> chain priv nclus v c l -> (length l <= fuel)%nat ->
  fat_wf v -> has_free v (Datatypes.S n) ->
  exists c0 s1 s2, fat32_allocate_cluster junk priv s = Ret (c0, s1) /\ valid_cluster c0 /\
    fat_entry priv v c0 = 0 /\
    fat32_append_cluster junk fuel priv c c0 s1 = Ret (0, s2) /\ holds s2 (linked v c0 (List.last l 0)) g.
Proof.
  intros Hh Hc Hf Hw (F & HndF & HlF & HF). pose proof (holds_image _ _ _ Hh) as Hv.
  destruct (allocate_ok v s g Hh) as (c0 & s1 & Ha & [[(Hin & Hz & _) Hh1]|(Hno & _)]).
  2: { destruct F as [|x F]; [simpl in HlF; lia|]. destruct (HF x) as [Hx Hx0]; [by left|]. by destruct (Hno x Hx). }
  assert (Hc0 : valid_cluster c0) by auto.
  destruct (append_ok (set_fat priv v c0 0x0fffffff) c l c0 s1 g) as (s2 & Hap & Hh2); [done| |done|].
  - by apply chain_alloc.
  - exists c0, s1, s2. auto.
Qed.

Lemma file_splice v v1 L x y bytes : image_ok v -> NoDup L -> 0 <= x -> zget L (x / clussize priv) = Some y ->
  only_cluster y v v1 -> x mod clussize priv + zlen bytes <= clussize priv ->
  cluster_data priv v1 y = splice (x mod clussize priv) bytes (cluster_data priv v y) ->
  file_data priv v1 L = splice x bytes (file_data priv v L).
Proof.
  intros Hv Hnd Hx Hy Ho Hfit Hcd. pose proof clussize_range as Hcs.
  assert (Hm : 0 <= x mod clussize priv < clussize priv) by (apply Z.mod_pos_bound; lia).
  assert (Hd : x = clussize priv * (x / clussize priv) + x mod clussize priv) by (apply Z.div_mod; lia).
  rewrite Hd at 1. rewrite (Z.mul_comm (clussize priv)). unfold file_data.
  rewrite <- (splice_flat_map _ (clussize priv) bytes) with (x := y);
    [|lia|done|intros; by apply cluster_data_length|done|lia..].
  apply flat_map_ext_in. intros z _. case_decide as E; [by subst|]. by eapply only_cluster_data.
Qed.

(** What a call of [fat32_write] achieves from offset [off] of the buffer on. *)
Definition wrote (c : Z) (l : list Z) (buf : list Z) (offset sz off : Z) (v v' : image) (ext : list Z) : Prop :=
  chain priv nclus v' c (l ++ ext) /\ offset + sz <= zlen (l ++ ext) * clussize priv /\
  file_data priv v' (l ++ ext) = splice (offset + off) (slice off (sz - off) buf) (file_data priv v (l ++ ext)) /\
  extends v v' l ext.

(** One chunk into cluster [y], then the rest. *)
Lemma wrote_step c l buf offset sz off cp v v1 v2 ext y :
  image_ok v -> image_ok v1 -> 0 <= offset -> 0 <= off -> 0 < cp -> off + cp <= sz -> sz <= zlen buf ->
  valid_cluster y -> zget l ((offset + off) / clussize priv) = Some y ->
  (offset + off) mod clussize priv + cp <= clussize priv -> only_cluster y v v1 ->
  cluster_data priv v1 y = splice ((offset + off) mod clussize priv) (slice off cp buf) (cluster_data priv v y) ->
  wrote c l buf offset sz (off + cp) v1 v2 ext -> wrote c l buf offset sz off v v2 ext.
Proof.
  intros Hv Hv1 Hof Ho Hcp Hle Hbuf Hy Hz Hfit Hoc Hcd (Hch & Hlen & Hfd & Hext).
  pose proof (chain_NoDup _ _ _ Hch) as Hnd. assert (Hbl : zlen (slice off cp buf) = cp) by (apply slice_length; lia).
  split; [done|]. split; [done|]. split.
  - rewrite Hfd. rewrite (file_splice v v1 (l ++ ext) (offset + off) y (slice off cp buf));
      [|done|done|lia|by apply zget_app_l|done|lia|done].
    replace (offset + (off + cp)) with (offset + off + zlen (slice off cp buf)) by lia.
    rewrite splice_splice_adj; [|lia|].
    + rewrite slice_app by lia. do 2 f_equal. lia.
    + rewrite Hbl, slice_length, file_data_length by (done || lia). lia.
  - change ext with ([] ++ ext). eapply extends_trans; [|by rewrite app_nil_r|done].
    eapply only_cluster_extends; [done..|]. apply zget_lookup in Hz as [_ Hz]. by eapply list_elem_of_lookup_2.
Qed.

Lemma wrote_linked c l buf offset sz off v v2 c0 ext : image_ok v -> chain priv nclus v c l ->
  valid_cluster c0 -> fat_entry priv v c0 = 0 ->
  wrote c (l ++ [c0]) buf offset sz off (linked v c0 (List.last l 0)) v2 ext ->
  wrote c l buf offset sz off v v2 (c0 :: ext).
Proof.
  intros Hv Hc Hc0 Hz (Hch & Hlen & Hfd & Hext). rewrite <- app_assoc in *. simpl in *.
  split; [done|]. split; [done|]. split.
  - rewrite Hfd. f_equal. apply flat_map_ext_in. intros y Hy.
    destruct (last_valid _ _ _ Hc) as [_ Hlv].
    apply linked_data; auto using cluster_in_fat. pose proof (chain_range _ _ _ Hch) as Hr.
    rewrite Forall_forall in Hr. by apply Hr.
  - change (c0 :: ext) with ([c0] ++ ext). eapply extends_trans; [by eapply extends_linked|done|].
    by eapply chain_NoDup.
Qed.

Lemma same_fat v v1 : (forall x, in_fat x -> fat_entry priv v1 x = fat_entry priv v x) ->
  (fat_wf v -> fat_wf v1) /\ (forall n, has_free v n -> has_free v1 n) /\
  forall c l, chain priv nclus v c l -> chain priv nclus v1 c l.
Proof.
  intros Hf. split_and!.
  - intros Hw x Hx. rewrite Hf by done. by apply Hw.
  - intros n (F & Hnd & Hl & HF). exists F. split_and!; [done..|]. intros x Hx.
    destruct (HF x Hx). split; [done|]. by rewrite Hf.
  - intros c l Hc. eapply chain_frame; [done|]. intros x Hx. apply Hf, cluster_in_fat.
    pose proof (chain_range _ _ _ Hc) as Hr. rewrite Forall_forall in Hr. by apply Hr.
Qed.

(** The body of the loop, with [n] iterations left after it. *)
Definition write_spec (c : Z) (buf : list Z) (offset sz : Z) (n : nat) : Prop :=
  forall v l off k s g,
  holds s v g -> chain priv nclus v c l -> 0 <= off <= sz ->
  offset + off <= zlen l * clussize priv -> sz - off <= Z.of_nat n ->
  fat_wf v -> has_free v k -> offset + sz <= (zlen l + Z.of_nat k) * clussize priv ->
  exists s' v' ext, write_loop junk fuel priv n c buf offset sz off s = Ret (sz, s') /\ holds s' v' g /\
    wrote c l buf offset sz off v v' ext.

(** The part of the body after the cluster [y] is known. *)
Lemma write_tail_ok c buf offset sz n v l off cp k s g y :
  write_spec c buf offset sz n ->
  0 <= offset -> 0 <= off -> offset + sz < 2^31 -> sz <= zlen buf ->
  0 < cp <= sz - off -> (offset + off) mod clussize priv + cp <= clussize priv ->
  sz - off <= Z.of_nat (Datatypes.S n) ->
  holds s v g -> chain priv nclus v c l -> zget l ((offset + off) / clussize priv) = Some y ->
  fat_wf v -> has_free v k -> offset + sz <= (zlen l + Z.of_nat k) * clussize priv ->
  exists s' v' ext,
   ('(r, s2) <- fat32_write_cluster junk priv buf off y ((offset + off) mod clussize priv) cp s ;;
    if r <? 0 then Ret (ERROR_WRITE_FAIL, s2) else
    write_loop junk fuel priv n c buf offset sz (u32 (off + cp)) s2) = Ret (sz, s') /\ holds s' v' g /\
    wrote c l buf offset sz off v v' ext.
Proof.
  intros IH Hof Ho H31 Hbuf Hcp Hfit Hn Hh Hc Hy Hw Hfr Hk. pose proof clussize_range as Hcs.
  assert (Hm : 0 <= (offset + off) mod clussize priv < clussize priv) by (apply Z.mod_pos_bound; lia).
  assert (Hyv : valid_cluster y) by (exact (Forall_zget _ _ _ _ (chain_range _ _ _ Hc) Hy)).
  destruct (write_cluster_ok v y ((offset + off) mod clussize priv) cp off buf s g)
    as (s2 & v1 & -> & Hh1 & Hcd & Hoc); [done|by apply cluster_addressable|lia..|].
  cbn [obind]. change (0 <? 0) with false. cbn iota. rewrite u32_small by (unfold is_u32; lia).
  destruct (same_fat v v1) as (Hw1 & Hfr1 & Hc1); [intros; by eapply only_cluster_fat|].
  assert (Hin1 : offset + (off + cp) <= zlen l * clussize priv).
  { pose proof (Z.div_mod (offset + off) (clussize priv)). apply zget_Some in Hy. nia. }
  destruct (IH v1 l (off + cp) k s2 g) as (s' & v' & ext & -> & Hh' & Hwr); [done|auto|lia|lia|lia|auto|auto|done|].
  exists s', v', ext. split; [done|]. split; [done|].
  apply (wrote_step c l buf offset sz off cp v v1 v' ext y); try done; try lia; by eapply holds_image.
Qed.

Lemma write_loop_ok c buf offset sz n :
  0 <= offset -> offset + sz < 2^31 -> sz <= zlen buf -> offset + sz <= Z.of_nat fuel * clussize priv ->
  write_spec c buf offset sz n.
Proof.
  intros Hof H31 Hbuf Hfu.
  induction n as [|n IH]; intros v l off k s g Hh Hc Ho Hin Hn Hw Hfr Hk; cbn [write_loop].
  all: destruct (Z.leb_spec sz off);
    [exists s, v, []; rewrite s32_small by lia; split; [done|]; split; [done|];
     unfold wrote; rewrite app_nil_r; replace (sz - off) with 0 by lia; rewrite slice_0, splice_nil;
     split_and!; [done|lia|done|apply extends_refl]|].
  { lia. }
  pose proof clussize_range as Hcs. unfold divu at 1. destruct (Z.eqb_spec (clussize priv) 0); [lia|]. cbn [obind].
  destruct (copysize_at_spec (clussize priv) offset off sz) as [Hcp Hfit]; [lia..|].
  set (cp := copysize_at (clussize priv) offset off sz) in *.
  rewrite (u32_small (offset + off)) by (unfold is_u32; lia). rewrite (u32_small cp) by (unfold is_u32; lia).
  destruct (offset_cluster_ok v c l (offset + off) s g) as (s1 & -> & Hh1); [done|done|lia|]. cbn [obind].
  destruct (decide (offset + off < zlen l * clussize priv)) as [Hlt|Hge].
  - destruct (chain_lookup v c l (offset + off)) as (y & Hy & Hy' & Hyr); [done|lia|lia|].
    rewrite Hy'. change (default 0 (Some y)) with y. destruct (Z.eqb_spec y 0); [lia|].
    eapply write_tail_ok; try done; lia.
  - assert (Hx : offset + off = zlen l * clussize priv) by lia.
    assert (Hq : (offset + off) / clussize priv = zlen l) by (rewrite Hx; apply Z.div_mul; lia).
    rewrite (lookup_ge_None_2 l) by (rewrite Hq; unfold zlen; lia).
    change (default 0 None) with 0. change (0 =? 0) with true. cbn iota. destruct k as [|k]; [lia|].
    destruct (alloc_append_ok v c l s1 g k) as (c0 & s2 & s3 & -> & Hc0 & Hz0 & Hap & Hh3);
      [done|done|unfold zlen in *; nia|done|done|].
    cbn [obind]. destruct (Z.ltb_spec c0 0); [unfold valid_cluster in Hc0; lia|]. rewrite Hap. cbn [obind].
    change (0 <? 0) with false. cbn iota. pose proof (holds_image _ _ _ Hh) as Hv.
    destruct (last_valid _ _ _ Hc) as [Hlin Hlv]. pose proof (cluster_in_fat _ Hlv) as Hlf.
    destruct (chain_linked v c l c0) as [Hc3 Hni]; [done..|].
    edestruct (write_tail_ok c buf offset sz n (linked v c0 (List.last l 0)) (l ++ [c0]) off cp k s3 g c0)
      as (s' & v' & ext & Hrun & Hh' & Hwr); try done; try lia.
    { rewrite Hq. apply zget_lookup. split; [unfold zlen; lia|]. unfold zlen. rewrite Nat2Z.id.
      by apply list_lookup_middle. }
    { by apply fat_wf_linked. }
    { apply has_free_linked; [done..| |done]. by apply (chain_entry _ _ _ _ Hc). }
    { rewrite zlen_app. change (zlen [c0]) with 1. lia. }
    exists s', v', (c0 :: ext). split; [exact Hrun|]. split; [done|]. by apply wrote_linked.
Qed.

(** *** What the file operations promise *)

(** C3: reading a file returns exactly the bytes its cluster chain holds at
    that offset, for any range inside the chain and across any number of
    sectors and clusters; the image is unchanged and no page is leaked. *)
Theorem fat32_read_correct v c l offset sz buf s g :
  holds s v g -> chain priv nclus v c l -> 0 <= offset -> 0 <= sz ->
  offset + sz <= zlen l * clussize priv -> offset + sz < 2^31 -> sz <= zlen buf ->
  exists s', fat32_read junk priv c buf offset sz s
    = Ret (sz, splice 0 (slice offset sz (file_data priv v l)) buf, s') /\ holds s' v g.
Proof. apply read_ok. Qed.

(** C1: writing a file, inside it or growing it from its end, succeeds on a
    well-formed FAT with free clusters enough for the growth: the chain keeps
    its clusters and gains clusters whose FAT entries were free, no FAT entry
    and no data of any other cluster changes, the contents of the file change in
    the written range only, and reading the range back returns the bytes
    written. *)
Theorem fat32_write_correct v c l offset sz k buf s g rbuf :
  holds s v g -> chain priv nclus v c l -> 0 <= offset -> 0 <= sz -> offset <= zlen l * clussize priv ->
  offset + sz < 2^31 -> sz <= zlen buf -> sz <= zlen rbuf -> fat_wf v -> has_free v k ->
  offset + sz <= (zlen l + Z.of_nat k) * clussize priv -> offset + sz <= Z.of_nat fuel * clussize priv ->
  exists s' s'' v' ext, fat32_write junk fuel priv c buf offset sz s = Ret (sz, s') /\ holds s' v' g /\
    chain priv nclus v' c (l ++ ext) /\
    (forall x, x ∈ ext -> valid_cluster x /\ fat_entry priv v x = 0) /\
    (forall x, in_fat x -> x ∉ l ++ ext -> fat_entry priv v' x = fat_entry priv v x) /\
    (forall x, valid_cluster x -> x ∉ l ++ ext -> cluster_data priv v' x = cluster_data priv v x) /\
    file_data priv v' (l ++ ext) = splice offset (slice 0 sz buf) (file_data priv v (l ++ ext)) /\
    fat32_read junk priv c rbuf offset sz s' = Ret (sz, splice 0 (slice 0 sz buf) rbuf, s'').
Proof.
  intros Hh Hc Hof Hsz Hin H31 Hbuf Hrb Hw Hfr Hk Hfu. unfold fat32_write.
  destruct (write_loop_ok c buf offset sz (Z.to_nat sz) Hof H31 Hbuf Hfu v l 0 k s g)
    as (s' & v' & ext & -> & Hh' & Hch & Hlen & Hfd & Hz & Hf & Hd & _); [done|done|lia..|done|done|done|].
  rewrite Z.add_0_r, Z.sub_0_r in Hfd.
  destruct (read_ok v' c (l ++ ext) offset sz rbuf s' g) as (s'' & Hrd & _); [done..|].
  exists s', s'', v', ext. split_and!; [done..|]. rewrite Hrd. do 3 f_equal.
  assert (Hsl : zlen (slice 0 sz buf) = sz) by (apply slice_length; lia).
  rewrite Hfd. rewrite <- Hsl at 1. rewrite slice_splice_same; [done|done|].
  rewrite file_data_length by (by eapply holds_image). lia.
Qed.

(** C2: on a well-formed FAT with free clusters enough for the growth, a write
    touches no other file: every chain that shares no cluster with the one
    written keeps its clusters and its contents, also when the write allocates
    clusters, and the copies of the FAT stay equal.  A volume without room for
    the growth is not covered: [full_volume_write_corrupts]. *)
Theorem fat32_write_isolated v c l offset sz k buf s g c2 l2 :
  holds s v g -> chain priv nclus v c l -> 0 <= offset -> 0 <= sz -> offset <= zlen l * clussize priv ->
  offset + sz < 2^31 -> sz <= zlen buf -> fat_wf v -> has_free v k ->
  offset + sz <= (zlen l + Z.of_nat k) * clussize priv -> offset + sz <= Z.of_nat fuel * clussize priv ->
  chain priv nclus v c2 l2 -> (forall x, x ∈ l2 -> x ∉ l) -> mirrored priv v ->
  exists s' v', fat32_write junk fuel priv c buf offset sz s = Ret (sz, s') /\ holds s' v' g /\
    chain priv nclus v' c2 l2 /\ file_data priv v' l2 = file_data priv v l2 /\ mirrored priv v'.
Proof.
  intros Hh Hc Hof Hsz Hin H31 Hbuf Hw Hfr Hk Hfu Hc2 Hdis Hm. unfold fat32_write.
  destruct (write_loop_ok c buf offset sz (Z.to_nat sz) Hof H31 Hbuf Hfu v l 0 k s g)
    as (s' & v' & ext & -> & Hh' & Hch & Hlen & Hfd & Hz & Hf & Hd & Hmm); [done|done|lia..|done|done|done|].
  assert (Hni : forall x, x ∈ l2 -> x ∉ l ++ ext).
  { intros x Hx [|Hxe]%elem_of_app; [by apply (Hdis x)|]. destruct (Hz x Hxe) as [_ Hx0].
    by apply (chain_entry _ _ _ _ Hc2 Hx). }
  pose proof (chain_range _ _ _ Hc2) as Hr. rewrite Forall_forall in Hr.
  exists s', v'. split_and!; [done|done| | |auto].
  - apply (chain_frame v); [done|]. intros x Hx. apply Hf; auto using cluster_in_fat.
  - apply flat_map_ext_in. intros x Hx. apply Hd; [by apply Hr|auto].
Qed.

(** freeing a chain terminates, clears exactly the FAT entries of its
    clusters, and leaves every other entry and all file data as they were. *)
Theorem fat32_free_chain_correct v c l s g :
  holds s v g -> chain priv nclus v c l -> (length l <= fuel)%nat ->
  exists s' v', fat32_free_chain junk fuel priv c s = Ret (0, s') /\ holds s' v' g /\
    (forall x, in_fat x -> fat_entry priv v' x = if decide (x ∈ l) then 0 else fat_entry priv v x) /\
    forall y, valid_cluster y -> cluster_data priv v' y = cluster_data priv v y.
Proof.
  intros Hh Hc Hf. destruct (free_chain_ok fuel c l v s g Hh Hc Hf) as (s' & Hrun & Hh').
  assert (Hl : Forall in_fat l) by (eapply Forall_impl; [by eapply chain_range|apply cluster_in_fat]).
  exists s', (clear_all v l). split_and!; [done|done| |].
  - intros x Hx. apply clear_all_entry; [by eapply holds_image|done|done].
  - intros y Hy. by apply clear_all_data.
Qed.

(** allocation is first fit.  It returns the lowest-numbered cluster whose
    FAT entry is zero and marks it end-of-chain in both FATs, or, when there is
    none, returns 0 and changes nothing; either way its page is given back. *)
Theorem fat32_allocate_first_fit v s g : holds s v g ->
  exists c s', fat32_allocate_cluster junk priv s = Ret (c, s') /\
    ((first_free v c /\ holds s' (set_fat priv v c 0x0fffffff) g) \/
     (no_free v /\ c = 0 /\ holds s' v g)).
Proof. apply allocate_ok. Qed.

(** *** Running out of space *)

Lemma u32_add_mul x k : u32 (x + k * 2^32) = u32 x.
Proof. unfold u32. apply Z.mod_add. lia. Qed.

Lemma cluster0_addressable : 2 * spc <= fat_size b -> addressable 0.
Proof.
  intros Hs. destruct geo. unfold addressable, first_sector, data_start. split; [|lia].
  unfold fat32_cluster_to_sector. rewrite geo_fats0. change (u32 (0 - 2)) with (2^32 - 2).
  rewrite <- (s32_small (reserved_sector b + 2 * fat_size b + (0 - 2) * spc)) by lia.
  apply s32_cong. rewrite <- (u32_add_mul (_ + _ + (0 - 2) * spc) spc). f_equal. lia.
Qed.

Lemma copysize_whole chunk k sz : 0 < chunk < 2^31 -> 0 <= k -> 0 < sz < chunk -> k * chunk + sz < 2^31 ->
  copysize_at chunk (k * chunk) 0 sz = sz.
Proof.
  intros Hch Hk Hsz H31. unfold copysize_at. rewrite Z.add_0_r, Z.sub_0_r.
  assert (0 <= k * chunk) by nia. rewrite !u32_small by (unfold is_u32; lia).
  rewrite Z.div_mul by lia. rewrite Z.add_comm, Z.div_add, Z.div_small by lia.
  destruct (Z.ltb_spec k (0 + k)); [lia|]. apply s32_small. lia.
Qed.

(** on a full volume a write that needs a new cluster reports success.
    The failed allocation hands out cluster 0, so the chain's last FAT entry
    becomes 0 (the cluster reads as free) and the data goes to the sectors of
    cluster 0, which are the end of the second FAT. *)
Theorem full_volume_write_corrupts v c l sz buf s g :
  holds s v g -> chain priv nclus v c l -> (length l <= fuel)%nat -> no_free v -> 2 * spc <= fat_size b ->
  0 < sz < clussize priv -> zlen l * clussize priv + sz < 2^31 -> sz <= zlen buf ->
  exists s' v', fat32_write junk fuel priv c buf (zlen l * clussize priv) sz s = Ret (sz, s') /\ holds s' v' g /\
    fat_entry priv v' (List.last l 0) = 0 /\
    slice 0 sz (cluster_data priv v' 0) = slice 0 sz buf /\
    first_sector priv 0 + 2 * spc = reserved_sector b + 2 * fat_size b.
Proof.
  intros Hh Hc Hfu Hno Hs2 Hsz H31 Hbuf. unfold fat32_write. pose proof clussize_range as Hcs.
  destruct (Z.to_nat sz) as [|n] eqn:En; [lia|]. cbn [write_loop].
  destruct (Z.leb_spec sz 0); [lia|]. unfold divu at 1. destruct (Z.eqb_spec (clussize priv) 0); [lia|]. cbn [obind].
  assert (Hof : 0 <= zlen l * clussize priv) by (unfold zlen; lia).
  rewrite copysize_whole by (unfold zlen in *; lia). rewrite Z.add_0_r. rewrite !u32_small by (unfold is_u32; lia).
  destruct (offset_cluster_ok v c l (zlen l * clussize priv) s g) as (s1 & -> & Hh1); [done..|]. cbn [obind].
  rewrite Z.div_mul by lia. rewrite (lookup_ge_None_2 l) by (unfold zlen; lia).
  change (default 0 None) with 0. change (0 =? 0) with true. cbn iota.
  destruct (allocate_ok v s1 g Hh1) as (c0 & s2 & -> & [[(Hin & Hz & _) _]|(_ & -> & Hh2)]);
    [by destruct (Hno c0 Hin)|]. cbn [obind]. change (0 <? 0) with false. cbn iota.
  destruct (append_ok v c l 0 s2 g) as (s3 & -> & Hh3); [done..|]. cbn [obind]. change (0 <? 0) with false. cbn iota.
  rewrite Z.mod_mul by lia. destruct (last_valid _ _ _ Hc) as [_ Hlv]. pose proof (cluster_in_fat _ Hlv) as Hlf.
  edestruct (write_cluster_ok (set_fat priv v (List.last l 0) 0) 0 0 sz 0 buf s3 g)
    as (s4 & v' & -> & Hh4 & Hcd & Hoc); [done|by apply cluster0_addressable|lia..|].
  cbn [obind]. change (0 <? 0) with false. cbn iota.
  assert (Hend : first_sector priv 0 + 2 * spc = reserved_sector b + 2 * fat_size b)
    by (unfold first_sector, data_start; lia).
  exists s4, v'. split_and!; [|done| | |done].
  - destruct n; cbn [write_loop];
      destruct (Z.leb_spec sz (0 + sz)); try lia; by rewrite s32_small by lia.
  - unfold fat_entry. rewrite Hoc; [|left; destruct (fat_sector_range _ Hlf); lia].
    fold (fat_entry priv (set_fat priv v (List.last l 0) 0) (List.last l 0)).
    rewrite fat_entry_set_fat; [by rewrite decide_True|by eapply holds_image|done|done|unfold is_u32; lia].
  - assert (Hsl : zlen (slice 0 sz buf) = sz) by (apply slice_length; lia).
    rewrite Hcd. rewrite <- Hsl at 1. apply slice_splice_same; [lia|].
    rewrite cluster_data_length by (apply image_ok_set_fat; by eapply holds_image). lia.
Qed.

(** removing a file that has no cluster (start cluster 0) clears FAT entry
    0; the next allocation then hands out cluster 0, which callers take for
    "out of space" whatever is free. *)
Theorem free_chain_zero_breaks_allocation v s g :
  holds s v g -> 0x0ffffff8 <= fat_entry priv v 0 -> (0 < fuel)%nat ->
  exists s1 s2, fat32_free_chain junk fuel priv 0 s = Ret (0, s1) /\
    fat32_allocate_cluster junk priv s1 = Ret (0, s2) /\ pages s2 = g.
Proof.
  intros Hh He Hf. unfold fat32_free_chain. destruct fuel as [|n]; [lia|]. cbn [free_chain].
  assert (H0f : in_fat 0) by (destruct geo; unfold in_fat; lia).
  destruct (fat_read_ok 0 s v g Hh H0f) as (s1 & -> & Hh1). cbn [obind].
  destruct (write_fat_ok 0 0 s1 v g Hh1 H0f) as (s2 & -> & Hh2). cbn [obind].
  change (0 <? 0) with false. cbn iota. destruct (Z.ltb_spec (fat_entry priv v 0) 0x0ffffff8); [lia|].
  exists s2. destruct (allocate_ok _ s2 g Hh2) as (c & s3 & Hal & Hcase). exists s3. split; [done|].
  assert (Ez : fat_entry priv (set_fat priv v 0 0) 0 = 0).
  { rewrite fat_entry_set_fat; [by rewrite decide_True|by eapply holds_image|done|done|unfold is_u32; lia]. }
  destruct Hcase as [[(Hin & Hz & Hlow) Hh3]|(Hno & -> & Hh3)].
  - destruct (decide (c = 0)) as [->|]; [|unfold in_fat in Hin; by destruct (Hlow 0); [lia|]].
    split; [done|]. apply Hh3.
  - by destruct (Hno 0).
Qed.

End refine.

(** ** An example volume

    26 sectors at sector 8 of a RAM disk, under the whole stack: one sector per
    cluster, two FATs of two sectors, 21 data clusters.  Cluster 2 is the root
    directory, 3 and 4 are one file, 5 another. *)
Definition ex_boot : list Z :=
  splice 13 [1; 1; 0; 2] (splice 36 [2; 0; 0; 0] (splice 44 [2; 0; 0; 0]
    (splice 82 [70; 65; 84; 51; 50; 32; 32; 32] (repeat 0 512)))).

(** FAT sector 0, with [free] as the contents of the unused entries 6..22. *)
Definition ex_fat0 (free : Z) : list Z :=
  flat_map (le_bytes 4) ([0x0ffffff8; 0x0fffffff; 0x0fffffff; 4; 0x0fffffff; 0x0fffffff]
    ++ repeat free 17 ++ repeat 0x0ffffff7 105).
Definition ex_fat1 : list Z := flat_map (le_bytes 4) (repeat 0x0ffffff7 128).

Definition ex_fat_disk (free : Z) : ramdisk :=
  repeat (repeat 0 512) 8 ++ [ex_boot; ex_fat0 free; ex_fat1; ex_fat0 free; ex_fat1]
  ++ [repeat 0 512; repeat 3 512; repeat 4 512; repeat 5 512] ++ repeat (repeat 0 512) 17.

Definition ex_volume (free : Z) : fs (hal ramdisk) :=
  FS (Hal (BlkDev (Some (ex_fat_disk free)) (repeat (CacheEntry 0 BufNull) 512) 0 false :: repeat empty_block 7)
      (layout [Partition HAL_PARTITION_TYPE_FAT32 0 8 26]) 1) 0.

Definition ex_priv : FAT32Private := Private 0 (boot_sector_of ex_boot) 511 0 0.

Lemma ex_geometry : geometry ex_priv 21 26.
Proof. by constructor; vm_compute. Qed.

Definition ex_image (free : Z) : image := hal_psector (disk (ex_volume free)) 0.

#[local] Existing Instance ex_store.
#[local] Existing Instance ex_store_laws.

Lemma ex_holds free : holds ex_priv 26 (ex_volume free) (ex_image free) 0.
Proof.
  split_and!; [|done|done| |done].
  - split; [done|]. exists (Partition HAL_PARTITION_TYPE_FAT32 0 8 26), (ex_fat_disk free).
    split; [done|]. split; [done|]. split; [|by vm_compute].
    split; [done|]. eexists. split; [done|apply coherent_fresh].
  - intros i. apply hal_psector_length.
Qed.

Lemma ex_chain3 free : free = 0 \/ free = 0x0ffffff7 -> chain ex_priv 21 (ex_image free) 3 [3; 4].
Proof.
  intros [-> | ->]; (apply chain_next; [lia|by vm_compute|]);
  match goal with |- chain _ _ _ ?e _ => replace e with 4 by (by vm_compute) end;
  (apply chain_last; [lia|by vm_compute]).
Qed.

Lemma ex_chain5 : chain ex_priv 21 (ex_image 0) 5 [5].
Proof. apply chain_last; [lia|by vm_compute]. Qed.

(** The entries of the example FATs, checked one by one. *)
Lemma ex_entries (P : Z -> Z -> Prop) `{forall c e, Decision (P c e)} free :
  (let a := ex_image free 1 in let b := ex_image free 2 in
   forallb (fun c => bool_decide (P c (get32 (c mod 128 * 4) (if c <? 128 then a else b)))) (seqZ 0 256)) = true ->
  forall c, in_fat ex_priv c -> P c (fat_entry ex_priv (ex_image free) c).
Proof.
  cbv zeta. intros Hb c Hc. rewrite forallb_forall in Hb.
  assert (E : fat_entry ex_priv (ex_image free) c =
    get32 (c mod 128 * 4) (if c <? 128 then ex_image free 1 else ex_image free 2)).
  { change (0 <= c < 256) in Hc. unfold fat_entry, fat_sector. change (reserved_sector (boot_sector ex_priv)) with 1.
    destruct (Z.ltb_spec c 128); [by rewrite Z.div_small by lia|].
    replace (c / 128) with 1; [done|]. apply (Z.div_unique c 128 1 (c - 128)); lia. }
  rewrite E. apply (bool_decide_unpack _), Is_true_true, Hb.
  apply list_elem_of_In, elem_of_seqZ. exact Hc.
Qed.

Lemma ex_fat_wf : fat_wf ex_priv 21 (ex_image 0).
Proof. exact (ex_entries (fun c e => e = 0 -> 2 <= c < 2 + 21) 0 ltac:(by vm_compute)). Qed.

Lemma ex_no_free : no_free ex_priv (ex_image 0x0ffffff7).
Proof. exact (ex_entries (fun _ e => e <> 0) 0x0ffffff7 ltac:(by vm_compute)). Qed.

Lemma ex_has_free : has_free ex_priv (ex_image 0) 3.
Proof.
  exists [6; 7; 8]. split; [by apply (bool_decide_unpack _)|]. split; [simpl; lia|].
  intros x Hx. repeat (apply elem_of_cons in Hx as [-> | Hx]; [by vm_compute|]). by apply not_elem_of_nil in Hx.
Qed.

Lemma fat32_read_correct_witness :
  exists s', fat32_read ex_junk ex_priv 3 (repeat 0 100) 500 100 (ex_volume 0)
    = Ret (100, splice 0 (slice 500 100 (file_data ex_priv (ex_image 0) [3; 4])) (repeat 0 100), s')
    /\ holds ex_priv 26 s' (ex_image 0) 0.
Proof.
  apply (fat32_read_correct ex_junk ex_junk_page ex_priv 21 26 ex_geometry); [apply ex_holds|..]; try by vm_compute.
  apply ex_chain3. by left.
Defined.

(** Growing the two-cluster file by two clusters, from the middle of its second. *)
Lemma fat32_write_correct_witness :
  exists s' s'' v' ext, fat32_write ex_junk 10 ex_priv 3 (repeat 9 1500) 700 1500 (ex_volume 0) = Ret (1500, s') /\
    holds ex_priv 26 s' v' 0 /\ chain ex_priv 21 v' 3 ([3; 4] ++ ext) /\
    (forall x, x ∈ ext -> valid_cluster 21 x /\ fat_entry ex_priv (ex_image 0) x = 0) /\
    (forall x, in_fat ex_priv x -> x ∉ [3; 4] ++ ext -> fat_entry ex_priv v' x = fat_entry ex_priv (ex_image 0) x) /\
    (forall x, valid_cluster 21 x -> x ∉ [3; 4] ++ ext -> cluster_data ex_priv v' x = cluster_data ex_priv (ex_image 0) x) /\
    file_data ex_priv v' ([3; 4] ++ ext)
      = splice 700 (slice 0 1500 (repeat 9 1500)) (file_data ex_priv (ex_image 0) ([3; 4] ++ ext)) /\
    fat32_read ex_junk ex_priv 3 (repeat 0 1500) 700 1500 s'
      = Ret (1500, splice 0 (slice 0 1500 (repeat 9 1500)) (repeat 0 1500), s'').
Proof.
  apply (fat32_write_correct ex_junk ex_junk_page 10 ex_priv 21 26 ex_geometry) with (k := 3%nat);
    [apply ex_holds|..]; try by vm_compute.
  - apply ex_chain3. by left.
  - apply ex_fat_wf.
  - apply ex_has_free.
Defined.

Lemma fat32_write_isolated_witness :
  exists s' v', fat32_write ex_junk 10 ex_priv 3 (repeat 9 1500) 700 1500 (ex_volume 0) = Ret (1500, s') /\
    holds ex_priv 26 s' v' 0 /\ chain ex_priv 21 v' 5 [5] /\
    file_data ex_priv v' [5] = file_data ex_priv (ex_image 0) [5] /\ mirrored ex_priv v'.
Proof.
  apply (fat32_write_isolated ex_junk ex_junk_page 10 ex_priv 21 26 ex_geometry) with (k := 3%nat) (l := [3; 4]);
    [apply ex_holds|..]; try by vm_compute.
  - apply ex_chain3. by left.
  - apply ex_fat_wf.
  - apply ex_has_free.
  - apply ex_chain5.
  - by intros x ->%list_elem_of_singleton; apply (bool_decide_unpack _).
  - intros k Hk. change (0 <= k < 2) in Hk.
    assert (k = 0 \/ k = 1) as [-> | ->] by lia; by vm_compute.
Defined.

Lemma fat32_free_chain_correct_witness :
  exists s' v', fat32_free_chain ex_junk 10 ex_priv 3 (ex_volume 0) = Ret (0, s') /\ holds ex_priv 26 s' v' 0 /\
    (forall x, in_fat ex_priv x -> fat_entry ex_priv v' x = if decide (x ∈ [3; 4]) then 0 else fat_entry ex_priv (ex_image 0) x) /\
    forall y, valid_cluster 21 y -> cluster_data ex_priv v' y = cluster_data ex_priv (ex_image 0) y.
Proof.
  apply (fat32_free_chain_correct ex_junk ex_junk_page 10 ex_priv 21 26 ex_geometry); [apply ex_holds| |simpl; lia].
  apply ex_chain3. by left.
Defined.

Lemma fat32_allocate_first_fit_witness :
  exists c s', fat32_allocate_cluster ex_junk ex_priv (ex_volume 0) = Ret (c, s') /\
    ((first_free ex_priv (ex_image 0) c /\ holds ex_priv 26 s' (set_fat ex_priv (ex_image 0) c 0x0fffffff) 0) \/
     (no_free ex_priv (ex_image 0) /\ c = 0 /\ holds ex_priv 26 s' (ex_image 0) 0)).
Proof. apply (fat32_allocate_first_fit ex_junk ex_junk_page ex_priv 21 26 ex_geometry). apply ex_holds. Defined.

Lemma full_volume_write_corrupts_witness :
  exists s' v', fat32_write ex_junk 10 ex_priv 3 (repeat 9 100) 1024 100 (ex_volume 0x0ffffff7) = Ret (100, s') /\
    holds ex_priv 26 s' v' 0 /\ fat_entry ex_priv v' 4 = 0 /\
    slice 0 100 (cluster_data ex_priv v' 0) = slice 0 100 (repeat 9 100) /\
    first_sector ex_priv 0 + 2 * 1 = 1 + 2 * 2.
Proof.
  apply (full_volume_write_corrupts ex_junk ex_junk_page 10 ex_priv 21 26 ex_geometry (ex_image 0x0ffffff7) 3 [3; 4]);
    [apply ex_holds|..]; try by vm_compute.
  - apply ex_chain3. by right.
  - simpl. lia.
  - apply ex_no_free.
Defined.

Lemma free_chain_zero_breaks_allocation_witness :
  exists s1 s2, fat32_free_chain ex_junk 10 ex_priv 0 (ex_volume 0) = Ret (0, s1) /\
    fat32_allocate_cluster ex_junk ex_priv s1 = Ret (0, s2) /\ pages s2 = 0.
Proof.
  apply (free_chain_zero_breaks_allocation ex_junk ex_junk_page 10 ex_priv 21 26 ex_geometry (ex_image 0));
    [apply ex_holds|by vm_compute|lia].
Defined.
