(* ===== verification/Fat32Dir.v ===== *)
(** kernel/filesystem/fat32/dir.c: directory entries, 8.3 names, and the
    operations on paths.

    A directory entry is its 32 bytes.  Automatic variables the code leaves
    uninitialised are the parameter [undef]; a [VfsPath] is the number of parts
    and the buffer of 128-byte names. *)

From stdpp Require Import base list strings relations.
From Stdlib Require Import ZArith Lia.
From S2P Require Import Prelude KString HalBlock VfsPath Partition Fat32.

Local Open Scope Z_scope.
Local Open Scope outcome_scope.

(** ** struct FAT32DirEntry *)

Notation FAT32DirEntry := (list Z) (only parsing).
Definition dir_name (d : FAT32DirEntry) : list Z := slice 0 11 d.
Definition dir_name0 (d : FAT32DirEntry) : Z := le_val (slice 0 1 d).
Definition dir_attr (d : FAT32DirEntry) : Z := le_val (slice 11 1 d).
Definition dir_cluster (d : FAT32DirEntry) : Z := u32 (Z.lor (Z.shiftl (get16 20 d) 16) (get16 26 d)).
Definition dir_size (d : FAT32DirEntry) : Z := get32 28 d.

Definition ATTR_VOLUME_ID : Z := 0x08.
Definition ATTR_DIRECTORY : Z := 0x10.
Definition ATTR_LONG_NAME : Z := 0x0f.

(** An entry with only a name, a start cluster and an attribute byte set. *)
Definition new_dirent (name : list Z) (cluster attr : Z) : FAT32DirEntry :=
  splice 26 (le_bytes 2 (Z.land cluster 0xffff))
    (splice 20 (le_bytes 2 (Z.land (Z.shiftr cluster 16) 0xffff))
       (splice 11 [attr] (splice 0 name (repeat 0 32)))).

(** ** 8.3 names *)

Definition to_lower (c : Z) : Z := if (65 <=? c) && (c <=? 90) then c + 32 else c.
Definition to_upper (c : Z) : Z := if (97 <=? c) && (c <=? 122) then c - 32 else c.

(** [while (name[off] == ' ') off--], [off] unsigned. *)
Fixpoint trim (name : list Z) (n : nat) (off : Z) : outcome Z :=
  c <- of_option (zget name off) ;;
  if c =? 32 then
    match n with
    | O => NoFuel
    | S n' => trim name n' (u32 (off - 1))
    end
  else Ret off.

(** The loop that moves the extension up to the dot. *)
Fixpoint copy_ext (name : list Z) (off : Z) (ixs : list Z) : outcome (list Z) :=
  match ixs with
  | [] => of_option (zset name (off + 5) 0)
  | i :: ixs' =>
    c <- of_option (zget name (i + 7)) ;;
    if c =? 32 then of_option (zset name (off + i) 0)
    else
      name' <- of_option (zset name (off + i) c) ;;
      copy_ext name' off ixs'
  end.

Definition fat32_get_full_name (dir : FAT32DirEntry) (name : list Z) : outcome (list Z) :=
  n0 <- copy_into name 0 (map to_lower (dir_name dir)) ;;
  c10 <- of_option (zget n0 10) ;;
  n1 <- of_option (zset n0 11 c10) ;;
  c9 <- of_option (zget n1 9) ;;
  n2 <- of_option (zset n1 10 c9) ;;
  c8 <- of_option (zget n2 8) ;;
  n3 <- of_option (zset n2 9 c8) ;;
  off <- trim n3 8 7 ;;
  c <- of_option (zget n3 9) ;;
  if c =? 32 then of_option (zset n3 (off + 1) 0)
  else
    n4 <- of_option (zset n3 (off + 1) 46) ;;
    copy_ext n4 off [2; 3; 4].

(** [s] is the rest of the long name, [p] the next position in the short one. *)
Fixpoint short_loop (n : nat) (s : list Z) (p : Z) (shortname : list Z) : outcome (list Z) :=
  match s with
  | [] => Fault
  | c :: s' =>
    if c =? 0 then Ret shortname else
    '(c1, s1, p1) <- (if c =? 46 then match s' with [] => Fault | c' :: s'' => Ret (c', s'', 8) end
                      else Ret (c, s', p)) ;;
    shortname' <- of_option (zset shortname p1 (to_upper c1)) ;;
    if p1 + 1 =? 11 then Ret shortname'
    else match n with O => NoFuel | S n' => short_loop n' s1 (p1 + 1) shortname' end
  end.

(** Eleven spaces and a terminator, then the name. *)
Definition fat32_file_get_short_name (longname : list Z) : outcome (list Z) :=
  short_loop (length longname) longname 0 (repeat 32 11 ++ [0]).

Section dir.
Context {S : Type} `{PartitionStore S}.
Variable junk : list Z.
Variable fuel : nat.
(** Contents of an uninitialised [struct FAT32DirEntry]. *)
Variable undef : FAT32DirEntry.

Local Notation fs := (Fat32.fs S).

(** [fat32_read_cluster(priv, &dir, clus, i % clussize, sizeof(dir))] *)
Definition read_dirent (priv : FAT32Private) (clus i : Z) (s : fs) : outcome (Z * FAT32DirEntry * fs) :=
  fat32_read_cluster junk priv undef 0 clus (i mod clussize priv) 32 s.

Definition write_dirent (priv : FAT32Private) (dir : FAT32DirEntry) (clus i : Z) (s : fs) : outcome (Z * fs) :=
  fat32_write_cluster junk priv dir 0 clus (i mod clussize priv) 32 s.

(** What a scan makes of an entry. *)
Inductive dirent_kind := KSkip | KEnd | KFile.

Definition classify (d : FAT32DirEntry) : dirent_kind :=
  if dir_name0 d =? 0xe5 then KSkip
  else if dir_name0 d =? 0 then KEnd
  else if dir_attr d =? ATTR_LONG_NAME then KSkip
  else if dir_attr d =? ATTR_VOLUME_ID then KSkip
  else KFile.

(** [undef256] stands for the uninitialised name buffer. *)
Definition name_buf : list Z := repeat 0 256.

Fixpoint dir_search_loop (priv : FAT32Private) (n : nat) (cluster : Z) (name : list Z) (dir_dest : FAT32DirEntry)
    (i : Z) (s : fs) : outcome (Z * FAT32DirEntry * fs) :=
  match n with
  | O => NoFuel
  | Datatypes.S n' =>
    '(clus, s1) <- fat32_offset_cluster junk priv cluster i s ;;
    if clus =? 0 then Ret (ERROR_NOT_EXIST, dir_dest, s1) else
    '(errc, dir, s2) <- read_dirent priv clus i s1 ;;
    if errc <? 0 then Ret (errc, dir_dest, s2) else
    match classify dir with
    | KSkip => dir_search_loop priv n' cluster name dir_dest (i + 32) s2
    | KEnd => Ret (ERROR_NOT_EXIST, dir_dest, s2)
    | KFile =>
      fullname <- fat32_get_full_name dir name_buf ;;
      c <- of_option (strncmp name fullname 256) ;;
      if c =? 0 then Ret (i / 32, dir, s2)
      else dir_search_loop priv n' cluster name dir_dest (i + 32) s2
    end
  end.

Definition fat32_dir_search (priv : FAT32Private) (cluster : Z) (name : list Z) (dir_dest : FAT32DirEntry) (s : fs)
    : outcome (Z * FAT32DirEntry * fs) :=
  dir_search_loop priv fuel cluster name dir_dest 0 s.

Fixpoint path_search_loop (priv : FAT32Private) (path : VfsPath) (ixs : list Z) (cluster : Z)
    (dir_dest : FAT32DirEntry) (s : fs) : outcome (Z * FAT32DirEntry * fs) :=
  match ixs with
  | [] => Ret (0, dir_dest, s)
  | i :: ixs' =>
    '(errc, dir, s1) <- fat32_dir_search priv cluster (path_part path i) dir_dest s ;;
    if errc <? 0 then Ret (errc, dir, s1)
    else path_search_loop priv path ixs' (dir_cluster dir) dir s1
  end.

Definition fat32_path_search (priv : FAT32Private) (path : VfsPath) (dir_dest : FAT32DirEntry) (s : fs)
    : outcome (Z * FAT32DirEntry * fs) :=
  path_search_loop priv path (seqZ 0 (parts path)) (root_cluster (boot_sector priv)) dir_dest s.

Definition fat32_open (priv : FAT32Private) (path : VfsPath) (s : fs) : outcome (Z * fs) :=
  if parts path =? 0 then Ret (s32 (root_cluster (boot_sector priv)), s) else
  '(errc, dir, s1) <- fat32_path_search priv path (splice 20 [0; 0] (splice 26 [0; 0] undef)) s ;;
  if errc <? 0 then Ret (errc, s1) else Ret (s32 (dir_cluster dir), s1).

Fixpoint first_file_loop (priv : FAT32Private) (n : nat) (cluster i : Z) (s : fs) : outcome (Z * fs) :=
  match n with
  | O => NoFuel
  | Datatypes.S n' =>
    '(clus, s1) <- fat32_offset_cluster junk priv cluster i s ;;
    if clus =? 0 then Ret (-1, s1) else
    '(errc, dir, s2) <- read_dirent priv clus i s1 ;;
    if errc <? 0 then Ret (errc, s2) else
    match classify dir with
    | KSkip => first_file_loop priv n' cluster (i + 32) s2
    | KEnd => Ret (-1, s2)
    | KFile => Ret (i / 32, s2)
    end
  end.

Definition fat32_dir_first_file (priv : FAT32Private) (cluster : Z) (s : fs) : outcome (Z * fs) :=
  first_file_loop priv fuel cluster 0 s.

Fixpoint dir_read_loop (priv : FAT32Private) (n : nat) (buf : list Z) (cluster i : Z) (s : fs)
    : outcome (Z * list Z * fs) :=
  match n with
  | O => NoFuel
  | Datatypes.S n' =>
    '(clus, s1) <- fat32_offset_cluster junk priv cluster i s ;;
    if clus =? 0 then Ret (0, buf, s1) else
    '(errc, dir, s2) <- read_dirent priv clus i s1 ;;
    if errc <? 0 then Ret (errc, buf, s2) else
    match classify dir with
    | KSkip => dir_read_loop priv n' buf cluster (i + 32) s2
    | KEnd => Ret (0, buf, s2)
    | KFile => buf' <- fat32_get_full_name dir buf ;; Ret (i / 32 + 1, buf', s2)
    end
  end.

Definition fat32_dir_read (priv : FAT32Private) (buf : list Z) (cluster entry : Z) (s : fs)
    : outcome (Z * list Z * fs) :=
  dir_read_loop priv fuel buf cluster (s32 (entry * 32)) s.

Definition fat32_file_size (priv : FAT32Private) (path : VfsPath) (s : fs) : outcome (Z * fs) :=
  '(errc, dir, s1) <- fat32_path_search priv path undef s ;;
  if errc <? 0 then Ret (errc, s1) else Ret (s32 (dir_size dir), s1).

Definition fat32_file_mode (priv : FAT32Private) (path : VfsPath) (s : fs) : outcome (Z * fs) :=
  '(errc, dir, s1) <- fat32_path_search priv path undef s ;;
  if errc <? 0 then Ret (errc, s1) else
  let m := s32 (mode priv) in
  Ret (if Z.land (dir_attr dir) ATTR_DIRECTORY =? 0 then m else Z.lor m 0x4000, s1).

Fixpoint dir_insert_loop (priv : FAT32Private) (n : nat) (cluster : Z) (dirent : FAT32DirEntry) (i : Z) (s : fs)
    : outcome (Z * fs) :=
  match n with
  | O => NoFuel
  | Datatypes.S n' =>
    '(clus, s1) <- fat32_offset_cluster junk priv cluster i s ;;
    if clus =? 0 then
      '(alloc, s2) <- fat32_allocate_cluster junk priv s1 ;;
      if alloc =? 0 then Ret (ERROR_OUT_OF_SPACE, s2) else
      '(_, s3) <- write_dirent priv dirent alloc 0 s2 ;;
      '(_, s4) <- fat32_append_cluster junk fuel priv cluster alloc s3 ;;
      Ret (0, s4)
    else
      '(r, dir, s2) <- read_dirent priv clus i s1 ;;
      if r <? 0 then Ret (ERROR_READ_FAIL, s2) else
      if (dir_name0 dir =? 0xe5) || (dir_name0 dir =? 0) then
        '(r1, s3) <- write_dirent priv dirent clus i s2 ;;
        if r1 <? 0 then Ret (ERROR_WRITE_FAIL, s3) else Ret (0, s3)
      else dir_insert_loop priv n' cluster dirent (i + 32) s2
  end.

Definition fat32_dir_insert_entry (priv : FAT32Private) (cluster : Z) (dirent : FAT32DirEntry) (s : fs)
    : outcome (Z * fs) :=
  dir_insert_loop priv fuel cluster dirent 0 s.

(** The directory a path's last part lives in, and that part.  The result of
    the search is not looked at. *)
Definition target_dir (priv : FAT32Private) (path : VfsPath) (s : fs) : outcome (Z * list Z * fs) :=
  if 1 <? parts path then
    let prevpath := Path (parts path - 1) (pathbuf path) in
    '(_, dir, s1) <- fat32_path_search priv prevpath undef s ;;
    Ret (dir_cluster dir, path_part path (parts path - 1), s1)
  else Ret (root_cluster (boot_sector priv), pathbuf path, s).

(** ["." and ".."] padded to eleven characters. *)
Definition dot_name : list Z := 46 :: repeat 32 10.
Definition dotdot_name : list Z := 46 :: 46 :: repeat 32 9.

Definition fat32_mkdir (priv : FAT32Private) (path : VfsPath) (s : fs) : outcome (Z * fs) :=
  '(cluster, filename, s0) <- target_dir priv path s ;;
  '(found, _, s1) <- fat32_dir_search priv cluster filename undef s0 ;;
  if 0 <=? found then Ret (ERROR_EXIST, s1) else
  shortname <- fat32_file_get_short_name filename ;;
  '(alloc, s2) <- fat32_allocate_cluster junk priv s1 ;;
  if alloc =? 0 then Ret (ERROR_OUT_OF_SPACE, s2) else
  '(ret, s3) <- fat32_dir_insert_entry priv cluster (new_dirent (slice 0 11 shortname) alloc ATTR_DIRECTORY) s2 ;;
  if ret <? 0 then Ret (ret, s3) else
  '(ret1, s4) <- fat32_dir_insert_entry priv alloc (new_dirent dot_name alloc ATTR_DIRECTORY) s3 ;;
  if ret1 <? 0 then Ret (ret1, s4) else
  let up := if cluster =? root_cluster (boot_sector priv) then 0 else cluster in
  fat32_dir_insert_entry priv alloc (new_dirent dotdot_name up ATTR_DIRECTORY) s4.

Definition fat32_file_remove (priv : FAT32Private) (path : VfsPath) (s : fs) : outcome (Z * fs) :=
  '(cluster, filename, s0) <- target_dir priv path s ;;
  '(ent_idx, search_dir, s1) <- fat32_dir_search priv cluster filename undef s0 ;;
  if ent_idx <? 0 then Ret (ent_idx, s1) else
  if negb (Z.land (dir_attr search_dir) ATTR_DIRECTORY =? 0) then Ret (ERROR_NOT_FILE, s1) else
  '(r, s2) <- fat32_free_chain junk fuel priv (dir_cluster search_dir) s1 ;;
  if r <? 0 then Ret (ERROR_WRITE_FAIL, s2) else
  '(clus, s3) <- fat32_offset_cluster junk priv cluster (ent_idx * 32) s2 ;;
  '(r1, s4) <- write_dirent priv (splice 0 [0xe5] search_dir) clus (ent_idx * 32) s3 ;;
  if r1 <? 0 then Ret (ERROR_WRITE_FAIL, s4) else Ret (0, s4).

(** [path.pathbuf + (path.parts - 1) * 128], outside the buffer for an empty path. *)
Definition last_part (path : VfsPath) : outcome (list Z) :=
  if parts path <? 1 then Fault else Ret (path_part path (parts path - 1)).

(** The directory walk of [fat32_write_inode], all parts but the last. *)
Fixpoint write_inode_walk (priv : FAT32Private) (path : VfsPath) (ixs : list Z) (cluster : Z)
    (dir : FAT32DirEntry) (s : fs) : outcome (option Z * FAT32DirEntry * fs) :=
  match ixs with
  | [] => Ret (Some cluster, dir, s)
  | i :: ixs' =>
    '(ino, dir', s1) <- fat32_dir_search priv cluster (path_part path i) dir s ;;
    if ino <? 0 then Ret (None, dir', s1)
    else write_inode_walk priv path ixs' (dir_cluster dir') dir' s1
  end.

Definition fat32_write_inode (priv : FAT32Private) (path : VfsPath) (dir_dest : FAT32DirEntry) (s : fs)
    : outcome (Z * fs) :=
  '(oc, dir, s1) <- write_inode_walk priv path (seqZ 0 (parts path - 1)) (root_cluster (boot_sector priv)) undef s ;;
  match oc with
  | None => Ret (ERROR_NOT_EXIST, s1)
  | Some cluster =>
    name <- last_part path ;;
    '(ino, _, s2) <- fat32_dir_search priv cluster name dir s1 ;;
    if ino <? 0 then Ret (ERROR_NOT_EXIST, s2) else
    '(clus, s3) <- fat32_offset_cluster junk priv cluster (ino * 32) s2 ;;
    write_dirent priv dir_dest clus (ino * 32) s3
  end.

Definition fat32_update_size (priv : FAT32Private) (path : VfsPath) (size : Z) (s : fs) : outcome (Z * fs) :=
  '(r, dir, s1) <- fat32_path_search priv path undef s ;;
  if r <? 0 then Ret (ERROR_NOT_EXIST, s1) else
  fat32_write_inode priv path (put32 28 size dir) s1.

Definition fat32_file_create (priv : FAT32Private) (path : VfsPath) (s : fs) : outcome (Z * fs) :=
  '(cluster, filename, s0) <- target_dir priv path s ;;
  shortname <- fat32_file_get_short_name filename ;;
  '(alloc, s1) <- fat32_allocate_cluster junk priv s0 ;;
  if alloc =? 0 then Ret (ERROR_OUT_OF_SPACE, s1) else
  fat32_dir_insert_entry priv cluster (new_dirent (slice 0 11 shortname) alloc 0) s1.

End dir.

(** ** 8.3 names *)

(** Characters of a lower-case 8.3 name: no blank, no separator and no upper-case
    letter, since a name with one is never found again
    ([upper_case_never_found]). *)
Definition char83 (c : Z) : Prop := 0 < c < 256 /\ c <> 32 /\ c <> 46 /\ c <> 47 /\ ~ (65 <= c <= 90).

Record name83 (base ext : list Z) : Prop := {
  n83_base : (1 <= length base <= 8)%nat;
  n83_ext : (length ext <= 3)%nat;
  n83_bchars : Forall char83 base;
  n83_echars : Forall char83 ext
}.

(** The name as the user writes it, and its eleven bytes on disk. *)
Definition long_name (base ext : list Z) : list Z :=
  match ext with [] => base | _ => base ++ 46 :: ext end.

Definition pad (n : nat) (l : list Z) : list Z := l ++ repeat 32 (n - length l).

Definition short_name (base ext : list Z) : list Z :=
  pad 8 (map to_upper base) ++ pad 3 (map to_upper ext).

Lemma to_lower_upper c : char83 c -> to_lower (to_upper c) = c.
Proof.
  intros (Hr & _ & _ & _ & Hn). unfold to_lower, to_upper.
  destruct (Z.leb_spec 97 c), (Z.leb_spec c 122); simpl; zcase; simpl; try zcase; simpl; lia.
Qed.

Lemma lower_upper_map l : Forall char83 l -> map to_lower (map to_upper l) = l.
Proof. induction 1 as [|c l Hc _ IH]; simpl; [done|]. by rewrite to_lower_upper, IH. Qed.

Lemma char83_ne32 c : char83 c -> (c =? 32) = false.
Proof. intros (_ & Hc & _). by apply Z.eqb_neq. Qed.

(** Characters copied below position 8. *)
Lemma short_loop_base base : Forall char83 base -> forall n t p sn,
  (length base < n)%nat -> 0 <= p -> p + zlen base <= 8 -> zlen sn = 12 ->
  exists n', (n - length base <= n')%nat /\
  short_loop n (base ++ t) p sn = short_loop n' t (p + zlen base) (splice p (map to_upper base) sn).
Proof.
  induction 1 as [|c base Hc Hb IH]; intros n t p sn Hn Hp Hlen Hsn.
  - exists n. split; [simpl; lia|]. simpl. rewrite splice_nil. by rewrite Z.add_0_r.
  - destruct n as [|n]; [simpl in Hn; lia|]. unfold zlen in Hlen. cbn [length] in Hlen, Hn.
    cbn [app short_loop]. destruct Hc as (Hr & Hc1 & Hc2 & Hc3 & Hc4).
    destruct (Z.eqb_spec c 0); [lia|]. destruct (Z.eqb_spec c 46); [done|]. cbn [obind].
    rewrite zset_Some by lia. cbn [of_option obind]. destruct (Z.eqb_spec (p + 1) 11); [lia|].
    destruct (IH n t (p + 1) (<[Z.to_nat p := to_upper c]> sn)) as (n' & Hn' & ->);
      [lia|lia|unfold zlen; lia|unfold zlen in *; by rewrite length_insert|].
    exists n'. split; [simpl; lia|].
    replace (p + zlen (c :: base)) with (p + 1 + zlen base) by (unfold zlen; simpl; lia). f_equal.
    cbn [map]. assert (E : <[Z.to_nat p:=to_upper c]> sn = splice p [to_upper c] sn).
    { unfold splice. simpl. rewrite insert_take_drop by (unfold zlen in Hsn; lia).
      by replace (Z.to_nat p + 1)%nat with (S (Z.to_nat p)) by lia. }
    rewrite E. change (p + 1) with (p + zlen [to_upper c]).
    rewrite splice_splice_adj; [done|lia|]. unfold zlen in *. rewrite length_map. simpl. lia.
Qed.

Lemma pad_length n l : (length l <= n)%nat -> length (pad n l) = n.
Proof. intros. unfold pad. rewrite length_app, repeat_length. lia. Qed.

Lemma splice_spaces B : (length B <= 8)%nat -> splice 0 B (repeat 32 11 ++ [0]) = pad 8 B ++ [32; 32; 32; 0].
Proof.
  intros Hl. rewrite splice_0_app. unfold pad. rewrite <- app_assoc. f_equal.
  replace (repeat 32 11) with (repeat 32 (length B) ++ repeat 32 (8 - length B) ++ repeat 32 3).
  - rewrite <- !app_assoc, drop_app_length' by (by rewrite repeat_length). done.
  - rewrite <- !repeat_app. f_equal. lia.
Qed.

Lemma zset_tail (X t : list Z) i c : length X = 8%nat -> 0 <= i < zlen t ->
  zset (X ++ t) (8 + i) c = Some (X ++ <[Z.to_nat i := c]> t).
Proof.
  intros HX Hi. unfold zlen in Hi. rewrite zset_Some by (rewrite zlen_app; unfold zlen; lia).
  rewrite insert_app_r_alt by lia. do 3 f_equal. lia.
Qed.

Lemma char83_ne c : char83 c -> (c =? 0) = false /\ (c =? 46) = false.
Proof. intros (Hr & _ & Hc & _). split; apply Z.eqb_neq; lia. Qed.

(** Extension characters from position [8 + i] on. *)
Lemma short_loop_ext X ext : length X = 8%nat -> Forall char83 ext -> forall n i t rest,
  (length ext <= n)%nat -> 0 <= i -> i + zlen ext <= 3 -> (i + zlen ext = 3 -> ext <> []) -> zlen t = 4 ->
  short_loop n (ext ++ 0 :: rest) (8 + i) (X ++ t) = Ret (X ++ splice i (map to_upper ext) t).
Proof.
  intros HX. induction 1 as [|c ext Hc He IH]; intros n i t rest Hn Hi Hlen H3 Ht.
  - destruct n; simpl; by rewrite splice_nil.
  - destruct (char83_ne c Hc) as [E0 E46]. assert (Hl : zlen (c :: ext) = 1 + zlen ext) by (unfold zlen; simpl; lia).
    assert (E : <[Z.to_nat i := to_upper c]> t = splice i [to_upper c] t).
    { unfold splice. simpl. rewrite insert_take_drop by (unfold zlen in *; simpl in *; lia).
      by replace (Z.to_nat i + 1)%nat with (S (Z.to_nat i)) by lia. }
    destruct n as [|n]; [simpl in Hn; lia|]. cbn [app short_loop]. rewrite E0, E46. cbn [obind].
    assert (0 <= zlen ext) by (unfold zlen; lia).
    rewrite (zset_tail X t i) by lia. cbn [of_option obind]. rewrite E.
    destruct (Z.eqb_spec (8 + i + 1) 11) as [E11|E11].
    + destruct ext; [done|]. unfold zlen in *. simpl in *. lia.
    + replace (8 + i + 1) with (8 + (i + 1)) by lia. simpl in Hn. rewrite (IH n (i + 1)); [|lia|lia|lia| |].
      * cbn [map]. change (i + 1) with (i + zlen [to_upper c]). rewrite splice_splice_adj; [done|lia|].
        unfold zlen in *. rewrite length_map. simpl. lia.
      * intros E3 ->. change (zlen (@nil Z)) with 0 in E3. lia.
      * rewrite splice_length; [done|lia|]. change (zlen [to_upper c]) with 1. lia.
Qed.

(** The eleven bytes on disk of a name that fits 8.3. *)
Lemma get_short_name_ok base ext rest : name83 base ext ->
  fat32_file_get_short_name (long_name base ext ++ 0 :: rest) = Ret (short_name base ext ++ [0]).
Proof.
  intros [Hb He Hcb Hce]. unfold fat32_file_get_short_name, short_name.
  set (t := match ext with [] => 0 :: rest | _ => 46 :: ext ++ 0 :: rest end).
  assert (Et : long_name base ext ++ 0 :: rest = base ++ t).
  { unfold long_name, t. destruct ext; [done|]. by rewrite <- app_assoc. }
  assert (Hlt : (length ext + 1 <= length t)%nat) by (unfold t; destruct ext; simpl; rewrite ?length_app; simpl; lia).
  rewrite Et. destruct (short_loop_base base Hcb (length (base ++ t)) t 0 (repeat 32 11 ++ [0])) as (n' & Hn' & ->);
    [rewrite length_app; lia|lia|unfold zlen; lia|done|].
  rewrite length_app in Hn'. rewrite splice_spaces by (rewrite length_map; lia).
  set (X := pad 8 (map to_upper base)). assert (HX : length X = 8%nat) by (apply pad_length; rewrite length_map; lia).
  unfold t in *. destruct ext as [|e ext].
  - destruct n'; by rewrite <- app_assoc.
  - apply Forall_cons in Hce as [Hce1 Hce]. destruct (char83_ne e Hce1) as [E0 E46].
    destruct n' as [|n']; [simpl in *; lia|]. cbn [short_loop app]. change (46 =? 0) with false. change (46 =? 46) with true.
    cbn [obind]. rewrite (zset_tail X _ 0) by done. cbn [of_option obind]. change (8 + 1 =? 11) with false. cbn iota.
    simpl in He, Hn'. rewrite length_app in Hn'. simpl in Hn'.
    change (8 + 1) with (8 + 1)%Z. rewrite (short_loop_ext X ext HX Hce n' 1); [|lia|lia|unfold zlen; lia| |done].
    + rewrite <- app_assoc. do 2 f_equal. destruct ext as [|e2 [|e3 [|]]]; [done..|simpl in He; lia].
    + intros E ->. done.
Qed.

Ltac name_chars :=
  repeat match goal with
  | H : Forall char83 (_ :: _) |- _ => apply Forall_cons in H as [?%char83_ne32 H]
  end.

(** One step of evaluating array accesses on a buffer with a known prefix. *)
Ltac name_step :=
  match goal with
  | |- context [zget ?l ?i] => let r := eval lazy in (zget l i) in change (zget l i) with r
  | |- context [zset ?l ?i ?x] =>
    rewrite (zset_Some l i x) by (unfold zlen; cbn [length]; lia);
    let r := eval lazy in (<[Z.to_nat i := x]> l) in change (<[Z.to_nat i := x]> l) with r
  | H : (?b =? 32) = false |- context [?b =? 32] => rewrite H
  | |- context [32 =? 32] => change (32 =? 32) with true
  end; cbn [of_option obind copy_ext].

Lemma zget_mid (x : list Z) c t i : i = zlen x -> zget (x ++ c :: t) i = Some c.
Proof.
  intros ->. apply zget_lookup. split; [unfold zlen; lia|]. apply list_lookup_middle. unfold zlen. lia.
Qed.

(** Trailing spaces are trimmed down to the last character of the name. *)
Lemma trim_ok base c t m : (c =? 32) = false -> (length base + m < 100)%nat -> forall k n,
  (k <= n)%nat -> (k <= m)%nat ->
  trim (base ++ c :: repeat 32 m ++ t) n (zlen base + Z.of_nat k) = Ret (zlen base).
Proof.
  intros Hc Hm. induction k as [|k IH]; intros n Hn Hk.
  - rewrite Z.add_0_r. destruct n; cbn [trim]; rewrite (zget_mid base) by done; cbn [of_option obind]; by rewrite Hc.
  - destruct n as [|n]; [lia|]. cbn [trim].
    assert (E : base ++ c :: repeat 32 m ++ t = (base ++ c :: repeat 32 k) ++ 32 :: repeat 32 (m - S k) ++ t).
    { rewrite <- app_assoc. simpl. do 2 f_equal. replace m with (k + S (m - S k))%nat at 1 by lia.
      rewrite repeat_app, <- app_assoc. done. }
    assert (Hz : zget (base ++ c :: repeat 32 m ++ t) (zlen base + Z.of_nat (S k)) = Some 32).
    { rewrite E. apply zget_mid. rewrite zlen_app. unfold zlen. simpl. rewrite repeat_length. lia. }
    rewrite Hz. cbn [of_option obind]. change (32 =? 32) with true. cbn iota.
    rewrite u32_small by (unfold is_u32, zlen; lia).
    replace (zlen base + Z.of_nat (S k) - 1) with (zlen base + Z.of_nat k) by lia. apply IH; lia.
Qed.

(** The buffer once the extension has been moved up by one. *)
Lemma shift_ext (X : list Z) x1 x2 x3 a t : length X = 8%nat ->
  zget (X ++ x1 :: x2 :: x3 :: a :: t) 10 = Some x3 /\
  zset (X ++ x1 :: x2 :: x3 :: a :: t) 11 x3 = Some (X ++ x1 :: x2 :: x3 :: x3 :: t) /\
  zget (X ++ x1 :: x2 :: x3 :: x3 :: t) 9 = Some x2 /\
  zset (X ++ x1 :: x2 :: x3 :: x3 :: t) 10 x2 = Some (X ++ x1 :: x2 :: x2 :: x3 :: t) /\
  zget (X ++ x1 :: x2 :: x2 :: x3 :: t) 8 = Some x1 /\
  zset (X ++ x1 :: x2 :: x2 :: x3 :: t) 9 x1 = Some (X ++ x1 :: x1 :: x2 :: x3 :: t).
Proof.
  intros HX. do 8 (destruct X as [|? X]; [done|]). destruct X; [|done]. simpl app.
  split_and!; done || (rewrite zset_Some; [done|unfold zlen; simpl; lia]).
Qed.

(** The printed form of an entry whose lower-cased name is [base] and [ext]. *)
Lemma get_full_name_ok base ext dir buf :
  (1 <= length base <= 8)%nat -> (length ext <= 3)%nat -> Forall char83 base -> Forall char83 ext ->
  map to_lower (dir_name dir) = pad 8 base ++ pad 3 ext -> 13 <= zlen buf ->
  exists out, fat32_get_full_name dir buf = Ret out /\ exists r, out = long_name base ext ++ 0 :: r.
Proof.
  intros Hb He Hcb Hce Hd Hbuf. unfold fat32_get_full_name. rewrite Hd.
  assert (HL : zlen (pad 8 base ++ pad 3 ext) = 11).
  { rewrite zlen_app. unfold zlen. rewrite !pad_length by lia. done. }
  rewrite copy_into_ok by lia. cbn [obind]. rewrite splice_0_app.
  assert (Hdr : exists a c t, drop (length (pad 8 base ++ pad 3 ext)) buf = a :: c :: t).
  { unfold zlen in *. destruct (drop _ buf) as [|a [|c t]] eqn:Ed; eauto;
      apply (f_equal length) in Ed; rewrite length_drop in Ed; simpl in Ed; lia. }
  destruct Hdr as (a & c & t & ->).
  assert (HX : length (pad 8 base) = 8%nat) by (apply pad_length; lia).
  assert (HE : exists x1 x2 x3, pad 3 ext = [x1; x2; x3]).
  { pose proof (pad_length 3 ext He). destruct (pad 3 ext) as [|x1 [|x2 [|x3 [|]]]]; simpl in *; try lia; eauto. }
  destruct HE as (x1 & x2 & x3 & HE). rewrite HE, <- app_assoc. cbn [app].
  destruct (shift_ext (pad 8 base) x1 x2 x3 a (c :: t) HX) as (H1 & H2 & H3 & H4 & H5 & H6).
  rewrite H1. cbn [of_option obind]. rewrite H2. cbn [of_option obind]. rewrite H3. cbn [of_option obind].
  rewrite H4. cbn [of_option obind]. rewrite H5. cbn [of_option obind]. rewrite H6. cbn [of_option obind].
  assert (Ht : trim (pad 8 base ++ x1 :: x1 :: x2 :: x3 :: c :: t) 8 7 = Ret (zlen base - 1)).
  { destruct (exists_last (l := base)) as (bs & y & ->); [by destruct base; [simpl in Hb; lia|]|].
    apply Forall_app in Hcb as [_ Hy]. apply Forall_cons in Hy as [Hy%char83_ne32 _]. rewrite length_app in Hb. simpl in Hb.
    unfold pad. rewrite length_app, <- !app_assoc. cbn [app length].
    rewrite zlen_app. change (zlen [y]) with 1. replace (zlen bs + 1 - 1) with (zlen bs) by lia.
    replace 7 with (zlen bs + Z.of_nat (8 - (length bs + 1))) by (unfold zlen; lia).
    apply trim_ok; [done|lia|lia|lia]. }
  rewrite Ht. cbn [of_option obind]. clear Ht HX HL Hd H1 H2 H3 H4 H5 H6.
  destruct base as [|b1 [|b2 [|b3 [|b4 [|b5 [|b6 [|b7 [|b8 [|]]]]]]]]]; simpl in Hb; try lia;
  destruct ext as [|e1 [|e2 [|e3 [|]]]]; simpl in He; try lia; name_chars;
  injection HE as <- <- <-; cbn [pad app length repeat Nat.sub]; unfold zlen; cbn [length Z.of_nat];
  repeat name_step; eexists; (split; [reflexivity|]); eexists; reflexivity.
Qed.

Lemma lower_pad n l : Forall char83 l -> map to_lower (pad n (map to_upper l)) = pad n l.
Proof.
  intros Hl. unfold pad. rewrite map_app, lower_upper_map, length_map by done. f_equal.
  induction (n - length l)%nat as [|k IH]; simpl; [done|]. by rewrite IH.
Qed.

Lemma lower_short base ext : name83 base ext -> map to_lower (short_name base ext) = pad 8 base ++ pad 3 ext.
Proof. intros [_ _ Hb He]. unfold short_name. by rewrite map_app, !lower_pad. Qed.

Lemma short_name_length base ext : name83 base ext -> zlen (short_name base ext) = 11.
Proof.
  intros [Hb He _ _]. unfold short_name. rewrite zlen_app. unfold zlen. rewrite !pad_length; rewrite ?length_map; lia.
Qed.

Lemma long_name_nz base ext : name83 base ext -> Forall (fun c => c <> 0) (long_name base ext).
Proof.
  intros [_ _ Hb He].
  assert (Hnz : forall l, Forall char83 l -> Forall (fun c => c <> 0) l)
    by (intros l Hl; eapply Forall_impl; [done|]; intros c [Hc _]; lia).
  unfold long_name. destruct ext; [by apply Hnz|]. apply Forall_app. split; [by apply Hnz|].
  constructor; [done|]. by apply Hnz.
Qed.

Lemma full_name_holds base ext dir buf : name83 base ext -> dir_name dir = short_name base ext -> 13 <= zlen buf ->
  exists out, fat32_get_full_name dir buf = Ret out /\ holds_str (long_name base ext) out.
Proof.
  intros Hn Hd Hb. destruct (get_full_name_ok base ext dir buf) as (out & Hrun & r & ->);
    [apply Hn..|by rewrite Hd, lower_short|done|].
  exists (long_name base ext ++ 0 :: r). split; [done|]. split; [by apply long_name_nz|eauto].
Qed.

(** 8.3 names survive the disk.  For every lower-case name with a base of 1
    to 8 and an extension of 0 to 3 characters, the eleven bytes
    [fat32_file_get_short_name] produces are printed by [fat32_get_full_name],
    from any entry that carries them, as the very same name. *)
Theorem short_name_roundtrip base ext rest dir buf :
  name83 base ext -> 13 <= zlen buf ->
  exists sn, fat32_file_get_short_name (long_name base ext ++ 0 :: rest) = Ret sn /\ zlen sn = 12 /\
    (dir_name dir = slice 0 11 sn ->
     exists out, fat32_get_full_name dir buf = Ret out /\ cstr out = long_name base ext).
Proof.
  intros Hn Hb. exists (short_name base ext ++ [0]). pose proof (short_name_length _ _ Hn) as Hl.
  split; [by apply get_short_name_ok|]. split; [rewrite zlen_app, Hl; done|]. intros Hd.
  rewrite slice_app_full in Hd by done. destruct (full_name_holds base ext dir buf Hn Hd Hb) as (out & Hrun & Hh).
  exists out. split; [done|]. by apply holds_str_cstr.
Qed.

(** ["readme.txt"] *)
Lemma short_name_roundtrip_witness :
  exists sn, fat32_file_get_short_name (long_name [114; 101; 97; 100; 109; 101] [116; 120; 116] ++ [0]) = Ret sn /\
    zlen sn = 12 /\
    (dir_name [82; 69; 65; 68; 77; 69; 32; 32; 84; 88; 84; 0] = slice 0 11 sn ->
     exists out, fat32_get_full_name [82; 69; 65; 68; 77; 69; 32; 32; 84; 88; 84; 0] (repeat 0 13) = Ret out /\
       cstr out = long_name [114; 101; 97; 100; 109; 101] [116; 120; 116]).
Proof.
  apply (short_name_roundtrip [114; 101; 97; 100; 109; 101] [116; 120; 116] []); [|by vm_compute].
  constructor; [simpl; lia|simpl; lia|..]; repeat constructor; try done; lia.
Defined.

(** A cluster number split into its two halves and put together again. *)
Lemma cluster_halves c : 0 <= c < 2^32 ->
  Z.lor (Z.shiftl (Z.land (Z.shiftr c 16) 0xffff) 16) (Z.land c 0xffff) = c.
Proof.
  intros Hc. change 0xffff with (Z.ones 16). apply Z.bits_inj'. intros n Hn.
  rewrite Z.lor_spec, Z.shiftl_spec, !Z.land_spec by lia.
  destruct (Z.ltb_spec n 16).
  - rewrite (Z.testbit_neg_r _ (n - 16)) by lia. rewrite (Z.testbit_ones_nonneg 16 n) by lia.
    destruct (Z.ltb_spec n 16); [|lia]. simpl. apply andb_true_r.
  - rewrite Z.shiftr_spec by lia. rewrite !Z.testbit_ones_nonneg by lia. replace (n - 16 + 16) with n by lia.
    destruct (Z.ltb_spec n 16); [lia|]. rewrite andb_false_r, orb_false_r.
    destruct (Z.ltb_spec (n - 16) 16); [apply andb_true_r|].
    rewrite andb_false_r. rewrite <- (Z.mod_small c (2^32)) by lia. by rewrite Z.mod_pow2_bits_high by lia.
Qed.

(** The entry a new file gets. *)
Lemma new_dirent_fields name c attr : zlen name = 11 -> 0 <= c < 2^32 -> 0 <= attr < 256 ->
  dir_name (new_dirent name c attr) = name /\ dir_attr (new_dirent name c attr) = attr /\
  dir_cluster (new_dirent name c attr) = c /\ zlen (new_dirent name c attr) = 32.
Proof.
  intros Hn Hc Ha. unfold zlen in Hn. do 11 (destruct name as [|? name]; [simpl in Hn; lia|]).
  destruct name; [|simpl in Hn; lia].
  assert (Hlo : 0 <= Z.land c 0xffff < 256 ^ Z.of_nat 2)
    by (change 0xffff with (Z.ones 16); rewrite Z.land_ones by lia; apply Z.mod_pos_bound; lia).
  assert (Hhi : 0 <= Z.land (Z.shiftr c 16) 0xffff < 256 ^ Z.of_nat 2)
    by (change 0xffff with (Z.ones 16); rewrite Z.land_ones by lia; apply Z.mod_pos_bound; lia).
  split_and!; [done| |  |done].
  - change (attr + 256 * 0 = attr). lia.
  - unfold dir_cluster, new_dirent.
    match goal with |- u32 (Z.lor (Z.shiftl (get16 20 ?d) 16) (get16 26 ?d)) = _ =>
      change (get16 20 d) with (le_val (le_bytes 2 (Z.land (Z.shiftr c 16) 0xffff)));
      change (get16 26 d) with (le_val (le_bytes 2 (Z.land c 0xffff))) end.
    rewrite !le_val_bytes by done. rewrite cluster_halves by done. by apply u32_small.
Qed.

(** ** Directories as lists of entries *)

(** The first entry that [name] names, with its index; an entry that starts
    with 0 ends the directory. *)
Fixpoint find_entry (ents : list FAT32DirEntry) (k : Z) (name : list Z) : option (Z * FAT32DirEntry) :=
  match ents with
  | [] => None
  | e :: ents' =>
    match classify e with
    | KEnd => None
    | KSkip => find_entry ents' (k + 1) name
    | KFile =>
      match fat32_get_full_name e name_buf with
      | Ret fullname => if bool_decide (take 256 (cstr fullname) = take 256 name) then Some (k, e)
                        else find_entry ents' (k + 1) name
      | _ => None
      end
    end
  end.

(** Every file entry a search for [name] looks at has a printable name. *)
Fixpoint dir_ok (ents : list FAT32DirEntry) (name : list Z) : Prop :=
  match ents with
  | [] => True
  | e :: ents' =>
    match classify e with
    | KEnd => True
    | KSkip => dir_ok ents' name
    | KFile => exists fullname w, fat32_get_full_name e name_buf = Ret fullname /\ holds_str w fullname /\
        (take 256 name <> take 256 w -> dir_ok ents' name)
    end
  end.

(** An entry a search for [name] passes over. *)
Definition other_entry (name : list Z) (e : FAT32DirEntry) : Prop :=
  classify e = KSkip \/
  classify e = KFile /\ exists fullname w, fat32_get_full_name e name_buf = Ret fullname /\ holds_str w fullname /\
    take 256 name <> take 256 w.

(** An entry [fat32_dir_insert_entry] would overwrite. *)
Definition reusable_entry (e : FAT32DirEntry) : Prop := dir_name0 e = 0xe5 \/ dir_name0 e = 0.

(** An entry a search for [name] returns. *)
Definition named (name : list Z) (e : FAT32DirEntry) : Prop :=
  classify e = KFile /\ exists fullname, fat32_get_full_name e name_buf = Ret fullname /\ holds_str name fullname.

Lemma find_entry_app name pre e rest : Forall (other_entry name) pre -> named name e -> forall k,
  find_entry (pre ++ e :: rest) k name = Some (k + zlen pre, e) /\ dir_ok (pre ++ e :: rest) name.
Proof.
  intros Hpre (He & fn & Hfn & Hh). induction Hpre as [|e' pre He' Hpre IH]; intros k; cbn [app find_entry dir_ok].
  - rewrite He, Hfn, (holds_str_cstr _ _ Hh), bool_decide_eq_true_2 by done. split; [by rewrite Z.add_0_r|].
    exists fn, name. done.
  - destruct (IH (k + 1)) as [IH1 IH2].
    replace (k + zlen (e' :: pre)) with (k + 1 + zlen pre) by (unfold zlen; simpl; lia).
    destruct He' as [->|(-> & fn' & w & Hfn' & Hw & Hne)]; [done|]. rewrite Hfn', (holds_str_cstr _ _ Hw).
    rewrite bool_decide_eq_false_2 by (intros E; by apply Hne). split; [done|]. by exists fn', w.
Qed.

(** ** Upper-case names *)

Definition not_upper (c : Z) : Prop := ~ (65 <= c <= 90).

Lemma to_lower_not_upper c : not_upper (to_lower c).
Proof. unfold not_upper, to_lower. destruct (Z.leb_spec 65 c), (Z.leb_spec c 90); cbn [andb]; lia. Qed.

Lemma zset_Forall {A} (P : A -> Prop) (l : list A) i v l' : Forall P l -> P v -> of_option (zset l i v) = Ret l' -> Forall P l'.
Proof. unfold zset. intros Hl Hv. destruct ((i <? 0) || _); [done|]. intros [= <-]. by apply Forall_insert. Qed.

Lemma copy_ext_not_upper off ixs : forall name out, Forall not_upper name -> copy_ext name off ixs = Ret out -> Forall not_upper out.
Proof.
  induction ixs as [|i ixs IH]; intros name out Hn; cbn [copy_ext]; [apply zset_Forall; [done|unfold not_upper; lia]|].
  destruct (zget name (i + 7)) as [c|] eqn:Ec; cbn [of_option obind]; [|done]. pose proof (Forall_zget _ _ _ _ Hn Ec) as Hc.
  destruct (c =? 32); [apply zset_Forall; [done|unfold not_upper; lia]|].
  destruct (of_option (zset name (off + i) c)) as [n1| | |] eqn:E1; cbn [obind]; try done. apply IH. eapply zset_Forall; [exact Hn|exact Hc|exact E1].
Qed.

(** No entry prints a name with an upper-case letter. *)
Lemma full_name_not_upper e out : fat32_get_full_name e name_buf = Ret out -> Forall not_upper out.
Proof.
  assert (H0 : forall bytes n0, copy_into name_buf 0 (map to_lower bytes) = Ret n0 -> Forall not_upper n0).
  { intros bytes n0. unfold copy_into. destruct (_ && _); [|done]. intros [= <-]. rewrite splice_0_app. apply Forall_app. split.
    - apply Forall_map, Forall_forall. intros c _. apply to_lower_not_upper.
    - apply Forall_drop. unfold name_buf. apply Forall_forall. intros c ->%list_elem_of_In%repeat_spec. unfold not_upper. lia. }
  unfold fat32_get_full_name. destruct (copy_into _ 0 _) as [n0| | |] eqn:E0; cbn [obind]; try done. apply H0 in E0.
  destruct (zget n0 10) as [c10|] eqn:G10; cbn [of_option obind]; [|done].
  destruct (of_option (zset n0 11 c10)) as [n1| | |] eqn:E1; cbn [obind]; try done. apply zset_Forall with (P := not_upper) in E1; [|done|by eapply (Forall_zget not_upper)].
  destruct (zget n1 9) as [c9|] eqn:G9; cbn [of_option obind]; [|done].
  destruct (of_option (zset n1 10 c9)) as [n2| | |] eqn:E2; cbn [obind]; try done. apply zset_Forall with (P := not_upper) in E2; [|done|by eapply (Forall_zget not_upper)].
  destruct (zget n2 8) as [c8|] eqn:G8; cbn [of_option obind]; [|done].
  destruct (of_option (zset n2 9 c8)) as [n3| | |] eqn:E3; cbn [obind]; try done. apply zset_Forall with (P := not_upper) in E3; [|done|by eapply (Forall_zget not_upper)].
  destruct (trim n3 8 7) as [off| | |]; cbn [obind]; try done. destruct (zget n3 9) as [c|]; cbn [of_option obind]; [|done].
  destruct (c =? 32); [apply zset_Forall; [done|unfold not_upper; lia]|].
  destruct (of_option (zset n3 (off + 1) 46)) as [n4| | |] eqn:E4; cbn [obind]; try done. apply copy_ext_not_upper. eapply zset_Forall; [done| |done]. unfold not_upper. lia.
Qed.

Lemma cstr_Forall (P : Z -> Prop) l : Forall P l -> Forall P (cstr l).
Proof. induction 1 as [|c l Hc _ IH]; cbn [cstr]; [done|]. destruct (c =? 0); [done|]. by constructor. Qed.

Lemma find_entry_upper name c : c ∈ take 256 name -> ~ not_upper c -> forall ents k, find_entry ents k name = None.
Proof.
  intros Hc Hu. induction ents as [|e ents IH]; intros k; cbn [find_entry]; [done|]. destruct (classify e); [apply IH|done|].
  destruct (fat32_get_full_name e name_buf) as [fn| | |] eqn:E; try done. apply full_name_not_upper, cstr_Forall in E.
  destruct (bool_decide_reflect (take 256 (cstr fn) = take 256 name)) as [En|_]; [|apply IH].
  exfalso. rewrite <- En in Hc. apply (Forall_take _ 256) in E. rewrite Forall_forall in E. by apply Hu, E.
Qed.

Section dir_refine.
Context {S : Type} `{PartitionLaws S}.
Variable junk : list Z.
Hypothesis junk_page : 512 <= zlen junk.
Variable fuel : nat.
Variable undef : FAT32DirEntry.
Hypothesis undef_size : zlen undef = 32.
Variable priv : FAT32Private.
Variables nclus size : Z.
Hypothesis geo : geometry priv nclus size.
Local Notation holds := (Fat32.holds priv size).

(** The entries of the directory whose clusters are [l]. *)
Definition entry_count (l : list Z) : Z := zlen l * (clussize priv / 32).
Definition entry_at (v : image) (l : list Z) (k : Z) : FAT32DirEntry := slice (k * 32) 32 (file_data priv v l).
Definition entries (v : image) (l : list Z) : list FAT32DirEntry := map (entry_at v l) (seqZ 0 (entry_count l)).

Lemma clussize_32 : clussize priv = clussize priv / 32 * 32 /\ 0 < clussize priv / 32.
Proof.
  destruct geo. unfold clussize.
  replace (sector_per_cluster (boot_sector priv) * 512) with (sector_per_cluster (boot_sector priv) * 16 * 32) by lia.
  rewrite Z.div_mul by lia. lia.
Qed.

Lemma entry_count_bytes l : entry_count l * 32 = zlen l * clussize priv.
Proof. unfold entry_count. destruct clussize_32 as [E _]. rewrite E at 2. lia. Qed.

(** Entries do not straddle clusters. *)
Lemma entry_fits k : 0 <= k -> (k * 32) mod clussize priv + 32 <= clussize priv.
Proof.
  intros Hk. destruct clussize_32 as [E Hp]. rewrite E at 1. rewrite Z.mul_mod_distr_r by lia.
  assert (0 <= k mod (clussize priv / 32) < clussize priv / 32) by (apply Z.mod_pos_bound; lia). lia.
Qed.

Lemma splice_whole (s l : list Z) : zlen s = zlen l -> splice 0 s l = s.
Proof. intros Hl. rewrite splice_0_app, drop_ge by (unfold zlen in Hl; lia). apply app_nil_r. Qed.

(** Reading entry [k]: its cluster is found and the 32 bytes are the entry. *)
Lemma dirent_read_ok v c l k s g : holds s v g -> chain priv nclus v c l -> 0 <= k < entry_count l ->
  exists y s1 s2, fat32_offset_cluster junk priv c (k * 32) s = Ret (y, s1) /\ y <> 0 /\
    zget l (k * 32 / clussize priv) = Some y /\ holds s1 v g /\
    read_dirent junk undef priv y (k * 32) s1 = Ret (0, entry_at v l k, s2) /\ holds s2 v g.
Proof.
  intros Hh Hc Hk. pose proof (entry_count_bytes l) as Hcnt. pose proof (entry_fits k) as Hfit.
  pose proof (clussize_range _ _ _ geo) as Hcs.
  destruct (chain_lookup _ _ _ geo v c l (k * 32)) as (y & Hy & Hy' & Hyr); [done|lia|lia|].
  destruct (offset_cluster_ok _ junk_page _ _ _ geo v c l (k * 32) s g) as (s1 & E1 & Hh1); [done|done|lia|].
  rewrite Hy' in E1. change (default 0 (Some y)) with y in E1.
  assert (Hm : 0 <= (k * 32) mod clussize priv < clussize priv) by (apply Z.mod_pos_bound; lia).
  edestruct (read_cluster_ok _ junk_page _ _ _ geo v y ((k * 32) mod clussize priv) 32 0 undef s1 g)
    as (s2 & E2 & Hh2); [done|by eapply cluster_addressable|lia..|].
  pose proof (holds_image _ _ _ _ _ Hh) as Hv.
  exists y, s1, s2. split_and!; [done|lia|done|done| |done].
  unfold read_dirent. rewrite E2. do 3 f_equal. unfold entry_at.
  rewrite (file_slice junk junk_page _ _ _ geo v l (k * 32) 32 y) by (done || lia).
  apply splice_whole. rewrite slice_length; rewrite ?(cluster_data_length junk _ _ _ geo); lia || done.
Qed.

Lemma dirent_end_ok v c l s g : holds s v g -> chain priv nclus v c l ->
  exists s1, fat32_offset_cluster junk priv c (entry_count l * 32) s = Ret (0, s1) /\ holds s1 v g.
Proof.
  intros Hh Hc. pose proof (entry_count_bytes l) as Hcnt. pose proof (clussize_range _ _ _ geo) as Hcs.
  destruct (offset_cluster_ok _ junk_page _ _ _ geo v c l (entry_count l * 32) s g) as (s1 & E1 & Hh1);
    [done|done|unfold zlen in *; nia|].
  exists s1. split; [|done]. rewrite E1. rewrite Hcnt, Z.div_mul by lia.
  by rewrite lookup_ge_None_2 by (unfold zlen; lia).
Qed.

Lemma entries_drop v l k : 0 <= k < entry_count l ->
  drop (Z.to_nat k) (entries v l) = entry_at v l k :: drop (Z.to_nat (k + 1)) (entries v l).
Proof.
  intros Hk. assert (Hl : entries v l !! Z.to_nat k = Some (entry_at v l k)).
  { unfold entries. apply list_lookup_fmap_Some. exists k. split; [done|].
    rewrite lookup_seqZ_lt by lia. f_equal. lia. }
  rewrite (drop_S _ _ _ Hl). by replace (Z.to_nat (k + 1)) with (Datatypes.S (Z.to_nat k)) by lia.
Qed.

Lemma entries_length v l : length (entries v l) = Z.to_nat (entry_count l).
Proof. unfold entries. by rewrite length_map, length_seqZ. Qed.

(** The scan of [fat32_dir_search] against the list of entries. *)
Definition search_result (v : image) (l : list Z) (k : Z) (name : list Z) (dest : FAT32DirEntry) : Z * FAT32DirEntry :=
  match find_entry (drop (Z.to_nat k) (entries v l)) k name with
  | Some (i, e) => (i, e)
  | None => (ERROR_NOT_EXIST, dest)
  end.

Lemma dir_search_loop_ok v c l name nbuf dest n : forall k s g,
  holds s v g -> chain priv nclus v c l -> holds_str name nbuf -> 0 <= k <= entry_count l ->
  entry_count l - k < Z.of_nat n -> dir_ok (drop (Z.to_nat k) (entries v l)) name ->
  exists s', dir_search_loop junk undef priv n c nbuf dest (k * 32) s
    = Ret (search_result v l k name dest, s') /\ holds s' v g.
Proof.
  induction n as [|n IH]; intros k s g Hh Hc Hn Hk Hf Hok; [lia|]. cbn [dir_search_loop].
  unfold search_result. destruct (decide (k = entry_count l)) as [->|Hlt].
  - destruct (dirent_end_ok v c l s g Hh Hc) as (s1 & -> & Hh1). cbn [obind]. change (0 =? 0) with true. cbn iota.
    rewrite drop_ge by (rewrite entries_length; lia). eauto.
  - destruct (dirent_read_ok v c l k s g) as (y & s1 & s2 & -> & Hy0 & _ & Hh1 & E2 & Hh2); [done|done|lia|].
    cbn [obind]. destruct (Z.eqb_spec y 0); [done|]. rewrite E2. cbn [obind]. change (0 <? 0) with false. cbn iota.
    rewrite entries_drop in Hok |- * by lia. cbn [find_entry dir_ok] in *.
    replace (k * 32 + 32) with ((k + 1) * 32) by lia.
    destruct (classify (entry_at v l k)) eqn:Ec.
    + apply IH; try done; lia.
    + eauto.
    + destruct Hok as (fullname & w & Hfn & Hw & Hok). rewrite Hfn. cbn [obind].
      destruct (strncmp_zero_iff 256 name w nbuf fullname Hn Hw) as (r & -> & Hiff). cbn [of_option obind].
      rewrite (holds_str_cstr _ _ Hw). destruct (Z.eqb_spec r 0) as [->|Hr].
      * rewrite bool_decide_eq_true_2 by (symmetry; by apply Hiff). rewrite Z.div_mul by lia. eauto.
      * rewrite bool_decide_eq_false_2 by (intros E; apply Hr, Hiff; done).
        apply IH; try done; try lia. apply Hok. intros E. by apply Hr, Hiff.
Qed.

(** searching a directory.  [fat32_dir_search] terminates and returns the
    index and the bytes of the first entry whose 8.3 name is the one asked for,
    skipping deleted, long-name and volume entries and stopping at the end
    mark; otherwise it returns ERROR_NOT_EXIST and leaves the destination alone.
    The image is unchanged and no page is leaked. *)
Theorem fat32_dir_search_correct v c l name nbuf dest s g :
  holds s v g -> chain priv nclus v c l -> holds_str name nbuf ->
  entry_count l < Z.of_nat fuel -> dir_ok (entries v l) name ->
  exists s', fat32_dir_search junk fuel undef priv c nbuf dest s
    = Ret (match find_entry (entries v l) 0 name with Some (i, e) => (i, e) | None => (ERROR_NOT_EXIST, dest) end, s')
    /\ holds s' v g.
Proof.
  intros Hh Hc Hn Hf Hok. assert (0 <= entry_count l) by (pose proof clussize_32; unfold entry_count, zlen; nia).
  apply (dir_search_loop_ok v c l name nbuf dest fuel 0); try done; lia.
Qed.

(** A name with an upper-case letter names no entry: [fat32_get_full_name] prints
    lower-case letters only and the comparison minds the case.  A file created
    under such a name gets an entry that no search for that name returns. *)
Theorem upper_case_never_found v c l name nbuf ch dest s g :
  holds s v g -> chain priv nclus v c l -> holds_str name nbuf -> ch ∈ take 256 name -> ~ not_upper ch ->
  entry_count l < Z.of_nat fuel -> dir_ok (entries v l) name ->
  exists s', fat32_dir_search junk fuel undef priv c nbuf dest s = Ret ((ERROR_NOT_EXIST, dest), s') /\ holds s' v g.
Proof.
  intros Hh Hc Hn Hch Hu Hf Hok. assert (0 <= entry_count l) by (pose proof clussize_32; unfold entry_count, zlen; nia).
  destruct (dir_search_loop_ok v c l name nbuf dest fuel 0 s g) as (s' & Hrun & Hh'); try done; try lia.
  exists s'. split; [|done]. unfold fat32_dir_search. change (0 * 32) with 0 in Hrun. rewrite Hrun. unfold search_result.
  by rewrite (find_entry_upper name ch).
Qed.

(** ** Inserting an entry *)

Lemma entry_at_length v l k : image_ok v -> 0 <= k < entry_count l -> zlen (entry_at v l k) = 32.
Proof.
  intros Hv Hk. pose proof (entry_count_bytes l). unfold entry_at. apply slice_length; [lia..|].
  rewrite (file_data_length junk _ _ _ geo) by done. lia.
Qed.

(** Writing entry [k] changes that entry only. *)
Lemma entry_at_write v v2 l k j (d : FAT32DirEntry) : image_ok v -> zlen d = 32 -> 0 <= k < entry_count l ->
  0 <= j < entry_count l -> file_data priv v2 l = splice (k * 32) d (file_data priv v l) ->
  entry_at v2 l j = if decide (j = k) then d else entry_at v l j.
Proof.
  intros Hv Hd Hk Hj Hfd. pose proof (entry_count_bytes l). pose proof (file_data_length junk _ _ _ geo v l Hv).
  unfold entry_at. rewrite Hfd. case_decide as E.
  - subst j. assert (E : slice (k * 32) (zlen d) (splice (k * 32) d (file_data priv v l)) = d)
      by (apply slice_splice_same; lia). by rewrite Hd in E.
  - apply slice_splice_other; lia.
Qed.

Lemma write_dirent_ok v c l k (d : FAT32DirEntry) s g y : holds s v g -> chain priv nclus v c l ->
  0 <= k < entry_count l -> zlen d = 32 -> zget l (k * 32 / clussize priv) = Some y ->
  exists s' v', write_dirent junk priv d y (k * 32) s = Ret (0, s') /\ holds s' v' g /\
    only_cluster priv y v v' /\ file_data priv v' l = splice (k * 32) d (file_data priv v l).
Proof.
  intros Hh Hc Hk Hd Hy. pose proof (entry_fits k) as Hfit. pose proof (clussize_range _ _ _ geo) as Hcs.
  pose proof (holds_image _ _ _ _ _ Hh) as Hv.
  assert (Hyr : 2 <= y < 2 + nclus) by exact (Forall_zget _ _ _ _ (chain_range _ _ _ _ _ Hc) Hy).
  assert (Hm : 0 <= (k * 32) mod clussize priv < clussize priv) by (apply Z.mod_pos_bound; lia).
  edestruct (write_cluster_ok _ junk_page _ _ _ geo v y ((k * 32) mod clussize priv) 32 0 d s g)
    as (s' & v' & E & Hh' & Hcd & Ho); [done|by eapply cluster_addressable|lia..|].
  assert (Ed : slice 0 32 d = d) by (rewrite <- Hd; apply slice_all). rewrite Ed in Hcd.
  exists s', v'. split_and!; [done..|].
  apply (file_splice junk junk_page _ _ _ geo v v' l (k * 32) y d); try done; [|lia|lia].
  by eapply chain_NoDup.
Qed.

Lemma dir_insert_loop_ok v c l k (d : FAT32DirEntry) n : forall j s g,
  holds s v g -> chain priv nclus v c l -> zlen d = 32 -> 0 <= j <= k -> k < entry_count l -> k - j < Z.of_nat n ->
  (forall i, j <= i < k -> ~ reusable_entry (entry_at v l i)) -> reusable_entry (entry_at v l k) ->
  exists s' v' y, dir_insert_loop junk fuel undef priv n c d (j * 32) s = Ret (0, s') /\ holds s' v' g /\
    y ∈ l /\ only_cluster priv y v v' /\ file_data priv v' l = splice (k * 32) d (file_data priv v l).
Proof.
  induction n as [|n IH]; intros j s g Hh Hc Hd Hj Hk Hn Hused Hfree; [lia|]. cbn [dir_insert_loop].
  destruct (dirent_read_ok v c l j s g) as (y & s1 & s2 & -> & Hy0 & Hy & Hh1 & E2 & Hh2); [done|done|lia|].
  cbn [obind]. destruct (Z.eqb_spec y 0); [done|]. rewrite E2. cbn [obind]. change (0 <? 0) with false. cbn iota.
  destruct (decide (j = k)) as [->|Hne].
  - assert (Ef : (dir_name0 (entry_at v l k) =? 0xe5) || (dir_name0 (entry_at v l k) =? 0) = true).
    { destruct Hfree as [-> | ->]; done. }
    rewrite Ef. destruct (write_dirent_ok v c l k d s2 g y) as (s' & v' & -> & Hh' & Ho & Hfd); [done|done|lia|done|done|].
    cbn [obind]. change (0 <? 0) with false. cbn iota. exists s', v', y. split_and!; [done|done| |done|done].
    apply zget_lookup in Hy as [_ Hy]. by eapply list_elem_of_lookup_2.
  - assert (Ef : (dir_name0 (entry_at v l j) =? 0xe5) || (dir_name0 (entry_at v l j) =? 0) = false).
    { apply orb_false_intro; apply Z.eqb_neq; intros E; apply (Hused j); [lia|by left|lia|by right]. }
    rewrite Ef. replace (j * 32 + 32) with ((j + 1) * 32) by lia. apply IH; try done; try lia.
    intros i Hi. apply Hused. lia.
Qed.

(** ** Creating a file *)

(** A new entry for a plain name is found by a search for that name. *)
Lemma new_dirent_named base ext c : name83 base ext -> Forall (fun x => x <> 0xe5) base -> 0 <= c < 2^32 ->
  named (long_name base ext) (new_dirent (short_name base ext) c 0).
Proof.
  intros Hn He5 Hc. pose proof (short_name_length _ _ Hn) as Hl.
  destruct (new_dirent_fields (short_name base ext) c 0) as (Hname & Hattr & _ & _); [done|done|lia|]. split.
  - unfold classify. rewrite Hattr.
    assert (E0 : dir_name0 (new_dirent (short_name base ext) c 0) = to_upper (hd 0 base)).
    { unfold dir_name0, dir_name in *.
      rewrite <- (slice_slice 0 11 0 1) by lia. rewrite Hname. destruct Hn as [Hb _ _ _].
      destruct base as [|b0 base]; [simpl in Hb; lia|].
      change (to_upper b0 + 256 * 0 = to_upper b0). lia. }
    rewrite E0. destruct Hn as [Hb _ Hcb _]. destruct base as [|b0 base]; [simpl in Hb; lia|].
    apply Forall_cons in Hcb as [(Hr & Hrest) _]. apply Forall_cons in He5 as [He5 _]. cbn [hd].
    assert (Hu : to_upper b0 <> 0xe5 /\ to_upper b0 <> 0).
    { unfold to_upper. destruct (Z.leb_spec 97 b0), (Z.leb_spec b0 122); simpl; lia. }
    destruct (Z.eqb_spec (to_upper b0) 0xe5); [lia|]. destruct (Z.eqb_spec (to_upper b0) 0); [lia|]. done.
  - by apply full_name_holds.
Qed.

Lemma entries_split v l k : 0 <= k < entry_count l ->
  entries v l = map (entry_at v l) (seqZ 0 k) ++ entry_at v l k :: drop (Z.to_nat (k + 1)) (entries v l).
Proof.
  intros Hk. rewrite <- (entries_drop v l k Hk). rewrite <- (take_drop (Z.to_nat k) (entries v l)) at 1. f_equal.
  unfold entries. replace (entry_count l) with (k + (entry_count l - k)) by lia.
  rewrite seqZ_app, map_app by lia. apply take_app_length'. rewrite length_map, length_seqZ. lia.
Qed.

(** A search in a directory whose entry [k] is the first that is named. *)
Lemma search_named v c l k name nbuf dest s g :
  holds s v g -> chain priv nclus v c l -> holds_str name nbuf -> entry_count l < Z.of_nat fuel ->
  0 <= k < entry_count l -> (forall j, 0 <= j < k -> other_entry name (entry_at v l j)) -> named name (entry_at v l k) ->
  exists s', fat32_dir_search junk fuel undef priv c nbuf dest s = Ret (k, entry_at v l k, s') /\ holds s' v g.
Proof.
  intros Hh Hc Hn Hf Hk Hpre Hnamed.
  destruct (find_entry_app name (map (entry_at v l) (seqZ 0 k)) (entry_at v l k)
    (drop (Z.to_nat (k + 1)) (entries v l))) with (k := 0) as [Hfe Hok]; [|done|].
  { apply Forall_map, Forall_seqZ. intros j Hj. apply Hpre. lia. }
  rewrite <- entries_split in Hfe, Hok by done.
  destruct (dir_search_loop_ok v c l name nbuf dest fuel 0 s g) as (s' & Hrun & Hh'); [done..|lia|lia|done|].
  exists s'. split; [|done]. unfold fat32_dir_search. change (0 * 32) with 0 in Hrun. rewrite Hrun.
  unfold search_result. change (Z.to_nat 0) with 0%nat. rewrite drop_0, Hfe. do 3 f_equal.
  unfold zlen. rewrite length_map, length_seqZ. lia.
Qed.

(** C8: create, then open.  Creating a file with an 8.3 name without upper-case
    letters in the root directory, where the directory has a free entry, no
    entry before it has the name and the volume has a free cluster, takes the
    first free directory entry and the lowest free cluster; opening the same
    path afterwards returns that cluster, which is a one-cluster chain.  No page
    is leaked.  Names with upper-case letters: [upper_case_file_lost]. *)
Theorem create_then_open base ext rest v l k s g :
  holds s v g -> chain priv nclus v (root_cluster (boot_sector priv)) l -> fat_wf priv nclus v ->
  has_free priv v 1 -> name83 base ext -> Forall (fun x => x <> 0xe5) base ->
  entry_count l < Z.of_nat fuel -> 0 <= k < entry_count l ->
  (forall j, 0 <= j < k -> ~ reusable_entry (entry_at v l j) /\ other_entry (long_name base ext) (entry_at v l j)) ->
  reusable_entry (entry_at v l k) ->
  let path := Path 1 (long_name base ext ++ 0 :: rest) in
  exists c0 s1 s2 v2, fat32_file_create junk fuel undef priv path s = Ret (0, s1) /\
    fat32_open junk fuel undef priv path s1 = Ret (c0, s2) /\ holds s2 v2 g /\
    first_free priv v c0 /\ chain priv nclus v2 c0 [c0].
Proof.
  intros Hh Hc Hw Hfr Hn He5 Hf Hk Hpre Hfree path. pose proof (holds_image _ _ _ _ _ Hh) as Hv.
  unfold fat32_file_create, target_dir, path. cbn [parts pathbuf]. change (1 <? 1) with false. cbn [obind].
  rewrite get_short_name_ok by done. cbn [obind].
  destruct (allocate_ok _ junk_page _ _ _ geo v s g Hh) as (c0 & s1 & -> & [[Hff Hh1]|(Hno & _)]).
  2: { destruct Hfr as ([|x F] & _ & Hl & HF); [simpl in Hl; lia|]. destruct (HF x) as [Hx Hx0]; [by left|].
       by destruct (Hno x Hx). }
  pose proof Hff as (Hin & Hz & _). assert (Hc0 : valid_cluster nclus c0) by auto.
  assert (Hu : 0 <= c0 < 2^31) by (destruct geo; unfold valid_cluster in Hc0; lia).
  cbn [obind]. destruct (Z.eqb_spec c0 0); [unfold valid_cluster in Hc0; lia|].
  set (v1 := set_fat priv v c0 0x0fffffff) in *.
  pose proof (short_name_length _ _ Hn) as Hsl. rewrite slice_app_full by done.
  destruct (new_dirent_fields (short_name base ext) c0 0) as (_ & _ & Hcl & Hdl); [done|lia|lia|].
  set (d := new_dirent (short_name base ext) c0 0) in *.
  assert (Hc1 : chain priv nclus v1 (root_cluster (boot_sector priv)) l) by (by eapply chain_alloc).
  assert (Hfd1 : file_data priv v1 l = file_data priv v l) by (by eapply file_data_set_fat).
  assert (He1 : forall j, entry_at v1 l j = entry_at v l j) by (intros j; unfold entry_at; by rewrite Hfd1).
  destruct (dir_insert_loop_ok v1 (root_cluster (boot_sector priv)) l k d fuel 0 s1 g)
    as (s2 & v2 & y & Hins & Hh2 & Hy & Ho & Hfd2); [done|done|done|lia|lia|lia| | |].
  { intros i Hi. rewrite He1. by apply Hpre. }
  { by rewrite He1. }
  assert (Hyv : valid_cluster nclus y).
  { pose proof (chain_range _ _ _ _ _ Hc) as Hr. rewrite Forall_forall in Hr. by apply Hr. }
  destruct (same_fat _ _ _ geo v1 v2) as (_ & _ & Hc2); [intros; by eapply only_cluster_fat|].
  assert (He2 : forall j, 0 <= j < entry_count l -> entry_at v2 l j = if decide (j = k) then d else entry_at v l j).
  { intros j Hj. rewrite <- He1. eapply entry_at_write; [by eapply holds_image|done..]. }
  assert (Hek : entry_at v2 l k = d) by (rewrite He2 by done; by rewrite decide_True).
  destruct (search_named v2 (root_cluster (boot_sector priv)) l k (long_name base ext) (long_name base ext ++ 0 :: rest)
    (splice 20 [0; 0] (splice 26 [0; 0] undef)) s2 g) as (s3 & Hse & Hh3); [done|auto| |done|done| | |].
  { split; [by apply long_name_nz|eauto]. }
  { intros j Hj. rewrite He2 by lia. rewrite decide_False by lia. by apply Hpre. }
  { rewrite Hek. apply new_dirent_named; [done|done|lia]. }
  exists c0, s2, s3, v2. split_and!; [exact Hins| |done|done|].
  - unfold fat32_open, fat32_path_search. cbn [parts]. change (1 =? 0) with false. change (seqZ 0 1) with [0 + 0].
    cbn [path_search_loop].
    change (path_part (Path 1 (long_name base ext ++ 0 :: rest)) (0 + 0)) with (long_name base ext ++ 0 :: rest).
    rewrite Hse. cbn [obind]. destruct (Z.ltb_spec k 0); [lia|]. cbn [path_search_loop obind].
    change (0 <? 0) with false. cbn iota. rewrite Hek, Hcl. by rewrite s32_small by lia.
  - constructor; [done|]. erewrite only_cluster_fat; [|done..]. unfold v1.
    erewrite fat_entry_set_fat; [|done..|apply is_u32_eoc]. by rewrite decide_True.
Qed.

End dir_refine.

(** ** Examples *)

#[local] Existing Instance ex_store.
#[local] Existing Instance ex_store_laws.

Definition ex_undef : FAT32DirEntry := repeat 0xcc 32.

Lemma ex_chain2 : chain ex_priv 21 (ex_image 0) 2 [2].
Proof. apply chain_last; [lia|by vm_compute]. Qed.

(** Looking for ["a.b"] in the empty root directory. *)
Lemma fat32_dir_search_correct_witness :
  exists s', fat32_dir_search ex_junk 20 ex_undef ex_priv 2 [97; 46; 98; 0] ex_undef (ex_volume 0)
    = Ret (match find_entry (entries ex_priv (ex_image 0) [2]) 0 [97; 46; 98] with
           | Some (i, e) => (i, e) | None => (ERROR_NOT_EXIST, ex_undef) end, s')
    /\ holds ex_priv 26 s' (ex_image 0) 0.
Proof.
  apply (fat32_dir_search_correct ex_junk ex_junk_page 20 ex_undef eq_refl ex_priv 21 26 ex_geometry (ex_image 0) 2 [2]);
    [apply ex_holds|apply ex_chain2| |by vm_compute|by vm_compute].
  split; [by repeat constructor|by exists []].
Defined.

(** Creating ["a.b"] there. *)
Lemma create_then_open_witness :
  exists c0 s1 s2 v2, fat32_file_create ex_junk 20 ex_undef ex_priv (Path 1 [97; 46; 98; 0]) (ex_volume 0) = Ret (0, s1) /\
    fat32_open ex_junk 20 ex_undef ex_priv (Path 1 [97; 46; 98; 0]) s1 = Ret (c0, s2) /\
    holds ex_priv 26 s2 v2 0 /\ first_free ex_priv (ex_image 0) c0 /\ chain ex_priv 21 v2 c0 [c0].
Proof.
  apply (create_then_open ex_junk ex_junk_page 20 ex_undef eq_refl ex_priv 21 26 ex_geometry [97] [98] [] (ex_image 0) [2] 0);
    [apply ex_holds|apply ex_chain2|apply ex_fat_wf| | |by repeat constructor|by vm_compute|by vm_compute|lia|by right; vm_compute].
  - destruct ex_has_free as (F & Hnd & Hl & HF). exists F. split_and!; [done|lia|done].
  - constructor; [simpl; lia|simpl; lia|..]; repeat constructor; try done; lia.
Defined.

(** Creating ["A.b"] there succeeds, and opening it fails. *)
Theorem upper_case_file_lost :
  ('(r, s1) <- fat32_file_create ex_junk 20 ex_undef ex_priv (Path 1 [65; 46; 98; 0]) (ex_volume 0) ;;
   '(c, _) <- fat32_open ex_junk 20 ex_undef ex_priv (Path 1 [65; 46; 98; 0]) s1 ;; Ret (r, c)) = Ret (0, ERROR_NOT_EXIST).
Proof. by vm_compute. Qed.

(** The example volume with the remains of an old directory in the free cluster
    6: an entry ["OLD"] that points to cluster 5. *)
Definition ex_stale_volume : fs (hal ramdisk) :=
  let d := <[17%nat := splice 0 (new_dirent ([79; 76; 68] ++ repeat 32 8) 5 0) (repeat 0 512)]> (ex_fat_disk 0) in
  FS (Hal (BlkDev (Some d) (repeat (CacheEntry 0 BufNull) 512) 0 false :: repeat empty_block 7)
      (layout [Partition HAL_PARTITION_TYPE_FAT32 0 8 26]) 1) 0.

(** ["/d"] and ["/d/old"] *)
Definition ex_path_d : VfsPath := Path 1 ([100] ++ repeat 0 127).
Definition ex_path_old : VfsPath := Path 2 ([100] ++ repeat 0 127 ++ [111; 108; 100] ++ repeat 0 125).

(** [fat32_mkdir] does not clear the cluster it allocates.  On a volume
    whose lowest free cluster still holds an old directory entry, creating the
    directory ["/d"] succeeds and the file ["/d/old"] exists in it at once; it
    shares cluster 5 with the file that owns that cluster. *)
Theorem mkdir_exposes_stale_entries :
  ('(r, s1) <- fat32_mkdir ex_junk 20 ex_undef ex_priv ex_path_d ex_stale_volume ;;
   '(c, _) <- fat32_open ex_junk 20 ex_undef ex_priv ex_path_old s1 ;; Ret (r, c)) = Ret (0, 5).
Proof. by vm_compute. Qed.
