(* ===== verification/Vfs.v ===== *)
(** kernel/filesystem/vfs: the mount table and path operations (vfs.c), open
    files (filedesc.c) and open directories (dir.c).

    The filesystem drivers below it are the class [FilesystemDriver], the
    [struct FilesystemDriver] of function pointers; [FilesystemLaws] is what
    the descriptor layer relies on, and [fat32_driver_laws] shows that FAT32
    provides it. *)

From stdpp Require Import base list strings relations.
From Stdlib Require Import ZArith Lia.
From S2P Require Import Prelude KString HalBlock VfsPath Partition Fat32 Fat32Dir.

Local Open Scope Z_scope.
Local Open Scope outcome_scope.

(** [P] is the driver's private data of a mounted filesystem, [S] the state the
    drivers work on. *)
Class FilesystemDriver (P S : Type) := {
  fs_mount : Z -> S -> outcome (Z * option P * S);
  fs_probe : Z -> S -> outcome (Z * S);
  fs_set_default_attr : P -> Z -> Z -> Z -> P;
  fs_dir_first_file : P -> Z -> S -> outcome (Z * S);
  fs_dir_read : P -> list Z -> Z -> Z -> S -> outcome (Z * list Z * S);
  fs_open : P -> VfsPath -> S -> outcome (Z * S);
  fs_create_file : P -> VfsPath -> S -> outcome (Z * S);
  fs_update_size : P -> VfsPath -> Z -> S -> outcome (Z * S);
  fs_read : P -> Z -> list Z -> Z -> Z -> S -> outcome (Z * list Z * S);
  fs_write : P -> Z -> list Z -> Z -> Z -> S -> outcome (Z * S);
  fs_get_file_size : P -> VfsPath -> S -> outcome (Z * S);
  fs_get_file_mode : P -> VfsPath -> S -> outcome (Z * S);
  fs_create_directory : P -> VfsPath -> S -> outcome (Z * S);
  fs_remove_file : P -> VfsPath -> S -> outcome (Z * S)
}.

Record FileDesc := FD {
  fd_used : bool;
  fd_dir : bool;
  fd_read_ok : bool;
  fd_write_ok : bool;
  fd_append : bool;
  fd_fs_id : Z;
  fd_block : Z;
  fd_offset : Z;
  fd_size : Z;
  fd_path : VfsPath
}.

Definition zero_fd : FileDesc := FD false false false false false 0 0 0 0 (Path 0 []).

Definition O_READ : Z := 1.
Definition O_WRITE : Z := 2.
Definition O_CREATE : Z := 4.
Definition O_APPEND : Z := 8.
Definition O_TRUNC : Z := 16.
(** [SEEK_OTHER] is any value outside the enumeration, which the switch ignores. *)
Inductive FileSeekMode := SEEK_SET | SEEK_CUR | SEEK_END | SEEK_OTHER.

Definition has_flag (mode flag : Z) : bool := negb (Z.land mode flag =? 0).

Definition VFS_MOUNT_TABLE_MAX : Z := 8.

(** ["fat32"] with its terminator. *)
Definition fat32_name : list Z := [102; 97; 116; 51; 50; 0].

(** The mount table, the driver state, and the pages taken by this layer. *)
Record vfs (P S : Type) := Vfs {
  vfs_mount_table : list (option P);
  vfs_state : S;
  vfs_pages : Z
}.
Arguments Vfs {P S}.
Arguments vfs_mount_table {P S}.
Arguments vfs_state {P S}.
Arguments vfs_pages {P S}.

Section vfs.
Context {P S : Type} `{FilesystemDriver P S}.
(** Contents of a page just taken from the allocator. *)
Variable junk : list Z.
(** Working directory of the calling process. *)
Variable cwd : VfsPath.

Local Notation state := (vfs P S).

Definition with_state (w : state) (s : S) : state := Vfs (vfs_mount_table w) s (vfs_pages w).
Definition vfs_take (w : state) : state := Vfs (vfs_mount_table w) (vfs_state w) (vfs_pages w + 1).
Definition vfs_give (w : state) : state := Vfs (vfs_mount_table w) (vfs_state w) (vfs_pages w - 1).

(** The driver of a mount-table entry; an entry without one is a null pointer. *)
Definition mounted (w : state) (fs_id : Z) : outcome P :=
  op <- of_option (zget (vfs_mount_table w) fs_id) ;; of_option op.

(** Calls through the mount table. *)
Definition call (w : state) (fs_id : Z) (f : P -> S -> outcome (Z * S)) : outcome (Z * state) :=
  p <- mounted w fs_id ;;
  '(r, s) <- f p (vfs_state w) ;; Ret (r, with_state w s).

Definition call_buf (w : state) (fs_id : Z) (f : P -> S -> outcome (Z * list Z * S)) : outcome (Z * list Z * state) :=
  p <- mounted w fs_id ;;
  '(r, buf, s) <- f p (vfs_state w) ;; Ret (r, buf, with_state w s).

(** ** vfs.c *)

(** The loop of [vfs_init] over the types in the partition map: it stops at the
    first filesystem mounted. *)
Fixpoint init_loop (types : list HalPartitionFilesystemType) (i : Z) (w : state) : outcome (bool * state) :=
  match types with
  | [] => Ret (false, w)
  | ty :: types' =>
    let mount :=
      fun w => '(_, p, s) <- fs_mount i (vfs_state w) ;;
        m <- of_option (zset (vfs_mount_table w) 0 p) ;;
        Ret (true, Vfs m s (vfs_pages w)) in
    match ty with
    | HAL_PARTITION_TYPE_FAT32 => mount w
    | HAL_PARTITION_TYPE_DATA =>
      '(r, s) <- fs_probe i (vfs_state w) ;;
      if negb (r =? 0) then init_loop types' (i + 1) (with_state w s) else mount (with_state w s)
    | _ => init_loop types' (i + 1) w
    end
  end.

Definition vfs_init (types : list HalPartitionFilesystemType) (w : state) : outcome state :=
  '(found, w') <- init_loop types 0 (Vfs (repeat None 8) (vfs_state w) (vfs_pages w)) ;;
  if (found : bool) then Ret w' else Panic "root filesystem not found".

Definition vfs_path_to_fs (orig_path : VfsPath) : outcome (Z * VfsPath) :=
  if parts orig_path =? 0 then Ret (0, Path 0 [])
  else
    c <- of_option (strncmp (pathbuf orig_path) fat32_name 64) ;;
    if c =? 0 then Ret (1, Path (parts orig_path - 1) (drop 128 (pathbuf orig_path)))
    else Ret (0, orig_path).

(** What every operation on a file name starts with. *)
Definition resolve (filename : list Z) : outcome (Z * VfsPath) :=
  '(n, buf) <- vfs_path_split filename junk ;;
  c <- of_option (head filename) ;;
  filepath <- (if negb (c =? 47) then vfs_get_absolute_path cwd junk (Path n buf) else Ret (Path n buf)) ;;
  vfs_path_to_fs filepath.

(** Resolve a name, call the driver on it, give the path buffer back. *)
Definition on_path (filename : list Z) (f : VfsPath -> P -> S -> outcome (Z * S)) (w : state) : outcome (Z * state) :=
  let w1 := vfs_take w in
  '(fs_id, path) <- resolve filename ;;
  '(r, w2) <- call w1 fs_id (f path) ;;
  Ret (r, vfs_give w2).

Definition vfs_file_get_size (filename : list Z) (w : state) : outcome (Z * state) :=
  on_path filename (fun path p => fs_get_file_size p path) w.

Definition vfs_file_get_mode (filename : list Z) (w : state) : outcome (Z * state) :=
  on_path filename (fun path p => fs_get_file_mode p path) w.

Definition vfs_mkdir (dirname : list Z) (w : state) : outcome (Z * state) :=
  on_path dirname (fun path p => fs_create_directory p path) w.

Definition vfs_file_remove (file : list Z) (w : state) : outcome (Z * state) :=
  on_path file (fun path p => fs_remove_file p path) w.

(** ** filedesc.c *)

Definition vfs_fd_open (filename : list Z) (mode : Z) (w : state) : outcome (Z * FileDesc * state) :=
  let w0 := vfs_take w in
  '(fs_id, path) <- resolve filename ;;
  '(fblock0, w1) <- call w0 fs_id (fun p => fs_open p path) ;;
  let finish fblock w2 :=
    '(sz, w3) <- call w2 fs_id (fun p => fs_get_file_size p path) ;;
    let rd := has_flag mode O_READ in
    if has_flag mode O_WRITE then
      bytes <- copy_from (pathbuf path) 0 (parts path * 128) ;;
      buf <- copy_into junk 0 bytes ;;
      let sz' := if has_flag mode O_TRUNC then 0 else u32 sz in
      Ret (0, FD true false rd true (has_flag mode O_APPEND) fs_id (u32 fblock) 0 sz' (Path (parts path) buf),
           vfs_give (vfs_take w3))
    else
      Ret (0, FD true false rd false false fs_id (u32 fblock) 0 (u32 sz) (Path 0 []), vfs_give w3) in
  if fblock0 <? 0 then
    if has_flag mode O_CREATE then
      '(_, w2) <- call w1 fs_id (fun p => fs_create_file p path) ;;
      '(fblock, w3) <- call w2 fs_id (fun p => fs_open p path) ;;
      finish fblock w3
    else Ret (ERROR_NOT_EXIST, zero_fd, vfs_give w1)
  else finish fblock0 w1.

Definition with_offset (fd : FileDesc) (off size : Z) : FileDesc :=
  FD (fd_used fd) (fd_dir fd) (fd_read_ok fd) (fd_write_ok fd) (fd_append fd) (fd_fs_id fd) (fd_block fd)
    off size (fd_path fd).

Definition unused (fd : FileDesc) : FileDesc :=
  FD false (fd_dir fd) (fd_read_ok fd) (fd_write_ok fd) (fd_append fd) (fd_fs_id fd) (fd_block fd)
    (fd_offset fd) (fd_size fd) (fd_path fd).

Definition vfs_fd_read (fd : FileDesc) (buf : list Z) (size : Z) (w : state)
    : outcome (Z * list Z * FileDesc * state) :=
  if negb (fd_used fd) then Ret (ERROR_INVAILD, buf, fd, w) else
  if negb (fd_read_ok fd) then Ret (ERROR_INVAILD, buf, fd, w) else
  if fd_dir fd then Ret (ERROR_INVAILD, buf, fd, w) else
  if fd_size fd <=? fd_offset fd then Ret (0, buf, fd, w) else
  let status := if fd_size fd <? u32 (fd_offset fd + size) then s32 (fd_size fd - fd_offset fd) else s32 size in
  '(ret, buf', w') <- call_buf w (fd_fs_id fd) (fun p => fs_read p (fd_block fd) buf (fd_offset fd) size) ;;
  if ret <? 0 then Ret (ret, buf', fd, w') else
  Ret (status, buf', with_offset fd (u32 (fd_offset fd + status)) (fd_size fd), w').

Definition vfs_fd_write (fd : FileDesc) (buf : list Z) (size : Z) (w : state) : outcome (Z * FileDesc * state) :=
  if negb (fd_used fd) then Ret (ERROR_INVAILD, fd, w) else
  if negb (fd_write_ok fd) then Ret (ERROR_INVAILD, fd, w) else
  if fd_dir fd then Ret (ERROR_INVAILD, fd, w) else
  let off := if fd_append fd then fd_size fd else fd_offset fd in
  '(ret, w') <- call w (fd_fs_id fd) (fun p => fs_write p (fd_block fd) buf off size) ;;
  if ret <? 0 then Ret (ret, with_offset fd off (fd_size fd), w') else
  let off' := u32 (off + ret) in
  let size' := if fd_size fd <? off' then u32 (fd_size fd + (off' - fd_size fd)) else fd_size fd in
  Ret (ret, with_offset fd off' size', w').

Definition vfs_fd_close (fd : FileDesc) (w : state) : outcome (Z * FileDesc * state) :=
  if negb (fd_used fd) then Ret (ERROR_INVAILD, fd, w) else
  if fd_dir fd then Ret (ERROR_INVAILD, fd, w) else
  w' <- (if fd_write_ok fd then
           '(_, w1) <- call w (fd_fs_id fd) (fun p => fs_update_size p (fd_path fd) (fd_size fd)) ;;
           Ret (vfs_give w1)
         else Ret w) ;;
  Ret (0, unused fd, w').

Definition vfs_fd_seek (fd : FileDesc) (off : Z) (mode : FileSeekMode) : Z * FileDesc :=
  if negb (fd_used fd) then (ERROR_INVAILD, fd) else
  if fd_dir fd then (ERROR_INVAILD, fd) else
  if fd_size fd <=? off then (ERROR_INVAILD, fd) else
  let off' := match mode with
              | SEEK_SET => off
              | SEEK_CUR => u32 (fd_offset fd + off)
              | SEEK_END => u32 (fd_size fd + off)
              | SEEK_OTHER => fd_offset fd
              end in
  (s32 off', with_offset fd off' (fd_size fd)).

(** ** dir.c *)

Definition vfs_dir_open (dirname : list Z) (w : state) : outcome (Z * FileDesc * state) :=
  let w0 := vfs_take w in
  '(fs_id, path) <- resolve dirname ;;
  '(fblock, w1) <- call w0 fs_id (fun p => fs_open p path) ;;
  if fblock <? 0 then Ret (fblock, zero_fd, vfs_give w1) else
  '(first, w2) <- call w1 fs_id (fun p => fs_dir_first_file p (u32 fblock)) ;;
  Ret (0, FD true true true false false fs_id (u32 fblock) (u32 first) 0 (Path 0 []), vfs_give w2).

Definition vfs_dir_read (fd : FileDesc) (buffer : list Z) (w : state) : outcome (Z * list Z * FileDesc * state) :=
  if negb (fd_used fd) then Ret (ERROR_INVAILD, buffer, fd, w) else
  if negb (fd_read_ok fd) then Ret (ERROR_INVAILD, buffer, fd, w) else
  if negb (fd_dir fd) then Ret (ERROR_INVAILD, buffer, fd, w) else
  '(off, buffer', w') <- call_buf w (fd_fs_id fd) (fun p => fs_dir_read p buffer (fd_block fd) (fd_offset fd)) ;;
  if off =? 0 then Ret (0, buffer', fd, w')
  else if off <? 0 then Ret (off, buffer', fd, w')
  else Ret (1, buffer', with_offset fd off (fd_size fd), w').

Definition vfs_dir_close (fd : FileDesc) : Z * FileDesc :=
  if negb (fd_used fd) then (ERROR_INVAILD, fd) else
  if negb (fd_dir fd) then (ERROR_INVAILD, fd) else (0, unused fd).

End vfs.

(** ** What the descriptor layer relies on

    [file_is p s b data cap]: block [b] is a file whose storage holds [data], of
    which the file size is a prefix, and which can be written up to byte [cap]. *)
Class FilesystemLaws (P S : Type) `{FilesystemDriver P S} := {
  file_is : P -> S -> Z -> list Z -> Z -> Prop;
  fs_read_law p s b data cap buf off n :
    file_is p s b data cap -> 0 <= off -> 0 <= n -> off + n <= zlen data -> off + n < 2^31 -> n <= zlen buf ->
    exists s', fs_read p b buf off n s = Ret (n, splice 0 (slice off n data) buf, s') /\ file_is p s' b data cap;
  fs_write_law p s b data cap buf off n :
    file_is p s b data cap -> 0 <= off <= zlen data -> 0 <= n -> off + n <= cap -> off + n < 2^31 -> n <= zlen buf ->
    exists s' data' cap', fs_write p b buf off n s = Ret (n, s') /\ file_is p s' b data' cap' /\
      zlen data <= zlen data' /\ off + n <= zlen data' /\ slice off n data' = slice 0 n buf /\
      (forall i m, 0 <= i -> 0 <= m -> i + m <= off \/ off + n <= i -> i + m <= zlen data -> slice i m data' = slice i m data)
}.

Section descriptors.
Context {P S : Type} `{FilesystemLaws P S}.
Local Notation state := (vfs P S).

(** Descriptor [fd] is an open file of a mounted filesystem whose contents are
    [contents], stored in [data]. *)
Definition fd_file (w : state) (fd : FileDesc) (data : list Z) (cap : Z) : Prop :=
  fd_used fd = true /\ fd_dir fd = false /\ 0 <= fd_offset fd /\ 0 <= fd_size fd < 2^31 /\ fd_size fd <= zlen data /\
  exists p, mounted w (fd_fs_id fd) = Ret p /\ file_is p (vfs_state w) (fd_block fd) data cap.

(** The bytes of the file, as the size in the descriptor bounds them. *)
Definition fd_contents (fd : FileDesc) (data : list Z) : list Z := slice 0 (fd_size fd) data.

Lemma with_state_mounted (w : state) (s : S) id : mounted (with_state w s) id = mounted w id.
Proof. done. Qed.

(** Number of bytes a read of [n] at the descriptor's offset delivers. *)
Definition avail (fd : FileDesc) (n : Z) : Z := Z.max 0 (Z.min n (fd_size fd - fd_offset fd)).

Lemma fd_read_ok' fd buf n (w : state) data cap :
  fd_file w fd data cap -> fd_read_ok fd = true -> 0 <= n -> n <= zlen buf ->
  fd_offset fd + n <= zlen data -> fd_offset fd + n < 2^31 ->
  exists buf' fd' w', vfs_fd_read fd buf n w = Ret (avail fd n, buf', fd', w') /\
    slice 0 (avail fd n) buf' = slice (fd_offset fd) (avail fd n) (fd_contents fd data) /\
    fd_offset fd' = fd_offset fd + avail fd n /\ fd_size fd' = fd_size fd /\ fd_file w' fd' data cap /\ zlen buf' = zlen buf /\
    buf' = (if fd_size fd <=? fd_offset fd then buf else splice 0 (slice (fd_offset fd) n data) buf).
Proof.
  intros Hff Hr Hn Hbuf Hin H31. pose proof Hff as (Hu & Hd & Ho & Hs & Hds & p & Hm & Hf). unfold vfs_fd_read, avail.
  rewrite Hu, Hr, Hd. cbn [negb]. destruct (Z.leb_spec (fd_size fd) (fd_offset fd)).
  - exists buf, fd, w. replace (Z.max 0 (Z.min n (fd_size fd - fd_offset fd))) with 0 by lia.
    split_and!; [done|done|lia|done..].
  - rewrite (u32_small (fd_offset fd + n)) by (unfold is_u32; lia).
    destruct (fs_read_law p (vfs_state w) (fd_block fd) data cap buf (fd_offset fd) n) as (s' & E & Hf'); [done|lia..|].
    unfold call_buf. rewrite Hm. cbn [obind]. rewrite E. cbn [obind]. destruct (Z.ltb_spec n 0); [lia|].
    set (status := if fd_size fd <? fd_offset fd + n then s32 (fd_size fd - fd_offset fd) else s32 n).
    assert (Est : status = Z.max 0 (Z.min n (fd_size fd - fd_offset fd))).
    { unfold status. destruct (Z.ltb_spec (fd_size fd) (fd_offset fd + n)); rewrite s32_small by lia; lia. }
    rewrite <- Est. assert (Hst : 0 <= status <= n /\ fd_offset fd + status <= fd_size fd) by lia.
    eexists _, _, _. split; [done|]. rewrite u32_small by (unfold is_u32; lia). split_and!; try done.
    + assert (Hsl : zlen (slice (fd_offset fd) n data) = n) by (apply slice_length; lia).
      rewrite slice_splice_prefix by lia. rewrite slice_slice by lia. unfold fd_contents.
      rewrite slice_slice by lia. f_equal. lia.
    + unfold fd_file. cbn [with_offset fd_used fd_dir fd_offset fd_size fd_fs_id fd_block]. split_and!; [done|done|lia..|]. eauto.
    + apply splice_length; [done|]. rewrite slice_length; lia.
Qed.

(** Where a write through the descriptor starts. *)
Definition write_offset (fd : FileDesc) : Z := if fd_append fd then fd_size fd else fd_offset fd.

(** Writing through a descriptor: all bytes are taken, the offset moves behind
    them, the size grows to cover them, and the file's bytes change there only. *)
Lemma fd_write_ok' fd buf n (w : state) data cap :
  fd_file w fd data cap -> fd_write_ok fd = true -> 0 <= n -> n <= zlen buf ->
  write_offset fd <= fd_size fd -> write_offset fd + n <= cap -> write_offset fd + n < 2^31 ->
  exists fd' w' data' cap', vfs_fd_write fd buf n w = Ret (n, fd', w') /\ fd_file w' fd' data' cap' /\
    fd_offset fd' = write_offset fd + n /\ fd_size fd' = Z.max (fd_size fd) (write_offset fd + n) /\
    fd_contents fd' data' = splice (write_offset fd) (slice 0 n buf)
      (fd_contents fd data ++ repeat 0 (Z.to_nat (write_offset fd + n - fd_size fd))) /\
    (fd_read_ok fd', fd_write_ok fd', fd_append fd') = (fd_read_ok fd, fd_write_ok fd, fd_append fd).
Proof.
  intros Hff Hw Hn Hbuf Hoff Hcap H31. pose proof Hff as (Hu & Hd & Ho & Hs & Hds & p & Hm & Hf).
  set (off := write_offset fd) in *. assert (Ho' : 0 <= off) by (unfold off, write_offset; destruct (fd_append fd); lia).
  unfold vfs_fd_write. rewrite Hu, Hw, Hd. cbn [negb]. fold (write_offset fd). fold off.
  destruct (fs_write_law p (vfs_state w) (fd_block fd) data cap buf off n)
    as (s' & data' & cap' & E & Hf' & Hgrow & Hlen & Hnew & Hold); [done|lia..|].
  unfold call. rewrite Hm. cbn [obind]. rewrite E. cbn [obind]. destruct (Z.ltb_spec n 0); [lia|].
  rewrite (u32_small (off + n)) by (unfold is_u32; lia).
  set (size' := if fd_size fd <? off + n then u32 (fd_size fd + (off + n - fd_size fd)) else fd_size fd).
  assert (Es : size' = Z.max (fd_size fd) (off + n)).
  { unfold size'. destruct (Z.ltb_spec (fd_size fd) (off + n)); [rewrite u32_small by (unfold is_u32; lia)|]; lia. }
  eexists _, _, data', cap'. split; [done|]. split_and!; try done.
  - unfold fd_file. cbn [with_offset fd_used fd_dir fd_offset fd_size fd_fs_id fd_block]. split_and!; [done|done|lia..|]. eauto.
  - unfold fd_contents. cbn [with_offset fd_size]. rewrite Es.
    assert (Hnl : zlen (slice 0 n buf) = n) by (apply slice_length; lia).
    assert (E1 : slice 0 (Z.max (fd_size fd) (off + n)) data'
      = slice 0 off data ++ slice 0 n buf ++ slice (off + n) (fd_size fd - (off + n)) data).
    { replace (Z.max (fd_size fd) (off + n)) with (off + (n + Z.max 0 (fd_size fd - (off + n)))) by lia.
      rewrite <- slice_app by lia. rewrite Z.add_0_l, <- slice_app by lia. rewrite Hnew, (Hold 0 off) by lia. do 2 f_equal.
      destruct (Z.max_spec 0 (fd_size fd - (off + n))) as [[? ->]|[? ->]].
      - apply Hold; lia.
      - unfold slice. by replace (Z.to_nat (fd_size fd - (off + n))) with 0%nat by lia. }
    rewrite E1. unfold splice. set (X := slice 0 (fd_size fd) data).
    assert (HX : zlen X = fd_size fd) by (apply slice_length; lia). unfold zlen in HX, Hnl.
    rewrite take_app_le by lia. f_equal.
    { unfold X, slice. rewrite take_take. f_equal. lia. }
    f_equal. replace (length (slice 0 n buf)) with (Z.to_nat n) by lia. destruct (decide (off + n <= fd_size fd)) as [Hle|Hgt].
    + rewrite drop_app_le by lia. replace (Z.to_nat (off + n - fd_size fd)) with 0%nat by lia. rewrite app_nil_r.
      unfold X, slice. rewrite drop_0, skipn_firstn_comm. f_equal; [lia|f_equal; lia].
    + rewrite drop_ge by (rewrite length_app, repeat_length; lia). unfold slice.
      by replace (Z.to_nat (fd_size fd - (off + n))) with 0%nat by lia.
  - cbn. by rewrite Hw.
Qed.

(** reading through a descriptor returns min(n, bytes left) and those bytes
    of the file, and advances the offset by as much; at the end of the file it
    returns 0 and changes nothing.  (The request must stay inside the file's
    storage: the code passes the size asked for, not the clamped one, to the
    driver.) *)
Theorem vfs_fd_read_correct fd buf n (w : state) data cap :
  fd_file w fd data cap -> fd_read_ok fd = true -> 0 <= n -> n <= zlen buf ->
  fd_offset fd + n <= zlen data -> fd_offset fd + n < 2^31 ->
  exists buf' fd' w', vfs_fd_read fd buf n w = Ret (avail fd n, buf', fd', w') /\
    slice 0 (avail fd n) buf' = slice (fd_offset fd) (avail fd n) (fd_contents fd data) /\
    fd_offset fd' = fd_offset fd + avail fd n /\ fd_size fd' = fd_size fd /\ fd_file w' fd' data cap.
Proof.
  intros Hff Hr Hn Hb Hd H31. destruct (fd_read_ok' fd buf n w data cap) as (buf' & fd' & w' & E & H1 & H2 & H3 & H4 & _); [done..|].
  by exists buf', fd', w'.
Qed.

(** C20: write, seek back, read.  Bytes written through a read-write descriptor
    are what a read from the same place returns after seeking back to it, and
    the file size covers them. *)
Theorem fd_write_seek_read fd buf n (w : state) data cap rbuf :
  fd_file w fd data cap -> fd_write_ok fd = true -> fd_read_ok fd = true -> 0 < n -> n <= zlen buf -> n <= zlen rbuf ->
  write_offset fd <= fd_size fd -> write_offset fd + n <= cap -> write_offset fd + n < 2^31 ->
  exists fd1 w1 fd2 rbuf' fd3 w3,
    vfs_fd_write fd buf n w = Ret (n, fd1, w1) /\
    vfs_fd_seek fd1 (write_offset fd) SEEK_SET = (write_offset fd, fd2) /\
    vfs_fd_read fd2 rbuf n w1 = Ret (n, rbuf', fd3, w3) /\
    slice 0 n rbuf' = slice 0 n buf /\ fd_size fd1 = Z.max (fd_size fd) (write_offset fd + n).
Proof.
  intros Hff Hw Hr Hn Hbuf Hrb Hoff Hcap H31. pose proof Hff as (_ & _ & Ho & Hs & Hds & _).
  assert (Ho' : 0 <= write_offset fd) by (unfold write_offset; destruct (fd_append fd); lia).
  destruct (fd_write_ok' fd buf n w data cap) as (fd1 & w1 & data' & cap' & E1 & Hff1 & Ho1 & Hs1 & Hc1 & Hfl); [done|done|lia|lia|lia|lia|lia|].
  injection Hfl as Hr1 Hw1 _.
  set (fd2 := with_offset fd1 (write_offset fd) (fd_size fd1)).
  assert (E2 : vfs_fd_seek fd1 (write_offset fd) SEEK_SET = (write_offset fd, fd2)).
  { unfold vfs_fd_seek. destruct Hff1 as (-> & -> & _). cbn [negb]. destruct (Z.leb_spec (fd_size fd1) (write_offset fd)); [lia|].
    by rewrite s32_small by lia. }
  assert (Hff2 : fd_file w1 fd2 data' cap').
  { destruct Hff1 as (Hu1 & Hd1 & _ & Hs1' & Hds1 & Hm1). unfold fd_file, fd2.
    cbn [with_offset fd_used fd_dir fd_offset fd_size fd_fs_id fd_block]. split_and!; done || lia. }
  assert (Hav : avail fd2 n = n) by (unfold avail, fd2; cbn [with_offset fd_size fd_offset]; lia).
  assert (Hd' : write_offset fd + n <= zlen data') by (destruct Hff1 as (_ & _ & _ & _ & ? & _); lia).
  destruct (fd_read_ok' fd2 rbuf n w1 data' cap') as (rbuf' & fd3 & w3 & E3 & Hrd & _);
    [done|cbn; by rewrite Hr1|lia|lia|cbn [fd2 with_offset fd_offset]; lia|cbn [fd2 with_offset fd_offset]; lia|].
  rewrite Hav in E3, Hrd. exists fd1, w1, fd2, rbuf', fd3, w3. split_and!; [done|done|done| |done].
  rewrite Hrd. change (fd_offset fd2) with (write_offset fd). change (fd_contents fd2 data') with (fd_contents fd1 data').
  rewrite Hc1. assert (Hnl : zlen (slice 0 n buf) = n) by (apply slice_length; lia).
  rewrite <- Hnl at 1. apply slice_splice_same; [lia|]. rewrite zlen_app.
  assert (zlen (fd_contents fd data) = fd_size fd) by (apply slice_length; lia).
  assert (Hrl : forall k, zlen (repeat 0 k) = Z.of_nat k) by (intros; unfold zlen; by rewrite repeat_length).
  rewrite Hrl. lia.
Qed.

End descriptors.

(** ** Mounting *)

Section mounting.
Context {P S : Type} `{FilesystemDriver P S}.
Local Notation state := (vfs P S).

(** Only the first slot of the mount table is ever filled. *)
Definition root_only (w : state) : Prop := forall id, id <> 0 -> mounted w id = Fault.

Lemma root_only_table (w : state) p : vfs_mount_table w = p :: repeat None 7 -> root_only w.
Proof.
  intros E id Hid. unfold mounted. rewrite E. unfold zget. destruct (Z.ltb_spec id 0); [done|].
  destruct (Z.to_nat id) as [|k] eqn:Ek; [lia|]. cbn [lookup list_lookup].
  destruct (repeat None 7 !! k) as [o|] eqn:El; [|done]. by apply list_elem_of_lookup_2, list_elem_of_In, repeat_spec in El as ->.
Qed.

Lemma init_loop_root types : forall i (w : state) w', vfs_mount_table w = repeat None 8 ->
  init_loop types i w = Ret (true, w') -> root_only w'.
Proof.
  assert (Hm : forall i (w : state) w', vfs_mount_table w = repeat None 8 ->
    ('(_, p, s) <- fs_mount i (vfs_state w) ;; m <- of_option (zset (vfs_mount_table w) 0 p) ;;
       Ret (true, Vfs m s (vfs_pages w))) = Ret (true, w') -> root_only w').
  { intros i w w' E. destruct (fs_mount i (vfs_state w)) as [[[r p] s]| | |]; [|done..]. cbn [obind]. rewrite E. cbn.
    intros [= <-]. by eapply root_only_table. }
  induction types as [|ty types IH]; intros i w w' E; [done|]. cbn [init_loop].
  destruct ty; try by apply IH. { by apply Hm. }
  destruct (fs_probe i (vfs_state w)) as [[r s]| | |]; [|done..]. cbn [obind].
  destruct (negb (r =? 0)); [by apply IH|by apply Hm].
Qed.

(** the second mount-table slot is never filled.  After [vfs_init] mounted
    the root filesystem, opening, sizing, creating or removing any name the
    resolver sends to another slot (a path whose first part is "fat32") calls
    through a null driver pointer. *)
Theorem unmounted_prefix_faults junk cwd types (w0 w : state) name id path mode :
  vfs_init types w0 = Ret w -> resolve junk cwd name = Ret (id, path) -> id <> 0 ->
  vfs_fd_open junk cwd name mode w = Fault /\ vfs_dir_open junk cwd name w = Fault /\
  vfs_file_get_size junk cwd name w = Fault /\ vfs_mkdir junk cwd name w = Fault /\
  vfs_file_remove junk cwd name w = Fault.
Proof.
  unfold vfs_init. intros Hi Hr Hid. destruct (init_loop _ _ _) as [[b w']| | |] eqn:E; [|done..]. cbn [obind] in Hi.
  destruct b; [|done]. injection Hi as <-. eapply init_loop_root in E; [|done].
  assert (Hc : forall f, call (vfs_take w') id f = Fault).
  { intros f. unfold call. change (mounted (vfs_take w') id) with (mounted w' id). by rewrite (E _ Hid). }
  unfold vfs_fd_open, vfs_dir_open, vfs_file_get_size, vfs_mkdir, vfs_file_remove, on_path.
  rewrite Hr. cbn [obind]. rewrite !Hc. done.
Qed.

End mounting.

(** ** FAT32 as a driver (fat32.c) *)

Section fat32_driver.
Context {S : Type} `{PartitionLaws S}.
Variable junk : list Z.
Hypothesis junk_page : 512 <= zlen junk.
Variable fuel : nat.
Variable undef : list Z.

#[export] Instance fat32_driver : FilesystemDriver FAT32Private (fs S) := {
  fs_mount := fat32_mount junk;
  fs_probe := fat32_probe junk;
  fs_set_default_attr := fat32_set_default_attr;
  fs_dir_first_file := fat32_dir_first_file junk fuel undef;
  fs_dir_read := fat32_dir_read junk fuel undef;
  fs_open := fat32_open junk fuel undef;
  fs_create_file := fat32_file_create junk fuel undef;
  fs_update_size := fat32_update_size junk fuel undef;
  fs_read := fat32_read junk;
  fs_write := fat32_write junk fuel;
  fs_get_file_size := fat32_file_size junk fuel undef;
  fs_get_file_mode := fat32_file_mode junk fuel undef;
  fs_create_directory := fat32_mkdir junk fuel undef;
  fs_remove_file := fat32_file_remove junk fuel undef
}.

(** A FAT32 file: a cluster chain of a well-formed volume with enough free
    clusters to reach [cap]. *)
Definition fat32_file_is (p : FAT32Private) (s : fs S) (b : Z) (data : list Z) (cap : Z) : Prop :=
  exists nclus size v g l k, geometry p nclus size /\ holds p size s v g /\ chain p nclus v b l /\
    data = file_data p v l /\ fat_wf p nclus v /\ has_free p v k /\
    cap <= (zlen l + Z.of_nat k) * clussize p /\ cap <= Z.of_nat fuel * clussize p.

(** The volume stays well formed under writes. *)
Lemma fat_wf_extends p nclus size v v' c l ext : geometry p nclus size -> fat_wf p nclus v ->
  chain p nclus v' c (l ++ ext) -> extends p nclus v v' l ext -> fat_wf p nclus v'.
Proof.
  intros geo Hw Hc (_ & Hf & _) x Hx Hz. apply Hw; [done|]. rewrite <- Hf; [done..|].
  intros Hin. by eapply (chain_entry p nclus).
Qed.

#[export] Program Instance fat32_driver_laws : FilesystemLaws FAT32Private (fs S) := {
  file_is := fat32_file_is
}.
Next Obligation.
  intros p s b data cap buf off n (nclus & size & v & g & l & k & geo & Hh & Hc & -> & Hw & Hf & Hk & Hfu) Ho Hn Hin H31 Hb.
  pose proof (holds_image _ _ _ _ _ Hh) as Hv.
  rewrite (file_data_length junk _ _ _ geo) in Hin by done.
  destruct (read_ok junk junk_page p nclus size geo v b l off n buf s g) as (s' & E & Hh'); [done..|].
  exists s'. split; [exact E|]. exists nclus, size, v, g, l, k. auto 10.
Qed.
Next Obligation.
  intros p s b data cap buf off n (nclus & size & v & g & l & k & geo & Hh & Hc & -> & Hw & Hf & Hk & Hfu) Ho Hn Hcap H31 Hb.
  pose proof (holds_image _ _ _ _ _ Hh) as Hv. pose proof (file_data_length junk _ _ _ geo v) as Hfl.
  rewrite Hfl in Ho by done.
  destruct (write_loop_ok junk junk_page fuel p nclus size geo b buf off n (Z.to_nat n)) with (v := v) (l := l) (off := 0) (k := k) (s := s) (g := g)
    as (s' & v' & ext & E & Hh' & Hch & Hlen & Hfd & Hext); [lia|lia|lia|lia|done|done|lia|lia|lia|done|done|lia|].
  pose proof (holds_image _ _ _ _ _ Hh') as Hv'. rewrite Z.add_0_r, Z.sub_0_r in Hfd.
  pose proof (file_data_length junk _ _ _ geo v' (l ++ ext) Hv') as Hfl'.
  assert (Hsl : zlen (slice 0 n buf) = n) by (apply slice_length; lia).
  assert (Hzl : zlen (l ++ ext) = zlen l + zlen ext) by apply zlen_app.
  assert (0 <= zlen ext * clussize p) by (pose proof (clussize_range _ _ _ geo); unfold zlen; nia).
  assert (Eapp : file_data p v (l ++ ext) = file_data p v l ++ file_data p v ext) by apply flat_map_app.
  exists s', (file_data p v' (l ++ ext)), (Z.min (zlen (l ++ ext) * clussize p) (Z.of_nat fuel * clussize p)).
  split; [exact E|]. split_and!.
  - exists nclus, size, v', g, (l ++ ext), 0%nat. split_and!; try done; try lia.
    + by eapply fat_wf_extends.
    + exists []. split_and!; [apply NoDup_nil_2|done|]. by intros x ?%not_elem_of_nil.
  - rewrite Hfl by done. rewrite Hfl'. lia.
  - rewrite Hfl'. lia.
  - rewrite Hfd. rewrite <- Hsl at 1. apply slice_splice_same; [lia|]. rewrite Hfl by done. lia.
  - intros i m Hi Hm Hdis Him. rewrite Hfd. rewrite Hfl in Him by done.
    rewrite slice_splice_other; [|lia|rewrite Hfl by done; lia|lia|lia|lia].
    rewrite Eapp. apply slice_take_app; [done|done|]. rewrite Hfl by done. lia.
Qed.

End fat32_driver.

(** ** The example volume, mounted *)

#[local] Existing Instance ex_store.
#[local] Existing Instance ex_store_laws.

Definition ex_driver : FilesystemDriver FAT32Private (fs (hal ramdisk)) := fat32_driver ex_junk 10 ex_undef.
Definition ex_driver_laws : FilesystemLaws FAT32Private (fs (hal ramdisk)) :=
  fat32_driver_laws ex_junk ex_junk_page 10 ex_undef.
#[local] Existing Instance ex_driver.
#[local] Existing Instance ex_driver_laws.

Definition ex_vfs : vfs FAT32Private (fs (hal ramdisk)) := Vfs (Some ex_priv :: repeat None 7) (ex_volume 0) 0.

(** A 900-byte file in the two-cluster chain at cluster 3, open for reading and
    writing. *)
Definition ex_fd (off : Z) : FileDesc := FD true false true true false 0 3 off 900 (Path 0 []).

Lemma ex_fd_file off : 0 <= off -> fd_file ex_vfs (ex_fd off) (file_data ex_priv (ex_image 0) [3; 4]) 2560.
Proof.
  intros Ho. unfold fd_file. cbn [ex_fd fd_used fd_dir fd_offset fd_size fd_fs_id fd_block]. split_and!; [done|done|lia|lia|lia| |].
  - by vm_compute.
  - exists ex_priv. split; [done|]. exists 21, 26, (ex_image 0), 0, [3; 4], 3%nat.
    split_and!; [apply ex_geometry|apply ex_holds|apply ex_chain3; by left|done|apply ex_fat_wf|apply ex_has_free|by vm_compute..].
Qed.

Lemma vfs_fd_read_correct_witness :
  exists buf' fd' w', vfs_fd_read (ex_fd 850) (repeat 0 100) 100 ex_vfs = Ret (50, buf', fd', w') /\
    slice 0 50 buf' = slice 850 50 (fd_contents (ex_fd 850) (file_data ex_priv (ex_image 0) [3; 4])) /\
    fd_offset fd' = 900 /\ fd_size fd' = 900 /\ fd_file w' fd' (file_data ex_priv (ex_image 0) [3; 4]) 2560.
Proof.
  apply (vfs_fd_read_correct (ex_fd 850) (repeat 0 100) 100 ex_vfs); [by apply ex_fd_file|by vm_compute..].
Defined.

(** Growing the file beyond its two clusters, then reading the bytes back. *)
Lemma fd_write_seek_read_witness :
  exists fd1 w1 fd2 rbuf' fd3 w3,
    vfs_fd_write (ex_fd 800) (repeat 7 1000) 1000 ex_vfs = Ret (1000, fd1, w1) /\
    vfs_fd_seek fd1 800 SEEK_SET = (800, fd2) /\
    vfs_fd_read fd2 (repeat 0 1000) 1000 w1 = Ret (1000, rbuf', fd3, w3) /\
    slice 0 1000 rbuf' = slice 0 1000 (repeat 7 1000) /\ fd_size fd1 = 1800.
Proof.
  apply (fd_write_seek_read (ex_fd 800) (repeat 7 1000) 1000 ex_vfs (file_data ex_priv (ex_image 0) [3; 4]) 2560);
    [by apply ex_fd_file|by vm_compute..].
Defined.

(** "/fat32", on the volume as [vfs_init] mounts it. *)
Lemma unmounted_prefix_faults_witness :
  exists w, vfs_init [HAL_PARTITION_TYPE_FAT32] (Vfs [] (ex_volume 0) 0) = Ret w /\
    vfs_fd_open (repeat 0 4096) (Path 0 []) (47 :: fat32_name) O_READ w = Fault.
Proof.
  destruct (vfs_init [HAL_PARTITION_TYPE_FAT32] (Vfs [] (ex_volume 0) 0)) as [w| | |] eqn:E;
    [|exfalso; revert E; by vm_compute..].
  exists w. split; [done|].
  eapply (unmounted_prefix_faults (repeat 0 4096) (Path 0 []) _ _ w (47 :: fat32_name)); [exact E|by vm_compute|done].
Defined.
