(* ===== verification/Vm.v ===== *)
(** kernel/arch/x86/vm.c: page tables and address spaces.

    Page tables are bytes in page frames, as on the machine: [frames] maps the
    kernel address of each page held by this layer to its 4096 bytes, entries
    are 64-bit little-endian words in them, and touching any other page is a
    [Fault].  Frames come from an allocator that is an interface
    ([PageAllocator], with the laws [AllocatorLaws]); [kmem_allocator] is the
    allocator of kalloc.c as an instance of it.

    [pte_of] is the address translation of the processor.  The theorems relate
    the operations to it: mapping, unmapping, growing, shrinking, copying and
    freeing an address space change exactly the translations they should. *)

From stdpp Require Import base list gmap strings.
From Stdlib Require Import ZArith Lia.
From S2P Require Import Prelude Mmu Kalloc.

Local Open Scope Z_scope.
Local Open Scope outcome_scope.

(** Linear arithmetic on addresses. *)
Ltac plia := unfold is_u32, PGSIZE in *; lia.

(** ** The frame allocator as an interface *)

Class PageAllocator (A : Type) := {
  pa_pgalloc : Z -> A -> outcome (Z * A);
  pa_pgfree : Z -> Z -> A -> outcome A
}.

(** [kalloc] and [kfree] of defs.h. *)
Definition pa_alloc {A} `{PageAllocator A} (a : A) : outcome (Z * A) := pa_pgalloc 1 a.
Definition pa_free {A} `{PageAllocator A} (p : Z) (a : A) : outcome A := pa_pgfree p 1 a.

(** A frame: page-aligned, in the kernel's window on physical memory. *)
Definition frame_ok (p : Z) : Prop := p mod PGSIZE = 0 /\ KERNBASE < p < KERNBASE + PHYSTOP.

(** Different pages do not overlap. *)
Lemma pages_apart p q : frame_ok p -> frame_ok q -> p <> q -> p + 4096 <= q \/ q + 4096 <= p.
Proof. intros [Hp _] [Hq _] Hne. unfold PGSIZE in *. pose proof (Z.div_mod p 4096). pose proof (Z.div_mod q 4096). lia. Qed.

(** [pa_holds a H n]: the frames [H] are handed out and [n] are free. *)
Class AllocatorLaws (A : Type) `{PageAllocator A} := {
  pa_holds : A -> gset Z -> Z -> Prop;
  pa_alloc_law a H n : pa_holds a H n -> 0 < n ->
    exists p a', pa_alloc a = Ret (p, a') /\ p ∉ H /\ frame_ok p /\ pa_holds a' ({[p]} ∪ H) (n - 1);
  pa_free_law a H n p : pa_holds a H n -> p ∈ H ->
    exists a', pa_free p a = Ret a' /\ pa_holds a' (H ∖ {[p]}) (n + 1)
}.

(** *** The allocator of kalloc.c *)

Section kmem_allocator.
Variable fuel : nat.

#[export] Instance kmem_allocator : PageAllocator kmem := {
  pa_pgalloc := pgalloc fuel;
  pa_pgfree := pgfree
}.

Definition in_window (b : Z * Z) : Prop := KERNBASE + 1 <= b.1 /\ b.1 + b.2 * PGSIZE <= KERNBASE + PHYSTOP.

(** The held frames are one-page blocks of the allocator's clients. *)
Definition kmem_holds (k : kmem) (H : gset Z) (n : Z) : Prop :=
  exists own l, kmem_rep k l /\ blocks_wf (own ++ l) /\ Forall in_window (own ++ l) /\
    pages own + pages l < Z.of_nat fuel /\ n = pages l /\ forall p, p ∈ H -> (p, 1) ∈ own.

Lemma pages_length l : blocks_wf l -> Z.of_nat (length l) <= pages l.
Proof. induction l as [|b l IH]; [done|]. intros ((_ & _ & ? & _) & _ & Hw). specialize (IH Hw). unfold pages in *. simpl in *. lia. Qed.

Lemma blocks_wf_mem p n own l : blocks_wf (((p, n) :: own) ++ l) -> (p, 1) ∉ own.
Proof.
  intros ((_ & _ & Hn & _) & Hd & _) Hin. apply Forall_app in Hd as [Hd _].
  rewrite Forall_forall in Hd. specialize (Hd _ Hin). unfold block_disj, PGSIZE in Hd. cbn in *. lia.
Qed.

#[export] Program Instance kmem_allocator_laws : AllocatorLaws kmem := {
  pa_holds := kmem_holds
}.
Next Obligation.
  intros k H n (own & l & Hrep & Hwf & Hwin & Hfu & -> & Hown) Hn.
  pose proof Hwf as (Hwo & Hwl & _)%blocks_wf_app. pose proof (pages_length l Hwl). pose proof (pages_length own Hwo).
  pose proof (pgalloc_first_fit fuel 1 k l ltac:(lia) ltac:(lia) Hrep) as Hp.
  destruct (first_fit 1 l) as [[p l']|] eqn:E; cycle 1.
  { destruct l as [|[a j] l]; [cbn in Hn; lia|]. cbn in E. destruct Hwl as ((_ & _ & Hj & _) & _). cbn in Hj.
    destruct (Z.leb_spec 1 j); [done|lia]. }
  destruct Hp as (k' & Ek & Hrep' & _). pose proof (first_fit_own 1 l p l' own ltac:(lia) Hwf E) as Hwf'.
  apply Forall_app in Hwin as [Hw1 Hw2]. destruct (first_fit_within _ _ 1 l p l' ltac:(lia) Hw2 E) as [Hwp Hw2'].
  destruct (first_fit_spec 1 l p l' ltac:(lia) Hwl E) as (Hok & _ & Hpg & _).
  exists p, k'. split; [done|]. split; [|split].
  - intros Hin%Hown. by apply (blocks_wf_mem p 1 own l') in Hin.
  - destruct Hok as (Hal & _). unfold frame_ok, PGSIZE in *. cbn in *. lia.
  - exists ((p, 1) :: own), l'. split_and!; [done|done|by constructor; [|apply Forall_app]|unfold pages in *; simpl in *; lia|lia|].
    intros q [->%elem_of_singleton|Hq%Hown]%elem_of_union; [by left|by right].
Qed.
Next Obligation.
  intros k H n p (own & l & Hrep & Hwf & Hwin & Hfu & -> & Hown) Hp. cbn.
  destruct (elem_of_Permutation own (p, 1)) as [[own' Hperm] _]; [by apply Hown|].
  assert (Hpl : own ++ l ≡ₚ own' ++ (p, 1) :: l) by (rewrite Hperm; simpl; apply Permutation_middle).
  pose proof (blocks_wf_perm _ _ Hpl Hwf) as Hwf'. pose proof Hwf' as (_ & (Hok & Hd & _) & _)%blocks_wf_app.
  destruct (pgfree_cons p 1 k l Hok Hd Hrep) as (k' & Ek & Hrep' & _). exists k'. split; [done|].
  exists own', ((p, 1) :: l). split_and!; [done|done|by rewrite <- Hpl| |unfold pages; simpl; lia|].
  - rewrite (pages_perm _ _ Hperm) in Hfu. unfold pages in *. simpl in *. lia.
  - intros q [Hq Hne]%elem_of_difference. apply Hown in Hq. rewrite Hperm in Hq.
    apply elem_of_cons in Hq as [[= ->]|Hq]; [set_solver|done].
Qed.

End kmem_allocator.

(** ** State *)

Notation page_frames := (gmap Z (list Z)) (only parsing).
(** The pages of user memory: frame and flags of each. *)
Notation user_map := (gmap Z (Z * Z)) (only parsing).

Record vm (A : Type) := Vm {
  frames : page_frames;
  pool : A;
  kpgdir : Z;
  module_base : Z;
  cr3 : Z
}.
Arguments Vm {A}.
Arguments frames {A}.
Arguments pool {A}.
Arguments kpgdir {A}.
Arguments module_base {A}.
Arguments cr3 {A}.

(** *** Memory accesses *)

Definition put64 (off w : Z) (l : list Z) : list Z := splice off (le_bytes 8 w) l.

Definition read64 (f : page_frames) (a : Z) : outcome Z :=
  page <- of_option (f !! PGROUNDDOWN a) ;; Ret (get64 (a mod PGSIZE) page).

Definition write64 (f : page_frames) (a w : Z) : outcome page_frames :=
  page <- of_option (f !! PGROUNDDOWN a) ;; Ret (<[PGROUNDDOWN a := put64 (a mod PGSIZE) w page]> f).

(** [memset(p, 0, PGSIZE)] on a frame. *)
Definition zero_frame (f : page_frames) (p : Z) : outcome page_frames :=
  _ <- of_option (f !! p) ;; Ret (<[p := repeat 0 4096]> f).

(** Address of entry [i] of the table at [t]. *)
Definition entry_addr (t i : Z) : Z := u32 (t + 8 * i).

Definition present (e : Z) : bool := negb (Z.land e PTE_P =? 0).

Section operations.
Context {A : Type} `{PageAllocator A}.
(** Contents of a frame just allocated. *)
Variable junk : list Z.
(** Start of the kernel's data section (kernel.ld). *)
Variable data : Z.

Local Notation state := (vm A).

Definition with_frames (s : state) (f : page_frames) : state := Vm f (pool s) (kpgdir s) (module_base s) (cr3 s).

Definition vm_kalloc (s : state) : outcome (Z * state) :=
  '(p, a) <- pa_alloc (pool s) ;;
  Ret (p, Vm (<[p := junk]> (frames s)) a (kpgdir s) (module_base s) (cr3 s)).

Definition vm_kfree (p : Z) (s : state) : outcome state :=
  _ <- of_option (frames s !! p) ;;
  a <- pa_free p (pool s) ;;
  Ret (Vm (delete p (frames s)) a (kpgdir s) (module_base s) (cr3 s)).

(** Blocks of several pages: [n] frames from address [p]. *)
Definition block_frames (p n : Z) : list Z := (fun i => p + PGSIZE * Z.of_nat i) <$> seq 0 (Z.to_nat n).

Definition vm_pgalloc (n : Z) (s : state) : outcome (Z * state) :=
  '(p, a) <- pa_pgalloc n (pool s) ;;
  Ret (p, Vm (foldr (fun q f => <[q := junk]> f) (frames s) (block_frames p n)) a (kpgdir s) (module_base s) (cr3 s)).

Definition vm_pgfree (p n : Z) (s : state) : outcome state :=
  _ <- of_option (guard (Forall (fun q => is_Some (frames s !! q)) (block_frames p n))) ;;
  a <- pa_pgfree p n (pool s) ;;
  Ret (Vm (foldr (fun q f => delete q f) (frames s) (block_frames p n)) a (kpgdir s) (module_base s) (cr3 s)).

(** *** Walking *)

(** A new, empty table; [kalloc] does not return 0 but panics. *)
Definition new_table (s : state) : outcome (Z * state) :=
  '(t, s1) <- vm_kalloc s ;;
  f <- zero_frame (frames s1) t ;;
  Ret (t, with_frames s1 f).

Definition walkpgdir (pdpte_table va : Z) (alloc : bool) (perm : Z) (s : state) : outcome (Z * state) :=
  let pdpte := entry_addr pdpte_table (PDPTX va) in
  e <- read64 (frames s) pdpte ;;
  if present e then
    let pde_tab := P2V (PTE_ADDR e) in
    let pde := entry_addr pde_tab (PDX va) in
    e1 <- read64 (frames s) pde ;;
    if present e1 then
      Ret (entry_addr (P2V (PTE_ADDR e1)) (PTX va), s)
    else if negb alloc then Ret (0, s)
    else
      '(pte_tab, s1) <- new_table s ;;
      f <- write64 (frames s1) pde (Z.lor (Z.lor (V2P pte_tab) PTE_P) perm) ;;
      Ret (entry_addr pte_tab (PTX va), with_frames s1 f)
  else if negb alloc then Ret (0, s)
  else
    '(pde_tab, s1) <- new_table s ;;
    f <- write64 (frames s1) pdpte (Z.lor (V2P pde_tab) PTE_P) ;;
    let s2 := with_frames s1 f in
    let pde := entry_addr pde_tab (PDX va) in
    '(pte_tab, s3) <- new_table s2 ;;
    f' <- write64 (frames s3) pde (Z.lor (Z.lor (V2P pte_tab) PTE_P) perm) ;;
    Ret (entry_addr pte_tab (PTX va), with_frames s3 f').

(** *** Mapping *)

(** The body of the loop of [mappages], up to the test for the last page. *)
Definition map_page (pgdir a pa perm : Z) (s : state) : outcome (Z * state) :=
  '(pte, s1) <- walkpgdir pgdir a true (Z.lor PTE_W PTE_U) s ;;
  if pte =? 0 then Ret (-1, s1) else
  e <- read64 (frames s1) pte ;;
  if present e then Panic "remap" else
  f <- write64 (frames s1) pte (Z.lor (Z.lor pa perm) PTE_P) ;;
  Ret (0, with_frames s1 f).

Fixpoint mappages_loop (n : nat) (pgdir a last pa perm : Z) (s : state) : outcome (Z * state) :=
  '(r, s1) <- map_page pgdir a pa perm s ;;
  if r <? 0 then Ret (-1, s1) else
  if a =? last then Ret (0, s1) else
  match n with
  | O => NoFuel
  | S n' => mappages_loop n' pgdir (u32 (a + PGSIZE)) last (u32 (pa + PGSIZE)) perm s1
  end.

(** Pages from [a] up to [last], going around the end of the address space. *)
Definition page_count (a last : Z) : nat := Z.to_nat (u32 (last - a) / PGSIZE).

Definition mappages (pgdir va size pa perm : Z) (s : state) : outcome (Z * state) :=
  let a := PGROUNDDOWN va in
  let last := PGROUNDDOWN (u32 (va + size - 1)) in
  mappages_loop (page_count a last) pgdir a last pa perm s.

Fixpoint unmappages_loop (n : nat) (pgdir a last : Z) (s : state) : outcome (Z * state) :=
  '(pte, s1) <- walkpgdir pgdir a true (Z.lor PTE_W PTE_U) s ;;
  if pte =? 0 then Ret (-1, s1) else
  f <- write64 (frames s1) pte 0 ;;
  let s2 := with_frames s1 f in
  if a =? last then Ret (0, s2) else
  match n with
  | O => NoFuel
  | S n' => unmappages_loop n' pgdir (u32 (a + PGSIZE)) last s2
  end.

Definition unmappages (pgdir va size : Z) (s : state) : outcome (Z * state) :=
  let a := PGROUNDDOWN va in
  let last := PGROUNDDOWN (u32 (va + size - 1)) in
  unmappages_loop (page_count a last) pgdir a last s.

(** *** Shrinking and freeing *)

(** The loop of [deallocuvm]: [n] bounds the pages left below [oldsz]. *)
Fixpoint deallocuvm_loop (n : nat) (pgdir a oldsz : Z) (s : state) : outcome state :=
  if oldsz <=? a then Ret s else
  match n with
  | O => NoFuel
  | S n' =>
    '(pte, s1) <- walkpgdir pgdir a false (Z.lor PTE_W PTE_U) s ;;
    s2 <- (if pte =? 0 then Ret s1 else
             e <- read64 (frames s1) pte ;;
             if negb (present e) then Ret s1 else
             let pa := u32 (PTE_ADDR e) in
             if pa =? 0 then Panic "kfree" else
             s2 <- vm_kfree (P2V pa) s1 ;;
             f <- write64 (frames s2) pte 0 ;;
             Ret (with_frames s2 f)) ;;
    deallocuvm_loop n' pgdir (u32 (a + PGSIZE)) oldsz s2
  end.

(** Enough iterations to get from [a] to [oldsz] (or around, if it never stops below). *)
Definition pages_below (a oldsz : Z) : nat := Z.to_nat ((oldsz - a + PGSIZE - 1) / PGSIZE).

Definition deallocuvm (pgdir oldsz newsz : Z) (s : state) : outcome (Z * state) :=
  if oldsz <=? newsz then Ret (oldsz, s) else
  let a := PGROUNDUP newsz in
  s' <- deallocuvm_loop (pages_below a oldsz) pgdir a oldsz s ;;
  Ret (newsz, s').

Definition NPDENTRIES : nat := 512.

Fixpoint freevm_loop (n : nat) (pgdir i : Z) (s : state) : outcome state :=
  match n with
  | O => Ret s
  | S n' =>
    e <- read64 (frames s) (entry_addr pgdir i) ;;
    s1 <- (if present e then vm_kfree (P2V (PTE_ADDR e)) s else Ret s) ;;
    freevm_loop n' pgdir (i + 1) s1
  end.

Definition freevm (pgdir : Z) (s : state) : outcome state :=
  if pgdir =? 0 then Panic "freevm: no pgdir" else
  '(_, s1) <- deallocuvm pgdir KERNBASE 0 s ;;
  s2 <- freevm_loop NPDENTRIES pgdir 0 s1 ;;
  vm_kfree pgdir s2.

(** *** Growing *)

Fixpoint allocuvm_loop (n : nat) (pgdir a oldsz newsz perm : Z) (s : state) : outcome (Z * state) :=
  if newsz <=? a then Ret (newsz, s) else
  match n with
  | O => NoFuel
  | S n' =>
    '(mem, s1) <- vm_kalloc s ;;
    if mem =? 0 then
      '(_, s2) <- deallocuvm pgdir newsz oldsz s1 ;; Ret (0, s2)
    else
    f <- zero_frame (frames s1) mem ;;
    '(r, s2) <- mappages pgdir a PGSIZE (V2P mem) perm (with_frames s1 f) ;;
    if r <? 0 then
      '(_, s3) <- deallocuvm pgdir newsz oldsz s2 ;;
      s4 <- vm_kfree mem s3 ;;
      Ret (0, s4)
    else allocuvm_loop n' pgdir (u32 (a + PGSIZE)) oldsz newsz perm s2
  end.

Definition allocuvm (pgdir oldsz newsz perm : Z) (s : state) : outcome (Z * state) :=
  if newsz <? oldsz then Ret (oldsz, s) else
  let a := PGROUNDUP oldsz in
  allocuvm_loop (pages_below a newsz) pgdir a oldsz newsz perm s.

(** *** Copying *)

(** [memmove] of a whole frame. *)
Definition copy_frame (f : page_frames) (dst src : Z) : outcome page_frames :=
  page <- of_option (f !! src) ;;
  _ <- of_option (f !! dst) ;;
  Ret (<[dst := page]> f).

Fixpoint copyuvm_loop (n : nat) (newpgdir oldpgdir i end_ : Z) (s : state) : outcome (Z * state) :=
  if end_ <=? i then Ret (newpgdir, s) else
  match n with
  | O => NoFuel
  | S n' =>
    '(pte, s1) <- walkpgdir oldpgdir i false (Z.lor PTE_W PTE_U) s ;;
    if pte =? 0 then Panic "copyuvm: pte should exist" else
    e <- read64 (frames s1) pte ;;
    if negb (present e) then Panic "copyuvm: page not present" else
    let pa := u32 (PTE_ADDR e) in
    let flags := u32 (PTE_FLAGS e) in
    '(mem, s2) <- vm_kalloc s1 ;;
    if mem =? 0 then Ret (0, s2) else
    f <- copy_frame (frames s2) mem (P2V pa) ;;
    '(r, s3) <- mappages newpgdir i PGSIZE (V2P mem) flags (with_frames s2 f) ;;
    if r <? 0 then
      s4 <- vm_kfree mem s3 ;; Ret (0, s4)
    else copyuvm_loop n' newpgdir oldpgdir (u32 (i + PGSIZE)) end_ s3
  end.

Definition copyuvm (newpgdir oldpgdir begin end_ : Z) (s : state) : outcome (Z * state) :=
  copyuvm_loop (pages_below begin end_) newpgdir oldpgdir begin end_ s.

Fixpoint copypgdir_loop (n : nat) (newpgdir oldpgdir i end_ : Z) (s : state) : outcome (Z * state) :=
  if end_ <=? i then Ret (newpgdir, s) else
  match n with
  | O => NoFuel
  | S n' =>
    '(pte, s1) <- walkpgdir oldpgdir i false (Z.lor PTE_W PTE_U) s ;;
    if pte =? 0 then Panic "copypgdir: pte should exist" else
    e <- read64 (frames s1) pte ;;
    if negb (present e) then Panic "copypgdir: page not present" else
    let pa := u32 (PTE_ADDR e) in
    let flags := u32 (PTE_FLAGS e) in
    '(r, s2) <- mappages newpgdir i PGSIZE pa flags s1 ;;
    if r <? 0 then Ret (0, s2)
    else copypgdir_loop n' newpgdir oldpgdir (u32 (i + PGSIZE)) end_ s2
  end.

Definition copypgdir (newpgdir oldpgdir begin end_ : Z) (s : state) : outcome (Z * state) :=
  copypgdir_loop (pages_below begin end_) newpgdir oldpgdir begin end_ s.

(** *** The kernel's part of an address space *)

(** The table of kernel mappings: address, physical range, permissions. *)
Definition kmap : list (Z * Z * Z * Z) :=
  [(KERNBASE, 0, EXTMEM, PTE_W);
   (KERNLINK, V2P KERNLINK, V2P data, 0);
   (data, V2P data, PHYSTOP, PTE_W);
   (DEVSPACE, DEVSPACE, 0, PTE_W)].

Fixpoint setupkvm_loop (ks : list (Z * Z * Z * Z)) (pgdir : Z) (s : state) : outcome (Z * state) :=
  match ks with
  | [] => Ret (0, s)
  | (virt, phys_start, phys_end, perm) :: ks' =>
    '(r, s1) <- mappages pgdir virt (u32 (phys_end - phys_start)) phys_start perm s ;;
    if r <? 0 then s2 <- freevm pgdir s1 ;; Ret (-1, s2)
    else setupkvm_loop ks' pgdir s1
  end.

Definition module_set_pgdir (pgdir : Z) (s : state) : outcome state :=
  '(r, s1) <- copypgdir pgdir (kpgdir s) PROC_MODULE_BOTTOM (module_base s) s ;;
  if r =? 0 then Panic "module_set_pgdir failed" else Ret s1.

Definition setupkvm (s : state) : outcome (Z * state) :=
  '(pgdir, s1) <- vm_kalloc s ;;
  if pgdir =? 0 then Ret (0, s1) else
  f <- zero_frame (frames s1) pgdir ;;
  if DEVSPACE <? P2V PHYSTOP then Panic "PHYSTOP too high" else
  '(r, s2) <- setupkvm_loop kmap pgdir (with_frames s1 f) ;;
  if r <? 0 then Ret (0, s2) else
  s3 <- module_set_pgdir pgdir s2 ;;
  Ret (pgdir, s3).

Definition switchkvm (s : state) : state :=
  Vm (frames s) (pool s) (kpgdir s) (module_base s) (V2P (kpgdir s)).

Definition kvmalloc (s : state) : outcome state :=
  '(pgdir, s1) <- setupkvm s ;;
  Ret (switchkvm (Vm (frames s1) (pool s1) pgdir (module_base s1) (cr3 s1))).

(** [switchuvm]: its checks, and the address space it selects; [kstack] and
    [pgdir] are fields of the process. *)
Definition switchuvm (kstack pgdir : Z) (s : state) : outcome state :=
  if kstack =? 0 then Panic "switchuvm: no kstack" else
  if pgdir =? 0 then Panic "switchuvm: no pgdir" else
  Ret (Vm (frames s) (pool s) (kpgdir s) (module_base s) (V2P pgdir)).

(** *** Access to user memory *)

(** Bytes of frame [p] from [off], replaced by [bs]. *)
Definition write_frame (f : page_frames) (p off : Z) (bs : list Z) : outcome page_frames :=
  page <- of_option (f !! p) ;;
  page' <- copy_into page off bs ;;
  Ret (<[p := page']> f).

Definition inituvm (pgdir : Z) (init : list Z) (sz : Z) (s : state) : outcome state :=
  if PGSIZE <=? sz then Panic "inituvm: more than a page" else
  '(mem, s1) <- vm_kalloc s ;;
  f <- zero_frame (frames s1) mem ;;
  '(_, s2) <- mappages pgdir 0 PGSIZE (V2P mem) (Z.lor PTE_W PTE_U) (with_frames s1 f) ;;
  bs <- copy_from init 0 sz ;;
  f' <- write_frame (frames s2) mem 0 bs ;;
  Ret (with_frames s2 f').

Definition clearpteu (pgdir uva : Z) (s : state) : outcome state :=
  '(pte, s1) <- walkpgdir pgdir uva false (Z.lor PTE_W PTE_U) s ;;
  if pte =? 0 then Panic "clearpteu" else
  e <- read64 (frames s1) pte ;;
  f <- write64 (frames s1) pte (Z.ldiff e PTE_U) ;;
  Ret (with_frames s1 f).

(** A null [pte] is dereferenced. *)
Definition uva2ka (pgdir uva : Z) (s : state) : outcome Z :=
  '(pte, s1) <- walkpgdir pgdir uva false (Z.lor PTE_W PTE_U) s ;;
  if pte =? 0 then Fault else
  e <- read64 (frames s1) pte ;;
  if negb (present e) then Ret 0 else
  if Z.land e PTE_U =? 0 then Ret 0 else
  Ret (P2V (PTE_ADDR e)).

Fixpoint copyout_loop (n : nat) (pgdir va : Z) (buf : list Z) (s : state) : outcome (Z * state) :=
  match buf with
  | [] => Ret (0, s)
  | _ :: _ =>
    match n with
    | O => NoFuel
    | S n' =>
      let va0 := PGROUNDDOWN va in
      pa0 <- uva2ka pgdir va0 s ;;
      if pa0 =? 0 then Ret (-1, s) else
      let k := Z.min (PGSIZE - (va - va0)) (zlen buf) in
      f <- write_frame (frames s) pa0 (va - va0) (slice 0 k buf) ;;
      copyout_loop n' pgdir (u32 (va0 + PGSIZE)) (drop (Z.to_nat k) buf) (with_frames s f)
    end
  end.

(** [copyout] of the first [len] bytes at [p]. *)
Definition copyout (pgdir va : Z) (p : list Z) (len : Z) (s : state) : outcome (Z * state) :=
  bs <- copy_from p 0 len ;;
  copyout_loop (Z.to_nat len) pgdir va bs s.

Definition map_region (phyaddr size : Z) : outcome Z :=
  if phyaddr <? DEVSPACE then Panic "map_region: phyaddr not within DEVSPACE" else Ret phyaddr.
Definition map_mmio_region (phyaddr size : Z) : outcome Z := map_region phyaddr size.
Definition map_ram_region (phyaddr size : Z) : outcome Z := map_region phyaddr size.
Definition map_rom_region (phyaddr size : Z) : outcome Z := map_region phyaddr size.

End operations.

(** ** Page tables as trees *)

(** What a page of a page table is: the root, the directory of gigabyte [i], or
    the table of its entry [j]. *)
Inductive role := Root | PD (i : Z) | PT (i j : Z).

Definition entry (f : page_frames) (t i : Z) : option Z := get64 (8 * i) <$> f !! t.
Definition set_entry (f : page_frames) (t i w : Z) : page_frames := alter (put64 (8 * i) w) t f.

(** The table page that decides the translation of [va]. *)
Definition leaf (f : page_frames) (root va : Z) : option Z :=
  match entry f root (PDPTX va) with
  | Some e =>
    if present e then
      match entry f (P2V (PTE_ADDR e)) (PDX va) with
      | Some e1 => if present e1 then Some (P2V (PTE_ADDR e1)) else None
      | None => None
      end
    else None
  | None => None
  end.

(** Address translation: the entry for [va], if present. *)
Definition pte_of (f : page_frames) (root va : Z) : option Z :=
  match leaf f root va with
  | Some t =>
    match entry f t (PTX va) with
    | Some e => if present e then Some e else None
    | None => None
    end
  | None => None
  end.

(** [sh] gives the role of each page of the table at [root]. *)
Record pt_wf (f : page_frames) (sh : gmap Z role) (root : Z) : Prop := {
  wf_root : sh !! root = Some Root;
  wf_page p r : sh !! p = Some r -> frame_ok p /\ exists page, f !! p = Some page /\ zlen page = PGSIZE;
  wf_pd i e : 0 <= i < 4 -> entry f root i = Some e -> present e = true -> sh !! P2V (PTE_ADDR e) = Some (PD i);
  wf_hole i : 4 <= i < 512 -> entry f root i = Some 0;
  wf_pt p i j e : sh !! p = Some (PD i) -> 0 <= j < 512 -> entry f p j = Some e -> present e = true ->
    sh !! P2V (PTE_ADDR e) = Some (PT i j)
}.

(** *** Entries *)

Lemma zlen_le_bytes n w : zlen (le_bytes n w) = Z.of_nat n.
Proof. unfold zlen. by rewrite le_bytes_length. Qed.

Lemma get64_put64_eq off w l : 0 <= off -> off + 8 <= zlen l -> 0 <= w < 2^64 -> get64 off (put64 off w l) = w.
Proof.
  intros Ho Hl Hw. unfold get64, put64. pose proof (zlen_le_bytes 8 w) as E. change (Z.of_nat 8) with 8 in E.
  rewrite <- E at 1. rewrite slice_splice_same by lia. apply le_val_bytes. exact Hw.
Qed.

Lemma get64_put64_ne off off' w l : 0 <= off -> off + 8 <= zlen l -> 0 <= off' -> off' + 8 <= off \/ off + 8 <= off' ->
  get64 off' (put64 off w l) = get64 off' l.
Proof.
  intros. unfold get64, put64. pose proof (zlen_le_bytes 8 w) as E. change (Z.of_nat 8) with 8 in E.
  by rewrite slice_splice_other by lia.
Qed.

Lemma put64_length off w l : 0 <= off -> off + 8 <= zlen l -> zlen (put64 off w l) = zlen l.
Proof. intros. apply splice_length; [done|]. pose proof (zlen_le_bytes 8 w). lia. Qed.

Lemma get64_zeros off n : get64 off (repeat 0 n) = 0.
Proof.
  assert (Hz : Forall (fun x => x = 0) (slice off 8 (repeat 0 n))).
  { apply Forall_take, Forall_drop, Forall_forall. intros x ?%list_elem_of_In. by eapply repeat_spec. }
  unfold get64. induction Hz as [|x l -> _ IH]; [done|]. cbn [le_val]. by rewrite IH.
Qed.

Lemma frame_ok_range p : frame_ok p -> is_u32 p /\ 0 < p /\ p + PGSIZE <= KERNBASE + PHYSTOP.
Proof.
  unfold frame_ok, is_u32, PGSIZE, KERNBASE, PHYSTOP. intros [Hm Hr]. split_and!; [lia|lia|lia|].
  Z.to_euclidean_division_equations. lia.
Qed.

Lemma entry_addr_eq t i : frame_ok t -> 0 <= i < 512 -> entry_addr t i = t + 8 * i.
Proof.
  intros Hf Hi. apply frame_ok_range in Hf. unfold entry_addr. apply u32_small.
  unfold is_u32, PGSIZE, KERNBASE, PHYSTOP in *. lia.
Qed.

Lemma entry_addr_page t i : frame_ok t -> 0 <= i < 512 ->
  PGROUNDDOWN (entry_addr t i) = t /\ entry_addr t i mod PGSIZE = 8 * i.
Proof.
  intros Hf Hi. rewrite entry_addr_eq by done. rewrite PGROUNDDOWN_eq. destruct Hf as [Hm _]. unfold PGSIZE in *.
  assert ((t + 8 * i) mod 4096 = 8 * i) as -> by (rewrite Z.add_mod, Hm, Z.add_0_l, Z.mod_mod by lia; apply Z.mod_small; lia).
  lia.
Qed.

Lemma read_entry f t i : frame_ok t -> 0 <= i < 512 -> read64 f (entry_addr t i) = of_option (entry f t i).
Proof.
  intros Hf Hi. unfold read64, entry. destruct (entry_addr_page t i Hf Hi) as [-> ->]. by destruct (f !! t).
Qed.

Lemma write_entry f t i w page : frame_ok t -> 0 <= i < 512 -> f !! t = Some page ->
  write64 f (entry_addr t i) w = Ret (set_entry f t i w).
Proof.
  intros Hf Hi Hp. unfold write64, set_entry. destruct (entry_addr_page t i Hf Hi) as [-> ->]. rewrite Hp.
  cbn [of_option obind]. f_equal. apply map_eq. intros q. destruct (decide (q = t)) as [->|].
  - by rewrite lookup_insert_eq, lookup_alter_eq, Hp.
  - by rewrite lookup_insert_ne, lookup_alter_ne by done.
Qed.

Lemma entry_set_eq f t i w page : f !! t = Some page -> zlen page = PGSIZE -> 0 <= i < 512 -> 0 <= w < 2^64 ->
  entry (set_entry f t i w) t i = Some w.
Proof.
  unfold PGSIZE. intros Hp Hl Hi Hw. unfold entry, set_entry. rewrite lookup_alter_eq, Hp. cbn.
  rewrite get64_put64_eq by lia. done.
Qed.

Lemma entry_set_ne f t i w t' i' page : f !! t = Some page -> zlen page = PGSIZE -> 0 <= i < 512 -> 0 <= i' ->
  t' <> t \/ i' <> i -> entry (set_entry f t i w) t' i' = entry f t' i'.
Proof.
  unfold PGSIZE. intros Hp Hl Hi Hi' Hne. unfold entry, set_entry. destruct (decide (t' = t)) as [->|].
  - rewrite lookup_alter_eq, Hp. cbn. rewrite get64_put64_ne by lia. done.
  - by rewrite lookup_alter_ne.
Qed.

Lemma set_entry_lookup f t i w p page : f !! t = Some page -> zlen page = PGSIZE -> 0 <= i < 512 ->
  p <> t -> set_entry f t i w !! p = f !! p.
Proof. intros. unfold set_entry. by rewrite lookup_alter_ne. Qed.

Lemma set_entry_page f t i w p page : f !! t = Some page -> zlen page = PGSIZE -> 0 <= i < 512 ->
  (exists pg, f !! p = Some pg /\ zlen pg = PGSIZE) -> exists pg, set_entry f t i w !! p = Some pg /\ zlen pg = PGSIZE.
Proof.
  unfold PGSIZE. intros Hp Hl Hi (pg & Hpg & Hlp). unfold set_entry. destruct (decide (p = t)) as [->|].
  - rewrite lookup_alter_eq, Hp. cbn. eexists. split; [done|]. rewrite put64_length; lia.
  - rewrite lookup_alter_ne by done. eauto.
Qed.

(** *** Entries that point at frames *)

Lemma present_bit e : present e = Z.testbit e 0.
Proof.
  unfold present, PTE_P. change 1 with (Z.ones 1). rewrite Z.land_ones by lia. change (2 ^ 1) with 2.
  rewrite Z.bit0_odd, Zmod_odd. by destruct (Z.odd e).
Qed.

Lemma V2P_frame p : frame_ok p -> is_u32 (V2P p) /\ V2P p mod PGSIZE = 0 /\ 0 < V2P p < PHYSTOP /\ P2V (V2P p) = p.
Proof.
  intros Hf. pose proof (frame_ok_range _ Hf) as (Hu & _ & _). destruct Hf as [Hm Hr].
  assert (E : V2P p = p - KERNBASE).
  { unfold V2P. apply u32_small. unfold is_u32, KERNBASE, PHYSTOP in *. lia. }
  split_and!; [unfold V2P; apply u32_range| |unfold KERNBASE in *; lia..|by apply P2V_V2P].
  rewrite E. unfold KERNBASE, PGSIZE in *. rewrite Zminus_mod, Hm. done.
Qed.

Lemma lor_small a b : 0 <= a < 4096 -> 0 <= b < 4096 -> 0 <= Z.lor a b < 4096.
Proof.
  intros Ha Hb. assert (0 <= Z.lor a b) by (apply Z.lor_nonneg; lia). split; [done|].
  destruct (decide (Z.lor a b = 0)) as [->|]; [lia|].
  change 4096 with (2 ^ 12). apply Z.log2_lt_pow2; [lia|]. rewrite Z.log2_lor by lia.
  apply Z.max_lub_lt; (destruct (decide (a = 0)) as [->|], (decide (b = 0)) as [->|]; cbn; try lia;
    apply Z.log2_lt_pow2; lia).
Qed.

(** The entry for frame [p] with flag bits [fl]. *)
Definition mk_pte (p fl : Z) : Z := Z.lor (V2P p) fl.

Lemma lor_bound64 a fl : is_u32 a -> 0 <= fl < 4096 -> 0 <= Z.lor a fl < 2 ^ 64.
Proof.
  unfold is_u32. intros Ha Hf. assert (0 <= Z.lor a fl) by (apply Z.lor_nonneg; lia). split; [done|].
  destruct (decide (Z.lor a fl = 0)) as [->|]; [lia|]. apply Z.log2_lt_pow2; [lia|]. rewrite Z.log2_lor by lia.
  apply Z.max_lub_lt; (destruct (decide (a = 0)) as [->|], (decide (fl = 0)) as [->|]; cbn; try lia;
    apply Z.log2_lt_pow2; lia).
Qed.

Lemma mk_pte_ok p fl : frame_ok p -> 0 <= fl < 4096 -> Z.testbit fl 0 = true ->
  present (mk_pte p fl) = true /\ P2V (PTE_ADDR (mk_pte p fl)) = p /\ PTE_ADDR (mk_pte p fl) = V2P p /\
  PTE_FLAGS (mk_pte p fl) = fl /\ 0 <= mk_pte p fl < 2 ^ 64.
Proof.
  intros Hp Hf Hb. destruct (V2P_frame p Hp) as (Hu & Hm & Hr & E). unfold mk_pte.
  rewrite present_bit, Z.lor_spec, Hb, orb_true_r. rewrite PTE_ADDR_lor, PTE_FLAGS_lor by done.
  split_and!; try done; by apply lor_bound64.
Qed.

Lemma pointer_mk_pte t perm : Z.lor (Z.lor (V2P t) PTE_P) perm = mk_pte t (Z.lor PTE_P perm).
Proof. unfold mk_pte. by rewrite Z.lor_assoc. Qed.

Lemma pointer_flags perm : 0 <= perm < 4096 -> 0 <= Z.lor PTE_P perm < 4096 /\ Z.testbit (Z.lor PTE_P perm) 0 = true.
Proof. intros. split; [apply lor_small; unfold PTE_P; lia|]. by rewrite Z.lor_spec. Qed.

(** *** Adding tables *)

Definition zeros : list Z := repeat 0 4096.

Lemma entry_new f t p k : entry (<[t := zeros]> f) p k = if decide (p = t) then Some 0 else entry f p k.
Proof.
  unfold entry. case_decide as E.
  - subst. rewrite lookup_insert_eq. unfold zeros. cbn [fmap option_fmap option_map]. by rewrite get64_zeros.
  - by rewrite lookup_insert_ne.
Qed.

Lemma zlen_zeros : zlen zeros = PGSIZE.
Proof. unfold zlen, zeros. by rewrite repeat_length. Qed.

#[local] Opaque zeros.

Section tree.
Variables (f : page_frames) (sh : gmap Z role) (root : Z).
Hypothesis wf : pt_wf f sh root.

Lemma shape_page p r : sh !! p = Some r -> exists page, f !! p = Some page /\ zlen page = PGSIZE.
Proof. intros Hp. by destruct (wf_page _ _ _ wf p r Hp). Qed.

Lemma shape_entry p r k : sh !! p = Some r -> exists e, entry f p k = Some e.
Proof. intros Hp. destruct (shape_page p r Hp) as (page & E & _). unfold entry. rewrite E. by eexists. Qed.

Lemma leaf_role va t : leaf f root va = Some t -> sh !! t = Some (PT (PDPTX va) (PDX va)).
Proof.
  unfold leaf. destruct (entry f root (PDPTX va)) as [e|] eqn:E; [|done]. destruct (present e) eqn:Pe; [|done].
  destruct (entry f (P2V (PTE_ADDR e)) (PDX va)) as [e1|] eqn:E1; [|done]. destruct (present e1) eqn:Pe1; [|done].
  intros [= <-]. pose proof (PDPTX_range va). pose proof (PDX_range va).
  eapply (wf_pt _ _ _ wf); [|done..]. by eapply (wf_pd _ _ _ wf).
Qed.

Lemma shape_not_new t p r : f !! t = None -> sh !! p = Some r -> p <> t.
Proof. intros Hn Hp ->. destruct (shape_page _ _ Hp) as (? & ? & _). congruence. Qed.

(** A new page [t] hung into entry [j] of table page [q]. *)
Definition hang (t q j w : Z) : page_frames := set_entry (<[t := zeros]> f) q j w.

Lemma hang_entries t q j w r : f !! t = None -> sh !! q = Some r -> 0 <= j < 512 -> 0 <= w < 2 ^ 64 ->
  (forall p k, 0 <= k -> p <> t -> p <> q \/ k <> j -> entry (hang t q j w) p k = entry f p k) /\
  entry (hang t q j w) q j = Some w /\ (forall k, 0 <= k -> entry (hang t q j w) t k = Some 0).
Proof.
  intros Hnew Hq Hj Bw. assert (Hqt : q <> t) by by eapply shape_not_new.
  destruct (shape_page _ _ Hq) as (qp & Eq & Lq).
  assert (Eq' : (<[t := zeros]> f) !! q = Some qp) by by rewrite lookup_insert_ne. unfold hang. split_and!.
  - intros p k Hk Hpt Hd. erewrite entry_set_ne by done || lia. rewrite entry_new. by rewrite decide_False.
  - by erewrite entry_set_eq.
  - intros k Hk. erewrite entry_set_ne by (done || lia || (left; congruence)). by rewrite entry_new, decide_True.
Qed.

Lemma hang_pages t q j w r r' : f !! t = None -> frame_ok t -> sh !! q = Some r -> 0 <= j < 512 ->
  forall p r0, <[t := r']> sh !! p = Some r0 ->
  frame_ok p /\ exists page, hang t q j w !! p = Some page /\ zlen page = PGSIZE.
Proof.
  intros Hnew Hfr Hq Hj p r0 Hp. assert (Hqt : q <> t) by by eapply shape_not_new.
  destruct (shape_page _ _ Hq) as (qp & Eq & Lq).
  assert (Eq' : (<[t := zeros]> f) !! q = Some qp) by by rewrite lookup_insert_ne.
  unfold hang. destruct (decide (p = t)) as [->|Hpt].
  - split; [done|]. eapply set_entry_page; [done..|]. rewrite lookup_insert_eq. eexists. split; [done|apply zlen_zeros].
  - rewrite lookup_insert_ne in Hp by done. destruct (wf_page _ _ _ wf p r0 Hp) as [Hok Hpg]. split; [done|].
    eapply set_entry_page; [done..|]. by rewrite lookup_insert_ne.
Qed.

(** Hanging a table page into a directory. *)
Lemma add_pt_wf t q i j perm : f !! t = None -> frame_ok t -> sh !! q = Some (PD i) -> 0 <= j < 512 -> 0 <= perm < 4096 ->
  pt_wf (hang t q j (mk_pte t (Z.lor PTE_P perm))) (<[t := PT i j]> sh) root.
Proof.
  intros Hnew Hfr Hq Hj Hperm. destruct (pointer_flags perm Hperm) as [Hfl Hb].
  destruct (mk_pte_ok t _ Hfr Hfl Hb) as (Pw & Aw & _ & _ & Bw).
  destruct (hang_entries t q j _ _ Hnew Hq Hj Bw) as (He & Hw & Hz).
  assert (Hold : forall p r, sh !! p = Some r -> p <> t) by (intros; by eapply shape_not_new).
  assert (Hrt : root <> t) by (eapply Hold, (wf_root _ _ _ wf)).
  assert (Hrq : root <> q) by (intros <-; pose proof (wf_root _ _ _ wf); congruence).
  constructor.
  - rewrite lookup_insert_ne by done. apply (wf_root _ _ _ wf).
  - by eapply hang_pages.
  - intros i' e Hi' E Pe. rewrite He in E by (done || lia || by left).
    pose proof (wf_pd _ _ _ wf i' e Hi' E Pe) as Hp. rewrite lookup_insert_ne; [done|]. symmetry. by eapply Hold.
  - intros i' Hi'. rewrite He by (done || lia || by left). by apply (wf_hole _ _ _ wf).
  - intros p i' j' e Hp Hj' E Pe. destruct (decide (p = t)) as [->|Hpt]; [by rewrite lookup_insert_eq in Hp|].
    rewrite lookup_insert_ne in Hp by done. destruct (decide (p = q /\ j' = j)) as [[-> ->]|Hd].
    + rewrite Hw in E. injection E as <-. rewrite Aw. rewrite lookup_insert_eq. congruence.
    + rewrite He in E by (done || lia || by apply not_and_l in Hd).
      pose proof (wf_pt _ _ _ wf p i' j' e Hp Hj' E Pe) as Hpt'. rewrite lookup_insert_ne; [done|]. symmetry. by eapply Hold.
Qed.

Lemma add_pt_pte t q i j perm : f !! t = None -> frame_ok t -> sh !! q = Some (PD i) -> 0 <= j < 512 -> 0 <= perm < 4096 ->
  (forall e, entry f q j = Some e -> present e = false) ->
  forall va, pte_of (hang t q j (mk_pte t (Z.lor PTE_P perm))) root va = pte_of f root va.
Proof.
  intros Hnew Hfr Hq Hj Hperm Hnp va. destruct (pointer_flags perm Hperm) as [Hfl Hb].
  destruct (mk_pte_ok t _ Hfr Hfl Hb) as (Pw & Aw & _ & _ & Bw).
  destruct (hang_entries t q j _ _ Hnew Hq Hj Bw) as (He & Hw & Hz).
  assert (Hold : forall p r, sh !! p = Some r -> p <> t) by (intros; by eapply shape_not_new).
  assert (Hrt : root <> t) by (eapply Hold, (wf_root _ _ _ wf)).
  assert (Hrq : root <> q) by (intros <-; pose proof (wf_root _ _ _ wf); congruence).
  pose proof (PDPTX_range va) as R1. pose proof (PDX_range va) as R2. pose proof (PTX_range va) as R3.
  unfold pte_of, leaf. rewrite (He root) by (done || lia || by left).
  destruct (entry f root (PDPTX va)) as [e|] eqn:E; [|done]. destruct (present e) eqn:Pe; [|done].
  pose proof (wf_pd _ _ _ wf _ _ R1 E Pe) as Hpd. set (pd := P2V (PTE_ADDR e)) in *.
  destruct (decide (pd = q /\ PDX va = j)) as [[-> ->]|Hd].
  - rewrite Hw, Pw, Aw, Hz by lia. destruct (shape_entry _ _ j Hq) as (e1 & E1). rewrite E1. by rewrite (Hnp e1 E1).
  - rewrite (He pd) by (lia || by eauto || by apply not_and_l in Hd).
    destruct (entry f pd (PDX va)) as [e1|] eqn:E1; [|done]. destruct (present e1) eqn:Pe1; [|done].
    pose proof (wf_pt _ _ _ wf _ _ _ _ Hpd R2 E1 Pe1) as Hpt. rewrite He; [done|lia|by eauto|].
    left. intros Ex. rewrite Ex in Hpt. congruence.
Qed.

Lemma add_pt_leaf t q i j perm va : f !! t = None -> frame_ok t -> sh !! q = Some (PD i) -> 0 <= j < 512 -> 0 <= perm < 4096 ->
  (exists e, entry f root i = Some e /\ present e = true /\ P2V (PTE_ADDR e) = q) -> PDPTX va = i -> PDX va = j ->
  leaf (hang t q j (mk_pte t (Z.lor PTE_P perm))) root va = Some t.
Proof.
  intros Hnew Hfr Hq Hj Hperm (e & Er & Pe & Ae) <- <-. destruct (pointer_flags perm Hperm) as [Hfl Hb].
  destruct (mk_pte_ok t _ Hfr Hfl Hb) as (Pw & Aw & _ & _ & Bw).
  destruct (hang_entries t q _ _ _ Hnew Hq Hj Bw) as (He & Hw & _). pose proof (PDPTX_range va).
  assert (Hrt : root <> t) by (eapply shape_not_new, (wf_root _ _ _ wf); done).
  assert (Hrq : root <> q) by (intros <-; pose proof (wf_root _ _ _ wf); congruence).
  unfold leaf. rewrite (He root) by (done || lia || by left). by rewrite Er, Pe, Ae, Hw, Pw, Aw.
Qed.

(** Hanging a new directory into the root. *)
Lemma add_pd_wf q i : f !! q = None -> frame_ok q -> 0 <= i < 4 ->
  pt_wf (hang q root i (mk_pte q PTE_P)) (<[q := PD i]> sh) root.
Proof.
  intros Hnew Hfr Hi. destruct (mk_pte_ok q PTE_P Hfr) as (Pw & Aw & _ & _ & Bw); [unfold PTE_P; lia|done|].
  destruct (hang_entries q root i _ _ Hnew (wf_root _ _ _ wf) ltac:(lia) Bw) as (He & Hw & Hz).
  assert (Hold : forall p r, sh !! p = Some r -> p <> q) by (intros; by eapply shape_not_new).
  assert (Hrq : root <> q) by (eapply Hold, (wf_root _ _ _ wf)). constructor.
  - rewrite lookup_insert_ne by done. apply (wf_root _ _ _ wf).
  - eapply hang_pages; [done..|apply (wf_root _ _ _ wf)|lia].
  - intros i' e Hi' E Pe. destruct (decide (i' = i)) as [->|].
    + rewrite Hw in E. injection E as <-. by rewrite Aw, lookup_insert_eq.
    + rewrite He in E by (done || lia || by right). pose proof (wf_pd _ _ _ wf i' e Hi' E Pe) as Hp.
      rewrite lookup_insert_ne; [done|]. symmetry. by eapply Hold.
  - intros i' Hi'. rewrite He by (done || lia || (right; lia)). by apply (wf_hole _ _ _ wf).
  - intros p i' j' e Hp Hj' E Pe. destruct (decide (p = q)) as [->|Hpq].
    { rewrite Hz in E by lia. by injection E as <-. }
    rewrite lookup_insert_ne in Hp by done. rewrite He in E; [|lia|done|left; intros ->; pose proof (wf_root _ _ _ wf); congruence].
    pose proof (wf_pt _ _ _ wf p i' j' e Hp Hj' E Pe) as Hpt'. rewrite lookup_insert_ne; [done|]. symmetry. by eapply Hold.
Qed.

Lemma add_pd_pte q i : f !! q = None -> frame_ok q -> 0 <= i < 4 ->
  (forall e, entry f root i = Some e -> present e = false) ->
  forall va, pte_of (hang q root i (mk_pte q PTE_P)) root va = pte_of f root va.
Proof.
  intros Hnew Hfr Hi Hnp va. destruct (mk_pte_ok q PTE_P Hfr) as (Pw & Aw & _ & _ & Bw); [unfold PTE_P; lia|done|].
  destruct (hang_entries q root i _ _ Hnew (wf_root _ _ _ wf) ltac:(lia) Bw) as (He & Hw & Hz).
  assert (Hold : forall p r, sh !! p = Some r -> p <> q) by (intros; by eapply shape_not_new).
  pose proof (PDPTX_range va) as R1. pose proof (PDX_range va) as R2. pose proof (PTX_range va) as R3.
  unfold pte_of, leaf. destruct (decide (PDPTX va = i)) as [->|Hne].
  - rewrite Hw, Pw, Aw, Hz by lia. destruct (shape_entry _ _ i (wf_root _ _ _ wf)) as (e & E). rewrite E. by rewrite (Hnp e E).
  - rewrite He by (lia || by right || (eapply Hold, (wf_root _ _ _ wf))).
    destruct (entry f root (PDPTX va)) as [e|] eqn:E; [|done]. destruct (present e) eqn:Pe; [|done].
    pose proof (wf_pd _ _ _ wf _ _ R1 E Pe) as Hpd.
    assert (Hnr : forall p r, sh !! p = Some r -> r <> Root -> p <> root).
    { intros p r Hp Hr ->. pose proof (wf_root _ _ _ wf). congruence. }
    rewrite He by (lia || by eauto || (left; by eapply Hnr)).
    destruct (entry f _ (PDX va)) as [e1|] eqn:E1; [|done]. destruct (present e1) eqn:Pe1; [|done].
    pose proof (wf_pt _ _ _ wf _ _ _ _ Hpd R2 E1 Pe1) as Hpt. rewrite He by (lia || by eauto || (left; by eapply Hnr)). done.
Qed.

End tree.

(** *** Writing a page table entry *)

(** Two addresses share their entry exactly when they are on the same page. *)
Lemma leaf_inj f sh root va vb t : pt_wf f sh root -> is_u32 va -> is_u32 vb ->
  leaf f root va = Some t -> leaf f root vb = Some t -> PTX va = PTX vb -> PGROUNDDOWN va = PGROUNDDOWN vb.
Proof.
  intros wf Ha Hb La Lb Hx. apply (leaf_role _ _ _ wf) in La. apply (leaf_role _ _ _ wf) in Lb.
  rewrite La in Lb. injection Lb as E1 E2. by apply indices_inj.
Qed.

Lemma PGROUNDDOWN_indices va vb : is_u32 va -> is_u32 vb -> PGROUNDDOWN va = PGROUNDDOWN vb ->
  PDPTX va = PDPTX vb /\ PDX va = PDX vb /\ PTX va = PTX vb.
Proof.
  intros Ha Hb. rewrite !page_of_indices by done.
  pose proof (PDPTX_range va). pose proof (PDPTX_range vb). pose proof (PDX_range va). pose proof (PDX_range vb).
  pose proof (PTX_range va). pose proof (PTX_range vb). lia.
Qed.

Lemma leaf_page f root va vb : is_u32 va -> is_u32 vb -> PGROUNDDOWN va = PGROUNDDOWN vb -> leaf f root va = leaf f root vb.
Proof. intros Ha Hb E. destruct (PGROUNDDOWN_indices va vb Ha Hb E) as (E1 & E2 & _). unfold leaf. by rewrite E1, E2. Qed.

Lemma pte_of_page f root va vb : is_u32 va -> is_u32 vb -> PGROUNDDOWN va = PGROUNDDOWN vb -> pte_of f root va = pte_of f root vb.
Proof.
  intros Ha Hb E. unfold pte_of. rewrite (leaf_page f root va vb) by done.
  by destruct (PGROUNDDOWN_indices va vb Ha Hb E) as (_ & _ & ->).
Qed.

Section set_pte.
Variables (f : page_frames) (sh : gmap Z role) (root va t w : Z).
Hypothesis wf : pt_wf f sh root.
Hypothesis Hva : is_u32 va.
Hypothesis Hleaf : leaf f root va = Some t.
Hypothesis Hw : 0 <= w < 2 ^ 64.

Lemma set_pte_entry p k : 0 <= k -> (forall i j, sh !! p <> Some (PT i j)) -> entry (set_entry f t (PTX va) w) p k = entry f p k.
Proof.
  intros Hk Hp. pose proof (leaf_role _ _ _ wf _ _ Hleaf) as Hr. destruct (shape_page _ _ _ wf _ _ Hr) as (pg & Ep & Lp).
  pose proof (PTX_range va). erewrite entry_set_ne; [done..|]. left. intros ->. by eapply Hp.
Qed.

Lemma set_pte_wf : pt_wf (set_entry f t (PTX va) w) sh root.
Proof.
  pose proof (leaf_role _ _ _ wf _ _ Hleaf) as Hr. destruct (shape_page _ _ _ wf _ _ Hr) as (pg & Ep & Lp).
  pose proof (wf_root _ _ _ wf) as Hroot. pose proof (PTX_range va). constructor.
  - done.
  - intros p r Hp. destruct (wf_page _ _ _ wf p r Hp) as [Hok Hpg]. split; [done|]. by eapply set_entry_page.
  - intros i e Hi. rewrite set_pte_entry by (lia || congruence). by apply (wf_pd _ _ _ wf).
  - intros i Hi. rewrite set_pte_entry by (lia || congruence). by apply (wf_hole _ _ _ wf).
  - intros p i j e Hp Hj. rewrite set_pte_entry by (lia || congruence). by apply (wf_pt _ _ _ wf).
Qed.

Lemma set_pte_leaf vb : leaf (set_entry f t (PTX va) w) root vb = leaf f root vb.
Proof.
  pose proof (wf_root _ _ _ wf) as Hroot. pose proof (PDPTX_range vb) as R1. pose proof (PDX_range vb) as R2.
  unfold leaf. rewrite set_pte_entry by (lia || congruence).
  destruct (entry f root (PDPTX vb)) as [e|] eqn:E; [|done]. destruct (present e) eqn:Pe; [|done].
  pose proof (wf_pd _ _ _ wf _ _ R1 E Pe) as Hpd. by rewrite set_pte_entry by (lia || congruence).
Qed.

Lemma set_pte_pte vb : is_u32 vb ->
  pte_of (set_entry f t (PTX va) w) root vb =
    if decide (PGROUNDDOWN vb = PGROUNDDOWN va) then (if present w then Some w else None) else pte_of f root vb.
Proof.
  intros Hvb. pose proof (leaf_role _ _ _ wf _ _ Hleaf) as Hr. destruct (shape_page _ _ _ wf _ _ Hr) as (pg & Ep & Lp).
  pose proof (PTX_range va). pose proof (PTX_range vb). unfold pte_of. rewrite set_pte_leaf. case_decide as E.
  - rewrite (leaf_page f root vb va), Hleaf by done.
    destruct (PGROUNDDOWN_indices vb va Hvb Hva E) as (_ & _ & ->). by erewrite entry_set_eq.
  - destruct (leaf f root vb) as [t'|] eqn:El; [|done]. erewrite entry_set_ne; [done..|lia|].
    destruct (decide (t' = t)) as [->|]; [|by left]. right. intros Ex. apply E. by eapply leaf_inj.
Qed.

End set_pte.

(** ** Operations on well-formed tables *)

Section proofs.
Context {A : Type} `{AllocatorLaws A}.
Variable junk : list Z.
Hypothesis junk_page : zlen junk = PGSIZE.

Local Notation state := (vm A).

(** The frames of this layer are handed out, [n] more are free. *)
Definition frames_ok (s : state) (n : Z) : Prop :=
  exists H, pa_holds (pool s) H n /\ dom (frames s) ⊆ H.

Definition same_regs (s s' : state) : Prop :=
  kpgdir s' = kpgdir s /\ module_base s' = module_base s /\ cr3 s' = cr3 s.

Lemma kalloc_ok s n : frames_ok s n -> 0 < n ->
  exists p s', vm_kalloc junk s = Ret (p, s') /\ frames s !! p = None /\ frame_ok p /\
    frames s' = <[p := junk]> (frames s) /\ frames_ok s' (n - 1) /\ same_regs s s'.
Proof.
  intros (Hd & Hh & Hsub) Hn. destruct (pa_alloc_law _ _ _ Hh Hn) as (p & a & E & Hp & Hf & Hh').
  unfold vm_kalloc. rewrite E. cbn [obind]. eexists p, _. split; [done|]. cbn [frames]. split_and!; try done.
  - apply not_elem_of_dom. set_solver.
  - exists ({[p]} ∪ Hd). split; [done|]. cbn [frames]. set_solver.
Qed.

Lemma kfree_ok s n p page : frames_ok s n -> frames s !! p = Some page ->
  exists s', vm_kfree p s = Ret s' /\ frames s' = delete p (frames s) /\ frames_ok s' (n + 1) /\ same_regs s s'.
Proof.
  intros (Hd & Hh & Hsub) Hp. assert (p ∈ Hd) by (apply Hsub, elem_of_dom; eauto).
  destruct (pa_free_law _ _ _ p Hh) as (a & E & Hh'); [done|]. unfold vm_kfree. rewrite Hp, E. cbn [of_option obind].
  eexists. split; [done|]. cbn [frames]. split_and!; try done.
  exists (Hd ∖ {[p]}). split; [done|]. cbn [frames]. rewrite dom_delete_L. set_solver.
Qed.

Lemma frames_ok_with s f n : dom f ⊆ dom (frames s) -> frames_ok s n -> frames_ok (with_frames s f) n.
Proof. intros Hf (Hd & Hh & Hsub). exists Hd. split; [done|]. cbn [with_frames frames]. set_solver. Qed.

Lemma new_table_ok s n : frames_ok s n -> 0 < n ->
  exists t s', new_table junk s = Ret (t, s') /\ frames s !! t = None /\ frame_ok t /\
    frames s' = <[t := zeros]> (frames s) /\ frames_ok s' (n - 1) /\ same_regs s s'.
Proof.
  intros Hf Hn. destruct (kalloc_ok s n Hf Hn) as (t & s1 & E & Hnew & Hok & Ef & Hf1 & Hr). unfold new_table.
  rewrite E. cbn [obind]. unfold zero_frame. rewrite Ef, lookup_insert_eq. cbn [of_option obind].
  eexists t, _. split; [done|]. cbn [with_frames frames]. split_and!; try done.
  - change (repeat 0 4096) with zeros. by rewrite insert_insert_eq.
  - apply frames_ok_with; [|done]. rewrite Ef. rewrite insert_insert_eq, !dom_insert. done.
Qed.

(** Everything but the tables in [sh] is left alone; tables added are new frames. *)
Record grows (f : page_frames) (sh : gmap Z role) (f' : page_frames) (sh' : gmap Z role) : Prop := {
  grows_sh : sh ⊆ sh';
  grows_dom : dom f ⊆ dom f';
  grows_keep p : is_Some (f !! p) -> sh !! p = None -> f' !! p = f !! p /\ sh' !! p = None
}.

Lemma grows_refl f sh : grows f sh f sh.
Proof. by split. Qed.

Lemma grows_trans f1 sh1 f2 sh2 f3 sh3 : grows f1 sh1 f2 sh2 -> grows f2 sh2 f3 sh3 -> grows f1 sh1 f3 sh3.
Proof.
  intros [Hs1 Hd1 Hg1] [Hs2 Hd2 Hg2]. split; [by etrans..|]. intros p Hp Hn. destruct (Hg1 p Hp Hn) as [E1 Hn1].
  destruct (Hg2 p) as [E2 Hn2]; [by rewrite E1|done|]. split; [congruence|done].
Qed.

Lemma grows_set_entry f sh t i w r : sh !! t = Some r -> grows f sh (set_entry f t i w) sh.
Proof.
  intros Ht. split; [done|unfold set_entry; by rewrite dom_alter|]. intros p _ Hp. split; [|done].
  unfold set_entry. rewrite lookup_alter_ne; [done|]. congruence.
Qed.

Lemma grows_hang f sh t q j w r r' : f !! t = None -> sh !! q = Some r -> sh !! t = None ->
  grows f sh (hang f t q j w) (<[t := r']> sh).
Proof.
  intros Hn Hq Ht. split; [by apply insert_subseteq|unfold hang, set_entry; rewrite dom_alter, dom_insert; set_solver|].
  intros p [pg Hp] Hsp. assert (p <> t) by congruence. assert (p <> q) by congruence. unfold hang, set_entry.
  rewrite lookup_alter_ne, !lookup_insert_ne by done. done.
Qed.

Lemma grows_insert f sh p page : f !! p = None -> grows f sh (<[p := page]> f) sh.
Proof.
  intros Hn. split; [done|rewrite dom_insert; set_solver|]. intros q [pg Hq] ?. by rewrite lookup_insert_ne by congruence.
Qed.

Lemma grows_fresh f sh f' sh' m : grows f sh f' sh' -> f' !! m = None -> f !! m = None.
Proof. intros Hg. rewrite <- !not_elem_of_dom. pose proof (grows_dom _ _ _ _ Hg). set_solver. Qed.

Lemma frames_ok_set s t i w n : frames_ok s n -> frames_ok (with_frames s (set_entry (frames s) t i w)) n.
Proof. apply frames_ok_with. unfold set_entry. by rewrite dom_alter. Qed.

Lemma same_regs_trans s1 s2 s3 : same_regs s1 s2 -> same_regs s2 s3 -> same_regs s1 s3.
Proof. intros (? & ? & ?) (? & ? & ?). unfold same_regs. split_and!; congruence. Qed.

(** Walking without allocating. *)
Lemma walk_ok s sh root va perm : pt_wf (frames s) sh root ->
  walkpgdir junk root va false perm s
    = Ret (match leaf (frames s) root va with Some t => entry_addr t (PTX va) | None => 0 end, s).
Proof.
  intros wf. pose proof (PDPTX_range va) as R1. pose proof (PDX_range va) as R2. unfold walkpgdir, leaf.
  destruct (wf_page _ _ _ wf _ _ (wf_root _ _ _ wf)) as [Hok _].
  destruct (shape_entry _ _ _ wf _ _ (PDPTX va) (wf_root _ _ _ wf)) as (e & E).
  rewrite read_entry, E by (done || lia). cbn [of_option obind]. destruct (present e) eqn:Pe; [|done].
  pose proof (wf_pd _ _ _ wf _ _ R1 E Pe) as Hpd. destruct (wf_page _ _ _ wf _ _ Hpd) as [Hok1 _].
  destruct (shape_entry _ _ _ wf _ _ (PDX va) Hpd) as (e1 & E1).
  rewrite read_entry, E1 by (done || lia). cbn [of_option obind]. by destruct (present e1).
Qed.

(** Walking with allocation finds or makes the table, translating as before;
    [n] frames are left. *)
Definition walked (s : state) (sh : gmap Z role) (root va n : Z) (t : Z) (s' : state) : Prop :=
  exists sh', pt_wf (frames s') sh' root /\ frames_ok s' n /\ grows (frames s) sh (frames s') sh' /\
    same_regs s s' /\ leaf (frames s') root va = Some t /\ forall vb, pte_of (frames s') root vb = pte_of (frames s) root vb.

(** A missing table page. *)
Lemma walk_new_pt s sh root va n perm q : pt_wf (frames s) sh root -> frames_ok s n -> 0 < n -> 0 <= perm < 4096 ->
  sh !! q = Some (PD (PDPTX va)) ->
  (exists e, entry (frames s) root (PDPTX va) = Some e /\ present e = true /\ P2V (PTE_ADDR e) = q) ->
  (forall e, entry (frames s) q (PDX va) = Some e -> present e = false) ->
  exists t s', ('(pte_tab, s1) <- new_table junk s ;;
      f <- write64 (frames s1) (entry_addr q (PDX va)) (Z.lor (Z.lor (V2P pte_tab) PTE_P) perm) ;;
      Ret (entry_addr pte_tab (PTX va), with_frames s1 f)) = Ret (entry_addr t (PTX va), s') /\
    walked s sh root va (n - 1) t s'.
Proof.
  intros wf Hf Hn Hperm Hq Hr Hnp. pose proof (PDX_range va) as R2.
  destruct (new_table_ok s n Hf Hn) as (t & s1 & -> & Hnew & Hok & Ef & Hf1 & Hregs). cbn [obind].
  destruct (wf_page _ _ _ wf _ _ Hq) as (Hokq & qp & Eq & _). assert (Hqt : q <> t) by congruence.
  erewrite write_entry; [|done|done|by rewrite Ef, lookup_insert_ne]. cbn [obind]. rewrite pointer_mk_pte, Ef.
  change (set_entry (<[t := zeros]> (frames s)) q (PDX va) (mk_pte t (Z.lor PTE_P perm)))
    with (hang (frames s) t q (PDX va) (mk_pte t (Z.lor PTE_P perm))).
  eexists t, _. split; [done|]. exists (<[t := PT (PDPTX va) (PDX va)]> sh). cbn [with_frames frames].
  assert (Hsht : sh !! t = None).
  { destruct (sh !! t) as [r|] eqn:E; [|done]. destruct (shape_page _ _ _ wf _ _ E) as (? & ? & _). congruence. }
  split_and!; [by apply add_pt_wf| |by eapply grows_hang|exact Hregs|by eapply add_pt_leaf|by eapply add_pt_pte].
  apply frames_ok_with; [|done]. unfold hang, set_entry. by rewrite dom_alter, Ef.
Qed.

Lemma walk_alloc_ok s sh root va n perm : pt_wf (frames s) sh root -> frames_ok s n -> 2 <= n -> 0 <= perm < 4096 ->
  exists t s' n', walkpgdir junk root va true perm s = Ret (entry_addr t (PTX va), s') /\ walked s sh root va n' t s' /\
    n - 2 <= n' <= n.
Proof.
  intros wf Hf Hn Hperm. pose proof (PDPTX_range va) as R1. pose proof (PDX_range va) as R2. unfold walkpgdir.
  destruct (wf_page _ _ _ wf _ _ (wf_root _ _ _ wf)) as (Hok & rp & Er & _).
  destruct (shape_entry _ _ _ wf _ _ (PDPTX va) (wf_root _ _ _ wf)) as (e & E).
  rewrite read_entry, E by (done || lia). cbn [of_option obind negb]. destruct (present e) eqn:Pe.
  - pose proof (wf_pd _ _ _ wf _ _ R1 E Pe) as Hpd. destruct (wf_page _ _ _ wf _ _ Hpd) as [Hok1 _].
    destruct (shape_entry _ _ _ wf _ _ (PDX va) Hpd) as (e1 & E1).
    rewrite read_entry, E1 by (done || lia). cbn [of_option obind]. destruct (present e1) eqn:Pe1.
    + eexists _, s, n. split; [done|]. split; [|lia]. exists sh.
      split_and!; [done|done|apply grows_refl|done|unfold leaf; by rewrite E, Pe, E1, Pe1|done].
    + destruct (walk_new_pt s sh root va n perm (P2V (PTE_ADDR e))) as (t & s' & -> & W);
        [done..|lia|done|done|by eauto|intros; congruence|].
      exists t, s', (n - 1). split; [done|]. split; [done|lia].
  - destruct (new_table_ok s n Hf) as (q & s1 & -> & Hnew & Hokq & Ef & Hf1 & Hregs); [lia|]. cbn [obind].
    assert (Hrq : root <> q) by congruence.
    erewrite write_entry; [|done|lia|by rewrite Ef, lookup_insert_ne]. cbn [obind]. fold (mk_pte q PTE_P). rewrite Ef.
    change (set_entry (<[q := zeros]> (frames s)) root (PDPTX va) (mk_pte q PTE_P))
      with (hang (frames s) q root (PDPTX va) (mk_pte q PTE_P)).
    set (s2 := with_frames s1 (hang (frames s) q root (PDPTX va) (mk_pte q PTE_P))).
    destruct (mk_pte_ok q PTE_P Hokq) as (Pw & Aw & _ & _ & Bw); [unfold PTE_P; lia|done|].
    destruct (hang_entries _ _ _ wf q root (PDPTX va) _ _ Hnew (wf_root _ _ _ wf) ltac:(lia) Bw) as (_ & Hw & Hz).
    destruct (walk_new_pt s2 (<[q := PD (PDPTX va)]> sh) root va (n - 1) perm q) as (t & s' & -> & sh' & W1 & W2 & W4 & W5 & W6 & W7).
    + by apply add_pd_wf.
    + apply frames_ok_with; [|done]. unfold hang, set_entry. by rewrite dom_alter, Ef.
    + lia.
    + done.
    + by rewrite lookup_insert_eq.
    + exists (mk_pte q PTE_P). by split_and!.
    + intros e0. cbn [s2 with_frames frames]. rewrite Hz by lia. by intros [= <-].
    + exists t, s', (n - 1 - 1). split; [done|]. split; [|lia]. exists sh'. split_and!; [done|done| |by eapply same_regs_trans|done|].
      * eapply grows_trans; [|done]. eapply grows_hang; [done|apply (wf_root _ _ _ wf)|].
        destruct (sh !! q) as [r|] eqn:Es; [|done]. destruct (shape_page _ _ _ wf _ _ Es) as (? & ? & _). congruence.
      * intros vb. rewrite W7. cbn [s2 with_frames frames]. apply (add_pd_pte _ _ _ wf); [done|done|done|]. intros e' E'. congruence.
Qed.

(** *** Mapping *)

(** The entry [mappages] writes. *)
Definition pte_val (pa perm : Z) : Z := Z.lor (Z.lor pa perm) PTE_P.

Lemma pte_val_ok pa perm : is_u32 pa -> 0 <= perm < 4096 ->
  present (pte_val pa perm) = true /\ 0 <= pte_val pa perm < 2 ^ 64.
Proof.
  intros Hp Hf. unfold pte_val. split.
  - rewrite present_bit, Z.lor_spec. by rewrite orb_true_r.
  - rewrite <- Z.lor_assoc. apply lor_bound64; [done|]. apply lor_small; unfold PTE_P; lia.
Qed.

Lemma entry_addr_nonzero t i : frame_ok t -> 0 <= i < 512 -> (entry_addr t i =? 0) = false.
Proof.
  intros Hf Hi. rewrite entry_addr_eq by done. apply frame_ok_range in Hf as (_ & ? & _). destruct (Z.eqb_spec (t + 8 * i) 0); [lia|done].
Qed.

Lemma pte_of_absent f sh root va t : pt_wf f sh root -> leaf f root va = Some t -> pte_of f root va = None ->
  exists e, entry f t (PTX va) = Some e /\ present e = false.
Proof.
  intros wf Hl. unfold pte_of. rewrite Hl. destruct (shape_entry _ _ _ wf _ _ (PTX va) (leaf_role _ _ _ wf _ _ Hl)) as (e & ->).
  destruct (present e) eqn:E; [done|]. eauto.
Qed.

Lemma map_page_ok s sh root a n pa perm : pt_wf (frames s) sh root -> frames_ok s n -> 2 <= n -> is_u32 a ->
  pte_of (frames s) root a = None -> is_u32 pa -> 0 <= perm < 4096 ->
  exists s' sh' n', map_page junk root a pa perm s = Ret (0, s') /\ pt_wf (frames s') sh' root /\ frames_ok s' n' /\
    n - 2 <= n' <= n /\ grows (frames s) sh (frames s') sh' /\ same_regs s s' /\
    forall va, is_u32 va -> pte_of (frames s') root va =
      if decide (PGROUNDDOWN va = PGROUNDDOWN a) then Some (pte_val pa perm) else pte_of (frames s) root va.
Proof.
  intros wf Hf Hn Ha Hnone Hpa Hperm. unfold map_page. pose proof (PTX_range a) as R3.
  destruct (walk_alloc_ok s sh root a n (Z.lor PTE_W PTE_U) wf Hf Hn) as (t & s1 & n' & -> & (sh' & W1 & W2 & W3 & W4 & W5 & W6) & Hn'); [done|].
  cbn [obind]. destruct (wf_page _ _ _ W1 _ _ (leaf_role _ _ _ W1 _ _ W5)) as (Hok & pg & Ep & _).
  rewrite entry_addr_nonzero by done. rewrite <- (W6 a) in Hnone.
  destruct (pte_of_absent _ _ _ _ _ W1 W5 Hnone) as (e & E & Pe). rewrite read_entry, E by done. cbn [of_option obind].
  rewrite Pe. erewrite write_entry by done. cbn [obind]. fold (pte_val pa perm).
  destruct (pte_val_ok pa perm Hpa Hperm) as [Pv Bv].
  eexists _, sh', n'. split; [done|]. cbn [with_frames frames]. split_and!; [|by apply frames_ok_set|lia|lia| |exact W4|].
  - by eapply set_pte_wf.
  - eapply grows_trans; [done|]. eapply grows_set_entry. by eapply leaf_role.
  - intros va Hva. erewrite set_pte_pte by done. rewrite Pv. by rewrite W6.
Qed.

(** A page that is mapped already. *)
Lemma map_page_remaps s sh root a n pa perm e : pt_wf (frames s) sh root -> frames_ok s n -> 2 <= n ->
  pte_of (frames s) root a = Some e -> map_page junk root a pa perm s = Panic "remap".
Proof.
  intros wf Hf Hn He. unfold map_page. pose proof (PTX_range a) as R3.
  destruct (walk_alloc_ok s sh root a n (Z.lor PTE_W PTE_U) wf Hf Hn) as (t & s1 & n' & -> & (sh' & W1 & W2 & W3 & W4 & W5 & W6) & Hn'); [done|].
  cbn [obind]. destruct (wf_page _ _ _ W1 _ _ (leaf_role _ _ _ W1 _ _ W5)) as (Hok & pg & Ep & _).
  rewrite entry_addr_nonzero by done. rewrite <- (W6 a) in He. unfold pte_of in He. rewrite W5 in He.
  rewrite read_entry by done. destruct (entry _ t (PTX a)) as [e'|]; [|done]. cbn [of_option obind]. by destruct (present e').
Qed.

Definition mapped (f f' : page_frames) (root a last pa perm : Z) : Prop :=
  forall va, is_u32 va -> pte_of f' root va =
    if decide (a <= PGROUNDDOWN va <= last) then Some (pte_val (pa + (PGROUNDDOWN va - a)) perm) else pte_of f root va.

Lemma PGROUNDDOWN_id a : a mod PGSIZE = 0 -> PGROUNDDOWN a = a.
Proof. unfold PGSIZE. rewrite PGROUNDDOWN_eq. lia. Qed.

(** Aligned addresses at most a page apart on either side. *)
Lemma aligned_step a b : a mod PGSIZE = 0 -> b mod PGSIZE = 0 -> a < b -> a + PGSIZE <= b.
Proof. unfold PGSIZE. intros. Z.to_euclidean_division_equations. lia. Qed.

Lemma aligned_add a k : a mod PGSIZE = 0 -> (a + PGSIZE * k) mod PGSIZE = 0.
Proof. unfold PGSIZE. intros. rewrite Z.mul_comm, Z.mod_add by lia. done. Qed.

Lemma mappages_loop_ok root perm last (k : nat) : forall a pa s sh n,
  pt_wf (frames s) sh root -> frames_ok s n -> 2 * (Z.of_nat k + 1) <= n -> 0 <= perm < 4096 ->
  a mod PGSIZE = 0 -> 0 <= a -> last = a + PGSIZE * Z.of_nat k -> last < 2 ^ 32 ->
  0 <= pa -> pa + PGSIZE * Z.of_nat k < 2 ^ 32 ->
  (forall va, is_u32 va -> a <= PGROUNDDOWN va <= last -> pte_of (frames s) root va = None) ->
  exists s' sh' n', mappages_loop junk k root a last pa perm s = Ret (0, s') /\ pt_wf (frames s') sh' root /\ frames_ok s' n' /\
    n - 2 * (Z.of_nat k + 1) <= n' <= n /\ grows (frames s) sh (frames s') sh' /\ same_regs s s' /\
    mapped (frames s) (frames s') root a last pa perm.
Proof.
  induction k as [|k IH]; intros a pa s sh n wf Hf Hn Hperm Hal Ha Hlast H32 Hpa Hpa32 Hnone; cbn [mappages_loop].
  all: assert (Hua : is_u32 a) by plia; pose proof (PGROUNDDOWN_id a Hal) as Eda.
  all: destruct (map_page_ok s sh root a n pa perm) as (s1 & sh1 & n1 & -> & W1 & W2 & W3 & W4 & W5 & W6);
    [done|done|lia|done|apply Hnone; [done|unfold PGSIZE in *; lia]|plia|done|].
  all: cbn [obind]; change (0 <? 0) with false; cbn iota.
  - replace last with a by lia. rewrite Z.eqb_refl. exists s1, sh1, n1. split_and!; try done; try lia.
    intros va Hva. rewrite W6, Eda by done. destruct (decide (PGROUNDDOWN va = a)) as [->|].
    + rewrite decide_True by lia. do 2 f_equal. lia.
    + by rewrite decide_False by lia.
  - destruct (Z.eqb_spec a last); [unfold PGSIZE in *; lia|].
    rewrite !u32_small by plia.
    destruct (IH (a + PGSIZE) (pa + PGSIZE) s1 sh1 n1) as (s2 & sh2 & n2 & -> & V1 & V2 & V3 & V4 & V5 & V6);
      [done|done|lia|done|replace PGSIZE with (PGSIZE * 1) at 1 by done; by apply aligned_add|unfold PGSIZE in *; lia..| |].
    { intros va Hva Hr. rewrite W6 by done. rewrite decide_False by (unfold PGSIZE in *; lia). apply Hnone; [done|unfold PGSIZE in *; lia]. }
    exists s2, sh2, n2. split_and!; try done; try lia; [by eapply grows_trans|by eapply same_regs_trans|].
    intros va Hva. rewrite V6, W6, Eda by done. pose proof (PGROUNDDOWN_aligned va) as Hav.
    destruct (decide (PGROUNDDOWN va = a)) as [->|Hne].
    + rewrite decide_False by (unfold PGSIZE; lia). rewrite decide_True by plia. do 2 f_equal. plia.
    + pose proof (aligned_step a (PGROUNDDOWN va) Hal Hav). do 2 case_decide; try plia; try done.
      do 2 f_equal. plia.
Qed.

Lemma page_count_last a last : a mod PGSIZE = 0 -> last mod PGSIZE = 0 -> 0 <= a <= last -> last < 2 ^ 32 ->
  last = a + PGSIZE * Z.of_nat (page_count a last).
Proof.
  unfold page_count. intros Ha Hl Hr H32. rewrite u32_small by plia. unfold PGSIZE in *.
  rewrite Z2Nat.id by (apply Z.div_pos; lia). Z.to_euclidean_division_equations. lia.
Qed.

Lemma mappages_ok s sh root va size n pa perm : pt_wf (frames s) sh root -> frames_ok s n -> 0 <= perm < 4096 ->
  0 <= va -> 0 < size -> va + size <= 2 ^ 32 -> 0 <= pa -> pa + (PGROUNDDOWN (va + size - 1) - PGROUNDDOWN va) < 2 ^ 32 -> 2 * (size / PGSIZE + 2) <= n ->
  (forall vb, is_u32 vb -> PGROUNDDOWN va <= PGROUNDDOWN vb <= PGROUNDDOWN (va + size - 1) -> pte_of (frames s) root vb = None) ->
  exists s' sh' n', mappages junk root va size pa perm s = Ret (0, s') /\ pt_wf (frames s') sh' root /\ frames_ok s' n' /\
    n - 2 * (size / PGSIZE + 2) <= n' <= n /\ grows (frames s) sh (frames s') sh' /\ same_regs s s' /\
    mapped (frames s) (frames s') root (PGROUNDDOWN va) (PGROUNDDOWN (va + size - 1)) pa perm.
Proof.
  intros wf Hf Hperm Hva Hsz H32 Hpa Hpa32 Hn Hnone. unfold mappages. rewrite u32_small by plia.
  pose proof (PGROUNDDOWN_aligned va) as A1. pose proof (PGROUNDDOWN_aligned (va + size - 1)) as A2.
  pose proof (PGROUNDDOWN_bounds va) as B1. pose proof (PGROUNDDOWN_bounds (va + size - 1)) as B2.
  set (a := PGROUNDDOWN va) in *. set (last := PGROUNDDOWN (va + size - 1)) in *.
  assert (Ha : 0 <= a) by (unfold PGSIZE in *; Z.to_euclidean_division_equations; lia).
  assert (Hal : a <= last) by (unfold PGSIZE in *; Z.to_euclidean_division_equations; lia).
  assert (E : last = a + PGSIZE * Z.of_nat (page_count a last)) by (apply page_count_last; [done|done|lia|lia]).
  assert (Hk : Z.of_nat (page_count a last) <= size / PGSIZE + 1).
  { unfold PGSIZE in *. Z.to_euclidean_division_equations. lia. }
  assert (Hp32 : pa + PGSIZE * Z.of_nat (page_count a last) < 2 ^ 32).
  { lia. }
  destruct (mappages_loop_ok root perm last (page_count a last) a pa s sh n) as (s' & sh' & n' & -> & W1 & W2 & W3 & W4);
    [done|done|lia|done|done|lia|done|lia|done|done|done|].
  exists s', sh', n'. split_and!; try done; try lia; by destruct W4 as (? & ? & ?).
Qed.

(** ** Address spaces *)

(** The table at [root] maps exactly the pages of [um] below the kernel
    ([KERNBASE]), each to a frame of its own that is not part of the table.  It
    says nothing of the kernel's half. *)
Record aspace (f : page_frames) (sh : gmap Z role) (root : Z) (um : user_map) : Prop := {
  as_wf : pt_wf f sh root;
  as_pte va : is_u32 va -> va < KERNBASE -> pte_of f root va = (fun x => mk_pte x.1 x.2) <$> um !! PGROUNDDOWN va;
  as_page va p fl : um !! va = Some (p, fl) -> va mod PGSIZE = 0 /\ 0 <= va < KERNBASE /\
    frame_ok p /\ 0 <= fl < 4096 /\ Z.testbit fl 0 = true /\ sh !! p = None /\ exists page, f !! p = Some page /\ zlen page = PGSIZE;
  as_inj va vb p fl fl' : um !! va = Some (p, fl) -> um !! vb = Some (p, fl') -> va = vb
}.

(** Translation reads the pages of the table only. *)
Lemma leaf_agree f f' sh root va : pt_wf f sh root -> (forall p, is_Some (sh !! p) -> f' !! p = f !! p) ->
  leaf f' root va = leaf f root va.
Proof.
  intros wf Hag. pose proof (PDPTX_range va). assert (He : forall p r k, sh !! p = Some r -> entry f' p k = entry f p k).
  { intros p r k Hp. unfold entry. by rewrite Hag by eauto. }
  unfold leaf. rewrite (He root _ _ (wf_root _ _ _ wf)). destruct (entry f root (PDPTX va)) as [e|] eqn:E; [|done].
  destruct (present e) eqn:Pe; [|done]. by rewrite (He _ _ _ (wf_pd _ _ _ wf (PDPTX va) e ltac:(done) E Pe)).
Qed.

Lemma pte_of_agree f f' sh root va : pt_wf f sh root -> (forall p, is_Some (sh !! p) -> f' !! p = f !! p) ->
  pte_of f' root va = pte_of f root va.
Proof.
  intros wf Hag. unfold pte_of. rewrite (leaf_agree f f' sh) by done. destruct (leaf f root va) as [t|] eqn:El; [|done].
  unfold entry. rewrite Hag; [done|]. apply (leaf_role _ _ _ wf) in El. eauto.
Qed.

Lemma pt_wf_agree f f' sh root : pt_wf f sh root -> (forall p, is_Some (sh !! p) -> f' !! p = f !! p) -> pt_wf f' sh root.
Proof.
  intros wf Hag. assert (He : forall p r k, sh !! p = Some r -> entry f' p k = entry f p k).
  { intros p r k Hp. unfold entry. by rewrite Hag by eauto. }
  pose proof (wf_root _ _ _ wf) as Hr. constructor.
  - done.
  - intros p r Hp. rewrite Hag by eauto. by eapply (wf_page _ _ _ wf).
  - intros i e Hi. rewrite (He _ _ _ Hr). by apply (wf_pd _ _ _ wf).
  - intros i Hi. rewrite (He _ _ _ Hr). by apply (wf_hole _ _ _ wf).
  - intros p i j e Hp Hj. rewrite (He _ _ _ Hp). by apply (wf_pt _ _ _ wf).
Qed.

(** An address space survives changes that keep its tables, and keep its user
    frames allocated. *)
Lemma aspace_agree f f' sh root um : aspace f sh root um -> (forall p, is_Some (sh !! p) -> f' !! p = f !! p) ->
  (forall va p fl, um !! va = Some (p, fl) -> exists page, f' !! p = Some page /\ zlen page = PGSIZE) ->
  aspace f' sh root um.
Proof.
  intros Has Hag Hum. constructor.
  - eapply pt_wf_agree; [apply Has|done].
  - intros va Hva Hk. erewrite pte_of_agree; [by apply Has|apply Has|done].
  - intros va p fl Hl. destruct (as_page _ _ _ _ Has va p fl Hl) as (? & ? & ? & ? & ? & ? & _). split_and!; try done; [lia..|]. eauto.
  - apply (as_inj _ _ _ _ Has).
Qed.

(** Mapping one more frame. *)
Lemma map_frame_ok s sh root um n a mem page perm : aspace (frames s) sh root um -> frames_ok s n -> 6 <= n ->
  a mod PGSIZE = 0 -> 0 <= a < KERNBASE -> um !! a = None -> 0 <= perm < 4096 ->
  frame_ok mem -> frames s !! mem = Some page -> zlen page = PGSIZE -> sh !! mem = None ->
  (forall va fl, um !! va <> Some (mem, fl)) ->
  exists s' sh' n', mappages junk root a PGSIZE (V2P mem) perm s = Ret (0, s') /\
    aspace (frames s') sh' root (<[a := (mem, Z.lor perm PTE_P)]> um) /\ frames_ok s' n' /\
    n - 6 <= n' <= n /\ grows (frames s) sh (frames s') sh' /\ same_regs s s'.
Proof.
  intros Has Hf Hn Hal Ha Hnone Hperm Hok Hpg Hlen Hsh Hfresh. destruct (V2P_frame mem Hok) as (Hu & Hm & Hr & _).
  assert (Eda : PGROUNDDOWN a = a) by by apply PGROUNDDOWN_id.
  assert (Edl : PGROUNDDOWN (a + PGSIZE - 1) = a).
  { rewrite PGROUNDDOWN_eq. unfold PGSIZE in *. Z.to_euclidean_division_equations. lia. }
  destruct (mappages_ok s sh root a PGSIZE n (V2P mem) perm) as (s' & sh' & n' & E & W1 & W2 & W3 & W4 & W5 & W6);
    [apply Has|done|done|lia|done|unfold KERNBASE in *; plia|lia|rewrite Eda, Edl; plia|by change (PGSIZE / PGSIZE) with 1| |].
  { intros vb Hvb. rewrite Eda, Edl. intros Hd. rewrite (as_pte _ _ _ _ Has); [|done|].
    - replace (PGROUNDDOWN vb) with a by lia. by rewrite Hnone.
    - pose proof (PGROUNDDOWN_bounds vb). unfold KERNBASE in *. unfold PGSIZE in *. Z.to_euclidean_division_equations. lia. }
  rewrite Eda, Edl in W6. change (PGSIZE / PGSIZE) with 1 in W3.
  exists s', sh', n'. split; [done|]. split_and!; try done; try lia.
  constructor.
  - done.
  - intros va Hva Hk. rewrite W6 by done. destruct (decide (PGROUNDDOWN va = a)) as [Ev|Hne].
    + rewrite decide_True, Ev, lookup_insert_eq by lia. cbn. unfold mk_pte, pte_val. rewrite Z.lor_assoc. do 3 f_equal. lia.
    + rewrite decide_False, lookup_insert_ne by lia. by apply Has.
  - intros va p fl. destruct (decide (va = a)) as [->|Hne].
    + rewrite lookup_insert_eq. intros [= <- <-]. destruct (grows_keep _ _ _ _ W4 mem) as [E1 E2]; [by rewrite Hpg|done|].
      split_and!; try done; try lia; [apply lor_small; unfold PTE_P; lia..|by rewrite Z.lor_spec, orb_true_r|].
      exists page. by rewrite E1.
    + rewrite lookup_insert_ne by done. intros Hl.
      destruct (as_page _ _ _ _ Has va p fl Hl) as (? & ? & ? & ? & ? & Hs & pg & Hp & Hl').
      destruct (grows_keep _ _ _ _ W4 p) as [E1 E2]; [by rewrite Hp|done|]. split_and!; try done; try lia. exists pg. by rewrite E1.
  - intros va vb p fl fl'. destruct (decide (va = a)) as [->|]; destruct (decide (vb = a)) as [->|];
      rewrite ?lookup_insert_eq, ?lookup_insert_ne by done; [done| | |apply (as_inj _ _ _ _ Has)].
    + intros [= <- <-] Hl. by apply Hfresh in Hl.
    + intros Hl [= <- <-]. by apply Hfresh in Hl.
Qed.

(** *** Growing *)

(** Every page of [[a, newsz)] is added, backed by a new frame of zeros. *)
Definition grown (f f' : page_frames) (um um' : user_map) (a newsz perm : Z) : Prop :=
  (forall va, va mod PGSIZE = 0 -> a <= va < newsz ->
     exists mem, um' !! va = Some (mem, Z.lor perm PTE_P) /\ f !! mem = None /\ f' !! mem = Some zeros) /\
  (forall va, ~ a <= va < newsz -> um' !! va = um !! va).

Lemma aspace_new_frame f sh root um mem page : aspace f sh root um -> f !! mem = None ->
  sh !! mem = None /\ (forall va fl, um !! va <> Some (mem, fl)) /\ aspace (<[mem := page]> f) sh root um.
Proof.
  intros Has Hnew. assert (Hshm : forall p, is_Some (sh !! p) -> p <> mem).
  { intros p [r Hp] ->. destruct (shape_page _ _ _ (as_wf _ _ _ _ Has) _ _ Hp) as (? & ? & _). congruence. }
  assert (Humm : forall va fl, um !! va <> Some (mem, fl)).
  { intros va fl Hl. destruct (as_page _ _ _ _ Has _ _ _ Hl) as (_ & _ & _ & _ & _ & _ & ? & ? & _). congruence. }
  split_and!; [|done|].
  - destruct (sh !! mem) eqn:Es; [|done]. exfalso. by eapply Hshm.
  - eapply aspace_agree; [done| |].
    + intros p Hp. rewrite lookup_insert_ne; [done|]. intros ->. by apply Hshm in Hp.
    + intros va p fl Hl. destruct (as_page _ _ _ _ Has _ _ _ Hl) as (_ & _ & _ & _ & _ & _ & ? & ? & ?).
      rewrite lookup_insert_ne by (intros ->; by apply Humm in Hl). eauto.
Qed.

(** Allocating a frame, filling it and mapping it. *)
Lemma map_new_frame s sh root um n a perm page : aspace (frames s) sh root um -> frames_ok s n -> 7 <= n ->
  a mod PGSIZE = 0 -> 0 <= a < KERNBASE -> um !! a = None -> 0 <= perm < 4096 -> zlen page = PGSIZE ->
  exists mem s1 s' sh' n', vm_kalloc junk s = Ret (mem, s1) /\ frames s1 = <[mem := junk]> (frames s) /\
    (mem =? 0) = false /\ frames s !! mem = None /\
    mappages junk root a PGSIZE (V2P mem) perm (with_frames s1 (<[mem := page]> (frames s))) = Ret (0, s') /\
    aspace (frames s') sh' root (<[a := (mem, Z.lor perm PTE_P)]> um) /\ frames_ok s' n' /\ n - 7 <= n' /\
    grows (frames s) sh (frames s') sh' /\ same_regs s s' /\ frames s' !! mem = Some page /\ sh' !! mem = None.
Proof.
  intros Has Hf Hn Hal Ha Hnone Hperm Hlen.
  destruct (kalloc_ok s n Hf) as (mem & s1 & E & Hnew & Hok & Ef & Hf1 & Hr1); [lia|].
  destruct (frame_ok_range _ Hok) as (_ & Hm0 & _). destruct (aspace_new_frame _ _ _ _ _ page Has Hnew) as (Hsh & Hum & Has2).
  destruct (map_frame_ok (with_frames s1 (<[mem := page]> (frames s))) sh root um (n - 1) a mem page perm)
    as (s' & sh' & n' & E' & Has3 & Hf3 & Hn3 & Hg3 & Hr3); try done; try lia.
  { apply frames_ok_with; [|done]. by rewrite Ef, !dom_insert. }
  { cbn. by rewrite lookup_insert_eq. }
  exists mem, s1, s', sh', n'. destruct (grows_keep _ _ _ _ Hg3 mem) as [Em Es]; [cbn; rewrite lookup_insert_eq; eauto|done|].
  cbn [with_frames frames] in Em. rewrite lookup_insert_eq in Em.
  split_and!; try done; [by apply Z.eqb_neq; lia|lia| |by eapply same_regs_trans; [exact Hr1|]].
  eapply grows_trans; [|done]. by apply grows_insert.
Qed.

Lemma allocuvm_loop_ok root oldsz newsz perm (k : nat) : forall a s sh um n,
  aspace (frames s) sh root um -> frames_ok s n -> 7 * Z.of_nat k <= n -> 0 <= perm < 4096 ->
  a mod PGSIZE = 0 -> 0 <= a -> newsz <= KERNBASE -> newsz <= a + PGSIZE * Z.of_nat k ->
  (forall va, a <= va < newsz -> um !! va = None) ->
  exists s' sh' um' n', allocuvm_loop junk k root a oldsz newsz perm s = Ret (newsz, s') /\
    aspace (frames s') sh' root um' /\ frames_ok s' n' /\ n - 7 * Z.of_nat k <= n' /\ grows (frames s) sh (frames s') sh' /\
    same_regs s s' /\ grown (frames s) (frames s') um um' a newsz perm.
Proof.
  induction k as [|k IH]; intros a s sh um n Has Hf Hn Hperm Hal Ha Hk Hend Hnone; cbn [allocuvm_loop].
  all: destruct (Z.leb_spec newsz a) as [Hle|Hlt];
    [exists s, sh, um, n; split_and!; try done; [lia|split; [intros; lia|done]]|].
  { unfold PGSIZE in *. lia. }
  destruct (map_new_frame s sh root um n a perm zeros) as (mem & s1 & s3 & sh3 & n3 & -> & Ef & Hm0 & Hnew & E & Has3 & Hf3 & Hn3 & Hg3 & Hr3 & Hz & Hzs);
    [done|done|lia|done|lia|apply Hnone; lia|done|apply zlen_zeros|]. cbn [obind]. rewrite Hm0.
  unfold zero_frame. rewrite Ef, lookup_insert_eq. cbn [of_option obind]. change (repeat 0 4096) with zeros.
  rewrite insert_insert_eq, E. cbn [obind]. change (0 <? 0) with false. cbn iota. rewrite u32_small by (unfold KERNBASE in *; plia).
  destruct (IH (a + PGSIZE) s3 sh3 (<[a := (mem, Z.lor perm PTE_P)]> um) n3)
    as (s' & sh' & um' & n' & -> & V1 & V2 & V3 & V4 & V5 & V6 & V7);
    [done|done|lia|done|replace PGSIZE with (PGSIZE * 1) at 1 by done; by apply aligned_add|plia|done|plia| |].
  { intros va Hva. rewrite lookup_insert_ne by plia. apply Hnone. plia. }
  exists s', sh', um', n'. split_and!; try done; [lia|by eapply grows_trans|by eapply same_regs_trans|]. split.
  - intros va Hva Hr. destruct (decide (va = a)) as [->|Hne].
    + exists mem. rewrite V7 by plia. rewrite lookup_insert_eq. split_and!; [done|done|].
      destruct (grows_keep _ _ _ _ V4 mem) as [-> _]; [rewrite Hz; eauto|done|done].
    + pose proof (aligned_step a va Hal Hva ltac:(lia)). destruct (V6 va Hva) as (m & E1 & E2 & E3); [lia|].
      exists m. split_and!; [done|by eapply grows_fresh|done].
  - intros va Hva. rewrite V7 by plia. rewrite lookup_insert_ne; [done|]. intros ->. apply Hva. plia.
Qed.

(** *** Shrinking *)

(** The pages of [[a, oldsz)] are gone and exactly their frames are freed. *)
Record shrunk (s : state) (sh : gmap Z role) (um : user_map) (a oldsz : Z) (s' : state) (um' : user_map) : Prop := {
  sh_map va : um' !! va = if decide (a <= va < oldsz) then None else um !! va;
  sh_freed va p fl : um !! va = Some (p, fl) -> a <= va < oldsz -> frames s' !! p = None;
  sh_kept p : sh !! p = None -> (forall va fl, a <= va < oldsz -> um !! va <> Some (p, fl)) -> frames s' !! p = frames s !! p
}.

Definition dealloc_body (root a : Z) (s : state) : outcome state :=
  '(pte, s1) <- walkpgdir junk root a false (Z.lor PTE_W PTE_U) s ;;
  if pte =? 0 then Ret s1 else
  e <- read64 (frames s1) pte ;;
  if negb (present e) then Ret s1 else
  let pa := u32 (PTE_ADDR e) in
  if pa =? 0 then Panic "kfree" else
  s2 <- vm_kfree (P2V pa) s1 ;;
  f <- write64 (frames s2) pte 0 ;;
  Ret (with_frames s2 f).

Lemma dealloc_absent s sh root um a : aspace (frames s) sh root um -> a mod PGSIZE = 0 -> 0 <= a < KERNBASE ->
  um !! a = None -> dealloc_body root a s = Ret s.
Proof.
  intros Has Hal Ha Hnone. pose proof (as_wf _ _ _ _ Has) as wf. unfold dealloc_body. rewrite (walk_ok s sh) by done. cbn [obind].
  assert (Hp : pte_of (frames s) root a = None).
  { rewrite (as_pte _ _ _ _ Has) by (unfold KERNBASE in *; plia). by rewrite PGROUNDDOWN_id, Hnone. }
  destruct (leaf (frames s) root a) as [t|] eqn:El; [|done]. pose proof (PTX_range a).
  destruct (wf_page _ _ _ wf _ _ (leaf_role _ _ _ wf _ _ El)) as (Hok & _). rewrite entry_addr_nonzero by done.
  destruct (pte_of_absent _ _ _ _ _ wf El Hp) as (e & E & Pe). rewrite read_entry, E by done. cbn [of_option obind]. by rewrite Pe.
Qed.

(** The entry of a mapped page. *)
Lemma user_entry f sh root um a p fl : aspace f sh root um -> um !! a = Some (p, fl) ->
  exists t page, leaf f root a = Some t /\ frame_ok t /\ f !! t = Some page /\ zlen page = PGSIZE /\ is_Some (sh !! t) /\
    entry f t (PTX a) = Some (mk_pte p fl).
Proof.
  intros Has Hl. pose proof (as_wf _ _ _ _ Has) as wf.
  destruct (as_page _ _ _ _ Has _ _ _ Hl) as (Hal & Ha & Hok & Hfl & Hb & _).
  assert (Hp : pte_of f root a = Some (mk_pte p fl)).
  { rewrite (as_pte _ _ _ _ Has) by (unfold KERNBASE in *; plia). by rewrite PGROUNDDOWN_id, Hl. }
  unfold pte_of in Hp. destruct (leaf f root a) as [t|] eqn:El; [|done].
  pose proof (leaf_role _ _ _ wf _ _ El) as Hr. destruct (wf_page _ _ _ wf _ _ Hr) as (Hokt & pg & Ep & Lp).
  exists t, pg. destruct (entry f t (PTX a)) as [e|] eqn:Ee; [|done]. destruct (present e); [|done].
  split_and!; [done|done|done|done|by eauto|]. exact Hp.
Qed.

Lemma dealloc_present s sh root um n a p fl : aspace (frames s) sh root um -> frames_ok s n -> um !! a = Some (p, fl) ->
  exists s', dealloc_body root a s = Ret s' /\ aspace (frames s') sh root (delete a um) /\ frames_ok s' (n + 1) /\
    same_regs s s' /\ frames s' !! p = None /\ forall q, sh !! q = None -> q <> p -> frames s' !! q = frames s !! q.
Proof.
  intros Has Hf Hl. pose proof (as_wf _ _ _ _ Has) as wf. unfold dealloc_body. rewrite (walk_ok s sh) by done. cbn [obind].
  destruct (as_page _ _ _ _ Has _ _ _ Hl) as (Hal & Ha & Hok & Hfl & Hb & Hsp & pg & Ep & Lp).
  destruct (user_entry _ _ _ _ _ _ _ Has Hl) as (t & tp & El & Hokt & Et & Lt & [r Hst] & Ee). rewrite El.
  pose proof (PTX_range a). rewrite entry_addr_nonzero by done. rewrite read_entry, Ee by done. cbn [of_option obind].
  destruct (mk_pte_ok p fl Hok Hfl Hb) as (-> & _ & -> & _ & _). cbn [negb].
  destruct (V2P_frame p Hok) as (Hu & _ & Hr & Epv). rewrite (u32_small (V2P p)) by done.
  destruct (Z.eqb_spec (V2P p) 0); [lia|]. rewrite Epv.
  destruct (kfree_ok s n p pg Hf Ep) as (s2 & -> & Ef & Hf2 & Hr2). cbn [obind].
  assert (Htp : t <> p) by congruence.
  assert (Hfrom : forall q, is_Some (sh !! q) -> frames s2 !! q = frames s !! q).
  { intros q [rq Hq]. rewrite Ef. apply lookup_delete_ne. congruence. }
  assert (Et2 : frames s2 !! t = Some tp) by (rewrite Hfrom; eauto).
  erewrite write_entry by done. cbn [obind]. eexists. split; [done|]. cbn [with_frames frames].
  assert (wf2 : pt_wf (frames s2) sh root) by by eapply pt_wf_agree.
  assert (El2 : leaf (frames s2) root a = Some t) by by rewrite (leaf_agree (frames s) _ sh).
  assert (Hother : forall q, sh !! q = None -> q <> p -> set_entry (frames s2) t (PTX a) 0 !! q = frames s !! q).
  { intros q Hq Hqp. unfold set_entry. rewrite lookup_alter_ne by congruence. rewrite Ef. by apply lookup_delete_ne. }
  split_and!; [|by apply frames_ok_set|exact Hr2| |done].
  - constructor.
    + by eapply set_pte_wf.
    + intros va Hva Hk. erewrite set_pte_pte by (done || (unfold KERNBASE in *; plia)). rewrite (PGROUNDDOWN_id a) by done. case_decide as E.
      * by rewrite E, lookup_delete_eq.
      * rewrite lookup_delete_ne by done. rewrite (pte_of_agree (frames s) _ sh) by done. by apply Has.
    + intros va q fl' [Hne Hl']%lookup_delete_Some. destruct (as_page _ _ _ _ Has _ _ _ Hl') as (? & ? & ? & ? & ? & ? & ?).
      split_and!; try done; try lia. rewrite Hother; [done|done|]. intros ->. apply Hne. by eapply (as_inj _ _ _ _ Has).
    + intros va vb q fl1 fl2 [_ ?]%lookup_delete_Some [_ ?]%lookup_delete_Some. by eapply (as_inj _ _ _ _ Has).
  - unfold set_entry. rewrite lookup_alter_ne by done. rewrite Ef. apply lookup_delete_eq.
Qed.

Lemma deallocuvm_loop_unfold (k : nat) root a oldsz s : deallocuvm_loop junk (S k) root a oldsz s =
  if oldsz <=? a then Ret s else s2 <- dealloc_body root a s ;; deallocuvm_loop junk k root (u32 (a + PGSIZE)) oldsz s2.
Proof.
  cbn [deallocuvm_loop]. destruct (oldsz <=? a); [done|]. unfold dealloc_body.
  destruct (walkpgdir _ _ _ _ _ _) as [[pte s1]| | |]; [|done..]. cbn [obind]. done.
Qed.

Lemma deallocuvm_loop_ok root oldsz sh (k : nat) : forall a s um n,
  aspace (frames s) sh root um -> frames_ok s n -> a mod PGSIZE = 0 -> 0 <= a -> oldsz <= KERNBASE ->
  oldsz <= a + PGSIZE * Z.of_nat k ->
  exists s' um', deallocuvm_loop junk k root a oldsz s = Ret s' /\ aspace (frames s') sh root um' /\
    frames_ok s' (n + Z.of_nat (size um) - Z.of_nat (size um')) /\ same_regs s s' /\ shrunk s sh um a oldsz s' um'.
Proof.
  induction k as [|k IH]; intros a s um n Has Hf Hal Ha Hk Hend; [|rewrite deallocuvm_loop_unfold].
  all: cbn [deallocuvm_loop]; destruct (Z.leb_spec oldsz a) as [Hle|Hlt];
    [exists s, um; split_and!; try done; [by replace (n + _ - _) with n by lia|]; split; [intros; by rewrite decide_False by lia|intros; lia|done]|].
  { plia. }
  assert (Hstep : forall s2 um2 n2, aspace (frames s2) sh root um2 -> frames_ok s2 n2 -> n2 - n = Z.of_nat (size um) - Z.of_nat (size um2) ->
    same_regs s s2 -> shrunk s sh um a (a + 1) s2 um2 -> exists s' um', deallocuvm_loop junk k root (a + PGSIZE) oldsz s2 = Ret s' /\
      aspace (frames s') sh root um' /\ frames_ok s' (n + Z.of_nat (size um) - Z.of_nat (size um')) /\ same_regs s s' /\
      shrunk s sh um a oldsz s' um').
  { intros s2 um2 n2 Has2 Hf2 Hn2 Hr2 [M1 M2 M3]. destruct (IH (a + PGSIZE) s2 um2 n2) as (s' & um' & E & Has' & Hf' & Hr' & [N1 N2 N3]);
      [done|done|replace PGSIZE with (PGSIZE * 1) at 1 by done; by apply aligned_add|plia|done|plia|].
    assert (Hin : forall va x, um !! va = Some x -> a <= va < oldsz -> va = a \/ (a + PGSIZE <= va < oldsz /\ um2 !! va = Some x)).
    { intros va x Hl Hr. destruct (decide (va = a)); [by left|right]. destruct x as [p fl].
      pose proof (aligned_step a va Hal (proj1 (as_page _ _ _ _ Has _ _ _ Hl)) ltac:(lia)). split; [lia|].
      rewrite M1, decide_False by lia. done. }
    exists s', um'. split_and!; [done|done|by replace (n + _ - _) with (n2 + Z.of_nat (size um2) - Z.of_nat (size um')) by lia|by eapply same_regs_trans|].
    split.
    - intros va. rewrite N1, M1. destruct (um !! va) as [x|] eqn:El; [|by repeat case_decide].
      destruct (decide (a <= va < oldsz)) as [Hr|Hr]; [|by rewrite !decide_False by plia].
      destruct (Hin va x El Hr) as [->|[Hr2' _]]; [by rewrite decide_False, decide_True by plia|by rewrite decide_True by lia].
    - intros va p fl Hl Hr. destruct (Hin va _ Hl Hr) as [->|[Hr2' Hl2]]; [|by eapply N2].
      destruct (as_page _ _ _ _ Has _ _ _ Hl) as (_ & _ & _ & _ & _ & Hs & _). rewrite N3; [eapply M2; [done|lia]|done|].
      intros vb fl' Hvb Hl'. assert (um !! vb = Some (p, fl')) by (rewrite M1, decide_False in Hl' by plia; done).
      assert (vb = a) by (by eapply (as_inj _ _ _ _ Has)). plia.
    - intros p Hs Hno. rewrite N3; [apply M3; [done|]|done|].
      + intros va fl Hr. apply Hno. lia.
      + intros va fl Hr Hl. rewrite M1, decide_False in Hl by plia. eapply (Hno va fl); [plia|done]. }
  destruct (um !! a) as [[p fl]|] eqn:El.
  - destruct (dealloc_present _ _ _ _ _ _ _ _ Has Hf El) as (s2 & -> & Has2 & Hf2 & Hr2 & Hp2 & Hq2). cbn [obind].
    rewrite u32_small by (unfold KERNBASE in *; plia). apply (Hstep s2 (delete a um) (n + 1)); [done|done| |done|].
    + rewrite map_size_delete_Some by eauto. assert (size um <> 0)%nat by (rewrite map_size_ne_0_lookup; eauto). lia.
    + split.
      * intros va. case_decide; [replace va with a by lia; apply lookup_delete_eq|apply lookup_delete_ne; lia].
      * intros va q fl' Hl Hr. replace va with a in Hl by lia. by simplify_eq.
      * intros q Hq Hno. apply Hq2; [done|]. intros ->. eapply (Hno a fl); [lia|done].
  - rewrite (dealloc_absent s sh root um a Has Hal ltac:(lia) El). cbn [obind]. rewrite u32_small by (unfold KERNBASE in *; plia).
    apply (Hstep s um n); [done|done|lia|done|]. split; [|intros va p fl Hl Hr; replace va with a in Hl by lia; congruence|done].
    intros va. case_decide; [by replace va with a by lia|done].
Qed.

(** *** Copying *)

Lemma lor_bit0 fl : Z.testbit fl 0 = true -> Z.lor fl PTE_P = fl.
Proof.
  intros Hb. apply Z.bits_inj'. intros n Hn. rewrite Z.lor_spec. destruct (decide (n = 0)) as [->|].
  - rewrite Hb. done.
  - unfold PTE_P. rewrite (bits_above 1 1 n) by lia. by rewrite orb_false_r.
Qed.

(** Another address space is untouched by what happens in this one. *)
Definition apart (shN shO : gmap Z role) (umO : user_map) : Prop :=
  shN ##ₘ shO /\ forall va p fl, umO !! va = Some (p, fl) -> shN !! p = None.

Lemma apart_keeps f f' shN shN' shO rootO umO : aspace f shO rootO umO -> apart shN shO umO -> grows f shN f' shN' ->
  aspace f' shO rootO umO /\ apart shN' shO umO /\
  (forall va p fl, umO !! va = Some (p, fl) -> f' !! p = f !! p).
Proof.
  intros Has [Hd Hu] Hg.
  assert (Hsh : forall p, is_Some (shO !! p) -> f' !! p = f !! p /\ shN' !! p = None).
  { intros p [r Hp]. apply (grows_keep _ _ _ _ Hg); [|by eapply map_disjoint_Some_r].
    destruct (shape_page _ _ _ (as_wf _ _ _ _ Has) _ _ Hp) as (? & -> & _). eauto. }
  assert (Hum : forall va p fl, umO !! va = Some (p, fl) -> f' !! p = f !! p /\ shN' !! p = None).
  { intros va p fl Hl. apply (grows_keep _ _ _ _ Hg); [|by eapply Hu].
    destruct (as_page _ _ _ _ Has _ _ _ Hl) as (_ & _ & _ & _ & _ & _ & ? & -> & _). eauto. }
  split_and!.
  - eapply aspace_agree; [done|by intros; apply Hsh|]. intros va p fl Hl. rewrite (proj1 (Hum _ _ _ Hl)).
    by apply (as_page _ _ _ _ Has _ _ _ Hl).
  - split; [|intros; by eapply Hum]. apply map_disjoint_spec. intros p r1 r2 H1 H2. destruct (Hsh p) as [_ ?]; [eauto|]. congruence.
  - intros. by eapply Hum.
Qed.

(** Every page of [[i, end)] of [umO] is in [umN'] with the same flags, backed by
    a new frame with the same contents. *)
Definition copied (f f' : page_frames) (umO umN umN' : user_map) (i end_ : Z) : Prop :=
  (forall va p fl, umO !! va = Some (p, fl) -> i <= va < end_ ->
     exists mem, umN' !! va = Some (mem, fl) /\ f !! mem = None /\ f' !! mem = f !! p) /\
  (forall va, ~ i <= va < end_ -> umN' !! va = umN !! va).

Lemma copyuvm_loop_ok rootN rootO shO umO end_ (k : nat) : forall i s shN umN n,
  aspace (frames s) shN rootN umN -> aspace (frames s) shO rootO umO -> apart shN shO umO ->
  frames_ok s n -> 7 * Z.of_nat k <= n -> i mod PGSIZE = 0 -> 0 <= i -> end_ <= KERNBASE -> end_ <= i + PGSIZE * Z.of_nat k ->
  (forall va, va mod PGSIZE = 0 -> i <= va < end_ -> is_Some (umO !! va) /\ umN !! va = None) ->
  exists s' shN' umN' n', copyuvm_loop junk k rootN rootO i end_ s = Ret (rootN, s') /\
    aspace (frames s') shN' rootN umN' /\ aspace (frames s') shO rootO umO /\ apart shN' shO umO /\
    frames_ok s' n' /\ n - 7 * Z.of_nat k <= n' /\ grows (frames s) shN (frames s') shN' /\ same_regs s s' /\
    copied (frames s) (frames s') umO umN umN' i end_.
Proof.
  induction k as [|k IH]; intros i s shN umN n HN HO Hap Hf Hn Hal Hi Hk Hend Hr; cbn [copyuvm_loop].
  all: destruct (Z.leb_spec end_ i) as [Hle|Hlt];
    [exists s, shN, umN, n; split_and!; try done; [lia|split; [intros; lia|done]]|].
  { plia. }
  destruct (Hr i Hal ltac:(lia)) as [[[p fl] Hl] Hnone]. pose proof (PTX_range i).
  destruct (as_page _ _ _ _ HO _ _ _ Hl) as (_ & Hik & Hok & Hfl & Hb & Hsp & pg & Ep & Lp).
  destruct (user_entry _ _ _ _ _ _ _ HO Hl) as (t & tp & El & Hokt & Et & Lt & _ & Ee).
  rewrite (walk_ok s shO) by apply HO. rewrite El. cbn [obind]. rewrite entry_addr_nonzero by done.
  rewrite read_entry, Ee by done. cbn [of_option obind]. destruct (mk_pte_ok p fl Hok Hfl Hb) as (-> & _ & -> & -> & _). cbn [negb].
  destruct (V2P_frame p Hok) as (Hu & _ & _ & Epv). rewrite (u32_small (V2P p)), (u32_small fl), Epv by plia.
  destruct (map_new_frame s shN rootN umN n i fl pg) as (mem & s1 & s3 & sh3 & n3 & -> & Ef & Hm0 & Hnew & E & Has3 & Hf3 & Hn3 & Hg3 & Hr3 & Hz & Hzs);
    [done|done|lia|done|lia|done|lia|done|]. cbn [obind]. rewrite Hm0. unfold copy_frame.
  rewrite Ef, (lookup_insert_ne _ mem p), Ep, lookup_insert_eq by congruence. cbn [of_option obind].
  rewrite insert_insert_eq, E. cbn [obind]. change (0 <? 0) with false. cbn iota. rewrite u32_small by (unfold KERNBASE in *; plia).
  destruct (apart_keeps _ _ _ _ _ _ _ HO Hap Hg3) as (HO3 & Hap3 & Hk3). rewrite lor_bit0 in Has3 by done.
  destruct (IH (i + PGSIZE) s3 sh3 (<[i := (mem, fl)]> umN) n3)
    as (s' & shN' & umN' & n' & -> & V1 & V2 & V3 & V4 & V5 & V6 & V7 & V8 & V9);
    [done|done|done|done|lia|replace PGSIZE with (PGSIZE * 1) at 1 by done; by apply aligned_add|plia|done|plia| |].
  { intros va Hva Hrv. rewrite lookup_insert_ne by plia. apply Hr; [done|plia]. }
  exists s', shN', umN', n'. split_and!; try done; [lia|by eapply grows_trans|by eapply same_regs_trans|]. split.
  - intros va q fq Hlq Hrq. destruct (decide (va = i)) as [->|Hne].
    + simplify_eq. exists mem. rewrite V9 by plia. rewrite lookup_insert_eq. split_and!; [done|done|].
      destruct (grows_keep _ _ _ _ V6 mem) as [-> _]; [rewrite Hz; eauto|done|]. congruence.
    + pose proof (aligned_step i va Hal (proj1 (as_page _ _ _ _ HO _ _ _ Hlq)) ltac:(lia)).
      destruct (V8 va q fq Hlq) as (m & E1 & E2 & E3); [lia|]. exists m. split_and!; [done|by eapply grows_fresh|].
      rewrite E3. by eapply Hk3.
  - intros va Hva. rewrite V9 by plia. rewrite lookup_insert_ne; [done|]. intros ->. apply Hva. plia.
Qed.

(** *** Freeing an address space *)

(** Only directories go; [f0] is the table as it was. *)
Lemma freevm_loop_ok f0 sh root (k : nat) : forall i s n, pt_wf f0 sh root -> frames_ok s n -> 0 <= i -> i + Z.of_nat k = 512 ->
  (forall p r, sh !! p = Some r -> (forall m, r = PD m -> i <= m) -> frames s !! p = f0 !! p) ->
  exists s' n', freevm_loop k root i s = Ret s' /\ frames_ok s' n' /\ n <= n' /\ same_regs s s' /\
    forall p, (forall m, sh !! p <> Some (PD m)) -> frames s' !! p = frames s !! p.
Proof.
  induction k as [|k IH]; intros i s n wf Hf Hi Hk Hag; cbn [freevm_loop]; [exists s, n; split_and!; done || lia|].
  destruct (wf_page _ _ _ wf _ _ (wf_root _ _ _ wf)) as (Hokr & _).
  assert (Er : frames s !! root = f0 !! root) by (eapply Hag; [apply (wf_root _ _ _ wf)|done]).
  assert (Ee : entry (frames s) root i = entry f0 root i) by (unfold entry; by rewrite Er).
  destruct (shape_entry _ _ _ wf _ _ i (wf_root _ _ _ wf)) as (e & E). rewrite read_entry, Ee, E by (done || lia). cbn [of_option obind].
  destruct (present e) eqn:Pe; cycle 1.
  { cbn [obind]. apply IH; [done|done|lia|lia|]. intros p r Hp Hm. apply (Hag p r Hp). intros m Hr. specialize (Hm m Hr). lia. }
  assert (i < 4).
  { destruct (decide (i < 4)); [done|]. rewrite (wf_hole _ _ _ wf) in E by lia. by injection E as <-. }
  pose proof (wf_pd _ _ _ wf i e ltac:(lia) E Pe) as Hpd. destruct (wf_page _ _ _ wf _ _ Hpd) as (_ & pg & Ep & _).
  set (q := P2V (PTE_ADDR e)) in *. assert (Eq : frames s !! q = Some pg).
  { rewrite (Hag q _ Hpd); [done|]. intros m [= <-]. lia. }
  destruct (kfree_ok s n q pg Hf Eq) as (s1 & -> & Ef & Hf1 & Hr1). cbn [obind].
  destruct (IH (i + 1) s1 (n + 1) wf Hf1) as (s' & n' & -> & Hf' & Hn' & Hr' & Hkeep); [lia|lia| |].
  { intros p r Hp Hm. rewrite Ef, lookup_delete_ne.
    - apply (Hag p r Hp). intros m Hr. specialize (Hm m Hr). lia.
    - intros ->. assert (r = PD i) as -> by congruence. specialize (Hm i eq_refl). lia. }
  exists s', n'. split_and!; [done|done|lia|by eapply same_regs_trans|].
  intros p Hp. rewrite Hkeep by done. rewrite Ef. apply lookup_delete_ne. intros <-. by eapply Hp.
Qed.

Lemma deallocuvm_ok s sh root um n oldsz newsz : aspace (frames s) sh root um -> frames_ok s n ->
  0 <= newsz < oldsz -> oldsz <= KERNBASE ->
  exists s' um', deallocuvm junk root oldsz newsz s = Ret (newsz, s') /\ aspace (frames s') sh root um' /\
    frames_ok s' (n + Z.of_nat (size um) - Z.of_nat (size um')) /\ same_regs s s' /\
    shrunk s sh um (PGROUNDUP newsz) oldsz s' um'.
Proof.
  intros Has Hf Hns Hk. unfold deallocuvm. destruct (Z.leb_spec oldsz newsz); [lia|].
  pose proof (PGROUNDUP_bounds newsz ltac:(lia) ltac:(unfold KERNBASE in *; lia)) as Hb.
  destruct (deallocuvm_loop_ok root oldsz sh (pages_below (PGROUNDUP newsz) oldsz) (PGROUNDUP newsz) s um n)
    as (s' & um' & -> & V); [done|done|apply PGROUNDUP_aligned|lia|done| |by exists s', um'].
  unfold pages_below. pose proof (PGROUNDUP_aligned newsz). unfold PGSIZE in *.
  destruct (decide (PGROUNDUP newsz <= oldsz)); [rewrite Z2Nat.id by (apply Z.div_pos; lia)|];
    Z.to_euclidean_division_equations; lia.
Qed.

Lemma pages_below_enough a b : b <= a + PGSIZE * Z.of_nat (pages_below a b).
Proof.
  unfold pages_below, PGSIZE. destruct (decide (a <= b)); [rewrite Z2Nat.id by (apply Z.div_pos; lia)|];
    Z.to_euclidean_division_equations; lia.
Qed.

Lemma pages_below_bound a b : a <= b -> Z.of_nat (pages_below a b) <= (b - a) / PGSIZE + 1.
Proof.
  intros. unfold pages_below, PGSIZE. rewrite Z2Nat.id by (apply Z.div_pos; lia). Z.to_euclidean_division_equations. lia.
Qed.

Lemma allocuvm_ok s sh root um n oldsz newsz perm : aspace (frames s) sh root um -> frames_ok s n ->
  0 <= oldsz <= newsz -> newsz <= KERNBASE -> 0 <= perm < 4096 -> 7 * ((newsz - oldsz) / PGSIZE + 1) <= n ->
  (forall va, PGROUNDUP oldsz <= va < newsz -> um !! va = None) ->
  exists s' sh' um' n', allocuvm junk root oldsz newsz perm s = Ret (newsz, s') /\
    aspace (frames s') sh' root um' /\ frames_ok s' n' /\ n - 7 * ((newsz - oldsz) / PGSIZE + 1) <= n' /\
    grows (frames s) sh (frames s') sh' /\ grown (frames s) (frames s') um um' (PGROUNDUP oldsz) newsz perm.
Proof.
  intros Has Hf Hsz Hk Hperm Hn Hnone. unfold allocuvm. destruct (Z.ltb_spec newsz oldsz); [lia|].
  pose proof (PGROUNDUP_bounds oldsz ltac:(lia) ltac:(unfold KERNBASE in *; lia)) as Hb.
  set (a := PGROUNDUP oldsz) in *. set (k := pages_below a newsz).
  assert (Hkb : Z.of_nat k <= (newsz - oldsz) / PGSIZE + 1).
  { unfold k, pages_below, PGSIZE in *. destruct (decide (a <= newsz)); [rewrite Z2Nat.id by (apply Z.div_pos; lia)|];
      Z.to_euclidean_division_equations; lia. }
  destruct (allocuvm_loop_ok root oldsz newsz perm k a s sh um n) as (s' & sh' & um' & n' & -> & V1 & V2 & V3 & V4 & _ & V6);
    [done|done|lia|done|apply PGROUNDUP_aligned|lia|done|apply pages_below_enough|done|].
  exists s', sh', um', n'. split_and!; try done; lia.
Qed.

(** C31: growing user memory, below the kernel.  With enough free frames, [allocuvm] returns the
    new size and maps exactly the pages between the two sizes, each to a frame
    of its own that was free before, filled with zeros and carrying the
    requested permissions; other pages of the address space, and all memory
    that is not part of its page table, stay as they were. *)
Theorem allocuvm_correct s sh root um n oldsz newsz perm : aspace (frames s) sh root um -> frames_ok s n ->
  0 <= oldsz <= newsz -> newsz <= KERNBASE -> 0 <= perm < 4096 -> 7 * ((newsz - oldsz) / PGSIZE + 1) <= n ->
  (forall va, PGROUNDUP oldsz <= va < newsz -> um !! va = None) ->
  exists s' sh' um' n', allocuvm junk root oldsz newsz perm s = Ret (newsz, s') /\
    aspace (frames s') sh' root um' /\ frames_ok s' n' /\ n - 7 * ((newsz - oldsz) / PGSIZE + 1) <= n' /\
    grows (frames s) sh (frames s') sh' /\ grown (frames s) (frames s') um um' (PGROUNDUP oldsz) newsz perm.
Proof. apply allocuvm_ok. Qed.

(** shrinking user memory.  [deallocuvm] unmaps exactly the pages between
    the two sizes and gives exactly their frames back to the allocator, which
    then has as many more free frames; every other page keeps its frame. *)
Theorem deallocuvm_correct s sh root um n oldsz newsz : aspace (frames s) sh root um -> frames_ok s n ->
  0 <= newsz < oldsz -> oldsz <= KERNBASE ->
  exists s' um', deallocuvm junk root oldsz newsz s = Ret (newsz, s') /\ aspace (frames s') sh root um' /\
    frames_ok s' (n + Z.of_nat (size um) - Z.of_nat (size um')) /\ same_regs s s' /\
    shrunk s sh um (PGROUNDUP newsz) oldsz s' um'.
Proof. apply deallocuvm_ok. Qed.

(** copying user memory for [fork].  Every page of the range is mapped in
    the child with the parent's flags, to a frame that was free before and
    holds a copy of the parent's page; the parent's address space keeps its
    translations, its frames and (as all frames outside the child's table)
    their contents. *)
Theorem copyuvm_correct s shN rootN umN shO rootO umO n begin end_ :
  aspace (frames s) shN rootN umN -> aspace (frames s) shO rootO umO -> apart shN shO umO -> frames_ok s n ->
  begin mod PGSIZE = 0 -> 0 <= begin <= end_ -> end_ <= KERNBASE -> 7 * ((end_ - begin) / PGSIZE + 1) <= n ->
  (forall va, va mod PGSIZE = 0 -> begin <= va < end_ -> is_Some (umO !! va) /\ umN !! va = None) ->
  exists s' shN' umN' n', copyuvm junk rootN rootO begin end_ s = Ret (rootN, s') /\
    aspace (frames s') shN' rootN umN' /\ aspace (frames s') shO rootO umO /\ apart shN' shO umO /\ frames_ok s' n' /\
    grows (frames s) shN (frames s') shN' /\ copied (frames s) (frames s') umO umN umN' begin end_.
Proof.
  intros HN HO Hap Hf Hal Hb Hk Hn Hr. unfold copyuvm. pose proof (pages_below_bound begin end_ ltac:(lia)).
  destruct (copyuvm_loop_ok rootN rootO shO umO end_ (pages_below begin end_) begin s shN umN n)
    as (s' & shN' & umN' & n' & -> & V1 & V2 & V3 & V4 & _ & V6 & _ & V8);
    [done|done|done|done|lia|done|lia|done|apply pages_below_enough|done|].
  exists s', shN', umN', n'. split_and!; try done; apply V8.
Qed.

(** [freevm] leaks.  It gives back the user frames, the directories and the
    root of the page table, but none of the last-level tables: every one of
    them stays allocated for good, so each process that exits leaks at least
    the tables of the kernel's own mappings. *)
Theorem freevm_leaks_page_tables s sh root um n : aspace (frames s) sh root um -> frames_ok s n ->
  exists s' n', freevm junk root s = Ret s' /\ frames_ok s' n' /\
    (forall va p fl, um !! va = Some (p, fl) -> frames s' !! p = None) /\ frames s' !! root = None /\
    (forall p i j, sh !! p = Some (PT i j) -> is_Some (frames s' !! p)).
Proof.
  intros Has Hf. pose proof (as_wf _ _ _ _ Has) as wf. pose proof (wf_root _ _ _ wf) as Hroot. unfold freevm.
  destruct (wf_page _ _ _ wf _ _ Hroot) as (Hokr & _).
  destruct (frame_ok_range _ Hokr) as (_ & Hr0 & _). destruct (Z.eqb_spec root 0); [lia|].
  destruct (deallocuvm_ok s sh root um n KERNBASE 0 Has Hf) as (s1 & um1 & -> & Has1 & Hf1 & _ & [M1 M2 M3]); [done|done|]. cbn [obind].
  destruct (freevm_loop_ok (frames s1) sh root NPDENTRIES 0 s1 _ (as_wf _ _ _ _ Has1) Hf1) as (s2 & n2 & -> & Hf2 & _ & _ & Hkeep); [done|done|done|].
  cbn [obind]. destruct (wf_page _ _ _ (as_wf _ _ _ _ Has1) _ _ Hroot) as (_ & rp & Er & _).
  destruct (kfree_ok s2 n2 root rp Hf2) as (s3 & -> & Ef & Hf3 & _); [rewrite Hkeep; [done|congruence]|].
  exists s3, (n2 + 1). split_and!; [done|done| | |].
  - intros va p fl Hl. destruct (as_page _ _ _ _ Has _ _ _ Hl) as (_ & Hva & _ & _ & _ & Hs & _).
    rewrite Ef, lookup_delete_ne by congruence. rewrite Hkeep by congruence. eapply M2; [done|]. by change (PGROUNDUP 0) with 0.
  - rewrite Ef. apply lookup_delete_eq.
  - intros p i j Hp. rewrite Ef, lookup_delete_ne by congruence. rewrite Hkeep by congruence.
    destruct (wf_page _ _ _ (as_wf _ _ _ _ Has1) _ _ Hp) as (_ & ? & -> & _). eauto.
Qed.

End proofs.

(** ** An example *)

(** An empty page table. *)
Lemma aspace_empty f root : frame_ok root -> f !! root = Some zeros -> aspace f {[root := Root]} root ∅.
Proof.
  intros Hok Hz. assert (He : forall k, entry f root k = Some 0).
  { intros k. unfold entry. rewrite Hz. cbn [fmap option_fmap option_map]. f_equal. exact (get64_zeros _ 4096). }
  assert (wf : pt_wf f {[root := Root]} root).
  { constructor.
    - apply lookup_singleton_eq.
    - intros p r [<- _]%lookup_singleton_Some. split; [done|]. exists zeros. split; [done|apply zlen_zeros].
    - intros i e _. rewrite He. by intros [= <-].
    - intros i _. apply He.
    - intros p i j e [_ ?]%lookup_singleton_Some. done. }
  constructor; [done| |by intros ???; rewrite lookup_empty..].
  intros va _ _. rewrite lookup_empty. unfold pte_of, leaf. by rewrite He.
Qed.

Definition ex_junk_frame : list Z := repeat 85 4096.

Lemma ex_junk_frame_page : zlen ex_junk_frame = PGSIZE.
Proof. unfold zlen, ex_junk_frame. by rewrite repeat_length. Qed.

(** Two empty page tables and a block of 200 free frames. *)
Definition ex_vm : vm kmem :=
  Vm {[0x80200000 := zeros; 0x80201000 := zeros]}
    (Kmem false true 0x80202000 (fun x => if x =? 0x80202004 then 200 else 0)) 0x80200000 PROC_MODULE_BOTTOM 0.

#[local] Existing Instance kmem_allocator_laws.
Definition ex_allocator : PageAllocator kmem := kmem_allocator 1000.
Definition ex_allocator_laws : AllocatorLaws kmem := kmem_allocator_laws 1000.
#[local] Existing Instance ex_allocator.
#[local] Existing Instance ex_allocator_laws.

Lemma ex_frame_ok root : root = 0x80200000 \/ root = 0x80201000 -> frame_ok root.
Proof. intros [->| ->]; split; [reflexivity|split; reflexivity|reflexivity|split; reflexivity]. Qed.

Lemma ex_tables root : root = 0x80200000 \/ root = 0x80201000 -> frames ex_vm !! root = Some zeros.
Proof.
  cbn [ex_vm frames]. intros [->| ->]; [apply lookup_insert_eq|].
  rewrite lookup_insert_ne by lia. apply lookup_singleton_eq.
Qed.

Lemma ex_aspace root : root = 0x80200000 \/ root = 0x80201000 -> aspace (frames ex_vm) {[root := Root]} root ∅.
Proof. intros H. apply aspace_empty; [by apply ex_frame_ok|by apply ex_tables]. Qed.

Lemma ex_frames_ok : frames_ok ex_vm 200.
Proof.
  exists {[0x80200000; 0x80201000]}. split; [|cbn [ex_vm frames]; rewrite dom_insert, dom_singleton; set_solver].
  exists [(0x80200000, 1); (0x80201000, 1)], [(0x80202000, 200)].
  assert (Hb : forall a n, a mod 4096 = 0 -> 0 < a -> 1 <= n -> a + n * 4096 <= 2 ^ 32 -> block_ok (a, n)) by done.
  split; [split; [done|split; [|done]]|split; [|split; [|split; [|split]]]].
  - split; [by apply Hb|done].
  - simpl. unfold block_disj, PGSIZE. simpl. split_and!; repeat constructor; lia || done.
  - unfold in_window, PGSIZE, KERNBASE, PHYSTOP. repeat constructor; simpl; lia.
  - reflexivity.
  - reflexivity.
  - intros p Hp. apply elem_of_union in Hp as [Hp|Hp]; apply elem_of_singleton in Hp as ->; [by left|by right; left].
Qed.

(** Two pages at the bottom of an empty address space. *)
Lemma allocuvm_correct_witness :
  exists s' sh' um' n', allocuvm ex_junk_frame 0x80200000 0 0x1800 PTE_U ex_vm = Ret (0x1800, s') /\
    aspace (frames s') sh' 0x80200000 um' /\ frames_ok s' n' /\ 186 <= n' /\
    grows (frames ex_vm) {[0x80200000 := Root]} (frames s') sh' /\ grown (frames ex_vm) (frames s') ∅ um' 0 0x1800 PTE_U.
Proof.
  apply (allocuvm_correct ex_junk_frame ex_junk_frame_page ex_vm {[0x80200000 := Root]} 0x80200000 ∅ 200 0 0x1800 PTE_U);
    [apply ex_aspace; by left|apply ex_frames_ok|lia|by vm_compute|unfold PTE_U; lia|by vm_compute|]. intros. apply lookup_empty.
Defined.

(** A state with a page mapped at 0 and one at 0x1000 in the first table. *)
Lemma ex_two_pages : exists s sh um n, aspace (frames s) sh 0x80200000 um /\ frames_ok s n /\ 186 <= n /\
  aspace (frames s) {[0x80201000 := Root]} 0x80201000 ∅ /\ apart {[0x80201000 := Root]} sh um /\
  forall va, va mod PGSIZE = 0 -> 0 <= va < 0x1800 -> is_Some (um !! va).
Proof.
  destruct (allocuvm_ok ex_junk_frame ex_junk_frame_page ex_vm {[0x80200000 := Root]} 0x80200000 ∅ 200 0 0x1800 PTE_U)
    as (s & sh & um & n & _ & Has & Hf & Hn & Hg & Hgr & Hout);
    [apply ex_aspace; by left|apply ex_frames_ok|lia|by vm_compute|unfold PTE_U; lia|by vm_compute|intros; apply lookup_empty|].
  destruct (grows_keep _ _ _ _ Hg 0x80201000) as [Ek Es]; [rewrite ex_tables by (by right); eauto|by rewrite lookup_singleton_ne|].
  rewrite ex_tables in Ek by (by right). exists s, sh, um, n. split_and!; [done|done|exact Hn| | |].
  - apply aspace_empty; [apply ex_frame_ok; by right|done].
  - split; [by apply map_disjoint_singleton_l|]. intros va p fl Hl. apply lookup_singleton_None. intros <-.
    destruct (decide (0 <= va < 0x1800)) as [Hr|Hr]; [|by rewrite Hout in Hl].
    destruct (Hgr va) as (m & E1 & E2 & _); [by apply (as_page _ _ _ _ Has _ _ _ Hl)|done|].
    rewrite Hl in E1. injection E1 as <- _. rewrite ex_tables in E2 by (by right). done.
  - intros va Hva Hr. destruct (Hgr va Hva Hr) as (m & -> & _). eauto.
Qed.

Lemma deallocuvm_correct_witness :
  exists s (um : gmap Z (Z * Z)) sh n s' um', is_Some (um !! 0x1000) /\ deallocuvm ex_junk_frame 0x80200000 0x2000 0xfff s = Ret (0xfff, s') /\
    aspace (frames s') sh 0x80200000 um' /\ frames_ok s' (n + Z.of_nat (size um) - Z.of_nat (size um')) /\
    same_regs s s' /\ shrunk s sh um 0x1000 0x2000 s' um'.
Proof.
  destruct ex_two_pages as (s & sh & um & n & Has & Hf & _ & _ & _ & Hp).
  destruct (deallocuvm_correct ex_junk_frame ex_junk_frame_page s sh 0x80200000 um n 0x2000 0xfff Has Hf) as (s' & um' & V); [lia|by vm_compute|].
  exists s, um, sh, n, s', um'. split; [|exact V]. apply Hp; [done|lia].
Defined.

Lemma copyuvm_correct_witness :
  exists s shO umO s' shN' umN' n', copyuvm ex_junk_frame 0x80201000 0x80200000 0 0x1800 s = Ret (0x80201000, s') /\
    aspace (frames s') shN' 0x80201000 umN' /\ aspace (frames s') shO 0x80200000 umO /\ apart shN' shO umO /\ frames_ok s' n' /\
    grows (frames s) {[0x80201000 := Root]} (frames s') shN' /\ copied (frames s) (frames s') umO ∅ umN' 0 0x1800.
Proof.
  destruct ex_two_pages as (s & sh & um & n & Has & Hf & Hn & Has2 & Hap & Hp).
  destruct (copyuvm_correct ex_junk_frame ex_junk_frame_page s {[0x80201000 := Root]} 0x80201000 ∅ sh 0x80200000 um n 0 0x1800)
    as (s' & shN' & umN' & n' & V);
    [done|done|done|done|done|lia|by vm_compute|by change ((0x1800 - 0) / PGSIZE) with 1; lia|intros va Hva Hr; split; [by apply Hp|apply lookup_empty]|].
  exists s, sh, um, s', shN', umN', n'. exact V.
Defined.

Lemma freevm_leaks_page_tables_witness :
  exists s (sh : gmap Z role) (um : gmap Z (Z * Z)) s' n', is_Some (um !! 0) /\ freevm ex_junk_frame 0x80200000 s = Ret s' /\ frames_ok s' n' /\
    (forall va p fl, um !! va = Some (p, fl) -> frames s' !! p = None) /\ frames s' !! 0x80200000 = None /\
    (forall p i j, sh !! p = Some (PT i j) -> is_Some (frames s' !! p)).
Proof.
  destruct ex_two_pages as (s & sh & um & n & Has & Hf & _ & _ & _ & Hp).
  destruct (freevm_leaks_page_tables ex_junk_frame ex_junk_frame_page s sh 0x80200000 um n Has Hf) as (s' & n' & V).
  exists s, sh, um, s', n'. split; [|exact V]. apply Hp; [done|lia].
Defined.
