(* ===== verification/Machine.v ===== *)
(** The machine the drivers run on: I/O ports (the inline assembly of
    kernel/common/x86.h), registers of devices mapped in memory, and memory that
    devices read and write.  The hardware is a parameter: a type of states with the
    effect of each access.  Code that accesses it runs in a monad of states and
    outcomes; what a driver relies on is a law about the accesses it makes. *)

From stdpp Require Import base list gmap sets strings.
From Stdlib Require Import ZArith Lia.
From S2P Require Import Prelude Vm.

Local Open Scope Z_scope.

(** Widths are in bytes. *)
Class Machine (H : Type) := {
  io_in : Z -> Z -> H -> Z * H;
  io_out : Z -> Z -> Z -> H -> H;
  mm_load : Z -> Z -> H -> Z * H;
  mm_store : Z -> Z -> Z -> H -> H;
  ram_get : Z -> Z -> H -> list Z;
  ram_put : Z -> list Z -> H -> H
}.

(** ** Code that accesses the machine *)

Definition hw (H A : Type) : Type := H -> outcome (A * H).

Definition mret {H A} (x : A) : hw H A := fun h => Ret (x, h).
Definition mbind {H A B} (m : hw H A) (k : A -> hw H B) : hw H B := fun h => obind (m h) (fun r => k (fst r) (snd r)).
Definition mlift {H A} (m : outcome A) : hw H A := fun h => obind m (fun x => Ret (x, h)).
Definition modify {H} (f : H -> H) : hw H unit := fun h => Ret (tt, f h).

Declare Scope hw_scope.
Delimit Scope hw_scope with hw.
Notation "x <~ m ; k" := (mbind m (fun x => k)) (at level 199, m at next level, right associativity) : hw_scope.
Notation "m ;> k" := (mbind m (fun _ => k)) (at level 199, right associativity) : hw_scope.

Local Open Scope hw_scope.

(** ** Ports and registers *)

Section access.
Context {H : Type} `{Machine H}.

Definition inb (port : Z) : hw H Z := fun h => Ret (io_in 1 port h).
Definition inw (port : Z) : hw H Z := fun h => Ret (io_in 2 port h).
Definition indw (port : Z) : hw H Z := fun h => Ret (io_in 4 port h).
Definition outb (port data : Z) : hw H unit := modify (io_out 1 port (u8 data)).
Definition outw (port data : Z) : hw H unit := modify (io_out 2 port (u16 data)).
Definition outdw (port data : Z) : hw H unit := modify (io_out 4 port (u32 data)).

(** [cnt] words from a port to memory, and back. *)
Fixpoint insw (port addr : Z) (cnt : nat) : hw H unit :=
  match cnt with
  | O => mret tt
  | S cnt' => w <~ inw port; modify (ram_put addr (le_bytes 2 w)) ;> insw port (addr + 2) cnt'
  end.

Fixpoint outsw (port addr : Z) (cnt : nat) : hw H unit :=
  match cnt with
  | O => mret tt
  | S cnt' => fun h => (outw port (le_val (ram_get addr 2 h)) ;> outsw port (addr + 2) cnt') h
  end.

Definition load8 (a : Z) : hw H Z := fun h => Ret (mm_load 1 a h).
Definition load16 (a : Z) : hw H Z := fun h => Ret (mm_load 2 a h).
Definition load32 (a : Z) : hw H Z := fun h => Ret (mm_load 4 a h).
Definition store8 (a v : Z) : hw H unit := modify (mm_store 1 a (u8 v)).
Definition store16 (a v : Z) : hw H unit := modify (mm_store 2 a (u16 v)).
Definition store32 (a v : Z) : hw H unit := modify (mm_store 4 a (u32 v)).
End access.

(** Waiting in a loop for a condition; each turn takes one of [fuel]. *)
Fixpoint spin {H} (fuel : nat) (busy : hw H bool) : hw H unit :=
  b <~ busy; if b then match fuel with O => fun _ => NoFuel | S fuel' => spin fuel' busy end else mret tt.

(** A list of actions, one after the other. *)
Fixpoint each {H A} (f : A -> hw H unit) (l : list A) : hw H unit :=
  match l with
  | [] => mret tt
  | x :: l' => f x ;> each f l'
  end.

(** ** Reasoning *)

Lemma mbind_Ret {H A B} (m : hw H A) (k : A -> hw H B) h r : mbind m k h = Ret r <-> exists x h', m h = Ret (x, h') /\ k x h' = Ret r.
Proof.
  unfold mbind. split.
  - destruct (m h) as [[x h']| | |]; cbn; [|done..]. eauto.
  - intros (x & h' & -> & ?). done.
Qed.

Lemma mbind_run {H A B} (m : hw H A) (k : A -> hw H B) h x h' : m h = Ret (x, h') -> mbind m k h = k x h'.
Proof. unfold mbind. by intros ->. Qed.

Lemma mbind_assoc {H A B C} (m : hw H A) (k : A -> hw H B) (k' : B -> hw H C) h : mbind (mbind m k) k' h = mbind m (fun x => mbind (k x) k') h.
Proof. unfold mbind. by destruct (m h). Qed.

(** Testing a bit with a mask. *)
Lemma land_bit x n : 0 <= n -> (Z.land x (2 ^ n) =? 0) = negb (Z.testbit x n).
Proof.
  intros Hn. assert (E : Z.land x (2 ^ n) = if Z.testbit x n then 2 ^ n else 0).
  { apply Z.bits_inj'. intros m Hm. rewrite Z.land_spec, Z.pow2_bits_eqb by done. destruct (Z.eqb_spec n m) as [<-|Hne].
    - destruct (Z.testbit x n); [by rewrite Z.pow2_bits_true|by rewrite Z.bits_0].
    - rewrite andb_false_r. destruct (Z.testbit x n); [by rewrite Z.pow2_bits_false|by rewrite Z.bits_0]. }
  rewrite E. destruct (Z.testbit x n); cbn [negb]; [|done]. apply Z.eqb_neq. pose proof (Z.pow_pos_nonneg 2 n). lia.
Qed.

(** Fields put together with [|] are added when they do not overlap. *)
Lemma lor_shiftl x n y : 0 <= n -> 0 <= y < 2 ^ n -> Z.lor (Z.shiftl x n) y = x * 2 ^ n + y.
Proof.
  intros Hn Hy. rewrite Z.shiftl_mul_pow2 by done. rewrite <- Z.lxor_lor, <- Z.add_nocarry_lxor; [done| |].
  all: apply Z.bits_inj'; intros m Hm; rewrite Z.land_spec, Z.bits_0; destruct (Z.lt_ge_cases m n).
  1, 3: rewrite Z.mul_pow2_bits_low by done; done.
  all: rewrite <- (Z.mod_small y (2 ^ n)), Z.mod_pow2_bits_high by lia; apply andb_false_r.
Qed.

(** ** Drivers *)

(** What a driver works on: the page allocator, variables of its own, and the
    machine. *)
Record driver (A L H : Type) := Driver { dpool : A; dlocal : L; dhw : H }.
Arguments Driver {A L H}.
Arguments dpool {A L H}.
Arguments dlocal {A L H}.
Arguments dhw {A L H}.

Definition on_hw {A L H} (f : H -> H) (s : driver A L H) : driver A L H := Driver (dpool s) (dlocal s) (f (dhw s)).

#[export] Instance driver_machine {A L H} `{Machine H} : Machine (driver A L H) := {
  io_in w p s := let '(v, h) := io_in w p (dhw s) in (v, Driver (dpool s) (dlocal s) h);
  io_out w p v := on_hw (io_out w p v);
  mm_load w a s := let '(v, h) := mm_load w a (dhw s) in (v, Driver (dpool s) (dlocal s) h);
  mm_store w a v := on_hw (mm_store w a v);
  ram_get a n s := ram_get a n (dhw s);
  ram_put a l := on_hw (ram_put a l)
}.

Section drivers.
Context {A L H : Type} `{PageAllocator A} `{Machine H}.

Definition d_kalloc : hw (driver A L H) Z := fun s =>
  obind (pa_alloc (dpool s)) (fun r => Ret (fst r, Driver (snd r) (dlocal s) (dhw s))).
Definition d_kfree (p : Z) : hw (driver A L H) unit := fun s =>
  obind (pa_free p (dpool s)) (fun a => Ret (tt, Driver a (dlocal s) (dhw s))).

Definition get_local : hw (driver A L H) L := fun s => Ret (dlocal s, s).
Definition put_local (l : L) : hw (driver A L H) unit := fun s => Ret (tt, Driver (dpool s) l (dhw s)).
End drivers.

(** ** Laws of memory *)

(** Memory holds what was stored in it. *)
Class RamLaws (H : Type) `{Machine H} := {
  ram_len a n h : 0 <= n -> zlen (ram_get a n h) = n;
  ram_bytes a n h : bytes_ok (ram_get a n h);
  ram_get_put a n b l h : bytes_ok l -> a <= b -> b + zlen l <= a + n -> ram_get a n (ram_put b l h) = splice (b - a) l (ram_get a n h);
  ram_slice a n i m h : 0 <= i -> 0 <= m -> i + m <= n -> ram_get (a + i) m h = slice i m (ram_get a n h)
}.

Section ram.
Context {H : Type} `{RamLaws H}.

(** Memory elsewhere is not changed. *)
Lemma ram_get_other a n b l h : bytes_ok l -> 0 <= n -> a + n <= b \/ b + zlen l <= a -> ram_get a n (ram_put b l h) = ram_get a n h.
Proof.
  intros Hl Hn Hd. pose proof (zlen_nonneg l). set (lo := Z.min a b). set (len := Z.max (a + n) (b + zlen l) - lo).
  assert (Hs : forall h, ram_get a n h = slice (a - lo) n (ram_get lo len h)) by (intros h'; rewrite <- (ram_slice lo len (a - lo) n) by lia; f_equal; lia).
  rewrite !Hs, ram_get_put by (done || lia). apply slice_splice_other; rewrite ?ram_len; lia.
Qed.

(** Reading back what was stored. *)
Lemma ram_get_same a l h : bytes_ok l -> ram_get a (zlen l) (ram_put a l h) = l.
Proof.
  intros Hl. pose proof (zlen_nonneg l). rewrite ram_get_put by (done || lia). rewrite Z.sub_diag, splice_0_app, drop_ge; [apply app_nil_r|].
  pose proof (ram_len a (zlen l) h). unfold zlen in *. lia.
Qed.
End ram.

(** *** Memory as a function from addresses to bytes *)

Definition fget (f : Z -> Z) (a n : Z) : list Z := (fun i => u8 (f (a + i))) <$> seqZ 0 n.
Definition fput (b : Z) (l : list Z) (f : Z -> Z) : Z -> Z := fun x => if decide (b <= x < b + zlen l) then default 0 (zget l (x - b)) else f x.

Lemma zget_all_eq (l l' : list Z) : zlen l = zlen l' -> (forall i, 0 <= i < zlen l -> zget l i = zget l' i) -> l = l'.
Proof.
  intros Hl He. apply list_eq. intros i. destruct (decide (i < length l)%nat) as [Hi|Hi].
  - specialize (He (Z.of_nat i)). unfold zlen in *. unfold zget in He. rewrite Nat2Z.id in He. destruct (Z.ltb_spec (Z.of_nat i) 0); [lia|]. apply He. lia.
  - rewrite !lookup_ge_None_2; [done| |]; unfold zlen in *; lia.
Qed.

Lemma fget_len f a n : 0 <= n -> zlen (fget f a n) = n.
Proof. intros Hn. unfold zlen, fget. rewrite length_fmap, length_seqZ. lia. Qed.

Lemma fget_zget f a n i : 0 <= i < n -> zget (fget f a n) i = Some (u8 (f (a + i))).
Proof.
  intros Hi. apply zget_lookup. split; [lia|]. unfold fget. rewrite list_lookup_fmap, lookup_seqZ_lt by lia. cbn. do 3 f_equal. lia.
Qed.

Lemma fget_bytes f a n : bytes_ok (fget f a n).
Proof. apply Forall_forall. intros x (i & -> & _)%list_elem_of_fmap. unfold is_u8, u8. apply Z.mod_pos_bound. lia. Qed.

Lemma fget_fput f a n b l : bytes_ok l -> a <= b -> b + zlen l <= a + n -> fget (fput b l f) a n = splice (b - a) l (fget f a n).
Proof.
  intros Hok Ha Hn. pose proof (zlen_nonneg l). apply zget_all_eq; [rewrite splice_length; rewrite ?fget_len; lia|].
  rewrite fget_len by lia. intros i Hi. rewrite fget_zget, zget_splice by (rewrite ?fget_len; lia). unfold fput. case_decide as Hd.
  - destruct (zget_is_Some l (a + i - b)) as [x Hx]; [lia|]. rewrite Hx. cbn. pose proof (Forall_zget _ _ _ _ Hok Hx) as Hu.
    unfold u8. rewrite Z.mod_small by exact Hu. destruct (decide _) as [_|Hd2]; [|lia]. by replace (i - (b - a)) with (a + i - b) by lia.
  - destruct (decide _) as [Hd2|_]; [lia|]. by rewrite fget_zget by lia.
Qed.

Lemma fget_slice f a n i m : 0 <= i -> 0 <= m -> i + m <= n -> fget f (a + i) m = slice i m (fget f a n).
Proof.
  intros Hi Hm Hn. apply zget_all_eq; [rewrite fget_len, slice_length; rewrite ?fget_len; lia|]. rewrite fget_len by lia. intros j Hj. rewrite fget_zget by lia.
  symmetry. apply zget_lookup. split; [lia|]. rewrite slice_lookup by lia. pose proof (fget_zget f a n (i + j)) as E. rewrite zget_lookup in E.
  replace (Z.to_nat i + Z.to_nat j)%nat with (Z.to_nat (i + j)) by lia. rewrite (proj2 (E ltac:(lia))). do 3 f_equal. lia.
Qed.

(** ** Code of the machine in a driver *)

(** A driver runs the code [m0] of the machine, on its machine. *)
Definition lifts {A L H X} (m : hw (driver A L H) X) (m0 : hw H X) : Prop :=
  forall s, m s = obind (m0 (dhw s)) (fun r => Ret (fst r, Driver (dpool s) (dlocal s) (snd r))).

Create HintDb lifts.

Section lifting.
Context {A L H : Type} `{Machine H}.

Lemma lifts_run {X} (m : hw (driver A L H) X) m0 s x h' : lifts m m0 -> m0 (dhw s) = Ret (x, h') -> m s = Ret (x, Driver (dpool s) (dlocal s) h').
Proof. intros Hm E. by rewrite Hm, E. Qed.

Lemma lifts_mret {X} (x : X) : lifts (A := A) (L := L) (H := H) (mret x) (mret x).
Proof. intros []. done. Qed.

Lemma lifts_mbind {X Y} (m : hw (driver A L H) X) (k : X -> hw (driver A L H) Y) m0 k0 :
  lifts m m0 -> (forall x, lifts (k x) (k0 x)) -> lifts (mbind m k) (mbind m0 k0).
Proof. intros Hm Hk s. unfold mbind. rewrite Hm. destruct (m0 (dhw s)) as [[x h]| | |]; [|done..]. cbn. rewrite Hk. done. Qed.

Lemma lifts_mlift {X} (o : outcome X) : lifts (A := A) (L := L) (H := H) (mlift o) (mlift o).
Proof. intros []. unfold mlift. by destruct o. Qed.

Lemma lifts_if {X} (b : bool) (m k : hw (driver A L H) X) m0 k0 : lifts m m0 -> lifts k k0 -> lifts (if b then m else k) (if b then m0 else k0).
Proof. by destruct b. Qed.

Lemma lifts_io_in w p : lifts (A := A) (L := L) (fun s => Ret (io_in w p s)) (fun h : H => Ret (io_in w p h)).
Proof. intros s. cbn. by destruct (io_in w p (dhw s)). Qed.

Lemma lifts_mm_load w p : lifts (A := A) (L := L) (fun s => Ret (mm_load w p s)) (fun h : H => Ret (mm_load w p h)).
Proof. intros s. cbn. by destruct (mm_load w p (dhw s)). Qed.

Lemma lifts_modify (f : H -> H) : lifts (A := A) (L := L) (modify (on_hw f)) (modify f).
Proof. done. Qed.

Lemma lifts_spin fuel (m : hw (driver A L H) bool) m0 : lifts m m0 -> lifts (spin fuel m) (spin fuel m0).
Proof.
  intros Hm. induction fuel as [|fuel IH]; cbn [spin]; apply lifts_mbind; try done; intros []; auto using lifts_mret. done.
Qed.

Lemma lifts_insw p n : forall a, lifts (A := A) (L := L) (insw p a n) (insw (H := H) p a n).
Proof.
  induction n as [|n IH]; intros a; cbn [insw]; [apply lifts_mret|]. apply lifts_mbind; [apply lifts_io_in|]. intros w.
  apply lifts_mbind; [apply lifts_modify|]. auto.
Qed.

Lemma lifts_outsw p n : forall a, lifts (A := A) (L := L) (outsw p a n) (outsw (H := H) p a n).
Proof.
  induction n as [|n IH]; intros a; cbn [outsw]; [apply lifts_mret|]. intros s. refine (lifts_mbind _ _ _ _ (lifts_modify _) _ s). auto.
Qed.
End lifting.

#[export] Hint Resolve lifts_mret lifts_mbind lifts_mlift lifts_if lifts_io_in lifts_mm_load lifts_modify lifts_spin lifts_insw lifts_outsw : lifts.
#[export] Hint Extern 2 (lifts (inb _) _) => apply lifts_io_in : lifts.
#[export] Hint Extern 2 (lifts (inw _) _) => apply lifts_io_in : lifts.
#[export] Hint Extern 2 (lifts (indw _) _) => apply lifts_io_in : lifts.
#[export] Hint Extern 2 (lifts (outb _ _) _) => apply lifts_modify : lifts.
#[export] Hint Extern 2 (lifts (outw _ _) _) => apply lifts_modify : lifts.
#[export] Hint Extern 2 (lifts (outdw _ _) _) => apply lifts_modify : lifts.

(** ** A pool of pages *)

(** Free pages as a list. *)
#[local] Instance list_allocator : PageAllocator (list Z) := {
  pa_pgalloc n a := match a with p :: a' => Ret (p, a') | [] => Panic "out of memory"%string end;
  pa_pgfree p n a := Ret (p :: a)
}.

#[local, refine] Instance list_allocator_laws : AllocatorLaws (list Z) := {
  pa_holds a held n := NoDup a /\ Forall frame_ok a /\ set_Forall frame_ok held /\ (forall p, p ∈ a -> p ∉ held) /\ n = zlen a
}.
Proof.
  - intros a held n (Hd & Hf & Hh & Ho & ->) Hn. destruct a as [|p a]; [done|]. apply NoDup_cons in Hd as [Hp Hd]. apply Forall_cons in Hf as [Hfp Hf].
    exists p, a. split; [done|]. split; [apply Ho; left|]. split; [done|]. split; [done|]. split; [done|]. split; [apply set_Forall_union; [by apply set_Forall_singleton|done]|].
    split; [|unfold zlen; cbn [length]; lia]. intros q Hq [->%elem_of_singleton|Hq']%elem_of_union; [done|]. by apply (Ho q); [right|].
  - intros a held n p (Hd & Hf & Hh & Ho & ->) Hp. exists (p :: a). split; [done|]. split; [apply NoDup_cons; split; [intros Hin; by apply (Ho p)|done]|].
    split; [apply Forall_cons; split; [by apply Hh|done]|]. split; [intros q [Hq _]%elem_of_difference; by apply Hh|]. split; [|unfold zlen; cbn [length]; lia].
    intros q [->|Hq]%elem_of_cons [Hq' Hn]%elem_of_difference; [by apply Hn, elem_of_singleton|by apply (Ho q)].
Defined.
