(* ===== verification/Ioapic.v ===== *)
(** kernel/driver/x86/ioapic.c: the I/O interrupt controller.

    The controller has an index register and a data window onto its registers; the
    redirection entry of an interrupt line is a pair of them.  The theorem: after
    start-up every line is masked, and enabling or disabling a line changes its own
    entry only. *)

From stdpp Require Import base list.
From Stdlib Require Import ZArith Lia.
From S2P Require Import Prelude Vm Machine.

Local Open Scope Z_scope.
Local Open Scope hw_scope.

Definition IOAPIC_REG_ID : Z := 0.
Definition IOAPIC_REG_VER : Z := 1.
Definition IOAPIC_REG_LO_MASK : Z := Z.shiftl 1 16.
Definition IOAPIC_REG_LO_TRIGGER_MODE_BIT : Z := 15.
Definition IOAPIC_REG_LO_INTR_POLARITY_BIT : Z := 13.
Definition IOAPIC_REG_HI_DEST_SHIFT : Z := 24.

Definition IOAPIC_EDGE_TRIGGER : Z := 0.
Definition IOAPIC_LEVEL_TRIGGER : Z := 1.
Definition IOAPIC_ACTIVE_HIGH : Z := 0.
Definition IOAPIC_ACTIVE_LOW : Z := 1.

Section ioapic.
Context {M : Type} `{Machine M}.

(** The two fields of the mapped structure, at [mmio]. *)
Definition ioapic_read (mmio reg : Z) : hw M Z := store32 mmio reg ;> load32 (mmio + 16).
Definition ioapic_write (mmio reg value : Z) : hw M unit := store32 mmio reg ;> store32 (mmio + 16) value.

(** Masked, with the vector of the line and no destination. *)
Definition ioapic_disable (mmio irq : Z) : hw M unit :=
  ioapic_write mmio (0x10 + 2 * irq) (Z.lor IOAPIC_REG_LO_MASK (32 + irq)) ;>
  ioapic_write mmio (0x10 + 2 * irq + 1) 0.

Definition ioapic_enable (mmio irq lapicid trigger_mode polarity : Z) : hw M unit :=
  ioapic_write mmio (0x10 + 2 * irq)
    (Z.lor (Z.lor (Z.shiftl trigger_mode IOAPIC_REG_LO_TRIGGER_MODE_BIT) (Z.shiftl polarity IOAPIC_REG_LO_INTR_POLARITY_BIT)) (32 + irq)) ;>
  ioapic_write mmio (0x10 + 2 * irq + 1) (Z.shiftl lapicid IOAPIC_REG_HI_DEST_SHIFT).

(** The mapped address and the number of lines; the three reads of the message
    included. *)
Definition ioapic_init : hw M (Z * Z) :=
  mmio <~ mlift (map_mmio_region 0xfec00000 4096);
  ver <~ ioapic_read mmio IOAPIC_REG_VER;
  let num_irqs := Z.land (Z.shiftr ver 16) 0xff + 1 in
  ioapic_read mmio IOAPIC_REG_ID ;>
  ioapic_read mmio IOAPIC_REG_VER ;>
  each (ioapic_disable mmio) (seqZ 0 num_irqs) ;>
  mret (mmio, num_irqs).
End ioapic.

(** ** The controller *)

(** What the driver relies on: the data window reads and writes the register the
    index selects; the version register is read only. *)
Class Ioapic (M : Type) `{Machine M} := {
  iregs : M -> Z -> Z;
  iindex : M -> Z;
  ioapic_index v h : 0 <= v < 256 -> let h' := mm_store 4 0xfec00000 v h in iindex h' = v /\ forall r, iregs h' r = iregs h r;
  ioapic_data_read h : exists h', mm_load 4 0xfec00010 h = (iregs h (iindex h), h') /\ iindex h' = iindex h /\ forall r, iregs h' r = iregs h r;
  ioapic_data_write v h : is_u32 v -> iindex h <> IOAPIC_REG_VER ->
    let h' := mm_store 4 0xfec00010 v h in iindex h' = iindex h /\ forall r, iregs h' r = if decide (r = iindex h) then v else iregs h r
}.

Section entries.
Context {M : Type} `{Ioapic M}.

Lemma ioapic_read_ok reg h : 0 <= reg < 256 -> exists h', ioapic_read 0xfec00000 reg h = Ret (iregs h reg, h') /\ forall r, iregs h' r = iregs h r.
Proof.
  intros Hr. unfold ioapic_read, mbind, store32, load32, modify. cbn [obind fst snd]. rewrite u32_small by (unfold is_u32; lia).
  destruct (ioapic_index reg h Hr) as [E1 R1]. destruct (ioapic_data_read (mm_store 4 0xfec00000 reg h)) as (h' & E & _ & R).
  change (0xfec00000 + 16) with 0xfec00010. exists h'. rewrite E, E1, R1. split; [done|]. intros r. by rewrite R, R1.
Qed.

Lemma ioapic_write_ok reg v h : 0 <= reg < 256 -> reg <> IOAPIC_REG_VER -> is_u32 v ->
  exists h', ioapic_write 0xfec00000 reg v h = Ret (tt, h') /\ forall r, iregs h' r = if decide (r = reg) then v else iregs h r.
Proof.
  intros Hr Hn Hv. unfold ioapic_write, mbind, store32, modify. cbn [obind fst snd]. rewrite !u32_small by (done || (unfold is_u32; lia)).
  destruct (ioapic_index reg h Hr) as [E1 R1]. destruct (ioapic_data_write v (mm_store 4 0xfec00000 reg h) Hv) as [_ R]; [by rewrite E1|].
  eexists. split; [done|]. intros r. change (0xfec00000 + 16) with 0xfec00010. rewrite R, E1. by case_decide.
Qed.

(** The entry of a line. *)
Definition entry (h : M) (irq : Z) : Z * Z := (iregs h (0x10 + 2 * irq), iregs h (0x11 + 2 * irq)).

Lemma entry_write lo hi irq h : 0 <= irq < 120 -> is_u32 lo -> is_u32 hi ->
  exists h', (ioapic_write 0xfec00000 (0x10 + 2 * irq) lo ;> ioapic_write 0xfec00000 (0x10 + 2 * irq + 1) hi) h = Ret (tt, h') /\
    iregs h' IOAPIC_REG_VER = iregs h IOAPIC_REG_VER /\
    forall i, 0 <= i -> entry h' i = if decide (i = irq) then (lo, hi) else entry h i.
Proof.
  intros Hi Hlo Hhi. unfold IOAPIC_REG_VER. destruct (ioapic_write_ok (0x10 + 2 * irq) lo h) as (h1 & E1 & R1); [lia|unfold IOAPIC_REG_VER; lia|done|].
  destruct (ioapic_write_ok (0x10 + 2 * irq + 1) hi h1) as (h2 & E2 & R2); [lia|unfold IOAPIC_REG_VER; lia|done|].
  exists h2. rewrite (mbind_run _ _ _ _ _ E1). split; [done|]. split; [rewrite R2, R1; repeat case_decide; lia || done|].
  intros i Hi0. unfold entry. rewrite !R2, !R1. repeat case_decide; try lia; done.
Qed.

Definition masked (h : M) (irq : Z) : Prop := Z.testbit (entry h irq).1 16 = true.

Lemma small_lo irq x : 0 <= irq < 120 -> 0 <= x < 2 ^ 17 -> is_u32 (Z.lor x (32 + irq)).
Proof.
  intros Hi Hx. assert (0 <= Z.lor x (32 + irq)) by (apply Z.lor_nonneg; lia). split; [done|].
  destruct (Z.eq_dec (Z.lor x (32 + irq)) 0) as [->|Hne]; [lia|]. apply Z.log2_lt_pow2; [lia|]. rewrite Z.log2_lor by lia.
  apply Z.max_lub_lt.
  - destruct (Z.eq_dec x 0) as [->|]; [done|]. apply Z.log2_lt_pow2; lia.
  - apply Z.log2_lt_pow2; lia.
Qed.

Lemma ioapic_disable_ok irq h : 0 <= irq < 120 ->
  exists h', ioapic_disable 0xfec00000 irq h = Ret (tt, h') /\ iregs h' IOAPIC_REG_VER = iregs h IOAPIC_REG_VER /\ masked h' irq /\
    forall i, 0 <= i -> i <> irq -> entry h' i = entry h i.
Proof.
  intros Hi. destruct (entry_write (Z.lor IOAPIC_REG_LO_MASK (32 + irq)) 0 irq h Hi) as (h' & E & V & R); [apply small_lo; [done|]; done|done|].
  exists h'. split_and!; [exact E|done| |intros i Hi0 Hn; rewrite R by done; by case_decide].
  unfold masked. rewrite R by lia. case_decide; [|done]. cbn [fst]. rewrite Z.lor_spec. done.
Qed.

(** An entry that delivers: unmasked, with the vector of the line, the trigger mode
    and polarity asked for, to the processor asked for. *)
Definition routes (e : Z * Z) (irq lapicid trigger polarity : Z) : Prop :=
  Z.testbit e.1 16 = false /\ e.1 mod 256 = 32 + irq /\ Z.testbit e.1 15 = (trigger =? 1) /\ Z.testbit e.1 13 = (polarity =? 1) /\ e.2 / 2 ^ 24 = lapicid.

Lemma enable_word irq t p : 0 <= irq < 120 -> t = 0 \/ t = 1 -> p = 0 \/ p = 1 ->
  let x := Z.lor (Z.shiftl t 15) (Z.shiftl p 13) in
  0 <= x < 2 ^ 17 /\ Z.testbit x 16 = false /\ Z.testbit x 15 = (t =? 1) /\ Z.testbit x 13 = (p =? 1) /\ x mod 256 = 0.
Proof. intros _ [-> | ->] [-> | ->]; by vm_compute. Qed.

Lemma small_bits x n : 0 <= x < 2 ^ 8 -> 8 <= n -> Z.testbit x n = false.
Proof.
  intros Hx Hn. rewrite <- (Z.mod_small x (2 ^ 8)) by done. by apply Z.mod_pow2_bits_high.
Qed.

Lemma lor_mod256 x y : x mod 256 = 0 -> 0 <= y < 256 -> Z.lor x y mod 256 = y.
Proof.
  intros Hx Hy. change 256 with (2 ^ 8). rewrite <- Z.land_ones, Z.land_lor_distr_l, !Z.land_ones by lia. change (2 ^ 8) with 256.
  by rewrite Hx, Z.lor_0_l, Z.mod_small.
Qed.

Lemma ioapic_enable_ok irq l t p h : 0 <= irq < 120 -> 0 <= l < 256 -> t = 0 \/ t = 1 -> p = 0 \/ p = 1 ->
  exists h', ioapic_enable 0xfec00000 irq l t p h = Ret (tt, h') /\ iregs h' IOAPIC_REG_VER = iregs h IOAPIC_REG_VER /\
    routes (entry h' irq) irq l t p /\ forall i, 0 <= i -> i <> irq -> entry h' i = entry h i.
Proof.
  intros Hi Hl Ht Hp. destruct (enable_word irq t p Hi Ht Hp) as (Hx & B16 & B15 & B13 & Hm).
  assert (Hhi : Z.shiftl l 24 = l * 2 ^ 24) by (apply Z.shiftl_mul_pow2; lia).
  destruct (entry_write (Z.lor (Z.lor (Z.shiftl t 15) (Z.shiftl p 13)) (32 + irq)) (Z.shiftl l 24) irq h Hi) as (h' & E & V & R);
    [by apply small_lo|unfold is_u32; lia|].
  exists h'. split_and!; [exact E|done| |intros i Hi0 Hn; rewrite R by done; by case_decide].
  unfold routes. rewrite R by lia. case_decide; [|done]. cbn [fst snd]. rewrite !(Z.lor_spec _ (32 + irq)), B16, B15, B13, !(small_bits (32 + irq)) by lia.
  rewrite !orb_false_r. split_and!; [done|apply lor_mod256; [done|lia]|done|done|]. rewrite Hhi. apply Z.div_mul. lia.
Qed.

Lemma disable_all n : forall i h, 0 <= i -> i + Z.of_nat n <= 120 ->
  exists h', each (ioapic_disable 0xfec00000) (seqZ i (Z.of_nat n)) h = Ret (tt, h') /\ iregs h' IOAPIC_REG_VER = iregs h IOAPIC_REG_VER /\
    (forall j, i <= j < i + Z.of_nat n -> masked h' j) /\ forall j, 0 <= j < i -> entry h' j = entry h j.
Proof.
  induction n as [|n IH]; intros i h Hi Hn.
  { exists h. split_and!; [done|done|intros; lia|done]. }
  rewrite seqZ_cons by lia. cbn [each]. destruct (ioapic_disable_ok i h) as (h1 & E1 & V1 & M1 & R1); [lia|].
  destruct (IH (Z.succ i) h1) as (h2 & E2 & V2 & M2 & R2); [lia|lia|]. exists h2. rewrite (mbind_run _ _ _ _ _ E1).
  replace (Z.pred (Z.of_nat (S n))) with (Z.of_nat n) by lia. split_and!; [done|congruence| |].
  - intros j Hj. destruct (Z.eq_dec j i) as [->|]; [|apply M2; lia]. unfold masked. rewrite R2 by lia. exact M1.
  - intros j Hj. rewrite R2, R1 by lia. done.
Qed.

(** Lines after start-up. *)
Inductive line_op := Enable (irq lapicid trigger polarity : Z) | Disable (irq : Z).

Definition op_ok (n : Z) (o : line_op) : Prop :=
  match o with
  | Enable irq l t p => 0 <= irq < n /\ 0 <= l < 256 /\ (t = 0 \/ t = 1) /\ (p = 0 \/ p = 1)
  | Disable irq => 0 <= irq < n
  end.

Definition run_op (o : line_op) : hw M unit :=
  match o with
  | Enable irq l t p => ioapic_enable 0xfec00000 irq l t p
  | Disable irq => ioapic_disable 0xfec00000 irq
  end.

(** What each line is set to, [None] when masked. *)
Definition set_line (f : Z -> option (Z * Z * Z)) (o : line_op) : Z -> option (Z * Z * Z) :=
  match o with
  | Enable irq l t p => fun i => if decide (i = irq) then Some (l, t, p) else f i
  | Disable irq => fun i => if decide (i = irq) then None else f i
  end.

Definition line_is (h : M) (i : Z) (x : option (Z * Z * Z)) : Prop :=
  match x with Some (l, t, p) => routes (entry h i) i l t p | None => masked h i end.

Lemma ops_ok n ops : n <= 120 -> forall f h, Forall (op_ok n) ops -> (forall i, 0 <= i < n -> line_is h i (f i)) ->
  exists h', each run_op ops h = Ret (tt, h') /\ forall i, 0 <= i < n -> line_is h' i (foldl set_line f ops i).
Proof.
  intros Hn. induction ops as [|o ops IH]; intros f h Hok Hf; [by exists h|]. apply Forall_cons in Hok as [Ho Hok]. cbn [each foldl].
  assert (exists h1, run_op o h = Ret (tt, h1) /\ forall i, 0 <= i < n -> line_is h1 i (set_line f o i)) as (h1 & E1 & L1).
  { destruct o as [irq l t p|irq]; cbn [op_ok run_op set_line] in *.
    - destruct Ho as (Hi & Hl & Ht & Hp). destruct (ioapic_enable_ok irq l t p h) as (h1 & E1 & _ & R & O); [lia|done..|].
      exists h1. split; [done|]. intros i Hi0. case_decide as Hd; [by subst i|]. specialize (Hf i Hi0). unfold line_is, masked in *. rewrite O by lia. done.
    - destruct (ioapic_disable_ok irq h) as (h1 & E1 & _ & R & O); [lia|].
      exists h1. split; [done|]. intros i Hi0. case_decide as Hd; [by subst i|]. specialize (Hf i Hi0). unfold line_is, masked in *. rewrite O by lia. done. }
  rewrite (mbind_run _ _ _ _ _ E1). by apply IH.
Qed.

(** Start-up finds the number of lines and masks them all; after it, whatever lines
    are enabled and disabled in whatever order, each line is as it was last set:
    masked, or delivering its own vector. *)
Theorem ioapic_lines_independent (h : M) ops : let n := Z.land (Z.shiftr (iregs h IOAPIC_REG_VER) 16) 0xff + 1 in
  n <= 120 -> Forall (op_ok n) ops ->
  exists h', (r <~ ioapic_init; each run_op ops ;> mret r) h = Ret (0xfec00000, n, h') /\
    forall i, 0 <= i < n -> line_is h' i (foldl set_line (fun _ => None) ops i).
Proof.
  intros n Hn Hok. assert (Hn0 : 0 < n) by (unfold n; pose proof (Z.land_nonneg (Z.shiftr (iregs h IOAPIC_REG_VER) 16) 0xff); lia).
  destruct (ioapic_read_ok IOAPIC_REG_VER h) as (h1 & E1 & R1); [done|]. destruct (ioapic_read_ok IOAPIC_REG_ID h1) as (h2 & E2 & R2); [done|].
  destruct (ioapic_read_ok IOAPIC_REG_VER h2) as (h3 & E3 & R3); [done|]. destruct (disable_all (Z.to_nat n) 0 h3) as (h4 & E4 & _ & M4 & _); [lia|lia|].
  rewrite Z2Nat.id in E4, M4 by lia. destruct (ops_ok n ops Hn (fun _ => None) h4 Hok) as (h5 & E5 & L5); [intros i Hi; apply M4; lia|].
  exists h5. split; [|done]. assert (Ei : ioapic_init h = Ret (0xfec00000, n, h4)).
  { unfold ioapic_init. unfold mbind at 1. change (map_mmio_region 0xfec00000 4096) with (Ret 0xfec00000). cbn [mlift obind fst snd].
    rewrite (mbind_run _ _ _ _ _ E1). fold n. cbv zeta. fold n. rewrite (mbind_run _ _ _ _ _ E2), (mbind_run _ _ _ _ _ E3), (mbind_run _ _ _ _ _ E4). done. }
  rewrite (mbind_run _ _ _ _ _ Ei), (mbind_run _ _ _ _ _ E5). done.
Qed.
End entries.

(** ** A controller *)

#[local] Instance ex_apic_machine : Machine (Z * (Z -> Z)) := {
  io_in w p h := (0, h);
  io_out w p v h := h;
  mm_load w a h := (snd h (fst h), h);
  mm_store w a v h := if a =? 0xfec00000 then (v, snd h) else (fst h, fun r => if decide (r = fst h) then v else snd h r);
  ram_get a n h := [];
  ram_put a l h := h
}.

#[local, refine] Instance ex_apic : Ioapic (Z * (Z -> Z)) := { iregs h := snd h; iindex h := fst h }.
Proof.
  - done.
  - intros h. by exists h.
  - done.
Defined.

Lemma ioapic_lines_independent_witness :
  exists h', (r <~ ioapic_init; each run_op [Enable 1 0 0 0; Enable 5 0 1 0; Disable 1] ;> mret r) (0, fun r => if decide (r = 1) then 0x170011 else 0) = Ret (0xfec00000, 24, h') /\
    masked h' 1 /\ routes (entry h' 5) 5 0 1 0.
Proof.
  destruct (ioapic_lines_independent (0, fun r => if decide (r = 1) then 0x170011 else 0) [Enable 1 0 0 0; Enable 5 0 1 0; Disable 1]) as (h' & E & L).
  - done.
  - change (Z.land _ _ + 1) with 24. repeat apply Forall_cons_2; [cbn; lia..|by apply Forall_nil].
  - exists h'. split; [exact E|]. split; [exact (L 1 ltac:(done))|exact (L 5 ltac:(done))].
Defined.
