(* ===== verification/Smp.v ===== *)
(** kernel/arch/x86/lapic.c and mp.c, and [startothers] of kernel/core/main.c: the
    local interrupt controller and the other processors.

    The boot processor reads the processors of the machine from the MP table in its
    ROM and starts each of them: it gives it a stack and sends it the interrupts that
    start a processor, through its local interrupt controller, and waits until it
    reports.

    The theorems: from a table of the MP specification the kernel gets the processors
    in order, up to eight; and each of them ends up running the kernel, on a stack
    of its own. *)

From stdpp Require Import base list gmap sets strings.
From Stdlib Require Import ZArith Lia.
From S2P Require Import Prelude Mmu Spinlock Vm Machine.

Local Open Scope Z_scope.
Local Open Scope hw_scope.

(** ** lapic.c *)

(** Indices of registers and values for them. *)
Definition LAPIC_ID : Z := 0x0020 / 4.
Definition LAPIC_VER : Z := 0x0030 / 4.
Definition LAPIC_TPR : Z := 0x0080 / 4.
Definition LAPIC_EOI : Z := 0x00B0 / 4.
Definition LAPIC_SVR : Z := 0x00F0 / 4.
Definition ENABLE : Z := 0x00000100.
Definition LAPIC_ESR : Z := 0x0280 / 4.
Definition ICRLO : Z := 0x0300 / 4.
Definition INIT : Z := 0x00000500.
Definition STARTUP : Z := 0x00000600.
Definition DELIVS : Z := 0x00001000.
Definition ASSERT : Z := 0x00004000.
Definition LEVEL : Z := 0x00008000.
Definition BCAST : Z := 0x00080000.
Definition ICRHI : Z := 0x0310 / 4.
Definition LAPIC_TIMER : Z := 0x0320 / 4.
Definition X1 : Z := 0x0000000B.
Definition PERIODIC : Z := 0x00020000.
Definition LAPIC_PCINT : Z := 0x0340 / 4.
Definition LINT0 : Z := 0x0350 / 4.
Definition LINT1 : Z := 0x0360 / 4.
Definition LAPIC_ERROR : Z := 0x0370 / 4.
Definition MASKED : Z := 0x00010000.
Definition TICR : Z := 0x0380 / 4.
Definition TDCR : Z := 0x03E0 / 4.

Definition lapic : Z := 0xfee00000.

Definition T_IRQ0 : Z := 32.
Definition IRQ_TIMER : Z := 0.
Definition IRQ_ERROR : Z := 19.
Definition IRQ_SPURIOUS : Z := 31.

Section lapic.
Context {H : Type} `{Machine H}.

Definition lapicw (index value : Z) : hw H unit := store32 (lapic + 4 * index) value ;> load32 (lapic + 4 * LAPIC_ID) ;> mret tt.

Definition lapicinit (fuel : nat) : hw H unit :=
  lapicw LAPIC_SVR (Z.lor ENABLE (T_IRQ0 + IRQ_SPURIOUS)) ;>
  lapicw TDCR X1 ;>
  lapicw LAPIC_TIMER (Z.lor PERIODIC (T_IRQ0 + IRQ_TIMER)) ;>
  lapicw TICR 10000000 ;>
  lapicw LINT0 MASKED ;>
  lapicw LINT1 MASKED ;>
  ver <~ load32 (lapic + 4 * LAPIC_VER);
  (if 4 <=? Z.land (Z.shiftr ver 16) 0xff then lapicw LAPIC_PCINT MASKED else mret tt) ;>
  lapicw LAPIC_ERROR (T_IRQ0 + IRQ_ERROR) ;>
  lapicw LAPIC_ESR 0 ;>
  lapicw LAPIC_ESR 0 ;>
  lapicw LAPIC_EOI 0 ;>
  lapicw ICRHI 0 ;>
  lapicw ICRLO (Z.lor (Z.lor BCAST INIT) LEVEL) ;>
  spin fuel (v <~ load32 (lapic + 4 * ICRLO); mret (negb (Z.land v DELIVS =? 0))) ;>
  lapicw LAPIC_TPR 0.

(** The pointer [lapic] is never null. *)
Definition lapicid : hw H Z := v <~ load32 (lapic + 4 * LAPIC_ID); mret (Z.shiftr v 24).
Definition lapiceoi : hw H unit := lapicw LAPIC_EOI 0.

Definition CMOS_PORT : Z := 0x70.

(** The address of the warm reset vector. *)
Definition wrv : Z := P2V (Z.lor (Z.shiftl 0x40 4) 0x67).

(** The pauses only let time pass. *)
Definition lapicstartap (apicid addr : Z) : hw H unit :=
  outb CMOS_PORT 0xF ;>
  outb (CMOS_PORT + 1) 0x0A ;>
  modify (ram_put wrv (le_bytes 2 0)) ;>
  modify (ram_put (wrv + 2) (le_bytes 2 (u16 (Z.shiftr addr 4)))) ;>
  lapicw ICRHI (Z.shiftl apicid 24) ;>
  lapicw ICRLO (Z.lor (Z.lor INIT LEVEL) ASSERT) ;>
  lapicw ICRLO (Z.lor INIT LEVEL) ;>
  lapicw ICRHI (Z.shiftl apicid 24) ;>
  lapicw ICRLO (Z.lor STARTUP (Z.shiftr addr 12)) ;>
  lapicw ICRHI (Z.shiftl apicid 24) ;>
  lapicw ICRLO (Z.lor STARTUP (Z.shiftr addr 12)).

(** ** mp.c *)

Definition NCPU : Z := 8.

Definition MPPROC : Z := 0x00.
Definition MPBUS : Z := 0x01.
Definition MPIOAPIC : Z := 0x02.
Definition MPIOINTR : Z := 0x03.
Definition MPLINTR : Z := 0x04.

Definition mem_get (a n : Z) : hw H (list Z) := fun h => Ret (ram_get a n h, h).

Definition sum (bs : list Z) : Z := u8 (foldr Z.add 0 bs).

(** ["_MP_"] and ["PCMP"]. *)
Definition MP_SIGNATURE : list Z := [95; 77; 80; 95].
Definition MPCONF_SIGNATURE : list Z := [80; 67; 77; 80].

Definition sizeof_mp : Z := 16.
Definition sizeof_mpconf : Z := 44.
Definition sizeof_mpproc : Z := 20.
Definition sizeof_mpioapic : Z := 8.

(** A floating pointer: signature, address of the table at byte 4, checksum. *)
Definition is_mp (bs : list Z) : bool := bool_decide (slice 0 4 bs = MP_SIGNATURE) && (sum bs =? 0).

Fixpoint mpsearch_loop (n : nat) (p : Z) : hw H Z :=
  match n with
  | O => mret 0
  | S n' => bs <~ mem_get p sizeof_mp; if is_mp bs then mret p else mpsearch_loop n' (p + sizeof_mp)
  end.

Definition mpsearch1 (a len : Z) : hw H Z := mpsearch_loop (Z.to_nat ((len + sizeof_mp - 1) / sizeof_mp)) (P2V a).
Definition mpsearch : hw H Z := mpsearch1 0xF0000 0x10000.

(** The pointer and the table, or none. *)
Definition mpconfig : hw H (option (Z * Z)) :=
  mp <~ mpsearch;
  if mp =? 0 then mret None else
  ph <~ mem_get (mp + 4) 4;
  let physaddr := le_val ph in
  if physaddr =? 0 then mret None else
  let conf := P2V physaddr in
  head <~ mem_get conf sizeof_mpconf;
  if negb (bool_decide (slice 0 4 head = MPCONF_SIGNATURE)) then mret None else
  let version := default 0 (zget head 6) in
  if negb (version =? 1) && negb (version =? 4) then mret None else
  table <~ mem_get conf (get16 4 head);
  if negb (sum table =? 0) then mret None else mret (Some (mp, conf)).

(** The entries of the table, from [p] to [e]: identifiers of processors.  An entry
    of another type is looked at again and again. *)
Fixpoint mp_entries (fuel : nat) (p e : Z) (cpus : list Z) : hw H (list Z) :=
  if e <=? p then mret cpus else
  match fuel with
  | O => fun _ => NoFuel
  | S fuel' =>
    t <~ mem_get p 2;
    let type := default 0 (zget t 0) in
    if type =? MPPROC
    then mp_entries fuel' (p + sizeof_mpproc) e (if zlen cpus <? NCPU then cpus ++ [default 0 (zget t 1)] else cpus)
    else if type =? MPIOAPIC then mp_entries fuel' (p + sizeof_mpioapic) e cpus
    else if (type =? MPBUS) || (type =? MPIOINTR) || (type =? MPLINTR) then mp_entries fuel' (p + 8) e cpus
    else mp_entries fuel' p e cpus
  end.

(** Identifiers of the processors: the first [ncpu] entries of [cpus]. *)
Definition mpinit (fuel : nat) : hw H (list Z) :=
  c <~ mpconfig;
  match c with
  | None => id <~ lapicid; mret [u8 id]
  | Some (mp, conf) =>
    len <~ mem_get (conf + 4) 2;
    cpus <~ mp_entries fuel (conf + sizeof_mpconf) (conf + le_val len) [];
    imcrp <~ mem_get (mp + 12) 1;
    (if le_val imcrp =? 0 then mret tt else outb 0x22 0x70 ;> v <~ inb 0x23; outb 0x23 (Z.lor v 1)) ;>
    mret cpus
  end.
End lapic.

(** ** main.c *)

Section others.
Context {A H : Type} `{PageAllocator A} `{Machine H}.
Local Notation state := (driver A unit H).
(** The start code, the addresses of [mpenter], of the page table of entry.S and of
    the [started] field of each processor; turns of the wait. *)
Variable entryother : list Z.
Variable mpenter entry_pdpt : Z.
Variable started : Z -> Z.
Variable fuel : nat.

Definition code : Z := P2V 0x7000.

Definition start_cpu (i apicid : Z) : hw state unit :=
  stack <~ d_kalloc;
  modify (ram_put (code - 4) (le_bytes 4 (u32 (stack + 4096)))) ;>
  modify (ram_put (code - 8) (le_bytes 4 mpenter)) ;>
  modify (ram_put (code - 12) (le_bytes 4 (V2P entry_pdpt))) ;>
  lapicstartap apicid (V2P code) ;>
  spin fuel (v <~ load32 (started i); mret (v =? 0)).

(** The processors from index [i] on; each time the processor that runs this is
    looked for. *)
Fixpoint start_cpus (cpus : list Z) (i : Z) (rest : list Z) : hw state unit :=
  match rest with
  | [] => mret tt
  | apicid :: rest' =>
    id <~ lapicid;
    me <~ mlift (mycpu_search 0 cpus id);
    (if i =? me then mret tt else start_cpu i apicid) ;>
    start_cpus cpus (i + 1) rest'
  end.

Definition startothers (cpus : list Z) : hw state unit :=
  modify (ram_put code entryother) ;> start_cpus cpus 0 cpus.
End others.

(** ** The MP table *)

(** An entry for a processor has its identifier and 18 more bytes, one for an
    interrupt controller 7 more bytes, and so the others, of the types 1, 3 and 4. *)
Inductive mp_entry := MpCpu (apicid : Z) (more : list Z) | MpIoapic (more : list Z) | MpOther (type : Z) (more : list Z).

Definition encode_entry (e : mp_entry) : list Z :=
  match e with
  | MpCpu id more => MPPROC :: id :: more
  | MpIoapic more => MPIOAPIC :: more
  | MpOther t more => t :: more
  end.

Definition entry_ok (e : mp_entry) : Prop :=
  match e with
  | MpCpu _ more => zlen more = 18
  | MpIoapic more => zlen more = 7
  | MpOther t more => (t = MPBUS \/ t = MPIOINTR \/ t = MPLINTR) /\ zlen more = 7
  end.

Definition encode_entries (es : list mp_entry) : list Z := es ≫= encode_entry.

Definition cpu_ids (es : list mp_entry) : list Z := es ≫= (fun e => match e with MpCpu id _ => [id] | _ => [] end).

Section table.
Context {H : Type} `{RamLaws H}.

(** Processors beyond the eighth are left out. *)
Lemma add_cpu (cpus : list Z) (id : Z) (ids : list Z) : (length cpus <= 8)%nat ->
  take 8 ((if zlen cpus <? NCPU then cpus ++ [id] else cpus) ++ ids) = take 8 (cpus ++ id :: ids) /\
  Nat.le (length (if zlen cpus <? NCPU then cpus ++ [id] else cpus)) 8.
Proof.
  intros Hc. unfold NCPU, zlen. destruct (Z.ltb_spec (Z.of_nat (length cpus)) 8) as [Hl|Hl].
  - rewrite length_app. cbn [length]. split; [by rewrite <- app_assoc|lia].
  - split; [|done]. by rewrite !take_app_le by lia.
Qed.

Lemma mp_entries_ok es : forall fuel p cpus h, Forall entry_ok es -> (length es <= fuel)%nat -> (length cpus <= 8)%nat ->
  ram_get p (zlen (encode_entries es)) h = encode_entries es ->
  mp_entries fuel p (p + zlen (encode_entries es)) cpus h = Ret (take 8 (cpus ++ cpu_ids es), h).
Proof.
  induction es as [|e es IH]; intros fuel p cpus h Hes Hf Hc Hm.
  - destruct fuel; cbn; rewrite app_nil_r, take_ge, Z.add_0_r, Z.leb_refl by lia; done.
  - apply Forall_cons in Hes as [He Hes]. destruct fuel as [|fuel]; [cbn in Hf; lia|]. cbn [mp_entries].
    set (b := encode_entry e) in *. assert (Eb : encode_entries (e :: es) = b ++ encode_entries es) by done. rewrite Eb, zlen_app in *.
    pose proof (zlen_nonneg (encode_entries es)) as Hr.
    assert (Hb : 8 <= zlen b) by (unfold b; destruct e as [id more|more|t more]; cbn [entry_ok encode_entry] in *; unfold zlen in *; cbn [length]; lia).
    destruct (Z.leb_spec (p + (zlen b + zlen (encode_entries es))) p); [lia|].
    assert (Htail : ram_get (p + zlen b) (zlen (encode_entries es)) h = encode_entries es).
    { rewrite (ram_slice p (zlen b + zlen (encode_entries es))), Hm by lia. unfold slice. rewrite drop_app_length' by (unfold zlen; lia). apply take_ge. unfold zlen. lia. }
    assert (Hhead : ram_get p 2 h = take 2 b).
    { rewrite <- (Z.add_0_r p), (ram_slice p (zlen b + zlen (encode_entries es)) 0 2), Hm by lia. unfold slice. rewrite drop_0, take_app_le by (unfold zlen in *; lia). done. }
    rewrite (mbind_run _ _ _ _ _ (eq_refl : mem_get p 2 h = Ret (ram_get p 2 h, h))), Hhead. replace (p + (zlen b + zlen (encode_entries es))) with (p + zlen b + zlen (encode_entries es)) by lia.
    unfold b in *. destruct e as [id more|more|t more]; cbn [encode_entry entry_ok] in *.
    + destruct more as [|x more]; [done|]. change (take 2 (MPPROC :: id :: x :: more)) with [MPPROC; id]. change (default 0 (zget [MPPROC; id] 0) =? MPPROC) with true. change (default 0 (zget [MPPROC; id] 1)) with id. cbn iota.
      replace (zlen (MPPROC :: id :: x :: more)) with sizeof_mpproc in * by (unfold sizeof_mpproc, zlen in *; cbn [length] in *; lia).
      destruct (add_cpu cpus id (cpu_ids es) Hc) as [Ea Hl]. rewrite IH by (done || cbn in Hf; lia). by rewrite Ea.
    + destruct more as [|x more]; [done|]. change (take 2 (MPIOAPIC :: x :: more)) with [MPIOAPIC; x]. change (default 0 (zget [MPIOAPIC; x] 0) =? MPPROC) with false. change (default 0 (zget [MPIOAPIC; x] 0) =? MPIOAPIC) with true. cbn iota.
      replace (zlen (MPIOAPIC :: x :: more)) with sizeof_mpioapic in * by (unfold sizeof_mpioapic, zlen in *; cbn [length] in *; lia). by rewrite IH by (done || cbn in Hf; lia).
    + destruct He as [Ht He]. destruct more as [|x more]; [done|]. change (take 2 (t :: x :: more)) with [t; x]. change (default 0 (zget [t; x] 0)) with t.
      replace (t =? MPPROC) with false by (by destruct Ht as [-> |[-> | ->]]). replace (t =? MPIOAPIC) with false by (by destruct Ht as [-> |[-> | ->]]).
      replace ((t =? MPBUS) || (t =? MPIOINTR) || (t =? MPLINTR)) with true by (by destruct Ht as [-> |[-> | ->]]).
      replace (zlen (t :: x :: more)) with 8 in * by (unfold zlen in *; cbn [length] in *; lia). by rewrite IH by (done || cbn in Hf; lia).
Qed.

(** The machine has a table: the first floating pointer in the ROM, at [mp], points
    to a configuration table with the entries [es]. *)
Record mp_table (h : H) (mp conf : Z) (head : list Z) (es : list mp_entry) : Prop := {
  mt_place : exists k, (k < 4096)%nat /\ mp = P2V 0xF0000 + 16 * Z.of_nat k /\ forall j, (j < k)%nat -> is_mp (ram_get (P2V 0xF0000 + 16 * Z.of_nat j) 16 h) = false;
  mt_pointer : is_mp (ram_get mp 16 h) = true;
  mt_conf : le_val (ram_get (mp + 4) 4 h) <> 0 /\ conf = P2V (le_val (ram_get (mp + 4) 4 h));
  mt_table : ram_get conf (44 + zlen (encode_entries es)) h = head ++ encode_entries es /\ sum (head ++ encode_entries es) = 0;
  mt_head : zlen head = 44 /\ slice 0 4 head = MPCONF_SIGNATURE /\ (zget head 6 = Some 1 \/ zget head 6 = Some 4);
  mt_len : get16 4 head = 44 + zlen (encode_entries es);
  mt_entries : Forall entry_ok es
}.

Lemma mpsearch_loop_ok n : forall k p h, (k < n)%nat -> is_mp (ram_get (p + 16 * Z.of_nat k) 16 h) = true ->
  (forall j, (j < k)%nat -> is_mp (ram_get (p + 16 * Z.of_nat j) 16 h) = false) -> mpsearch_loop n p h = Ret (p + 16 * Z.of_nat k, h).
Proof.
  induction n as [|n IH]; intros k p h Hk Hm Hj; [lia|]. cbn [mpsearch_loop]. rewrite (mbind_run _ _ _ _ _ (eq_refl : mem_get p sizeof_mp h = Ret (ram_get p 16 h, h))).
  destruct k as [|k].
  - rewrite Z.mul_0_r, Z.add_0_r in *. by rewrite Hm.
  - pose proof (Hj 0%nat ltac:(lia)) as H0'. rewrite Z.mul_0_r, Z.add_0_r in H0'. rewrite H0'. unfold sizeof_mp. rewrite (IH k).
    + do 2 f_equal. lia.
    + lia.
    + by replace (p + 16 + 16 * Z.of_nat k) with (p + 16 * Z.of_nat (S k)) by lia.
    + intros j Hlt. replace (p + 16 + 16 * Z.of_nat j) with (p + 16 * Z.of_nat (S j)) by lia. apply Hj. lia.
Qed.

Lemma mpconfig_ok h mp conf head es : mp_table h mp conf head es -> mpconfig h = Ret (Some (mp, conf), h).
Proof.
  intros [(k & Hk & Emp & Hfirst) Hp (Hph & Ec) (Ht & Hsum) (Hl & Hsig & Hver) Hlen _]. unfold mpconfig, mpsearch, mpsearch1.
  pose proof (zlen_nonneg (encode_entries es)) as Hn.
  rewrite (mbind_run _ _ _ mp h); [|rewrite Emp in Hp |- *; apply mpsearch_loop_ok; done].
  assert (Hmp0 : mp <> 0) by (rewrite Emp; change (P2V 0xF0000) with 0x800F0000; lia). destruct (Z.eqb_spec mp 0); [done|].
  rewrite (mbind_run _ _ _ _ _ (eq_refl : mem_get (mp + 4) 4 h = Ret (ram_get (mp + 4) 4 h, h))). destruct (Z.eqb_spec (le_val (ram_get (mp + 4) 4 h)) 0); [done|]. rewrite <- Ec.
  assert (Eh : ram_get conf sizeof_mpconf h = head).
  { unfold sizeof_mpconf. rewrite <- (Z.add_0_r conf), (ram_slice conf (44 + zlen (encode_entries es)) 0 44), Ht by lia. by apply slice_app_full. }
  rewrite (mbind_run _ _ _ _ _ (eq_refl : mem_get conf sizeof_mpconf h = Ret (ram_get conf sizeof_mpconf h, h))), Eh, Hsig. rewrite bool_decide_true by done. cbn [negb].
  assert (Ev : negb (default 0 (zget head 6) =? 1) && negb (default 0 (zget head 6) =? 4) = false) by (by destruct Hver as [-> | ->]). rewrite Ev.
  rewrite Hlen, (mbind_run _ _ _ _ _ (eq_refl : mem_get conf _ h = Ret (ram_get conf (44 + zlen (encode_entries es)) h, h))), Ht, Hsum. done.
Qed.

(** On a machine with an MP table the kernel has, in the
    order of the table, the identifiers of its processors, of the first eight where
    there are more; memory and ports are as before, but for the switch of the old
    interrupt controller where the table asks for it. *)
Theorem mpinit_finds_cpus h mp conf head es fuel : mp_table h mp conf head es -> (length es <= fuel)%nat ->
  exists h', mpinit fuel h = Ret (take 8 (cpu_ids es), h') /\ (le_val (ram_get (mp + 12) 1 h) = 0 -> h' = h).
Proof.
  intros Ht Hf. unfold mpinit. rewrite (mbind_run _ _ _ _ _ (mpconfig_ok _ _ _ _ _ Ht)). destruct Ht as [_ _ _ (Ht & _) (Hl & _ & _) Hlen He].
  pose proof (zlen_nonneg (encode_entries es)) as Hn.
  assert (El : le_val (ram_get (conf + 4) 2 h) = 44 + zlen (encode_entries es)).
  { rewrite <- Hlen. unfold get16. f_equal. rewrite (ram_slice conf (44 + zlen (encode_entries es))), Ht by lia. unfold slice. rewrite drop_app_le, take_app_le; [done|..]; rewrite ?length_drop; unfold zlen in Hl; lia. }
  rewrite (mbind_run _ _ _ _ _ (eq_refl : mem_get (conf + 4) 2 h = Ret (ram_get (conf + 4) 2 h, h))), El.
  assert (Ee : ram_get (conf + sizeof_mpconf) (zlen (encode_entries es)) h = encode_entries es).
  { unfold sizeof_mpconf. rewrite (ram_slice conf (44 + zlen (encode_entries es))), Ht by lia. unfold slice. rewrite drop_app_length' by (unfold zlen in Hl; lia). apply take_ge. unfold zlen. lia. }
  replace (conf + (44 + zlen (encode_entries es))) with (conf + sizeof_mpconf + zlen (encode_entries es)) by (unfold sizeof_mpconf; lia).
  rewrite (mbind_run _ _ _ _ _ (mp_entries_ok es fuel _ [] h He Hf (le_0_n 8) Ee)).
  rewrite (mbind_run _ _ _ _ _ (eq_refl : mem_get (mp + 12) 1 h = Ret (ram_get (mp + 12) 1 h, h))). destruct (Z.eqb_spec (le_val (ram_get (mp + 12) 1 h)) 0) as [E0|E0].
  - by exists h.
  - eexists. split; [unfold mbind, outb, inb, modify, mret; cbn [obind fst snd]; reflexivity|done].
Qed.

(** A table with an entry of another type, as the types from 128 on that the
    specification allows, is never left. *)
Lemma unknown_entry_hangs fuel : forall p e cpus h t, p < e -> zget (ram_get p 2 h) 0 = Some t -> 4 < t -> mp_entries fuel p e cpus h = NoFuel.
Proof.
  induction fuel as [|fuel IH]; intros p e cpus h t Hp Ht H4; cbn [mp_entries]; destruct (Z.leb_spec e p); try lia; [done|].
  rewrite (mbind_run _ _ _ _ _ (eq_refl : mem_get p 2 h = Ret (ram_get p 2 h, h))), Ht. change (default 0 (Some t)) with t.
  unfold MPPROC, MPIOAPIC, MPBUS, MPIOINTR, MPLINTR. repeat match goal with |- context [?a =? ?b] => destruct (Z.eqb_spec a b); [lia|] end. cbn [orb]. by apply (IH p e cpus h t).
Qed.
End table.

(** A processor the table says is not to be used, with the first bit of the flags in
    its fourth byte clear, is listed with the others. *)
Lemma disabled_cpu_listed {H} `{RamLaws H} p h id version more : zlen more = 16 ->
  ram_get p 20 h = [MPPROC; id; version; 0] ++ more -> mp_entries 1 p (p + 20) [] h = Ret ([id], h).
Proof.
  intros Hm Hr. assert (E : encode_entries [MpCpu id (version :: 0 :: more)] = [MPPROC; id; version; 0] ++ more) by (cbn; by rewrite app_nil_r).
  assert (El : zlen (encode_entries [MpCpu id (version :: 0 :: more)]) = 20) by (rewrite E; unfold zlen in *; rewrite length_app; cbn [length]; lia).
  rewrite <- El. apply mp_entries_ok; [|done|cbn; lia|by rewrite El, E].
  apply Forall_singleton. cbn. unfold zlen in *. cbn [length]. lia.
Qed.

(** ** Starting the processors *)

(** A processor: as after reset, waiting for its start after an INIT, starting at a
    page, or running the kernel with a stack, an entry point and a page table. *)
Inductive cpu_state := CpuReset | CpuWaits | CpuStarts (page : Z) | CpuRuns (stack entry table : Z).

#[export] Instance cpu_state_eq_dec : EqDecision cpu_state.
Proof. solve_decision. Defined.

(** Memory of the start code and the three words before it. *)
Definition start_same {H} `{Machine H} (h h' : H) : Prop :=
  forall a n, code - 12 <= a -> 0 <= n -> a + n <= code + 4096 -> ram_get a n h' = ram_get a n h.

(** What the kernel relies on, of the local interrupt controller of the boot
    processor and the processors it reaches: [ap_left] bounds the looks at the
    [started] field of a processor that still find it zero.  A processor that starts at the page
    of the start code takes what is in the words before the code. *)
Class Processors (H : Type) `{RamLaws H} (entryother : list Z) (started : Z -> Z) (cpus : list Z) := {
  cpu_of : H -> Z -> cpu_state;
  ipi_dest : H -> Z;
  boot_id : Z;
  ap_left : H -> nat;
  ap_max : nat;
  ap_bound h : (ap_left h <= ap_max)%nat;
  ap_id h : exists v h', mm_load 4 (lapic + 4 * LAPIC_ID) h = (v, h') /\ Z.shiftr v 24 = boot_id /\ cpu_of h' = cpu_of h /\ ipi_dest h' = ipi_dest h /\ start_same h h';
  ap_ram a l h : cpu_of (ram_put a l h) = cpu_of h /\ ipi_dest (ram_put a l h) = ipi_dest h;
  ap_port p v h : p = CMOS_PORT \/ p = CMOS_PORT + 1 -> let h' := io_out 1 p v h in cpu_of h' = cpu_of h /\ start_same h h';
  ap_dest v h : let h' := mm_store 4 (lapic + 4 * ICRHI) v h in ipi_dest h' = Z.shiftr v 24 /\ cpu_of h' = cpu_of h /\ start_same h h';
  ap_init h : let h' := mm_store 4 (lapic + 4 * ICRLO) (Z.lor (Z.lor INIT LEVEL) ASSERT) h in
    (forall id, cpu_of h' id = if decide (id = ipi_dest h) then CpuWaits else cpu_of h id) /\ ipi_dest h' = ipi_dest h /\ start_same h h';
  ap_deassert h : let h' := mm_store 4 (lapic + 4 * ICRLO) (Z.lor INIT LEVEL) h in cpu_of h' = cpu_of h /\ ipi_dest h' = ipi_dest h /\ start_same h h';
  ap_sipi page h : 0 <= page < 256 -> let h' := mm_store 4 (lapic + 4 * ICRLO) (Z.lor STARTUP page) h in
    (forall id, cpu_of h' id = if decide (id = ipi_dest h /\ cpu_of h id = CpuWaits) then CpuStarts page else cpu_of h id) /\ ipi_dest h' = ipi_dest h /\ start_same h h';
  ap_poll i id h : zget cpus i = Some id -> cpu_of h id = CpuStarts 7 -> ram_get code (zlen entryother) h = entryother ->
    exists v h', mm_load 4 (started i) h = (v, h') /\ start_same h h' /\
      (v = 0 /\ cpu_of h' = cpu_of h /\ (ap_left h' < ap_left h)%nat \/
       v <> 0 /\ forall id', cpu_of h' id' = if decide (id' = id)
         then CpuRuns (le_val (ram_get (code - 4) 4 h)) (le_val (ram_get (code - 8) 4 h)) (le_val (ram_get (code - 12) 4 h)) else cpu_of h id')
}.

Section start.
Context {A H : Type} `{AllocatorLaws A} (entryother : list Z) (started : Z -> Z) (cpus : list Z) `{!Machine H} `{!RamLaws H} `{!Processors H entryother started cpus}.
Variable mpenter entry_pdpt : Z.
Variable fuel : nat.
Context (fuel_ok : (ap_max <= fuel)%nat) (image_ok : bytes_ok entryother /\ zlen entryother <= 4096) (entry_u32 : is_u32 mpenter).

Local Notation state := (driver A unit H).

(** An interrupt through the controller, and the read that follows. *)
Lemma lapicw_run index value (h : H) : exists h', lapicw index value h = Ret (tt, h') /\ let h1 := mm_store 4 (lapic + 4 * index) (u32 value) h in
  cpu_of h' = cpu_of h1 /\ ipi_dest h' = ipi_dest h1 /\ start_same h1 h'.
Proof.
  unfold lapicw. destruct (ap_id (mm_store 4 (lapic + 4 * index) (u32 value) h)) as (v & h' & E & _ & Ec & Ed & Es). exists h'.
  split; [|done]. unfold mbind, store32, load32, modify, mret. cbn [obind fst snd]. by rewrite E.
Qed.

Lemma start_same_trans (h1 h2 h3 : H) : start_same h1 h2 -> start_same h2 h3 -> start_same h1 h3.
Proof. intros S1 S2 a n Ha Hn Hb. by rewrite S2, S1. Qed.

(** Writing elsewhere. *)
Lemma start_same_put a l (h : H) : bytes_ok l -> a + zlen l <= code - 12 -> start_same h (ram_put a l h).
Proof. intros Hl Ha b n Hb Hn Hc. apply ram_get_other; [done|done|lia]. Qed.

Lemma lapic_dest id (h : H) : 0 <= id < 256 -> exists h', lapicw ICRHI (Z.shiftl id 24) h = Ret (tt, h') /\ cpu_of h' = cpu_of h /\ ipi_dest h' = id /\ start_same h h'.
Proof.
  intros Hid. destruct (lapicw_run ICRHI (Z.shiftl id 24) h) as (h' & E & Ec & Ed & Es). exists h'. split; [done|].
  destruct (ap_dest (u32 (Z.shiftl id 24)) h) as (D1 & D2 & D3). cbn in *. rewrite Ec, Ed, D1, D2. split; [done|]. split; [|by eapply start_same_trans].
  rewrite Z.shiftl_mul_pow2, Z.shiftr_div_pow2 by lia. rewrite u32_small by (unfold is_u32; lia). by rewrite Z.div_mul.
Qed.

Lemma sipi_ok (h : H) : exists h', lapicw ICRLO (Z.lor STARTUP 7) h = Ret (tt, h') /\
  (forall id, cpu_of h' id = if decide (id = ipi_dest h /\ cpu_of h id = CpuWaits) then CpuStarts 7 else cpu_of h id) /\ start_same h h'.
Proof.
  destruct (lapicw_run ICRLO (Z.lor STARTUP 7) h) as (h' & E & Ec & Ed & Es). exists h'. split; [done|]. destruct (ap_sipi 7 h ltac:(lia)) as (S1 & _ & S3).
  change (u32 (Z.lor STARTUP 7)) with (Z.lor STARTUP 7) in *. cbn zeta in *. split; [intros id; by rewrite Ec, S1|by eapply start_same_trans].
Qed.

Lemma lapic_startap_ok id (h : H) : 0 <= id < 256 -> exists h', lapicstartap id (V2P code) h = Ret (tt, h') /\ start_same h h' /\
  forall id', cpu_of h' id' = if decide (id' = id) then CpuStarts 7 else cpu_of h id'.
Proof.
  intros Hid. unfold lapicstartap. change (Z.shiftr (V2P code) 12) with 7. change (Z.shiftr (V2P code) 4) with 0x700.
  set (h1 := io_out 1 CMOS_PORT (u8 0xF) h). rewrite (mbind_run _ _ _ tt h1 eq_refl). destruct (ap_port CMOS_PORT (u8 0xF) h (or_introl eq_refl)) as (C1 & S1). fold h1 in C1, S1.
  set (h2 := io_out 1 (CMOS_PORT + 1) (u8 0x0A) h1). rewrite (mbind_run _ _ _ tt h2 eq_refl). destruct (ap_port (CMOS_PORT + 1) (u8 0x0A) h1 (or_intror eq_refl)) as (C2 & S2). fold h2 in C2, S2.
  set (h3 := ram_put wrv (le_bytes 2 0) h2). rewrite (mbind_run _ _ _ tt h3 eq_refl). destruct (ap_ram wrv (le_bytes 2 0) h2) as (C3 & _). fold h3 in C3.
  assert (S3 : start_same h2 h3) by (apply start_same_put; [by repeat constructor|by vm_compute]).
  set (h4 := ram_put (wrv + 2) (le_bytes 2 (u16 0x700)) h3). rewrite (mbind_run _ _ _ tt h4 eq_refl). destruct (ap_ram (wrv + 2) (le_bytes 2 (u16 0x700)) h3) as (C4 & _). fold h4 in C4.
  assert (S4 : start_same h3 h4) by (apply start_same_put; [by repeat constructor|by vm_compute]).
  destruct (lapic_dest id h4 Hid) as (h5 & E5 & C5 & D5 & S5). rewrite (mbind_run _ _ _ _ _ E5).
  destruct (lapicw_run ICRLO (Z.lor (Z.lor INIT LEVEL) ASSERT) h5) as (h6 & E6 & C6 & D6 & S6). rewrite (mbind_run _ _ _ _ _ E6).
  destruct (ap_init h5) as (C6' & D6' & S6'). change (u32 (Z.lor (Z.lor INIT LEVEL) ASSERT)) with (Z.lor (Z.lor INIT LEVEL) ASSERT) in *. cbn zeta in C6, D6, S6. rewrite D6' in D6.
  destruct (lapicw_run ICRLO (Z.lor INIT LEVEL) h6) as (h7 & E7 & C7 & D7 & S7). rewrite (mbind_run _ _ _ _ _ E7).
  destruct (ap_deassert h6) as (C7' & D7' & S7'). change (u32 (Z.lor INIT LEVEL)) with (Z.lor INIT LEVEL) in *. cbn zeta in C7, D7, S7.
  destruct (lapic_dest id h7 Hid) as (h8 & E8 & C8 & D8 & S8). rewrite (mbind_run _ _ _ _ _ E8).
  destruct (sipi_ok h8) as (h9 & E9 & C9 & S9). rewrite (mbind_run _ _ _ _ _ E9).
  destruct (lapic_dest id h9 Hid) as (h10 & E10 & C10 & D10 & S10). rewrite (mbind_run _ _ _ _ _ E10).
  destruct (sipi_ok h10) as (h11 & E11 & C11 & S11). exists h11. split; [done|]. split; [eauto 20 using start_same_trans|].
  assert (Cw : forall id', cpu_of h8 id' = if decide (id' = id) then CpuWaits else cpu_of h id').
  { intros id'. rewrite C8, C7, C7', C6, C6', D5. by rewrite C5, C4, C3, C2, C1. }
  assert (C9' : forall id', cpu_of h9 id' = if decide (id' = id) then CpuStarts 7 else cpu_of h id').
  { intros id'. rewrite C9, D8, Cw. destruct (decide (id' = id)) as [->|Hne]; [by rewrite decide_True|]. by rewrite decide_False by (by intros []). }
  intros id'. rewrite C11, C10, D10, C9'. destruct (decide (id' = id)) as [->|Hne]; [by rewrite decide_False by (by intros [])|]. by rewrite decide_False by (by intros []).
Qed.

(** Waiting until a processor that starts runs. *)
Lemma wait_started i id f : forall h : H, zget cpus i = Some id -> cpu_of h id = CpuStarts 7 -> ram_get code (zlen entryother) h = entryother -> (ap_left h <= f)%nat ->
  exists h', spin f (v <~ load32 (started i); mret (v =? 0)) h = Ret (tt, h') /\ start_same h h' /\
    forall id', cpu_of h' id' = if decide (id' = id)
      then CpuRuns (le_val (ram_get (code - 4) 4 h)) (le_val (ram_get (code - 8) 4 h)) (le_val (ram_get (code - 12) 4 h)) else cpu_of h id'.
Proof.
  induction f as [|f IH]; intros h Hi Hs Hm Hf; destruct (ap_poll i id h Hi Hs Hm) as (v & h1 & E & Hsame & Hv); cbn [spin].
  all: rewrite (mbind_run _ _ _ (v =? 0) h1) by (unfold mbind, load32, mret; cbn [obind]; by rewrite E).
  all: destruct Hv as [(-> & Hc & Hl)|(Hv & Hc)]; [|destruct (Z.eqb_spec v 0); [done|]; by exists h1]. { lia. } cbn [Z.eqb].
  assert (Hb : zlen entryother <= 4096) by apply image_ok. pose proof (zlen_nonneg entryother).
  destruct (IH h1 Hi) as (h2 & E2 & Hs2 & Hc2); [by rewrite Hc|by rewrite Hsame by lia|lia|]. exists h2. split; [done|]. split; [by eapply start_same_trans|].
  intros id'. rewrite Hc2, Hc, !Hsame by lia. done.
Qed.

(** What [start_cpu] does on the machine, once there is a stack. *)
Definition run_cpu (i apicid stack : Z) : hw H unit :=
  modify (ram_put (code - 4) (le_bytes 4 (u32 (stack + 4096)))) ;>
  modify (ram_put (code - 8) (le_bytes 4 mpenter)) ;>
  modify (ram_put (code - 12) (le_bytes 4 (V2P entry_pdpt))) ;>
  lapicstartap apicid (V2P code) ;>
  spin fuel (v <~ load32 (started i); mret (v =? 0)).

Lemma word_bytes w : bytes_ok (le_bytes 4 w) /\ zlen (le_bytes 4 w) = 4.
Proof. split; [apply le_bytes_ok|]. unfold zlen. by rewrite le_bytes_length. Qed.

Lemma run_cpu_ok i id stack (h : H) : zget cpus i = Some id -> 0 <= id < 256 -> ram_get code (zlen entryother) h = entryother ->
  exists h', run_cpu i id stack h = Ret (tt, h') /\ ram_get code (zlen entryother) h' = entryother /\
    forall id', cpu_of h' id' = if decide (id' = id) then CpuRuns (u32 (stack + 4096)) mpenter (V2P entry_pdpt) else cpu_of h id'.
Proof.
  intros Hi Hid Hm. unfold run_cpu. assert (Hb : zlen entryother <= 4096) by apply image_ok. pose proof (zlen_nonneg entryother) as Hz.
  set (w1 := le_bytes 4 (u32 (stack + 4096))). set (w2 := le_bytes 4 mpenter). set (w3 := le_bytes 4 (V2P entry_pdpt)).
  destruct (word_bytes (u32 (stack + 4096))) as [B1 L1]. destruct (word_bytes mpenter) as [B2 L2]. destruct (word_bytes (V2P entry_pdpt)) as [B3 L3]. fold w1 in B1, L1. fold w2 in B2, L2. fold w3 in B3, L3.
  set (h1 := ram_put (code - 4) w1 h). rewrite (mbind_run _ _ _ tt h1 eq_refl). set (h2 := ram_put (code - 8) w2 h1). rewrite (mbind_run _ _ _ tt h2 eq_refl).
  set (h3 := ram_put (code - 12) w3 h2). rewrite (mbind_run _ _ _ tt h3 eq_refl).
  assert (C3 : cpu_of h3 = cpu_of h) by (unfold h3, h2, h1; by rewrite !(proj1 (ap_ram _ _ _))).
  assert (G0 : ram_get code (zlen entryother) h3 = entryother) by (unfold h3, h2, h1; by rewrite !ram_get_other by (done || lia)).
  assert (G1 : ram_get (code - 4) 4 h3 = w1) by (unfold h3, h2, h1; rewrite !(ram_get_other (code - 4)) by (done || lia); rewrite <- L1; by apply ram_get_same).
  assert (G2 : ram_get (code - 8) 4 h3 = w2) by (unfold h3, h2; rewrite (ram_get_other (code - 8)) by (done || lia); rewrite <- L2; by apply ram_get_same).
  assert (G3 : ram_get (code - 12) 4 h3 = w3) by (unfold h3; rewrite <- L3; by apply ram_get_same).
  destruct (lapic_startap_ok id h3 Hid) as (h4 & E4 & S4 & C4). rewrite (mbind_run _ _ _ _ _ E4).
  destruct (wait_started i id fuel h4 Hi) as (h5 & E5 & S5 & C5); [rewrite C4; by rewrite decide_True|by rewrite S4 by lia|by etrans; [apply ap_bound|]|].
  exists h5. split; [done|]. split; [by rewrite S5, S4 by lia|]. intros id'. rewrite C5, C4, C3, !S4, G1, G2, G3 by lia.
  unfold w1, w2, w3. rewrite !le_val_bytes by (done || apply u32_range). by destruct (decide (id' = id)).
Qed.

Lemma lifts_lapicw index value : lifts (A := A) (L := unit) (lapicw index value) (lapicw (H := H) index value).
Proof. unfold lapicw. apply lifts_mbind; [apply lifts_modify|]. intros ?. apply lifts_mbind; [apply lifts_mm_load|]. intros ?. apply lifts_mret. Qed.

Lemma lifts_lapicid : lifts (A := A) (L := unit) lapicid (lapicid (H := H)).
Proof. unfold lapicid. apply lifts_mbind; [apply lifts_mm_load|]. intros ?. apply lifts_mret. Qed.

Lemma start_cpu_run i id (s : state) : start_cpu mpenter entry_pdpt started fuel i id s =
  (stack <~ d_kalloc; fun s => obind (run_cpu i id stack (dhw s)) (fun r => Ret (fst r, Driver (dpool s) (dlocal s) (snd r)))) s.
Proof.
  unfold start_cpu, mbind at 1 7. destruct (d_kalloc s) as [[stack s1]| | |]; [|done..]. cbn [obind fst snd].
  assert (Hl : forall stack, lifts (A := A) (L := unit)
    (modify (ram_put (code - 4) (le_bytes 4 (u32 (stack + 4096)))) ;> modify (ram_put (code - 8) (le_bytes 4 mpenter)) ;> modify (ram_put (code - 12) (le_bytes 4 (V2P entry_pdpt))) ;>
     lapicstartap id (V2P code) ;> spin fuel (v <~ load32 (started i); mret (v =? 0))) (run_cpu i id stack)).
  { intros st. unfold run_cpu, lapicstartap.
    repeat first [apply lifts_mbind; [|intros ?] | apply lifts_lapicw | apply lifts_spin | apply lifts_mret | apply lifts_modify | apply lifts_mm_load]. }
  apply Hl.
Qed.

Context (cpus_distinct : NoDup cpus) (cpus_bytes : Forall (fun id => 0 <= id < 256) cpus) (boot_listed : boot_id ∈ cpus).

(** A processor that runs the kernel on a stack. *)
Definition runs_on (h : H) (id stack : Z) : Prop := cpu_of h id = CpuRuns (u32 (stack + 4096)) mpenter (V2P entry_pdpt).

(** The processor that runs the code is found where the table has it. *)
Lemma mycpu_search_ok l : forall k i id, NoDup l -> l !! k = Some id -> mycpu_search i l id = Ret (i + Z.of_nat k).
Proof.
  induction l as [|a l IH]; intros k i id Hd Hk; [done|]. apply NoDup_cons in Hd as [Ha Hd]. cbn [mycpu_search]. destruct k as [|k].
  - injection Hk as ->. rewrite Z.eqb_refl, Z.add_0_r. done.
  - cbn in Hk. destruct (Z.eqb_spec a id) as [->|]; [by apply list_elem_of_lookup_2 in Hk|]. rewrite (IH k) by done. f_equal. lia.
Qed.

Lemma start_cpus_ok rest : forall i (s : state) held n, cpus = take i cpus ++ rest -> (i + length rest = length cpus)%nat ->
  pa_holds (dpool s) held n -> zlen rest <= n -> ram_get code (zlen entryother) (dhw s) = entryother ->
  exists s' stacks, start_cpus mpenter entry_pdpt started fuel cpus (Z.of_nat i) rest s = Ret (tt, s') /\ NoDup stacks /\ Forall (fun st => frame_ok st /\ st ∉ held) stacks /\
    Forall2 (runs_on (dhw s')) (filter (fun id => id <> boot_id) rest) stacks /\ forall id, id ∉ rest -> cpu_of (dhw s') id = cpu_of (dhw s) id.
Proof.
  destruct (list_elem_of_lookup_1 _ _ boot_listed) as [me Hme].
  induction rest as [|id rest IH]; intros i s held n Hc Hl Hp Hn Hm.
  { exists s, []. split; [done|]. split; [constructor|]. split; [constructor|]. by split; [constructor|]. }
  assert (Hi : cpus !! i = Some id) by (rewrite Hc, lookup_app_r by (rewrite length_take; lia); rewrite length_take; replace (i - i `min` length cpus)%nat with 0%nat by (cbn in Hl; lia); done).
  assert (Hc' : cpus = take (S i) cpus ++ rest) by (rewrite (take_S_r _ _ _ Hi), <- app_assoc; done).
  assert (Hnr : id ∉ rest) by (pose proof cpus_distinct as Hd; rewrite Hc in Hd; apply NoDup_app in Hd as (_ & _ & Hd); by apply NoDup_cons in Hd as [? _]).
  assert (Hb : 0 <= id < 256) by (exact (Forall_lookup_1 _ _ _ _ cpus_bytes Hi)).
  cbn [start_cpus]. destruct (ap_id (dhw s)) as (v & h1 & Ev & Hv & C1 & _ & S1).
  assert (E1 : lapicid s = Ret (boot_id, Driver (dpool s) (dlocal s) h1)).
  { apply (lifts_run _ _ s _ _ lifts_lapicid). unfold lapicid, mbind, load32, mret. cbn [obind]. by rewrite Ev, <- Hv. }
  rewrite (mbind_run _ _ _ _ _ E1). rewrite (mbind_run _ _ _ (Z.of_nat me) (Driver (dpool s) (dlocal s) h1)) by (unfold mlift; by rewrite (mycpu_search_ok cpus me) by done).
  assert (Hzl : zlen (id :: rest) = 1 + zlen rest) by (unfold zlen; cbn [length]; lia). pose proof (zlen_nonneg rest) as Hz0.
  assert (Hm1 : ram_get code (zlen entryother) h1 = entryother) by (destruct image_ok; pose proof (zlen_nonneg entryother); by rewrite S1 by lia).
  destruct (Z.eqb_spec (Z.of_nat i) (Z.of_nat me)) as [Eq|Hne].
  - assert (Hib : id = boot_id) by (replace me with i in Hme by lia; congruence). rewrite (mbind_run _ _ _ tt _ eq_refl). replace (Z.of_nat i + 1) with (Z.of_nat (S i)) by lia.
    destruct (IH (S i) (Driver (dpool s) (dlocal s) h1) held n Hc') as (s' & stacks & E & Hd & Hf & Hr & Hcpu); [cbn in Hl |- *; lia|done|lia|done|].
    exists s', stacks. split; [done|]. split; [done|]. split; [done|]. rewrite filter_cons_False by (intros Hx; by apply Hx). split; [done|].
    intros id' [_ Hid']%not_elem_of_cons. rewrite Hcpu by done. cbn [dhw]. by rewrite C1.
  - assert (Hib : id <> boot_id) by (intros ->; apply Hne; f_equal; by eapply NoDup_lookup).
    destruct (pa_alloc_law _ _ _ Hp) as (st & a1 & Ea & Hst & Hfr & Hp1); [lia|].
    destruct (run_cpu_ok (Z.of_nat i) id st h1) as (h2 & E2 & M2 & C2); [apply zget_lookup; rewrite Nat2Z.id; split; [lia|done]|done|done|].
    rewrite (mbind_run _ _ _ tt (Driver a1 (dlocal s) h2)).
    2: { rewrite start_cpu_run. unfold mbind, d_kalloc. cbn [dpool dlocal dhw]. rewrite Ea. cbn [obind fst snd dpool dlocal dhw]. by rewrite E2. }
    replace (Z.of_nat i + 1) with (Z.of_nat (S i)) by lia.
    destruct (IH (S i) (Driver a1 (dlocal s) h2) ({[st]} ∪ held) (n - 1) Hc') as (s' & stacks & E & Hd & Hf & Hr & Hcpu); [cbn in Hl |- *; lia|done|lia|done|].
    exists s', (st :: stacks). split; [done|]. split; [|split; [|split]].
    + apply NoDup_cons. split; [|done]. intros Hin. rewrite Forall_forall in Hf. destruct (Hf st Hin) as [_ Hx]. apply Hx, elem_of_union_l, elem_of_singleton. done.
    + apply Forall_cons. split; [done|]. eapply Forall_impl; [exact Hf|]. intros x [? Hx]. split; [done|]. intros Hin. by apply Hx, elem_of_union_r.
    + rewrite filter_cons_True by done. apply Forall2_cons. split; [|done]. unfold runs_on. rewrite Hcpu by done. cbn [dhw]. rewrite C2. by rewrite decide_True.
    + intros id' [Hne' Hid']%not_elem_of_cons. rewrite Hcpu by done. cbn [dhw]. rewrite C2, C1. by rewrite decide_False.
Qed.

(** C14: With enough free pages every processor of the table but
    the one that runs this ends up running the kernel, each on a page of its own as
    stack. *)
Theorem startothers_starts_all (s : state) held n : pa_holds (dpool s) held n -> zlen cpus <= n ->
  exists s' stacks, startothers entryother mpenter entry_pdpt started fuel cpus s = Ret (tt, s') /\ NoDup stacks /\ Forall (fun st => frame_ok st /\ st ∉ held) stacks /\
    Forall2 (runs_on (dhw s')) (filter (fun id => id <> boot_id) cpus) stacks.
Proof.
  intros Hp Hn. unfold startothers. rewrite (mbind_run _ _ _ tt (on_hw (ram_put code entryother) s) eq_refl).
  destruct (start_cpus_ok cpus 0 (on_hw (ram_put code entryother) s) held n) as (s' & stacks & E & Hd & Hf & Hr & _); [done|done|done|done|cbn; by apply ram_get_same, image_ok|].
  by exists s', stacks.
Qed.
End start.

(** ** A machine with three processors *)

Record toy_smp := ToySmp { ts_cpu : Z -> cpu_state; ts_dest : Z; ts_busy : bool; ts_ram : Z -> Z }.

Definition toy_started (i : Z) : Z := 0x80100000 + 4 * i.
Definition toy_cpus : list Z := [0; 1; 2].

(** A processor that is looked at starts at the second look. *)
Definition toy_look (i : Z) (h : toy_smp) : Z * toy_smp :=
  match ts_cpu h i with
  | CpuStarts _ =>
    if ts_busy h then (0, ToySmp (ts_cpu h) (ts_dest h) false (ts_ram h)) else
    let word a := le_val (fget (ts_ram h) a 4) in
    (1, ToySmp (fun id => if decide (id = i) then CpuRuns (word (code - 4)) (word (code - 8)) (word (code - 12)) else ts_cpu h id) (ts_dest h) true (ts_ram h))
  | CpuRuns _ _ _ => (1, h)
  | _ => (0, h)
  end.

Definition toy_ipi (v : Z) (h : toy_smp) : toy_smp :=
  let d := ts_dest h in
  if v =? Z.lor (Z.lor INIT LEVEL) ASSERT then ToySmp (fun id => if decide (id = d) then CpuWaits else ts_cpu h id) d (ts_busy h) (ts_ram h)
  else if Z.land v 0xf00 =? STARTUP then
    ToySmp (fun id => if decide (id = d /\ ts_cpu h id = CpuWaits) then CpuStarts (Z.land v 0xff) else ts_cpu h id) d (ts_busy h) (ts_ram h)
  else h.

#[local] Instance toy_smp_machine : Machine toy_smp := {
  io_in w p h := (0, h);
  io_out w p v h := h;
  mm_load w a h :=
    if a =? toy_started 0 then toy_look 0 h
    else if a =? toy_started 1 then toy_look 1 h
    else if a =? toy_started 2 then toy_look 2 h
    else (0, h);
  mm_store w a v h :=
    if a =? lapic + 4 * ICRHI then ToySmp (ts_cpu h) (Z.shiftr v 24) (ts_busy h) (ts_ram h)
    else if a =? lapic + 4 * ICRLO then toy_ipi v h
    else h;
  ram_get a n h := fget (ts_ram h) a n;
  ram_put b l h := ToySmp (ts_cpu h) (ts_dest h) (ts_busy h) (fput b l (ts_ram h))
}.

#[local] Instance toy_smp_ram : RamLaws toy_smp.
Proof.
  constructor; cbn [ram_get ram_put toy_smp_machine ts_ram].
  - intros a n h. apply fget_len.
  - intros a n h. apply fget_bytes.
  - intros a n b l h. apply fget_fput.
  - intros a n i m h. apply fget_slice.
Qed.

(** Fields of the start interrupt. *)
Lemma sipi_fields page : 0 <= page < 256 -> (Z.lor STARTUP page =? Z.lor (Z.lor INIT LEVEL) ASSERT) = false /\ Z.land (Z.lor STARTUP page) 0xf00 = STARTUP /\ Z.land (Z.lor STARTUP page) 0xff = page.
Proof.
  intros Hp. assert (Hall : forallb (fun p => negb (Z.lor STARTUP p =? Z.lor (Z.lor INIT LEVEL) ASSERT) && (Z.land (Z.lor STARTUP p) 0xf00 =? STARTUP) && (Z.land (Z.lor STARTUP p) 0xff =? p)) (seqZ 0 256) = true) by (by vm_compute).
  rewrite forallb_forall in Hall. specialize (Hall page). rewrite !andb_true_iff, negb_true_iff, !Z.eqb_eq in Hall. destruct Hall as [[? ?] ?]; [|done]. apply list_elem_of_In, elem_of_seqZ. lia.
Qed.

#[local, refine] Instance toy_processors (img : list Z) : Processors toy_smp img toy_started toy_cpus := {
  cpu_of := ts_cpu;
  ipi_dest := ts_dest;
  boot_id := 0;
  ap_left h := if ts_busy h then 1%nat else 0%nat;
  ap_max := 1%nat
}.
Proof.
  - intros h. destruct (ts_busy h); lia.
  - intros h. by exists 0, h.
  - done.
  - done.
  - done.
  - intros h. done.
  - intros h. done.
  - intros page h Hp. destruct (sipi_fields page Hp) as (F1 & F2 & F3).
    change (mm_store 4 (lapic + 4 * ICRLO) (Z.lor STARTUP page) h) with (toy_ipi (Z.lor STARTUP page) h). unfold toy_ipi. rewrite F1, F2, F3, Z.eqb_refl. done.
  - intros i id h Hi Hs Hm. assert (Hl : mm_load 4 (toy_started i) h = toy_look id h).
    { assert (Hr := zget_Some _ _ _ Hi). change (zlen toy_cpus) with 3 in Hr. assert (Hc : i = 0 \/ i = 1 \/ i = 2) by lia. destruct Hc as [-> |[-> | ->]]; by injection Hi as <-. }
    rewrite Hl. unfold toy_look. rewrite Hs. destruct (ts_busy h) eqn:Eb.
    + eexists _, _. split; [done|]. split; [done|]. left. split; [done|]. split; [done|]. cbn. lia.
    + eexists _, _. split; [done|]. split; [done|]. right. split; [done|]. intros id'. done.
Defined.

#[local] Existing Instances list_allocator list_allocator_laws.

Definition ex_smp : driver (list Z) unit toy_smp :=
  Driver [KERNBASE + 0x400000; KERNBASE + 0x401000; KERNBASE + 0x402000] tt (ToySmp (fun _ => CpuReset) 0 true (fun _ => 0)).

(** Two more processors, on the first two pages. *)
Lemma startothers_starts_all_witness :
  exists s' a b, startothers [0xfa; 0xf4] 0x80101234 0x8010a000 toy_started 1 toy_cpus ex_smp = Ret (tt, s') /\ a <> b /\
    ts_cpu (dhw s') 1 = CpuRuns (u32 (a + 4096)) 0x80101234 0x10a000 /\ ts_cpu (dhw s') 2 = CpuRuns (u32 (b + 4096)) 0x80101234 0x10a000.
Proof.
  destruct (startothers_starts_all (A := list Z) (H := toy_smp) [0xfa; 0xf4] toy_started toy_cpus 0x80101234 0x8010a000 1) with (s := ex_smp) (held := ∅ : gset Z) (n := 3) as (s' & stacks & E & Hd & _ & Hr).
  - apply (le_n 1).
  - split; [by repeat constructor|done].
  - done.
  - by apply (bool_decide_unpack _).
  - by repeat constructor.
  - apply (bool_decide_unpack _). done.
  - split; [by apply (bool_decide_unpack _)|]. split; [by repeat constructor|]. split; [apply set_Forall_empty|]. by split; [set_solver|].
  - done.
  - destruct stacks as [|a [|b [|]]]; [by apply Forall2_length in Hr|by apply Forall2_length in Hr| |by apply Forall2_length in Hr].
    exists s', a, b. split; [exact E|]. apply NoDup_cons in Hd as [Hab _]. split; [intros ->; apply Hab; by left|].
    change (filter (fun id => id <> boot_id) toy_cpus) with [1; 2] in Hr. apply Forall2_cons in Hr as [R1 Hr]. apply Forall2_cons in Hr as [R2 _]. exact (conj R1 R2).
Defined.

(** A table with one processor and an interrupt controller. *)
Definition ex_mp : list Z := MP_SIGNATURE ++ [0; 0x10; 0x0F; 0; 1; 4; 129; 0; 0; 0; 0; 0].
Definition ex_mphead : list Z := MPCONF_SIGNATURE ++ [72; 0; 4; 125] ++ repeat 0 36.
Definition ex_mpentries : list mp_entry := [MpCpu 5 (repeat 0 18); MpIoapic (repeat 0 7)].
Definition ex_rom : toy_smp :=
  ToySmp (fun _ => CpuReset) 0 true (fput 0x800F0000 ex_mp (fput 0x800F1000 (ex_mphead ++ encode_entries ex_mpentries) (fun _ => 0))).

Lemma mpinit_finds_cpus_witness : exists h', mpinit 2 ex_rom = Ret ([5], h').
Proof.
  destruct (mpinit_finds_cpus ex_rom 0x800F0000 0x800F1000 ex_mphead ex_mpentries 2) as (h' & E & _); [|done|by exists h'].
  constructor.
  - exists 0%nat. split; [lia|]. split; [done|]. intros j Hj. lia.
  - by vm_compute.
  - by vm_compute.
  - by vm_compute.
  - split; [done|]. split; [done|]. by right.
  - done.
  - by repeat constructor.
Defined.
