(* ===== verification/Ring.v ===== *)
(** Ring buffers.

    The kernel has four of them, written out in place each time: the mouse and
    keyboard queues (hid.c), the two directions of a pseudo terminal (pty.c) and
    the message queue of a process (sysproc.c).  All use two indices and take
    equal indices to mean empty, and none checks for room.  This file has the
    index arithmetic they share and what it means for such a buffer to hold a
    list, with the lemmas for storing behind the last element, for taking the
    first, and for the store that fills the last place. *)

From stdpp Require Import base list.
From Stdlib Require Import ZArith Lia.
From S2P Require Import Prelude.

Local Open Scope Z_scope.

(** [i++; if (i == cap) i = 0;] *)
Definition advance (cap i : Z) : Z := if i + 1 =? cap then 0 else i + 1.

Lemma advance_mod cap i : 0 <= i < cap -> advance cap i = (i + 1) mod cap.
Proof.
  intros Hi. unfold advance. destruct (Z.eqb_spec (i + 1) cap) as [->|Hne]; [by rewrite Z.mod_same by lia|].
  rewrite Z.mod_small; lia.
Qed.

Lemma advance_range cap i : 0 <= i < cap -> 0 <= advance cap i < cap.
Proof. intros Hi. unfold advance. destruct (Z.eqb_spec (i + 1) cap); lia. Qed.

Section ring.
Context {T : Type}.

(** [buf], with next free place [b] and first element at [e], holds [l]. *)
Record ring_holds (cap b e : Z) (buf l : list T) : Prop := {
  ring_begin : 0 <= b < cap;
  ring_end : 0 <= e < cap;
  ring_buf : zlen buf = cap;
  ring_size : zlen l < cap;
  ring_diff : b = (e + zlen l) mod cap;
  ring_get i x : zget l i = Some x -> zget buf ((e + i) mod cap) = Some x
}.

Lemma zlen_nil : zlen (@nil T) = 0.
Proof. done. Qed.

Lemma ring_empty cap b buf : 0 <= b < cap -> zlen buf = cap -> ring_holds cap b b buf [].
Proof.
  intros Hb Hl. constructor; [done|done|done|rewrite zlen_nil; lia| |].
  - rewrite zlen_nil, Z.add_0_r, Z.mod_small; lia.
  - intros i x Hi. apply zget_Some in Hi. rewrite zlen_nil in Hi. lia.
Qed.

(** Equal indices mean empty. *)
Lemma ring_empty_iff cap b e buf l : ring_holds cap b e buf l -> b = e <-> l = [].
Proof.
  intros [Hb He Hl Hs Hd Hg]. split; [|intros ->; rewrite zlen_nil, Z.add_0_r, Z.mod_small in Hd; lia].
  intros ->. destruct l as [|x l]; [done|exfalso]. unfold zlen in *. cbn [length] in *.
  set (n := Z.of_nat (S (length l))) in *. assert (1 <= n) by lia.
  destruct (Z.lt_ge_cases (e + n) cap); [rewrite Z.mod_small in Hd; lia|].
  replace (e + n) with (e + n - cap + 1 * cap) in Hd by lia. rewrite Z.mod_add, Z.mod_small in Hd; lia.
Qed.

Lemma ring_index cap e i : 0 <= e < cap -> 0 <= i < cap ->
  (e + i) mod cap = if e + i <? cap then e + i else e + i - cap.
Proof.
  intros He Hi. destruct (Z.ltb_spec (e + i) cap); [apply Z.mod_small; lia|].
  replace (e + i) with (e + i - cap + 1 * cap) by lia. rewrite Z.mod_add by lia. rewrite Z.mod_small; lia.
Qed.

Lemma zget_app_cases (l : list T) x i y : zget (l ++ [x]) i = Some y ->
  (i = zlen l /\ y = x) \/ zget l i = Some y.
Proof.
  intros [Hi Hl]%zget_lookup. apply lookup_app_Some in Hl as [Hl|[Hle Hl]]; [right; by apply zget_lookup|].
  left. apply list_lookup_singleton_Some in Hl as [E ->]. unfold zlen. split; [lia|done].
Qed.

(** Storing an element while there is room. *)
Lemma ring_push cap b e buf l x : ring_holds cap b e buf l -> zlen l + 1 < cap ->
  ring_holds cap (advance cap b) e (<[Z.to_nat b := x]> buf) (l ++ [x]).
Proof.
  intros [Hb He Hl Hs Hd Hg] Hroom. assert (0 <= zlen l) by (unfold zlen; lia). constructor.
  - by apply advance_range.
  - done.
  - unfold zlen in *. by rewrite length_insert.
  - rewrite zlen_app. change (zlen [x]) with 1. lia.
  - rewrite advance_mod by done. rewrite Hd, zlen_app, Zplus_mod_idemp_l. f_equal. change (zlen [x]) with 1. lia.
  - intros i y [[-> ->]|Hi]%zget_app_cases.
    + rewrite <- Hd. apply zget_insert_eq. lia.
    + apply zget_lookup. rewrite list_lookup_insert_ne; [apply zget_lookup; by apply Hg|].
      apply zget_Some in Hi. rewrite Hd, !ring_index by lia.
      destruct (Z.ltb_spec (e + zlen l) cap), (Z.ltb_spec (e + i) cap); lia.
Qed.

(** Storing the element that takes the last place empties the buffer. *)
Lemma ring_overflow cap b e buf l x : ring_holds cap b e buf l -> zlen l + 1 = cap ->
  advance cap b = e /\ ring_holds cap (advance cap b) e (<[Z.to_nat b := x]> buf) [].
Proof.
  intros [Hb He Hl Hs Hd Hg] Hfull.
  assert (E : advance cap b = e).
  { rewrite advance_mod by done. rewrite Hd, Zplus_mod_idemp_l. replace (e + zlen l + 1) with (e + 1 * cap) by lia.
    rewrite Z.mod_add, Z.mod_small; lia. }
  split; [done|]. rewrite E. apply ring_empty; [done|]. unfold zlen in *. by rewrite length_insert.
Qed.

(** Taking the first element. *)
Lemma ring_pop cap b e buf x l : ring_holds cap b e buf (x :: l) ->
  zget buf e = Some x /\ ring_holds cap b (advance cap e) buf l.
Proof.
  intros [Hb He Hl Hs Hd Hg]. split.
  - specialize (Hg 0 x eq_refl). by rewrite Z.add_0_r, Z.mod_small in Hg by lia.
  - assert (Hz : zlen (x :: l) = zlen l + 1) by (unfold zlen; cbn [length]; lia). constructor.
    + done.
    + by apply advance_range.
    + done.
    + lia.
    + rewrite Hd, advance_mod, Zplus_mod_idemp_l by done. f_equal. lia.
    + intros i y Hi. rewrite advance_mod, Zplus_mod_idemp_l by done. pose proof (zget_Some _ _ _ Hi).
      replace (e + 1 + i) with (e + (i + 1)) by lia. apply Hg. apply zget_lookup in Hi as [? Hi].
      apply zget_lookup. split; [lia|]. by replace (Z.to_nat (i + 1)) with (S (Z.to_nat i)) by lia.
Qed.

End ring.
