(* ===== verification/Proc.v ===== *)
(** kernel/core/proc.c: processes.

    The process table is a list of [NPROC] records, a process pointer is an
    index into it ([-1] is the null pointer), and every function of proc.c is a
    function on the kernel state that holds the table, the page tables (Vm.v)
    and the filesystem (Vfs.v).  The functions that give up the CPU are cut at
    the call of [sched]: what they do before it is one step, and [scheduler]
    picking a process is another, so that the interleavings of processes are
    the sequences of steps of [pstep], or of [tstep], which has [kill] as well.

    The theorems: process ids are unique; a parent asleep in [wait] never has
    an exited child that it misses, except through [kill]; what [kill] of
    process 0 does to the table. *)

From stdpp Require Import base list gmap strings relations.
From Stdlib Require Import ZArith Lia.
From S2P Require Import Prelude Mmu KString VfsPath Vfs Vm.

Local Open Scope Z_scope.
Local Open Scope outcome_scope.

(** ** Data (proc.h, param.h, x86.h) *)

Definition NPROC : Z := 64.
Definition KSTACKSIZE : Z := 4096.
Definition PROC_FILE_MAX : nat := 8.
Definition MESSAGE_MAX : Z := 64.

Inductive procstate := UNUSED | EMBRYO | SLEEPING | RUNNABLE | RUNNING | ZOMBIE.

#[export] Instance procstate_eq_dec : EqDecision procstate.
Proof. solve_decision. Defined.

Record trapframe := Trapframe {
  tf_edi : Z; tf_esi : Z; tf_ebp : Z; tf_oesp : Z; tf_ebx : Z; tf_edx : Z; tf_ecx : Z; tf_eax : Z;
  tf_gs : Z; tf_fs : Z; tf_es : Z; tf_ds : Z; tf_trapno : Z;
  tf_err : Z; tf_eip : Z; tf_cs : Z; tf_eflags : Z;
  tf_esp : Z; tf_ss : Z
}.

Definition zero_tf : trapframe := Trapframe 0 0 0 0 0 0 0 0 0 0 0 0 0 0 0 0 0 0 0.

(** Where a process starts or resumes in the kernel. *)
Inductive kcontext := AtForkret | AtSched.

(** Sleep channels: the address of a process, of its message queue, of the input
    buffer field of a terminal, or another. *)
Inductive channel := ChanNull | ChanProc (i : Z) | ChanQueue (i : Z) | ChanPty (i : Z) | ChanOther (a : Z).

#[export] Instance channel_eq_dec : EqDecision channel.
Proof. solve_decision. Defined.

Record Message := Msg { msg_pid : Z; msg_size : Z; msg_addr : Z }.

Record MessageQueue := Queue { mq_lock : bool; mq_begin : Z; mq_end : Z; mq_queue : list Message }.

Record proc := Proc {
  p_sz : Z; p_stack_size : Z; p_heap_size : Z; p_pgdir : Z; p_kstack : Z;
  p_state : procstate; p_pid : Z; p_parent : Z; p_tf : trapframe; p_context : kcontext;
  p_chan : channel; p_killed : Z; p_name : list Z; p_files : list FileDesc;
  p_cwd_parts : Z; p_cwd_buf : Z;
  p_dyn_base : Z; p_msgqueue : MessageQueue; p_pty : Z; p_exit_status : Z
}.

(** *** Field updates *)

Definition set_state (p : proc) (st : procstate) : proc :=
  Proc (p_sz p) (p_stack_size p) (p_heap_size p) (p_pgdir p) (p_kstack p) st (p_pid p) (p_parent p) (p_tf p) (p_context p)
    (p_chan p) (p_killed p) (p_name p) (p_files p) (p_cwd_parts p) (p_cwd_buf p) (p_dyn_base p) (p_msgqueue p) (p_pty p) (p_exit_status p).
Definition set_parent (p : proc) (par : Z) : proc :=
  Proc (p_sz p) (p_stack_size p) (p_heap_size p) (p_pgdir p) (p_kstack p) (p_state p) (p_pid p) par (p_tf p) (p_context p)
    (p_chan p) (p_killed p) (p_name p) (p_files p) (p_cwd_parts p) (p_cwd_buf p) (p_dyn_base p) (p_msgqueue p) (p_pty p) (p_exit_status p).
Definition set_chan (p : proc) (c : channel) (st : procstate) : proc :=
  Proc (p_sz p) (p_stack_size p) (p_heap_size p) (p_pgdir p) (p_kstack p) st (p_pid p) (p_parent p) (p_tf p) (p_context p)
    c (p_killed p) (p_name p) (p_files p) (p_cwd_parts p) (p_cwd_buf p) (p_dyn_base p) (p_msgqueue p) (p_pty p) (p_exit_status p).
Definition set_killed (p : proc) (k : Z) (st : procstate) : proc :=
  Proc (p_sz p) (p_stack_size p) (p_heap_size p) (p_pgdir p) (p_kstack p) st (p_pid p) (p_parent p) (p_tf p) (p_context p)
    (p_chan p) k (p_name p) (p_files p) (p_cwd_parts p) (p_cwd_buf p) (p_dyn_base p) (p_msgqueue p) (p_pty p) (p_exit_status p).
Definition set_pgdir (p : proc) (d : Z) : proc :=
  Proc (p_sz p) (p_stack_size p) (p_heap_size p) d (p_kstack p) (p_state p) (p_pid p) (p_parent p) (p_tf p) (p_context p)
    (p_chan p) (p_killed p) (p_name p) (p_files p) (p_cwd_parts p) (p_cwd_buf p) (p_dyn_base p) (p_msgqueue p) (p_pty p) (p_exit_status p).
Definition set_kstack (p : proc) (s : Z) (st : procstate) : proc :=
  Proc (p_sz p) (p_stack_size p) (p_heap_size p) (p_pgdir p) s st (p_pid p) (p_parent p) (p_tf p) (p_context p)
    (p_chan p) (p_killed p) (p_name p) (p_files p) (p_cwd_parts p) (p_cwd_buf p) (p_dyn_base p) (p_msgqueue p) (p_pty p) (p_exit_status p).
Definition set_heap (p : proc) (h : Z) : proc :=
  Proc (p_sz p) (p_stack_size p) h (p_pgdir p) (p_kstack p) (p_state p) (p_pid p) (p_parent p) (p_tf p) (p_context p)
    (p_chan p) (p_killed p) (p_name p) (p_files p) (p_cwd_parts p) (p_cwd_buf p) (p_dyn_base p) (p_msgqueue p) (p_pty p) (p_exit_status p).
Definition set_files (p : proc) (fs : list FileDesc) (status : Z) : proc :=
  Proc (p_sz p) (p_stack_size p) (p_heap_size p) (p_pgdir p) (p_kstack p) (p_state p) (p_pid p) (p_parent p) (p_tf p) (p_context p)
    (p_chan p) (p_killed p) (p_name p) fs (p_cwd_parts p) (p_cwd_buf p) (p_dyn_base p) (p_msgqueue p) (p_pty p) status.
Definition set_queue (p : proc) (q : MessageQueue) : proc :=
  Proc (p_sz p) (p_stack_size p) (p_heap_size p) (p_pgdir p) (p_kstack p) (p_state p) (p_pid p) (p_parent p) (p_tf p) (p_context p)
    (p_chan p) (p_killed p) (p_name p) (p_files p) (p_cwd_parts p) (p_cwd_buf p) (p_dyn_base p) q (p_pty p) (p_exit_status p).

(** ** Kernel state *)

Record kernel (A P S : Type) := Kernel {
  procs : list proc;
  ptable_lock : bool;
  initproc : Z;
  nextpid : Z;
  kvm : vm A;
  kfs : vfs P S
}.
Arguments Kernel {A P S}.
Arguments procs {A P S}.
Arguments ptable_lock {A P S}.
Arguments initproc {A P S}.
Arguments nextpid {A P S}.
Arguments kvm {A P S}.
Arguments kfs {A P S}.

Section operations.
Context {A P S : Type} `{PageAllocator A} `{FilesystemDriver P S}.
(** Contents of a page just allocated, start of the kernel's data section, and
    the embedded image of the first process. *)
Variable junk : list Z.
Variable data : Z.
Variable initcode : list Z.

Local Notation state := (kernel A P S).

Definition with_procs (k : state) (ps : list proc) : state :=
  Kernel ps (ptable_lock k) (initproc k) (nextpid k) (kvm k) (kfs k).
Definition with_vm (k : state) (v : vm A) : state :=
  Kernel (procs k) (ptable_lock k) (initproc k) (nextpid k) v (kfs k).
Definition with_lock (k : state) (l : bool) : state :=
  Kernel (procs k) l (initproc k) (nextpid k) (kvm k) (kfs k).

Definition acquire_ptable (k : state) : outcome state :=
  l <- acquire_b (ptable_lock k) ;; Ret (with_lock k l).
Definition release_ptable (k : state) : outcome state :=
  l <- release_b (ptable_lock k) ;; Ret (with_lock k l).

Definition get_proc (k : state) (i : Z) : outcome proc := of_option (zget (procs k) i).
Definition put_proc (k : state) (i : Z) (p : proc) : outcome state :=
  ps <- of_option (zset (procs k) i p) ;; Ret (with_procs k ps).

(** Changing one process in place. *)
Definition update (k : state) (i : Z) (f : proc -> proc) : outcome state :=
  p <- get_proc k i ;; put_proc k i (f p).

Definition k_kalloc (k : state) : outcome (Z * state) :=
  '(p, v) <- vm_kalloc junk (kvm k) ;; Ret (p, with_vm k v).
Definition k_kfree (a : Z) (k : state) : outcome state :=
  v <- vm_kfree a (kvm k) ;; Ret (with_vm k v).

Definition pinit (k : state) : state := with_lock k false.

(** *** Freeing and allocating a process *)

Definition cleared (p : proc) : proc :=
  Proc (p_sz p) (p_stack_size p) (p_heap_size p) (p_pgdir p) 0 UNUSED 0 (-1) (p_tf p) (p_context p)
    (p_chan p) 0 (<[0%nat := 0]> (p_name p)) (p_files p) (p_cwd_parts p) (p_cwd_buf p)
    (p_dyn_base p) (p_msgqueue p) (p_pty p) (p_exit_status p).

Definition proc_free (i : Z) (k : state) : outcome state :=
  p <- get_proc k i ;;
  k1 <- k_kfree (p_kstack p) k ;;
  v <- freevm junk (p_pgdir p) (kvm k1) ;;
  k2 <- k_kfree (p_cwd_buf p) (with_vm k1 v) ;;
  put_proc k2 i (cleared p).

(** The first slot that satisfies a test. *)
Fixpoint find_proc (test : proc -> bool) (i : Z) (ps : list proc) : option (Z * proc) :=
  match ps with
  | [] => None
  | p :: ps' => if test p then Some (i, p) else find_proc test (i + 1) ps'
  end.

Definition is_state (st : procstate) (p : proc) : bool := bool_decide (p_state p = st).

(** The fields [allocproc] sets after the kernel stack is there. *)
Definition fresh_proc (p : proc) (kstack : Z) : proc :=
  Proc (p_sz p) (p_stack_size p) (p_heap_size p) (p_pgdir p) kstack (p_state p) (p_pid p) (p_parent p) (p_tf p) AtForkret
    (p_chan p) (p_killed p) (p_name p) (repeat zero_fd PROC_FILE_MAX) (p_cwd_parts p) (p_cwd_buf p)
    PROC_DYNAMIC_BOTTOM (Queue false 0 0 (mq_queue (p_msgqueue p))) 0 (p_exit_status p).

(** [-1] when the table is full. *)
Definition allocproc (k : state) : outcome (Z * state) :=
  k1 <- acquire_ptable k ;;
  match find_proc (is_state UNUSED) 0 (procs k1) with
  | None => k2 <- release_ptable k1 ;; Ret (-1, k2)
  | Some (i, p) =>
    let p1 := Proc (p_sz p) (p_stack_size p) (p_heap_size p) (p_pgdir p) (p_kstack p) EMBRYO (nextpid k1) (p_parent p)
                (p_tf p) (p_context p) (p_chan p) (p_killed p) (p_name p) (p_files p) (p_cwd_parts p) (p_cwd_buf p)
                (p_dyn_base p) (p_msgqueue p) (p_pty p) (p_exit_status p) in
    k2 <- put_proc k1 i p1 ;;
    let k3 := Kernel (procs k2) (ptable_lock k2) (initproc k2) (s32 (nextpid k2 + 1)) (kvm k2) (kfs k2) in
    k4 <- release_ptable k3 ;;
    '(stack, k5) <- k_kalloc k4 ;;
    if stack =? 0 then k6 <- update k5 i (fun p => set_state p UNUSED) ;; Ret (-1, k6) else
    k6 <- update k5 i (fun p => fresh_proc p stack) ;;
    Ret (i, k6)
  end.

(** Its two parts: taking a slot and an id, with the lock held; and the kernel
    stack, after the lock is released. *)
Definition alloc_slot (k : state) : outcome (Z * state) :=
  k1 <- acquire_ptable k ;;
  match find_proc (is_state UNUSED) 0 (procs k1) with
  | None => k2 <- release_ptable k1 ;; Ret (-1, k2)
  | Some (i, p) =>
    let p1 := Proc (p_sz p) (p_stack_size p) (p_heap_size p) (p_pgdir p) (p_kstack p) EMBRYO (nextpid k1) (p_parent p)
                (p_tf p) (p_context p) (p_chan p) (p_killed p) (p_name p) (p_files p) (p_cwd_parts p) (p_cwd_buf p)
                (p_dyn_base p) (p_msgqueue p) (p_pty p) (p_exit_status p) in
    k2 <- put_proc k1 i p1 ;;
    k4 <- release_ptable (Kernel (procs k2) (ptable_lock k2) (initproc k2) (s32 (nextpid k2 + 1)) (kvm k2) (kfs k2)) ;;
    Ret (i, k4)
  end.

Definition alloc_stack (i : Z) (k : state) : outcome (Z * state) :=
  '(stack, k5) <- k_kalloc k ;;
  if stack =? 0 then k6 <- update k5 i (fun p => set_state p UNUSED) ;; Ret (-1, k6) else
  k6 <- update k5 i (fun p => fresh_proc p stack) ;;
  Ret (i, k6).

(** *** The first process *)

Definition FL_IF : Z := 0x200.
Definition user_tf : trapframe :=
  let cs := Z.lor (Z.shiftl 3 3) 3 in
  let ds := Z.lor (Z.shiftl 4 3) 3 in
  Trapframe 0 0 0 0 0 0 0 0 0 0 ds ds 0 0 0 cs FL_IF PGSIZE ds.

(** ["initcode"] with its terminator. *)
Definition initcode_name : list Z := [105; 110; 105; 116; 99; 111; 100; 101; 0].

(** The fields of the first process; its name is padded by what was there. *)
Definition init_proc (p : proc) (pgdir buf : Z) (name : list Z) : proc :=
  Proc PGSIZE (p_stack_size p) (p_heap_size p) pgdir (p_kstack p) RUNNABLE (p_pid p) (p_parent p) user_tf (p_context p)
    (p_chan p) (p_killed p) (splice 0 name (p_name p)) (p_files p) 0 buf
    (p_dyn_base p) (p_msgqueue p) (p_pty p) (p_exit_status p).

Definition userinit (k : state) : outcome state :=
  '(i, k1) <- allocproc k ;;
  let k2 := Kernel (procs k1) (ptable_lock k1) i (nextpid k1) (kvm k1) (kfs k1) in
  '(pgdir, v) <- setupkvm junk data (kvm k2) ;;
  if pgdir =? 0 then Panic "userinit: out of memory?" else
  v1 <- inituvm junk pgdir initcode (zlen initcode) v ;;
  name <- of_option (safestrcpy initcode_name 16) ;;
  '(buf, k3) <- k_kalloc (with_vm k2 v1) ;;
  k4 <- acquire_ptable k3 ;;
  k5 <- update k4 i (fun p => init_proc p pgdir buf name) ;;
  release_ptable k5.

Definition growproc (cur n : Z) (k : state) : outcome (Z * state) :=
  p <- get_proc k cur ;;
  let top := u32 (PROC_HEAP_BOTTOM + p_heap_size p) in
  let finish v :=
    k1 <- put_proc (with_vm k v) cur (set_heap p (u32 (p_heap_size p + n))) ;;
    v' <- switchuvm (p_kstack p) (p_pgdir p) (kvm k1) ;;
    Ret (0, with_vm k1 v') in
  if 0 <? n then
    '(r, v) <- allocuvm junk (p_pgdir p) top (u32 (top + n)) (Z.lor PTE_W PTE_U) (kvm k) ;;
    if s32 r =? 0 then Ret (-1, with_vm k v) else finish v
  else if n <? 0 then
    '(r, v) <- deallocuvm junk (p_pgdir p) top (u32 (top + n)) (kvm k) ;;
    if s32 r =? 0 then Ret (-1, with_vm k v) else finish v
  else finish (kvm k).

(** *** fork *)

(** Giving a half-made child back. *)
Definition fork_undo (np pgdir : Z) (k : state) : outcome (Z * state) :=
  v <- freevm junk pgdir (kvm k) ;;
  p <- get_proc k np ;;
  k1 <- k_kfree (p_kstack p) (with_vm k v) ;;
  k2 <- update k1 np (fun p => set_kstack p 0 UNUSED) ;;
  Ret (-1, k2).

(** The ranges of the parent's memory that are copied: image, libraries, stack, heap. *)
Definition fork_ranges (cur : proc) : list (Z * Z) :=
  [(0, p_sz cur);
   (PROC_DYNAMIC_BOTTOM, p_dyn_base cur);
   (u32 (PROC_STACK_BOTTOM - p_stack_size cur), PROC_STACK_BOTTOM);
   (PROC_HEAP_BOTTOM, u32 (PROC_HEAP_BOTTOM + p_heap_size cur))].

Fixpoint fork_copy (np pgdir oldpgdir : Z) (rs : list (Z * Z)) (k : state) : outcome (bool * state) :=
  match rs with
  | [] => Ret (true, k)
  | (b, e) :: rs' =>
    '(r, v) <- copyuvm junk pgdir oldpgdir b e (kvm k) ;;
    if r =? 0 then '(_, k1) <- fork_undo np pgdir (with_vm k v) ;; Ret (false, k1)
    else fork_copy np pgdir oldpgdir rs' (with_vm k v)
  end.

Definition clear_eax (tf : trapframe) : trapframe :=
  Trapframe (tf_edi tf) (tf_esi tf) (tf_ebp tf) (tf_oesp tf) (tf_ebx tf) (tf_edx tf) (tf_ecx tf) 0
    (tf_gs tf) (tf_fs tf) (tf_es tf) (tf_ds tf) (tf_trapno tf) (tf_err tf) (tf_eip tf) (tf_cs tf) (tf_eflags tf) (tf_esp tf) (tf_ss tf).

(** The child after its memory is copied: [cur] is the parent's index. *)
Definition child_of (cur : Z) (parent child : proc) (pgdir buf : Z) (name : list Z) : proc :=
  Proc (p_sz parent) (p_stack_size parent) (p_heap_size parent) pgdir (p_kstack child) RUNNABLE (p_pid child) cur
    (clear_eax (p_tf parent)) (p_context child) (p_chan child) (p_killed child) (splice 0 name (p_name child))
    (p_files child) (p_cwd_parts parent) buf (p_dyn_base parent) (p_msgqueue child) (p_pty parent) (p_exit_status child).

(** [memmove] between two frames. *)
Definition copy_bytes (f : gmap Z (list Z)) (dst src n : Z) : outcome (gmap Z (list Z)) :=
  page <- of_option (f !! src) ;;
  bs <- copy_from page 0 n ;;
  write_frame f dst 0 bs.

Definition fork (cur : Z) (k : state) : outcome (Z * state) :=
  parent <- get_proc k cur ;;
  '(np, k1) <- allocproc k ;;
  if np <? 0 then Ret (-1, k1) else
  '(pgdir, v) <- setupkvm junk data (kvm k1) ;;
  k2 <- update (with_vm k1 v) np (fun p => set_pgdir p pgdir) ;;
  if pgdir =? 0 then Ret (-1, k2) else
  '(ok, k3) <- fork_copy np pgdir (p_pgdir parent) (fork_ranges parent) k2 ;;
  if negb ok then Ret (-1, k3) else
  name <- of_option (safestrcpy (p_name parent) 16) ;;
  '(buf, k4) <- k_kalloc k3 ;;
  f <- copy_bytes (frames (kvm k4)) buf (p_cwd_buf parent) (p_cwd_parts parent * 128) ;;
  let k5 := with_vm k4 (with_frames (kvm k4) f) in
  child <- get_proc k5 np ;;
  k6 <- acquire_ptable k5 ;;
  k7 <- put_proc k6 np (child_of cur parent child pgdir buf name) ;;
  k8 <- release_ptable k7 ;;
  Ret (p_pid child, k8).

(** What follows once the child has its slot, by the parent in slot [cur]. *)
Definition fork_rest (cur : Z) (parent : proc) (np : Z) (k1 : state) : outcome (Z * state) :=
  '(pgdir, v) <- setupkvm junk data (kvm k1) ;;
  k2 <- update (with_vm k1 v) np (fun p => set_pgdir p pgdir) ;;
  if pgdir =? 0 then Ret (-1, k2) else
  '(ok, k3) <- fork_copy np pgdir (p_pgdir parent) (fork_ranges parent) k2 ;;
  if negb ok then Ret (-1, k3) else
  name <- of_option (safestrcpy (p_name parent) 16) ;;
  '(buf, k4) <- k_kalloc k3 ;;
  f <- copy_bytes (frames (kvm k4)) buf (p_cwd_buf parent) (p_cwd_parts parent * 128) ;;
  let k5 := with_vm k4 (with_frames (kvm k4) f) in
  child <- get_proc k5 np ;;
  k6 <- acquire_ptable k5 ;;
  k7 <- put_proc k6 np (child_of cur parent child pgdir buf name) ;;
  k8 <- release_ptable k7 ;;
  Ret (p_pid child, k8).

(** *** Sleeping and waking *)

Definition wakeup1 (c : channel) (ps : list proc) : list proc :=
  map (fun p => if is_state SLEEPING p && bool_decide (p_chan p = c) then set_state p RUNNABLE else p) ps.

Definition wakeup (c : channel) (k : state) : outcome state :=
  k1 <- acquire_ptable k ;;
  release_ptable (with_procs k1 (wakeup1 c (procs k1))).

(** The checks of [sched], with the table lock the only one held ([ncli] is its
    nesting depth) and interrupts off. *)
Definition sched (cur ncli : Z) (intr : bool) (k : state) : outcome unit :=
  p <- get_proc k cur ;;
  if negb (ptable_lock k) then Panic "sched ptable.lock" else
  if negb (ncli =? 1) then Panic "sched locks" else
  if is_state RUNNING p then Panic "sched running" else
  if intr then Panic "sched interruptible" else Ret tt.

(** [sleep] up to the call of [sched]; the caller holds its lock [lk], given as
    [None] when it is the table's. *)
Definition sleep (cur : Z) (c : channel) (lk : option bool) (k : state) : outcome (option bool * state) :=
  if cur <? 0 then Panic "sleep" else
  '(lk', k1) <- match lk with
                | None => Ret (None, k)
                | Some l => k1 <- acquire_ptable k ;; l' <- release_b l ;; Ret (Some l', k1)
                end ;;
  k2 <- update k1 cur (fun p => set_chan p c SLEEPING) ;;
  _ <- sched cur 1 false k2 ;;
  Ret (lk', k2).

(** What [sleep] does when the process runs again, with the table lock held. *)
Definition sleep_resume (cur : Z) (lk : option bool) (k : state) : outcome (option bool * state) :=
  p <- get_proc k cur ;;
  k1 <- put_proc k cur (set_chan p ChanNull (p_state p)) ;;
  match lk with
  | None => Ret (None, k1)
  | Some l => k2 <- release_ptable k1 ;; l' <- acquire_b l ;; Ret (Some l', k2)
  end.

Definition yield (cur : Z) (k : state) : outcome state :=
  k1 <- acquire_ptable k ;;
  k2 <- update k1 cur (fun p => set_state p RUNNABLE) ;;
  _ <- sched cur 1 false k2 ;;
  Ret k2.

Definition forkret (k : state) : outcome state := release_ptable k.

(** One iteration of the loop of [scheduler] that finds slot [i] runnable. *)
Definition scheduler_pick (i : Z) (k : state) : outcome state :=
  p <- get_proc k i ;;
  if negb (is_state RUNNABLE p) then Ret k else
  v <- switchuvm (p_kstack p) (p_pgdir p) (kvm k) ;;
  put_proc (with_vm k v) i (set_state p RUNNING).

(** *** exit, wait, kill *)

Fixpoint close_files (fs : list FileDesc) (w : vfs P S) : outcome (list FileDesc * vfs P S) :=
  match fs with
  | [] => Ret ([], w)
  | fd :: fs' =>
    '(fd', w1) <- (if negb (fd_used fd) then Ret (fd, w)
                   else if fd_dir fd then Ret (snd (vfs_dir_close fd), w)
                   else '(_, fd', w') <- vfs_fd_close fd w ;; Ret (fd', w')) ;;
    '(fs2, w2) <- close_files fs' w1 ;;
    Ret (fd' :: fs2, w2)
  end.

(** The children of [cur] go to [init], which is woken for each that has exited. *)
Fixpoint reparent (cur init : Z) (n : nat) (i : Z) (ps : list proc) : outcome (list proc) :=
  match n with
  | O => Ret ps
  | Datatypes.S n' =>
    p <- of_option (zget ps i) ;;
    if p_parent p =? cur then
      ps1 <- of_option (zset ps i (set_parent p init)) ;;
      let ps2 := if is_state ZOMBIE p then wakeup1 (ChanProc init) ps1 else ps1 in
      reparent cur init n' (i + 1) ps2
    else reparent cur init n' (i + 1) ps
  end.

(** [exit] up to the call of [sched], which does not come back. *)
Definition exit (cur status : Z) (k : state) : outcome state :=
  if cur =? initproc k then Panic "init exiting" else
  p <- get_proc k cur ;;
  '(fs, w) <- close_files (p_files p) (kfs k) ;;
  k1 <- put_proc (Kernel (procs k) (ptable_lock k) (initproc k) (nextpid k) (kvm k) w) cur (set_files p fs status) ;;
  k2 <- acquire_ptable k1 ;;
  let ps := wakeup1 (ChanProc (p_parent p)) (procs k2) in
  ps' <- reparent cur (initproc k2) (length ps) 0 ps ;;
  k3 <- update (with_procs k2 ps') cur (fun p => set_state p ZOMBIE) ;;
  _ <- sched cur 1 false k3 ;;
  Ret k3.

(** Pages of a message of [size] bytes, in the arithmetic of [int]. *)
Definition msg_pages (size : Z) : Z := u32 (Z.quot (Z.land (s32 (size + PGSIZE - 1)) (Z.lnot (PGSIZE - 1))) 4096).

(** Freeing the pages of the messages of a dead process: the loop of [wait]. *)
Fixpoint drain (fuel : nat) (q : MessageQueue) (msg : Z) (v : vm A) : outcome (vm A) :=
  if msg =? mq_begin q then Ret v else
  match fuel with
  | O => NoFuel
  | Datatypes.S fuel' =>
    let msg := if msg =? MESSAGE_MAX then 0 else msg in
    m <- of_option (zget (mq_queue q) msg) ;;
    v' <- vm_pgfree (msg_addr m) (msg_pages (msg_size m)) v ;;
    drain fuel' q (msg + 1) v'
  end.

Inductive wait_result := Reaped (pid : Z) | NoChild | MustSleep.

(** One pass of [wait] over the table, with the lock taken. *)
Definition wait (fuel : nat) (cur : Z) (k : state) : outcome (wait_result * state) :=
  me <- get_proc k cur ;;
  match find_proc (fun p => (p_parent p =? cur) && is_state ZOMBIE p) 0 (procs k) with
  | Some (i, p) =>
    k1 <- proc_free i k ;;
    _ <- acquire_b (mq_lock (p_msgqueue p)) ;;
    v <- drain fuel (p_msgqueue p) (mq_end (p_msgqueue p)) (kvm k1) ;;
    k2 <- release_ptable (with_vm k1 v) ;;
    Ret (Reaped (p_pid p), k2)
  | None =>
    if negb (existsb (fun p => p_parent p =? cur) (procs k)) || negb (p_killed me =? 0) then
      k1 <- release_ptable k ;; Ret (NoChild, k1)
    else
      '(_, k1) <- sleep cur (ChanProc cur) None k ;; Ret (MustSleep, k1)
  end.

Definition kill (pid : Z) (k : state) : outcome (Z * state) :=
  k1 <- acquire_ptable k ;;
  match find_proc (fun p => p_pid p =? pid) 0 (procs k1) with
  | Some (i, p) =>
    k2 <- put_proc k1 i (set_killed p 1 ZOMBIE) ;;
    k3 <- release_ptable k2 ;; Ret (0, k3)
  | None => k2 <- release_ptable k1 ;; Ret (-1, k2)
  end.

(** [-1] when there is none. *)
Definition proc_search_pid (pid : Z) (k : state) : outcome (Z * state) :=
  k1 <- acquire_ptable k ;;
  let r := match find_proc (fun p => negb (is_state UNUSED p) && (p_pid p =? pid)) 0 (procs k1) with
           | Some (i, _) => i
           | None => -1
           end in
  k2 <- release_ptable k1 ;;
  Ret (r, k2).

(** The lines of [procdump]: pid, state and name of the slots in use. *)
Definition state_name (st : procstate) : string :=
  match st with
  | UNUSED => "unused" | EMBRYO => "embryo" | SLEEPING => "sleep " | RUNNABLE => "runble" | RUNNING => "run   " | ZOMBIE => "zombie"
  end.

Definition procdump (k : state) : list (Z * string * list Z) :=
  flat_map (fun p => if is_state UNUSED p then [] else [(p_pid p, state_name (p_state p), p_name p)]) (procs k).

End operations.

(** ** Interleavings *)

(** Inverting a computation that returned. *)
Ltac ret_inv H :=
  lazymatch type of H with
  | obind ?m _ = Ret _ =>
    let x := fresh "x" in let E := fresh "E" in
    destruct m as [x| | |] eqn:E; cbn [obind] in H; [ret_inv H|discriminate H..]
  | match ?x with _ => _ end = Ret _ => first [is_var x; destruct x; ret_inv H|idtac]
  | Ret _ = Ret _ => injection H; clear H; intros; subst
  | _ => idtac
  end.

Section interleavings.
Context {A P S : Type} `{PageAllocator A} `{FilesystemDriver P S}.
Variable junk : list Z.
Variable data : Z.

Local Notation state := (kernel A P S).

Definition running (k : state) (cur : Z) : Prop := exists p, zget (procs k) cur = Some p /\ p_state p = RUNNING.

(** The steps of the system between releases of the table lock.  The process
    that goes to sleep, yields or exits hands the lock to the scheduler, which
    releases it.  [fork] is a step, and can also be interrupted after each part of
    [allocproc]: it goes on with the slot it has taken, which nobody else
    changes.  [kill] is not among them: it breaks what [wait] relies on
    ([kill_loses_wakeup]); the steps with it are [tstep]. *)
Inductive pstep : state -> state -> Prop :=
| step_fork cur r k k' : running k cur -> nextpid k < 2^31 - 1 -> fork junk data cur k = Ret (r, k') -> pstep k k'
| step_alloc cur r k k' : running k cur -> nextpid k < 2^31 - 1 -> alloc_slot k = Ret (r, k') -> pstep k k'
| step_stack i p r k k' : zget (procs k) i = Some p -> p_state p = EMBRYO -> alloc_stack junk i k = Ret (r, k') -> pstep k k'
| step_fork_rest cur parent np p r k k' : running k cur -> zget (procs k) cur = Some parent -> zget (procs k) np = Some p -> p_state p = EMBRYO ->
    fork_rest junk data cur parent np k = Ret (r, k') -> pstep k k'
| step_exit cur status k k' : running k cur -> exit cur status k = Ret k' -> pstep k (with_lock k' false)
| step_wait fuel cur r k k' : running k cur -> wait junk fuel cur (with_lock k true) = Ret (r, k') -> pstep k (with_lock k' false)
| step_sleep cur c lk k k' : running k cur -> (forall i, c <> ChanProc i) ->
    sleep cur c (Some true) k = Ret (lk, k') -> pstep k (with_lock k' false)
| step_resume cur lk k k' : running k cur -> sleep_resume cur None (with_lock k true) = Ret (lk, k') -> pstep k (with_lock k' false)
| step_yield cur k k' : running k cur -> yield cur k = Ret k' -> pstep k (with_lock k' false)
| step_schedule i k k' : scheduler_pick i (with_lock k true) = Ret k' -> pstep k (with_lock k' false)
| step_wakeup c k k' : wakeup c k = Ret k' -> pstep k k'
| step_grow cur n r k k' : running k cur -> growproc junk cur n k = Ret (r, k') -> pstep k k'.

(** A process is replaced in slot [i]. *)
Definition slot (k k' : state) (i : Z) (p p' : proc) : Prop :=
  zget (procs k) i = Some p /\ procs k' = <[Z.to_nat i := p']> (procs k).

Lemma put_proc_inv (k : state) i p k' : put_proc k i p = Ret k' ->
  0 <= i < zlen (procs k) /\ k' = with_procs k (<[Z.to_nat i := p]> (procs k)).
Proof.
  unfold put_proc. destruct (zset (procs k) i p) as [ps|] eqn:E; cbn [of_option obind]; [|done]. intros [= <-].
  assert (Hr : 0 <= i < zlen (procs k)).
  { unfold zset in E. destruct (Z.ltb_spec i 0), (Z.leb_spec (Z.of_nat (length (procs k))) i); try done; unfold zlen; lia. }
  rewrite zset_Some in E by done. injection E as <-. done.
Qed.

Lemma update_inv (k : state) i f k' : update k i f = Ret k' ->
  exists p, slot k k' i p (f p) /\ k' = with_procs k (procs k').
Proof.
  unfold update, get_proc. destruct (zget (procs k) i) as [p|] eqn:E; cbn [of_option obind]; [|done].
  intros [_ ->]%put_proc_inv. exists p. done.
Qed.

Lemma slot_trans (k1 k2 k3 : state) i p1 p2 p2' p3 : slot k1 k2 i p1 p2 -> slot k2 k3 i p2' p3 -> slot k1 k3 i p1 p3.
Proof. intros [H1 E1] [H2 E2]. split; [done|]. by rewrite E2, E1, list_insert_insert_eq. Qed.

Lemma slot_get (k k' : state) i p p' : slot k k' i p p' -> zget (procs k') i = Some p'.
Proof. intros [H1 ->]. apply zget_insert_eq. by eapply zget_Some. Qed.

Lemma slot_vm (k k' : state) v i p p' : slot k (with_vm k' v) i p p' <-> slot k k' i p p'.
Proof. done. Qed.

Lemma find_proc_Some test ps : forall i j p, find_proc test i ps = Some (j, p) ->
  i <= j /\ ps !! Z.to_nat (j - i) = Some p /\ test p = true.
Proof.
  induction ps as [|q ps IH]; intros i j p; cbn [find_proc]; [done|]. destruct (test q) eqn:E.
  - intros [= <- <-]. by rewrite Z.sub_diag.
  - intros (Hle & Hl & Ht)%IH. split_and!; [lia| |done]. replace (Z.to_nat (j - i)) with (Datatypes.S (Z.to_nat (j - (i + 1)))) by lia. done.
Qed.

Lemma find_proc_zget test ps j p : find_proc test 0 ps = Some (j, p) -> zget ps j = Some p /\ test p = true.
Proof. intros (Hj & Hl & Ht)%find_proc_Some. rewrite Z.sub_0_r in Hl. split; [by apply zget_lookup|done]. Qed.

Lemma find_proc_None test ps : forall i, find_proc test i ps = None <-> Forall (fun p => test p = false) ps.
Proof.
  induction ps as [|q ps IH]; intros i; cbn [find_proc]; [split; [constructor|done]|]. rewrite Forall_cons, <- (IH (i + 1)).
  destruct (test q); [|tauto]. split; [done|by intros []].
Qed.

Lemma is_state_true st p : is_state st p = true <-> p_state p = st.
Proof. unfold is_state. apply bool_decide_eq_true. Qed.

Lemma is_state_false st p : is_state st p = false <-> p_state p <> st.
Proof. unfold is_state. apply bool_decide_eq_false. Qed.

Lemma acquire_inv (k k' : state) : acquire_ptable k = Ret k' -> k' = with_lock k true.
Proof. unfold acquire_ptable, acquire_b. destruct (ptable_lock k); [done|]. by intros [= <-]. Qed.

Lemma release_inv (k k' : state) : release_ptable k = Ret k' -> k' = with_lock k false.
Proof. unfold release_ptable, release_b. destruct (ptable_lock k); [|done]. by intros [= <-]. Qed.

Lemma k_kalloc_inv (k : state) p k' : k_kalloc junk k = Ret (p, k') -> exists v, k' = with_vm k v.
Proof. unfold k_kalloc. intros Hr. ret_inv Hr. eauto. Qed.

Lemma k_kfree_inv a (k k' : state) : k_kfree a k = Ret k' -> exists v, k' = with_vm k v.
Proof. unfold k_kfree. intros Hr. ret_inv Hr. eauto. Qed.

(** The table without its lock and the memory below it. *)
Definition same_table (k k' : state) : Prop := procs k' = procs k /\ nextpid k' = nextpid k /\ initproc k' = initproc k.

(** A new process made from an unused slot. *)
Record made (cur : Z) (k k' : state) (np : Z) (p p' : proc) : Prop := {
  made_slot : slot k k' np p p';
  made_free : p_state p = UNUSED;
  made_state : p_state p' = UNUSED \/ p_state p' = EMBRYO \/ p_state p' = RUNNABLE;
  made_pid : p_pid p' = nextpid k;
  made_next : nextpid k' = s32 (nextpid k + 1);
  made_init : initproc k' = initproc k;
  made_parent : p_parent p' = p_parent p \/ p_parent p' = cur
}.

(** Another change to the slot just made. *)
Lemma made_update cur (k k1 k2 : state) np p p1 p2 : made cur k k1 np p p1 ->
  procs k2 = <[Z.to_nat np := p2]> (procs k1) -> nextpid k2 = nextpid k1 -> initproc k2 = initproc k1 ->
  p_pid p2 = p_pid p1 -> (p_state p2 = UNUSED \/ p_state p2 = EMBRYO \/ p_state p2 = RUNNABLE) ->
  p_parent p2 = p_parent p1 \/ p_parent p2 = cur -> made cur k k2 np p p2.
Proof.
  intros [[M1 M1'] M2 M3 M4 M5 M6 M7] Hp Hn Hi Hpid Hst Hpar. constructor; try done; try congruence.
  - split; [done|]. by rewrite Hp, M1', list_insert_insert_eq.
  - destruct Hpar as [->| ->]; tauto.
Qed.

Lemma allocproc_inv cur (k : state) r k' : allocproc junk k = Ret (r, k') ->
  (r = -1 /\ same_table k k') \/
  (exists np p p', made cur k k' np p p' /\ p_state p' <> RUNNABLE /\ p_parent p' = p_parent p /\ (r = np \/ r = -1)).
Proof.
  unfold allocproc. intros Hr. ret_inv Hr. apply acquire_inv in E as ->. cbn [with_lock procs] in Hr.
  destruct (find_proc (is_state UNUSED) 0 (procs k)) as [[i p]|] eqn:Ef; ret_inv Hr.
  - right. apply find_proc_zget in Ef as [Hg Hst%is_state_true]. apply put_proc_inv in E as [Hi ->].
    apply release_inv in E0 as ->. apply k_kalloc_inv in E1 as [v ->]. cbn [with_lock with_procs with_vm procs nextpid initproc kvm kfs] in Hr.
    match type of Hr with context [<[Z.to_nat i := ?q]> (procs k)] => set (p1 := q) in * end.
    match type of Hr with context [update ?kk] => set (k1 := kk) in * end.
    assert (M : made cur k k1 i p p1) by (constructor; try done; [right; by left|by left]).
    assert (Hg1 : zget (procs k1) i = Some p1) by (eapply slot_get; apply M).
    destruct (z =? 0); ret_inv Hr; apply update_inv in E as (q & [Hq Hp] & Ek); rewrite Hg1 in Hq; injection Hq as <-.
    + exists i, p, (set_state p1 UNUSED). split_and!; [|done|done|by right].
      eapply made_update; [exact M|done|by rewrite Ek|by rewrite Ek|done|by left|by left].
    + exists r, p, (fresh_proc p1 z). split_and!; [|done|done|by left].
      eapply made_update; [exact M|done|by rewrite Ek|by rewrite Ek|done|right; by left|by left].
  - left. apply release_inv in E as ->. done.
Qed.

Lemma fork_undo_inv np pgdir (k : state) r k' : fork_undo junk np pgdir k = Ret (r, k') ->
  exists v p, zget (procs k) np = Some p /\ k' = with_procs (with_vm k v) (<[Z.to_nat np := set_kstack p 0 UNUSED]> (procs k)).
Proof.
  unfold fork_undo. intros Hr. ret_inv Hr. apply k_kfree_inv in E1 as [v ->]. apply update_inv in E2 as (p & [Hg Hp] & ->).
  exists v, p. split; [done|]. rewrite Hp. done.
Qed.

Lemma fork_copy_inv np pgdir old rs : forall (k : state) ok k', fork_copy junk np pgdir old rs k = Ret (ok, k') ->
  if ok : bool then exists v, k' = with_vm k v
  else exists v p, zget (procs k) np = Some p /\ k' = with_procs (with_vm k v) (<[Z.to_nat np := set_kstack p 0 UNUSED]> (procs k)).
Proof.
  induction rs as [|[b e] rs IH]; intros k ok k'; cbn [fork_copy]; intros Hr.
  - ret_inv Hr. exists (kvm k'). by destruct k'.
  - ret_inv Hr. destruct (z =? 0).
    + ret_inv Hr. apply fork_undo_inv in E0 as (v' & p & Hg & ->). exists v', p. done.
    + apply IH in Hr. destruct ok; [by destruct Hr as [v' ->]; exists v'|].
      destruct Hr as (v' & p & Hg & ->). by exists v', p.
Qed.

Lemma fork_inv cur (k : state) r k' : fork junk data cur k = Ret (r, k') ->
  same_table k k' \/ exists np p p', made cur k k' np p p'.
Proof.
  unfold fork. intros Hr. ret_inv Hr. apply (allocproc_inv cur) in E0. destruct (Z.ltb_spec z 0) as [Hz|Hz].
  { ret_inv Hr. destruct E0 as [[_ Hs]|(np & p & p' & M & _)]; [by left|right; eauto]. }
  destruct E0 as [[-> _]|(np & p & p1 & M & _ & _ & [->| ->])]; [done| |done]. right.
  assert (Hg1 : zget (procs k0) np = Some p1) by (eapply slot_get, M).
  ret_inv Hr. apply update_inv in E1 as (q & [Hq Hp1] & Ek1). cbn [with_vm procs] in Hq. rewrite Hg1 in Hq. injection Hq as <-.
  assert (M1 : made cur k x0 np p (set_pgdir p1 z)).
  { eapply made_update; [exact M|done|by rewrite Ek1|by rewrite Ek1|done|apply M|by left]. }
  destruct (z =? 0); [ret_inv Hr; eauto|]. ret_inv Hr. apply fork_copy_inv in E1. destruct b; cbn [negb] in Hr.
  - destruct E1 as [v' ->]. ret_inv Hr. apply k_kalloc_inv in E2 as [v2 ->]. apply acquire_inv in E5 as ->.
    apply put_proc_inv in E6 as [_ ->]. apply release_inv in E7 as ->.
    eexists np, p, _. eapply made_update; [exact M1|done..| |right; by right|by right].
    unfold get_proc in E4. cbn [with_vm procs] in E4. rewrite (slot_get _ _ _ _ _ (made_slot _ _ _ _ _ _ M1)) in E4. by injection E4 as <-.
  - ret_inv Hr. destruct E1 as (v' & q & Hq & ->). exists np, p, (set_kstack q 0 UNUSED).
    rewrite (slot_get _ _ _ _ _ (made_slot _ _ _ _ _ _ M1)) in Hq. injection Hq as <-.
    eapply made_update; [exact M1|done..|by left|by left].
Qed.

(** *** The invariant *)

Definition live (st : procstate) : Prop := st = SLEEPING \/ st = RUNNABLE \/ st = RUNNING.

(** Process ids are unique; the first process is there; and no process asleep
    in [wait] has a child that has exited. *)
Record table_ok (ps : list proc) (next init : Z) : Prop := {
  t_pids i j p q : zget ps i = Some p -> zget ps j = Some q -> p_pid p = p_pid q -> p_pid p <> 0 -> i = j;
  t_range i p : zget ps i = Some p -> 0 <= p_pid p < next;
  t_next : 0 < next < 2^31;
  t_init : exists p, zget ps init = Some p /\ p_parent p = -1 /\ live (p_state p);
  t_self i p : zget ps i = Some p -> p_parent p <> i;
  t_chan i j p : zget ps i = Some p -> p_state p = SLEEPING -> p_chan p = ChanProc j -> j = i;
  t_wait i p c q : zget ps i = Some p -> p_state p = SLEEPING -> p_chan p = ChanProc i ->
    zget ps c = Some q -> p_parent q = i -> p_state q <> ZOMBIE
}.

Definition kernel_ok (k : state) : Prop := table_ok (procs k) (nextpid k) (initproc k).

Lemma zget_insert {T} (l : list T) i x j y : zget (<[Z.to_nat i := x]> l) j = Some y -> 0 <= i ->
  (j = i /\ y = x) \/ (j <> i /\ zget l j = Some y).
Proof.
  intros [Hj Hl]%zget_lookup Hi. destruct (decide (j = i)) as [->|Hne].
  - left. rewrite list_lookup_insert_Some in Hl. naive_solver.
  - right. split; [done|]. rewrite list_lookup_insert_ne in Hl by lia. by apply zget_lookup.
Qed.

(** One slot changes and keeps its identity. *)
Lemma change_slot ps next init i p p' : table_ok ps next init -> zget ps i = Some p ->
  p_pid p' = p_pid p -> p_parent p' = p_parent p -> (i = init -> live (p_state p')) ->
  (p_state p' = SLEEPING -> forall j, p_chan p' = ChanProc j ->
     j = i /\ forall c q, zget ps c = Some q -> p_parent q = i -> p_state q <> ZOMBIE) ->
  (p_state p' = ZOMBIE -> forall r, zget ps (p_parent p) = Some r -> p_state r = SLEEPING -> p_chan r <> ChanProc (p_parent p)) ->
  table_ok (<[Z.to_nat i := p']> ps) next init.
Proof.
  intros [T1 T2 T3 T4 T5 T6 T7] Hp Hpid Hpar Hlive Hsl Hzo. pose proof (zget_Some _ _ _ Hp) as Hi.
  assert (Hg : forall j q, zget (<[Z.to_nat i := p']> ps) j = Some q -> (j = i /\ q = p') \/ (j <> i /\ zget ps j = Some q)).
  { intros j q Hq. apply zget_insert in Hq; [done|lia]. }
  assert (Hold : forall j q, zget (<[Z.to_nat i := p']> ps) j = Some q ->
    exists q0, zget ps j = Some q0 /\ p_pid q = p_pid q0 /\ p_parent q = p_parent q0).
  { intros j q [[-> ->]|[_ Hq]]%Hg; eauto. }
  constructor.
  - intros j1 j2 q1 q2 (q1' & H1 & E1 & _)%Hold (q2' & H2 & E2 & _)%Hold. rewrite E1, E2. by apply (T1 j1 j2).
  - intros j q (q' & Hq & -> & _)%Hold. by eapply T2.
  - done.
  - destruct T4 as (p0 & Hp0 & Hpar0 & Hl0). destruct (decide (init = i)) as [->|Hne].
    + exists p'. rewrite zget_insert_eq by done. split_and!; [done|congruence|by apply Hlive].
    + exists p0. rewrite zget_insert_ne by lia. done.
  - intros j q (q' & Hq & _ & ->)%Hold. by eapply T5.
  - intros j1 j2 q [[-> ->]|[_ Hq]]%Hg Hs Hc; [by apply Hsl|by eapply T6].
  - intros j q c r Hj Hs Hc Hcr Hpr Hz. pose proof (Hold _ _ Hcr) as (r0 & Hr0 & _ & Epr).
    apply Hg in Hj as [[-> ->]|[Hne Hq]].
    + destruct (Hsl Hs i Hc) as [_ Hno]. apply Hg in Hcr as [[-> ->]|[_ Hcr]]; [|exact (Hno c r Hcr Hpr Hz)].
      rewrite Hpar in Hpr. exact (T5 i p Hp Hpr).
    + apply Hg in Hcr as [[-> ->]|[_ Hcr]]; [|exact (T7 j q c r Hq Hs Hc Hcr Hpr Hz)].
      rewrite Hpar in Hpr. eapply Hzo; [done|by rewrite Hpr|done|by rewrite Hpr].
Qed.

(** A slot whose process neither waits for a child nor has exited. *)
Lemma change_calm ps next init i p p' : table_ok ps next init -> zget ps i = Some p ->
  p_pid p' = p_pid p -> p_parent p' = p_parent p -> live (p_state p') -> (p_state p' = SLEEPING -> forall j, p_chan p' <> ChanProc j) ->
  table_ok (<[Z.to_nat i := p']> ps) next init.
Proof.
  intros T Hp Hpid Hpar Hl Hc. eapply change_slot; [done..| |].
  - intros Hs j Hj. exfalso. by eapply Hc.
  - intros Hz. destruct Hl as [Hl|[Hl|Hl]]; congruence.
Qed.

Lemma made_ok cur (k k' : state) np p p' : kernel_ok k -> nextpid k < 2^31 - 1 -> running k cur -> made cur k k' np p p' -> kernel_ok k'.
Proof.
  intros [T1 T2 T3 T4 T5 T6 T7] Hn (pc & Hpc & Hrun) [[Hp Hps] Mf Ms Mpid Mnext Mi Mpar]. unfold kernel_ok.
  rewrite Hps, Mnext, Mi. rewrite s32_small by lia. pose proof (zget_Some _ _ _ Hp) as Hi.
  assert (Hg : forall j q, zget (<[Z.to_nat np := p']> (procs k)) j = Some q -> (j = np /\ q = p') \/ (j <> np /\ zget (procs k) j = Some q)).
  { intros j q Hq. apply zget_insert in Hq; [done|lia]. }
  assert (Hns : p_state p' <> SLEEPING /\ p_state p' <> ZOMBIE) by (destruct Ms as [->|[->| ->]]; done).
  constructor.
  - intros i j q1 q2 [[-> ->]|[H1 Hq1]]%Hg [[-> ->]|[H2 Hq2]]%Hg; [done| | |by apply T1].
    + rewrite Mpid. intros E _. apply T2 in Hq2. lia.
    + rewrite Mpid. intros E _. apply T2 in Hq1. lia.
  - intros j q [[-> ->]|[_ Hq]]%Hg; [lia|]. apply T2 in Hq. lia.
  - lia.
  - destruct T4 as (p0 & Hp0 & Hpar0 & Hl0). exists p0. rewrite zget_insert_ne; [done| |lia].
    intros E. rewrite E, Hp in Hp0. injection Hp0 as ->. rewrite Mf in Hl0. by destruct Hl0 as [?|[?|?]].
  - intros j q [[-> ->]|[_ Hq]]%Hg; [|by eapply T5]. destruct Mpar as [->| ->]; [by eapply T5|]. intros ->. congruence.
  - intros i j q [[-> ->]|[_ Hq]]%Hg Hs; [by destruct Hns|by eapply T6].
  - intros i q c r [[-> ->]|[_ Hq]]%Hg Hs Hc; [by destruct Hns|]. intros [[-> ->]|[_ Hr]]%Hg; [by intros _; apply Hns|by eapply T7].
Qed.

(** A slot taken for a new process, which is filled or given back. *)
Definition filled (cur : Z) (p p' : proc) : Prop :=
  p_pid p' = p_pid p /\ (p_state p' = UNUSED \/ p_state p' = EMBRYO \/ p_state p' = RUNNABLE) /\ (p_parent p' = p_parent p \/ p_parent p' = cur).

Lemma fill_ok cur ps next init i p p' : table_ok ps next init -> zget ps i = Some p -> p_state p = EMBRYO -> cur <> i -> filled cur p p' ->
  table_ok (<[Z.to_nat i := p']> ps) next init.
Proof.
  intros [T1 T2 T3 T4 T5 T6 T7] Hp He Hne (Hpid & Hst & Hpar). pose proof (zget_Some _ _ _ Hp) as Hi.
  assert (Hg : forall j q, zget (<[Z.to_nat i := p']> ps) j = Some q -> (j = i /\ q = p') \/ (j <> i /\ zget ps j = Some q)).
  { intros j q Hq. apply zget_insert in Hq; [done|lia]. }
  assert (Hns : p_state p' <> SLEEPING /\ p_state p' <> ZOMBIE) by (destruct Hst as [->|[->| ->]]; done).
  constructor.
  - intros j1 j2 q1 q2 [[-> ->]|[H1 Hq1]]%Hg [[-> ->]|[H2 Hq2]]%Hg; rewrite ?Hpid; [done|by eapply T1|by eapply T1|by apply T1].
  - intros j q [[-> ->]|[_ Hq]]%Hg; rewrite ?Hpid; by eapply T2.
  - done.
  - destruct T4 as (p0 & Hp0 & Hpar0 & Hl0). exists p0. rewrite zget_insert_ne; [done| |lia].
    intros ->. rewrite Hp in Hp0. injection Hp0 as ->. rewrite He in Hl0. by destruct Hl0 as [?|[?|?]].
  - intros j q [[-> ->]|[_ Hq]]%Hg; [|by eapply T5]. destruct Hpar as [->| ->]; [by eapply T5|done].
  - intros j1 j2 q [[-> ->]|[_ Hq]]%Hg Hs; [by destruct Hns|by eapply T6].
  - intros j q c q' [[-> ->]|[_ Hq]]%Hg Hs Hc; [by destruct Hns|]. intros [[-> ->]|[_ Hr]]%Hg; [by intros _; apply Hns|by eapply T7].
Qed.

Lemma alloc_slot_made cur (k : state) r k' : alloc_slot k = Ret (r, k') -> same_table k k' \/ exists np p p', made cur k k' np p p'.
Proof.
  unfold alloc_slot. intros Hr. ret_inv Hr. apply acquire_inv in E as ->. cbn [with_lock procs] in Hr.
  destruct (find_proc (is_state UNUSED) 0 (procs k)) as [[i p]|] eqn:Ef; ret_inv Hr; [right|left; by apply release_inv in E as ->].
  apply find_proc_zget in Ef as [Hg Hst%is_state_true]. apply put_proc_inv in E as [Hi ->]. apply release_inv in E0 as ->.
  eexists r, p, _. constructor; try done; [right; by left|by left].
Qed.

Lemma fork_rest_filled cur parent np p (k k' : state) r : zget (procs k) np = Some p -> p_state p = EMBRYO -> fork_rest junk data cur parent np k = Ret (r, k') ->
  exists p', procs k' = <[Z.to_nat np := p']> (procs k) /\ nextpid k' = nextpid k /\ initproc k' = initproc k /\ filled cur p p'.
Proof.
  unfold fork_rest. intros Hp He Hr. ret_inv Hr. apply update_inv in E0 as (q & [Hq Hp1] & Ek1). cbn [with_vm procs] in Hq, Hp1. rewrite Hp in Hq. injection Hq as <-.
  assert (Hg : zget (procs x) np = Some (set_pgdir p z)) by (rewrite Hp1; apply zget_insert_eq; by eapply zget_Some).
  assert (Hnx : nextpid x = nextpid k /\ initproc x = initproc k) by (by rewrite Ek1). clear Ek1. destruct Hnx as [Hn Hi]. destruct (z =? 0).
  { ret_inv Hr. exists (set_pgdir p z). split_and!; [done..|]. unfold filled. cbn. rewrite He. auto. }
  ret_inv Hr. apply fork_copy_inv in E0. destruct b; cbn [negb] in Hr.
  - destruct E0 as [v' ->]. ret_inv Hr. apply k_kalloc_inv in E1 as [v2 ->]. apply acquire_inv in E4 as ->. apply put_proc_inv in E5 as [_ ->]. apply release_inv in E6 as ->.
    unfold get_proc in E3. cbn [with_vm procs] in E3. rewrite Hg in E3. injection E3 as <-.
    eexists. cbn [with_lock with_procs with_vm procs nextpid initproc]. rewrite Hp1, list_insert_insert_eq. split_and!; [done..|]. unfold filled. cbn. auto.
  - ret_inv Hr. destruct E0 as (v' & q & Hq & ->). rewrite Hg in Hq. injection Hq as <-.
    eexists. cbn [with_procs with_vm procs nextpid initproc]. rewrite Hp1, list_insert_insert_eq. split_and!; [done..|]. unfold filled. cbn. auto.
Qed.

(** *** Waking *)

(** [p'] is [p], possibly woken. *)
Definition woken (p p' : proc) : Prop :=
  p_pid p' = p_pid p /\ p_chan p' = p_chan p /\ (p_state p' = p_state p \/ (p_state p = SLEEPING /\ p_state p' = RUNNABLE)).

Lemma woken_refl p : woken p p.
Proof. split_and!; auto. Qed.

Lemma woken_trans p q r : woken p q -> woken q r -> woken p r.
Proof.
  intros (A1 & A2 & A3) (B1 & B2 & B3). split_and!; [congruence|congruence|].
  destruct A3 as [A3|[A3 A3']], B3 as [B3|[B3 B3']]; rewrite ?A3, ?A3' in *; auto.
Qed.

Lemma woken_live p p' : woken p p' -> live (p_state p) -> live (p_state p').
Proof. intros (_ & _ & [->|[_ ->]]); [done|]. intros _. right. by left. Qed.

Lemma woken_sleeping p p' : woken p p' -> p_state p' = SLEEPING -> p_state p = SLEEPING.
Proof. intros (_ & _ & [->|[_ ->]]); done. Qed.

Lemma woken_zombie p p' : woken p p' -> p_state p' = ZOMBIE <-> p_state p = ZOMBIE.
Proof. intros (_ & _ & [->|[-> ->]]); done. Qed.

Lemma wakeup1_get c ps i p' : zget (wakeup1 c ps) i = Some p' ->
  exists p, zget ps i = Some p /\ woken p p' /\ p_parent p' = p_parent p /\ (p_state p' = SLEEPING -> p_chan p' <> c).
Proof.
  intros [Hi Hl]%zget_lookup. unfold wakeup1 in Hl. rewrite list_lookup_fmap in Hl.
  destruct (ps !! Z.to_nat i) as [p|] eqn:E; [|done]. injection Hl as <-. exists p. split; [by apply zget_lookup|].
  destruct (is_state SLEEPING p) eqn:Es; cbn [andb].
  - apply is_state_true in Es. destruct (bool_decide_reflect (p_chan p = c)); [|split_and!; auto using woken_refl].
    unfold woken. split_and!; [done|done|by right|done|done].
  - apply is_state_false in Es. split_and!; [apply woken_refl|done|done].
Qed.

Lemma wakeup1_zget c ps i p : zget ps i = Some p -> exists p', zget (wakeup1 c ps) i = Some p'.
Proof.
  intros [Hi Hl]%zget_lookup. eexists. apply zget_lookup. split; [done|]. unfold wakeup1. rewrite list_lookup_fmap, Hl. done.
Qed.

Lemma wakeup1_length c ps : length (wakeup1 c ps) = length ps.
Proof. apply length_map. Qed.

Lemma wakeup1_ok c ps next init : table_ok ps next init -> table_ok (wakeup1 c ps) next init.
Proof.
  intros [T1 T2 T3 T4 T5 T6 T7]. constructor.
  - intros i j p q (p0 & Hp & (Ep & _) & _)%wakeup1_get (q0 & Hq & (Eq & _) & _)%wakeup1_get. rewrite Ep, Eq. by apply T1.
  - intros i p (p0 & Hp & (-> & _) & _)%wakeup1_get. by eapply T2.
  - done.
  - destruct T4 as (p0 & Hp0 & Hpar & Hl). destruct (wakeup1_zget c _ _ _ Hp0) as (p' & Hp'). exists p'. split; [done|].
    apply wakeup1_get in Hp' as (q & Hq & Hw & Eq & _). rewrite Hp0 in Hq. injection Hq as <-. split; [congruence|by eapply woken_live].
  - intros i p (p0 & Hp & _ & -> & _)%wakeup1_get. by eapply T5.
  - intros i j p (p0 & Hp & Hw & _ & _)%wakeup1_get Hs Hc. eapply T6; [done|by eapply woken_sleeping|].
    destruct Hw as (_ & Ec & _). congruence.
  - intros i p ch q (p0 & Hp & Hw & _ & _)%wakeup1_get Hs Hc (q0 & Hq & Hwq & -> & _)%wakeup1_get Hpar Hz.
    apply (woken_zombie _ _ Hwq) in Hz. eapply (T7 i p0 ch q0); [done|by eapply woken_sleeping| |done|done|done].
    destruct Hw as (_ & Ec & _). congruence.
Qed.

(** *** Exiting *)

(** What [reparent] has done below slot [i]. *)
Record reparented (cur init i : Z) (ps ps' : list proc) : Prop := {
  rp_length : length ps' = length ps;
  rp_get j p' : zget ps' j = Some p' -> exists p, zget ps j = Some p /\ woken p p' /\
    p_parent p' = (if (j <? i) && (p_parent p =? cur) then init else p_parent p);
  rp_init j p : zget ps j = Some p -> j < i -> p_parent p = cur -> p_state p = ZOMBIE ->
    forall m q, zget ps' m = Some q -> p_state q = SLEEPING -> p_chan q <> ChanProc init
}.

Lemma reparent_ok cur init (n : nat) : forall i ps0 ps ps', 0 <= i -> i + Z.of_nat n = zlen ps0 -> cur <> init ->
  reparented cur init i ps0 ps -> reparent cur init n i ps = Ret ps' -> reparented cur init (i + Z.of_nat n) ps0 ps'.
Proof.
  induction n as [|n IH]; intros i ps0 ps ps' Hi Hn Hci [R1 R2 R3]; cbn [reparent].
  { intros [= <-]. by rewrite Z.add_0_r. }
  destruct (zget ps i) as [p|] eqn:Hp; cbn [of_option obind]; [|done].
  replace (i + Z.of_nat (Datatypes.S n)) with (i + 1 + Z.of_nat n) by lia.
  pose proof (R2 _ _ Hp) as (p0 & Hp0 & Hw0 & Hpar0). rewrite Z.ltb_irrefl in Hpar0. cbn [andb] in Hpar0.
  destruct (Z.eqb_spec (p_parent p) cur) as [Hc|Hc].
  - rewrite zset_Some by (by eapply zget_Some). cbn [of_option obind].
    set (ps1 := <[Z.to_nat i := set_parent p init]> ps). apply IH; [lia|lia|done|].
    assert (Hmid : forall j p', zget ps1 j = Some p' -> exists q, zget ps0 j = Some q /\ woken q p' /\
      p_parent p' = (if (j <? i + 1) && (p_parent q =? cur) then init else p_parent q)).
    { intros j p' Hj. apply zget_insert in Hj as [[-> ->]|[Hne Hj]]; [| |lia].
      - exists p0. split_and!; [done|by destruct Hw0 as (? & ? & ?); split_and!|].
        rewrite (proj2 (Z.ltb_lt _ _)) by lia. cbn [andb]. rewrite <- Hpar0, Hc, Z.eqb_refl. done.
      - destruct (R2 _ _ Hj) as (q & Hq & Hwq & Hparq). exists q. split_and!; [done|done|]. rewrite Hparq.
        destruct (Z.ltb_spec j i), (Z.ltb_spec j (i + 1)); try lia; done. }
    assert (Hgoal : forall ps2, length ps2 = length ps0 -> (forall j p', zget ps2 j = Some p' ->
        exists q, zget ps1 j = Some q /\ woken q p' /\ p_parent p' = p_parent q) ->
        (p_state p = ZOMBIE -> forall m q, zget ps2 m = Some q -> p_state q = SLEEPING -> p_chan q <> ChanProc init) ->
        reparented cur init (i + 1) ps0 ps2).
    { intros ps2 Hl2 H2 Hz2. constructor; [done| |].
      - intros j p' (q & Hq & Hw & ->)%H2. destruct (Hmid _ _ Hq) as (q0 & Hq0 & Hw' & Hpq). exists q0.
        split_and!; [done|by eapply woken_trans|done].
      - intros j q Hq Hji Hpq Hzq. destruct (decide (j = i)) as [->|Hne].
        + rewrite Hp0 in Hq. injection Hq as <-. apply Hz2. by apply (woken_zombie _ _ Hw0).
        + intros m q' (q1 & Hq1 & Hw1 & _)%H2 Hs Hch. apply zget_insert in Hq1 as [[-> ->]|[_ Hq1]]; [| |lia].
          * assert (p_state p = SLEEPING) by (by apply (woken_sleeping _ _ Hw1)).
            eapply (R3 j q Hq ltac:(lia) Hpq Hzq i p Hp); [done|]. destruct Hw1 as (_ & E & _). cbn in E. congruence.
          * eapply (R3 j q Hq ltac:(lia) Hpq Hzq m q1 Hq1); [by eapply woken_sleeping|]. destruct Hw1 as (_ & E & _). congruence. }
    destruct (is_state ZOMBIE p) eqn:Ez; apply Hgoal.
    + rewrite wakeup1_length. unfold ps1. by rewrite length_insert.
    + intros j p' (q & Hq & Hw & Hpq & _)%wakeup1_get. eauto.
    + intros _ m q (q0 & _ & _ & _ & Hch)%wakeup1_get. done.
    + unfold ps1. by rewrite length_insert.
    + intros j p' Hj. exists p'. split_and!; [done|apply woken_refl|done].
    + intros Hz. apply is_state_false in Ez. done.
  - apply IH; [lia|lia|done|]. constructor; [done| |].
    + intros j p' Hj. destruct (R2 _ _ Hj) as (q & Hq & Hw & Hpq). exists q. split_and!; [done|done|]. rewrite Hpq.
      destruct (Z.ltb_spec j i), (Z.ltb_spec j (i + 1)); try lia; try done. cbn [andb].
      assert (j = i) as -> by lia. rewrite Hp0 in Hq. injection Hq as <-. rewrite <- Hpar0.
      destruct (Z.eqb_spec (p_parent p) cur); done.
    + intros j q Hq Hji Hpq Hzq. destruct (decide (j = i)) as [->|Hne]; [|eapply R3; [done|lia|done|done]].
      rewrite Hp0 in Hq. injection Hq as <-. congruence.
Qed.

Lemma reparented_refl cur init ps : reparented cur init 0 ps ps.
Proof.
  constructor; [done| |].
  - intros j p Hj. exists p. split_and!; [done|apply woken_refl|]. apply zget_Some in Hj. by destruct (Z.ltb_spec j 0); [lia|].
  - intros j p Hj Hlt. apply zget_Some in Hj. lia.
Qed.

Lemma reparented_ok cur next init ps ps' : table_ok ps next init -> 0 <= cur -> cur <> init -> reparented cur init (zlen ps) ps ps' ->
  table_ok ps' next init.
Proof.
  intros [T1 T2 T3 T4 T5 T6 T7] Hc0 Hci [R1 R2 R3]. destruct T4 as (p0 & Hp0 & Hpar0 & Hl0). constructor.
  - intros i j p q (p1 & Hp & (Ep & _) & _)%R2 (q1 & Hq & (Eq & _) & _)%R2. rewrite Ep, Eq. by apply T1.
  - intros i p (p1 & Hp & (-> & _) & _)%R2. by eapply T2.
  - done.
  - destruct (zget_is_Some ps' init) as (p' & Hp'); [unfold zlen; rewrite R1; by eapply zget_Some|]. exists p'. split; [done|].
    apply R2 in Hp' as (q & Hq & Hw & ->). rewrite Hp0 in Hq. injection Hq as <-. split; [|by eapply woken_live].
    rewrite Hpar0. destruct (Z.eqb_spec (-1) cur); [lia|]. by rewrite andb_false_r.
  - intros i p (p1 & Hp & _ & ->)%R2. destruct ((i <? zlen ps) && (p_parent p1 =? cur)) eqn:E; [|by eapply T5].
    apply andb_true_iff in E as [_ E%Z.eqb_eq]. intros <-. rewrite Hp0 in Hp. injection Hp as <-. lia.
  - intros i j p (p1 & Hp & Hw & _)%R2 Hs Hc. eapply T6; [done|by eapply woken_sleeping|]. destruct Hw as (_ & Ec & _). congruence.
  - intros i p c q Hp Hs Hc Hq Hpar Hz. pose proof (R2 _ _ Hp) as (p1 & Hp1 & Hw & _). pose proof (R2 _ _ Hq) as (q1 & Hq1 & Hwq & Epar).
    apply (woken_zombie _ _ Hwq) in Hz. destruct ((c <? zlen ps) && (p_parent q1 =? cur)) eqn:E.
    + apply andb_true_iff in E as [E1%Z.ltb_lt E2%Z.eqb_eq]. eapply (R3 c q1 Hq1 E1 E2 Hz i p Hp Hs). congruence.
    + eapply (T7 i p1 c q1); [done|by eapply woken_sleeping| |done|congruence|done]. destruct Hw as (_ & Ec & _). congruence.
Qed.

Lemma exit_ok cur status (k k' : state) : kernel_ok k -> running k cur -> exit cur status k = Ret k' -> kernel_ok k'.
Proof.
  intros T (pc & Hpc & Hrun) Hr. unfold exit in Hr. destruct (Z.eqb_spec cur (initproc k)) as [|Hci]; [done|].
  unfold get_proc in Hr. rewrite Hpc in Hr. cbn [of_option obind] in Hr. ret_inv Hr.
  apply put_proc_inv in E0 as [Hi ->]. apply acquire_inv in E1 as ->. cbn [with_lock with_procs procs initproc nextpid kvm kfs] in *.
  set (p1 := set_files pc l status) in *. set (ps1 := <[Z.to_nat cur := p1]> (procs k)) in *.
  assert (T1 : table_ok ps1 (nextpid k) (initproc k)).
  { eapply change_calm; [exact T|done|done|done|right; by right|]. cbn. congruence. }
  set (ps2 := wakeup1 (ChanProc (p_parent pc)) ps1) in *. pose proof (wakeup1_ok (ChanProc (p_parent pc)) _ _ _ T1 : table_ok ps2 _ _) as T2.
  apply (reparent_ok cur (initproc k) _ 0 ps2) in E2; [|lia|unfold zlen; lia|done|apply reparented_refl]. rewrite Z.add_0_l in E2.
  pose proof (reparented_ok cur _ _ _ _ T2 ltac:(lia) Hci E2) as T3.
  apply update_inv in E3 as (p3 & [Hp3 Hps] & Ek). cbn [with_procs procs] in Hp3, Hps.
  unfold kernel_ok. rewrite Hps, Ek. cbn [with_procs with_lock nextpid initproc].
  eapply change_slot; [exact T3|exact Hp3|done|done|done|done|].
  intros _ r Hr Hs Hc. apply (rp_get _ _ _ _ _ E2) in Hr as (r2 & Hr2 & Hw & _).
  apply wakeup1_get in Hr2 as (r1 & _ & Hw1 & _ & Hno).
  (* The parent of [cur] has not changed, and nobody sleeps on it any more. *)
  assert (Hpar : p_parent p3 = p_parent pc).
  { apply (rp_get _ _ _ _ _ E2) in Hp3 as (q & Hq & _ & ->). apply wakeup1_get in Hq as (q1 & Hq1 & _ & -> & _).
    unfold ps1 in Hq1. rewrite zget_insert_eq in Hq1 by done. injection Hq1 as <-. cbn.
    assert (p_parent pc <> cur) by (by eapply (t_self _ _ _ T)). destruct (Z.eqb_spec (p_parent pc) cur); [done|]. by rewrite andb_false_r. }
  rewrite Hpar in Hc. apply Hno; [by eapply woken_sleeping|]. destruct Hw as (_ & Ec & _). congruence.
Qed.

Lemma proc_free_inv i (k k' : state) : proc_free junk i k = Ret k' ->
  exists p v, zget (procs k) i = Some p /\ k' = with_vm (with_procs k (<[Z.to_nat i := cleared p]> (procs k))) v.
Proof.
  unfold proc_free, get_proc. destruct (zget (procs k) i) as [p|] eqn:E; cbn [of_option obind]; [|done]. intros Hr. ret_inv Hr.
  apply k_kfree_inv in E0 as [v0 ->]. apply k_kfree_inv in E2 as [v2 ->]. apply put_proc_inv in Hr as [_ ->]. by exists p, v2.
Qed.

(** An exited process that is freed. *)
Lemma free_ok ps next init i p : table_ok ps next init -> zget ps i = Some p -> p_state p = ZOMBIE ->
  table_ok (<[Z.to_nat i := cleared p]> ps) next init.
Proof.
  intros [T1 T2 T3 T4 T5 T6 T7] Hp Hz. pose proof (zget_Some _ _ _ Hp) as Hi.
  assert (Hg : forall j q, zget (<[Z.to_nat i := cleared p]> ps) j = Some q -> (j = i /\ q = cleared p) \/ (j <> i /\ zget ps j = Some q)).
  { intros j q Hq. apply zget_insert in Hq; [done|lia]. }
  constructor.
  - intros j1 j2 q1 q2 [[-> ->]|[H1 Hq1]]%Hg [[-> ->]|[H2 Hq2]]%Hg; [done| | |by apply T1]; cbn; intros; congruence.
  - intros j q [[-> ->]|[_ Hq]]%Hg; [cbn; lia|by eapply T2].
  - done.
  - destruct T4 as (p0 & Hp0 & Hpar0 & Hl0). exists p0. rewrite zget_insert_ne; [done| |lia].
    intros ->. rewrite Hp in Hp0. injection Hp0 as ->. rewrite Hz in Hl0. by destruct Hl0 as [?|[?|?]].
  - intros j q [[-> ->]|[_ Hq]]%Hg; [cbn; lia|by eapply T5].
  - intros j1 j2 q [[-> ->]|[_ Hq]]%Hg; [done|by eapply T6].
  - intros j q c r [[-> ->]|[_ Hq]]%Hg Hs Hc; [done|]. intros [[-> ->]|[_ Hr]]%Hg; [done|by eapply T7].
Qed.

Lemma sleep_inv cur c lk (k : state) lk' k' : sleep cur c lk k = Ret (lk', k') ->
  exists p l, zget (procs k) cur = Some p /\
    k' = with_procs (with_lock k l) (<[Z.to_nat cur := set_chan p c SLEEPING]> (procs k)).
Proof.
  unfold sleep. destruct (cur <? 0); [done|]. intros Hr. destruct lk as [l0|].
  - ret_inv Hr. ret_inv E. apply acquire_inv in E2 as ->. apply update_inv in E0 as (p & [Hp Hps] & ->). exists p, true. split; [done|]. by rewrite Hps.
  - cbn [obind] in Hr. ret_inv Hr. apply update_inv in E as (p & [Hp Hps] & ->). exists p, (ptable_lock k). split; [done|]. rewrite Hps. by destruct k.
Qed.

Lemma wait_ok fuel cur r (k k' : state) : kernel_ok k -> running k cur -> wait junk fuel cur (with_lock k true) = Ret (r, k') -> kernel_ok k'.
Proof.
  intros T (pc & Hpc & Hrun) Hr. unfold wait, get_proc in Hr. cbn [with_lock procs] in Hr. rewrite Hpc in Hr. cbn [of_option obind] in Hr.
  destruct (find_proc _ 0 (procs k)) as [[i p]|] eqn:Ef.
  - apply find_proc_zget in Ef as [Hp [_ Hz%is_state_true]%andb_true_iff]. ret_inv Hr.
    apply proc_free_inv in E as (q & v & Hq & ->). cbn [with_lock procs] in Hq. rewrite Hp in Hq. injection Hq as <-.
    apply release_inv in E2 as ->. by apply (free_ok (procs k)).
  - apply find_proc_None in Ef. destruct (negb _ || negb _).
    + ret_inv Hr. apply release_inv in E as ->. done.
    + ret_inv Hr. apply sleep_inv in E as (p & l & Hp & ->). cbn [with_lock procs] in Hp. rewrite Hpc in Hp. injection Hp as <-.
      eapply (change_slot (procs k)); [exact T|done|done|done|intros _; by left| |done].
      intros _ j [= <-]. split; [done|]. intros c q Hq Hpar Hz. pose proof (Forall_zget _ _ _ _ Ef Hq) as Hf. cbn in Hf.
      rewrite Hpar, Z.eqb_refl in Hf. by apply is_state_false in Hf.
Qed.

Lemma pstep_ok (k k' : state) : kernel_ok k -> pstep k k' -> kernel_ok k'.
Proof.
  intros T Hs. destruct Hs as [cur r k k' Hrun Hn Hr|cur r k k' Hrun Hn Hr|i p r k k' Hp He Hr|cur parent np p r k k' Hrun Hpar Hp He Hr|cur status k k' Hrun Hr|fuel cur r k k' Hrun Hr|cur c lk k k' Hrun Hc Hr
    |cur lk k k' Hrun Hr|cur k k' Hrun Hr|i k k' Hr|c k k' Hr|cur n r k k' Hrun Hr].
  - apply fork_inv in Hr as [(E1 & E2 & E3)|(np & p & p' & M)]; [unfold kernel_ok; by rewrite E1, E2, E3|by eapply made_ok].
  - apply (alloc_slot_made cur) in Hr as [(E1 & E2 & E3)|(np & p & p' & M)]; [unfold kernel_ok; by rewrite E1, E2, E3|by eapply made_ok].
  - unfold alloc_stack in Hr. ret_inv Hr. apply k_kalloc_inv in E as [v ->].
    assert (Hi : -1 <> i) by (apply zget_Some in Hp; lia).
    destruct (z =? 0); ret_inv Hr; apply update_inv in E as (q & [Hq Hps] & Ek); cbn [with_vm procs] in Hq, Hps; rewrite Hp in Hq; injection Hq as <-;
      unfold kernel_ok; rewrite Ek; cbn [with_procs with_vm procs nextpid initproc]; rewrite Hps; apply (fill_ok (-1) _ _ _ _ p); try done; unfold filled; cbn; auto.
  - destruct Hrun as (pc & Hpc & Hst). apply (fork_rest_filled cur parent np p) in Hr as (p' & E1 & E2 & E3 & Hf); [|done..]. unfold kernel_ok. rewrite E1, E2, E3.
    apply (fill_ok cur _ _ _ _ p); [exact T|done|done|congruence|done].
  - by apply (exit_ok cur status k k').
  - by apply (wait_ok fuel cur r k k').
  - apply sleep_inv in Hr as (p & l & Hp & ->). eapply (change_calm (procs k)); [exact T|done|done|done|by left|]. intros _ j. apply Hc.
  - destruct Hrun as (p & Hp & Hst). unfold sleep_resume, get_proc in Hr. cbn [with_lock procs] in Hr. rewrite Hp in Hr. cbn [of_option obind] in Hr.
    ret_inv Hr. apply put_proc_inv in E as [_ ->]. eapply (change_calm (procs k)); [exact T|done|done|done|right; by right|done].
  - destruct Hrun as (p & Hp & Hst). unfold yield in Hr. ret_inv Hr. apply acquire_inv in E as ->. apply update_inv in E0 as (q & [Hq Hps] & Ek).
    cbn [with_lock procs] in Hq, Hps. unfold kernel_ok. cbn [with_lock procs nextpid initproc]. rewrite Hps, Ek.
    eapply (change_calm (procs k)); [exact T|exact Hq|done|done|right; by left|done].
  - unfold scheduler_pick, get_proc in Hr. cbn [with_lock procs] in Hr. destruct (zget (procs k) i) as [p|] eqn:Hp; cbn [of_option obind] in Hr; [|done].
    destruct (negb (is_state RUNNABLE p)); [by injection Hr as <-|]. ret_inv Hr. apply put_proc_inv in Hr as [_ ->].
    eapply (change_calm (procs k)); [exact T|exact Hp|done|done|right; by right|done].
  - unfold wakeup in Hr. ret_inv Hr. apply acquire_inv in E as ->. apply release_inv in Hr as ->. by apply (wakeup1_ok c (procs k)).
  - destruct Hrun as (p & Hp & Hst). unfold growproc, get_proc in Hr. rewrite Hp in Hr. cbn [of_option obind] in Hr.
    assert (Hfin : forall v, (k1 <- put_proc (with_vm k v) cur (set_heap p (u32 (p_heap_size p + n))) ;;
      v' <- switchuvm (p_kstack p) (p_pgdir p) (kvm k1) ;; Ret (0, with_vm k1 v')) = Ret (r, k') -> kernel_ok k').
    { intros v Hf. ret_inv Hf. apply put_proc_inv in E as [_ ->]. eapply (change_calm (procs k)); [exact T|exact Hp|done|done|right; by right|].
      cbn. congruence. }
    destruct (0 <? n); [|destruct (n <? 0); [|by eapply Hfin]]; ret_inv Hr; (destruct (s32 z =? 0); [ret_inv Hr; exact T|by eapply Hfin]).
Qed.

Lemma reachable_ok (k k' : state) : kernel_ok k -> rtc pstep k k' -> kernel_ok k'.
Proof. intros T Hr. induction Hr; [done|]. eauto using pstep_ok. Qed.

(** *** Process ids *)

(** [allocproc] and [fork] are their parts, one after the other. *)
Lemma allocproc_parts (k : state) : allocproc junk k = ('(i, k1) <- alloc_slot k ;; if i <? 0 then Ret (-1, k1) else alloc_stack junk i k1).
Proof.
  unfold allocproc, alloc_slot. destruct (acquire_ptable k) as [k1| | |]; cbn [obind]; try done.
  destruct (find_proc (is_state UNUSED) 0 (procs k1)) as [[i p]|] eqn:Ef; [|by destruct (release_ptable k1)].
  apply find_proc_Some in Ef as (Hi & _). destruct (put_proc k1 i _) as [k2| | |]; cbn [obind]; try done. destruct (release_ptable _) as [k4| | |]; cbn [obind]; try done.
  destruct (Z.ltb_spec i 0); [lia|]. done.
Qed.

Lemma fork_parts cur (k : state) : fork junk data cur k =
  (parent <- get_proc k cur ;; '(np, k1) <- allocproc junk k ;; if np <? 0 then Ret (-1, k1) else fork_rest junk data cur parent np k1).
Proof. reflexivity. Qed.

(** Every change to the table between releases of its lock, whoever makes it and
    whatever state that process is in: a killed process goes on until it is
    switched.  [fork] is cut where it can be interrupted, and [tstep_other] is a
    process that changes what is its own (memory, files, messages, image). *)
Inductive tstep : state -> state -> Prop :=
| tstep_alloc r k k' : nextpid k < 2^31 - 1 -> alloc_slot k = Ret (r, k') -> tstep k k'
| tstep_stack i r k k' : alloc_stack junk i k = Ret (r, k') -> tstep k k'
| tstep_fork cur parent np r k k' : zget (procs k) cur = Some parent -> fork_rest junk data cur parent np k = Ret (r, k') -> tstep k k'
| tstep_exit cur status k k' : exit cur status k = Ret k' -> tstep k (with_lock k' false)
| tstep_wait fuel cur r k k' : wait junk fuel cur (with_lock k true) = Ret (r, k') -> tstep k (with_lock k' false)
| tstep_sleep cur c l lk k k' : sleep cur c (Some l) k = Ret (lk, k') -> tstep k (with_lock k' false)
| tstep_resume cur lk k k' : sleep_resume cur None (with_lock k true) = Ret (lk, k') -> tstep k (with_lock k' false)
| tstep_yield cur k k' : yield cur k = Ret k' -> tstep k (with_lock k' false)
| tstep_schedule i k k' : scheduler_pick i (with_lock k true) = Ret k' -> tstep k (with_lock k' false)
| tstep_wakeup c k k' : wakeup c k = Ret k' -> tstep k k'
| tstep_grow cur n r k k' : growproc junk cur n k = Ret (r, k') -> tstep k k'
| tstep_kill pid r k k' : kill pid k = Ret (r, k') -> tstep k k'
| tstep_other cur p p' v w k : zget (procs k) cur = Some p -> p_pid p' = p_pid p ->
    tstep k (Kernel (<[Z.to_nat cur := p']> (procs k)) (ptable_lock k) (initproc k) (nextpid k) v w).

(** Ids that are not zero are different and were given out. *)
Record pids_ok (k : state) : Prop := {
  pid_unique i j p q : zget (procs k) i = Some p -> zget (procs k) j = Some q -> p_pid p = p_pid q -> p_pid p <> 0 -> i = j;
  pid_range i p : zget (procs k) i = Some p -> 0 <= p_pid p < nextpid k;
  pid_next : 0 < nextpid k < 2 ^ 31
}.

Lemma kernel_pids_ok (k : state) : kernel_ok k -> pids_ok k.
Proof. intros [T1 T2 T3 _ _ _ _]. by constructor. Qed.

(** Each slot keeps its id or gives it up. *)
Definition kept (ps ps' : list proc) : Prop := forall i p', zget ps' i = Some p' -> exists p, zget ps i = Some p /\ (p_pid p' = p_pid p \/ p_pid p' = 0).

Lemma kept_refl ps : kept ps ps.
Proof. intros i p Hp. eauto. Qed.

Lemma kept_trans ps1 ps2 ps3 : kept ps1 ps2 -> kept ps2 ps3 -> kept ps1 ps3.
Proof. intros K1 K2 i p (q & Hq & E)%K2. destruct (K1 _ _ Hq) as (p1 & Hp1 & E1). exists p1. split; [done|]. destruct E, E1; (left; congruence) || (right; congruence). Qed.

Lemma kept_insert ps i p p' : zget ps i = Some p -> p_pid p' = p_pid p \/ p_pid p' = 0 -> kept ps (<[Z.to_nat i := p']> ps).
Proof. intros Hp E j q Hq. pose proof (zget_Some _ _ _ Hp). apply zget_insert in Hq as [[-> ->]|[_ Hq]]; [eauto|eauto|lia]. Qed.

Lemma kept_update (k k' : state) i f : (forall p, p_pid (f p) = p_pid p) -> update k i f = Ret k' -> kept (procs k) (procs k') /\ nextpid k' = nextpid k.
Proof. intros Hf (p & [Hp Hps] & E)%update_inv. rewrite E. cbn [with_procs procs nextpid]. rewrite Hps. split; [|done]. apply (kept_insert _ _ p); auto. Qed.

Lemma kept_wakeup c ps : kept ps (wakeup1 c ps).
Proof. intros i p (p0 & Hp & (E & _) & _)%wakeup1_get. eauto. Qed.

Lemma kept_reparent cur init n : forall i ps ps', reparent cur init n i ps = Ret ps' -> kept ps ps'.
Proof.
  induction n as [|n IH]; intros i ps ps'; cbn [reparent]; [intros [= <-]; apply kept_refl|].
  destruct (zget ps i) as [p|] eqn:Hp; cbn [of_option obind]; [|done]. destruct (p_parent p =? cur); [|apply IH].
  rewrite zset_Some by (by eapply zget_Some). cbn [of_option obind]. intros Hr%IH. eapply kept_trans; [apply (kept_insert _ i p (set_parent p init)); [done|by left]|].
  destruct (is_state ZOMBIE p); [|done]. eapply kept_trans; [apply kept_wakeup|done].
Qed.

Lemma kept_pids (k k' : state) : pids_ok k -> kept (procs k) (procs k') -> nextpid k' = nextpid k -> pids_ok k'.
Proof.
  intros [U R N] K E. constructor; rewrite ?E; [|intros i p (q & Hq & Ep)%K; apply R in Hq; lia|done].
  intros i j p q (p0 & Hp & Ep)%K (q0 & Hq & Eq)%K Epq Hnz. eapply U; [exact Hp|exact Hq|destruct Ep, Eq; congruence|destruct Ep; congruence].
Qed.

Lemma fork_rest_kept cur parent np (k k' : state) r : fork_rest junk data cur parent np k = Ret (r, k') -> kept (procs k) (procs k') /\ nextpid k' = nextpid k.
Proof.
  unfold fork_rest. intros Hr. ret_inv Hr. apply kept_update in E0 as [K1 N1]; [|done]. cbn [with_vm procs nextpid] in K1, N1.
  destruct (z =? 0); [ret_inv Hr; done|]. ret_inv Hr. apply fork_copy_inv in E0. destruct b; cbn [negb] in Hr.
  - destruct E0 as [v' ->]. ret_inv Hr. apply k_kalloc_inv in E1 as [v2 ->]. apply acquire_inv in E4 as ->. apply put_proc_inv in E5 as [_ ->]. apply release_inv in E6 as ->.
    cbn [with_lock with_procs with_vm procs nextpid] in *. unfold get_proc in E3. cbn [with_vm procs] in E3. destruct (zget (procs x) np) as [q|] eqn:Hq; [|done]. injection E3 as <-.
    split; [|done]. eapply kept_trans; [exact K1|]. apply (kept_insert _ np q); [done|by left].
  - ret_inv Hr. destruct E0 as (v' & q & Hq & ->). cbn [with_procs with_vm procs nextpid]. split; [|done]. eapply kept_trans; [exact K1|]. apply (kept_insert _ np q); [done|by left].
Qed.

Lemma exit_kept cur status (k k' : state) : exit cur status k = Ret k' -> kept (procs k) (procs k') /\ nextpid k' = nextpid k.
Proof.
  unfold exit. destruct (cur =? initproc k); [done|]. intros Hr. ret_inv Hr. apply put_proc_inv in E1 as [_ ->]. apply acquire_inv in E2 as ->. apply kept_reparent in E3. apply kept_update in E4 as [K N]; [|done].
  cbn [with_lock with_procs procs nextpid] in *. split; [|done]. unfold get_proc in E. destruct (zget (procs k) cur) as [q|] eqn:Hq; [|done]. injection E as <-.
  eapply kept_trans; [apply (kept_insert _ cur q (set_files q l status)); [done|by left]|]. eapply kept_trans; [apply kept_wakeup|]. by eapply kept_trans.
Qed.

Lemma wait_kept fuel cur r (k k' : state) : wait junk fuel cur k = Ret (r, k') -> kept (procs k) (procs k') /\ nextpid k' = nextpid k.
Proof.
  unfold wait. intros Hr. ret_inv Hr. destruct (find_proc _ 0 (procs k)) as [[i p]|].
  - ret_inv Hr. apply proc_free_inv in E0 as (q & v & Hq & ->). apply release_inv in E3 as ->. cbn [with_lock with_vm with_procs procs nextpid]. split; [|done]. apply (kept_insert _ i q); [done|by right].
  - destruct (_ || _); ret_inv Hr; [apply release_inv in E0 as ->; split; [apply kept_refl|done]|].
    apply sleep_inv in E0 as (q & l & Hq & ->). cbn [with_procs with_lock procs nextpid]. split; [|done]. apply (kept_insert _ cur q); [done|by left].
Qed.

Lemma growproc_kept cur n r (k k' : state) : growproc junk cur n k = Ret (r, k') -> kept (procs k) (procs k') /\ nextpid k' = nextpid k.
Proof.
  unfold growproc, get_proc. destruct (zget (procs k) cur) as [p|] eqn:Hp; cbn [of_option obind]; [|done]. intros Hr.
  assert (Hfin : forall v, (k1 <- put_proc (with_vm k v) cur (set_heap p (u32 (p_heap_size p + n))) ;;
    v' <- switchuvm (p_kstack p) (p_pgdir p) (kvm k1) ;; Ret (0, with_vm k1 v')) = Ret (r, k') -> kept (procs k) (procs k') /\ nextpid k' = nextpid k).
  { intros v Hf. ret_inv Hf. apply put_proc_inv in E as [_ ->]. split; [|done]. apply (kept_insert _ cur p); [done|by left]. }
  destruct (0 <? n); [|destruct (n <? 0); [|by eapply Hfin]]; ret_inv Hr; (destruct (s32 z =? 0); [ret_inv Hr; split; [apply kept_refl|done]|by eapply Hfin]).
Qed.

Lemma alloc_slot_pids (k k' : state) r : pids_ok k -> nextpid k < 2 ^ 31 - 1 -> alloc_slot k = Ret (r, k') -> pids_ok k'.
Proof.
  intros [U R N] Hn. unfold alloc_slot. intros Hr. ret_inv Hr. apply acquire_inv in E as ->. cbn [with_lock procs nextpid] in Hr.
  destruct (find_proc (is_state UNUSED) 0 (procs k)) as [[i p]|] eqn:Ef; ret_inv Hr; [|apply release_inv in E as ->; by constructor].
  apply find_proc_zget in Ef as [Hg _]. apply put_proc_inv in E as [Hi ->]. apply release_inv in E0 as ->. cbn [with_lock with_procs procs nextpid kvm kfs] in *.
  constructor; cbn [with_lock with_procs procs nextpid]; rewrite ?s32_small by lia; [| |lia].
  - intros i1 i2 q1 q2 H1 H2 Eq Hnz. apply zget_insert in H1 as [[-> ->]|[N1 H1]]; [| |lia]; (apply zget_insert in H2 as [[-> ->]|[N2 H2]]; [| |lia]); cbn [p_pid] in *;
      [done|apply R in H2; lia|apply R in H1; lia|by eapply U].
  - intros j q Hq. apply zget_insert in Hq as [[-> ->]|[_ Hq]]; [| |lia]; [cbn [p_pid]; lia|apply R in Hq; lia].
Qed.

Lemma tstep_pids (k k' : state) : tstep k k' -> pids_ok k -> pids_ok k'.
Proof.
  intros Hs Hk. destruct Hs as [r k k' Hn Hr|i r k k' Hr|cur parent np r k k' _ Hr|cur status k k' Hr|fuel cur r k k' Hr|cur c l lk k k' Hr|cur lk k k' Hr|cur k k' Hr|i k k' Hr|c k k' Hr|cur n r k k' Hr|pid r k k' Hr|cur p p' v w k Hp Ep].
  - by eapply alloc_slot_pids.
  - unfold alloc_stack in Hr. ret_inv Hr. apply k_kalloc_inv in E as [v ->]. destruct (z =? 0); ret_inv Hr; (apply kept_update in E as [K N]; [|done]); by apply (kept_pids k).
  - apply fork_rest_kept in Hr as [K N]. by apply (kept_pids k).
  - apply exit_kept in Hr as [K N]. by apply (kept_pids k).
  - apply wait_kept in Hr as [K N]. by apply (kept_pids k).
  - apply sleep_inv in Hr as (q & l' & Hq & ->). apply (kept_pids k); [done| |done]. apply (kept_insert _ cur q); [done|by left].
  - unfold sleep_resume, get_proc in Hr. cbn [with_lock procs] in Hr. destruct (zget (procs k) cur) as [q|] eqn:Hq; cbn [of_option obind] in Hr; [|done].
    ret_inv Hr. apply put_proc_inv in E as [_ ->]. apply (kept_pids k); [done| |done]. apply (kept_insert _ cur q); [done|by left].
  - unfold yield in Hr. ret_inv Hr. apply acquire_inv in E as ->. apply kept_update in E0 as [K N]; [|done]. by apply (kept_pids k).
  - unfold scheduler_pick, get_proc in Hr. cbn [with_lock procs] in Hr. destruct (zget (procs k) i) as [q|] eqn:Hq; cbn [of_option obind] in Hr; [|done].
    destruct (negb _); [injection Hr as <-; by apply (kept_pids k); [|apply kept_refl|]|]. ret_inv Hr. apply put_proc_inv in Hr as [_ ->].
    apply (kept_pids k); [done| |done]. apply (kept_insert _ i q); [done|by left].
  - unfold wakeup in Hr. ret_inv Hr. apply acquire_inv in E as ->. apply release_inv in Hr as ->. apply (kept_pids k); [done|apply kept_wakeup|done].
  - apply growproc_kept in Hr as [K N]. by apply (kept_pids k).
  - unfold kill in Hr. ret_inv Hr. apply acquire_inv in E as ->. cbn [with_lock procs] in Hr. destruct (find_proc _ 0 (procs k)) as [[i q]|] eqn:Ef; ret_inv Hr.
    + apply find_proc_zget in Ef as [Hq _]. apply put_proc_inv in E as [_ ->]. apply release_inv in E0 as ->. apply (kept_pids k); [done| |done]. apply (kept_insert _ i q); [done|by left].
    + apply release_inv in E as ->. apply (kept_pids k); [done|apply kept_refl|done].
  - apply (kept_pids k); [done| |done]. apply (kept_insert _ cur p); [done|by left].
Qed.

(** C32: process ids are unique.  In every state reached from a good one by
    forks (cut where they release the lock), exits, waits, sleeps, wake-ups,
    yields, scheduling decisions and kills in any order, as long as fewer than
    2^31 - 1 ids were given out, two slots never carry the same id other than 0,
    the id of a free slot, and every such id is below the next one to be given
    out. *)
Theorem pids_unique (k k' : state) i j p q : pids_ok k -> rtc tstep k k' ->
  zget (procs k') i = Some p -> zget (procs k') j = Some q -> i <> j -> p_pid p <> 0 ->
  p_pid p <> p_pid q /\ 0 < p_pid p < nextpid k'.
Proof.
  intros T Hr Hi Hj Hne H0'. assert (T' : pids_ok k') by (induction Hr; eauto using tstep_pids).
  split; [|pose proof (pid_range _ T' _ _ Hi); lia]. intros E. apply Hne. by eapply (pid_unique _ T').
Qed.

(** C33: [wait] loses no child.  In every state so reached, a process asleep in
    [wait] has no child that has exited: whoever exits, or inherits an exited
    child, wakes the waiting parent in the same critical section. *)
Theorem wait_no_lost_child (k k' : state) i p c q : kernel_ok k -> rtc pstep k k' ->
  zget (procs k') i = Some p -> p_state p = SLEEPING -> p_chan p = ChanProc i ->
  zget (procs k') c = Some q -> p_parent q = i -> p_state q <> ZOMBIE.
Proof. intros T Hr. apply (t_wait _ _ _ (reachable_ok _ _ T Hr)). Qed.

(** [kill] does lose one.  It makes its victim a zombie on the spot but wakes
    nobody: a parent asleep in [wait] stays asleep with an exited child. *)
Theorem kill_loses_wakeup (k : state) pid i p c q : ptable_lock k = false ->
  zget (procs k) i = Some p -> p_state p = SLEEPING -> p_chan p = ChanProc i ->
  find_proc (fun r => p_pid r =? pid) 0 (procs k) = Some (c, q) -> p_parent q = i -> c <> i ->
  exists k', kill pid k = Ret (0, k') /\ zget (procs k') i = Some p /\
    zget (procs k') c = Some (set_killed q 1 ZOMBIE).
Proof.
  intros Hl Hp Hs Hc Hf Hpar Hne. unfold kill, acquire_ptable. rewrite Hl. cbn [acquire_b obind with_lock procs]. rewrite Hf.
  apply find_proc_zget in Hf as [Hq _]. pose proof (zget_Some _ _ _ Hq).
  unfold put_proc. cbn [with_lock procs]. rewrite zset_Some by done. cbn [of_option obind].
  eexists. split; [done|]. cbn. split; [rewrite zget_insert_ne by lia; done|by apply zget_insert_eq].
Qed.

(** Id 0 is that of every free slot: [kill] of it makes the first one a zombie
    with no parent, which nobody waits for and [allocproc] does not take. *)
Theorem kill_zero_takes_slot (k : state) i p : ptable_lock k = false -> find_proc (fun r => p_pid r =? 0) 0 (procs k) = Some (i, p) ->
  exists k', kill 0 k = Ret (0, k') /\ procs k' = <[Z.to_nat i := set_killed p 1 ZOMBIE]> (procs k) /\ ptable_lock k' = false.
Proof.
  intros Hl Hf. unfold kill, acquire_ptable. rewrite Hl. cbn [acquire_b obind with_lock procs]. rewrite Hf.
  apply find_proc_zget in Hf as [Hq _]. pose proof (zget_Some _ _ _ Hq).
  unfold put_proc. cbn [with_lock procs]. rewrite zset_Some by done. cbn [of_option obind]. eexists. split; [done|]. done.
Qed.

Lemma drain_never_returns fuel q : mq_begin q = 0 -> forall msg (v v' : vm A), 0 < msg <= MESSAGE_MAX ->
  drain fuel q msg v <> Ret v'.
Proof.
  intros Hb. induction fuel as [|fuel IH]; intros msg v v' Hm; cbn [drain]; rewrite Hb; (destruct (Z.eqb_spec msg 0); [lia|]); [done|].
  intros Hr. ret_inv Hr. eapply IH; [|exact Hr]. unfold MESSAGE_MAX in *. destruct (Z.eqb_spec msg 64); lia.
Qed.

(** reaping a process can hang.  When the message queue of an exited child
    has wrapped so that its next free slot is slot 0, and messages are left in
    it, the loop of [wait] that frees them steps over its end: [wait] never
    returns, and it holds the table lock. *)
Theorem wait_hangs_on_wrapped_queue fuel cur (k : state) c q r k' :
  find_proc (fun p => (p_parent p =? cur) && is_state ZOMBIE p) 0 (procs k) = Some (c, q) ->
  mq_begin (p_msgqueue q) = 0 -> 0 < mq_end (p_msgqueue q) < MESSAGE_MAX ->
  wait junk fuel cur k <> Ret (r, k').
Proof.
  intros Hf Hb He Hr. unfold wait in Hr. ret_inv Hr. rewrite Hf in Hr. ret_inv Hr.
  eapply drain_never_returns; [exact Hb| |eassumption]. lia.
Qed.

(** *** The first state *)

(** A table of slots that were never used. *)
Definition blank (k : state) : Prop :=
  (exists n, procs k = repeat (Proc 0 0 0 0 0 UNUSED 0 (-1) zero_tf AtForkret ChanNull 0 (repeat 0 16) [] 0 0 0 (Queue false 0 0 []) 0 0) n) /\
  nextpid k = 1.

Lemma userinit_ok initcode (k k' : state) : blank k -> userinit junk data initcode k = Ret k' -> kernel_ok k'.
Proof.
  intros [(n & Hps) Hn] Hr. unfold userinit in Hr. ret_inv Hr. apply (allocproc_inv (-2)) in E.
  destruct (z0 =? 0); [done|]. ret_inv Hr. apply k_kalloc_inv in E3 as [v1 ->]. apply acquire_inv in E4 as ->.
  apply update_inv in E5 as (p & [Hp Hps'] & Ek). apply release_inv in Hr as ->. cbn [with_lock with_vm procs] in Hp, Hps'.
  destruct E as [[-> _]|(np & q & q' & M & _ & Hpar & [-> | ->])]; [by apply zget_Some in Hp; lia| |by apply zget_Some in Hp; lia].
  rewrite (slot_get _ _ _ _ _ (made_slot _ _ _ _ _ _ M)) in Hp. injection Hp as <-.
  destruct M as [[Mq Mps] _ _ Mpid Mnext _ _]. pose proof (zget_Some _ _ _ Mq) as Hi.
  assert (Hblank : forall j r, zget (procs k) j = Some r -> p_pid r = 0 /\ p_parent r = -1 /\ p_state r = UNUSED).
  { intros j r [_ Hl]%zget_lookup. rewrite Hps in Hl. apply list_elem_of_lookup_2, list_elem_of_In, repeat_spec in Hl as ->. done. }
  set (p1 := init_proc q' z0 z1 x0) in *. rewrite Mps, list_insert_insert_eq in Hps'.
  assert (Hg : forall j r, zget (procs x2) j = Some r -> (j = np /\ r = p1) \/ (j <> np /\ p_pid r = 0 /\ p_parent r = -1 /\ p_state r = UNUSED)).
  { intros j r Hr. rewrite Hps' in Hr. apply zget_insert in Hr as [?|[? ?%Hblank]]; [tauto|tauto|lia]. }
  assert (Hpar1 : p_parent p1 = -1) by (cbn; rewrite Hpar; by apply Hblank in Mq as (_ & ? & _)).
  assert (Hpid1 : p_pid p1 = 1) by (cbn; congruence).
  assert (Hnx : nextpid x2 = 2) by (rewrite Ek; cbn; rewrite Mnext, Hn; done).
  assert (Hin : initproc x2 = np) by (rewrite Ek; done).
  unfold kernel_ok. cbn [with_lock procs nextpid initproc]. rewrite Hnx, Hin. constructor.
  - intros i j r1 r2 [[-> ->]|[_ (F1 & _)]]%Hg [[-> ->]|[_ (F2 & _)]]%Hg; [done|rewrite Hpid1, F2; done|rewrite Hpid1, F1; done|congruence].
  - intros i r [[-> ->]|[_ (F1 & _)]]%Hg; lia.
  - lia.
  - exists p1. rewrite Hps', zget_insert_eq by done. split_and!; [done|done|right; by left].
  - intros i r Hr. pose proof (zget_Some _ _ _ Hr). apply Hg in Hr as [[-> ->]|[_ (_ & F1 & _)]]; lia.
  - intros i j r [[-> ->]|[_ (_ & _ & F1)]]%Hg Hs; [done|congruence].
  - intros i r c r2 [[-> ->]|[_ (_ & _ & F1)]]%Hg Hs; [done|congruence].
Qed.

End interleavings.

(** ** An example *)

#[local] Existing Instance ex_driver.
#[local] Existing Instance ex_allocator.

Definition ex_proc (st : procstate) (c : channel) (pid parent : Z) (q : MessageQueue) : proc :=
  Proc 0 0 0 0x80200000 0x80201000 st pid parent zero_tf AtSched c 0 (repeat 0 16) [] 0 0 0 q 0 0.

Definition empty_queue : MessageQueue := Queue false 0 0 (repeat (Msg 0 0 0) 64).

(** The first process, in state [st], and a child. *)
Definition ex_kernel (st : procstate) (c : channel) (cst : procstate) (q : MessageQueue) :=
  Kernel [ex_proc st c 1 (-1) empty_queue; ex_proc cst ChanNull 2 0 q] false 0 3 ex_vm ex_vfs.

Lemma ex_kernel_ok : kernel_ok (ex_kernel RUNNING ChanNull RUNNABLE empty_queue).
Proof.
  assert (Hg : forall i p, zget (procs (ex_kernel RUNNING ChanNull RUNNABLE empty_queue)) i = Some p ->
    (i = 0 /\ p = ex_proc RUNNING ChanNull 1 (-1) empty_queue) \/ (i = 1 /\ p = ex_proc RUNNABLE ChanNull 2 0 empty_queue)).
  { intros i p [Hi Hl]%zget_lookup. destruct (Z.to_nat i) as [|[|n]] eqn:E; cbn in Hl; [left|right|done]; (split; [lia|congruence]). }
  constructor.
  - intros i j p q [[-> ->]|[-> ->]]%Hg [[-> ->]|[-> ->]]%Hg; done.
  - intros i p [[-> ->]|[-> ->]]%Hg; cbn; lia.
  - cbn. lia.
  - exists (ex_proc RUNNING ChanNull 1 (-1) empty_queue). split_and!; [done|done|right; by right].
  - intros i p [[-> ->]|[-> ->]]%Hg; done.
  - intros i j p [[-> ->]|[-> ->]]%Hg; done.
  - intros i p c q [[-> ->]|[-> ->]]%Hg; done.
Qed.

(** The first process waits for its child. *)
Lemma ex_wait_step : rtc (pstep ex_junk_frame 0) (ex_kernel RUNNING ChanNull RUNNABLE empty_queue)
  (ex_kernel SLEEPING (ChanProc 0) RUNNABLE empty_queue).
Proof.
  apply rtc_once.
  eapply (step_wait ex_junk_frame 0 0 0 MustSleep (ex_kernel RUNNING ChanNull RUNNABLE empty_queue)
    (with_lock (ex_kernel SLEEPING (ChanProc 0) RUNNABLE empty_queue) true)); [by eexists|reflexivity].
Qed.

(** The first process waits for its child, and the child is killed. *)
Lemma ex_kill_steps : rtc (tstep ex_junk_frame 0) (ex_kernel RUNNING ChanNull RUNNABLE empty_queue)
  (Kernel [ex_proc SLEEPING (ChanProc 0) 1 (-1) empty_queue; set_killed (ex_proc RUNNABLE ChanNull 2 0 empty_queue) 1 ZOMBIE] false 0 3 ex_vm ex_vfs).
Proof.
  eapply rtc_l; [|apply rtc_once].
  - eapply (tstep_wait ex_junk_frame 0 0 0 MustSleep (ex_kernel RUNNING ChanNull RUNNABLE empty_queue)
      (with_lock (ex_kernel SLEEPING (ChanProc 0) RUNNABLE empty_queue) true)). reflexivity.
  - eapply (tstep_kill ex_junk_frame 0 2 0 (ex_kernel SLEEPING (ChanProc 0) RUNNABLE empty_queue)). reflexivity.
Qed.

Lemma pids_unique_witness : p_pid (ex_proc SLEEPING (ChanProc 0) 1 (-1) empty_queue) <> p_pid (set_killed (ex_proc RUNNABLE ChanNull 2 0 empty_queue) 1 ZOMBIE)
  /\ 0 < p_pid (ex_proc SLEEPING (ChanProc 0) 1 (-1) empty_queue) < 3.
Proof.
  apply (pids_unique ex_junk_frame 0 _ _ 0 1 (ex_proc SLEEPING (ChanProc 0) 1 (-1) empty_queue)
    (set_killed (ex_proc RUNNABLE ChanNull 2 0 empty_queue) 1 ZOMBIE) (kernel_pids_ok _ ex_kernel_ok) ex_kill_steps); done.
Defined.

(** The second slot was freed. *)
Lemma kill_zero_takes_slot_witness : exists k',
  kill 0 (Kernel [ex_proc RUNNING ChanNull 1 (-1) empty_queue; cleared (ex_proc ZOMBIE ChanNull 2 0 empty_queue)] false 0 3 ex_vm ex_vfs) = Ret (0, k') /\
  map p_state (procs k') = [RUNNING; ZOMBIE] /\ allocproc ex_junk_frame k' = Ret (-1, k').
Proof.
  set (k := Kernel [ex_proc RUNNING ChanNull 1 (-1) empty_queue; cleared (ex_proc ZOMBIE ChanNull 2 0 empty_queue)] false 0 3 ex_vm ex_vfs).
  destruct (kill_zero_takes_slot k 1 (cleared (ex_proc ZOMBIE ChanNull 2 0 empty_queue))) as (k' & E & Hp & Hl); [done|done|].
  exists k'. split; [exact E|]. split; [by rewrite Hp|]. unfold allocproc, acquire_ptable. rewrite Hl. cbn [acquire_b obind with_lock procs]. rewrite Hp.
  cbn [find_proc]. destruct k'. cbn in *. by subst.
Defined.

Lemma wait_no_lost_child_witness : p_state (ex_proc RUNNABLE ChanNull 2 0 empty_queue) <> ZOMBIE.
Proof.
  by apply (wait_no_lost_child ex_junk_frame 0 _ (ex_kernel SLEEPING (ChanProc 0) RUNNABLE empty_queue) 0
    (ex_proc SLEEPING (ChanProc 0) 1 (-1) empty_queue) 1 (ex_proc RUNNABLE ChanNull 2 0 empty_queue) ex_kernel_ok ex_wait_step).
Defined.

(** Process 2 is killed while its parent waits for it. *)
Lemma kill_loses_wakeup_witness :
  exists k', kill 2 (ex_kernel SLEEPING (ChanProc 0) RUNNABLE empty_queue) = Ret (0, k') /\
    zget (procs k') 0 = Some (ex_proc SLEEPING (ChanProc 0) 1 (-1) empty_queue) /\
    zget (procs k') 1 = Some (set_killed (ex_proc RUNNABLE ChanNull 2 0 empty_queue) 1 ZOMBIE).
Proof. by apply kill_loses_wakeup. Defined.

(** The child died with a queue that had wrapped. *)
Lemma wait_hangs_on_wrapped_queue_witness :
  ~ exists r k', wait ex_junk_frame 200 0 (ex_kernel RUNNING ChanNull ZOMBIE (Queue false 0 60 (repeat (Msg 1 10 0) 64))) = Ret (r, k').
Proof.
  intros (r & k' & E).
  refine (wait_hangs_on_wrapped_queue ex_junk_frame 200 0 _ 1
    (ex_proc ZOMBIE ChanNull 2 0 (Queue false 0 60 (repeat (Msg 1 10 0) 64))) r k' _ _ _ E); [reflexivity|reflexivity|split; reflexivity].
Defined.
