(* ===== verification/Sleeplock.v ===== *)
(** kernel/common/sleeplock.c: locks that put waiting processes to sleep.

    [acquiresleep] is cut where it sleeps: the first stretch ends with the lock
    taken or the process asleep, and a process that was woken and runs again
    goes on with [acquiresleep_resume].  [a] is the address of the lock, the
    channel its waiters sleep on.

    The theorems: at most one process holds the lock, and no process sleeps on a
    lock that is free; a release lets the waiters go on. *)

From stdpp Require Import base list gmap strings.
From Stdlib Require Import ZArith Lia.
From S2P Require Import Prelude Vm Vfs Proc.

Local Open Scope Z_scope.
Local Open Scope outcome_scope.

Record sleeplock := SleepLock { sl_lk : bool; sl_locked : bool; sl_pid : Z }.

Definition initsleeplock : sleeplock := SleepLock false false 0.

Section operations.
Context {A P S : Type} `{PageAllocator A} `{FilesystemDriver P S}.
(** The address of the lock. *)
Variable a : Z.

Local Notation state := (kernel A P S).

(** The loop, with the spinlock held: true when the lock is taken, false when
    the process goes to sleep. *)
Definition acquire_loop (cur : Z) (lk : sleeplock) (k : state) : outcome (bool * sleeplock * state) :=
  if sl_locked lk then
    '(l, k1) <- sleep cur (ChanOther a) (Some (sl_lk lk)) k ;;
    Ret (false, SleepLock (default false l) (sl_locked lk) (sl_pid lk), k1)
  else
    p <- get_proc k cur ;;
    l <- release_b (sl_lk lk) ;;
    Ret (true, SleepLock l true (p_pid p), k).

Definition acquiresleep (cur : Z) (lk : sleeplock) (k : state) : outcome (bool * sleeplock * state) :=
  l <- acquire_b (sl_lk lk) ;;
  acquire_loop cur (SleepLock l (sl_locked lk) (sl_pid lk)) k.

(** What follows when the process runs again, with the table lock held. *)
Definition acquiresleep_resume (cur : Z) (lk : sleeplock) (k : state) : outcome (bool * sleeplock * state) :=
  '(l, k1) <- sleep_resume cur (Some (sl_lk lk)) k ;;
  acquire_loop cur (SleepLock (default false l) (sl_locked lk) (sl_pid lk)) k1.

Definition releasesleep (lk : sleeplock) (k : state) : outcome (sleeplock * state) :=
  l <- acquire_b (sl_lk lk) ;;
  k1 <- wakeup (ChanOther a) k ;;
  l' <- release_b l ;;
  Ret (SleepLock l' false 0, k1).

Definition holdingsleep (cur : Z) (lk : sleeplock) (k : state) : outcome bool :=
  l <- acquire_b (sl_lk lk) ;;
  p <- get_proc k cur ;;
  _ <- release_b l ;;
  Ret (sl_locked lk && (sl_pid lk =? p_pid p)).

(** ** Interleavings *)

(** The lock, the system, and the processes that have taken the lock and not
    released it. *)
Record lock_state := Locked { l_lock : sleeplock; l_kernel : state; l_holders : list Z }.

(** Who joins the holders. *)
Definition joins (taken : bool) (cur : Z) (hs : list Z) : list Z := if taken then cur :: hs else hs.

(** A running process acquires the lock or, woken from sleep, goes on acquiring
    it; a holder releases it; the scheduler runs a process; a process yields;
    any channel is woken.  A process that sleeps or yields hands the table lock
    to the scheduler, which releases it. *)
Inductive lstep : lock_state -> lock_state -> Prop :=
| lstep_acquire cur taken lk lk' k k' hs : running k cur -> acquiresleep cur lk k = Ret (taken, lk', k') ->
    lstep (Locked lk k hs) (Locked lk' (with_lock k' false) (joins taken cur hs))
| lstep_resume cur taken lk lk' k k' hs : running k cur -> acquiresleep_resume cur lk (with_lock k true) = Ret (taken, lk', k') ->
    lstep (Locked lk k hs) (Locked lk' (with_lock k' false) (joins taken cur hs))
| lstep_release cur lk lk' k k' hs hs' : running k cur -> hs ≡ₚ cur :: hs' -> releasesleep lk k = Ret (lk', k') ->
    lstep (Locked lk k hs) (Locked lk' k' hs')
| lstep_schedule i lk k k' hs : scheduler_pick i (with_lock k true) = Ret k' -> lstep (Locked lk k hs) (Locked lk (with_lock k' false) hs)
| lstep_yield cur lk k k' hs : running k cur -> yield cur k = Ret k' -> lstep (Locked lk k hs) (Locked lk (with_lock k' false) hs)
| lstep_wakeup c lk k k' hs : wakeup c k = Ret k' -> lstep (Locked lk k hs) (Locked lk k' hs).

(** No process sleeps on the lock. *)
Definition none_waits (k : state) : Prop := forall j q, zget (procs k) j = Some q -> p_state q = SLEEPING -> p_chan q <> ChanOther a.

Definition pid_at (k : state) (i : Z) : option Z := p_pid <$> zget (procs k) i.

(** A lock that is locked has one holder, whose pid it names; no process sleeps
    on a lock that is not. *)
Definition held (locked : bool) (pid : Z) (k : state) (hs : list Z) : Prop :=
  if locked then exists i, hs = [i] /\ pid_at k i = Some pid else hs = [] /\ none_waits k.

Definition lock_inv (s : lock_state) : Prop :=
  sl_lk (l_lock s) = false /\ ptable_lock (l_kernel s) = false /\
  held (sl_locked (l_lock s)) (sl_pid (l_lock s)) (l_kernel s) (l_holders s).

(** A process that does not sleep on the lock takes the place of another. *)
Lemma none_waits_insert (k : state) i p : none_waits k -> (p_state p = SLEEPING -> p_chan p <> ChanOther a) -> 0 <= i ->
  none_waits (with_procs k (<[Z.to_nat i := p]> (procs k))).
Proof.
  intros Hn Hp Hi j q Hj Hs. cbn [with_procs procs] in Hj. destruct (Z.eq_dec j i) as [->|Hne].
  - pose proof (zget_Some _ _ _ Hj). rewrite zlen_insert in *. rewrite zget_insert_eq in Hj by done. injection Hj as <-. auto.
  - rewrite zget_insert_ne in Hj by done. eauto.
Qed.

Lemma held_insert locked pid (k : state) hs i p p' : held locked pid k hs -> zget (procs k) i = Some p -> p_pid p' = p_pid p ->
  (locked = false -> p_state p' = SLEEPING -> p_chan p' <> ChanOther a) ->
  held locked pid (with_procs k (<[Z.to_nat i := p']> (procs k))) hs.
Proof.
  intros Hh Hg Hpid Hs. pose proof (zget_Some _ _ _ Hg). destruct locked.
  - destruct Hh as (j & -> & Hj). exists j. split; [done|]. revert Hj. unfold pid_at. cbn [with_procs procs]. destruct (Z.eq_dec j i) as [->|Hne].
    + rewrite Hg, zget_insert_eq by done. cbn. congruence.
    + rewrite zget_insert_ne by (done || lia). done.
  - destruct Hh as [-> Hn]. split; [done|]. apply none_waits_insert; [done|auto|lia].
Qed.

Lemma none_waits_wakeup c (k : state) l : none_waits k \/ c = ChanOther a -> none_waits (with_procs (with_lock k l) (wakeup1 c (procs k))).
Proof.
  intros Hk j q Hj Hs. cbn [with_procs procs with_lock] in Hj. apply wakeup1_get in Hj as (p & Hp & Hw & _ & Hc).
  destruct Hk as [Hk| ->]; [|by apply Hc]. pose proof (woken_sleeping _ _ Hw Hs). destruct Hw as (_ & -> & _). eauto.
Qed.

Lemma held_wakeup locked pid c (k : state) l hs : held locked pid k hs -> held locked pid (with_procs (with_lock k l) (wakeup1 c (procs k))) hs.
Proof.
  destruct locked; [|intros [-> Hn]; split; [done|]; apply none_waits_wakeup; auto].
  intros (i & -> & Hi). exists i. split; [done|]. unfold pid_at in *. cbn [with_procs procs with_lock].
  destruct (zget (procs k) i) as [p|] eqn:Hp; [|done]. destruct (wakeup1_zget c _ _ _ Hp) as [q E]. rewrite E.
  apply wakeup1_get in E as (p' & Hp' & (Hq & _) & _). cbn in *. congruence.
Qed.

Lemma wakeup_inv c (k k' : state) : wakeup c k = Ret k' -> k' = with_procs (with_lock k false) (wakeup1 c (procs k)).
Proof. unfold wakeup. intros Hr. ret_inv Hr. apply acquire_inv in E as ->. by apply release_inv in Hr as ->. Qed.

(** The spinlock is released by [sleep] and taken again after it. *)
Lemma sleep_lk cur c l (k : state) lk' k' : sleep cur c (Some l) k = Ret (lk', k') -> lk' = Some false.
Proof.
  unfold sleep. destruct (cur <? 0); [done|]. intros Hr. ret_inv Hr. ret_inv E. unfold release_b in *. destruct l; congruence.
Qed.

Lemma resume_inv cur l (k : state) lk' k' : sleep_resume cur (Some l) k = Ret (lk', k') ->
  lk' = Some true /\ exists p, 0 <= cur /\ zget (procs k) cur = Some p /\
    k' = with_procs (with_lock k false) (<[Z.to_nat cur := set_chan p ChanNull (p_state p)]> (procs k)).
Proof.
  unfold sleep_resume. intros Hr. ret_inv Hr. apply put_proc_inv in E0 as [? ->]. apply release_inv in E1 as ->.
  unfold acquire_b in E2. unfold get_proc in E. destruct (zget (procs k) cur) as [p|]; [|done]. injection E as <-.
  destruct l; [done|]. injection E2 as <-. split; [done|]. exists p. split_and!; [lia|done..].
Qed.

(** The invariant at the start of the loop, where the spinlock is held. *)
Lemma acquire_loop_inv cur taken (locked : bool) pid lk' (k k' : state) hs :
  held locked pid k hs ->
  acquire_loop cur (SleepLock true locked pid) k = Ret (taken, lk', k') ->
  lock_inv (Locked lk' (with_lock k' false) (joins taken cur hs)).
Proof.
  intros Hh. unfold acquire_loop. cbn [sl_locked sl_lk sl_pid]. intros Hr. destruct locked; ret_inv Hr.
  - pose proof E as E'. apply sleep_lk in E as ->. split_and!; [done..|]. cbn. apply sleep_inv in E' as (p & l & Hg & ->).
    apply (held_insert true pid (with_lock (with_lock k l) false) _ _ p); done.
  - destruct Hh as [-> Hn]. injection E0 as <-. split_and!; try done. cbn. exists cur. split; [done|].
    unfold pid_at. cbn. unfold get_proc in E. destruct (zget _ cur) as [q|]; [|done]. by injection E as ->.
Qed.

Lemma lstep_inv s s' : lstep s s' -> lock_inv s -> lock_inv s'.
Proof.
  intros Hstep (Hlk & Hpt & Hh). destruct Hstep as [cur taken [lk locked pid] lk' k k' hs _ Hr|cur taken [lk locked pid] lk' k k' hs Hrun Hr
    |cur [lk locked pid] lk' k k' hs hs' _ Hp Hr|i [lk locked pid] k k' hs Hr|cur [lk locked pid] k k' hs _ Hr|c [lk locked pid] k k' hs Hr];
    cbn [l_lock l_kernel l_holders sl_lk sl_locked sl_pid] in *; subst lk.
  - by apply (acquire_loop_inv cur taken locked pid lk' k).
  - unfold acquiresleep_resume in Hr. ret_inv Hr. cbn [sl_lk sl_locked sl_pid] in *. apply resume_inv in E as [-> (p & Hc & Hg & ->)].
    eapply acquire_loop_inv; [|exact Hr]. apply (held_insert locked pid (with_lock (with_lock k true) false) _ _ p); done.
  - unfold releasesleep in Hr. cbn [sl_lk acquire_b obind] in Hr. ret_inv Hr. apply wakeup_inv in E as ->.
    cbn [release_b] in E0. injection E0 as <-. split_and!; try done. cbn. split; [|by apply none_waits_wakeup; right].
    destruct locked; [|destruct Hh as [-> _]; by apply Permutation_nil_cons in Hp]. destruct Hh as (i & -> & _).
    apply Permutation_length in Hp. by destruct hs'.
  - split_and!; [done..|]. cbn. unfold scheduler_pick in Hr. ret_inv Hr. unfold get_proc in E.
    destruct (zget _ i) as [q|] eqn:Eg; [|done]. injection E as ->. destruct (negb _); [by injection Hr as <-|].
    ret_inv Hr. apply put_proc_inv in Hr as [? ->].
    apply (held_insert locked pid (with_lock (with_vm (with_lock k true) x0) false) _ _ x); done.
  - split_and!; [done..|]. cbn. unfold yield in Hr. ret_inv Hr. apply acquire_inv in E as ->. apply update_inv in E0 as (p & [Hg Hp] & ->).
    rewrite Hp. apply (held_insert locked pid (with_lock (with_lock k true) false) _ _ p); done.
  - apply wakeup_inv in Hr as ->. split_and!; [done..|]. cbn. by apply held_wakeup.
Qed.
Lemma lsteps_inv s s' : rtc lstep s s' -> lock_inv s -> lock_inv s'.
Proof. induction 1; eauto using lstep_inv. Qed.

Lemma init_lock_inv (k : state) : ptable_lock k = false -> none_waits k -> lock_inv (Locked initsleeplock k []).
Proof. intros Hl Hn. done. Qed.

(** C17: Mutual exclusion, for any interleaving of acquisitions, releases, context
    switches and wakeups from a lock just initialised: at most one process holds
    the lock, it is locked exactly while one does, [holdingsleep] says so of the
    holder, and while it is free no process is left asleep on it. *)
Theorem sleeplock_exclusive (k : state) s : ptable_lock k = false -> none_waits k -> rtc lstep (Locked initsleeplock k []) s ->
  (length (l_holders s) <= 1)%nat /\
  (sl_locked (l_lock s) = true <-> l_holders s <> []) /\
  (forall cur, cur ∈ l_holders s -> holdingsleep cur (l_lock s) (l_kernel s) = Ret true) /\
  (sl_locked (l_lock s) = false -> none_waits (l_kernel s)).
Proof.
  intros Hl Hn Hs. destruct (lsteps_inv _ _ Hs (init_lock_inv k Hl Hn)) as (Hlk & _ & Hh). unfold held in Hh.
  destruct s as [[lk locked pid] k' hs]. cbn [l_lock l_kernel l_holders sl_lk sl_locked sl_pid] in *. subst lk. destruct locked.
  - destruct Hh as (i & -> & Hi). split_and!; [done|by split|intros cur ->%list_elem_of_singleton|done].
    unfold holdingsleep, get_proc, pid_at in *. destruct (zget _ i); [|done]. injection Hi as <-.
    cbn [sl_lk sl_locked sl_pid acquire_b of_option obind release_b andb]. by rewrite Z.eqb_refl.
  - destruct Hh as [-> Hh]. split_and!; [cbn; lia|by split|by intros cur ?%not_elem_of_nil|done].
Qed.

(** A process asleep on the channel, after a wakeup. *)
Lemma woken_at c ps j q : zget ps j = Some q -> p_state q = SLEEPING -> p_chan q = c -> zget (wakeup1 c ps) j = Some (set_state q RUNNABLE).
Proof.
  intros [Hj Hl]%zget_lookup Hs Hc. apply zget_lookup. split; [done|]. unfold wakeup1. rewrite list_lookup_fmap, Hl. cbn. unfold is_state. rewrite Hs, Hc, !bool_decide_true by done. done.
Qed.

(** A process that was made runnable is picked and goes on where it slept, with
    the lock free. *)
Lemma woken_takes j q (k : state) : zget (procs k) j = Some q -> p_state q = RUNNABLE -> p_kstack q <> 0 -> p_pgdir q <> 0 ->
  exists k1 k2, scheduler_pick j (with_lock k true) = Ret k1 /\ running k1 j /\
    acquiresleep_resume j (SleepLock false false 0) k1 = Ret (true, SleepLock false true (p_pid q), k2) /\ running k2 j.
Proof.
  intros Hj Hs Hks Hpd. pose proof (zget_Some _ _ _ Hj) as Hr. unfold scheduler_pick, get_proc, is_state, switchuvm. cbn [with_lock procs]. rewrite Hj. cbn [of_option obind].
  rewrite Hs, bool_decide_true by done. cbn [negb]. destruct (Z.eqb_spec (p_kstack q) 0); [done|]. destruct (Z.eqb_spec (p_pgdir q) 0); [done|]. cbn [obind].
  unfold put_proc. cbn [with_vm with_lock procs]. rewrite zset_Some by done. cbn [of_option obind]. eexists _, _. split; [reflexivity|].
  split; [eexists; cbn [with_procs procs]; rewrite zget_insert_eq by done; by split|].
  unfold acquiresleep_resume, sleep_resume, get_proc. cbn [with_procs procs sl_lk]. rewrite zget_insert_eq by done. cbn [of_option obind].
  unfold put_proc. cbn [with_procs procs]. rewrite zset_Some by (by rewrite zlen_insert). cbn [of_option obind].
  unfold release_ptable. cbn [with_procs ptable_lock with_vm with_lock obind acquire_b release_b]. unfold acquire_loop, get_proc. cbn [sl_locked sl_lk sl_pid default with_lock with_procs procs release_b obind].
  rewrite zget_insert_eq by (by rewrite zlen_insert). cbn [of_option obind release_b]. split; [reflexivity|].
  eexists. cbn [with_procs with_lock procs]. rewrite zget_insert_eq by (by rewrite zlen_insert). by split.
Qed.

(** C18: Progress: in any state the lock can reach, the holder's [releasesleep]
    returns and makes every process asleep on the lock runnable, and the first
    process to run after it takes the lock without sleeping: a waiter (a process
    with a kernel stack and a page table), when the scheduler picks it and it
    goes on in [acquiresleep] where it slept, and any process that calls
    [acquiresleep] afresh. *)
Theorem sleeplock_progress (k : state) s : ptable_lock k = false -> none_waits k -> rtc lstep (Locked initsleeplock k []) s ->
  exists lk' k', releasesleep (l_lock s) (l_kernel s) = Ret (lk', k') /\
  (forall j q, zget (procs (l_kernel s)) j = Some q -> p_state q = SLEEPING -> p_chan q = ChanOther a ->
    exists q', zget (procs k') j = Some q' /\ p_state q' = RUNNABLE) /\
  (forall j q, zget (procs (l_kernel s)) j = Some q -> p_state q = SLEEPING -> p_chan q = ChanOther a -> p_kstack q <> 0 -> p_pgdir q <> 0 ->
    exists k1 k2, scheduler_pick j (with_lock k' true) = Ret k1 /\ running k1 j /\
      acquiresleep_resume j lk' k1 = Ret (true, SleepLock false true (p_pid q), k2) /\ running k2 j) /\
  (forall cur p, zget (procs k') cur = Some p -> acquiresleep cur lk' k' = Ret (true, SleepLock false true (p_pid p), k')).
Proof.
  intros Hl Hn Hs. destruct (lsteps_inv _ _ Hs (init_lock_inv k Hl Hn)) as (Hlk & Hpt & _).
  destruct s as [[lk locked pid] k0 hs]. cbn [l_lock l_kernel l_holders sl_lk sl_locked sl_pid] in *. subst lk.
  unfold releasesleep, wakeup, acquire_ptable, release_ptable. cbn. rewrite Hpt. cbn. eexists _, _. split; [done|]. split; [|split].
  - intros j q Hj Hq Hc. exists (set_state q RUNNABLE). split; [|done]. by apply woken_at.
  - intros j q Hj Hq Hc Hks Hpd. pose proof (woken_at _ _ _ _ Hj Hq Hc) as Hj'. by apply (woken_takes j (set_state q RUNNABLE)).
  - intros cur p Hp. unfold acquiresleep, acquire_loop, get_proc. cbn [sl_lk sl_locked sl_pid acquire_b obind]. by rewrite Hp.
Qed.
End operations.

(** ** Examples *)

Definition ex_lock_kernel (st : procstate) (c : channel) :=
  Kernel [ex_proc RUNNING ChanNull 1 (-1) empty_queue; ex_proc st c 2 0 empty_queue] false 0 3 ex_vm ex_vfs.

Lemma ex_none_waits st : st <> SLEEPING -> none_waits 4096 (ex_lock_kernel st ChanNull).
Proof. intros Hst j q [Hj Hl]%zget_lookup Hs. destruct (Z.to_nat j) as [|[|n]]; cbn in Hl; try injection Hl as <-; done. Qed.

(** The first process takes the lock and the second goes to sleep on it. *)
Lemma ex_lock_steps : rtc (lstep 4096) (Locked initsleeplock (ex_lock_kernel RUNNING ChanNull) [])
  (Locked (SleepLock false true 1) (ex_lock_kernel SLEEPING (ChanOther 4096)) [0]).
Proof.
  eapply rtc_l; [|apply rtc_once].
  - eapply (lstep_acquire 4096 0 true _ (SleepLock false true 1) _ (ex_lock_kernel RUNNING ChanNull)); [by eexists|reflexivity].
  - eapply (lstep_acquire 4096 1 false _ (SleepLock false true 1) _ (with_lock (ex_lock_kernel SLEEPING (ChanOther 4096)) true));
      [by eexists|reflexivity].
Qed.

Lemma sleeplock_exclusive_witness : holdingsleep 0 (SleepLock false true 1) (ex_lock_kernel SLEEPING (ChanOther 4096)) = Ret true.
Proof.
  apply (sleeplock_exclusive 4096 (ex_lock_kernel RUNNING ChanNull) _ eq_refl (ex_none_waits RUNNING ltac:(done)) ex_lock_steps). cbn. by apply list_elem_of_singleton.
Defined.

Lemma sleeplock_progress_witness :
  exists lk' k', releasesleep 4096 (SleepLock false true 1) (ex_lock_kernel SLEEPING (ChanOther 4096)) = Ret (lk', k') /\
  exists k1 k2, scheduler_pick 1 (with_lock k' true) = Ret k1 /\ acquiresleep_resume 4096 1 lk' k1 = Ret (true, SleepLock false true 2, k2).
Proof.
  destruct (sleeplock_progress 4096 (ex_lock_kernel RUNNING ChanNull) _ eq_refl (ex_none_waits RUNNING ltac:(done)) ex_lock_steps) as (lk' & k' & Hr & _ & Hw & _).
  exists lk', k'. split; [exact Hr|]. destruct (Hw 1 _ eq_refl eq_refl eq_refl ltac:(done) ltac:(done)) as (k1 & k2 & E1 & _ & E2 & _). by exists k1, k2.
Defined.
