(* ===== verification/Virtio.v ===== *)
(** kernel/driver/virtio/virtio.c and virtio-blk.c: the queue of a virtio device
    and the requests of the block driver.

    A queue is shared with the device: a table of descriptors, the ring of
    available chains that the driver fills and the ring of used ones that the
    device fills.  A request is a chain of three descriptors: a header on the
    stack of the caller, the buffer, and a status byte.  The caller sleeps on the
    buffer until the interrupt handler has found its chain in the used ring; the
    request is cut there.  Discovery of the device and its registers are in
    [VirtioPci].  The device is a step of the interleavings: it takes chains from the
    available ring in order, completes them in any order, and changes only memory
    that a descriptor of the chain lets it write.

    The theorems: in every reachable state the chains in the queue are apart from
    each other and intact, with the header the caller wrote; the interrupt handler
    returns, frees the chains that are done and wakes who waits for them. *)

From stdpp Require Import base list gmap strings.
From Stdlib Require Import ZArith Lia.
From S2P Require Import Prelude Mmu Vm Vfs Proc Sleeplock.

Local Open Scope Z_scope.
Local Open Scope outcome_scope.

(** ** Queues *)

Definition VIRTIO_QUEUE_SIZE_MAX : Z := 256.
Definition VIRTQ_DESC_F_NEXT : Z := 1.
Definition VIRTQ_DESC_F_WRITE : Z := 2.

Record VirtqDesc := Desc { d_addr : Z; d_len : Z; d_flags : Z; d_next : Z }.

Record VirtioQueue := VQueue {
  q_size : Z;
  q_desc : list VirtqDesc;
  avail_idx : Z;
  avail_ring : list Z;
  used_idx : Z;
  used_ring : list (Z * Z)
}.

Definition with_desc (q : VirtioQueue) (ds : list VirtqDesc) : VirtioQueue :=
  VQueue (q_size q) ds (avail_idx q) (avail_ring q) (used_idx q) (used_ring q).

Definition virtio_queue_avail_insert (desc : Z) (q : VirtioQueue) : outcome VirtioQueue :=
  ring <- of_option (zset (avail_ring q) (avail_idx q mod q_size q) (u16 desc)) ;;
  Ret (VQueue (q_size q) (q_desc q) (u16 (avail_idx q + 1)) ring (used_idx q) (used_ring q)).

Definition set_addr (d : VirtqDesc) (a : Z) : VirtqDesc := Desc a (d_len d) (d_flags d) (d_next d).

(** The first free descriptor from [j] on, of [n] more. *)
Fixpoint find_desc (n : nat) (j : Z) (ds : list VirtqDesc) : outcome (option Z) :=
  match n with
  | O => Ret None
  | S n' => d <- of_option (zget ds j) ;; if d_addr d =? 0 then Ret (Some j) else find_desc n' (j + 1) ds
  end.

(** [num] descriptors, marked; [None] when they run out. *)
Fixpoint virtio_alloc_desc (num : nat) (q : VirtioQueue) : outcome (option (list Z) * VirtioQueue) :=
  match num with
  | O => Ret (Some [], q)
  | S num' =>
    r <- find_desc (Z.to_nat (q_size q)) 0 (q_desc q) ;;
    match r with
    | None => Ret (None, q)
    | Some j =>
      d <- of_option (zget (q_desc q) j) ;;
      ds <- of_option (zset (q_desc q) j (set_addr d 0xffffffff)) ;;
      '(r', q') <- virtio_alloc_desc num' (with_desc q ds) ;;
      Ret (cons j <$> r', q')
    end
  end.

(** Freeing a chain of at most [n] + 1 descriptors. *)
Fixpoint virtio_free_desc (n : nat) (desc : Z) (q : VirtioQueue) : outcome VirtioQueue :=
  d <- of_option (zget (q_desc q) desc) ;;
  ds <- of_option (zset (q_desc q) desc (set_addr d 0)) ;;
  if Z.land (d_flags d) VIRTQ_DESC_F_NEXT =? 0 then Ret (with_desc q ds) else
  match n with
  | O => NoFuel
  | S n' => virtio_free_desc n' (d_next d) (with_desc q ds)
  end.

(** What [virtio_init_queue] leaves in the three pages of the queue. *)
Definition new_queue (size : Z) : VirtioQueue :=
  VQueue size (repeat (Desc 0 0 0 0) (Z.to_nat VIRTIO_QUEUE_SIZE_MAX)) 0 (repeat 0 (Z.to_nat VIRTIO_QUEUE_SIZE_MAX)) 0
    (repeat (0, 0) (Z.to_nat VIRTIO_QUEUE_SIZE_MAX)).

(** ** The block driver *)

Definition VIRTIO_BLK_T_IN : Z := 0.
Definition VIRTIO_BLK_T_OUT : Z := 1.

(** The device, its lock, how far the interrupt handler has looked, objects in
    physical memory, and the processes.  The model is of a system with one such
    device: [vlast] is a variable that all devices share in the source
    ([second_disk_not_served]). *)
Record virtio (A P S : Type) := Virtio {
  requestq : VirtioQueue;
  vlock : bool;
  vlast : Z;
  vmem : gmap Z (list Z);
  vk : kernel A P S
}.
Arguments Virtio {A P S}.
Arguments requestq {A P S}.
Arguments vlock {A P S}.
Arguments vlast {A P S}.
Arguments vmem {A P S}.
Arguments vk {A P S}.

(** [buf0]: type, reserved word, sector. *)
Definition header (type sect : Z) : list Z := le_bytes 4 type ++ le_bytes 4 0 ++ le_bytes 8 sect.

Section driver.
Context {A P S : Type}.

Local Notation state := (virtio A P S).

Definition with_queue (s : state) (q : VirtioQueue) : state := Virtio q (vlock s) (vlast s) (vmem s) (vk s).

Definition set_desc (q : VirtioQueue) (j : Z) (d : VirtqDesc) : outcome VirtioQueue :=
  ds <- of_option (zset (q_desc q) j d) ;; Ret (with_desc q ds).

(** Up to where the caller sleeps, or at boot, when there is no process, starts to
    wait for the used index to change.  [hdr] and [status] are the physical
    addresses of the two objects on the stack. *)
Definition virtio_blk_req (cur : option Z) (type sect count dest hdr status : Z) (s : state) : outcome state :=
  let m := <[hdr := header type sect]> (vmem s) in
  '(r, q) <- virtio_alloc_desc 3 (requestq s) ;;
  match r with
  | Some [d0; d1; d2] =>
    q0 <- set_desc q d0 (Desc hdr 16 VIRTQ_DESC_F_NEXT (u16 d1)) ;;
    q1 <- set_desc q0 d1 (Desc dest (u32 (512 * count))
      (if type =? VIRTIO_BLK_T_IN then Z.lor VIRTQ_DESC_F_NEXT VIRTQ_DESC_F_WRITE else VIRTQ_DESC_F_NEXT) (u16 d2)) ;;
    q2 <- set_desc q1 d2 (Desc status 1 VIRTQ_DESC_F_WRITE 0) ;;
    q3 <- virtio_queue_avail_insert d0 q2 ;;
    match cur with
    | Some c =>
      '(l, k) <- sleep c (ChanOther (P2V dest)) (Some (vlock s)) (vk s) ;;
      Ret (Virtio q3 (default false l) (vlast s) m k)
    | None => Ret (Virtio q3 (vlock s) (vlast s) m (vk s))
    end
  | _ => Panic "virtio-blk out of desc"
  end.

(** The first stretch of a read or a write. *)
Definition virtio_blk_start (type : Z) (cur : option Z) (begin count buf hdr status : Z) (s : state) : outcome state :=
  if (buf <? KERNBASE) || (KERNBASE + PHYSTOP <? buf) || negb (buf mod PGSIZE =? 0) then Panic "virtio dma" else
  if (count =? 0) || (8 <? count) then Panic "virtio count" else
  l <- acquire_b (vlock s) ;;
  virtio_blk_req cur type begin count (V2P buf) hdr status (Virtio (requestq s) l (vlast s) (vmem s) (vk s)).

Definition virtio_blk_read := virtio_blk_start VIRTIO_BLK_T_IN.
Definition virtio_blk_write := virtio_blk_start VIRTIO_BLK_T_OUT.

(** What both do at the end, with the lock held: a write that failed reports a
    failed read. *)
Definition virtio_blk_end (status : Z) (s : state) : outcome (Z * state) :=
  l <- release_b (vlock s) ;;
  st <- of_option (vmem s !! status ≫= head) ;;
  Ret (if st =? 0 then 0 else ERROR_READ_FAIL, Virtio (requestq s) l (vlast s) (vmem s) (vk s)).

(** The caller runs again. *)
Definition virtio_blk_resume (cur status : Z) (s : state) : outcome (Z * state) :=
  '(l, k) <- sleep_resume cur (Some (vlock s)) (vk s) ;;
  virtio_blk_end status (Virtio (requestq s) (default false l) (vlast s) (vmem s) k).

(** At boot: [None] while the used index is still [prev]. *)
Definition virtio_blk_wait (prev status : Z) (s : state) : outcome (option (Z * state)) :=
  if used_idx (requestq s) =? prev then Ret None else r <- virtio_blk_end status s ;; Ret (Some r).

(** One used chain: wake who waits for its second descriptor, and free it. *)
Definition intr_one (s : state) : outcome state :=
  let q := requestq s in
  '(id, _) <- of_option (zget (used_ring q) (vlast s mod q_size q)) ;;
  d <- of_option (zget (q_desc q) id) ;;
  k <- (if Z.land (d_flags d) VIRTQ_DESC_F_NEXT =? 0 then Ret (vk s)
        else d1 <- of_option (zget (q_desc q) (d_next d)) ;; wakeup (ChanOther (P2V (u32 (d_addr d1)))) (vk s)) ;;
  q' <- virtio_free_desc (length (q_desc q)) (s32 id) q ;;
  Ret (Virtio q' (vlock s) (u16 (vlast s + 1)) (vmem s) k).

Fixpoint intr_loop (n : nat) (s : state) : outcome state :=
  if vlast s =? used_idx (requestq s) then Ret s else
  match n with
  | O => NoFuel
  | Datatypes.S n' => s' <- intr_one s ;; intr_loop n' s'
  end.

Definition virtio_blk_requestq_intr (s : state) : outcome state :=
  l <- acquire_b (vlock s) ;;
  s1 <- intr_loop (Z.to_nat (u16 (used_idx (requestq s) - vlast s))) (Virtio (requestq s) l (vlast s) (vmem s) (vk s)) ;;
  l' <- release_b (vlock s1) ;;
  Ret (Virtio (requestq s1) l' (vlast s1) (vmem s1) (vk s1)).
End driver.

(** ** Interleavings *)

(** The descriptors of the chain from [h]. *)
Inductive in_chain (q : VirtioQueue) : Z -> VirtqDesc -> Prop :=
| chain_here h d : zget (q_desc q) h = Some d -> in_chain q h d
| chain_next h d d' : zget (q_desc q) h = Some d -> Z.land (d_flags d) VIRTQ_DESC_F_NEXT <> 0 -> in_chain q (d_next d) d' -> in_chain q h d'.

(** What the device may write to complete the chain from [h]. *)
Definition writable (q : VirtioQueue) (h a : Z) : Prop := exists d, in_chain q h d /\ Z.land (d_flags d) VIRTQ_DESC_F_WRITE <> 0 /\ d_addr d = a.

(** The driver with the state of the device: how far it has looked in the
    available ring, and the chains it works on. *)
Record vstate (A P S : Type) := VState { vd : virtio A P S; dev_pos : Z; pending : list Z }.
Arguments VState {A P S}.
Arguments vd {A P S}.
Arguments dev_pos {A P S}.
Arguments pending {A P S}.

Section steps.
Context {A P S : Type}.

Local Notation state := (virtio A P S).

Definition with_k (s : state) (k : kernel A P S) : state := Virtio (requestq s) (vlock s) (vlast s) (vmem s) k.

(** Addresses no descriptor in use has. *)
Definition fresh (q : VirtioQueue) (a : Z) : Prop :=
  0 < a < 2 ^ 32 /\ forall j d, zget (q_desc q) j = Some d -> d_addr d <> 0 -> d_addr d <> a.

Definition complete_queue (q : VirtioQueue) (ring : list (Z * Z)) : VirtioQueue :=
  VQueue (q_size q) (q_desc q) (avail_idx q) (avail_ring q) (u16 (used_idx q + 1)) ring.

(** What a caller asked for: the arguments of [virtio_blk_read] or
    [virtio_blk_write], and the two objects on its stack. *)
Record call := Call { c_type : Z; c_begin : Z; c_count : Z; c_buf : Z; c_hdr : Z; c_status : Z }.

(** A step, with the call it starts, if any.
    A process starts a request, with objects of its own for the three parts, and
    hands the table lock to the scheduler; it goes on when it runs again; the
    device takes a chain, and completes one; the interrupt handler runs; other
    parts of the kernel change the processes. *)
Inductive vstep : list call -> vstate A P S -> vstate A P S -> Prop :=
| vstep_start type cur begin count buf hdr status s s' dp pe : type = VIRTIO_BLK_T_IN \/ type = VIRTIO_BLK_T_OUT ->
    fresh (requestq s) hdr -> fresh (requestq s) (V2P buf) -> fresh (requestq s) status -> NoDup [hdr; V2P buf; status] ->
    virtio_blk_start type (Some cur) begin count buf hdr status s = Ret s' ->
    vstep [Call type begin count buf hdr status] (VState s dp pe) (VState (with_k s' (with_lock (vk s') false)) dp pe)
| vstep_resume cur status r s s' dp pe : virtio_blk_resume cur status (with_k s (with_lock (vk s) true)) = Ret (r, s') ->
    vstep [] (VState s dp pe) (VState s' dp pe)
| vstep_take h s dp pe : dp <> avail_idx (requestq s) -> zget (avail_ring (requestq s)) (dp mod q_size (requestq s)) = Some h ->
    vstep [] (VState s dp pe) (VState s (u16 (dp + 1)) (pe ++ [h]))
| vstep_complete h n m ring s dp pe1 pe2 : (forall a, m !! a <> vmem s !! a -> writable (requestq s) h a) ->
    zset (used_ring (requestq s)) (used_idx (requestq s) mod q_size (requestq s)) (h, n) = Some ring ->
    vstep [] (VState s dp (pe1 ++ h :: pe2)) (VState (Virtio (complete_queue (requestq s) ring) (vlock s) (vlast s) m (vk s)) dp (pe1 ++ pe2))
| vstep_intr s s' dp pe : virtio_blk_requestq_intr s = Ret s' -> vstep [] (VState s dp pe) (VState s' dp pe)
| vstep_kernel k s dp pe : ptable_lock k = false -> vstep [] (VState s dp pe) (VState (with_k s k) dp pe).

(** A run, with the calls it started, in order. *)
Inductive vrun : list call -> vstate A P S -> vstate A P S -> Prop :=
| vrun_nil s : vrun [] s s
| vrun_step cs c s s1 s2 : vrun cs s s1 -> vstep c s1 s2 -> vrun (cs ++ c) s s2.
End steps.

(** ** Requests *)

(** A request in the queue: its descriptors and what the driver put in them. *)
Record request := Req { r_head : Z; r_data : Z; r_stat : Z; r_type : Z; r_sect : Z; r_count : Z; r_dest : Z; r_hdr : Z; r_status : Z }.

Definition ids (r : request) : list Z := [r_head r; r_data r; r_stat r].
Definition addrs (r : request) : list Z := [r_hdr r; r_dest r; r_status r].

Definition data_flags (type : Z) : Z := if type =? VIRTIO_BLK_T_IN then Z.lor VIRTQ_DESC_F_NEXT VIRTQ_DESC_F_WRITE else VIRTQ_DESC_F_NEXT.

Record chain_ok (q : VirtioQueue) (r : request) : Prop := {
  chain_head : zget (q_desc q) (r_head r) = Some (Desc (r_hdr r) 16 VIRTQ_DESC_F_NEXT (r_data r));
  chain_data : zget (q_desc q) (r_data r) = Some (Desc (r_dest r) (u32 (512 * r_count r)) (data_flags (r_type r)) (r_stat r));
  chain_stat : zget (q_desc q) (r_stat r) = Some (Desc (r_status r) 1 VIRTQ_DESC_F_WRITE 0)
}.

(** The sizes the driver sets up; that of the queue is a power of two, as the
    device requires. *)
Record queue_ok (q : VirtioQueue) : Prop := {
  q_size_range : 0 < q_size q <= VIRTIO_QUEUE_SIZE_MAX;
  q_size_power : 2 ^ 16 mod q_size q = 0;
  q_desc_len : zlen (q_desc q) = VIRTIO_QUEUE_SIZE_MAX;
  q_avail_len : zlen (avail_ring q) = VIRTIO_QUEUE_SIZE_MAX;
  q_used_len : zlen (used_ring q) = VIRTIO_QUEUE_SIZE_MAX
}.

(** The requests in the queue, apart from each other; the other descriptors are
    free. *)
Record chains (q : VirtioQueue) (rs : list request) : Prop := {
  c_ids : NoDup (rs ≫= ids);
  c_range : Forall (fun i => 0 <= i < q_size q) (rs ≫= ids);
  c_chain : Forall (chain_ok q) rs;
  c_free j d : 0 <= j < q_size q -> zget (q_desc q) j = Some d -> j ∉ (rs ≫= ids) -> d_addr d = 0;
  c_addrs : NoDup (rs ≫= addrs);
  c_nonzero : Forall (fun a => 0 < a < 2 ^ 32) (rs ≫= addrs)
}.

Lemma chains_perm q rs rs' : rs ≡ₚ rs' -> chains q rs -> chains q rs'.
Proof.
  intros Hp [C1 C2 C3 C4 C5 C6]. constructor.
  - by rewrite <- Hp.
  - by rewrite <- Hp.
  - by rewrite <- Hp.
  - intros j d Hj Hd Hn. eapply C4; [done|done|]. by rewrite Hp.
  - by rewrite <- Hp.
  - by rewrite <- Hp.
Qed.

(** Every request has three descriptors of its own. *)
Lemma chains_bound q rs : chains q rs -> 0 < q_size q -> 3 * zlen rs <= q_size q.
Proof.
  intros [C1 C2 _ _ _ _] Hs. assert (Hl : length (rs ≫= ids) = (3 * length rs)%nat).
  { clear. induction rs as [|r rs IH]; [done|]. rewrite bind_cons, length_app, IH. cbn. lia. }
  assert (Hsub : rs ≫= ids ⊆ seqZ 0 (q_size q)).
  { intros i Hi. eapply Forall_forall in C2; [|done]. apply elem_of_seqZ. lia. }
  assert (length (rs ≫= ids) <= length (seqZ 0 (q_size q)))%nat as Hle.
  { apply NoDup_incl_length; [by apply NoDup_ListNoDup|]. intros i Hi%list_elem_of_In. apply list_elem_of_In. by apply Hsub. }
  rewrite Hl, length_seqZ in Hle. unfold zlen. lia.
Qed.

(** ** The operations on the queue *)

(** Descriptors [ds] changed at the indices [l] only. *)
Definition same_desc (l : list Z) (ds ds' : list VirtqDesc) : Prop := zlen ds' = zlen ds /\ forall j, j ∉ l -> zget ds' j = zget ds j.

Lemma same_desc_trans l l' ds1 ds2 ds3 : same_desc l ds1 ds2 -> same_desc l' ds2 ds3 -> same_desc (l ++ l') ds1 ds3.
Proof. intros [L1 H1] [L2 H2]. split; [lia|]. intros j Hj. rewrite elem_of_app in Hj. rewrite H2, H1; tauto. Qed.

Lemma zset_desc ds j d : 0 <= j < zlen ds -> exists ds', zset ds j d = Some ds' /\ same_desc [j] ds ds' /\ zget ds' j = Some d.
Proof.
  intros Hj. rewrite zset_Some by done. eexists. split; [done|]. split; [split; [apply zlen_insert|]|by apply zget_insert_eq].
  intros i Hi. apply zget_insert_ne; [|lia]. by intros ->; apply Hi, list_elem_of_singleton.
Qed.

Lemma zset_desc_inv ds j d ds' : zset ds j d = Some ds' -> 0 <= j < zlen ds /\ same_desc [j] ds ds' /\ zget ds' j = Some d.
Proof.
  intros E. assert (0 <= j < zlen ds) as Hj.
  { unfold zset in E. unfold zlen. repeat case_match; simplify_eq; lia. }
  split; [done|]. destruct (zset_desc ds j d Hj) as (ds2 & E2 & H2). by simplify_eq.
Qed.

Lemma find_desc_inv n ds : forall j k, find_desc n j ds = Ret (Some k) -> j <= k < j + Z.of_nat n /\ exists d, zget ds k = Some d /\ d_addr d = 0.
Proof.
  induction n as [|n IH]; intros j k; cbn [find_desc]; [done|]. destruct (zget ds j) as [d|] eqn:E; cbn [of_option obind]; [|done].
  destruct (Z.eqb_spec (d_addr d) 0); [intros [= <-]; split; [lia|by exists d]|]. intros [Hk Hd]%IH. split; [lia|done].
Qed.

(** Allocation gives different descriptors that were free. *)
Lemma alloc_desc_inv num : forall q l q', virtio_alloc_desc num q = Ret (Some l, q') ->
  length l = num /\ NoDup l /\ Forall (fun j => 0 <= j < q_size q /\ exists d, zget (q_desc q) j = Some d /\ d_addr d = 0) l /\
  exists ds, q' = with_desc q ds /\ same_desc l (q_desc q) ds.
Proof.
  induction num as [|num IH]; intros q l q'; cbn [virtio_alloc_desc].
  { intros [= <- <-]. split; [done|]. split; [constructor|]. split; [constructor|]. exists (q_desc q). split; [by destruct q|done]. }
  destruct (find_desc _ _ _) as [[j|]| | |] eqn:Ef; cbn [obind]; try done. apply find_desc_inv in Ef as [Hj (d & Hd & Ha)]. rewrite Hd. cbn [of_option obind].
  destruct (zset _ j _) as [ds|] eqn:Es; cbn [of_option obind]; [|done]. apply zset_desc_inv in Es as (Hjl & Hsame & Hnew).
  destruct (virtio_alloc_desc num _) as [[r q1]| | |] eqn:Er; cbn [obind]; try done. destruct r as [l'|]; cbn; [|done]. intros [= <- <-].
  apply IH in Er as (Hl & Hnd & Hf & ds' & -> & Hs'). cbn [with_desc q_desc q_size] in *.
  assert (Hnj : j ∉ l').
  { intros Hin. eapply Forall_forall in Hf; [|done]. destruct Hf as (_ & d' & Hd' & Ha'). rewrite Hnew in Hd'. injection Hd' as <-. done. }
  split; [cbn; lia|]. split; [by apply NoDup_cons|]. split.
  - apply Forall_cons_2; [split; [lia|by exists d]|]. eapply Forall_impl; [apply Forall_and; split; [exact Hf|apply (Forall_forall (fun i => i ∈ l')); auto]|].
    intros i [(Hi & d' & Hd' & Ha') Hin]. split; [done|]. exists d'. split; [|done]. rewrite <- Hd'. symmetry. apply Hsame.
    intros ->%list_elem_of_singleton. done.
  - exists ds'. split; [done|]. by apply (same_desc_trans [j] l' _ ds).
Qed.

Lemma data_flags_next type : Z.land (data_flags type) VIRTQ_DESC_F_NEXT = 1.
Proof. unfold data_flags. by destruct (type =? VIRTIO_BLK_T_IN). Qed.

(** Freeing the chain of a request. *)
Lemma free_desc_ok n q r : chain_ok q r -> NoDup (ids r) -> Forall (fun i => 0 <= i < zlen (q_desc q)) (ids r) -> (2 <= n)%nat ->
  exists ds, virtio_free_desc n (r_head r) q = Ret (with_desc q ds) /\ same_desc (ids r) (q_desc q) ds /\
    forall j d, j ∈ ids r -> zget ds j = Some d -> d_addr d = 0.
Proof.
  intros [Hh Hd Hs] Hnd Hr Hn. unfold ids in *. rewrite !NoDup_cons in Hnd. destruct Hnd as (Hn0 & Hn1 & _ & _). rewrite !elem_of_cons in *.
  apply Forall_cons in Hr as [R0 Hr]. apply Forall_cons in Hr as [R1 Hr]. apply Forall_cons in Hr as [R2 _].
  destruct n as [|[|n]]; [lia|lia|]. cbn [virtio_free_desc]. rewrite Hh. cbn [of_option obind].
  destruct (zset_desc (q_desc q) (r_head r) (set_addr (Desc (r_hdr r) 16 VIRTQ_DESC_F_NEXT (r_data r)) 0) R0) as (ds0 & -> & [L0 S0] & G0).
  cbn [of_option obind d_flags]. change (Z.land VIRTQ_DESC_F_NEXT VIRTQ_DESC_F_NEXT =? 0) with false. cbn [d_next with_desc q_desc].
  rewrite (S0 (r_data r)), Hd by (rewrite list_elem_of_singleton; intros E; apply Hn0; auto). cbn [of_option obind].
  destruct (zset_desc ds0 (r_data r) (set_addr (Desc (r_dest r) (u32 (512 * r_count r)) (data_flags (r_type r)) (r_stat r)) 0)) as (ds1 & -> & [L1 S1] & G1); [lia|].
  cbn [of_option obind d_flags]. rewrite data_flags_next. cbn [Z.eqb d_next with_desc q_desc].
  assert (Hst : zget ds1 (r_stat r) = Some (Desc (r_status r) 1 VIRTQ_DESC_F_WRITE 0)).
  { rewrite (S1 (r_stat r)), (S0 (r_stat r)); [done|rewrite list_elem_of_singleton; naive_solver..]. }
  destruct (zset_desc ds1 (r_stat r) (set_addr (Desc (r_status r) 1 VIRTQ_DESC_F_WRITE 0) 0)) as (ds2 & E2 & [L2 S2] & G2); [lia|].
  exists ds2. split; [|split].
  - destruct n; cbn [virtio_free_desc with_desc q_desc]; rewrite Hst; cbn [of_option obind]; rewrite E2; reflexivity.
  - apply (same_desc_trans [r_head r] [r_data r; r_stat r] _ ds0); [done|]. by apply (same_desc_trans [r_data r] [r_stat r] _ ds1).
  - intros j d Hj Hd2. destruct (decide (j = r_stat r)) as [->|N2]; [rewrite G2 in Hd2; by injection Hd2 as <-|].
    rewrite S2 in Hd2 by (by rewrite list_elem_of_singleton). destruct (decide (j = r_data r)) as [->|N1]; [rewrite G1 in Hd2; by injection Hd2 as <-|].
    rewrite S1 in Hd2 by (by rewrite list_elem_of_singleton). rewrite !elem_of_cons in Hj. destruct Hj as [->|[?|[?|Hj]]]; [|done|done|by apply not_elem_of_nil in Hj].
    rewrite G0 in Hd2. by injection Hd2 as <-.
Qed.

(** ** Requests and descriptors *)

(** The descriptors of requests in the queue have the addresses of the requests. *)
Lemma chains_used q rs j : chains q rs -> j ∈ rs ≫= ids -> exists d, zget (q_desc q) j = Some d /\ d_addr d <> 0.
Proof.
  intros [_ _ C3 _ _ C6] (r & Hj & Hr)%list_elem_of_bind. eapply Forall_forall in C3 as [Hh Hd Hs]; [|done].
  assert (Ha : forall a, a ∈ addrs r -> a <> 0).
  { intros a Ha. eapply Forall_forall in C6; [|apply list_elem_of_bind; exists r; split; [done|done]]. lia. }
  unfold ids in Hj. rewrite !elem_of_cons in Hj. destruct Hj as [->|[->|[->|Hj]]]; [| | |by apply not_elem_of_nil in Hj]; eexists; (split; [done|]).
  all: apply Ha; unfold addrs; set_solver.
Qed.

Lemma chains_addr q rs a : chains q rs -> a ∈ rs ≫= addrs -> exists j d, zget (q_desc q) j = Some d /\ d_addr d <> 0 /\ d_addr d = a.
Proof.
  intros [_ _ C3 _ _ C6] Ha. pose proof (proj1 (Forall_forall _ _) C6 a Ha) as H0. cbn in H0. apply list_elem_of_bind in Ha as (r & Ha & Hr).
  eapply Forall_forall in C3 as [Hh Hd Hs]; [|done].
  unfold addrs in Ha. rewrite !elem_of_cons in Ha. destruct Ha as [->|[->|[->|Ha]]]; [exists (r_head r)|exists (r_data r)|exists (r_stat r)|by apply not_elem_of_nil in Ha];
    eexists; (split; [done|cbn; lia]).
Qed.

Lemma chain_ok_same q ds r : chain_ok q r -> (forall j, j ∈ ids r -> zget ds j = zget (q_desc q) j) -> chain_ok (with_desc q ds) r.
Proof. intros [Hh Hd Hs] H. constructor; cbn [with_desc q_desc]; rewrite H by (unfold ids; set_solver); done. Qed.

(** A new request in free descriptors. *)
Lemma chains_add q rs r ds : chains q rs -> NoDup (ids r) ->
  Forall (fun j => 0 <= j < q_size q /\ exists d, zget (q_desc q) j = Some d /\ d_addr d = 0) (ids r) ->
  same_desc (ids r) (q_desc q) ds -> chain_ok (with_desc q ds) r -> NoDup (addrs r) -> Forall (fresh q) (addrs r) ->
  chains (with_desc q ds) (r :: rs).
Proof.
  intros C Hnd Hfree [_ Hs] Hr Hna Hfr. destruct C as [C1 C2 C3 C4 C5 C6] eqn:EC. clear EC. pose proof (Build_chains _ _ C1 C2 C3 C4 C5 C6) as C'.
  assert (Hdis : forall j, j ∈ ids r -> j ∉ rs ≫= ids).
  { intros j Hj Hj'. eapply Forall_forall in Hfree as (_ & d & Hd & Ha); [|done]. destruct (chains_used q rs j C' Hj') as (d' & Hd' & Ha'). congruence. }
  assert (Hdisa : forall a, a ∈ addrs r -> a ∉ rs ≫= addrs).
  { intros a Ha Ha'. eapply Forall_forall in Hfr as [_ Hf]; [|done]. destruct (chains_addr q rs a C' Ha') as (j & d & Hd & Hd0 & Hda). by apply (Hf j d). }
  constructor; cbn [with_desc q_size q_desc].
  - rewrite bind_cons. apply NoDup_app. auto.
  - rewrite bind_cons. apply Forall_app. split; [|done]. eapply Forall_impl; [exact Hfree|]. by intros j [].
  - apply Forall_cons_2; [done|]. apply Forall_forall. intros r' Hr'. apply chain_ok_same; [by eapply Forall_forall in C3|].
    intros j Hj. apply Hs. intros Hj'. apply (Hdis j Hj'). apply list_elem_of_bind. by exists r'.
  - intros j d Hj Hd Hn. rewrite bind_cons, elem_of_app in Hn. rewrite Hs in Hd by tauto. apply (C4 j d); [done|done|tauto].
  - rewrite bind_cons. apply NoDup_app. auto.
  - rewrite bind_cons. apply Forall_app. split; [|done]. eapply Forall_impl; [exact Hfr|]. by intros a [].
Qed.

(** A request whose descriptors are freed. *)
Lemma chains_remove q rs r ds : chains q (r :: rs) -> same_desc (ids r) (q_desc q) ds -> (forall j d, j ∈ ids r -> zget ds j = Some d -> d_addr d = 0) ->
  chains (with_desc q ds) rs.
Proof.
  intros [C1 C2 C3 C4 C5 C6] [_ Hs] Hf. rewrite bind_cons in *. apply NoDup_app in C1 as (_ & Hdis & C1). apply NoDup_app in C5 as (_ & _ & C5).
  apply Forall_app in C2 as [_ C2]. apply Forall_app in C6 as [_ C6]. apply Forall_cons in C3 as [_ C3].
  constructor; cbn [with_desc q_size q_desc]; try done.
  - apply Forall_forall. intros r' Hr'. apply chain_ok_same; [by eapply Forall_forall in C3|]. intros j Hj. apply Hs. intros Hj'.
    apply (Hdis j Hj'). apply list_elem_of_bind. by exists r'.
  - intros j d Hj Hd Hn. destruct (decide (j ∈ ids r)) as [Hin|Hin]; [by eapply Hf|]. rewrite Hs in Hd by done. apply (C4 j d); [done|done|].
    rewrite elem_of_app. tauto.
Qed.

(** What the device may write of a request: the status, and the buffer of a
    read. *)
Lemma request_writable q r a : chain_ok q r -> writable q (r_head r) a -> a = r_dest r /\ r_type r = VIRTIO_BLK_T_IN \/ a = r_status r.
Proof.
  intros [Hh Hd Hs] (d & Hc & Hw & <-).
  inversion Hc as [? ? E|? d0 ? E _ Hc1]; subst; rewrite Hh in E; injection E as <-; [done|]. cbn in Hc1.
  inversion Hc1 as [? ? E|? d1 ? E _ Hc2]; subst; rewrite Hd in E; injection E as <-.
  - left. split; [done|]. cbn [d_flags] in Hw. unfold data_flags in Hw. by destruct (Z.eqb_spec (r_type r) VIRTIO_BLK_T_IN).
  - cbn in Hc2. inversion Hc2 as [? ? E|? d2 ? E Hx _]; subst; rewrite Hs in E; injection E as <-; [by right|]. by cbn in Hx.
Qed.

(** ** Rings *)

Lemma vring_index x n size : 0 < size -> 2 ^ 16 mod size = 0 -> u16 (x + n) mod size = (x + n) mod size.
Proof.
  intros Hs Hp. unfold u16. symmetry. apply Znumtheory.Zmod_div_mod; [lia|lia|]. apply Z.mod_divide; [lia|done].
Qed.

Lemma ring_distinct x i j size : 0 < size -> 0 <= i < size -> 0 <= j < size -> (x + i) mod size = (x + j) mod size -> i = j.
Proof.
  intros Hs Hi Hj E. assert (Hd : (i - j) mod size = 0).
  { replace (i - j) with ((x + i) - (x + j)) by lia. rewrite Zminus_mod, E, Z.sub_diag. apply Z.mod_0_l. lia. }
  apply Z.mod_divide in Hd as [k Hk]; [|lia].
  assert (k = 0 \/ 1 <= k \/ k <= -1) as [->|[|]] by lia; [lia|nia|nia].
Qed.

(** A ring holds, from position [pos] on, entries for the requests [l]. *)
Definition window {X} (R : request -> X -> Prop) (size : Z) (ring : list X) (pos : Z) (l : list request) : Prop :=
  forall i r, l !! i = Some r -> exists x, zget ring ((pos + Z.of_nat i) mod size) = Some x /\ R r x.

Lemma window_tail {X} (R : request -> X -> Prop) size ring pos r l : 0 < size -> 2 ^ 16 mod size = 0 ->
  window R size ring pos (r :: l) -> window R size ring (u16 (pos + 1)) l.
Proof.
  intros Hs Hp H i r' Hi. destruct (H (S i) r' Hi) as (x & Hx & Hr). exists x. split; [|done].
  rewrite <- Zplus_mod_idemp_l, vring_index, Zplus_mod_idemp_l by done. by replace (pos + 1 + Z.of_nat i) with (pos + Z.of_nat (S i)) by lia.
Qed.

Lemma window_push {X} (R : request -> X -> Prop) size ring ring' pos r x l : 0 < size -> zlen l < size ->
  window R size ring pos l -> zset ring ((pos + zlen l) mod size) x = Some ring' -> R r x -> window R size ring' pos (l ++ [r]).
Proof.
  intros Hs Hl H E Hr i r' Hi. assert (0 <= (pos + zlen l) mod size < zlen ring) as Hj.
  { unfold zset in E. unfold zlen in *. repeat case_match; simplify_eq; lia. }
  rewrite zset_Some in E by done. injection E as <-. apply lookup_app_Some in Hi as [Hi|[Hi Hi']].
  - destruct (H i r' Hi) as (y & Hy & Hry). exists y. split; [|done]. apply lookup_lt_Some in Hi. rewrite zget_insert_ne; [done| |lia].
    intros E. apply ring_distinct in E; unfold zlen in *; lia.
  - apply list_lookup_singleton_Some in Hi' as [Hi0 <-]. exists x. split; [|done]. replace (Z.of_nat i) with (zlen l) by (unfold zlen; lia).
    by apply zget_insert_eq.
Qed.

(** [chains] looks at the descriptors only. *)
Lemma chains_queue q q' rs : chains q rs -> q_size q' = q_size q -> q_desc q' = q_desc q -> chains q' rs.
Proof.
  intros [C1 C2 C3 C4 C5 C6] Es Ed. constructor; rewrite ?Es, ?Ed; try done. eapply Forall_impl; [exact C3|].
  intros r [Hh Hd Hst]. constructor; by rewrite Ed.
Qed.

Section invariant.
Context {A P S : Type}.

Local Notation state := (vstate A P S).

Definition is_head (r : request) (h : Z) : Prop := h = r_head r.
Definition is_used (r : request) (e : Z * Z) : Prop := e.1 = r_head r.

(** The requests that wait for the device, that it works on, and that it has
    completed and the handler has not seen. *)
Record queued (s : state) (w p f : list request) : Prop := {
  v_queue : queue_ok (requestq (vd s));
  v_chains : chains (requestq (vd s)) (w ++ p ++ f);
  v_pending : pending s = r_head <$> p;
  v_avail_idx : avail_idx (requestq (vd s)) = u16 (dev_pos s + zlen w);
  v_avail : window is_head (q_size (requestq (vd s))) (avail_ring (requestq (vd s))) (dev_pos s) w;
  v_used_idx : used_idx (requestq (vd s)) = u16 (vlast (vd s) + zlen f);
  v_used : window is_used (q_size (requestq (vd s))) (used_ring (requestq (vd s))) (vlast (vd s)) f;
  v_headers : Forall (fun r => vmem (vd s) !! r_hdr r = Some (header (r_type r) (r_sect r))) (w ++ p);
  v_ptable : ptable_lock (vk (vd s)) = false;
  v_dev_pos : 0 <= dev_pos s < 2 ^ 16;
  v_last : 0 <= vlast (vd s) < 2 ^ 16
}.

Lemma queued_bound s w p f : queued s w p f -> 3 * (zlen w + zlen p + zlen f) <= q_size (requestq (vd s)).
Proof.
  intros Hq. pose proof (chains_bound _ _ (v_chains _ _ _ _ Hq) (proj1 (q_size_range _ (v_queue _ _ _ _ Hq)))) as H.
  unfold zlen in *. rewrite !length_app in H. lia.
Qed.

(** The device takes the first chain of the ring. *)
Lemma take_queued h (s : virtio A P S) dp pe w p f : queued (VState s dp pe) w p f -> dp <> avail_idx (requestq s) ->
  zget (avail_ring (requestq s)) (dp mod q_size (requestq s)) = Some h ->
  exists r w', w = r :: w' /\ queued (VState s (u16 (dp + 1)) (pe ++ [h])) w' (p ++ [r]) f.
Proof.
  intros Hq Hne Hh. pose proof (queued_bound _ _ _ _ Hq) as Hb. destruct Hq as [Q C Hpe Ha Hw Hu Hf Hhd Hk Hdp Hla]. cbn -[header] in *.
  destruct (q_size_range _ Q) as [Hs0 Hs1]. destruct w as [|r w].
  { exfalso. apply Hne. rewrite Ha. change (zlen []) with 0. rewrite Z.add_0_r. unfold u16. by rewrite Z.mod_small. }
  exists r, w. split; [done|]. destruct (Hw 0%nat r eq_refl) as (x & Hx & ->). rewrite Z.add_0_r, Hh in Hx. injection Hx as ->.
  constructor; cbn -[header]; try done.
  - eapply chains_perm; [|exact C]. rewrite <- app_assoc. cbn [app]. by rewrite <- (Permutation_middle p f r), <- (Permutation_middle w (p ++ f) r).
  - rewrite Hpe, fmap_app. done.
  - rewrite Ha. unfold u16. rewrite Zplus_mod_idemp_l. f_equal. unfold zlen. cbn [length]. lia.
  - eapply window_tail; [done|apply Q|done].
  - rewrite app_assoc. rewrite (Permutation_app_comm (w ++ p) [r]). done.
  - unfold u16. apply Z.mod_pos_bound. lia.
Qed.

(** The device completes a chain it works on. *)
Lemma complete_queued h n m ring (s : virtio A P S) dp pe1 pe2 w p f : queued (VState s dp (pe1 ++ h :: pe2)) w p f ->
  (forall a, m !! a <> vmem s !! a -> writable (requestq s) h a) ->
  zset (used_ring (requestq s)) (used_idx (requestq s) mod q_size (requestq s)) (h, n) = Some ring ->
  exists p1 r p2, p = p1 ++ r :: p2 /\ r_head r = h /\
    queued (VState (Virtio (complete_queue (requestq s) ring) (vlock s) (vlast s) m (vk s)) dp (pe1 ++ pe2)) w (p1 ++ p2) (f ++ [r]).
Proof.
  intros Hq Hm Hr. pose proof (queued_bound _ _ _ _ Hq) as Hb. destruct Hq as [Q C Hpe Ha Hw Hu Hf Hhd Hk Hdp Hla]. cbn -[header] in *.
  destruct (q_size_range _ Q) as [Hs0 Hs1]. symmetry in Hpe. apply fmap_app_inv in Hpe as (p1 & p' & -> & Hp' & ->).
  symmetry in Hp'. apply fmap_cons_inv in Hp' as (r & p2 & -> & -> & ->). exists p1, r, p2. split; [done|]. split; [done|].
  assert (Hperm : w ++ (p1 ++ r :: p2) ++ f ≡ₚ r :: w ++ (p1 ++ p2) ++ f).
  { rewrite <- !app_assoc. cbn [app]. by rewrite <- (Permutation_middle p1 (p2 ++ f) r), <- (Permutation_middle w _ r). }
  pose proof (chains_perm _ _ _ Hperm C) as C'. assert (Hring : zlen ring = zlen (used_ring (requestq s))).
  { unfold zset in Hr. repeat case_match; simplify_eq. apply zlen_insert. }
  constructor; cbn -[header]; try done.
  - destruct Q. constructor; cbn; try done. lia.
  - eapply chains_perm; [|eapply chains_queue; [exact C'|done|done]]. rewrite (Permutation_cons_append _ r). by rewrite <- !app_assoc.
  - by rewrite fmap_app.
  - rewrite Hu. unfold u16. rewrite Zplus_mod_idemp_l. f_equal. unfold zlen. rewrite length_app. cbn. lia.
  - pose proof (zlen_nonneg w). pose proof (zlen_nonneg (p1 ++ r :: p2)).
    apply (window_push is_used _ (used_ring (requestq s)) _ _ r (r_head r, n)); [done|lia|exact Hf| |done].
    rewrite Hu, vring_index in Hr by (done || apply Q). exact Hr.
  - apply Forall_forall. intros r0 Hr0. assert (Hin : r0 ∈ w ++ p1 ++ r :: p2) by (rewrite !elem_of_app, ?elem_of_cons in *; tauto).
    eapply Forall_forall in Hhd; [|exact Hin]. cbn -[header] in Hhd. rewrite <- Hhd. apply dec_stable. intros Hne. apply Hm in Hne.
    destruct C' as [_ _ C3 _ C5 _]. apply Forall_cons in C3 as [C3 _]. rewrite bind_cons in C5. apply NoDup_app in C5 as (_ & C5 & _).
    assert (Hr0' : r_hdr r0 ∈ (w ++ (p1 ++ p2) ++ f) ≫= addrs).
    { apply list_elem_of_bind. exists r0. split; [by left|]. rewrite !elem_of_app in *. tauto. }
    destruct (request_writable _ _ _ C3 Hne) as [[E _]|E]; rewrite E in Hr0'; eapply C5; [|exact Hr0'| |exact Hr0']; unfold addrs; rewrite !elem_of_cons; auto.
Qed.

(** ** The interrupt handler *)

(** One completed request: its descriptors are freed and who waits is woken. *)
Lemma intr_one_ok (s : virtio A P S) w p r f dp pe : queued (VState s dp pe) w p (r :: f) ->
  exists q, intr_one s = Ret (Virtio q (vlock s) (u16 (vlast s + 1)) (vmem s) (with_procs (vk s) (wakeup1 (ChanOther (P2V (r_dest r))) (procs (vk s))))) /\
    used_idx q = used_idx (requestq s) /\
    queued (VState (Virtio q (vlock s) (u16 (vlast s + 1)) (vmem s) (with_procs (vk s) (wakeup1 (ChanOther (P2V (r_dest r))) (procs (vk s))))) dp pe) w p f.
Proof.
  intros [Q C Hpe Ha Hw Hu Hf Hhd Hk Hdp Hla]. cbn -[header] in *. destruct (q_size_range _ Q) as [Hs0 Hs1].
  assert (Hperm : w ++ p ++ r :: f ≡ₚ r :: w ++ p ++ f) by (by rewrite <- (Permutation_middle p f r), <- (Permutation_middle w _ r)).
  pose proof (chains_perm _ _ _ Hperm C) as C'. destruct (Hf 0%nat r eq_refl) as ([id n] & Hx & Hid). unfold is_used in Hid. cbn in Hid. subst id. rewrite Z.add_0_r in Hx.
  pose proof (c_chain _ _ C') as Hch. apply Forall_cons in Hch as [Hch _].
  pose proof (c_ids _ _ C') as Hnd. rewrite bind_cons in Hnd. apply NoDup_app in Hnd as (Hnd & _ & _).
  pose proof (c_range _ _ C') as Hrg. rewrite bind_cons in Hrg. apply Forall_app in Hrg as [Hrg _].
  assert (Hrg' : Forall (fun i => 0 <= i < zlen (q_desc (requestq s))) (ids r)).
  { eapply Forall_impl; [exact Hrg|]. cbn. intros i Hi. rewrite (q_desc_len _ Q). lia. }
  assert (Hdest : 0 < r_dest r < 2 ^ 32).
  { pose proof (c_nonzero _ _ C') as Hnz. rewrite bind_cons in Hnz. apply Forall_app in Hnz as [Hnz _]. unfold addrs in Hnz.
    apply Forall_cons in Hnz as [_ Hnz]. by apply Forall_cons in Hnz as [Hnz _]. }
  destruct (free_desc_ok (length (q_desc (requestq s))) _ _ Hch Hnd Hrg') as (ds & Hfree & Hsame & Hz).
  { pose proof (q_desc_len _ Q) as Hlen. unfold zlen, VIRTIO_QUEUE_SIZE_MAX in Hlen. lia. }
  exists (with_desc (requestq s) ds). split; [|split; [done|]].
  - unfold intr_one. rewrite Hx. cbn [of_option obind]. rewrite (chain_head _ _ Hch). cbn [of_option obind d_flags d_next].
    change (Z.land VIRTQ_DESC_F_NEXT VIRTQ_DESC_F_NEXT =? 0) with false. rewrite (chain_data _ _ Hch). cbn [of_option obind d_addr].
    rewrite u32_small by (unfold is_u32; lia). unfold wakeup, acquire_ptable, release_ptable. rewrite Hk. cbn [acquire_b obind with_lock with_procs ptable_lock release_b procs].
    apply Forall_cons in Hrg as [Hh _]. unfold VIRTIO_QUEUE_SIZE_MAX in Hs1. rewrite s32_small by lia. rewrite Hfree. cbn [obind].
    rewrite <- Hk. by destruct (vk s).
  - destruct Hsame as [Hlen Hsame]. constructor; cbn -[header]; try done.
    + destruct Q. constructor; cbn; try done. lia.
    + by eapply chains_remove.
    + rewrite Hu. unfold u16. rewrite Zplus_mod_idemp_l. f_equal. unfold zlen. cbn [length]. lia.
    + eapply window_tail; [done|apply Q|done].
    + unfold u16. apply Z.mod_pos_bound. lia.
Qed.

(** Waking who waits for each of the requests. *)
Definition wake (k : kernel A P S) (r : request) : kernel A P S := with_procs k (wakeup1 (ChanOther (P2V (r_dest r))) (procs k)).

Lemma completion_loop_ok f : forall (s : virtio A P S) w p dp pe, queued (VState s dp pe) w p f ->
  exists s', intr_loop (length f) s = Ret s' /\ vlock s' = vlock s /\ vmem s' = vmem s /\ vk s' = foldl wake (vk s) f /\ queued (VState s' dp pe) w p [].
Proof.
  induction f as [|r f IH]; intros s w p dp pe Hq; pose proof (queued_bound _ _ _ _ Hq) as Hb.
  - exists s. cbn [length intr_loop]. replace (vlast s =? _) with true; [done|]. symmetry. apply Z.eqb_eq.
    pose proof (v_used_idx _ _ _ _ Hq) as Hu. cbn [vd] in Hu. rewrite Hu. change (zlen []) with 0. rewrite Z.add_0_r. unfold u16. rewrite Z.mod_small; [done|]. apply (v_last _ _ _ _ Hq).
  - destruct (intr_one_ok _ _ _ _ _ _ _ Hq) as (q & E & Hu & Hq'). destruct (IH _ _ _ _ _ Hq') as (s' & Es & El & Em & Ek & Hs').
    exists s'. split_and!; [|done..]. cbn [length intr_loop]. rewrite E. cbn [obind]. rewrite Es.
    destruct (Z.eqb_spec (vlast s) (used_idx (requestq s))) as [Eq|]; [exfalso|done].
    pose proof (v_last _ _ _ _ Hq) as Hl. pose proof (v_used_idx _ _ _ _ Hq) as Hx. pose proof (q_size_range _ (v_queue _ _ _ _ Hq)) as Hs.
    cbn [vd] in *. rewrite <- Eq in Hx. pose proof (zlen_nonneg w). pose proof (zlen_nonneg p). unfold VIRTIO_QUEUE_SIZE_MAX in Hs.
    assert (0 < zlen (r :: f)) by (unfold zlen; cbn [length]; lia).
    assert (Hd : (vlast s + 0) mod 2 ^ 16 = (vlast s + zlen (r :: f)) mod 2 ^ 16) by (rewrite Z.add_0_r, (Z.mod_small (vlast s)) by done; exact Hx).
    apply ring_distinct in Hd; lia.
Qed.

(** A process woken, or never asleep, is not put to sleep by another wakeup. *)
Lemma wake_none a k r : none_waits a k \/ P2V (r_dest r) = a -> none_waits a (wake k r).
Proof.
  intros H. unfold wake. replace (with_procs k _) with (with_procs (with_lock k (ptable_lock k)) (wakeup1 (ChanOther (P2V (r_dest r))) (procs k))) by (by destruct k).
  apply none_waits_wakeup. destruct H as [H|H]; [by left|right; by rewrite H].
Qed.

Lemma wakes_none a f : forall k, none_waits a k \/ a ∈ (fun r => P2V (r_dest r)) <$> f -> none_waits a (foldl wake k f).
Proof.
  induction f as [|r f IH]; intros k H; cbn [foldl].
  - destruct H as [H|H]; [done|]. by apply not_elem_of_nil in H.
  - apply IH. destruct H as [H|H]; [left; apply wake_none; by left|]. rewrite fmap_cons, elem_of_cons in H. destruct H as [->|H]; [left; apply wake_none; by right|by right].
Qed.

Lemma requestq_intr_ok (s : virtio A P S) w p f dp pe : queued (VState s dp pe) w p f -> vlock s = false ->
  exists s', virtio_blk_requestq_intr s = Ret s' /\ vlock s' = false /\ vmem s' = vmem s /\ queued (VState s' dp pe) w p [] /\
    forall r, r ∈ f -> none_waits (P2V (r_dest r)) (vk s').
Proof.
  intros Hq Hl. pose proof (queued_bound _ _ _ _ Hq) as Hb. pose proof (q_size_range _ (v_queue _ _ _ _ Hq)) as Hs.
  pose proof (zlen_nonneg w). pose proof (zlen_nonneg p). pose proof (v_used_idx _ _ _ _ Hq) as Hx. cbn [vd] in *. unfold VIRTIO_QUEUE_SIZE_MAX in Hs.
  assert (Hq1 : queued (VState (Virtio (requestq s) true (vlast s) (vmem s) (vk s)) dp pe) w p f) by (destruct Hq; by constructor).
  assert (Hn : Z.to_nat (u16 (used_idx (requestq s) - vlast s)) = length f).
  { rewrite Hx. unfold u16. rewrite Zminus_mod_idemp_l. replace (vlast s + zlen f - vlast s) with (zlen f) by lia.
    pose proof (zlen_nonneg f). rewrite Z.mod_small by lia. unfold zlen. lia. }
  destruct (completion_loop_ok _ _ _ _ _ _ Hq1) as (s' & E & El & Em & Ek & Hq2). cbn [vlock vmem vk] in *.
  unfold virtio_blk_requestq_intr. rewrite Hl, Hn. cbn [acquire_b obind]. rewrite E. cbn [obind]. rewrite El. cbn [release_b obind].
  eexists. split; [done|]. cbn [vlock vmem vk]. split_and!; [done|done|destruct Hq2; by constructor|].
  intros r Hr. rewrite Ek. apply wakes_none. right. by apply (list_elem_of_fmap_2 (fun r => P2V (r_dest r))).
Qed.


(** ** Requests *)

Definition free_desc (q : VirtioQueue) (j : Z) : Prop := 0 <= j < q_size q /\ exists d, zget (q_desc q) j = Some d /\ d_addr d = 0.

Lemma set_desc_inv q j d q' : set_desc q j d = Ret q' -> exists ds, q' = with_desc q ds /\ same_desc [j] (q_desc q) ds /\ zget ds j = Some d.
Proof.
  unfold set_desc. intros Hr. destruct (zset (q_desc q) j d) as [ds|] eqn:E; cbn in Hr; [|done]. injection Hr as <-.
  apply zset_desc_inv in E as (_ & ? & ?). eauto.
Qed.

(** A new request takes three free descriptors, and the next place in the ring. *)
Lemma blk_req_inv cur type sect count dest hdr status (s s' : virtio A P S) : q_size (requestq s) <= VIRTIO_QUEUE_SIZE_MAX ->
  virtio_blk_req (Some cur) type sect count dest hdr status s = Ret s' ->
  exists d0 d1 d2 ds ring, let r := Req d0 d1 d2 type sect count dest hdr status in let q := requestq s in
    NoDup (ids r) /\ Forall (free_desc q) (ids r) /\ same_desc (ids r) (q_desc q) ds /\ chain_ok (with_desc q ds) r /\
    zset (avail_ring q) (avail_idx q mod q_size q) d0 = Some ring /\ vlock s' = false /\ vlast s' = vlast s /\
    vmem s' = <[hdr := header type sect]> (vmem s) /\
    requestq s' = VQueue (q_size q) ds (u16 (avail_idx q + 1)) ring (used_idx q) (used_ring q).
Proof.
  intros Hmax. unfold virtio_blk_req. destruct (virtio_alloc_desc 3 (requestq s)) as [[[l|] q]| | |] eqn:Ea; cbn [obind]; try done.
  apply alloc_desc_inv in Ea as (Hl & Hnd & Hf & ds & -> & Hds). destruct l as [|d0 [|d1 [|d2 [|]]]]; cbn in Hl; try lia.
  intros Hr. ret_inv Hr. apply set_desc_inv in E as (ds0 & -> & [L0 S0] & G0). apply set_desc_inv in E0 as (ds1 & -> & [L1 S1] & G1).
  apply set_desc_inv in E1 as (ds2 & -> & [L2 S2] & G2). unfold virtio_queue_avail_insert in E2. ret_inv E2. destruct (zset _ _ (u16 d0)) as [ring|] eqn:Er; [|done].
  injection E as <-. cbn [with_desc q_size q_desc avail_idx avail_ring used_idx used_ring] in *. apply sleep_lk in E3 as ->.
  assert (Hu : forall j, j ∈ [d0; d1; d2] -> u16 j = j).
  { intros j Hj. eapply Forall_forall in Hf as [Hf _]; [|done]. unfold u16. apply Z.mod_small. unfold VIRTIO_QUEUE_SIZE_MAX in Hmax. lia. }
  rewrite (Hu d0) in Er by set_solver. rewrite (Hu d1) in G0 by set_solver. rewrite (Hu d2) in G1 by set_solver.
  rewrite !NoDup_cons in Hnd. exists d0, d1, d2, ds2, ring. cbn zeta. unfold ids. cbn [r_head r_data r_stat].
  split_and!; try done; [by rewrite !NoDup_cons| |constructor; cbn [with_desc q_desc r_head r_data r_stat r_hdr r_dest r_status r_count r_type]; [| |done]].
  - destruct Hds as [L Hs]. split; [lia|]. intros j Hj. rewrite !elem_of_cons in Hj. rewrite S2, S1, S0, Hs; rewrite ?list_elem_of_singleton, ?elem_of_cons; tauto.
  - rewrite S2, S1; [done|set_solver..].
  - rewrite S2; [done|set_solver].
Qed.

(** A process starts a request: it is the last of those the device has to take. *)
Lemma start_queued type cur begin count buf hdr status (s s' : virtio A P S) dp pe w p f : queued (VState s dp pe) w p f ->
  fresh (requestq s) hdr -> fresh (requestq s) (V2P buf) -> fresh (requestq s) status -> NoDup [hdr; V2P buf; status] ->
  virtio_blk_start type (Some cur) begin count buf hdr status s = Ret s' ->
  vlock s' = false /\ vmem s' = <[hdr := header type begin]> (vmem s) /\ exists d0 d1 d2, queued (VState (with_k s' (with_lock (vk s') false)) dp pe) (w ++ [Req d0 d1 d2 type begin count (V2P buf) hdr status]) p f.
Proof.
  intros Hq F0 F1 F2 Hna. unfold virtio_blk_start. case_match; [done|]. case_match; [done|]. intros Hr. ret_inv Hr. clear E.
  pose proof (queued_bound _ _ _ _ Hq) as Hb. destruct Hq as [Q C Hpe Ha Hw Hu Hf Hhd Hk Hdp Hla]. cbn -[header] in *. destruct (q_size_range _ Q) as [Hs0 Hs1].
  apply blk_req_inv in Hr as (d0 & d1 & d2 & ds & ring & Hnd & Hfree & Hsame & Hch & Hring & El & Elast & Em & Eq); [|done]. cbn -[header] in *.
  split; [done|]. split; [done|]. exists d0, d1, d2. set (r := Req d0 d1 d2 type begin count (V2P buf) hdr status) in *.
  assert (Ca : chains (with_desc (requestq s) ds) (r :: w ++ p ++ f)).
  { apply chains_add; try done. by repeat apply Forall_cons_2. }
  assert (Hn : hdr ∉ (w ++ p ++ f) ≫= addrs).
  { pose proof (c_addrs _ _ Ca) as Hd. rewrite bind_cons in Hd. apply NoDup_app in Hd as (_ & Hd & _). apply Hd. unfold addrs. set_solver. }
  assert (Hrl : zlen ring = zlen (avail_ring (requestq s))).
  { unfold zset in Hring. repeat case_match; simplify_eq. apply zlen_insert. }
  destruct Hsame as [Hlen _]. constructor; cbn -[header]; rewrite ?Eq, ?Em, ?Elast; cbn -[header]; try done.
  - destruct Q. constructor; cbn; try done; lia.
  - eapply chains_perm; [|eapply chains_queue; [exact Ca|done|done]]. rewrite <- app_assoc. cbn [app]. by rewrite <- Permutation_middle.
  - rewrite Ha. unfold u16. rewrite Zplus_mod_idemp_l. f_equal. unfold zlen. rewrite length_app. cbn. lia.
  - rewrite Ha, vring_index in Hring by (done || apply Q). pose proof (zlen_nonneg p). pose proof (zlen_nonneg f).
    by apply (window_push is_head _ (avail_ring (requestq s)) _ _ r d0); [done|lia|..].
  - assert (Hold : Forall (fun r0 => <[hdr := header type begin]> (vmem s) !! r_hdr r0 = Some (header (r_type r0) (r_sect r0))) (w ++ p)).
    { apply Forall_forall. intros r0 Hin. eapply Forall_forall in Hhd; [|done]. rewrite lookup_insert_ne; [done|]. intros E. apply Hn, list_elem_of_bind.
      exists r0. split; [rewrite E; by left|]. rewrite !elem_of_app in *. tauto. }
    apply Forall_app in Hold as [H1 H2]. rewrite <- app_assoc. apply Forall_app. split; [done|]. apply Forall_cons_2; [by rewrite lookup_insert_eq|done].
Qed.

Lemma resume_queued cur status r (s s' : virtio A P S) dp pe w p f : queued (VState s dp pe) w p f ->
  virtio_blk_resume cur status (with_k s (with_lock (vk s) true)) = Ret (r, s') -> vlock s' = false /\ queued (VState s' dp pe) w p f.
Proof.
  intros [Q C Hpe Ha Hw Hu Hf Hhd Hk Hdp Hla] Hr. unfold virtio_blk_resume in Hr. ret_inv Hr. unfold sleep_resume in E. ret_inv E.
  apply release_inv in E2 as ->. unfold acquire_b in E3. cbn in E3. destruct (vlock s); [done|]. injection E3 as <-.
  unfold virtio_blk_end in Hr. cbn in Hr. ret_inv Hr. split; [done|]. by constructor.
Qed.

(** The call a chain in the queue was made for. *)
Definition call_of (r : request) : call := Call (r_type r) (r_sect r) (r_count r) (P2V (r_dest r)) (r_hdr r) (r_status r).

Lemma call_of_req d0 d1 d2 type cur begin count buf hdr status (s s' : virtio A P S) : virtio_blk_start type cur begin count buf hdr status s = Ret s' -> call_of (Req d0 d1 d2 type begin count (V2P buf) hdr status) = Call type begin count buf hdr status.
Proof.
  unfold virtio_blk_start. destruct (Z.ltb_spec buf KERNBASE), (Z.ltb_spec (KERNBASE + PHYSTOP) buf); cbn [orb]; try done. intros _.
  unfold call_of. cbn [r_type r_sect r_count r_dest r_hdr r_status]. rewrite P2V_V2P; [done|]. unfold is_u32, KERNBASE, PHYSTOP in *. lia.
Qed.

(** The calls [cs] are those of the requests in the queue and those handled
    before; the requests the device has not taken are the latest, in order. *)
Definition accounted (cs : list call) (w p f : list request) : Prop :=
  exists before handled, cs = before ++ (call_of <$> w) /\ before ≡ₚ handled ++ (call_of <$> p ++ f).

(** The locks are free between the steps and the queue holds requests. *)
Definition vinv (cs : list call) (s : vstate A P S) : Prop := vlock (vd s) = false /\ exists w p f, queued s w p f /\ accounted cs w p f.

Lemma vstep_inv cs c (s s' : vstate A P S) : vstep c s s' -> vinv cs s -> vinv (cs ++ c) s'.
Proof.
  intros H [Hl (w & p & f & Hq & before & handled & Hcs & Hb)].
  destruct H as [type cur begin count buf hdr status s s' dp pe Ht F0 F1 F2 Hn Hr|cur status r s s' dp pe Hr|h s dp pe Hne Hh|h n m ring s dp pe1 pe2 Hm Hr|s s' dp pe Hr|k s dp pe Hk];
    rewrite ?app_nil_r.
  - pose proof Hr as Hst. apply (start_queued _ _ _ _ _ _ _ _ _ _ _ _ _ _ Hq) in Hr as (Hl' & _ & d0 & d1 & d2 & Hq'); try done. split; [done|]. eexists _, p, f. split; [exact Hq'|].
    exists before, handled. split; [|done]. rewrite fmap_app. cbn [fmap list_fmap]. rewrite (call_of_req _ _ _ _ _ _ _ _ _ _ _ _ Hst), app_assoc, Hcs. done.
  - apply (resume_queued _ _ _ _ _ _ _ _ _ _ Hq) in Hr as [Hl' Hq']. split; [done|]. exists w, p, f. split; [done|]. by exists before, handled.
  - destruct (take_queued _ _ _ _ _ _ _ Hq Hne Hh) as (r & w' & -> & Hq'). split; [done|]. exists w', (p ++ [r]), f. split; [done|].
    exists (before ++ [call_of r]), handled. split; [rewrite Hcs, <- app_assoc; done|]. rewrite Hb, <- !app_assoc, !fmap_app, <- !app_assoc. cbn [fmap list_fmap app].
    do 2 f_equiv. apply Permutation_app_comm.
  - destruct (complete_queued _ _ _ _ _ _ _ _ _ _ _ Hq Hm Hr) as (p1 & r & p2 & -> & _ & Hq'). split; [done|]. exists w, (p1 ++ p2), (f ++ [r]). split; [done|].
    exists before, handled. split; [done|]. rewrite Hb. f_equiv. apply fmap_Permutation. rewrite <- !app_assoc. cbn [app]. f_equiv. rewrite Permutation_cons_append. by rewrite <- app_assoc.
  - destruct (requestq_intr_ok _ _ _ _ _ _ Hq Hl) as (s1 & E & Hl' & _ & Hq' & _). rewrite Hr in E. injection E as <-. split; [done|]. exists w, p, []. split; [done|].
    exists before, (handled ++ (call_of <$> f)). split; [done|]. rewrite Hb, app_nil_r, fmap_app, <- app_assoc. f_equiv. apply Permutation_app_comm.
  - split; [done|]. exists w, p, f. split; [destruct Hq; by constructor|by exists before, handled].
Qed.

Lemma vrun_inv cs (s0 s : vstate A P S) : vrun cs s0 s -> vinv [] s0 -> vinv cs s.
Proof. induction 1; eauto using vstep_inv. Qed.

(** A queue just set up, with a size the device may have. *)
Definition boot_state (size : Z) (m : gmap Z (list Z)) (k : kernel A P S) : vstate A P S := VState (Virtio (new_queue size) false 0 m k) 0 [].

Lemma boot_inv size m k : 0 < size <= VIRTIO_QUEUE_SIZE_MAX -> 2 ^ 16 mod size = 0 -> ptable_lock k = false -> vinv [] (boot_state size m k).
Proof.
  intros Hs Hp Hk. split; [done|]. exists [], [], []. split; [|by exists [], []]. constructor; try done.
  constructor; try done; try constructor. intros j d Hj Hd _. apply zget_lookup in Hd as [_ Hd]. cbn [boot_state vd requestq new_queue q_desc] in Hd.
  apply lookup_replicate_1 in Hd as [-> _] || (apply list_elem_of_lookup_2, list_elem_of_In, repeat_spec in Hd as ->). done.
Qed.

(** The header of a request, as the device reads it. *)
Lemma header_fields type sect : let h := header type sect in
  zlen h = 16 /\ get32 0 h = u32 type /\ get32 4 h = 0 /\ get64 8 h = sect mod 2 ^ 64.
Proof.
  cbn zeta. unfold get32, get64. split; [done|]. split; [|split; [done|]].
  - change (slice 0 4 (header type sect)) with (le_bytes 4 type). apply le_val_bytes_mod.
  - change (slice 8 8 (header type sect)) with (le_bytes 8 sect). apply le_val_bytes_mod.
Qed.

(** C21: In every state one device reaches by requests, its own work, interrupts and
    the rest of the kernel, the descriptors in use are exactly those of requests
    that wait for the device, that it works on, and that it has completed: disjoint
    chains, each found where the rings say, and both locks are free.  The requests
    are the calls made and not handled yet, each once, those not taken in the order
    of the calls: the three descriptors have the header of the caller, its buffer with
    512 bytes for each sector asked for, which the device may write for a read only,
    and its status byte, and until the device has completed the request the header
    in memory holds the kind of access and the sector asked for. *)
Theorem virtio_requests_isolated size m k cs s : 0 < size <= VIRTIO_QUEUE_SIZE_MAX -> 2 ^ 16 mod size = 0 -> ptable_lock k = false ->
  vrun cs (boot_state size m k) s -> vlock (vd s) = false /\ exists w p f, queued s w p f /\ accounted cs w p f /\
    (forall r, r ∈ w ++ p -> exists h, vmem (vd s) !! c_hdr (call_of r) = Some h /\ zlen h = 16 /\
      get32 0 h = u32 (c_type (call_of r)) /\ get32 4 h = 0 /\ get64 8 h = c_begin (call_of r) mod 2 ^ 64) /\
    (forall r, r ∈ w ++ p ++ f -> let c := call_of r in
      zget (q_desc (requestq (vd s))) (r_head r) = Some (Desc (c_hdr c) 16 1 (r_data r)) /\
      zget (q_desc (requestq (vd s))) (r_data r) = Some (Desc (V2P (c_buf c)) (u32 (512 * c_count c)) (if c_type c =? 0 then 3 else 1) (r_stat r)) /\
      zget (q_desc (requestq (vd s))) (r_stat r) = Some (Desc (c_status c) 1 2 0)).
Proof.
  intros Hs Hp Hk H. destruct (vrun_inv _ _ _ H (boot_inv size m k Hs Hp Hk)) as [Hl (w & p & f & Hq & Hc)]. split; [done|].
  exists w, p, f. split; [done|]. split; [done|]. split.
  - intros r Hr. pose proof (v_headers _ _ _ _ Hq) as Hh. rewrite Forall_forall in Hh. eexists. split; [by apply Hh|]. apply header_fields.
  - intros r Hr. pose proof (c_chain _ _ (v_chains _ _ _ _ Hq)) as Hch. rewrite Forall_forall in Hch. destruct (Hch r Hr) as [D0 D1 D2].
    assert (Hd : is_u32 (r_dest r)).
    { pose proof (c_nonzero _ _ (v_chains _ _ _ _ Hq)) as Hn. rewrite Forall_forall in Hn. unfold is_u32. enough (0 < r_dest r < 2 ^ 32) by lia. apply Hn, list_elem_of_bind. exists r. split; [|done]. unfold addrs. set_solver. }
    cbn zeta. unfold call_of. cbn [c_type c_count c_buf c_hdr c_status]. rewrite V2P_P2V by done. done.
Qed.

(** Whatever state is reached, the interrupt handler returns; then no completed
    chain is left, the descriptors of all of them are free again, the other
    requests are as they were, and no process is still asleep on the buffer of a
    completed request. *)
Theorem virtio_completion_wakes size m k cs s : 0 < size <= VIRTIO_QUEUE_SIZE_MAX -> 2 ^ 16 mod size = 0 -> ptable_lock k = false ->
  vrun cs (boot_state size m k) s ->
  exists w p f s', queued s w p f /\ virtio_blk_requestq_intr (vd s) = Ret s' /\ queued (VState s' (dev_pos s) (pending s)) w p [] /\
    vmem s' = vmem (vd s) /\ forall r, r ∈ f -> none_waits (P2V (r_dest r)) (vk s').
Proof.
  intros Hs Hp Hk H. destruct (vrun_inv _ _ _ H (boot_inv size m k Hs Hp Hk)) as [Hl (w & p & f & Hq & _)]. destruct s as [s dp pe].
  destruct (requestq_intr_ok _ _ _ _ _ _ Hq Hl) as (s' & E & _ & Em & Hq' & Hw). by exists w, p, f, s'.
Qed.

(** A step changes memory in three places at most: the header of the request it
    starts, and the status byte of a request the device works on, or its buffer
    if it reads.  So the buffer of a write is never changed, nor memory no request
    has given to the device. *)
Theorem virtio_memory_safe size m k cs c s s' a : 0 < size <= VIRTIO_QUEUE_SIZE_MAX -> 2 ^ 16 mod size = 0 -> ptable_lock k = false ->
  vrun cs (boot_state size m k) s -> vstep c s s' -> vmem (vd s') !! a <> vmem (vd s) !! a ->
  exists w p f, queued s w p f /\
    ((exists r, queued s' (w ++ [r]) p f /\ a = r_hdr r) \/
     exists r, r ∈ p /\ (a = r_dest r /\ r_type r = VIRTIO_BLK_T_IN \/ a = r_status r)).
Proof.
  intros Hs Hp Hk H. destruct (vrun_inv _ _ _ H (boot_inv size m k Hs Hp Hk)) as [Hl (w & p & f & Hq & _)]. clear H Hs Hp Hk. intros Hst Ha.
  exists w, p, f. split; [done|].
  destruct Hst as [type cur begin count buf hdr status s s' dp pe Ht F0 F1 F2 Hn Hr|cur status r s s' dp pe Hr|h s dp pe Hne Hh|h n m' ring s dp pe1 pe2 Hm Hr|s s' dp pe Hr|k' s dp pe Hk']; try done.
  - apply (start_queued _ _ _ _ _ _ _ _ _ _ _ _ _ _ Hq) in Hr as (_ & Em & d0 & d1 & d2 & Hq'); try done. left. eexists. split; [exact Hq'|].
    cbn -[header] in *. rewrite Em in Ha. destruct (decide (a = hdr)) as [|Hne]; [done|]. by rewrite lookup_insert_ne in Ha.
  - exfalso. apply Ha. unfold virtio_blk_resume, virtio_blk_end in Hr. ret_inv Hr. done.
  - destruct (complete_queued _ _ _ _ _ _ _ _ _ _ _ Hq Hm Hr) as (p1 & r & p2 & -> & <- & _). right. exists r. split; [rewrite elem_of_app, elem_of_cons; auto|].
    apply (request_writable (requestq s)); [|by apply Hm]. pose proof (c_chain _ _ (v_chains _ _ _ _ Hq)) as Hc. rewrite Forall_forall in Hc.
    apply Hc. rewrite !elem_of_app, elem_of_cons. auto.
  - destruct (requestq_intr_ok _ _ _ _ _ _ Hq Hl) as (s1 & E & _ & Em & _). rewrite Hr in E. injection E as <-. exfalso. apply Ha. cbn. by rewrite Em.
Qed.
End invariant.

(** ** Examples *)

Definition ex_buf : Z := KERNBASE + 0x400000.
Definition ex_queue (a : Z) : VirtioQueue :=
  match virtio_blk_read (Some 0) 7 1 ex_buf 0x1000 0x2000 (Virtio (new_queue 8) false 0 ∅ (ex_lock_kernel RUNNING ChanNull)) with
  | Ret s => requestq s
  | _ => new_queue a
  end.
Definition ex_asleep := Kernel [ex_proc SLEEPING (ChanOther ex_buf) 1 (-1) empty_queue; ex_proc RUNNING ChanNull 2 0 empty_queue] false 0 3 ex_vm ex_vfs.
Definition ex_started := VState (Virtio (ex_queue 8) false 0 {[0x1000 := header 0 7]} ex_asleep) 0 [].

Definition ex_call : call := Call VIRTIO_BLK_T_IN 7 1 ex_buf 0x1000 0x2000.

Lemma ex_start_step : vstep [ex_call] (boot_state 8 ∅ (ex_lock_kernel RUNNING ChanNull)) ex_started.
Proof.
  refine (vstep_start VIRTIO_BLK_T_IN 0 7 1 ex_buf 0x1000 0x2000 (Virtio (new_queue 8) false 0 ∅ (ex_lock_kernel RUNNING ChanNull))
    (Virtio (ex_queue 8) false 0 {[0x1000 := header 0 7]} (with_lock ex_asleep true)) 0 [] _ _ _ _ _ _).
  - by left.
  - split; [done|]. intros j d [_ Hd]%zget_lookup Hn. apply list_elem_of_lookup_2, list_elem_of_In, repeat_spec in Hd as ->. done.
  - split; [done|]. intros j d [_ Hd]%zget_lookup Hn. apply list_elem_of_lookup_2, list_elem_of_In, repeat_spec in Hd as ->. done.
  - split; [done|]. intros j d [_ Hd]%zget_lookup Hn. apply list_elem_of_lookup_2, list_elem_of_In, repeat_spec in Hd as ->. done.
  - apply (bool_decide_unpack _). vm_compute. exact I.
  - vm_compute. reflexivity.
Qed.

Definition ex_ring : list (Z * Z) := (0, 513) :: repeat (0, 0) 255.
Definition ex_mem : gmap Z (list Z) := {[0x1000 := header 0 7; 0x2000 := [0]; 0x400000 := repeat 97 512]}.
Definition ex_done := VState (Virtio (complete_queue (ex_queue 8) ex_ring) false 0 ex_mem ex_asleep) 1 [].

Lemma ex_take_step : vstep [] ex_started (VState (vd ex_started) 1 [0]).
Proof. refine (vstep_take 0 (vd ex_started) 0 [] _ _); vm_compute; [done|reflexivity]. Qed.

Lemma ex_chain : exists d0 d1 d2, in_chain (ex_queue 8) 0 d0 /\ in_chain (ex_queue 8) 0 d1 /\ in_chain (ex_queue 8) 0 d2 /\
  (Z.land (d_flags d1) VIRTQ_DESC_F_WRITE <> 0 /\ d_addr d1 = 0x400000) /\ Z.land (d_flags d2) VIRTQ_DESC_F_WRITE <> 0 /\ d_addr d2 = 0x2000.
Proof.
  assert (H0 : zget (q_desc (ex_queue 8)) 0 = Some (Desc 0x1000 16 1 1)) by reflexivity.
  assert (H1 : zget (q_desc (ex_queue 8)) 1 = Some (Desc 0x400000 512 3 2)) by reflexivity.
  assert (H2 : zget (q_desc (ex_queue 8)) 2 = Some (Desc 0x2000 1 2 0)) by reflexivity.
  exists (Desc 0x1000 16 1 1), (Desc 0x400000 512 3 2), (Desc 0x2000 1 2 0). split_and!; try done.
  - by apply chain_here.
  - eapply chain_next; [exact H0|done|]. by apply chain_here.
  - eapply chain_next; [exact H0|done|]. eapply chain_next; [exact H1|done|]. by apply chain_here.
Qed.

Lemma ex_complete_step : vstep [] (VState (vd ex_started) 1 [0]) ex_done.
Proof.
  refine (vstep_complete 0 513 ex_mem ex_ring (vd ex_started) 1 [] [] _ _); [|reflexivity].
  intros a Ha. destruct ex_chain as (d0 & d1 & d2 & _ & H1 & H2 & [W1 A1] & W2 & A2).
  destruct (decide (a = 0x400000)) as [->|N1]; [by exists d1|]. destruct (decide (a = 0x2000)) as [->|N2]; [by exists d2|].
  exfalso. apply Ha. destruct (decide (a = 0x1000)) as [->|N0]; [reflexivity|].
  unfold ex_mem. change (vmem (vd ex_started)) with ({[0x1000 := header 0 7]} : gmap Z (list Z)).
  rewrite !lookup_insert_ne, !lookup_singleton_ne by congruence. reflexivity.
Qed.

Lemma ex_taken : vrun [ex_call] (boot_state 8 ∅ (ex_lock_kernel RUNNING ChanNull)) (VState (vd ex_started) 1 [0]).
Proof. apply (vrun_step [ex_call] [] _ ex_started); [|exact ex_take_step]. apply (vrun_step [] [ex_call] _ (boot_state 8 ∅ (ex_lock_kernel RUNNING ChanNull))); [constructor|exact ex_start_step]. Qed.

Lemma ex_run : vrun [ex_call] (boot_state 8 ∅ (ex_lock_kernel RUNNING ChanNull)) ex_done.
Proof. apply (vrun_step [ex_call] [] _ (VState (vd ex_started) 1 [0])); [exact ex_taken|exact ex_complete_step]. Qed.

Lemma virtio_requests_isolated_witness : exists w p f, queued ex_done w p f /\ accounted [ex_call] w p f.
Proof.
  destruct (virtio_requests_isolated 8 ∅ (ex_lock_kernel RUNNING ChanNull) [ex_call] ex_done) as (_ & w & p & f & Hq & Hc & _); [done|done|done|exact ex_run|].
  by exists w, p, f.
Defined.

Lemma virtio_completion_wakes_witness : exists s', virtio_blk_requestq_intr (vd ex_done) = Ret s' /\ vmem s' = ex_mem.
Proof.
  destruct (virtio_completion_wakes 8 ∅ (ex_lock_kernel RUNNING ChanNull) [ex_call] ex_done) as (w & p & f & s' & _ & E & _ & Em & _); [done|done|done|exact ex_run|].
  by exists s'.
Defined.

Lemma virtio_memory_safe_witness : exists w p f, queued (VState (vd ex_started) 1 [0]) w p f /\
  exists r, r ∈ p /\ (0x400000 = r_dest r /\ r_type r = VIRTIO_BLK_T_IN \/ 0x400000 = r_status r).
Proof.
  destruct (virtio_memory_safe 8 ∅ (ex_lock_kernel RUNNING ChanNull) [ex_call] [] (VState (vd ex_started) 1 [0]) ex_done 0x400000) as (w & p & f & Hq & Hr);
    [done|done|done|exact ex_taken|exact ex_complete_step|vm_compute; done|].
  exists w, p, f. split; [done|]. destruct Hr as [(r & Hq' & _)|Hr]; [|done]. exfalso.
  pose proof (v_avail_idx _ _ _ _ Hq) as E. pose proof (v_avail_idx _ _ _ _ Hq') as E'. pose proof (queued_bound _ _ _ _ Hq) as B. pose proof (queued_bound _ _ _ _ Hq') as B'.
  change (q_size _) with 8 in B, B'. change (1 = u16 (1 + zlen w)) in E. change (1 = u16 (1 + zlen (w ++ [r]))) in E'.
  unfold zlen in *. rewrite length_app in *. change (length [r]) with 1%nat in *. unfold u16 in *. rewrite Z.mod_small in E, E' by lia. lia.
Defined.

(** [last] is one variable for all devices, and this model is of one.  Two disks
    each have a completed request: the interrupt of the first moves [last] to the
    used index of the second as well, whose handler then returns at once, so that
    its caller stays asleep. *)
Theorem second_disk_not_served :
  (s1 <- virtio_blk_requestq_intr (vd ex_done) ;;
   s2 <- virtio_blk_requestq_intr (Virtio (requestq (vd ex_done)) false (vlast s1) ex_mem ex_asleep) ;;
   Ret (p_state <$> procs (vk s1), p_state <$> procs (vk s2))) = Ret ([RUNNABLE; RUNNING], [SLEEPING; RUNNING]).
Proof. by vm_compute. Qed.
