(* ===== verification/Hid.v ===== *)
(** kernel/proc/kcall.c and kernel/hal/hid.c: named kernel calls and the input
    event queues.

    The call table is the array of [struct KCallTable]; a handler is a value of
    an arbitrary type, [None] is the null pointer, and calling it is a [Fault].
    The mouse and keyboard queues are two ring buffers of 16 events; the
    theorem about them is that any sequence of events and polls behaves as on a
    list that empties when a sixteenth event arrives. *)

From stdpp Require Import base list strings.
From Stdlib Require Import ZArith Lia.
From S2P Require Import Prelude KString Ring.

Local Open Scope Z_scope.
Local Open Scope outcome_scope.

(** ** kcall.c *)

Record KCallTable (H : Type) := KCall { kc_name : list Z; kc_handler : option H }.
Arguments KCall {H}.
Arguments kc_name {H}.
Arguments kc_handler {H}.

Section kcall.
Context {H : Type}.
Local Notation table := (list (KCallTable H)).

Definition KCALL_MAX : nat := 256.

(** ["true"] with its terminator. *)
Definition true_name : list Z := [116; 114; 117; 101; 0].

(** The loop of [kcall_set] from entry [i]. *)
Fixpoint kcall_set (name : list Z) (handler : option H) (t : table) : outcome table :=
  match t with
  | [] => Panic "out ouf kcall table"
  | e :: t' =>
    c <- of_option (strncmp (kc_name e) name 32) ;;
    if c =? 0 then
      match handler with
      | Some h => Ret (KCall (kc_name e) (Some h) :: t')
      | None => Ret (KCall (<[0%nat := 0]> (kc_name e)) None :: t')
      end
    else match kc_handler e with
         | None => n <- of_option (strncpy name 32) ;; Ret (KCall n handler :: t')
         | Some _ => t2 <- kcall_set name handler t' ;; Ret (e :: t2)
         end
  end.

Definition kcall_init (kcall_true : H) : outcome table :=
  kcall_set true_name (Some kcall_true) (repeat (KCall (repeat 0 32) None) KCALL_MAX).

(** The handler [kcall] calls; [None] when it returns -1. *)
Fixpoint kcall (name : list Z) (t : table) : outcome (option H) :=
  match t with
  | [] => Ret None
  | e :: t' =>
    c <- of_option (strncmp (kc_name e) name 32) ;;
    if c =? 0 then h <- of_option (kc_handler e) ;; Ret (Some h) else kcall name t'
  end.

(** An entry holds name [w] (cut to 32 bytes) as [strncpy] leaves it. *)
Definition entry_named (w : list Z) (e : KCallTable H) : Prop :=
  kc_name e = take 32 w ++ repeat 0 (32 - length w).

(** Comparing with a 32-byte field that may be unterminated. *)
Lemma strncmp_field n : forall (w : list Z) v q, Forall (fun c => c <> 0) w -> holds_str v q ->
  exists r, strncmp (take n w ++ repeat 0 (n - length w)) q n = Some r /\ (r = 0 <-> take n w = take n v).
Proof.
  induction n as [|n IH]; intros w v q Hw (Hv & rv & ->); [by exists 0|].
  destruct w as [|a w]; cbn [take length Nat.sub app repeat].
  - destruct v as [|b v]; cbn [strncmp app]; [by exists 0|]. apply Forall_cons in Hv as [Hb _]. exists (0 - b).
    split; [done|]. cbn [take]. split; [lia|done].
  - apply Forall_cons in Hw as [Ha Hw]. destruct v as [|b v]; cbn [strncmp app].
    + destruct (Z.eqb_spec a 0); [done|]. cbn. exists (a - 0). destruct (Z.eqb_spec a 0); [done|]. split; [done|]. split; [lia|done].
    + apply Forall_cons in Hv as [Hb Hv]. destruct (Z.eqb_spec a 0); [done|]. cbn [negb andb]. destruct (Z.eqb_spec a b) as [->|Hne].
      * destruct (IH w v (v ++ 0 :: rv) Hw) as (r & Hr & Hiff); [split; eauto|]. exists r. split; [done|].
        cbn [take]. rewrite Hiff. split; [by intros ->|by intros [=]].
      * exists (a - b). split; [done|]. cbn [take]. split; [lia|]. intros [=]. done.
Qed.

(** Every entry is named by some string and, if it has a name, has a handler. *)
Definition table_wf (t : table) : Prop :=
  Forall (fun e => exists w, Forall (fun c => c <> 0) w /\ entry_named w e /\ (w <> [] -> is_Some (kc_handler e))) t.

Definition key (w : list Z) : list Z := take 32 w.

(** What [kcall] does with a name: the handler of the first entry of that name. *)
Lemma kcall_set_get name w h t t' : table_wf t -> holds_str w name -> w <> [] -> kcall_set name (Some h) t = Ret t' ->
  kcall name t' = Ret (Some h) /\ table_wf t' /\
  forall v nv, holds_str v nv -> v <> [] -> key v <> key w -> kcall nv t' = kcall nv t.
Proof.
  intros Hwf Hw Hne. revert t'. induction t as [|e t IH]; intros t'; cbn [kcall_set]; [done|].
  apply Forall_cons in Hwf as [(we & Hwe & He & Hh) Hwf]. pose proof Hw as (Hnz & _).
  destruct (strncmp_field 32 we w name Hwe Hw) as (r & Er & Hr). unfold entry_named in He. rewrite <- He in Er. rewrite Er. cbn [of_option obind].
  destruct (Z.eqb_spec r 0) as [Hr0|Hr0].
  - intros [= <-]. split_and!.
    + cbn [kcall kc_name kc_handler]. rewrite Er. cbn [of_option obind]. by rewrite Hr0.
    + constructor; [|done]. exists we. split_and!; eauto.
    + intros v nv Hv Hvne Hkey. cbn [kcall kc_name kc_handler].
      destruct (strncmp_field 32 we v nv Hwe Hv) as (r' & Er' & Hr'). rewrite <- He in Er'. rewrite Er'. cbn [of_option obind].
      destruct (Z.eqb_spec r' 0) as [Hr'0|]; [|done]. exfalso. apply Hkey. unfold key. rewrite <- (proj1 Hr' Hr'0). by apply Hr.
  - destruct (kc_handler e) as [h0|] eqn:Eh.
    + intros Hs. destruct (kcall_set name (Some h) t) as [t2| | |] eqn:E2; [|done..]. cbn [obind] in Hs. injection Hs as <-.
      destruct (IH Hwf t2 eq_refl) as (G1 & G2 & G3). split_and!.
      * cbn [kcall]. rewrite Er. cbn [of_option obind]. destruct (Z.eqb_spec r 0); [done|]. done.
      * constructor; [|done]. exists we. split_and!; [done|done|]. rewrite Eh. eauto.
      * intros v nv Hv Hvne Hkey. cbn [kcall]. destruct (strncmp (kc_name e) nv 32) as [c|]; cbn [of_option obind]; [|done].
        destruct (c =? 0); [done|]. by eapply G3.
    + rewrite (strncpy_spec 32 w name Hw). cbn [of_option obind]. intros [= <-].
      assert (we = []) as ->. { destruct we; [done|]. by destruct Hh as [? ?]. }
      destruct (strncmp_field 32 w w name Hnz Hw) as (r' & Er' & Hr'). split_and!.
      * cbn [kcall kc_name kc_handler]. rewrite Er'. cbn [of_option obind]. rewrite (proj2 Hr' eq_refl). done.
      * constructor; [|done]. exists w. split_and!; [done|done|eauto].
      * intros v nv Hv Hvne Hkey. cbn [kcall kc_name kc_handler].
        destruct (strncmp_field 32 w v nv Hnz Hv) as (rv & Erv & Hrv). rewrite Erv. cbn [of_option obind].
        destruct (strncmp_field 32 [] v nv Hwe Hv) as (r0 & Er0 & Hr0'). rewrite <- He in Er0. rewrite Er0. cbn [of_option obind].
        destruct (Z.eqb_spec rv 0) as [Hz|]; [exfalso; apply Hkey; symmetry; by apply Hrv|].
        destruct (Z.eqb_spec r0 0) as [Hz|]; [|done]. destruct v; [done|]. by apply Hr0' in Hz.
Qed.

(** The empty name matches the first free entry, whose handler is null. *)
Lemma kcall_empty_name t : table_wf t -> (exists e, e ∈ t /\ entry_named [] e) ->
  (forall e, e ∈ t -> entry_named [] e -> kc_handler e = None) -> kcall [0] t = Fault.
Proof.
  intros Hwf. induction Hwf as [|e t (w & Hw & He & Hh) Hwf IH]; [by intros (e & ?%not_elem_of_nil & _)|]. intros Hex Hnone. cbn [kcall].
  assert (H0 : holds_str [] [0]) by (split; [constructor|by exists []]).
  destruct (strncmp_field 32 w [] [0] Hw H0) as (r & Er & Hr). unfold entry_named in He. rewrite <- He in Er. rewrite Er. cbn [of_option obind].
  destruct (Z.eqb_spec r 0) as [Hz|Hz].
  - apply Hr in Hz. destruct w; [|done]. rewrite (Hnone e); [done|by left|done].
  - apply IH; [|intros e' He'; apply Hnone; by right]. destruct Hex as (e' & He'%elem_of_cons & Hn').
    destruct He' as [->|He']; [|eauto]. exfalso. apply Hz, Hr. unfold entry_named in Hn'. rewrite He in Hn'.
    destruct w as [|c w]; [done|]. apply Forall_cons in Hw as [Hc _]. cbn in Hn'. congruence.
Qed.

End kcall.

(** ** hid.c *)

Definition MOUSE_QUEUE_SIZE : Z := 16.
Definition KEYBOARD_QUEUE_SIZE : Z := 16.

(** A queue: buffer, indices, lock. *)
Record event_queue := EvQ { eq_buf : list Z; eq_begin : Z; eq_end : Z; eq_lock : bool }.

Record hid := Hid { mouse : event_queue; keyboard : event_queue; hal_kbd_send_legacy : bool }.

(** Storing an event, with the lock taken around it. *)
Definition queue_put (cap data : Z) (q : event_queue) : outcome event_queue :=
  l <- acquire_b (eq_lock q) ;;
  buf <- of_option (zset (eq_buf q) (eq_begin q) data) ;;
  l' <- release_b l ;;
  Ret (EvQ buf (advance cap (eq_begin q)) (eq_end q) l').

(** Taking one: the event stored through the caller's pointer, 0 if none. *)
Definition queue_take (cap : Z) (q : event_queue) : outcome (Z * event_queue) :=
  l <- acquire_b (eq_lock q) ;;
  if eq_begin q =? eq_end q then
    l' <- release_b l ;; Ret (0, EvQ (eq_buf q) (eq_begin q) (eq_end q) l')
  else
    m <- of_option (zget (eq_buf q) (eq_end q)) ;;
    l' <- release_b l ;;
    Ret (m, EvQ (eq_buf q) (eq_begin q) (advance cap (eq_end q)) l').

Definition hal_mouse_update (data : Z) (s : hid) : outcome hid :=
  q <- queue_put MOUSE_QUEUE_SIZE data (mouse s) ;; Ret (Hid q (keyboard s) (hal_kbd_send_legacy s)).

Definition mouse_kcall_handler (s : hid) : outcome (Z * hid) :=
  '(m, q) <- queue_take MOUSE_QUEUE_SIZE (mouse s) ;; Ret (m, Hid q (keyboard s) (hal_kbd_send_legacy s)).

(** Num lock prints debugging output and stores nothing. *)
Definition hal_keyboard_update (data : Z) (s : hid) : outcome hid :=
  if data =? 144 then Ret s else
  q <- queue_put KEYBOARD_QUEUE_SIZE data (keyboard s) ;; Ret (Hid (mouse s) q (hal_kbd_send_legacy s)).

Definition keyboard_kcall_handler (s : hid) : outcome (Z * hid) :=
  '(m, q) <- queue_take KEYBOARD_QUEUE_SIZE (keyboard s) ;; Ret (m, Hid (mouse s) q false).

(** ["mouse"] and ["keyboard"] with their terminators. *)
Definition mouse_name : list Z := [109; 111; 117; 115; 101; 0].
Definition keyboard_name : list Z := [107; 101; 121; 98; 111; 97; 114; 100; 0].

Definition hal_hid_init {H} (mouse_h keyboard_h : H) (t : list (KCallTable H)) : outcome (hid * list (KCallTable H)) :=
  t1 <- kcall_set mouse_name (Some mouse_h) t ;;
  t2 <- kcall_set keyboard_name (Some keyboard_h) t1 ;;
  Ret (Hid (EvQ (repeat 0 16) 0 0 false) (EvQ (repeat 0 16) 0 0 false) true, t2).

(** *** The queues as lists *)

Inductive input := MouseEvent (d : Z) | MousePoll | KeyEvent (d : Z) | KeyPoll.

Fixpoint run_hid (ops : list input) (s : hid) : outcome (list Z * hid) :=
  match ops with
  | [] => Ret ([], s)
  | MouseEvent d :: ops' => s1 <- hal_mouse_update d s ;; run_hid ops' s1
  | KeyEvent d :: ops' => s1 <- hal_keyboard_update d s ;; run_hid ops' s1
  | MousePoll :: ops' => '(m, s1) <- mouse_kcall_handler s ;; '(r, s2) <- run_hid ops' s1 ;; Ret (m :: r, s2)
  | KeyPoll :: ops' => '(m, s1) <- keyboard_kcall_handler s ;; '(r, s2) <- run_hid ops' s1 ;; Ret (m :: r, s2)
  end.

(** The list a queue of [cap] places behaves as. *)
Definition put_spec (cap d : Z) (l : list Z) : list Z := if zlen l + 1 =? cap then [] else l ++ [d].

(** The answers on lists: [ms] and [ks] are the pending events. *)
Fixpoint run_lists (ops : list input) (ms ks : list Z) : list Z :=
  match ops with
  | [] => []
  | MouseEvent d :: ops' => run_lists ops' (put_spec 16 d ms) ks
  | KeyEvent d :: ops' => run_lists ops' ms (if d =? 144 then ks else put_spec 16 d ks)
  | MousePoll :: ops' => default 0 (head ms) :: run_lists ops' (tail ms) ks
  | KeyPoll :: ops' => default 0 (head ks) :: run_lists ops' ms (tail ks)
  end.

Definition queue_is (q : event_queue) (l : list Z) : Prop :=
  eq_lock q = false /\ ring_holds 16 (eq_begin q) (eq_end q) (eq_buf q) l.

Lemma queue_put_ok d q l : queue_is q l -> exists q', queue_put 16 d q = Ret q' /\ queue_is q' (put_spec 16 d l).
Proof.
  intros [Hl Hr]. unfold queue_put. rewrite Hl. cbn [acquire_b obind]. pose proof (ring_begin _ _ _ _ _ Hr). pose proof (ring_buf _ _ _ _ _ Hr).
  rewrite zset_Some by lia. cbn [of_option obind release_b]. eexists. split; [done|]. split; [done|]. unfold put_spec.
  cbn [eq_begin eq_end eq_buf]. destruct (Z.eqb_spec (zlen l + 1) 16) as [E|E].
  - by eapply ring_overflow.
  - apply ring_push; [done|]. pose proof (ring_size _ _ _ _ _ Hr). lia.
Qed.

Lemma queue_take_ok q l : queue_is q l ->
  exists q', queue_take 16 q = Ret (default 0 (head l), q') /\ queue_is q' (tail l).
Proof.
  intros [Hl Hr]. unfold queue_take. rewrite Hl. cbn [acquire_b obind]. destruct l as [|x l].
  - rewrite (proj2 (ring_empty_iff _ _ _ _ _ Hr) eq_refl), Z.eqb_refl. cbn [release_b obind]. eexists. split; [done|]. split; [done|].
    cbn [eq_begin eq_end eq_buf tail]. rewrite (proj2 (ring_empty_iff _ _ _ _ _ Hr) eq_refl) in Hr. done.
  - destruct (Z.eqb_spec (eq_begin q) (eq_end q)) as [E|E]; [by apply (ring_empty_iff _ _ _ _ _ Hr) in E|].
    destruct (ring_pop _ _ _ _ _ _ Hr) as [-> Hr']. cbn [of_option obind release_b]. eexists. split; [done|]. by split.
Qed.

(** input queues.  Any sequence of mouse and keyboard events and polls gives
    the answers of two first-in first-out lists, oldest event first and 0 when
    there is none, with one exception: the event that finds fifteen others
    waiting makes all of them disappear with itself. *)
Theorem input_queues_refine ops s ms ks : queue_is (mouse s) ms -> queue_is (keyboard s) ks ->
  exists s', run_hid ops s = Ret (run_lists ops ms ks, s').
Proof.
  revert s ms ks. induction ops as [|op ops IH]; intros s ms ks Hm Hk; [by exists s|].
  destruct op as [d| |d|]; cbn [run_hid run_lists].
  - unfold hal_mouse_update. destruct (queue_put_ok d _ _ Hm) as (q & E & Hq). change MOUSE_QUEUE_SIZE with 16. rewrite E. by apply IH.
  - unfold mouse_kcall_handler. destruct (queue_take_ok _ _ Hm) as (q & E & Hq). change MOUSE_QUEUE_SIZE with 16. rewrite E. cbn [obind].
    destruct (IH (Hid q (keyboard s) (hal_kbd_send_legacy s)) (tail ms) ks) as (s' & ->); [done|done|]. cbn [obind]. eauto.
  - unfold hal_keyboard_update. destruct (d =? 144); [by apply IH|].
    destruct (queue_put_ok d _ _ Hk) as (q & E & Hq). change KEYBOARD_QUEUE_SIZE with 16. rewrite E. by apply IH.
  - unfold keyboard_kcall_handler. destruct (queue_take_ok _ _ Hk) as (q & E & Hq). change KEYBOARD_QUEUE_SIZE with 16. rewrite E. cbn [obind].
    destruct (IH (Hid (mouse s) q false) ms (tail ks)) as (s' & ->); [done|done|]. cbn [obind]. eauto.
Qed.

Lemma queue_is_init : queue_is (EvQ (repeat 0 16) 0 0 false) [].
Proof. split; [done|]. apply ring_empty; [cbn; lia|done]. Qed.

Lemma input_queues_refine_witness :
  exists s', run_hid (KeyEvent 65 :: KeyEvent 66 :: KeyPoll :: MousePoll :: MouseEvent 9 :: MousePoll :: KeyPoll :: KeyPoll :: [])
      (Hid (EvQ (repeat 0 16) 0 0 false) (EvQ (repeat 0 16) 0 0 false) true) = Ret ([65; 0; 9; 66; 0], s').
Proof.
  exact (input_queues_refine _ (Hid (EvQ (repeat 0 16) 0 0 false) (EvQ (repeat 0 16) 0 0 false) true) [] [] queue_is_init queue_is_init).
Defined.
