(* ===== verification/Pci.v ===== *)
(** kernel/driver/pci, the two ways to reach the configuration space
    (kernel/driver/x86/pci-legacy.c and intel-pcie-mmcfg.c) and the message
    signalled interrupts of kernel/arch/x86/msi.c.

    [pci_host] is a record of six access functions that start-up may replace; all
    other code goes through it.  Messages to the console are left out.  The loops
    over the configuration space follow the bus, device and function counters; the
    list of capabilities is followed with fuel.

    The theorems: through the ports as through mapped memory an access reaches the
    register asked for; searching with the first and next functions visits every
    function of every bus once, in order; the size of a base address register is
    found and the register left as it was; a capability is found wherever it is in
    the list; a driver is bound to every device it matches, once; an interrupt
    message reaches the handler its vector was given to. *)

From stdpp Require Import base list strings.
From Stdlib Require Import ZArith Lia.
From S2P Require Import Prelude Vm Machine Ioapic Hid.

Local Open Scope Z_scope.
Local Open Scope hw_scope.

Definition PCI_DEVICE_MAX : Z := 32.
Definition PCI_FUNCTION_MAX : Z := 8.
Definition PCI_DEVICE_TABLE_SIZE : Z := 64.

Definition PCI_CONF_VENDOR : Z := 0x0.
Definition PCI_CONF_DEVICE : Z := 0x2.
Definition PCI_CONF_COMMAND : Z := 0x4.
Definition PCI_CONF_STATUS : Z := 0x6.
Definition PCI_CONF_PROGIF : Z := 0x9.
Definition PCI_CONF_SUBCLASS : Z := 0xa.
Definition PCI_CONF_CLASS : Z := 0xb.
Definition PCI_CONF_HEADER_TYPE : Z := 0xe.
Definition PCI_CONF_BAR : Z := 0x10.
Definition PCI_CONF_ROM_BAR : Z := 0x30.
Definition PCI_CONF_CAP_PTR : Z := 0x34.
Definition PCI_CONF_INTR_LINE : Z := 0x3c.
Definition PCI_CONF_INTR_PIN : Z := 0x3d.

Definition PCI_CONTROL_IO_SPACE : Z := 1.
Definition PCI_CONTROL_MEMORY_SPACE : Z := 2.
Definition PCI_CONTROL_BUS_MASTER : Z := 4.
Definition PCI_CONTROL_INTERRUPT_DISABLE : Z := 1024.
Definition PCI_STATUS_INTERRUPT : Z := 8.

Record PciAddress := PciAddr { bus : Z; device : Z; function : Z }.

#[export] Instance pci_address_eq_dec : EqDecision PciAddress.
Proof. solve_decision. Defined.

Record PciHost (M : Type) := Host {
  read8 : PciAddress -> Z -> hw M Z;
  read16 : PciAddress -> Z -> hw M Z;
  read32 : PciAddress -> Z -> hw M Z;
  write8 : PciAddress -> Z -> Z -> hw M unit;
  write16 : PciAddress -> Z -> Z -> hw M unit;
  write32 : PciAddress -> Z -> Z -> hw M unit;
  bus_num : Z;
  pcie_ecam_base : Z
}.
Arguments Host {M}.
Arguments read8 {M}.
Arguments read16 {M}.
Arguments read32 {M}.
Arguments write8 {M}.
Arguments write16 {M}.
Arguments write32 {M}.
Arguments bus_num {M}.
Arguments pcie_ecam_base {M}.

(** ** Access to the configuration space *)

Section hosts.
Context {M : Type} `{Machine M}.

Definition PCI_IO_CONFADD : Z := 0xcf8.
Definition PCI_IO_CONFDATA : Z := 0xcfc.

(** The word for the address port. *)
Definition conf_address (addr : PciAddress) (reg : Z) : Z :=
  Z.lor (Z.lor (Z.lor (Z.lor (Z.shiftl (bus addr) 16) (Z.shiftl (device addr) 11)) (Z.shiftl (function addr) 8)) (Z.land reg 0xfc)) (Z.shiftl 1 31).

Definition pci_legacy_read_config_reg8 (addr : PciAddress) (reg : Z) : hw M Z :=
  outdw PCI_IO_CONFADD (conf_address addr reg) ;> inb (PCI_IO_CONFDATA + Z.rem reg 4).
Definition pci_legacy_read_config_reg16 (addr : PciAddress) (reg : Z) : hw M Z :=
  outdw PCI_IO_CONFADD (conf_address addr reg) ;> inw (PCI_IO_CONFDATA + Z.rem reg 4).
Definition pci_legacy_read_config_reg32 (addr : PciAddress) (reg : Z) : hw M Z :=
  outdw PCI_IO_CONFADD (conf_address addr reg) ;> indw PCI_IO_CONFDATA.
Definition pci_legacy_write_config_reg8 (addr : PciAddress) (reg data : Z) : hw M unit :=
  outdw PCI_IO_CONFADD (conf_address addr reg) ;> outb (PCI_IO_CONFDATA + Z.rem reg 4) data.
Definition pci_legacy_write_config_reg16 (addr : PciAddress) (reg data : Z) : hw M unit :=
  outdw PCI_IO_CONFADD (conf_address addr reg) ;> outw (PCI_IO_CONFDATA + Z.rem reg 4) data.
Definition pci_legacy_write_config_reg32 (addr : PciAddress) (reg data : Z) : hw M unit :=
  outdw PCI_IO_CONFADD (conf_address addr reg) ;> outdw PCI_IO_CONFDATA data.

(** What [pci_host] is at boot. *)
Definition legacy_host : PciHost M :=
  Host pci_legacy_read_config_reg8 pci_legacy_read_config_reg16 pci_legacy_read_config_reg32
       pci_legacy_write_config_reg8 pci_legacy_write_config_reg16 pci_legacy_write_config_reg32 256 0.

(** The place of a register in the mapped configuration space. *)
Definition ecam_offset (addr : PciAddress) (reg : Z) : Z :=
  Z.lor (Z.lor (Z.lor (Z.shiftl (bus addr) 20) (Z.shiftl (device addr) 15)) (Z.shiftl (function addr) 12)) reg.

Definition intel_mmcfg_read_config_reg8 (base : Z) (addr : PciAddress) (reg : Z) : hw M Z := load8 (base + ecam_offset addr reg).
Definition intel_mmcfg_read_config_reg16 (base : Z) (addr : PciAddress) (reg : Z) : hw M Z := load16 (base + ecam_offset addr reg).
Definition intel_mmcfg_read_config_reg32 (base : Z) (addr : PciAddress) (reg : Z) : hw M Z := load32 (base + ecam_offset addr reg).
Definition intel_mmcfg_write_config_reg8 (base : Z) (addr : PciAddress) (reg data : Z) : hw M unit := store8 (base + ecam_offset addr reg) data.
Definition intel_mmcfg_write_config_reg16 (base : Z) (addr : PciAddress) (reg data : Z) : hw M unit := store16 (base + ecam_offset addr reg) data.
Definition intel_mmcfg_write_config_reg32 (base : Z) (addr : PciAddress) (reg data : Z) : hw M unit := store32 (base + ecam_offset addr reg) data.

Definition mmcfg_host (base num_bus : Z) : PciHost M :=
  Host (intel_mmcfg_read_config_reg8 base) (intel_mmcfg_read_config_reg16 base) (intel_mmcfg_read_config_reg32 base)
       (intel_mmcfg_write_config_reg8 base) (intel_mmcfg_write_config_reg16 base) (intel_mmcfg_write_config_reg32 base) num_bus base.

(** The size field of the register: 256, 128, 64 or 512 buses; the other cases of
    the switch cannot be reached. *)
Definition mmcfg_buses (pciexbar : Z) : Z :=
  match Z.land pciexbar 6 with 0 => 256 | 2 => 128 | 4 => 64 | _ => 512 end.

(** [0] and the new host, or [-1] and the old one. *)
Definition intel_pcie_mmcfg_init (host : PciHost M) (host_bridge_addr : PciAddress) : hw M (Z * PciHost M) :=
  vendor <~ read16 host host_bridge_addr 0;
  if negb (vendor =? 0x8086) then mret (-1, host) else
  hi <~ read32 host host_bridge_addr 0x64;
  lo <~ read32 host host_bridge_addr 0x60;
  let pciexbar := Z.lor (Z.shiftl hi 32) lo in
  if pciexbar =? 0 then mret (-1, host) else
  if negb (Z.land pciexbar 0xffffff8000000000 =? 0) then mret (-1, host) else
  if negb (Z.land pciexbar 0x3fffff0 =? 0) then mret (-1, host) else
  if Z.land pciexbar 1 =? 0 then mret (-1, host) else
  let base := Z.land pciexbar 0x7ffc000000 in
  if 0xe0000000 <? base then mret (-1, host) else
  if base <? 0xb0000000 then mret (-1, host) else
  va <~ mlift (map_mmio_region (Z.land pciexbar 0xfc000000) (s32 (mmcfg_buses pciexbar * 0x100000)));
  mret (0, mmcfg_host va (mmcfg_buses pciexbar)).
End hosts.

(** ** Registers of a device *)

Section registers.
Context {M : Type}.
Variable pci_host : PciHost M.

Definition bar_reg (bar : Z) : Z := PCI_CONF_BAR + bar * 4.

(** The address in a base address register; [0] for one above four gigabytes. *)
Definition pci_read_bar (addr : PciAddress) (bar : Z) : hw M Z :=
  bar_val <~ read32 pci_host addr (bar_reg bar);
  if Z.testbit bar_val 0 then mret (Z.land bar_val 0xfffffffc) else
  if Z.land bar_val 6 =? 4
  then hi <~ read32 pci_host addr (bar_reg bar + 4); mret (if negb (hi =? 0) then 0 else Z.land bar_val 0xfffffff0)
  else mret (Z.land bar_val 0xfffffff0).

(** [~x + 1] on 32 bits. *)
Definition neg32 (x : Z) : Z := u32 (Z.lnot x + 1).

Definition pci_read_bar_size (addr : PciAddress) (bar : Z) : hw M Z :=
  oldbar <~ read32 pci_host addr (bar_reg bar);
  write32 pci_host addr (bar_reg bar) 0xffffffff ;>
  v <~ read32 pci_host addr (bar_reg bar);
  write32 pci_host addr (bar_reg bar) oldbar ;>
  mret (if Z.testbit oldbar 0 then neg32 (Z.land v 0xfffffffc) else neg32 (Z.land v 0xfffffff0)).

Definition pci_read_rom_bar (addr : PciAddress) : hw M Z :=
  rombar <~ read32 pci_host addr PCI_CONF_ROM_BAR;
  (if Z.testbit rombar 0 then mret tt else write32 pci_host addr PCI_CONF_ROM_BAR (Z.lor rombar 1)) ;>
  mret (Z.land rombar 0xfffff800).

Definition pci_read_rom_bar_size (addr : PciAddress) : hw M Z :=
  rombar <~ read32 pci_host addr PCI_CONF_ROM_BAR;
  write32 pci_host addr PCI_CONF_ROM_BAR 0xfffff800 ;>
  v <~ read32 pci_host addr PCI_CONF_ROM_BAR;
  write32 pci_host addr PCI_CONF_ROM_BAR rombar ;>
  mret (neg32 (Z.land v 0xfffff800)).

(** Reading the command register, changing it, and writing it back. *)
Definition update_command (addr : PciAddress) (f : Z -> Z) : hw M unit :=
  pcicmd <~ read16 pci_host addr PCI_CONF_COMMAND; write16 pci_host addr PCI_CONF_COMMAND (f pcicmd).

Definition pci_enable_bus_mastering (addr : PciAddress) : hw M unit := update_command addr (Z.lor PCI_CONTROL_BUS_MASTER).
Definition pci_enable_device (addr : PciAddress) : hw M unit :=
  update_command addr (Z.lor (Z.lor PCI_CONTROL_IO_SPACE PCI_CONTROL_MEMORY_SPACE)).
Definition pci_enable_intx_intr (addr : PciAddress) : hw M unit :=
  update_command addr (fun c => Z.land c (Z.lnot PCI_CONTROL_INTERRUPT_DISABLE)).
Definition pci_disable_intx_intr (addr : PciAddress) : hw M unit := update_command addr (Z.lor PCI_CONTROL_INTERRUPT_DISABLE).

(** The capability [cap_id], or [0]; a list that comes back to itself without it
    is followed for ever. *)
Fixpoint find_cap (fuel : nat) (addr : PciAddress) (cap_id capptr : Z) : hw M Z :=
  if capptr =? 0 then mret 0 else
  match fuel with
  | O => fun _ => NoFuel
  | S fuel' =>
    id <~ read8 pci_host addr capptr;
    if id =? cap_id then mret capptr else next <~ read8 pci_host addr (capptr + 1); find_cap fuel' addr cap_id next
  end.

Definition pci_find_capability (fuel : nat) (addr : PciAddress) (cap_id : Z) : hw M Z :=
  capptr <~ read8 pci_host addr PCI_CONF_CAP_PTR; find_cap fuel addr cap_id capptr.

(** ** Searches *)

(** The three loops, from the given place on; each loop starts again at zero. *)
Fixpoint scan_functions (test : PciAddress -> hw M bool) (n : nat) (b d f : Z) : hw M (option PciAddress) :=
  match n with
  | O => mret None
  | S n' => t <~ test (PciAddr b d f); if t then mret (Some (PciAddr b d f)) else scan_functions test n' b d (f + 1)
  end.

Fixpoint scan_devices (test : PciAddress -> hw M bool) (n : nat) (b d f : Z) : hw M (option PciAddress) :=
  match n with
  | O => mret None
  | S n' =>
    r <~ scan_functions test (Z.to_nat (PCI_FUNCTION_MAX - f)) b d f;
    match r with Some a => mret (Some a) | None => scan_devices test n' b (d + 1) 0 end
  end.

Fixpoint scan_buses (test : PciAddress -> hw M bool) (n : nat) (b d f : Z) : hw M (option PciAddress) :=
  match n with
  | O => mret None
  | S n' =>
    r <~ scan_devices test (Z.to_nat (PCI_DEVICE_MAX - d)) b d f;
    match r with Some a => mret (Some a) | None => scan_buses test n' (b + 1) 0 0 end
  end.

Definition scan_from (test : PciAddress -> hw M bool) (b d f : Z) : hw M (option PciAddress) :=
  scan_buses test (Z.to_nat (bus_num pci_host - b)) b d f.

(** The conditions: the second register is read when the first agrees. *)
Definition is_device (vendor dev : Z) (addr : PciAddress) : hw M bool :=
  v <~ read16 pci_host addr PCI_CONF_VENDOR;
  if v =? vendor then d <~ read16 pci_host addr PCI_CONF_DEVICE; mret (d =? dev) else mret false.
Definition is_class (cls subclass : Z) (addr : PciAddress) : hw M bool :=
  c <~ read8 pci_host addr PCI_CONF_CLASS;
  if c =? cls then s <~ read8 pci_host addr PCI_CONF_SUBCLASS; mret (s =? subclass) else mret false.
Definition is_progif (cls subclass progif : Z) (addr : PciAddress) : hw M bool :=
  c <~ is_class cls subclass addr;
  if c : bool then p <~ read8 pci_host addr PCI_CONF_PROGIF; mret (p =? progif) else mret false.

Definition pci_find_device (vendor dev : Z) := scan_from (is_device vendor dev) 0 0 0.
Definition pci_find_class (cls subclass : Z) := scan_from (is_class cls subclass) 0 0 0.
Definition pci_find_progif (cls subclass progif : Z) := scan_from (is_progif cls subclass progif) 0 0 0.

Definition scan_next (test : PciAddress -> hw M bool) (a : PciAddress) := scan_from test (bus a) (device a) (function a + 1).
Definition pci_next_device (vendor dev : Z) := scan_next (is_device vendor dev).
Definition pci_next_class (cls subclass : Z) := scan_next (is_class cls subclass).
Definition pci_next_progif (cls subclass progif : Z) := scan_next (is_progif cls subclass progif).
End registers.

(** ** Devices and drivers *)

(** Pointers to code are numbers, [0] is null. *)
Record PCIDevice := PciDev {
  pd_addr : PciAddress;
  vendor_id : Z;
  device_id : Z;
  class : Z;
  subclass : Z;
  progif : Z;
  irq : Z;
  private : Z;
  intx_intr_handler : Z;
  pd_driver : Z;
  msix_table : Z;
  msix_pba : Z
}.

Definition no_pci_device : PCIDevice := PciDev (PciAddr 0 0 0) 0 0 0 0 0 0 0 0 0 0 0.

Record PCIDriver := PciDriver { drv_name : list Z; match_table : option (list (Z * Z)); class_type : Z }.

Definition set_driver (d : PCIDevice) (x : Z) : PCIDevice :=
  PciDev (pd_addr d) (vendor_id d) (device_id d) (class d) (subclass d) (progif d) (irq d) (private d) (intx_intr_handler d) x (msix_table d) (msix_pba d).
Definition set_intx (d : PCIDevice) (h : Z) : PCIDevice :=
  PciDev (pd_addr d) (vendor_id d) (device_id d) (class d) (subclass d) (progif d) (irq d) (private d) h (pd_driver d) (msix_table d) (msix_pba d).
Definition set_private (d : PCIDevice) (x : Z) : PCIDevice :=
  PciDev (pd_addr d) (vendor_id d) (device_id d) (class d) (subclass d) (progif d) (irq d) x (intx_intr_handler d) (pd_driver d) (msix_table d) (msix_pba d).
Definition set_msix (d : PCIDevice) (table pba : Z) : PCIDevice :=
  PciDev (pd_addr d) (vendor_id d) (device_id d) (class d) (subclass d) (progif d) (irq d) (private d) (intx_intr_handler d) (pd_driver d) table pba.

(** The first free entry of the table. *)
Fixpoint pci_add_device (addr : PciAddress) (vendor dev cls sub pif line : Z) (table : list PCIDevice) : outcome (list PCIDevice) :=
  match table with
  | [] => Panic "too many pci devices"
  | d :: table' =>
    if vendor_id d =? 0
    then Ret (PciDev addr vendor dev cls sub pif line (private d) (intx_intr_handler d) (pd_driver d) (msix_table d) (msix_pba d) :: table')
    else obind (pci_add_device addr vendor dev cls sub pif line table') (fun t => Ret (d :: t))
  end.

(** *** Interrupt messages *)

Definition MSI_VECTOR_MAX : Z := 190.
Definition MSI_VECTOR_BASE : Z := 65.

Record MSIMessage := MsiMsg { msg_addr : Z; msg_data : Z }.
Record MSIVector := MsiVec { used : bool; handler : Z; vec_private : Z }.

Definition msi_init : list MSIVector := repeat (MsiVec false 0 0) (Z.to_nat MSI_VECTOR_MAX).

(** The handler to call and its argument; [None] for a spurious interrupt. *)
Definition msi_intr (vector : Z) (vs : list MSIVector) : outcome (option (Z * Z)) :=
  obind (of_option (zget vs (vector - MSI_VECTOR_BASE))) (fun v => Ret (if used v then Some (handler v, vec_private v) else None)).

Definition msi_compose_msg (vector lapicid : Z) : MSIMessage := MsiMsg (Z.lor 0xfee00000 (u32 (Z.shiftl lapicid 12))) vector.

(** The first free vector from [i] on; [0] and no message when there is none. *)
Fixpoint msi_alloc (h priv i : Z) (vs : list MSIVector) : Z * option MSIMessage * list MSIVector :=
  match vs with
  | [] => (0, None, [])
  | v :: vs' =>
    if used v then let '(r, m, vs2) := msi_alloc h priv (i + 1) vs' in (r, m, v :: vs2)
    else (i + MSI_VECTOR_BASE, Some (msi_compose_msg (i + MSI_VECTOR_BASE) 0), MsiVec true h priv :: vs')
  end.

Definition msi_alloc_vector (h priv : Z) (vs : list MSIVector) : Z * option MSIMessage * list MSIVector := msi_alloc h priv 0 vs.

Definition msi_free_vector (m : MSIMessage) (vs : list MSIVector) : outcome (list MSIVector) :=
  let i := Z.land (msg_data m) 0xff - MSI_VECTOR_BASE in
  obind (of_option (zget vs i)) (fun v => of_option (zset vs i (MsiVec false (handler v) (vec_private v)))).

(** *** The table in the state of the kernel *)

Record pci_vars := PciVars { pci_device_table : list PCIDevice; msi_vector : list MSIVector; pci_kcalls : list (KCallTable Z) }.

Definition with_table (v : pci_vars) (t : list PCIDevice) : pci_vars := PciVars t (msi_vector v) (pci_kcalls v).

Section kernel.
Context {A H : Type} `{Machine H}.

Local Notation state := (driver A pci_vars H).

Variable pci_host : PciHost state.
(** Turns for a list of capabilities. *)
Variable fuel : nat.
(** The [init] of a driver and an interrupt handler, called with a table index. *)
Variable call_init : Z -> Z -> hw state unit.
Variable call_handler : Z -> Z -> hw state unit.

Definition get_device (i : Z) : hw state PCIDevice := v <~ get_local; mlift (of_option (zget (pci_device_table v) i)).
Definition set_device (i : Z) (d : PCIDevice) : hw state unit :=
  v <~ get_local; t <~ mlift (of_option (zset (pci_device_table v) i d)); put_local (with_table v t).

(** One function: not there, without and with an interrupt pin; [pci_intx_name] has
    entries for four pins. *)
Definition probe_function (addr : PciAddress) : hw state unit :=
  vendor <~ read16 pci_host addr PCI_CONF_VENDOR;
  if vendor =? 0xffff then mret tt else
  intr_pin <~ read8 pci_host addr PCI_CONF_INTR_PIN;
  dev <~ read16 pci_host addr PCI_CONF_DEVICE;
  cls <~ read8 pci_host addr PCI_CONF_CLASS;
  sub <~ read8 pci_host addr PCI_CONF_SUBCLASS;
  pif <~ read8 pci_host addr PCI_CONF_PROGIF;
  line <~ (if intr_pin =? 0 then mret 0
           else l <~ read8 pci_host addr PCI_CONF_INTR_LINE; mlift (if intr_pin <=? 4 then Ret l else Fault));
  v <~ get_local;
  t <~ mlift (pci_add_device addr vendor dev cls sub pif line (pci_device_table v));
  put_local (with_table v t).

Definition probe_all : hw state unit :=
  each (fun b => each (fun d => each (fun f => probe_function (PciAddr b d f)) (seqZ 0 PCI_FUNCTION_MAX)) (seqZ 0 PCI_DEVICE_MAX)) (seqZ 0 (bus_num pci_host)).

(** ["pci"]. *)
Definition pci_name : list Z := [112; 99; 105; 0].

Definition pci_init (ioapic pci_kcall_handler : Z) : hw state unit :=
  v <~ get_local;
  put_local (with_table v (repeat no_pci_device (Z.to_nat PCI_DEVICE_TABLE_SIZE))) ;>
  probe_all ;>
  each (fun irq => ioapic_enable ioapic irq 0 IOAPIC_LEVEL_TRIGGER IOAPIC_ACTIVE_HIGH) [5; 9; 10; 11] ;>
  v' <~ get_local;
  k <~ mlift (kcall_set pci_name (Some pci_kcall_handler) (pci_kcalls v'));
  put_local (PciVars (pci_device_table v') (msi_vector v') k).

(** Binding the driver with pointer [drv] to entry [i] if the condition holds. *)
Definition bind_if (drv : Z) (cond : PCIDevice -> bool) (i : Z) : hw state unit :=
  d <~ get_device i;
  if (pd_driver d =? 0) && cond d
  then set_device i (set_driver d drv) ;> pci_enable_device pci_host (pd_addr d) ;> call_init drv i
  else mret tt.

Definition bind_all (drv : Z) (cond : PCIDevice -> bool) : hw state unit := each (bind_if drv cond) (seqZ 0 PCI_DEVICE_TABLE_SIZE).

Definition match_id (id : Z * Z) (d : PCIDevice) : bool := (vendor_id d =? fst id) && (device_id d =? snd id).
Definition match_class (ct : Z) (d : PCIDevice) : bool :=
  (class d =? Z.land (Z.shiftr ct 16) 0xff) && (subclass d =? Z.land (Z.shiftr ct 8) 0xff).
Definition match_progif (ct : Z) (d : PCIDevice) : bool := match_class ct d && (progif d =? Z.land ct 0xff).

(** The identifiers up to the one with vendor zero, then the class. *)
Fixpoint bind_ids (drv : Z) (ids : list (Z * Z)) : hw state unit :=
  match ids with
  | [] => fun _ => Fault
  | id :: ids' => if fst id =? 0 then mret tt else bind_all drv (match_id id) ;> bind_ids drv ids'
  end.

Definition pci_register_driver (drv : Z) (d : PCIDriver) : hw state unit :=
  match match_table d with Some ids => bind_ids drv ids | None => mret tt end ;>
  (if class_type d =? 0 then mret tt
   else if Z.land (class_type d) 0xff =? 0xff then bind_all drv (match_class (class_type d))
   else bind_all drv (match_progif (class_type d))).

(** *** Interrupts *)

Definition pci_interrupt (line : Z) : hw state unit :=
  each (fun i =>
    d <~ get_device i;
    if irq d =? line
    then s <~ read16 pci_host (pd_addr d) PCI_CONF_STATUS;
         if Z.land s PCI_STATUS_INTERRUPT =? 0 then mret tt
         else if intx_intr_handler d =? 0 then (fun _ => Fault) else call_handler (intx_intr_handler d) i
    else mret tt) (seqZ 0 PCI_DEVICE_TABLE_SIZE).

Definition pci_register_intr_handler (i h : Z) : hw state unit := d <~ get_device i; set_device i (set_intx d h).

(** The offset of the capability, and whether it has 64-bit addresses. *)
Definition pci_msi_probe (addr : PciAddress) : hw state (Z * bool) :=
  capoff <~ pci_find_capability pci_host fuel addr 5;
  if capoff =? 0 then mret (0, false) else
  msictl <~ read16 pci_host addr (capoff + 2);
  mret (capoff, Z.testbit msictl 7).

Definition pci_msi_enable (addr : PciAddress) (m : MSIMessage) : hw state Z :=
  p <~ pci_msi_probe addr;
  let '(capoff, sixfour_bits) := p in
  if capoff =? 0 then mret 0 else
  write32 pci_host addr (capoff + 4) (u32 (msg_addr m)) ;>
  (if sixfour_bits : bool
   then write32 pci_host addr (capoff + 8) 0 ;> write16 pci_host addr (capoff + 12) (u16 (msg_data m))
   else write16 pci_host addr (capoff + 8) (u16 (msg_data m))) ;>
  msictl <~ read16 pci_host addr (capoff + 2);
  write16 pci_host addr (capoff + 2) (Z.lor (Z.land msictl 0xff8e) 1) ;>
  pci_enable_bus_mastering pci_host addr ;>
  mret capoff.

Definition pci_msi_disable (addr : PciAddress) : hw state unit :=
  capoff <~ pci_find_capability pci_host fuel addr 5;
  if capoff =? 0 then mret tt else
  msictl <~ read16 pci_host addr (capoff + 2);
  write16 pci_host addr (capoff + 2) (Z.land msictl (Z.lnot 1)).

(** Offset, and place of the table and of the pending bits: register and offset in
    it. *)
Definition pci_msix_probe (addr : PciAddress) : hw state (Z * (Z * Z) * (Z * Z)) :=
  capoff <~ pci_find_capability pci_host fuel addr 0x11;
  if capoff =? 0 then mret (0, (0, 0), (0, 0)) else
  read16 pci_host addr (capoff + 2) ;>
  tablereg <~ read32 pci_host addr (capoff + 4);
  pbareg <~ read32 pci_host addr (capoff + 8);
  mret (capoff, (Z.land tablereg 7, Z.land tablereg 0xfffffff8), (Z.land pbareg 7, Z.land pbareg 0xfffffff8)).

Definition pci_msix_get_num_vectors (addr : PciAddress) : hw state Z :=
  capoff <~ pci_find_capability pci_host fuel addr 0x11;
  if capoff =? 0 then mret 0 else
  msixctl <~ read16 pci_host addr (capoff + 2);
  mret (Z.land msixctl 0x7ff + 1).

(** Mapping the region of a base address register. *)
Definition map_bar (addr : PciAddress) (bar : Z) : hw state Z :=
  pa <~ pci_read_bar pci_host addr bar;
  size <~ pci_read_bar_size pci_host addr bar;
  mlift (map_mmio_region pa size).

(** Word [w] of the entry of vector [vec]. *)
Definition msix_word (table vec w : Z) : Z := table + 4 * (vec * 4 + w).

Definition pci_msix_enable (i : Z) : hw state Z :=
  d <~ get_device i;
  p <~ pci_msix_probe (pd_addr d);
  let '(capoff, (table_bar, table_offset), (pba_bar, pba_offset)) := p in
  if capoff =? 0 then mret 0 else
  table_va <~ map_bar (pd_addr d) table_bar;
  pba_va <~ map_bar (pd_addr d) pba_bar;
  set_device i (set_msix d (table_va + table_offset) (pba_va + pba_offset)) ;>
  num_vec <~ pci_msix_get_num_vectors (pd_addr d);
  each (fun v => store32 (msix_word (table_va + table_offset) v 3) 1) (seqZ 0 num_vec) ;>
  msixctl <~ read16 pci_host (pd_addr d) (capoff + 2);
  write16 pci_host (pd_addr d) (capoff + 2) (Z.lor (Z.land msixctl 0x7ff) (Z.shiftl 1 15)) ;>
  mret capoff.

Definition pci_msix_set_message (d : PCIDevice) (vec : Z) (m : MSIMessage) : hw state unit :=
  store32 (msix_word (msix_table d) vec 0) (Z.land (msg_addr m) 0xffffffff) ;>
  store32 (msix_word (msix_table d) vec 1) (Z.land (Z.shiftr (msg_addr m) 32) 0xffffffff) ;>
  store32 (msix_word (msix_table d) vec 2) (msg_data m).
Definition pci_msix_mask (d : PCIDevice) (vec : Z) : hw state unit := store32 (msix_word (msix_table d) vec 3) 1.
Definition pci_msix_unmask (d : PCIDevice) (vec : Z) : hw state unit := store32 (msix_word (msix_table d) vec 3) 0.
End kernel.

(** *** The kernel call *)

Definition PCI_KCALL_OP_FIRST_ADDR : Z := 0.
Definition PCI_KCALL_OP_NEXT_ADDR : Z := 1.
Definition PCI_KCALL_OP_READ_CONFIG : Z := 2.
Definition PCI_KCALL_OP_DRIVER_NAME : Z := 3.
Definition PCI_KCALL_OP_RESOURCE : Z := 4.

(** The structure of the caller, six words in memory. *)
Record PciKcall := PciKc { kc_op : Z; kc_id : Z; kc_bus : Z; kc_device : Z; kc_function : Z; kc_ptr : Z }.

Section kernel_call.
Context {A H : Type} `{Machine H}.

Local Notation state := (driver A pci_vars H).

Variable pci_host : PciHost state.
(** The bytes of a driver's name. *)
Variable driver_name : Z -> list Z.

Definition read_kcall (p : Z) : hw state PciKcall := fun s =>
  let w i := get32 (4 * i) (ram_get p 24 s) in Ret (PciKc (w 0) (w 1) (w 2) (w 3) (w 4) (w 5), s).

(** [id] and the address of the device. *)
Definition put_addr (p i : Z) (a : PciAddress) : hw state unit :=
  modify (ram_put (p + 4) (le_bytes 4 i ++ le_bytes 4 (bus a) ++ le_bytes 4 (device a) ++ le_bytes 4 (function a))).

(** The first entry in use from [i] on, of [n]. *)
Fixpoint next_used (n : nat) (p i : Z) : hw state Z :=
  match n with
  | O => mret 0
  | S n' =>
    d <~ get_device i;
    if vendor_id d =? 0 then next_used n' p (i + 1) else put_addr p i (pd_addr d) ;> mret 1
  end.

Definition pci_kcall_first_addr (p : Z) : hw state Z := next_used (Z.to_nat PCI_DEVICE_TABLE_SIZE) p 0.
Definition pci_kcall_next_addr (p id : Z) : hw state Z :=
  let i := s32 (id + 1) in next_used (Z.to_nat (PCI_DEVICE_TABLE_SIZE - i)) p i.

Definition copy_config (addr : PciAddress) (ptr : Z) (regs : list Z) : hw state unit :=
  each (fun i => v <~ read32 pci_host addr i; modify (ram_put (ptr + i) (le_bytes 4 v))) regs.

Definition pci_kcall_read_config (id ptr : Z) : hw state Z :=
  d <~ get_device id;
  if vendor_id d =? 0 then mret ERROR_NOT_EXIST else
  (if negb (pcie_ecam_base pci_host =? 0)
   then copy_config (pd_addr d) ptr ((fun i => 4 * i) <$> seqZ 0 1024)
   else copy_config (pd_addr d) ptr ((fun i => 4 * i) <$> seqZ 0 64) ;> modify (ram_put (ptr + 256) (repeat 0 (4096 - 256)))) ;>
  mret 0.

(** [safestrcpy] of at most 63 bytes and a terminator. *)
Definition pci_kcall_driver_name (id ptr : Z) : hw state Z :=
  d <~ get_device id;
  if vendor_id d =? 0 then mret ERROR_NOT_EXIST else
  modify (ram_put ptr (if pd_driver d =? 0 then [0] else take 63 (driver_name (pd_driver d)) ++ [0])) ;>
  mret 0.

(** Base and size of a register; a base of zero has no size. *)
Definition put_bar (addr : PciAddress) (ptr i : Z) : hw state unit :=
  b <~ pci_read_bar pci_host addr i;
  modify (ram_put (ptr + 8 * i) (le_bytes 8 b)) ;>
  if b =? 0 then mret tt
  else size <~ pci_read_bar_size pci_host addr i; modify (ram_put (ptr + 48 + 8 * i) (le_bytes 8 size)).

Definition pci_kcall_resource (id ptr : Z) : hw state Z :=
  d <~ get_device id;
  if vendor_id d =? 0 then mret ERROR_NOT_EXIST else
  header_type <~ read8 pci_host (pd_addr d) PCI_CONF_HEADER_TYPE;
  let num_bars := if (header_type =? 0) || (header_type =? 0x80) then 6 else 2 in
  modify (ram_put ptr (repeat 0 112)) ;>
  each (put_bar (pd_addr d) ptr) (seqZ 0 num_bars) ;>
  b <~ pci_read_rom_bar pci_host (pd_addr d);
  modify (ram_put (ptr + 96) (le_bytes 8 b)) ;>
  (if b =? 0 then mret tt
   else size <~ pci_read_rom_bar_size pci_host (pd_addr d); modify (ram_put (ptr + 104) (le_bytes 8 size))) ;>
  mret 0.

Definition pci_kcall_handler (p : Z) : hw state Z :=
  k <~ read_kcall p;
  if kc_op k =? PCI_KCALL_OP_FIRST_ADDR then pci_kcall_first_addr p else
  if kc_op k =? PCI_KCALL_OP_NEXT_ADDR then pci_kcall_next_addr p (kc_id k) else
  if kc_op k =? PCI_KCALL_OP_READ_CONFIG then pci_kcall_read_config (kc_id k) (kc_ptr k) else
  if kc_op k =? PCI_KCALL_OP_DRIVER_NAME then pci_kcall_driver_name (kc_id k) (kc_ptr k) else
  if kc_op k =? PCI_KCALL_OP_RESOURCE then pci_kcall_resource (kc_id k) (kc_ptr k) else
  mret ERROR_INVAILD.
End kernel_call.

(** ** The configuration space *)

(** Registers as bytes, and what writing some of them does: it depends on nothing
    but the registers. *)
Class ConfigSpace (M : Type) := {
  cfg : M -> PciAddress -> Z -> Z;
  cfg_write : PciAddress -> Z -> list Z -> M -> M;
  cfg_byte h a r : is_u8 (cfg h a r);
  cfg_write_same a r l h h' : (forall a r, cfg h a r = cfg h' a r) -> forall a' r', cfg (cfg_write a r l h) a' r' = cfg (cfg_write a r l h') a' r'
}.

Definition cfg_bytes {M} `{ConfigSpace M} (h : M) (a : PciAddress) (r w : Z) : list Z := (fun i => cfg h a (r + i)) <$> seqZ 0 w.

(** States that agree on the configuration space. *)
Definition same {M} `{ConfigSpace M} (h h' : M) : Prop := forall a r, cfg h a r = cfg h' a r.

#[export] Instance same_equivalence {M} `{ConfigSpace M} : Equivalence same.
Proof. split; [done| |]; [intros h h' Hs a r; by rewrite Hs|intros h1 h2 h3 H1 H2 a r; by rewrite H1, H2]. Qed.

#[export] Instance cfg_write_proper {M} `{ConfigSpace M} : Proper (eq ==> eq ==> eq ==> same ==> same) cfg_write.
Proof. intros a ? <- r ? <- l ? <- h h' Hs. exact (cfg_write_same a r l h h' Hs). Qed.

#[export] Instance cfg_bytes_proper {M} `{ConfigSpace M} : Proper (same ==> eq ==> eq ==> eq ==> eq) cfg_bytes.
Proof. intros h h' Hs a a' <- r r' <- w w' <-. unfold cfg_bytes. apply list_fmap_ext. intros _ i _. apply Hs. Qed.

Definition addr_ok (nbus : Z) (a : PciAddress) : Prop := 0 <= bus a < nbus /\ 0 <= device a < PCI_DEVICE_MAX /\ 0 <= function a < PCI_FUNCTION_MAX.

(** Aligned registers below [lim]. *)
Definition reg_ok (lim r w : Z) : Prop := 0 <= r /\ r + w <= lim /\ r mod w = 0.

(** What [pci_host] promises: each access reaches the bytes of the register of the
    function asked for. *)
Definition reads {M} `{ConfigSpace M} (nbus lim w : Z) (read : PciAddress -> Z -> hw M Z) : Prop :=
  forall a r h, addr_ok nbus a -> reg_ok lim r w -> exists h', read a r h = Ret (le_val (cfg_bytes h a r w), h') /\ same h h'.
Definition writes {M} `{ConfigSpace M} (nbus lim w : Z) (write : PciAddress -> Z -> Z -> hw M unit) : Prop :=
  forall a r v h, addr_ok nbus a -> reg_ok lim r w -> 0 <= v < 256 ^ w ->
    exists h', write a r v h = Ret (tt, h') /\ same (cfg_write a r (le_bytes (Z.to_nat w) v) h) h'.

Record host_ok {M} `{ConfigSpace M} (lim : Z) (host : PciHost M) : Prop := {
  host_read8 : reads (bus_num host) lim 1 (read8 host);
  host_read16 : reads (bus_num host) lim 2 (read16 host);
  host_read32 : reads (bus_num host) lim 4 (read32 host);
  host_write8 : writes (bus_num host) lim 1 (write8 host);
  host_write16 : writes (bus_num host) lim 2 (write16 host);
  host_write32 : writes (bus_num host) lim 4 (write32 host)
}.

(** ** Both ways to the configuration space *)

(** Configuration mechanism #1 of the PCI specification: the address port selects a
    function and an aligned register, the data ports are its four bytes. *)
Definition conf_target (v : Z) : PciAddress := PciAddr ((v / 2 ^ 16) mod 2 ^ 8) ((v / 2 ^ 11) mod 2 ^ 5) ((v / 2 ^ 8) mod 2 ^ 3).
Definition conf_reg (v : Z) : Z := 4 * ((v / 4) mod 2 ^ 6).

Class ConfigPorts (M : Type) `{Machine M} `{ConfigSpace M} := {
  confadd : M -> Z;
  confadd_write v h : is_u32 v -> let h' := io_out 4 PCI_IO_CONFADD v h in confadd h' = v /\ same h h';
  confdata_read w off h : w = 1 \/ w = 2 \/ w = 4 -> 0 <= off -> off + w <= 4 -> off mod w = 0 -> Z.testbit (confadd h) 31 = true ->
    exists h', io_in w (PCI_IO_CONFDATA + off) h = (le_val (cfg_bytes h (conf_target (confadd h)) (conf_reg (confadd h) + off) w), h') /\ same h h';
  confdata_write w off v h : w = 1 \/ w = 2 \/ w = 4 -> 0 <= off -> off + w <= 4 -> off mod w = 0 -> Z.testbit (confadd h) 31 = true ->
    same (cfg_write (conf_target (confadd h)) (conf_reg (confadd h) + off) (le_bytes (Z.to_nat w) v) h) (io_out w (PCI_IO_CONFDATA + off) v h)
}.

(** The enhanced mechanism of PCI Express: the registers of all functions in one
    array, four kilobytes each. *)
Definition ecam_target (o : Z) : PciAddress := PciAddr (o / 2 ^ 20) ((o / 2 ^ 15) mod 2 ^ 5) ((o / 2 ^ 12) mod 2 ^ 3).

Class Ecam (M : Type) `{Machine M} `{ConfigSpace M} (base nbus : Z) := {
  ecam_load w o h : w = 1 \/ w = 2 \/ w = 4 -> 0 <= o < nbus * 2 ^ 20 -> o mod w = 0 ->
    exists h', mm_load w (base + o) h = (le_val (cfg_bytes h (ecam_target o) (o mod 2 ^ 12) w), h') /\ same h h';
  ecam_store w o v h : w = 1 \/ w = 2 \/ w = 4 -> 0 <= o < nbus * 2 ^ 20 -> o mod w = 0 ->
    same (cfg_write (ecam_target o) (o mod 2 ^ 12) (le_bytes (Z.to_nat w) v) h) (mm_store w (base + o) v h)
}.

Lemma land_fc r : 0 <= r < 256 -> Z.land r 0xfc = r - r mod 4.
Proof.
  intros Hr. replace 0xfc with (Z.ldiff (Z.ones 8) (Z.ones 2)) by done. 
  assert (E : Z.land r (Z.ldiff (Z.ones 8) (Z.ones 2)) = Z.shiftl (Z.shiftr r 2) 2).
  { apply Z.bits_inj'. intros n Hn. rewrite Z.land_spec, Z.ldiff_spec, !Z.testbit_ones_nonneg by lia. destruct (Z.ltb_spec n 2).
    - rewrite Z.shiftl_spec_low by lia. by rewrite andb_false_r, andb_false_r.
    - rewrite Z.shiftl_spec, Z.shiftr_spec by lia. replace (n - 2 + 2) with n by lia. destruct (Z.ltb_spec n 8); [by rewrite !andb_true_r|].
      rewrite <- (Z.mod_small r (2 ^ 8)), Z.mod_pow2_bits_high by lia. done. }
  rewrite E, Z.shiftl_mul_pow2, Z.shiftr_div_pow2 by lia. change (2 ^ 2) with 4. pose proof (Z.div_mod r 4). lia.
Qed.

Lemma conf_address_value a r : addr_ok 256 a -> 0 <= r < 256 ->
  conf_address a r = 2 ^ 31 + bus a * 2 ^ 16 + device a * 2 ^ 11 + function a * 2 ^ 8 + (r - r mod 4).
Proof.
  intros (Hb & Hd & Hf) Hr. unfold PCI_DEVICE_MAX, PCI_FUNCTION_MAX in *. unfold conf_address. rewrite land_fc by done.
  assert (Hm : 0 <= r - r mod 4 < 256) by (pose proof (Z.mod_pos_bound r 4); pose proof (Z.mod_le r 4); lia).
  rewrite (Z.lor_comm _ (Z.shiftl 1 31)), <- !Z.lor_assoc.
  rewrite (lor_shiftl (function a)), (lor_shiftl (device a)), (lor_shiftl (bus a)), (lor_shiftl 1) by lia. lia.
Qed.

Lemma ecam_offset_value n a r : addr_ok n a -> 0 <= r < 4096 -> ecam_offset a r = bus a * 2 ^ 20 + device a * 2 ^ 15 + function a * 2 ^ 12 + r.
Proof.
  intros (Hb & Hd & Hf) Hr. unfold PCI_DEVICE_MAX, PCI_FUNCTION_MAX in *. unfold ecam_offset. rewrite <- !Z.lor_assoc.
  rewrite (lor_shiftl (function a)), (lor_shiftl (device a)), (lor_shiftl (bus a)) by lia. lia.
Qed.

(** The address port selects what was asked for. *)
Lemma conf_address_target a r : addr_ok 256 a -> 0 <= r < 256 -> let v := conf_address a r in
  is_u32 v /\ Z.testbit v 31 = true /\ conf_target v = a /\ conf_reg v = r - r mod 4.
Proof.
  intros Ha Hr v. unfold v. rewrite conf_address_value by done. destruct a as [b d f], Ha as (Hb & Hd & Hf). unfold PCI_DEVICE_MAX, PCI_FUNCTION_MAX in *.
  cbn [bus device function] in *. pose proof (Z.div_mod r 4) as Hq. pose proof (Z.mod_pos_bound r 4). set (q := r / 4) in *. set (m := r mod 4) in *.
  assert (Hm : r - m = 4 * q) by lia. rewrite Hm. clearbody q m. split_and!.
  - unfold is_u32. lia.
  - rewrite Z.testbit_true by lia. rewrite <- (Z.div_unique _ (2 ^ 31) 1 (b * 2 ^ 16 + d * 2 ^ 11 + f * 2 ^ 8 + 4 * q)) by lia. done.
  - unfold conf_target. f_equal.
    + rewrite <- (Z.div_unique _ (2 ^ 16) (2 ^ 15 + b) (d * 2 ^ 11 + f * 2 ^ 8 + 4 * q)) by lia.
      rewrite <- (Z.mod_unique _ (2 ^ 8) 128 b) by lia. done.
    + rewrite <- (Z.div_unique _ (2 ^ 11) (2 ^ 20 + b * 2 ^ 5 + d) (f * 2 ^ 8 + 4 * q)) by lia.
      rewrite <- (Z.mod_unique _ (2 ^ 5) (2 ^ 15 + b) d) by lia. done.
    + rewrite <- (Z.div_unique _ (2 ^ 8) (2 ^ 23 + b * 2 ^ 8 + d * 2 ^ 3 + f) (4 * q)) by lia.
      rewrite <- (Z.mod_unique _ (2 ^ 3) (2 ^ 20 + b * 2 ^ 5 + d) f) by lia. done.
  - unfold conf_reg. rewrite <- (Z.div_unique _ 4 (2 ^ 29 + b * 2 ^ 14 + d * 2 ^ 9 + f * 2 ^ 6 + q) 0) by lia.
    rewrite <- (Z.mod_unique _ (2 ^ 6) (2 ^ 23 + b * 2 ^ 8 + d * 2 ^ 3 + f) q) by lia. done.
Qed.

Lemma ecam_offset_target n a r : addr_ok n a -> 0 <= r < 4096 -> let o := ecam_offset a r in
  0 <= o < n * 2 ^ 20 /\ ecam_target o = a /\ o mod 2 ^ 12 = r.
Proof.
  intros Ha Hr o. unfold o. rewrite (ecam_offset_value n) by done. destruct a as [b d f], Ha as (Hb & Hd & Hf). unfold PCI_DEVICE_MAX, PCI_FUNCTION_MAX in *.
  cbn [bus device function] in *. split_and!; [lia|lia| |].
  - unfold ecam_target. f_equal.
    + rewrite <- (Z.div_unique _ (2 ^ 20) b (d * 2 ^ 15 + f * 2 ^ 12 + r)) by lia. done.
    + rewrite <- (Z.div_unique _ (2 ^ 15) (b * 2 ^ 5 + d) (f * 2 ^ 12 + r)) by lia. rewrite <- (Z.mod_unique _ (2 ^ 5) b d) by lia. done.
    + rewrite <- (Z.div_unique _ (2 ^ 12) (b * 2 ^ 8 + d * 2 ^ 3 + f) r) by lia. rewrite <- (Z.mod_unique _ (2 ^ 3) (b * 2 ^ 5 + d) f) by lia. done.
  - rewrite <- (Z.mod_unique _ (2 ^ 12) (b * 2 ^ 8 + d * 2 ^ 3 + f) r) by lia. done.
Qed.

Section access.
Context {M : Type} `{Machine M} `{ConfigSpace M} `{!ConfigPorts M}.

(** Selecting a register. *)
Lemma select_ok a r h : addr_ok 256 a -> 0 <= r < 256 ->
  exists h', outdw PCI_IO_CONFADD (conf_address a r) h = Ret (tt, h') /\ same h h' /\ confadd h' = conf_address a r.
Proof.
  intros Ha Hr. destruct (conf_address_target a r Ha Hr) as (Hu & _). unfold outdw, modify. rewrite u32_small by done.
  destruct (confadd_write (conf_address a r) h Hu) as [E S]. eexists. split; [done|]. done.
Qed.

Lemma legacy_read w a r h : w = 1 \/ w = 2 \/ w = 4 -> addr_ok 256 a -> reg_ok 256 r w ->
  exists h', (outdw PCI_IO_CONFADD (conf_address a r) ;> (fun h => Ret (io_in w (PCI_IO_CONFDATA + r mod 4) h))) h = Ret (le_val (cfg_bytes h a r w), h') /\ same h h'.
Proof.
  intros Hw Ha (Hr0 & Hr1 & Hrm). assert (Hr : 0 <= r < 256) by lia. destruct (conf_address_target a r Ha Hr) as (_ & B31 & Et & Er).
  destruct (select_ok a r h Ha Hr) as (h1 & E1 & S1 & C1). rewrite (mbind_run _ _ _ _ _ E1).
  destruct (confdata_read w (r mod 4) h1 Hw) as (h2 & E2 & S2).
  - apply Z.mod_pos_bound. lia.
  - destruct Hw as [->|[->| ->]]; Z.to_euclidean_division_equations; lia.
  - destruct Hw as [->|[->| ->]]; Z.to_euclidean_division_equations; lia.
  - by rewrite C1.
  - exists h2. rewrite E2, C1, Et, Er. replace (r - r mod 4 + r mod 4) with r by lia. rewrite <- S1. split; [done|]. by rewrite S1.
Qed.

Lemma legacy_write w a r v h : w = 1 \/ w = 2 \/ w = 4 -> addr_ok 256 a -> reg_ok 256 r w ->
  exists h', (outdw PCI_IO_CONFADD (conf_address a r) ;> modify (io_out w (PCI_IO_CONFDATA + r mod 4) v)) h = Ret (tt, h') /\
    same (cfg_write a r (le_bytes (Z.to_nat w) v) h) h'.
Proof.
  intros Hw Ha (Hr0 & Hr1 & Hrm). assert (Hr : 0 <= r < 256) by lia. destruct (conf_address_target a r Ha Hr) as (_ & B31 & Et & Er).
  destruct (select_ok a r h Ha Hr) as (h1 & E1 & S1 & C1). rewrite (mbind_run _ _ _ _ _ E1).
  eexists. split; [done|]. rewrite S1. pose proof (confdata_write w (r mod 4) v h1 Hw) as Hx. rewrite C1, Et, Er in Hx.
  replace (r - r mod 4 + r mod 4) with r in Hx by lia. apply Hx; [apply Z.mod_pos_bound; lia| | |done].
  all: destruct Hw as [->|[->| ->]]; Z.to_euclidean_division_equations; lia.
Qed.

Lemma legacy_host_ok : host_ok 256 (legacy_host (M := M)).
Proof.
  constructor; cbn [read8 read16 read32 write8 write16 write32 bus_num legacy_host].
  - intros a r h Ha Hr. unfold pci_legacy_read_config_reg8. rewrite Z.rem_mod_nonneg by (destruct Hr; lia). apply legacy_read; auto.
  - intros a r h Ha Hr. unfold pci_legacy_read_config_reg16. rewrite Z.rem_mod_nonneg by (destruct Hr; lia). apply legacy_read; auto.
  - intros a r h Ha Hr. unfold pci_legacy_read_config_reg32. destruct (legacy_read 4 a r h) as (h' & E & S); [auto|done|done|].
    destruct Hr as (_ & _ & Hm). rewrite Hm, Z.add_0_r in E. by exists h'.
  - intros a r v h Ha Hr Hv. unfold pci_legacy_write_config_reg8, outb, u8. rewrite Z.rem_mod_nonneg by (destruct Hr; lia).
    rewrite (Z.mod_small v) by lia. apply legacy_write; auto.
  - intros a r v h Ha Hr Hv. unfold pci_legacy_write_config_reg16, outw, u16. rewrite Z.rem_mod_nonneg by (destruct Hr; lia).
    rewrite (Z.mod_small v) by lia. apply legacy_write; auto.
  - intros a r v h Ha Hr Hv. unfold pci_legacy_write_config_reg32. destruct (legacy_write 4 a r v h) as (h' & E & S); [auto|done|done|].
    destruct Hr as (_ & _ & Hm). rewrite Hm, Z.add_0_r in E. exists h'. split; [|done]. rewrite <- E. unfold outdw at 2. by rewrite (u32_small v).
Qed.

Section mapped.
Context {base nbus : Z} `{!Ecam M base nbus}.

Lemma ecam_aligned a r w : w = 1 \/ w = 2 \/ w = 4 -> addr_ok nbus a -> reg_ok 4096 r w -> ecam_offset a r mod w = 0.
Proof.
  intros Hw Ha (Hr0 & Hr1 & Hrm). rewrite (ecam_offset_value nbus) by (done || lia). destruct Hw as [->|[->| ->]]; Z.to_euclidean_division_equations; lia.
Qed.

Lemma mapped_read w a r h : w = 1 \/ w = 2 \/ w = 4 -> addr_ok nbus a -> reg_ok 4096 r w ->
  exists h', mm_load w (base + ecam_offset a r) h = (le_val (cfg_bytes h a r w), h') /\ same h h'.
Proof.
  intros Hw Ha Hr. assert (Hr' : 0 <= r < 4096) by (destruct Hr; lia). destruct (ecam_offset_target nbus a r Ha Hr') as (Ho & Et & Er).
  destruct (ecam_load w (ecam_offset a r) h Hw Ho) as (h' & E & S); [by apply ecam_aligned|]. rewrite Et, Er in E. by exists h'.
Qed.

Lemma mapped_write w a r v h : w = 1 \/ w = 2 \/ w = 4 -> addr_ok nbus a -> reg_ok 4096 r w ->
  same (cfg_write a r (le_bytes (Z.to_nat w) v) h) (mm_store w (base + ecam_offset a r) v h).
Proof.
  intros Hw Ha Hr. assert (Hr' : 0 <= r < 4096) by (destruct Hr; lia). destruct (ecam_offset_target nbus a r Ha Hr') as (Ho & Et & Er).
  pose proof (ecam_store w (ecam_offset a r) v h Hw Ho) as S. rewrite Et, Er in S. by apply S, ecam_aligned.
Qed.

Lemma mmcfg_host_ok : host_ok 4096 (mmcfg_host (M := M) base nbus).
Proof.
  constructor; cbn [read8 read16 read32 write8 write16 write32 bus_num mmcfg_host].
  1-3: intros a r h Ha Hr; edestruct mapped_read as (h' & E & S); [|exact Ha|exact Hr|]; [auto|]; exists h'; (split; [|exact S]).
  1: unfold intel_mmcfg_read_config_reg8, load8. 2: unfold intel_mmcfg_read_config_reg16, load16. 3: unfold intel_mmcfg_read_config_reg32, load32.
  1-3: by rewrite E.
  - intros a r v h Ha Hr Hv. eexists. split; [reflexivity|]. unfold u8. rewrite Z.mod_small by lia. apply mapped_write; auto.
  - intros a r v h Ha Hr Hv. eexists. split; [reflexivity|]. unfold u16. rewrite Z.mod_small by lia. apply mapped_write; auto.
  - intros a r v h Ha Hr Hv. eexists. split; [reflexivity|]. unfold u32. rewrite Z.mod_small by lia. apply mapped_write; auto.
Qed.

(** C27: On hardware that follows the two mechanisms, an access of one, two or four
    bytes reaches the same registers of the same function through the ports as
    through the mapped memory: those it was asked for. *)
Theorem config_access_correct : host_ok 256 (legacy_host (M := M)) /\ host_ok 4096 (mmcfg_host (M := M) base nbus).
Proof. split; [exact legacy_host_ok|exact mmcfg_host_ok]. Qed.
End mapped.
End access.

(** ** Searches *)

(** All functions, in the order of the loops. *)
Definition all_functions (nbus : Z) : list PciAddress :=
  seqZ 0 nbus ≫= (fun b => seqZ 0 PCI_DEVICE_MAX ≫= (fun d => PciAddr b d <$> seqZ 0 PCI_FUNCTION_MAX)).

(** The functions the loops go through from a place on. *)
Definition fn_list (b d f : Z) : list PciAddress := PciAddr b d <$> seqZ f (PCI_FUNCTION_MAX - f).
Fixpoint dev_list (n : nat) (b d f : Z) : list PciAddress :=
  match n with O => [] | S n' => fn_list b d f ++ dev_list n' b (d + 1) 0 end.
Fixpoint bus_list (n : nat) (b d f : Z) : list PciAddress :=
  match n with O => [] | S n' => dev_list (Z.to_nat (PCI_DEVICE_MAX - d)) b d f ++ bus_list n' (b + 1) 0 0 end.

Lemma dev_list_all n b : forall d, dev_list n b d 0 = seqZ d (Z.of_nat n) ≫= (fun d => PciAddr b d <$> seqZ 0 PCI_FUNCTION_MAX).
Proof.
  induction n as [|n IH]; intros d; [done|]. cbn [dev_list]. rewrite (seqZ_cons d) by lia. rewrite bind_cons, IH. unfold fn_list.
  rewrite Z.sub_0_r. by replace (Z.pred (Z.of_nat (S n))) with (Z.of_nat n) by lia.
Qed.

Lemma bus_list_all n : forall b, bus_list n b 0 0 = seqZ b (Z.of_nat n) ≫= (fun b => seqZ 0 PCI_DEVICE_MAX ≫= (fun d => PciAddr b d <$> seqZ 0 PCI_FUNCTION_MAX)).
Proof.
  induction n as [|n IH]; intros b; [done|]. cbn [bus_list]. rewrite (seqZ_cons b) by lia. rewrite bind_cons, IH, dev_list_all.
  rewrite Z.sub_0_r, Z2Nat.id by done. by replace (Z.pred (Z.of_nat (S n))) with (Z.of_nat n) by lia.
Qed.

Section searches.
Context (nbus : Z).

Definition all_from (b d f : Z) : list PciAddress := bus_list (Z.to_nat (nbus - b)) b d f.
Definition after (a : PciAddress) : list PciAddress := all_from (bus a) (device a) (function a + 1).

Lemma all_from_0 : 0 <= nbus -> all_from 0 0 0 = all_functions nbus.
Proof. intros Hn. unfold all_from, all_functions. rewrite bus_list_all, Z.sub_0_r, Z2Nat.id by done. done. Qed.

Lemma all_from_cons b d f : 0 <= b < nbus -> 0 <= d < PCI_DEVICE_MAX -> 0 <= f < PCI_FUNCTION_MAX -> all_from b d f = PciAddr b d f :: all_from b d (f + 1).
Proof.
  intros Hb Hd Hf. unfold all_from. destruct (Z.to_nat (nbus - b)) as [|n] eqn:En; [lia|]. cbn [bus_list].
  destruct (Z.to_nat (PCI_DEVICE_MAX - d)) as [|m] eqn:Em; [lia|]. cbn [dev_list]. unfold fn_list. rewrite seqZ_cons, fmap_cons by lia. cbn [app].
  repeat f_equal; lia.
Qed.

Lemma all_from_device b d : 0 <= b < nbus -> 0 <= d < PCI_DEVICE_MAX -> all_from b d PCI_FUNCTION_MAX = all_from b (d + 1) 0.
Proof.
  intros Hb Hd. unfold all_from. destruct (Z.to_nat (nbus - b)) as [|n] eqn:En; [lia|]. cbn [bus_list].
  destruct (Z.to_nat (PCI_DEVICE_MAX - d)) as [|m] eqn:Em; [lia|]. replace (Z.to_nat (PCI_DEVICE_MAX - (d + 1))) with m by lia. done.
Qed.

Lemma all_from_bus b : 0 <= b < nbus -> all_from b PCI_DEVICE_MAX 0 = all_from (b + 1) 0 0.
Proof.
  intros Hb. unfold all_from. destruct (Z.to_nat (nbus - b)) as [|n] eqn:En; [lia|]. replace (Z.to_nat (nbus - (b + 1))) with n by lia. done.
Qed.

Definition place (b d f : Z) : Prop := 0 <= b <= nbus /\ 0 <= d <= PCI_DEVICE_MAX /\ 0 <= f <= PCI_FUNCTION_MAX /\ (d = PCI_DEVICE_MAX -> f = 0).

(** A place is the end, or the place of a function. *)
Lemma all_from_next b d f : place b d f -> all_from b d f = [] \/
  exists b' d' f', addr_ok nbus (PciAddr b' d' f') /\ all_from b d f = PciAddr b' d' f' :: all_from b' d' (f' + 1).
Proof.
  intros (Hb & Hd & Hf & Hdf).
  assert (Hbus : forall b, 0 <= b <= nbus -> all_from b 0 0 = [] \/ exists b' d' f', addr_ok nbus (PciAddr b' d' f') /\ all_from b 0 0 = PciAddr b' d' f' :: all_from b' d' (f' + 1)).
  { intros b0 Hb0. destruct (Z.eq_dec b0 nbus) as [->|]; [left; unfold all_from; by rewrite Z.sub_diag|]. right. exists b0, 0, 0.
    split; [unfold addr_ok, PCI_DEVICE_MAX, PCI_FUNCTION_MAX; cbn; lia|]. apply all_from_cons; unfold PCI_DEVICE_MAX, PCI_FUNCTION_MAX; lia. }
  destruct (Z.eq_dec b nbus) as [->|]; [left; unfold all_from; by rewrite Z.sub_diag|].
  assert (Hdev : forall d, 0 <= d <= PCI_DEVICE_MAX -> all_from b d 0 = [] \/ exists b' d' f', addr_ok nbus (PciAddr b' d' f') /\ all_from b d 0 = PciAddr b' d' f' :: all_from b' d' (f' + 1)).
  { intros d0 Hd0. destruct (Z.eq_dec d0 PCI_DEVICE_MAX) as [->|]; [rewrite all_from_bus by lia; apply Hbus; lia|]. right. exists b, d0, 0.
    split; [unfold addr_ok, PCI_FUNCTION_MAX; cbn; lia|]. apply all_from_cons; unfold PCI_FUNCTION_MAX; lia. }
  destruct (Z.eq_dec d PCI_DEVICE_MAX) as [->|]; [rewrite (Hdf eq_refl); apply Hdev; lia|].
  destruct (Z.eq_dec f PCI_FUNCTION_MAX) as [->|]; [rewrite all_from_device by lia; apply Hdev; lia|].
  right. exists b, d, f. split; [split_and!; cbn; lia|]. apply all_from_cons; lia.
Qed.

Lemma after_place a : addr_ok nbus a -> place (bus a) (device a) (function a + 1).
Proof. intros (Hb & Hd & Hf). unfold place. unfold PCI_DEVICE_MAX, PCI_FUNCTION_MAX in *. lia. Qed.

(** After a function come those that the next search starts with. *)
Lemma all_from_split k : forall b d f pre x post, (length pre <= k)%nat -> place b d f -> all_from b d f = pre ++ x :: post -> post = after x /\ addr_ok nbus x.
Proof.
  induction k as [|k IH]; intros b d f pre x post Hl Hp E; destruct (all_from_next b d f Hp) as [En|(b' & d' & f' & Ha & En)]; rewrite En in E.
  all: destruct pre as [|y pre]; cbn in E; simplify_eq; cbn in Hl; try lia; try done.
  apply (IH b' d' (f' + 1) pre x post); [lia|apply (after_place _ Ha)|done].
Qed.
End searches.

Section scans.
Context {M : Type} `{ConfigSpace M}.
Variable host : PciHost M.

(** A test of a function looks at its registers only. *)
Definition decides (test : PciAddress -> hw M bool) (p : M -> PciAddress -> bool) : Prop :=
  (forall a h, addr_ok (bus_num host) a -> exists h', test a h = Ret (p h a, h') /\ same h h') /\
  forall h h' a, same h h' -> p h a = p h' a.

Fixpoint scan_list (test : PciAddress -> hw M bool) (l : list PciAddress) : hw M (option PciAddress) :=
  match l with
  | [] => mret None
  | a :: l' => t <~ test a; if t then mret (Some a) else scan_list test l'
  end.

Lemma scan_list_app test l1 l2 h :
  scan_list test (l1 ++ l2) h = (r <~ scan_list test l1; match r with Some a => mret (Some a) | None => scan_list test l2 end) h.
Proof.
  revert h. induction l1 as [|a l1 IH]; intros h; [done|]. cbn [app scan_list]. rewrite mbind_assoc. unfold mbind at 1 2.
  destruct (test a h) as [[t h']| | |]; cbn; [|done..]. destruct t; [done|]. apply IH.
Qed.

Lemma mbind_ext {X Y} (m m' : hw M X) (k k' : X -> hw M Y) h : m h = m' h -> (forall x h, k x h = k' x h) -> mbind m k h = mbind m' k' h.
Proof. intros Em Ek. unfold mbind. rewrite Em. by destruct (m' h) as [[x h']| | |]; cbn. Qed.

Lemma scan_functions_list test b d n : forall f h, scan_functions test n b d f h = scan_list test (PciAddr b d <$> seqZ f (Z.of_nat n)) h.
Proof.
  induction n as [|n IH]; intros f h; [done|]. cbn [scan_functions]. rewrite seqZ_cons, fmap_cons by lia. cbn [scan_list].
  apply mbind_ext; [done|]. intros [] h'; [done|]. rewrite IH. repeat f_equal; lia.
Qed.

Lemma scan_devices_list test b n : forall d f h, 0 <= f <= PCI_FUNCTION_MAX -> scan_devices test n b d f h = scan_list test (dev_list n b d f) h.
Proof.
  induction n as [|n IH]; intros d f h Hf; [done|]. cbn [scan_devices dev_list]. rewrite scan_list_app. apply mbind_ext.
  - rewrite scan_functions_list, Z2Nat.id by lia. done.
  - intros [a|] h'; [done|]. by apply IH.
Qed.

Lemma scan_buses_list test n : forall b d f h, 0 <= f <= PCI_FUNCTION_MAX -> scan_buses test n b d f h = scan_list test (bus_list n b d f) h.
Proof.
  induction n as [|n IH]; intros b d f h Hf; [done|]. cbn [scan_buses bus_list]. rewrite scan_list_app. apply mbind_ext; [by apply scan_devices_list|].
  intros [a|] h'; [done|]. by apply IH.
Qed.

Lemma scan_list_ok test p l : decides test p -> forall h, Forall (addr_ok (bus_num host)) l ->
  exists h', scan_list test l h = Ret (head (filter (fun a => p h a = true) l), h') /\ same h h'.
Proof.
  intros [Ht Hp]. induction l as [|a l IH]; intros h Hl; [by exists h|]. apply Forall_cons in Hl as [Ha Hl]. cbn [scan_list].
  destruct (Ht a h Ha) as (h1 & E1 & S1). rewrite (mbind_run _ _ _ _ _ E1), filter_cons. destruct (p h a) eqn:Ep.
  - exists h1. rewrite decide_True by done. done.
  - rewrite decide_False by done. destruct (IH h1 Hl) as (h2 & E2 & S2). exists h2. split; [|by rewrite S1]. rewrite E2.
    rewrite (list_filter_iff (fun a => p h1 a = true) (fun a => p h a = true)); [done|]. intros x. by rewrite (Hp h h1 x S1).
Qed.


Lemma all_from_ok b d f : place (bus_num host) b d f -> Forall (addr_ok (bus_num host)) (all_from (bus_num host) b d f).
Proof.
  intros Hp. apply Forall_forall. intros x (pre & post & E)%list_elem_of_split. by apply (all_from_split (bus_num host) (length pre) b d f pre x post) in E as [_ ?].
Qed.

Lemma scan_from_ok test p b d f h : decides test p -> place (bus_num host) b d f ->
  exists h', scan_from host test b d f h = Ret (head (filter (fun a => p h a = true) (all_from (bus_num host) b d f)), h') /\ same h h'.
Proof.
  intros Ht Hp. unfold scan_from. rewrite scan_buses_list by (destruct Hp as (_ & _ & ? & _); done). by apply scan_list_ok, all_from_ok.
Qed.

(** The first function that is found, and the next ones until there is none. *)
Fixpoint search_rest (fuel : nat) (next : PciAddress -> hw M (option PciAddress)) (r : option PciAddress) : hw M (list PciAddress) :=
  match r, fuel with
  | None, _ => mret []
  | Some a, O => fun _ => NoFuel
  | Some a, S fuel' => r' <~ next a; l <~ search_rest fuel' next r'; mret (a :: l)
  end.

Lemma filter_head_split (p : PciAddress -> bool) l a : head (filter (fun x => p x = true) l) = Some a ->
  exists pre post, l = pre ++ a :: post /\ filter (fun x => p x = true) l = a :: filter (fun x => p x = true) post.
Proof.
  induction l as [|x l IH]; [done|]. rewrite filter_cons. case_decide as Hx.
  - intros [= ->]. by exists [], l.
  - intros (pre & post & -> & E)%IH. by exists (x :: pre), post.
Qed.

Lemma search_rest_ok test p fuel : decides test p -> forall b d f h, place (bus_num host) b d f ->
  let l := filter (fun a => p h a = true) (all_from (bus_num host) b d f) in (length l <= fuel)%nat ->
  exists h', search_rest fuel (scan_next host test) (head l) h = Ret (l, h') /\ same h h'.
Proof.
  intros Ht. induction fuel as [|fuel IH]; intros b d f h Hp l Hl.
  { exists h. destruct l as [|a l']; [done|]. cbn in Hl. lia. }
  destruct (head l) as [a|] eqn:Eh; [|destruct l; [by exists h|done]].
  pose proof (filter_head_split (p h) _ _ Eh) as (pre & post & El & Ef). fold l in Ef.
  destruct (all_from_split (bus_num host) (length pre) b d f pre a post (le_n _) Hp El) as [-> Ha]. cbn [search_rest].
  destruct (scan_from_ok test p _ _ _ h Ht (after_place _ a Ha)) as (h1 & E1 & S1). unfold scan_next at 1. rewrite (mbind_run _ _ _ _ _ E1).
  assert (Ep : filter (fun x => p h x = true) (after (bus_num host) a) = filter (fun x => p h1 x = true) (after (bus_num host) a)).
  { apply list_filter_iff. intros x. by rewrite (proj2 Ht h h1 x S1). }
  unfold after in Ep. rewrite Ep. destruct (IH _ _ _ h1 (after_place _ a Ha)) as (h2 & E2 & S2).
  - rewrite Ef in Hl. unfold after in Hl. rewrite Ep in Hl. cbn in Hl. lia.
  - rewrite (mbind_run _ _ _ _ _ E2). exists h2. split; [|by rewrite S1]. rewrite Ef. unfold after. by rewrite Ep.
Qed.

(** ** Registers *)

Variable lim : Z.
Hypothesis host_good : host_ok lim host.
Hypothesis lim_enough : 256 <= lim.

Definition reg (w : Z) (h : M) (a : PciAddress) (r : Z) : Z := le_val (cfg_bytes h a r w).

Lemma reg_same w h h' a r : same h h' -> reg w h a r = reg w h' a r.
Proof. intros S. unfold reg. by rewrite S. Qed.

Lemma read8_run a r h : addr_ok (bus_num host) a -> 0 <= r < 256 -> exists h', read8 host a r h = Ret (cfg h a r, h') /\ same h h'.
Proof.
  intros Ha Hr. destruct (host_read8 _ _ host_good a r h Ha) as (h' & E & S); [split_and!; [lia|lia|apply Z.mod_1_r]|].
  exists h'. rewrite E. split; [|done]. do 2 f_equal. unfold cfg_bytes. change (_ <$> _) with [cfg h a (r + 0)]. rewrite Z.add_0_r. unfold le_val. cbn -[Z.mul Z.add]. lia.
Qed.

Lemma read16_run a r h : addr_ok (bus_num host) a -> 0 <= r < 255 -> r mod 2 = 0 -> exists h', read16 host a r h = Ret (reg 2 h a r, h') /\ same h h'.
Proof. intros Ha Hr Hm. apply (host_read16 _ _ host_good a r h Ha). split_and!; [lia|lia|done]. Qed.

Lemma read32_run a r h : addr_ok (bus_num host) a -> 0 <= r < 253 -> r mod 4 = 0 -> exists h', read32 host a r h = Ret (reg 4 h a r, h') /\ same h h'.
Proof. intros Ha Hr Hm. apply (host_read32 _ _ host_good a r h Ha). split_and!; [lia|lia|done]. Qed.

Lemma write32_run a r v h : addr_ok (bus_num host) a -> 0 <= r < 253 -> r mod 4 = 0 -> is_u32 v ->
  exists h', write32 host a r v h = Ret (tt, h') /\ same (cfg_write a r (le_bytes 4 v) h) h'.
Proof. intros Ha Hr Hm Hv. apply (host_write32 _ _ host_good a r v h Ha); [split_and!; [lia|lia|done]|exact Hv]. Qed.

(** What is searched for. *)
Inductive query := ByDevice (vendor dev : Z) | ByClass (cls sub : Z) | ByProgif (cls sub pif : Z).

Definition find (q : query) : hw M (option PciAddress) :=
  match q with
  | ByDevice v d => pci_find_device host v d
  | ByClass c s => pci_find_class host c s
  | ByProgif c s p => pci_find_progif host c s p
  end.
Definition next (q : query) : PciAddress -> hw M (option PciAddress) :=
  match q with
  | ByDevice v d => pci_next_device host v d
  | ByClass c s => pci_next_class host c s
  | ByProgif c s p => pci_next_progif host c s p
  end.

Definition found (q : query) (h : M) (a : PciAddress) : bool :=
  match q with
  | ByDevice v d => (reg 2 h a PCI_CONF_VENDOR =? v) && (reg 2 h a PCI_CONF_DEVICE =? d)
  | ByClass c s => (cfg h a PCI_CONF_CLASS =? c) && (cfg h a PCI_CONF_SUBCLASS =? s)
  | ByProgif c s p => (cfg h a PCI_CONF_CLASS =? c) && (cfg h a PCI_CONF_SUBCLASS =? s) && (cfg h a PCI_CONF_PROGIF =? p)
  end.

Definition query_test (q : query) : PciAddress -> hw M bool :=
  match q with
  | ByDevice v d => is_device host v d
  | ByClass c s => is_class host c s
  | ByProgif c s p => is_progif host c s p
  end.

Lemma is_class_run c s a h : addr_ok (bus_num host) a ->
  exists h', is_class host c s a h = Ret ((cfg h a PCI_CONF_CLASS =? c) && (cfg h a PCI_CONF_SUBCLASS =? s), h') /\ same h h'.
Proof.
  intros Ha. unfold is_class. destruct (read8_run a PCI_CONF_CLASS h Ha) as (h1 & E1 & S1); [done|]. rewrite (mbind_run _ _ _ _ _ E1).
  destruct (_ =? c); [|by exists h1]. destruct (read8_run a PCI_CONF_SUBCLASS h1 Ha) as (h2 & E2 & S2); [done|]. rewrite (mbind_run _ _ _ _ _ E2).
  exists h2. rewrite <- (S1 a PCI_CONF_SUBCLASS). split; [done|by rewrite S1].
Qed.

Lemma query_decides q : decides (query_test q) (found q).
Proof.
  split.
  - intros a h Ha. destruct q as [v d|c s|c s p]; cbn [query_test found]; [|by apply is_class_run|].
    + unfold is_device. destruct (read16_run a PCI_CONF_VENDOR h Ha) as (h1 & E1 & S1); [done|done|]. rewrite (mbind_run _ _ _ _ _ E1).
      destruct (_ =? v); [|by exists h1]. destruct (read16_run a PCI_CONF_DEVICE h1 Ha) as (h2 & E2 & S2); [done|done|]. rewrite (mbind_run _ _ _ _ _ E2).
      exists h2. rewrite <- (reg_same 2 h h1 a _ S1). split; [done|by rewrite S1].
    + unfold is_progif. destruct (is_class_run c s a h Ha) as (h1 & E1 & S1). rewrite (mbind_run _ _ _ _ _ E1).
      destruct (_ && _); [|by exists h1]. destruct (read8_run a PCI_CONF_PROGIF h1 Ha) as (h2 & E2 & S2); [done|]. rewrite (mbind_run _ _ _ _ _ E2).
      exists h2. rewrite <- (S1 a PCI_CONF_PROGIF). split; [done|by rewrite S1].
  - intros h h' a S. destruct q; cbn [found]; rewrite ?(reg_same 2 h h' a _ S), ?(S a PCI_CONF_CLASS), ?(S a PCI_CONF_SUBCLASS), ?(S a PCI_CONF_PROGIF); done.
Qed.

(** Finding the first function with a device, class or interface and going on with
    the next ones gives exactly the functions that have it, on all buses, in order
    and once each, and changes no register. *)
Theorem pci_search_complete q fuel h : 0 <= bus_num host ->
  let l := filter (fun a => found q h a = true) (all_functions (bus_num host)) in (length l <= fuel)%nat ->
  exists h', (r <~ find q; search_rest fuel (next q) r) h = Ret (l, h') /\ same h h'.
Proof.
  intros Hn l Hl. assert (Hp : place (bus_num host) 0 0 0) by (unfold place, PCI_DEVICE_MAX, PCI_FUNCTION_MAX; lia).
  assert (Ef : find q = scan_from host (query_test q) 0 0 0) by (by destruct q). assert (En : next q = scan_next host (query_test q)) by (by destruct q).
  rewrite Ef, En. destruct (scan_from_ok _ _ 0 0 0 h (query_decides q) Hp) as (h1 & E1 & S1). rewrite (mbind_run _ _ _ _ _ E1).
  assert (El : filter (fun a => found q h a = true) (all_from (bus_num host) 0 0 0) = filter (fun a => found q h1 a = true) (all_from (bus_num host) 0 0 0)).
  { apply list_filter_iff. intros x. by rewrite (proj2 (query_decides q) h h1 x S1). }
  destruct (search_rest_ok _ _ fuel (query_decides q) 0 0 0 h1 Hp) as (h2 & E2 & S2); [rewrite <- El, all_from_0 by done; exact Hl|].
  exists h2. rewrite El, E2, <- El, all_from_0 by done. split; [done|by rewrite S1].
Qed.

(** ** Sizes of regions *)

(** A base address register: the bits of [w] can be written, the others read as
    [flags]. *)
Record register_behaves (a : PciAddress) (r w flags : Z) (h : M) : Prop := {
  register_write v h' : is_u32 v -> reg 4 (cfg_write a r (le_bytes 4 v) h') a r = Z.lor (Z.land v w) flags;
  register_frame l h' a' r' : length l = 4%nat -> a' <> a \/ ~ r <= r' < r + 4 -> cfg (cfg_write a r l h') a' r' = cfg h' a' r';
  register_now : reg 4 h a r = Z.lor (Z.land (reg 4 h a r) w) flags
}.

Lemma reg_u32 h a r : is_u32 (reg 4 h a r).
Proof.
  unfold reg. assert (Hb : bytes_ok (cfg_bytes h a r 4)) by (apply Forall_fmap, Forall_forall; intros i _; apply cfg_byte).
  pose proof (le_val_bound _ Hb) as Hv. exact Hv.
Qed.

Lemma cfg_reg h h' a r i : reg 4 h a r = reg 4 h' a r -> r <= i < r + 4 -> cfg h a i = cfg h' a i.
Proof.
  intros E Hi. assert (Hb : forall h, bytes_ok (cfg_bytes h a r 4)) by (intros; apply Forall_fmap, Forall_forall; intros; apply cfg_byte).
  apply (f_equal (le_bytes 4)) in E. unfold reg in E. change 4%nat with (length (cfg_bytes h a r 4)) in E at 1. change 4%nat with (length (cfg_bytes h' a r 4)) in E. rewrite !le_bytes_val in E by apply Hb.
  assert (El : forall h, cfg_bytes h a r 4 !! Z.to_nat (i - r) = Some (cfg h a i)).
  { intros h0. unfold cfg_bytes. rewrite list_lookup_fmap, lookup_seqZ_lt by lia. cbn [fmap option_fmap option_map]. do 2 f_equal. lia. }
  pose proof (El h) as E1. rewrite E, El in E1. by simplify_eq.
Qed.

Lemma probe_register {X} (f : Z -> Z -> X) a r w flags p h : addr_ok (bus_num host) a -> 0 <= r < 253 -> r mod 4 = 0 -> is_u32 p -> register_behaves a r w flags h ->
  exists h', (old <~ read32 host a r; write32 host a r p ;> v <~ read32 host a r; write32 host a r old ;> mret (f old v)) h
             = Ret (f (reg 4 h a r) (Z.lor (Z.land p w) flags), h') /\ same h h'.
Proof.
  intros Ha Hr Hm Hp [Hw Hf Hn]. destruct (read32_run a r h Ha Hr Hm) as (h1 & E1 & S1). rewrite (mbind_run _ _ _ _ _ E1).
  destruct (write32_run a r p h1 Ha Hr Hm Hp) as (h2 & E2 & S2). rewrite (mbind_run _ _ _ _ _ E2).
  destruct (read32_run a r h2 Ha Hr Hm) as (h3 & E3 & S3). rewrite (mbind_run _ _ _ _ _ E3).
  destruct (write32_run a r (reg 4 h a r) h3 Ha Hr Hm (reg_u32 _ _ _)) as (h4 & E4 & S4). rewrite (mbind_run _ _ _ _ _ E4).
  exists h4. rewrite <- (reg_same 4 _ _ a r S2), Hw by done. split; [done|]. rewrite <- S4. intros a' r'.
  destruct (decide (a' = a /\ r <= r' < r + 4)) as [[-> Hi]|Hn'].
  - apply (cfg_reg _ _ a r); [|done]. rewrite Hw by apply reg_u32. done.
  - assert (Hn2 : a' <> a \/ ~ r <= r' < r + 4) by (destruct (decide (a' = a)) as [->|]; [right; tauto|by left]).
    rewrite Hf by (done || apply le_bytes_length). rewrite <- (S3 a' r'), <- (S2 a' r'), Hf by (done || apply le_bytes_length). apply S1.
Qed.

(** The writable bits of a region of [2 ^ k] bytes. *)
Definition size_mask (k : Z) : Z := 2 ^ 32 - 2 ^ k.

Lemma size_mask_bits k i : 0 <= k <= 32 -> 0 <= i -> Z.testbit (size_mask k) i = (k <=? i) && (i <? 32).
Proof.
  intros Hk Hi. replace (size_mask k) with (Z.shiftl (Z.ones (32 - k)) k).
  - rewrite Z.shiftl_spec, Z.testbit_ones by lia. lia.
  - unfold size_mask. rewrite Z.shiftl_mul_pow2, Z.ones_equiv by lia. unfold Z.pred. rewrite Z.mul_add_distr_r, <- Z.pow_add_r by lia.
    replace (32 - k + k) with 32 by lia. lia.
Qed.

Lemma low_bits n x i : 0 <= n -> 0 <= x < 2 ^ n -> n <= i -> Z.testbit x i = false.
Proof.
  intros Hn Hx Hi. destruct (Z.eq_dec x 0) as [->|]; [apply Z.bits_0|]. apply Z.bits_above_log2; [lia|]. apply Z.log2_lt_pow2; [lia|].
  apply Z.lt_le_trans with (2 ^ n); [lia|]. apply Z.pow_le_mono_r; lia.
Qed.

(** What is read back after the writable bits were set, without the flags. *)
Lemma size_from_mask n k w p flags : 0 <= n <= k -> k < 32 -> 0 <= flags < 2 ^ n -> Z.land (Z.land p w) (size_mask n) = size_mask k ->
  neg32 (Z.land (Z.lor (Z.land p w) flags) (size_mask n)) = 2 ^ k.
Proof.
  intros Hn Hk Hf Hm. rewrite Z.land_lor_distr_l, Hm.
  assert (E0 : Z.land flags (size_mask n) = 0).
  { apply Z.bits_inj'. intros i Hi. rewrite Z.land_spec, size_mask_bits, Z.bits_0 by lia.
    destruct (Z.leb_spec n i); [rewrite (low_bits n) by lia; done|by rewrite andb_comm]. }
  rewrite E0, Z.lor_0_r. unfold neg32, size_mask, Z.lnot, u32, Z.pred. replace (- (2 ^ 32 - 2 ^ k) + -1 + 1) with (2 ^ k + (-1) * 2 ^ 32) by lia.
  rewrite (Z.mod_add (2 ^ k) (-1) (2 ^ 32)) by lia. apply Z.mod_small. split; [apply Z.pow_nonneg; lia|apply Z.pow_lt_mono_r; lia].
Qed.

Lemma size_mask_land n k : 0 <= n <= k -> k <= 32 -> Z.land (size_mask k) (size_mask n) = size_mask k.
Proof. intros Hn Hk. apply Z.bits_inj'. intros i Hi. rewrite Z.land_spec, !size_mask_bits by lia. lia. Qed.

Lemma size_mask_u32 k : 0 <= k <= 32 -> Z.land 0xffffffff (size_mask k) = size_mask k.
Proof. intros Hk. change 0xffffffff with (size_mask 0). rewrite Z.land_comm. apply size_mask_land; lia. Qed.

(** A region of [2 ^ k] bytes: bit zero of a base address register says whether it is
    one of ports, with two bits of flags, or of memory, with four; the register of a
    ROM has an enable bit that can be written. *)
Theorem pci_bar_size_correct a k h : addr_ok (bus_num host) a ->
  (forall bar flags, 0 <= bar < 6 -> let n := if Z.testbit flags 0 then 2 else 4 in n <= k < 32 -> 0 <= flags < 2 ^ n ->
    register_behaves a (bar_reg bar) (size_mask k) flags h ->
    exists h', pci_read_bar_size host a bar h = Ret (2 ^ k, h') /\ same h h') /\
  (11 <= k < 32 -> register_behaves a PCI_CONF_ROM_BAR (Z.lor (size_mask k) 1) 0 h ->
    exists h', pci_read_rom_bar_size host a h = Ret (2 ^ k, h') /\ same h h').
Proof.
  intros Ha. split.
  - intros bar flags Hb n Hk Hf Hr. assert (Hn : 2 <= n) by (unfold n; destruct (Z.testbit flags 0); lia).
    assert (Hm : bar_reg bar mod 4 = 0) by (unfold bar_reg; rewrite Z.mod_add by lia; done).
    destruct (probe_register (fun old v => if Z.testbit old 0 then neg32 (Z.land v 0xfffffffc) else neg32 (Z.land v 0xfffffff0))
      a (bar_reg bar) (size_mask k) flags 0xffffffff h Ha) as (h' & E & S); [unfold bar_reg, PCI_CONF_BAR; lia|done|done|done|].
    exists h'. split; [|done]. unfold pci_read_bar_size. rewrite E. do 2 f_equal.
    rewrite (register_now _ _ _ _ _ Hr), Z.lor_spec, Z.land_spec, size_mask_bits by lia.
    assert (Ek : (k <=? 0) = false) by lia. rewrite Ek, andb_false_l, andb_false_r, orb_false_l.
    unfold n in *. destruct (Z.testbit flags 0).
    + change 0xfffffffc with (size_mask 2). apply size_from_mask; [lia|lia|done|]. rewrite size_mask_u32 by lia. apply size_mask_land; lia.
    + change 0xfffffff0 with (size_mask 4). apply size_from_mask; [lia|lia|done|]. rewrite size_mask_u32 by lia. apply size_mask_land; lia.
  - intros Hk Hr. destruct (probe_register (fun _ v => neg32 (Z.land v 0xfffff800)) a PCI_CONF_ROM_BAR (Z.lor (size_mask k) 1) 0 0xfffff800 h Ha) as (h' & E & S); [done|done|done|done|].
    exists h'. split; [|done]. unfold pci_read_rom_bar_size. rewrite E. do 2 f_equal.
    change 0xfffff800 with (size_mask 11). apply (size_from_mask 11 k); [lia|lia|done|]. rewrite Z.land_comm, Z.land_assoc, Z.land_diag.
    rewrite Z.land_lor_distr_r. change (Z.land (size_mask 11) 1) with 0. rewrite Z.lor_0_r, Z.land_comm. apply size_mask_land; lia.
Qed.

(** ** Capabilities *)

(** The list of capabilities that starts at [p]. *)
Inductive cap_list (h : M) (a : PciAddress) : Z -> list Z -> Prop :=
| cap_nil : cap_list h a 0 []
| cap_cons p l : 0 < p < 255 -> cap_list h a (cfg h a (p + 1)) l -> cap_list h a p (p :: l).

Lemma cap_list_unique h a p l : cap_list h a p l -> forall l', cap_list h a p l' -> l = l'.
Proof.
  induction 1 as [|p l Hp Hl IH]; intros l' Hl'; inversion Hl'; subst; try done; try lia. f_equal. by apply IH.
Qed.

Lemma cap_list_at h a p l x : cap_list h a p l -> x ∈ l -> exists l', cap_list h a x l' /\ (length l' <= length l)%nat.
Proof.
  induction 1 as [|p l Hp Hl IH]; [by intros ?%not_elem_of_nil|]. intros [->|Hx]%elem_of_cons.
  - exists (p :: l). split; [by constructor|done].
  - destruct (IH Hx) as (l' & ? & ?). exists l'. split; [done|cbn; lia].
Qed.

Lemma cap_list_same h h' a p l : same h h' -> cap_list h a p l -> cap_list h' a p l.
Proof. intros Hs. induction 1 as [|p l Hp Hl IH]; [constructor|]. constructor; [done|]. by rewrite <- (Hs a (p + 1)). Qed.

(** A list that ends does not come back to an entry, so it has fewer than 255. *)
Lemma cap_list_short h a p l : cap_list h a p l -> NoDup l /\ Forall (fun x => x ∈ seqZ 1 254) l.
Proof.
  induction 1 as [|p l Hp Hl [IHd IHf]]; [by split; constructor|]. split; [|constructor; [apply elem_of_seqZ; lia|done]].
  constructor; [|done]. intros Hx. destruct (cap_list_at h a _ l p Hl Hx) as (l' & Hl' & Hlen).
  assert (E : p :: l = l') by (eapply cap_list_unique; [by constructor|done]). subst l'. cbn in Hlen. lia.
Qed.

Lemma cap_list_length h a p l : cap_list h a p l -> (length l < 255)%nat.
Proof.
  intros [Hd Hf]%cap_list_short. rewrite Forall_forall in Hf. pose proof (submseteq_length _ _ (NoDup_submseteq l (seqZ 1 254) Hd Hf)) as Hl.
  rewrite length_seqZ in Hl. lia.
Qed.

Lemma find_cap_ok a id l : addr_ok (bus_num host) a -> forall p h fuel, cap_list h a p l -> (length l <= fuel)%nat ->
  exists h', find_cap host fuel a id p h = Ret (default 0 (head (filter (fun p => cfg h a p = id) l)), h') /\ same h h'.
Proof.
  intros Ha. induction l as [|x l IH]; intros p h fuel Hl Hf; inversion Hl as [|? ? Hp Hl']; subst.
  { exists h. split; [|done]. by destruct fuel. }
  destruct fuel as [|fuel]; [cbn in Hf; lia|]. cbn [find_cap]. assert (E0 : (x =? 0) = false) by lia. rewrite E0.
  destruct (read8_run a x h Ha) as (h1 & E1 & S1); [lia|]. rewrite (mbind_run _ _ _ _ _ E1), filter_cons. case_decide as Hx.
  - rewrite Hx, Z.eqb_refl. exists h1. done.
  - assert (En : (cfg h a x =? id) = false) by lia. rewrite En. destruct (read8_run a (x + 1) h1 Ha) as (h2 & E2 & S2); [lia|].
    rewrite (mbind_run _ _ _ _ _ E2). rewrite <- (S1 a (x + 1)). assert (S12 : same h h2) by (by rewrite S1).
    destruct (IH _ h2 fuel (cap_list_same _ _ _ _ _ S12 Hl')) as (h3 & E3 & S3); [cbn in Hf; lia|]. exists h3. split; [|by rewrite S12]. rewrite E3. do 4 f_equal.
    apply list_filter_iff. intros y. by rewrite (S12 a y).
Qed.

(** In a list of capabilities that ends, the first one with the identifier is found,
    within 255 turns, and [0] is returned when there is none. *)
Theorem pci_find_capability_correct a id l h : addr_ok (bus_num host) a -> cap_list h a (cfg h a PCI_CONF_CAP_PTR) l ->
  exists h', pci_find_capability host 255 a id h = Ret (default 0 (head (filter (fun p => cfg h a p = id) l)), h') /\ same h h'.
Proof.
  intros Ha Hl. unfold pci_find_capability. destruct (read8_run a PCI_CONF_CAP_PTR h Ha) as (h1 & E1 & S1); [done|]. rewrite (mbind_run _ _ _ _ _ E1).
  destruct (find_cap_ok a id l Ha _ h1 255 (cap_list_same _ _ _ _ _ S1 Hl)) as (h2 & E2 & S2); [apply cap_list_length in Hl; lia|]. exists h2. rewrite E2. split; [|by rewrite S1].
  do 4 f_equal. apply list_filter_iff. intros y. by rewrite (S1 a y).
Qed.
End scans.

(** ** The table of devices *)

#[export] Instance driver_config {A L H} `{ConfigSpace H} : ConfigSpace (driver A L H) := {
  cfg s := cfg (dhw s);
  cfg_write a r l := on_hw (cfg_write a r l);
  cfg_byte s := cfg_byte (dhw s);
  cfg_write_same a r l s s' := cfg_write_same a r l (dhw s) (dhw s')
}.

(** Code that leaves the variables of the driver alone. *)
Definition keeps_local {A L H X} (m : hw (driver A L H) X) : Prop := forall s x s', m s = Ret (x, s') -> dlocal s' = dlocal s.

Lemma lifts_keeps {A L H X} (m : hw (driver A L H) X) m0 : lifts m m0 -> keeps_local m.
Proof. intros Hm s x s'. rewrite Hm. destruct (m0 (dhw s)) as [[y h]| | |]; cbn; [|done..]. by intros [= _ <-]. Qed.

Record host_keeps {A L H} (host : PciHost (driver A L H)) : Prop := {
  keeps_read8 a r : keeps_local (read8 host a r);
  keeps_read16 a r : keeps_local (read16 host a r);
  keeps_write16 a r v : keeps_local (write16 host a r v)
}.

Lemma legacy_host_keeps {A L H} `{Machine H} : host_keeps (legacy_host (M := driver A L H)).
Proof. constructor; intros; eapply lifts_keeps; cbn -[io_in io_out]; apply lifts_mbind; eauto with lifts. Qed.

Lemma mmcfg_host_keeps {A L H} `{Machine H} base n : host_keeps (mmcfg_host (M := driver A L H) base n).
Proof. constructor; intros; eapply lifts_keeps; [apply lifts_mm_load..|apply lifts_modify]. Qed.

Lemma each_app {H X} (f : X -> hw H unit) l1 l2 h : each f (l1 ++ l2) h = (each f l1 ;> each f l2) h.
Proof.
  revert h. induction l1 as [|x l1 IH]; intros h; [done|]. cbn [app each]. rewrite mbind_assoc. unfold mbind at 1 2. destruct (f x h) as [[y h']| | |]; [|done..]. apply IH.
Qed.

Lemma each_fmap {H X Y} (f : Y -> hw H unit) (g : X -> Y) l h : each f (g <$> l) h = each (fun x => f (g x)) l h.
Proof. revert h. induction l as [|x l IH]; intros h; [done|]. cbn [fmap list_fmap each]. by apply mbind_ext. Qed.

Lemma each_bind {H X Y} (f : Y -> hw H unit) (g : X -> list Y) l h : each f (l ≫= g) h = each (fun x => each f (g x)) l h.
Proof. revert h. induction l as [|x l IH]; intros h; [done|]. rewrite bind_cons, each_app. cbn [each]. by apply mbind_ext. Qed.

Lemma each_ext {H X} (f g : X -> hw H unit) l h : (forall x h, f x h = g x h) -> each f l h = each g l h.
Proof. intros E. revert h. induction l as [|x l IH]; intros h; [done|]. cbn [each]. by apply mbind_ext. Qed.

Section tables.
Context {A H : Type} `{Machine H} `{!ConfigSpace H}.

Local Notation state := (driver A pci_vars H).

Variable host : PciHost state.
Variable lim : Z.
Hypothesis host_good : host_ok lim host.
Hypothesis lim_enough : 256 <= lim.
Hypothesis host_local : host_keeps host.

Definition kept (s s' : state) : Prop := same s s' /\ dlocal s' = dlocal s.

#[local] Instance kept_equivalence : Equivalence kept.
Proof.
  split; [by intros s|intros s s' [S E]; by split|intros s1 s2 s3 [S1 E1] [S2 E2]]. split; [by rewrite S1|by rewrite E2].
Qed.

Lemma table_read8 a r s : addr_ok (bus_num host) a -> 0 <= r < 256 -> exists s', read8 host a r s = Ret (cfg s a r, s') /\ kept s s'.
Proof.
  intros Ha Hr. destruct (read8_run host lim host_good lim_enough a r s Ha Hr) as (s' & E & S). exists s'. split; [done|]. split; [done|].
  exact (keeps_read8 _ host_local a r s _ s' E).
Qed.

Lemma table_read16 a r s : addr_ok (bus_num host) a -> 0 <= r < 255 -> r mod 2 = 0 -> exists s', read16 host a r s = Ret (reg 2 s a r, s') /\ kept s s'.
Proof.
  intros Ha Hr Hm. destruct (read16_run host lim host_good lim_enough a r s Ha Hr Hm) as (s' & E & S). exists s'. split; [done|]. split; [done|].
  exact (keeps_read16 _ host_local a r s _ s' E).
Qed.

(** The function answers. *)
Definition present (s : state) (a : PciAddress) : bool := negb (reg 2 s a PCI_CONF_VENDOR =? 0xffff).

(** Its entry in the table. *)
Definition entry (s : state) (a : PciAddress) : PCIDevice :=
  PciDev a (reg 2 s a PCI_CONF_VENDOR) (reg 2 s a PCI_CONF_DEVICE) (cfg s a PCI_CONF_CLASS) (cfg s a PCI_CONF_SUBCLASS) (cfg s a PCI_CONF_PROGIF)
    (if cfg s a PCI_CONF_INTR_PIN =? 0 then 0 else cfg s a PCI_CONF_INTR_LINE) 0 0 0 0 0.

Lemma entry_kept s s' a : kept s s' -> entry s' a = entry s a.
Proof.
  intros [S _]. unfold entry. rewrite <- !(reg_same _ s s' a _ S), <- !(S a). done.
Qed.

Lemma present_kept s s' a : kept s s' -> present s' a = present s a.
Proof. intros [S _]. unfold present. by rewrite <- (reg_same _ s s' a _ S). Qed.

Ltac read_step := match goal with
  | |- context [mbind (read8 host ?a ?r) _ ?s] =>
    let s' := fresh "s" in let E := fresh "E" in let K := fresh "K" in
    destruct (table_read8 a r s) as (s' & E & K); [done|done|]; rewrite (mbind_run _ _ _ _ _ E); clear E
  | |- context [mbind (read16 host ?a ?r) _ ?s] =>
    let s' := fresh "s" in let E := fresh "E" in let K := fresh "K" in
    destruct (table_read16 a r s) as (s' & E & K); [done|done|done|]; rewrite (mbind_run _ _ _ _ _ E); clear E
  end.

Lemma add_device a v d c u p l0 used rest : Forall (fun d => vendor_id d <> 0) used ->
  pci_add_device a v d c u p l0 (used ++ no_pci_device :: rest) = Ret (used ++ PciDev a v d c u p l0 0 0 0 0 0 :: rest).
Proof.
  induction 1 as [|x used Hx Hu IH]; [done|]. cbn [pci_add_device app]. assert (E : (vendor_id x =? 0) = false) by lia. by rewrite E, IH.
Qed.

Lemma probe_absent a s : addr_ok (bus_num host) a -> present s a = false -> exists s', probe_function host a s = Ret (tt, s') /\ kept s s'.
Proof.
  intros Ha Hp. unfold probe_function. read_step. unfold present in Hp. apply negb_false_iff in Hp. rewrite Hp. by exists s0.
Qed.

Lemma probe_present a s used rest : addr_ok (bus_num host) a -> present s a = true -> cfg s a PCI_CONF_INTR_PIN <= 4 ->
  Forall (fun d => vendor_id d <> 0) used -> pci_device_table (dlocal s) = used ++ no_pci_device :: rest ->
  exists s', probe_function host a s = Ret (tt, s') /\ same s s' /\ dlocal s' = with_table (dlocal s) (used ++ entry s a :: rest).
Proof.
  intros Ha Hp Hi Hu Et. unfold probe_function. read_step. unfold present in Hp. apply negb_true_iff in Hp. rewrite Hp. do 5 read_step.
  assert (K5 : kept s s5) by (by rewrite K, K0, K1, K2, K3). clear Hp. pose proof (proj1 K) as S0.
  assert (line : exists s6, (if cfg s0 a PCI_CONF_INTR_PIN =? 0 then mret 0
           else l <~ read8 host a PCI_CONF_INTR_LINE; mlift (if cfg s0 a PCI_CONF_INTR_PIN <=? 4 then Ret l else Fault)) s5
           = Ret (irq (entry s a), s6) /\ kept s s6).
  { rewrite <- (S0 a PCI_CONF_INTR_PIN). cbn [irq entry]. destruct (cfg s a PCI_CONF_INTR_PIN =? 0); [by exists s5|]. read_step.
    assert (El : (cfg s a PCI_CONF_INTR_PIN <=? 4) = true) by lia. rewrite El. exists s6. rewrite <- (proj1 K5 a PCI_CONF_INTR_LINE). split; [done|by rewrite K5]. }
  destruct line as (s6 & E6 & S6 & L6). rewrite (mbind_run _ _ _ _ _ E6). clear E6. unfold mbind, get_local, mlift, put_local. cbn [obind fst snd].
  rewrite L6, Et, add_device by done. cbn [obind fst snd]. eexists. split; [reflexivity|]. split; [exact S6|]. cbn [dlocal].
  assert (K0' : kept s s1) by (by rewrite K). assert (K1' : kept s s2) by (by rewrite K0'). assert (K2' : kept s s3) by (by rewrite K1').
  assert (K3' : kept s s4) by (by rewrite K2').
  pose proof (f_equal device_id (entry_kept _ _ a K0')) as D1. pose proof (f_equal class (entry_kept _ _ a K1')) as D2.
  pose proof (f_equal subclass (entry_kept _ _ a K2')) as D3. pose proof (f_equal progif (entry_kept _ _ a K3')) as D4.
  cbn [device_id class subclass progif entry] in D1, D2, D3, D4. by rewrite D1, D2, D3, D4.
Qed.

(** All functions that answer can be entered. *)
Definition fits (s : state) (l : list PciAddress) : Prop :=
  Forall (fun a => addr_ok (bus_num host) a /\ (present s a = true -> reg 2 s a PCI_CONF_VENDOR <> 0 /\ cfg s a PCI_CONF_INTR_PIN <= 4)) l.

Definition entries (s : state) (l : list PciAddress) : list PCIDevice := entry s <$> filter (fun a => present s a = true) l.

Lemma probe_list l : forall s used n, fits s l -> Forall (fun d => vendor_id d <> 0) used ->
  pci_device_table (dlocal s) = used ++ repeat no_pci_device n -> (length (entries s l) <= n)%nat ->
  exists s', each (probe_function host) l s = Ret (tt, s') /\ same s s' /\
    dlocal s' = with_table (dlocal s) (used ++ entries s l ++ repeat no_pci_device (n - length (entries s l))).
Proof.
  induction l as [|a l IH]; intros s used n Hf Hu Et Hn.
  { exists s. cbn. rewrite Nat.sub_0_r, <- Et. split_and!; [done|done|]. by destruct (dlocal s). }
  apply Forall_cons in Hf as [[Ha Hp] Hf]. cbn [each]. unfold entries in *. rewrite filter_cons in *.
  assert (Hsame : forall s' : state, same s s' -> fits s' l /\ entry s' <$> filter (fun a => present s' a = true) l = entry s <$> filter (fun a => present s a = true) l).
  { intros s' S. split.
    - eapply Forall_impl; [exact Hf|]. intros b [Hb Hq]. split; [done|]. unfold present. rewrite <- !(reg_same _ s s' b _ S), <- (S b PCI_CONF_INTR_PIN). exact Hq.
    - rewrite (list_filter_iff (fun a => present s' a = true) (fun a => present s a = true)).
      + apply list_fmap_ext. intros _ b _. unfold entry. by rewrite <- !(reg_same _ s s' b _ S), <- !(S b).
      + intros b. unfold present. by rewrite <- (reg_same _ s s' b _ S). }
  destruct (present s a) eqn:Epr; [rewrite decide_True in * by done|rewrite decide_False in * by done].
  - destruct (Hp eq_refl) as [Hv Hi]. cbn in Hn. destruct n as [|n]; [lia|]. destruct (probe_present a s used (repeat no_pci_device n) Ha Epr Hi Hu Et) as (s1 & E1 & S1 & L1).
    rewrite (mbind_run _ _ _ _ _ E1). destruct (Hsame s1 S1) as [Hf1 Ee1].
    destruct (IH s1 (used ++ [entry s a]) n Hf1) as (s2 & E2 & S2 & L2).
    + apply Forall_app. split; [done|]. by constructor.
    + rewrite L1. cbn. by rewrite <- app_assoc.
    + rewrite Ee1. lia.
    + exists s2. split; [done|]. split; [by rewrite S1|]. rewrite L2, L1, Ee1. cbn. by rewrite <- app_assoc.
  - destruct (probe_absent a s Ha Epr) as (s1 & E1 & S1 & L1). rewrite (mbind_run _ _ _ _ _ E1). destruct (Hsame s1 S1) as [Hf1 Ee1].
    destruct (IH s1 used n Hf1 Hu) as (s2 & E2 & S2 & L2); [by rewrite L1|by rewrite Ee1|]. exists s2. split; [done|]. split; [by rewrite S1|]. by rewrite L2, L1, Ee1.
Qed.

Lemma probe_all_list s : probe_all host s = each (probe_function host) (all_functions (bus_num host)) s.
Proof.
  unfold probe_all, all_functions. rewrite each_bind. apply each_ext. intros b s1. rewrite each_bind. apply each_ext. intros d s2. by rewrite each_fmap.
Qed.
(** At start-up every function that answers gets an entry in the table, in the
    order of the buses, with what its registers say; the rest of the table is
    empty, and the kernel call is registered. *)
Theorem pci_init_finds_devices ioapic k ks s : let n := Z.to_nat PCI_DEVICE_TABLE_SIZE in let l := all_functions (bus_num host) in
  fits s l -> (length (entries s l) <= n)%nat -> kcall_set pci_name (Some k) (pci_kcalls (dlocal s)) = Ret ks ->
  exists s', pci_init host ioapic k s = Ret (tt, s') /\
    dlocal s' = PciVars (entries s l ++ repeat no_pci_device (n - length (entries s l))) (msi_vector (dlocal s)) ks.
Proof.
  intros n l Hf Hn Hk. unfold pci_init. set (s0 := Driver (dpool s) (with_table (dlocal s) (repeat no_pci_device n)) (dhw s)).
  assert (S0 : same s s0) by done. destruct (probe_list l s0 [] n) as (s1 & E1 & S1 & L1); [exact Hf|constructor|done|exact Hn|].
  change (entries s0 l) with (entries s l) in L1. cbn [app] in L1. rewrite <- probe_all_list in E1.
  unfold mbind at 1. cbn [get_local obind fst snd]. unfold mbind at 1. cbn [put_local obind fst snd]. fold n. fold s0.
  rewrite (mbind_run _ _ _ _ _ E1).
  set (irqs := each _ _). assert (Hi : exists h, irqs s1 = Ret (tt, Driver (dpool s1) (dlocal s1) h)) by (eexists; reflexivity).
  destruct Hi as [h Ei]. rewrite (mbind_run _ _ _ _ _ Ei). unfold mbind, get_local, mlift, put_local. cbn [obind fst snd dlocal].
  rewrite L1. cbn [pci_kcalls with_table dlocal s0]. rewrite Hk. cbn [obind fst snd]. by eexists.
Qed.

(** ** Drivers *)

Variable call_init : Z -> Z -> hw state unit.
(** The calls of [init] so far: driver and entry of the table. *)
Variable calls : H -> list (Z * Z).

(** What decides about binding. *)
Definition ident (d : PCIDevice) : PCIDevice :=
  PciDev (pd_addr d) (vendor_id d) (device_id d) (class d) (subclass d) (progif d) 0 0 0 (pd_driver d) 0 0.
Definition idents (s : state) : list PCIDevice := ident <$> pci_device_table (dlocal s).

(** Access to registers calls no driver; an [init] may change the rest of its entry,
    its own variables and the machine. *)
Hypothesis read16_calls : forall a r s v s', read16 host a r s = Ret (v, s') -> calls (dhw s') = calls (dhw s).
Hypothesis write16_calls : forall a r v s s', write16 host a r v s = Ret (tt, s') -> calls (dhw s') = calls (dhw s).
Hypothesis init_called : forall drv i s, exists s', call_init drv i s = Ret (tt, s') /\ calls (dhw s') = calls (dhw s) ++ [(drv, i)] /\ idents s' = idents s.

Lemma reg16_u16 s a r : is_u16 (reg 2 s a r).
Proof.
  unfold reg. assert (Hb : bytes_ok (cfg_bytes s a r 2)) by (apply Forall_fmap, Forall_forall; intros i _; apply cfg_byte).
  exact (le_val_bound _ Hb).
Qed.

Lemma lor_u16 x y : is_u16 x -> is_u16 y -> is_u16 (Z.lor x y).
Proof.
  intros Hx Hy. unfold is_u16 in *. assert (Hn : 0 <= Z.lor x y) by (apply Z.lor_nonneg; lia). split; [done|].
  rewrite <- (Z.mod_small x (2 ^ 16)), <- (Z.mod_small y (2 ^ 16)), <- !Z.land_ones, <- Z.land_lor_distr_l, Z.land_ones by lia. apply Z.mod_pos_bound. lia.
Qed.

Lemma enable_run a s : addr_ok (bus_num host) a -> exists s', pci_enable_device host a s = Ret (tt, s') /\ calls (dhw s') = calls (dhw s) /\ dlocal s' = dlocal s.
Proof.
  intros Ha. unfold pci_enable_device, update_command. destruct (read16_run host lim host_good lim_enough a PCI_CONF_COMMAND s Ha) as (s1 & E1 & S1); [done|done|].
  rewrite (mbind_run _ _ _ _ _ E1). set (v := Z.lor _ _). assert (Hv : is_u16 v) by (apply lor_u16; [done|apply reg16_u16]).
  destruct (host_write16 _ _ host_good a PCI_CONF_COMMAND v s1 Ha) as (s2 & E2 & S2); [unfold reg_ok, PCI_CONF_COMMAND; split_and!; [lia|lia|done]|exact Hv|].
  exists s2. split; [done|]. rewrite (write16_calls _ _ _ _ _ E2), (read16_calls _ _ _ _ _ E1). split; [done|].
  rewrite (keeps_write16 _ host_local _ _ _ _ _ _ E2). exact (keeps_read16 _ host_local _ _ _ _ _ E1).
Qed.

(** An entry after the condition [c], and the indices from [j] on that are bound. *)
Definition bound (drv : Z) (c : PCIDevice -> bool) (d : PCIDevice) : PCIDevice := if (pd_driver d =? 0) && c d then set_driver d drv else d.

Fixpoint hits (c : PCIDevice -> bool) (j : Z) (t : list PCIDevice) : list Z :=
  match t with
  | [] => []
  | d :: t' => (if (pd_driver d =? 0) && c d then [j] else []) ++ hits c (j + 1) t'
  end.

(** Conditions look at the identity of a device. *)
Definition on_ident (c : PCIDevice -> bool) : Prop := forall d, c (ident d) = c d.

Lemma set_device_at (s : state) t1 d0 t2 d : pci_device_table (dlocal s) = t1 ++ d0 :: t2 ->
  set_device (zlen t1) d s = Ret (tt, Driver (dpool s) (with_table (dlocal s) (t1 ++ d :: t2)) (dhw s)).
Proof.
  intros E. unfold set_device, mbind, get_local, mlift, put_local. cbn [obind fst snd]. rewrite E, zset_Some.
  - cbn [of_option obind fst snd]. unfold zlen. by rewrite Nat2Z.id, insert_app_r_alt, Nat.sub_diag by done.
  - unfold zlen. rewrite length_app. cbn. lia.
Qed.

Lemma bind_if_ok drv c (s : state) pre d suf : idents s = pre ++ d :: suf -> addr_ok (bus_num host) (pd_addr d) -> on_ident c ->
  exists s', bind_if host call_init drv c (zlen pre) s = Ret (tt, s') /\ idents s' = pre ++ bound drv c d :: suf /\
    calls (dhw s') = calls (dhw s) ++ ((drv,.) <$> if (pd_driver d =? 0) && c d then [zlen pre] else []).
Proof.
  intros E Ha Hc. unfold idents in E. apply fmap_app_inv in E as (t1 & t2 & E1 & E2 & Et). symmetry in E2. apply fmap_cons_inv in E2 as (d0 & t3 & Ed & E3 & ->).
  unfold bind_if, bound. assert (Ez : zlen pre = zlen t1) by (rewrite E1; unfold zlen; by rewrite length_fmap). rewrite Ez.
  assert (Eg : get_device (zlen t1) s = Ret (d0, s)).
  { unfold get_device, mbind, get_local, mlift. cbn [obind fst snd]. rewrite Et. assert (Ezg : zget (t1 ++ d0 :: t3) (zlen t1) = Some d0).
    { apply zget_lookup. unfold zlen. rewrite Nat2Z.id. split; [lia|]. by rewrite list_lookup_middle. }
    by rewrite Ezg. }
  rewrite (mbind_run _ _ _ _ _ Eg). rewrite Ed. change (pd_driver (ident d0)) with (pd_driver d0). rewrite (Hc d0).
  destruct ((pd_driver d0 =? 0) && c d0) eqn:Eh.
  - rewrite (mbind_run _ _ _ _ _ (set_device_at s t1 d0 t3 _ Et)). destruct (enable_run (pd_addr d0) (Driver (dpool s) (with_table (dlocal s) (t1 ++ set_driver d0 drv :: t3)) (dhw s))) as (s2 & E2 & C2 & L2).
    { rewrite Ed in Ha. exact Ha. }
    rewrite (mbind_run _ _ _ _ _ E2). destruct (init_called drv (zlen t1) s2) as (s3 & E3' & C3 & I3). exists s3. split; [done|]. split; [|by rewrite C3, C2].
    rewrite I3. unfold idents. rewrite L2. cbn [dlocal with_table pci_device_table]. by rewrite fmap_app, fmap_cons, <- E1, <- E3.
  - exists s. split; [done|]. cbn. rewrite app_nil_r. split; [|done]. unfold idents. by rewrite Et, fmap_app, fmap_cons, <- E1, <- E3.
Qed.

Lemma bind_each_ok drv c suf : on_ident c -> forall (s : state) pre, idents s = pre ++ suf -> Forall (fun d => addr_ok (bus_num host) (pd_addr d)) suf ->
  exists s', each (bind_if host call_init drv c) (seqZ (zlen pre) (zlen suf)) s = Ret (tt, s') /\ idents s' = pre ++ (bound drv c <$> suf) /\
    calls (dhw s') = calls (dhw s) ++ ((drv,.) <$> hits c (zlen pre) suf).
Proof.
  intros Hc. induction suf as [|d suf IH]; intros s pre E Ha; [exists s; cbn; rewrite !app_nil_r; rewrite app_nil_r in E; done|].
  apply Forall_cons in Ha as [Hd Ha]. rewrite seqZ_cons by (unfold zlen; cbn; lia). cbn [each].
  destruct (bind_if_ok drv c s pre d suf E Hd Hc) as (s1 & E1 & I1 & C1). rewrite (mbind_run _ _ _ _ _ E1).
  destruct (IH s1 (pre ++ [bound drv c d])) as (s2 & E2 & I2 & C2); [by rewrite I1, <- app_assoc|done|]. exists s2.
  assert (El : zlen (pre ++ [bound drv c d]) = zlen pre + 1) by (unfold zlen; rewrite length_app; cbn; lia). rewrite El in *.
  replace (Z.succ (zlen pre)) with (zlen pre + 1) by lia. replace (Z.pred (zlen (d :: suf))) with (zlen suf) by (unfold zlen; cbn; lia).
  split; [done|]. split; [by rewrite I2, <- app_assoc|]. rewrite C2, C1. cbn [hits]. by rewrite fmap_app, <- app_assoc.
Qed.

(** *** Several conditions *)

Definition either (c1 c2 : PCIDevice -> bool) (d : PCIDevice) : bool := c1 d || c2 d.

Lemma bound_either drv c1 c2 d : drv <> 0 -> bound drv c2 (bound drv c1 d) = bound drv (either c1 c2) d.
Proof.
  intros Hd. unfold bound, either. destruct (pd_driver d =? 0) eqn:E; cbn [andb]; [|by rewrite E]. destruct (c1 d); cbn [orb]; [|by rewrite E].
  cbn [pd_driver set_driver]. by replace (drv =? 0) with false by lia.
Qed.

Lemma hits_either drv c1 c2 t : drv <> 0 -> forall j, hits c1 j t ++ hits c2 j (bound drv c1 <$> t) ≡ₚ hits (either c1 c2) j t.
Proof.
  intros Hd. induction t as [|d t IH]; intros j; [done|]. cbn [hits fmap list_fmap]. rewrite <- IH. unfold bound at 1 2, either at 1.
  destruct (pd_driver d =? 0) eqn:E; cbn [andb]; [|rewrite E; cbn [andb app]; done]. destruct (c1 d); cbn [orb app].
  - cbn [pd_driver set_driver]. replace (drv =? 0) with false by lia. done.
  - rewrite E. cbn [andb]. destruct (c2 d); cbn [app]; [|done]. symmetry. apply Permutation_middle.
Qed.

Definition table_ok (s : state) : Prop := zlen (idents s) = PCI_DEVICE_TABLE_SIZE /\ Forall (fun d => addr_ok (bus_num host) (pd_addr d)) (idents s).

(** The devices that satisfy [c] are bound to [drv]: those that had no driver, and
    the [init] of each is called once. *)
Definition binds (drv : Z) (c : PCIDevice -> bool) (s s' : state) : Prop :=
  idents s' = bound drv c <$> idents s /\ exists l, calls (dhw s') = calls (dhw s) ++ ((drv,.) <$> l) /\ l ≡ₚ hits c 0 (idents s).

Lemma table_ok_binds drv c (s s' : state) : table_ok s -> binds drv c s s' -> table_ok s'.
Proof.
  intros [Hl Ha] [E _]. unfold table_ok. rewrite E. split; [unfold zlen in *; by rewrite length_fmap|]. apply Forall_fmap.
  eapply Forall_impl; [exact Ha|]. intros d Hd. unfold compose, bound. by destruct (_ && _).
Qed.

Lemma bind_all_ok drv c (s : state) : on_ident c -> table_ok s -> exists s', bind_all host call_init drv c s = Ret (tt, s') /\ binds drv c s s'.
Proof.
  intros Hc [Hl Ha]. destruct (bind_each_ok drv c (idents s) Hc s [] eq_refl Ha) as (s' & E & I & C). exists s'. rewrite Hl in E.
  split; [done|]. split; [done|]. by exists (hits c 0 (idents s)).
Qed.

Lemma binds_either drv c1 c2 (s1 s2 s3 : state) : drv <> 0 -> binds drv c1 s1 s2 -> binds drv c2 s2 s3 -> binds drv (either c1 c2) s1 s3.
Proof.
  intros Hd [E1 (l1 & C1 & P1)] [E2 (l2 & C2 & P2)]. split.
  - rewrite E2, E1, <- list_fmap_compose. apply list_fmap_ext. intros _ d _. by apply bound_either.
  - exists (l1 ++ l2). rewrite C2, C1, fmap_app, app_assoc. split; [done|]. by rewrite P1, P2, E1, hits_either.
Qed.

(** The identifiers before the one that ends the table. *)
Fixpoint listed (ids : list (Z * Z)) : list (Z * Z) :=
  match ids with
  | [] => []
  | id :: ids' => if fst id =? 0 then [] else id :: listed ids'
  end.

Definition matches (d : PCIDriver) (dev : PCIDevice) : bool :=
  (match match_table d with Some ids => existsb (fun id => match_id id dev) (listed ids) | None => false end) ||
  (if class_type d =? 0 then false
   else if Z.land (class_type d) 0xff =? 0xff then match_class (class_type d) dev else match_progif (class_type d) dev).

Lemma hits_ext c c' t : (forall d, c d = c' d) -> forall j, hits c j t = hits c' j t.
Proof. intros Hc. induction t as [|d t IH]; intros j; [done|]. cbn [hits]. by rewrite Hc, IH. Qed.

Lemma hits_none t : forall j, hits (fun _ => false) j t = [].
Proof. induction t as [|d t IH]; intros j; [done|]. cbn [hits]. rewrite andb_false_r. apply IH. Qed.

Lemma binds_ext drv c c' (s s' : state) : (forall d, c d = c' d) -> binds drv c s s' -> binds drv c' s s'.
Proof.
  intros Hc [E (l & C & P)]. split.
  - rewrite E. apply list_fmap_ext. intros _ d _. unfold bound. by rewrite Hc.
  - exists l. split; [done|]. by rewrite P, (hits_ext c c').
Qed.

Lemma binds_none drv (s : state) : binds drv (fun _ => false) s s.
Proof.
  assert (Eb : forall d, bound drv (fun _ => false) d = d) by (intros d; unfold bound; by rewrite andb_false_r). split.
  - rewrite <- (list_fmap_id (idents s)) at 1. apply list_fmap_ext. intros _ d _. by rewrite Eb.
  - exists []. rewrite app_nil_r. split; [done|]. by rewrite hits_none.
Qed.

Lemma bind_ids_ok drv ids : drv <> 0 -> existsb (fun id => fst id =? 0) ids = true -> forall s : state, table_ok s ->
  exists s', bind_ids host call_init drv ids s = Ret (tt, s') /\ table_ok s' /\ binds drv (fun d => existsb (fun id => match_id id d) (listed ids)) s s'.
Proof.
  intros Hd. induction ids as [|id ids IH]; intros He s Hs; [done|]. cbn [bind_ids listed existsb] in *. destruct (fst id =? 0); [exists s; auto using binds_none|].
  destruct (bind_all_ok drv (match_id id) s) as (s1 & E1 & B1); [by intros d|done|]. rewrite (mbind_run _ _ _ _ _ E1).
  pose proof (table_ok_binds _ _ _ _ Hs B1) as H1. destruct (IH He s1 H1) as (s2 & E2 & H2 & B2). exists s2. split_and!; [done|done|].
  eapply binds_ext; [|exact (binds_either _ _ _ _ _ _ Hd B1 B2)]. by intros d.
Qed.

(** Registering a driver binds it to the devices it matches that have no driver yet,
    whether by identifier or by class, and calls its [init] once for each of them;
    other devices keep their driver. *)
Theorem pci_register_driver_binds drv d (s : state) : drv <> 0 -> table_ok s ->
  (forall ids, match_table d = Some ids -> existsb (fun id => fst id =? 0) ids = true) ->
  exists s', pci_register_driver host call_init drv d s = Ret (tt, s') /\ binds drv (matches d) s s'.
Proof.
  intros Hd Hs Ht. unfold pci_register_driver, matches.
  set (c1 := fun dev => match match_table d with Some ids => existsb (fun id => match_id id dev) (listed ids) | None => false end).
  assert (H1 : exists s1, (match match_table d with Some ids => bind_ids host call_init drv ids | None => mret tt end) s = Ret (tt, s1) /\ table_ok s1 /\ binds drv c1 s s1).
  { unfold c1. destruct (match_table d) as [ids|]; [apply bind_ids_ok; auto|]. exists s. auto using binds_none. }
  destruct H1 as (s1 & E1 & T1 & B1). rewrite (mbind_run _ _ _ _ _ E1).
  set (c2 := fun dev => if class_type d =? 0 then false else if Z.land (class_type d) 0xff =? 0xff then match_class (class_type d) dev else match_progif (class_type d) dev).
  assert (H2 : exists s2, (if class_type d =? 0 then mret tt else if Z.land (class_type d) 0xff =? 0xff then bind_all host call_init drv (match_class (class_type d))
      else bind_all host call_init drv (match_progif (class_type d))) s1 = Ret (tt, s2) /\ binds drv c2 s1 s2).
  { unfold c2. destruct (class_type d =? 0); [exists s1; auto using binds_none|]. destruct (_ =? 0xff); by apply bind_all_ok. }
  destruct H2 as (s2 & E2 & B2). exists s2. split; [done|]. exact (binds_either _ _ _ _ _ _ Hd B1 B2).
Qed.
End tables.

(** ** Interrupt vectors *)

Definition vectors_ok (vs : list MSIVector) : Prop := length vs = Z.to_nat MSI_VECTOR_MAX.

Lemma msi_alloc_spec h p vs : forall i r m vs', msi_alloc h p i vs = (r, m, vs') ->
  (Forall (fun v => used v = true) vs /\ r = 0 /\ m = None /\ vs' = vs) \/
  (exists j v, vs !! j = Some v /\ used v = false /\ r = i + Z.of_nat j + MSI_VECTOR_BASE /\ m = Some (msi_compose_msg r 0) /\ vs' = <[j := MsiVec true h p]> vs).
Proof.
  induction vs as [|v vs IH]; intros i r m vs' E; cbn [msi_alloc] in E; [simplify_eq; left; auto|].
  destruct (used v) eqn:Eu.
  - destruct (msi_alloc h p (i + 1) vs) as [[r1 m1] vs1] eqn:E1. injection E as <- <- <-. destruct (IH _ _ _ _ E1) as [(Hf & -> & -> & ->)|(j & w & Hw & Hu & Er & Em & ->)].
    + left. split_and!; [by constructor|done..].
    + right. exists (S j), w. split_and!; [done|done|lia|done|done].
  - injection E as <- <- <-. right. exists 0%nat, v. split_and!; [done|done|lia|do 2 f_equal; lia|done].
Qed.

Lemma vec_lookup vs j : msi_intr (Z.of_nat j + MSI_VECTOR_BASE) vs = obind (of_option (vs !! j)) (fun v => Ret (if used v then Some (handler v, vec_private v) else None)).
Proof.
  unfold msi_intr, zget. replace (Z.of_nat j + MSI_VECTOR_BASE - MSI_VECTOR_BASE) with (Z.of_nat j) by lia.
  destruct (Z.ltb_spec (Z.of_nat j) 0); [lia|]. by rewrite Nat2Z.id.
Qed.

Definition live (vs : list MSIVector) (vec : Z) : Prop := exists h p, msi_intr vec vs = Ret (Some (h, p)).

(** Allocating a vector gives one that was free, in the range of the interrupt
    controller, with a message that carries its number; from then on its interrupt
    calls the handler with the argument, and the others call what they did before;
    freeing the message makes it spurious again.  With no vector left [0] is returned
    and nothing changes. *)
Theorem msi_vector_correct h p vs r m vs' : vectors_ok vs -> msi_alloc_vector h p vs = (r, m, vs') ->
  (r = 0 /\ m = None /\ vs' = vs /\ forall i, 0 <= i < MSI_VECTOR_MAX -> live vs (i + MSI_VECTOR_BASE)) \/
  (MSI_VECTOR_BASE <= r < MSI_VECTOR_BASE + MSI_VECTOR_MAX /\ m = Some (MsiMsg 0xfee00000 r) /\ ~ live vs r /\
   msi_intr r vs' = Ret (Some (h, p)) /\ (forall v, v <> r -> msi_intr v vs' = msi_intr v vs) /\
   exists vs2, msi_free_vector (MsiMsg 0xfee00000 r) vs' = Ret vs2 /\ msi_intr r vs2 = Ret None /\ forall v, v <> r -> msi_intr v vs2 = msi_intr v vs).
Proof.
  intros Hl E. apply msi_alloc_spec in E as [(Hf & -> & -> & ->)|(j & w & Hw & Hu & -> & -> & ->)].
  - left. split_and!; [done..|]. intros i Hi. rewrite <- (Z2Nat.id i) by lia. unfold live. rewrite vec_lookup.
    destruct (vs !! Z.to_nat i) as [v|] eqn:Ev; [|apply lookup_ge_None in Ev; unfold vectors_ok in Hl; lia].
    apply (Forall_lookup_1 _ _ _ _ Hf) in Ev as Hv. cbn. rewrite Hv. by exists (handler v), (vec_private v).
  - right. rewrite Z.add_0_l. set (r := Z.of_nat j + MSI_VECTOR_BASE). pose proof (lookup_lt_Some _ _ _ Hw) as Hj. unfold vectors_ok in Hl. rewrite Hl in Hj.
    assert (Hr : MSI_VECTOR_BASE <= r < MSI_VECTOR_BASE + MSI_VECTOR_MAX) by (unfold r, MSI_VECTOR_MAX in *; lia).
    assert (Hother : forall x (l : list MSIVector) v, v <> r -> msi_intr v (<[j := x]> l) = msi_intr v l).
    { intros x l v Hv. unfold msi_intr, zget. destruct (Z.ltb_spec (v - MSI_VECTOR_BASE) 0); [done|]. rewrite list_lookup_insert_ne; [done|unfold r in Hv; lia]. }
    split_and!; [lia|lia|done| | |by apply Hother|].
    + intros (h1 & p1 & E1). unfold r in E1. rewrite vec_lookup, Hw in E1. cbn in E1. by rewrite Hu in E1.
    + unfold r. rewrite vec_lookup, list_lookup_insert_eq; [done|lia].
    + unfold msi_free_vector. cbn [msg_data].
      assert (El : Z.land r 0xff = r) by (change 0xff with (Z.ones 8); rewrite Z.land_ones by lia; apply Z.mod_small; unfold MSI_VECTOR_BASE, MSI_VECTOR_MAX in Hr; lia).
      rewrite El. replace (r - MSI_VECTOR_BASE) with (Z.of_nat j) by (unfold r; lia).
      assert (Ez : zget (<[j := MsiVec true h p]> vs) (Z.of_nat j) = Some (MsiVec true h p)).
      { apply zget_lookup. rewrite Nat2Z.id. split; [lia|]. apply list_lookup_insert_eq. lia. }
      rewrite Ez. cbn [of_option obind handler vec_private]. rewrite zset_Some by (unfold zlen; rewrite length_insert; lia). cbn [of_option]. rewrite Nat2Z.id, list_insert_insert_eq.
      eexists. split; [reflexivity|]. split; [unfold r; rewrite vec_lookup, list_lookup_insert_eq; [done|lia]|]. intros v Hv. by apply Hother.
Qed.

(** ** A machine with one device *)

Lemma land_u8 x y : is_u8 x -> is_u8 y -> is_u8 (Z.land x y).
Proof.
  unfold is_u8. intros Hx Hy. split; [apply Z.land_nonneg; lia|]. rewrite <- (Z.mod_small x (2 ^ 8)), <- (Z.mod_small y (2 ^ 8)), <- !Z.land_ones by lia.
  rewrite <- Z.land_assoc, (Z.land_comm (Z.ones 8)), <- !Z.land_assoc, Z.land_diag, !Z.land_assoc, Z.land_ones by lia. apply Z.mod_pos_bound. lia.
Qed.

Lemma land_bytes x a y b : is_u8 x -> is_u8 y -> Z.land (x + 256 * a) (y + 256 * b) = Z.land x y + 256 * Z.land a b.
Proof.
  intros Hx Hy. pose proof (land_u8 x y Hx Hy) as Hxy. unfold is_u8 in *.
  replace (x + 256 * a) with (a * 2 ^ 8 + x) by lia. replace (y + 256 * b) with (b * 2 ^ 8 + y) by lia. replace (Z.land x y + 256 * Z.land a b) with (Z.land a b * 2 ^ 8 + Z.land x y) by lia.
  rewrite <- !(lor_shiftl _ 8) by lia. rewrite Z.shiftl_land. apply Z.bits_inj'. intros n Hn. rewrite !Z.land_spec, !Z.lor_spec, !Z.land_spec.
  destruct (Z.lt_ge_cases n 8) as [Hlt|Hge].
  - rewrite !Z.shiftl_spec_low by lia. done.
  - rewrite !(low_bits 8 x), !(low_bits 8 y) by lia. by rewrite !orb_false_r.
Qed.

Lemma le_val_land l1 : forall l2, length l1 = length l2 -> bytes_ok l1 -> bytes_ok l2 -> le_val (zip_with Z.land l1 l2) = Z.land (le_val l1) (le_val l2).
Proof.
  induction l1 as [|x l1 IH]; intros [|y l2] Hl H1 H2; try done. apply Forall_cons in H1 as [Hx H1]. apply Forall_cons in H2 as [Hy H2].
  cbn [zip_with le_val]. rewrite IH by (try done; cbn in Hl; lia). symmetry. by apply land_bytes.
Qed.

Module PciExample.

(** The address port, the contents of the registers that can be written, and the
    calls of drivers. *)
Record machine := Mach { m_conf : Z; m_regs : PciAddress -> Z -> Z; m_calls : list (Z * Z) }.

Definition the_device : PciAddress := PciAddr 0 1 0.

(** Bits that can be written: 64 kilobytes of memory and as much ROM. *)
Definition masks : list Z := repeat 0 18 ++ [0xff; 0xff] ++ repeat 0 28 ++ [1; 0; 0xff; 0xff].

(** Registers with fixed contents: identifier [1234:1111], class [3.0.0], interrupt
    line 11 and pin 1, and capabilities 9 and 5 at [0x40] and [0x50]. *)
Definition contents : list Z :=
  [0x34; 0x12; 0x11; 0x11; 0; 0; 0; 0; 0; 0; 0; 3] ++ repeat 0 40 ++ [0x40] ++ repeat 0 7 ++ [11; 1; 0; 0; 9; 0x50] ++ repeat 0 14 ++ [5; 0].

Definition m_cfg (h : machine) (a : PciAddress) (r : Z) : Z :=
  if decide (a = the_device) then
    match zget masks r with
    | Some (Zpos _ as m) => Z.land (u8 (m_regs h a r)) m
    | _ => default 0 (zget contents r)
    end
  else 0xff.

Definition m_write (a : PciAddress) (r : Z) (l : list Z) (h : machine) : machine :=
  Mach (m_conf h) (fun a' r' => if decide (a' = a) then default (m_regs h a' r') (zget l (r' - r)) else m_regs h a' r') (m_calls h).

Lemma zget_u8 l r v : bytes_ok l -> zget l r = Some v -> is_u8 v.
Proof. intros Hl (_ & Hv)%zget_lookup. exact (Forall_lookup_1 _ _ _ _ Hl Hv). Qed.

Lemma masks_ok : bytes_ok masks.
Proof. unfold bytes_ok, masks. cbn [repeat app]. repeat (apply Forall_cons_2; [done|]). apply Forall_nil_2. Qed.

Lemma contents_ok : bytes_ok contents.
Proof. unfold bytes_ok, contents. cbn [repeat app]. repeat (apply Forall_cons_2; [done|]). apply Forall_nil_2. Qed.

Lemma m_cfg_byte h a r : is_u8 (m_cfg h a r).
Proof.
  unfold m_cfg. destruct (decide (a = the_device)); [|done].
  assert (Hc : is_u8 (default 0 (zget contents r))) by (destruct (zget contents r) eqn:E; [exact (zget_u8 _ _ _ contents_ok E)|done]).
  destruct (zget masks r) as [[|m|m]|] eqn:E; try done. apply land_u8; [apply Z.mod_pos_bound; done|exact (zget_u8 _ _ _ masks_ok E)].
Qed.

Lemma m_write_same a r l h h' : (forall a r, m_cfg h a r = m_cfg h' a r) -> forall a' r', m_cfg (m_write a r l h) a' r' = m_cfg (m_write a r l h') a' r'.
Proof.
  intros E a' r'. specialize (E a' r'). unfold m_write. unfold m_cfg in *. cbn [m_regs]. destruct (decide (a' = a)); [|done].
  by destruct (zget l (r' - r)).
Qed.

#[export] Instance machine_config : ConfigSpace machine := {| cfg := m_cfg; cfg_write := m_write; cfg_byte := m_cfg_byte; cfg_write_same := m_write_same |}.

Definition ecam_base : Z := 0xb0000000.

(** Ports, and one bus of mapped registers. *)
#[export] Instance machine_ports : Machine machine := {
  io_in w p h := (le_val (cfg_bytes h (conf_target (m_conf h)) (conf_reg (m_conf h) + (p - PCI_IO_CONFDATA)) w), h);
  io_out w p v h := if p =? PCI_IO_CONFADD then Mach v (m_regs h) (m_calls h)
                    else m_write (conf_target (m_conf h)) (conf_reg (m_conf h) + (p - PCI_IO_CONFDATA)) (le_bytes (Z.to_nat w) v) h;
  mm_load w p h := (le_val (cfg_bytes h (ecam_target (p - ecam_base)) ((p - ecam_base) mod 2 ^ 12) w), h);
  mm_store w p v h := m_write (ecam_target (p - ecam_base)) ((p - ecam_base) mod 2 ^ 12) (le_bytes (Z.to_nat w) v) h;
  ram_get _ _ _ := [];
  ram_put _ _ h := h
}.

#[export, refine] Instance machine_mech1 : ConfigPorts machine := {| confadd := m_conf |}.
Proof.
  - intros v h Hv. done.
  - intros w off h Hw Hoff Hle Hm Hb. exists h. cbn [io_in machine_ports]. by replace (PCI_IO_CONFDATA + off - PCI_IO_CONFDATA) with off by lia.
  - intros w off v h Hw Hoff Hle Hm Hb. cbn [io_out machine_ports]. replace (PCI_IO_CONFDATA + off - PCI_IO_CONFDATA) with off by lia.
    replace (_ =? PCI_IO_CONFADD) with false; [done|]. symmetry. apply Z.eqb_neq. unfold PCI_IO_CONFDATA, PCI_IO_CONFADD. lia.
Defined.

#[export] Instance machine_ecam : Ecam machine ecam_base 1.
Proof.
  constructor; intros; [eexists; cbn [mm_load mm_store machine_ports]|cbn [mm_store machine_ports]]; by replace (ecam_base + o - ecam_base) with o by lia.
Defined.

#[export] Instance driver_ecam {A L H} `{Machine H} `{!ConfigSpace H} base n `{!Ecam H base n} : Ecam (driver A L H) base n.
Proof.
  constructor.
  - intros w o s Hw Ho Hm. destruct (ecam_load w o (dhw s) Hw Ho Hm) as (h' & E & S). exists (Driver (dpool s) (dlocal s) h').
    cbn [mm_load driver_machine]. rewrite E. split; [done|exact S].
  - intros w o v s Hw Ho Hm. exact (ecam_store w o v (dhw s) Hw Ho Hm).
Defined.

Definition boot : machine := Mach 0 (fun _ _ => 0) [].
Definition the_host : PciHost machine := mmcfg_host ecam_base 1.

Lemma config_access_correct_witness : host_ok 256 (legacy_host (M := machine)) /\ host_ok 4096 (mmcfg_host (M := machine) ecam_base 1).
Proof. apply config_access_correct. Defined.

Lemma device_ok : addr_ok 1 the_device.
Proof. done. Qed.

Lemma write_frame a r l h a' r' : length l = 4%nat -> a' <> a \/ ~ r <= r' < r + 4 -> m_cfg (m_write a r l h) a' r' = m_cfg h a' r'.
Proof.
  intros Hl Hn. unfold m_write, m_cfg. cbn [m_regs]. destruct (decide (a' = a)) as [->|]; [|done].
  destruct (zget l (r' - r)) eqn:E; [|done]. apply zget_Some in E. unfold zlen in E. destruct Hn as [|Hn]; [done|lia].
Qed.

(** A register of four bytes with masks. *)
Lemma masked_bytes v ms : is_u32 v -> length ms = 4%nat -> bytes_ok ms ->
  le_val (zip_with Z.land (le_bytes 4 v) ms) = Z.lor (Z.land v (le_val ms)) 0.
Proof.
  intros Hv Hl Hm. rewrite le_val_land by (rewrite ?le_bytes_length; auto using le_bytes_ok). by rewrite Z.lor_0_r, le_val_bytes.
Qed.

Definition masked (b m : Z) : Z := if m =? 0 then 0 else Z.land (u8 b) m.

Lemma masked_land l : bytes_ok l -> forall ms, zip_with masked l ms = zip_with Z.land l ms.
Proof.
  induction 1 as [|b l Hb Hl IH]; intros [|m ms]; [done..|]. cbn [zip_with]. rewrite IH. f_equal. unfold masked.
  destruct (Z.eqb_spec m 0) as [->|]; [by rewrite Z.land_0_r|]. unfold u8. by rewrite Z.mod_small.
Qed.

Lemma masked_register r w ms : w = le_val ms -> length ms = 4%nat -> bytes_ok ms -> reg 4 boot the_device r = Z.lor (Z.land (reg 4 boot the_device r) w) 0 ->
  (forall b0 b1 b2 b3 h, reg 4 (m_write the_device r [b0; b1; b2; b3] h) the_device r = le_val (zip_with masked [b0; b1; b2; b3] ms)) ->
  register_behaves the_device r w 0 boot.
Proof.
  intros -> Hl Hm Hnow Hr. constructor; [|exact (write_frame the_device r)|exact Hnow]. intros v h Hv. rewrite <- masked_bytes by done.
  pose proof (le_bytes_ok 4 v) as Hb. pose proof (le_bytes_length 4 v) as El. cbn [cfg_write machine_config]. destruct (le_bytes 4 v) as [|b0 [|b1 [|b2 [|b3 [|]]]]]; try done.
  by rewrite Hr, masked_land.
Qed.

Lemma region_behaves : register_behaves the_device (bar_reg 0) (size_mask 16) 0 boot.
Proof. apply (masked_register _ _ [0; 0; 0xff; 0xff]); try done. repeat (apply Forall_cons_2; [done|]). apply Forall_nil_2. Qed.

Lemma rom_behaves : register_behaves the_device PCI_CONF_ROM_BAR (Z.lor (size_mask 16) 1) 0 boot.
Proof. apply (masked_register _ _ [1; 0; 0xff; 0xff]); try done. repeat (apply Forall_cons_2; [done|]). apply Forall_nil_2. Qed.

Lemma pci_bar_size_correct_witness :
  (exists h', pci_read_bar_size the_host the_device 0 boot = Ret (65536, h') /\ same boot h') /\
  (exists h', pci_read_rom_bar_size the_host the_device boot = Ret (65536, h') /\ same boot h').
Proof.
  destruct (pci_bar_size_correct the_host 4096 mmcfg_host_ok ltac:(lia) the_device 16 boot device_ok) as [Hbar Hrom]. split.
  - apply (Hbar 0 0); [lia|cbn; lia|done|exact region_behaves].
  - apply Hrom; [lia|exact rom_behaves].
Defined.

Lemma pci_search_complete_witness : exists h', (r <~ find the_host (ByClass 3 0); search_rest 4 (next the_host (ByClass 3 0)) r) boot = Ret ([the_device], h') /\ same boot h'.
Proof.
  pose proof (pci_search_complete the_host 4096 mmcfg_host_ok ltac:(lia) (ByClass 3 0) 4 boot) as T. cbn zeta in T.
  change (filter _ _) with [the_device] in T. apply T; [cbn; lia|cbn; lia].
Defined.

Lemma caps : cap_list boot the_device 0x40 [0x40; 0x50].
Proof. constructor; [lia|]. change (cap_list boot the_device 0x50 [0x50]). constructor; [lia|]. change (cap_list boot the_device 0 []). constructor. Qed.

Lemma pci_find_capability_correct_witness : exists h', pci_find_capability the_host 255 the_device 5 boot = Ret (0x50, h') /\ same boot h'.
Proof.
  exact (pci_find_capability_correct the_host 4096 mmcfg_host_ok ltac:(lia) the_device 5 [0x40; 0x50] boot device_ok caps).
Defined.

Lemma msi_vector_correct_witness : exists vs', msi_alloc_vector 7 8 msi_init = (65, Some (MsiMsg 0xfee00000 65), vs') /\ msi_intr 65 vs' = Ret (Some (7, 8)).
Proof.
  destruct (msi_alloc_vector 7 8 msi_init) as [[r m] vs'] eqn:E. exists vs'. assert (E' := E). vm_compute in E'. injection E' as <- <- _. split; [done|].
  destruct (msi_vector_correct 7 8 msi_init _ _ vs' eq_refl E) as [(? & _)|(_ & _ & _ & Hi & _)]; [done|exact Hi].
Defined.

(** The kernel, with a driver for the device. *)
Definition vars : pci_vars := PciVars [] msi_init [KCall (repeat 0 32) None].
Definition kernel : driver unit pci_vars machine := Driver tt vars boot.
Definition kernel_host : PciHost (driver unit pci_vars machine) := mmcfg_host ecam_base 1.

Lemma kernel_fits : fits kernel_host kernel (all_functions 1).
Proof.
  assert (Ha : Forall (addr_ok 1) (all_functions 1)).
  { rewrite <- all_from_0 by lia. apply (all_from_ok kernel_host). unfold place, PCI_DEVICE_MAX, PCI_FUNCTION_MAX. cbn. lia. }
  eapply Forall_impl; [exact Ha|]. intros a Hok. split; [exact Hok|]. destruct (decide (a = the_device)) as [->|Hne].
  - intros _. split; vm_compute; done.
  - intros Hp. exfalso. assert (E : reg 2 kernel a PCI_CONF_VENDOR = 0xffff).
    { assert (Ec : forall r, m_cfg boot a r = 0xff) by (intros r; unfold m_cfg; by rewrite decide_False).
      change (reg 2 kernel a PCI_CONF_VENDOR) with (le_val [m_cfg boot a 0; m_cfg boot a 1]). by rewrite !Ec. }
    unfold present in Hp. by rewrite E in Hp.
Qed.

Lemma pci_init_finds_devices_witness : exists s', pci_init kernel_host 0xfec00000 99 kernel = Ret (tt, s') /\
  pci_device_table (dlocal s') = PciDev the_device 0x1234 0x1111 3 0 0 11 0 0 0 0 0 :: repeat no_pci_device 63.
Proof.
  edestruct (pci_init_finds_devices kernel_host 4096 mmcfg_host_ok ltac:(lia) (mmcfg_host_keeps ecam_base 1) 0xfec00000 99) with (s := kernel)
    as (s' & E & L); [exact kernel_fits|vm_compute; lia|vm_compute; reflexivity|].
  exists s'. split; [exact E|]. rewrite L. vm_compute. reflexivity.
Defined.

Definition log_call (drv i : Z) : hw (driver unit pci_vars machine) unit := modify (on_hw (fun h => Mach (m_conf h) (m_regs h) (m_calls h ++ [(drv, i)]))).

Lemma log_called drv i (s : driver unit pci_vars machine) : exists s', log_call drv i s = Ret (tt, s') /\ m_calls (dhw s') = m_calls (dhw s) ++ [(drv, i)] /\ idents s' = idents s.
Proof. eexists. split; [reflexivity|]. done. Qed.

Lemma kernel_reads a r (s : driver unit pci_vars machine) v s' : read16 kernel_host a r s = Ret (v, s') -> m_calls (dhw s') = m_calls (dhw s).
Proof. intros E. apply (f_equal (fun o => match o with Ret (_, s0) => m_calls (dhw s0) | _ => [] end)) in E. exact (eq_sym E). Qed.
Lemma kernel_writes a r v (s s' : driver unit pci_vars machine) : write16 kernel_host a r v s = Ret (tt, s') -> m_calls (dhw s') = m_calls (dhw s).
Proof. intros [= <-]. done. Qed.

(** The table after start-up, and a driver for display controllers. *)
Definition started : driver unit pci_vars machine :=
  Driver tt (with_table vars (PciDev the_device 0x1234 0x1111 3 0 0 11 0 0 0 0 0 :: repeat no_pci_device 63)) boot.
Definition display_driver : PCIDriver := PciDriver [] (Some [(0x1234, 0x1112); (0, 0)]) 0x30000.

Lemma pci_register_driver_binds_witness : exists s', pci_register_driver kernel_host log_call 5 display_driver started = Ret (tt, s') /\
  m_calls (dhw s') = [(5, 0)] /\ idents s' = PciDev the_device 0x1234 0x1111 3 0 0 0 0 0 5 0 0 :: repeat no_pci_device 63.
Proof.
  destruct (pci_register_driver_binds kernel_host 4096 mmcfg_host_ok ltac:(lia) (mmcfg_host_keeps ecam_base 1) log_call m_calls kernel_reads kernel_writes log_called
    5 display_driver started) as (s' & E & I & l & C & P); [done| |by intros ids [= <-]|].
  - split; [done|]. constructor; [done|]. apply Forall_fmap, Forall_forall. intros d Hd%list_elem_of_In%repeat_spec. by subst.
  - exists s'. split; [exact E|]. split; [|rewrite I; vm_compute; reflexivity]. rewrite C. vm_compute in P. apply Permutation_singleton_r in P as ->. done.
Defined.
End PciExample.
