(* ===== verification/VirtioPci.v ===== *)
(** kernel/driver/virtio: virtio devices on the PCI bus.

    The table of virtio devices, the search of a device for the places of its registers,
    the choice of features, and the set-up of a queue and of a block device, on top of [Pci].  The requests
    that go through a queue are in [Virtio]; this file connects the two: what the set-up
    leaves in memory is the queue that [Virtio] starts with.

    The theorem: on a device with the registers of the virtio specification a
    queue gets three pages of its own, empty, and the registers have their addresses, the
    size and the interrupt.  A lemma: the list of capabilities is read to its end. *)

From stdpp Require Import base list gmap sets strings.
From Stdlib Require Import ZArith Lia.
From S2P Require Import Prelude Mmu Vm Vfs Proc Virtio Machine Pci.

Local Open Scope Z_scope.
Local Open Scope hw_scope.

(** ** Registers *)

Definition VIRTIO_PCI_CAP_COMMON_CFG : Z := 1.
Definition VIRTIO_PCI_CAP_NOTIFY_CFG : Z := 2.
Definition VIRTIO_PCI_CAP_ISR_CFG : Z := 3.
Definition VIRTIO_PCI_CAP_DEVICE_CFG : Z := 4.
Definition VIRTIO_PCI_CAP_OFF_CAP_VENDOR : Z := 0.
Definition VIRTIO_PCI_CAP_OFF_TYPE : Z := 3.
Definition VIRTIO_PCI_CAP_OFF_BAR : Z := 4.
Definition VIRTIO_PCI_CAP_OFF_OFFSET : Z := 8.

Definition VIRTIO_STATUS_ACKNOWLEDGE : Z := 1.
Definition VIRTIO_STATUS_DRIVER : Z := 2.
Definition VIRTIO_STATUS_FEATURES_OK : Z := 8.
Definition VIRTIO_STATUS_DRIVER_OK : Z := 4.
Definition VIRTIO_MSI_NO_VECTOR : Z := 0xffff.

(** Offsets in the common configuration. *)
Definition cc_device_feature : Z := 4.
Definition cc_driver_feature : Z := 12.
Definition cc_msix_config : Z := 16.
Definition cc_device_status : Z := 20.
Definition cc_queue_select : Z := 22.
Definition cc_queue_size : Z := 24.
Definition cc_queue_msix_vector : Z := 26.
Definition cc_queue_enable : Z := 28.
Definition cc_queue_notify_off : Z := 30.
Definition cc_queue_desc : Z := 32.
Definition cc_queue_driver : Z := 40.
Definition cc_queue_device : Z := 48.

(** ** Devices *)

Definition VIRTIO_MAX_NUM_VIRTQUEUE : nat := 8.
Definition VIRTIO_DEVICE_TABLE_SIZE : nat := 16.

(** Pointers are numbers, [0] is null; the PCI function is an index of its table.  The lock
    of a device is made, taken and released in [virtio_generic_init] and used nowhere else; it is left out. *)
Record VirtioDevice := VDevice {
  v_device_id : Z;
  v_driver : Z;
  v_private : Z;
  v_pcidev : Z;
  transport_is_pci : bool;
  is_legacy : bool;
  virtqueue : list Z;
  cmcfg : Z;
  isr : Z;
  devcfg : Z;
  notify_begin : Z;
  notify_off_multiplier : Z
}.

Definition no_vdevice : VirtioDevice := VDevice 0 0 0 0 false false (repeat 0 VIRTIO_MAX_NUM_VIRTQUEUE) 0 0 0 0 0.

Definition set_regs (d : VirtioDevice) (c i dc n m : Z) : VirtioDevice :=
  VDevice (v_device_id d) (v_driver d) (v_private d) (v_pcidev d) (transport_is_pci d) (is_legacy d) (virtqueue d) c i dc n m.
Definition set_queues (d : VirtioDevice) (qs : list Z) : VirtioDevice :=
  VDevice (v_device_id d) (v_driver d) (v_private d) (v_pcidev d) (transport_is_pci d) (is_legacy d) qs (cmcfg d) (isr d) (devcfg d) (notify_begin d) (notify_off_multiplier d).
Definition set_vdriver (d : VirtioDevice) (x : Z) : VirtioDevice :=
  VDevice (v_device_id d) x (v_private d) (v_pcidev d) (transport_is_pci d) (is_legacy d) (virtqueue d) (cmcfg d) (isr d) (devcfg d) (notify_begin d) (notify_off_multiplier d).
Definition set_vprivate (d : VirtioDevice) (x : Z) : VirtioDevice :=
  VDevice (v_device_id d) (v_driver d) x (v_pcidev d) (transport_is_pci d) (is_legacy d) (virtqueue d) (cmcfg d) (isr d) (devcfg d) (notify_begin d) (notify_off_multiplier d).

Record VirtioDriver := VDriver { vdr_legacy_device_id : Z; vdr_device_id : Z; vdr_features : Z }.

(** The queue structure of a driver: the device, the handler, the pages and the
    register for notifications. *)
Record QueueStruct := QStruct { qs_dev : Z; qs_handler : Z; qs_size : Z; qs_desc : Z; qs_avail : Z; qs_used : Z; qs_notify : Z }.

(** The table of devices beside the machine. *)
Record vio (H : Type) := Vio { virtio_device_table : list VirtioDevice; v_hw : H }.
Arguments Vio {H}.
Arguments virtio_device_table {H}.
Arguments v_hw {H}.

#[export] Instance vio_machine {H} `{Machine H} : Machine (vio H) := {
  io_in w p s := let '(v, h) := io_in w p (v_hw s) in (v, Vio (virtio_device_table s) h);
  io_out w p v s := Vio (virtio_device_table s) (io_out w p v (v_hw s));
  mm_load w a s := let '(v, h) := mm_load w a (v_hw s) in (v, Vio (virtio_device_table s) h);
  mm_store w a v s := Vio (virtio_device_table s) (mm_store w a v (v_hw s));
  ram_get a n s := ram_get a n (v_hw s);
  ram_put a l s := Vio (virtio_device_table s) (ram_put a l (v_hw s))
}.

Section virtio.
Context {A H : Type} `{PageAllocator A} `{Machine H}.
Local Notation state := (driver A pci_vars (vio H)).
Variable pci_host : PciHost state.
(** Turns for a list of capabilities and for the device to use a chain, the handler
    of a queue's interrupt, and what is on the stack where a message is not stored. *)
Variable fuel : nat.
Variable virtio_pci_queue_msix_handler : Z.
Variable stack_message : MSIMessage.

Definition get_vdevice (i : Z) : hw state VirtioDevice := fun s => obind (of_option (zget (virtio_device_table (dhw s)) i)) (fun d => Ret (d, s)).
Definition set_vdevice (i : Z) (d : VirtioDevice) : hw state unit := fun s =>
  obind (of_option (zset (virtio_device_table (dhw s)) i d)) (fun t => Ret (tt, Driver (dpool s) (dlocal s) (Vio t (v_hw (dhw s))))).

(** *** Capabilities *)

(** What the list says: the register of the common configuration, the four offsets
    and the multiplier. *)
Record vcaps := VCaps { vc_bar : Z; vc_common : Z; vc_notify : Z; vc_isr : Z; vc_device : Z; vc_multiplier : Z }.

(** One capability. *)
Definition read_one_cap (addr : PciAddress) (capptr : Z) (c : vcaps) : hw state vcaps :=
  vendor <~ read8 pci_host addr (capptr + VIRTIO_PCI_CAP_OFF_CAP_VENDOR);
  if negb (vendor =? 9) then mret c else
  type <~ read8 pci_host addr (capptr + VIRTIO_PCI_CAP_OFF_TYPE);
  if type =? VIRTIO_PCI_CAP_COMMON_CFG then
    bar <~ read8 pci_host addr (capptr + VIRTIO_PCI_CAP_OFF_BAR);
    off <~ read32 pci_host addr (capptr + VIRTIO_PCI_CAP_OFF_OFFSET);
    mret (VCaps bar off (vc_notify c) (vc_isr c) (vc_device c) (vc_multiplier c))
  else if type =? VIRTIO_PCI_CAP_NOTIFY_CFG then
    off <~ read32 pci_host addr (capptr + VIRTIO_PCI_CAP_OFF_OFFSET);
    mul <~ read32 pci_host addr (capptr + 16);
    mret (VCaps (vc_bar c) (vc_common c) off (vc_isr c) (vc_device c) mul)
  else if type =? VIRTIO_PCI_CAP_ISR_CFG then
    off <~ read32 pci_host addr (capptr + VIRTIO_PCI_CAP_OFF_OFFSET);
    mret (VCaps (vc_bar c) (vc_common c) (vc_notify c) off (vc_device c) (vc_multiplier c))
  else if type =? VIRTIO_PCI_CAP_DEVICE_CFG then
    off <~ read32 pci_host addr (capptr + VIRTIO_PCI_CAP_OFF_OFFSET);
    mret (VCaps (vc_bar c) (vc_common c) (vc_notify c) (vc_isr c) off (vc_multiplier c))
  else mret c.

Fixpoint read_caps (n : nat) (addr : PciAddress) (capptr : Z) (c : vcaps) : hw state vcaps :=
  c' <~ read_one_cap addr capptr c;
  next <~ read8 pci_host addr (capptr + 1);
  if next =? 0 then mret c' else
  match n with
  | O => fun _ => NoFuel
  | S n' => read_caps n' addr next c'
  end.

(** The multiplier of the device is kept where the list has none. *)
Definition virtio_read_cap (addr : PciAddress) (i : Z) : hw state unit :=
  d <~ get_vdevice i;
  capptr <~ read8 pci_host addr 0x34;
  c <~ read_caps fuel addr capptr (VCaps 0 0 0 0 0 (notify_off_multiplier d));
  base <~ map_bar pci_host addr (vc_bar c);
  set_vdevice i (set_regs d (base + vc_common c) (base + vc_isr c) (base + vc_device c) (base + vc_notify c) (vc_multiplier c)).

(** *** Features *)

(** A bit of the status is added. *)
Definition add_status (d : VirtioDevice) (bit : Z) : hw state unit :=
  s <~ load8 (cmcfg d + cc_device_status); store8 (cmcfg d + cc_device_status) (Z.lor s bit).

Definition virtio_set_feature (d : VirtioDevice) (feature : Z) : hw state Z :=
  add_status d VIRTIO_STATUS_DRIVER ;>
  f <~ load32 (cmcfg d + cc_device_feature);
  store32 (cmcfg d + cc_driver_feature) (Z.land f feature) ;>
  ack_feature <~ load32 (cmcfg d + cc_driver_feature);
  add_status d VIRTIO_STATUS_FEATURES_OK ;>
  add_status d VIRTIO_STATUS_DRIVER_OK ;>
  mret ack_feature.

(** *** Queues *)

Fixpoint first_null (qs : list Z) (queue : Z) : option (list Z) :=
  match qs with
  | [] => None
  | q :: qs' => if q =? 0 then Some (queue :: qs') else cons q <$> first_null qs' queue
  end.

Definition virtio_add_virtq_to_dev (i queue : Z) : hw state unit :=
  d <~ get_vdevice i;
  match first_null (virtqueue d) queue with
  | Some qs => set_vdevice i (set_queues d qs)
  | None => fun _ => Panic "virtio only support max 8 virtqueue"
  end.

(** A volatile store of 64 bits is two of 32. *)
Definition store64 (a v : Z) : hw state unit := store32 a (u32 v) ;> store32 (a + 4) (Z.shiftr v 32).

(** A vector for the queue, and its message, in entry [queue_n] of the table of the
    device. *)
Definition queue_vector (d : VirtioDevice) (queue queue_n : Z) : hw state unit :=
  v <~ get_local;
  let '(r, m, vs) := msi_alloc_vector virtio_pci_queue_msix_handler queue (msi_vector v) in
  put_local (PciVars (pci_device_table v) vs (pci_kcalls v)) ;>
  pd <~ get_device (v_pcidev d);
  pci_msix_set_message pd queue_n (default stack_message m) ;>
  pci_msix_unmask pd queue_n ;>
  store16 (cmcfg d + cc_queue_msix_vector) queue_n.

Definition zero_page (p : Z) : hw state unit := modify (ram_put p (repeat 0 4096)).

(** The size the driver uses is at most that of the rings of its structures. *)
Definition queue_size (d : VirtioDevice) : hw state Z :=
  s <~ load16 (cmcfg d + cc_queue_size);
  (if VIRTIO_QUEUE_SIZE_MAX <? s then store16 (cmcfg d + cc_queue_size) VIRTIO_QUEUE_SIZE_MAX else mret tt) ;>
  load16 (cmcfg d + cc_queue_size).

(** The fields of the structure at [queue].  [notify_begin] points to words, so that what is added
    to it counts four times. *)
Definition virtio_init_queue (i queue queue_n intr_handler : Z) : hw state QueueStruct :=
  virtio_add_virtq_to_dev i queue ;>
  d <~ get_vdevice i;
  desc <~ d_kalloc;
  avail <~ d_kalloc;
  used <~ d_kalloc;
  zero_page desc ;> zero_page avail ;> zero_page used ;>
  store16 (cmcfg d + cc_queue_select) queue_n ;>
  size <~ queue_size d;
  off <~ load16 (cmcfg d + cc_queue_notify_off);
  let notify := u32 (notify_begin d + 4 * u32 (off * notify_off_multiplier d)) in
  queue_vector d queue queue_n ;>
  store64 (cmcfg d + cc_queue_desc) (V2P desc) ;>
  store64 (cmcfg d + cc_queue_driver) (V2P avail) ;>
  store64 (cmcfg d + cc_queue_device) (V2P used) ;>
  store16 (cmcfg d + cc_queue_enable) 1 ;>
  mret (QStruct i intr_handler size desc avail used notify).

Definition virtio_queue_notify (q : QueueStruct) : hw state unit := store32 (qs_notify q) 0.

(** The number of chains the device has used, in its page. *)
Definition read_used_idx (q : QueueStruct) : hw state Z := fun s => Ret (le_val (ram_get (qs_used q + 2) 2 s), s).

Definition virtio_queue_notify_wait (q : QueueStruct) : hw state unit :=
  prev <~ read_used_idx q;
  store32 (qs_notify q) 0 ;>
  spin fuel (i <~ read_used_idx q; mret (prev =? i)).

(** *** Devices and drivers *)

Definition virtio_generic_init (i features : Z) : hw state Z :=
  d <~ get_vdevice i;
  pd <~ get_device (v_pcidev d);
  pci_enable_bus_mastering pci_host (pd_addr pd) ;>
  pci_msix_enable pci_host fuel (v_pcidev d) ;>
  virtio_read_cap (pd_addr pd) i ;>
  d1 <~ get_vdevice i;
  store8 (cmcfg d1 + cc_device_status) 0 ;>
  store8 (cmcfg d1 + cc_device_status) VIRTIO_STATUS_ACKNOWLEDGE ;>
  ack_feature <~ virtio_set_feature d1 features;
  store16 (cmcfg d1 + cc_msix_config) VIRTIO_MSI_NO_VECTOR ;>
  mret ack_feature.

Definition driver_matches (dr : VirtioDriver) (d : VirtioDevice) : bool :=
  (v_driver d =? 0) && (if is_legacy d then v_device_id d =? vdr_legacy_device_id dr else v_device_id d =? vdr_device_id dr).

(** Driver number [n]; [call_init] is its [init]. *)
Definition virtio_register_driver (call_init : Z -> Z -> hw state unit) (n : Z) (dr : VirtioDriver) : hw state unit :=
  each (fun i =>
    d <~ get_vdevice i;
    if driver_matches dr d then
      set_vdevice i (set_vdriver d n) ;>
      feature <~ virtio_generic_init i (vdr_features dr);
      call_init i feature
    else mret tt) (seqZ 0 (Z.of_nat VIRTIO_DEVICE_TABLE_SIZE)).

(** The first entry without a device. *)
Fixpoint alloc_vdevice (i : Z) (t : list VirtioDevice) : option Z :=
  match t with
  | [] => None
  | d :: t' => if v_device_id d =? 0 then Some i else alloc_vdevice (i + 1) t'
  end.

Definition virtio_alloc_device : hw state Z := fun s =>
  match alloc_vdevice 0 (virtio_device_table (dhw s)) with
  | Some i => (set_vdevice i no_vdevice ;> mret i) s
  | None => Panic "too many virtio device"
  end.

(** The entry of a device with a number of the virtio vendor. *)
Definition new_vdevice (pcidev device_id : Z) : VirtioDevice :=
  let legacy := device_id <=? 0x1040 in
  VDevice (if legacy then device_id else device_id - 0x1040) 0 0 pcidev true legacy (repeat 0 VIRTIO_MAX_NUM_VIRTQUEUE) 0 0 0 0 0.

(** [vdev_ptr] is the address of an entry. *)
Definition virtio_pci_init (vdev_ptr : Z -> Z) (pcidev : Z) : hw state unit :=
  i <~ virtio_alloc_device;
  pd <~ get_device pcidev;
  set_device pcidev (set_private pd (vdev_ptr i)) ;>
  device_id <~ read16 pci_host (pd_addr pd) 2;
  set_vdevice i (new_vdevice pcidev device_id).

Definition virtio_pci_device_id : list (Z * Z) := ((fun i => (0x1af4, 0x1000 + i)) <$> seqZ 0 256) ++ [(0, 0)].

(** ["virtio-pci"]. *)
Definition virtio_pci_driver : PCIDriver := PciDriver [118; 105; 114; 116; 105; 111; 45; 112; 99; 105; 0] (Some virtio_pci_device_id) 0.

(** *** The block device *)

Definition VIRTIO_BLK_F_RO : Z := 2 ^ 5.
Definition VIRTIO_BLK_F_BLK_SIZE : Z := 2 ^ 6.

Definition virtio_blk_virtio_driver : VirtioDriver := VDriver 0x1001 2 (Z.lor VIRTIO_BLK_F_RO VIRTIO_BLK_F_BLK_SIZE).

(** The structure of a disk: its bytes, and where its queue is in it. *)
Variable sizeof_dev requestq_off : Z.
Variable virtio_blk_requestq_intr : Z.
(** The registration in the block layer. *)
Variable hal_block_register_device : Z -> hw state unit.

Definition virtio_blk_alloc_dev : hw state Z :=
  dev <~ d_kalloc; modify (ram_put dev (repeat 0 (Z.to_nat sizeof_dev))) ;> mret dev.

(** The capacity and the size of a block are read for the message. *)
Definition virtio_blk_dev_init (i : Z) : hw state QueueStruct :=
  dev <~ virtio_blk_alloc_dev;
  d <~ get_vdevice i;
  set_vdevice i (set_vprivate d dev) ;>
  q <~ virtio_init_queue i (dev + requestq_off) 0 virtio_blk_requestq_intr;
  capacity_lo <~ load32 (devcfg d);
  capacity_hi <~ load32 (devcfg d + 4);
  blk_size <~ load32 (devcfg d + 20);
  hal_block_register_device dev ;>
  mret q.

(** The driver's pointer is [blk_driver]. *)
Definition virtio_blk_init (blk_driver : Z) : hw state unit :=
  virtio_register_driver (fun i features => virtio_blk_dev_init i ;> mret tt) blk_driver virtio_blk_virtio_driver.

Definition virtio_init (pci_driver blk_driver : Z) (vdev_ptr : Z -> Z) : hw state unit :=
  (fun s => Ret (tt, Driver (dpool s) (dlocal s) (Vio (repeat no_vdevice VIRTIO_DEVICE_TABLE_SIZE) (v_hw (dhw s))))) ;>
  pci_register_driver pci_host (fun _ i => virtio_pci_init vdev_ptr i) pci_driver virtio_pci_driver ;>
  virtio_blk_init blk_driver.
End virtio.

(** ** The registers of a device *)

(** Of a queue: the registers behind [queue_select]. *)
Record qregs := QRegs { r_size : Z; r_vector : Z; r_enable : Z; r_notify_off : Z; r_desc : Z; r_driver : Z; r_device : Z }.

(** The selected queue, the queues, and the words of the entries of the table of messages. *)
Record vregs := VRegs { r_select : Z; r_queues : Z -> qregs; r_msix : Z -> Z -> Z }.

Definition upd {X} (f : Z -> X) (i : Z) (x : X) : Z -> X := fun j => if decide (j = i) then x else f j.

(** One half of a register of 64 bits. *)
Definition set_lo (x v : Z) : Z := x / 2 ^ 32 * 2 ^ 32 + v.
Definition set_hi (x v : Z) : Z := v * 2 ^ 32 + x mod 2 ^ 32.

(** A store of [w] bytes at offset [off] of the selected queue. *)
Definition qreg_write (w off v : Z) (q : qregs) : qregs :=
  let 'QRegs sz ve en no de dr du := q in
  match w, off with
  | 2, 24 => QRegs v ve en no de dr du
  | 2, 26 => QRegs sz v en no de dr du
  | 2, 28 => QRegs sz ve v no de dr du
  | 4, 32 => QRegs sz ve en no (set_lo de v) dr du
  | 4, 36 => QRegs sz ve en no (set_hi de v) dr du
  | 4, 40 => QRegs sz ve en no de (set_lo dr v) du
  | 4, 44 => QRegs sz ve en no de (set_hi dr v) du
  | 4, 48 => QRegs sz ve en no de dr (set_lo du v)
  | 4, 52 => QRegs sz ve en no de dr (set_hi du v)
  | _, _ => q
  end.

Definition reg_write (w off v : Z) (r : vregs) : vregs :=
  if (w =? 2) && (off =? cc_queue_select) then VRegs v (r_queues r) (r_msix r)
  else VRegs (r_select r) (upd (r_queues r) (r_select r) (qreg_write w off v (r_queues r (r_select r)))) (r_msix r).

Definition msix_write (vec w v : Z) (r : vregs) : vregs := VRegs (r_select r) (r_queues r) (upd (r_msix r) vec (upd (r_msix r vec) w v)).

(** Entries of a table of messages. *)
Definition MSIX_MAX : Z := 2048.

(** The device with its common configuration at [base] and its messages at [table], by the
    virtio specification: what the stores do, what the loads give, and that neither is
    memory. *)
Class VirtioRegisters (H : Type) `{Machine H} (base table : Z) := {
  vregs_of : H -> vregs;
  vr_select v h : vregs_of (mm_store 2 (base + cc_queue_select) v h) = reg_write 2 cc_queue_select v (vregs_of h);
  vr_store16 off v h : off ∈ [24; 26; 28] -> vregs_of (mm_store 2 (base + off) v h) = reg_write 2 off v (vregs_of h);
  vr_store32 off v h : off ∈ [32; 36; 40; 44; 48; 52] -> vregs_of (mm_store 4 (base + off) v h) = reg_write 4 off v (vregs_of h);
  vr_msix vec w v h : 0 <= vec < MSIX_MAX -> 0 <= w < 4 -> vregs_of (mm_store 4 (msix_word table vec w) v h) = msix_write vec w v (vregs_of h);
  vr_size h : exists h', mm_load 2 (base + cc_queue_size) h = (r_size (r_queues (vregs_of h) (r_select (vregs_of h))), h') /\
    vregs_of h' = vregs_of h /\ forall a n, ram_get a n h' = ram_get a n h;
  vr_notify_off h : exists h', mm_load 2 (base + cc_queue_notify_off) h = (r_notify_off (r_queues (vregs_of h) (r_select (vregs_of h))), h') /\
    vregs_of h' = vregs_of h /\ forall a n, ram_get a n h' = ram_get a n h;
  vr_ram a l h : vregs_of (ram_put a l h) = vregs_of h;
  vr_no_ram w off v h a n : 0 <= off < 56 -> ram_get a n (mm_store w (base + off) v h) = ram_get a n h;
  vr_msix_no_ram vec w v h a n : 0 <= vec < MSIX_MAX -> 0 <= w < 4 -> ram_get a n (mm_store 4 (msix_word table vec w) v h) = ram_get a n h
}.

(** The queue in the three pages. *)
Definition word_at {H} `{Machine H} (h : H) (n a : Z) : Z := le_val (ram_get a n h).

Definition queue_in_memory {H} `{Machine H} (h : H) (q : QueueStruct) : VirtioQueue :=
  VQueue (qs_size q)
    ((fun i => let a := qs_desc q + 16 * i in Desc (word_at h 8 a) (word_at h 4 (a + 8)) (word_at h 2 (a + 12)) (word_at h 2 (a + 14))) <$> seqZ 0 VIRTIO_QUEUE_SIZE_MAX)
    (word_at h 2 (qs_avail q + 2))
    ((fun i => word_at h 2 (qs_avail q + 4 + 2 * i)) <$> seqZ 0 VIRTIO_QUEUE_SIZE_MAX)
    (word_at h 2 (qs_used q + 2))
    ((fun i => (word_at h 4 (qs_used q + 4 + 8 * i), word_at h 4 (qs_used q + 8 + 8 * i))) <$> seqZ 0 VIRTIO_QUEUE_SIZE_MAX).

(** *** Empty pages *)

Section memory.
Context {H : Type} `{RamLaws H}.

Definition empty_page (h : H) (p : Z) : Prop := ram_get p 4096 h = repeat 0 4096.

Lemma zero_bytes n : bytes_ok (repeat 0 n).
Proof. apply Forall_forall. intros x Hx%list_elem_of_In%repeat_spec. by subst. Qed.

Lemma le_val_zeros l : Forall (fun x => x = 0) l -> le_val l = 0.
Proof. induction 1 as [|x l -> _ IH]; cbn; [done|]. by rewrite IH. Qed.

Lemma word_zero h p n i : empty_page h p -> 0 <= i -> 0 <= n -> i + n <= 4096 -> word_at h n (p + i) = 0.
Proof.
  intros Hp Hi Hn Hl. unfold word_at. rewrite (ram_slice p 4096) by lia. rewrite Hp. apply le_val_zeros, Forall_take, Forall_drop, Forall_forall.
  by intros x Hx%list_elem_of_In%repeat_spec.
Qed.

Lemma fmap_const {X} (f : Z -> X) x n : 0 <= n -> (forall i, 0 <= i < n -> f i = x) -> f <$> seqZ 0 n = repeat x (Z.to_nat n).
Proof.
  intros Hn Hf. replace (Z.to_nat n) with (length (seqZ 0 n)) by apply length_seqZ.
  assert (Hl : Forall (fun i => f i = x) (seqZ 0 n)) by (apply Forall_forall; intros i Hi%elem_of_seqZ; apply Hf; lia).
  induction Hl as [|i l E _ IH]; cbn; [done|]. by rewrite E, <- IH.
Qed.

(** Three empty pages are a new queue. *)
Lemma empty_queue h q : empty_page h (qs_desc q) -> empty_page h (qs_avail q) -> empty_page h (qs_used q) -> queue_in_memory h q = new_queue (qs_size q).
Proof.
  intros Hd Ha Hu. unfold queue_in_memory, new_queue, VIRTIO_QUEUE_SIZE_MAX. f_equal.
  - apply fmap_const; [done|]. intros i Hi. cbv zeta. rewrite <- !Z.add_assoc. by rewrite !word_zero by (done || lia).
  - by apply word_zero.
  - apply fmap_const; [done|]. intros i Hi. rewrite <- !Z.add_assoc. by rewrite !word_zero by (done || lia).
  - by apply word_zero.
  - apply fmap_const; [done|]. intros i Hi. rewrite <- !Z.add_assoc. by rewrite !word_zero by (done || lia).
Qed.

Lemma zero_page_same h p : empty_page (ram_put p (repeat 0 4096) h) p.
Proof. unfold empty_page. change 4096 with (zlen (repeat 0 4096)) at 1. apply ram_get_same, zero_bytes. Qed.

Lemma zero_page_other h p q : frame_ok p -> frame_ok q -> empty_page h q -> empty_page (ram_put p (repeat 0 4096) h) q.
Proof.
  intros Hp Hq He. destruct (decide (p = q)) as [->|Hne]; [apply zero_page_same|].
  unfold empty_page. rewrite ram_get_other; [done|apply zero_bytes|done|]. change (zlen (repeat 0 4096)) with 4096. destruct Hp as [Hp _], Hq as [Hq _]. unfold PGSIZE in *. pose proof (Z.div_mod p 4096). pose proof (Z.div_mod q 4096). lia.
Qed.
End memory.

(** ** Setting up a queue *)

Section queues.
Context {A H : Type} `{AllocatorLaws A} `{RamLaws H}.
Variables base table : Z.
Context `{!VirtioRegisters H base table}.

Local Notation state := (driver A pci_vars (vio H)).

(** The machine [h], compared with [h0]: queue [n] is selected, its registers
    are [q] and its entry of the table is [m]; the other queues, their entries and
    memory are as before. *)
Record selected (h0 : H) (n : Z) (q : qregs) (m : Z -> Z) (h : H) : Prop := {
  sel_at : r_select (vregs_of h) = n;
  sel_regs : r_queues (vregs_of h) n = q;
  sel_msix k : r_msix (vregs_of h) n k = m k;
  sel_queues j : j <> n -> r_queues (vregs_of h) j = r_queues (vregs_of h0) j;
  sel_entries j k : j <> n -> r_msix (vregs_of h) j k = r_msix (vregs_of h0) j k;
  sel_ram a k : ram_get a k h = ram_get a k h0
}.

Lemma selected_store w off v h0 n q m h : (w = 2 /\ off ∈ [24; 26; 28]) \/ (w = 4 /\ off ∈ [32; 36; 40; 44; 48; 52]) ->
  selected h0 n q m h -> selected h0 n (qreg_write w off v q) m (mm_store w (base + off) v h).
Proof.
  intros Hw [E1 E2 E3 E4 E5 E6].
  assert (E : vregs_of (mm_store w (base + off) v h) = VRegs n (upd (r_queues (vregs_of h)) n (qreg_write w off v q)) (r_msix (vregs_of h))).
  { destruct Hw as [[-> Ho]|[-> Ho]]; [rewrite vr_store16 by done|rewrite vr_store32 by done]; unfold reg_write; rewrite E1, E2.
    - repeat (apply elem_of_cons in Ho as [->|Ho]; [done|]). by apply elem_of_nil in Ho.
    - done. }
  assert (Ho : 0 <= off < 56) by (destruct Hw as [[_ Ho]|[_ Ho]]; repeat (apply elem_of_cons in Ho as [->|Ho]; [lia|]); by apply elem_of_nil in Ho).
  constructor; rewrite ?E; cbn; unfold upd; intros; rewrite ?decide_True, ?decide_False by done; auto.
  rewrite vr_no_ram by done. auto.
Qed.

Lemma selected_msix k v h0 n q m h : 0 <= n < MSIX_MAX -> 0 <= k < 4 -> selected h0 n q m h -> selected h0 n q (upd m k v) (mm_store 4 (msix_word table n k) v h).
Proof.
  intros Hn Hk [E1 E2 E3 E4 E5 E6].
  constructor; rewrite ?vr_msix by done; cbn; unfold upd; intros; rewrite ?decide_True, ?decide_False by done; auto.
  - destruct (decide (k0 = k)); auto.
  - rewrite vr_msix_no_ram by done. auto.
Qed.

Lemma run_store w a v {X} (k : unit -> hw state X) p l t h :
  mbind (modify (mm_store w a v)) k (Driver p l (Vio t h)) = k tt (Driver p l (Vio t (mm_store w a v h))).
Proof. done. Qed.

Lemma run_load16 a v h' {X} (k : Z -> hw state X) p l t h : mm_load 2 a h = (v, h') ->
  mbind (load16 a) k (Driver p l (Vio t h)) = k v (Driver p l (Vio t h')).
Proof. intros E. unfold mbind, load16. cbn. by rewrite E. Qed.

(** The size of the rings is at most that of the structures. *)
Lemma queue_size_ok d p l t h0 n sz ve en no de dr du m h : cmcfg d = base -> 0 <= sz ->
  selected h0 n (QRegs sz ve en no de dr du) m h -> let sz' := Z.min sz VIRTIO_QUEUE_SIZE_MAX in
  exists h', queue_size (A := A) d (Driver p l (Vio t h)) = Ret (sz', Driver p l (Vio t h')) /\ selected h0 n (QRegs sz' ve en no de dr du) m h'.
Proof.
  intros Hd Hsz Hs sz'. unfold queue_size. rewrite Hd.
  assert (Hload : forall s h, selected h0 n (QRegs s ve en no de dr du) m h -> exists h', mm_load 2 (base + cc_queue_size) h = (s, h') /\ selected h0 n (QRegs s ve en no de dr du) m h').
  { intros s h1 Hsel. destruct (vr_size h1) as (h2 & E & Er & Em). destruct Hsel as [E1 E2 E3 E4 E5 E6]. rewrite E1, E2 in E. exists h2. split; [done|].
    constructor; rewrite ?Er; auto. intros a k. by rewrite Em. }
  destruct (Hload _ _ Hs) as (h1 & E1 & Hs1). rewrite (run_load16 _ _ _ _ _ _ _ _ E1).
  destruct (VIRTIO_QUEUE_SIZE_MAX <? sz) eqn:El; [apply Z.ltb_lt in El|apply Z.ltb_ge in El].
  - assert (Hs2 := selected_store 2 cc_queue_size 256 h0 n _ m h1 ltac:(left; split; [done|by apply (bool_decide_unpack _)]) Hs1). cbn [qreg_write cc_queue_size] in Hs2.
    destruct (Hload _ _ Hs2) as (h2 & E2 & Hs3). exists h2. replace sz' with 256 by (unfold sz', VIRTIO_QUEUE_SIZE_MAX in *; lia). split; [|done].
    unfold store16. change (u16 VIRTIO_QUEUE_SIZE_MAX) with 256. rewrite run_store. unfold load16. cbn. by rewrite E2.
  - destruct (Hload _ _ Hs1) as (h2 & E2 & Hs3). exists h2. replace sz' with sz by (unfold sz'; lia). split; [|done].
    unfold mbind, mret, load16. cbn. by rewrite E2.
Qed.

Lemma hi_lo x v : is_u32 v -> set_hi (set_lo x v) 0 = v.
Proof. unfold set_hi, set_lo, is_u32. intros. rewrite Z.mul_0_l, Z.add_0_l, Z.add_comm, Z.mod_add by done. apply Z.mod_small. lia. Qed.

Definition message (m0 : Z -> Z) (msg : MSIMessage) : Z -> Z :=
  upd (upd (upd (upd m0 0 (u32 (Z.land (msg_addr msg) 0xffffffff))) 1 (u32 (Z.land (Z.shiftr (msg_addr msg) 32) 0xffffffff))) 2 (u32 (msg_data msg))) 3 (u32 0).

Lemma queue_vector_ok handler junk queue d pd p l t h0 n q m h r msg vs : cmcfg d = base -> zget (pci_device_table l) (v_pcidev d) = Some pd -> msix_table pd = table ->
  msi_alloc_vector handler queue (msi_vector l) = (r, Some msg, vs) -> 0 <= n < MSIX_MAX -> selected h0 n q m h ->
  exists h', queue_vector (A := A) handler junk d queue n (Driver p l (Vio t h)) = Ret (tt, Driver p (PciVars (pci_device_table l) vs (pci_kcalls l)) (Vio t h')) /\
    selected h0 n (qreg_write 2 cc_queue_msix_vector (u16 n) q) (message m msg) h'.
Proof.
  intros Hd Hpd Ht Ha Hn Hs. unfold queue_vector. rewrite (mbind_run get_local _ (Driver p l (Vio t h)) l _ eq_refl). rewrite Ha. cbn [default id].
  rewrite (mbind_run (put_local _) _ (Driver p l (Vio t h)) tt (Driver p (PciVars (pci_device_table l) vs (pci_kcalls l)) (Vio t h)) eq_refl).
  rewrite (mbind_run (get_device (v_pcidev d)) _ _ pd (Driver p (PciVars (pci_device_table l) vs (pci_kcalls l)) (Vio t h)))
    by (unfold get_device, mbind, get_local, mlift; cbn; by rewrite Hpd).
  unfold pci_msix_set_message, pci_msix_unmask. rewrite Ht, Hd. eexists. split; [reflexivity|].
  apply (selected_store 2 cc_queue_msix_vector (u16 n)); [left; split; [done|by apply (bool_decide_unpack _)]|]. unfold message. repeat (apply selected_msix; [lia|lia|]). exact Hs.
Qed.

Lemma store64_ok (off a : Z) (h0 : H) (n : Z) q m h p l t : frame_ok a -> off ∈ [32; 40; 48] -> selected h0 n q m h ->
  exists h', store64 (A := A) (base + off) (V2P a) (Driver p l (Vio t h)) = Ret (tt, Driver p l (Vio t h')) /\
    selected h0 n (qreg_write 4 (off + 4) 0 (qreg_write 4 off (V2P a) q)) m h'.
Proof.
  intros Ha Ho Hs. destruct (V2P_frame a Ha) as (Hu & _ & Hb & _). unfold store64, store32. rewrite run_store.
  assert (Ez : Z.shiftr (V2P a) 32 = 0) by (rewrite Z.shiftr_div_pow2 by done; apply Z.div_small; exact Hu).
  rewrite !u32_small by (rewrite ?u32_small; done || (rewrite Ez; done)). rewrite Ez. eexists. split; [reflexivity|].
  rewrite <- Z.add_assoc. apply selected_store; [right; split; [done|]|apply selected_store; [right; split; [done|]|done]];
    (repeat (apply elem_of_cons in Ho as [->|Ho]; [by apply (bool_decide_unpack _)|])); by apply elem_of_nil in Ho.
Qed.

Lemma first_null_some qs queue : 0 ∈ qs -> exists qs', first_null qs queue = Some qs'.
Proof.
  induction qs as [|x qs IH]; intros Hin; [by apply elem_of_nil in Hin|]. cbn. destruct (Z.eqb_spec x 0) as [->|Hx]; [by eexists|].
  apply elem_of_cons in Hin as [<-|Hin]; [done|]. destruct (IH Hin) as [qs' ->]. by eexists.
Qed.

(** The queue goes into the first free place of the device. *)
Lemma add_virtq_ok i queue p l t (h : H) d : zget t i = Some d -> 0 ∈ virtqueue d ->
  exists qs, first_null (virtqueue d) queue = Some qs /\
    virtio_add_virtq_to_dev (A := A) i queue (Driver p l (Vio t h)) = Ret (tt, Driver p l (Vio (<[Z.to_nat i := set_queues d qs]> t) h)).
Proof.
  intros Hd Hq. destruct (first_null_some _ queue Hq) as [qs Eq]. exists qs. split; [done|].
  unfold virtio_add_virtq_to_dev, mbind, get_vdevice. cbn. rewrite Hd. cbn. rewrite Eq. unfold set_vdevice. cbn. by rewrite zset_Some by (by eapply zget_Some).
Qed.

(** Three new pages. *)
Lemma three_pages p held free : pa_holds p held free -> 3 <= free -> exists a b c p1 p2 p3,
  pa_alloc p = Ret (a, p1) /\ pa_alloc p1 = Ret (b, p2) /\ pa_alloc p2 = Ret (c, p3) /\
  NoDup [a; b; c] /\ Forall (fun x => frame_ok x /\ x ∉ held) [a; b; c] /\ pa_holds p3 ({[c]} ∪ ({[b]} ∪ ({[a]} ∪ held))) (free - 3).
Proof.
  intros Hp Hf. destruct (pa_alloc_law p held free Hp) as (a & p1 & E1 & Ha & Fa & Hp1); [lia|].
  destruct (pa_alloc_law p1 _ _ Hp1) as (b & p2 & E2 & Hb & Fb & Hp2); [lia|]. destruct (pa_alloc_law p2 _ _ Hp2) as (c & p3 & E3 & Hc & Fc & Hp3); [lia|].
  exists a, b, c, p1, p2, p3. replace (free - 3) with (free - 1 - 1 - 1) by lia. split_and!; try done.
  - repeat (apply NoDup_cons; split); [| |apply not_elem_of_nil|by apply NoDup_nil]; rewrite ?elem_of_cons, elem_of_nil; intros Hx.
    + destruct Hx as [->|[->|[]]]; [apply Hb|apply Hc]; rewrite ?elem_of_union, ?elem_of_singleton; auto.
    + destruct Hx as [->|[]]. apply Hc. rewrite elem_of_union, elem_of_singleton. auto.
  - repeat apply Forall_cons_2; [done| | |by apply Forall_nil_2]; (split; [done|]); intros Hx; [apply Hb|apply Hc]; rewrite ?elem_of_union; auto.
Qed.

Lemma u16_id n : 0 <= n < MSIX_MAX -> u16 n = n.
Proof. unfold MSIX_MAX. intros. apply Z.mod_small. lia. Qed.

(** Selecting a queue. *)
Lemma queue_select_ok n h : 0 <= n < MSIX_MAX -> selected h n (r_queues (vregs_of h) n) (r_msix (vregs_of h) n) (mm_store 2 (base + cc_queue_select) (u16 n) h).
Proof.
  intros Hn. rewrite (u16_id n) by done. constructor; rewrite ?vr_select; try done. intros a k. by rewrite vr_no_ram.
Qed.

(** The rest of the set-up, from the selection on, for empty pages [a], [b], [c]. *)
Lemma queue_registers handler junk d pd queue n p l t h a b c j v (fin : Z -> Z -> unit -> hw state QueueStruct) : cmcfg d = base ->
  zget (pci_device_table l) (v_pcidev d) = Some pd -> msix_table pd = table -> vectors_ok (msi_vector l) -> msi_vector l !! j = Some v -> used v = false ->
  0 <= n < MSIX_MAX -> 0 <= r_size (r_queues (vregs_of h) n) -> frame_ok a -> frame_ok b -> frame_ok c ->
  let Q := r_queues (vregs_of h) n in
  exists vec vs h', (store16 (cmcfg d + cc_queue_select) n ;>
     size <~ queue_size d;
     off <~ load16 (cmcfg d + cc_queue_notify_off);
     queue_vector handler junk d queue n ;>
     store64 (cmcfg d + cc_queue_desc) (V2P a) ;>
     store64 (cmcfg d + cc_queue_driver) (V2P b) ;>
     store64 (cmcfg d + cc_queue_device) (V2P c) ;>
     x <~ store16 (cmcfg d + cc_queue_enable) 1; fin size off x) (Driver p l (Vio t h)) =
      fin (Z.min (r_size Q) VIRTIO_QUEUE_SIZE_MAX) (r_notify_off Q) tt (Driver p (PciVars (pci_device_table l) vs (pci_kcalls l)) (Vio t h')) /\
    msi_intr vec vs = Ret (Some (handler, queue)) /\
    selected h n (QRegs (Z.min (r_size Q) VIRTIO_QUEUE_SIZE_MAX) n 1 (r_notify_off Q) (V2P a) (V2P b) (V2P c)) (message (r_msix (vregs_of h) n) (MsiMsg 0xfee00000 vec)) h' /\
    is_u32 vec.
Proof.
  intros Hb Hpd Ht Hv Hj Hu Hn Hsz Fa Fb Fc Q.
  destruct (msi_alloc_vector handler queue (msi_vector l)) as [[vec om] vs] eqn:Ea.
  pose proof (msi_vector_correct _ _ _ _ _ _ Hv Ea) as [(_ & _ & _ & Hl)|(Hvec & -> & _ & Hi & _)].
  { exfalso. destruct (Hl (Z.of_nat j)) as (h1 & q1 & E); [apply lookup_lt_Some in Hj; unfold vectors_ok, MSI_VECTOR_MAX in *; lia|].
    rewrite vec_lookup, Hj in E. cbn in E. by rewrite Hu in E. }
  assert (Hs := queue_select_ok n h Hn). fold Q in Hs. destruct Q as [sz ve en no de dr du] eqn:EQ. cbn [r_size r_notify_off].
  unfold store16 at 1. rewrite run_store, Hb.
  destruct (queue_size_ok d p l t h n sz ve en no de dr du _ _ Hb ltac:(by fold Q in Hsz; rewrite EQ in Hsz) Hs) as (h1 & E1 & Hs1). rewrite (mbind_run _ _ _ _ _ E1). cbv beta.
  destruct (vr_notify_off h1) as (h2 & E2 & Er & Em). pose proof Hs1 as [S1 S2 S3 S4 S5 S6]. rewrite S1, S2 in E2. cbn [r_notify_off] in E2.
  rewrite (run_load16 _ _ _ _ _ _ _ _ E2). cbv beta.
  assert (Hs2 : selected h n (QRegs (Z.min sz VIRTIO_QUEUE_SIZE_MAX) ve en no de dr du) (r_msix (vregs_of h) n) h2) by (constructor; rewrite ?Er; auto; intros; by rewrite Em).
  destruct (queue_vector_ok handler junk queue d pd p l t h n _ _ h2 vec _ vs Hb Hpd Ht Ea Hn Hs2) as (h3 & E3 & Hs3). rewrite (mbind_run _ _ _ _ _ E3). cbv beta.
  rewrite (u16_id n) in Hs3 by done. cbn [qreg_write cc_queue_msix_vector] in Hs3.
  destruct (store64_ok cc_queue_desc a h n _ _ h3 p (PciVars (pci_device_table l) vs (pci_kcalls l)) t Fa ltac:(by apply (bool_decide_unpack _)) Hs3) as (h4 & E4 & Hs4). rewrite (mbind_run _ _ _ _ _ E4). cbv beta.
  destruct (store64_ok cc_queue_driver b h n _ _ h4 p (PciVars (pci_device_table l) vs (pci_kcalls l)) t Fb ltac:(by apply (bool_decide_unpack _)) Hs4) as (h5 & E5 & Hs5). rewrite (mbind_run _ _ _ _ _ E5). cbv beta.
  destruct (store64_ok cc_queue_device c h n _ _ h5 p (PciVars (pci_device_table l) vs (pci_kcalls l)) t Fc ltac:(by apply (bool_decide_unpack _)) Hs5) as (h6 & E6 & Hs6). rewrite (mbind_run _ _ _ _ _ E6). cbv beta.
  assert (Hs7 := selected_store 2 cc_queue_enable (u16 1) _ _ _ _ _ ltac:(left; split; [done|by apply (bool_decide_unpack _)]) Hs6).
  exists vec, vs, (mm_store 2 (base + cc_queue_enable) (u16 1) h6). split; [done|]. split; [done|]. split.
  - change (selected h n (QRegs (Z.min sz VIRTIO_QUEUE_SIZE_MAX) n 1 no (set_hi (set_lo de (V2P a)) 0) (set_hi (set_lo dr (V2P b)) 0) (set_hi (set_lo du (V2P c)) 0))
      (message (r_msix (vregs_of h) n) (MsiMsg 0xfee00000 vec)) (mm_store 2 (base + cc_queue_enable) (u16 1) h6)) in Hs7. by rewrite !hi_lo in Hs7 by (by apply V2P_frame).
  - unfold is_u32, MSI_VECTOR_BASE, MSI_VECTOR_MAX in *. lia.
Qed.

(** C22: A queue is set up on a device with the registers of the specification, given
    three free pages, a free place in the table of its queues and a free vector.  The queue
    gets three pages of its own and a size of at most 256; its registers have
    their addresses and the size, and it is enabled; the device sends its interrupts
    as a vector whose handler is called with the queue; what is in the pages is a new
    queue; the other queues are as before. *)
Theorem virtio_init_queue_ready handler junk i queue n intr (p : A) l t (h : H) held free d pd j v : pa_holds p held free -> 3 <= free ->
  zget t i = Some d -> cmcfg d = base -> 0 ∈ virtqueue d -> zget (pci_device_table l) (v_pcidev d) = Some pd -> msix_table pd = table ->
  vectors_ok (msi_vector l) -> msi_vector l !! j = Some v -> used v = false -> 0 <= n < MSIX_MAX -> 0 <= r_size (r_queues (vregs_of h) n) ->
  exists q s', virtio_init_queue handler junk i queue n intr (Driver p l (Vio t h)) = Ret (q, s') /\
    let R := vregs_of (v_hw (dhw s')) in let pages := [qs_desc q; qs_avail q; qs_used q] in
    NoDup pages /\ Forall (fun x => frame_ok x /\ x ∉ held) pages /\
    qs_size q = Z.min (r_size (r_queues (vregs_of h) n)) VIRTIO_QUEUE_SIZE_MAX /\
    r_queues R n = QRegs (qs_size q) n 1 (r_notify_off (r_queues (vregs_of h) n)) (V2P (qs_desc q)) (V2P (qs_avail q)) (V2P (qs_used q)) /\
    qs_notify q = u32 (notify_begin d + 4 * u32 (r_notify_off (r_queues (vregs_of h) n) * notify_off_multiplier d)) /\
    (exists vec, msi_intr vec (msi_vector (dlocal s')) = Ret (Some (handler, queue)) /\ r_msix R n <$> [0; 1; 2; 3] = [0xfee00000; 0; vec; 0]) /\
    queue_in_memory (v_hw (dhw s')) q = new_queue (qs_size q) /\
    forall k, k <> n -> r_queues R k = r_queues (vregs_of h) k.
Proof.
  intros Hp Hf Hd Hb Hq Hpd Ht Hv Hj Hu Hn Hsz.
  destruct (three_pages p held free Hp Hf) as (a & b & c & p1 & p2 & p3 & E1 & E2 & E3 & Hnd & Hfr & _).
  assert (Ha : frame_ok a /\ frame_ok b /\ frame_ok c) by (rewrite !Forall_cons in Hfr; tauto). destruct Ha as (Fa & Fb & Fc).
  unfold virtio_init_queue. destruct (add_virtq_ok i queue p l t h d Hd Hq) as (qs & _ & E0). rewrite (mbind_run _ _ _ _ _ E0).
  set (d1 := set_queues d qs). set (t1 := <[Z.to_nat i := d1]> t).
  rewrite (mbind_run (get_vdevice i) _ _ d1 (Driver p l (Vio t1 h))).
  2:{ unfold get_vdevice. cbn. unfold t1. apply zget_Some in Hd as Hi. unfold zlen in Hi.
      assert (Eg : zget (<[Z.to_nat i := d1]> t) i = Some d1) by (apply zget_lookup; split; [lia|]; apply list_lookup_insert_eq; lia). by rewrite Eg. }
  set (hz := ram_put c (repeat 0 4096) (ram_put b (repeat 0 4096) (ram_put a (repeat 0 4096) h))).
  assert (Ez : vregs_of hz = vregs_of h) by (unfold hz; by rewrite !vr_ram).
  assert (Hz : empty_page hz a /\ empty_page hz b /\ empty_page hz c).
  { unfold hz. split; [|split]; repeat (apply zero_page_same || (apply zero_page_other; [done|done|])). }
  rewrite (mbind_run d_kalloc _ (Driver p l (Vio t1 h)) a (Driver p1 l (Vio t1 h))) by (unfold d_kalloc; cbn; by rewrite E1).
  rewrite (mbind_run d_kalloc _ (Driver p1 l (Vio t1 h)) b (Driver p2 l (Vio t1 h))) by (unfold d_kalloc; cbn; by rewrite E2).
  rewrite (mbind_run d_kalloc _ (Driver p2 l (Vio t1 h)) c (Driver p3 l (Vio t1 h))) by (unfold d_kalloc; cbn; by rewrite E3).
  edestruct (queue_registers handler junk d1 pd queue n p3 l t1 hz a b c j v) as (vec & vs & h' & E & Hi & Hs & Hvec); try done; [by rewrite Ez|].
  rewrite Ez in Hs, E. destruct Hs as [S1 S2 S3 S4 S5 S6]. rewrite Ez in S4.
  eexists _, _. split; [exact E|]. cbn [qs_size qs_desc qs_avail qs_used dhw dlocal v_hw msi_vector]. split_and!; try done.
  - exists vec. split; [done|]. cbn. rewrite !S3. unfold message, upd. cbn. by rewrite (u32_small vec).
  - apply empty_queue; unfold empty_page; cbn [qs_desc qs_avail qs_used]; rewrite S6; apply Hz.
Qed.
End queues.

(** ** The places of the registers *)

Section places.
Context {A H : Type} `{PageAllocator A} `{Machine H} `{!ConfigSpace (driver A pci_vars (vio H))}.
Local Notation state := (driver A pci_vars (vio H)).
Variable host : PciHost state.
Variable lim : Z.
Hypothesis host_good : host_ok lim host.
Hypothesis lim_enough : 256 <= lim.

(** What a capability at [p] says; the last one of a type counts. *)
Definition cap_says (s : state) (a : PciAddress) (c : vcaps) (p : Z) : vcaps :=
  let off := reg 4 s a (p + 8) in
  if negb (cfg s a p =? 9) then c else
  let ty := cfg s a (p + 3) in
  if ty =? VIRTIO_PCI_CAP_COMMON_CFG then VCaps (cfg s a (p + 4)) off (vc_notify c) (vc_isr c) (vc_device c) (vc_multiplier c)
  else if ty =? VIRTIO_PCI_CAP_NOTIFY_CFG then VCaps (vc_bar c) (vc_common c) off (vc_isr c) (vc_device c) (reg 4 s a (p + 16))
  else if ty =? VIRTIO_PCI_CAP_ISR_CFG then VCaps (vc_bar c) (vc_common c) (vc_notify c) off (vc_device c) (vc_multiplier c)
  else if ty =? VIRTIO_PCI_CAP_DEVICE_CFG then VCaps (vc_bar c) (vc_common c) (vc_notify c) (vc_isr c) off (vc_multiplier c)
  else c.

(** Room for the registers of a capability, which are aligned. *)
Definition cap_place (p : Z) : Prop := 0 < p /\ p + 20 <= 256 /\ p mod 4 = 0.

Lemma cap_says_same s s' a c p : same s s' -> cap_says s a c p = cap_says s' a c p.
Proof. intros S. unfold cap_says. by rewrite !(S a), !(reg_same _ _ _ _ _ S). Qed.

Ltac read8_step E S := match goal with |- context [mbind (read8 host ?a ?r) _ ?s] =>
  let s' := fresh "s" in destruct (read8_run host lim host_good lim_enough a r s) as (s' & E & S); [done|lia|]; rewrite (mbind_run _ _ _ _ _ E); cbv beta end.
Ltac read32_step E S := match goal with |- context [mbind (read32 host ?a ?r) _ ?s] =>
  let s' := fresh "s" in destruct (read32_run host lim host_good lim_enough a r s) as (s' & E & S); [done|lia|lia|]; rewrite (mbind_run _ _ _ _ _ E); cbv beta end.

Lemma read_one_cap_ok a p c s : addr_ok (bus_num host) a -> cap_place p -> exists s', read_one_cap host a p c s = Ret (cap_says s a c p, s') /\ same s s'.
Proof.
  intros Ha (Hp & Hl & Hm). unfold read_one_cap, cap_says, VIRTIO_PCI_CAP_OFF_CAP_VENDOR, VIRTIO_PCI_CAP_OFF_TYPE, VIRTIO_PCI_CAP_OFF_BAR, VIRTIO_PCI_CAP_OFF_OFFSET. rewrite Z.add_0_r.
  assert (Hm8 : (p + 8) mod 4 = 0 /\ (p + 16) mod 4 = 0) by (split; Z.to_euclidean_division_equations; lia). destruct Hm8.
  read8_step E1 S1. destruct (negb (cfg s a p =? 9)); [by exists s0|].
  read8_step E2 S2. assert (S3 : same s s1) by (by rewrite S1). rewrite <- (S1 a (p + 3)).
  destruct (_ =? VIRTIO_PCI_CAP_COMMON_CFG).
  { read8_step E3 S4. read32_step E4 S5. eexists. split; [|by rewrite S3, S4]. unfold mret. rewrite (S3 a (p + 4)), (reg_same 4 s s2 a (p + 8)) by (by rewrite S3). done. }
  destruct (_ =? VIRTIO_PCI_CAP_NOTIFY_CFG).
  { read32_step E3 S4. read32_step E4 S5. eexists. split; [|by rewrite S3, S4]. unfold mret. rewrite (reg_same 4 s s1 a (p + 8) S3), (reg_same 4 s s2 a (p + 16)) by (by rewrite S3). done. }
  destruct (_ =? VIRTIO_PCI_CAP_ISR_CFG).
  { read32_step E3 S4. eexists. split; [|by rewrite S3]. unfold mret. by rewrite (reg_same 4 s s1 a (p + 8) S3). }
  destruct (_ =? VIRTIO_PCI_CAP_DEVICE_CFG); [|by exists s1].
  read32_step E3 S4. eexists. split; [|by rewrite S3]. unfold mret. by rewrite (reg_same 4 s s1 a (p + 8) S3).
Qed.

(** The list is read to its end, given as many turns as it is long. *)
Lemma read_caps_ok a l : addr_ok (bus_num host) a -> forall p c s n, cap_list s a p (p :: l) -> Forall cap_place (p :: l) -> (length l <= n)%nat ->
  exists s', read_caps host n a p c s = Ret (fold_left (cap_says s a) (p :: l) c, s') /\ same s s'.
Proof.
  intros Ha. induction l as [|p' l IH]; intros p c s n Hc [Hp Hf]%Forall_cons Hn; inversion Hc as [|? ? Hpb Hl]; subst.
  all: destruct (read_one_cap_ok a p c s Ha Hp) as (s1 & E1 & S1); destruct Hp as (Hp1 & Hp2 & Hp3).
  all: destruct n as [|n]; cbn [read_caps]; rewrite (mbind_run _ _ _ _ _ E1); cbv beta; read8_step E2 S2; rewrite <- (S1 a (p + 1)).
  - assert (Hz : cfg s a (p + 1) = 0) by (by inversion Hl). rewrite Hz. exists s0. split; [done|by rewrite S1].
  - assert (Hz : cfg s a (p + 1) = 0) by (by inversion Hl). rewrite Hz. exists s0. split; [done|by rewrite S1].
  - cbn in Hn. lia.
  - inversion Hl as [|? ? Hb' Hl']; subst. destruct (Z.eqb_spec (cfg s a (p + 1)) 0) as [Hz|_]; [lia|].
    destruct (IH (cfg s a (p + 1)) (cap_says s a c p) s0 n) as (s2 & E3 & S3); [|done|cbn in Hn; lia|].
    + eapply cap_list_same; [|exact Hl]. by rewrite S1.
    + exists s2. split; [|by rewrite S1, S2]. rewrite E3. do 2 f_equal. cbn [fold_left].
      assert (Hall : forall l c, fold_left (cap_says s0 a) l c = fold_left (cap_says s a) l c).
      { intros l0. induction l0 as [|x l0 IHl]; intros c0; [done|]. cbn [fold_left]. rewrite IHl. f_equal. apply cap_says_same. by rewrite S1. }
      apply (Hall (cfg s a (p + 1) :: l)).
Qed.
End places.

(** ** A device *)

Record toy_vio := ToyVio { tv_regs : vregs; tv_ram : Z -> Z }.

Definition toy_base : Z := 0xfe000000.
Definition toy_table : Z := 0xfe100000.

#[local] Instance toy_vio_machine : Machine toy_vio := {
  io_in w p h := (0, h);
  io_out w p v h := h;
  mm_load w a h :=
    let q := r_queues (tv_regs h) (r_select (tv_regs h)) in
    (if a =? toy_base + cc_queue_size then r_size q else if a =? toy_base + cc_queue_notify_off then r_notify_off q else 0, h);
  mm_store w a v h :=
    if decide (toy_base <= a < toy_base + 56) then ToyVio (reg_write w (a - toy_base) v (tv_regs h)) (tv_ram h)
    else if decide (toy_table <= a < toy_table + 16 * MSIX_MAX) then ToyVio (msix_write ((a - toy_table) / 16) ((a - toy_table) / 4 mod 4) v (tv_regs h)) (tv_ram h)
    else h;
  ram_get a n h := fget (tv_ram h) a n;
  ram_put b l h := ToyVio (tv_regs h) (fput b l (tv_ram h))
}.

#[local] Instance toy_vio_ram : RamLaws toy_vio.
Proof.
  constructor; cbn [ram_get ram_put toy_vio_machine tv_ram].
  - intros a n h. apply fget_len.
  - intros a n h. apply fget_bytes.
  - intros a n b l h. apply fget_fput.
  - intros a n i m h. apply fget_slice.
Qed.

Lemma toy_reg w off v h : 0 <= off < 56 -> mm_store w (toy_base + off) v h = ToyVio (reg_write w off v (tv_regs h)) (tv_ram h).
Proof. intros Ho. cbn. rewrite decide_True by lia. by rewrite (Z.add_comm toy_base), Z.add_simpl_r. Qed.

Lemma toy_msix vec w v h : 0 <= vec < MSIX_MAX -> 0 <= w < 4 -> mm_store 4 (msix_word toy_table vec w) v h = ToyVio (msix_write vec w v (tv_regs h)) (tv_ram h).
Proof.
  unfold MSIX_MAX. intros Hv Hw. cbn. unfold msix_word, MSIX_MAX. rewrite decide_False by (unfold toy_base, toy_table; lia). rewrite decide_True by lia.
  rewrite (Z.add_comm toy_table), Z.add_simpl_r. do 2 f_equal; Z.to_euclidean_division_equations; lia.
Qed.

#[local, refine] Instance toy_vio_regs : VirtioRegisters toy_vio toy_base toy_table := { vregs_of := tv_regs }.
Proof.
  - intros v h. by rewrite toy_reg.
  - intros off v h Ho. rewrite toy_reg; [done|]. repeat (apply elem_of_cons in Ho as [->|Ho]; [done|]). by apply elem_of_nil in Ho.
  - intros off v h Ho. rewrite toy_reg; [done|]. repeat (apply elem_of_cons in Ho as [->|Ho]; [done|]). by apply elem_of_nil in Ho.
  - intros vec w v h Hv Hw. by rewrite toy_msix.
  - intros h. by exists h.
  - intros h. by exists h.
  - done.
  - intros w off v h a n Ho. by rewrite toy_reg.
  - intros vec w v h a n Hv Hw. by rewrite toy_msix.
Defined.

#[local] Existing Instances list_allocator list_allocator_laws.

(** Two queues of 1024 entries, with notifications four bytes apart. *)
Definition toy_queue (n : Z) : qregs := QRegs 1024 0xffff 0 n 0 0 0.
Definition ex_vdevice : VirtioDevice := VDevice 2 1 0 0 true false (repeat 0 8) toy_base 0 0 0xfe003000 4.
Definition ex_pcidev : PCIDevice := PciDev (PciAddr 0 3 0) 0x1af4 0x1042 1 0 0 11 0 0 1 toy_table 0.
Definition ex_virtio : driver (list Z) pci_vars (vio toy_vio) :=
  Driver [0x80400000; 0x80401000; 0x80402000] (PciVars [ex_pcidev] msi_init []) (Vio [ex_vdevice] (ToyVio (VRegs 0 toy_queue (fun _ _ => 0)) (fun _ => 7))).

Lemma virtio_init_queue_ready_witness : exists q s', virtio_init_queue 77 (MsiMsg 0 0) 0 0x80500040 1 88 ex_virtio = Ret (q, s') /\
  qs_size q = 256 /\ queue_in_memory (v_hw (dhw s')) q = new_queue 256 /\ r_queues (tv_regs (v_hw (dhw s'))) 0 = toy_queue 0.
Proof.
  destruct (virtio_init_queue_ready (A := list Z) (H := toy_vio) toy_base toy_table 77 (MsiMsg 0 0) 0 0x80500040 1 88 [0x80400000; 0x80401000; 0x80402000]
    (PciVars [ex_pcidev] msi_init []) [ex_vdevice] (ToyVio (VRegs 0 toy_queue (fun _ _ => 0)) (fun _ => 7)) ∅ 3 ex_vdevice ex_pcidev 0 (MsiVec false 0 0))
    as (q & s' & E & _ & _ & Hsz & _ & _ & _ & Hq & Ho).
  - split; [by apply (bool_decide_unpack _)|]. split; [by repeat constructor|]. split; [apply set_Forall_empty|]. by split; [set_solver|].
  - done.
  - done.
  - done.
  - by left.
  - done.
  - done.
  - done.
  - done.
  - done.
  - done.
  - done.
  - assert (E256 : qs_size q = 256) by exact Hsz. exists q, s'. rewrite E256 in Hq. exact (conj E (conj E256 (conj Hq (Ho 0 ltac:(lia))))).
Defined.

(** On this device queue 1 is notified at offset 4 and queue 4 at offset 16; the
    driver notifies queue 1 at offset 16. *)
Lemma wrong_queue_notified :
  match virtio_init_queue 77 (MsiMsg 0 0) 0 0x80500040 1 88 ex_virtio with
  | Ret (q, _) => qs_notify q = notify_begin ex_vdevice + notify_off_multiplier ex_vdevice * r_notify_off (toy_queue 4)
  | _ => False
  end.
Proof. vm_compute. reflexivity. Qed.
