(* ===== verification/Usb.v ===== *)
(** kernel/driver/usb: the USB core and the hub driver.

    Buses with their devices, control transfers, requests and descriptors, registration
    of devices, controllers and drivers, and hubs (usb.c, transfer.c, request.c, hub.c).
    A host controller driver is an interface ([USBHostControllerDriver]) with a law
    ([HostController]) that says what its packets do on the bus; [Uhci] implements it.
    A device on the bus is an executable definition after chapters 8 and 9 of the USB
    specification ([ufn]).

    The theorem: a device behind any host controller is enumerated: it gets the first
    free address, what its descriptors say is what the kernel knows about it, and it is
    configured. *)

From stdpp Require Import base list gmap sets strings.
From Stdlib Require Import ZArith Lia.
From S2P Require Import Prelude Mmu Vm Machine.

Local Open Scope Z_scope.
Local Open Scope hw_scope.

(** ** Structures *)

Inductive USBPacketType := USB_PACKET_IN | USB_PACKET_OUT | USB_PACKET_SETUP.

#[export] Instance USBPacketType_eq_dec : EqDecision USBPacketType.
Proof. solve_decision. Defined.

Record USBPacket := Packet { pk_type : USBPacketType; pk_maxlen : Z; pk_buffer : Z; pk_toggle : Z }.

Inductive USBPortStatus := USB_PORT_STATUS_NOT_CONNECT | USB_PORT_STATUS_CONNECT_LOW_SPEED | USB_PORT_STATUS_CONNECT_FULL_SPEED.

Definition USB_STATUS_OK : Z := 0.

(** [if_usbdev] is the page of the device. *)
Record USBInterface := UsbIf {
  if_driver : Z; if_usbdev : Z; if_private : Z; if_class : Z; if_subclass : Z; if_protocol : Z; if_num_endpoints : Z
}.

Definition USB_INTERFACE_MAX_NUM : nat := 16.

(** [dv_bus] is the index of the bus. *)
Record USBDevice := UsbDev {
  dv_bus : Z; dv_addr : Z; dv_port : Z;
  dv_vendor_id : Z; dv_product_id : Z;
  dv_num_configuration : Z; dv_num_interface : Z;
  dv_class : Z; dv_subclass : Z; dv_protocol : Z;
  interfaces : list USBInterface
}.

Definition no_interface : USBInterface := UsbIf 0 0 0 0 0 0 0.
Definition no_usbdev : USBDevice := UsbDev 0 0 0 0 0 0 0 0 0 0 (repeat no_interface USB_INTERFACE_MAX_NUM).

Definition set_bus_port (d : USBDevice) (bus port : Z) : USBDevice :=
  UsbDev bus (dv_addr d) port (dv_vendor_id d) (dv_product_id d) (dv_num_configuration d) (dv_num_interface d) (dv_class d) (dv_subclass d) (dv_protocol d) (interfaces d).
Definition set_dv_addr (d : USBDevice) (a : Z) : USBDevice :=
  UsbDev (dv_bus d) a (dv_port d) (dv_vendor_id d) (dv_product_id d) (dv_num_configuration d) (dv_num_interface d) (dv_class d) (dv_subclass d) (dv_protocol d) (interfaces d).
Definition set_ident (d : USBDevice) (vendor product numcfg cls sub prot : Z) : USBDevice :=
  UsbDev (dv_bus d) (dv_addr d) (dv_port d) vendor product numcfg (dv_num_interface d) cls sub prot (interfaces d).
Definition set_num_interface (d : USBDevice) (n : Z) : USBDevice :=
  UsbDev (dv_bus d) (dv_addr d) (dv_port d) (dv_vendor_id d) (dv_product_id d) (dv_num_configuration d) n (dv_class d) (dv_subclass d) (dv_protocol d) (interfaces d).
Definition set_interfaces (d : USBDevice) (l : list USBInterface) : USBDevice :=
  UsbDev (dv_bus d) (dv_addr d) (dv_port d) (dv_vendor_id d) (dv_product_id d) (dv_num_configuration d) (dv_num_interface d) (dv_class d) (dv_subclass d) (dv_protocol d) l.

Definition USB_BUS_NUM_MAX : nat := 16.
Definition USB_DEVICE_MAX_NUM : nat := 128.

(** The controller, and the pages of the devices by address; [0] is null. *)
Record USBBus := UsbBus { hc_driver : Z; hc_private : Z; hc_num_ports : Z; bus_devices : list Z }.

Definition no_bus : USBBus := UsbBus 0 0 0 (repeat 0 USB_DEVICE_MAX_NUM).
Definition set_bus_devices (b : USBBus) (l : list Z) : USBBus := UsbBus (hc_driver b) (hc_private b) (hc_num_ports b) l.

Record USBDriver := UsbDriver { ud_pointer : Z; ud_class_type : Z }.

(** The variables of the core, the devices by their pages, and the machine. *)
Record usbsys (H : Type) := UsbSys { usb_bus : list USBBus; usb_devs : gmap Z USBDevice; u_hw : H }.
Arguments UsbSys {H}.
Arguments usb_bus {H}.
Arguments usb_devs {H}.
Arguments u_hw {H}.

#[export] Instance usbsys_machine {H} `{Machine H} : Machine (usbsys H) := {
  io_in w p s := let '(v, h) := io_in w p (u_hw s) in (v, UsbSys (usb_bus s) (usb_devs s) h);
  io_out w p v s := UsbSys (usb_bus s) (usb_devs s) (io_out w p v (u_hw s));
  mm_load w a s := let '(v, h) := mm_load w a (u_hw s) in (v, UsbSys (usb_bus s) (usb_devs s) h);
  mm_store w a v s := UsbSys (usb_bus s) (usb_devs s) (mm_store w a v (u_hw s));
  ram_get a n s := ram_get a n (u_hw s);
  ram_put a l s := UsbSys (usb_bus s) (usb_devs s) (ram_put a l (u_hw s))
}.

(** What a controller driver provides; statuses are numbers. *)
Record USBHostControllerDriver (M : Type) := HCDriver {
  reset_port : Z -> Z -> hw M unit;
  get_port_status : Z -> Z -> hw M USBPortStatus;
  transfer_packet : Z -> Z -> Z -> list USBPacket -> hw M Z
}.
Arguments HCDriver {M}.
Arguments reset_port {M}.
Arguments get_port_status {M}.
Arguments transfer_packet {M}.

(** ** transfer.c *)

(** Packets of eight bytes from [payload] on, the toggle starting at [1]. *)
Definition packet_in (payload i : Z) : USBPacket := Packet USB_PACKET_IN 8 (payload + 8 * i) (if Z.even i then 1 else 0).

(** All packets of a transfer to the host, and how many of them are handed over. *)
Definition packets_in (setup payload size : Z) : list USBPacket * Z :=
  let n := (size + 7) / 8 in
  (Packet USB_PACKET_SETUP 8 setup 0 :: (packet_in payload <$> seqZ 0 n) ++ [Packet USB_PACKET_OUT 0x800 0x80000000 1], 1 + n).

Definition packets_nodata (setup : Z) : list USBPacket := [Packet USB_PACKET_SETUP 8 setup 0; Packet USB_PACKET_IN 0x800 0x80000000 1].

Section core.
Context {A L H : Type} `{PageAllocator A} `{Machine H}.
Local Notation state := (driver A L (usbsys H)).
(** The driver at a pointer; turns for the descriptors of a configuration; the byte on
    the stack that a failed request leaves as the configuration. *)
Variable hcdriver : Z -> USBHostControllerDriver state.
Variable fuel : nat.
Variable stack_byte : Z.

Definition get_bus (b : Z) : hw state USBBus := fun s => obind (of_option (zget (usb_bus (dhw s)) b)) (fun x => Ret (x, s)).
Definition put_bus (b : Z) (x : USBBus) : hw state unit := fun s =>
  obind (of_option (zset (usb_bus (dhw s)) b x)) (fun t => Ret (tt, Driver (dpool s) (dlocal s) (UsbSys t (usb_devs (dhw s)) (u_hw (dhw s))))).
Definition get_dev (p : Z) : hw state USBDevice := fun s => obind (of_option (usb_devs (dhw s) !! p)) (fun x => Ret (x, s)).
Definition put_dev (p : Z) (x : USBDevice) : hw state unit := fun s =>
  Ret (tt, Driver (dpool s) (dlocal s) (UsbSys (usb_bus (dhw s)) (<[p := x]> (usb_devs (dhw s))) (u_hw (dhw s)))).
Definition mem (a n : Z) : hw state (list Z) := fun s => Ret (ram_get a n s, s).
Definition byte_at (a : Z) : hw state Z := l <~ mem a 1; mret (le_val l).
Definition half_at (a : Z) : hw state Z := l <~ mem a 2; mret (le_val l).

(** The array of packets has a page of its own, which holds 256 of them. *)
Definition submit (bus addr endpoint : Z) (packets : list USBPacket) (num : Z) : hw state Z :=
  page <~ d_kalloc;
  mlift (if zlen packets <=? 256 then Ret tt else Fault) ;>
  b <~ get_bus bus;
  status <~ transfer_packet (hcdriver (hc_driver b)) (hc_private b) addr endpoint (take (Z.to_nat num) packets);
  d_kfree page ;>
  mret status.

Definition usb_control_transfer_in (bus addr endpoint setup payload size : Z) : hw state Z :=
  let '(packets, pid) := packets_in setup payload size in submit bus addr endpoint packets pid.

Definition usb_control_transfer_nodata (bus addr endpoint setup : Z) : hw state Z := submit bus addr endpoint (packets_nodata setup) 2.

(** ** request.c *)

Definition USB_REQUEST_DIR_DEVICE_TO_HOST : Z := 0x80.
Definition USB_REQUEST_DIR_HOST_TO_DEVICE : Z := 0.
Definition USB_REQUEST_TYPE_STANDARD : Z := 0.
Definition USB_REQUEST_TYPE_CLASS : Z := 0x20.
Definition USB_REQUEST_RECP_OTHER : Z := 3.
Definition USB_REQUEST_SET_ADDRESS : Z := 5.
Definition USB_REQUEST_GET_DESCRIPTOR : Z := 6.
Definition USB_REQUEST_SET_CONFIGURATION : Z := 9.
Definition USB_DESCRIPTOR_DEVICE : Z := 1.
Definition USB_DESCRIPTOR_CONFIGURATION : Z := 2.
Definition USB_DESCRIPTOR_INTERFACE : Z := 4.

(** [USBSetupData]. *)
Definition setup_data (bm_request_type b_request w_value w_index w_length : Z) : list Z :=
  [u8 bm_request_type; u8 b_request] ++ le_bytes 2 (u16 w_value) ++ le_bytes 2 (u16 w_index) ++ le_bytes 2 (u16 w_length).

Definition put_setup (p bm_request_type b_request w_value w_index w_length : Z) : hw state unit :=
  modify (ram_put p (setup_data bm_request_type b_request w_value w_index w_length)).

(** A request with its data in a page of its own. *)
Definition request (bm_request_type b_request w_value w_index w_length : Z) (transfer : Z -> hw state Z) : hw state Z :=
  setup <~ d_kalloc;
  put_setup setup bm_request_type b_request w_value w_index w_length ;>
  status <~ transfer setup;
  d_kfree setup ;>
  mret status.

(** A request for a descriptor, of the type standard or class. *)
Definition get_descriptor (request_type dev desc_type desc_index buffer size : Z) : hw state Z :=
  request (Z.lor USB_REQUEST_DIR_DEVICE_TO_HOST request_type) USB_REQUEST_GET_DESCRIPTOR (Z.lor (Z.shiftl desc_type 8) desc_index) 0 size
    (fun setup => d <~ get_dev dev; usb_control_transfer_in (dv_bus d) (dv_addr d) 0 setup buffer size).

Definition usb_get_standard_descriptor : Z -> Z -> Z -> Z -> Z -> hw state Z := get_descriptor USB_REQUEST_TYPE_STANDARD.
Definition usb_get_class_descriptor : Z -> Z -> Z -> Z -> Z -> hw state Z := get_descriptor USB_REQUEST_TYPE_CLASS.

Definition usb_get_device_descriptor (dev : Z) : hw state Z :=
  device_desc <~ d_kalloc;
  status <~ usb_get_standard_descriptor dev USB_DESCRIPTOR_DEVICE 0 device_desc 18;
  if negb (status =? 0) then d_kfree device_desc ;> mret (-1) else
  vendor <~ half_at (device_desc + 8);
  product <~ half_at (device_desc + 10);
  numcfg <~ byte_at (device_desc + 17);
  cls <~ byte_at (device_desc + 4);
  sub <~ byte_at (device_desc + 5);
  prot <~ byte_at (device_desc + 6);
  d <~ get_dev dev;
  put_dev dev (set_ident d vendor product numcfg cls sub prot) ;>
  d_kfree device_desc ;>
  mret 0.

(** Interface [infcnt] of the device, from the descriptor at [p]; there is no check
    that the device has room for it. *)
Definition add_interface (dev p infcnt : Z) : hw state unit :=
  cls <~ byte_at (p + 5);
  sub <~ byte_at (p + 6);
  prot <~ byte_at (p + 7);
  endpoints <~ byte_at (p + 4);
  d <~ get_dev dev;
  old <~ mlift (of_option (zget (interfaces d) infcnt));
  l <~ mlift (of_option (zset (interfaces d) infcnt (UsbIf (if_driver old) dev (if_private old) cls sub prot endpoints)));
  put_dev dev (set_interfaces d l).

(** The descriptors from [descptr] to [end_]. *)
Fixpoint parse_descriptors (n : nat) (dev end_ descptr infcnt : Z) : hw state unit :=
  if end_ <=? descptr then mret tt else
  type <~ byte_at (descptr + 1);
  infcnt' <~ (if type =? USB_DESCRIPTOR_INTERFACE then add_interface dev descptr infcnt ;> mret (infcnt + 1) else mret infcnt);
  length <~ byte_at descptr;
  match n with
  | O => fun _ => NoFuel
  | S n' => parse_descriptors n' dev end_ (descptr + length) infcnt'
  end.

(** The status and the number of the configuration, [old] where it is not stored. *)
Definition usb_get_configuration_descriptor (dev index old : Z) : hw state (Z * Z) :=
  descriptor <~ d_kalloc;
  status <~ usb_get_standard_descriptor dev USB_DESCRIPTOR_CONFIGURATION index descriptor 1024;
  if negb (status =? 0) then d_kfree descriptor ;> mret (-1, old) else
  configuration_value <~ byte_at (descriptor + 5);
  num_interfaces <~ byte_at (descriptor + 4);
  d <~ get_dev dev;
  put_dev dev (set_num_interface d num_interfaces) ;>
  total_length <~ half_at (descriptor + 2);
  parse_descriptors fuel dev (descriptor + total_length) (descriptor + 9) 0 ;>
  d_kfree descriptor ;>
  mret (0, configuration_value).

Definition usb_set_address (bus oldaddr newaddr : Z) : hw state Z :=
  request 0 USB_REQUEST_SET_ADDRESS newaddr 0 0 (fun setup => usb_control_transfer_nodata bus oldaddr 0 setup).

Definition usb_set_configuration (dev configuration_value : Z) : hw state Z :=
  request 0 USB_REQUEST_SET_CONFIGURATION configuration_value 0 0 (fun setup => d <~ get_dev dev; usb_control_transfer_nodata (dv_bus d) (dv_addr d) 0 setup).

(** ** usb.c *)

(** The first address from [i] on without a device, or [0]. *)
Fixpoint free_address (i : Z) (l : list Z) : Z :=
  match l with
  | [] => 0
  | d :: l' => if d =? 0 then i else free_address (i + 1) l'
  end.

Definition usb_alloc_address (b : USBBus) : Z := free_address 1 (drop 1 (bus_devices b)).

Fixpoint free_bus (i : Z) (l : list USBBus) : option Z :=
  match l with
  | [] => None
  | b :: l' => if hc_driver b =? 0 then Some i else free_bus (i + 1) l'
  end.

Definition usb_alloc_bus : hw state Z := fun s =>
  match free_bus 0 (usb_bus (dhw s)) with
  | Some i => Ret (i, s)
  | None => Panic "too many usb bus"
  end.

(** A structure for the device, in the table of the bus at the first free address. *)
Definition add_device (bus port : Z) : hw state (Z * Z) :=
  b <~ get_bus bus;
  let addr := usb_alloc_address b in
  usbdev <~ d_kalloc;
  l <~ mlift (of_option (zset (bus_devices b) addr usbdev));
  put_bus bus (set_bus_devices b l) ;>
  put_dev usbdev (set_bus_port no_usbdev bus port) ;>
  mret (usbdev, addr).

(** Its descriptors, its address and its configuration; failures are printed and ignored. *)
Definition bring_up (bus usbdev addr : Z) : hw state unit :=
  st1 <~ usb_get_device_descriptor usbdev;
  d <~ get_dev usbdev;
  put_dev usbdev (set_dv_addr d addr) ;>
  st2 <~ usb_set_address bus 0 addr;
  r <~ usb_get_configuration_descriptor usbdev 0 stack_byte;
  st4 <~ usb_set_configuration usbdev (snd r);
  mret tt.

Definition usb_register_device (bus port : Z) : hw state unit := r <~ add_device bus port; bring_up bus (fst r) (snd r).

Definition usb_register_host_controller (private num_ports drv : Z) : hw state unit :=
  bus <~ usb_alloc_bus;
  b <~ get_bus bus;
  put_bus bus (UsbBus drv private num_ports (bus_devices b)) ;>
  each (fun port =>
    reset_port (hcdriver drv) private port ;>
    st <~ get_port_status (hcdriver drv) private port;
    match st with
    | USB_PORT_STATUS_NOT_CONNECT => mret tt
    | _ => usb_register_device bus port
    end) (seqZ 0 num_ports).

(** [init] of a driver, called with the page of a device and the number of an interface. *)
Variable call_init : Z -> Z -> Z -> hw state unit.

Definition interface_matches (driver : USBDriver) (i : USBInterface) : bool :=
  (if_driver i =? 0) && (if_class i =? Z.land (Z.shiftr (ud_class_type driver) 16) 0xff) &&
  (if_subclass i =? Z.land (Z.shiftr (ud_class_type driver) 8) 0xff) && (if_protocol i =? Z.land (ud_class_type driver) 0xff).

Definition set_if_driver (i : USBInterface) (drv : Z) : USBInterface := UsbIf drv (if_usbdev i) (if_private i) (if_class i) (if_subclass i) (if_protocol i) (if_num_endpoints i).

(** Interfaces [j] and on of a device; their number is a byte. *)
Fixpoint bind_interfaces (n : nat) (driver : USBDriver) (dev j : Z) : hw state unit :=
  d <~ get_dev dev;
  if dv_num_interface d <=? j then mret tt else
  i <~ mlift (of_option (zget (interfaces d) j));
  (if interface_matches driver i then
     l <~ mlift (of_option (zset (interfaces d) j (set_if_driver i (ud_pointer driver))));
     put_dev dev (set_interfaces d l) ;>
     call_init (ud_pointer driver) dev j
   else mret tt) ;>
  match n with
  | O => fun _ => NoFuel
  | S n' => bind_interfaces n' driver dev (j + 1)
  end.

Definition usb_register_driver (driver : USBDriver) : hw state unit :=
  each (fun bus =>
    b <~ get_bus bus;
    if hc_driver b =? 0 then mret tt else
    each (fun i =>
      b' <~ get_bus bus;
      dev <~ mlift (of_option (zget (bus_devices b') i));
      if dev =? 0 then mret tt else bind_interfaces 255 driver dev 0) (seqZ 0 (Z.of_nat USB_DEVICE_MAX_NUM)))
    (seqZ 0 (Z.of_nat USB_BUS_NUM_MAX)).
End core.

(** ** hub.c *)

Definition USB_HUB_REQUEST_GET_STATUS : Z := 0.
Definition USB_HUB_REQUEST_SET_FEATURE : Z := 3.
Definition USB_HUB_FEATURE_PORT_RESET : Z := 4.

Section hub.
Context {A L H : Type} `{PageAllocator A} `{Machine H}.
Local Notation state := (driver A L (usbsys H)).
Variable hcdriver : Z -> USBHostControllerDriver state.
Variable fuel : nat.
Variable stack_byte : Z.

Definition usb_hub_reset_port (dev port : Z) : hw state unit :=
  st <~ request (Z.lor (Z.lor USB_REQUEST_DIR_HOST_TO_DEVICE USB_REQUEST_TYPE_CLASS) USB_REQUEST_RECP_OTHER) USB_HUB_REQUEST_SET_FEATURE
    USB_HUB_FEATURE_PORT_RESET (port + 1) 0 (fun setup => d <~ get_dev dev; usb_control_transfer_nodata hcdriver (dv_bus d) (dv_addr d) 0 setup);
  mret tt.

Definition hub_port (dev port : Z) : hw state unit :=
  setup <~ d_kalloc;
  port_status_word <~ d_kalloc;
  put_setup setup (Z.lor (Z.lor USB_REQUEST_DIR_DEVICE_TO_HOST USB_REQUEST_TYPE_CLASS) USB_REQUEST_RECP_OTHER) USB_HUB_REQUEST_GET_STATUS 0 (port + 1) 4 ;>
  d <~ get_dev dev;
  st <~ usb_control_transfer_in hcdriver (dv_bus d) (dv_addr d) 0 setup port_status_word 4;
  d_kfree setup ;>
  w <~ half_at port_status_word;
  (if Z.testbit w 0 then usb_hub_reset_port dev port ;> usb_register_device hcdriver fuel stack_byte (dv_bus d) port else mret tt) ;>
  d_kfree port_status_word.

(** The page of the hub structure has the number of ports, which the loop reads from it; the page of the descriptor is never freed. *)
Definition usb_hub_dev_init (dev j : Z) : hw state unit :=
  hub_desc <~ d_kalloc;
  st <~ usb_get_class_descriptor hcdriver dev 0x29 0 hub_desc 7;
  if negb (st =? 0) then mret tt else
  hub <~ d_kalloc;
  d <~ get_dev dev;
  i <~ mlift (of_option (zget (interfaces d) j));
  l <~ mlift (of_option (zset (interfaces d) j (UsbIf (if_driver i) (if_usbdev i) hub (if_class i) (if_subclass i) (if_protocol i) (if_num_endpoints i))));
  put_dev dev (set_interfaces d l) ;>
  num_ports <~ byte_at (hub_desc + 2);
  each (hub_port dev) (seqZ 0 num_ports).

Definition usb_hub_driver (pointer : Z) : USBDriver := UsbDriver pointer 0x090000.

Definition usb_hub_init (pointer : Z) : hw state unit :=
  usb_register_driver (fun _ dev j => usb_hub_dev_init dev j) (usb_hub_driver pointer).
End hub.

(** ** Devices on the bus *)

Inductive change := ToAddress (a : Z) | ToConfig (c : Z).

(** What a device is about to do: send data with a toggle, or end a request that changes it. *)
Inductive stage := Idle | DataIn (rest : list Z) (toggle : Z) | StatusIn (c : change).

(** Its address, its configuration, and the descriptors it sends, for a control endpoint with packets of eight bytes:
    the size the driver asks for whatever the device says ([packet_in]).  Devices with larger packets, whose answers do not
    fit those of the driver, are not among them. *)
Record ufn := Ufn { u_addr : Z; u_config : Z; u_desc : list Z; u_cfg : list Z; u_stage : stage }.

Definition set_stage (g : stage) (u : ufn) : ufn := Ufn (u_addr u) (u_config u) (u_desc u) (u_cfg u) g.
Definition apply_change (c : change) (u : ufn) : ufn :=
  match c with
  | ToAddress a => Ufn a (u_config u) (u_desc u) (u_cfg u) Idle
  | ToConfig c => Ufn (u_addr u) c (u_desc u) (u_cfg u) Idle
  end.

(** The standard requests. *)
Definition on_setup (l : list Z) (u : ufn) : stage :=
  match l with
  | [bm; rq; v0; v1; i0; i1; n0; n1] =>
    let n := Z.to_nat (n0 + 256 * n1) in
    if (bm =? 0x80) && (rq =? 6) then
      if v1 =? 1 then DataIn (take n (u_desc u)) 1
      else if v1 =? 2 then DataIn (take n (u_cfg u)) 1
      else Idle
    else if (bm =? 0) && (rq =? 5) then StatusIn (ToAddress v0)
    else if (bm =? 0) && (rq =? 9) then StatusIn (ToConfig v0)
    else Idle
  | _ => Idle
  end.

(** A packet: what the device answers, and what becomes of it.  Data goes out with
    the toggle of the device, and a packet with another one is not taken; the change a request
    asks for happens with the empty packet at its end, which has toggle [1]. *)
Definition ufn_packet (type : USBPacketType) (toggle : Z) (data : list Z) (u : ufn) : list Z * ufn :=
  match type with
  | USB_PACKET_SETUP => ([], set_stage (on_setup data u) u)
  | USB_PACKET_OUT => ([], set_stage Idle u)
  | USB_PACKET_IN =>
    match u_stage u with
    | DataIn rest t => if t =? toggle then (take 8 rest, set_stage (DataIn (drop 8 rest) (1 - t)) u) else ([], u)
    | StatusIn c => if toggle =? 1 then ([], apply_change c u) else ([], u)
    | Idle => ([], u)
    end
  end.

(** The device with the address of the packet takes it. *)
Fixpoint deliver (addr : Z) (type : USBPacketType) (toggle : Z) (data : list Z) (bus : list ufn) : list Z * list ufn :=
  match bus with
  | [] => ([], [])
  | u :: bus' =>
    if u_addr u =? addr then let '(ans, u') := ufn_packet type toggle data u in (ans, u' :: bus')
    else let '(ans, r) := deliver addr type toggle data bus' in (ans, u :: r)
  end.

(** Bytes a packet may have: the field of the length has eleven bits. *)
Definition pk_len (p : USBPacket) : Z := pk_maxlen p mod 0x800.

(** A packet to the control endpoint of [addr] on the bus, with the buffer in memory; what is on
    the wire are bytes. *)
Definition send {H} `{Machine H} (addr : Z) (x : list ufn * H) (p : USBPacket) : list ufn * H :=
  let '(bus, h) := x in
  match pk_type p with
  | USB_PACKET_IN =>
    let '(ans, bus') := deliver addr (pk_type p) (pk_toggle p) [] bus in
    (bus', ram_put (pk_buffer p) (u8 <$> take (Z.to_nat (pk_len p)) ans) h)
  | _ => (snd (deliver addr (pk_type p) (pk_toggle p) (ram_get (pk_buffer p) (pk_len p) h) bus), h)
  end.

(** ** Memory *)

Definition ram_eq {H} `{Machine H} (h h' : H) : Prop := forall a n, 0 <= n -> ram_get a n h' = ram_get a n h.

#[export] Instance ram_eq_equivalence {H} `{Machine H} : Equivalence (ram_eq (H := H)).
Proof. split; [by intros h a n|intros h h' E a n Hn; by rewrite E|intros h1 h2 h3 E1 E2 a n Hn; by rewrite E2, E1]. Qed.

Section ram.
Context {H : Type} `{RamLaws H}.

Lemma ram_cover (h h' : H) lo len a n : ram_get lo len h' = ram_get lo len h -> 0 <= n -> lo <= a -> a + n <= lo + len -> ram_get a n h' = ram_get a n h.
Proof. intros E Hn Ha Hl. replace a with (lo + (a - lo)) by lia. rewrite !(ram_slice lo len) by lia. by rewrite E. Qed.

Lemma ram_put_eq (h h' : H) b l : bytes_ok l -> ram_eq h h' -> ram_eq (ram_put b l h) (ram_put b l h').
Proof.
  intros Hl E a n Hn. pose proof (zlen_nonneg l). apply (ram_cover _ _ (Z.min a b) (Z.max (a + n) (b + zlen l) - Z.min a b)); try lia.
  rewrite !ram_get_put by (done || lia). by rewrite E by lia.
Qed.

Lemma ram_put_nil (h : H) b : ram_eq h (ram_put b [] h).
Proof.
  intros a n Hn. apply (ram_cover _ _ (Z.min a b) (Z.max (a + n) b - Z.min a b)); try lia.
  rewrite ram_get_put by (first [by apply Forall_nil_2 | unfold zlen; cbn; lia]). apply splice_nil.
Qed.

Lemma ram_put_app (h : H) b l1 l2 : bytes_ok l1 -> bytes_ok l2 -> ram_eq (ram_put b (l1 ++ l2) h) (ram_put (b + zlen l1) l2 (ram_put b l1 h)).
Proof.
  intros Hl1 Hl2 a n Hn. pose proof (zlen_nonneg l1). pose proof (zlen_nonneg l2). pose proof (zlen_app l1 l2) as Ea.
  apply (ram_cover _ _ (Z.min a b) (Z.max (a + n) (b + zlen (l1 ++ l2)) - Z.min a b)); try lia.
  rewrite !ram_get_put by (first [done | by apply Forall_app | lia]).
  replace (b + zlen l1 - Z.min a b) with (b - Z.min a b + zlen l1) by lia. apply splice_splice_adj; rewrite ?ram_len; lia.
Qed.
End ram.

(** ** Control transfers *)

Lemma deliver_among addr pre post type toggle data u ans u' : Forall (fun v => u_addr v <> addr) pre -> u_addr u = addr -> ufn_packet type toggle data u = (ans, u') ->
  deliver addr type toggle data (pre ++ u :: post) = (ans, pre ++ u' :: post).
Proof.
  intros Hp Hu E. induction Hp as [|v l Hv _ IH]; cbn [app deliver].
  - by rewrite Hu, Z.eqb_refl, E.
  - rewrite (proj2 (Z.eqb_neq _ _) Hv). by rewrite IH.
Qed.

Lemma bytes_u8 l : bytes_ok l -> u8 <$> l = l.
Proof. induction 1 as [|x l Hx _ IH]; [done|]. rewrite fmap_cons, IH. f_equal. by apply Z.mod_small. Qed.

Section control.
Context {H : Type} `{RamLaws H}.
Variables (addr : Z) (pre post : list ufn).
Hypothesis others : Forall (fun v => u_addr v <> addr) pre.

Definition tog (i : Z) : Z := if Z.even i then 1 else 0.

Lemma tog_next i : 1 - tog i = tog (i + 1).
Proof. unfold tog. rewrite Z.even_add. by destruct (Z.even i). Qed.

(** Packets that ask for data put it into the buffer, eight bytes each. *)
Lemma send_ins payload n : forall i u D (h : H), u_addr u = addr -> u_stage u = DataIn D (tog i) -> bytes_ok D ->
  exists h', foldl (send addr) (pre ++ u :: post, h) (packet_in payload <$> seqZ i (Z.of_nat n)) =
    (pre ++ set_stage (DataIn (drop (8 * n) D) (tog (i + Z.of_nat n))) u :: post, h') /\
    ram_eq (ram_put (payload + 8 * i) (take (8 * n) D) h) h'.
Proof.
  induction n as [|n IH]; intros i u D h Hu Hs HD.
  - cbn. exists h. rewrite Z.add_0_r. split; [destruct u; cbn in *; by rewrite Hs|]. symmetry. apply ram_put_nil.
  - rewrite seqZ_cons by lia. cbn [fmap list_fmap foldl]. unfold send at 2. cbn [packet_in pk_type pk_toggle pk_buffer pk_len pk_maxlen].
    rewrite (deliver_among addr pre post _ _ _ _ (take 8 D) (set_stage (DataIn (drop 8 D) (tog (i + 1))) u)); [|done|done|cbn [ufn_packet]; rewrite Hs; unfold tog at 1 2; rewrite Z.eqb_refl, <- tog_next; done].
    change (pk_len (packet_in payload i)) with 8. rewrite take_take. change (Nat.min (Z.to_nat 8) 8) with 8%nat. rewrite bytes_u8 by (by apply Forall_take).
    replace (Z.pred (Z.of_nat (S n))) with (Z.of_nat n) by lia. replace (Z.succ i) with (i + 1) by lia.
    destruct (IH (i + 1) (set_stage (DataIn (drop 8 D) (tog (i + 1))) u) (drop 8 D) (ram_put (payload + 8 * i) (take 8 D) h)) as (h' & E & R); [done|done|by apply Forall_drop|].
    exists h'. split.
    { rewrite E. cbn [set_stage u_addr u_config u_desc u_cfg]. rewrite drop_drop. replace (8 + 8 * n)%nat with (8 * S n)%nat by lia. by replace (i + 1 + Z.of_nat n) with (i + Z.of_nat (S n)) by lia. }
    rewrite <- R. destruct (decide (8 <= length D)%nat) as [Hl|Hl].
    + replace (take (8 * S n) D) with (take 8 D ++ take (8 * n) (drop 8 D)).
      2:{ replace (8 * S n)%nat with (8 + 8 * n)%nat by lia. by rewrite <- take_take_drop. }
      replace (payload + 8 * (i + 1)) with (payload + 8 * i + zlen (take 8 D)) by (unfold zlen; rewrite length_take; lia).
      apply ram_put_app; [by apply Forall_take|by apply Forall_take, Forall_drop].
    + rewrite (drop_ge D) by lia. rewrite take_nil, (take_ge D 8), (take_ge D) by lia. apply ram_put_nil.
Qed.

(** The packets of a transfer to the host, as far as they are handed over. *)
Lemma control_in setup payload size u D (h : H) : 0 <= size -> u_addr u = addr -> on_setup (ram_get setup 8 h) u = DataIn D 1 -> bytes_ok D -> zlen D <= size ->
  let '(packets, pid) := packets_in setup payload size in
  exists h', foldl (send addr) (pre ++ u :: post, h) (take (Z.to_nat pid) packets) = (pre ++ set_stage (DataIn [] (tog ((size + 7) / 8))) u :: post, h') /\ ram_eq (ram_put payload D h) h'.
Proof.
  intros Hsz Hu Hs HD Hl. unfold packets_in. set (n := (size + 7) / 8).
  assert (Hn : 0 <= n /\ size <= 8 * n) by (unfold n; Z.to_euclidean_division_equations; lia).
  assert (Et : take (Z.to_nat (1 + n)) (Packet USB_PACKET_SETUP 8 setup 0 :: (packet_in payload <$> seqZ 0 n) ++ [Packet USB_PACKET_OUT 0x800 0x80000000 1]) =
    Packet USB_PACKET_SETUP 8 setup 0 :: (packet_in payload <$> seqZ 0 n)).
  { replace (Z.to_nat (1 + n)) with (S (Z.to_nat n)) by lia. cbn [take]. f_equal. rewrite take_app_le by (rewrite length_fmap, length_seqZ; lia).
    apply take_ge. rewrite length_fmap, length_seqZ. lia. }
  rewrite Et. cbn [foldl]. unfold send at 2. cbn [pk_type pk_toggle pk_buffer]. change (pk_len _) with 8.
  rewrite (deliver_among addr pre post _ _ _ _ [] (set_stage (DataIn D 1) u)); [|done|done|cbn; by rewrite Hs].
  destruct (send_ins payload (Z.to_nat n) 0 (set_stage (DataIn D 1) u) D h) as (h' & E & R); [done|done|done|]. rewrite Z2Nat.id in E by lia. cbn [snd].
  rewrite E. cbn [set_stage u_addr u_config u_desc u_cfg]. unfold zlen in Hl. rewrite drop_ge by lia. rewrite take_ge in R by lia. rewrite Z.mul_0_r, Z.add_0_r in R. rewrite Z.add_0_l. by eexists.
Qed.

(** A transfer without data makes the change it asks for. *)
Lemma control_nodata setup u c (h : H) : u_addr u = addr -> on_setup (ram_get setup 8 h) u = StatusIn c ->
  exists h', foldl (send addr) (pre ++ u :: post, h) (packets_nodata setup) = (pre ++ apply_change c u :: post, h') /\ ram_eq h h'.
Proof.
  intros Hu Hs. unfold packets_nodata. cbn [foldl]. unfold send at 2. cbn [pk_type pk_toggle pk_buffer]. change (pk_len _) with 8 at 1.
  rewrite (deliver_among addr pre post _ _ _ _ [] (set_stage (StatusIn c) u)); [|done|done|cbn; by rewrite Hs]. cbn [snd].
  unfold send. cbn [pk_type pk_toggle pk_buffer]. rewrite (deliver_among addr pre post _ _ _ _ [] (apply_change c u)); [|done|done|by destruct c, u].
  eexists. split; [reflexivity|]. rewrite take_nil. cbn [fmap list_fmap]. apply ram_put_nil.
Qed.
End control.

(** ** The interface of host controllers *)

Definition in_pages (S : gset Z) (a n : Z) : Prop := exists p, p ∈ S /\ p <= a /\ a + n <= p + 4096.

(** A packet of eight bytes with its buffer in one of the pages, or an empty one. *)
Definition packet_ok (S : gset Z) (p : USBPacket) : Prop :=
  (pk_toggle p = 0 \/ pk_toggle p = 1) /\ (pk_maxlen p = 8 /\ in_pages S (pk_buffer p) 8 \/ pk_maxlen p = 0x800 /\ pk_buffer p = 0x80000000).

(** Memory in the pages is the same. *)
Definition pages_eq {H} `{Machine H} (S : gset Z) (h h' : H) : Prop := forall a n, 0 <= n -> in_pages S a n -> ram_get a n h' = ram_get a n h.

#[export] Instance pages_eq_equivalence {H} `{Machine H} S : Equivalence (pages_eq (H := H) S).
Proof. split; [by intros h a n|intros h h' E a n Hn Hp; by rewrite E|intros h1 h2 h3 E1 E2 a n Hn Hp; by rewrite E2, E1]. Qed.

Lemma ram_pages_eq {H} `{Machine H} S (h h' : H) : ram_eq h h' -> pages_eq S h h'.
Proof. intros E a n Hn _. by apply E. Qed.

Lemma pages_eq_sub {H} `{Machine H} S S' (h h' : H) : S' ⊆ S -> pages_eq S h h' -> pages_eq S' h h'.
Proof. intros HS E a n Hn (p & Hp & Ha). apply E; [done|]. exists p. split; [by apply HS|done]. Qed.

Section pages.
Context {H : Type} `{RamLaws H}.

(** A store to a page that is not among them. *)
Lemma put_elsewhere S (h : H) p l : set_Forall frame_ok S -> frame_ok p -> p ∉ S -> bytes_ok l -> zlen l <= 4096 -> pages_eq S h (ram_put p l h).
Proof.
  intros HS Hp Hn Hl Hz a n Hn0 (q & Hq & Ha1 & Ha2). apply ram_get_other; [done|done|].
  destruct (pages_apart p q) as [?|?]; [done|by apply HS|by intros ->|lia|lia].
Qed.

(** A store to one of the pages. *)
Lemma put_pages_eq S (h h' : H) p l : set_Forall frame_ok S -> p ∈ S -> bytes_ok l -> zlen l <= 4096 -> pages_eq S h h' -> pages_eq S (ram_put p l h) (ram_put p l h').
Proof.
  intros HS Hp Hl Hz E a n Hn (q & Hq & Ha1 & Ha2). destruct (decide (p = q)) as [->|Hne].
  - apply (ram_cover _ _ q 4096); try lia. rewrite !ram_get_put by (done || lia). rewrite (E q 4096); [done|lia|]. exists q. split; [done|lia].
  - destruct (pages_apart p q) as [?|?]; [by apply HS|by apply HS|done| |]; (rewrite !ram_get_other by (done || lia)); apply E; [done|by exists q|done|by exists q].
Qed.

(** A store inside one of the pages. *)
Lemma put_in_pages_eq S (h h' : H) b l : set_Forall frame_ok S -> in_pages S b (zlen l) -> bytes_ok l -> pages_eq S h h' -> pages_eq S (ram_put b l h) (ram_put b l h').
Proof.
  intros HS (p & Hp & Hb1 & Hb2) Hl E a n Hn (q & Hq & Ha1 & Ha2). pose proof (zlen_nonneg l). destruct (decide (p = q)) as [->|Hne].
  - apply (ram_cover _ _ q 4096); try lia. rewrite !ram_get_put by (done || lia). rewrite (E q 4096); [done|lia|]. exists q. split; [done|lia].
  - destruct (pages_apart p q) as [?|?]; [by apply HS|by apply HS|done| |]; (rewrite !ram_get_other by (done || lia)); apply E; [done|by exists q|done|by exists q].
Qed.

Lemma u8_bytes (l : list Z) : bytes_ok (u8 <$> l).
Proof. apply Forall_fmap, Forall_forall. intros x _. unfold is_u8, u8. cbn. apply Z.mod_pos_bound. lia. Qed.

(** Packets with their buffers in the pages do not depend on other memory. *)
Lemma send_pages_eq S addr packets : set_Forall frame_ok S -> Forall (packet_ok S) packets -> forall bus (h h' : H), pages_eq S h h' ->
  fst (foldl (send addr) (bus, h') packets) = fst (foldl (send addr) (bus, h) packets) /\
  pages_eq S (snd (foldl (send addr) (bus, h) packets)) (snd (foldl (send addr) (bus, h') packets)).
Proof.
  intros HS Hp. induction Hp as [|p packets Hp _ IH]; intros bus h h' E; [done|]. cbn [foldl].
  assert (Hget : pk_type p <> USB_PACKET_IN -> ram_get (pk_buffer p) (pk_len p) h' = ram_get (pk_buffer p) (pk_len p) h).
  { intros _. unfold pk_len. destruct Hp as [_ [[-> Hin]|[-> _]]]; [by apply E|]. change (2048 mod 0x800) with 0.
    pose proof (ram_len (pk_buffer p) 0 h ltac:(lia)) as L1. pose proof (ram_len (pk_buffer p) 0 h' ltac:(lia)) as L2. unfold zlen in L1, L2. by destruct (ram_get _ 0 h), (ram_get _ 0 h'). }
  unfold send at 2 4 6 8. destruct (pk_type p) eqn:Et; [|rewrite Hget by done; by apply IH..].
  destruct (deliver addr USB_PACKET_IN (pk_toggle p) [] bus) as [ans bus'] eqn:Ed. apply IH. unfold pk_len.
  destruct Hp as [_ [[-> (q & Hq & Hb)]|[-> _]]].
  - apply put_in_pages_eq; [done| |apply u8_bytes|done]. exists q. split; [done|]. unfold zlen. rewrite length_fmap, length_take. change (Z.to_nat (8 mod 0x800)) with 8%nat. lia.
  - change (Z.to_nat (2048 mod 0x800)) with 0%nat. rewrite take_0. cbn [fmap list_fmap]. etransitivity; [symmetry; apply ram_pages_eq, ram_put_nil|]. etransitivity; [exact E|]. apply ram_pages_eq, ram_put_nil.
Qed.
End pages.

(** What a controller driver promises, for the pages [hc_own] it keeps to itself: the packets of a
    transfer go over the bus in order. *)
Class HostController {A L H : Type} `{AllocatorLaws A} `{RamLaws H} (drv : USBHostControllerDriver (driver A L (usbsys H))) (priv : Z) := {
  hc_bus : H -> list ufn;
  hc_ok : H -> Prop;
  hc_own : gset Z;
  hc_bus_put a l h : hc_bus (ram_put a l h) = hc_bus h;
  hc_ok_put a l h : hc_ok h -> hc_ok (ram_put a l h);
  hc_transfer s held n addr packets : hc_ok (u_hw (dhw s)) -> pa_holds (dpool s) held n -> set_Forall frame_ok held -> 1 <= n -> hc_own ⊆ held ->
    0 <= addr < 128 -> zlen packets <= 256 -> packets <> [] -> Forall (packet_ok (held ∖ hc_own)) packets ->
    exists a' h', transfer_packet drv priv addr 0 packets s = Ret (USB_STATUS_OK, Driver a' (dlocal s) (UsbSys (usb_bus (dhw s)) (usb_devs (dhw s)) h')) /\
      pa_holds a' held n /\ hc_ok h' /\
      let '(bus, h2) := foldl (send addr) (hc_bus (u_hw (dhw s)), u_hw (dhw s)) packets in hc_bus h' = bus /\ pages_eq (held ∖ hc_own) h2 h'
}.

Section requests.
Context {A L H : Type} `{AllocatorLaws A} `{RamLaws H}.
Local Notation state := (driver A L (usbsys H)).
Variable hcdriver : Z -> USBHostControllerDriver state.
Variables (drv priv : Z).
Context `{!HostController (hcdriver drv) priv}.

(** The state between requests: pages handed out and free, buses, devices and
    what is on the bus of the controller. *)
Record ready (held : gset Z) (n : Z) (l : L) (t : list USBBus) (ds : gmap Z USBDevice) (bus : list ufn) (s : state) : Prop := {
  rd_pool : pa_holds (dpool s) held n;
  rd_frames : set_Forall frame_ok held;
  rd_local : dlocal s = l;
  rd_buses : usb_bus (dhw s) = t;
  rd_devs : usb_devs (dhw s) = ds;
  rd_hc : hc_ok (u_hw (dhw s));
  rd_bus : hc_bus (u_hw (dhw s)) = bus
}.

Lemma alloc_ready held n l t ds bus s : ready held n l t ds bus s -> 0 < n ->
  exists p s', d_kalloc s = Ret (p, s') /\ ready ({[p]} ∪ held) (n - 1) l t ds bus s' /\ frame_ok p /\ p ∉ held /\ dhw s' = dhw s.
Proof.
  intros [] Hn. destruct (pa_alloc_law _ _ _ rd_pool0 Hn) as (p & a' & E & Hp & Hf & Ha). exists p, (Driver a' (dlocal s) (dhw s)). unfold d_kalloc. rewrite E. split_and!; try done. constructor; try done. cbn. by apply set_Forall_union; [apply set_Forall_singleton|].
Qed.

Lemma free_ready p held n l t ds bus s : ready ({[p]} ∪ held) n l t ds bus s -> p ∉ held ->
  exists s', d_kfree p s = Ret (tt, s') /\ ready held (n + 1) l t ds bus s' /\ dhw s' = dhw s.
Proof.
  intros [] Hp. destruct (pa_free_law (dpool s) _ _ p rd_pool0) as (a' & E & Ha); [by apply elem_of_union_l, elem_of_singleton|].
  exists (Driver a' (dlocal s) (dhw s)). unfold d_kfree. rewrite E. split; [done|]. split; [|done]. assert (Hfr : set_Forall frame_ok held) by (intros y Hy; apply rd_frames0; by apply elem_of_union_r). constructor; try done. cbn.
  replace (({[p]} ∪ held) ∖ {[p]}) with held in Ha; [done|]. apply set_eq. intros x. rewrite elem_of_difference, elem_of_union, elem_of_singleton.
  split; [intros Hx; split; [by right|by intros ->]|intros [[->|] ?]; done].
Qed.

(** Stores to memory. *)
Lemma store_ready a x held n l t ds bus s : ready held n l t ds bus s ->
  exists s', modify (ram_put a x) s = Ret (tt, s') /\ ready held n l t ds bus s' /\ u_hw (dhw s') = ram_put a x (u_hw (dhw s)).
Proof.
  intros []. eexists. split; [reflexivity|]. split; [|done]. destruct s as [a0 l0 [t0 d0 h0]]. cbn in *. constructor; try done; cbn; [by apply hc_ok_put|by rewrite hc_bus_put].
Qed.

Variable b : Z.

(** Packets on the bus: the page of the array comes and goes. *)
Lemma submit_ok held n l t ds bus s x addr packets num : ready held n l t ds bus s -> 2 <= n -> hc_own ⊆ held -> zget t b = Some x -> hc_driver x = drv -> hc_private x = priv ->
  0 <= addr < 128 -> zlen packets <= 256 -> 0 < num -> packets <> [] -> Forall (packet_ok (held ∖ hc_own)) packets ->
  exists s', submit hcdriver b addr 0 packets num s = Ret (USB_STATUS_OK, s') /\
    let '(bus', h2) := foldl (send addr) (bus, u_hw (dhw s)) (take (Z.to_nat num) packets) in
    ready held n l t ds bus' s' /\ pages_eq (held ∖ hc_own) h2 (u_hw (dhw s')).
Proof.
  intros Hr Hn Ho Hb Hd Hp Ha Hl Hm Hne Hf. unfold submit.
  destruct (alloc_ready _ _ _ _ _ _ _ Hr ltac:(lia)) as (p & s1 & E1 & Hr1 & Fp & Np & Eh). rewrite (mbind_run _ _ _ _ _ E1). cbv beta.
  rewrite (mbind_run (mlift _) _ _ tt s1) by (rewrite (proj2 (Z.leb_le _ _) Hl); done).
  rewrite (mbind_run (get_bus b) _ s1 x s1) by (unfold get_bus; rewrite (rd_buses _ _ _ _ _ _ _ Hr1), Hb; done). rewrite Hd, Hp.
  assert (Hsub : held ∖ hc_own ⊆ ({[p]} ∪ held) ∖ hc_own) by (intros y; rewrite !elem_of_difference, elem_of_union; tauto).
  destruct (hc_transfer s1 ({[p]} ∪ held) (n - 1) addr (take (Z.to_nat num) packets)) as (a' & h' & E2 & Hpool & Hok & Hs); try done.
  - apply Hr1.
  - apply Hr1.
  - apply Hr1.
  - lia.
  - intros y Hy. apply elem_of_union_r. by apply Ho.
  - unfold zlen in *. rewrite length_take. lia.
  - destruct packets; [done|]. destruct (Z.to_nat num) eqn:En; [lia|done].
  - apply Forall_take. eapply Forall_impl; [exact Hf|]. intros y [Ht [[Hm8 (q & Hq & ?)]|?]]; (split; [done|]); [left|by right]. split; [done|]. exists q. split; [by apply Hsub|done].
  - rewrite (mbind_run _ _ _ _ _ E2). cbv beta. rewrite Eh in Hs. rewrite (rd_bus _ _ _ _ _ _ _ Hr) in Hs.
    destruct (foldl (send addr) (bus, u_hw (dhw s)) (take (Z.to_nat num) packets)) as [bus' h2]. destruct Hs as [Hb' Hm'].
    destruct Hr1. rewrite rd_local0, rd_buses0, rd_devs0 in *.
    destruct (free_ready p held (n - 1) l t ds bus' (Driver a' l (UsbSys t ds h'))) as (s2 & E3 & Hr2 & Eh2); [by constructor|done|].
    rewrite (mbind_run _ _ _ _ _ E3). exists s2. split; [done|]. replace (n - 1 + 1) with n in Hr2 by lia. split; [done|]. rewrite Eh2. cbn.
    intros c k Hk (q & Hq & Hc). apply Hm'; [done|]. exists q. split; [by apply Hsub|done].
Qed.

Variables (l : L) (t : list USBBus) (x : USBBus).
Hypothesis bus_at : zget t b = Some x.
Hypothesis bus_driver : hc_driver x = drv.
Hypothesis bus_private : hc_private x = priv.

Lemma setup_data_ok bm rq v i k : bytes_ok (setup_data bm rq v i k) /\ zlen (setup_data bm rq v i k) = 8.
Proof.
  split; [|done]. unfold setup_data. repeat (apply Forall_app; split); try apply le_bytes_ok. repeat apply Forall_cons_2; try by apply Forall_nil_2.
  all: unfold is_u8, u8; apply Z.mod_pos_bound; lia.
Qed.

Section device.
Variables (pre post : list ufn) (u : ufn).
Hypothesis addr_ok : 0 <= u_addr u < 128.
Hypothesis apart : Forall (fun v => u_addr v <> u_addr u) pre.

(** Setting up a request in a page of its own, running it and freeing the page. *)
Lemma request_ok held n ds s bm rq v i k (run : Z -> hw state Z) bus' D q : ready held n l t ds (pre ++ u :: post) s -> 3 <= n -> hc_own ⊆ held ->
  q ∈ held ∖ hc_own -> bytes_ok D -> zlen D <= 4096 ->
  (forall p s1, ready ({[p]} ∪ held) (n - 1) l t ds (pre ++ u :: post) s1 -> frame_ok p -> p ∉ held -> ram_get p 8 (u_hw (dhw s1)) = setup_data bm rq v i k ->
    exists s2, run p s1 = Ret (USB_STATUS_OK, s2) /\ ready ({[p]} ∪ held) (n - 1) l t ds bus' s2 /\ pages_eq (({[p]} ∪ held) ∖ hc_own) (ram_put q D (u_hw (dhw s1))) (u_hw (dhw s2))) ->
  exists s', request bm rq v i k run s = Ret (USB_STATUS_OK, s') /\
    ready held n l t ds bus' s' /\ pages_eq (held ∖ hc_own) (ram_put q D (u_hw (dhw s))) (u_hw (dhw s')).
Proof.
  intros Hr Hn Ho Hq HD HDl Hrun. unfold request. destruct (setup_data_ok bm rq v i k) as [Hsb Hsl].
  destruct (alloc_ready _ _ _ _ _ _ _ Hr ltac:(lia)) as (p & s1 & E1 & Hr1 & Fp & Np & Eh1). rewrite (mbind_run _ _ _ _ _ E1). cbv beta.
  destruct (store_ready p (setup_data bm rq v i k) _ _ _ _ _ _ _ Hr1) as (s2 & E2 & Hr2 & Eh2). unfold put_setup. rewrite (mbind_run _ _ _ _ _ E2). cbv beta.
  destruct (Hrun p s2 Hr2 Fp Np) as (s3 & E3 & Hr3 & Hm3); [rewrite Eh2, <- Hsl; by apply ram_get_same|]. rewrite (mbind_run _ _ _ _ _ E3). cbv beta.
  destruct (free_ready p held (n - 1) l t ds bus' s3 Hr3 Np) as (s4 & E4 & Hr4 & Eh4). rewrite (mbind_run _ _ _ _ _ E4).
  exists s4. replace (n - 1 + 1) with n in Hr4 by lia. split; [done|]. split; [done|]. rewrite Eh4.
  assert (Hfr : set_Forall frame_ok (held ∖ hc_own)) by (intros y [Hy _]%elem_of_difference; by apply (rd_frames _ _ _ _ _ _ _ Hr)).
  etransitivity; [|eapply pages_eq_sub; [|exact Hm3]; intros y; rewrite !elem_of_difference, elem_of_union; tauto].
  rewrite Eh2, Eh1. apply put_pages_eq; [done|done|done|done|]. apply put_elsewhere; [done|done| |done|lia]. intros [? _]%elem_of_difference. done.
Qed.

Lemma packets_in_ok S p q size : p ∈ S -> 0 <= size <= 1024 -> q ∈ S -> Forall (packet_ok S) (packets_in p q size).1.
Proof.
  intros Hp Hsz Hq. unfold packets_in. cbn [fst]. apply Forall_cons_2; [|apply Forall_app; split].
  - split; [by left|]. left. split; [done|]. exists p. cbn. split; [done|lia].
  - apply Forall_fmap, Forall_forall. intros i Hi%elem_of_seqZ. split; [cbn; destruct (Z.even i); auto|]. left. split; [done|]. exists q. cbn. split; [done|].
    assert (size + 7 < 8 * 129) by lia. assert ((size + 7) / 8 <= 128) by (Z.to_euclidean_division_equations; lia). lia.
  - apply Forall_singleton. split; [by right|]. by right.
Qed.

(** Reading a descriptor into page [q]. *)
Lemma get_descriptor_ok held n ds s dev d rt ty idx size D q : ready held n l t ds (pre ++ u :: post) s -> 3 <= n -> hc_own ⊆ held ->
  q ∈ held ∖ hc_own -> ds !! dev = Some d -> dv_bus d = b -> dv_addr d = u_addr u -> 0 <= size <= 1024 ->
  on_setup (setup_data (Z.lor USB_REQUEST_DIR_DEVICE_TO_HOST rt) USB_REQUEST_GET_DESCRIPTOR (Z.lor (Z.shiftl ty 8) idx) 0 size) u = DataIn D 1 -> bytes_ok D -> zlen D <= size ->
  exists g s', get_descriptor hcdriver rt dev ty idx q size s = Ret (USB_STATUS_OK, s') /\
    ready held n l t ds (pre ++ set_stage g u :: post) s' /\ pages_eq (held ∖ hc_own) (ram_put q D (u_hw (dhw s))) (u_hw (dhw s')).
Proof.
  intros Hr Hn Ho Hq Hd Hb Ha Hsz Hs HD Hl. unfold get_descriptor. set (run := fun setup => mbind (get_dev dev) _). exists (DataIn [] (tog ((size + 7) / 8))).
  apply (request_ok held n ds s); try done; [lia|].
  intros p s1 Hr1 Fp Np Es. unfold run. rewrite (mbind_run (get_dev dev) _ s1 d s1) by (unfold get_dev; rewrite (rd_devs _ _ _ _ _ _ _ Hr1), Hd; done). rewrite Hb, Ha.
  unfold usb_control_transfer_in.
  pose proof (control_in (u_addr u) pre post apart p q size u D (u_hw (dhw s1)) ltac:(lia) eq_refl ltac:(by rewrite Es) HD Hl) as Hc.
  destruct (packets_in p q size) as [packets pid] eqn:Ep. destruct Hc as (h' & Ef & Em).
  pose proof (f_equal fst Ep) as Ep1. pose proof (f_equal snd Ep) as Ep2. cbn [fst snd packets_in] in Ep1, Ep2.
  assert (Hk : 0 <= (size + 7) / 8 <= 128) by (Z.to_euclidean_division_equations; lia).
  destruct (submit_ok ({[p]} ∪ held) (n - 1) l t ds (pre ++ u :: post) s1 x (u_addr u) packets pid) as (s2 & E2 & Hs2); try done; try lia.
  - intros y Hy. apply elem_of_union_r. by apply Ho.
  - rewrite <- Ep1. unfold zlen. cbn [length]. rewrite length_app, length_fmap, length_seqZ. cbn [length]. lia.
  - by rewrite <- Ep1.
  - rewrite <- Ep1. apply packets_in_ok; [|lia|].
    + apply elem_of_difference. split; [by apply elem_of_union_l, elem_of_singleton|]. intros Hy. by apply Np, Ho.
    + apply elem_of_difference in Hq as [Hq1 Hq2]. apply elem_of_difference. split; [by apply elem_of_union_r|done].
  - exists s2. rewrite Ef in Hs2. destruct Hs2 as [Hr2 Hm2]. split; [exact E2|]. split; [exact Hr2|]. etransitivity; [|exact Hm2]. by apply ram_pages_eq.
Qed.
(** A request without data. *)
Lemma nodata_ok held n ds s bm rq v i k c q (run : Z -> hw state Z) : ready held n l t ds (pre ++ u :: post) s -> 3 <= n -> hc_own ⊆ held -> q ∈ held ∖ hc_own ->
  on_setup (setup_data bm rq v i k) u = StatusIn c ->
  (forall p s1, usb_devs (dhw s1) = ds -> run p s1 = usb_control_transfer_nodata hcdriver b (u_addr u) 0 p s1) ->
  exists s', request bm rq v i k run s = Ret (USB_STATUS_OK, s') /\ ready held n l t ds (pre ++ apply_change c u :: post) s' /\
    pages_eq (held ∖ hc_own) (ram_put q [] (u_hw (dhw s))) (u_hw (dhw s')).
Proof.
  intros Hr Hn Ho Hq Hs Hrun. apply (request_ok held n ds s); try done; [by apply Forall_nil_2|].
  intros p s1 Hr1 Fp Np Es. rewrite Hrun by apply Hr1. unfold usb_control_transfer_nodata.
  destruct (control_nodata (u_addr u) pre post apart p u c (u_hw (dhw s1)) eq_refl) as (h' & Ef & Em); [by rewrite Es|].
  destruct (submit_ok ({[p]} ∪ held) (n - 1) l t ds (pre ++ u :: post) s1 x (u_addr u) (packets_nodata p) 2) as (s2 & E2 & Hs2); try done; try lia.
  - intros y Hy. apply elem_of_union_r. by apply Ho.
  - apply Forall_cons_2; [|apply Forall_singleton; split; [by right|by right]]. split; [by left|]. left. split; [done|]. exists p. cbn. split; [|lia].
    apply elem_of_difference. split; [by apply elem_of_union_l, elem_of_singleton|]. intros Hy. by apply Np, Ho.
  - change (take (Z.to_nat 2) (packets_nodata p)) with (packets_nodata p) in Hs2. exists s2. rewrite Ef in Hs2. destruct Hs2 as [Hr2 Hm2]. split; [exact E2|]. split; [exact Hr2|].
    etransitivity; [|exact Hm2]. apply ram_pages_eq. etransitivity; [|exact Em]. symmetry. apply ram_put_nil.
Qed.
End device.

(** *** What a device says about itself *)

Definition byte_of (d : list Z) (i : Z) : Z := le_val (slice i 1 d).
Definition half_of (d : list Z) (i : Z) : Z := le_val (slice i 2 d).

Definition identify (desc : list Z) (d : USBDevice) : USBDevice :=
  set_ident d (half_of desc 8) (half_of desc 10) (byte_of desc 17) (byte_of desc 4) (byte_of desc 5) (byte_of desc 6).

(** Data in a page is read back. *)
Lemma read_back S q D (h h' : H) i k : set_Forall frame_ok S -> q ∈ S -> bytes_ok D -> pages_eq S (ram_put q D h) h' -> 0 <= i -> 0 <= k -> i + k <= zlen D -> zlen D <= 4096 ->
  ram_get (q + i) k h' = slice i k D.
Proof.
  intros HS Hq HD E Hi Hk Hl Hz. rewrite E by (done || (exists q; split; [done|lia])). rewrite (ram_slice q (zlen D)) by lia. by rewrite ram_get_same.
Qed.

Lemma put_dev_ok p d held n ds bus s : ready held n l t ds bus s -> exists s', put_dev p d s = Ret (tt, s') /\ ready held n l t (<[p := d]> ds) bus s' /\ u_hw (dhw s') = u_hw (dhw s).
Proof. intros []. eexists. split; [reflexivity|]. split; [|done]. constructor; try done. cbn. by rewrite rd_devs0. Qed.

Lemma mem_run a k {X} (f : list Z -> hw state X) (s : state) : mbind (mem a k) f s = f (ram_get a k (u_hw (dhw s))) s.
Proof. done. Qed.

Lemma some_run {X Y} (x0 : X) (f : X -> hw state Y) (s : state) : mbind (mlift (of_option (Some x0))) f s = f x0 s.
Proof. done. Qed.

Lemma mret_run {X Y} (x0 : X) (f : X -> hw state Y) (s : state) : mbind (mret x0) f s = f x0 s.
Proof. done. Qed.

Section identify.
Variables (pre post : list ufn) (u : ufn).
Hypothesis addr_ok : 0 <= u_addr u < 128.
Hypothesis apart : Forall (fun v => u_addr v <> u_addr u) pre.

Lemma usb_get_device_descriptor_ok held n ds s dev d : ready held n l t ds (pre ++ u :: post) s -> 4 <= n -> hc_own ⊆ held ->
  ds !! dev = Some d -> dv_bus d = b -> dv_addr d = u_addr u -> bytes_ok (u_desc u) -> zlen (u_desc u) = 18 ->
  exists g s', usb_get_device_descriptor hcdriver dev s = Ret (0, s') /\ ready held n l t (<[dev := identify (u_desc u) d]> ds) (pre ++ set_stage g u :: post) s'.
Proof.
  intros Hr Hn Ho Hd Hb Ha HD Hl. unfold usb_get_device_descriptor.
  destruct (alloc_ready _ _ _ _ _ _ _ Hr ltac:(lia)) as (q & s1 & E1 & Hr1 & Fq & Nq & Eh1). rewrite (mbind_run _ _ _ _ _ E1). cbv beta.
  assert (Hq : q ∈ ({[q]} ∪ held) ∖ hc_own) by (apply elem_of_difference; split; [by apply elem_of_union_l, elem_of_singleton|intros Hy; by apply Nq, Ho]).
  destruct (get_descriptor_ok pre post u addr_ok apart ({[q]} ∪ held) (n - 1) ds s1 dev d USB_REQUEST_TYPE_STANDARD USB_DESCRIPTOR_DEVICE 0 18 (u_desc u) q) as (g & s2 & E2 & Hr2 & Hm);
    try done; try lia.
  { intros y Hy. apply elem_of_union_r. by apply Ho. }
  { change (on_setup _ u) with (DataIn (take 18 (u_desc u)) 1). rewrite take_ge; [done|]. unfold zlen in Hl. lia. }
  unfold usb_get_standard_descriptor. rewrite (mbind_run _ _ _ _ _ E2). cbv beta. change (negb (USB_STATUS_OK =? 0)) with false. cbv iota.
  assert (HS : set_Forall frame_ok (({[q]} ∪ held) ∖ hc_own)) by (intros y [Hy _]%elem_of_difference; by apply (rd_frames _ _ _ _ _ _ _ Hr2)).
  unfold half_at, byte_at. repeat (rewrite mbind_assoc, mem_run; unfold mbind at 1; cbn [mret obind fst snd]).
  rewrite !(read_back _ q (u_desc u) _ _ _ _ HS Hq HD Hm) by lia.
  rewrite (mbind_run (get_dev dev) _ s2 d s2) by (unfold get_dev; rewrite (rd_devs _ _ _ _ _ _ _ Hr2), Hd; done).
  edestruct (put_dev_ok dev) as (s3 & E3 & Hr3 & Eh3); [exact Hr2|]. rewrite (mbind_run _ _ _ _ _ E3).
  destruct (free_ready q held (n - 1) _ _ _ _ _ Hr3 Nq) as (s4 & E4 & Hr4 & Eh4). rewrite (mbind_run _ _ _ _ _ E4).
  replace (n - 1 + 1) with n in Hr4 by lia. exists g, s4. split; [done|exact Hr4].
Qed.
(** *** Configurations *)

(** A descriptor starts with its length; one of an interface has its eight bytes. *)
Definition descriptor_ok (d : list Z) : Prop := bytes_ok d /\ 2 <= zlen d /\ byte_of d 0 = zlen d /\ (byte_of d 1 = USB_DESCRIPTOR_INTERFACE -> 8 <= zlen d).

Definition is_interface (d : list Z) : bool := byte_of d 1 =? USB_DESCRIPTOR_INTERFACE.
Definition interface_of (dev : Z) (d : list Z) : USBInterface := UsbIf 0 dev 0 (byte_of d 5) (byte_of d 6) (byte_of d 7) (byte_of d 4).
Definition interfaces_of (dev : Z) (descs : list (list Z)) : list USBInterface := interface_of dev <$> filter (fun d => is_interface d = true) descs.

(** The first interfaces of sixteen. *)
Definition padded (l : list USBInterface) : list USBInterface := l ++ repeat no_interface (USB_INTERFACE_MAX_NUM - length l).

Lemma slice_mid {X} (P d R : list X) i k : 0 <= i -> 0 <= k -> i + k <= zlen d -> slice (zlen P + i) k (P ++ d ++ R) = slice i k d.
Proof.
  intros Hi Hk Hl. unfold slice, zlen in *. replace (Z.to_nat (Z.of_nat (length P) + i)) with (length P + Z.to_nat i)%nat by lia.
  rewrite <- drop_drop, drop_app_length, drop_app_le by lia. apply take_app_le. rewrite length_drop. lia.
Qed.

Lemma add_interface_ok held n ds bus s dev d q P x' R l0 h : ready held n l t ds bus s -> ds !! dev = Some d -> set_Forall frame_ok (held ∖ hc_own) -> q ∈ held ∖ hc_own ->
  bytes_ok (P ++ x' ++ R) -> pages_eq (held ∖ hc_own) (ram_put q (P ++ x' ++ R) h) (u_hw (dhw s)) -> zlen (P ++ x' ++ R) <= 4096 -> 8 <= zlen x' ->
  interfaces d = padded l0 -> (length l0 < USB_INTERFACE_MAX_NUM)%nat ->
  exists s', add_interface dev (q + zlen P) (zlen l0) s = Ret (tt, s') /\
    ready held n l t (<[dev := set_interfaces d (padded (l0 ++ [interface_of dev x']))]> ds) bus s' /\ u_hw (dhw s') = u_hw (dhw s).
Proof.
  intros Hr Hd HS Hq HB Hm Hz Hx Hi Hl. unfold add_interface, byte_at.
  pose proof (zlen_app P (x' ++ R)). pose proof (zlen_app x' R). pose proof (zlen_nonneg P). pose proof (zlen_nonneg R).
  assert (Hrd : forall i, 0 <= i < 8 -> ram_get (q + zlen P + i) 1 (u_hw (dhw s)) = slice i 1 x').
  { intros i Hi'. replace (q + zlen P + i) with (q + (zlen P + i)) by lia. rewrite (read_back _ q _ _ _ _ _ HS Hq HB Hm) by lia. apply slice_mid; lia. }
  repeat (rewrite mbind_assoc, mem_run; unfold mbind at 1; cbn [mret obind fst snd]). rewrite !Hrd by lia.
  rewrite (mbind_run (get_dev dev) _ s d s) by (unfold get_dev; rewrite (rd_devs _ _ _ _ _ _ _ Hr), Hd; done).
  assert (Eg : zget (interfaces d) (zlen l0) = Some no_interface).
  { rewrite Hi. unfold padded. apply zget_lookup. split; [unfold zlen; lia|]. unfold zlen. rewrite Nat2Z.id, lookup_app_r, Nat.sub_diag by lia. by destruct (USB_INTERFACE_MAX_NUM - length l0)%nat eqn:E; [lia|]. }
  assert (Es : zset (interfaces d) (zlen l0) (interface_of dev x') = Some (padded (l0 ++ [interface_of dev x']))).
  { rewrite zset_Some by (by eapply zget_Some). f_equal. rewrite Hi. unfold padded, zlen. rewrite Nat2Z.id, length_app. cbn [length].
    replace (length l0) with (length l0 + 0)%nat at 1 by lia. rewrite insert_app_r. destruct (USB_INTERFACE_MAX_NUM - length l0)%nat eqn:E; [lia|].
    replace (USB_INTERFACE_MAX_NUM - (length l0 + 1))%nat with n0 by lia. cbn. by rewrite <- app_assoc. }
  rewrite Eg. rewrite some_run. cbn [if_driver if_private no_interface].
  change (UsbIf 0 dev 0 _ _ _ _) with (interface_of dev x'). rewrite Es. rewrite some_run. by apply put_dev_ok.
Qed.

(** All descriptors are read. *)
Lemma parse_descriptors_ok held n bus dev q D h descs : set_Forall frame_ok (held ∖ hc_own) -> q ∈ held ∖ hc_own -> bytes_ok D -> zlen D <= 4096 -> Forall descriptor_ok descs ->
  forall P k l0 d ds s, ready held n l t ds bus s -> ds !! dev = Some d -> D = P ++ concat descs -> pages_eq (held ∖ hc_own) (ram_put q D h) (u_hw (dhw s)) ->
  interfaces d = padded l0 -> (length l0 + length (interfaces_of dev descs) <= USB_INTERFACE_MAX_NUM)%nat -> (length descs <= k)%nat ->
  exists s', parse_descriptors k dev (q + zlen D) (q + zlen P) (zlen l0) s = Ret (tt, s') /\
    ready held n l t (<[dev := set_interfaces d (padded (l0 ++ interfaces_of dev descs))]> ds) bus s'.
Proof.
  intros HS Hq HB Hz Hds. induction Hds as [|x' descs Hx Hds IH]; intros P k l0 d ds s Hr Hd HD Hm Hi Hl Hk.
  - cbn [concat] in HD. rewrite app_nil_r in HD. subst P. exists s. rewrite app_nil_r, <- Hi. replace (set_interfaces d (interfaces d)) with d by (by destruct d). rewrite insert_id by done.
    split; [|done]. destruct k; cbn [parse_descriptors]; (rewrite (proj2 (Z.leb_le _ _)) by lia); done.
  - destruct Hx as (Hxb & Hx2 & Hx0 & Hx4). cbn [concat] in HD. pose proof (zlen_nonneg P). pose proof (zlen_nonneg (concat descs)).
    pose proof (zlen_app P (x' ++ concat descs)). pose proof (zlen_app x' (concat descs)).
    assert (Hrd : forall (s1 : state) i, u_hw (dhw s1) = u_hw (dhw s) -> 0 <= i < 2 -> ram_get (q + zlen P + i) 1 (u_hw (dhw s1)) = slice i 1 x').
    { intros s1 i E1 Hi'. rewrite E1. replace (q + zlen P + i) with (q + (zlen P + i)) by lia. subst D. rewrite (read_back _ q _ _ _ _ _ HS Hq HB Hm) by lia. apply slice_mid; lia. }
    destruct k as [|k]; [cbn in Hk; lia|]. cbn [parse_descriptors]. rewrite (proj2 (Z.leb_gt _ _)) by (subst D; lia).
    unfold byte_at at 1. rewrite mbind_assoc, mem_run. unfold mbind at 1. cbn [mret obind fst snd]. rewrite Hrd by (done || lia). change (le_val (slice 1 1 x')) with (byte_of x' 1).
    assert (Hnext : forall l1 ds1 s1, interfaces_of dev (x' :: descs) = l1 ++ interfaces_of dev descs -> ready held n l t ds1 bus s1 ->
      ds1 = <[dev := set_interfaces d (padded (l0 ++ l1))]> ds -> u_hw (dhw s1) = u_hw (dhw s) ->
      exists s', (length <~ byte_at (q + zlen P); parse_descriptors k dev (q + zlen D) (q + zlen P + length) (zlen (l0 ++ l1))) s1 = Ret (tt, s') /\
        ready held n l t (<[dev := set_interfaces d (padded (l0 ++ interfaces_of dev (x' :: descs)))]> ds) bus s').
    { intros l1 ds1 s1 El Hr1 -> Eh1. unfold byte_at. rewrite mbind_assoc, mem_run. unfold mbind at 1. cbn [mret obind fst snd].
      assert (E0 : ram_get (q + zlen P) 1 (u_hw (dhw s1)) = slice 0 1 x') by (rewrite <- (Hrd s1 0) by (done || lia); f_equal; lia). rewrite E0. change (le_val (slice 0 1 x')) with (byte_of x' 0). rewrite Hx0.
      destruct (IH (P ++ x') k (l0 ++ l1) (set_interfaces d (padded (l0 ++ l1))) (<[dev := set_interfaces d (padded (l0 ++ l1))]> ds) s1) as (s' & E & Hr'); try done.
      - by rewrite lookup_insert_eq.
      - by rewrite <- app_assoc.
      - by rewrite Eh1.
      - rewrite El, length_app in Hl. rewrite length_app. lia.
      - cbn in Hk. lia.
      - exists s'. rewrite zlen_app, Z.add_assoc in E. split; [exact E|]. rewrite insert_insert_eq, <- app_assoc, <- El in Hr'. exact Hr'. }
    destruct (Z.eqb_spec (byte_of x' 1) USB_DESCRIPTOR_INTERFACE) as [Ht|Ht].
    + assert (El : interfaces_of dev (x' :: descs) = [interface_of dev x'] ++ interfaces_of dev descs).
      { unfold interfaces_of. rewrite filter_cons_True; [done|]. unfold is_interface. by apply Z.eqb_eq. }
      subst D. destruct (add_interface_ok held n ds bus s dev d q P x' (concat descs) l0 h) as (s1 & E1 & Hr1 & Eh1); try done; [by apply Hx4|rewrite El, length_app in Hl; cbn [length] in Hl; lia|].
      rewrite mbind_assoc, (mbind_run _ _ _ _ _ E1). rewrite mret_run. destruct (Hnext _ _ s1 El Hr1 eq_refl Eh1) as (s' & E & Hr'). exists s'. split; [|exact Hr'].
      rewrite (zlen_app l0) in E. exact E.
    + assert (El : interfaces_of dev (x' :: descs) = [] ++ interfaces_of dev descs).
      { unfold interfaces_of. rewrite filter_cons_False; [done|]. unfold is_interface. by intros ?%Z.eqb_eq. }
      rewrite mret_run. destruct (Hnext _ ds s El Hr) as (s' & E & Hr'); [|done|].
      * rewrite app_nil_r, <- Hi. replace (set_interfaces d (interfaces d)) with d by (by destruct d). by rewrite insert_id.
      * exists s'. split; [|exact Hr']. rewrite app_nil_r in E. exact E.
Qed.

(** A configuration the driver can take: a head with the total length, of at most 1024 bytes, then descriptors with at
    most sixteen interfaces. *)
Record config_ok (cfg hdr : list Z) (descs : list (list Z)) : Prop := {
  cf_bytes : cfg = hdr ++ concat descs;
  cf_ok : bytes_ok cfg;
  cf_head : zlen hdr = 9;
  cf_total : half_of cfg 2 = zlen cfg;
  cf_short : zlen cfg <= 1024;
  cf_descs : Forall descriptor_ok descs;
  cf_few : (length (filter (fun d => is_interface d = true) descs) <= USB_INTERFACE_MAX_NUM)%nat
}.

Definition configure (dev : Z) (cfg : list Z) (descs : list (list Z)) (d : USBDevice) : USBDevice :=
  set_interfaces (set_num_interface d (byte_of cfg 4)) (padded (interfaces_of dev descs)).

Lemma usb_get_configuration_descriptor_ok fuel old held n ds s dev d hdr descs : ready held n l t ds (pre ++ u :: post) s -> 4 <= n -> hc_own ⊆ held ->
  ds !! dev = Some d -> dv_bus d = b -> dv_addr d = u_addr u -> interfaces d = padded [] -> config_ok (u_cfg u) hdr descs -> (length descs <= fuel)%nat ->
  exists g s', usb_get_configuration_descriptor hcdriver fuel dev 0 old s = Ret ((0, byte_of (u_cfg u) 5), s') /\
    ready held n l t (<[dev := configure dev (u_cfg u) descs d]> ds) (pre ++ set_stage g u :: post) s'.
Proof.
  intros Hr Hn Ho Hd Hb Ha Hi [Hc1 Hc2 Hc3 Hc4 Hc5 Hc6 Hc7] Hf. unfold usb_get_configuration_descriptor.
  destruct (alloc_ready _ _ _ _ _ _ _ Hr ltac:(lia)) as (q & s1 & E1 & Hr1 & Fq & Nq & Eh1). rewrite (mbind_run _ _ _ _ _ E1). cbv beta.
  assert (Hq : q ∈ ({[q]} ∪ held) ∖ hc_own) by (apply elem_of_difference; split; [by apply elem_of_union_l, elem_of_singleton|intros Hy; by apply Nq, Ho]).
  destruct (get_descriptor_ok pre post u addr_ok apart ({[q]} ∪ held) (n - 1) ds s1 dev d USB_REQUEST_TYPE_STANDARD USB_DESCRIPTOR_CONFIGURATION 0 1024 (u_cfg u) q) as (g & s2 & E2 & Hr2 & Hm);
    try done; try lia.
  { intros y Hy. apply elem_of_union_r. by apply Ho. }
  { change (on_setup _ u) with (DataIn (take (Z.to_nat 1024) (u_cfg u)) 1). rewrite take_ge; [done|]. unfold zlen in Hc5. lia. }
  unfold usb_get_standard_descriptor. rewrite (mbind_run _ _ _ _ _ E2). cbv beta. change (negb (USB_STATUS_OK =? 0)) with false. cbv iota.
  assert (HS : set_Forall frame_ok (({[q]} ∪ held) ∖ hc_own)) by (intros y [Hy _]%elem_of_difference; by apply (rd_frames _ _ _ _ _ _ _ Hr2)).
  assert (Hz : 9 <= zlen (u_cfg u)) by (rewrite Hc1, zlen_app; pose proof (zlen_nonneg (concat descs)); lia).
  unfold half_at, byte_at at 1 2. do 2 (rewrite mbind_assoc, mem_run; unfold mbind at 1; cbn [mret obind fst snd]).
  rewrite !(read_back _ q (u_cfg u) _ _ _ _ HS Hq Hc2 Hm) by lia. change (le_val (slice 5 1 (u_cfg u))) with (byte_of (u_cfg u) 5). change (le_val (slice 4 1 (u_cfg u))) with (byte_of (u_cfg u) 4).
  rewrite (mbind_run (get_dev dev) _ s2 d s2) by (unfold get_dev; rewrite (rd_devs _ _ _ _ _ _ _ Hr2), Hd; done).
  destruct (put_dev_ok dev (set_num_interface d (byte_of (u_cfg u) 4)) _ _ _ _ _ Hr2) as (s3 & E3 & Hr3 & Eh3). rewrite (mbind_run _ _ _ _ _ E3).
  rewrite mbind_assoc, mem_run. unfold mbind at 1. cbn [mret obind fst snd]. rewrite Eh3, (read_back _ q (u_cfg u) _ _ _ _ HS Hq Hc2 Hm) by lia.
  change (le_val (slice 2 2 (u_cfg u))) with (half_of (u_cfg u) 2). rewrite Hc4.
  destruct (parse_descriptors_ok ({[q]} ∪ held) (n - 1) (pre ++ set_stage g u :: post) dev q (u_cfg u) (u_hw (dhw s1)) descs HS Hq Hc2 ltac:(lia) Hc6 hdr fuel []
    (set_num_interface d (byte_of (u_cfg u) 4)) (<[dev := set_num_interface d (byte_of (u_cfg u) 4)]> ds) s3) as (s4 & E4 & Hr4); try done.
  { by rewrite lookup_insert_eq. }
  { by rewrite Eh3. }
  { cbn. unfold interfaces_of. by rewrite length_fmap. }
  rewrite Hc3 in E4. change (zlen (@nil USBInterface)) with 0 in E4. rewrite (mbind_run _ _ _ _ _ E4). rewrite insert_insert_eq in Hr4.
  destruct (free_ready q held (n - 1) _ _ _ _ _ Hr4 Nq) as (s5 & E5 & Hr5 & _). rewrite (mbind_run _ _ _ _ _ E5).
  replace (n - 1 + 1) with n in Hr5 by lia. exists g, s5. split; [done|exact Hr5].
Qed.
End identify.
End requests.

(** ** Enumeration *)

Section enumeration.
Context {A L H : Type} `{AllocatorLaws A} `{RamLaws H}.
Local Notation state := (driver A L (usbsys H)).
Variable hcdriver : Z -> USBHostControllerDriver state.
Variables (drv priv : Z).
Context `{!HostController (hcdriver drv) priv}.
Variables (fuel : nat) (stack_byte : Z).

(** The kernel's record of a device. *)
Definition describe (bus port addr dev : Z) (u : ufn) (descs : list (list Z)) : USBDevice :=
  configure dev (u_cfg u) descs (set_dv_addr (identify (u_desc u) (set_bus_port no_usbdev bus port)) addr).

Lemma free_address_ok l : forall i, 0 ∈ l -> exists k, free_address i l = i + Z.of_nat k /\ l !! k = Some 0 /\ forall j, (j < k)%nat -> exists p, l !! j = Some p /\ p <> 0.
Proof.
  induction l as [|d l IH]; intros i Hin; [by apply elem_of_nil in Hin|]. cbn. destruct (Z.eqb_spec d 0) as [->|Hd].
  - exists 0%nat. split; [lia|]. split; [done|]. lia.
  - apply elem_of_cons in Hin as [<-|Hin]; [done|]. destruct (IH (i + 1) Hin) as (k & E & Hk & Hb). exists (S k). split; [lia|]. split; [done|].
    intros [|j] Hj; [by exists d|]. apply (Hb j). lia.
Qed.

(** The requests that change a device. *)
Lemma change_setup rq a u : 0 <= a < 256 -> rq = USB_REQUEST_SET_ADDRESS \/ rq = USB_REQUEST_SET_CONFIGURATION ->
  on_setup (setup_data 0 rq a 0 0) u = StatusIn (if rq =? USB_REQUEST_SET_ADDRESS then ToAddress a else ToConfig a).
Proof.
  intros Ha Hrq. assert (E : exists v1, le_bytes 2 (u16 a) = [a; v1]).
  { unfold u16. rewrite (Z.mod_small a) by lia. exists (a / 256 mod 256). cbn. f_equal. by apply Z.mod_small. }
  destruct E as [v1 E]. unfold setup_data. rewrite E. by destruct Hrq as [-> | ->].
Qed.

Lemma byte_of_u8 d i : bytes_ok d -> 0 <= byte_of d i < 256.
Proof.
  intros Hd. unfold byte_of, slice. change (Z.to_nat 1) with 1%nat. destruct (drop (Z.to_nat i) d) as [|y r] eqn:E; [done|]. change (take 1 (y :: r)) with [y]. cbn [le_val].
  assert (Hy : is_u8 y) by (apply (Forall_drop _ (Z.to_nat i)) in Hd; rewrite E in Hd; by inversion Hd). unfold is_u8 in Hy. change (2 ^ 8) with 256 in Hy. lia.
Qed.

(** The devices of the bus that the table knows. *)
Definition registered (x : USBBus) (v : ufn) : Prop := 0 < u_addr v < 128 /\ exists p, zget (bus_devices x) (u_addr v) = Some p /\ p <> 0.

(** A new device is in the table, at the first free address. *)
Lemma add_device_ok bus port held n l t ds ul s x : ready hcdriver drv priv held n l t ds ul s -> 0 < n -> zget t bus = Some x ->
  length (bus_devices x) = USB_DEVICE_MAX_NUM -> 0 ∈ drop 1 (bus_devices x) ->
  exists a dev s', add_device bus port s = Ret ((dev, a), s') /\ 0 < a < 128 /\ zget (bus_devices x) a = Some 0 /\ (forall i, 0 < i < a -> exists p, zget (bus_devices x) i = Some p /\ p <> 0) /\
    dev ∉ held /\ ready hcdriver drv priv ({[dev]} ∪ held) (n - 1) l (<[Z.to_nat bus := set_bus_devices x (<[Z.to_nat a := dev]> (bus_devices x))]> t)
      (<[dev := set_bus_port no_usbdev bus port]> ds) ul s'.
Proof.
  intros Hr Hn Hx Hlen Hfree. unfold add_device.
  rewrite (mbind_run (get_bus bus) _ s x s) by (unfold get_bus; rewrite (rd_buses _ _ _ _ _ _ _ _ _ _ Hr), Hx; done).
  destruct (free_address_ok _ 1 Hfree) as (k & Ea & Hk & Hbelow). unfold usb_alloc_address. rewrite Ea. set (a := 1 + Z.of_nat k).
  rewrite lookup_drop in Hk. apply lookup_lt_Some in Hk as Hkl. rewrite Hlen in Hkl. unfold USB_DEVICE_MAX_NUM in Hkl.
  assert (Hza : zget (bus_devices x) a = Some 0) by (apply zget_lookup; split; [lia|]; replace (Z.to_nat a) with (1 + k)%nat by lia; done).
  destruct (alloc_ready _ _ _ _ _ _ _ _ _ _ Hr Hn) as (dev & s1 & E1 & Hr1 & Fd & Nd & Eh1). rewrite (mbind_run _ _ _ _ _ E1). cbv beta.
  rewrite zset_Some by (by eapply zget_Some). rewrite some_run.
  set (x' := set_bus_devices x (<[Z.to_nat a := dev]> (bus_devices x))). set (t' := <[Z.to_nat bus := x']> t).
  rewrite (mbind_run (put_bus bus x') _ s1 tt (Driver (dpool s1) (dlocal s1) (UsbSys t' (usb_devs (dhw s1)) (u_hw (dhw s1))))).
  2:{ unfold put_bus. rewrite (rd_buses _ _ _ _ _ _ _ _ _ _ Hr1), zset_Some by (by eapply zget_Some). done. }
  exists a, dev. eexists. split; [reflexivity|]. split; [lia|]. split; [done|]. split; [|split; [done|]].
  - intros i Hi. destruct (Hbelow (Z.to_nat (i - 1)) ltac:(lia)) as (p & Ep & Np). exists p. split; [|done]. rewrite lookup_drop in Ep. apply zget_lookup. split; [lia|]. by replace (Z.to_nat i) with (1 + Z.to_nat (i - 1))%nat by lia.
  - destruct Hr1. constructor; try done. cbn. by rewrite rd_devs0.
Qed.

(** C25: A device at address zero with control packets of eight bytes, an 18-byte
    device descriptor and a configuration of at most 1024 bytes and sixteen
    interfaces ([config_ok]), on a bus with a free address whose other devices are
    registered, and with at least five free pages, is enumerated: it gets the first
    free address, is in the table of the bus with what its descriptors say, and is
    configured; the others are as before. *)
Theorem usb_register_device_enumerates bus port held n l t ds pre u post s x hdr descs :
  ready hcdriver drv priv held n l t ds (pre ++ u :: post) s -> 5 <= n -> hc_own ⊆ held ->
  zget t bus = Some x -> hc_driver x = drv -> hc_private x = priv -> length (bus_devices x) = USB_DEVICE_MAX_NUM -> 0 ∈ drop 1 (bus_devices x) ->
  u_addr u = 0 -> Forall (registered x) (pre ++ post) -> bytes_ok (u_desc u) -> zlen (u_desc u) = 18 -> config_ok (u_cfg u) hdr descs -> (length descs <= fuel)%nat ->
  exists a dev s', usb_register_device hcdriver fuel stack_byte bus port s = Ret (tt, s') /\
    0 < a < 128 /\ zget (bus_devices x) a = Some 0 /\ (forall i, 0 < i < a -> exists p, zget (bus_devices x) i = Some p /\ p <> 0) /\ dev ∉ held /\
    ready hcdriver drv priv ({[dev]} ∪ held) (n - 1) l (<[Z.to_nat bus := set_bus_devices x (<[Z.to_nat a := dev]> (bus_devices x))]> t)
      (<[dev := describe bus port a dev u descs]> ds) (pre ++ Ufn a (byte_of (u_cfg u) 5) (u_desc u) (u_cfg u) Idle :: post) s'.
Proof.
  intros Hr Hn Ho Hx Hxd Hxp Hlen Hfree Hu0 Hreg HD HDl Hcfg Hf. unfold usb_register_device.
  destruct (add_device_ok bus port _ _ _ _ _ _ s x Hr ltac:(lia) Hx Hlen Hfree) as (a & dev & s2 & E2 & Ha & Hza & Hsub & Nd & Hr2). rewrite (mbind_run _ _ _ _ _ E2). cbn [fst snd]. unfold bring_up.
  assert (Hne : forall v, registered x v -> u_addr v <> a) by (intros v (_ & p & Ep & Np) E; rewrite E, Hza in Ep; congruence).
  apply Forall_app in Hreg as [Hpre _]. set (x' := set_bus_devices x (<[Z.to_nat a := dev]> (bus_devices x))) in *. set (t' := <[Z.to_nat bus := x']> t) in *.
  assert (Hx' : zget t' bus = Some x') by (apply zget_Some in Hx; unfold zlen in Hx; apply zget_lookup; split; [lia|]; apply list_lookup_insert_eq; lia).
  assert (Ho' : hc_own ⊆ {[dev]} ∪ held) by (intros y Hy; apply elem_of_union_r; by apply Ho).
  assert (Hq : dev ∈ ({[dev]} ∪ held) ∖ hc_own) by (apply elem_of_difference; split; [by apply elem_of_union_l, elem_of_singleton|intros Hy; by apply Nd, Ho]).
  assert (Hp0 : Forall (fun v => u_addr v <> u_addr u) pre) by (eapply Forall_impl; [exact Hpre|]; intros v [Hv _]; lia).
  destruct (usb_get_device_descriptor_ok hcdriver drv priv bus l t' x' Hx' Hxd Hxp pre post u ltac:(lia) Hp0 _ _ _ _ dev (set_bus_port no_usbdev bus port) Hr2 ltac:(lia) Ho') as (g & s3 & E3 & Hr3); try done;
    [by rewrite lookup_insert_eq|]. rewrite insert_insert_eq in Hr3. rewrite (mbind_run _ _ _ _ _ E3). cbv beta.
  set (d1 := identify (u_desc u) (set_bus_port no_usbdev bus port)) in *.
  rewrite (mbind_run (get_dev dev) _ s3 d1 s3) by (unfold get_dev; rewrite (rd_devs _ _ _ _ _ _ _ _ _ _ Hr3), lookup_insert_eq; done).
  destruct (put_dev_ok hcdriver drv priv l t' dev (set_dv_addr d1 a) _ _ _ _ _ Hr3) as (s4 & E4 & Hr4 & _). rewrite insert_insert_eq in Hr4. rewrite (mbind_run _ _ _ _ _ E4). cbv beta.
  destruct (nodata_ok hcdriver drv priv bus l t' x' Hx' Hxd Hxp pre post (set_stage g u) ltac:(cbn; lia) Hp0 _ _ _ s4 0 USB_REQUEST_SET_ADDRESS a 0 0 (ToAddress a) dev
    (fun setup => usb_control_transfer_nodata hcdriver bus 0 0 setup) Hr4) as (s5 & E5 & Hr5 & _); try done; try lia.
  { rewrite change_setup; [done|lia|by left]. }
  { intros p s0 _. cbn. by rewrite Hu0. }
  unfold usb_set_address. rewrite (mbind_run _ _ _ _ _ E5). cbv beta. cbn [apply_change set_stage u_config u_desc u_cfg] in Hr5.
  set (u1 := Ufn a (u_config u) (u_desc u) (u_cfg u) Idle) in *.
  assert (Hp1 : Forall (fun v => u_addr v <> u_addr u1) pre) by (eapply Forall_impl; [exact Hpre|]; intros v Hv; by apply Hne).
  destruct (usb_get_configuration_descriptor_ok hcdriver drv priv bus l t' x' Hx' Hxd Hxp pre post u1 ltac:(cbn; lia) Hp1 fuel stack_byte _ _ _ _ dev (set_dv_addr d1 a) hdr descs Hr5 ltac:(lia) Ho')
    as (g2 & s6 & E6 & Hr6); try done; [by rewrite lookup_insert_eq|]. rewrite insert_insert_eq in Hr6. rewrite (mbind_run _ _ _ _ _ E6). cbv beta. cbn [snd].
  change (configure dev (u_cfg u1) descs (set_dv_addr d1 a)) with (describe bus port a dev u descs) in Hr6.
  destruct (nodata_ok hcdriver drv priv bus l t' x' Hx' Hxd Hxp pre post (set_stage g2 u1) ltac:(cbn; lia) Hp1 _ _ _ s6 0 USB_REQUEST_SET_CONFIGURATION (byte_of (u_cfg u1) 5) 0 0
    (ToConfig (byte_of (u_cfg u1) 5)) dev (fun setup => d <~ get_dev dev; usb_control_transfer_nodata hcdriver (dv_bus d) (dv_addr d) 0 setup) Hr6) as (s7 & E7 & Hr7 & _); try done; try lia.
  { rewrite change_setup; [done|apply byte_of_u8, Hcfg|by right]. }
  { intros p s0 Es0. rewrite (mbind_run (get_dev dev) _ s0 (describe bus port a dev u descs) s0) by (unfold get_dev; rewrite Es0, lookup_insert_eq; done). done. }
  unfold usb_set_configuration. rewrite (mbind_run _ _ _ _ _ E7). exists a, dev, s7. split; [done|]. split; [lia|]. by split_and!.
Qed.
End enumeration.

(** ** Devices that are not well-behaved *)

(** The packets that are handed over end with the data: the packet that ends the
    transfer is prepared and never sent. *)
Lemma status_packet_missing setup payload size : 0 <= size ->
  let '(packets, pid) := packets_in setup payload size in
  last packets = Some (Packet USB_PACKET_OUT 0x800 0x80000000 1) /\ Forall (fun p => pk_type p <> USB_PACKET_OUT) (take (Z.to_nat pid) packets).
Proof.
  intros Hs. unfold packets_in. set (n := (size + 7) / 8). assert (Hn : 0 <= n) by (apply Z.div_pos; lia). split.
  - rewrite app_comm_cons. apply last_snoc.
  - replace (Z.to_nat (1 + n)) with (S (Z.to_nat n)) by lia. cbn [take]. apply Forall_cons_2; [done|].
    rewrite take_app_le by (rewrite length_fmap, length_seqZ; lia). apply Forall_take, Forall_fmap, Forall_forall. by intros i _.
Qed.

Section hostile.
Context {A L H : Type} `{PageAllocator A} `{Machine H}.
Local Notation state := (driver A L (usbsys H)).

(** A descriptor that says its length is zero keeps the kernel in the loop. *)
Lemma empty_descriptor_hangs n : forall dev end_ p infcnt (s : state), p < end_ -> le_val (ram_get (p + 1) 1 (u_hw (dhw s))) <> USB_DESCRIPTOR_INTERFACE ->
  le_val (ram_get p 1 (u_hw (dhw s))) = 0 -> parse_descriptors n dev end_ p infcnt s = NoFuel.
Proof.
  induction n as [|n IH]; intros dev end_ p infcnt s Hp Ht Hl; cbn [parse_descriptors]; rewrite (proj2 (Z.leb_gt _ _)) by lia.
  all: unfold byte_at at 1, mem at 1, mbind; cbn [obind fst snd mret]; change (ram_get (p + 1) 1 s) with (ram_get (p + 1) 1 (u_hw (dhw s))); rewrite (proj2 (Z.eqb_neq _ _) Ht).
  all: cbn [obind fst snd mret]; unfold byte_at, mem, mbind; cbn [obind fst snd mret]; change (ram_get p 1 s) with (ram_get p 1 (u_hw (dhw s))); rewrite ?Hl.
  - done.
  - rewrite Z.add_0_r. by apply IH.
Qed.

(** The seventeenth interface is stored behind the device. *)
Lemma interfaces_overflow dev p d (s : state) : usb_devs (dhw s) !! dev = Some d -> length (interfaces d) = USB_INTERFACE_MAX_NUM -> add_interface dev p 16 s = Fault.
Proof.
  intros Hd Hl. unfold add_interface, byte_at, mem, mbind. cbn [obind fst snd mret]. unfold get_dev. rewrite Hd. cbn [of_option obind fst snd].
  assert (E : zget (interfaces d) 16 = None) by (unfold zget; cbn; apply lookup_ge_None; rewrite Hl; done). by rewrite E.
Qed.
End hostile.
