(* ===== verification/Uhci.v ===== *)
(** kernel/driver/uhci/uhci.c: the UHCI host controller.

    Ports, the frame list, transfer descriptors in memory and the start of the controller on the PCI
    bus.  The controller is an interface ([UhciHw]) with what its specification says:
    it runs the descriptors of the frame list in order and reports the end of one that
    asks for it.

    The instance [uhci_controller] shows that the driver is a host controller in the
    sense of [Usb], so that what is proved there holds for it; on an executable
    controller with a hub on its bus, the hub is enumerated
    ([usb_register_device_enumerates_witness]). *)

From stdpp Require Import base list gmap sets strings.
From Stdlib Require Import ZArith Lia.
From S2P Require Import Prelude Mmu Vm Machine Pci Usb.

Local Open Scope Z_scope.
Local Open Scope hw_scope.

(** ** Registers *)

Definition UHCI_USBCMD : Z := 0.
Definition UHCI_USBCMD_HCRESET : Z := 2.
Definition UHCI_USBCMD_RS : Z := 1.
Definition UHCI_USBSTS : Z := 2.
Definition UHCI_USBINTR : Z := 4.
Definition UHCI_FRNUM : Z := 6.
Definition UHCI_FRBASEADD : Z := 8.
Definition UHCI_SOFMOD : Z := 0xc.
Definition UHCI_PORTSC : Z := 0x10.
Definition UHCI_PORTSC_PORT_RESET : Z := 2 ^ 9.
Definition UHCI_PORTSC_LOW_SPEED : Z := 2 ^ 8.
Definition UHCI_PORTSC_PORT_ENABLE : Z := 2 ^ 2.
Definition UHCI_PORTSC_CONNECT_STATUS : Z := 2 ^ 0.
Definition UHCI_STATUS_ACTIVE : Z := 2 ^ 23.
Definition UHCI_STATUS_LOWSPEED : Z := 2 ^ 26.
Definition UHCI_TOKEN_TOGGLE : Z := 2 ^ 19.
Definition UHCI_TOKEN_PID_IN : Z := 0x69.
Definition UHCI_TOKEN_PID_OUT : Z := 0xe1.
Definition UHCI_TOKEN_PID_SETUP : Z := 0x2d.

Record UHCIDevice := Uhci { iobase : Z; frame_list : Z }.

(** The controllers by the pages of their structures, beside the machine. *)
Record uhcisys (H : Type) := UhciSys { uhci_devs : gmap Z UHCIDevice; r_hw : H }.
Arguments UhciSys {H}.
Arguments uhci_devs {H}.
Arguments r_hw {H}.

#[export] Instance uhcisys_machine {H} `{Machine H} : Machine (uhcisys H) := {
  io_in w p s := let '(v, h) := io_in w p (r_hw s) in (v, UhciSys (uhci_devs s) h);
  io_out w p v s := UhciSys (uhci_devs s) (io_out w p v (r_hw s));
  mm_load w a s := let '(v, h) := mm_load w a (r_hw s) in (v, UhciSys (uhci_devs s) h);
  mm_store w a v s := UhciSys (uhci_devs s) (mm_store w a v (r_hw s));
  ram_get a n s := ram_get a n (r_hw s);
  ram_put a l s := UhciSys (uhci_devs s) (ram_put a l (r_hw s))
}.

#[export] Instance uhcisys_ram {H} `{RamLaws H} : RamLaws (uhcisys H).
Proof.
  constructor; cbn.
  - intros a n h. apply ram_len.
  - intros a n h. apply ram_bytes.
  - intros a n b l h. apply ram_get_put.
  - intros a n i m h. apply ram_slice.
Qed.

(** ** Transfer descriptors *)

(** The words of the descriptor of a packet: no link, the status, the token and the buffer. *)
Definition td_status (low last : bool) : Z :=
  Z.lor (Z.lor UHCI_STATUS_ACTIVE (if last then Z.shiftl 1 24 else 0)) (if low then UHCI_STATUS_LOWSPEED else 0).

Definition pid_of (t : USBPacketType) : Z :=
  match t with
  | USB_PACKET_IN => UHCI_TOKEN_PID_IN
  | USB_PACKET_OUT => UHCI_TOKEN_PID_OUT
  | USB_PACKET_SETUP => UHCI_TOKEN_PID_SETUP
  end.

Definition td_token (addr endpoint : Z) (p : USBPacket) : Z :=
  Z.lor (Z.lor (Z.lor (Z.lor (u32 (Z.shiftl (u32 (pk_maxlen p - 1)) 21)) (u32 (Z.shiftl endpoint 15))) (u32 (Z.shiftl addr 8))) (pid_of (pk_type p)))
    (if pk_toggle p =? 0 then 0 else UHCI_TOKEN_TOGGLE).

Section driver.
Context {A H : Type} `{PageAllocator A} `{Machine H}.
Local Notation state := (driver A pci_vars (usbsys (uhcisys H))).
Variable pci_host : PciHost state.
(** Turns of the loop that waits for the controller. *)
Variable fuel : nat.

Definition get_uhci (p : Z) : hw state UHCIDevice := fun s => obind (of_option (uhci_devs (u_hw (dhw s)) !! p)) (fun x => Ret (x, s)).
Definition put_uhci (p : Z) (x : UHCIDevice) : hw state unit := fun s =>
  let y := dhw s in let z := u_hw y in
  Ret (tt, Driver (dpool s) (dlocal s) (UsbSys (usb_bus y) (usb_devs y) (UhciSys (<[p := x]> (uhci_devs z)) (r_hw z)))).

Definition uhci_port_reset (private port : Z) : hw state unit :=
  uhci <~ get_uhci private;
  let r := iobase uhci + UHCI_PORTSC + port * 2 in
  p0 <~ inw r;
  let p1 := Z.lor p0 UHCI_PORTSC_PORT_RESET in
  outw r p1 ;>
  let p2 := Z.land p1 (Z.lnot UHCI_PORTSC_PORT_RESET) in
  outw r p2 ;>
  outw r (Z.lor p2 UHCI_PORTSC_PORT_ENABLE).

Definition uhci_get_port_status (private port : Z) : hw state USBPortStatus :=
  dev <~ get_uhci private;
  portstat <~ inw (iobase dev + UHCI_PORTSC + port * 2);
  mret (if Z.testbit portstat 0
        then if Z.testbit portstat 8 then USB_PORT_STATUS_CONNECT_LOW_SPEED else USB_PORT_STATUS_CONNECT_FULL_SPEED
        else USB_PORT_STATUS_NOT_CONNECT).

Definition uhci_run (dev : UHCIDevice) (frnum : Z) : hw state unit :=
  outw (iobase dev + UHCI_FRNUM) frnum ;>
  c <~ inw (iobase dev + UHCI_USBCMD);
  outw (iobase dev + UHCI_USBCMD) (Z.lor c UHCI_USBCMD_RS).

Definition uhci_stop (dev : UHCIDevice) : hw state unit :=
  outw (iobase dev + UHCI_USBSTS) 1 ;>
  c <~ inw (iobase dev + UHCI_USBCMD);
  outw (iobase dev + UHCI_USBCMD) (Z.land c (Z.lnot UHCI_USBCMD_RS)).

(** A word of memory. *)
Definition put_word (a v : Z) : hw state unit := modify (ram_put a (le_bytes 4 v)).

(** All 1024 frames are empty. *)
Definition empty_frames : list Z := concat (repeat (le_bytes 4 1) 1024).
Definition clear_frames (fl : Z) : hw state unit := modify (ram_put fl empty_frames).

(** Descriptor [i] of [num], at [transdesc], and its frame.  The speed is that of the first
    port. *)
Definition put_transfer (dev : UHCIDevice) (transdesc addr endpoint num i : Z) (p : USBPacket) : hw state unit :=
  let td := transdesc + 16 * i in
  put_word td 1 ;>
  portsc <~ inw (iobase dev + UHCI_PORTSC);
  put_word (td + 4) (td_status (Z.testbit portsc 8) (i =? num - 1)) ;>
  put_word (td + 8) (td_token addr endpoint p) ;>
  put_word (td + 12) (V2P (pk_buffer p)) ;>
  put_word (frame_list dev + 4 * i) (V2P td).

Fixpoint put_transfers (dev : UHCIDevice) (transdesc addr endpoint num i : Z) (packets : list USBPacket) : hw state unit :=
  match packets with
  | [] => mret tt
  | p :: packets' => put_transfer dev transdesc addr endpoint num i p ;> put_transfers dev transdesc addr endpoint num (i + 1) packets'
  end.

(** The page of the descriptors holds 256 of them. *)
Definition uhci_transfer_packet (private addr endpoint : Z) (packets : list USBPacket) : hw state Z :=
  dev <~ get_uhci private;
  clear_frames (frame_list dev) ;>
  transdesc <~ d_kalloc;
  mlift (if zlen packets <=? 256 then Ret tt else Fault) ;>
  put_transfers dev transdesc addr endpoint (zlen packets) 0 packets ;>
  uhci_run dev 0 ;>
  spin fuel (st <~ inw (iobase dev + UHCI_USBSTS); mret (negb (Z.testbit st 0))) ;>
  uhci_stop dev ;>
  d_kfree transdesc ;>
  mret USB_STATUS_OK.

Definition uhci_usbhc_driver : USBHostControllerDriver state := HCDriver uhci_port_reset uhci_get_port_status uhci_transfer_packet.

(** [uhci_intr] is the pointer of the interrupt handler, which does nothing, and [hc_pointer] that of the driver structure. *)
Definition uhci_controller_init (hcdriver : Z -> USBHostControllerDriver state) (uhci_intr hc_pointer stack_byte i : Z) : hw state unit :=
  pd <~ get_device i;
  pci_enable_bus_mastering pci_host (pd_addr pd) ;>
  pci_register_intr_handler i uhci_intr ;>
  dev <~ d_kalloc;
  pd' <~ get_device i;
  set_device i (set_private pd' dev) ;>
  bar <~ pci_read_bar pci_host (pd_addr pd) 4;
  let io := u16 bar in
  release <~ read8 pci_host (pd_addr pd) 0x60;
  outw (io + UHCI_USBCMD) UHCI_USBCMD_HCRESET ;>
  outw (io + UHCI_USBCMD) 0 ;>
  outw (io + UHCI_USBINTR) 4 ;>
  outb (io + UHCI_SOFMOD) 64 ;>
  fl <~ d_kalloc;
  put_uhci dev (Uhci io fl) ;>
  clear_frames fl ;>
  outdw (io + UHCI_FRBASEADD) (V2P fl) ;>
  p0 <~ inw (io + UHCI_PORTSC);
  p1 <~ inw (io + UHCI_PORTSC + 2);
  usb_register_host_controller hcdriver fuel stack_byte dev 2 hc_pointer.

(** ["uhci"]. *)
Definition uhci_pci_driver : PCIDriver := PciDriver [117; 104; 99; 105; 0] None 0x0c0300.
End driver.

(** [uhci_init] and [usb_init]: the pointers are those of the driver structures. *)
Section init.
Context {A H : Type} `{PageAllocator A} `{Machine H}.
Local Notation state := (driver A pci_vars (usbsys (uhcisys H))).
Variable pci_host : PciHost state.
Variables (fuel : nat) (stack_byte : Z).
Variables (uhci_intr hc_pointer uhci_pointer hub_pointer : Z).
(** Host controller drivers of loaded modules. *)
Variable module_driver : Z -> USBHostControllerDriver state.

Definition hcdriver (p : Z) : USBHostControllerDriver state := if p =? hc_pointer then uhci_usbhc_driver fuel else module_driver p.

Definition uhci_init : hw state unit :=
  pci_register_driver pci_host (fun _ i => uhci_controller_init pci_host fuel hcdriver uhci_intr hc_pointer stack_byte i) uhci_pointer uhci_pci_driver.

Definition usb_init : hw state unit :=
  (fun s => Ret (tt, Driver (dpool s) (dlocal s) (UsbSys (repeat no_bus USB_BUS_NUM_MAX) (usb_devs (dhw s)) (u_hw (dhw s))))) ;>
  uhci_init ;>
  usb_hub_init hcdriver fuel stack_byte hub_pointer.
End init.

(** ** The controller *)

(** The frame list, the current frame, whether it runs, whether it has reported an
    end, and the bus. *)
Record uregs := URegs { ur_frames : Z; ur_frame : Z; ur_run : bool; ur_done : bool; ur_bus : list ufn }.

Definition set_ur_frame (f : Z) (r : uregs) : uregs := URegs (ur_frames r) f (ur_run r) (ur_done r) (ur_bus r).
Definition set_ur_run (b : bool) (r : uregs) : uregs := URegs (ur_frames r) (ur_frame r) b (ur_done r) (ur_bus r).
Definition set_ur_done (b : bool) (r : uregs) : uregs := URegs (ur_frames r) (ur_frame r) (ur_run r) b (ur_bus r).

(** A descriptor: where it is, its token and its buffer. *)
Record td := Td { td_at : Z; td_tok : Z; td_buf : Z }.

(** The fields of a token. *)
Definition tok_type (tok : Z) : option USBPacketType :=
  let pid := Z.land tok 0xff in
  if pid =? 0x69 then Some USB_PACKET_IN else if pid =? 0xe1 then Some USB_PACKET_OUT else if pid =? 0x2d then Some USB_PACKET_SETUP else None.
Definition tok_addr (tok : Z) : Z := Z.land (Z.shiftr tok 8) 0x7f.
Definition tok_endpoint (tok : Z) : Z := Z.land (Z.shiftr tok 15) 0xf.
Definition tok_toggle (tok : Z) : Z := Z.land (Z.shiftr tok 19) 1.
Definition tok_len (tok : Z) : Z := Z.land (Z.shiftr tok 21 + 1) 0x7ff.

Definition td_packet (d : td) : option USBPacket :=
  if negb (tok_endpoint (td_tok d) =? 0) then None
  else (fun t => Packet t (tok_len (td_tok d)) (P2V (td_buf d)) (tok_toggle (td_tok d))) <$> tok_type (td_tok d).

Definition run_td {H} `{Machine H} (x : list ufn * H) (d : td) : list ufn * H :=
  match td_packet d with Some p => send (tok_addr (td_tok d)) x p | None => x end.

(** The frame list: one descriptor in each of the first frames, active, without a
    link, the last one to be reported, and nothing in the other frames. *)
Record scheduled {H} `{Machine H} (fl : Z) (tds : list td) (h : H) : Prop := {
  sc_some : (0 < length tds <= 1024)%nat;
  sc_frame i d : tds !! i = Some d -> ram_get (fl + 4 * Z.of_nat i) 4 h = le_bytes 4 (td_at d);
  sc_words i d : tds !! i = Some d -> is_u32 (td_at d) /\ is_u32 (td_tok d) /\ is_u32 (td_buf d);
  sc_td i d : tds !! i = Some d -> td_at d mod 16 = 0 /\ exists st, ram_get (P2V (td_at d)) 16 h = le_bytes 4 1 ++ le_bytes 4 st ++ le_bytes 4 (td_tok d) ++ le_bytes 4 (td_buf d) /\
    Z.testbit st 23 = true /\ Z.testbit st 24 = bool_decide (S i = length tds);
  sc_rest i : (length tds <= i < 1024)%nat -> ram_get (fl + 4 * Z.of_nat i) 4 h = le_bytes 4 1
}.

Definition away (a n b m : Z) : Prop := a + n <= b \/ b + m <= a.

(** The buffers are not in the frame list or the descriptors. *)
Definition buffers_away (fl : Z) (tds : list td) : Prop :=
  Forall (fun d => tok_len (td_tok d) = 0 \/ away (P2V (td_buf d)) (tok_len (td_tok d)) fl 4096 /\ Forall (fun e => away (P2V (td_buf d)) (tok_len (td_tok d)) (P2V (td_at e)) 16) tds) tds.

(** The registers at [io], by the UHCI specification; the controller changes only the
    descriptors and the buffers in memory. *)
Class UhciHw (H : Type) `{RamLaws H} (io : Z) := {
  uregs_of : H -> uregs;
  uh_left : H -> nat;
  uh_max : nat;
  uh_bound h : (uh_left h <= uh_max)%nat;
  uh_ram a l h : uregs_of (ram_put a l h) = uregs_of h;
  uh_port h : exists v h', io_in 2 (io + UHCI_PORTSC) h = (v, h') /\ uregs_of h' = uregs_of h /\ ram_eq h h';
  uh_command h : exists v h', io_in 2 (io + UHCI_USBCMD) h = (v, h') /\ is_u16 v /\ Z.testbit v 1 = false /\ Z.testbit v 2 = false /\ uregs_of h' = uregs_of h /\ ram_eq h h';
  uh_set_command v h : is_u16 v -> Z.testbit v 1 = false -> Z.testbit v 2 = false ->
    uregs_of (io_out 2 (io + UHCI_USBCMD) v h) = set_ur_run (Z.testbit v 0) (uregs_of h) /\ ram_eq h (io_out 2 (io + UHCI_USBCMD) v h);
  uh_set_frame h : ur_run (uregs_of h) = false -> uregs_of (io_out 2 (io + UHCI_FRNUM) 0 h) = set_ur_frame 0 (uregs_of h) /\ ram_eq h (io_out 2 (io + UHCI_FRNUM) 0 h);
  uh_clear h : uregs_of (io_out 2 (io + UHCI_USBSTS) 1 h) = set_ur_done false (uregs_of h) /\ ram_eq h (io_out 2 (io + UHCI_USBSTS) 1 h);
  uh_poll tds h : ur_run (uregs_of h) = true -> ur_done (uregs_of h) = false -> ur_frame (uregs_of h) = 0 ->
    scheduled (P2V (ur_frames (uregs_of h))) tds h -> buffers_away (P2V (ur_frames (uregs_of h))) tds ->
    exists v h', io_in 2 (io + UHCI_USBSTS) h = (v, h') /\
      (Z.testbit v 0 = false /\ uregs_of h' = uregs_of h /\ ram_eq h h' /\ (uh_left h' < uh_left h)%nat \/
       Z.testbit v 0 = true /\ let '(bus, h2) := foldl run_td (ur_bus (uregs_of h), h) tds in
         (exists f, uregs_of h' = URegs (ur_frames (uregs_of h)) f true true bus) /\
         forall a n, 0 <= n -> Forall (fun d => away a n (P2V (td_at d)) 16) tds -> ram_get a n h' = ram_get a n h2)
}.

(** ** Tokens *)

(** A token says what its packet is. *)
Lemma token_fields addr p : 0 <= addr < 128 -> pk_maxlen p = 8 \/ pk_maxlen p = 0x800 -> pk_toggle p = 0 \/ pk_toggle p = 1 ->
  let tok := td_token addr 0 p in
  is_u32 tok /\ tok_type tok = Some (pk_type p) /\ tok_addr tok = addr /\ tok_endpoint tok = 0 /\ tok_toggle tok = pk_toggle p /\ tok_len tok = pk_len p.
Proof.
  intros Ha Hm Ht. destruct p as [ty m buf g]. cbn [pk_maxlen pk_toggle] in Hm, Ht.
  set (check := fun a => forallb (fun m => forallb (fun g => forallb (fun ty =>
    let p := Packet ty m 0 g in let tok := td_token a 0 p in
    (0 <=? tok) && (tok <? 2 ^ 32) && bool_decide (tok_type tok = Some ty) && (tok_addr tok =? a) && (tok_endpoint tok =? 0) && (tok_toggle tok =? g) && (tok_len tok =? pk_len p))
    [USB_PACKET_IN; USB_PACKET_OUT; USB_PACKET_SETUP]) [0; 1]) [8; 0x800]).
  assert (Hall : forallb check (seqZ 0 128) = true) by (by vm_compute).
  assert (Hin : In addr (seqZ 0 128)) by (apply list_elem_of_In, elem_of_seqZ; lia).
  rewrite forallb_forall in Hall. apply Hall in Hin. unfold check in Hin. clear Hall. rename Hin into Hall. rewrite forallb_forall in Hall.
  specialize (Hall m ltac:(destruct Hm as [-> | ->]; cbn; auto)). rewrite forallb_forall in Hall. specialize (Hall g ltac:(destruct Ht as [-> | ->]; cbn; auto)).
  rewrite forallb_forall in Hall. specialize (Hall ty ltac:(destruct ty; cbn; auto)).
  cbv zeta in Hall. rewrite !andb_true_iff, !Z.eqb_eq, bool_decide_eq_true, Z.leb_le, Z.ltb_lt in Hall. destruct Hall as [[[[[[? ?] ?] ?] ?] ?] ?].
  by split_and!.
Qed.

(** ** A transfer *)

Section controller.
Context {A H : Type} `{AllocatorLaws A} `{RamLaws H}.
Variables (io fl priv : Z) (fuel : nat).
Context `{!UhciHw H io}.
Hypothesis fl_page : frame_ok fl.
Hypothesis fuel_enough : (uh_max <= fuel)%nat.

Local Notation state := (driver A pci_vars (usbsys (uhcisys H))).
Local Notation dev := (Uhci io fl).

Section one.
Variables (l : pci_vars) (t : list USBBus) (ds : gmap Z USBDevice) (m : gmap Z UHCIDevice).

Definition at_hw (p : A) (h : H) : state := Driver p l (UsbSys t ds (UhciSys m h)).

Lemma run_put {X} a x (k : unit -> hw state X) p h : mbind (modify (ram_put a x)) k (at_hw p h) = k tt (at_hw p (ram_put a x h)).
Proof. done. Qed.

Lemma run_inw {X} a v h' (k : Z -> hw state X) p h : io_in 2 a h = (v, h') -> mbind (inw a) k (at_hw p h) = k v (at_hw p h').
Proof. intros E. unfold mbind, inw. cbn. by rewrite E. Qed.

Lemma run_outw {X} a v (k : unit -> hw state X) p h : mbind (outw a v) k (at_hw p h) = k tt (at_hw p (io_out 2 a (u16 v) h)).
Proof. done. Qed.

(** The sixteen bytes of a descriptor. *)
Definition td_bytes (st : Z) (addr : Z) (p : USBPacket) : list Z := le_bytes 4 1 ++ le_bytes 4 st ++ le_bytes 4 (td_token addr 0 p) ++ le_bytes 4 (V2P (pk_buffer p)).

Lemma td_bytes_ok st addr p : bytes_ok (td_bytes st addr p) /\ zlen (td_bytes st addr p) = 16.
Proof. split; [|done]. unfold td_bytes. repeat (apply Forall_app; split); apply le_bytes_ok. Qed.

Lemma put_transfer_ok tdp addr num i p pl h : exists st h', put_transfer dev tdp addr 0 num i p (at_hw pl h) = Ret (tt, at_hw pl h') /\
  uregs_of h' = uregs_of h /\ Z.testbit st 23 = true /\ Z.testbit st 24 = (i =? num - 1) /\
  ram_eq (ram_put (fl + 4 * i) (le_bytes 4 (V2P (tdp + 16 * i))) (ram_put (tdp + 16 * i) (td_bytes st addr p) h)) h'.
Proof.
  unfold put_transfer, put_word. cbn [iobase frame_list]. rewrite run_put. set (a := tdp + 16 * i). set (h1 := ram_put a (le_bytes 4 1) h).
  destruct (uh_port h1) as (v & h2 & E2 & R2 & M2). rewrite (run_inw _ _ _ _ _ _ E2). set (st := td_status (Z.testbit v 8) (i =? num - 1)). rewrite !run_put.
  eexists st, (ram_put (fl + 4 * i) _ (ram_put (a + 12) _ (ram_put (a + 8) _ (ram_put (a + 4) _ h2)))). split; [reflexivity|]. split; [rewrite !uh_ram, R2; apply uh_ram|].
  split; [unfold st, td_status; by destruct (Z.testbit v 8), (i =? num - 1)|]. split; [unfold st, td_status; by destruct (Z.testbit v 8), (i =? num - 1)|].
  apply ram_put_eq; [apply le_bytes_ok|]. unfold td_bytes.
  etransitivity; [apply ram_put_app; [apply le_bytes_ok|repeat (apply Forall_app; split); apply le_bytes_ok]|]. change (zlen (le_bytes 4 1)) with 4.
  etransitivity; [apply ram_put_app; [apply le_bytes_ok|repeat (apply Forall_app; split); apply le_bytes_ok]|]. change (zlen (le_bytes 4 st)) with 4.
  etransitivity; [apply ram_put_app; apply le_bytes_ok|]. change (zlen (le_bytes 4 (td_token addr 0 p))) with 4.
  replace (a + 4 + 4 + 4) with (a + 12) by lia. replace (a + 4 + 4) with (a + 8) by lia. repeat (apply ram_put_eq; [apply le_bytes_ok|]). exact M2.
Qed.

Lemma ram_back a n x (h : H) : bytes_ok x -> zlen x = n -> ram_get a n (ram_put a x h) = x.
Proof. intros Hx <-. by apply ram_get_same. Qed.

(** The first descriptors are in place. *)
Record filled (tdp addr num : Z) (done : list USBPacket) (h0 h : H) : Prop := {
  fi_regs : uregs_of h = uregs_of h0;
  fi_td j p : done !! j = Some p -> exists st, ram_get (tdp + 16 * Z.of_nat j) 16 h = td_bytes st addr p /\ Z.testbit st 23 = true /\ Z.testbit st 24 = (Z.of_nat j =? num - 1);
  fi_frame j : (j < length done)%nat -> ram_get (fl + 4 * Z.of_nat j) 4 h = le_bytes 4 (V2P (tdp + 16 * Z.of_nat j));
  fi_rest j : (length done <= j < 1024)%nat -> ram_get (fl + 4 * Z.of_nat j) 4 h = le_bytes 4 1;
  fi_other a n : 0 <= n -> away a n tdp 4096 -> away a n fl 4096 -> ram_get a n h = ram_get a n h0
}.

Lemma put_transfers_ok tdp addr num pl packets h0 : frame_ok tdp -> tdp <> fl -> forall done h, filled tdp addr num done h0 h -> zlen done + zlen packets <= 256 ->
  exists h', put_transfers dev tdp addr 0 num (zlen done) packets (at_hw pl h) = Ret (tt, at_hw pl h') /\ filled tdp addr num (done ++ packets) h0 h'.
Proof.
  intros Ht Hne. pose proof (pages_apart tdp fl Ht fl_page Hne) as Hap.
  induction packets as [|p packets IH]; intros done h [F1 F2 F3 F4 F5] Hl; [rewrite app_nil_r; by exists h|].
  destruct (put_transfer_ok tdp addr num (zlen done) p pl h) as (st & h1 & E1 & R1 & B1 & B2 & M1).
  set (i := zlen done) in *. assert (Hi : 0 <= i /\ i = Z.of_nat (length done) /\ i + 1 <= 256) by (unfold i, zlen in *; cbn [length] in Hl; lia).
  destruct (td_bytes_ok st addr p) as [Tb Tz]. assert (Tw : forall w, bytes_ok (le_bytes 4 w)) by (intros w; apply le_bytes_ok). assert (Tl : forall w, zlen (le_bytes 4 w) = 4) by done.
  cbn [put_transfers]. rewrite (mbind_run _ _ _ _ _ E1).
  destruct (IH (done ++ [p]) h1) as (h' & E & Hf); [|unfold zlen in *; rewrite length_app; cbn [length] in *; lia|].
  2:{ exists h'. rewrite <- app_assoc in Hf. split; [|exact Hf]. unfold zlen in E. rewrite length_app in E. cbn [length] in E. replace (i + 1) with (Z.of_nat (length done + 1)) by lia. exact E. }
  constructor.
  - congruence.
  - intros j p' Hj. rewrite M1 by lia. apply lookup_snoc_Some in Hj as [[Hlt Hj]|[-> ->]].
    + destruct (F2 j p' Hj) as (st' & Es & ?). exists st'. split; [|done]. rewrite !ram_get_other by (first [apply Tw | apply Tb | rewrite ?Tl, ?Tz; lia]). exact Es.
    + exists st. rewrite <- (proj1 (proj2 Hi)). split; [|done]. rewrite ram_get_other by (first [apply Tw | rewrite ?Tl; lia]). by apply ram_back.
  - intros j Hj. rewrite length_app in Hj. cbn [length] in Hj. rewrite M1 by lia. destruct (decide (j = length done)) as [->|Hjn].
    + rewrite <- (proj1 (proj2 Hi)). by apply ram_back.
    + rewrite !ram_get_other by (first [apply Tw | apply Tb | rewrite ?Tl, ?Tz; lia]). apply F3. lia.
  - intros j Hj. rewrite length_app in Hj. cbn [length] in Hj. rewrite M1 by lia. rewrite !ram_get_other by (first [apply Tw | apply Tb | rewrite ?Tl, ?Tz; lia]). apply F4. lia.
  - intros a n Hn Ha1 Ha2. unfold away in *. rewrite M1 by lia. rewrite !ram_get_other by (first [apply Tw | apply Tb | rewrite ?Tl, ?Tz; lia]). by apply F5.
Qed.
(** The descriptors of the packets. *)
Definition tds_of (tdp addr : Z) (packets : list USBPacket) : list td :=
  imap (fun j p => Td (V2P (tdp + 16 * Z.of_nat j)) (td_token addr 0 p) (V2P (pk_buffer p))) packets.

Lemma tds_lookup tdp addr packets j d : tds_of tdp addr packets !! j = Some d ->
  exists p, packets !! j = Some p /\ d = Td (V2P (tdp + 16 * Z.of_nat j)) (td_token addr 0 p) (V2P (pk_buffer p)).
Proof. unfold tds_of. rewrite list_lookup_imap. destruct (packets !! j) as [p|]; [|done]. intros [= <-]. by exists p. Qed.

Lemma page_offset p i : frame_ok p -> 0 <= i < 4096 -> i mod 16 = 0 -> is_u32 (p + i) /\ P2V (V2P (p + i)) = p + i /\ V2P (p + i) mod 16 = 0.
Proof.
  intros Hp Hi Hm. destruct (frame_ok_range p Hp) as (Hu & _ & Hr). destruct Hp as [Ha Hk]. unfold PGSIZE, KERNBASE, PHYSTOP in *.
  assert (Hb : is_u32 (p + i)) by (unfold is_u32 in *; lia). split; [done|]. split; [by apply P2V_V2P|].
  unfold V2P, KERNBASE. rewrite u32_small by (unfold is_u32 in *; lia). Z.to_euclidean_division_equations. lia.
Qed.

Section transfer.
Variables (S : gset Z) (tdp addr : Z) (packets : list USBPacket).
Hypothesis S_pages : set_Forall frame_ok S.
Hypothesis fl_apart : fl ∉ S.
Hypothesis td_page : frame_ok tdp.
Hypothesis td_apart : tdp ∉ S.
Hypothesis td_fl : tdp <> fl.
Hypothesis addr_ok : 0 <= addr < 128.
Hypothesis some_packets : packets <> [].
Hypothesis few_packets : zlen packets <= 256.
Hypothesis packets_ok : Forall (packet_ok S) packets.

Lemma packet_fields p : packet_ok S p -> let tok := td_token addr 0 p in
  is_u32 tok /\ tok_type tok = Some (pk_type p) /\ tok_addr tok = addr /\ tok_endpoint tok = 0 /\ tok_toggle tok = pk_toggle p /\ tok_len tok = pk_len p /\ P2V (V2P (pk_buffer p)) = pk_buffer p.
Proof.
  intros [Ht Hm]. destruct (token_fields addr p addr_ok) as (? & ? & ? & ? & ? & ?); [destruct Hm as [[-> _]|[-> _]]; auto|done|]. split_and!; try done.
  apply P2V_V2P. destruct Hm as [[_ (q & Hq & Hb)]|[_ ->]]; [|done]. destruct (frame_ok_range q (S_pages q Hq)) as (Hu & _ & Hr). unfold is_u32, PGSIZE, KERNBASE, PHYSTOP in *. lia.
Qed.

(** Running the descriptors sends the packets. *)
Lemma run_one d p x : packet_ok S p -> run_td x (Td d (td_token addr 0 p) (V2P (pk_buffer p))) = send addr x p.
Proof.
  intros Hp. destruct (packet_fields p Hp) as (_ & E1 & E2 & E3 & E4 & E5 & E6). unfold run_td, td_packet. cbn [td_tok td_buf]. rewrite E3, E1, E2, E4, E5, E6. cbn [Z.eqb negb fmap option_fmap option_map].
  unfold send. cbn [pk_type pk_toggle pk_buffer]. assert (El : pk_len (Packet (pk_type p) (pk_len p) (pk_buffer p) (pk_toggle p)) = pk_len p) by (unfold pk_len; cbn; apply Z.mod_mod; lia). by rewrite El.
Qed.

Lemma run_all ps : Forall (packet_ok S) ps -> forall (f : nat -> Z) x,
  foldl run_td x (imap (fun j p => Td (f j) (td_token addr 0 p) (V2P (pk_buffer p))) ps) = foldl (send addr) x ps.
Proof.
  induction 1 as [|p ps Hp _ IH]; intros f x; [done|]. rewrite imap_cons. cbn [foldl]. rewrite run_one by done. apply (IH (fun j => f (Datatypes.S j))).
Qed.

Lemma run_tds x : foldl run_td x (tds_of tdp addr packets) = foldl (send addr) x packets.
Proof. by apply (run_all packets packets_ok (fun j => V2P (tdp + 16 * Z.of_nat j))). Qed.

Lemma tds_length : length (tds_of tdp addr packets) = length packets.
Proof. unfold tds_of. apply length_imap. Qed.

Lemma tds_place j p : packets !! j = Some p -> P2V (V2P (tdp + 16 * Z.of_nat j)) = tdp + 16 * Z.of_nat j /\ V2P (tdp + 16 * Z.of_nat j) mod 16 = 0 /\ 0 <= 16 * Z.of_nat j <= 4080.
Proof.
  intros Hj%lookup_lt_Some. unfold zlen in few_packets. destruct (page_offset tdp (16 * Z.of_nat j) td_page) as (_ & E1 & E2); [lia|by rewrite Z.mul_comm, Z_mod_mult|]. split_and!; [done|done|lia|lia].
Qed.

Lemma filled_scheduled h0 h : filled tdp addr (zlen packets) packets h0 h -> scheduled fl (tds_of tdp addr packets) h.
Proof.
  intros [F1 F2 F3 F4 F5]. unfold zlen in *. constructor; rewrite ?tds_length.
  - destruct packets; [done|]. cbn [length] in *. lia.
  - intros i d (p & Hp & ->)%tds_lookup. apply F3. by apply lookup_lt_Some in Hp.
  - intros i d (p & Hp & ->)%tds_lookup. cbn [td_at td_tok td_buf]. pose proof (Forall_lookup_1 _ _ _ _ packets_ok Hp) as Hok. split; [apply u32_range|]. split; [by apply packet_fields|apply u32_range].
  - intros i d (p & Hp & ->)%tds_lookup. destruct (tds_place i p Hp) as (E1 & E2 & _). cbn [td_at td_tok td_buf]. split; [done|]. rewrite E1. destruct (F2 i p Hp) as (st & Es & B1 & B2).
    exists st. split; [exact Es|]. split; [done|]. rewrite B2. destruct (Z.eqb_spec (Z.of_nat i) (Z.of_nat (length packets) - 1)); [by rewrite bool_decide_true by lia|by rewrite bool_decide_false by lia].
  - intros i Hi. apply F4. lia.
Qed.

Lemma tds_away : buffers_away fl (tds_of tdp addr packets).
Proof.
  apply Forall_lookup. intros i d (p & Hp & ->)%tds_lookup. cbn [td_tok td_buf]. pose proof (Forall_lookup_1 _ _ _ _ packets_ok Hp) as Hok.
  destruct (packet_fields p Hok) as (_ & _ & _ & _ & _ & -> & ->). destruct Hok as [_ [[Hm (q & Hq & Hb1 & Hb2)]|[Hm _]]]; unfold pk_len; rewrite Hm; [right|by left].
  change (8 mod 0x800) with 8. assert (Hq1 : q <> fl) by (by intros ->). assert (Hq2 : q <> tdp) by (by intros ->).
  pose proof (pages_apart q fl (S_pages q Hq) fl_page Hq1). pose proof (pages_apart q tdp (S_pages q Hq) td_page Hq2). split; [unfold away; lia|].
  apply Forall_lookup. intros j e (p' & Hp' & ->)%tds_lookup. destruct (tds_place j p' Hp') as (E1 & _ & Hj). cbn [td_at]. rewrite E1. unfold away. lia.
Qed.

Lemma scheduled_eq tds h h' : ram_eq h h' -> scheduled fl tds h -> scheduled fl tds h'.
Proof.
  intros E [S1 S2 S0 S3 S4]. constructor; [done|intros i d Hd; rewrite E by lia; by apply S2|done| |intros i Hi; rewrite E by lia; by apply S4].
  intros i d Hd. rewrite E by lia. by apply S3.
Qed.

Lemma send_ram_eq ps : forall bus h h', ram_eq h h' ->
  fst (foldl (send addr) (bus, h') ps) = fst (foldl (send addr) (bus, h) ps) /\ ram_eq (snd (foldl (send addr) (bus, h) ps)) (snd (foldl (send addr) (bus, h') ps)).
Proof.
  induction ps as [|p ps IH]; intros bus h h' E; [done|]. cbn [foldl]. unfold send at 2 4 6 8.
  assert (Hl : 0 <= pk_len p) by (unfold pk_len; apply Z.mod_pos_bound; lia).
  destruct (pk_type p); [|rewrite E by done; by apply IH..].
  destruct (deliver addr USB_PACKET_IN (pk_toggle p) [] bus) as [ans bus']. apply IH. apply ram_put_eq; [apply u8_bytes|done].
Qed.

(** The controller is waited for. *)
Lemma wait_done pl k : forall h, (uh_left h <= k)%nat -> uregs_of h = URegs (V2P fl) 0 true false (ur_bus (uregs_of h)) -> scheduled fl (tds_of tdp addr packets) h ->
  exists h' f, spin k (st <~ inw (io + UHCI_USBSTS); mret (negb (Z.testbit st 0))) (at_hw pl h) = Ret (tt, at_hw pl h') /\
    let '(bus, h2) := foldl (send addr) (ur_bus (uregs_of h), h) packets in
    uregs_of h' = URegs (V2P fl) f true true bus /\ forall a n, 0 <= n -> away a n tdp 4096 -> ram_get a n h' = ram_get a n h2.
Proof.
  induction k as [|k IH]; intros h Hk Hr Hs; cbn [spin].
  all: assert (Hfl : P2V (ur_frames (uregs_of h)) = fl) by (rewrite Hr; apply V2P_frame, fl_page).
  all: destruct (uh_poll (tds_of tdp addr packets) h) as (v & h1 & E1 & Hv); [by rewrite Hr|by rewrite Hr|by rewrite Hr|by rewrite Hfl|rewrite Hfl; apply tds_away|].
  all: rewrite mbind_assoc, (run_inw _ _ _ _ _ _ E1); unfold mbind at 1; cbn [mret obind fst snd].
  all: destruct Hv as [(-> & R1 & M1 & L1)|(-> & Hv)]; cbn [negb].
  1: lia.
  2:{ destruct (IH h1) as (h' & f & E & Hx); [lia|by rewrite R1|by eapply scheduled_eq|]. exists h', f. split; [exact E|]. rewrite R1 in Hx.
      destruct (send_ram_eq packets (ur_bus (uregs_of h)) h h1 M1) as [Eb Em].
      destruct (foldl (send addr) (ur_bus (uregs_of h), h1) packets) as [b1 h2]. destruct (foldl (send addr) (ur_bus (uregs_of h), h) packets) as [b0 h0]. cbn [fst snd] in *. subst b1.
      destruct Hx as [Hx1 Hx2]. split; [done|]. intros a n Hn Ha. rewrite Hx2 by done. by apply Em. }
  all: rewrite run_tds in Hv; destruct (foldl (send addr) (ur_bus (uregs_of h), h) packets) as [bus h2]; destruct Hv as [[f Hf] Hm]; exists h1, f; split; [done|]; rewrite Hr in Hf; split; [exact Hf|].
  all: intros a n Hn Ha; apply Hm; [done|]; apply Forall_lookup; intros j e (p & Hp & ->)%tds_lookup; destruct (tds_place j p Hp) as (E2 & _ & Hj); cbn [td_at]; rewrite E2; unfold away in *; lia.
Qed.
End transfer.

Lemma lor_bit v i : Z.testbit (Z.lor v 1) i = Z.testbit v i || (i =? 0).
Proof. rewrite Z.lor_spec. by f_equal. Qed.

Lemma u16_bits v : (forall i, 16 <= i -> Z.testbit v i = false) -> 0 <= v -> is_u16 v.
Proof. intros Hb Hv. unfold is_u16. split; [done|]. destruct (decide (v = 0)) as [->|Hz]; [done|]. apply Z.log2_lt_pow2; [lia|]. destruct (decide (Z.log2 v < 16)); [done|]. specialize (Hb (Z.log2 v) ltac:(lia)). rewrite Z.bit_log2 in Hb by lia. done. Qed.

Lemma u16_high v i : is_u16 v -> 16 <= i -> Z.testbit v i = false.
Proof. intros Hv Hi. unfold is_u16 in Hv. rewrite Z.testbit_false by lia. rewrite Z.div_small; [done|]. split; [lia|]. apply Z.lt_le_trans with (2 ^ 16); [lia|]. apply Z.pow_le_mono_r; lia. Qed.

Lemma uhci_run_ok pl h : ur_run (uregs_of h) = false ->
  exists h', uhci_run dev 0 (at_hw pl h) = Ret (tt, at_hw pl h') /\ uregs_of h' = set_ur_run true (set_ur_frame 0 (uregs_of h)) /\ ram_eq h h'.
Proof.
  intros Hr. unfold uhci_run. cbn [iobase]. rewrite run_outw. change (u16 0) with 0. destruct (uh_set_frame h Hr) as [R1 M1]. set (h1 := io_out 2 (io + UHCI_FRNUM) 0 h) in *.
  destruct (uh_command h1) as (v & h2 & E2 & Hv & B1 & B2 & R2 & M2). rewrite (run_inw _ _ _ _ _ _ E2). set (w := Z.lor v UHCI_USBCMD_RS).
  assert (Hw : is_u16 w) by (apply u16_bits; [intros i Hi; unfold w, UHCI_USBCMD_RS; rewrite lor_bit, (u16_high v) by done; cbn; apply Z.eqb_neq; lia|apply Z.lor_nonneg; unfold is_u16 in Hv; split; [lia|done]]).
  assert (Ew : u16 w = w) by (apply Z.mod_small; exact Hw). exists (io_out 2 (io + UHCI_USBCMD) w h2). split; [unfold outw; by rewrite Ew|].
  destruct (uh_set_command w h2 Hw) as [R3 M3]; [unfold w, UHCI_USBCMD_RS; by rewrite lor_bit, B1|unfold w, UHCI_USBCMD_RS; by rewrite lor_bit, B2|].
  split; [|by rewrite M1, M2]. rewrite R3, R2, R1. unfold w, UHCI_USBCMD_RS. by rewrite lor_bit, orb_true_r.
Qed.

Lemma uhci_stop_ok pl h : exists h', uhci_stop dev (at_hw pl h) = Ret (tt, at_hw pl h') /\ uregs_of h' = set_ur_run false (set_ur_done false (uregs_of h)) /\ ram_eq h h'.
Proof.
  unfold uhci_stop. cbn [iobase]. rewrite run_outw. change (u16 1) with 1. destruct (uh_clear h) as [R1 M1]. set (h1 := io_out 2 (io + UHCI_USBSTS) 1 h) in *.
  destruct (uh_command h1) as (v & h2 & E2 & Hv & B1 & B2 & R2 & M2). rewrite (run_inw _ _ _ _ _ _ E2). set (w := Z.land v (Z.lnot UHCI_USBCMD_RS)).
  assert (Bw : forall i, 0 <= i -> Z.testbit w i = Z.testbit v i && negb (i =? 0)).
  { intros i Hi. unfold w, UHCI_USBCMD_RS. rewrite Z.land_spec, Z.lnot_spec by done. by do 2 f_equal. }
  assert (Hw : is_u16 w) by (apply u16_bits; [intros i Hi; rewrite Bw, (u16_high v) by (done || lia); done|apply Z.land_nonneg; unfold is_u16 in Hv; left; lia]).
  assert (Ew : u16 w = w) by (apply Z.mod_small; exact Hw). exists (io_out 2 (io + UHCI_USBCMD) w h2). split; [unfold outw; by rewrite Ew|].
  destruct (uh_set_command w h2 Hw) as [R3 M3]; [by rewrite Bw, B1|by rewrite Bw, B2|].
  split; [|by rewrite M1, M2]. rewrite R3, R2, R1, Bw by done. by rewrite andb_false_r.
Qed.

(** An empty frame list. *)
Lemma empty_frames_ok : bytes_ok empty_frames /\ zlen empty_frames = 4096.
Proof. split; [|by vm_compute]. unfold empty_frames. apply Forall_concat, Forall_forall. intros x Hx%list_elem_of_In%repeat_spec. subst x. apply le_bytes_ok. Qed.

Lemma empty_frames_slice i : 0 <= i < 1024 -> slice (4 * i) 4 empty_frames = le_bytes 4 1.
Proof.
  intros Hi. assert (Hall : forallb (fun i => bool_decide (slice (4 * i) 4 empty_frames = le_bytes 4 1)) (seqZ 0 1024) = true) by (by vm_compute).
  rewrite forallb_forall in Hall. specialize (Hall i). rewrite bool_decide_eq_true in Hall. apply Hall, list_elem_of_In, elem_of_seqZ. lia.
Qed.

Lemma cleared_filled tdp addr num h : filled tdp addr num [] (ram_put fl empty_frames h) (ram_put fl empty_frames h).
Proof.
  destruct empty_frames_ok as [Hb Hl]. constructor; [done|intros j p Hj; done|cbn; lia| |done].
  intros j Hj. rewrite (ram_slice fl 4096) by lia. rewrite ram_back by done. apply empty_frames_slice. lia.
Qed.
End one.

Lemma alloc_free_set p (held : gset Z) : p ∉ held -> ({[p]} ∪ held) ∖ {[p]} = held.
Proof.
  intros Hp. apply set_eq. intros y. rewrite elem_of_difference, elem_of_union, elem_of_singleton. split; [intros [[->|] ?]; done|intros Hy; split; [by right|by intros ->]].
Qed.

(** The registers of the controller between transfers. *)
Definition stopped (h : H) : Prop := exists f, uregs_of h = URegs (V2P fl) f false false (ur_bus (uregs_of h)).

(** The packets of a transfer go over the bus in order; memory of the client is
    changed by what is received, and no page is kept. *)
Lemma uhci_transfer_ok pl l t ds m h held n addr packets : m !! priv = Some dev -> stopped h -> pa_holds pl held n -> set_Forall frame_ok held -> 1 <= n -> fl ∈ held ->
  0 <= addr < 128 -> zlen packets <= 256 -> packets <> [] -> Forall (packet_ok (held ∖ {[fl]})) packets ->
  exists pl' h', uhci_transfer_packet fuel priv addr 0 packets (at_hw l t ds m pl h) = Ret (USB_STATUS_OK, at_hw l t ds m pl' h') /\ pa_holds pl' held n /\ stopped h' /\
    let '(bus, h2) := foldl (send addr) (ur_bus (uregs_of h), h) packets in ur_bus (uregs_of h') = bus /\ pages_eq (held ∖ {[fl]}) h2 h'.
Proof.
  intros Hm [f0 Hst] Hp Hfr Hn Hfl Ha Hlen Hne Hok. set (S := held ∖ {[fl]}) in *.
  assert (HS : set_Forall frame_ok S) by (intros y [Hy _]%elem_of_difference; by apply Hfr).
  assert (HflS : fl ∉ S) by (intros [_ Hy]%elem_of_difference; by apply Hy, elem_of_singleton).
  unfold uhci_transfer_packet. rewrite (mbind_run (get_uhci priv) _ (at_hw l t ds m pl h) dev (at_hw l t ds m pl h)) by (unfold get_uhci; cbn; by rewrite Hm).
  unfold clear_frames. cbn [frame_list iobase]. rewrite run_put. set (h1 := ram_put fl empty_frames h).
  destruct (pa_alloc_law pl held n Hp) as (tdp & pl1 & E1 & Ntd & Ftd & Hp1); [lia|].
  rewrite (mbind_run d_kalloc _ (at_hw l t ds m pl h1) tdp (at_hw l t ds m pl1 h1)) by (unfold d_kalloc; cbn; by rewrite E1).
  rewrite (mbind_run (mlift _) _ (at_hw l t ds m pl1 h1) tt (at_hw l t ds m pl1 h1)) by (rewrite (proj2 (Z.leb_le _ _) Hlen); done).
  assert (HtS : tdp ∉ S) by (intros [Hy _]%elem_of_difference; done). assert (Htf : tdp <> fl) by (by intros ->).
  destruct (put_transfers_ok l t ds m tdp addr (zlen packets) pl1 packets h1 Ftd Htf [] h1 (cleared_filled _ _ _ h)) as (h2 & E2 & Hfi); [unfold zlen in *; cbn; lia|].
  change (zlen (@nil USBPacket)) with 0 in E2. rewrite (mbind_run _ _ _ _ _ E2). cbv beta. rewrite app_nil_l in Hfi.
  assert (R2 : uregs_of h2 = uregs_of h) by (rewrite (fi_regs _ _ _ _ _ _ Hfi); apply uh_ram).
  destruct (uhci_run_ok l t ds m pl1 h2) as (h3 & E3 & R3 & M3); [by rewrite R2, Hst|]. rewrite (mbind_run _ _ _ _ _ E3). cbv beta.
  assert (Hsc : scheduled fl (tds_of tdp addr packets) h3) by (eapply scheduled_eq; [exact M3|]; eapply filled_scheduled; eauto).
  destruct (wait_done l t ds m S tdp addr packets HS HflS Ftd HtS Htf Ha Hlen Hok pl1 fuel h3) as (h4 & f4 & E4 & Hx); [|by rewrite R3, R2, Hst|done|].
  { etransitivity; [apply uh_bound|exact fuel_enough]. }
  rewrite (mbind_run _ _ _ _ _ E4). cbv beta.
  destruct (uhci_stop_ok l t ds m pl1 h4) as (h5 & E5 & R5 & M5). rewrite (mbind_run _ _ _ _ _ E5). cbv beta.
  destruct (pa_free_law pl1 _ _ tdp Hp1) as (pl2 & E6 & Hp2); [by apply elem_of_union_l, elem_of_singleton|].
  rewrite (mbind_run (d_kfree tdp) _ (at_hw l t ds m pl1 h5) tt (at_hw l t ds m pl2 h5)) by (unfold d_kfree; cbn; by rewrite E6).
  rewrite alloc_free_set in Hp2 by done. replace (n - 1 + 1) with n in Hp2 by lia.
  exists pl2, h5. split; [done|]. split; [done|].
  assert (Hpg : pages_eq S h h3).
  { etransitivity; [apply (put_elsewhere S h fl empty_frames HS fl_page HflS); [apply empty_frames_ok|by rewrite (proj2 empty_frames_ok)]|]. etransitivity; [|apply ram_pages_eq, M3].
    intros a k Hk (q & Hq & Hb). apply (fi_other _ _ _ _ _ _ Hfi); [done|..];
      [destruct (pages_apart q tdp) as [?|?]; [by apply HS|done|by intros ->|..]|destruct (pages_apart q fl) as [?|?]; [by apply HS|done|by intros ->|..]]; unfold away; lia. }
  assert (R3' : ur_bus (uregs_of h3) = ur_bus (uregs_of h)) by (by rewrite R3, R2). rewrite R3' in Hx.
  destruct (send_pages_eq S addr packets HS Hok (ur_bus (uregs_of h)) h h3 Hpg) as [Eb Em].
  destruct (foldl (send addr) (ur_bus (uregs_of h), h3) packets) as [b1 g1]. destruct (foldl (send addr) (ur_bus (uregs_of h), h) packets) as [b0 g0]. cbn [fst snd] in *. subst b1.
  destruct Hx as [R4 M4]. rewrite R5, R4. cbn. split; [exists f4; by rewrite R5, R4|]. split; [done|].
  intros a k Hk (q & Hq & Hb). rewrite M5 by done. rewrite M4; [apply Em; [done|by exists q]|done|].
  destruct (pages_apart q tdp) as [?|?]; [by apply HS|done|by intros ->|..]; unfold away; lia.
Qed.

(** The table of controllers is beside the machine. *)
Lemma send_beside m addr packets : forall bus h, foldl (send addr) (bus, UhciSys m h) packets = (let '(b, h') := foldl (send addr) (bus, h) packets in (b, UhciSys m h')).
Proof.
  induction packets as [|p ps IH]; intros bus h; [done|]. cbn [foldl]. unfold send at 2 4. destruct (pk_type p); [|apply IH..].
  destruct (deliver addr USB_PACKET_IN (pk_toggle p) [] bus) as [ans bus']. apply IH.
Qed.

#[refine] Instance uhci_controller : HostController (uhci_usbhc_driver (A := A) (H := H) fuel) priv := {
  hc_bus x := ur_bus (uregs_of (r_hw x));
  hc_ok x := uhci_devs x !! priv = Some dev /\ stopped (r_hw x);
  hc_own := {[fl]}
}.
Proof.
  - intros a x h. cbn. by rewrite uh_ram.
  - intros a x h [Hd [f Hf]]. split; [done|]. exists f. cbn. by rewrite uh_ram.
  - intros s held n addr packets [Hd Hst] Hp Hfr Hn Hown Ha Hl Hne Hok.
    destruct s as [pl l [t ds [m h]]]. cbn in Hd, Hst.
    destruct (uhci_transfer_ok pl l t ds m h held n addr packets) as (pl' & h' & E & Hp' & Hst' & Hx); try done; [by apply Hown, elem_of_singleton|].
    exists pl', (UhciSys m h'). split; [exact E|]. split; [done|]. split; [done|]. cbn.
    rewrite send_beside. destruct (foldl (send addr) (ur_bus (uregs_of h), h) packets) as [bus h2]. destruct Hx as [Hx1 Hx2]. split; [done|]. exact Hx2.
Defined.
End controller.

(** ** A controller with one device *)

Record toy_uhci := ToyUhci { tu_regs : uregs; tu_ram : Z -> Z; tu_busy : bool }.

Definition toy_io : Z := 0xc000.

(** The descriptors of the frames from [i] on. *)
Fixpoint fetch_tds (n : nat) (fl : Z) (ram : Z -> Z) (i : Z) : list td :=
  match n with
  | O => []
  | S n' =>
    let w := le_val (fget ram (fl + 4 * i) 4) in
    if Z.testbit w 0 then [] else Td w (le_val (fget ram (P2V w + 8) 4)) (le_val (fget ram (P2V w + 12) 4)) :: fetch_tds n' fl ram (i + 1)
  end.

(** Memory alone. *)
Definition toy_ram_machine : Machine (Z -> Z) := {|
  io_in w p h := (0, h); io_out w p v h := h; mm_load w a h := (0, h); mm_store w a v h := h;
  ram_get a n h := fget h a n; ram_put b l h := fput b l h
|}.

(** The controller works between two looks. *)
Definition toy_poll (h : toy_uhci) : Z * toy_uhci :=
  let r := tu_regs h in
  if negb (ur_run r) || ur_done r then (if ur_done r then 1 else 0, h)
  else if tu_busy h then (0, ToyUhci r (tu_ram h) false)
  else let '(bus, ram) := foldl (run_td (H0 := toy_ram_machine)) (ur_bus r, tu_ram h) (fetch_tds 1024 (P2V (ur_frames r)) (tu_ram h) 0) in
    (1, ToyUhci (URegs (ur_frames r) 1 true true bus) ram true).

#[local] Instance toy_uhci_machine : Machine toy_uhci := {
  io_in w p h :=
    if p =? toy_io + UHCI_USBSTS then toy_poll h
    else if p =? toy_io + UHCI_USBCMD then (if ur_run (tu_regs h) then 1 else 0, h)
    else (5, h);
  io_out w p v h :=
    if p =? toy_io + UHCI_USBCMD then ToyUhci (set_ur_run (Z.testbit v 0) (tu_regs h)) (tu_ram h) (tu_busy h)
    else if p =? toy_io + UHCI_FRNUM then ToyUhci (set_ur_frame v (tu_regs h)) (tu_ram h) (tu_busy h)
    else if p =? toy_io + UHCI_USBSTS then ToyUhci (set_ur_done false (tu_regs h)) (tu_ram h) (tu_busy h)
    else h;
  mm_load w a h := (0, h);
  mm_store w a v h := h;
  ram_get a n h := fget (tu_ram h) a n;
  ram_put b l h := ToyUhci (tu_regs h) (fput b l (tu_ram h)) (tu_busy h)
}.

#[local] Instance toy_uhci_ram : RamLaws toy_uhci.
Proof.
  constructor; cbn [ram_get ram_put toy_uhci_machine tu_ram].
  - intros a n h. apply fget_len.
  - intros a n h. apply fget_bytes.
  - intros a n b l h. apply fget_fput.
  - intros a n i m h. apply fget_slice.
Qed.

Lemma le_word w : is_u32 w -> le_val (le_bytes 4 w) = w.
Proof. intros Hw. by apply (le_val_bytes 4). Qed.

Lemma slice_words (w1 w2 w3 w4 : Z) : slice 8 4 (le_bytes 4 w1 ++ le_bytes 4 w2 ++ le_bytes 4 w3 ++ le_bytes 4 w4) = le_bytes 4 w3 /\
  slice 12 4 (le_bytes 4 w1 ++ le_bytes 4 w2 ++ le_bytes 4 w3 ++ le_bytes 4 w4) = le_bytes 4 w4.
Proof. done. Qed.

Lemma fetch_ok fl h tds : scheduled fl tds h -> forall k i, (i <= length tds)%nat -> (i + k = 1024)%nat -> fetch_tds k fl (tu_ram h) (Z.of_nat i) = drop i tds.
Proof.
  intros [S1 S2 S0 S3 S4] k. induction k as [|k IH]; intros i Hi Hk; cbn [fetch_tds]; [rewrite drop_ge; [done|lia]|].
  destruct (tds !! i) as [d|] eqn:Ed.
  - destruct (S0 i d Ed) as (W1 & W2 & W3). destruct (S3 i d Ed) as (Hal & st & Et & _). pose proof (S2 i d Ed) as Ef. cbn [ram_get toy_uhci_machine] in Ef, Et. rewrite Ef, le_word by done.
    assert (Hbit : Z.testbit (td_at d) 0 = false) by (rewrite Z.bit0_odd, <- Z.negb_even, negb_false_iff; apply Z.even_spec; exists (td_at d / 16 * 8); Z.to_euclidean_division_equations; lia).
    rewrite Hbit. rewrite (fget_slice _ (P2V (td_at d)) 16 8 4), (fget_slice _ (P2V (td_at d)) 16 12 4), Et by lia.
    destruct (slice_words 1 st (td_tok d) (td_buf d)) as [-> ->]. rewrite !le_word by done. rewrite (drop_S _ d) by done. replace (Z.of_nat i + 1) with (Z.of_nat (S i)) by lia.
    apply lookup_lt_Some in Ed. rewrite IH by lia. by destruct d.
  - apply lookup_ge_None in Ed. rewrite drop_ge by lia. pose proof (S4 i ltac:(lia)) as Ef. cbn [ram_get toy_uhci_machine] in Ef. by rewrite Ef, le_word.
Qed.

(** What the packets do to memory does not depend on the registers. *)
Lemma run_td_ram tds : forall bus r ram b, foldl run_td (bus, ToyUhci r ram b) tds =
  (let '(bus', ram') := foldl (run_td (H0 := toy_ram_machine)) (bus, ram) tds in (bus', ToyUhci r ram' b)).
Proof.
  induction tds as [|d tds IH]; intros bus r ram b; [done|]. cbn [foldl]. unfold run_td at 2 4. destruct (td_packet d) as [p|]; [|apply IH].
  unfold send. destruct (pk_type p); [|apply IH..]. destruct (deliver _ _ _ _ bus) as [ans bus']. apply IH.
Qed.

#[local, refine] Instance toy_uhci_hw : UhciHw toy_uhci toy_io := { uregs_of := tu_regs; uh_left h := if tu_busy h then 1%nat else 0%nat; uh_max := 1%nat }.
Proof.
  - intros h. destruct (tu_busy h); lia.
  - done.
  - intros h. by eexists _, h.
  - intros h. eexists _, h. split; [reflexivity|]. by destruct (ur_run (tu_regs h)).
  - done.
  - done.
  - done.
  - intros tds h Hr Hd _ Hs Ha. cbn [io_in toy_uhci_machine]. rewrite Z.eqb_refl. unfold toy_poll. rewrite Hr, Hd. cbn [negb orb].
    destruct (tu_busy h) eqn:Eb; [eexists _, _; split; [reflexivity|]; left; cbn; by split_and!; [..|lia]|].
    pose proof (fetch_ok _ h tds Hs 1024 0 ltac:(lia) ltac:(lia)) as Ef. change (Z.of_nat 0) with 0 in Ef. rewrite Ef, drop_0. clear Ef. destruct h as [r ram b]. cbn [tu_regs tu_ram tu_busy] in *. subst b. rewrite run_td_ram.
    destruct (foldl (run_td (H0 := toy_ram_machine)) (ur_bus r, ram) tds) as [bus ram']. eexists _, _. split; [reflexivity|]. right. split; [done|]. split; [by eexists|]. done.
Defined.

#[local] Existing Instances list_allocator list_allocator_laws.

(** A hub. *)
Definition ex_desc : list Z := [18; 1; 0x10; 1; 9; 0; 0; 8; 0x09; 0x04; 0x55; 0xaa; 0; 1; 1; 2; 3; 1].
Definition ex_head : list Z := [9; 2; 25; 0; 1; 7; 0; 0xe0; 0].
Definition ex_descs : list (list Z) := [[9; 4; 0; 0; 1; 9; 0; 0; 0]; [7; 5; 0x81; 3; 8; 0; 10]].
Definition ex_hub : ufn := Ufn 0 0 ex_desc (ex_head ++ concat ex_descs) Idle.

Definition ex_frames : Z := 0x80500000.
Definition ex_uhci : driver (list Z) pci_vars (usbsys (uhcisys toy_uhci)) :=
  Driver [0x80400000; 0x80401000; 0x80402000; 0x80403000; 0x80404000] (PciVars [] [] [])
    (UsbSys (UsbBus 77 0x80501000 2 (repeat 0 128) :: repeat no_bus 15) ∅
      (UhciSys {[0x80501000 := Uhci toy_io ex_frames]} (ToyUhci (URegs (V2P ex_frames) 5 false false [ex_hub]) (fun _ => 7) true))).

Definition ex_hc (p : Z) : USBHostControllerDriver (driver (list Z) pci_vars (usbsys (uhcisys toy_uhci))) := uhci_usbhc_driver 1.

Lemma ex_frame_list_ok : frame_ok ex_frames.
Proof. split; [done|by vm_compute]. Qed.

#[local] Instance ex_controller : HostController (ex_hc 77) 0x80501000 := uhci_controller toy_io ex_frames 0x80501000 1 ex_frame_list_ok (le_n 1).

Lemma ex_config_ok : config_ok (u_cfg ex_hub) ex_head ex_descs.
Proof.
  constructor; [done|by apply (bool_decide_unpack _)|done|done|by vm_compute| |by apply (bool_decide_unpack _)].
  repeat apply Forall_cons_2; [| |by apply Forall_nil_2]; (split; [by apply (bool_decide_unpack _)|]; split; [by vm_compute|]; split; [done|by vm_compute]).
Qed.

Lemma usb_register_device_enumerates_witness : exists dev s', usb_register_device ex_hc 2 0 0 1 ex_uhci = Ret (tt, s') /\
  usb_devs (dhw s') !! dev = Some (UsbDev 0 1 1 0x409 0xaa55 1 1 9 0 0 (UsbIf 0 dev 0 9 0 0 1 :: repeat no_interface 15)) /\
  ur_bus (tu_regs (r_hw (u_hw (dhw s')))) = [Ufn 1 7 ex_desc (ex_head ++ concat ex_descs) Idle].
Proof.
  destruct (usb_register_device_enumerates (A := list Z) (L := pci_vars) (H := uhcisys toy_uhci) ex_hc 77 0x80501000 2 0 0 1 {[ex_frames]} 5 (PciVars [] [] [])
    (UsbBus 77 0x80501000 2 (repeat 0 128) :: repeat no_bus 15) ∅ [] ex_hub [] ex_uhci (UsbBus 77 0x80501000 2 (repeat 0 128)) ex_head ex_descs)
    as (a & dev & s' & E & Ha & _ & Hb & _ & Hr).
  - constructor; try done.
    + split; [by apply (bool_decide_unpack _)|]. split; [by repeat constructor|]. split; [apply set_Forall_singleton, ex_frame_list_ok|]. split; [|done].
      intros p Hp ->%elem_of_singleton. revert Hp. by apply (bool_decide_unpack _).
    + apply set_Forall_singleton, ex_frame_list_ok.
    + split; [done|]. by exists 5.
  - done.
  - done.
  - done.
  - done.
  - done.
  - done.
  - by left.
  - done.
  - done.
  - by apply (bool_decide_unpack _).
  - done.
  - exact ex_config_ok.
  - done.
  - assert (a = 1) as ->.
    { destruct (decide (a = 1)) as [|Hne]; [done|]. destruct (Hb 1 ltac:(lia)) as (p & Ep & Np). change (Some 0 = Some p) in Ep. injection Ep as <-. exfalso. exact (Np eq_refl). }
    exists dev, s'. destruct Hr as [_ _ _ _ Hd _ Hbus]. split; [exact E|]. split; [|exact Hbus]. rewrite Hd. exact (lookup_insert_eq _ dev _).
Defined.
