(* ===== verification/Ata.v ===== *)
(** kernel/driver/ata: ATA disks on a parallel controller.

    The commands of pata.c with programmed and bus-master transfers, the
    identification, reads and writes of ata.c, and the set-up of the controller of
    adapter.c.  The controller is set up from the
    registers of its PCI function.  It, its drives and the memory the transfers go to are
    the machine; waits for the drive are loops with fuel.  The serial transport is
    an argument: the two operations of sata.c, which Ahci gives.

    The theorems: on a drive that follows the PIO protocol of the ATA standard a
    read puts exactly the sectors asked for in memory, a write changes exactly
    these sectors, whatever the drive's delays: any sequence of requests has the
    results it has on an array of sectors. *)

From stdpp Require Import base list strings.
From Stdlib Require Import ZArith Lia.
From S2P Require Import Prelude Mmu Vm HalBlock Machine Ioapic Hid Pci.

Local Open Scope Z_scope.
Local Open Scope hw_scope.

Inductive ATATransport := ATA_TRANSPORT_PARALLEL_ATA | ATA_TRANSPORT_SERIAL_ATA.

#[export] Instance transport_eq_dec : EqDecision ATATransport.
Proof. solve_decision. Defined.

Definition ATA_COMMAND_READ_SECTOR : Z := 0x20.
Definition ATA_COMMAND_WRITE_SECTOR : Z := 0x30.
Definition ATA_COMMAND_READ_DMA : Z := 0xc8.
Definition ATA_COMMAND_WRITE_DMA : Z := 0xca.
Definition ATA_COMMAND_IDENTIFY : Z := 0xec.

(** Registers of the command block. *)
Definition PATA_IO_DATA : Z := 0.
Definition PATA_IO_COUNT : Z := 2.
Definition PATA_IO_LBALO : Z := 3.
Definition PATA_IO_LBAMID : Z := 4.
Definition PATA_IO_LBAHI : Z := 5.
Definition PATA_IO_DRIVE : Z := 6.
Definition PATA_IO_STATUS : Z := 7.
Definition PATA_IO_COMMAND : Z := 7.

Definition PATA_DRIVE_DEFAULT : Z := 0xe0.
Definition PATA_DRIVE_DRV_BIT : Z := 4.
Definition PATA_STATUS_ERR : Z := 1.
Definition PATA_STATUS_BSY : Z := 128.
Definition PATA_SIGNATURE_DISK : Z := 0x01010000.
Definition PATA_SIGNATURE_PACKET : Z := 0x010114eb.

(** The locks of the two channels are variables of the driver. *)
Record PATAAdapter := Adapter {
  cmdblock_base : list Z;
  control_base : list Z;
  bus_master_base : Z;
  bus_master : bool;
  pci_native : bool;
  prd : list Z
}.

Record PATADevice := PataDev { channel : Z; drive : Z; use_dma : bool; dma : Z; pio : Z; mdma : Z; udma : Z }.

Record SATADevice := SataDev {
  port : Z;
  ncq_queue_depth : Z;
  support_ncq : bool;
  support_ncq_priority_info : bool;
  support_ncq_streaming : bool;
  support_ncq_queue_mgmt_cmd : bool;
  support_receive_send_fpdma_queued : bool
}.

(** Both arms of the union; [transport] says which is meant. *)
Record ATADevice := AtaDev {
  transport : ATATransport;
  sectors : Z;
  ata_rev : Z;
  support_lba48 : bool;
  pata : PATADevice;
  sata : SATADevice
}.

(** [memset] of a new device. *)
Definition new_ata_device : ATADevice :=
  AtaDev ATA_TRANSPORT_PARALLEL_ATA 0 0 false (PataDev 0 0 false 0 0 0 0) (SataDev 0 0 false false false false false).

(** ** Identification *)

(** Word [i] of the identification block. *)
Definition iword (identify : list Z) (i : Z) : Z := get16 (2 * i) identify.

(** [for (i = lo; i <= hi; i++) if (w & (1 << i)) r = i;] *)
Definition last_bit (w lo hi r : Z) : Z := foldl (fun r i => if Z.testbit w i then i else r) r (seqZ lo (hi - lo + 1)).

(** The model: 40 characters with the bytes of each word swapped, cut at the first
    two spaces; [buf] is the array before. *)
Definition model_bytes (identify : list Z) : list Z :=
  seqZ 0 20 ≫= (fun i => let w := iword identify (27 + i) in [Z.shiftr w 8; u8 w]).

Fixpoint cut_model (n : nat) (i : Z) (model : list Z) : list Z :=
  match n with
  | O => model
  | S n' =>
    if (default 0 (zget model i) =? 32) && (default 0 (zget model (i + 1)) =? 32) then splice i [0] model
    else cut_model n' (i + 1) model
  end.

Definition identify_model (identify buf : list Z) : list Z :=
  splice 40 [0] (cut_model 40 0 (splice 0 (model_bytes identify) buf)).

(** What the identification block says about the device. *)
Definition identify_pata (identify : list Z) (p : PATADevice) : PATADevice :=
  PataDev (channel p) (drive p) (use_dma p)
    (if Z.testbit (iword identify 49) 8 then 1 else dma p)
    (if Z.land (iword identify 64) 3 =? 0 then 2 else 4)
    (last_bit (iword identify 63) 0 2 (mdma p))
    (last_bit (iword identify 88) 0 6 (udma p)).

Definition identify_sata (identify : list Z) (p : SATADevice) : SATADevice :=
  SataDev (port p) (Z.land (iword identify 75) 0x1f + 1)
    (Z.testbit (iword identify 76) 8 || support_ncq p)
    (Z.testbit (iword identify 76) 12 || support_ncq_priority_info p)
    (Z.testbit (iword identify 77) 4 || support_ncq_streaming p)
    (Z.testbit (iword identify 77) 5 || support_ncq_queue_mgmt_cmd p)
    (Z.testbit (iword identify 77) 6 || support_receive_send_fpdma_queued p).

Definition identify_device (identify : list Z) (dev : ATADevice) : ATADevice :=
  AtaDev (transport dev)
    (u32 (iword identify 60 + Z.shiftl (iword identify 61) 16))
    (last_bit (iword identify 80) 1 14 (ata_rev dev))
    (Z.testbit (iword identify 83) 10 || support_lba48 dev)
    (if decide (transport dev = ATA_TRANSPORT_PARALLEL_ATA) then identify_pata identify (pata dev) else pata dev)
    (if decide (transport dev = ATA_TRANSPORT_SERIAL_ATA) then identify_sata identify (sata dev) else sata dev).

(** ** Commands *)

Section transfers.
Context {M : Type} `{Machine M}.
(** Turns of each loop that waits for the drive. *)
Variable fuel : nat.

(** Drive, sector count, sector and command. *)
Definition send_command (base drv cmd lba count : Z) : hw M unit :=
  outb (base + PATA_IO_DRIVE) (Z.lor (Z.lor PATA_DRIVE_DEFAULT (Z.shiftl drv PATA_DRIVE_DRV_BIT)) (Z.land (Z.shiftr lba 24) 0xf)) ;>
  outb (base + PATA_IO_COUNT) count ;>
  outb (base + PATA_IO_LBALO) (Z.land lba 0xff) ;>
  outb (base + PATA_IO_LBAMID) (Z.land (Z.shiftr lba 8) 0xff) ;>
  outb (base + PATA_IO_LBAHI) (Z.land (Z.shiftr lba 16) 0xff) ;>
  outb (base + PATA_IO_COMMAND) cmd.

Definition wait_busy (base : Z) : hw M unit :=
  spin fuel (s <~ inb (base + PATA_IO_STATUS); mret (negb (Z.land s PATA_STATUS_BSY =? 0))).

Definition failed (status : Z) : bool := (status =? 0) || negb (Z.land status PATA_STATUS_ERR =? 0).

(** One block after the other; [-1] when the drive reports an error. *)
Fixpoint pio_blocks (xfer : Z -> hw M unit) (base buf : Z) (n : nat) : hw M Z :=
  match n with
  | O => mret 0
  | S n' =>
    wait_busy base ;>
    status <~ inb (base + PATA_IO_STATUS);
    if failed status then mret (-1)
    else xfer buf ;> pio_blocks xfer base (buf + 512) n'
  end.
End transfers.

Section commands.
Context {A H : Type} `{PageAllocator A} `{Machine H}.
(** Turns of each loop that waits for the drive. *)
Variable fuel : nat.

Local Notation state := (driver A (list bool) H).

Definition lock_channel (ch : Z) : hw state unit :=
  ls <~ get_local; ls' <~ mlift (obind (of_option (zget ls ch)) (fun l => obind (acquire_b l) (fun l' => of_option (zset ls ch l')))); put_local ls'.
Definition unlock_channel (ch : Z) : hw state unit :=
  ls <~ get_local; ls' <~ mlift (obind (of_option (zget ls ch)) (fun l => obind (release_b l) (fun l' => of_option (zset ls ch l')))); put_local ls'.

Definition iobase (ad : PATAAdapter) (ch : Z) : hw state Z := mlift (of_option (zget (cmdblock_base ad) ch)).

(** [udelay] and [mdelay] only let time pass. *)
Definition pata_read_signature (ad : PATAAdapter) (ch drv : Z) : hw state Z :=
  base <~ iobase ad ch;
  outb (base + PATA_IO_DRIVE) (Z.lor PATA_DRIVE_DEFAULT (Z.shiftl drv PATA_DRIVE_DRV_BIT)) ;>
  c <~ inb (base + PATA_IO_COUNT);
  l <~ inb (base + PATA_IO_LBALO);
  m <~ inb (base + PATA_IO_LBAMID);
  h <~ inb (base + PATA_IO_LBAHI);
  mret (u32 (Z.lor (Z.lor (Z.lor (Z.shiftl c 24) (Z.shiftl l 16)) (Z.shiftl m 8)) h)).

Definition pata_bus_reset (ad : PATAAdapter) (ch : Z) : hw state unit :=
  ctl <~ mlift (of_option (zget (control_base ad) ch));
  outb ctl (Z.shiftl 1 2) ;> outb ctl 0.

Definition pata_exec_pio_in (ad : PATAAdapter) (ch drv cmd lba count buf blocks : Z) : hw state Z :=
  base <~ iobase ad ch;
  lock_channel ch ;>
  send_command base drv cmd lba count ;>
  r <~ pio_blocks fuel (fun a => insw (base + PATA_IO_DATA) a 256) base buf (Z.to_nat blocks);
  unlock_channel ch ;> mret r.

Definition pata_exec_pio_out (ad : PATAAdapter) (ch drv cmd lba count buf blocks : Z) : hw state Z :=
  base <~ iobase ad ch;
  lock_channel ch ;>
  send_command base drv cmd lba count ;>
  r <~ pio_blocks fuel (fun a => outsw (base + PATA_IO_DATA) a 256) base buf (Z.to_nat blocks);
  (if r =? 0 then wait_busy fuel base else mret tt) ;>
  unlock_channel ch ;> mret r.

(** *** Bus-master transfers *)

Definition bmdma_base (ad : PATAAdapter) (ch : Z) : Z := u16 (bus_master_base ad + ch * 8).

Definition pata_adapter_bmdma_init (ad : PATAAdapter) (ch drv : Z) : hw state unit :=
  s <~ inb (bmdma_base ad ch + 2);
  outb (bmdma_base ad ch + 2) (Z.lor s (Z.lor (Z.shiftl 1 (5 + drv)) 6)).

(** One region: address, size and end mark. *)
Definition pata_adapter_bmdma_prepare (ad : PATAAdapter) (ch addr size : Z) : hw state unit :=
  p <~ mlift (of_option (zget (prd ad) ch));
  modify (ram_put p (le_bytes 4 addr)) ;>
  modify (ram_put (p + 4) (le_bytes 2 size)) ;>
  modify (ram_put (p + 6) (le_bytes 2 0x8000)) ;>
  outdw (bmdma_base ad ch + 4) (V2P p) ;>
  s <~ inb (bmdma_base ad ch + 2);
  outb (bmdma_base ad ch + 2) (Z.lor s 6).

Definition pata_adapter_bmdma_start_write (ad : PATAAdapter) (ch : Z) : hw state unit :=
  c <~ inb (bmdma_base ad ch); outb (bmdma_base ad ch) (Z.lor c 9).

Definition pata_adapter_bmdma_start_read (ad : PATAAdapter) (ch : Z) : hw state unit :=
  c <~ inb (bmdma_base ad ch); outb (bmdma_base ad ch) (Z.lor (Z.land c (Z.lnot 8)) 1).

Definition pata_adapter_bmdma_busy (ad : PATAAdapter) (ch : Z) : hw state bool :=
  s <~ inb (bmdma_base ad ch + 2); mret (Z.testbit s 0).

Definition pata_adapter_bmdma_stop (ad : PATAAdapter) (ch : Z) : hw state unit :=
  outb (bmdma_base ad ch) 0 ;>
  s <~ inb (bmdma_base ad ch + 2);
  outb (bmdma_base ad ch + 2) (Z.lor s 6).

(** Both directions differ in how the controller is started. *)
Definition exec_dma (start : hw state unit) (ad : PATAAdapter) (ch drv cmd lba count buf blocks : Z) : hw state Z :=
  base <~ iobase ad ch;
  lock_channel ch ;>
  pata_adapter_bmdma_prepare ad ch (V2P buf) (blocks * 512) ;>
  send_command base drv cmd lba count ;>
  start ;>
  spin fuel (s <~ inb (base + PATA_IO_STATUS); if negb (Z.land s PATA_STATUS_BSY =? 0) then mret true else pata_adapter_bmdma_busy ad ch) ;>
  pata_adapter_bmdma_stop ad ch ;>
  status <~ inb (base + PATA_IO_STATUS);
  unlock_channel ch ;> mret (if failed status then -1 else 0).

Definition pata_exec_dma_in (ad : PATAAdapter) (ch : Z) := exec_dma (pata_adapter_bmdma_start_write ad ch) ad ch.
Definition pata_exec_dma_out (ad : PATAAdapter) (ch : Z) := exec_dma (pata_adapter_bmdma_start_read ad ch) ad ch.

(** ** Disks *)

(** The transfers of the serial controller: port, command, sector, count, buffer,
    blocks. *)
Variables sata_exec_pio_in sata_exec_pio_out : Z -> Z -> Z -> Z -> Z -> Z -> hw state Z.

(** [0] and the device, or [-1]; [buf] is the array for the model. *)
Definition ata_identify (ad : PATAAdapter) (dev : ATADevice) (buf : list Z) : hw state (Z * ATADevice * list Z) :=
  identify <~ d_kalloc;
  r <~ match transport dev with
       | ATA_TRANSPORT_PARALLEL_ATA =>
         pata_exec_pio_in ad (channel (pata dev)) (drive (pata dev)) ATA_COMMAND_IDENTIFY 0 0 identify 1
       | ATA_TRANSPORT_SERIAL_ATA => sata_exec_pio_in (port (sata dev)) ATA_COMMAND_IDENTIFY 0 0 identify 1
       end;
  if negb (r =? 0) then d_kfree identify ;> mret (-1, dev, buf) else
  bytes <~ (fun s => Ret (ram_get identify 512 s, s));
  d_kfree identify ;> mret (0, identify_device bytes dev, identify_model bytes buf).

(** The checks of a transfer by the controller. *)
Definition dma_check (buf count : Z) : hw state unit :=
  if (buf <? KERNBASE) || (KERNBASE + PHYSTOP <? buf) || negb (buf mod PGSIZE =? 0) then mlift (Panic "ata dma")
  else if (count =? 0) || (8 <? count) then mlift (Panic "ata count") else mret tt.

Definition ata_read (ad : PATAAdapter) (dev : ATADevice) (begin count buf : Z) : hw state Z :=
  let p := pata dev in
  r <~ match transport dev with
       | ATA_TRANSPORT_PARALLEL_ATA =>
         if use_dma p then dma_check buf count ;> pata_exec_dma_in ad (channel p) (drive p) ATA_COMMAND_READ_DMA begin count buf count
         else pata_exec_pio_in ad (channel p) (drive p) ATA_COMMAND_READ_SECTOR begin count buf count
       | ATA_TRANSPORT_SERIAL_ATA => sata_exec_pio_in (port (sata dev)) ATA_COMMAND_READ_SECTOR begin count buf count
       end;
  mret (if r =? 0 then 0 else ERROR_READ_FAIL).

Definition ata_write (ad : PATAAdapter) (dev : ATADevice) (begin count buf : Z) : hw state Z :=
  let p := pata dev in
  r <~ match transport dev with
       | ATA_TRANSPORT_PARALLEL_ATA =>
         if use_dma p then dma_check buf count ;> pata_exec_dma_out ad (channel p) (drive p) ATA_COMMAND_WRITE_DMA begin count buf count
         else pata_exec_pio_out ad (channel p) (drive p) ATA_COMMAND_WRITE_SECTOR begin count buf count
       | ATA_TRANSPORT_SERIAL_ATA => sata_exec_pio_out (port (sata dev)) ATA_COMMAND_WRITE_SECTOR begin count buf count
       end;
  mret (if r =? 0 then 0 else ERROR_WRITE_FAIL).

Definition set_use_dma (dev : ATADevice) (b : bool) : ATADevice :=
  let p := pata dev in
  AtaDev (transport dev) (sectors dev) (ata_rev dev) (support_lba48 dev) (PataDev (channel p) (drive p) b (dma p) (pio p) (mdma p) (udma p)) (sata dev).

(** The device to give to the block layer, if it identifies itself. *)
Definition ata_register_ata_device (ad : PATAAdapter) (dev : ATADevice) (buf : list Z) : hw state (option ATADevice) :=
  r <~ ata_identify ad dev buf;
  let '(ok, dev', _) := r in
  if negb (ok =? 0) then mret None else
  match transport dev' with
  | ATA_TRANSPORT_PARALLEL_ATA =>
    if negb (dma (pata dev') =? 0) && bus_master ad
    then pata_adapter_bmdma_init ad (channel (pata dev')) (drive (pata dev')) ;> mret (Some (set_use_dma dev' true))
    else mret (Some (set_use_dma dev' false))
  | ATA_TRANSPORT_SERIAL_ATA => mret (Some dev')
  end.

(** The drives of a channel whose signature is that of a disk. *)
Fixpoint register_drives (ad : PATAAdapter) (ch : Z) (buf : list Z) (devtype : list (Z * Z)) : hw state (list ATADevice) :=
  match devtype with
  | [] => mret []
  | (drv, sig) :: rest =>
    new <~ (if sig =? PATA_SIGNATURE_DISK
            then d_kalloc ;> ata_register_ata_device ad (AtaDev ATA_TRANSPORT_PARALLEL_ATA 0 0 false (PataDev ch drv false 0 0 0 0) (sata new_ata_device)) buf
            else mret None);
    more <~ register_drives ad ch buf rest;
    mret (option_list new ++ more)
  end.

Definition register_channel (ad : PATAAdapter) (buf : list Z) (ch : Z) : hw state (list ATADevice) :=
  pata_bus_reset ad ch ;>
  d0 <~ pata_read_signature ad ch 0;
  d1 <~ pata_read_signature ad ch 1;
  register_drives ad ch buf [(0, d0); (1, d1)].

Definition pata_register_adapter (ad : PATAAdapter) (buf : list Z) : hw state (list ATADevice) :=
  l0 <~ register_channel ad buf 0;
  l1 <~ register_channel ad buf 1;
  mret (l0 ++ l1).

(** *** The controller *)

Variable pci_host : PciHost state.

(** A page of zeros; writing to a null pointer faults. *)
Definition zeroed_page : hw state Z :=
  p <~ d_kalloc;
  if p =? 0 then (fun _ => Fault) else modify (ram_put p (repeat 0 4096)) ;> mret p.

Definition set_private (d : PCIDevice) (p : Z) : PCIDevice :=
  PciDev (pd_addr d) (vendor_id d) (device_id d) (class d) (subclass d) (progif d) (irq d) p (intx_intr_handler d) (pd_driver d) (msix_table d) (msix_pba d).

(** Ports of the command and of the control blocks: those of the base address
    registers in native mode, the fixed ones otherwise. *)
Definition adapter_ports (addr : PciAddress) (native : bool) : hw state (list Z * list Z) :=
  if native then
    c0 <~ pci_read_bar pci_host addr 0;
    n0 <~ pci_read_bar pci_host addr 1;
    c1 <~ pci_read_bar pci_host addr 2;
    n1 <~ pci_read_bar pci_host addr 3;
    mret ([u16 c0; u16 c1], [u16 n0; u16 n1])
  else mret ([0x1f0; 0x170], [0x3f6; 0x376]).

(** Port and tables of the bus-master part. *)
Definition adapter_dma (addr : PciAddress) (bm : bool) : hw state (Z * list Z) :=
  if bm then
    b <~ pci_read_bar pci_host addr 4;
    p0 <~ zeroed_page;
    p1 <~ zeroed_page;
    pci_enable_bus_mastering pci_host addr ;>
    mret (u16 b, [p0; p1])
  else mret (0, [0; 0]).

(** The entry of the device, with the adapter and in native mode the interrupt
    handler [intr], the adapter, and its disks. *)
Definition pata_adapter_dev_init (intr : Z) (pcidev : PCIDevice) (buf : list Z) : hw state (PCIDevice * PATAAdapter * list ATADevice) :=
  let addr := pd_addr pcidev in
  p <~ d_kalloc;
  if p =? 0 then (fun _ => Fault) else
  put_local [false; false] ;>
  lock_channel 0 ;>
  pif <~ read8 pci_host addr PCI_CONF_PROGIF;
  let bm := Z.testbit pif 7 in
  let native := Z.testbit pif 0 && Z.testbit pif 2 in
  ports <~ adapter_ports addr native;
  dma <~ adapter_dma addr bm;
  let ad := Adapter (fst ports) (snd ports) (fst dma) bm native (snd dma) in
  let dev := set_private pcidev p in
  unlock_channel 0 ;>
  disks <~ pata_register_adapter ad buf;
  mret (if native then set_intx dev intr else dev, ad, disks).
End commands.

(** ["pci-ide-adapter"], for any interface of the class. *)
Definition pata_adapter_pci_driver : PCIDriver :=
  PciDriver [112; 99; 105; 45; 105; 100; 101; 45; 97; 100; 97; 112; 116; 101; 114; 0] None 0x0101ff.

(** The lines of the two channels, then the driver. *)
Definition pata_adapter_init {A H} `{Machine H} (pci_host : PciHost (driver A pci_vars H)) (call_init : Z -> Z -> hw (driver A pci_vars H) unit)
    (ioapic drv : Z) : hw (driver A pci_vars H) unit :=
  ioapic_enable ioapic 14 0 IOAPIC_EDGE_TRIGGER IOAPIC_ACTIVE_HIGH ;>
  ioapic_enable ioapic 15 0 IOAPIC_EDGE_TRIGGER IOAPIC_ACTIVE_HIGH ;>
  pci_register_driver pci_host call_init drv pata_adapter_pci_driver.

(** ** The drive *)

(** The protocol of the ATA standard: no command; the bytes of a sector still to be
    read, with the next sector and how many are left; the bytes of a sector
    received so far. *)
Inductive phase :=
| Ready
| DataIn (rest : list Z) (lba left : Z)
| DataOut (got : list Z) (lba left : Z).

Record ata_drive := AtaDrive { reg_drive : Z; reg_count : Z; reg_lo : Z; reg_mid : Z; reg_hi : Z; dphase : phase; media : Z -> list Z; nsectors : Z }.

(** A write to register [k] of the command block other than the command. *)
Definition set_reg (k v : Z) (d : ata_drive) : ata_drive :=
  let r j old := if k =? j then v else old in
  AtaDrive (r PATA_IO_DRIVE (reg_drive d)) (r PATA_IO_COUNT (reg_count d)) (r PATA_IO_LBALO (reg_lo d)) (r PATA_IO_LBAMID (reg_mid d))
    (r PATA_IO_LBAHI (reg_hi d)) (dphase d) (media d) (nsectors d).

Definition with_phase (d : ata_drive) (p : phase) : ata_drive :=
  AtaDrive (reg_drive d) (reg_count d) (reg_lo d) (reg_mid d) (reg_hi d) p (media d) (nsectors d).

(** The sector and the count in the registers; a count of zero means 256. *)
Definition reg_lba (d : ata_drive) : Z := reg_lo d + 2 ^ 8 * reg_mid d + 2 ^ 16 * reg_hi d + 2 ^ 24 * (reg_drive d mod 16).
Definition reg_sectors (d : ata_drive) : Z := if reg_count d =? 0 then 256 else reg_count d.

(** After the last word of a sector. *)
Definition next_in (d : ata_drive) (rest : list Z) (lba left : Z) : phase :=
  match rest with
  | [] => if left =? 0 then Ready else DataIn (media d lba) (lba + 1) (left - 1)
  | _ => DataIn rest lba left
  end.

Definition next_out (d : ata_drive) (got : list Z) (lba left : Z) : ata_drive :=
  if zlen got =? 512
  then AtaDrive (reg_drive d) (reg_count d) (reg_lo d) (reg_mid d) (reg_hi d) (if left =? 0 then Ready else DataOut [] (lba + 1) (left - 1))
         (fun i => if decide (i = lba) then got else media d i) (nsectors d)
  else with_phase d (DataOut got lba left).

(** Sectors have 512 bytes. *)
Definition media_ok (m : Z -> list Z) : Prop := forall i, zlen (m i) = 512 /\ bytes_ok (m i).

(** What the driver relies on, of the drive selected by [drv] on the channel with
    command block [base]: [busy_left h] bounds the reads of the status that still
    find it busy. *)
Class PioDrive (H : Type) `{RamLaws H} (base drv : Z) := {
  drive_of : H -> ata_drive;
  busy_left : H -> nat;
  busy_max : nat;
  busy_bound h : (busy_left h <= busy_max)%nat;
  drive_ram a l h : drive_of (ram_put a l h) = drive_of h /\ busy_left (ram_put a l h) = busy_left h;
  drive_reg k v h : dphase (drive_of h) = Ready -> PATA_IO_COUNT <= k <= PATA_IO_DRIVE -> (k = PATA_IO_DRIVE -> Z.testbit v 4 = Z.testbit drv 0) ->
    drive_of (io_out 1 (base + k) v h) = set_reg k v (drive_of h) /\ forall a n, ram_get a n (io_out 1 (base + k) v h) = ram_get a n h;
  drive_command cmd h : let d := drive_of h in dphase d = Ready -> Z.testbit (reg_drive d) 4 = Z.testbit drv 0 -> Z.testbit (reg_drive d) 6 = true ->
    0 <= reg_lba d -> reg_lba d + reg_sectors d <= nsectors d -> cmd = ATA_COMMAND_READ_SECTOR \/ cmd = ATA_COMMAND_WRITE_SECTOR ->
    drive_of (io_out 1 (base + PATA_IO_COMMAND) cmd h) =
      with_phase d (if cmd =? ATA_COMMAND_READ_SECTOR then DataIn (media d (reg_lba d)) (reg_lba d + 1) (reg_sectors d - 1)
                    else DataOut [] (reg_lba d) (reg_sectors d - 1)) /\
    forall a n, ram_get a n (io_out 1 (base + PATA_IO_COMMAND) cmd h) = ram_get a n h;
  drive_status h : exists s h', io_in 1 (base + PATA_IO_STATUS) h = (s, h') /\ drive_of h' = drive_of h /\ (forall a n, ram_get a n h' = ram_get a n h) /\
    (Z.testbit s 7 = true /\ (busy_left h' < busy_left h)%nat \/
     Z.testbit s 7 = false /\ busy_left h' = O /\ (dphase (drive_of h) <> Ready -> s <> 0 /\ Z.testbit s 0 = false));
  drive_inw h b0 b1 rest lba left : busy_left h = O -> dphase (drive_of h) = DataIn (b0 :: b1 :: rest) lba left ->
    exists h', io_in 2 (base + PATA_IO_DATA) h = (le_val [b0; b1], h') /\ drive_of h' = with_phase (drive_of h) (next_in (drive_of h) rest lba left) /\
      (rest <> [] -> busy_left h' = O) /\ forall a n, ram_get a n h' = ram_get a n h;
  drive_outw h w got lba left : busy_left h = O -> dphase (drive_of h) = DataOut got lba left ->
    let h' := io_out 2 (base + PATA_IO_DATA) w h in
    drive_of h' = next_out (drive_of h) (got ++ le_bytes 2 w) lba left /\ (zlen (got ++ le_bytes 2 w) <> 512 -> busy_left h' = O) /\
      forall a n, ram_get a n h' = ram_get a n h
}.

(** ** Programmed transfers *)

Definition mem_same {M} `{Machine M} (h h' : M) : Prop := forall a n, ram_get a n h' = ram_get a n h.

Section pio.
Context {M : Type} {base drv : Z} `{PioDrive M base drv}.

Lemma drive_wait_ok fuel : forall h, (busy_left h <= fuel)%nat ->
  exists h', wait_busy fuel base h = Ret (tt, h') /\ drive_of h' = drive_of h /\ mem_same h h' /\ busy_left h' = O.
Proof.
  unfold wait_busy. induction fuel as [|fuel IH]; intros h Hb; cbn [spin]; destruct (drive_status h) as (s & h1 & Es & Ed & Em & Hs).
  all: unfold mbind, inb; rewrite Es; cbn [obind fst snd mret]; change PATA_STATUS_BSY with (2 ^ 7); rewrite land_bit by lia.
  - destruct Hs as [[_ Hlt]|[-> [Hz _]]]; [lia|]. cbn. by exists h1.
  - destruct Hs as [[-> Hlt]|[-> [Hz _]]]; cbn; [|by exists h1].
    destruct (IH h1) as (h2 & E2 & Ed2 & Em2 & Hz2); [lia|]. exists h2. split_and!; [exact E2|congruence| |done].
    intros a n. by rewrite Em2, Em.
Qed.

Lemma status_ok h : busy_left h = O -> dphase (drive_of h) <> Ready ->
  exists s h', inb (base + PATA_IO_STATUS) h = Ret (s, h') /\ failed s = false /\ drive_of h' = drive_of h /\ mem_same h h' /\ busy_left h' = O.
Proof.
  intros Hb Hp. destruct (drive_status h) as (s & h1 & Es & Ed & Em & [[_ Hlt]|(_ & Hz & Hs)]); [lia|]. destruct (Hs Hp) as [Hs0 Hs1].
  exists s, h1. unfold inb. rewrite Es. split_and!; try done. unfold failed. change PATA_STATUS_ERR with (2 ^ 0). rewrite land_bit, Hs1 by lia.
  by apply Z.eqb_neq in Hs0 as ->.
Qed.

Lemma pair_bytes (l : list Z) : zlen l = 2 -> bytes_ok l -> le_bytes 2 (u16 (le_val l)) = l.
Proof.
  intros Hl Hb. pose proof (le_val_bound l Hb) as Hv. rewrite Hl in Hv. unfold u16. rewrite Z.mod_small by (exact Hv).
  replace 2%nat with (length l) by (unfold zlen in Hl; lia). by apply le_bytes_val.
Qed.

(** The words of one sector to memory. *)
Lemma insw_ok n : forall h addr rest lba left a m, busy_left h = O -> dphase (drive_of h) = DataIn rest lba left -> zlen rest = 2 * Z.of_nat n -> (0 < n)%nat ->
  bytes_ok rest -> a <= addr -> addr + zlen rest <= a + m ->
  exists h', insw (base + PATA_IO_DATA) addr n h = Ret (tt, h') /\ drive_of h' = with_phase (drive_of h) (next_in (drive_of h) [] lba left) /\
    ram_get a m h' = splice (addr - a) rest (ram_get a m h).
Proof.
  induction n as [|n IH]; intros h addr rest lba left a m Hb Hp Hl Hn Hok Ha Hm; [lia|].
  destruct rest as [|b0 [|b1 rest]]; [unfold zlen in Hl; cbn in Hl; lia..|].
  destruct (drive_inw h b0 b1 rest lba left Hb Hp) as (h1 & Ei & Ed & Hb1 & Em).
  assert (Hlr : zlen rest = 2 * Z.of_nat n) by (unfold zlen in *; cbn [length] in *; lia).
  assert (Hok2 : bytes_ok [b0; b1]) by (apply Forall_cons in Hok as [? Hok]; apply Forall_cons in Hok as [? _]; by apply Forall_cons_2, Forall_cons_2, Forall_nil).
  pose proof (le_bytes_val [b0; b1] Hok2) as Hbs. cbn [length] in Hbs.
  assert (Hz2 : zlen [b0; b1] = 2) by done. assert (Hzc : zlen (b0 :: b1 :: rest) = 2 + zlen rest) by (unfold zlen; cbn [length]; lia).
  cbn [insw]. unfold mbind at 1, inw. rewrite Ei. cbn [obind fst snd]. unfold mbind, modify. cbn [obind fst snd]. rewrite Hbs.
  set (h2 := ram_put addr [b0; b1] h1). destruct (drive_ram addr [b0; b1] h1) as [Ed2 Hb2]. fold h2 in Ed2, Hb2.
  assert (Er : ram_get a m h2 = splice (addr - a) [b0; b1] (ram_get a m h)) by (unfold h2; rewrite ram_get_put, Em by (done || lia); done).
  destruct n as [|n].
  - destruct rest; [|unfold zlen in Hlr; cbn in Hlr; lia]. exists h2. split_and!; [done|congruence|done].
  - assert (Hne : rest <> []) by (intros ->; unfold zlen in Hlr; cbn in Hlr; lia).
    destruct (IH h2 (addr + 2) rest lba left a m) as (h3 & E3 & Ed3 & Er3); try lia.
    + rewrite Hb2. by apply Hb1.
    + rewrite Ed2, Ed. cbn [with_phase dphase]. unfold next_in. by destruct rest.
    + apply Forall_cons in Hok as [_ Hok]. by apply Forall_cons in Hok as [_ Hok].
    + exists h3. split_and!; [exact E3| |].
      * rewrite Ed3, Ed2, Ed. reflexivity.
      * rewrite Er3, Er. replace (addr + 2 - a) with (addr - a + zlen [b0; b1]) by (rewrite Hz2; lia). rewrite splice_splice_adj; [done|lia|].
        rewrite ram_len by lia. lia.
Qed.

Lemma splice_full (l : list Z) n : 0 <= n -> zlen l = n -> forall x, zlen x = n -> splice 0 x l = x.
Proof. intros Hn Hl x Hx. rewrite splice_0_app. rewrite drop_ge by (unfold zlen in *; lia). apply app_nil_r. Qed.

(** The words of one sector from memory. *)
Lemma outsw_ok n : forall h addr got lba left, busy_left h = O -> dphase (drive_of h) = DataOut got lba left -> zlen got + 2 * Z.of_nat n = 512 -> (0 < n)%nat ->
  exists h', outsw (base + PATA_IO_DATA) addr n h = Ret (tt, h') /\
    drive_of h' = next_out (drive_of h) (got ++ ram_get addr (2 * Z.of_nat n) h) lba left /\ mem_same h h'.
Proof.
  induction n as [|n IH]; intros h addr got lba left Hb Hp Hl Hn; [lia|].
  set (w := le_val (ram_get addr 2 h)). destruct (drive_outw h (u16 w) got lba left Hb Hp) as (Ed & Hb1 & Em).
  assert (Hlen : zlen (ram_get addr 2 h) = 2) by (apply ram_len; lia).
  assert (Hbs : le_bytes 2 (u16 w) = ram_get addr 2 h) by (apply pair_bytes; [done|apply ram_bytes]).
  rewrite Hbs in Ed, Hb1. assert (Hsp : ram_get addr (2 * Z.of_nat (S n)) h = ram_get addr 2 h ++ ram_get (addr + 2) (2 * Z.of_nat n) h).
  { set (l := ram_get addr (2 * Z.of_nat (S n)) h). assert (Hll : zlen l = 2 * Z.of_nat (S n)) by (apply ram_len; lia).
    pose proof (ram_slice addr (2 * Z.of_nat (S n)) 0 2 h) as E0. rewrite Z.add_0_r in E0.
    rewrite E0, (ram_slice addr (2 * Z.of_nat (S n)) 2) by lia. fold l.
    rewrite <- (slice_all l) at 1. rewrite Hll. replace (2 * Z.of_nat (S n)) with (2 + 2 * Z.of_nat n) by lia. symmetry. apply (slice_app 0 2); lia. }
  cbn [outsw]. unfold mbind, outw, modify. cbn [obind fst snd]. fold w. set (h1 := io_out 2 (base + PATA_IO_DATA) (u16 w) h) in *.
  destruct n as [|n].
  - exists h1. split_and!; [done| |done]. rewrite Ed. change (2 * Z.of_nat 1) with 2. done.
  - assert (Hne : zlen (got ++ ram_get addr 2 h) <> 512) by (rewrite zlen_app; lia).
    assert (Hp1 : drive_of h1 = with_phase (drive_of h) (DataOut (got ++ ram_get addr 2 h) lba left)).
    { rewrite Ed. unfold next_out. by apply Z.eqb_neq in Hne as ->. }
    destruct (IH h1 (addr + 2) (got ++ ram_get addr 2 h) lba left) as (h2 & E2 & Ed2 & Em2).
    + by apply Hb1.
    + by rewrite Hp1.
    + rewrite zlen_app. lia.
    + lia.
    + exists h2. split_and!; [exact E2| |intros a k; by rewrite Em2, Em]. rewrite Ed2, Em, <- app_assoc, <- Hsp, Hp1. reflexivity.
Qed.

Definition sectors_at (d : ata_drive) (lba : Z) (n : nat) : list Z := seqZ lba (Z.of_nat n) ≫= media d.

Lemma sectors_at_S d lba n : sectors_at d lba (S n) = media d lba ++ sectors_at d (lba + 1) n.
Proof. unfold sectors_at. rewrite seqZ_cons by lia. rewrite bind_cons. repeat f_equal; lia. Qed.

Lemma sectors_at_len (d : ata_drive) lba n : (forall i, zlen (media d i) = 512) -> zlen (sectors_at d lba n) = 512 * Z.of_nat n.
Proof. intros Hd. revert lba. induction n as [|n IH]; intros lba; [done|]. rewrite sectors_at_S, zlen_app, IH, Hd. lia. Qed.

(** One sector to memory, and the rest. *)
Lemma pio_in_block fuel n h buf lba left a m : (busy_max <= fuel)%nat -> media_ok (media (drive_of h)) -> dphase (drive_of h) = DataIn (media (drive_of h) lba) (lba + 1) left ->
  a <= buf -> buf + 512 <= a + m -> let xfer := fun a => insw (base + PATA_IO_DATA) a 256 in
  exists h', pio_blocks fuel xfer base buf (S n) h = pio_blocks fuel xfer base (buf + 512) n h' /\
    drive_of h' = with_phase (drive_of h) (next_in (drive_of h) [] (lba + 1) left) /\
    ram_get a m h' = splice (buf - a) (media (drive_of h) lba) (ram_get a m h).
Proof.
  intros Hf Hmd Hp Ha Hm xfer. cbn [pio_blocks].
  destruct (drive_wait_ok fuel h) as (h1 & E1 & Ed1 & Em1 & Hb1); [pose proof (busy_bound h); lia|]. rewrite (mbind_run _ _ _ _ _ E1).
  destruct (status_ok h1 Hb1) as (st & h2 & E2 & Hst & Ed2 & Em2 & Hb2); [rewrite Ed1, Hp; done|]. rewrite (mbind_run _ _ _ _ _ E2), Hst.
  destruct (Hmd lba) as [Hlen Hok].
  destruct (insw_ok 256 h2 buf (media (drive_of h) lba) (lba + 1) left a m Hb2) as (h3 & E3 & Ed3 & Er3);
    [rewrite Ed2, Ed1; exact Hp|rewrite Hlen; done|lia|done|lia|rewrite Hlen; lia|]. rewrite (mbind_run _ _ _ _ _ E3).
  exists h3. split_and!; [done|by rewrite Ed3, Ed2, Ed1|by rewrite Er3, Em2, Em1].
Qed.

(** Sector after sector to memory. *)
Lemma pio_in_ok fuel n : (busy_max <= fuel)%nat -> forall h buf lba left a m, media_ok (media (drive_of h)) -> dphase (drive_of h) = DataIn (media (drive_of h) lba) (lba + 1) left ->
  left = Z.of_nat n -> a <= buf -> buf + 512 * Z.of_nat (S n) <= a + m ->
  exists h', pio_blocks fuel (fun a => insw (base + PATA_IO_DATA) a 256) base buf (S n) h = Ret (0, h') /\
    drive_of h' = with_phase (drive_of h) Ready /\ ram_get a m h' = splice (buf - a) (sectors_at (drive_of h) lba (S n)) (ram_get a m h).
Proof.
  intros Hf. induction n as [|n IH]; intros h buf lba left a m Hmd Hp -> Ha Hm.
  all: edestruct (pio_in_block fuel) as (h3 & -> & Ed3 & Er3); [exact Hf|exact Hmd|exact Hp|exact Ha|instantiate (1 := m); lia|].
  - exists h3. split_and!; [done|by rewrite Ed3|]. rewrite Er3, sectors_at_S. unfold sectors_at. cbn. by rewrite app_nil_r.
  - assert (Hp3 : dphase (drive_of h3) = DataIn (media (drive_of h3) (lba + 1)) (lba + 1 + 1) (Z.of_nat n)).
    { rewrite Ed3. unfold next_in. replace (Z.of_nat (S n) =? 0) with false by (symmetry; apply Z.eqb_neq; lia). cbn [with_phase dphase media]. f_equal. lia. }
    destruct (IH h3 (buf + 512) (lba + 1) (Z.of_nat n) a m) as (h4 & E4 & Ed4 & Er4); [by rewrite Ed3|exact Hp3|done|lia|lia|].
    exists h4. split_and!; [exact E4|by rewrite Ed4, Ed3|]. destruct (Hmd lba) as [Hlen _]. rewrite Er4, Er3, (sectors_at_S (drive_of h)).
    replace (buf + 512 - a) with (buf - a + zlen (media (drive_of h) lba)) by lia.
    assert (Es : sectors_at (drive_of h3) (lba + 1) (S n) = sectors_at (drive_of h) (lba + 1) (S n)) by (by rewrite Ed3). rewrite Es.
    rewrite splice_splice_adj; [done|lia|]. rewrite ram_len, Hlen, sectors_at_len by (lia || (intros; apply Hmd)). lia.
Qed.

(** One sector from memory, and the rest. *)
Lemma pio_out_block fuel n h buf lba left : (busy_max <= fuel)%nat -> dphase (drive_of h) = DataOut [] lba left ->
  let xfer := fun a => outsw (base + PATA_IO_DATA) a 256 in
  exists h', pio_blocks fuel xfer base buf (S n) h = pio_blocks fuel xfer base (buf + 512) n h' /\
    drive_of h' = next_out (drive_of h) (ram_get buf 512 h) lba left /\ mem_same h h'.
Proof.
  intros Hf Hp xfer. cbn [pio_blocks].
  destruct (drive_wait_ok fuel h) as (h1 & E1 & Ed1 & Em1 & Hb1); [pose proof (busy_bound h); lia|]. rewrite (mbind_run _ _ _ _ _ E1).
  destruct (status_ok h1 Hb1) as (st & h2 & E2 & Hst & Ed2 & Em2 & Hb2); [rewrite Ed1, Hp; done|]. rewrite (mbind_run _ _ _ _ _ E2), Hst.
  destruct (outsw_ok 256 h2 buf [] lba left Hb2) as (h3 & E3 & Ed3 & Em3); [by rewrite Ed2, Ed1|done|lia|]. rewrite (mbind_run _ _ _ _ _ E3).
  exists h3. split_and!; [done|rewrite Ed3, Ed2, Ed1, Em2, Em1; done|intros a k; by rewrite Em3, Em2, Em1].
Qed.

Lemma next_out_full d l lba left : zlen l = 512 ->
  dphase (next_out d l lba left) = (if left =? 0 then Ready else DataOut [] (lba + 1) (left - 1)) /\
  nsectors (next_out d l lba left) = nsectors d /\ forall i, media (next_out d l lba left) i = if decide (i = lba) then l else media d i.
Proof. intros Hl. unfold next_out. rewrite Hl. done. Qed.

(** Sector after sector from memory. *)
Lemma pio_out_ok fuel n : (busy_max <= fuel)%nat -> forall h buf lba left, dphase (drive_of h) = DataOut [] lba left -> left = Z.of_nat n ->
  exists h', pio_blocks fuel (fun a => outsw (base + PATA_IO_DATA) a 256) base buf (S n) h = Ret (0, h') /\
    dphase (drive_of h') = Ready /\ nsectors (drive_of h') = nsectors (drive_of h) /\ mem_same h h' /\
    forall i, media (drive_of h') i = if decide (lba <= i < lba + Z.of_nat (S n)) then ram_get (buf + 512 * (i - lba)) 512 h else media (drive_of h) i.
Proof.
  intros Hf. induction n as [|n IH]; intros h buf lba left Hp ->.
  all: edestruct (pio_out_block fuel) as (h3 & -> & Ed3 & Em3); [exact Hf|exact Hp|]; edestruct (next_out_full (drive_of h) (ram_get buf 512 h) lba) as (Np & Ns & Nm); [by apply ram_len|].
  all: rewrite <- Ed3 in Np, Ns, Nm.
  - exists h3. split_and!; try done. intros i. rewrite Nm. repeat case_decide; try lia; [|done]. f_equal. lia.
  - replace (Z.of_nat (S n) =? 0) with false in Np by (symmetry; apply Z.eqb_neq; lia).
    destruct (IH h3 (buf + 512) (lba + 1) (Z.of_nat n)) as (h4 & E4 & Ep4 & Es4 & Em4 & Ed4); [rewrite Np; f_equal; lia|done|].
    exists h4. split_and!; [done|done|congruence|intros a k; by rewrite Em4, Em3|]. intros i. rewrite Ed4, Nm, Em3.
    repeat case_decide; try lia; try done; f_equal; lia.
Qed.

(** The drive register: the device bit, the LBA bit and the high bits of the
    sector. *)
Definition drive_byte (lba : Z) : Z := u8 (Z.lor (Z.lor PATA_DRIVE_DEFAULT (Z.shiftl drv PATA_DRIVE_DRV_BIT)) (Z.land (Z.shiftr lba 24) 0xf)).

Lemma drive_byte_ok lba : drv = 0 \/ drv = 1 -> 0 <= lba < 2 ^ 28 ->
  Z.testbit (drive_byte lba) 4 = Z.testbit drv 0 /\ Z.testbit (drive_byte lba) 6 = true /\ drive_byte lba mod 16 = lba / 2 ^ 24.
Proof.
  intros Hd Hl. unfold drive_byte. change 0xf with (Z.ones 4). rewrite Z.land_ones, Z.shiftr_div_pow2 by lia.
  assert (0 <= lba / 2 ^ 24 < 16) as Hx by (split; [apply Z.div_pos; lia|apply Z.div_lt_upper_bound; lia]). rewrite Z.mod_small by lia.
  set (x := lba / 2 ^ 24) in *. clearbody x.
  assert (x = 0 \/ x = 1 \/ x = 2 \/ x = 3 \/ x = 4 \/ x = 5 \/ x = 6 \/ x = 7 \/ x = 8 \/ x = 9 \/ x = 10 \/ x = 11 \/ x = 12 \/ x = 13 \/ x = 14 \/ x = 15) as Hc by lia.
  destruct Hd as [-> | ->]; repeat destruct Hc as [-> |Hc]; try subst x; by vm_compute.
Qed.

(** The registers of the drive hold the sector and the count. *)
Lemma send_command_ok cmd lba count h : dphase (drive_of h) = Ready -> drv = 0 \/ drv = 1 -> 0 <= lba -> 0 < count <= 256 ->
  lba + count <= nsectors (drive_of h) -> nsectors (drive_of h) <= 2 ^ 28 -> cmd = ATA_COMMAND_READ_SECTOR \/ cmd = ATA_COMMAND_WRITE_SECTOR ->
  exists h', send_command base drv cmd lba count h = Ret (tt, h') /\ mem_same h h' /\
    media (drive_of h') = media (drive_of h) /\ nsectors (drive_of h') = nsectors (drive_of h) /\
    dphase (drive_of h') = if cmd =? ATA_COMMAND_READ_SECTOR then DataIn (media (drive_of h) lba) (lba + 1) (count - 1) else DataOut [] lba (count - 1).
Proof.
  intros Hp Hd Hl0 Hc Hn Hmax Hcmd. assert (Hl28 : 0 <= lba < 2 ^ 28) by lia. destruct (drive_byte_ok lba Hd Hl28) as (B4 & B6 & Bm).
  unfold send_command, mbind, outb, modify. cbn [obind fst snd]. fold (drive_byte lba).
  destruct (drive_reg PATA_IO_DRIVE (drive_byte lba) h Hp) as [D0 M0]; [done|done|].
  set (h0 := io_out 1 (base + PATA_IO_DRIVE) _ h) in *. assert (P0 : dphase (drive_of h0) = Ready) by (rewrite D0; exact Hp).
  destruct (drive_reg PATA_IO_COUNT (u8 count) h0 P0) as [D1 M1]; [done|done|].
  set (h1 := io_out 1 (base + PATA_IO_COUNT) _ h0) in *. assert (P1 : dphase (drive_of h1) = Ready) by (rewrite D1; exact P0).
  destruct (drive_reg PATA_IO_LBALO (u8 (Z.land lba 255)) h1 P1) as [D2 M2]; [done|done|].
  set (h2 := io_out 1 (base + PATA_IO_LBALO) _ h1) in *. assert (P2 : dphase (drive_of h2) = Ready) by (rewrite D2; exact P1).
  destruct (drive_reg PATA_IO_LBAMID (u8 (Z.land (Z.shiftr lba 8) 255)) h2 P2) as [D3 M3]; [done|done|].
  set (h3 := io_out 1 (base + PATA_IO_LBAMID) _ h2) in *. assert (P3 : dphase (drive_of h3) = Ready) by (rewrite D3; exact P2).
  destruct (drive_reg PATA_IO_LBAHI (u8 (Z.land (Z.shiftr lba 16) 255)) h3 P3) as [D4 M4]; [done|done|].
  set (h4 := io_out 1 (base + PATA_IO_LBAHI) _ h3) in *. assert (P4 : dphase (drive_of h4) = Ready) by (rewrite D4; exact P3).
  rewrite D3, D2, D1, D0 in D4. cbn in D4. change 255 with (Z.ones 8) in *. rewrite !Z.land_ones, !Z.shiftr_div_pow2 in D4 by lia. unfold u8 in D4.
  assert (Elba : reg_lba (drive_of h4) = lba).
  { rewrite D4. unfold reg_lba. cbn -[drive_byte]. rewrite Bm. rewrite !Z.mod_mod by lia. pose proof (Z.div_mod lba (2 ^ 8)). Z.to_euclidean_division_equations; lia. }
  assert (Ecnt : reg_sectors (drive_of h4) = count).
  { rewrite D4. unfold reg_sectors. cbn. destruct (Z.eq_dec count 256) as [->|]; [done|]. rewrite Z.mod_small by lia.
    by destruct (Z.eqb_spec count 0); [lia|]. }
  assert (Eu : u8 cmd = cmd) by (destruct Hcmd as [-> | ->]; reflexivity). rewrite Eu.
  destruct (drive_command cmd h4) as [D5 M5]; [done|by rewrite D4|by rewrite D4|lia|rewrite Elba, Ecnt, D4; exact Hn|done|].
  eexists. split; [done|]. rewrite D5, Elba, Ecnt. cbn [with_phase media nsectors dphase].
  split; [intros a n; by rewrite M5, M4, M3, M2, M1, M0|]. rewrite D4. done.
Qed.
End pio.

Section lift_transfers.
Context {A H : Type} `{Machine H}.

Lemma lifts_send_command base drv cmd lba count : lifts (A := A) (L := list bool) (send_command base drv cmd lba count) (send_command (M := H) base drv cmd lba count).
Proof. unfold send_command. auto 20 with lifts. Qed.

Lemma lifts_wait fuel base : lifts (A := A) (L := list bool) (wait_busy fuel base) (wait_busy (M := H) fuel base).
Proof. unfold wait_busy. auto with lifts. Qed.

Lemma lifts_pio fuel x x0 base n : (forall a, lifts (A := A) (L := list bool) (x a) (x0 a)) -> forall buf,
  lifts (pio_blocks fuel x base buf n) (pio_blocks (M := H) fuel x0 base buf n).
Proof. intros Hx. induction n as [|n IH]; intros buf; cbn [pio_blocks]; auto 10 using lifts_wait with lifts. Qed.
End lift_transfers.

(** ** A disk without bus mastering *)

Section disk.
Context {A H : Type} `{PageAllocator A} {base drv : Z} `{PioDrive H base drv}.
Variable fuel : nat.
Hypothesis fuel_enough : (busy_max <= fuel)%nat.
Variables sata_in sata_out : Z -> Z -> Z -> Z -> Z -> Z -> hw (driver A (list bool) H) Z.
Variables (ad : PATAAdapter) (dev : ATADevice).

Local Notation state := (driver A (list bool) H).

(** The device is the drive [drv] at [base], and uses programmed transfers. *)
Record pio_device : Prop := {
  dev_transport : transport dev = ATA_TRANSPORT_PARALLEL_ATA;
  dev_pio : use_dma (pata dev) = false;
  dev_base : zget (cmdblock_base ad) (channel (pata dev)) = Some base;
  dev_drive : drive (pata dev) = drv;
  dev_bit : drv = 0 \/ drv = 1
}.
Hypothesis dev_ok : pio_device.

Definition the_drive (s : state) : ata_drive := drive_of (dhw s).

(** No command runs, the channel is free, and 28 bits are enough for a sector. *)
Definition ready (s : state) : bool :=
  match dphase (the_drive s) with Ready => true | _ => false end &&
  match zget (dlocal s) (channel (pata dev)) with Some false => true | _ => false end &&
  (nsectors (the_drive s) <=? 2 ^ 28).

Lemma ready_spec s : ready s = true <-> dphase (the_drive s) = Ready /\ zget (dlocal s) (channel (pata dev)) = Some false /\ nsectors (the_drive s) <= 2 ^ 28.
Proof.
  unfold ready. rewrite !andb_true_iff, Z.leb_le. destruct (dphase (the_drive s)); destruct (zget (dlocal s) _) as [[]|]; naive_solver.
Qed.

Lemma lock_run (s : state) ch : zget (dlocal s) ch = Some false -> lock_channel ch s = Ret (tt, Driver (dpool s) (<[Z.to_nat ch := true]> (dlocal s)) (dhw s)).
Proof.
  intros Hg. unfold lock_channel, mbind, get_local, mlift. cbn [obind fst snd]. rewrite Hg. cbn [of_option obind acquire_b].
  rewrite zset_Some by (by eapply zget_Some). done.
Qed.

Lemma unlock_run a (l : list bool) h ch : zget l ch = Some false -> unlock_channel ch (Driver a (<[Z.to_nat ch := true]> l) h : state) = Ret (tt, Driver a l h).
Proof.
  intros Hg. pose proof (zget_Some _ _ _ Hg) as Hr. unfold unlock_channel, mbind, get_local, mlift. cbn [obind fst snd dlocal].
  rewrite zget_insert_eq by done. cbn [of_option obind release_b]. rewrite zset_Some by (by rewrite zlen_insert). cbn [of_option obind fst snd put_local dpool dhw].
  unfold put_local. cbn. rewrite list_insert_insert_eq. rewrite list_insert_id; [done|]. by apply zget_lookup in Hg as [_ ?].
Qed.

(** A read puts the sectors in memory and leaves the disk alone. *)
Lemma ata_read_ok s begin count buf a m : ready s = true -> media_ok (media (the_drive s)) -> 0 <= begin -> 0 < count <= 256 -> begin + count <= nsectors (the_drive s) ->
  a <= buf -> buf + 512 * count <= a + m ->
  exists s', ata_read fuel sata_in ad dev begin count buf s = Ret (0, s') /\ ready s' = true /\ dpool s' = dpool s /\
    nsectors (the_drive s') = nsectors (the_drive s) /\ media (the_drive s') = media (the_drive s) /\
    ram_get a m (dhw s') = splice (buf - a) (sectors_at (the_drive s) begin (Z.to_nat count)) (ram_get a m (dhw s)).
Proof.
  intros (Hp & Hl & Hn)%ready_spec Hmd Hb Hc Hbc Ha Hm. destruct dev_ok as [Dt Dd Db Dv Dbit].
  destruct (send_command_ok ATA_COMMAND_READ_SECTOR begin count (dhw s) Hp Dbit Hb Hc Hbc Hn) as (h1 & E1 & Em1 & Emd & Ens & Eph); [by left|].
  cbn [Z.eqb] in Eph. change (ATA_COMMAND_READ_SECTOR =? ATA_COMMAND_READ_SECTOR) with true in Eph. cbn iota in Eph.
  destruct (pio_in_ok fuel (Z.to_nat count - 1) fuel_enough h1 buf begin (count - 1) a m) as (h2 & E2 & Ed2 & Er2); [by rewrite Emd|by rewrite Emd|lia|done|lia|].
  replace (S (Z.to_nat count - 1)) with (Z.to_nat count) in E2, Er2 by lia.
  exists (Driver (dpool s) (dlocal s) h2). split.
  - unfold ata_read. rewrite Dt, Dd. unfold pata_exec_pio_in, iobase. rewrite Db, Dv. unfold mbind at 1 2. cbn [mlift of_option obind fst snd].
    rewrite (mbind_run _ _ _ _ _ (lock_run s _ Hl)). rewrite (mbind_run _ _ _ _ _ (lifts_run _ _ (Driver _ _ (dhw s)) _ _ (lifts_send_command _ _ _ _ _) E1)).
    rewrite (mbind_run _ _ _ _ _ (lifts_run _ _ (Driver _ _ h1) _ _ (lifts_pio _ _ _ _ _ (lifts_insw _ _) _) E2)). cbn [dpool dlocal].
    rewrite (mbind_run _ _ _ _ _ (unlock_run _ _ _ _ Hl)). done.
  - unfold the_drive. cbn [dhw dpool]. rewrite Ed2. cbn [with_phase nsectors media]. split_and!; try congruence.
    + apply ready_spec. unfold the_drive. cbn [dhw dlocal]. rewrite Ed2. cbn. split_and!; [done|done|]. rewrite Ens. exact Hn.
    + rewrite Er2, Em1. unfold sectors_at. by rewrite Emd.
Qed.

(** A write puts memory in the sectors and changes no other. *)
Lemma ata_write_ok s begin count buf : ready s = true -> 0 <= begin -> 0 < count <= 256 -> begin + count <= nsectors (the_drive s) ->
  exists s', ata_write fuel sata_out ad dev begin count buf s = Ret (0, s') /\ ready s' = true /\ dpool s' = dpool s /\
    nsectors (the_drive s') = nsectors (the_drive s) /\ mem_same (dhw s) (dhw s') /\
    forall i, media (the_drive s') i = if decide (begin <= i < begin + count) then ram_get (buf + 512 * (i - begin)) 512 (dhw s) else media (the_drive s) i.
Proof.
  intros (Hp & Hl & Hn)%ready_spec Hb Hc Hbc. destruct dev_ok as [Dt Dd Db Dv Dbit].
  destruct (send_command_ok ATA_COMMAND_WRITE_SECTOR begin count (dhw s) Hp Dbit Hb Hc Hbc Hn) as (h1 & E1 & Em1 & Emd & Ens & Eph); [by right|].
  change (ATA_COMMAND_WRITE_SECTOR =? ATA_COMMAND_READ_SECTOR) with false in Eph. cbn iota in Eph.
  destruct (pio_out_ok fuel (Z.to_nat count - 1) fuel_enough h1 buf begin (count - 1) Eph) as (h2 & E2 & Ep2 & Es2 & Em2 & Ed2); [lia|].
  destruct (drive_wait_ok fuel h2) as (h3 & E3 & Ed3 & Em3 & _); [pose proof (busy_bound h2); lia|].
  replace (S (Z.to_nat count - 1)) with (Z.to_nat count) in E2 by lia.
  exists (Driver (dpool s) (dlocal s) h3). split.
  - unfold ata_write. rewrite Dt, Dd. unfold pata_exec_pio_out, iobase. rewrite Db, Dv. unfold mbind at 1 2. cbn [mlift of_option obind fst snd].
    rewrite (mbind_run _ _ _ _ _ (lock_run s _ Hl)). rewrite (mbind_run _ _ _ _ _ (lifts_run _ _ (Driver _ _ (dhw s)) _ _ (lifts_send_command _ _ _ _ _) E1)).
    rewrite (mbind_run _ _ _ _ _ (lifts_run _ _ (Driver _ _ h1) _ _ (lifts_pio _ _ _ _ _ (lifts_outsw _ _) _) E2)). cbn [dpool dlocal Z.eqb].
    rewrite (mbind_run _ _ _ _ _ (lifts_run _ _ (Driver _ _ h2) _ _ (lifts_wait _ _) E3)). cbn [dpool dlocal].
    rewrite (mbind_run _ _ _ _ _ (unlock_run _ _ _ _ Hl)). done.
  - unfold the_drive. cbn [dhw dpool]. rewrite Ed3. split_and!; [|done|congruence| |].
    + apply ready_spec. unfold the_drive. cbn [dhw dlocal]. rewrite Ed3. split_and!; [done|done|]. rewrite Es2, Ens. exact Hn.
    + intros x k. by rewrite Em3, Em2, Em1.
    + intros i. rewrite Ed2, Emd. repeat case_decide; try lia; [apply Em1|done].
Qed.

(** ** A disk is an array of sectors *)

(** Where the buffer is. *)
Variable page : Z.

Lemma put_ready s buf : ready s = true -> bytes_ok buf -> let s1 := on_hw (ram_put page buf) s in
  ready s1 = true /\ the_drive s1 = the_drive s /\ ram_get page (zlen buf) (dhw s1) = buf.
Proof.
  intros Hs Hok s1. destruct (drive_ram page buf (dhw s)) as [Ed _]. assert (Et : the_drive s1 = the_drive s) by exact Ed.
  split; [apply ready_spec; rewrite Et; by apply ready_spec in Hs|]. split; [done|]. unfold s1. cbn [on_hw dhw]. pose proof (zlen_nonneg buf).
  rewrite ram_get_put by (done || lia). replace (page - page) with 0 by lia. rewrite splice_0_app, drop_ge, app_nil_r; [done|].
  pose proof (ram_len page (zlen buf) (dhw s)). unfold zlen in *. lia.
Qed.


Inductive request := DiskRead (begin count : Z) | DiskWrite (begin : Z) (bytes : list Z).

(** On an array of sectors. *)
Definition array_request (r : request) (m : Z -> list Z) : list Z * (Z -> list Z) :=
  match r with
  | DiskRead begin count => (seqZ begin count ≫= m, m)
  | DiskWrite begin bytes => ([], fun i => if decide (begin <= i < begin + zlen bytes / 512) then slice (512 * (i - begin)) 512 bytes else m i)
  end.

Fixpoint array_requests (rs : list request) (m : Z -> list Z) : list (list Z) * (Z -> list Z) :=
  match rs with
  | [] => ([], m)
  | r :: rs' => let '(x, m1) := array_request r m in let '(xs, m2) := array_requests rs' m1 in (x :: xs, m2)
  end.

(** On the driver, with the buffer at [page]. *)
Definition disk_request (r : request) : hw state (list Z) :=
  match r with
  | DiskRead begin count =>
    e <~ ata_read fuel sata_in ad dev begin count page;
    if e =? 0 then fun s => Ret (ram_get page (512 * count) (dhw s), s) else fun _ => Fault
  | DiskWrite begin bytes =>
    modify (on_hw (ram_put page bytes)) ;>
    e <~ ata_write fuel sata_out ad dev begin (zlen bytes / 512) page;
    if e =? 0 then mret [] else fun _ => Fault
  end.

Fixpoint disk_requests (rs : list request) : hw state (list (list Z)) :=
  match rs with
  | [] => mret []
  | r :: rs' => x <~ disk_request r; xs <~ disk_requests rs'; mret (x :: xs)
  end.

(** One to 256 whole sectors of a disk with [n] sectors. *)
Definition request_ok (n : Z) (r : request) : Prop :=
  match r with
  | DiskRead begin count => 0 <= begin /\ 0 < count <= 256 /\ begin + count <= n
  | DiskWrite begin bytes => 0 <= begin /\ bytes_ok bytes /\ exists count, zlen bytes = 512 * count /\ 0 < count <= 256 /\ begin + count <= n
  end.

Lemma disk_request_ok s r m : ready s = true -> media_ok m -> request_ok (nsectors (the_drive s)) r -> (forall i, media (the_drive s) i = m i) ->
  exists s', disk_request r s = Ret (fst (array_request r m), s') /\ ready s' = true /\ nsectors (the_drive s') = nsectors (the_drive s) /\
    media_ok (snd (array_request r m)) /\ forall i, media (the_drive s') i = snd (array_request r m) i.
Proof.
  intros Hr Hmd Hok Hm. assert (Hmd' : media_ok (media (the_drive s))) by (intros i; rewrite Hm; apply Hmd). destruct r as [begin count|begin bytes]; cbn [request_ok] in Hok.
  - destruct Hok as (Hb & Hc & Hn). destruct (ata_read_ok s begin count page page (512 * count)) as (s' & E & Hr' & _ & En & Em & Er); [done|done|done|done|done|lia|lia|].
    exists s'. cbn [disk_request array_request fst snd]. rewrite (mbind_run _ _ _ _ _ E). cbn [Z.eqb]. rewrite Er. split_and!; [|done|done|done|by rewrite Em].
    do 2 f_equal. replace (page - page) with 0 by lia.
    assert (Es : sectors_at (the_drive s) begin (Z.to_nat count) = seqZ begin count ≫= m).
    { unfold sectors_at. rewrite Z2Nat.id by lia. apply list_bind_ext; [|done]. exact Hm. }
    rewrite Es. rewrite splice_0_app, drop_ge, app_nil_r; [done|].
    assert (Hl : zlen (seqZ begin count ≫= m) = 512 * count).
    { rewrite <- Es, sectors_at_len; [lia|]. intros i. apply Hmd'. }
    pose proof (ram_len page (512 * count) (dhw s)). unfold zlen in *. lia.
  - destruct Hok as (Hb & Hby & count & Hl & Hc & Hn). assert (Ed : zlen bytes / 512 = count) by (rewrite Hl, Z.mul_comm; apply Z.div_mul; lia).
    destruct (put_ready s bytes Hr Hby) as (Hr1 & Et & Eb). set (s1 := on_hw (ram_put page bytes) s) in *.
    destruct (ata_write_ok s1 begin count page) as (s' & E & Hr' & _ & En & _ & Em); [done|done|done|by rewrite Et|].
    exists s'. cbn [disk_request array_request fst snd]. unfold mbind at 1, modify. cbn [obind fst snd]. fold s1. rewrite Ed, (mbind_run _ _ _ _ _ E). cbn [Z.eqb].
    assert (Ew : forall i, media (the_drive s') i = if decide (begin <= i < begin + count) then slice (512 * (i - begin)) 512 bytes else m i).
    { intros i. rewrite Em, Et. case_decide; [|apply Hm]. rewrite (ram_slice page (zlen bytes)) by lia. by rewrite Eb. }
    split_and!; [done|done|by rewrite En, Et| |exact Ew]. intros i. rewrite <- Ew, Em, Et. case_decide; [|apply Hmd'].
    split; [by apply ram_len|apply ram_bytes].
Qed.

(** C23: On a drive of at most 2^28 sectors, whatever delays it has, any sequence of
    reads and writes of 1 to 256 whole sectors inside the drive returns what an
    array of sectors returns, and the disk is that array afterwards. *)
Theorem ata_refines_array rs : forall s m, ready s = true -> media_ok m -> Forall (request_ok (nsectors (the_drive s))) rs -> (forall i, media (the_drive s) i = m i) ->
  exists s', disk_requests rs s = Ret (fst (array_requests rs m), s') /\ ready s' = true /\ forall i, media (the_drive s') i = snd (array_requests rs m) i.
Proof.
  induction rs as [|r rs IH]; intros s m Hr Hmd Hok Hm; [by exists s|]. apply Forall_cons in Hok as [Ho Hok].
  destruct (disk_request_ok s r m Hr Hmd Ho Hm) as (s1 & E1 & Hr1 & En & Hmd1 & Em1). cbn [disk_requests array_requests]. rewrite (mbind_run _ _ _ _ _ E1).
  destruct (array_request r m) as [x m1]. cbn [fst snd] in *. destruct (IH s1 m1 Hr1 Hmd1) as (s2 & E2 & Hr2 & Em2); [by rewrite En|done|].
  rewrite (mbind_run _ _ _ _ _ E2). destruct (array_requests rs m1) as [xs m2]. by exists s2.
Qed.
End disk.

(** Bits of the sector above the 28th are lost: a disk the block layer thinks
    larger is read and written at the wrong place. *)
Lemma high_sector_bits_dropped {M} `{Machine M} base drv cmd lba count h :
  send_command base drv cmd lba count h = send_command (M := M) base drv cmd (lba mod 2 ^ 28) count h.
Proof.
  assert (E : forall s w, 0 <= s -> 0 <= w -> s + w <= 28 -> Z.land (Z.shiftr (lba mod 2 ^ 28) s) (Z.ones w) = Z.land (Z.shiftr lba s) (Z.ones w)).
  { intros s w Hs Hw Hsw. apply Z.bits_inj'. intros n Hn. rewrite !Z.land_spec, !Z.shiftr_spec, Z.testbit_ones_nonneg by lia.
    destruct (Z.ltb_spec n w); [|by rewrite !andb_false_r]. by rewrite Z.mod_pow2_bits_low by lia. }
  unfold send_command. change 0xf with (Z.ones 4). change 0xff with (Z.ones 8). rewrite !E by lia.
  pose proof (E 0 8 ltac:(lia) ltac:(lia) ltac:(lia)) as E0. rewrite !Z.shiftr_0_r in E0. by rewrite E0.
Qed.

(** ** A drive *)

(** A drive that is busy once after each command and each sector, and memory. *)
Record toy := Toy { t_drive : ata_drive; t_busy : bool; t_ram : Z -> Z }.

Definition toy_command (cmd : Z) (d : ata_drive) : ata_drive :=
  with_phase d (if cmd =? ATA_COMMAND_READ_SECTOR then DataIn (media d (reg_lba d)) (reg_lba d + 1) (reg_sectors d - 1)
                else DataOut [] (reg_lba d) (reg_sectors d - 1)).

#[local] Instance toy_machine : Machine toy := {
  io_in w p h :=
    if p =? 0x1f7 then if t_busy h then (0x80, Toy (t_drive h) false (t_ram h)) else (0x58, h)
    else match dphase (t_drive h) with
         | DataIn (b0 :: b1 :: rest) lba k =>
           (le_val [b0; b1], Toy (with_phase (t_drive h) (next_in (t_drive h) rest lba k)) (match rest with [] => true | _ => false end) (t_ram h))
         | _ => (0, h)
         end;
  io_out w p v h :=
    if p =? 0x1f7 then Toy (toy_command v (t_drive h)) true (t_ram h)
    else if p =? 0x1f0 then
      match dphase (t_drive h) with
      | DataOut got lba k => Toy (next_out (t_drive h) (got ++ le_bytes 2 v) lba k) (zlen (got ++ le_bytes 2 v) =? 512) (t_ram h)
      | _ => h
      end
    else Toy (set_reg (p - 0x1f0) v (t_drive h)) (t_busy h) (t_ram h);
  mm_load w a h := (0, h);
  mm_store w a v h := h;
  ram_get a n h := fget (t_ram h) a n;
  ram_put b l h := Toy (t_drive h) (t_busy h) (fput b l (t_ram h))
}.

#[local] Instance toy_ram_laws : RamLaws toy.
Proof.
  constructor; cbn [ram_get ram_put toy_machine t_ram].
  - intros a n h. apply fget_len.
  - intros a n h. apply fget_bytes.
  - intros a n b l h. apply fget_fput.
  - intros a n i m h. apply fget_slice.
Qed.

#[local, refine] Instance toy_pio : PioDrive toy 0x1f0 0 := {
  drive_of := t_drive;
  busy_left h := if t_busy h then 1%nat else 0%nat;
  busy_max := 1%nat
}.
Proof.
  - intros h. destruct (t_busy h); lia.
  - done.
  - intros k v h _ Hk _. unfold PATA_IO_COUNT, PATA_IO_DRIVE in Hk. cbn [io_out toy_machine].
    destruct (Z.eqb_spec (0x1f0 + k) 0x1f7); [lia|]. destruct (Z.eqb_spec (0x1f0 + k) 0x1f0); [lia|]. cbn [t_drive].
    replace (0x1f0 + k - 0x1f0) with k by lia. done.
  - done.
  - intros h. cbn [io_in toy_machine]. change (0x1f0 + PATA_IO_STATUS =? 0x1f7) with true. cbn iota. destruct (t_busy h) eqn:Eb.
    + exists 0x80, (Toy (t_drive h) false (t_ram h)). split_and!; try done. left. split; [done|]. cbn. lia.
    + exists 0x58, h. rewrite Eb. split_and!; try done. right. done.
  - intros h b0 b1 rest lba k Hb Hp. cbn [io_in toy_machine]. change (0x1f0 + PATA_IO_DATA =? 0x1f7) with false. cbn iota. rewrite Hp.
    eexists. split; [done|]. split; [done|]. split; [by destruct rest|done].
  - intros h w got lba k Hb Hp. cbn [io_out toy_machine]. change (0x1f0 + PATA_IO_DATA =? 0x1f7) with false. change (0x1f0 + PATA_IO_DATA =? 0x1f0) with true.
    cbn iota. rewrite Hp. cbn [t_drive t_busy]. split; [done|]. split; [|done]. intros Hn. by apply Z.eqb_neq in Hn as ->.
Defined.

Definition ex_media : Z -> list Z := fun i => repeat (i mod 256) 512.
Definition ex_adapter : PATAAdapter := Adapter [0x1f0; 0x170] [0x3f6; 0x376] 0 false false [].
Definition ex_device : ATADevice := AtaDev ATA_TRANSPORT_PARALLEL_ATA 1000 0 false (PataDev 0 0 false 0 4 0 0) (sata new_ata_device).
Definition ex_disk : driver unit (list bool) toy := Driver tt [false; false] (Toy (AtaDrive 0 0 0 0 0 Ready ex_media 1000) false (fun _ => 0)).
Definition no_sata {S : Type} (_ _ _ _ _ _ : Z) : hw S Z := mret (-1).

#[local] Instance unit_allocator : PageAllocator unit := { pa_pgalloc _ _ := Fault; pa_pgfree _ _ _ := Fault }.

Lemma ata_refines_array_witness :
  let rs := [DiskWrite 7 (repeat 65 512); DiskRead 6 3] in
  exists s', disk_requests 1 no_sata no_sata ex_adapter ex_device 0x1000 rs ex_disk = Ret ([[]; repeat 6 512 ++ repeat 65 512 ++ repeat 8 512], s').
Proof.
  assert (Hd : pio_device ex_adapter ex_device (base := 0x1f0) (drv := 0)) by (constructor; try done; by left).
  pose proof (ata_refines_array (A := unit) (H := toy) (base := 0x1f0) (drv := 0) 1) as T.
  destruct (T (le_n 1) no_sata no_sata ex_adapter ex_device Hd 0x1000 [DiskWrite 7 (repeat 65 512); DiskRead 6 3] ex_disk ex_media) as (s' & E & _).
  - done.
  - intros i. unfold ex_media. split; [done|]. apply Forall_forall. intros x Hx%list_elem_of_In%repeat_spec. subst x. unfold is_u8. apply Z.mod_pos_bound. lia.
  - apply Forall_cons_2; [|apply Forall_cons_2; [cbn; lia|by apply Forall_nil]]. split; [done|]. split.
    + apply Forall_forall. intros x Hx%list_elem_of_In%repeat_spec. by subst x.
    + by exists 1.
  - done.
  - exists s'. exact E.
Defined.
