(* ===== verification/Ahci.v ===== *)
(** kernel/driver/ahci and kernel/driver/ata/sata.c: serial ATA disks.

    The controller (HBA) has registers in memory, for itself and for each port.  A
    port has a list of commands and a buffer for the frames (FIS) the device sends,
    both in pages of memory; a command is a header in the list, which points to a
    table with the frame of the command and the region of memory for its data.  The
    driver uses the first header of the list.  The two transfers of sata.c are those
    that [Ata] takes for a serial disk.

    The theorems: on an HBA that fetches and executes the commands as AHCI and the
    ATA standard say, start-up of a port leaves it ready for commands, and any
    sequence of reads and writes of a disk has the results it has on an array of
    sectors, for sectors of 24 bits.  Beyond them the driver accesses other sectors. *)

From stdpp Require Import base list gmap sets strings.
From Stdlib Require Import ZArith Lia.
From S2P Require Import Prelude Mmu Vm Machine Pci Ata.

Local Open Scope Z_scope.
Local Open Scope hw_scope.

Definition AHCI_CAP : Z := 0x0.
Definition AHCI_CAP_NPORTS_MASK : Z := 0x1f.
Definition AHCI_GHC : Z := 0x4.
Definition AHCI_GHC_AHCIEN : Z := 2 ^ 31.
Definition AHCI_GHC_HBARESET : Z := 1.
Definition AHCI_PORTIMPL : Z := 0xc.
Definition AHCI_VERSION : Z := 0x10.
Definition AHCI_CAP2 : Z := 0x24.

Definition AHCI_PORT_CONTROL_OFFSET (port : Z) : Z := 0x100 + port * 0x80.

Definition AHCI_PxCLB_LOWER : Z := 0x0.
Definition AHCI_PxCLB_UPPER : Z := 0x4.
Definition AHCI_PxFB_LOWER : Z := 0x8.
Definition AHCI_PxFB_UPPER : Z := 0xc.
Definition AHCI_PxIS : Z := 0x10.
Definition AHCI_PxCMD : Z := 0x18.
Definition AHCI_PxCMD_FRE : Z := 2 ^ 4.
Definition AHCI_PxCMD_ST : Z := 2 ^ 0.
Definition AHCI_PxTFD : Z := 0x20.
Definition AHCI_PxTFD_STATUS_BSY : Z := 2 ^ 7.
Definition AHCI_PxTFD_STATUS_DRQ : Z := 2 ^ 3.
Definition AHCI_PxSIG : Z := 0x24.
Definition AHCI_PxSSTS : Z := 0x28.
Definition AHCI_PxSSTS_IPM_ACTIVE : Z := 1.
Definition AHCI_PxSSTS_DET_PRESENSE_COMM : Z := 3.
Definition AHCI_PxSCTL : Z := 0x2c.
Definition AHCI_PxSERR : Z := 0x30.
Definition AHCI_PxSACT : Z := 0x34.
Definition AHCI_PxCI : Z := 0x38.

Definition AHCI_CMDLIST_DW0_W : Z := 2 ^ 6.
Definition AHCI_PRDT_DBC_I_I : Z := 2 ^ 31.
Definition RegisterFISHostToDevice : Z := 0x27.
Definition SATA_REGISTER_FIS_H2D_PM_C_COMMAND : Z := 2 ^ 7.
Definition SATA_SIGNATURE_ATA : Z := 0x00000101.
Definition SATA_SIGNATURE_ATAPI : Z := 0xeb140101.

(** The registers and, for each of 32 ports, the pages of its list and buffer. *)
Record AHCIController := Ahci { abar : Z; command_list : list Z; received_fis_buffer : list Z }.

Section registers.
Context {M : Type} `{Machine M}.

Definition ahci_read_reg32 (ahci : AHCIController) (offset : Z) : hw M Z := load32 (abar ahci + 4 * (offset / 4)).
Definition ahci_write_reg32 (ahci : AHCIController) (offset value : Z) : hw M unit := store32 (abar ahci + 4 * (offset / 4)) value.

Definition read_port (ahci : AHCIController) (port r : Z) : hw M Z := ahci_read_reg32 ahci (AHCI_PORT_CONTROL_OFFSET port + r).
Definition write_port (ahci : AHCIController) (port r v : Z) : hw M unit := ahci_write_reg32 ahci (AHCI_PORT_CONTROL_OFFSET port + r) v.

Definition put_words (l : list (Z * Z)) : hw M unit := each (fun '(a, v) => modify (ram_put a (le_bytes 4 (u32 v)))) l.
Definition put_bytes (l : list (Z * Z)) : hw M unit := each (fun '(a, v) => modify (ram_put a [u8 v])) l.

(** The header in the list [cl]: table, lengths and direction, transferred bytes. *)
Definition set_header (cl table w : Z) : hw M unit :=
  put_words [(cl + 8, V2P table); (cl + 12, 0); (cl, Z.lor (Z.lor (Z.shiftl 1 16) 5) w); (cl + 4, 0)].

(** The frame of the command at the start of the table. *)
Definition set_fis (fis cmd lba cont : Z) : hw M unit :=
  put_bytes [(fis, RegisterFISHostToDevice); (fis + 1, SATA_REGISTER_FIS_H2D_PM_C_COMMAND); (fis + 2, cmd);
             (fis + 4, Z.land lba 0xff); (fis + 5, Z.land (Z.shiftr lba 8) 0xff); (fis + 6, Z.land (Z.shiftr lba 16) 0xff);
             (fis + 8, Z.land (Z.shiftr lba 24) 0xff); (fis + 9, Z.land (Z.shiftr lba 32) 0xff); (fis + 10, Z.land (Z.shiftr lba 40) 0xff);
             (fis + 12, Z.land cont 0xff); (fis + 13, Z.land (Z.shiftr cont 8) 0xff); (fis + 7, Z.shiftl 1 6)].

(** The region of the data, behind the 128 bytes of the table. *)
Definition set_region (table buf blocks : Z) : hw M unit :=
  put_words [(table + 0x80, V2P buf); (table + 0x84, 0); (table + 0x8c, Z.lor AHCI_PRDT_DBC_I_I (u32 (512 * blocks - 1)))].

(** Both tests read the register. *)
Definition port_busy (ahci : AHCIController) (port : Z) : hw M bool :=
  t1 <~ read_port ahci port AHCI_PxTFD;
  if negb (Z.land t1 AHCI_PxTFD_STATUS_BSY =? 0) then mret true else
  t2 <~ read_port ahci port AHCI_PxTFD;
  mret (negb (Z.land t2 AHCI_PxTFD_STATUS_DRQ =? 0)).

Definition issue_command (fuel : nat) (ahci : AHCIController) (port : Z) : hw M unit :=
  c <~ read_port ahci port AHCI_PxCMD;
  write_port ahci port AHCI_PxCMD (Z.lor c AHCI_PxCMD_ST) ;>
  write_port ahci port AHCI_PxIS 0xffffffff ;>
  spin fuel (port_busy ahci port) ;>
  write_port ahci port AHCI_PxCI 1 ;>
  spin fuel (ci <~ read_port ahci port AHCI_PxCI; mret (Z.testbit ci 0)).

(** A command in the first header, its table at [table]. *)
Definition run_command (fuel : nat) (ahci : AHCIController) (port cl table w cmd lba cont buf blocks : Z) : hw M unit :=
  modify (ram_put table (repeat 0 4096)) ;>
  set_header cl table w ;>
  set_fis table cmd lba cont ;>
  set_region table buf blocks ;>
  issue_command fuel ahci port.
End registers.

Section driver.
Context {A H : Type} `{PageAllocator A} `{Machine H}.
(** Turns of each loop that waits for the controller. *)
Variable fuel : nat.

Local Notation state := (driver A (list bool) H).

(** Both directions differ in one bit of the header; no error is looked for. *)
Definition exec_pio (w : Z) (ahci : AHCIController) (port cmd lba cont buf blocks : Z) : hw state Z :=
  table <~ d_kalloc;
  if table =? 0 then (fun _ => Fault) else
  cl <~ mlift (of_option (zget (command_list ahci) port));
  run_command fuel ahci port cl table w (u8 cmd) lba cont buf blocks ;>
  d_kfree table ;> mret 0.

Definition ahci_exec_pio_in : AHCIController -> Z -> Z -> Z -> Z -> Z -> Z -> hw state Z := exec_pio 0.
Definition ahci_exec_pio_out : AHCIController -> Z -> Z -> Z -> Z -> Z -> Z -> hw state Z := exec_pio AHCI_CMDLIST_DW0_W.

(** ** Start-up *)

(** A page of zeros whose physical address goes to a pair of registers. *)
Definition port_page (ahci : AHCIController) (port lower upper : Z) : hw state Z :=
  p <~ zeroed_page;
  write_port ahci port lower (V2P p) ;> write_port ahci port upper 0 ;> mret p.

(** The four registers of the message are read; a port that is not implemented, or
    has no active device, is left alone. *)
Definition ahci_init_port (ahci : AHCIController) (port : Z) : hw state AHCIController :=
  pi <~ ahci_read_reg32 ahci AHCI_PORTIMPL;
  if negb (Z.testbit pi port) then mret ahci else
  read_port ahci port AHCI_PxSSTS ;> read_port ahci port AHCI_PxSCTL ;> read_port ahci port AHCI_PxSERR ;> read_port ahci port AHCI_PxSACT ;>
  s1 <~ read_port ahci port AHCI_PxSSTS;
  if negb (Z.land s1 0xf =? AHCI_PxSSTS_DET_PRESENSE_COMM) then mret ahci else
  s2 <~ read_port ahci port AHCI_PxSSTS;
  if negb (Z.land (Z.shiftr s2 8) 0xf =? AHCI_PxSSTS_IPM_ACTIVE) then mret ahci else
  read_port ahci port AHCI_PxSSTS ;>
  cl <~ port_page ahci port AHCI_PxCLB_LOWER AHCI_PxCLB_UPPER;
  cls <~ mlift (of_option (zset (command_list ahci) port cl));
  fb <~ port_page ahci port AHCI_PxFB_LOWER AHCI_PxFB_UPPER;
  fbs <~ mlift (of_option (zset (received_fis_buffer ahci) port fb));
  c <~ read_port ahci port AHCI_PxCMD;
  write_port ahci port AHCI_PxCMD (Z.lor c AHCI_PxCMD_FRE) ;>
  write_port ahci port AHCI_PxSERR 0xffffffff ;>
  read_port ahci port AHCI_PxSIG ;>
  mret (Ahci (abar ahci) cls fbs).

(** As long as the capabilities say that there are more ports; each turn reads them. *)
Fixpoint init_ports (n : nat) (i : Z) (ahci : AHCIController) : hw state AHCIController :=
  cap <~ ahci_read_reg32 ahci AHCI_CAP;
  if i <? Z.land cap AHCI_CAP_NPORTS_MASK + 1 then
    match n with
    | O => fun _ => NoFuel
    | S n' => a <~ ahci_init_port ahci i; init_ports n' (i + 1) a
    end
  else mret ahci.

(** [sata.c] *)
Definition ahci_port_get_link_status (ahci : AHCIController) (port : Z) : hw state Z :=
  pi <~ ahci_read_reg32 ahci AHCI_PORTIMPL;
  if negb (Z.testbit pi port) then mret 0 else
  s <~ read_port ahci port AHCI_PxSSTS; mret (Z.land (Z.shiftr s 4) 0xf).

Definition ahci_port_get_signature (ahci : AHCIController) (port : Z) : hw state Z := read_port ahci port AHCI_PxSIG.

(** The controllers of sata.c are all of this type, and resetting a port does
    nothing. *)
Definition sata_exec_pio_in : AHCIController -> Z -> Z -> Z -> Z -> Z -> Z -> hw state Z := ahci_exec_pio_in.
Definition sata_exec_pio_out : AHCIController -> Z -> Z -> Z -> Z -> Z -> Z -> hw state Z := ahci_exec_pio_out.

(** The disks of the ports from [port] on; [buf] is the array for the model of a
    disk, [ad] stands for the adapter, which a serial disk has not. *)
Fixpoint register_ports (n : nat) (port : Z) (ahci : AHCIController) (ad : PATAAdapter) (buf : list Z) : hw state (list ATADevice) :=
  match n with
  | O => mret []
  | S n' =>
    link <~ ahci_port_get_link_status ahci port;
    new <~ (if link =? 0 then mret None else
            sig <~ ahci_port_get_signature ahci port;
            if sig =? SATA_SIGNATURE_ATA
            then d_kalloc ;>
                 ata_register_ata_device fuel (sata_exec_pio_in ahci) ad
                   (AtaDev ATA_TRANSPORT_SERIAL_ATA 0 0 false (pata new_ata_device) (SataDev port 0 false false false false false)) buf
            else mret None);
    more <~ register_ports n' (port + 1) ahci ad buf;
    mret (option_list new ++ more)
  end.

Definition sata_register_controller (num_ports : Z) : AHCIController -> PATAAdapter -> list Z -> hw state (list ATADevice) :=
  register_ports (Z.to_nat num_ports) 0.

Variable pci_host : PciHost state.

(** Bit [b] of the global control register is set. *)
Definition set_ghc (ahci : AHCIController) (b : Z) : hw state unit :=
  g <~ ahci_read_reg32 ahci AHCI_GHC; ahci_write_reg32 ahci AHCI_GHC (Z.lor g b).

(** The entry of the device with the controller as its private data, the
    controller, and its disks; the registers of the messages are read. *)
Definition ahci_controller_init (pcidev : PCIDevice) (ad : PATAAdapter) (buf : list Z) : hw state (PCIDevice * AHCIController * list ATADevice) :=
  let addr := pd_addr pcidev in
  p <~ d_kalloc;
  if p =? 0 then (fun _ => Fault) else
  bar <~ pci_read_bar pci_host addr 5;
  size <~ pci_read_bar_size pci_host addr 5;
  base <~ mlift (map_mmio_region bar size);
  let ahci := Ahci base (repeat 0 32) (repeat 0 32) in
  pci_read_bar pci_host addr 5 ;>
  set_ghc ahci AHCI_GHC_AHCIEN ;>
  set_ghc ahci AHCI_GHC_HBARESET ;>
  spin fuel (g <~ ahci_read_reg32 ahci AHCI_GHC; mret (Z.testbit g 0)) ;>
  set_ghc ahci AHCI_GHC_AHCIEN ;>
  ahci_read_reg32 ahci AHCI_VERSION ;> ahci_read_reg32 ahci AHCI_CAP ;> ahci_read_reg32 ahci AHCI_CAP2 ;>
  ahci' <~ init_ports 32 0 ahci;
  d_kalloc ;>
  cap <~ ahci_read_reg32 ahci' AHCI_CAP;
  disks <~ sata_register_controller (Z.land cap AHCI_CAP_NPORTS_MASK + 1) ahci' ad buf;
  mret (set_private pcidev p, ahci', disks).
End driver.

(** ["ahci"], for the class of AHCI controllers. *)
Definition ahci_driver : PCIDriver := PciDriver [97; 104; 99; 105; 0] None 0x010601.

Definition ahci_init {A H} `{Machine H} (pci_host : PciHost (driver A pci_vars H)) (call_init : Z -> Z -> hw (driver A pci_vars H) unit)
    (drv : Z) : hw (driver A pci_vars H) unit := pci_register_driver pci_host call_init drv ahci_driver.

(** ** The controller *)

(** A port: the addresses of its list and buffer, whether it processes the list, and
    whether the first command is issued; and its disk. *)
Record hba_port := HbaPort { p_clb : Z; p_fb : Z; p_started : bool; p_issued : bool; p_media : Z -> list Z; p_sectors : Z }.

Definition set_clb (v : Z) (p : hba_port) : hba_port := HbaPort v (p_fb p) (p_started p) (p_issued p) (p_media p) (p_sectors p).
Definition set_fb (v : Z) (p : hba_port) : hba_port := HbaPort (p_clb p) v (p_started p) (p_issued p) (p_media p) (p_sectors p).
Definition set_started (b : bool) (p : hba_port) : hba_port := HbaPort (p_clb p) (p_fb p) b (p_issued p) (p_media p) (p_sectors p).
Definition set_issued (b : bool) (p : hba_port) : hba_port := HbaPort (p_clb p) (p_fb p) (p_started p) b (p_media p) (p_sectors p).
Definition set_media (m : Z -> list Z) (p : hba_port) : hba_port := HbaPort (p_clb p) (p_fb p) (p_started p) (p_issued p) m (p_sectors p).

(** A command as the controller fetches it: direction, command, sector and count of
    a command with 28-bit addresses, and the region of memory. *)
Record hba_command := HbaCmd { c_write : bool; c_cmd : Z; c_lba : Z; c_count : Z; c_buf : Z; c_bytes : Z }.

Definition byte_at (l : list Z) (i : Z) : Z := default 0 (zget l i).

(** From the first 16 bytes of the list and the first 144 of the table. *)
Definition decode_command (header table : list Z) : option hba_command :=
  let dw0 := get32 0 header in
  let b := byte_at table in
  if (Z.land dw0 0x1f =? 5) && (Z.shiftr dw0 16 =? 1) && (b 0 =? 0x27) && Z.testbit (b 1) 7 && Z.testbit (b 7) 6
  then Some (HbaCmd (Z.testbit dw0 6) (b 2) (b 4 + 2 ^ 8 * b 5 + 2 ^ 16 * b 6 + 2 ^ 24 * (b 7 mod 16)) (if b 12 =? 0 then 256 else b 12)
               (P2V (get32 0x80 table)) (get32 0x8c table mod 2 ^ 22 + 1))
  else None.

Section fetch.
Context {M : Type} `{Machine M}.

Definition fetch (p : hba_port) (h : M) : option hba_command :=
  let header := ram_get (P2V (p_clb p)) 16 h in
  decode_command header (ram_get (P2V (get32 8 header)) 144 h).
End fetch.

(** Sectors of the disk to memory or back, with a region of their size. *)
Definition command_ok (p : hba_port) (c : hba_command) : Prop :=
  c_bytes c = 512 * c_count c /\ c_lba c + c_count c <= p_sectors p /\
  (c_cmd c = ATA_COMMAND_READ_SECTOR /\ c_write c = false \/ c_cmd c = ATA_COMMAND_WRITE_SECTOR /\ c_write c = true).

(** A region that the controller does not use for itself. *)
Definition apart (p : hba_port) (a n : Z) : Prop :=
  (a + n <= P2V (p_clb p) \/ P2V (p_clb p) + 4096 <= a) /\ (a + n <= P2V (p_fb p) \/ P2V (p_fb p) + 4096 <= a).

Definition disk_bytes (m : Z -> list Z) (lba count : Z) : list Z := seqZ lba count ≫= m.

(** What the driver relies on, of the port [port] of the controller whose registers
    are at [base]: [hba_left] bounds the reads that still find it busy.  An issued
    command is done when its bit reads as zero; meanwhile the controller uses the
    list and the buffer for itself. *)
Class AhciPort (H : Type) `{RamLaws H} (base port : Z) := {
  port_of : H -> hba_port;
  hba_left : H -> nat;
  hba_max : nat;
  hba_bound h : (hba_left h <= hba_max)%nat;
  hba_ram a l h : port_of (ram_put a l h) = port_of h;
  hba_impl h : exists v h', mm_load 4 (base + AHCI_PORTIMPL) h = (v, h') /\ Z.testbit v port = true /\ port_of h' = port_of h /\ mem_same h h';
  hba_read r h : r ∈ [AHCI_PxSSTS; AHCI_PxSCTL; AHCI_PxSERR; AHCI_PxSACT; AHCI_PxCMD; AHCI_PxSIG] ->
    exists v h', mm_load 4 (base + AHCI_PORT_CONTROL_OFFSET port + r) h = (v, h') /\ is_u32 v /\ port_of h' = port_of h /\ mem_same h h' /\
      (r = AHCI_PxSSTS -> Z.land v 0xf = AHCI_PxSSTS_DET_PRESENSE_COMM /\ Z.land (Z.shiftr v 8) 0xf = AHCI_PxSSTS_IPM_ACTIVE);
  hba_write r v h : is_u32 v -> p_issued (port_of h) = false -> r ∈ [AHCI_PxCLB_UPPER; AHCI_PxFB_UPPER; AHCI_PxSERR; AHCI_PxIS; AHCI_PxCLB_LOWER; AHCI_PxFB_LOWER; AHCI_PxCMD] ->
    let h' := mm_store 4 (base + AHCI_PORT_CONTROL_OFFSET port + r) v h in
    mem_same h h' /\
    port_of h' = if r =? AHCI_PxCLB_LOWER then set_clb v (port_of h) else if r =? AHCI_PxFB_LOWER then set_fb v (port_of h)
                 else if r =? AHCI_PxCMD then set_started (Z.testbit v 0) (port_of h) else port_of h;
  hba_tfd h : p_issued (port_of h) = false -> exists v h', mm_load 4 (base + AHCI_PORT_CONTROL_OFFSET port + AHCI_PxTFD) h = (v, h') /\
    port_of h' = port_of h /\ mem_same h h' /\
    ((hba_left h' < hba_left h)%nat \/ Z.testbit v 7 = false /\ Z.testbit v 3 = false /\ hba_left h' = O);
  hba_issue c h : p_issued (port_of h) = false -> p_started (port_of h) = true -> fetch (port_of h) h = Some c -> command_ok (port_of h) c ->
    let h' := mm_store 4 (base + AHCI_PORT_CONTROL_OFFSET port + AHCI_PxCI) 1 h in
    port_of h' = set_issued true (port_of h) /\ mem_same h h';
  hba_poll c h : p_issued (port_of h) = true -> fetch (port_of h) h = Some c -> command_ok (port_of h) c -> apart (port_of h) (c_buf c) (c_bytes c) ->
    exists v h', mm_load 4 (base + AHCI_PORT_CONTROL_OFFSET port + AHCI_PxCI) h = (v, h') /\
      (Z.testbit v 0 = true /\ port_of h' = port_of h /\ mem_same h h' /\ (hba_left h' < hba_left h)%nat \/
       Z.testbit v 0 = false /\
       if c_write c then
         port_of h' = set_issued false (set_media (fun i => if decide (c_lba c <= i < c_lba c + c_count c) then ram_get (c_buf c + 512 * (i - c_lba c)) 512 h else p_media (port_of h) i) (port_of h)) /\
         forall a n, 0 <= n -> apart (port_of h) a n -> ram_get a n h' = ram_get a n h
       else
         port_of h' = set_issued false (port_of h) /\
         forall a n, 0 <= n -> apart (port_of h) a n -> ram_get a n h' = ram_get a n (ram_put (c_buf c) (disk_bytes (p_media (port_of h)) (c_lba c) (c_count c)) h))
}.

(** ** Memory *)

Section stores.
Context {M : Type} `{RamLaws M}.

(** Stores one after the other. *)
Definition puts (l : list (Z * list Z)) (h : M) : M := foldl (fun h e => ram_put e.1 e.2 h) h l.

Definition word_stores (l : list (Z * Z)) : list (Z * list Z) := map (fun e => (e.1, le_bytes 4 (u32 e.2))) l.
Definition byte_stores (l : list (Z * Z)) : list (Z * list Z) := map (fun e => (e.1, [u8 e.2])) l.

Lemma put_words_run l : forall h : M, put_words l h = Ret (tt, puts (word_stores l) h).
Proof. induction l as [|[a v] l IH]; intros h; [done|]. cbn [put_words each word_stores map puts foldl fst snd]. unfold mbind, modify. cbn [obind fst snd]. apply IH. Qed.

Lemma put_bytes_run l : forall h : M, put_bytes l h = Ret (tt, puts (byte_stores l) h).
Proof. induction l as [|[a v] l IH]; intros h; [done|]. cbn [put_bytes each byte_stores map puts foldl fst snd]. unfold mbind, modify. cbn [obind fst snd]. apply IH. Qed.

Lemma puts_app l1 l2 h : puts (l1 ++ l2) h = puts l2 (puts l1 h).
Proof. unfold puts. apply foldl_app. Qed.

Definition inside (a n : Z) (e : Z * list Z) : Prop := bytes_ok e.2 /\ a <= e.1 /\ e.1 + zlen e.2 <= a + n.
Definition outside (a n : Z) (e : Z * list Z) : Prop := bytes_ok e.2 /\ (a + n <= e.1 \/ e.1 + zlen e.2 <= a).

Lemma puts_inside a n l : forall h, Forall (inside a n) l -> ram_get a n (puts l h) = foldl (fun x e => splice (e.1 - a) e.2 x) (ram_get a n h) l.
Proof.
  induction l as [|e l IH]; intros h Hl; [done|]. inversion_clear Hl as [|? ? (Hb & Ha & Hn) Hl']. cbn [puts foldl]. change (foldl _ (ram_put e.1 e.2 h) l) with (puts l (ram_put e.1 e.2 h)).
  rewrite IH by done. by rewrite ram_get_put.
Qed.

Lemma puts_outside a n l : 0 <= n -> forall h, Forall (outside a n) l -> ram_get a n (puts l h) = ram_get a n h.
Proof.
  intros Hn. induction l as [|e l IH]; intros h Hl; [done|]. inversion_clear Hl as [|? ? (Hb & Hd) Hl']. cbn [puts foldl]. change (foldl _ (ram_put e.1 e.2 h) l) with (puts l (ram_put e.1 e.2 h)).
  rewrite IH by done. by apply ram_get_other.
Qed.
End stores.

(** ** Commands *)

(** The header and the table of a command, as bytes. *)
Definition header_bytes (table w : Z) : list Z := le_bytes 4 (u32 (Z.lor (Z.lor (Z.shiftl 1 16) 5) w)) ++ le_bytes 4 0 ++ le_bytes 4 (V2P table) ++ le_bytes 4 0.

Definition table_bytes (cmd lba cont buf blocks : Z) : list Z :=
  [0x27; 0x80; u8 cmd; 0; u8 (Z.land lba 0xff); u8 (Z.land (Z.shiftr lba 8) 0xff); u8 (Z.land (Z.shiftr lba 16) 0xff); 0x40;
   u8 (Z.land (Z.shiftr lba 24) 0xff); u8 (Z.land (Z.shiftr lba 32) 0xff); u8 (Z.land (Z.shiftr lba 40) 0xff); 0; u8 (Z.land cont 0xff); u8 (Z.land (Z.shiftr cont 8) 0xff)] ++
  repeat 0 114 ++ le_bytes 4 (V2P buf) ++ repeat 0 8 ++ le_bytes 4 (u32 (Z.lor AHCI_PRDT_DBC_I_I (u32 (512 * blocks - 1)))).

Lemma four_bytes w : exists b0 b1 b2 b3, le_bytes 4 w = [b0; b1; b2; b3].
Proof. do 4 eexists. reflexivity. Qed.

Lemma word_bytes_ok v : bytes_ok (le_bytes 4 (u32 v)) /\ zlen (le_bytes 4 (u32 v)) = 4.
Proof. split; [apply le_bytes_ok|done]. Qed.

Lemma byte_ok v : bytes_ok [u8 v] /\ zlen [u8 v] = 1.
Proof. split; [|done]. apply Forall_cons_2; [|by apply Forall_nil]. unfold is_u8, u8. apply Z.mod_pos_bound. lia. Qed.

(** Stores lie in [n] bytes from [a] on. *)
Lemma word_stores_inside a n l : Forall (fun e => a <= e.1 /\ e.1 + 4 <= a + n) l -> Forall (inside a n) (word_stores l).
Proof. intros Hl. apply Forall_map. eapply Forall_impl; [exact Hl|]. intros [b v] [Ha Hn]. destruct (word_bytes_ok v) as [Hb Hz]. unfold inside. cbn [fst snd] in *. rewrite Hz. done. Qed.

Lemma byte_stores_inside a n l : Forall (fun e => a <= e.1 /\ e.1 + 1 <= a + n) l -> Forall (inside a n) (byte_stores l).
Proof. intros Hl. apply Forall_map. eapply Forall_impl; [exact Hl|]. intros [b v] [Ha Hn]. destruct (byte_ok v) as [Hb Hz]. unfold inside. cbn [fst snd] in *. rewrite Hz. done. Qed.

Lemma inside_outside a n b m l : a + n <= b \/ b + m <= a -> Forall (inside b m) l -> Forall (outside a n) l.
Proof. intros Hd Hl. eapply Forall_impl; [exact Hl|]. intros e (Hb & Ha & Hn). split; [done|]. lia. Qed.

Definition header_words (cl table w : Z) : list (Z * Z) := [(cl + 8, V2P table); (cl + 12, 0); (cl, Z.lor (Z.lor (Z.shiftl 1 16) 5) w); (cl + 4, 0)].

Lemma header_inside cl table w : Forall (inside cl 16) (word_stores (header_words cl table w)).
Proof. apply word_stores_inside. repeat apply Forall_cons_2; try apply Forall_nil; cbn [fst]; lia. Qed.

(** Lists of a length written out. *)
Lemma list_16 (l : list Z) : zlen l = 16 -> exists a b c d e f g i j k m n o p q r, l = [a; b; c; d; e; f; g; i; j; k; m; n; o; p; q; r].
Proof.
  unfold zlen. intros Hl. do 16 (destruct l as [|? l]; [cbn in Hl; lia|]). destruct l; [|cbn [length] in Hl; lia]. by do 16 eexists.
Qed.

Lemma header_splices cl table w l : zlen l = 16 -> foldl (fun x e => splice (e.1 - cl) e.2 x) l (word_stores (header_words cl table w)) = header_bytes table w.
Proof.
  intros Hl. destruct (list_16 l Hl) as (a & b & c & d & e & f & g & i & j & k & m & n & o & p & q & r & ->). unfold header_words, word_stores, header_bytes. cbn [map foldl fst snd].
  replace (cl + 8 - cl) with 8 by lia. replace (cl + 12 - cl) with 12 by lia. replace (cl - cl) with 0 by lia. replace (cl + 4 - cl) with 4 by lia. change (u32 0) with 0.
  assert (E : u32 (V2P table) = V2P table) by (apply u32_small, u32_range). rewrite E.
  destruct (four_bytes (V2P table)) as (a0 & a1 & a2 & a3 & ->). destruct (four_bytes (u32 (Z.lor (Z.lor (Z.shiftl 1 16) 5) w))) as (b0 & b1 & b2 & b3 & ->). reflexivity.
Qed.

Definition fis_bytes (table cmd lba cont : Z) : list (Z * Z) :=
  [(table, RegisterFISHostToDevice); (table + 1, SATA_REGISTER_FIS_H2D_PM_C_COMMAND); (table + 2, cmd);
   (table + 4, Z.land lba 0xff); (table + 5, Z.land (Z.shiftr lba 8) 0xff); (table + 6, Z.land (Z.shiftr lba 16) 0xff);
   (table + 8, Z.land (Z.shiftr lba 24) 0xff); (table + 9, Z.land (Z.shiftr lba 32) 0xff); (table + 10, Z.land (Z.shiftr lba 40) 0xff);
   (table + 12, Z.land cont 0xff); (table + 13, Z.land (Z.shiftr cont 8) 0xff); (table + 7, Z.shiftl 1 6)].

Definition region_words (table buf blocks : Z) : list (Z * Z) :=
  [(table + 0x80, V2P buf); (table + 0x84, 0); (table + 0x8c, Z.lor AHCI_PRDT_DBC_I_I (u32 (512 * blocks - 1)))].

Definition table_stores (table cmd lba cont buf blocks : Z) : list (Z * list Z) :=
  byte_stores (fis_bytes table cmd lba cont) ++ word_stores (region_words table buf blocks).

Lemma table_inside table cmd lba cont buf blocks : Forall (inside table 144) (table_stores table cmd lba cont buf blocks).
Proof.
  apply Forall_app. split; [apply byte_stores_inside|apply word_stores_inside]; repeat apply Forall_cons_2; try apply Forall_nil; cbn [fst]; lia.
Qed.

Lemma table_splices table cmd lba cont buf blocks :
  foldl (fun x e => splice (e.1 - table) e.2 x) (repeat 0 144) (table_stores table cmd lba cont buf blocks) = table_bytes cmd lba cont buf blocks.
Proof.
  unfold table_stores, fis_bytes, region_words, byte_stores, word_stores, table_bytes. cbn [map app foldl fst snd].
  assert (Hsub : forall k, table + k - table = k) by (intros; lia). rewrite !Hsub, Z.sub_diag. change (u32 0) with 0.
  assert (E : u32 (V2P buf) = V2P buf) by (apply u32_small, u32_range). rewrite E.
  destruct (four_bytes (V2P buf)) as (a0 & a1 & a2 & a3 & ->). destruct (four_bytes (u32 (Z.lor AHCI_PRDT_DBC_I_I (u32 (512 * blocks - 1))))) as (b0 & b1 & b2 & b3 & ->).
  generalize (u8 cmd) (u8 (Z.land lba 255)) (u8 (Z.land (Z.shiftr lba 8) 255)) (u8 (Z.land (Z.shiftr lba 16) 255)) (u8 (Z.land (Z.shiftr lba 24) 255)) (u8 (Z.land (Z.shiftr lba 32) 255))
    (u8 (Z.land (Z.shiftr lba 40) 255)) (u8 (Z.land cont 255)) (u8 (Z.land (Z.shiftr cont 8) 255)). intros. vm_compute. reflexivity.
Qed.

(** *** What is in memory when the command is issued *)

Section layout.
Context {M : Type} `{RamLaws M}.

Definition prepared (cl table w cmd lba cont buf blocks : Z) (h : M) : M :=
  puts (word_stores (header_words cl table w) ++ table_stores table cmd lba cont buf blocks) (ram_put table (repeat 0 4096) h).

Lemma zeros_ok : bytes_ok (repeat 0 4096) /\ zlen (repeat 0 4096) = 4096.
Proof. split; [apply Forall_forall; intros x Hx%list_elem_of_In%repeat_spec; by subst x|apply (zlen_repeat 0 4096); lia]. Qed.

Definition disjoint (a b : Z) : Prop := a + 4096 <= b \/ b + 4096 <= a.

Lemma prepared_header cl table w cmd lba cont buf blocks h : disjoint cl table -> ram_get cl 16 (prepared cl table w cmd lba cont buf blocks h) = header_bytes table w.
Proof.
  intros Hd. unfold prepared. rewrite puts_app, puts_outside, puts_inside; [|apply header_inside|lia|].
  - apply header_splices. apply ram_len. lia.
  - apply (inside_outside _ _ table 144); [unfold disjoint in Hd; lia|apply table_inside].
Qed.

Lemma prepared_table cl table w cmd lba cont buf blocks h : disjoint cl table -> ram_get table 144 (prepared cl table w cmd lba cont buf blocks h) = table_bytes cmd lba cont buf blocks.
Proof.
  intros Hd. unfold prepared. rewrite puts_app, puts_inside by apply table_inside. rewrite puts_outside; [|lia|apply (inside_outside _ _ cl 16); [unfold disjoint in Hd; lia|apply header_inside]].
  rewrite <- (table_splices table). f_equal. destruct zeros_ok as [Hz Hl]. pose proof (ram_slice table 4096 0 144 (ram_put table (repeat 0 4096) h)) as E. rewrite Z.add_0_r in E. rewrite E by lia.
  rewrite <- Hl at 1. rewrite ram_get_same by done. reflexivity.
Qed.

(** Nothing else changes. *)
Lemma prepared_other cl table w cmd lba cont buf blocks a n h : 0 <= n -> a + n <= cl \/ cl + 4096 <= a -> a + n <= table \/ table + 4096 <= a ->
  ram_get a n (prepared cl table w cmd lba cont buf blocks h) = ram_get a n h.
Proof.
  intros Hn Hc Ht. unfold prepared. destruct zeros_ok as [Hz Hl]. rewrite puts_app, !puts_outside; [|done|apply (inside_outside _ _ cl 16); [lia|apply header_inside]|done|
    apply (inside_outside _ _ table 144); [lia|apply table_inside]]. apply ram_get_other; [done|done|lia].
Qed.
End layout.

Lemma get32_first w rest : is_u32 w -> get32 0 (le_bytes 4 w ++ rest) = w.
Proof. intros Hw. unfold get32, slice. change (Z.to_nat 0) with 0%nat. rewrite drop_0. rewrite take_app_length' by done. by apply le_val_bytes. Qed.

Lemma get32_at l w rest k : zlen l = k -> is_u32 w -> get32 k (l ++ le_bytes 4 w ++ rest) = w.
Proof. intros Hl Hw. unfold get32, slice. rewrite drop_app_length' by (unfold zlen in Hl; lia). rewrite take_app_length' by done. by apply le_val_bytes. Qed.

Lemma P2V_V2P_page p : KERNBASE <= p < 2 ^ 32 -> P2V (V2P p) = p.
Proof. intros Hp. unfold P2V, V2P. rewrite u32_add_l. unfold u32. replace (p - KERNBASE + KERNBASE) with p by lia. apply Z.mod_small. unfold KERNBASE in Hp. lia. Qed.

(** Sectors of 24 bits arrive as they are; others lose their upper bits. *)
Lemma lba_24 lba : 0 <= lba -> u8 (Z.land lba 0xff) + 2 ^ 8 * u8 (Z.land (Z.shiftr lba 8) 0xff) + 2 ^ 16 * u8 (Z.land (Z.shiftr lba 16) 0xff) + 2 ^ 24 * (0x40 mod 16) = lba mod 2 ^ 24.
Proof.
  intros Hl. change 0xff with (Z.ones 8). rewrite !Z.land_ones, !Z.shiftr_div_pow2 by lia. unfold u8. rewrite !Z.mod_mod by lia. change (0x40 mod 16) with 0.
  change (2 ^ 8) with 256. change (2 ^ 16) with 65536. change (2 ^ 24) with 16777216. Z.to_euclidean_division_equations. lia.
Qed.

(** The controller fetches the command that the driver meant. *)
Lemma decode_prepared w table cmd lba count buf : w = 0 \/ w = AHCI_CMDLIST_DW0_W -> is_u8 cmd -> 0 <= lba -> 0 < count <= 8 -> KERNBASE <= buf < 2 ^ 32 ->
  decode_command (header_bytes table w) (table_bytes cmd lba count buf count) = Some (HbaCmd (negb (w =? 0)) cmd (lba mod 2 ^ 24) count buf (512 * count)).
Proof.
  intros Hw Hc Hl Hn Hb. unfold decode_command. assert (Hd : is_u32 (Z.lor (Z.lor (Z.shiftl 1 16) 5) w)) by (destruct Hw as [-> | ->]; done).
  unfold header_bytes. rewrite (u32_small (Z.lor _ w)) by done. rewrite get32_first by done.
  assert (Er : get32 0x80 (table_bytes cmd lba count buf count) = V2P buf) by (apply (get32_at (take 128 (table_bytes cmd lba count buf count)) (V2P buf) _ 128); [done|apply u32_range]).
  assert (En : get32 0x8c (table_bytes cmd lba count buf count) = Z.lor AHCI_PRDT_DBC_I_I (512 * count - 1)).
  { unfold table_bytes. rewrite (u32_small (512 * count - 1)) by (unfold is_u32; lia). set (v := Z.lor AHCI_PRDT_DBC_I_I (512 * count - 1)).
    assert (Hv : v = 2 ^ 31 + (512 * count - 1)) by (unfold v; change AHCI_PRDT_DBC_I_I with (Z.shiftl 1 31); rewrite lor_shiftl by lia; lia).
    assert (Hu : is_u32 v) by (unfold is_u32; lia). rewrite (u32_small v) by done. rewrite <- (app_nil_r (le_bytes 4 v)). rewrite !app_assoc. rewrite <- (app_assoc _ (le_bytes 4 v) []). by apply get32_at. }
  rewrite Er, En, P2V_V2P_page by done. replace AHCI_PRDT_DBC_I_I with (Z.shiftl 1 31) by done. rewrite (lor_shiftl 1 31) by lia.
  assert (Ei : forall i x, zget (table_bytes cmd lba count buf count) i = Some x -> byte_at (table_bytes cmd lba count buf count) i = x) by (intros i x E; unfold byte_at; by rewrite E).
  rewrite (Ei 0 0x27), (Ei 1 0x80), (Ei 2 (u8 cmd)), (Ei 4 (u8 (Z.land lba 0xff))), (Ei 5 (u8 (Z.land (Z.shiftr lba 8) 0xff))), (Ei 6 (u8 (Z.land (Z.shiftr lba 16) 0xff))), (Ei 7 0x40),
    (Ei 12 (u8 (Z.land count 0xff))) by reflexivity.
  rewrite lba_24 by done. assert (Eu : u8 cmd = cmd) by (unfold u8; by apply Z.mod_small). rewrite Eu.
  assert (Ec : u8 (Z.land count 0xff) = count) by (change 0xff with (Z.ones 8); rewrite Z.land_ones by lia; unfold u8; rewrite Z.mod_mod by lia; apply Z.mod_small; lia). rewrite Ec.
  destruct (Z.eqb_spec count 0); [lia|]. assert (Em : (1 * 2 ^ 31 + (512 * count - 1)) mod 2 ^ 22 + 1 = 512 * count).
  { replace (1 * 2 ^ 31 + (512 * count - 1)) with (512 * count - 1 + 512 * 2 ^ 22) by lia. rewrite Z.mod_add, Z.mod_small by lia. lia. }
  rewrite Em. destruct Hw as [-> | ->]; reflexivity.
Qed.

(** ** A command from its header to its end *)

Lemma mem_same_put {M} `{RamLaws M} (h h1 : M) b l : bytes_ok l -> mem_same h h1 -> forall a n, 0 <= n -> ram_get a n (ram_put b l h1) = ram_get a n (ram_put b l h).
Proof.
  intros Hl Hm a n Hn. pose proof (zlen_nonneg l). set (lo := Z.min a b). set (len := Z.max (a + n) (b + zlen l) - lo).
  assert (Hs : forall h, ram_get a n h = slice (a - lo) n (ram_get lo len h)) by (intros h'; rewrite <- (ram_slice lo len (a - lo) n) by lia; f_equal; lia).
  rewrite !Hs, !ram_get_put by (done || lia). by rewrite Hm.
Qed.

Lemma mem_same_trans {M} `{Machine M} (h1 h2 h3 : M) : mem_same h1 h2 -> mem_same h2 h3 -> mem_same h1 h3.
Proof. intros H1 H2 a n. by rewrite H2, H1. Qed.

Lemma disk_bytes_ok m lba count : media_ok m -> bytes_ok (disk_bytes m lba count).
Proof. intros Hm. unfold disk_bytes, bytes_ok. apply Forall_bind. apply Forall_forall. intros i _. apply Hm. Qed.

Lemma disk_bytes_len m lba count : media_ok m -> 0 <= count -> zlen (disk_bytes m lba count) = 512 * count.
Proof.
  intros Hm Hc. unfold disk_bytes. rewrite <- (Z2Nat.id count) by done. generalize (Z.to_nat count) as n. clear Hc count. intros n. revert lba. induction n as [|n IH]; intros lba; [done|].
  rewrite seqZ_cons by lia. rewrite bind_cons, zlen_app. replace (Z.pred (Z.of_nat (S n))) with (Z.of_nat n) by lia. rewrite IH. destruct (Hm lba) as [-> _]. lia.
Qed.

Lemma lor_u32 x y : is_u32 x -> is_u32 y -> is_u32 (Z.lor x y).
Proof.
  unfold is_u32. intros Hx Hy. assert (Hn : 0 <= Z.lor x y) by (apply Z.lor_nonneg; lia). split; [done|]. destruct (Z.eq_dec (Z.lor x y) 0) as [->|]; [done|].
  apply Z.log2_lt_pow2; [lia|]. rewrite Z.log2_lor by lia. apply Z.max_lub_lt.
  - destruct (Z.eq_dec x 0) as [->|]; [done|]. apply Z.log2_lt_pow2; lia.
  - destruct (Z.eq_dec y 0) as [->|]; [done|]. apply Z.log2_lt_pow2; lia.
Qed.

Definition readable : list Z := [AHCI_PxSSTS; AHCI_PxSCTL; AHCI_PxSERR; AHCI_PxSACT; AHCI_PxCMD; AHCI_PxSIG].
Definition writable : list Z := [AHCI_PxCLB_UPPER; AHCI_PxFB_UPPER; AHCI_PxSERR; AHCI_PxIS; AHCI_PxCLB_LOWER; AHCI_PxFB_LOWER; AHCI_PxCMD].

Ltac in_list := unfold readable, writable; repeat first [apply list_elem_of_here | apply list_elem_of_further].

Section port.
Context {M : Type} {base port : Z} `{AhciPort M base port}.
Variable ahci : AHCIController.
Hypothesis ahci_base : abar ahci = base.

Lemma port_register r : r mod 4 = 0 -> abar ahci + 4 * ((AHCI_PORT_CONTROL_OFFSET port + r) / 4) = base + AHCI_PORT_CONTROL_OFFSET port + r.
Proof.
  intros Hr. rewrite ahci_base. unfold AHCI_PORT_CONTROL_OFFSET. pose proof (Z.div_mod r 4). replace (0x100 + port * 0x80 + r) with ((64 + port * 32 + r / 4) * 4) by lia.
  rewrite Z.div_mul by lia. lia.
Qed.




Lemma read_port_ok r h : r ∈ readable -> exists v h', read_port ahci port r h = Ret (v, h') /\ is_u32 v /\ port_of h' = port_of h /\ mem_same h h' /\
  (r = AHCI_PxSSTS -> Z.land v 0xf = AHCI_PxSSTS_DET_PRESENSE_COMM /\ Z.land (Z.shiftr v 8) 0xf = AHCI_PxSSTS_IPM_ACTIVE).
Proof.
  intros Hr. destruct (hba_read r h Hr) as (v & h' & E & Hv). exists v, h'. unfold read_port, ahci_read_reg32, load32. rewrite port_register, E; [done|].
  assert (Ha : Forall (fun r => r mod 4 = 0) readable) by (repeat apply Forall_cons_2; done). rewrite Forall_forall in Ha. by apply Ha.
Qed.

Lemma write_port_ok r v h : is_u32 v -> p_issued (port_of h) = false -> r ∈ writable -> exists h', write_port ahci port r v h = Ret (tt, h') /\ mem_same h h' /\
  port_of h' = if r =? AHCI_PxCLB_LOWER then set_clb v (port_of h) else if r =? AHCI_PxFB_LOWER then set_fb v (port_of h)
               else if r =? AHCI_PxCMD then set_started (Z.testbit v 0) (port_of h) else port_of h.
Proof.
  intros Hv Hi Hr. destruct (hba_write r v h Hv Hi Hr) as [Hm Hp]. eexists. split; [|split; [exact Hm|exact Hp]]. unfold write_port, ahci_write_reg32, store32, modify.
  rewrite port_register, u32_small; [done|done|]. assert (Ha : Forall (fun r => r mod 4 = 0) writable) by (repeat apply Forall_cons_2; done). rewrite Forall_forall in Ha. by apply Ha.
Qed.

(** Waiting until the device takes commands. *)
Lemma port_wait_ok fuel : forall h, (hba_left h <= fuel)%nat -> p_issued (port_of h) = false ->
  exists h', spin fuel (port_busy ahci port) h = Ret (tt, h') /\ port_of h' = port_of h /\ mem_same h h'.
Proof.
  assert (Hone : forall h, p_issued (port_of h) = false -> exists b h', port_busy ahci port h = Ret (b, h') /\ port_of h' = port_of h /\ mem_same h h' /\ (b = false \/ (hba_left h' < hba_left h)%nat)).
  { intros h Hi. destruct (hba_tfd h Hi) as (v & h1 & E1 & P1 & M1 & L1). destruct (hba_tfd h1) as (v2 & h2 & E2 & P2 & M2 & L2); [by rewrite P1|].
    unfold port_busy, mbind, read_port, ahci_read_reg32, load32. rewrite !port_register by done. rewrite E1. cbn [obind fst snd].
    unfold AHCI_PxTFD_STATUS_BSY, AHCI_PxTFD_STATUS_DRQ. rewrite !land_bit, !negb_involutive by lia. destruct (Z.testbit v 7) eqn:E7.
    - exists true, h1. split; [done|]. split; [done|]. split; [done|]. right. destruct L1 as [?|(? & _)]; [done|congruence].
    - rewrite E2. cbn [obind fst snd mret]. rewrite land_bit, negb_involutive by lia. eexists _, h2. split; [reflexivity|]. split; [congruence|]. split; [by eapply mem_same_trans|].
      destruct L2 as [L2|(_ & -> & _)]; [|by left]. right. destruct L1 as [?|(_ & _ & ?)]; lia. }
  induction fuel as [|fuel IH]; intros h Hl Hi; destruct (Hone h Hi) as (b & h1 & E1 & P1 & M1 & Hb); cbn [spin]; rewrite (mbind_run _ _ _ _ _ E1).
  - destruct Hb as [->|Hlt]; [by exists h1|lia].
  - destruct b; [|by exists h1]. destruct Hb as [?|Hlt]; [done|]. destruct (IH h1) as (h2 & E2 & P2 & M2); [lia|by rewrite P1|].
    exists h2. split; [done|]. split; [congruence|]. by eapply mem_same_trans.
Qed.

(** The end of a command that was issued in [h]. *)
Definition completed (c : hba_command) (h h' : M) : Prop :=
  if c_write c then
    port_of h' = set_issued false (set_media (p_media (port_of h')) (port_of h)) /\
    (forall i, p_media (port_of h') i = if decide (c_lba c <= i < c_lba c + c_count c) then ram_get (c_buf c + 512 * (i - c_lba c)) 512 h else p_media (port_of h) i) /\
    forall a n, 0 <= n -> apart (port_of h) a n -> ram_get a n h' = ram_get a n h
  else
    port_of h' = set_issued false (port_of h) /\
    forall a n, 0 <= n -> apart (port_of h) a n -> ram_get a n h' = ram_get a n (ram_put (c_buf c) (disk_bytes (p_media (port_of h)) (c_lba c) (c_count c)) h).

Lemma fetch_same h h1 : port_of h1 = port_of h -> mem_same h h1 -> fetch (port_of h1) h1 = fetch (port_of h) h.
Proof. intros Hp Hm. unfold fetch. by rewrite Hp, !Hm. Qed.

Lemma poll_ok fuel c : forall h, (hba_left h <= fuel)%nat -> p_issued (port_of h) = true -> fetch (port_of h) h = Some c -> command_ok (port_of h) c ->
  apart (port_of h) (c_buf c) (c_bytes c) -> media_ok (p_media (port_of h)) ->
  exists h', spin fuel (ci <~ read_port ahci port AHCI_PxCI; mret (Z.testbit ci 0)) h = Ret (tt, h') /\
    completed c h h'.
Proof.
  induction fuel as [|fuel IH]; intros h Hl Hi Hf Hc Ha Hm; destruct (hba_poll c h Hi Hf Hc Ha) as (v & h1 & E1 & Hv);
    (assert (Er : (ci <~ read_port ahci port AHCI_PxCI; mret (Z.testbit ci 0)) h = Ret (Z.testbit v 0, h1)) by (unfold mbind, read_port, ahci_read_reg32, load32; by rewrite port_register, E1));
    cbn [spin]; rewrite (mbind_run _ _ _ _ _ Er).
  all: assert (Hdone : Z.testbit v 0 = false -> completed c h h1)
    by (intros Hv0; unfold completed; destruct Hv as [[? _]|[_ Hv]]; [congruence|]; destruct (c_write c); [|done]; destruct Hv as [-> Hr]; done).
  - destruct Hv as [(_ & _ & _ & ?)|[Hv0 _]]; [lia|]. rewrite Hv0. exists h1. auto.
  - destruct Hv as [(Hv1 & P1 & M1 & L1)|[Hv0 _]]; [|rewrite Hv0; exists h1; auto]. rewrite Hv1. clear Hdone. unfold completed in *.
    destruct (IH h1) as (h2 & E2 & H2); [lia|by rewrite P1|by rewrite (fetch_same h)|by rewrite P1|by rewrite P1|by rewrite P1|]. exists h2. split; [exact E2|]. rewrite P1 in H2.
    destruct (c_write c).
    + destruct H2 as (Hp & Hmd & Hr). split; [done|]. split; [intros i; rewrite Hmd; by destruct (decide _)|]. intros a n Hn Hap. by rewrite Hr.
    + destruct H2 as (Hp & Hr). split; [done|]. intros a n Hn Hap. rewrite Hr by done. apply mem_same_put; [by apply disk_bytes_ok|done|done].
Qed.

(** The same, seen from before the command was issued. *)
Record finished (c : hba_command) (h h' : M) : Prop := {
  fin_place : p_clb (port_of h') = p_clb (port_of h) /\ p_fb (port_of h') = p_fb (port_of h) /\ p_sectors (port_of h') = p_sectors (port_of h);
  fin_idle : p_issued (port_of h') = false;
  fin_media i : p_media (port_of h') i = if c_write c && bool_decide (c_lba c <= i < c_lba c + c_count c) then ram_get (c_buf c + 512 * (i - c_lba c)) 512 h else p_media (port_of h) i;
  fin_memory a n : 0 <= n -> apart (port_of h) a n ->
    ram_get a n h' = if c_write c then ram_get a n h else ram_get a n (ram_put (c_buf c) (disk_bytes (p_media (port_of h)) (c_lba c) (c_count c)) h)
}.

Lemma issue_command_ok fuel c h : (hba_max <= fuel)%nat -> p_issued (port_of h) = false -> fetch (port_of h) h = Some c -> command_ok (port_of h) c ->
  apart (port_of h) (c_buf c) (c_bytes c) -> media_ok (p_media (port_of h)) ->
  exists h', issue_command fuel ahci port h = Ret (tt, h') /\ finished c h h'.
Proof.
  intros Hfu Hi Hf Hc Ha Hm. unfold issue_command. destruct (read_port_ok AHCI_PxCMD h) as (v & h1 & E1 & Hv & P1 & M1 & _); [in_list|]. rewrite (mbind_run _ _ _ _ _ E1).
  destruct (write_port_ok AHCI_PxCMD (Z.lor v AHCI_PxCMD_ST) h1) as (h2 & E2 & M2 & P2); [by apply lor_u32|by rewrite P1|in_list|]. rewrite (mbind_run _ _ _ _ _ E2). change (port_of h2 = set_started (Z.testbit (Z.lor v AHCI_PxCMD_ST) 0) (port_of h1)) in P2.
  assert (Hst : Z.testbit (Z.lor v AHCI_PxCMD_ST) 0 = true) by (rewrite Z.lor_spec; apply orb_true_r). rewrite Hst in P2.
  assert (Hi2 : p_issued (port_of h2) = false) by (rewrite P2, P1; done).
  destruct (write_port_ok AHCI_PxIS 0xffffffff h2) as (h3 & E3 & M3 & P3); [done|done|in_list|]. rewrite (mbind_run _ _ _ _ _ E3). change (port_of h3 = port_of h2) in P3.
  destruct (port_wait_ok fuel h3) as (h4 & E4 & P4 & M4); [pose proof (hba_bound h3); lia|by rewrite P3|]. rewrite (mbind_run _ _ _ _ _ E4).
  assert (Hp4 : port_of h4 = set_started true (port_of h)) by (rewrite P4, P3, P2, P1; done). assert (Hm4 : mem_same h h4) by (intros a n; by rewrite M4, M3, M2, M1).
  assert (Hf4 : fetch (port_of h4) h4 = Some c) by (rewrite <- Hf; unfold fetch; rewrite Hp4, !Hm4; done).
  assert (Hc4 : command_ok (port_of h4) c) by (rewrite Hp4; exact Hc). assert (Ha4 : apart (port_of h4) (c_buf c) (c_bytes c)) by (rewrite Hp4; exact Ha).
  destruct (hba_issue c h4) as [P5 M5]; [by rewrite Hp4|by rewrite Hp4|done|done|]. set (h5 := mm_store _ _ _ h4) in *.
  assert (E5 : write_port ahci port AHCI_PxCI 1 h4 = Ret (tt, h5)) by (unfold write_port, ahci_write_reg32, store32, modify; by rewrite port_register).
  rewrite (mbind_run _ _ _ _ _ E5).
  destruct (poll_ok fuel c h5) as (h6 & E6 & Hdone); [pose proof (hba_bound h5); lia|by rewrite P5| | |by rewrite P5|by rewrite P5, Hp4|].
  { rewrite <- Hf4. unfold fetch. by rewrite P5, !M5. }
  { rewrite P5. exact Hc4. }
  exists h6. split; [exact E6|]. assert (Hp5 : port_of h5 = set_issued true (set_started true (port_of h))) by congruence. assert (Hm5 : mem_same h h5) by (by eapply mem_same_trans).
  unfold completed in Hdone. rewrite Hp5 in Hdone. destruct (c_write c) eqn:Ew.
  - destruct Hdone as (P6 & D6 & R6). split; [by rewrite P6|by rewrite P6| |].
    + intros i. rewrite Ew, D6. cbn [andb]. rewrite Hm5. case_bool_decide as Hd; destruct (decide _); done.
    + intros a n Hn Hap. rewrite Ew, R6 by done. apply Hm5.
  - destruct Hdone as (P6 & R6). split; [by rewrite P6|by rewrite P6| |].
    + intros i. by rewrite Ew, P6.
    + intros a n Hn Hap. rewrite Ew, R6 by done. apply mem_same_put; [by apply disk_bytes_ok|done|done].
Qed.

Lemma puts_port l : forall h, port_of (puts l h) = port_of h.
Proof. induction l as [|e l IH]; intros h; [done|]. cbn [puts foldl]. change (foldl _ (ram_put e.1 e.2 h) l) with (puts l (ram_put e.1 e.2 h)). by rewrite IH, hba_ram. Qed.

Lemma run_command_prepares fuel cl table w cmd lba cont buf blocks h :
  run_command fuel ahci port cl table w cmd lba cont buf blocks h = issue_command fuel ahci port (prepared cl table w cmd lba cont buf blocks h).
Proof.
  unfold run_command. unfold mbind at 1, modify. cbn [obind fst snd]. unfold set_header. rewrite (mbind_run _ _ _ _ _ (put_words_run _ _)).
  unfold set_fis. rewrite (mbind_run _ _ _ _ _ (put_bytes_run _ _)). unfold set_region. rewrite (mbind_run _ _ _ _ _ (put_words_run _ _)).
  unfold prepared, table_stores. by rewrite !puts_app.
Qed.

(** The pages of a transfer: list and buffer of the port, table, and the page of
    the data. *)
Definition placed (h : M) (cl table buf count : Z) : Prop :=
  cl = P2V (p_clb (port_of h)) /\ KERNBASE <= table < 2 ^ 32 /\ disjoint cl table /\ disjoint (P2V (p_fb (port_of h))) table /\ KERNBASE <= buf < 2 ^ 32 /\
  (buf + 512 * count <= table \/ table + 4096 <= buf) /\ apart (port_of h) buf (512 * count).

Lemma run_command_ok fuel cl table w cmd lba count buf h : (hba_max <= fuel)%nat -> p_issued (port_of h) = false -> media_ok (p_media (port_of h)) ->
  placed h cl table buf count -> 0 <= lba -> 0 < count <= 8 -> lba + count <= 2 ^ 24 -> lba + count <= p_sectors (port_of h) ->
  cmd = ATA_COMMAND_READ_SECTOR /\ w = 0 \/ cmd = ATA_COMMAND_WRITE_SECTOR /\ w = AHCI_CMDLIST_DW0_W ->
  exists h', run_command fuel ahci port cl table w cmd lba count buf count h = Ret (tt, h') /\
    finished (HbaCmd (negb (w =? 0)) cmd lba count buf (512 * count)) (prepared cl table w cmd lba count buf count h) h'.
Proof.
  intros Hfu Hi Hm (Hcl & Ht & Hd & Hdf & Hb & Hbt & Hap) Hl Hn H24 Hs Hcmd. rewrite run_command_prepares. set (h1 := prepared _ _ _ _ _ _ _ _ _). assert (P1 : port_of h1 = port_of h) by (unfold h1, prepared; by rewrite puts_port, hba_ram).
  apply issue_command_ok; [done|by rewrite P1| | |by rewrite P1|by rewrite P1].
  - rewrite P1. unfold fetch. rewrite <- Hcl. unfold h1. rewrite prepared_header by done.
    assert (E8 : get32 8 (header_bytes table w) = V2P table) by (unfold header_bytes; rewrite app_assoc; apply get32_at; [done|apply u32_range]). rewrite E8, P2V_V2P_page, prepared_table by done.
    rewrite decode_prepared; [|destruct Hcmd as [[_ ->]|[_ ->]]; auto|destruct Hcmd as [[-> _]|[-> _]]; done|done|done|done]. by rewrite (Z.mod_small lba) by lia.
  - rewrite P1. split; [done|]. split; [done|]. destruct Hcmd as [[-> ->]|[-> ->]]; auto.
Qed.
End port.

(** ** Disks *)

Section lifting.
Context {A L H : Type} `{Machine H}.

Lemma lifts_each {X} (f : X -> hw (driver A L H) unit) f0 l : (forall x, lifts (f x) (f0 x)) -> lifts (each f l) (each f0 l).
Proof. intros Hf. induction l as [|x l IH]; cbn [each]; [apply lifts_mret|]. apply lifts_mbind; auto. Qed.

Lemma lifts_read_port ahci port r : lifts (A := A) (L := L) (read_port ahci port r) (read_port (M := H) ahci port r).
Proof. apply lifts_mm_load. Qed.

Lemma lifts_write_port ahci port r v : lifts (A := A) (L := L) (write_port ahci port r v) (write_port (M := H) ahci port r v).
Proof. apply lifts_modify. Qed.

Lemma lifts_put_words l : lifts (A := A) (L := L) (put_words l) (put_words (M := H) l).
Proof. apply lifts_each. intros [a v]. apply lifts_modify. Qed.

Lemma lifts_put_bytes l : lifts (A := A) (L := L) (put_bytes l) (put_bytes (M := H) l).
Proof. apply lifts_each. intros [a v]. apply lifts_modify. Qed.

Lemma lifts_run_command fuel ahci port cl table w cmd lba cont buf blocks :
  lifts (A := A) (L := L) (run_command fuel ahci port cl table w cmd lba cont buf blocks) (run_command (M := H) fuel ahci port cl table w cmd lba cont buf blocks).
Proof.
  unfold run_command, set_header, set_fis, set_region, issue_command, port_busy.
  repeat first [apply lifts_mbind; [|intros ?] | apply lifts_put_words | apply lifts_put_bytes | apply lifts_read_port | apply lifts_write_port | apply lifts_spin | apply lifts_if | apply lifts_mret | apply lifts_modify].
Qed.
End lifting.

Lemma frames_apart p q : frame_ok p -> frame_ok q -> p <> q -> disjoint p q.
Proof. apply pages_apart. Qed.

Lemma frame_range p : frame_ok p -> KERNBASE <= p < 2 ^ 32.
Proof. intros [_ Hp]. unfold KERNBASE, PHYSTOP in *. lia. Qed.

Lemma give_back (p : Z) (held : gset Z) : p ∉ held -> ({[p]} ∪ held) ∖ {[p]} = held.
Proof. set_solver. Qed.

Section disk.
Context {A H : Type} {base port : Z} `{AllocatorLaws A} `{AhciPort H base port}.
Variable fuel : nat.
Hypothesis fuel_enough : (hba_max <= fuel)%nat.
Variable ahci : AHCIController.
Hypothesis ahci_base : abar ahci = base.
(** The pages of the list of commands, of the received frames, and of the data. *)
Variables cl fis page : Z.
Hypothesis list_page : zget (command_list ahci) port = Some cl.

Local Notation state := (driver A (list bool) H).

(** The port takes commands, its pages and that of the data are allocated, and
    there is a page left for the table. *)
Record port_ready (s : state) (held : gset Z) (n : Z) : Prop := {
  pr_pool : pa_holds (dpool s) held n;
  pr_free : 0 < n;
  pr_idle : p_issued (port_of (dhw s)) = false;
  pr_clb : P2V (p_clb (port_of (dhw s))) = cl;
  pr_fb : P2V (p_fb (port_of (dhw s))) = fis;
  pr_media : media_ok (p_media (port_of (dhw s)))
}.

Record pages_ok (held : gset Z) : Prop := {
  pg_held : cl ∈ held /\ fis ∈ held /\ page ∈ held;
  pg_frames : frame_ok cl /\ frame_ok fis /\ frame_ok page;
  pg_distinct : page <> cl /\ page <> fis
}.

(** A transfer of up to a page. *)
Lemma exec_pio_ok s held n w cmd lba count : port_ready s held n -> pages_ok held -> 0 <= lba -> 0 < count <= 8 -> lba + count <= 2 ^ 24 -> lba + count <= p_sectors (port_of (dhw s)) ->
  cmd = ATA_COMMAND_READ_SECTOR /\ w = 0 \/ cmd = ATA_COMMAND_WRITE_SECTOR /\ w = AHCI_CMDLIST_DW0_W ->
  exists s', exec_pio fuel w ahci port cmd lba count page count s = Ret (0, s') /\ port_ready s' held n /\ p_sectors (port_of (dhw s')) = p_sectors (port_of (dhw s)) /\
    (forall i, p_media (port_of (dhw s')) i = if negb (w =? 0) && bool_decide (lba <= i < lba + count) then ram_get (page + 512 * (i - lba)) 512 (dhw s) else p_media (port_of (dhw s)) i) /\
    (w = 0 -> ram_get page (512 * count) (dhw s') = disk_bytes (p_media (port_of (dhw s))) lba count).
Proof.
  intros [Hpool Hfree Hidle Hclb Hfb Hmed] [(Hc & Hfi & Hpg) (Fc & Ff & Fp) (Nc & Nf)] Hl Hn H24 Hs Hcmd. unfold exec_pio.
  destruct (pa_alloc_law _ _ _ Hpool Hfree) as (t & a1 & Ea & Ht & Ft & Hp1). unfold mbind at 1, d_kalloc. rewrite Ea. cbn [obind fst snd].
  assert (Ht0 : t <> 0) by (pose proof (frame_range t Ft); unfold KERNBASE in *; lia). destruct (Z.eqb_spec t 0); [done|]. unfold mbind at 1. rewrite list_page. cbn [mlift of_option obind fst snd].
  assert (Eu : u8 cmd = cmd) by (destruct Hcmd as [[-> _]|[-> _]]; done). rewrite Eu. set (h := dhw s) in *.
  assert (Hne : t <> cl /\ t <> fis /\ t <> page) by (split_and!; intros ->; done). destruct Hne as (Ntc & Ntf & Ntp).
  pose proof (frames_apart _ _ Fc Ft ltac:(done)) as Dc. pose proof (frames_apart _ _ Ff Ft ltac:(done)) as Df. pose proof (frames_apart _ _ Fp Ft ltac:(done)) as Dp.
  pose proof (frames_apart _ _ Fp Fc Nc) as Dpc. pose proof (frames_apart _ _ Fp Ff Nf) as Dpf.
  assert (Hplaced : placed h cl t page count).
  { split; [done|]. split; [by apply frame_range|]. split; [done|]. split; [by rewrite Hfb|]. split; [by apply frame_range|]. unfold disjoint in *. split; [lia|]. unfold apart. rewrite Hclb, Hfb. lia. }
  destruct (run_command_ok ahci ahci_base fuel cl t w cmd lba count page h fuel_enough Hidle Hmed Hplaced Hl Hn H24 Hs Hcmd) as (h' & E & Hfin).
  rewrite (mbind_run _ _ _ _ _ (lifts_run _ _ (Driver a1 (dlocal s) h) _ _ (lifts_run_command _ _ _ _ _ _ _ _ _ _ _) E)). cbn [dpool dlocal].
  destruct (pa_free_law _ _ _ t Hp1) as (a2 & Ef & Hp2); [by apply elem_of_union_l, elem_of_singleton|]. unfold mbind, d_kfree. cbn [dpool dlocal dhw]. rewrite Ef. cbn [obind fst snd mret].
  rewrite (give_back t held Ht) in Hp2. replace (n - 1 + 1) with n in Hp2 by lia.
  set (h1 := prepared _ _ _ _ _ _ _ _ h) in Hfin. assert (P1 : port_of h1 = port_of h) by (unfold h1, prepared; by rewrite puts_port, hba_ram).
  destruct Hfin as [(Kc & Kf & Ks) Ki Km Kr]. rewrite P1 in *. cbn [c_write c_lba c_count c_buf] in *.
  assert (Hother : forall a k, 0 <= k -> page <= a -> a + k <= page + 4096 -> ram_get a k h1 = ram_get a k h).
  { intros a k Hk Ha Hak. unfold disjoint in *. apply prepared_other; lia. }
  assert (Kmedia : forall i, p_media (port_of h') i = if negb (w =? 0) && bool_decide (lba <= i < lba + count) then ram_get (page + 512 * (i - lba)) 512 h else p_media (port_of h) i).
  { intros i. rewrite Km. destruct (negb (w =? 0)); [|done]. case_bool_decide as Hd; [|done]. cbn [andb]. apply Hother; lia. }
  eexists. split; [reflexivity|]. cbn [dhw dpool]. split; [|split; [done|split; [exact Kmedia|]]].
  - split; cbn [dhw dpool]; [done|done|done|by rewrite Kc|by rewrite Kf|]. intros i. rewrite Kmedia. destruct (_ && _); [|apply Hmed]. split; [by apply ram_len|apply ram_bytes].
  - intros ->. pose proof (disk_bytes_len (p_media (port_of h)) lba count Hmed ltac:(lia)) as Hlen. rewrite Kr; [|lia|unfold apart; rewrite Hclb, Hfb; unfold disjoint in *; lia]. cbn [negb Z.eqb].
    rewrite <- Hlen. apply ram_get_same. by apply disk_bytes_ok.
Qed.

Variables (ad : PATAAdapter) (dev : ATADevice).
Hypothesis serial : transport dev = ATA_TRANSPORT_SERIAL_ATA /\ Ata.port (sata dev) = port.

Notation disk_request := (disk_request fuel (sata_exec_pio_in fuel ahci) (sata_exec_pio_out fuel ahci) ad dev page).
Notation disk_requests := (disk_requests fuel (sata_exec_pio_in fuel ahci) (sata_exec_pio_out fuel ahci) ad dev page).

(** Transfers of up to a page. *)
Definition one_page (r : request) : Prop := match r with DiskRead _ count => count <= 8 | DiskWrite _ bytes => zlen bytes <= 4096 end.

Lemma serial_request_ok s held n r m : port_ready s held n -> pages_ok held -> media_ok m -> request_ok (Z.min (2 ^ 24) (p_sectors (port_of (dhw s)))) r -> one_page r ->
  (forall i, p_media (port_of (dhw s)) i = m i) ->
  exists s', disk_request r s = Ret (fst (array_request r m), s') /\ port_ready s' held n /\ p_sectors (port_of (dhw s')) = p_sectors (port_of (dhw s)) /\
    media_ok (snd (array_request r m)) /\ forall i, p_media (port_of (dhw s')) i = snd (array_request r m) i.
Proof.
  intros Hr Hpg Hmd Hok Hone Hm. destruct serial as [St Sp]. destruct r as [begin count|begin bytes]; cbn [request_ok one_page] in *.
  - destruct Hok as (Hb & Hc & Hn). destruct (exec_pio_ok s held n 0 ATA_COMMAND_READ_SECTOR begin count Hr Hpg Hb) as (s' & E & Hr' & Hs' & Hm' & Hd); [lia|lia|lia|by left|].
    exists s'. cbn [Ata.disk_request array_request fst snd]. unfold ata_read, sata_exec_pio_in, ahci_exec_pio_in. rewrite St, Sp.
    rewrite (mbind_run _ _ s 0 s'); [|rewrite (mbind_run _ _ _ _ _ E); reflexivity]. cbn [Z.eqb]. rewrite Hd by done.
    split; [|split; [done|split; [done|split; [done|]]]].
    + do 2 f_equal. unfold disk_bytes. apply list_bind_ext; [exact Hm|done].
    + intros i. rewrite Hm'. cbn. apply Hm.
  - destruct Hok as (Hb & Hby & count & Hl & Hc & Hn). assert (Ed : zlen bytes / 512 = count) by (rewrite Hl, Z.mul_comm; apply Z.div_mul; lia).
    set (s1 := on_hw (ram_put page bytes) s). assert (P1 : port_of (dhw s1) = port_of (dhw s)) by apply hba_ram.
    assert (Hr1 : port_ready s1 held n) by (destruct Hr; split; rewrite ?P1; done).
    destruct (exec_pio_ok s1 held n AHCI_CMDLIST_DW0_W ATA_COMMAND_WRITE_SECTOR begin count Hr1 Hpg Hb) as (s' & E & Hr' & Hs' & Hm' & _); [lia|lia|rewrite P1; lia|by right|]. rewrite P1 in *.
    exists s'. cbn [Ata.disk_request array_request fst snd]. unfold mbind at 1, modify. cbn [obind fst snd]. fold s1. unfold ata_write, sata_exec_pio_out, ahci_exec_pio_out. rewrite St, Sp, Ed.
    rewrite (mbind_run _ _ s1 0 s'); [|rewrite (mbind_run _ _ _ _ _ E); reflexivity]. cbn [Z.eqb].
    assert (Hput : forall i, begin <= i < begin + count -> ram_get (page + 512 * (i - begin)) 512 (dhw s1) = slice (512 * (i - begin)) 512 bytes).
    { intros i Hi. unfold s1. cbn [on_hw dhw]. rewrite (ram_slice page (zlen bytes)) by lia. by rewrite ram_get_same. }
    assert (Em : forall i, p_media (port_of (dhw s')) i = if decide (begin <= i < begin + count) then slice (512 * (i - begin)) 512 bytes else m i).
    { intros i. rewrite Hm'. cbn [negb andb Z.eqb AHCI_CMDLIST_DW0_W]. case_bool_decide as Hd; destruct (decide _); try done; [by apply Hput|apply Hm]. }
    split; [done|]. split; [done|]. split; [done|]. split; [|exact Em]. destruct Hr' as [_ _ _ _ _ Hmed']. intros i. rewrite <- Em. apply Hmed'.
Qed.

(** C24: A serial disk behind AHCI is an array of sectors: for every sequence of reads and
    writes of up to a page each, and whatever delays the controller and the disk
    have, the driver returns what an array of sectors returns, and the disk is that
    array afterwards; the driver gives back the pages it takes.  This is for sectors
    below 2^24. *)
Theorem sata_refines_array rs : forall s held n m, port_ready s held n -> pages_ok held -> media_ok m ->
  Forall (request_ok (Z.min (2 ^ 24) (p_sectors (port_of (dhw s))))) rs -> Forall one_page rs -> (forall i, p_media (port_of (dhw s)) i = m i) ->
  exists s', disk_requests rs s = Ret (fst (array_requests rs m), s') /\ port_ready s' held n /\ forall i, p_media (port_of (dhw s')) i = snd (array_requests rs m) i.
Proof.
  induction rs as [|r rs IH]; intros s held n m Hr Hpg Hmd Hok Hone Hm; [by exists s|]. apply Forall_cons in Hok as [Ho Hok]. apply Forall_cons in Hone as [Ho1 Hone].
  destruct (serial_request_ok s held n r m Hr Hpg Hmd Ho Ho1 Hm) as (s1 & E1 & Hr1 & En & Hmd1 & Em1). cbn [Ata.disk_requests array_requests]. rewrite (mbind_run _ _ _ _ _ E1).
  destruct (array_request r m) as [x m1]. cbn [fst snd] in *. destruct (IH s1 held n m1 Hr1 Hpg Hmd1) as (s2 & E2 & Hr2 & Em2); [by rewrite En|done|done|].
  rewrite (mbind_run _ _ _ _ _ E2). destruct (array_requests rs m1) as [xs m2]. by exists s2.
Qed.
End disk.

(** ** Start-up of a port *)

Section start.
Context {A H : Type} {base port : Z} `{AllocatorLaws A} `{AhciPort H base port}.
Variable ahci : AHCIController.
Hypothesis ahci_base : abar ahci = base.

Local Notation state := (driver A (list bool) H).

Lemma driver_read r (s : state) : r ∈ readable -> exists v h', read_port ahci port r s = Ret (v, Driver (dpool s) (dlocal s) h') /\ is_u32 v /\ port_of h' = port_of (dhw s) /\
  (r = AHCI_PxSSTS -> Z.land v 0xf = AHCI_PxSSTS_DET_PRESENSE_COMM /\ Z.land (Z.shiftr v 8) 0xf = AHCI_PxSSTS_IPM_ACTIVE).
Proof.
  intros Hr. destruct (read_port_ok ahci ahci_base r (dhw s) Hr) as (v & h' & E & Hv & Hp & _ & Hs). exists v, h'. split; [|done]. exact (lifts_run _ _ _ _ _ (lifts_read_port _ _ _) E).
Qed.

Lemma driver_write r v (s : state) : is_u32 v -> p_issued (port_of (dhw s)) = false -> r ∈ writable -> exists h', write_port ahci port r v s = Ret (tt, Driver (dpool s) (dlocal s) h') /\
  port_of h' = if r =? AHCI_PxCLB_LOWER then set_clb v (port_of (dhw s)) else if r =? AHCI_PxFB_LOWER then set_fb v (port_of (dhw s))
               else if r =? AHCI_PxCMD then set_started (Z.testbit v 0) (port_of (dhw s)) else port_of (dhw s).
Proof.
  intros Hv Hi Hr. destruct (write_port_ok ahci ahci_base r v (dhw s) Hv Hi Hr) as (h' & E & _ & Hp). exists h'. split; [|done]. exact (lifts_run _ _ _ _ _ (lifts_write_port _ _ _ _) E).
Qed.

(** A page for one of the two address registers. *)
Lemma port_page_ok lower upper (s : state) held n : lower = AHCI_PxCLB_LOWER /\ upper = AHCI_PxCLB_UPPER \/ lower = AHCI_PxFB_LOWER /\ upper = AHCI_PxFB_UPPER ->
  pa_holds (dpool s) held n -> 0 < n -> p_issued (port_of (dhw s)) = false ->
  exists p a h', port_page ahci port lower upper s = Ret (p, Driver a (dlocal s) h') /\ p ∉ held /\ frame_ok p /\ pa_holds a ({[p]} ∪ held) (n - 1) /\
    port_of h' = if lower =? AHCI_PxCLB_LOWER then set_clb (V2P p) (port_of (dhw s)) else set_fb (V2P p) (port_of (dhw s)).
Proof.
  intros Hr Hp Hn Hi. destruct (pa_alloc_law _ _ _ Hp Hn) as (p & a & Ea & Hnew & Hf & Hp'). unfold port_page, zeroed_page. rewrite mbind_assoc. unfold mbind at 1, d_kalloc. rewrite Ea. cbn [obind fst snd].
  assert (Hp0 : p <> 0) by (pose proof (frame_range p Hf); unfold KERNBASE in *; lia). destruct (Z.eqb_spec p 0); [done|]. rewrite mbind_assoc. unfold mbind at 1, modify. cbn [obind fst snd]. rewrite (mbind_run _ _ _ p _ eq_refl).
  set (s1 := ram_put _ _ _). assert (Ps : port_of (dhw s1) = port_of (dhw s)) by apply hba_ram.
  destruct (driver_write lower (V2P p) s1) as (h2 & E2 & P2); [apply u32_range|by rewrite Ps|destruct Hr as [[-> _]|[-> _]]; in_list|]. rewrite (mbind_run _ _ _ _ _ E2).
  destruct (driver_write upper 0 (Driver (dpool s1) (dlocal s1) h2)) as (h3 & E3 & P3); [done|cbn [dhw]; rewrite P2, Ps; destruct Hr as [[-> _]|[-> _]]; done|destruct Hr as [[_ ->]|[_ ->]]; in_list|].
  rewrite (mbind_run _ _ _ _ _ E3). exists p, a, h3. split; [done|]. split; [done|]. split; [done|]. split; [done|]. rewrite P3. cbn [dhw]. rewrite P2, Ps. destruct Hr as [[-> ->]|[-> ->]]; done.
Qed.

(** After start-up the port has a list and a buffer in pages of their own, and is
    ready for the commands of [sata_refines_array]. *)
Lemma ahci_init_port_ok (s : state) held n : pa_holds (dpool s) held n -> 2 < n -> p_issued (port_of (dhw s)) = false -> media_ok (p_media (port_of (dhw s))) ->
  0 <= port < 32 -> zlen (command_list ahci) = 32 -> zlen (received_fis_buffer ahci) = 32 ->
  exists ahci' s' cl fis, ahci_init_port ahci port s = Ret (ahci', s') /\ abar ahci' = base /\ zget (command_list ahci') port = Some cl /\
    port_ready cl fis s' ({[fis]} ∪ ({[cl]} ∪ held)) (n - 2) /\ frame_ok cl /\ frame_ok fis /\ cl ∉ held /\ fis ∉ held /\
    p_media (port_of (dhw s')) = p_media (port_of (dhw s)) /\ p_sectors (port_of (dhw s')) = p_sectors (port_of (dhw s)).
Proof.
  intros Hp Hn Hi Hm Hport Hl1 Hl2. unfold ahci_init_port. destruct (hba_impl (dhw s)) as (v & h0 & E0 & Hv & P0 & _).
  assert (E0' : ahci_read_reg32 ahci AHCI_PORTIMPL s = Ret (v, Driver (dpool s) (dlocal s) h0)).
  { apply (lifts_run _ (ahci_read_reg32 ahci AHCI_PORTIMPL)); [apply lifts_mm_load|]. unfold ahci_read_reg32, load32. rewrite ahci_base. change (4 * (AHCI_PORTIMPL / 4)) with AHCI_PORTIMPL. by rewrite E0. }
  rewrite (mbind_run _ _ _ _ _ E0'), Hv. cbn [negb]. set (s0 := Driver (dpool s) (dlocal s) h0).
  destruct (driver_read AHCI_PxSSTS s0) as (v1 & h1 & E1 & _ & P1 & _); [in_list|]. rewrite (mbind_run _ _ _ _ _ E1). cbn [s0 dpool dlocal dhw] in *.
  destruct (driver_read AHCI_PxSCTL (Driver (dpool s) (dlocal s) h1)) as (v2 & h2 & E2 & _ & P2 & _); [in_list|]. rewrite (mbind_run _ _ _ _ _ E2). cbn [dpool dlocal dhw] in *.
  destruct (driver_read AHCI_PxSERR (Driver (dpool s) (dlocal s) h2)) as (v3 & h3 & E3 & _ & P3 & _); [in_list|]. rewrite (mbind_run _ _ _ _ _ E3). cbn [dpool dlocal dhw] in *.
  destruct (driver_read AHCI_PxSACT (Driver (dpool s) (dlocal s) h3)) as (v4 & h4 & E4 & _ & P4 & _); [in_list|]. rewrite (mbind_run _ _ _ _ _ E4). cbn [dpool dlocal dhw] in *.
  destruct (driver_read AHCI_PxSSTS (Driver (dpool s) (dlocal s) h4)) as (v5 & h5 & E5 & _ & P5 & S5); [in_list|]. rewrite (mbind_run _ _ _ _ _ E5). destruct (S5 eq_refl) as [-> _]. cbn [negb Z.eqb dpool dlocal dhw AHCI_PxSSTS_DET_PRESENSE_COMM Pos.eqb] in *.
  destruct (driver_read AHCI_PxSSTS (Driver (dpool s) (dlocal s) h5)) as (v6 & h6 & E6 & _ & P6 & S6); [in_list|]. rewrite (mbind_run _ _ _ _ _ E6). destruct (S6 eq_refl) as [_ ->]. cbn [negb Z.eqb dpool dlocal dhw AHCI_PxSSTS_IPM_ACTIVE Pos.eqb] in *.
  destruct (driver_read AHCI_PxSSTS (Driver (dpool s) (dlocal s) h6)) as (v7 & h7 & E7 & _ & P7 & _); [in_list|]. rewrite (mbind_run _ _ _ _ _ E7). cbn [dpool dlocal dhw] in *.
  assert (P : port_of h7 = port_of (dhw s)) by congruence. clear P1 P2 P3 P4 P5 P6 P7 E0 E0' E1 E2 E3 E4 E5 E6 E7 S5 S6.
  destruct (port_page_ok AHCI_PxCLB_LOWER AHCI_PxCLB_UPPER (Driver (dpool s) (dlocal s) h7) held n) as (cl & a1 & h8 & E8 & Nc & Fc & Hp1 & P8); [by left|done|lia|cbn [dhw]; congruence|].
  rewrite (mbind_run _ _ _ _ _ E8). rewrite zset_Some by lia. rewrite (mbind_run _ _ _ _ _ eq_refl). cbn [dpool dlocal dhw Z.eqb AHCI_PxCLB_LOWER] in *.
  destruct (port_page_ok AHCI_PxFB_LOWER AHCI_PxFB_UPPER (Driver a1 (dlocal s) h8) ({[cl]} ∪ held) (n - 1)) as (fis & a2 & h9 & E9 & Nf & Ff & Hp2 & P9); [by right|done|lia|cbn [dhw]; by rewrite P8, P|].
  rewrite (mbind_run _ _ _ _ _ E9). rewrite zset_Some by lia. rewrite (mbind_run _ _ _ _ _ eq_refl). cbn [dpool dlocal dhw Z.eqb AHCI_PxFB_LOWER AHCI_PxCLB_LOWER] in *.
  destruct (driver_read AHCI_PxCMD (Driver a2 (dlocal s) h9)) as (v10 & h10 & E10 & U10 & P10 & _); [in_list|]. rewrite (mbind_run _ _ _ _ _ E10). cbn [dpool dlocal dhw] in *.
  assert (I9 : p_issued (port_of h9) = false) by (by rewrite P9, P8, P).
  destruct (driver_write AHCI_PxCMD (Z.lor v10 AHCI_PxCMD_FRE) (Driver a2 (dlocal s) h10)) as (h11 & E11 & P11); [by apply lor_u32|cbn [dhw]; by rewrite P10|in_list|]. rewrite (mbind_run _ _ _ _ _ E11).
  change (port_of h11 = set_started (Z.testbit (Z.lor v10 AHCI_PxCMD_FRE) 0) (port_of h10)) in P11.
  destruct (driver_write AHCI_PxSERR 0xffffffff (Driver a2 (dlocal s) h11)) as (h12 & E12 & P12); [done|cbn [dhw]; by rewrite P11, P10|in_list|]. cbn [dpool dlocal]. rewrite (mbind_run _ _ _ _ _ E12). cbn [dpool dlocal dhw] in *.
  change (port_of h12 = port_of h11) in P12.
  destruct (driver_read AHCI_PxSIG (Driver a2 (dlocal s) h12)) as (v13 & h13 & E13 & _ & P13 & _); [in_list|]. rewrite (mbind_run _ _ _ _ _ E13). cbn [dpool dlocal dhw] in *.
  assert (Pend : port_of h13 = set_started (Z.testbit (Z.lor v10 AHCI_PxCMD_FRE) 0) (set_fb (V2P fis) (set_clb (V2P cl) (port_of (dhw s))))) by congruence.
  eexists _, _, cl, fis. split; [reflexivity|]. cbn [abar command_list]. split; [done|]. split; [by rewrite zget_insert_eq by lia|]. split; [|rewrite <- Pend || idtac; cbn [dhw]; rewrite Pend; cbn; split_and!; try done; set_solver].
  split; cbn [dhw dpool]; rewrite ?Pend; cbn; [|lia|done|by apply P2V_V2P_page, frame_range|by apply P2V_V2P_page, frame_range|done]. by replace (n - 1 - 1) with (n - 2) in Hp2 by lia.
Qed.
End start.

(** ** A controller *)

(** Busy once after each command is issued, and memory. *)
Record toy_hba := ToyHba { th_port : hba_port; th_busy : bool; th_ram : Z -> Z }.

Definition toy_base : Z := 0xf0000000.

Definition toy_fetch (p : hba_port) (ram : Z -> Z) : option hba_command :=
  let header := fget ram (P2V (p_clb p)) 16 in decode_command header (fget ram (P2V (get32 8 header)) 144).

Definition toy_complete (h : toy_hba) : toy_hba :=
  let p := th_port h in
  match toy_fetch p (th_ram h) with
  | Some c =>
    if c_write c
    then ToyHba (set_issued false (set_media (fun i => if decide (c_lba c <= i < c_lba c + c_count c) then fget (th_ram h) (c_buf c + 512 * (i - c_lba c)) 512 else p_media p i) p))
           false (th_ram h)
    else ToyHba (set_issued false p) false (fput (c_buf c) (disk_bytes (p_media p) (c_lba c) (c_count c)) (th_ram h))
  | None => h
  end.

Definition calm (h : toy_hba) : toy_hba := ToyHba (th_port h) false (th_ram h).

#[local] Instance toy_hba_machine : Machine toy_hba := {
  io_in w p h := (0, h);
  io_out w p v h := h;
  mm_load w a h :=
    if a =? toy_base + AHCI_PORTIMPL then (1, h)
    else if a =? toy_base + 0x100 + AHCI_PxSSTS then (0x113, h)
    else if a =? toy_base + 0x100 + AHCI_PxSIG then (SATA_SIGNATURE_ATA, h)
    else if a =? toy_base + 0x100 + AHCI_PxTFD then (if th_busy h then 0x80 else 0x50, calm h)
    else if a =? toy_base + 0x100 + AHCI_PxCI then
      if p_issued (th_port h) then if th_busy h then (1, calm h) else (0, toy_complete h) else (0, h)
    else (0, h);
  mm_store w a v h :=
    let upd f := ToyHba (f (th_port h)) (th_busy h) (th_ram h) in
    if a =? toy_base + 0x100 + AHCI_PxCLB_LOWER then upd (set_clb v)
    else if a =? toy_base + 0x100 + AHCI_PxFB_LOWER then upd (set_fb v)
    else if a =? toy_base + 0x100 + AHCI_PxCMD then upd (set_started (Z.testbit v 0))
    else if a =? toy_base + 0x100 + AHCI_PxCI then ToyHba (set_issued true (th_port h)) true (th_ram h)
    else h;
  ram_get a n h := fget (th_ram h) a n;
  ram_put b l h := ToyHba (th_port h) (th_busy h) (fput b l (th_ram h))
}.

#[local] Instance toy_hba_ram : RamLaws toy_hba.
Proof.
  constructor; cbn [ram_get ram_put toy_hba_machine th_ram].
  - intros a n h. apply fget_len.
  - intros a n h. apply fget_bytes.
  - intros a n b l h. apply fget_fput.
  - intros a n i m h. apply fget_slice.
Qed.

#[local, refine] Instance toy_hba_port : AhciPort toy_hba toy_base 0 := {
  port_of := th_port;
  hba_left h := if th_busy h then 1%nat else 0%nat;
  hba_max := 1%nat
}.
Proof.
  - intros h. destruct (th_busy h); lia.
  - done.
  - intros h. by exists 1, h.
  - intros r h Hr. assert (Hf : Forall (fun r => exists v, mm_load 4 (toy_base + AHCI_PORT_CONTROL_OFFSET 0 + r) h = (v, h) /\ is_u32 v /\
        (r = AHCI_PxSSTS -> Z.land v 0xf = AHCI_PxSSTS_DET_PRESENSE_COMM /\ Z.land (Z.shiftr v 8) 0xf = AHCI_PxSSTS_IPM_ACTIVE)) readable).
    { unfold readable. repeat apply Forall_cons_2; try apply Forall_nil_2; (eexists; split; [reflexivity|split; [done|try done]]). }
    rewrite Forall_forall in Hf. destruct (Hf r Hr) as (v & E & Hv & Hs). by exists v, h.
  - intros r v h Hv Hi Hr. assert (Hf : Forall (fun r => let h' := mm_store 4 (toy_base + AHCI_PORT_CONTROL_OFFSET 0 + r) v h in mem_same h h' /\
        th_port h' = if r =? AHCI_PxCLB_LOWER then set_clb v (th_port h) else if r =? AHCI_PxFB_LOWER then set_fb v (th_port h)
                     else if r =? AHCI_PxCMD then set_started (Z.testbit v 0) (th_port h) else th_port h) writable).
    { unfold writable. repeat apply Forall_cons_2; try apply Forall_nil_2; (split; [done|reflexivity]). }
    rewrite Forall_forall in Hf. by apply Hf.
  - intros h Hi. exists (if th_busy h then 0x80 else 0x50), (calm h). split; [reflexivity|]. split; [done|]. split; [done|]. destruct (th_busy h); [left; cbn; lia|by right].
  - intros c h Hi Hs Hf Hc. done.
  - intros c h Hi Hf Hc Ha.
    assert (El : mm_load 4 (toy_base + AHCI_PORT_CONTROL_OFFSET 0 + AHCI_PxCI) h = if p_issued (th_port h) then if th_busy h then (1, calm h) else (0, toy_complete h) else (0, h)) by reflexivity.
    rewrite El, Hi. destruct (th_busy h) eqn:Eb.
    + exists 1, (calm h). split; [done|]. left. split; [done|]. split; [done|]. split; [done|]. cbn. lia.
    + exists 0, (toy_complete h). split; [done|]. right. split; [done|]. change (fetch (th_port h) h) with (toy_fetch (th_port h) (th_ram h)) in Hf. unfold toy_complete. rewrite Hf. by destruct (c_write c).
Defined.

#[local] Existing Instances list_allocator list_allocator_laws.

Definition ex_cl : Z := KERNBASE + 0x1000.
Definition ex_fis : Z := KERNBASE + 0x2000.
Definition ex_page : Z := KERNBASE + 0x3000.
Definition ex_hba : AHCIController := Ahci toy_base (ex_cl :: repeat 0 31) (ex_fis :: repeat 0 31).
Definition ex_sata : ATADevice := AtaDev ATA_TRANSPORT_SERIAL_ATA 1000 0 false (pata new_ata_device) (SataDev 0 0 false false false false false).
Definition ex_serial : driver (list Z) (list bool) toy_hba :=
  Driver [KERNBASE + 0x4000] [] (ToyHba (HbaPort 0x1000 0x2000 false false ex_media 1000) false (fun _ => 0)).

(** Writing a sector and reading it with its neighbours. *)
Lemma sata_refines_array_witness :
  exists s', disk_requests 1 (sata_exec_pio_in 1 ex_hba) (sata_exec_pio_out 1 ex_hba) ex_adapter ex_sata ex_page [DiskWrite 7 (repeat 65 512); DiskRead 6 3] ex_serial =
    Ret ([[]; repeat 6 512 ++ repeat 65 512 ++ repeat 8 512], s').
Proof.
  assert (Hm : media_ok ex_media).
  { intros i. unfold ex_media. split; [done|]. apply Forall_forall. intros x Hx%list_elem_of_In%repeat_spec. subst x. unfold is_u8. apply Z.mod_pos_bound. lia. }
  pose proof (sata_refines_array (A := list Z) (H := toy_hba) (base := toy_base) (port := 0) 1 (le_n 1) ex_hba eq_refl ex_cl ex_fis ex_page eq_refl ex_adapter ex_sata (conj eq_refl eq_refl)
    [DiskWrite 7 (repeat 65 512); DiskRead 6 3] ex_serial {[ex_cl; ex_fis; ex_page]} 1 ex_media) as T.
  destruct T as (s' & E & _).
  - split; [|done|done|done|done|exact Hm]. split; [apply NoDup_singleton|]. split; [repeat constructor|]. split.
    + repeat apply set_Forall_union; apply set_Forall_singleton; by split.
    + split; [|done]. intros p ->%list_elem_of_singleton. by vm_compute.
  - split; [set_solver|split_and!; by split|by split].
  - exact Hm.
  - apply Forall_cons_2; [|apply Forall_cons_2; [cbn; lia|apply Forall_nil_2]]. split; [done|]. split.
    + apply Forall_forall. intros x Hx%list_elem_of_In%repeat_spec. by subst x.
    + exists 1. split; [done|]. by split.
  - repeat apply Forall_cons_2; try apply Forall_nil_2; done.
  - done.
  - exists s'. exact E.
Defined.

(** ** Where the driver differs from what it is meant to do *)

(** The command has 28-bit addresses, with the upper four bits in the device register,
    where the driver leaves them zero: a sector beyond the first 2^24 is taken for
    another one. *)
Lemma high_sectors_alias w table cmd lba count buf : w = 0 \/ w = AHCI_CMDLIST_DW0_W -> is_u8 cmd -> 2 ^ 24 <= lba < 2 ^ 28 -> 0 < count <= 8 -> KERNBASE <= buf < 2 ^ 32 ->
  exists c, decode_command (header_bytes table w) (table_bytes cmd lba count buf count) = Some c /\ c_lba c = lba mod 2 ^ 24 /\ c_lba c <> lba.
Proof.
  intros Hw Hc Hl Hn Hb. eexists. split; [apply decode_prepared; [done|done|lia|done|done]|]. cbn [c_lba]. split; [done|]. pose proof (Z.mod_pos_bound lba (2 ^ 24)). lia.
Qed.
