(* ===== verification/Pty.v ===== *)
(** kernel/proc/pty.c: pseudo terminals.

    A terminal has an owner, a page for each direction, and the four ring
    indices; the bytes are in the page frames of Vm.v.  The theorem: bytes
    written to a terminal come out at the other end in order, as long as fewer
    than 4096 are pending. *)

From stdpp Require Import base list gmap strings.
From Stdlib Require Import ZArith Lia.
From S2P Require Import Prelude Mmu Ring Vfs Vm Proc.

Local Open Scope Z_scope.
Local Open Scope outcome_scope.

Definition PTY_MAX : nat := 8.

(** The owner is a process index, [-1] for none. *)
Record PseudoTerminal := Pty {
  pty_owner : Z;
  pty_lock : bool;
  input_buffer : Z; output_buffer : Z;
  input_begin : Z; input_end : Z;
  output_begin : Z; output_end : Z
}.

Definition pty_init : list PseudoTerminal := repeat (Pty (-1) false 0 0 0 0 0 0) PTY_MAX.

Definition set_pty_lock (t : PseudoTerminal) (l : bool) : PseudoTerminal :=
  Pty (pty_owner t) l (input_buffer t) (output_buffer t) (input_begin t) (input_end t) (output_begin t) (output_end t).
Definition set_input (t : PseudoTerminal) (b e : Z) : PseudoTerminal :=
  Pty (pty_owner t) (pty_lock t) (input_buffer t) (output_buffer t) b e (output_begin t) (output_end t).
Definition set_output (t : PseudoTerminal) (b e : Z) : PseudoTerminal :=
  Pty (pty_owner t) (pty_lock t) (input_buffer t) (output_buffer t) (input_begin t) (input_end t) b e.

(** The last terminal without an owner. *)
Fixpoint free_pty (i found : Z) (ts : list PseudoTerminal) : Z :=
  match ts with
  | [] => found
  | t :: ts' => free_pty (i + 1) (if pty_owner t =? -1 then i else found) ts'
  end.

(** The loop that takes up to [n] bytes out of a ring: bytes and new end. *)
Fixpoint ring_read (n : nat) (page : list Z) (b e : Z) : outcome (list Z * Z) :=
  match n with
  | O => Ret ([], e)
  | S n' =>
    c <- of_option (zget page e) ;;
    let e' := advance 4096 e in
    if b =? e' then Ret ([c], e')
    else '(cs, e2) <- ring_read n' page b e' ;; Ret (c :: cs, e2)
  end.

(** The loop that stores bytes: new page and new begin. *)
Fixpoint ring_write (cs : list Z) (page : list Z) (b : Z) : outcome (list Z * Z) :=
  match cs with
  | [] => Ret (page, b)
  | c :: cs' =>
    page' <- of_option (zset page b c) ;;
    ring_write cs' page' (advance 4096 b)
  end.

Section pty.
Context {A P S : Type} `{PageAllocator A} `{FilesystemDriver P S}.
Variable junk : list Z.

Local Notation state := (kernel A P S).
Local Notation ptys := (list PseudoTerminal).

Definition pty_create (cur : Z) (ts : ptys) (k : state) : outcome (Z * ptys * state) :=
  let ptyid := free_pty 0 (-1) ts in
  if ptyid <? 0 then Ret (ERROR_OUT_OF_SPACE, ts, k) else
  t <- of_option (zget ts ptyid) ;;
  '(ib, k1) <- k_kalloc junk k ;;
  '(ob, k2) <- k_kalloc junk k1 ;;
  ts' <- of_option (zset ts ptyid (Pty cur false ib ob (input_begin t) (input_end t) (output_begin t) (output_end t))) ;;
  Ret (ptyid, ts', k2).

Definition pty_close (cur ptyid : Z) (ts : ptys) (k : state) : outcome (Z * ptys * state) :=
  t <- of_option (zget ts ptyid) ;;
  if negb (pty_owner t =? cur) then Ret (ERROR_NO_PERM, ts, k) else
  k1 <- k_kfree (input_buffer t) k ;;
  k2 <- k_kfree (output_buffer t) k1 ;;
  ts' <- of_option (zset ts ptyid (Pty (-1) (pty_lock t) (input_buffer t) (output_buffer t)
           (input_begin t) (input_end t) (output_begin t) (output_end t))) ;;
  Ret (0, ts', k2).

(** What a read that finds no input does is sleep: [None]. *)
Definition pty_read (ptyid n : Z) (ts : ptys) (k : state) : outcome (option (Z * list Z) * ptys) :=
  t <- of_option (zget ts ptyid) ;;
  l <- acquire_b (pty_lock t) ;;
  if input_begin t =? input_end t then
    l' <- release_b l ;; ts' <- of_option (zset ts ptyid (set_pty_lock t l')) ;; Ret (None, ts')
  else
    page <- (if n <=? 0 then Ret [] else of_option (frames (kvm k) !! input_buffer t)) ;;
    '(cs, e) <- ring_read (Z.to_nat n) page (input_begin t) (input_end t) ;;
    l' <- release_b l ;;
    ts' <- of_option (zset ts ptyid (set_pty_lock (set_input t (input_begin t) e) l')) ;;
    Ret (Some (if n <=? 0 then n else zlen cs, cs), ts').

Definition pty_write (ptyid : Z) (buf : list Z) (n : Z) (ts : ptys) (k : state) : outcome (Z * ptys * state) :=
  t <- of_option (zget ts ptyid) ;;
  l <- acquire_b (pty_lock t) ;;
  if n <=? 0 then
    l' <- release_b l ;; ts' <- of_option (zset ts ptyid (set_pty_lock t l')) ;; Ret (n, ts', k)
  else
    page <- of_option (frames (kvm k) !! output_buffer t) ;;
    cs <- copy_from buf 0 n ;;
    '(page', b) <- ring_write cs page (output_begin t) ;;
    l' <- release_b l ;;
    ts' <- of_option (zset ts ptyid (set_pty_lock (set_output t b (output_end t)) l')) ;;
    Ret (n, ts', with_vm k (with_frames (kvm k) (<[output_buffer t := page']> (frames (kvm k))))).

Definition pty_read_output (cur ptyid n : Z) (ts : ptys) (k : state) : outcome (Z * list Z * ptys) :=
  t <- of_option (zget ts ptyid) ;;
  if negb (pty_owner t =? cur) then Ret (ERROR_NO_PERM, [], ts) else
  l <- acquire_b (pty_lock t) ;;
  if output_begin t =? output_end t then
    l' <- release_b l ;; ts' <- of_option (zset ts ptyid (set_pty_lock t l')) ;; Ret (0, [], ts')
  else
    page <- (if n <=? 0 then Ret [] else of_option (frames (kvm k) !! output_buffer t)) ;;
    '(cs, e) <- ring_read (Z.to_nat n) page (output_begin t) (output_end t) ;;
    l' <- release_b l ;;
    ts' <- of_option (zset ts ptyid (set_pty_lock (set_output t (output_begin t) e) l')) ;;
    Ret (if n <=? 0 then n else zlen cs, cs, ts').

Definition pty_write_input (cur ptyid : Z) (buf : list Z) (n : Z) (ts : ptys) (k : state) : outcome (Z * ptys * state) :=
  t <- of_option (zget ts ptyid) ;;
  if negb (pty_owner t =? cur) then Ret (ERROR_NO_PERM, ts, k) else
  l <- acquire_b (pty_lock t) ;;
  '(t1, k1) <- (if n <=? 0 then Ret (t, k) else
     page <- of_option (frames (kvm k) !! input_buffer t) ;;
     cs <- copy_from buf 0 n ;;
     '(page', b) <- ring_write cs page (input_begin t) ;;
     Ret (set_input t b (input_end t), with_vm k (with_frames (kvm k) (<[input_buffer t := page']> (frames (kvm k)))))) ;;
  k2 <- wakeup (ChanPty ptyid) k1 ;;
  l' <- release_b l ;;
  ts' <- of_option (zset ts ptyid (set_pty_lock t1 l')) ;;
  Ret (n, ts', k2).

End pty.

(** ** The loops on rings *)

Lemma ring_write_ok cs : forall page b e l, ring_holds 4096 b e page l -> zlen l + zlen cs < 4096 ->
  exists page' b', ring_write cs page b = Ret (page', b') /\ ring_holds 4096 b' e page' (l ++ cs).
Proof.
  induction cs as [|c cs IH]; intros page b e l Hr Hroom; cbn [ring_write].
  { exists page, b. by rewrite app_nil_r. }
  assert (Hz : zlen (c :: cs) = zlen cs + 1) by (unfold zlen; cbn [length]; lia). assert (0 <= zlen cs) by (unfold zlen; lia).
  pose proof (ring_begin _ _ _ _ _ Hr). pose proof (ring_buf _ _ _ _ _ Hr). rewrite zset_Some by lia. cbn [of_option obind].
  destruct (IH (<[Z.to_nat b := c]> page) (advance 4096 b) e (l ++ [c])) as (page' & b' & -> & Hr').
  - apply ring_push; [done|lia].
  - rewrite zlen_app. change (zlen [c]) with 1. lia.
  - exists page', b'. split; [done|]. by rewrite <- app_assoc in Hr'.
Qed.

Lemma ring_read_ok n : forall page b e l, ring_holds 4096 b e page l -> l <> [] -> (0 < n)%nat ->
  exists e', ring_read n page b e = Ret (take n l, e') /\ ring_holds 4096 b e' page (drop n l).
Proof.
  induction n as [|n IH]; intros page b e l Hr Hne Hn; [lia|]. cbn [ring_read]. destruct l as [|c l]; [done|].
  destruct (ring_pop _ _ _ _ _ _ Hr) as [-> Hr']. cbn [of_option obind take drop].
  destruct (Z.eqb_spec b (advance 4096 e)) as [E|E].
  - apply (ring_empty_iff _ _ _ _ _ Hr') in E as ->. exists (advance 4096 e). by rewrite take_nil, drop_nil.
  - assert (l <> []) by (intros ->; by apply E, (ring_empty_iff _ _ _ _ _ Hr')). destruct n as [|n].
    + cbn [ring_read obind take drop]. eauto.
    + destruct (IH page b (advance 4096 e) l) as (e' & -> & Hr''); [done|done|lia|]. cbn [obind]. eauto.
Qed.

Section pty_proofs.
Context {A P S : Type} `{PageAllocator A} `{FilesystemDriver P S}.
Local Notation state := (kernel A P S).

(** The input of terminal [ptyid] holds the bytes [l]. *)
Definition input_is (ts : list PseudoTerminal) (k : state) (ptyid cur : Z) (l : list Z) : Prop :=
  exists t page, zget ts ptyid = Some t /\ pty_lock t = false /\ pty_owner t = cur /\ frames (kvm k) !! input_buffer t = Some page /\
    ring_holds 4096 (input_begin t) (input_end t) page l.

(** terminal input is a queue.  What the owner of a terminal writes is
    appended to its input; a read of [n] bytes takes the first [n] pending
    bytes, or all when there are fewer, and leaves the rest.  (The bytes
    pending and written must be fewer than 4096: the code does not check.) *)
Theorem pty_input_fifo ts (k : state) ptyid cur l w n :
  input_is ts k ptyid cur l -> ptable_lock k = false -> 0 < zlen w -> zlen l + zlen w < 4096 -> 0 < n ->
  exists ts1 k1 ts2, pty_write_input cur ptyid w (zlen w) ts k = Ret (zlen w, ts1, k1) /\
    input_is ts1 k1 ptyid cur (l ++ w) /\
    pty_read ptyid n ts1 k1 = Ret (Some (Z.min n (zlen l + zlen w), take (Z.to_nat n) (l ++ w)), ts2) /\
    input_is ts2 k1 ptyid cur (drop (Z.to_nat n) (l ++ w)).
Proof.
  intros (t & page & Ht & Hl & Ho & Hp & Hr) Hk Hw Hroom Hn. pose proof (zget_Some _ _ _ Ht) as Hi.
  destruct (ring_write_ok w page _ _ l Hr Hroom) as (page' & b' & Ew & Hr').
  set (k1 := with_vm k (with_frames (kvm k) (<[input_buffer t := page']> (frames (kvm k))))).
  set (k2 := with_procs k1 (wakeup1 (ChanPty ptyid) (procs k1))).
  set (t1 := set_pty_lock (set_input t b' (input_end t)) false). set (ts1 := <[Z.to_nat ptyid := t1]> ts).
  assert (Hi1 : input_is ts1 k2 ptyid cur (l ++ w)).
  { exists t1, page'. split_and!; [by apply zget_insert_eq|done|done|cbn; by rewrite lookup_insert_eq|done]. }
  assert (Hne : l ++ w <> []) by (destruct l; [|done]; destruct w; [by cbn in Hw|done]).
  destruct (ring_read_ok (Z.to_nat n) page' b' (input_end t) (l ++ w)) as (e' & Er & Hr''); [done|done|lia|].
  set (t2 := set_pty_lock (set_input t1 b' e') false).
  exists ts1, k2, (<[Z.to_nat ptyid := t2]> ts1). split_and!; [|done| |].
  - unfold pty_write_input. rewrite Ht. cbn [of_option obind]. rewrite Ho, Z.eqb_refl. cbn [negb]. rewrite Hl. cbn [acquire_b obind].
    destruct (Z.leb_spec (zlen w) 0); [lia|]. rewrite Hp. cbn [of_option obind]. rewrite copy_from_ok by lia. cbn [obind].
    rewrite slice_all, Ew. cbn [obind]. unfold wakeup, acquire_ptable. change (ptable_lock (with_vm _ _)) with (ptable_lock k). rewrite Hk.
    cbn [acquire_b obind release_ptable release_b with_lock with_procs ptable_lock]. rewrite zset_Some by done. cbn [of_option obind].
    unfold k2, k1, ts1, t1. destruct k; cbn in *. by subst.
  - unfold pty_read. unfold ts1 at 1. rewrite zget_insert_eq by done. cbn [of_option obind acquire_b t1 set_pty_lock pty_lock].
    change (input_begin t1) with b'. change (input_end t1) with (input_end t).
    destruct (Z.eqb_spec b' (input_end t)) as [E|E]; [by apply (ring_empty_iff _ _ _ _ _ Hr') in E|].
    destruct (Z.leb_spec n 0); [lia|]. change (input_buffer t1) with (input_buffer t). cbn [k2 k1 with_procs with_vm kvm with_frames frames].
    rewrite lookup_insert_eq. cbn [of_option obind]. rewrite Er. cbn [obind release_b].
    rewrite zset_Some by (unfold ts1, zlen in *; rewrite length_insert; lia). cbn [of_option obind]. do 4 f_equal.
    unfold zlen in *. rewrite length_take, length_app. lia.
  - exists t2, page'. split_and!; [apply zget_insert_eq; unfold ts1, zlen in *; rewrite length_insert; lia|done|done|cbn; by rewrite lookup_insert_eq|done].
Qed.

End pty_proofs.

#[local] Existing Instance ex_driver.
#[local] Existing Instance ex_allocator.

(** Process 0 owns terminal 0, whose input starts near the end of its page. *)
Lemma pty_input_fifo_witness :
  exists ts1 k1 ts2,
    pty_write_input 0 0 [104; 105; 33] 3 [Pty 0 false 0x80200000 0x80201000 4094 4094 0 0] (ex_kernel RUNNING ChanNull RUNNABLE empty_queue)
      = Ret (3, ts1, k1) /\
    input_is ts1 k1 0 0 [104; 105; 33] /\ pty_read 0 2 ts1 k1 = Ret (Some (2, [104; 105]), ts2) /\ input_is ts2 k1 0 0 [33].
Proof.
  apply (pty_input_fifo [Pty 0 false 0x80200000 0x80201000 4094 4094 0 0] (ex_kernel RUNNING ChanNull RUNNABLE empty_queue) 0 0 []);
    [|done|done|done|done].
  eexists _, _. split_and!; [done|done|done|apply (ex_tables 0x80200000); by left|]. apply ring_empty; [cbn; lia|apply zlen_zeros].
Defined.
