(* ===== verification/UserMem.v ===== *)
(** User memory, as the kernel sees it.

    A system call runs on the page table of the process that makes it, so the
    pointers it is given are dereferenced through that table by the processor.
    [vload] and [vstore] are those accesses: [pte_of] (Vm.v) translates the
    address, an absent page faults, and a store needs the write permission (the
    kernel runs with CR0.WP set, entry.S).  [vread], [vwrite] and [vstring] are
    the loops of [memmove] and [fetchstr] over them; [vview] is as much of a
    buffer as can be accessed, for callees that touch only part of it.

    The theorem: what the kernel stores to mapped, writable user memory is read
    back, and changes neither other addresses nor any frame outside the address
    space. *)

From stdpp Require Import base list gmap.
From Stdlib Require Import ZArith Lia.
From S2P Require Import Prelude Mmu Vm.

Local Open Scope Z_scope.
Local Open Scope outcome_scope.

(** The frame behind a virtual address, for reading or for writing. *)
Definition vframe (wr : bool) (f : page_frames) (root va : Z) : option Z :=
  match pte_of f root va with
  | Some e => if negb wr || Z.testbit (PTE_FLAGS e) 1 then Some (P2V (PTE_ADDR e)) else None
  | None => None
  end.

Definition vload (f : page_frames) (root va : Z) : option Z :=
  match vframe false f root va with
  | Some p => match f !! p with Some page => zget page (va mod PGSIZE) | None => None end
  | None => None
  end.

Definition vstore (f : page_frames) (root va b : Z) : option page_frames :=
  match vframe true f root va with
  | Some p =>
    match f !! p with
    | Some page => match zset page (va mod PGSIZE) b with Some page' => Some (<[p := page']> f) | None => None end
    | None => None
    end
  | None => None
  end.

Fixpoint vread (n : nat) (f : page_frames) (root va : Z) : outcome (list Z) :=
  match n with
  | O => Ret []
  | S n' => b <- of_option (vload f root va) ;; bs <- vread n' f root (u32 (va + 1)) ;; Ret (b :: bs)
  end.

Fixpoint vwrite (bs : list Z) (f : page_frames) (root va : Z) : outcome page_frames :=
  match bs with
  | [] => Ret f
  | b :: bs' => f' <- of_option (vstore f root va b) ;; vwrite bs' f' root (u32 (va + 1))
  end.

(** The bytes of a buffer up to the first one that cannot be accessed. *)
Fixpoint vview (n : nat) (wr : bool) (f : page_frames) (root va : Z) : list Z :=
  match n with
  | O => []
  | S n' =>
    match vframe wr f root va, vload f root va with
    | Some _, Some b => b :: vview n' wr f root (u32 (va + 1))
    | _, _ => []
    end
  end.

(** A string with its terminator. *)
Fixpoint vstring (fuel : nat) (f : page_frames) (root va : Z) : outcome (list Z) :=
  match fuel with
  | O => NoFuel
  | S fuel' =>
    c <- of_option (vload f root va) ;;
    if c =? 0 then Ret [0] else s <- vstring fuel' f root (u32 (va + 1)) ;; Ret (c :: s)
  end.

(** An [int]. *)
Definition vint (f : page_frames) (root va : Z) : outcome Z :=
  bs <- vread 4 f root va ;; Ret (s32 (le_val bs)).

(** ** Accesses in a well-formed address space *)

(** The byte at [va] according to the abstract map. *)
Definition user_byte (f : page_frames) (um : user_map) (va : Z) : option Z :=
  match um !! PGROUNDDOWN va with
  | Some (p, _) => match f !! p with Some page => zget page (va mod PGSIZE) | None => None end
  | None => None
  end.

(** The pages from [va] on, for [n] bytes, are user pages the kernel can write. *)
Definition user_writable (um : user_map) (va n : Z) : Prop :=
  0 <= va /\ va + n <= KERNBASE /\
  forall a, va <= a < va + n -> exists p fl, um !! PGROUNDDOWN a = Some (p, fl) /\ Z.testbit fl 1 = true.

(** User memory holds [bs] from [va] on. *)
Definition user_bytes (f : page_frames) (um : user_map) (va : Z) (bs : list Z) : Prop :=
  forall i b, zget bs i = Some b -> user_byte f um (va + i) = Some b.

(** [f'] differs from [f] in the [n] bytes of user memory from [va] on. *)
Record user_changed (f f' : page_frames) (um : user_map) (va n : Z) : Prop := {
  uc_other vb : ~ va <= vb < va + n -> user_byte f' um vb = user_byte f um vb;
  uc_frames q : (forall a fl, um !! a <> Some (q, fl)) -> f' !! q = f !! q;
  uc_dom q : is_Some (f' !! q) -> is_Some (f !! q)
}.

Lemma insert_dom (f : page_frames) p pg q : is_Some (f !! p) -> is_Some (<[p := pg]> f !! q) -> is_Some (f !! q).
Proof. intros Hp. destruct (decide (p = q)) as [->|Hne]; [done|]. by rewrite lookup_insert_ne. Qed.

Section accesses.
Context (sh : gmap Z role) (root : Z) (um : user_map).

Lemma vframe_user wr f va : aspace f sh root um -> 0 <= va < KERNBASE ->
  vframe wr f root va = match um !! PGROUNDDOWN va with Some (p, fl) => if negb wr || Z.testbit fl 1 then Some p else None | None => None end.
Proof.
  intros Has Hva. unfold vframe. rewrite (as_pte _ _ _ _ Has) by (unfold is_u32, KERNBASE in *; lia).
  destruct (um !! PGROUNDDOWN va) as [[p fl]|] eqn:E; cbn [fmap option_fmap option_map fst snd]; [|done].
  destruct (as_page _ _ _ _ Has _ _ _ E) as (_ & _ & Hp & Hfl & Hb & _).
  by destruct (mk_pte_ok p fl Hp Hfl Hb) as (_ & -> & _ & -> & _).
Qed.

Lemma vload_user f va : aspace f sh root um -> 0 <= va < KERNBASE -> vload f root va = user_byte f um va.
Proof.
  intros Has Hva. unfold vload, user_byte. rewrite vframe_user by done. by destruct (um !! PGROUNDDOWN va) as [[p fl]|].
Qed.

Lemma offset_inj va vb : PGROUNDDOWN va = PGROUNDDOWN vb -> va mod PGSIZE = vb mod PGSIZE -> va = vb.
Proof. rewrite !PGROUNDDOWN_eq. unfold PGSIZE. lia. Qed.

Lemma vstore_user f va b : aspace f sh root um -> user_writable um va 1 ->
  exists f', vstore f root va b = Some f' /\ aspace f' sh root um /\ user_byte f' um va = Some b /\
    user_changed f f' um va 1.
Proof.
  intros Has (Hva & Hk & Hw). destruct (Hw va ltac:(lia)) as (p & fl & E & Hfl).
  destruct (as_page _ _ _ _ Has _ _ _ E) as (_ & _ & _ & _ & _ & Hsh & page & Hp & Hl).
  pose proof (Z.mod_pos_bound va PGSIZE ltac:(done)) as Hm.
  unfold vstore. rewrite vframe_user, E, Hfl by (done || lia). cbn [negb orb]. rewrite Hp, zset_Some by lia.
  set (page' := <[_ := b]> page). assert (Hl' : zlen page' = PGSIZE) by (unfold page', zlen in *; by rewrite length_insert).
  eexists. split; [done|]. split; [|split; [|constructor]].
  - eapply aspace_agree; [done| |].
    + intros q [r Hq]. by rewrite lookup_insert_ne by congruence.
    + intros a q fl' Hq. destruct (decide (q = p)) as [->|Hne]; [rewrite lookup_insert_eq; eauto|].
      rewrite lookup_insert_ne by done. by destruct (as_page _ _ _ _ Has _ _ _ Hq) as (_ & _ & _ & _ & _ & _ & ?).
  - unfold user_byte. rewrite E, lookup_insert_eq. unfold page'. rewrite zget_insert_eq; [done|lia].
  - intros vb Hvb. assert (Hne : vb <> va) by lia. unfold user_byte. destruct (um !! PGROUNDDOWN vb) as [[q fl']|] eqn:Eb; [|done].
    destruct (decide (q = p)) as [->|Hq]; [|by rewrite lookup_insert_ne].
    rewrite lookup_insert_eq, Hp. unfold page'. rewrite zget_insert_ne; [done| |lia].
    pose proof (as_inj _ _ _ _ Has _ _ _ _ _ E Eb) as Ep. intros Em. by apply Hne, offset_inj.
  - intros q Hq. rewrite lookup_insert_ne; [done|]. intros <-. by eapply Hq.
  - intros q. apply insert_dom. eauto.
Qed.

Lemma user_writable_cons va n : 0 <= n -> user_writable um va (n + 1) -> user_writable um va 1 /\ user_writable um (va + 1) n.
Proof. intros Hn (? & ? & Hw). split; (split; [lia|]); (split; [lia|]); intros a Ha; apply Hw; lia. Qed.

Lemma vwrite_user bs : forall f va, aspace f sh root um -> user_writable um va (zlen bs) ->
  exists f', vwrite bs f root va = Ret f' /\ aspace f' sh root um /\
    user_bytes f' um va bs /\ user_changed f f' um va (zlen bs).
Proof.
  induction bs as [|b bs IH]; intros f va Has Hw; cbn [vwrite].
  { exists f. split; [done|]. split; [done|]. split; [|done]. intros i b Hi. apply zget_Some in Hi. change (zlen (@nil Z)) with 0 in Hi. lia. }
  assert (Hz : zlen (b :: bs) = zlen bs + 1) by (unfold zlen; cbn [length]; lia). pose proof (zlen_nonneg bs). rewrite Hz in *.
  destruct (user_writable_cons va (zlen bs)) as [H1 H2]; [done|done|].
  destruct (vstore_user f va b Has H1) as (f1 & -> & Has1 & Hb & [Hother Hf1 Hdom1]). cbn [of_option obind].
  assert (Hu : u32 (va + 1) = va + 1) by (apply u32_small; destruct H2 as (? & ? & _); unfold is_u32, KERNBASE in *; lia).
  rewrite Hu. destruct (IH f1 (va + 1) Has1 H2) as (f' & -> & Has' & Hget & [Hout Hf' Hdom']).
  exists f'. split; [done|]. split; [done|]. split; [|constructor].
  - intros i c Hi. pose proof (zget_Some _ _ _ Hi). destruct (Z.eq_dec i 0) as [->|Hne].
    + rewrite Z.add_0_r, Hout by lia. rewrite Hb. apply zget_lookup in Hi as [_ Hi]. by change (Some b = Some c) in Hi.
    + replace (va + i) with (va + 1 + (i - 1)) by lia. apply Hget. apply zget_lookup in Hi as [Hi0 Hi]. apply zget_lookup. split; [lia|].
      by replace (Z.to_nat i) with (S (Z.to_nat (i - 1))) in Hi by lia.
  - intros vb Hvb. rewrite Hout by lia. apply Hother. lia.
  - intros q Hq. rewrite Hf' by done. by apply Hf1.
  - intros q Hq. by apply Hdom1, Hdom'.
Qed.

(** The first [n] bytes of user memory from [va] are [bs]. *)
Lemma vread_user bs : forall f va, aspace f sh root um -> 0 <= va -> va + zlen bs <= KERNBASE ->
  user_bytes f um va bs -> vread (length bs) f root va = Ret bs.
Proof.
  induction bs as [|b bs IH]; intros f va Has Hva Hk Hget; cbn [vread length]; [done|].
  assert (Hz : zlen (b :: bs) = zlen bs + 1) by (unfold zlen; cbn [length]; lia). pose proof (zlen_nonneg bs). rewrite Hz in *.
  rewrite vload_user by (done || lia). rewrite <- (Z.add_0_r va) at 1. rewrite (Hget 0 b) by done. cbn [of_option obind].
  rewrite u32_small by (unfold is_u32, KERNBASE in *; lia). rewrite IH; [done|done|lia|lia|].
  intros i c Hi. replace (va + 1 + i) with (va + (i + 1)) by lia. apply Hget.
  apply zget_lookup in Hi as [Hi0 Hi]. apply zget_lookup. split; [lia|]. by replace (Z.to_nat (i + 1)) with (S (Z.to_nat i)) by lia.
Qed.

(** Storing inside one page. *)
Lemma user_page_write f va p fl page off bs : aspace f sh root um -> um !! va = Some (p, fl) -> f !! p = Some page ->
  0 <= off -> off + zlen bs <= PGSIZE ->
  let f' := <[p := splice off bs page]> f in
  aspace f' sh root um /\ user_bytes f' um (va + off) bs /\ user_changed f f' um (va + off) (zlen bs).
Proof.
  intros Has E Hp Ho Hl f'. destruct (as_page _ _ _ _ Has _ _ _ E) as (Hal & Hva & _ & _ & _ & Hsh & page0 & Hp0 & Hlen).
  assert (page0 = page) as -> by congruence.
  assert (Hpage : forall vb, PGROUNDDOWN vb = va -> user_byte f' um vb =
    if decide (off <= vb mod PGSIZE < off + zlen bs) then zget bs (vb mod PGSIZE - off) else zget page (vb mod PGSIZE)).
  { intros vb Hvb. unfold user_byte, f'. rewrite Hvb, E, lookup_insert_eq. apply zget_splice; lia. }
  assert (Hdown : forall i, 0 <= i < PGSIZE -> PGROUNDDOWN (va + i) = va /\ (va + i) mod PGSIZE = i).
  { intros i Hi. rewrite PGROUNDDOWN_eq. unfold PGSIZE in *. Z.div_mod_to_equations. lia. }
  split; [|split; [|constructor]].
  - eapply aspace_agree; [done| |].
    + intros q [r Hq]. unfold f'. by rewrite lookup_insert_ne by congruence.
    + intros a q fl' Hq. unfold f'. destruct (decide (q = p)) as [->|Hne].
      * rewrite lookup_insert_eq. eexists. split; [done|]. rewrite splice_length; lia.
      * rewrite lookup_insert_ne by done. by destruct (as_page _ _ _ _ Has _ _ _ Hq) as (_ & _ & _ & _ & _ & _ & ?).
  - intros i b Hi. pose proof (zget_Some _ _ _ Hi). rewrite <- Z.add_assoc. destruct (Hdown (off + i)) as [Hd Hm]; [lia|].
    rewrite Hpage, Hm, decide_True by (done || lia). by replace (off + i - off) with i by lia.
  - intros vb Hvb. destruct (decide (PGROUNDDOWN vb = va)) as [Ed|Hne].
    + rewrite Hpage, decide_False by (done || (rewrite PGROUNDDOWN_eq in Ed; unfold PGSIZE; Z.div_mod_to_equations; lia)).
      unfold user_byte. by rewrite Ed, E, Hp.
    + unfold user_byte, f'. destruct (um !! PGROUNDDOWN vb) as [[q fl']|] eqn:Eb; [|done].
      rewrite lookup_insert_ne; [done|]. intros <-. by apply Hne, (as_inj _ _ _ _ Has _ _ _ _ _ Eb E).
  - intros q Hq. unfold f'. rewrite lookup_insert_ne; [done|]. intros <-. by eapply Hq.
  - intros q. apply insert_dom. eauto.
Qed.
End accesses.

(** ** Copying into another address space *)

Section copyout.
Context {A : Type} `{PageAllocator A}.
Variable junk : list Z.
Context (sh : gmap Z role) (root : Z) (um : user_map).

Local Notation state := (vm A).

(** The pages from [va] on, for [n] bytes, are user pages. *)
Definition user_pages (va n : Z) : Prop :=
  0 <= va /\ va + n <= KERNBASE /\
  forall a, va <= a < va + n -> exists p fl, um !! PGROUNDDOWN a = Some (p, fl) /\ Z.testbit fl 2 = true.

Lemma uva2ka_ok (s : state) va p fl : aspace (frames s) sh root um -> um !! va = Some (p, fl) -> Z.testbit fl 2 = true ->
  uva2ka junk root va s = Ret p.
Proof.
  intros Has E Hu. pose proof (as_wf _ _ _ _ Has) as wf. destruct (as_page _ _ _ _ Has _ _ _ E) as (_ & _ & Hp & Hfl & Hb & _).
  unfold uva2ka. rewrite (walk_ok junk s sh) by done. cbn [obind].
  destruct (user_entry _ _ _ _ _ _ _ Has E) as (t & tp & El & Hokt & _ & _ & _ & Ee). rewrite El. pose proof (PTX_range va).
  rewrite entry_addr_nonzero by done. rewrite read_entry, Ee by done. cbn [of_option obind].
  destruct (mk_pte_ok p fl Hp Hfl Hb) as (-> & -> & _ & Hf & _). cbn [negb].
  destruct (Z.eqb_spec (Z.land (mk_pte p fl) PTE_U) 0) as [Ez|_]; [|done].
  apply (f_equal (fun x => Z.testbit x 2)) in Ez. rewrite Z.land_spec, Z.bits_0 in Ez. change (Z.testbit PTE_U 2) with true in Ez.
  rewrite Bool.andb_true_r in Ez. rewrite <- Hf in Hu. unfold PTE_FLAGS in Hu. rewrite Z.land_spec, Ez in Hu. done.
Qed.

Lemma copyout_loop_ok n : forall bs va (s : state), aspace (frames s) sh root um -> user_pages va (zlen bs) -> zlen bs <= Z.of_nat n ->
  exists f', copyout_loop junk n root va bs s = Ret (0, with_frames s f') /\ aspace f' sh root um /\
    user_bytes f' um va bs /\ user_changed (frames s) f' um va (zlen bs).
Proof.
  induction n as [|n IH]; intros bs va s Has Hpg Hn; (destruct bs as [|b bs0]; cbn [copyout_loop];
    [exists (frames s); split; [by destruct s|]; split; [done|]; split; [|done];
     intros i c Hi; apply zget_Some in Hi; change (zlen (@nil Z)) with 0 in Hi; lia|]).
  { unfold zlen in Hn. cbn [length] in Hn. lia. }
  set (bs := b :: bs0) in *. assert (Hz : 0 < zlen bs) by (unfold bs, zlen; cbn [length]; lia).
  pose proof (PGROUNDDOWN_bounds va) as Hd. destruct Hpg as (Hva & Hk & Hpg).
  destruct (Hpg va ltac:(lia)) as (p & fl & E & Hu). destruct (as_page _ _ _ _ Has _ _ _ E) as (Hal & Hrange & Hp & _ & _ & _ & page & Ep & Lp).
  rewrite (uva2ka_ok s _ p fl) by done. cbn [obind]. destruct (Z.eqb_spec p 0); [destruct Hp; unfold KERNBASE in *; lia|].
  set (k := Z.min _ (zlen bs)). assert (Hkr : 0 < k <= zlen bs) by (unfold k; lia).
  assert (Hks : zlen (slice 0 k bs) = k) by (apply slice_length; lia).
  unfold write_frame. rewrite Ep. cbn [of_option obind]. rewrite copy_into_ok by (rewrite ?Hks; unfold k; lia). cbn [obind].
  destruct (user_page_write sh root um (frames s) _ p fl page (va - PGROUNDDOWN va) (slice 0 k bs) Has E Ep) as (Has1 & Hb1 & Hc1);
    [lia|rewrite Hks; unfold k; lia|].
  replace (PGROUNDDOWN va + (va - PGROUNDDOWN va)) with va in * by lia. rewrite Hks in Hc1.
  set (s1 := with_frames s _). set (rest := drop (Z.to_nat k) bs).
  assert (Hrest : zlen rest = zlen bs - k) by (unfold rest, zlen in *; rewrite length_drop; lia).
  assert (Hnext : zlen rest = 0 \/ u32 (PGROUNDDOWN va + PGSIZE) = va + k).
  { destruct (Z.eq_dec k (zlen bs)); [left; lia|right]. assert (k = PGSIZE - (va - PGROUNDDOWN va)) by (unfold k in *; lia).
    rewrite u32_small; [lia|]. unfold is_u32, KERNBASE in *. lia. }
  destruct Hnext as [H0|Hnext].
  - destruct rest as [|? ?] eqn:Er; [|unfold zlen in H0; cbn [length] in H0; lia].
    exists (frames s1). assert (Hkb : k = zlen bs) by lia.
    assert (Hsl : slice 0 k bs = bs) by (rewrite Hkb; apply slice_all).
    split; [by destruct n|]. split; [done|]. subst s1. cbn [frames with_frames]. rewrite Hsl in *. split; [exact Hb1|]. by rewrite Hkb in Hc1.
  - rewrite Hnext. destruct (IH rest (va + k) s1 Has1) as (f' & -> & Has' & Hb' & Hc'); [|lia|].
    { split; [lia|]. split; [lia|]. intros a Ha. apply Hpg. lia. }
    exists f'. split; [done|]. split; [done|]. split.
    + intros i c Hi. pose proof (zget_Some _ _ _ Hi). destruct (Z.lt_ge_cases i k).
      * rewrite (uc_other _ _ _ _ _ Hc') by lia. apply Hb1. apply zget_lookup in Hi as [Hi0 Hi]. apply zget_lookup. split; [done|].
        unfold slice. rewrite drop_0, lookup_take_lt by lia. done.
      * replace (va + i) with (va + k + (i - k)) by lia. apply Hb'. apply zget_lookup in Hi as [Hi0 Hi]. apply zget_lookup. split; [lia|].
        unfold rest. rewrite lookup_drop. rewrite <- Hi. f_equal. lia.
    + destruct Hc1 as [C1 C2 C3], Hc' as [D1 D2 D3]. constructor.
      * intros vb Hvb. rewrite D1 by lia. apply C1. lia.
      * intros q Hq. rewrite D2 by done. by apply C2.
      * auto.
Qed.

(** Copying to mapped user pages succeeds and stores exactly the bytes. *)
Lemma copyout_ok (s : state) va bs len : aspace (frames s) sh root um -> 0 <= len <= zlen bs -> user_pages va len ->
  exists f', copyout junk root va bs len s = Ret (0, with_frames s f') /\ aspace f' sh root um /\
    user_bytes f' um va (slice 0 len bs) /\ user_changed (frames s) f' um va len.
Proof.
  intros Has Hl Hpg. unfold copyout. rewrite copy_from_ok by lia. cbn [obind].
  pose proof (slice_length 0 len bs ltac:(lia) ltac:(lia) ltac:(lia)) as Hs.
  destruct (copyout_loop_ok (Z.to_nat len) (slice 0 len bs) va s Has) as (f' & E & H'); [by rewrite Hs|lia|].
  rewrite Hs in H'. by exists f'.
Qed.
End copyout.

(** ** An address space with a stack page *)

#[local] Existing Instance ex_allocator.
#[local] Existing Instance ex_allocator_laws.

Lemma ex_stack_page : exists s sh um n, aspace (frames s) sh 0x80200000 um /\ frames_ok s n /\ 186 <= n /\
  user_pages um (PROC_STACK_BOTTOM - PGSIZE) PGSIZE /\ user_writable um (PROC_STACK_BOTTOM - PGSIZE) PGSIZE.
Proof.
  destruct (allocuvm_ok ex_junk_frame ex_junk_frame_page ex_vm {[0x80200000 := Root]} 0x80200000 ∅ 200
      (PROC_STACK_BOTTOM - PGSIZE) PROC_STACK_BOTTOM (Z.lor PTE_W PTE_U)) as (s & sh & um & n & _ & Has & Hf & Hn & _ & Hgr & _);
    [apply ex_aspace; by left|apply ex_frames_ok|by vm_compute|by vm_compute|by vm_compute|by vm_compute|intros; apply lookup_empty|].
  assert (Hp : forall a, PROC_STACK_BOTTOM - PGSIZE <= a < PROC_STACK_BOTTOM - PGSIZE + PGSIZE ->
    exists p, um !! PGROUNDDOWN a = Some (p, Z.lor (Z.lor PTE_W PTE_U) PTE_P)).
  { intros a Ha. destruct (Hgr (PGROUNDDOWN a)) as (p & Hm & _); [apply PGROUNDDOWN_aligned| |by exists p].
    change (PGROUNDUP (PROC_STACK_BOTTOM - PGSIZE)) with 0x1ffff000. change (PROC_STACK_BOTTOM - PGSIZE) with 0x1ffff000 in Ha.
    change PROC_STACK_BOTTOM with 0x20000000. rewrite PGROUNDDOWN_eq. unfold PGSIZE in Ha. Z.div_mod_to_equations. lia. }
  exists s, sh, um, n. split_and!; [done|done|change (7 * _) with 14 in Hn; lia| |].
  all: split; [by vm_compute|]; (split; [by vm_compute|]); intros a Ha; destruct (Hp a Ha) as [p E]; eauto.
Qed.

