(* ===== verification/Exec.v ===== *)
(** kernel/proc/exec: loading programs.

    elf.c reads an ELF file segment by segment into an address space, exec.c
    replaces the image of the calling process and builds its first stack,
    dynamic.c loads a shared library beside it.  [loaduvm] of vm.c, which copies
    a segment from a file into mapped pages, is here because it is the only part
    of vm.c that reads files.  The loader's out-parameters are variables of the
    caller or user memory ([elf_dest]).

    The theorems: a loaded segment has its bytes of the file in memory; the
    argument vector [exec] builds can be read back; thirty-one arguments overflow
    the array on the kernel stack. *)

From stdpp Require Import base list gmap strings.
From Stdlib Require Import ZArith Lia.
From S2P Require Import Prelude Mmu KString VfsPath Vfs Vm UserMem Proc.

Local Open Scope Z_scope.
Local Open Scope outcome_scope.

Definition ELF_MAGIC : Z := 0x464C457F.
Definition ELF_PROG_LOAD : Z := 1.
Definition ELF_PROG_DYNAMIC : Z := 2.
Definition ELF_PROG_INTERP : Z := 3.
Definition ELF_PROG_FLAG_WRITE : Z := 2.
Definition MAXARG : Z := 32.

(** The fields of the file header the loader uses, and those of a program header. *)
Record elfhdr := Elfhdr { eh_magic : Z; eh_entry : Z; eh_phoff : Z; eh_phnum : Z }.
Definition elfhdr_of (bs : list Z) : elfhdr := Elfhdr (get32 0 bs) (get32 24 bs) (get32 28 bs) (get16 44 bs).

Record proghdr := Proghdr { ph_type : Z; ph_off : Z; ph_vaddr : Z; ph_filesz : Z; ph_memsz : Z; ph_flags : Z }.
Definition proghdr_of (bs : list Z) : proghdr :=
  Proghdr (get32 0 bs) (get32 4 bs) (get32 8 bs) (get32 16 bs) (get32 20 bs) (get32 24 bs).

(** The results of loading, as far as they are set. *)
Record elf_vars := ElfVars { v_entry : Z; v_dynamic : Z; v_interp : Z }.
Inductive elf_var := VEntry | VDynamic | VInterp.

(** Where they go: to variables of the caller, or entry and dynamic section to
    user memory of a process. *)
Inductive elf_dest := Locals | ToUser (root dynamic entry : Z).

Definition set_var (x : elf_var) (v : Z) (o : elf_vars) : elf_vars :=
  match x with
  | VEntry => ElfVars v (v_dynamic o) (v_interp o)
  | VDynamic => ElfVars (v_entry o) v (v_interp o)
  | VInterp => ElfVars (v_entry o) (v_dynamic o) v
  end.

Section operations.
Context {A P S : Type} `{PageAllocator A} `{FilesystemDriver P S}.
(** Contents of fresh memory, and start of the kernel's data section. *)
Variable junk : list Z.
Variable data : Z.

Local Notation state := (kernel A P S).

Definition with_fs (k : state) (w : vfs P S) : state :=
  Kernel (procs k) (ptable_lock k) (initproc k) (nextpid k) (kvm k) w.

(** The working directory of a process: its buffer is a frame. *)
Definition cwd_of (p : proc) (k : state) : outcome VfsPath :=
  page <- of_option (frames (kvm k) !! p_cwd_buf p) ;; Ret (Path (p_cwd_parts p) page).

(** ** Segments *)

(** A read from a file into the frame at [a]. *)
Definition read_frame (fd : FileDesc) (a n : Z) (k : state) : outcome (Z * FileDesc * state) :=
  page <- of_option (frames (kvm k) !! a) ;;
  '(r, page', fd', w) <- vfs_fd_read fd page n (kfs k) ;;
  Ret (r, fd', with_vm (with_fs k w) (with_frames (kvm k) (<[a := page']> (frames (kvm k))))).

Fixpoint loaduvm_loop (fuel : nat) (pgdir addr i offset sz : Z) (fd : FileDesc) (k : state) : outcome (Z * FileDesc * state) :=
  if negb (i <? sz) then Ret (0, fd, k) else
  match fuel with
  | O => NoFuel
  | Datatypes.S fuel' =>
    '(pte, v) <- walkpgdir junk pgdir (u32 (addr + i)) false (Z.lor PTE_W PTE_U) (kvm k) ;;
    if pte =? 0 then Panic "loaduvm: address should exist" else
    e <- read64 (frames v) pte ;;
    let pa := u32 (PTE_ADDR e) in
    let n := if sz - i <? PGSIZE then sz - i else PGSIZE in
    let '(r, fd1) := vfs_fd_seek fd (u32 (offset + i)) SEEK_SET in
    if r <? 0 then Ret (-1, fd1, with_vm k v) else
    '(r2, fd2, k2) <- read_frame fd1 (P2V pa) n (with_vm k v) ;;
    if r2 <? 0 then Ret (-1, fd2, k2) else
    loaduvm_loop fuel' pgdir addr (u32 (i + PGSIZE)) offset sz fd2 k2
  end.

(** As many rounds as there are pages in [sz] bytes. *)
Definition loaduvm (pgdir addr : Z) (fd : FileDesc) (offset sz : Z) (k : state) : outcome (Z * FileDesc * state) :=
  if negb (u32 addr mod PGSIZE =? 0) then Panic "loaduvm: addr must be page aligned" else
  loaduvm_loop (Z.to_nat (sz / PGSIZE + 1)) pgdir addr 0 offset sz fd k.

(** ** elf.c *)

Definition put_var (dest : elf_dest) (x : elf_var) (v : Z) (ok : elf_vars * state) : outcome (elf_vars * state) :=
  let '(o, k) := ok in
  let to root a :=
    f <- vwrite (le_bytes 4 v) (frames (kvm k)) root a ;; Ret (o, with_vm k (with_frames (kvm k) f)) in
  match dest, x with
  | ToUser root d e, VEntry => to root e
  | ToUser root d e, VDynamic => to root d
  | _, _ => Ret (set_var x v o, k)
  end.

(** Closing the file and returning [r]. *)
Definition elf_close (r : Z) (fd : FileDesc) (o : elf_vars) (k : state) : outcome (Z * elf_vars * state) :=
  '(_, _, w) <- vfs_fd_close fd (kfs k) ;; Ret (r, o, with_fs k w).

(** One program header: the new size of the image, or [None] for an error. *)
Definition load_segment (pgdir base : Z) (ph : proghdr) (sz : Z) (fd : FileDesc) (k : state)
    : outcome (option Z * FileDesc * state) :=
  let off := ph_vaddr ph mod PGSIZE in
  '(r, v) <- allocuvm junk pgdir (u32 (base + ph_vaddr ph - off)) (u32 (base + ph_vaddr ph + ph_memsz ph))
     (if Z.land (ph_flags ph) ELF_PROG_FLAG_WRITE =? 0 then PTE_U else Z.lor PTE_W PTE_U) (kvm k) ;;
  if r =? 0 then Ret (None, fd, with_vm k v) else
  let top := u32 (ph_vaddr ph + ph_memsz ph) in
  let sz' := if sz <? top then top else sz in
  '(r2, fd2, k2) <- loaduvm pgdir (u32 (base + ph_vaddr ph - off)) fd (u32 (ph_off ph - off)) (u32 (off + ph_filesz ph)) (with_vm k v) ;;
  Ret (if r2 <? 0 then None else Some sz', fd2, k2).

(** The loop over [fuel] program headers. *)
Fixpoint elf_loop (fuel : nat) (pgdir base : Z) (dest : elf_dest) (off limit sz : Z) (fd : FileDesc) (o : elf_vars) (k : state)
    : outcome (Z * elf_vars * state) :=
  if negb (off <? limit) then elf_close (s32 sz) fd o k else
  match fuel with
  | O => NoFuel
  | Datatypes.S fuel' =>
    let '(r, fd1) := vfs_fd_seek fd off SEEK_SET in
    if r <? 0 then elf_close (-1) fd1 o k else
    '(r2, bs, fd2, w) <- vfs_fd_read fd1 (slice 0 32 junk) 32 (kfs k) ;;
    let k1 := with_fs k w in
    if negb (r2 =? 32) then elf_close (-1) fd2 o k1 else
    let ph := proghdr_of bs in
    let next sz fd o k := elf_loop fuel' pgdir base dest (u32 (off + 32)) limit sz fd o k in
    if ph_type ph =? ELF_PROG_DYNAMIC then
      '(o', k2) <- put_var dest VDynamic (u32 (base + ph_vaddr ph)) (o, k1) ;; next sz fd2 o' k2
    else if ph_type ph =? ELF_PROG_INTERP then
      '(o', k2) <- put_var dest VInterp (u32 (base + ph_vaddr ph)) (o, k1) ;; next sz fd2 o' k2
    else if negb (ph_type ph =? ELF_PROG_LOAD) then next sz fd2 o k1
    else
      '(r3, fd3, k3) <- load_segment pgdir base ph sz fd2 k1 ;;
      match r3 with
      | None => elf_close (-1) fd3 o k3
      | Some sz' => next sz' fd3 o k3
      end
  end.

Definition proc_elf_load (cwd : VfsPath) (pgdir base : Z) (name : list Z) (dest : elf_dest) (o : elf_vars) (k : state)
    : outcome (Z * elf_vars * state) :=
  '(r, fd, w) <- vfs_fd_open junk cwd name O_READ (kfs k) ;;
  let k1 := with_fs k w in
  if r <? 0 then Ret (-1, o, k1) else
  '(r2, bs, fd2, w2) <- vfs_fd_read fd (slice 0 52 junk) 52 (kfs k1) ;;
  let k2 := with_fs k1 w2 in
  if negb (r2 =? 52) then elf_close (-1) fd2 o k2 else
  let elf := elfhdr_of bs in
  if negb (eh_magic elf =? ELF_MAGIC) then elf_close (-1) fd2 o k2 else
  '(o', k3) <- put_var dest VEntry (eh_entry elf) (o, k2) ;;
  elf_loop (Z.to_nat (eh_phnum elf)) pgdir base dest (eh_phoff elf) (u32 (eh_phoff elf + eh_phnum elf * 32)) 0 fd2 o' k3.

(** ** dynamic.c *)

Definition set_dyn_base (p : proc) (b : Z) : proc :=
  Proc (p_sz p) (p_stack_size p) (p_heap_size p) (p_pgdir p) (p_kstack p) (p_state p) (p_pid p) (p_parent p) (p_tf p) (p_context p)
    (p_chan p) (p_killed p) (p_name p) (p_files p) (p_cwd_parts p) (p_cwd_buf p) b (p_msgqueue p) (p_pty p) (p_exit_status p).

(** For the calling process; [dynamic] and [entry] are user addresses. *)
Definition proc_load_dynamic (cur : Z) (name : list Z) (dynamic entry : Z) (k : state) : outcome (Z * state) :=
  p <- get_proc k cur ;;
  cwd <- cwd_of p k ;;
  let load_base := p_dyn_base p in
  '(sz, _, k1) <- proc_elf_load cwd (p_pgdir p) load_base name (ToUser (p_pgdir p) dynamic entry) (ElfVars 0 0 0) k ;;
  if sz <? 0 then Ret (0, k1) else
  k2 <- update k1 cur (fun p => set_dyn_base p (u32 (p_dyn_base p + PGROUNDUP sz))) ;;
  Ret (s32 load_base, k2).

(** ** exec.c *)

(** Pushing the argument strings: count, stack pointer and the array of words
    prepared for the stack; [None] for an error. *)
Fixpoint push_args (argv : list (list Z)) (pgdir argc sp : Z) (ustack : list Z) (v : vm A)
    : outcome (option (Z * Z * list Z) * vm A) :=
  match argv with
  | [] => Ret (Some (argc, sp, ustack), v)
  | s :: argv' =>
    if MAXARG <=? argc then Ret (None, v) else
    n <- of_option (strlen s) ;;
    let sp' := Z.land (u32 (sp - (n + 1))) (Z.lnot 3) in
    '(r, v') <- copyout junk pgdir sp' s (n + 1) v ;;
    if r <? 0 then Ret (None, v') else
    us <- of_option (zset ustack (5 + argc) sp') ;;
    push_args argv' pgdir (argc + 1) sp' us v'
  end.

(** The words in front of the argument pointers. *)
Definition stack_head (argc sp interp : Z) (ustack : list Z) : outcome (list Z) :=
  u0 <- of_option (zset ustack (5 + argc) 0) ;;
  u1 <- of_option (zset u0 0 0xffffffff) ;;
  u2 <- of_option (zset u1 1 argc) ;;
  u3 <- of_option (zset u2 2 (u32 (sp - (argc + 1) * 4))) ;;
  u4 <- of_option (zset u3 3 0) ;;
  of_option (zset u4 4 interp).

(** The first stack of a program, from the page that is mapped for it: the stack
    pointer, or [None] for an error. *)
Definition exec_stack (argv : list (list Z)) (pgdir interp : Z) (ustack0 : list Z) (v : vm A) : outcome (option Z * vm A) :=
  '(pushed, v1) <- push_args argv pgdir 0 PROC_STACK_BOTTOM ustack0 v ;;
  match pushed with
  | None => Ret (None, v1)
  | Some (argc, sp, us) =>
    us1 <- stack_head argc sp interp us ;;
    let sp1 := u32 (sp - (5 + argc + 1) * 4) in
    '(r, v2) <- copyout junk pgdir sp1 (flat_map (le_bytes 4) us1) ((5 + argc + 1) * 4) v1 ;;
    Ret (if r <? 0 then None else Some sp1, v2)
  end.

(** What follows the last slash. *)
Fixpoint path_last (path last : list Z) : outcome (list Z) :=
  match path with
  | [] => Fault
  | c :: path' => if c =? 0 then Ret last else path_last path' (if c =? 47 then path' else last)
  end.

Definition exec_tf (tf : trapframe) (eip esp : Z) : trapframe :=
  Trapframe (tf_edi tf) (tf_esi tf) (tf_ebp tf) (tf_oesp tf) (tf_ebx tf) (tf_edx tf) (tf_ecx tf) (tf_eax tf)
    (tf_gs tf) (tf_fs tf) (tf_es tf) (tf_ds tf) (tf_trapno tf) (tf_err tf) eip (tf_cs tf) (tf_eflags tf) esp (tf_ss tf).

(** The process with its new image. *)
Definition exec_proc (p : proc) (pgdir sz entry sp : Z) (name : list Z) : proc :=
  Proc sz PGSIZE 0 pgdir (p_kstack p) (p_state p) (p_pid p) (p_parent p) (exec_tf (p_tf p) entry sp) (p_context p)
    (p_chan p) (p_killed p) (splice 0 name (p_name p)) (p_files p) (p_cwd_parts p) (p_cwd_buf p) PROC_DYNAMIC_BOTTOM
    (p_msgqueue p) (p_pty p) (p_exit_status p).

(** [ustack0] is what the array holds before it is set. *)
Definition exec (cur : Z) (ustack0 : list Z) (path : list Z) (argv : list (list Z)) (k : state) : outcome (Z * state) :=
  let bad pgdir k := v <- freevm junk pgdir (kvm k) ;; Ret (-1, with_vm k v) in
  p <- get_proc k cur ;;
  '(pgdir, v0) <- setupkvm junk data (kvm k) ;;
  if pgdir =? 0 then Ret (-1, with_vm k v0) else
  cwd <- cwd_of p (with_vm k v0) ;;
  '(sz, o, k1) <- proc_elf_load cwd pgdir 0 path Locals (ElfVars 0 0 0) (with_vm k v0) ;;
  if sz <? 0 then bad pgdir k1 else
  '(r, v1) <- allocuvm junk pgdir (PROC_STACK_BOTTOM - PGSIZE) PROC_STACK_BOTTOM (Z.lor PTE_W PTE_U) (kvm k1) ;;
  if r =? 0 then bad pgdir (with_vm k1 v1) else
  '(stack, v2) <- exec_stack argv pgdir (v_interp o) ustack0 v1 ;;
  let k2 := with_vm k1 v2 in
  match stack with
  | None => bad pgdir k2
  | Some sp =>
    last <- path_last path path ;;
    name <- of_option (safestrcpy last 16) ;;
    k3 <- put_proc k2 cur (exec_proc p pgdir sz (v_entry o) sp name) ;;
    v4 <- switchuvm (p_kstack p) pgdir (kvm k3) ;;
    v5 <- freevm junk (p_pgdir p) v4 ;;
    Ret (0, with_vm k3 v5)
  end.

End operations.

(** ** Loading a segment *)

Section segments.
Context {A P S : Type} `{PageAllocator A} `{FilesystemLaws P S}.
Variable junk : list Z.
Context (sh : gmap Z role) (root : Z) (um : user_map).

Local Notation state := (kernel A P S).

(** A read inside the file fills the front of the buffer. *)
Lemma fd_read_splice fd buf n (w : vfs P S) dat cap : fd_file w fd dat cap -> fd_read_ok fd = true -> 0 < n <= zlen buf ->
  fd_offset fd + n <= fd_size fd ->
  exists w', vfs_fd_read fd buf n w = Ret (n, splice 0 (slice (fd_offset fd) n dat) buf, with_offset fd (fd_offset fd + n) (fd_size fd), w') /\
    fd_file w' (with_offset fd (fd_offset fd + n) (fd_size fd)) dat cap.
Proof.
  intros (Hu & Hd & Ho & Hs & Hds & p & Hm & Hf) Hr Hn Hin. unfold vfs_fd_read. rewrite Hu, Hr, Hd. cbn [negb].
  destruct (Z.leb_spec (fd_size fd) (fd_offset fd)); [lia|]. rewrite (u32_small (fd_offset fd + n)) by (unfold is_u32; lia).
  destruct (Z.ltb_spec (fd_size fd) (fd_offset fd + n)); [lia|]. rewrite s32_small by lia.
  destruct (fs_read_law p (vfs_state w) (fd_block fd) dat cap buf (fd_offset fd) n) as (s' & E & Hf'); [done|lia..|].
  unfold call_buf. rewrite Hm. cbn [obind]. rewrite E. cbn [obind]. destruct (Z.ltb_spec n 0); [lia|].
  rewrite u32_small by (unfold is_u32; lia). eexists. split; [done|].
  unfold fd_file. cbn [with_offset fd_used fd_dir fd_offset fd_size fd_fs_id fd_block]. split_and!; [done|done|lia..|]. eauto.
Qed.

Lemma slice_none {T} off n (l : list T) : n <= 0 -> slice off n l = [].
Proof. intros Hn. unfold slice. by replace (Z.to_nat n) with 0%nat by lia. Qed.

Lemma user_bytes_nil f va : user_bytes f um va [].
Proof. intros i b Hi. apply zget_Some in Hi. change (zlen (@nil Z)) with 0 in Hi. lia. Qed.

(** Kernels that differ in memory and in the filesystem. *)
Definition same_procs (k k' : state) : Prop :=
  procs k' = procs k /\ ptable_lock k' = ptable_lock k /\ initproc k' = initproc k /\ nextpid k' = nextpid k.

Lemma loaduvm_loop_ok n : forall i addr offset sz fd (k : state) dat cap,
  aspace (frames (kvm k)) sh root um -> fd_file (kfs k) fd dat cap -> fd_read_ok fd = true ->
  addr mod PGSIZE = 0 -> i mod PGSIZE = 0 -> 0 <= i -> 0 <= addr -> addr + sz <= KERNBASE -> 0 <= offset -> offset + sz <= fd_size fd ->
  sz <= i + PGSIZE * Z.of_nat n -> (forall a, a mod PGSIZE = 0 -> addr <= a < addr + sz -> is_Some (um !! a)) ->
  exists fd' k', loaduvm_loop junk n root addr i offset sz fd k = Ret (0, fd', k') /\
    aspace (frames (kvm k')) sh root um /\ fd_file (kfs k') fd' dat cap /\ fd_size fd' = fd_size fd /\ fd_read_ok fd' = true /\ same_procs k k' /\
    user_bytes (frames (kvm k')) um (addr + i) (slice (offset + i) (sz - i) dat) /\
    user_changed (frames (kvm k)) (frames (kvm k')) um (addr + i) (Z.max 0 (sz - i)).
Proof.
  induction n as [|n IH]; intros i addr offset sz fd k dat cap Has Hff Hr Hal Hi Hi0 Ha Hk Ho Hin Hn Hm; cbn [loaduvm_loop];
    (destruct (Z.ltb_spec i sz) as [Hlt|Hge]; cbn [negb]; [|exists fd, k; rewrite (slice_none _ (sz - i)) by lia;
      split; [done|]; split_and!; try done; by apply user_bytes_nil]); [plia|].
  pose proof Hff as (Hu & Hd & _ & Hs & Hds & _).
  rewrite u32_small by (unfold is_u32, KERNBASE in *; lia). rewrite (walk_ok junk (kvm k) sh) by apply Has. cbn [obind].
  assert (Hala : (addr + i) mod PGSIZE = 0) by (unfold PGSIZE in *; Z.div_mod_to_equations; lia).
  destruct (Hm (addr + i) Hala ltac:(lia)) as [[p fl] El]. pose proof (PTX_range (addr + i)).
  destruct (as_page _ _ _ _ Has _ _ _ El) as (_ & _ & Hok & Hfl & Hb & _ & page & Ep & Lp).
  destruct (user_entry _ _ _ _ _ _ _ Has El) as (t & tp & Et & Hokt & _ & _ & _ & Ee). rewrite Et, entry_addr_nonzero by done.
  rewrite read_entry, Ee by done. cbn [of_option obind]. destruct (mk_pte_ok p fl Hok Hfl Hb) as (_ & _ & -> & _ & _).
  destruct (V2P_frame p Hok) as (Hu32 & _ & _ & Epv). rewrite (u32_small (V2P p)), Epv by done.
  set (m := if sz - i <? PGSIZE then sz - i else PGSIZE).
  assert (Hmm : 0 < m <= PGSIZE /\ m <= sz - i /\ (m = PGSIZE \/ m = sz - i)) by (unfold m; destruct (Z.ltb_spec (sz - i) PGSIZE); plia).
  rewrite (u32_small (offset + i)) by (unfold is_u32; lia). unfold vfs_fd_seek. rewrite Hu, Hd. cbn [negb].
  destruct (Z.leb_spec (fd_size fd) (offset + i)); [lia|]. rewrite s32_small by lia. destruct (Z.ltb_spec (offset + i) 0); [lia|].
  set (fd1 := with_offset fd (offset + i) (fd_size fd)).
  assert (Hff1 : fd_file (kfs (with_vm k (kvm k))) fd1 dat cap).
  { destruct Hff as (_ & _ & _ & _ & _ & ?). unfold fd_file, fd1. cbn [with_offset fd_used fd_dir fd_offset fd_size fd_fs_id fd_block with_vm kfs]. split_and!; done || lia. }
  unfold read_frame. cbn [with_vm kvm kfs]. rewrite Ep. cbn [of_option obind].
  destruct (fd_read_splice fd1 page m (kfs k) dat cap Hff1) as (w' & -> & Hff2); [done|lia|cbn [fd1 with_offset fd_offset fd_size]; lia|].
  cbn [obind]. destruct (Z.ltb_spec m 0); [lia|]. change (fd_offset fd1) with (offset + i).
  assert (Hsl : zlen (slice (offset + i) m dat) = m) by (apply slice_length; lia).
  destruct (user_page_write sh root um (frames (kvm k)) (addr + i) p fl page 0 (slice (offset + i) m dat) Has El Ep) as (Has1 & Hb1 & Hc1);
    [lia|rewrite Hsl; lia|]. rewrite Z.add_0_r, ?Hsl in *.
  set (k1 := with_vm _ _). rewrite u32_small by (unfold is_u32, PGSIZE in *; lia).
  destruct (IH (i + PGSIZE) addr offset sz (with_offset fd1 (offset + i + m) (fd_size fd1)) k1 dat cap) as (fd' & k' & -> & V1 & V2 & V3 & V4 & V5 & V6 & V7);
    [done|done|done|done|unfold PGSIZE in *; Z.div_mod_to_equations; lia|plia|lia|lia|lia|cbn [fd1 with_offset fd_size]; lia|plia|done|].
  exists fd', k'. split; [done|]. split_and!; try done.
  - intros j b Hj. pose proof (zget_Some _ _ _ Hj) as Hjr. rewrite slice_length in Hjr by lia.
    assert (Hsplit : slice (offset + i) (sz - i) dat = slice (offset + i) m dat ++ slice (offset + i + m) (sz - i - m) dat).
    { replace (sz - i) with (m + (sz - i - m)) at 1 by lia. rewrite <- slice_app by lia. done. }
    rewrite Hsplit in Hj. apply zget_lookup in Hj as [_ Hj]. destruct (Z.lt_ge_cases j m).
    + rewrite (uc_other _ _ _ _ _ V7) by lia. apply Hb1. apply zget_lookup. split; [lia|].
      by rewrite lookup_app_l in Hj by (unfold zlen in Hsl; lia).
    + rewrite lookup_app_r in Hj by (unfold zlen in Hsl; lia). assert (m = PGSIZE) as -> by lia.
      replace (addr + i + j) with (addr + (i + PGSIZE) + (j - PGSIZE)) by lia. apply V6. apply zget_lookup. split; [lia|].
      rewrite <- Hj. replace (offset + (i + PGSIZE)) with (offset + i + PGSIZE) by lia. replace (sz - (i + PGSIZE)) with (sz - i - PGSIZE) by lia.
      f_equal. unfold zlen in Hsl. lia.
  - destruct Hc1 as [C1 C2 C3], V7 as [D1 D2 D3]. constructor.
    + intros vb Hvb. rewrite D1 by lia. apply C1. lia.
    + intros q Hq. rewrite D2 by done. by apply C2.
    + auto.
Qed.

(** C16: loading a segment.  When the pages of the segment are mapped and its
    bytes are inside the file, [loaduvm] returns 0, user memory holds exactly
    those bytes of the file from the segment's address on, and no other byte of
    the address space, no other frame and no process changes. *)
Theorem loaduvm_correct addr offset sz fd (k : state) dat cap :
  aspace (frames (kvm k)) sh root um -> fd_file (kfs k) fd dat cap -> fd_read_ok fd = true ->
  addr mod PGSIZE = 0 -> 0 <= addr -> 0 <= sz -> addr + sz <= KERNBASE -> 0 <= offset -> offset + sz <= fd_size fd ->
  (forall a, a mod PGSIZE = 0 -> addr <= a < addr + sz -> is_Some (um !! a)) ->
  exists fd' k', loaduvm junk root addr fd offset sz k = Ret (0, fd', k') /\
    aspace (frames (kvm k')) sh root um /\ fd_file (kfs k') fd' dat cap /\ same_procs k k' /\
    user_bytes (frames (kvm k')) um addr (slice offset sz dat) /\
    user_changed (frames (kvm k)) (frames (kvm k')) um addr sz.
Proof.
  intros Has Hff Hr Hal Ha Hsz Hk Ho Hin Hm. unfold loaduvm. rewrite (u32_small addr) by (unfold is_u32, KERNBASE in *; lia). rewrite Hal. cbn [negb Z.eqb].
  pose proof (Z.div_pos sz PGSIZE ltac:(lia) ltac:(done)).
  destruct (loaduvm_loop_ok (Z.to_nat (sz / PGSIZE + 1)) 0 addr offset sz fd k dat cap) as (fd' & k' & -> & V1 & V2 & _ & _ & V5 & V6 & V7);
    try done; try lia.
  { unfold PGSIZE in *. Z.div_mod_to_equations. lia. }
  rewrite !Z.add_0_r, Z.sub_0_r, ?Z.max_r in * by lia. by exists fd', k'.
Qed.
End segments.

(** ** The first stack *)

(** Room for the argument strings, each with its terminator and rounded. *)
Definition args_room (ws : list (list Z)) : Z := foldr (fun w n => zlen w + 4 + n) 0 ws.

Lemma args_room_nonneg ws : 0 <= args_room ws.
Proof. induction ws as [|w ws IH]; [done|]. cbn [args_room foldr]. fold (args_room ws). pose proof (zlen_nonneg w). lia. Qed.

Definition no_nul (w : list Z) : Prop := Forall (fun c => c <> 0) w.

Lemma strlen_nul w : no_nul w -> strlen (w ++ [0]) = Some (zlen w).
Proof.
  induction 1 as [|c w Hc _ IH]; [done|]. cbn [app strlen]. destruct (Z.eqb_spec c 0); [done|]. rewrite IH.
  f_equal. unfold zlen. cbn [length]. lia.
Qed.

(** Clearing the two lowest bits. *)
Lemma land_align x : 0 <= x -> Z.land x (Z.lnot 3) = x - x mod 4.
Proof.
  intros Hx. change 3 with (Z.ones 2). rewrite <- Z.ldiff_land, Z.ldiff_ones_r by lia.
  rewrite Z.shiftl_mul_pow2, Z.shiftr_div_pow2 by lia. change (2 ^ 2) with 4. pose proof (Z.div_mod x 4). lia.
Qed.

Section stack.
Context {A : Type} `{PageAllocator A}.
Variable junk : list Z.
Context (sh : gmap Z role) (root : Z) (um : user_map).
(** The lowest address of the stack. *)
Variable lo : Z.

(** Argument [w] is at [ptr], between the given addresses. *)
Definition arg_at (f : page_frames) (bot top ptr : Z) (w : list Z) : Prop :=
  user_bytes f um ptr (w ++ [0]) /\ bot <= ptr /\ ptr + zlen w + 1 <= top.

Lemma user_bytes_kept f f' va n a bs : user_bytes f um a bs -> user_changed f f' um va n ->
  a + zlen bs <= va \/ va + n <= a -> user_bytes f' um a bs.
Proof. intros Hb Hc Hd i b Hi. pose proof (zget_Some _ _ _ Hi). rewrite (uc_other _ _ _ _ _ Hc) by lia. by apply Hb. Qed.

Lemma user_changed_trans f f1 f' va n vb m : user_changed f f1 um va n -> user_changed f1 f' um vb m -> vb + m = va ->
  0 <= n -> 0 <= m -> user_changed f f' um vb (m + n).
Proof.
  intros [C1 C2 C3] [D1 D2 D3] E Hn Hm. constructor.
  - intros a Ha. rewrite D1 by lia. apply C1. lia.
  - intros q Hq. rewrite D2 by done. by apply C2.
  - auto.
Qed.

Lemma push_args_ok ws : forall argc sp us (v : vm A), aspace (frames v) sh root um -> user_pages um lo (PROC_STACK_BOTTOM - lo) ->
  0 <= lo -> sp <= PROC_STACK_BOTTOM -> lo + args_room ws <= sp -> sp mod 4 = 0 -> Forall no_nul ws ->
  0 <= argc -> argc + zlen ws <= 31 -> zlen us = 36 ->
  exists sp' us' f' ptrs, push_args junk (map (fun w => w ++ [0]) ws) root argc sp us v = Ret (Some (argc + zlen ws, sp', us'), with_frames v f') /\
    aspace f' sh root um /\ sp' mod 4 = 0 /\ sp - args_room ws <= sp' <= sp /\ zlen us' = 36 /\
    (forall i, i < 5 + argc -> zget us' i = zget us i) /\ (forall i p, zget ptrs i = Some p -> zget us' (5 + argc + i) = Some p) /\
    Forall2 (arg_at f' sp' sp) ptrs ws /\ user_changed (frames v) f' um sp' (sp - sp').
Proof.
  induction ws as [|w ws IH]; intros argc sp us v Has Hpg Hlo Htop Hroom Hal Hnul Hargc Hmax Hus.
  { exists sp, us, (frames v), []. cbn [map push_args]. change (zlen (@nil (list Z))) with 0. rewrite Z.add_0_r, Z.sub_diag.
    split; [by destruct v|]. cbn in *. split_and!; try done; try lia. intros i p Hi. apply zget_Some in Hi. change (zlen (@nil Z)) with 0 in Hi. lia. }
  inversion_clear Hnul as [|? ? Hw Hws]. assert (Hz : zlen (w :: ws) = zlen ws + 1) by (unfold zlen; cbn [length]; lia).
  pose proof (zlen_nonneg w). pose proof (zlen_nonneg ws). cbn [args_room foldr] in Hroom. fold (args_room ws) in Hroom.
  pose proof (args_room_nonneg ws).
  cbn [map push_args]. unfold MAXARG. destruct (Z.leb_spec 32 argc); [lia|]. rewrite strlen_nul by done. cbn [of_option obind].
  rewrite u32_small by (unfold is_u32, PROC_STACK_BOTTOM in *; lia). rewrite land_align by lia.
  set (x := sp - (zlen w + 1)). pose proof (Z.mod_pos_bound x 4 ltac:(lia)) as Hm. set (sp1 := x - x mod 4).
  assert (Hs1 : sp - (zlen w + 4) <= sp1 /\ sp1 + zlen w + 1 <= sp) by (assert (x = sp - (zlen w + 1)) by done; assert (sp1 = x - x mod 4) by done; lia).
  assert (Hal1 : sp1 mod 4 = 0) by (assert (sp1 = x - x mod 4) as -> by done; Z.div_mod_to_equations; lia).
  clearbody sp1. assert (Hlen : zlen (w ++ [0]) = zlen w + 1) by (rewrite zlen_app; done).
  destruct (copyout_ok junk sh root um v sp1 (w ++ [0]) (zlen w + 1) Has) as (f1 & -> & Has1 & Hb1 & Hc1); [lia| |].
  { destruct Hpg as (P1 & P2 & P3). split; [lia|]. split; [lia|]. intros a Ha. apply P3. lia. }
  replace (slice 0 (zlen w + 1) (w ++ [0])) with (w ++ [0]) in Hb1 by (rewrite <- Hlen; symmetry; apply slice_all).
  cbn [obind]. change (0 <? 0) with false. cbn iota. rewrite zset_Some by lia. cbn [of_option obind].
  destruct (IH (argc + 1) sp1 (<[Z.to_nat (5 + argc) := sp1]> us) (with_frames v f1)) as (sp' & us' & f' & ptrs & -> & R1 & R2 & R3 & R4 & R5 & R6 & R7 & R8);
    [done|done|lia|lia|lia|done|done|lia|lia|by rewrite zlen_insert|].
  exists sp', us', f', (sp1 :: ptrs). rewrite Hz. split; [by replace (argc + (zlen ws + 1)) with (argc + 1 + zlen ws) by lia|].
  cbn [args_room foldr]. fold (args_room ws). split_and!; try done; try lia.
  - intros i Hi. rewrite R5 by lia. apply zget_insert_ne; lia.
  - intros i p Hi. pose proof (zget_Some _ _ _ Hi). destruct (Z.eq_dec i 0) as [->|Hne].
    + change (Some sp1 = Some p) in Hi. rewrite R5 by lia. rewrite Z.add_0_r, zget_insert_eq by lia. done.
    + replace (5 + argc + i) with (5 + (argc + 1) + (i - 1)) by lia. apply R6. apply zget_lookup in Hi as [Hi0 Hi]. apply zget_lookup. split; [lia|].
      by replace (Z.to_nat i) with (Datatypes.S (Z.to_nat (i - 1))) in Hi by lia.
  - constructor.
    + split; [|lia]. eapply user_bytes_kept; [exact Hb1|exact R8|]. right. lia.
    + eapply Forall2_impl; [exact R7|]. intros p w' (Q1 & Q2 & Q3). split; [done|lia].
  - replace (sp - sp') with ((sp1 - sp') + (sp - sp1)) by lia. apply (user_changed_trans _ f1 _ sp1 (sp - sp1) sp' (sp1 - sp')); [|exact R8|lia..].
    destruct Hc1 as [C1 C2 C3]. constructor; [|done|done]. intros vb Hvb. apply C1. lia.
Qed.

Lemma stack_head_ok argc sp interp us : 0 <= argc <= 30 -> zlen us = 36 ->
  exists us1, stack_head argc sp interp us = Ret us1 /\ zlen us1 = 36 /\
    take (Z.to_nat (6 + argc)) us1 = [0xffffffff; argc; u32 (sp - (argc + 1) * 4); 0; interp] ++ slice 5 argc us ++ [0].
Proof.
  intros Ha Hu. destruct us as [|a0 [|a1 [|a2 [|a3 [|a4 r]]]]]; try (unfold zlen in Hu; cbn [length] in Hu; lia).
  assert (Hr : length r = 31%nat) by (unfold zlen in Hu; cbn [length] in Hu; lia).
  unfold stack_head. do 6 (rewrite zset_Some by (rewrite ?zlen_insert; lia); cbn [of_option obind]).
  exists (0xffffffff :: argc :: u32 (sp - (argc + 1) * 4) :: 0 :: interp :: <[Z.to_nat argc := 0]> r).
  replace (Z.to_nat (5 + argc)) with (5 + Z.to_nat argc)%nat by lia.
  split; [reflexivity|]. split; [unfold zlen; cbn [length]; rewrite length_insert; lia|].
  replace (Z.to_nat (6 + argc)) with (5 + Datatypes.S (Z.to_nat argc))%nat by lia. cbn [take Nat.add app]. do 5 f_equal.
  unfold slice. change (drop (Z.to_nat 5) (a0 :: a1 :: a2 :: a3 :: a4 :: r)) with r.
  rewrite (take_S_r _ _ 0); [|apply list_lookup_insert_eq; lia]. f_equal. by rewrite take_insert_ge by lia.
Qed.

Lemma slice_from_zget (ps us : list Z) off : 0 <= off -> (forall i p, zget ps i = Some p -> zget us (off + i) = Some p) ->
  slice off (zlen ps) us = ps.
Proof.
  intros Ho Hg. apply list_eq. intros i. unfold slice. destruct (ps !! i) as [p|] eqn:E.
  - assert (Hi : (i < length ps)%nat) by (by eapply lookup_lt_Some). rewrite lookup_take_lt, lookup_drop by (unfold zlen; lia).
    assert (Hi' : zget ps (Z.of_nat i) = Some p) by (apply zget_lookup; rewrite Nat2Z.id; split; [lia|done]).
    apply Hg, zget_lookup in Hi' as [_ Hu].
    rewrite <- Hu. f_equal. lia.
  - apply lookup_take_ge. apply lookup_ge_None in E. unfold zlen. lia.
Qed.

Lemma words_prefix n : forall l : list Z, (n <= length l)%nat ->
  slice 0 (4 * Z.of_nat n) (flat_map (le_bytes 4) l) = flat_map (le_bytes 4) (take n l).
Proof.
  unfold slice. intros l. rewrite drop_0. revert l. induction n as [|n IH]; intros l Hl; [done|].
  destruct l as [|w l]; cbn [length] in Hl; [lia|]. cbn [flat_map take].
  rewrite take_app_ge by (rewrite le_bytes_length; lia). f_equal. rewrite le_bytes_length.
  replace (Z.to_nat (4 * Z.of_nat (Datatypes.S n)) - 4)%nat with (Z.to_nat (4 * Z.of_nat n)) by lia. apply IH. lia.
Qed.

Lemma words_zlen (l : list Z) : zlen (flat_map (le_bytes 4) l) = 4 * zlen l.
Proof. induction l as [|w l IH]; [done|]. cbn [flat_map]. rewrite zlen_app, IH. unfold zlen. rewrite le_bytes_length. cbn [length]. lia. Qed.

(** C15: the first stack of a program.  With at most 30 arguments (31 overrun the
    array of the words: [exec_31_args_overflow]) that fit the page mapped for the
    stack, [exec] leaves there what the C start-up code expects: at the
    stack pointer a fake return address, the count, the address of the argument
    vector, no environment and the interpreter; then the vector, whose entries
    point to the argument strings in order, ended by a null pointer.  Nothing
    else in the address space changes. *)
Theorem exec_stack_correct (ws : list (list Z)) interp us (v : vm A) :
  aspace (frames v) sh root um -> 0 <= lo -> user_pages um lo (PROC_STACK_BOTTOM - lo) -> Forall no_nul ws ->
  zlen ws <= 30 -> lo + args_room ws + 4 * (6 + zlen ws) <= PROC_STACK_BOTTOM -> zlen us = 36 ->
  exists sp f' ptrs, exec_stack junk (map (fun w => w ++ [0]) ws) root interp us v = Ret (Some sp, with_frames v f') /\
    aspace f' sh root um /\ sp mod 4 = 0 /\ lo <= sp /\
    user_bytes f' um sp (flat_map (le_bytes 4) ([0xffffffff; zlen ws; sp + 20; 0; interp] ++ ptrs ++ [0])) /\
    Forall2 (arg_at f' (sp + 4 * (6 + zlen ws)) PROC_STACK_BOTTOM) ptrs ws /\
    user_changed (frames v) f' um sp (PROC_STACK_BOTTOM - sp).
Proof.
  intros Has Hlo Hpg Hnul Hmax Hroom Hus. pose proof (zlen_nonneg ws). unfold exec_stack.
  destruct (push_args_ok ws 0 PROC_STACK_BOTTOM us v) as (sp & us' & f1 & ptrs & -> & R1 & R2 & R3 & R4 & R5 & R6 & R7 & R8); try done; try lia.
  cbn [obind]. destruct (stack_head_ok (zlen ws) sp interp us') as (us1 & E1 & L1 & T1); [lia|done|].
  change (0 + zlen ws) with (zlen ws). rewrite E1. cbn [obind].
  assert (Hp : zlen ptrs = zlen ws) by (unfold zlen; f_equal; by eapply Forall2_length).
  rewrite <- Hp, slice_from_zget in T1 by (done || lia). rewrite Hp in T1.
  set (n := 6 + zlen ws) in *. replace ((5 + zlen ws + 1) * 4) with (4 * n) by lia.
  assert (Hsp : u32 (sp - 4 * n) = sp - 4 * n) by (apply u32_small; unfold is_u32, PROC_STACK_BOTTOM in *; lia). rewrite Hsp.
  assert (Hn : n <= zlen us1) by lia.
  destruct (copyout_ok junk sh root um (with_frames v f1) (sp - 4 * n) (flat_map (le_bytes 4) us1) (4 * n) R1) as (f' & -> & Q1 & Q2 & Q3).
  { rewrite words_zlen. lia. }
  { destruct Hpg as (P1 & P2 & P3). split; [lia|]. split; [lia|]. intros a Ha. apply P3. lia. }
  cbn [obind]. change (0 <? 0) with false. cbn iota. exists (sp - 4 * n), f', ptrs. split; [done|]. split; [done|].
  split; [Z.div_mod_to_equations; lia|]. split; [lia|]. split; [|split].
  - replace (4 * n) with (4 * Z.of_nat (Z.to_nat n)) in Q2 at 2 by lia. rewrite words_prefix, T1 in Q2 by (unfold zlen in *; lia).
    replace (sp - 4 * n + 20) with (u32 (sp - (zlen ws + 1) * 4)); [done|].
    rewrite u32_small; unfold is_u32, PROC_STACK_BOTTOM in *; lia.
  - eapply Forall2_impl; [exact R7|]. intros p w (B1 & B2 & B3). split; [|lia]. eapply user_bytes_kept; [exact B1|exact Q3|]. right. lia.
  - replace (PROC_STACK_BOTTOM - (sp - 4 * n)) with (4 * n + (PROC_STACK_BOTTOM - sp)) by lia.
    apply (user_changed_trans _ f1 _ sp _ _ (4 * n)); [exact R8|exact Q3|lia..].
Qed.

(** thirty-one arguments are one too many.  [sys_exec] passes on up to
    thirty-one argument strings, but the array in which [exec] prepares the
    stack has room for five words, thirty pointers and the null pointer: with
    thirty-one arguments that fit the stack, all strings are pushed and then the
    null pointer is stored behind the end of the array ([Fault]). *)
Theorem exec_31_args_overflow (ws : list (list Z)) interp us (v : vm A) :
  aspace (frames v) sh root um -> 0 <= lo -> user_pages um lo (PROC_STACK_BOTTOM - lo) -> Forall no_nul ws ->
  zlen ws = 31 -> lo + args_room ws <= PROC_STACK_BOTTOM -> zlen us = 36 ->
  exec_stack junk (map (fun w => w ++ [0]) ws) root interp us v = Fault.
Proof.
  intros Has Hlo Hpg Hnul Hn Hroom Hus. unfold exec_stack.
  destruct (push_args_ok ws 0 PROC_STACK_BOTTOM us v) as (sp & us' & f1 & ptrs & -> & _ & _ & _ & R4 & _); try done; try lia.
  cbn [obind]. rewrite Hn. unfold stack_head, zset. unfold zlen in R4. change (5 + (0 + 31)) with 36.
  by rewrite R4.
Qed.

End stack.

#[local] Existing Instance ex_allocator.

(** A program with two arguments. *)
Lemma exec_stack_correct_witness : exists v sh um sp f' ptrs,
  exec_stack ex_junk_frame (map (fun w => w ++ [0]) [[108; 115]; [45; 108]]) 0x80200000 0 (repeat 0 36) v = Ret (Some sp, with_frames v f') /\
  aspace f' sh 0x80200000 um /\ sp mod 4 = 0 /\ PROC_STACK_BOTTOM - PGSIZE <= sp /\
  user_bytes f' um sp (flat_map (le_bytes 4) ([0xffffffff; 2; sp + 20; 0; 0] ++ ptrs ++ [0])) /\
  Forall2 (arg_at um f' (sp + 4 * (6 + 2)) PROC_STACK_BOTTOM) ptrs [[108; 115]; [45; 108]] /\
  user_changed (frames v) f' um sp (PROC_STACK_BOTTOM - sp).
Proof.
  destruct ex_stack_page as (v & sh & um & n & Has & _ & _ & Hpg & _).
  destruct (exec_stack_correct ex_junk_frame sh 0x80200000 um (PROC_STACK_BOTTOM - PGSIZE) [[108; 115]; [45; 108]] 0 (repeat 0 36) v)
    as (sp & f' & ptrs & H'); [done|by vm_compute|exact Hpg|repeat constructor; done|by vm_compute|by vm_compute|by vm_compute|].
  exists v, sh, um, sp, f', ptrs. exact H'.
Defined.

Lemma exec_31_args_overflow_witness : exists v,
  exec_stack ex_junk_frame (map (fun w => w ++ [0]) (repeat [97] 31)) 0x80200000 0 (repeat 0 36) v = Fault.
Proof.
  destruct ex_stack_page as (v & sh & um & n & Has & _ & _ & Hpg & _). exists v.
  apply (exec_31_args_overflow ex_junk_frame sh 0x80200000 um (PROC_STACK_BOTTOM - PGSIZE) (repeat [97] 31) 0 (repeat 0 36) v);
    [done|by vm_compute|exact Hpg|repeat constructor; done|by vm_compute|by vm_compute|by vm_compute].
Defined.

#[local] Existing Instance ex_driver.
#[local] Existing Instance ex_driver_laws.

(** Six hundred bytes of a file in two clusters, loaded to the stack page. *)
Lemma loaduvm_correct_witness : exists v sh um fd' k' dat,
  loaduvm ex_junk_frame 0x80200000 (PROC_STACK_BOTTOM - PGSIZE) (ex_fd 0) 100 600 (Kernel [] false 0 0 v ex_vfs) = Ret (0, fd', k') /\
  aspace (frames (kvm k')) sh 0x80200000 um /\ fd_file (kfs k') fd' dat 2560 /\ same_procs (Kernel [] false 0 0 v ex_vfs) k' /\
  user_bytes (frames (kvm k')) um (PROC_STACK_BOTTOM - PGSIZE) (slice 100 600 dat) /\
  user_changed (frames v) (frames (kvm k')) um (PROC_STACK_BOTTOM - PGSIZE) 600.
Proof.
  destruct ex_stack_page as (v & sh & um & n & Has & _ & _ & (_ & _ & Hpg) & _).
  destruct (loaduvm_correct ex_junk_frame sh 0x80200000 um (PROC_STACK_BOTTOM - PGSIZE) 100 600 (ex_fd 0) (Kernel [] false 0 0 v ex_vfs) _ _ Has
    (ex_fd_file 0 ltac:(done))) as (fd' & k' & H'); [reflexivity|reflexivity|by vm_compute|lia|by vm_compute|lia|by vm_compute| |].
  - intros a Hal Ha. destruct (Hpg a) as (p & fl & E & _); [unfold PGSIZE in *; lia|]. rewrite PGROUNDDOWN_id in E by done. eauto.
  - eexists v, sh, um, fd', k', _. exact H'.
Defined.

