(* ===== verification/Console.v ===== *)
(** kernel/core/console.c: the console.

    Output goes to the serial port, to the debug port and to the screen, which
    is the text buffer of a VGA adapter or a framebuffer.  Input is edited a
    line at a time: characters typed are in the part of a ring of 128 bytes
    between the indices [w] and [e] until the line is finished, and a reader
    takes them from [r] to [w].  [sleep] cuts [consoleread] into stretches; a
    stretch that sleeps returns what is left to read.

    The theorems: the console refines a line editor on two lists; printed
    numbers read back as the number; formatted output is type safe and keeps the
    cursor on the screen.  A negative number prints as an unsigned one, and scrolling the
    framebuffer reads past its end. *)

From stdpp Require Import base list gmap strings.
From Stdlib Require Import ZArith Lia.
From S2P Require Import Prelude Mmu Vfs Vm Proc.

Local Open Scope Z_scope.
Local Open Scope outcome_scope.

Definition INPUT_BUF : Z := 128.
Definition BACKSPACE : Z := 0x100.
Definition CRTPORT : Z := 0x3d4.
Definition DEBUGCON_ADDR : Z := 0xe9.
Definition WHITE : Z := 0xffffff.
Definition BLACK : Z := 0.

Inductive cons_mode := CONS_VGA | CONS_FB.

Record input := Input { ibuf : list Z; ir : Z; iw : Z; ie : Z }.

(** The text buffer and its cursor; the framebuffer, its size and its cursor. *)
Record screen := Screen {
  crt : list Z; pos : Z;
  fb : list Z; width : Z; height : Z; xpos : Z; ypos : Z
}.

(** [cons], the static variables of the output functions, [input], the I/O port
    of the serial line if there is one, and the port writes made so far. *)
Record console := Cons {
  cons_lock : bool; cons_locking : bool; mode : cons_mode; panicked : bool;
  scr : screen; inp : input; uart : option Z; ports : list (Z * Z)
}.

Definition set_screen (st : console) (s : screen) : console :=
  Cons (cons_lock st) (cons_locking st) (mode st) (panicked st) s (inp st) (uart st) (ports st).
Definition set_inp (st : console) (i : input) : console :=
  Cons (cons_lock st) (cons_locking st) (mode st) (panicked st) (scr st) i (uart st) (ports st).
Definition set_cons_lock (st : console) (l : bool) : console :=
  Cons l (cons_locking st) (mode st) (panicked st) (scr st) (inp st) (uart st) (ports st).
Definition set_crt (s : screen) (c : list Z) (p : Z) : screen := Screen c p (fb s) (width s) (height s) (xpos s) (ypos s).
Definition set_fb (s : screen) (f : list Z) (x y : Z) : screen := Screen (crt s) (pos s) f (width s) (height s) x y.

Definition outb (port v : Z) (st : console) : console :=
  Cons (cons_lock st) (cons_locking st) (mode st) (panicked st) (scr st) (inp st) (uart st) (ports st ++ [(port, u8 v)]).

Definition uart_putc (c : Z) (st : console) : console :=
  match uart st with
  | None => st
  | Some iobase => outb iobase c st
  end.

(** ** Text screen *)

Definition cgaputc (c : Z) (st : console) : outcome console :=
  let s := scr st in
  '(t, p) <- (if c =? 10 then Ret (crt s, pos s + (80 - Z.rem (pos s) 80))
              else if c =? BACKSPACE then Ret (crt s, if 0 <? pos s then pos s - 1 else pos s)
              else t <- of_option (zset (crt s) (pos s) (Z.lor (Z.land c 0xff) 0x0700)) ;; Ret (t, pos s + 1)) ;;
  if (p <? 0) || (25 * 80 <? p) then Panic "pos under/overflow" else
  '(t1, p1) <- (if 24 <=? Z.quot p 80 then
                  rows <- copy_from t 80 (23 * 80) ;;
                  t1 <- copy_into t 0 rows ;;
                  let p1 := p - 80 in
                  t2 <- copy_into t1 p1 (repeat 0 (Z.to_nat (24 * 80 - p1))) ;;
                  Ret (t2, p1)
                else Ret (t, p)) ;;
  let st1 := outb (CRTPORT + 1) p1 (outb CRTPORT 15 (outb (CRTPORT + 1) (Z.shiftr p1 8) (outb CRTPORT 14 st))) in
  t2 <- of_option (zset t1 p1 (Z.lor 32 0x0700)) ;;
  Ret (set_screen st1 (set_crt s t2 p1)).

(** ** Framebuffer *)

Section framebuffer.
(** [font16] of font.h: sixteen rows for each character. *)
Variable font16 : list Z.

(** The eight pixels of a row of the font. *)
Definition row_pixels (bits : Z) : list Z :=
  map (fun k => if Z.testbit bits (7 - k) then WHITE else BLACK) (seqZ 0 8).

Fixpoint drawchar_loop (rows : list Z) (x y c w : Z) (f : list Z) : outcome (list Z) :=
  match rows with
  | [] => Ret f
  | i :: rows' =>
    bits <- of_option (zget font16 (c * 16 + i)) ;;
    f' <- copy_into f (u32 ((y + i) * w) + x) (row_pixels bits) ;;
    drawchar_loop rows' x y c w f'
  end.

(** The character is a signed [char]. *)
Definition fbcon_drawchar (x y c : Z) (s : screen) : outcome screen :=
  f <- drawchar_loop (seqZ 0 16) x y (s8 c) (width s) (fb s) ;;
  Ret (set_fb s f (xpos s) (ypos s)).

Definition fastmemcpy32 (f : list Z) (dest src cnt : Z) : outcome (list Z) :=
  ws <- copy_from f src cnt ;; copy_into f dest ws.

Fixpoint fb_scroll (lines : list Z) (w : Z) (f : list Z) : outcome (list Z) :=
  match lines with
  | [] => Ret f
  | i :: lines' =>
    f' <- fastmemcpy32 f (u32 (i * w * 16)) (u32 ((i + 1) * w * 16)) (u32 (w * 16)) ;;
    fb_scroll lines' w f'
  end.

(** The next line, scrolling at the bottom. *)
Definition fb_newline (s : screen) : outcome screen :=
  let y := u32 (ypos s + 1) in
  if height s / 16 <=? y then
    f <- fb_scroll (seqZ 0 (height s / 16)) (width s) (fb s) ;;
    Ret (set_fb s f 0 (u32 (y - 1)))
  else Ret (set_fb s (fb s) 0 y).

Definition fb_putc (c : Z) (s : screen) : outcome screen :=
  s1 <- fbcon_drawchar (u32 (xpos s * 8)) (u32 (ypos s * 16)) (if (c =? 10) || (c =? BACKSPACE) then 32 else c) s ;;
  s2 <- (if c =? 10 then fb_newline s1
         else if c =? BACKSPACE then
           Ret (if xpos s1 =? 0 then set_fb s1 (fb s1) (u32 (width s1 / 8 - 1)) (u32 (ypos s1 - 1))
                else set_fb s1 (fb s1) (xpos s1 - 1) (ypos s1))
         else Ret (set_fb s1 (fb s1) (u32 (xpos s1 + 1)) (ypos s1))) ;;
  s3 <- (if width s2 <? u32 (xpos s2 * 8 + 8) then fb_newline s2 else Ret s2) ;;
  fbcon_drawchar (u32 (xpos s3 * 8)) (u32 (ypos s3 * 16)) 95 s3.

(** ** Writing a character *)

(** After a panic another CPU spins here. *)
Definition consputc (c : Z) (st : console) : outcome console :=
  if panicked st then NoFuel else
  let st1 := if c =? BACKSPACE then uart_putc 8 (uart_putc 32 (uart_putc 8 st)) else uart_putc c st in
  st2 <- match mode st1 with
         | CONS_VGA => cgaputc c st1
         | CONS_FB => s <- fb_putc c (scr st1) ;; Ret (set_screen st1 s)
         end ;;
  Ret (outb DEBUGCON_ADDR c st2).

Fixpoint putchars (cs : list Z) (st : console) : outcome console :=
  match cs with
  | [] => Ret st
  | c :: cs' => st' <- consputc c st ;; putchars cs' st'
  end.

(** ** Formatting *)

Definition digits (cpt : bool) : list Z :=
  [48; 49; 50; 51; 52; 53; 54; 55; 56; 57] ++ map (fun i => (if cpt then 65 else 97) + i) (seqZ 0 6).

(** The digits of [x], last first, into a buffer with [room] places left. *)
Fixpoint digit_loop (room : nat) (x base : Z) (cpt : bool) : outcome (list Z) :=
  match room with
  | O => Fault
  | Datatypes.S room' =>
    d <- of_option (zget (digits cpt) (x mod base)) ;;
    if x / base =? 0 then Ret [d] else
    ds <- digit_loop room' (x / base) base cpt ;; Ret (d :: ds)
  end.

(** The characters [printint] writes; [xx] is unsigned. *)
Definition printint (xx base : Z) (sgn cpt : bool) : outcome (list Z) :=
  let neg := sgn && (xx <? 0) in
  let x := if neg then u64 (- xx) else xx in
  ds <- digit_loop 64 x base cpt ;;
  ds' <- (if neg then if (length ds <? 64)%nat then Ret (ds ++ [45]) else Fault else Ret ds) ;;
  Ret (rev ds').

(** Arguments: a 32-bit word ([int], [long] or a pointer), a [long long], a string. *)
Inductive vararg := VWord (x : Z) | VLong (x : Z) | VStr (s : option (list Z)).

(** The position in a conversion: none, after a percent sign, one or two [l]. *)
Inductive fstate := FPlain | FPercent | Fl | FL.

Definition null_string : list Z := [40; 110; 117; 108; 108; 41; 0].

Fixpoint string_chars (s : list Z) : outcome (list Z) :=
  match s with
  | [] => Fault
  | c :: s' => if c =? 0 then Ret [] else cs <- string_chars s' ;; Ret (c :: cs)
  end.

(** How the number of a conversion prints: base, signedness, capitals. *)
Definition conversion (c : Z) : option (Z * bool * bool) :=
  if (c =? 100) || (c =? 105) then Some (10, true, false)
  else if c =? 120 then Some (16, false, false)
  else if c =? 88 then Some (16, false, true)
  else if c =? 117 then Some (10, false, false)
  else None.

(** A word argument becomes [unsigned long long] with its sign if the conversion has one. *)
Definition word_value (x : Z) (sgn : bool) : Z := if sgn then u64 (s32 x) else u32 x.

(** What [cprintf] prints. *)
Fixpoint format (fmt : list Z) (st : fstate) (args : list vararg) : outcome (list Z) :=
  match fmt with
  | [] => Fault
  | c :: fmt' =>
    if c =? 0 then Ret [] else
    match st with
    | FPlain =>
      if c =? 37 then format fmt' FPercent args else cs <- format fmt' FPlain args ;; Ret (c :: cs)
    | FPercent =>
      if c =? 37 then cs <- format fmt' FPlain args ;; Ret (c :: cs)
      else if c =? 99 then
        match args with
        | VWord x :: args' => cs <- format fmt' FPlain args' ;; Ret (s32 x :: cs)
        | _ => Fault
        end
      else if c =? 115 then
        match args with
        | VStr s :: args' =>
          t <- string_chars (default null_string s) ;; cs <- format fmt' FPlain args' ;; Ret (t ++ cs)
        | _ => Fault
        end
      else if c =? 112 then
        match args with
        | VWord x :: args' => t <- printint (u32 x) 16 false false ;; cs <- format fmt' FPlain args' ;; Ret (t ++ cs)
        | _ => Fault
        end
      else if c =? 108 then format fmt' Fl args
      else
        match conversion c with
        | Some (base, sgn, cpt) =>
          match args with
          | VWord x :: args' =>
            t <- printint (word_value x sgn) base sgn cpt ;; cs <- format fmt' FPlain args' ;; Ret (t ++ cs)
          | _ => Fault
          end
        | None => cs <- format fmt' FPlain args ;; Ret (37 :: c :: cs)
        end
    | Fl =>
      if c =? 108 then format fmt' FL args else
      match conversion c with
      | Some (base, sgn, cpt) =>
        match args with
        | VWord x :: args' =>
          t <- printint (word_value x sgn) base sgn cpt ;; cs <- format fmt' FPlain args' ;; Ret (t ++ cs)
        | _ => Fault
        end
      | None => format fmt' FPlain args
      end
    | FL =>
      match conversion c with
      | Some (base, sgn, cpt) =>
        match args with
        | VLong x :: args' => t <- printint (u64 x) base sgn cpt ;; cs <- format fmt' FPlain args' ;; Ret (t ++ cs)
        | _ => Fault
        end
      | None => format fmt' FPlain args
      end
    end
  end.

Definition cprintf (fmt : list Z) (args : list vararg) (st : console) : outcome console :=
  st1 <- (if cons_locking st then l <- acquire_b (cons_lock st) ;; Ret (set_cons_lock st l) else Ret st) ;;
  cs <- format fmt FPlain args ;;
  st2 <- putchars cs st1 ;;
  if cons_locking st2 then l <- release_b (cons_lock st2) ;; Ret (set_cons_lock st2 l) else Ret st2.

Definition consolewrite (buf : list Z) (n : Z) (st : console) : outcome (Z * console) :=
  l <- acquire_b (cons_lock st) ;;
  cs <- (if n <=? 0 then Ret [] else copy_from buf 0 n) ;;
  st1 <- putchars (map (fun c => Z.land c 0xff) cs) (set_cons_lock st l) ;;
  l' <- release_b (cons_lock st1) ;;
  Ret (n, set_cons_lock st1 l').

(** ** Input *)

Definition set_e (i : input) (e : Z) : input := Input (ibuf i) (ir i) (iw i) e.

Fixpoint kill_line (fuel : nat) (st : console) : outcome console :=
  let i := inp st in
  if ie i =? iw i then Ret st else
  c <- of_option (zget (ibuf i) (u32 (ie i - 1) mod INPUT_BUF)) ;;
  if c =? 10 then Ret st else
  match fuel with
  | O => NoFuel
  | Datatypes.S fuel' => st1 <- consputc BACKSPACE (set_inp st (set_e i (u32 (ie i - 1)))) ;; kill_line fuel' st1
  end.

(** One character; the boolean says that readers are woken. *)
Definition input_char (c : Z) (st : console) : outcome (bool * console) :=
  let i := inp st in
  if c =? 21 then st1 <- kill_line (Z.to_nat (u32 (ie i - iw i))) st ;; Ret (false, st1)
  else if (c =? 8) || (c =? 127) then
    if negb (ie i =? iw i) then
      st1 <- consputc BACKSPACE (set_inp st (set_e i (u32 (ie i - 1)))) ;; Ret (false, st1)
    else Ret (false, st)
  else if negb (c =? 0) && (u32 (ie i - ir i) <? INPUT_BUF) then
    let c := if c =? 13 then 10 else c in
    b <- of_option (zset (ibuf i) (ie i mod INPUT_BUF) (u8 c)) ;;
    let e := u32 (ie i + 1) in
    st1 <- consputc c (set_inp st (Input b (ir i) (iw i) e)) ;;
    if (c =? 10) || (c =? 4) || (e =? u32 (ir i + INPUT_BUF)) then
      Ret (true, set_inp st1 (Input b (ir i) e e))
    else Ret (false, st1)
  else Ret (false, st).

(** A stretch of [consoleread] ends with the call returning [r], or asleep with
    [n] bytes still wanted; [bs] are the bytes it stored. *)
Inductive cread := CReturn (r : Z) (bs : list Z) | CSleep (n : Z) (bs : list Z).

Definition cread_cons (c : Z) (r : cread) : cread :=
  match r with
  | CReturn r bs => CReturn r (c :: bs)
  | CSleep n bs => CSleep n (c :: bs)
  end.

(** The loop, with [n] bytes still wanted of the [target] asked for. *)
Fixpoint read_loop (n : nat) (target : Z) (killed : bool) (i : input) : outcome (cread * input) :=
  let left := Z.of_nat n in
  match n with
  | O => Ret (CReturn (s32 (target - left)) [], i)
  | Datatypes.S n' =>
    if ir i =? iw i then Ret (if killed then CReturn (-1) [] else CSleep left [], i) else
    c <- of_option (zget (ibuf i) (ir i mod INPUT_BUF)) ;;
    let i1 := Input (ibuf i) (u32 (ir i + 1)) (iw i) (ie i) in
    if c =? 4 then
      Ret (CReturn (s32 (target - left)) [], if left <? target then Input (ibuf i) (u32 (ir i1 - 1)) (iw i) (ie i) else i1)
    else if c =? 10 then Ret (CReturn (s32 (target - (left - 1))) [c], i1)
    else '(r, i2) <- read_loop n' target killed i1 ;; Ret (cread_cons c r, i2)
  end.

(** A stretch of [consoleread]: the first has [n = target], the argument. *)
Definition consoleread (n target : Z) (killed : bool) (st : console) : outcome (cread * console) :=
  l <- acquire_b (cons_lock st) ;;
  '(r, i) <- (if n <=? 0 then Ret (CReturn (s32 (target - n)) [], inp st) else read_loop (Z.to_nat n) (u32 target) killed (inp st)) ;;
  l' <- release_b l ;;
  Ret (r, set_cons_lock (set_inp st i) l').

(** ** Start *)

Definition vgacon_init (st : console) : console :=
  Cons false true CONS_VGA (panicked st) (set_crt (scr st) (repeat 0 (Z.to_nat 0x4000)) (pos (scr st))) (inp st) (uart st) (ports st).

Definition fbcon_init (fb_addr w h : Z) (st : console) : outcome console :=
  a <- map_ram_region fb_addr (u32 (w * h * 4)) ;;
  if a =? 0 then Panic "fbcon mmap failed" else
  Ret (Cons false true CONS_FB (panicked st)
         (Screen (crt (scr st)) (pos (scr st)) (repeat 0 (Z.to_nat (u32 (w * h * 4) / 4))) w h (xpos (scr st)) (ypos (scr st)))
         (inp st) (uart st) (ports st)).

Section interrupt.
Context {A P S : Type}.
(** The address of [input.r], on which readers sleep. *)
Variable input_r : Z.

Local Notation state := (kernel A P S).

(** The characters [getc] gives before it returns a negative number. *)
Fixpoint intr_loop (cs : list Z) (st : console) (k : state) : outcome (console * state) :=
  match cs with
  | [] => Ret (st, k)
  | c :: cs' =>
    '(woke, st1) <- input_char c st ;;
    k1 <- (if (woke : bool) then wakeup (ChanOther input_r) k else Ret k) ;;
    intr_loop cs' st1 k1
  end.

Definition consoleintr (cs : list Z) (st : console) (k : state) : outcome (console * state) :=
  l <- acquire_b (cons_lock st) ;;
  '(st1, k1) <- intr_loop cs (set_cons_lock st l) k ;;
  l' <- release_b (cons_lock st1) ;;
  Ret (set_cons_lock st1 l', k1).

End interrupt.
End framebuffer.

(** ** The text screen *)

(** The cursor is in the first 24 lines of the text buffer. *)
Definition cga_ok (s : screen) : Prop := zlen (crt s) = 0x4000 /\ 0 <= pos s < 24 * 80.

(** The console works and shows text. *)
Definition text_ok (st : console) : Prop := panicked st = false /\ mode st = CONS_VGA /\ cga_ok (scr st).

(** Consoles that differ in what was output. *)
Definition same_console (st st' : console) : Prop :=
  cons_lock st' = cons_lock st /\ cons_locking st' = cons_locking st /\ inp st' = inp st /\ uart st' = uart st.

(** The cursor after a character, before scrolling. *)
Lemma cga_step c st : cga_ok (scr st) ->
  exists t p, (if c =? 10 then Ret (crt (scr st), pos (scr st) + (80 - Z.rem (pos (scr st)) 80))
     else if c =? BACKSPACE then Ret (crt (scr st), if 0 <? pos (scr st) then pos (scr st) - 1 else pos (scr st))
     else t <- of_option (zset (crt (scr st)) (pos (scr st)) (Z.lor (Z.land c 0xff) 0x0700)) ;; Ret (t, pos (scr st) + 1)) = Ret (t, p) /\
    zlen t = 0x4000 /\ 0 <= p <= 24 * 80.
Proof.
  intros [Hl Hp]. destruct (c =? 10).
  { do 2 eexists. split; [done|]. split; [done|]. pose proof (Z.rem_bound_pos (pos (scr st)) 80).
    pose proof (Z.quot_rem' (pos (scr st)) 80). pose proof (Z.quot_lt_upper_bound (pos (scr st)) 80 24). lia. }
  destruct (c =? BACKSPACE).
  { do 2 eexists. split; [done|]. split; [done|]. destruct (Z.ltb_spec 0 (pos (scr st))); lia. }
  rewrite zset_Some by lia. cbn [of_option obind]. do 2 eexists. split; [done|].
  unfold zlen in *. rewrite length_insert. lia.
Qed.

(** Scrolling the text up one line. *)
Lemma cga_scroll t : zlen t = 0x4000 ->
  exists t', (rows <- copy_from t 80 (23 * 80) ;;
              t1 <- copy_into t 0 rows ;;
              t2 <- copy_into t1 (24 * 80 - 80) (repeat 0 (Z.to_nat (24 * 80 - (24 * 80 - 80)))) ;;
              Ret (t2, 24 * 80 - 80)) = Ret (t', 24 * 80 - 80) /\ zlen t' = 0x4000.
Proof.
  intros Hl. rewrite copy_from_ok by lia. cbn [obind].
  pose proof (slice_length 80 (23 * 80) t ltac:(lia) ltac:(lia) ltac:(lia)) as Hs.
  pose proof (zlen_repeat 0 (24 * 80 - (24 * 80 - 80)) ltac:(lia)) as Hr.
  rewrite copy_into_ok by lia. cbn [obind].
  pose proof (splice_length 0 (slice 80 (23 * 80) t) t ltac:(lia) ltac:(lia)) as Hp.
  rewrite copy_into_ok by lia. cbn [obind]. eexists. split; [done|]. rewrite splice_length; lia.
Qed.

Lemma cgaputc_ok c st : cga_ok (scr st) -> exists st', cgaputc c st = Ret st' /\ cga_ok (scr st') /\
  same_console st st' /\ mode st' = mode st /\ panicked st' = panicked st.
Proof.
  intros Hok. destruct (cga_step c st Hok) as (t & p & E & Hl & Hp). unfold cgaputc. rewrite E. cbn [obind].
  destruct (Z.ltb_spec p 0), (Z.ltb_spec (25 * 80) p); try lia. cbn [orb].
  assert (exists t' p', (if 24 <=? Z.quot p 80 then
                  rows <- copy_from t 80 (23 * 80) ;;
                  t1 <- copy_into t 0 rows ;;
                  t2 <- copy_into t1 (p - 80) (repeat 0 (Z.to_nat (24 * 80 - (p - 80)))) ;;
                  Ret (t2, p - 80)
                else Ret (t, p)) = Ret (t', p') /\ zlen t' = 0x4000 /\ 0 <= p' < 24 * 80) as (t' & p' & -> & Hl' & Hp').
  { destruct (Z.leb_spec 24 (Z.quot p 80)) as [Hq|Hq].
    - assert (p = 24 * 80) as -> by (pose proof (Z.quot_lt_upper_bound p 80 24); lia).
      destruct (cga_scroll t Hl) as (t' & E' & Hl'). exists t', (24 * 80 - 80). split; [exact E'|lia].
    - assert (p < 24 * 80) by (destruct (Z.eq_dec p (24 * 80)) as [->|]; [done|lia]). exists t, p. split; [done|lia]. }
  cbn [obind]. rewrite zset_Some by lia. cbn [of_option obind]. eexists. split; [done|]. split; [|done].
  split; [|cbn; lia]. cbn [crt set_screen set_crt scr]. by rewrite zlen_insert.
Qed.

Section text.
Variable font16 : list Z.

(** On a text console every character can be written: the check on the cursor never fails. *)
Lemma consputc_ok c st : text_ok st -> exists st', consputc font16 c st = Ret st' /\ text_ok st' /\ same_console st st'.
Proof.
  intros (Hp & Hm & Hg). unfold consputc. rewrite Hp.
  set (st1 := if c =? BACKSPACE then _ else _).
  assert (same_console st st1 /\ scr st1 = scr st /\ mode st1 = mode st /\ panicked st1 = panicked st) as (S1 & E1 & M1 & P1).
  { unfold st1, uart_putc, outb. destruct (c =? BACKSPACE), (uart st) eqn:Eu; cbn; rewrite ?Eu; repeat split; cbn; congruence. }
  rewrite M1, Hm. destruct (cgaputc_ok c st1) as (st2 & -> & G2 & S2 & M2 & P2); [by rewrite E1|].
  cbn [obind]. eexists. split; [done|]. unfold text_ok, same_console in *. cbn. intuition congruence.
Qed.

(** ** The line editor *)

(** What the console promises: finished lines and the line being edited. *)
Definition edit_char (c : Z) (lines edit : list Z) : bool * list Z * list Z :=
  if c =? 21 then (false, lines, [])
  else if (c =? 8) || (c =? 127) then (false, lines, take (length edit - 1) edit)
  else if (c =? 0) || (INPUT_BUF <=? zlen lines + zlen edit) then (false, lines, edit)
  else
    let c := if c =? 13 then 10 else c in
    if (c =? 10) || (c =? 4) || (zlen lines + zlen edit + 1 =? INPUT_BUF) then (true, lines ++ edit ++ [c], [])
    else (false, lines, edit ++ [c]).

(** Reading takes at most [n] bytes and at most one line; the mark of the end of
    input ends it, and is left for the next read unless nothing was read. *)
Fixpoint read_lines (n : nat) (target : Z) (killed : bool) (lines : list Z) : cread * list Z :=
  match n, lines with
  | O, _ => (CReturn (s32 target) [], lines)
  | Datatypes.S _, [] => (if killed then CReturn (-1) [] else CSleep (Z.of_nat n) [], [])
  | Datatypes.S n', c :: lines' =>
    if c =? 4 then (CReturn (s32 (target - Z.of_nat n)) [], if Z.of_nat n <? target then lines else lines')
    else if c =? 10 then (CReturn (s32 (target - (Z.of_nat n - 1))) [c], lines')
    else let '(r, l) := read_lines n' target killed lines' in (cread_cons c r, l)
  end.

(** The ring holds the finished lines from [r] and the edited line from [w]. *)
Record input_holds (i : input) (lines edit : list Z) : Prop := {
  input_buf : zlen (ibuf i) = INPUT_BUF;
  input_r : is_u32 (ir i);
  input_w : iw i = u32 (ir i + zlen lines);
  input_e : ie i = u32 (ir i + zlen lines + zlen edit);
  input_room : zlen lines + zlen edit <= INPUT_BUF;
  input_get j x : zget (lines ++ edit) j = Some x -> zget (ibuf i) ((ir i + j) mod INPUT_BUF) = Some x;
  input_edit : Forall (fun c => c <> 10) edit
}.

Lemma u32_mod_buf x : u32 x mod INPUT_BUF = x mod INPUT_BUF.
Proof. unfold u32, INPUT_BUF. apply Z.mod_mod_divide. by exists (2 ^ 25). Qed.

(** Indices into the ring that are close are equal only when they are the same. *)
Lemma u32_offset_inj r i j : 0 <= i < 2 ^ 32 -> 0 <= j < 2 ^ 32 -> u32 (r + i) = u32 (r + j) -> i = j.
Proof.
  unfold u32. intros Hi Hj E. apply (f_equal (fun x => (x - r) mod 2 ^ 32)) in E.
  rewrite !Zminus_mod_idemp_l in E. replace (r + i - r) with i in E by lia. replace (r + j - r) with j in E by lia.
  by rewrite !Z.mod_small in E.
Qed.

Lemma mod_offset_inj r i j : 0 <= i < INPUT_BUF -> 0 <= j < INPUT_BUF -> (r + i) mod INPUT_BUF = (r + j) mod INPUT_BUF -> i = j.
Proof.
  intros Hi Hj E. apply (f_equal (fun x => (x - r) mod INPUT_BUF)) in E.
  rewrite !Zminus_mod_idemp_l in E. replace (r + i - r) with i in E by lia. replace (r + j - r) with j in E by lia.
  by rewrite !Z.mod_small in E.
Qed.

Lemma u32_sub_offset r i j : 0 <= j <= i -> i < 2 ^ 32 -> u32 (u32 (r + i) - u32 (r + j)) = i - j.
Proof.
  intros. unfold u32. rewrite <- Zminus_mod. replace (r + i - (r + j)) with (i - j) by lia. apply Z.mod_small. lia.
Qed.

Section holds.
Context (i : input) (lines edit : list Z) (Hi : input_holds i lines edit).

Lemma holds_bounds : 0 <= zlen lines /\ 0 <= zlen edit /\ zlen lines + zlen edit <= 128.
Proof. pose proof (input_room _ _ _ Hi). unfold INPUT_BUF in *. unfold zlen in *. lia. Qed.

Lemma holds_edit_empty : ie i = iw i <-> edit = [].
Proof.
  pose proof holds_bounds. rewrite (input_e _ _ _ Hi), (input_w _ _ _ Hi). split; [|intros ->; f_equal; unfold zlen; cbn [length]; lia].
  intros E. rewrite <- Z.add_assoc in E. apply u32_offset_inj in E; [|lia..]. unfold zlen in *. destruct edit; [done|cbn [length] in *; lia].
Qed.

Lemma holds_lines_empty : ir i = iw i <-> lines = [].
Proof.
  pose proof holds_bounds. pose proof (input_r _ _ _ Hi) as Hr. rewrite (input_w _ _ _ Hi). split.
  - intros E. rewrite <- (u32_small (ir i)) in E at 1 by done. rewrite <- (Z.add_0_r (ir i)) in E at 1.
    apply u32_offset_inj in E; [|lia..]. unfold zlen in *. destruct lines; [done|cbn [length] in *; lia].
  - intros ->. change (zlen (@nil Z)) with 0. by rewrite Z.add_0_r, u32_small.
Qed.

Lemma holds_size : u32 (ie i - ir i) = zlen lines + zlen edit.
Proof.
  pose proof holds_bounds. pose proof (input_r _ _ _ Hi) as Hr. rewrite (input_e _ _ _ Hi).
  rewrite <- (u32_small (ir i)) at 2 by done. rewrite <- (Z.add_0_r (ir i)) at 2. rewrite <- Z.add_assoc.
  rewrite u32_sub_offset; lia.
Qed.

Lemma holds_edit_size : u32 (ie i - iw i) = zlen edit.
Proof.
  pose proof holds_bounds. rewrite (input_e _ _ _ Hi), (input_w _ _ _ Hi), <- Z.add_assoc. rewrite u32_sub_offset; lia.
Qed.

(** The last character of the edited line is taken off. *)
Lemma holds_backspace : edit <> [] ->
  input_holds (set_e i (u32 (ie i - 1))) lines (take (length edit - 1) edit).
Proof.
  intros Hne. destruct Hi as [Hb Hr Hw He Hroom Hg Hed]. assert (0 < zlen edit) by (destruct edit; [done|unfold zlen; cbn [length]; lia]).
  assert (Ht : zlen (take (length edit - 1) edit) = zlen edit - 1) by (unfold zlen in *; rewrite length_take; lia).
  constructor; cbn [set_e ibuf ir iw ie]; [done|done|done| |lia| |].
  - rewrite He, Ht. unfold u32. rewrite Zminus_mod_idemp_l. f_equal. lia.
  - intros j x Hj. apply Hg. rewrite <- (take_drop (length edit - 1) edit), app_assoc. by apply zget_app_l.
  - by apply Forall_take.
Qed.

Lemma holds_last c : zget edit (zlen edit - 1) = Some c -> zget (ibuf i) (u32 (ie i - 1) mod INPUT_BUF) = Some c.
Proof.
  intros Hc. pose proof (zget_Some _ _ _ Hc). rewrite u32_mod_buf, (input_e _ _ _ Hi).
  rewrite Zminus_mod, u32_mod_buf, <- Zminus_mod. replace (ir i + zlen lines + zlen edit - 1) with (ir i + (zlen lines + (zlen edit - 1))) by lia.
  apply (input_get _ _ _ Hi). apply zget_lookup in Hc as [H0 Hc]. apply zget_lookup. split; [unfold zlen in *; lia|].
  rewrite lookup_app_r by (unfold zlen in *; lia). rewrite <- Hc. f_equal. unfold zlen in *. lia.
Qed.

(** A character is stored behind the edited line, which may finish it. *)
Lemma holds_store c : zlen lines + zlen edit < INPUT_BUF -> exists b,
  zset (ibuf i) (ie i mod INPUT_BUF) c = Some b /\
  (c <> 10 -> input_holds (Input b (ir i) (iw i) (u32 (ie i + 1))) lines (edit ++ [c])) /\
  input_holds (Input b (ir i) (u32 (ie i + 1)) (u32 (ie i + 1))) (lines ++ edit ++ [c]) [].
Proof.
  intros Hroom. pose proof holds_bounds. destruct Hi as [Hb Hr Hw He _ Hg Hed].
  assert (Hm : ie i mod INPUT_BUF = (ir i + (zlen lines + zlen edit)) mod INPUT_BUF) by (rewrite He, u32_mod_buf; f_equal; lia).
  pose proof (Z.mod_pos_bound (ie i) INPUT_BUF ltac:(done)).
  destruct (zset (ibuf i) (ie i mod INPUT_BUF) c) as [b|] eqn:Eb; [|rewrite zset_Some in Eb by lia; done].
  exists b. split; [done|].
  assert (Hget : forall j x, zget (lines ++ edit ++ [c]) j = Some x -> zget b ((ir i + j) mod INPUT_BUF) = Some x).
  { intros j x Hj. rewrite app_assoc in Hj. pose proof (zget_Some _ _ _ Hj) as Hjb. rewrite !zlen_app in Hjb. change (zlen [c]) with 1 in Hjb.
    destruct (Z.eq_dec j (zlen lines + zlen edit)) as [->|Hne].
    - rewrite <- Hm, (zget_zset_eq _ _ _ _ Eb). rewrite <- Hj. symmetry. apply zget_lookup. split; [lia|].
      rewrite lookup_app_r by (rewrite length_app; unfold zlen; lia). rewrite length_app.
      by replace (Z.to_nat _ - _)%nat with 0%nat by (unfold zlen; lia).
    - rewrite (zget_zset_ne _ _ _ _ _ Eb); [|rewrite Hm; intros ?%mod_offset_inj; unfold INPUT_BUF in *; lia].
      apply Hg. apply zget_lookup in Hj as [Hj0 Hj]. apply zget_lookup. split; [done|].
      by rewrite lookup_app_l in Hj by (rewrite length_app; unfold zlen in *; lia). }
  pose proof (zset_zlen _ _ _ _ Eb).
  assert (Hs : u32 (ie i + 1) = u32 (ir i + zlen lines + zlen edit + 1)) by (rewrite He, u32_add_l; f_equal; lia).
  assert (zlen [c] = 1) by done. assert (zlen (@nil Z) = 0) by done.
  assert (Hla : zlen (edit ++ [c]) = zlen edit + 1) by (rewrite zlen_app; lia).
  assert (Hll : zlen (lines ++ edit ++ [c]) = zlen lines + zlen edit + 1) by (rewrite zlen_app; lia).
  split; [intros Hc|]; (constructor; cbn [ibuf ir iw ie]; [congruence|done|..]).
  - done.
  - rewrite Hs, Hla. f_equal. lia.
  - lia.
  - done.
  - apply Forall_app. split; [done|by constructor].
  - rewrite Hs, Hll. f_equal. lia.
  - rewrite Hs, Hll. f_equal. lia.
  - lia.
  - by rewrite app_nil_r.
  - constructor.
Qed.
End holds.

(** A reader takes the first character. *)
Lemma holds_take i c lines edit : input_holds i (c :: lines) edit ->
  zget (ibuf i) (ir i mod INPUT_BUF) = Some c /\ input_holds (Input (ibuf i) (u32 (ir i + 1)) (iw i) (ie i)) lines edit.
Proof.
  intros [Hb Hr Hw He Hroom Hg Hed]. assert (Hz : zlen (c :: lines) = zlen lines + 1) by (unfold zlen; cbn [length]; lia). split.
  - rewrite <- (Z.add_0_r (ir i)). by apply Hg.
  - constructor; cbn [ibuf ir iw ie]; [done|apply u32_range|..|lia| |done].
    + rewrite Hw, u32_add_l. f_equal. lia.
    + rewrite He, Hz, <- !Z.add_assoc, u32_add_l. f_equal. lia.
    + intros j x Hj. pose proof (zget_Some _ _ _ Hj). rewrite <- Zplus_mod_idemp_l, u32_mod_buf, Zplus_mod_idemp_l.
      replace (ir i + 1 + j) with (ir i + (j + 1)) by lia. apply Hg.
      apply zget_lookup in Hj as [Hj0 Hj]. apply zget_lookup. split; [lia|]. replace (Z.to_nat (j + 1)) with (Datatypes.S (Z.to_nat j)) by lia. done.
Qed.

(** A text console whose input is [lines] and [edit]. *)
Definition edits (st : console) (lines edit : list Z) : Prop := text_ok st /\ input_holds (inp st) lines edit.

Lemma consputc_edits c st i lines edit : text_ok st -> input_holds i lines edit ->
  exists st', consputc font16 c (set_inp st i) = Ret st' /\ edits st' lines edit /\ inp st' = i /\ cons_lock st' = cons_lock st.
Proof.
  intros Ht Hi. destruct (consputc_ok c (set_inp st i)) as (st' & E & Ht' & Hl & _ & Hin & _); [done|].
  cbn in Hl, Hin. exists st'. unfold edits. rewrite Hin. done.
Qed.

(** Killing the line removes all of it, within the fuel given. *)
Lemma kill_line_ok n : forall st lines edit, edits st lines edit -> n = length edit ->
  exists st', kill_line font16 n st = Ret st' /\ edits st' lines [] /\ cons_lock st' = cons_lock st.
Proof.
  induction n as [|n IH]; intros st lines edit [Ht Hi] Hn; cbn [kill_line].
  - destruct edit; [|done]. rewrite (proj2 (holds_edit_empty _ _ _ Hi) eq_refl), Z.eqb_refl. by exists st.
  - assert (Hne : edit <> []) by (by destruct edit).
    destruct (Z.eqb_spec (ie (inp st)) (iw (inp st))) as [E|_]; [by apply (holds_edit_empty _ _ _ Hi) in E|].
    assert (Hb : 0 <= zlen edit - 1 < zlen edit) by (unfold zlen; lia).
    destruct (zget_is_Some _ _ Hb) as [c Hc]. rewrite (holds_last _ _ _ Hi c Hc). cbn [of_option obind].
    destruct (Z.eqb_spec c 10) as [->|_]; [by apply (Forall_zget _ _ _ _ (input_edit _ _ _ Hi)) in Hc|].
    destruct (consputc_edits BACKSPACE st _ _ _ Ht (holds_backspace _ _ _ Hi Hne)) as (st1 & -> & H1 & _ & L1). cbn [obind].
    destruct (IH st1 _ _ H1) as (st' & -> & H' & L'); [rewrite length_take; lia|]. exists st'. split; [done|]. split; [done|congruence].
Qed.

Lemma input_char_ok c st lines edit : is_u8 c -> edits st lines edit ->
  exists st', input_char font16 c st = Ret ((edit_char c lines edit).1.1, st') /\
    edits st' (edit_char c lines edit).1.2 (edit_char c lines edit).2 /\ cons_lock st' = cons_lock st.
Proof.
  intros Hc [Ht Hi]. unfold input_char, edit_char. destruct (c =? 21).
  { rewrite (holds_edit_size _ _ _ Hi). replace (Z.to_nat (zlen edit)) with (length edit) by (unfold zlen; lia).
    destruct (kill_line_ok (length edit) st lines edit) as (st' & -> & H'); [done..|]. by exists st'. }
  destruct ((c =? 8) || (c =? 127)).
  { destruct (Z.eqb_spec (ie (inp st)) (iw (inp st))) as [E|Hne]; cbn [negb].
    - apply (holds_edit_empty _ _ _ Hi) in E as ->. by exists st.
    - assert (edit <> []) by (intros E; by apply Hne, (holds_edit_empty _ _ _ Hi)).
      destruct (consputc_edits BACKSPACE st _ _ _ Ht (holds_backspace _ _ _ Hi H)) as (st1 & -> & H1 & _ & L1). by exists st1. }
  rewrite (holds_size _ _ _ Hi), Z.leb_antisym. destruct (c =? 0) eqn:E0; [by exists st|].
  destruct (Z.ltb_spec (zlen lines + zlen edit) INPUT_BUF) as [Hroom|]; [|by exists st]. cbn [negb andb orb].
  set (d := if c =? 13 then 10 else c). assert (Hd : u8 d = d).
  { unfold u8, d, is_u8 in *. destruct (c =? 13); [done|]. by apply Z.mod_small. }
  rewrite Hd. destruct (holds_store _ _ _ Hi d Hroom) as (b & -> & Hopen & Hdone). cbn [of_option obind].
  assert (He : (u32 (ie (inp st) + 1) =? u32 (ir (inp st) + INPUT_BUF)) = (zlen lines + zlen edit + 1 =? INPUT_BUF)).
  { pose proof (holds_bounds _ _ _ Hi). rewrite (input_e _ _ _ Hi), u32_add_l, <- !Z.add_assoc. apply Bool.eq_iff_eq_true. rewrite !Z.eqb_eq. split.
    - intros E%u32_offset_inj; unfold INPUT_BUF in *; lia.
    - by intros ->. }
  rewrite He. destruct (Z.eqb_spec d 10) as [Ed|Ed]; [|destruct (Z.eqb_spec d 4) as [E4|E4];
    [|destruct (Z.eqb_spec (zlen lines + zlen edit + 1) INPUT_BUF) as [Ef|Ef]]]; cbn [orb].
  4: { destruct (consputc_edits d st _ _ _ Ht (Hopen Ed)) as (st1 & -> & H1 & _ & L1). by exists st1. }
  all: destruct (consputc_ok d (set_inp st (Input b (ir (inp st)) (iw (inp st)) (u32 (ie (inp st) + 1))))) as (st1 & -> & T1 & L1 & _);
    [done|]; cbn [obind fst snd]; eexists; (split; [done|]); (split; [split; [exact T1|exact Hdone]|exact L1]).
Qed.

Lemma console_read_ok n target killed : forall i lines edit, input_holds i lines edit ->
  exists i', read_loop n target killed i = Ret ((read_lines n target killed lines).1, i') /\
    input_holds i' (read_lines n target killed lines).2 edit.
Proof.
  induction n as [|n IH]; intros i lines edit Hi; cbn [read_loop read_lines].
  { rewrite Z.sub_0_r. by exists i. }
  destruct lines as [|c lines].
  { rewrite (proj2 (holds_lines_empty _ _ _ Hi) eq_refl), Z.eqb_refl. by exists i. }
  destruct (Z.eqb_spec (ir i) (iw i)) as [E|_]; [by apply (holds_lines_empty _ _ _ Hi) in E|].
  destruct (holds_take _ _ _ _ Hi) as [-> Ht]. cbn [of_option obind].
  destruct (c =? 4).
  { eexists. split; [done|]. destruct (Z.of_nat (Datatypes.S n) <? target); [|done].
    cbn [fst snd ir]. replace (u32 (u32 (ir i + 1) - 1)) with (ir i); [destruct i; exact Hi|].
    pose proof (input_r _ _ _ Hi). unfold u32. rewrite Zminus_mod_idemp_l. replace (ir i + 1 - 1) with (ir i) by lia. symmetry. by apply Z.mod_small. }
  destruct (c =? 10); [eexists; by split|]. destruct (IH _ _ _ Ht) as (i' & -> & H'). cbn [obind].
  destruct (read_lines n target killed lines) as [r l]. by exists i'.
Qed.
End text.

(** ** Refinement *)

(** What happens to a console: characters arrive, or a reader runs a stretch. *)
Inductive console_op := Typed (cs : list Z) | Reads (n target : Z) (killed : bool).

Definition op_bytes (o : console_op) : Prop := match o with Typed cs => Forall is_u8 cs | Reads _ _ _ => True end.

Section refinement.
Context {A P S : Type}.
Variable font16 : list Z.
(** The address of [input.r]. *)
Variable chan : Z.

Local Notation state := (kernel A P S).

Fixpoint run_console (ops : list console_op) (st : console) (k : state) : outcome (list cread * console * state) :=
  match ops with
  | [] => Ret ([], st, k)
  | Typed cs :: ops' => '(st1, k1) <- consoleintr font16 chan cs st k ;; run_console ops' st1 k1
  | Reads n target killed :: ops' =>
    '(r, st1) <- consoleread n target killed st ;;
    '(rs, st2, k2) <- run_console ops' st1 k ;;
    Ret (r :: rs, st2, k2)
  end.

(** The same on lists: finished lines, edited line, and the process table, in
    which the readers are woken when a line is finished. *)
Fixpoint edit_chars (cs lines edit : list Z) (ps : list proc) : list Z * list Z * list proc :=
  match cs with
  | [] => (lines, edit, ps)
  | c :: cs' =>
    let '(woke, lines1, edit1) := edit_char c lines edit in
    edit_chars cs' lines1 edit1 (if (woke : bool) then wakeup1 (ChanOther chan) ps else ps)
  end.

Fixpoint run_editor (ops : list console_op) (lines edit : list Z) (ps : list proc) : list cread * list Z * list Z * list proc :=
  match ops with
  | [] => ([], lines, edit, ps)
  | Typed cs :: ops' =>
    let '(lines1, edit1, ps1) := edit_chars cs lines edit ps in run_editor ops' lines1 edit1 ps1
  | Reads n target killed :: ops' =>
    let '(r, lines1) := if n <=? 0 then (CReturn (s32 (target - n)) [], lines)
                        else read_lines (Z.to_nat n) (u32 target) killed lines in
    let '(rs, lines2, edit2, ps2) := run_editor ops' lines1 edit ps in
    (r :: rs, lines2, edit2, ps2)
  end.

(** The locks are free and the console holds the lists; the echo goes to a VGA text
    screen.  On a framebuffer the echo faults when it scrolls
    ([fb_scroll_past_end]). *)
Definition console_is (st : console) (k : state) (lines edit : list Z) (ps : list proc) : Prop :=
  edits st lines edit /\ cons_lock st = false /\ ptable_lock k = false /\ procs k = ps.

Lemma wakeup_free c (k : state) : ptable_lock k = false ->
  exists k', wakeup c k = Ret k' /\ ptable_lock k' = false /\ procs k' = wakeup1 c (procs k).
Proof.
  intros Hl. unfold wakeup, acquire_ptable. rewrite Hl. cbn. eexists. done.
Qed.

Lemma intr_loop_ok cs : forall st (k : state) lines edit, Forall is_u8 cs -> edits st lines edit -> ptable_lock k = false ->
  exists st' k', intr_loop font16 chan cs st k = Ret (st', k') /\ cons_lock st' = cons_lock st /\ ptable_lock k' = false /\
    let '(lines', edit', ps') := edit_chars cs lines edit (procs k) in edits st' lines' edit' /\ procs k' = ps'.
Proof.
  induction cs as [|c cs IH]; intros st k lines edit Hc He Hk; cbn [intr_loop edit_chars].
  { exists st, k. done. }
  inversion_clear Hc as [|? ? Hc1 Hcs]. destruct (input_char_ok font16 c st lines edit Hc1 He) as (st1 & -> & H1 & L1).
  cbn [obind]. destruct (edit_char c lines edit) as [[woke lines1] edit1]. cbn [fst snd] in *.
  assert (exists k1, (if woke then wakeup (ChanOther chan) k else Ret k) = Ret k1 /\ ptable_lock k1 = false /\
            procs k1 = if woke then wakeup1 (ChanOther chan) (procs k) else procs k) as (k1 & -> & Hk1 & Hp1).
  { destruct woke; [by apply wakeup_free|by exists k]. }
  cbn [obind]. destruct (IH st1 k1 _ _ Hcs H1 Hk1) as (st' & k' & -> & L' & Hk' & H'). rewrite Hp1 in H'.
  exists st', k'. split; [done|]. split; [congruence|]. done.
Qed.

(** C37: The console on a VGA text screen is a line editor.  For every sequence of
    interrupts that bring characters and of reads, the calls return, what the readers get is
    what they get from the two lists of finished and edited text, and the
    processes woken are those that sleep on the console when a line is
    finished.  So no character is lost or repeated while there is room, editing
    affects the unfinished line alone, and a reader sees whole lines. *)
Theorem console_refines_line_editor (ops : list console_op) : forall st (k : state) lines edit ps,
  Forall op_bytes ops -> console_is st k lines edit ps ->
  exists st' k', let '(rs, lines', edit', ps') := run_editor ops lines edit ps in
    run_console ops st k = Ret (rs, st', k') /\ console_is st' k' lines' edit' ps'.
Proof.
  induction ops as [|[cs|n target killed] ops IH]; intros st k lines edit ps Hops Hst; cbn [run_editor run_console].
  - exists st, k. done.
  - inversion_clear Hops as [|? ? Hcs Hops']. destruct Hst as (He & Hl & Hk & <-). unfold consoleintr. rewrite Hl. cbn [acquire_b obind].
    destruct (intr_loop_ok cs (set_cons_lock st true) k lines edit Hcs He Hk) as (st1 & k1 & -> & L1 & Hk1 & H1). cbn [obind].
    destruct (edit_chars cs lines edit (procs k)) as [[lines1 edit1] ps1]. destruct H1 as [H1 Hp1]. rewrite L1. cbn [set_cons_lock cons_lock release_b obind].
    apply (IH (set_cons_lock st1 false) k1 lines1 edit1 ps1 Hops'). done.
  - inversion_clear Hops as [|? ? _ Hops']. destruct Hst as ((Ht & Hi) & Hl & Hk & <-). unfold consoleread. rewrite Hl. cbn [acquire_b obind].
    assert (exists i', (if n <=? 0 then Ret (CReturn (s32 (target - n)) [], inp st) else read_loop (Z.to_nat n) (u32 target) killed (inp st)) =
        Ret ((if n <=? 0 then (CReturn (s32 (target - n)) [], lines) else read_lines (Z.to_nat n) (u32 target) killed lines).1, i') /\
      input_holds i' (if n <=? 0 then (CReturn (s32 (target - n)) [], lines) else read_lines (Z.to_nat n) (u32 target) killed lines).2 edit)
      as (i' & -> & Hi').
    { destruct (n <=? 0); [by exists (inp st)|]. by apply console_read_ok. }
    cbn [obind release_b]. destruct (if n <=? 0 then _ else _) as [r lines1]. cbn [fst snd] in *.
    destruct (IH (set_cons_lock (set_inp st i') false) k lines1 edit (procs k) Hops') as (st' & k' & H'); [done|].
    destruct (run_editor ops lines1 edit (procs k)) as [[[rs lines2] edit2] ps2]. destruct H' as [-> H']. by exists st', k'.
Qed.
End refinement.

Definition ex_console : console :=
  vgacon_init (Cons false false CONS_VGA false (Screen [] 0 [] 0 0 0 0) (Input (repeat 0 128) 0 0 0) None []).

(** Typing [hx], backspace, [i] and return with a reader asleep, then reading. *)
Lemma console_refines_line_editor_witness : exists st' k',
  run_console [] 0x80100000 [Typed [104; 120; 8; 105; 13]; Reads 10 10 false] ex_console
    (ex_kernel RUNNING ChanNull SLEEPING empty_queue) = Ret ([CReturn 3 [104; 105; 10]], st', k') /\
  console_is st' k' [] [] (procs (ex_kernel RUNNING ChanNull SLEEPING empty_queue)).
Proof.
  apply (console_refines_line_editor [] 0x80100000 [Typed [104; 120; 8; 105; 13]; Reads 10 10 false] ex_console
    (ex_kernel RUNNING ChanNull SLEEPING empty_queue) [] [] (procs (ex_kernel RUNNING ChanNull SLEEPING empty_queue))).
  - repeat constructor; done.
  - split; [|done]. split.
    + split; [done|]. split; [done|]. split; [apply (zlen_repeat 0 0x4000); lia|cbn; lia].
    + constructor; [done|done|done|done|done| |constructor]. intros j x Hj. apply zget_Some in Hj. change (zlen ([] ++ [])) with 0 in Hj. lia.
Defined.

(** ** Numbers *)

Definition digit_value (c : Z) : Z := if c <? 65 then c - 48 else if c <? 97 then c - 55 else c - 87.

(** The number a string of digits stands for. *)
Definition read_number (base : Z) (cs : list Z) : Z := fold_left (fun acc c => acc * base + digit_value c) cs 0.

Lemma digits_value cpt m : 0 <= m < 16 -> exists d, zget (digits cpt) m = Some d /\ digit_value d = m /\ (d = 48 <-> m = 0).
Proof.
  intros Hm. assert (In m (seqZ 0 16)) as H by (apply list_elem_of_In, elem_of_seqZ; lia). revert H. cbn. intros H.
  repeat destruct H as [<-|H]; try done; destruct cpt; eexists; (split; [reflexivity|]); (split; [reflexivity|]); lia.
Qed.

(** The loop of [printint]: within the room it is given, it stores the digits of
    the number, and the last it stores is zero only for the number zero. *)
Lemma digit_loop_ok cpt base : 2 <= base <= 16 -> forall room x, 0 <= x < base ^ Z.of_nat room -> (0 < room)%nat ->
  exists ds, digit_loop room x base cpt = Ret ds /\ fold_right (fun c acc => acc * base + digit_value c) 0 ds = x /\
    (length ds <= room)%nat /\ exists d, last ds = Some d /\ (d = 48 -> x = 0).
Proof.
  intros Hb. induction room as [|room IH]; intros x Hx Hr; [lia|]. cbn [digit_loop].
  pose proof (Z.mod_pos_bound x base ltac:(lia)). pose proof (Z.div_mod x base ltac:(lia)).
  destruct (digits_value cpt (x mod base)) as (d & -> & Hd & Hz); [lia|]. cbn [of_option obind].
  destruct (Z.eqb_spec (x / base) 0) as [E|E].
  { exists [d]. split; [done|]. cbn [fold_right length last]. split; [lia|]. split; [lia|]. exists d. split; [done|]. intros Hd48%Hz. nia. }
  rewrite Nat2Z.inj_succ, Z.pow_succ_r in Hx by lia.
  assert (Hq : 0 <= x / base < base ^ Z.of_nat room).
  { split; [apply Z.div_pos; lia|]. apply Z.div_lt_upper_bound; lia. }
  destruct room as [|room]; [cbn in Hq; lia|].
  destruct (IH (x / base) Hq ltac:(lia)) as (ds & E1 & Hv & Hl & d' & Hlast & Hnz). rewrite E1. cbn [obind].
  exists (d :: ds). split; [done|]. cbn [fold_right length]. split; [lia|]. split; [lia|].
  exists d'. split; [by destruct ds|]. intros Hd'. by apply Hnz in Hd'.
Qed.

(** [printint] and reading the digits back is a round trip: for the bases
    the formats use, every unsigned 64-bit number fits the buffer, prints in the
    digits of its value, and has no leading zero. *)
Theorem printint_roundtrip (xx base : Z) (sgn cpt : bool) : 2 <= base <= 16 -> 0 <= xx < 2 ^ 64 ->
  exists cs, printint xx base sgn cpt = Ret cs /\ read_number base cs = xx /\ (head cs = Some 48 -> xx = 0) /\ 0 < zlen cs <= 64.
Proof.
  intros Hb Hx. unfold printint. destruct (Z.ltb_spec xx 0); [lia|]. rewrite Bool.andb_false_r.
  destruct (digit_loop_ok cpt base Hb 64 xx) as (ds & E & Hv & Hl & d & Hd & H0); [|lia|].
  { pose proof (Z.pow_le_mono_l 2 base 64). change (Z.of_nat 64) with 64. lia. }
  rewrite E. cbn [obind]. exists (rev ds). split; [done|].
  split; [unfold read_number; rewrite <- fold_left_rev_right, rev_involutive; done|]. split.
  - apply last_Some in Hd as [l ->]. rewrite rev_app_distr. cbn. intros [= ->]. by apply H0.
  - unfold zlen. rewrite length_rev. destruct ds; [done|cbn [length] in *; lia].
Qed.

Lemma printint_roundtrip_witness : exists cs, printint 0xdeadbeef 16 false true = Ret cs /\ read_number 16 cs = 0xdeadbeef /\
  (head cs = Some 48 -> 0xdeadbeef = 0) /\ 0 < zlen cs <= 64.
Proof. apply printint_roundtrip; lia. Defined.

(** What [cprintf] prints for [%d] and minus one is not minus one: the test for
    the sign compares an unsigned number with zero. *)
Lemma negative_prints_unsigned : format [37; 100; 0] FPlain [VWord (-1)] =
  Ret [49; 56; 52; 52; 54; 55; 52; 52; 48; 55; 51; 55; 48; 57; 53; 53; 49; 54; 49; 53].
Proof. vm_compute. reflexivity. Qed.

(** The last copy of a scroll starts at the end of the framebuffer. *)
Lemma fb_scroll_past_end w h f : 0 < w -> 0 < h -> h mod 16 = 0 -> w * h < 2 ^ 28 -> zlen f = w * h ->
  fastmemcpy32 f (u32 ((h / 16 - 1) * w * 16)) (u32 ((h / 16 - 1 + 1) * w * 16)) (u32 (w * 16)) = Fault.
Proof.
  intros Hw Hh Hm Hs Hf. unfold fastmemcpy32.
  replace ((h / 16 - 1 + 1) * w * 16) with (w * h) by (pose proof (Z.div_mod h 16); nia).
  rewrite (u32_small (w * h)), (u32_small (w * 16)) by (unfold is_u32; nia).
  unfold copy_from. rewrite Hf. destruct (Z.leb_spec (w * h + w * 16) (w * h)); [nia|]. by rewrite Bool.andb_false_r.
Qed.

(** ** Well-typed formats *)

(** The kind of an argument; a string is terminated or a null pointer. *)
Inductive kind := KWord | KLong | KStr.

Definition kind_of (a : vararg) : kind := match a with VWord _ => KWord | VLong _ => KLong | VStr _ => KStr end.

Definition arg_ok (a : vararg) : Prop := match a with VStr (Some s) => existsb (Z.eqb 0) s = true | _ => True end.

(** The conversions of the format agree with the kinds of the arguments: a word
    for a number, a pointer or a character, a [long long] behind two [l], a
    string for a string. *)
Fixpoint well_typed (fmt : list Z) (st : fstate) (args : list kind) : bool :=
  match fmt with
  | [] => false
  | c :: fmt' =>
    if c =? 0 then true else
    let takes k := match args with
                   | a :: args' => match k, a with KWord, KWord | KLong, KLong | KStr, KStr => well_typed fmt' FPlain args' | _, _ => false end
                   | [] => false
                   end in
    match st with
    | FPlain => well_typed fmt' (if c =? 37 then FPercent else FPlain) args
    | FPercent =>
      if c =? 37 then well_typed fmt' FPlain args
      else if c =? 115 then takes KStr
      else if c =? 108 then well_typed fmt' Fl args
      else if (c =? 99) || (c =? 112) then takes KWord
      else if conversion c then takes KWord else well_typed fmt' FPlain args
    | Fl =>
      if c =? 108 then well_typed fmt' FL args
      else if conversion c then takes KWord else well_typed fmt' FPlain args
    | FL => if conversion c then takes KLong else well_typed fmt' FPlain args
    end
  end.

Lemma string_chars_total s : existsb (Z.eqb 0) s = true -> exists cs, string_chars s = Ret cs.
Proof.
  induction s as [|c s IH]; cbn [existsb string_chars]; [done|]. destruct (Z.eqb_spec c 0); [by eexists|].
  destruct (Z.eqb_spec 0 c); [lia|]. intros [cs ->]%IH. by eexists.
Qed.

Lemma conversion_base c base sgn cpt : conversion c = Some (base, sgn, cpt) -> 2 <= base <= 16.
Proof. unfold conversion. intros H. repeat case_match; simplify_eq; lia. Qed.

Lemma word_value_range x sgn : 0 <= word_value x sgn < 2 ^ 64.
Proof. unfold word_value, u64, u32. destruct sgn; Z.div_mod_to_equations; lia. Qed.

Lemma u32_prints x : 0 <= u32 x < 2 ^ 64.
Proof. unfold u32. Z.div_mod_to_equations; lia. Qed.

Lemma u64_prints x : 0 <= u64 x < 2 ^ 64.
Proof. unfold u64. Z.div_mod_to_equations; lia. Qed.

Lemma printint_total xx base sgn cpt : 2 <= base <= 16 -> 0 <= xx < 2 ^ 64 -> exists cs, printint xx base sgn cpt = Ret cs.
Proof. intros Hb Hx. destruct (printint_roundtrip xx base sgn cpt Hb Hx) as (cs & H & _). eauto. Qed.

(** Going through one conversion of a well-typed format. *)
Ltac typed_step IH :=
  repeat match goal with
  | H : false = true |- _ => discriminate H
  | H : Forall arg_ok (_ :: _) |- _ => apply Forall_cons in H as [? H]
  | H : well_typed _ _ (map kind_of ?a) = true, Ha : Forall arg_ok ?a |- _ => apply (fun H => IH _ _ H Ha) in H as [? ->]; cbn [obind]; by eexists
  | H : context [if conversion ?c then _ else _] |- _ =>
    let E := fresh "E" in destruct (conversion c) as [[[? ?] ?]|] eqn:E; [apply conversion_base in E|]
  | H : context [match map kind_of ?a with [] => _ | _ => _ end] |- _ => is_var a; destruct a as [|[?|?|?] ?]; cbn [map kind_of] in H
  | |- context [printint ?x ?b ?s ?c] => destruct (printint_total x b s c) as [? ->]; [lia|auto using word_value_range, u32_prints, u64_prints|cbn [obind]]
  end.

Lemma format_total fmt : forall st args, well_typed fmt st (map kind_of args) = true -> Forall arg_ok args -> exists cs, format fmt st args = Ret cs.
Proof.
  induction fmt as [|c fmt IH]; intros st args; cbn [well_typed format]; [done|]. destruct (c =? 0); [by eexists|].
  intros H Ha. destruct st.
  - destruct (c =? 37); [by apply IH|]. typed_step IH.
  - destruct (c =? 37); [typed_step IH|]. destruct (Z.eqb_spec c 115) as [->|].
    { cbn in H |- *. destruct args as [|[?|?|s] args]; try done. cbn in H. apply Forall_cons in Ha as [Hs Ha].
      destruct (string_chars_total (default null_string s)) as [t ->]; [by destruct s|]. cbn [obind]. typed_step IH. }
    destruct (Z.eqb_spec c 108) as [->|]; [cbn; by apply IH|].
    destruct (c =? 99); cbn [orb] in H; [typed_step IH|]. destruct (c =? 112); typed_step IH.
  - destruct (c =? 108); [by apply IH|]. typed_step IH; by apply IH.
  - typed_step IH; by apply IH.
Qed.

Section printing.
Variable font16 : list Z.

Lemma putchars_ok cs : forall st, text_ok st -> exists st', putchars font16 cs st = Ret st' /\ text_ok st' /\ same_console st st'.
Proof.
  induction cs as [|c cs IH]; intros st Hst; cbn [putchars]; [by exists st|].
  destruct (consputc_ok font16 c st Hst) as (st1 & -> & H1 & S1). cbn [obind]. destruct (IH st1 H1) as (st2 & -> & H2 & S2).
  exists st2. split; [done|]. split; [done|]. unfold same_console in *. intuition congruence.
Qed.

(** A console that can print: text, with its lock free. *)
Definition printable (st : console) : Prop := text_ok st /\ cons_lock st = false.

Lemma cprintf_ok fmt args st : printable st -> well_typed fmt FPlain (map kind_of args) = true -> Forall arg_ok args ->
  exists st', cprintf font16 fmt args st = Ret st' /\ printable st' /\ inp st' = inp st.
Proof.
  intros [Hst Hl] Ht Ha. destruct (format_total fmt FPlain args Ht Ha) as [cs Hcs]. unfold cprintf. rewrite Hl, Hcs.
  destruct (cons_locking st) eqn:El; cbn [acquire_b obind].
  - destruct (putchars_ok cs (set_cons_lock st true)) as (st' & -> & H' & (L' & K' & I' & _)); [done|]. cbn [obind].
    cbn in L', K', I'. rewrite K', El, L'. cbn. eexists. split; [done|]. done.
  - destruct (putchars_ok cs st Hst) as (st' & -> & H' & (L' & K' & I' & _)). cbn [obind]. rewrite K', El.
    exists st'. split; [done|]. split; [|done]. split; [done|congruence].
Qed.

(** C38: Formatted output is type safe: on a text console, whenever the arguments
    agree with the format, [cprintf] returns, with its lock released and the
    cursor on the screen, whatever the values of the arguments. *)
Theorem cprintf_type_safe fmt args st : printable st -> well_typed fmt FPlain (map kind_of args) = true -> Forall arg_ok args ->
  exists st', cprintf font16 fmt args st = Ret st' /\ printable st' /\ inp st' = inp st.
Proof. apply cprintf_ok. Qed.
End printing.

Lemma ex_console_printable : printable ex_console.
Proof. split; [|done]. split; [done|]. split; [done|]. split; [apply (zlen_repeat 0 0x4000); lia|cbn; lia]. Qed.

(** ["%s %d %llx"] with a null pointer. *)
Lemma cprintf_type_safe_witness : exists st',
  cprintf [] [37; 115; 32; 37; 100; 32; 37; 108; 108; 120; 0] [VStr None; VWord (-5); VLong (2 ^ 40)] ex_console = Ret st' /\ printable st' /\ inp st' = inp ex_console.
Proof. apply cprintf_type_safe; [exact ex_console_printable|reflexivity|repeat constructor]. Defined.
