(* ===== verification/Ps2.v ===== *)
(** kernel/driver/ps2: the keyboard and the mouse of the PS/2 controller.

    An interrupt of the keyboard reads a scan code.  Until a program asks for raw
    keys, the code is turned into a character of the console by [kbd_getc], which
    keeps the state of the modifier keys; after that it is an event of hal/hid.c.
    An interrupt of the mouse reads one byte of a packet.

    The theorems: a text typed on a keyboard of the American layout arrives at the
    reader of the console, for all characters of the layout, shifted or not and with
    caps lock or without; raw keys arrive as key codes; packets of the mouse arrive
    as the words that a program reads; and start-up turns the mouse on. *)

From stdpp Require Import base list strings.
From Stdlib Require Import ZArith Lia Ascii.
From S2P Require Import Prelude Ring Proc Machine Ioapic Hid Console.

Local Open Scope Z_scope.
Local Open Scope list_scope.
Local Open Scope outcome_scope.

Definition PS2_DATA_PORT : Z := 0x60.
Definition PS2_STATUS_PORT : Z := 0x64.
Definition PS2_COMMAND_PORT : Z := 0x64.

Definition PS2_CMD_ENABLE_SECOND : Z := 0xa8.
Definition PS2_CMD_READ_CFG : Z := 0x20.
Definition PS2_CMD_WRITE_CFG : Z := 0x60.
Definition PS2_CMD_WRITE_SECOND : Z := 0xd4.

Definition PS2_MOUSE_CMD_MOUSE_ID : Z := 0xf2.
Definition PS2_MOUSE_CMD_SET_SAMPLE_RATE : Z := 0xf3.
Definition PS2_MOUSE_CMD_ENABLE_REPORT : Z := 0xf4.
Definition PS2_MOUSE_CMD_DISABLE_REPORT : Z := 0xf5.

Inductive PS2MouseType := PS2_MOUSE_WITH_WHEEL | PS2_MOUSE_WITHOUT_WHEEL.

(** ** Tables *)

Definition NO : Z := 0.
Definition SHIFT : Z := 1.
Definition CTL : Z := 2.
Definition ALT : Z := 4.
Definition CAPSLOCK : Z := 8.
Definition NUMLOCK : Z := 16.
Definition SCROLLLOCK : Z := 32.
Definition E0ESC : Z := 64.

Definition KEY_HOME : Z := 0xE0.
Definition KEY_END : Z := 0xE1.
Definition KEY_UP : Z := 0xE2.
Definition KEY_DN : Z := 0xE3.
Definition KEY_LF : Z := 0xE4.
Definition KEY_RT : Z := 0xE5.
Definition KEY_PGUP : Z := 0xE6.
Definition KEY_PGDN : Z := 0xE7.
Definition KEY_INS : Z := 0xE8.
Definition KEY_DEL : Z := 0xE9.

(** The codes of characters. *)
Definition code (c : ascii) : Z := Z.of_N (N_of_ascii c).
Definition chars (s : String.string) : list Z := map code (String.list_ascii_of_string s).
Definition controls (s : String.string) : list Z := map (fun c => c - 64) (chars s).

(** An array of 256 bytes: the first elements, and some with an index. *)
Definition initialised (first : list Z) (rest : list (Z * Z)) : list Z :=
  foldl (fun l '(i, v) => <[Z.to_nat i := v]> l) (first ++ repeat 0 (256 - length first)) rest.

Definition shiftcode : list Z := initialised [] [(0x1D, CTL); (0x2A, SHIFT); (0x36, SHIFT); (0x38, ALT); (0x9D, CTL); (0xB8, ALT)].
Definition togglecode : list Z := initialised [] [(0x3A, CAPSLOCK); (0x45, NUMLOCK); (0x46, SCROLLLOCK)].

(** The keys of the cursor block, the same in all three maps. *)
Definition cursor_keys : list (Z * Z) :=
  [(0xC8, KEY_UP); (0xD0, KEY_DN); (0xC9, KEY_PGUP); (0xD1, KEY_PGDN); (0xCB, KEY_LF); (0xCD, KEY_RT); (0x97, KEY_HOME); (0xCF, KEY_END); (0xD2, KEY_INS); (0xD3, KEY_DEL)].

Definition normalmap : list Z :=
  initialised ([NO; 0x1B] ++ chars "1234567890-=" ++ [8; 9] ++ chars "qwertyuiop[]" ++ [10; NO] ++ chars "asdfghjkl;'`" ++ [NO] ++ chars "\zxcvbnm,./" ++
      [NO] ++ chars "*" ++ [NO] ++ chars " " ++ repeat NO 13 ++ chars "789-456+1230." ++ repeat NO 4)
    ([(0x9C, 10); (0xB5, 47)] ++ cursor_keys).

Definition shiftmap : list Z :=
  initialised ([NO; 0x1B] ++ chars "!@#$%^&*()_+" ++ [8; 9] ++ chars "QWERTYUIOP{}" ++ [10; NO] ++ chars "ASDFGHJKL:" ++ [34] ++ chars "~" ++ [NO] ++ chars "|ZXCVBNM<>?" ++
      [NO] ++ chars "*" ++ [NO] ++ chars " " ++ repeat NO 13 ++ chars "789-456+1230." ++ repeat NO 4)
    ([(0x9C, 10); (0xB5, 47)] ++ cursor_keys).

Definition ctlmap : list Z :=
  initialised (repeat NO 16 ++ controls "QWERTYUIOP" ++ [NO; NO; 13; NO] ++ controls "ASDFGHJKL" ++ repeat NO 4 ++ controls "\ZXCVBNM" ++
      [NO; NO; u8 (47 - 64); NO; NO])
    ([(0x9C, 13); (0xB5, u8 (47 - 64))] ++ cursor_keys).

(** Scan codes to key codes; the rest of the 128 elements is zero. *)
Definition ps2_keyboard_map : list Z :=
  [0; 27; 49; 50; 51; 52; 53; 54; 55; 56; 57; 48; 173; 61; 8; 9;
   81; 87; 69; 82; 84; 89; 85; 73; 79; 80; 219; 221; 13; 17; 65; 83;
   68; 70; 71; 72; 74; 75; 76; 59; 222; 192; 16; 220; 90; 88; 67; 86;
   66; 78; 77; 188; 190; 191; 16; 106; 18; 32; 20; 112; 113; 114; 115; 116;
   117; 118; 119; 120; 121; 144; 145; 103; 104; 105; 109; 100; 101; 102; 107; 97;
   98; 99; 96; 110; 0; 0; 0; 122; 123] ++
  repeat 0 39.

(** ** Keyboard *)

Definition kbd_scan_to_keycode (data : Z) : outcome Z :=
  let rel := Z.testbit data 7 in
  let data := if rel then Z.land data 0x7f else data in
  keycode <- of_option (zget ps2_keyboard_map data) ;;
  Ret (if rel then Z.lor keycode 0x100 else keycode).

(** The variable of the file and the static one of [kbd_getc]. *)
Record kbd := Kbd { rawkbddata : Z; kbd_shift : Z }.

(** Caps lock exchanges the letters. *)
Definition swap_case (c : Z) : Z :=
  if (97 <=? c) && (c <=? 122) then c - 32 else if (65 <=? c) && (c <=? 90) then c + 32 else c.

Definition charcode (i : Z) : option (list Z) := zget [normalmap; shiftmap; ctlmap; ctlmap] i.

(** The clearing of bits is on 32 bits. *)
Definition kbd_getc (s : kbd) : outcome (Z * kbd) :=
  if rawkbddata s =? 0 then Ret (-1, s) else
  let data := rawkbddata s in
  let shift := kbd_shift s in
  if data =? 0xE0 then Ret (0, Kbd 0 (Z.lor shift E0ESC))
  else if Z.testbit data 7 then
    let data := if Z.testbit shift 6 then data else Z.land data 0x7F in
    code <- of_option (zget shiftcode data) ;;
    Ret (0, Kbd 0 (Z.ldiff shift (Z.lor code E0ESC)))
  else
    let '(data, shift) := if Z.testbit shift 6 then (Z.lor data 0x80, Z.ldiff shift E0ESC) else (data, shift) in
    code <- of_option (zget shiftcode data) ;;
    toggle <- of_option (zget togglecode data) ;;
    let shift := Z.lxor (Z.lor shift code) toggle in
    map <- of_option (charcode (Z.land shift (Z.lor CTL SHIFT))) ;;
    c <- of_option (zget map data) ;;
    Ret (if Z.testbit shift 3 then swap_case c else c, Kbd 0 shift).

(** What [consoleintr] gets from [kbd_getc] before a negative number: at most one
    character, as the second call finds no code. *)
Fixpoint kbd_chars (n : nat) (s : kbd) : outcome (list Z * kbd) :=
  '(c, s1) <- kbd_getc s ;;
  if c <? 0 then Ret ([], s1) else
  match n with
  | O => NoFuel
  | S n' => '(cs, s2) <- kbd_chars n' s1 ;; Ret (c :: cs, s2)
  end.

Section keyboard.
Context {A P S H : Type} `{Machine H}.
(** The font of the console, and the address its readers sleep on. *)
Variable font16 : list Z.
Variable chan : Z.

(** What an interrupt of the keyboard works on. *)
Record keyed := Keyed { k_kbd : kbd; k_hid : hid; k_cons : console; k_kernel : kernel A P S }.

Definition kbd_to_console (w : keyed) : outcome keyed :=
  hd <- (if rawkbddata (k_kbd w) =? 0x45 then hal_keyboard_update 144 (k_hid w) else Ret (k_hid w)) ;;
  '(cs, s) <- kbd_chars 1 (k_kbd w) ;;
  '(st, k) <- consoleintr font16 chan cs (k_cons w) (k_kernel w) ;;
  Ret (Keyed s hd st k).

Definition kbd_to_queue (w : keyed) : outcome keyed :=
  keycode <- kbd_scan_to_keycode (rawkbddata (k_kbd w)) ;;
  hd <- hal_keyboard_update keycode (k_hid w) ;;
  Ret (Keyed (k_kbd w) hd (k_cons w) (k_kernel w)).

Definition ps2_keyboard_intr (w : keyed) : hw H keyed :=
  (stat <~ inb PS2_STATUS_PORT;
   if negb (Z.testbit stat 0) then mret w else
   data <~ inb PS2_DATA_PORT;
   let w1 := Keyed (Kbd data (kbd_shift (k_kbd w))) (k_hid w) (k_cons w) (k_kernel w) in
   mlift (if hal_kbd_send_legacy (k_hid w) then kbd_to_console w1 else kbd_to_queue w1))%hw.
End keyboard.
Arguments keyed : clear implicits.

(** The line of the keyboard is turned on and a byte left over is dropped. *)
Definition ps2_keyboard_init {H} `{Machine H} (mmio : Z) : hw H unit :=
  (ioapic_enable mmio 1 0 IOAPIC_EDGE_TRIGGER IOAPIC_ACTIVE_HIGH ;> inb PS2_DATA_PORT ;> mret tt)%hw.

(** ** Mouse *)

Record ps2_mouse := Ps2Mouse { ps2_mouse_type : PS2MouseType; mouse_buffer : list Z; mouse_phase : Z }.

Section mouse.
Context {H : Type} `{Machine H}.
(** Turns of the waiting loops. *)
Variable fuel : nat.
Local Open Scope hw_scope.

Definition ps2_wait : hw H unit := spin fuel (stat <~ inb PS2_STATUS_PORT; mret (Z.testbit stat 1)).

Definition ps2_mouse_write (data : Z) : hw H Z :=
  ps2_wait ;> Machine.outb PS2_COMMAND_PORT PS2_CMD_WRITE_SECOND ;> ps2_wait ;> Machine.outb PS2_DATA_PORT data ;> ps2_wait ;> inb PS2_DATA_PORT.

Definition ps2_mouse_set_rate (rate : Z) : hw H unit :=
  ps2_mouse_write PS2_MOUSE_CMD_SET_SAMPLE_RATE ;> ps2_mouse_write rate ;> mret tt.

Definition ps2_mouse_identify : hw H Z := ps2_mouse_write PS2_MOUSE_CMD_MOUSE_ID ;> ps2_wait ;> inb PS2_DATA_PORT.

Definition ps2_mouse_enable_scroll : hw H unit := ps2_mouse_set_rate 200 ;> ps2_mouse_set_rate 100 ;> ps2_mouse_set_rate 80.

Definition ps2_enable_interrupt (port : Z) : hw H unit :=
  ps2_wait ;> Machine.outb PS2_COMMAND_PORT PS2_CMD_READ_CFG ;>
  c <~ inb PS2_DATA_PORT;
  ps2_wait ;> Machine.outb PS2_COMMAND_PORT PS2_CMD_WRITE_CFG ;> Machine.outb PS2_DATA_PORT (Z.lor c (Z.shiftl 1 port)).

(** The type of the mouse; the messages are left out. *)
Definition ps2_mouse_init (mmio : Z) : hw H PS2MouseType :=
  ps2_wait ;> Machine.outb PS2_COMMAND_PORT PS2_CMD_ENABLE_SECOND ;>
  ps2_mouse_write PS2_MOUSE_CMD_DISABLE_REPORT ;>
  ps2_mouse_enable_scroll ;>
  id <~ ps2_mouse_identify;
  let type := if id =? 3 then PS2_MOUSE_WITH_WHEEL else PS2_MOUSE_WITHOUT_WHEEL in
  ps2_enable_interrupt 1 ;>
  ps2_mouse_write PS2_MOUSE_CMD_ENABLE_REPORT ;>
  ioapic_enable mmio 12 0 IOAPIC_EDGE_TRIGGER IOAPIC_ACTIVE_HIGH ;>
  inb PS2_DATA_PORT ;>
  mret type.

(** The word of a packet. *)
Definition packet_word (b : list Z) (wheel : bool) : Z :=
  let byte i := default 0 (zget b i) in
  Z.lor (Z.lor (Z.lor (Z.shiftl (byte 0) 24) (Z.shiftl (byte 1) 16)) (Z.shiftl (byte 2) 8)) (if wheel then byte 3 else 0).

Definition ps2_mouse_intr (m : ps2_mouse) (s : hid) : hw H (ps2_mouse * hid) :=
  data <~ inb PS2_DATA_PORT;
  mlift (obind (of_option (zset (mouse_buffer m) (mouse_phase m) data)) (fun buf =>
    let phase := mouse_phase m + 1 in
    let wheel := match ps2_mouse_type m with PS2_MOUSE_WITH_WHEEL => true | PS2_MOUSE_WITHOUT_WHEEL => false end in
    if phase =? (if wheel then 4 else 3)
    then obind (hal_mouse_update (packet_word buf wheel) s) (fun s' => Ret (Ps2Mouse (ps2_mouse_type m) buf 0, s'))
    else Ret (Ps2Mouse (ps2_mouse_type m) buf phase, s))).
End mouse.

(** ** The keyboard of the American layout *)

(** Rows of keys: the scan code of the first, and the characters without and with
    the shift key. *)
Definition us_rows : list (Z * list Z * list Z) :=
  [(0x02, chars "1234567890-=", chars "!@#$%^&*()_+");
   (0x10, chars "qwertyuiop[]", chars "QWERTYUIOP{}");
   (0x1E, chars "asdfghjkl;'`", chars "ASDFGHJKL:" ++ [34] ++ chars "~");
   (0x2B, chars "\zxcvbnm,./", chars "|ZXCVBNM<>?");
   (0x39, chars " ", chars " ");
   (0x1C, [10], [10])].

(** Character, scan code and whether the shift key is held. *)
Definition us_keys : list (Z * (Z * bool)) :=
  us_rows ≫= (fun '(k, plain, shifted) => imap (fun i c => (c, (k + Z.of_nat i, false))) plain ++ imap (fun i c => (c, (k + Z.of_nat i, true))) shifted).

Definition LEFT_SHIFT : Z := 0x2A.

(** The codes that the keyboard sends when a key is struck: pressed and released,
    with the left shift key around them. *)
Definition strokes (k : Z) (shifted : bool) : list Z :=
  if shifted then [LEFT_SHIFT; k; k + 0x80; LEFT_SHIFT + 0x80] else [k; k + 0x80].

Fixpoint find_key (c : Z) (keys : list (Z * (Z * bool))) : list Z :=
  match keys with
  | [] => []
  | (d, (k, shifted)) :: keys' => if c =? d then strokes k shifted else find_key c keys'
  end.

Definition type_char (c : Z) : list Z := find_key c us_keys.
Definition typable (c : Z) : bool := existsb (fun e => c =? e.1) us_keys.
Definition type_text (text : list Z) : list Z := text ≫= type_char.

(** No key is held: of the modifiers, alt and the locks may be set. *)
Definition idle (shift : Z) : bool := existsb (Z.eqb shift) (map (fun i => 4 * i) (seqZ 0 16)).

Definition with_caps (shift c : Z) : Z := if Z.testbit shift 3 then swap_case c else c.

(** The characters of a sequence of codes, as they come one by one. *)
Fixpoint decode (codes : list Z) (shift : Z) : outcome (list Z * Z) :=
  match codes with
  | [] => Ret ([], shift)
  | b :: codes' =>
    '(cs, s) <- kbd_chars 1 (Kbd b shift) ;;
    '(cs', shift') <- decode codes' (kbd_shift s) ;;
    Ret (cs ++ cs', shift')
  end.

Definition nonzero (l : list Z) : list Z := filter (fun c => c <> 0) l.

(** Striking one key gives its character and leaves the modifiers. *)
Definition struck_ok (shift c : Z) : bool :=
  match decode (type_char c) shift with
  | Ret (cs, shift') => bool_decide (nonzero cs = [with_caps shift c]) && (shift' =? shift) && forallb (fun x => (0 <=? x) && (x <? 256)) cs
  | _ => false
  end.

Lemma all_struck_ok : forallb (fun shift => forallb (struck_ok shift) us_keys.*1) (map (fun i => 4 * i) (seqZ 0 16)) = true.
Proof. vm_compute. reflexivity. Qed.

Lemma typable_elem c : typable c = true -> In c us_keys.*1.
Proof.
  unfold typable. intros H. apply existsb_exists in H as (e & He & E). apply Z.eqb_eq in E as ->. apply in_map_iff. eauto.
Qed.

Lemma struck shift c : idle shift = true -> typable c = true ->
  exists cs, decode (type_char c) shift = Ret (cs, shift) /\ nonzero cs = [with_caps shift c] /\ Forall is_u8 cs.
Proof.
  intros Hs Hc%typable_elem. unfold idle in Hs. apply existsb_exists in Hs as (x & Hx & E). apply Z.eqb_eq in E as <-.
  pose proof all_struck_ok as H. rewrite forallb_forall in H. specialize (H _ Hx). rewrite forallb_forall in H. specialize (H c Hc). unfold struck_ok in H.
  destruct (decode (type_char c) shift) as [[cs shift']| | |]; try done. apply andb_prop in H as [H H3]. apply andb_prop in H as [H1 H2].
  apply Z.eqb_eq in H2 as ->. apply bool_decide_eq_true in H1. exists cs. split; [done|]. split; [done|]. apply Forall_forall. intros y Hy.
  rewrite forallb_forall in H3. apply list_elem_of_In in Hy. specialize (H3 y Hy). unfold is_u8. lia.
Qed.

Lemma decode_app l1 : forall l2 shift, decode (l1 ++ l2) shift = ('(cs, s) <- decode l1 shift ;; '(cs', s') <- decode l2 s ;; Ret (cs ++ cs', s')).
Proof.
  induction l1 as [|b l1 IH]; intros l2 shift; cbn [app decode obind].
  - destruct (decode l2 shift) as [[? ?]| | |]; done.
  - destruct (kbd_chars 1 (Kbd b shift)) as [[cs s]| | |]; cbn [obind]; [|done..]. rewrite IH. destruct (decode l1 (kbd_shift s)) as [[cs1 s1]| | |]; cbn [obind]; [|done..].
    destruct (decode l2 s1) as [[cs2 s2]| | |]; cbn [obind]; [|done..]. by rewrite app_assoc.
Qed.

Lemma type_text_decodes text shift : idle shift = true -> Forall (fun c => typable c = true) text ->
  exists cs, decode (type_text text) shift = Ret (cs, shift) /\ nonzero cs = map (with_caps shift) text /\ Forall is_u8 cs.
Proof.
  intros Hs. induction 1 as [|c text Hc _ (cs & E & Hn & Hb)]; [by exists []|]. destruct (struck shift c Hs Hc) as (cs1 & E1 & N1 & B1).
  unfold type_text. rewrite bind_cons, decode_app, E1. cbn [obind]. fold (type_text text). rewrite E. cbn [obind]. exists (cs1 ++ cs). split; [done|].
  split; [unfold nonzero in *; rewrite filter_app, N1, Hn; done|by apply Forall_app].
Qed.

(** The characters of the layout but the line feed are printable. *)
Lemma with_caps_plain shift c : typable c = true -> c <> 10 -> (32 <=? with_caps shift c) && (with_caps shift c <? 127) = true.
Proof.
  intros Hc%typable_elem Hn. assert (H : forallb (fun c => (c =? 10) || forallb (fun x => (32 <=? x) && (x <? 127)) [c; swap_case c]) us_keys.*1 = true) by (vm_compute; reflexivity).
  rewrite forallb_forall in H. specialize (H c Hc). destruct (Z.eqb_spec c 10); [done|]. cbn [orb forallb] in H. rewrite andb_true_r in H. apply andb_prop in H as [H1 H2].
  unfold with_caps. by destruct (Z.testbit shift 3).
Qed.

(** ** From the keyboard to the reader *)

(** What the driver relies on: bytes wait at the data port, and bit 0 of the status
    says whether there are any. *)
Class Controller (H : Type) `{Machine H} := {
  pending : H -> list Z;
  status_read h : exists v h', io_in 1 PS2_STATUS_PORT h = (v, h') /\ Z.testbit v 0 = negb (zlen (pending h) =? 0) /\ pending h' = pending h;
  data_read b l h : pending h = b :: l -> exists h', io_in 1 PS2_DATA_PORT h = (b, h') /\ pending h' = l
}.

Lemma consoleintr_ok {A P S} font16 chan cs st (k : kernel A P S) lines edit ps : Forall is_u8 cs -> console_is st k lines edit ps ->
  exists st' k', consoleintr font16 chan cs st k = Ret (st', k') /\ let '(lines', edit', ps') := edit_chars chan cs lines edit ps in console_is st' k' lines' edit' ps'.
Proof.
  intros Hcs (He & Hl & Hk & <-). unfold consoleintr. rewrite Hl. cbn [acquire_b obind].
  destruct (intr_loop_ok font16 chan cs (set_cons_lock st true) k lines edit Hcs He Hk) as (st1 & k1 & -> & L1 & Hk1 & H1). cbn [obind]. rewrite L1. cbn [release_b set_cons_lock cons_lock obind].
  exists (set_cons_lock st1 false), k1. split; [done|]. destruct (edit_chars chan cs lines edit (procs k)) as [[lines1 edit1] ps1]. destruct H1 as [H1 Hp1]. done.
Qed.

Lemma edit_chars_app chan cs1 : forall cs2 lines edit ps, edit_chars chan (cs1 ++ cs2) lines edit ps =
  let '(lines1, edit1, ps1) := edit_chars chan cs1 lines edit ps in edit_chars chan cs2 lines1 edit1 ps1.
Proof.
  induction cs1 as [|c cs1 IH]; intros cs2 lines edit ps; [done|]. cbn [app edit_chars]. destruct (edit_char c lines edit) as [[woke lines1] edit1]. apply IH.
Qed.

(** Zeros, which keys without a character give, are dropped. *)
Lemma edit_chars_nonzero chan cs : forall lines edit ps, edit_chars chan cs lines edit ps = edit_chars chan (nonzero cs) lines edit ps.
Proof.
  unfold nonzero. induction cs as [|c cs IH]; intros lines edit ps; [done|]. destruct (decide (c = 0)) as [->|Hc].
  - rewrite filter_cons_False by lia. rewrite <- IH. done.
  - rewrite filter_cons_True by done. cbn [edit_chars]. destruct (edit_char c lines edit) as [[woke lines1] edit1]. apply IH.
Qed.

(** Characters that are not keys of the line editor. *)
Definition plain (c : Z) : bool := (32 <=? c) && (c <? 127).

Lemma edit_plain chan text : forall edit ps, Forall (fun c => plain c = true) text -> zlen edit + zlen text < INPUT_BUF ->
  edit_chars chan text [] edit ps = ([], edit ++ text, ps).
Proof.
  unfold INPUT_BUF. induction text as [|c text IH]; intros edit ps Hp Hl; [by rewrite app_nil_r|]. inversion_clear Hp as [|? ? Hc Ht]. unfold plain in Hc.
  assert (Hz : zlen (c :: text) = 1 + zlen text) by (unfold zlen; cbn [length]; lia). pose proof (zlen_nonneg text).
  assert (E : edit_char c [] edit = (false, [], edit ++ [c])).
  { unfold edit_char. change (zlen []) with 0. destruct (Z.eqb_spec c 21); [lia|]. destruct (Z.eqb_spec c 8); [lia|]. destruct (Z.eqb_spec c 127); [lia|]. destruct (Z.eqb_spec c 0); [lia|].
    destruct (Z.leb_spec INPUT_BUF (0 + zlen edit)) as [Hf|_]; [unfold INPUT_BUF in Hf; lia|]. destruct (Z.eqb_spec c 13); [lia|]. destruct (Z.eqb_spec c 10); [lia|]. destruct (Z.eqb_spec c 4); [lia|].
    cbn [orb]. destruct (Z.eqb_spec (0 + zlen edit + 1) INPUT_BUF) as [Hf|_]; [unfold INPUT_BUF in Hf; lia|done]. }
  cbn [edit_chars]. rewrite E, IH; [by rewrite <- app_assoc|done|]. rewrite zlen_app. change (zlen [c]) with 1. lia.
Qed.

Lemma edit_return chan edit ps : zlen edit < INPUT_BUF -> edit_chars chan [10] [] edit ps = (edit ++ [10], [], wakeup1 (ChanOther chan) ps).
Proof.
  intros Hl. assert (E : edit_char 10 [] edit = (true, edit ++ [10], [])); [|cbn [edit_chars]; by rewrite E].
  unfold edit_char. change (zlen []) with 0. cbn [Z.eqb orb Pos.eqb]. destruct (Z.leb_spec INPUT_BUF (0 + zlen edit)); [lia|done].
Qed.

(** A reader gets a line. *)
Lemma read_line text : forall n target, Forall (fun c => plain c = true) text -> (length text < n)%nat -> Z.of_nat n <= target < 2 ^ 31 ->
  read_lines n target false (text ++ [10]) = (CReturn (target - Z.of_nat n + zlen text + 1) (text ++ [10]), []).
Proof.
  induction text as [|c text IH]; intros n target Hp Hl Ht; destruct n as [|n]; cbn [length] in Hl; try lia.
  - cbn [app read_lines Z.eqb Pos.eqb]. rewrite s32_small by lia. f_equal. f_equal. change (zlen []) with 0. lia.
  - inversion_clear Hp as [|? ? Hc Hp']. unfold plain in Hc. cbn [app read_lines]. destruct (Z.eqb_spec c 4); [lia|]. destruct (Z.eqb_spec c 10); [lia|].
    rewrite IH by (done || lia). cbn [cread_cons]. f_equal. f_equal. unfold zlen. cbn [length]. lia.
Qed.

Section typing.
Context {A P S H : Type} `{Controller H}.
Variable font16 : list Z.
Variable chan : Z.

Notation keyed := (keyed A P S).
Notation ps2_keyboard_intr := (ps2_keyboard_intr (A := A) (P := P) (S := S) (H := H) font16 chan).

(** As many interrupts. *)
Fixpoint keyboard_interrupts (n : nat) (w : keyed) : hw H keyed :=
  match n with
  | O => mret w
  | Datatypes.S n' => (w1 <~ ps2_keyboard_intr w; keyboard_interrupts n' w1)%hw
  end.

(** The state of the keyboard: characters arrived, modifiers, and the queues. *)
Definition keyed_is (w : keyed) (shift : Z) (hd : hid) (lines edit : list Z) (ps : list proc) : Prop :=
  kbd_shift (k_kbd w) = shift /\ k_hid w = hd /\ console_is (k_cons w) (k_kernel w) lines edit ps.

(** An interrupt with a byte waiting. *)
Lemma keyboard_intr_reads b l h w : pending h = b :: l -> exists h', pending h' = l /\
  ps2_keyboard_intr w h = mlift (let w1 := Keyed (Kbd b (kbd_shift (k_kbd w))) (k_hid w) (k_cons w) (k_kernel w) in
    if hal_kbd_send_legacy (k_hid w) then kbd_to_console font16 chan w1 else kbd_to_queue w1) h'.
Proof.
  intros Hp. destruct (status_read h) as (v & h1 & E1 & Hv & Hp1). destruct (data_read b l h1) as (h2 & E2 & Hp2); [congruence|]. exists h2. split; [done|].
  unfold Ps2.ps2_keyboard_intr, mbind, inb. rewrite E1. cbn [obind fst snd]. rewrite Hv, Hp. unfold zlen. cbn [length]. destruct (Z.eqb_spec (Z.of_nat (Datatypes.S (length l))) 0); [lia|].
  cbn [negb]. rewrite E2. done.
Qed.

Lemma keyboard_interrupts_decode codes : forall w h rest hd lines edit ps shift cs shift', hal_kbd_send_legacy hd = true -> pending h = codes ++ rest ->
  decode codes shift = Ret (cs, shift') -> Forall is_u8 cs -> keyed_is w shift hd lines edit ps ->
  exists w' h', keyboard_interrupts (length codes) w h = Ret (w', h') /\ pending h' = rest /\
    let '(lines', edit', ps') := edit_chars chan cs lines edit ps in keyed_is w' shift' hd lines' edit' ps'.
Proof.
  induction codes as [|b codes IH]; intros w h rest hd lines edit ps shift cs shift' Hleg Hp Hd Hb Hw.
  { injection Hd as <- <-. by exists w, h. }
  destruct Hw as (Hsh & Hhd & Hc). cbn [decode] in Hd. destruct (kbd_chars 1 (Kbd b shift)) as [[cs1 s1]| | |] eqn:E1; cbn [obind] in Hd; try done.
  destruct (decode codes (kbd_shift s1)) as [[cs2 shift2]| | |] eqn:E2; cbn [obind] in Hd; try done. injection Hd as <- <-. apply Forall_app in Hb as [Hb1 Hb2].
  destruct (keyboard_intr_reads b (codes ++ rest) h w) as (h1 & Hp1 & Ei); [done|]. cbn [length keyboard_interrupts]. unfold mbind at 1. rewrite Ei, Hhd, Hleg. unfold kbd_to_console.
  cbn [k_kbd k_hid k_cons k_kernel rawkbddata]. rewrite Hsh, E1.
  assert (Eq : (if b =? 0x45 then hal_keyboard_update 144 hd else Ret hd) = Ret hd) by (by destruct (b =? 0x45)). rewrite Eq. cbn [obind].
  destruct (consoleintr_ok font16 chan cs1 (k_cons w) (k_kernel w) lines edit ps Hb1 Hc) as (st & k & -> & Hc1). cbn [obind mlift fst snd]. rewrite edit_chars_app.
  destruct (edit_chars chan cs1 lines edit ps) as [[lines1 edit1] ps1]. apply (IH _ h1 rest hd lines1 edit1 ps1 (kbd_shift s1) cs2 shift2); done.
Qed.

(** C40: Typing a text of fewer than 128 characters and the return key on the American
    keyboard, into the empty input of a console on a VGA text screen, with no key
    held at the start and keys sent to the console: after the interrupts for all
    its scan codes a reader of the console who asks for the whole line gets exactly
    the text, with upper and lower case exchanged under caps lock, and the line
    feed; the readers are awake, and the modifiers are as before. *)
Theorem typed_line_is_read text rest n h w hd shift ps :
  Forall (fun c => typable c = true /\ c <> 10) text -> zlen text < n < 2 ^ 31 -> zlen text < INPUT_BUF -> idle shift = true -> hal_kbd_send_legacy hd = true ->
  pending h = type_text (text ++ [10]) ++ rest -> keyed_is w shift hd [] [] ps ->
  exists w' h' st', keyboard_interrupts (length (type_text (text ++ [10]))) w h = Ret (w', h') /\ pending h' = rest /\
    keyed_is w' shift hd (map (with_caps shift) text ++ [10]) [] (wakeup1 (ChanOther chan) ps) /\
    consoleread n n false (k_cons w') = Ret (CReturn (zlen text + 1) (map (with_caps shift) text ++ [10]), st').
Proof.
  intros Ht Hn Hl Hid Hleg Hp Hw. assert (Htyp : Forall (fun c => typable c = true) (text ++ [10])).
  { apply Forall_app. split; [eapply Forall_impl; [exact Ht|]; by intros c []|]. by constructor. }
  destruct (type_text_decodes (text ++ [10]) shift Hid Htyp) as (cs & Ed & Hnz & Hb).
  destruct (keyboard_interrupts_decode _ w h rest hd [] [] ps shift cs shift Hleg Hp Ed Hb Hw) as (w' & h' & E & Hp' & Hw').
  assert (Hplain : Forall (fun c => plain c = true) (map (with_caps shift) text)).
  { apply Forall_map. eapply Forall_impl; [exact Ht|]. intros c [Hc Hc10]. by apply with_caps_plain. }
  assert (Hlen : zlen (map (with_caps shift) text) = zlen text) by (unfold zlen; by rewrite length_map).
  assert (H10 : with_caps shift 10 = 10) by (unfold with_caps; by destruct (Z.testbit shift 3)).
  rewrite edit_chars_nonzero, Hnz, map_app, edit_chars_app, edit_plain in Hw' by (done || (change (zlen []) with 0; lia)). cbn [map] in Hw'. rewrite H10 in Hw'. rewrite edit_return in Hw' by (cbn [app]; lia).
  cbn [app] in Hw'. destruct Hw' as (Hs' & Hh' & Hc'). pose proof Hc' as ((_ & Hi) & Hlk & _). pose proof (zlen_nonneg text).
  destruct (console_read_ok (Z.to_nat n) (u32 n) false _ _ _ Hi) as (i' & Er & _). rewrite u32_small, read_line in Er by (done || (unfold is_u32; lia) || (unfold zlen in Hlen, Hn; lia)).
  eexists w', h', _. split; [exact E|]. split; [exact Hp'|]. split; [done|]. unfold consoleread. rewrite Hlk. cbn [acquire_b obind]. destruct (Z.leb_spec n 0) as [|Hpos]; [lia|].
  rewrite u32_small by (unfold is_u32; lia). rewrite Er, Hlen. cbn [fst obind release_b]. replace (n - Z.of_nat (Z.to_nat n) + zlen text + 1) with (zlen text + 1) by lia. reflexivity.
Qed.
End typing.

(** ** Raw keys *)

Definition upper (c : Z) : Z := if (97 <=? c) && (c <=? 122) then c - 32 else c.
Definition alphanumeric (c : Z) : bool := (97 <=? c) && (c <=? 122) || (48 <=? c) && (c <=? 57).

Definition is_code (o : outcome Z) (c : Z) : bool := match o with Ret d => d =? c | _ => false end.

Lemma is_code_eq o c : is_code o c = true -> o = Ret c.
Proof. destruct o as [d| | |]; cbn [is_code]; try done. by intros ->%Z.eqb_eq. Qed.

Lemma all_keycodes : forallb (fun '(c, (k, shifted)) => negb (alphanumeric c) || shifted ||
    is_code (kbd_scan_to_keycode k) (upper c) && is_code (kbd_scan_to_keycode (k + 0x80)) (upper c + 0x100)) us_keys = true.
Proof. vm_compute. reflexivity. Qed.

Section raw.
Context {A P S H : Type} `{Controller H}.
Variable font16 : list Z.
Variable chan : Z.

(** One code in raw mode. *)
Lemma raw_intr b keycode l h (w : keyed A P S) ks : kbd_scan_to_keycode b = Ret keycode -> keycode <> 144 -> hal_kbd_send_legacy (k_hid w) = false -> pending h = b :: l ->
  queue_is (keyboard (k_hid w)) ks -> zlen ks < 15 ->
  exists w' h', ps2_keyboard_intr font16 chan w h = Ret (w', h') /\ pending h' = l /\ hal_kbd_send_legacy (k_hid w') = false /\ queue_is (keyboard (k_hid w')) (ks ++ [keycode]).
Proof.
  intros Ek Hn Hleg Hp Hq Hl. destruct (keyboard_intr_reads font16 chan b l h w Hp) as (h1 & Hp1 & E1). rewrite E1, Hleg. unfold kbd_to_queue. cbn [k_kbd k_hid rawkbddata]. rewrite Ek. cbn [obind].
  unfold hal_keyboard_update. destruct (Z.eqb_spec keycode 144); [done|]. destruct (queue_put_ok keycode _ _ Hq) as (q & E & Hq'). change KEYBOARD_QUEUE_SIZE with 16. rewrite E.
  unfold mlift. cbn [obind]. eexists _, h1. split; [reflexivity|]. split; [done|]. split; [done|]. unfold put_spec in Hq'. destruct (Z.eqb_spec (zlen ks + 1) 16); [lia|done].
Qed.

(** In raw mode, striking the key of a letter or a digit puts two events into the
    queue: the capital letter or digit, and the same with bit 8 set. *)
Lemma raw_key_queued c k rest h (w : keyed A P S) ks : In (c, (k, false)) us_keys -> alphanumeric c = true -> hal_kbd_send_legacy (k_hid w) = false ->
  pending h = strokes k false ++ rest -> queue_is (keyboard (k_hid w)) ks -> zlen ks < 14 ->
  exists w' h', keyboard_interrupts font16 chan 2 w h = Ret (w', h') /\ pending h' = rest /\ queue_is (keyboard (k_hid w')) (ks ++ [upper c; upper c + 0x100]).
Proof.
  intros Hin Ha Hleg Hp Hq Hl. pose proof all_keycodes as Hall. rewrite forallb_forall in Hall. specialize (Hall _ Hin). cbn beta iota in Hall. rewrite Ha in Hall. cbn [negb orb] in Hall.
  apply andb_prop in Hall as [Hk1%is_code_eq Hk2%is_code_eq].
  assert (Hu : 48 <= upper c <= 90) by (unfold alphanumeric in Ha; unfold upper; destruct ((97 <=? c) && (c <=? 122)) eqn:E; lia).
  destruct (raw_intr k (upper c) (k + 0x80 :: rest) h w ks) as (w1 & h1 & E1 & Hp1 & Hl1 & Hq1); [done|lia|done..|lia|].
  destruct (raw_intr (k + 0x80) (upper c + 0x100) rest h1 w1 (ks ++ [upper c])) as (w2 & h2 & E2 & Hp2 & _ & Hq2); [done|lia|done..|rewrite zlen_app; change (zlen [upper c]) with 1; lia|].
  exists w2, h2. cbn [keyboard_interrupts]. unfold mbind. rewrite E1. cbn [obind fst snd]. rewrite E2. split; [done|]. split; [done|]. by rewrite <- app_assoc in Hq2.
Qed.
End raw.

(** ** Packets of the mouse *)

Section packets.
Context {H : Type} `{Controller H}.

Fixpoint mouse_interrupts (n : nat) (m : ps2_mouse) (s : hid) : hw H (ps2_mouse * hid) :=
  match n with
  | O => mret (m, s)
  | S n' => (r <~ ps2_mouse_intr m s; mouse_interrupts n' r.1 r.2)%hw
  end.

Definition has_wheel (m : ps2_mouse) : bool := match ps2_mouse_type m with PS2_MOUSE_WITH_WHEEL => true | PS2_MOUSE_WITHOUT_WHEEL => false end.

(** Buttons, movements and wheel in the bytes of a word, from the highest. *)
Definition packet_value (p : list Z) : Z := foldl (fun acc b => acc * 256 + b) 0 (take 4 (p ++ [0])).

Definition packet_ok (wheel : bool) (p : list Z) : Prop := zlen p = (if wheel then 4 else 3) /\ bytes_ok p.

Lemma packet_word_value wheel p rest : packet_ok wheel p -> packet_word (p ++ rest) wheel = packet_value p.
Proof.
  intros [Hl Hb]. unfold packet_value.
  assert (Hor : forall b0 b1 b2 b3, is_u8 b0 -> is_u8 b1 -> is_u8 b2 -> is_u8 b3 ->
    Z.lor (Z.lor (Z.lor (Z.shiftl b0 24) (Z.shiftl b1 16)) (Z.shiftl b2 8)) b3 = ((((0 * 256 + b0) * 256 + b1) * 256 + b2) * 256 + b3)).
  { unfold is_u8. intros b0 b1 b2 b3 ? ? ? ?. rewrite <- !Z.lor_assoc. rewrite (lor_shiftl b2), (lor_shiftl b1), (lor_shiftl b0) by lia. lia. }
  unfold zlen in Hl. destruct p as [|b0 [|b1 [|b2 p]]]; cbn [length] in Hl; try (destruct wheel; lia).
  inversion_clear Hb as [|? ? Hb0 Hb']. inversion_clear Hb' as [|? ? Hb1 Hb'']. inversion_clear Hb'' as [|? ? Hb2 Hb3]. destruct wheel.
  - destruct p as [|b3 [|]]; cbn [length] in Hl; try lia. inversion_clear Hb3 as [|? ? Hb3' _]. by apply Hor.
  - destruct p; cbn [length] in Hl; try lia. by apply Hor.
Qed.

(** A byte that does not complete a packet, and one that does. *)
Lemma mouse_byte b l t buf buf' phase s h : pending h = b :: l -> zset buf phase b = Some buf' -> exists h', pending h' = l /\
  ps2_mouse_intr (Ps2Mouse t buf phase) s h = mlift (let wheel := has_wheel (Ps2Mouse t buf phase) in
    if phase + 1 =? (if wheel then 4 else 3) then s' <- hal_mouse_update (packet_word buf' wheel) s ;; Ret (Ps2Mouse t buf' 0, s') else Ret (Ps2Mouse t buf' (phase + 1), s)) h'.
Proof.
  intros Hp Hs. destruct (data_read b l h Hp) as (h' & E & Hp'). exists h'. split; [done|]. unfold ps2_mouse_intr, mbind, inb. rewrite E. cbn [obind fst snd mouse_buffer mouse_phase ps2_mouse_type].
  rewrite Hs. done.
Qed.

Lemma mouse_step n m s h m1 s1 h1 : ps2_mouse_intr m s h = Ret ((m1, s1), h1) -> mouse_interrupts (S n) m s h = mouse_interrupts n m1 s1 h1.
Proof. intros E. cbn [mouse_interrupts]. unfold mbind. by rewrite E. Qed.

Lemma mouse_byte_more b l t buf buf' phase s h : pending h = b :: l -> zset buf phase b = Some buf' -> phase + 1 <> (if has_wheel (Ps2Mouse t buf phase) then 4 else 3) ->
  exists h', pending h' = l /\ ps2_mouse_intr (Ps2Mouse t buf phase) s h = Ret ((Ps2Mouse t buf' (phase + 1), s), h').
Proof.
  intros Hp Hs Hn. destruct (mouse_byte b l t buf buf' phase s h Hp Hs) as (h' & Hp' & ->). exists h'. split; [done|]. cbv zeta. destruct (Z.eqb_spec (phase + 1) (if has_wheel (Ps2Mouse t buf phase) then 4 else 3)); done.
Qed.

(** The interrupts of one packet. *)
Lemma one_packet p rest m s h ms : packet_ok (has_wheel m) p -> pending h = p ++ rest -> zlen (mouse_buffer m) = 4 -> mouse_phase m = 0 -> queue_is (mouse s) ms -> zlen ms < 15 ->
  exists buf s' h', mouse_interrupts (length p) m s h = Ret ((Ps2Mouse (ps2_mouse_type m) buf 0, s'), h') /\ pending h' = rest /\ zlen buf = 4 /\
    queue_is (mouse s') (ms ++ [packet_value p]) /\ keyboard s' = keyboard s.
Proof.
  intros Hp Hpend Hbuf Hph Hq Hl. destruct (queue_put_ok (packet_value p) _ _ Hq) as (q & Eq & Hq'). unfold put_spec in Hq'. destruct (Z.eqb_spec (zlen ms + 1) 16); [lia|].
  destruct m as [t buf phase]. cbn [ps2_mouse_type mouse_buffer mouse_phase] in *. subst phase. unfold zlen in Hbuf. destruct buf as [|x0 [|x1 [|x2 [|x3 [|]]]]]; cbn [length] in Hbuf; try lia.
  pose proof Hp as [Hlen _]. unfold zlen in Hlen. destruct p as [|b0 [|b1 [|b2 p]]]; cbn [length] in Hlen; try (destruct (has_wheel _); lia). cbn [app] in Hpend.
  destruct (mouse_byte_more b0 _ t [x0; x1; x2; x3] [b0; x1; x2; x3] 0 s h Hpend eq_refl) as (h1 & Hp1 & E1); [by destruct t|].
  destruct (mouse_byte_more b1 _ t [b0; x1; x2; x3] [b0; b1; x2; x3] 1 s h1 Hp1 eq_refl) as (h2 & Hp2 & E2); [by destruct t|].
  cbn [length]. rewrite (mouse_step _ _ _ _ _ _ _ E1), (mouse_step _ _ _ _ _ _ _ E2). destruct t; cbn [has_wheel ps2_mouse_type] in Hp, Hlen.
  - destruct p as [|b3 [|]]; cbn [length] in Hlen; try lia. pose proof (packet_word_value true [b0; b1; b2; b3] [] Hp) as Ew. cbn [app] in Ew, Hp2.
    destruct (mouse_byte_more b2 _ PS2_MOUSE_WITH_WHEEL [b0; b1; x2; x3] [b0; b1; b2; x3] 2 s h2 Hp2 eq_refl) as (h3 & Hp3 & E3); [done|].
    destruct (mouse_byte b3 _ PS2_MOUSE_WITH_WHEEL [b0; b1; b2; x3] [b0; b1; b2; b3] 3 s h3 Hp3 eq_refl) as (h4 & Hp4 & E4).
    cbn [length]. rewrite (mouse_step _ _ _ _ _ _ _ E3). eexists [b0; b1; b2; b3], (Hid q (keyboard s) (hal_kbd_send_legacy s)), h4. split; [|done].
    erewrite mouse_step; [reflexivity|]. etransitivity; [exact E4|]. cbn -[packet_word hal_mouse_update]. rewrite Ew. unfold hal_mouse_update. change MOUSE_QUEUE_SIZE with 16. by rewrite Eq.
  - destruct p; cbn [length] in Hlen; try lia. pose proof (packet_word_value false [b0; b1; b2] [x3] Hp) as Ew. cbn [app] in Ew, Hp2.
    destruct (mouse_byte b2 _ PS2_MOUSE_WITHOUT_WHEEL [b0; b1; x2; x3] [b0; b1; b2; x3] 2 s h2 Hp2 eq_refl) as (h3 & Hp3 & E3).
    eexists [b0; b1; b2; x3], (Hid q (keyboard s) (hal_kbd_send_legacy s)), h3. split; [|done].
    erewrite mouse_step; [reflexivity|]. etransitivity; [exact E3|]. cbn -[packet_word hal_mouse_update]. rewrite Ew. unfold hal_mouse_update. change MOUSE_QUEUE_SIZE with 16. by rewrite Eq.
Qed.

Lemma mouse_interrupts_app n1 : forall n2 m s h m1 s1 h1, mouse_interrupts n1 m s h = Ret ((m1, s1), h1) -> mouse_interrupts (n1 + n2) m s h = mouse_interrupts n2 m1 s1 h1.
Proof.
  induction n1 as [|n1 IH]; intros n2 m s h m1 s1 h1 E; [by injection E as <- <- <-|]. cbn [Nat.add mouse_interrupts] in *. unfold mbind in *.
  destruct (ps2_mouse_intr m s h) as [[r h']| | |]; cbn [obind fst snd] in *; try done. by apply IH.
Qed.

(** Packets of the mouse, byte by byte with an interrupt each: after all their bytes
    the queue of hal/hid.c holds one word for each packet behind what it held, with
    the bytes of the packet in it; the keyboard's queue is as before. *)
Lemma mouse_packets_queued packets : forall rest m s h ms, Forall (packet_ok (has_wheel m)) packets -> pending h = concat packets ++ rest ->
  zlen (mouse_buffer m) = 4 -> mouse_phase m = 0 -> queue_is (mouse s) ms -> zlen ms + zlen packets < 16 ->
  exists m' s' h', mouse_interrupts (length (concat packets)) m s h = Ret ((m', s'), h') /\ pending h' = rest /\ mouse_phase m' = 0 /\
    queue_is (mouse s') (ms ++ map packet_value packets) /\ keyboard s' = keyboard s.
Proof.
  induction packets as [|p packets IH]; intros rest m s h ms Hp Hpend Hb Hph Hq Hl.
  { exists m, s, h. cbn [map]. rewrite app_nil_r. done. }
  inversion_clear Hp as [|? ? Hp1 Hps]. cbn [concat] in *. rewrite <- app_assoc in Hpend. assert (Hz : zlen (p :: packets) = 1 + zlen packets) by (unfold zlen; cbn [length]; lia). pose proof (zlen_nonneg packets).
  destruct (one_packet p _ m s h ms Hp1 Hpend Hb Hph Hq) as (buf & s1 & h1 & E1 & Hpend1 & Hb1 & Hq1 & Hk1); [lia|]. rewrite length_app, (mouse_interrupts_app _ _ _ _ _ _ _ _ E1).
  destruct (IH rest (Ps2Mouse (ps2_mouse_type m) buf 0) s1 h1 (ms ++ [packet_value p])) as (m' & s' & h' & E & Hpend' & Hph' & Hq' & Hk'); [done..|rewrite zlen_app; change (zlen [packet_value p]) with 1; lia|].
  exists m', s', h'. rewrite <- app_assoc in Hq'. split; [done|]. split; [done|]. split; [done|]. split; [done|]. congruence.
Qed.
End packets.

(** ** A controller *)

(** Bytes for the driver, what the next byte for the data port is for, the
    configuration byte, and the mouse: whether it has a wheel, whether it reports,
    and the sample rates set, the latest first. *)
Inductive receiver := ToNobody | ToConfig | ToMouse | ToRate.

Record i8042 := I8042 { out_bytes : list Z; receives : receiver; config : Z; second_port : bool; wheel : bool; reporting : bool; rates : list Z; registers : list (Z * Z) }.

Definition send_bytes (l : list Z) (r : receiver) (h : i8042) : i8042 :=
  I8042 (out_bytes h ++ l) r (config h) (second_port h) (wheel h) (reporting h) (rates h) (registers h).

Definition ACK : Z := 0xfa.

(** A mouse with a wheel has another number after three rates have been set. *)
Definition mouse_id (h : i8042) : Z := if wheel h && bool_decide (take 3 (rates h) = [80; 100; 200]) then 3 else 0.

Definition set_reporting (b : bool) (h : i8042) : i8042 := I8042 (out_bytes h) (receives h) (config h) (second_port h) (wheel h) b (rates h) (registers h).

Definition mouse_command (v : Z) (h : i8042) : i8042 :=
  if v =? 0xf5 then send_bytes [ACK] ToNobody (set_reporting false h)
  else if v =? 0xf4 then send_bytes [ACK] ToNobody (set_reporting true h)
  else if v =? 0xf3 then send_bytes [ACK] ToRate h
  else if v =? 0xf2 then send_bytes [ACK; mouse_id h] ToNobody h
  else send_bytes [ACK] ToNobody h.

(** A command prefix does not forget that the mouse waits for a rate. *)
Definition controller_command (v : Z) (h : i8042) : i8042 :=
  if v =? 0xa8 then I8042 (out_bytes h) (receives h) (config h) true (wheel h) (reporting h) (rates h) (registers h)
  else if v =? 0xd4 then send_bytes [] (match receives h with ToRate => ToRate | _ => ToMouse end) h
  else if v =? 0x20 then send_bytes [config h] (receives h) h
  else if v =? 0x60 then send_bytes [] ToConfig h
  else h.

Definition controller_data (v : Z) (h : i8042) : i8042 :=
  match receives h with
  | ToMouse => mouse_command v h
  | ToRate => send_bytes [ACK] ToNobody (I8042 (out_bytes h) (receives h) (config h) (second_port h) (wheel h) (reporting h) (v :: rates h) (registers h))
  | ToConfig => I8042 (out_bytes h) ToNobody v (second_port h) (wheel h) (reporting h) (rates h) (registers h)
  | ToNobody => h
  end.

#[export] Instance i8042_machine : Machine i8042 := {
  io_in w p h :=
    if p =? 0x64 then (match out_bytes h with [] => 0 | _ => 1 end, h)
    else match out_bytes h with
         | [] => (0, h)
         | b :: l => (b, I8042 l (receives h) (config h) (second_port h) (wheel h) (reporting h) (rates h) (registers h))
         end;
  io_out w p v h := if p =? 0x64 then controller_command v h else controller_data v h;
  mm_load w a h := (0, h);
  mm_store w a v h := I8042 (out_bytes h) (receives h) (config h) (second_port h) (wheel h) (reporting h) (rates h) ((a, v) :: registers h);
  ram_get a n h := repeat 0 (Z.to_nat n);
  ram_put a l h := h
}.

#[export] Instance i8042_controller : Controller i8042.
Proof.
  refine {| pending := out_bytes |}.
  - intros h. exists (match out_bytes h with [] => 0 | _ => 1 end), h. split; [done|]. split; [|done]. by destruct (out_bytes h).
  - intros b l h Hp. eexists. split; [cbn; rewrite Hp; reflexivity|]. done.
Defined.

Definition at_start (cfg : Z) (has : bool) : i8042 := I8042 [] ToNobody cfg false has true [] [].

(** Start-up finds out whether the mouse has a wheel, and ends with the mouse
    reporting, its port and its interrupt on, and no byte left. *)
Lemma mouse_init_runs cfg has : exists h, ps2_mouse_init 0 0xfec00000 (at_start cfg has) = Ret (if has : bool then PS2_MOUSE_WITH_WHEEL else PS2_MOUSE_WITHOUT_WHEEL, h) /\
  reporting h = true /\ second_port h = true /\ config h = u8 (Z.lor cfg 2) /\ out_bytes h = [].
Proof.
  assert (E : match ps2_mouse_init 0 0xfec00000 (at_start cfg has) with
              | Ret (t, h) => t = (if has : bool then PS2_MOUSE_WITH_WHEEL else PS2_MOUSE_WITHOUT_WHEEL) /\ reporting h = true /\ second_port h = true /\ config h = u8 (Z.lor cfg 2) /\ out_bytes h = []
              | _ => False end) by (destruct has; vm_compute; split_and!; reflexivity).
  destruct (ps2_mouse_init 0 0xfec00000 (at_start cfg has)) as [[t h]| | |]; try done. destruct E as [-> E]. by exists h.
Qed.

Definition ex_keys (codes : list Z) : i8042 := I8042 codes ToNobody 0 false false false [] [].

(** Typing [a], [B] and return with caps lock set. *)
Lemma typed_line_is_read_witness :
  let w := Keyed (Kbd 0 CAPSLOCK) (Hid (EvQ (repeat 0 16) 0 0 false) (EvQ (repeat 0 16) 0 0 false) true) ex_console (ex_kernel RUNNING ChanNull SLEEPING empty_queue) in
  exists w' h' st', keyboard_interrupts [] 0x80100000 8 w (ex_keys [0x1E; 0x9E; 0x2A; 0x30; 0xB0; 0xAA; 0x1C; 0x9C]) = Ret (w', h') /\
    consoleread 10 10 false (k_cons w') = Ret (CReturn 3 [65; 98; 10], st').
Proof.
  intros w. destruct (typed_line_is_read [] 0x80100000 [97; 66] [] 10 (ex_keys [0x1E; 0x9E; 0x2A; 0x30; 0xB0; 0xAA; 0x1C; 0x9C]) w (k_hid w) CAPSLOCK
    (procs (ex_kernel RUNNING ChanNull SLEEPING empty_queue))) as (w' & h' & st' & E & _ & _ & Er).
  - repeat constructor; done.
  - unfold zlen. cbn [length]. lia.
  - done.
  - done.
  - done.
  - done.
  - split; [done|]. split; [done|]. split; [|done]. split.
    + split; [done|]. split; [done|]. split; [apply (zlen_repeat 0 0x4000); lia|cbn; lia].
    + constructor; [done|done|done|done|done| |constructor]. intros j x Hj. apply zget_Some in Hj. change (zlen ([] ++ [])) with 0 in Hj. lia.
  - exists w', h', st'. split; [exact E|exact Er].
Defined.

(** A movement and a click of a mouse without a wheel. *)
Lemma mouse_packets_example :
  let s := Hid (EvQ (repeat 0 16) 0 0 false) (EvQ (repeat 0 16) 0 0 false) true in
  exists m' s' h', mouse_interrupts 6 (Ps2Mouse PS2_MOUSE_WITHOUT_WHEEL [0; 0; 0; 0] 0) s (ex_keys [8; 5; 251; 9; 0; 0]) = Ret ((m', s'), h') /\
    queue_is (mouse s') [0x0805fb00; 0x09000000].
Proof.
  intros s. destruct (mouse_packets_queued [[8; 5; 251]; [9; 0; 0]] [] (Ps2Mouse PS2_MOUSE_WITHOUT_WHEEL [0; 0; 0; 0] 0) s (ex_keys [8; 5; 251; 9; 0; 0]) [])
    as (m' & s' & h' & E & _ & _ & Hq & _).
  - repeat constructor; unfold is_u8; lia.
  - done.
  - done.
  - done.
  - apply queue_is_init.
  - unfold zlen. cbn [length]. lia.
  - exists m', s', h'. split; [exact E|exact Hq].
Defined.

(** ** Where the code differs from what it is meant to do *)

(** The key with the code of home (0x47 after the escape) has no character: the maps
    have it at another code. *)
Lemma home_key_is_dead shift : idle shift = true -> decode [0xE0; 0x47] shift = Ret ([0; 0], shift).
Proof.
  intros Hs. unfold idle in Hs. apply existsb_exists in Hs as (x & Hx & E). apply Z.eqb_eq in E as <-.
  assert (H : forallb (fun shift => match decode [0xE0; 0x47] shift with Ret (cs, s) => bool_decide (cs = [0; 0]) && (s =? shift) | _ => false end) (map (fun i => 4 * i) (seqZ 0 16)) = true) by (vm_compute; reflexivity).
  rewrite forallb_forall in H. specialize (H _ Hx). cbn beta in H. destruct (decode [0xE0; 0x47] shift) as [[cs s]| | |]; try done. apply andb_prop in H as [H1 H2]. apply bool_decide_eq_true in H1 as ->.
  by apply Z.eqb_eq in H2 as ->.
Qed.

(** Both shift keys have one bit: with both held, releasing the right one ends the
    shift, and [a] is a small letter though the left one is held. *)
Lemma two_shifts_are_one : decode [0x2A; 0x36; 0xB6; 0x1E] 0 = Ret ([0; 0; 0; 97], 0).
Proof. vm_compute. reflexivity. Qed.
