(* ===== verification/Display.v ===== *)
(** kernel/hal/display.c: framebuffer devices and the display kernel call.

    A driver is an interface: its operations act on the state [W] of the hardware.
    The kernel call takes the address of a structure in the memory of the caller
    and works on it there.

    The theorem bounds the display modes that registering a device derives from
    whatever identification block (EDID) its monitor sends. *)

From stdpp Require Import base list gmap strings.
From Stdlib Require Import ZArith Lia.
From S2P Require Import Prelude Mmu KString Vm UserMem Vfs Proc Hid Console.

Local Open Scope Z_scope.
Local Open Scope outcome_scope.

(** ** State *)

Definition HAL_DISPLAY_MAX : nat := 8.

(** Registered drivers [D] and the hardware [W] they drive; operations a driver
    may leave out are [None]. *)
Class FramebufferDriver (D W : Type) := {
  drv_enable : D -> Z -> Z -> Z -> W -> outcome (Z * W);
  drv_disable : D -> Z -> W -> outcome W;
  drv_update : D -> option (Z -> W -> outcome W);
  drv_read_edid : D -> option (Z -> list Z -> Z -> W -> outcome (Z * list Z * W))
}.

(** What [read_edid] does for a device that is set up: it returns, storing bytes in
    the buffer it is given. *)
Class FramebufferLaws (D W : Type) `{FramebufferDriver D W} := {
  drv_ready : D -> Z -> W -> Prop;
  read_edid_ok d rd priv buf n w : drv_ready d priv w -> drv_read_edid d = Some rd -> zlen buf = n -> Forall is_u8 buf ->
    exists r buf' w', rd priv buf n w = Ret (r, buf', w') /\ zlen buf' = n /\ Forall is_u8 buf'
}.

Record FramebufferDevice (D : Type) := FbDev {
  fb_driver : option D;
  fb_name : option (list Z);
  fb_private : Z;
  preferred_xres : Z;
  preferred_yres : Z;
  maximum_xres : Z;
  maximum_yres : Z
}.
Arguments FbDev {D}.
Arguments fb_driver {D}.
Arguments fb_name {D}.
Arguments fb_private {D}.
Arguments preferred_xres {D}.
Arguments preferred_yres {D}.
Arguments maximum_xres {D}.
Arguments maximum_yres {D}.

Inductive boot_mode := BOOT_GRAPHICS_MODE_VGA_TEXT | BOOT_GRAPHICS_MODE_FRAMEBUFFER | BOOT_GRAPHICS_MODE_HEADLESS.

Record BootGraphicsMode := BootMode { bg_mode : boot_mode; bg_width : Z; bg_height : Z; bg_fb_addr : Z }.

(** The kernel, the console, the hardware and the devices. *)
Record displays (A P S D W : Type) := Displays {
  dk : kernel A P S;
  dcons : console;
  dhw : W;
  framebuffer_device : list (FramebufferDevice D);
  boot_graphics_mode : BootGraphicsMode
}.
Arguments Displays {A P S D W}.
Arguments dk {A P S D W}.
Arguments dcons {A P S D W}.
Arguments dhw {A P S D W}.
Arguments framebuffer_device {A P S D W}.
Arguments boot_graphics_mode {A P S D W}.

(** ** Messages *)

Fixpoint text (s : string) : list Z :=
  match s with
  | EmptyString => []
  | String c s' => Z.of_N (Ascii.N_of_ascii c) :: text s'
  end.

(** A string literal, and one that ends a line. *)
Definition literal (s : string) : list Z := text s ++ [0].
Definition line (s : string) : list Z := text s ++ [10; 0].

Definition BOOL2SIGN (b : bool) : list Z := if b then literal "+" else literal "-".

(** ** EDID *)

Section edid.
Context {D : Type}.

Local Notation device := (FramebufferDevice D).

Definition set_maximum (dev : device) (x y : Z) : device :=
  FbDev (fb_driver dev) (fb_name dev) (fb_private dev) (preferred_xres dev) (preferred_yres dev) x y.
Definition set_preferred (dev : device) (x y : Z) : device :=
  FbDev (fb_driver dev) (fb_name dev) (fb_private dev) x y (maximum_xres dev) (maximum_yres dev).

Definition edid_std_aspect : list (Z * Z) := [(16, 10); (4, 3); (5, 4); (16, 9)].

(** One standard timing. *)
Definition std_timing (edid : list Z) (i : Z) (dev : device) : outcome device :=
  x_resolution <- of_option (zget edid (38 + i * 2)) ;;
  aspect <- of_option (zget edid (38 + i * 2 + 1)) ;;
  if x_resolution =? 0 then Ret dev else
  if (x_resolution =? 1) && (aspect =? 1) then Ret dev else
  '(ax, ay) <- of_option (zget edid_std_aspect (Z.land (Z.shiftr aspect 6) 3)) ;;
  let x := u32 ((x_resolution + 31) * 8) in
  let y := u32 (Z.quot ((x_resolution + 31) * 8) ax * ay) in
  Ret (if (maximum_xres dev <=? x) && (maximum_yres dev <=? y) then set_maximum dev x y else dev).

(** Twelve bits, four of them in the high half of another byte. *)
Definition active (low misc : Z) : Z := u32 (Z.lor low (Z.shiftl (Z.shiftr misc 4) 8)).

(** One detailed timing. *)
Definition detail_timing (edid : list Z) (i : Z) (dev : device) : outcome device :=
  let at_ := 54 + i * 18 in
  pixel_clock <- copy_from edid at_ 2 ;;
  if le_val pixel_clock =? 0 then Ret dev else
  ha <- of_option (zget edid (at_ + 2)) ;;
  hm <- of_option (zget edid (at_ + 4)) ;;
  va <- of_option (zget edid (at_ + 5)) ;;
  vm <- of_option (zget edid (at_ + 7)) ;;
  let x := active ha hm in
  let y := active va vm in
  Ret (if (preferred_xres dev <=? x) && (preferred_yres dev <=? y) then set_preferred dev x y else dev).

Fixpoint timings (f : Z -> device -> outcome device) (l : list Z) (dev : device) : outcome device :=
  match l with
  | [] => Ret dev
  | i :: l' => dev' <- f i dev ;; timings f l' dev'
  end.

(** The modes the timings of the block give a device. *)
Definition edid_modes (edid : list Z) (dev : device) : outcome device :=
  dev1 <- timings (std_timing edid) (seqZ 0 8) dev ;;
  dev2 <- timings (detail_timing edid) (seqZ 0 4) dev1 ;;
  Ret (if (maximum_xres dev2 <=? preferred_xres dev2) && (maximum_yres dev2 <=? preferred_yres dev2)
       then set_maximum dev2 (preferred_xres dev2) (preferred_yres dev2) else dev2).

(** The letters of the vendor in the two bytes of its code. *)
Definition edid_vendor (b8 b9 : Z) : list Z :=
  let pnpid := Z.lor (Z.shiftl b8 8) b9 in
  [Z.land (Z.shiftr pnpid 10) 31 + 65 - 1; Z.land (Z.shiftr pnpid 5) 31 + 65 - 1; Z.land pnpid 31 + 65 - 1; 0].

Definition edid_video_inf : list (option (list Z)) :=
  [Some (literal "undefined"); None; Some (literal "HDMIa"); Some (literal "HDMIb"); Some (literal "MDDI"); Some (literal "DisplayPort")].

Definition EDID_HEADER : Z := 0x00ffffffffffff00.
End edid.

(** ** Operations *)

Section operations.
Context {A P S D W : Type} `{PageAllocator A} `{FilesystemDriver P S} `{FramebufferDriver D W}.
(** Contents of fresh pages and of the buffer on the stack, the font. *)
Variable junk : list Z.
Variable edid0 : list Z.
Variable font16 : list Z.

Local Notation state := (displays A P S D W).
Local Notation device := (FramebufferDevice D).

Definition with_dk (s : state) (k : kernel A P S) : state := Displays k (dcons s) (dhw s) (framebuffer_device s) (boot_graphics_mode s).
Definition with_dcons (s : state) (c : console) : state := Displays (dk s) c (dhw s) (framebuffer_device s) (boot_graphics_mode s).
Definition with_dhw (s : state) (w : W) : state := Displays (dk s) (dcons s) w (framebuffer_device s) (boot_graphics_mode s).
Definition with_devices (s : state) (l : list device) : state := Displays (dk s) (dcons s) (dhw s) l (boot_graphics_mode s).

Definition print (fmt : list Z) (args : list vararg) (s : state) : outcome state :=
  c <- cprintf font16 fmt args (dcons s) ;; Ret (with_dcons s c).

Fixpoint hal_display_alloc_dev (l : list device) : option Z :=
  match l with
  | [] => None
  | dev :: l' => match fb_driver dev with None => Some 0 | Some _ => (fun i => i + 1) <$> hal_display_alloc_dev l' end
  end.

(** The message about a monitor. *)
Definition print_monitor (edid : list Z) (s : state) : outcome state :=
  b8 <- of_option (zget edid 8) ;;
  b9 <- of_option (zget edid 9) ;;
  b18 <- of_option (zget edid 18) ;;
  b19 <- of_option (zget edid 19) ;;
  b20 <- of_option (zget edid 20) ;;
  let vendor := edid_vendor b8 b9 in
  if negb (Z.land b20 128 =? 0) then
    inf <- of_option (zget edid_video_inf (Z.land b20 15)) ;;
    print (line "[hal] Monitor %s digital %s edid ver %d.%d") [VStr (Some vendor); VStr inf; VWord b18; VWord b19] s
  else print (line "[hal] Monitor %s analog edid ver %d.%d") [VStr (Some vendor); VWord b18; VWord b19] s.

(** What the monitor makes of a device. *)
Definition read_monitor (edid : list Z) (dev : device) (s : state) : outcome (device * state) :=
  hd <- copy_from edid 0 8 ;;
  if negb (le_val hd =? EDID_HEADER) then s1 <- print (line "[hal] invaild edid header") [] s ;; Ret (dev, s1) else
  s1 <- print_monitor edid s ;;
  dev1 <- edid_modes edid dev ;;
  s2 <- print (line "[hal] Monitor display xres %d yres %d max xres %d yres %d")
    [VWord (preferred_xres dev1); VWord (preferred_yres dev1); VWord (maximum_xres dev1); VWord (maximum_yres dev1)] s1 ;;
  Ret (dev1, s2).

Definition hal_display_register_device (name : option (list Z)) (private : Z) (driver : D) (s : state) : outcome state :=
  match hal_display_alloc_dev (framebuffer_device s) with
  | None => Panic "too many display device"
  | Some devid =>
    s1 <- print (line "[hal] Display device %d %s update%s edid%s")
      [VWord devid; VStr name; VStr (Some (BOOL2SIGN (bool_decide (is_Some (drv_update driver)))));
       VStr (Some (BOOL2SIGN (bool_decide (is_Some (drv_read_edid driver)))))] s ;;
    let dev := FbDev (Some driver) name private 1024 768 1920 1080 in
    '(dev1, s2) <- match drv_read_edid driver with
                   | None => Ret (dev, s1)
                   | Some read_edid =>
                     '(n, edid, w) <- read_edid private edid0 128 (dhw s1) ;;
                     let s2 := with_dhw s1 w in
                     if negb (n =? 128) then Ret (dev, s2) else read_monitor edid dev s2
                   end ;;
    l <- of_option (zset (framebuffer_device s2) devid dev1) ;;
    Ret (with_devices s2 l)
  end.

(** *** The kernel call *)

Definition DISPLAY_KCALL_FLAG_NEED_UPDATE : Z := 1.
Definition DISPLAY_ID_BOOT_FRAMEBUFFER : Z := 0xB005FB.

(** Offsets in [struct DisplayKcall]. *)
Definition dc_op : Z := 0.
Definition dc_str : Z := 4.
Definition dc_display_id : Z := 8.
Definition dc_xres : Z := 12.
Definition dc_yres : Z := 16.
Definition dc_flag : Z := 20.
Definition dc_framebuffer : Z := 24.

Definition load (cur a : Z) (s : state) : outcome Z :=
  p <- get_proc (dk s) cur ;; w <- vint (frames (kvm (dk s))) (p_pgdir p) (u32 a) ;; Ret (u32 w).

Definition store (cur a : Z) (bs : list Z) (s : state) : outcome state :=
  p <- get_proc (dk s) cur ;;
  f <- vwrite bs (frames (kvm (dk s))) (p_pgdir p) (u32 a) ;;
  Ret (with_dk s (with_vm (dk s) (with_frames (kvm (dk s)) f))).

Definition store32 (cur a w : Z) (s : state) : outcome state := store cur a (le_bytes 4 w) s.

(** The framebuffer in the memory of the caller; the result is not looked at. *)
Definition map_framebuffer (cur fb : Z) (s : state) : outcome state :=
  p <- get_proc (dk s) cur ;;
  '(_, v) <- mappages junk (p_pgdir p) PROC_MMAP_BOTTOM (16 * 1024 * 1024) fb (Z.lor PTE_U PTE_W) (kvm (dk s)) ;;
  Ret (with_dk s (with_vm (dk s) v)).

Definition hal_display_modeswitch (cur : Z) (dev : device) (xres yres : Z) (s : state) : outcome (Z * state) :=
  d <- of_option (fb_driver dev) ;;
  '(fb, w) <- drv_enable d (fb_private dev) (s32 xres) (s32 yres) (dhw s) ;;
  s1 <- map_framebuffer cur fb (with_dhw s w) ;;
  Ret (PROC_MMAP_BOTTOM, s1).

Definition is_boot_framebuffer (id : Z) (s : state) : bool :=
  (id =? DISPLAY_ID_BOOT_FRAMEBUFFER) &&
  match bg_mode (boot_graphics_mode s) with BOOT_GRAPHICS_MODE_FRAMEBUFFER => true | _ => false end.

Definition mode_refused (dev : device) (xres yres : Z) : bool := (maximum_xres dev <? xres) || (maximum_yres dev <? yres).

Definition kcall_enable (cur dc id : Z) (s : state) : outcome (Z * state) :=
  if is_boot_framebuffer id s then
    s1 <- map_framebuffer cur (bg_fb_addr (boot_graphics_mode s)) s ;;
    s2 <- store32 cur (dc + dc_framebuffer) PROC_MMAP_BOTTOM s1 ;;
    s3 <- store32 cur (dc + dc_flag) 0 s2 ;; Ret (0, s3)
  else
    dev <- of_option (zget (framebuffer_device s) id) ;;
    match fb_driver dev with
    | None => Ret (ERROR_NOT_EXIST, s)
    | Some d =>
      xres <- load cur (dc + dc_xres) s ;;
      yres <- load cur (dc + dc_yres) s ;;
      if mode_refused dev xres yres then Ret (ERROR_INVAILD, s) else
      '(fb, s1) <- hal_display_modeswitch cur dev xres yres s ;;
      s2 <- store32 cur (dc + dc_framebuffer) fb s1 ;;
      s3 <- store32 cur (dc + dc_flag) 0 s2 ;;
      s4 <- (if bool_decide (is_Some (drv_update d)) then store32 cur (dc + dc_flag) DISPLAY_KCALL_FLAG_NEED_UPDATE s3 else Ret s3) ;;
      Ret (0, s4)
    end.

Definition kcall_disable (id : Z) (s : state) : outcome (Z * state) :=
  if is_boot_framebuffer id s then
    s1 <- print (literal "[display] boot-framebuffer disable unsupported") [] s ;; Ret (ERROR_INVAILD, s1)
  else
    dev <- of_option (zget (framebuffer_device s) id) ;;
    match fb_driver dev with
    | None => Ret (ERROR_INVAILD, s)
    | Some d => w <- drv_disable d (fb_private dev) (dhw s) ;; Ret (0, with_dhw s w)
    end.

(** The first device with a driver. *)
Fixpoint find_display (l : list device) : option Z :=
  match l with
  | [] => None
  | dev :: l' => match fb_driver dev with Some _ => Some 0 | None => (fun i => i + 1) <$> find_display l' end
  end.

Definition kcall_find (cur dc : Z) (s : state) : outcome (Z * state) :=
  match find_display (framebuffer_device s) with
  | Some i => s1 <- store32 cur (dc + dc_display_id) i s ;; Ret (0, s1)
  | None =>
    match bg_mode (boot_graphics_mode s) with
    | BOOT_GRAPHICS_MODE_FRAMEBUFFER => s1 <- store32 cur (dc + dc_display_id) DISPLAY_ID_BOOT_FRAMEBUFFER s ;; Ret (0, s1)
    | _ => Ret (ERROR_NOT_EXIST, s)
    end
  end.

Definition kcall_get_preferred (cur dc id : Z) (s : state) : outcome (Z * state) :=
  if is_boot_framebuffer id s then
    s1 <- store32 cur (dc + dc_xres) (bg_width (boot_graphics_mode s)) s ;;
    s2 <- store32 cur (dc + dc_yres) (bg_height (boot_graphics_mode s)) s1 ;; Ret (0, s2)
  else
    dev <- of_option (zget (framebuffer_device s) id) ;;
    match fb_driver dev with
    | None => Ret (ERROR_NOT_EXIST, s)
    | Some _ =>
      s1 <- store32 cur (dc + dc_xres) (preferred_xres dev) s ;;
      s2 <- store32 cur (dc + dc_yres) (preferred_yres dev) s1 ;; Ret (0, s2)
    end.

Definition kcall_update (id : Z) (s : state) : outcome (Z * state) :=
  if is_boot_framebuffer id s then
    s1 <- print (literal "[display] boot-framebuffer update unsupported") [] s ;; Ret (ERROR_INVAILD, s1)
  else
    dev <- of_option (zget (framebuffer_device s) id) ;;
    match fb_driver dev ≫= drv_update with
    | None => Ret (ERROR_NOT_EXIST, s)
    | Some update => w <- update (fb_private dev) (dhw s) ;; Ret (0, with_dhw s w)
    end.

Definition kcall_get_name (cur dc id : Z) (s : state) : outcome (Z * state) :=
  if is_boot_framebuffer id s then
    str <- load cur (dc + dc_str) s ;;
    bs <- of_option (strncpy (literal "boot-framebuffer") 64) ;;
    s1 <- store cur str bs s ;; Ret (0, s1)
  else
    dev <- of_option (zget (framebuffer_device s) id) ;;
    match fb_driver dev, fb_name dev with
    | Some _, Some name =>
      str <- load cur (dc + dc_str) s ;;
      bs <- of_option (strncpy name 64) ;;
      s1 <- store cur str bs s ;; Ret (0, s1)
    | _, _ => Ret (ERROR_NOT_EXIST, s)
    end.

Definition hal_display_kcall_handler (cur dc : Z) (s : state) : outcome (Z * state) :=
  op <- load cur (dc + dc_op) s ;;
  if op =? 2 then kcall_find cur dc s else
  if 5 <? op then Ret (ERROR_INVAILD, s) else
  id <- load cur (dc + dc_display_id) s ;;
  if op =? 0 then kcall_enable cur dc id s else
  if op =? 1 then kcall_disable id s else
  if op =? 3 then kcall_get_preferred cur dc id s else
  if op =? 4 then kcall_update id s else
  kcall_get_name cur dc id s.

Definition no_device : device := FbDev None None 0 0 0 0 0.

Definition hal_display_init {Hd} (handler : Hd) (t : list (KCallTable Hd)) (s : state) : outcome (state * list (KCallTable Hd)) :=
  t1 <- kcall_set (literal "display") (Some handler) t ;;
  Ret (with_devices s (repeat no_device HAL_DISPLAY_MAX), t1).
End operations.

(** ** Bounds *)

(** Modes between the least a monitor must show and what twelve bits hold. *)
Definition modes_ok {D} (dev : FramebufferDevice D) : Prop :=
  1024 <= preferred_xres dev <= 4095 /\ 768 <= preferred_yres dev <= 4095 /\
  1920 <= maximum_xres dev <= 4095 /\ 1080 <= maximum_yres dev <= 4095.

Definition same_device {D} (dev dev' : FramebufferDevice D) : Prop :=
  fb_driver dev' = fb_driver dev /\ fb_name dev' = fb_name dev /\ fb_private dev' = fb_private dev.

(** A monitor whose interface, if it is digital, has an entry in the table of six
    names; a block without the header is not looked at.  The others bring the
    kernel down ([digital_interface_overruns]). *)
Definition interface_known (edid : list Z) : Prop := le_val (slice 0 8 edid) = EDID_HEADER -> forall b, zget edid 20 = Some b -> Z.land b 128 = 0 \/ Z.land b 15 <= 5.

Definition is_string (s : option (list Z)) : Prop := arg_ok (VStr s).

Lemma sign_ok b : arg_ok (VStr (Some (BOOL2SIGN b))).
Proof. destruct b; reflexivity. Qed.

Section edid_bounds.
Context {D : Type}.
Variable edid : list Z.
Hypothesis edid_size : zlen edid = 128.
Hypothesis edid_bytes : Forall is_u8 edid.

Local Notation device := (FramebufferDevice D).

Lemma edid_byte i : 0 <= i < 128 -> exists b, zget edid i = Some b /\ 0 <= b < 256.
Proof.
  intros Hi. destruct (zget_is_Some edid i) as [b Hb]; [lia|]. exists b. split; [done|].
  apply zget_lookup in Hb as [_ Hb]. exact (Forall_lookup_1 _ _ _ _ edid_bytes Hb).
Qed.

Lemma std_timing_ok i (dev : device) : 0 <= i < 8 -> modes_ok dev ->
  exists dev', std_timing edid i dev = Ret dev' /\ modes_ok dev' /\ same_device dev dev'.
Proof.
  intros Hi Hd. unfold std_timing. destruct (edid_byte (38 + i * 2)) as (x & -> & Hx); [lia|].
  destruct (edid_byte (38 + i * 2 + 1)) as (y & -> & Hy); [lia|]. cbn [of_option obind].
  destruct (x =? 0); [by exists dev|]. destruct ((x =? 1) && (y =? 1)); [by exists dev|].
  assert (Ha : 0 <= Z.land (Z.shiftr y 6) 3 < 4) by (change 3 with (Z.ones 2); rewrite Z.land_ones by lia; apply Z.mod_pos_bound; lia).
  assert (Hasp : exists ax ay, zget edid_std_aspect (Z.land (Z.shiftr y 6) 3) = Some (ax, ay) /\ 0 < ay < ax).
  { assert (In (Z.land (Z.shiftr y 6) 3) (seqZ 0 4)) as Hin by (apply list_elem_of_In, elem_of_seqZ; lia).
    revert Hin. cbn. intros Hin. repeat destruct Hin as [<-|Hin]; [do 2 eexists; (split; [reflexivity|lia])..|done]. }
  destruct Hasp as (ax & ay & -> & Hr). cbn [of_option obind]. pose proof (Z.quot_div_nonneg ((x + 31) * 8) ax ltac:(lia) ltac:(lia)) as ->.
  assert (0 <= (x + 31) * 8 / ax * ay <= 2288) by (split; [apply Z.mul_nonneg_nonneg; [apply Z.div_pos; lia|lia]|];
    pose proof (Z.mul_div_le ((x + 31) * 8) ax ltac:(lia)); pose proof (Z.div_pos ((x + 31) * 8) ax ltac:(lia) ltac:(lia)); nia).
  rewrite !u32_small by (unfold is_u32; lia). eexists. split; [done|]. unfold modes_ok, same_device in *.
  destruct (Z.leb_spec (maximum_xres dev) ((x + 31) * 8)), (Z.leb_spec (maximum_yres dev) ((x + 31) * 8 / ax * ay)); cbn; (split; [lia|done]).
Qed.

Lemma active_range low misc : 0 <= low < 256 -> 0 <= misc < 256 -> 0 <= active low misc <= 4095.
Proof.
  intros Hl Hm. unfold active. rewrite Z.shiftr_div_pow2, Z.shiftl_mul_pow2 by lia.
  pose proof (lor_small low (misc / 2 ^ 4 * 2 ^ 8) ltac:(lia) ltac:(Z.div_mod_to_equations; lia)).
  rewrite u32_small by (unfold is_u32; lia). lia.
Qed.

Lemma detail_timing_ok i (dev : device) : 0 <= i < 4 -> modes_ok dev ->
  exists dev', detail_timing edid i dev = Ret dev' /\ modes_ok dev' /\ same_device dev dev'.
Proof.
  intros Hi Hd. unfold detail_timing. rewrite copy_from_ok by lia. cbn [obind]. destruct (_ =? 0); [by exists dev|].
  destruct (edid_byte (54 + i * 18 + 2)) as (ha & -> & Hha); [lia|]. destruct (edid_byte (54 + i * 18 + 4)) as (hm & -> & Hhm); [lia|].
  destruct (edid_byte (54 + i * 18 + 5)) as (va & -> & Hva); [lia|]. destruct (edid_byte (54 + i * 18 + 7)) as (vm & -> & Hvm); [lia|].
  cbn [of_option obind]. pose proof (active_range ha hm Hha Hhm). pose proof (active_range va vm Hva Hvm).
  eexists. split; [done|]. unfold modes_ok, same_device in *.
  destruct (Z.leb_spec (preferred_xres dev) (active ha hm)), (Z.leb_spec (preferred_yres dev) (active va vm)); cbn; (split; [lia|done]).
Qed.

Lemma timings_ok f l : (forall i dev, i ∈ l -> modes_ok dev -> exists dev', f i dev = Ret dev' /\ modes_ok dev' /\ same_device dev dev') ->
  forall dev : device, modes_ok dev -> exists dev', timings f l dev = Ret dev' /\ modes_ok dev' /\ same_device dev dev'.
Proof.
  induction l as [|i l IH]; intros Hf dev Hd; cbn [timings]; [by exists dev|].
  destruct (Hf i dev ltac:(by left) Hd) as (dev1 & -> & H1 & S1). cbn [obind].
  destruct (IH (fun j d Hj => Hf j d ltac:(by right)) dev1 H1) as (dev2 & -> & H2 & S2). exists dev2. split; [done|]. split; [done|].
  unfold same_device in *. intuition congruence.
Qed.

Lemma edid_modes_ok (dev : device) : modes_ok dev -> exists dev', edid_modes edid dev = Ret dev' /\ modes_ok dev' /\ same_device dev dev'.
Proof.
  intros Hd. unfold edid_modes.
  destruct (timings_ok (std_timing edid) (seqZ 0 8)) with (dev := dev) as (dev1 & -> & H1 & S1); [|done|].
  { intros i d Hi. apply elem_of_seqZ in Hi. apply std_timing_ok. lia. }
  cbn [obind]. destruct (timings_ok (detail_timing edid) (seqZ 0 4)) with (dev := dev1) as (dev2 & -> & H2 & S2); [|done|].
  { intros i d Hi. apply elem_of_seqZ in Hi. apply detail_timing_ok. lia. }
  cbn [obind]. eexists. split; [done|]. unfold modes_ok, same_device in *.
  destruct (Z.leb_spec (maximum_xres dev2) (preferred_xres dev2)), (Z.leb_spec (maximum_yres dev2) (preferred_yres dev2)); cbn; (split; [lia|intuition congruence]).
Qed.
End edid_bounds.

Section registration.
Context {A P S D W : Type} `{PageAllocator A} `{FilesystemDriver P S} `{FramebufferLaws D W}.
Variable edid0 font16 : list Z.
Hypothesis edid0_size : zlen edid0 = 128.
Hypothesis edid0_bytes : Forall is_u8 edid0.

Local Notation state := (displays A P S D W).

(** States that differ in what the console shows. *)
Definition printed (s s' : state) : Prop :=
  printable (dcons s') /\ dk s' = dk s /\ framebuffer_device s' = framebuffer_device s /\ dhw s' = dhw s.

Lemma print_ok fmt args (s : state) : printable (dcons s) -> well_typed fmt FPlain (map kind_of args) = true -> Forall arg_ok args ->
  exists s', print font16 fmt args s = Ret s' /\ printed s s'.
Proof.
  intros Hp Ht Ha. unfold print. destruct (cprintf_ok font16 fmt args (dcons s) Hp Ht Ha) as (c & -> & Hc & _). cbn [obind]. by eexists.
Qed.

Lemma printed_trans (s s1 s2 : state) : printed s s1 -> printed s1 s2 -> printed s s2.
Proof. unfold printed. intuition congruence. Qed.

Lemma alloc_dev_ok (l : list (FramebufferDevice D)) devid : hal_display_alloc_dev l = Some devid ->
  0 <= devid < zlen l /\ exists dev, zget l devid = Some dev /\ fb_driver dev = None.
Proof.
  revert devid. induction l as [|dev l IH]; intros devid; cbn [hal_display_alloc_dev]; [done|]. destruct (fb_driver dev) eqn:E.
  - intros (i & Hi & ->)%fmap_Some. destruct (IH i Hi) as [Hr (dev' & Hg & Hd)]. split; [unfold zlen in *; cbn [length]; lia|]. exists dev'. split; [|done].
    apply zget_lookup in Hg as [Hi0 Hg]. apply zget_lookup. split; [lia|]. by replace (Z.to_nat (i + 1)) with (Datatypes.S (Z.to_nat i)) by lia.
  - intros [= <-]. split; [unfold zlen; cbn [length]; lia|]. by exists dev.
Qed.

Lemma print_monitor_ok edid (s : state) : zlen edid = 128 -> Forall is_u8 edid -> interface_known edid -> le_val (slice 0 8 edid) = EDID_HEADER -> printable (dcons s) ->
  exists s', print_monitor font16 edid s = Ret s' /\ printed s s'.
Proof.
  intros Hl Hb Hi Hh Hp. unfold print_monitor.
  destruct (edid_byte edid Hl Hb 8) as (b8 & -> & R8); [lia|]. destruct (edid_byte edid Hl Hb 9) as (b9 & -> & R9); [lia|].
  destruct (edid_byte edid Hl Hb 18) as (b18 & -> & _); [lia|]. destruct (edid_byte edid Hl Hb 19) as (b19 & -> & _); [lia|].
  destruct (edid_byte edid Hl Hb 20) as (b20 & E20 & R20); [lia|]. rewrite E20. cbn [of_option obind].
  assert (Hv : existsb (Z.eqb 0) (edid_vendor b8 b9) = true) by (apply existsb_exists; exists 0; split; [right; right; right; by left|done]).
  destruct (Z.eqb_spec (Z.land b20 128) 0) as [E|E]; cbn [negb].
  - apply print_ok; [done|by vm_compute|by repeat constructor].
  - destruct (Hi Hh _ E20) as [|Hr]; [done|]. assert (R : 0 <= Z.land b20 15) by (apply Z.land_nonneg; lia).
    assert (exists inf, zget edid_video_inf (Z.land b20 15) = Some inf /\ is_string inf) as (inf & -> & Hinf).
    { assert (In (Z.land b20 15) (seqZ 0 6)) as Hin by (apply list_elem_of_In, elem_of_seqZ; lia).
      revert Hin. cbn [seqZ]. cbn -[Z.land]. intros Hin. repeat destruct Hin as [<-|Hin]; [eexists; (split; [reflexivity|done])..|done]. }
    cbn [of_option obind]. apply print_ok; [done|by vm_compute|by repeat constructor].
Qed.

Lemma read_monitor_ok edid dev (s : state) : zlen edid = 128 -> Forall is_u8 edid -> interface_known edid -> printable (dcons s) -> modes_ok dev ->
  exists dev' s', read_monitor font16 edid dev s = Ret (dev', s') /\ modes_ok dev' /\ same_device dev dev' /\ printed s s'.
Proof.
  intros Hl Hb Hi Hp Hd. unfold read_monitor. rewrite copy_from_ok by lia. cbn [obind]. destruct (Z.eqb_spec (le_val (slice 0 8 edid)) EDID_HEADER) as [Hh|Hh]; cbn [negb].
  2: { destruct (print_ok (line "[hal] invaild edid header") [] s Hp eq_refl (Forall_nil_2 _)) as (s1 & -> & P1). cbn [obind]. by exists dev, s1. }
  destruct (print_monitor_ok edid s Hl Hb Hi Hh Hp) as (s1 & -> & P1). cbn [obind].
  destruct (edid_modes_ok edid Hl Hb dev Hd) as (dev1 & -> & M1 & S1). cbn [obind].
  edestruct (fun fmt args => print_ok fmt args s1) as (s2 & -> & P2); [apply P1|by vm_compute|by repeat constructor|]. cbn [obind].
  exists dev1, s2. eauto using printed_trans.
Qed.

(** A digital interface that is not in the table of names is read behind its end. *)
Lemma digital_interface_overruns edid b (s : state) : zlen edid = 128 -> Forall is_u8 edid -> zget edid 20 = Some b ->
  Z.land b 128 <> 0 -> 5 < Z.land b 15 -> print_monitor font16 edid s = Fault.
Proof.
  intros Hl Hb E20 Hd Hi. unfold print_monitor.
  destruct (edid_byte edid Hl Hb 8) as (b8 & -> & R8); [lia|]. destruct (edid_byte edid Hl Hb 9) as (b9 & -> & R9); [lia|].
  destruct (edid_byte edid Hl Hb 18) as (b18 & -> & _); [lia|]. destruct (edid_byte edid Hl Hb 19) as (b19 & -> & _); [lia|].
  rewrite E20. cbn [of_option obind]. destruct (Z.eqb_spec (Z.land b 128) 0); [done|]. cbn [negb].
  destruct (zget edid_video_inf (Z.land b 15)) eqn:E; [|done]. apply zget_Some in E. change (zlen edid_video_inf) with 6 in E. lia.
Qed.
Lemma read_monitor_overruns edid dev (s : state) : zlen edid = 128 -> Forall is_u8 edid -> ~ interface_known edid -> read_monitor font16 edid dev s = Fault.
Proof.
  intros Hl Hb Hi. destruct (edid_byte edid Hl Hb 20) as (b & E20 & _); [lia|]. unfold read_monitor. rewrite copy_from_ok by lia. cbn [obind].
  destruct (Z.eqb_spec (le_val (slice 0 8 edid)) EDID_HEADER) as [Hh|Hh]; [|exfalso; apply Hi; by intros E]. cbn [negb].
  destruct (decide (Z.land b 128 = 0)) as [E|E]; [exfalso; apply Hi; intros _ b' E'; rewrite E20 in E'; injection E' as <-; by left|].
  destruct (decide (Z.land b 15 <= 5)) as [E'|E']; [exfalso; apply Hi; intros _ b' Eb; rewrite E20 in Eb; injection Eb as <-; by right|].
  by rewrite (digital_interface_overruns edid b s Hl Hb E20) by (done || lia).
Qed.

(** C39: Registering a display: for every device that is set up and every identification
    block its monitor sends whose interface, if it is digital, is one of the six of
    the table, registration returns, takes the first free entry and no other, and
    gives the device a preferred mode between 1024 x 768 and 4095 x 4095 and a
    maximum between 1920 x 1080 and 4095 x 4095.  With any other block it reads
    behind the end of the table of interfaces. *)
Theorem display_modes_bounded name private d (s : state) devid :
  printable (dcons s) -> is_string name -> hal_display_alloc_dev (framebuffer_device s) = Some devid -> drv_ready d private (dhw s) ->
  ((forall rd edid w', drv_read_edid d = Some rd -> rd private edid0 128 (dhw s) = Ret (128, edid, w') -> interface_known edid) ->
   exists s' dev, hal_display_register_device edid0 font16 name private d s = Ret s' /\
    framebuffer_device s' = <[Z.to_nat devid := dev]> (framebuffer_device s) /\ dk s' = dk s /\
    fb_driver dev = Some d /\ fb_name dev = name /\ fb_private dev = private /\ modes_ok dev) /\
  (forall rd edid w', drv_read_edid d = Some rd -> rd private edid0 128 (dhw s) = Ret (128, edid, w') -> ~ interface_known edid ->
   hal_display_register_device edid0 font16 name private d s = Fault).
Proof.
  intros Hp Hn Ha Hrdy. unfold hal_display_register_device. rewrite Ha. destruct (alloc_dev_ok _ _ Ha) as [Hr _].
  set (fmt := line "[hal] Display device %d %s update%s edid%s"). set (args := [VWord devid; _; _; _]).
  destruct (print_ok fmt args s Hp) as (s1 & -> & P1).
  { by vm_compute. }
  { apply Forall_cons_2; [done|]. apply Forall_cons_2; [exact Hn|].
    apply Forall_cons_2; [apply sign_ok|]. apply Forall_cons_2; [apply sign_ok|]. apply Forall_nil_2. }
  cbn [obind]. set (dev0 := FbDev (Some d) name private 1024 768 1920 1080). split.
  2: { intros rd edid w' Erd E Hi. rewrite Erd. destruct P1 as (_ & _ & _ & ->). destruct (read_edid_ok d rd private edid0 128 (dhw s) Hrdy Erd edid0_size edid0_bytes) as (n & edid' & w & E' & Hl & Hb).
       rewrite E in E'. injection E' as <- <- <-. rewrite E. cbn [obind Z.eqb negb]. by rewrite (read_monitor_overruns edid). }
  intros Hi. assert (modes_ok dev0) as M0 by (unfold modes_ok; cbn; lia).
  assert (exists dev s2, match drv_read_edid d with
      | None => Ret (dev0, s1)
      | Some read_edid =>
        '(n, edid, w) <- read_edid private edid0 128 (dhw s1) ;;
        if negb (n =? 128) then Ret (dev0, with_dhw s1 w) else read_monitor font16 edid dev0 (with_dhw s1 w)
      end = Ret (dev, s2) /\ modes_ok dev /\ same_device dev0 dev /\ dk s2 = dk s /\ framebuffer_device s2 = framebuffer_device s) as (dev & s2 & -> & M2 & (E1 & E2 & E3) & Hk & Hf).
  { destruct P1 as (Hp1 & Hk1 & Hf1 & Hw1). destruct (drv_read_edid d) as [rd|] eqn:Erd; [|by exists dev0, s1].
    rewrite Hw1. destruct (read_edid_ok d rd private edid0 128 (dhw s) Hrdy Erd edid0_size edid0_bytes) as (n & edid & w & E & Hl & Hb).
    rewrite E. cbn [obind]. destruct (Z.eqb_spec n 128) as [->|]; cbn [negb]; [|by exists dev0, (with_dhw s1 w)].
    destruct (read_monitor_ok edid dev0 (with_dhw s1 w) Hl Hb (Hi _ _ _ eq_refl E) Hp1 M0) as (dev & s2 & -> & M & Sd & (_ & Hk2 & Hf2 & _)).
    exists dev, s2. cbn in Hk2, Hf2. split; [done|]. split; [done|]. split; [done|]. split; congruence. }
  cbn [obind]. rewrite Hf, zset_Some by done. cbn [of_option obind].
  exists (with_devices s2 (<[Z.to_nat devid := dev]> (framebuffer_device s))), dev. done.
Qed.

End registration.

(** ** Enabling a display *)

Section enabling.
Context {A P S D W : Type} `{AllocatorLaws A} `{FilesystemDriver P S} `{FramebufferDriver D W}.
Variable junk : list Z.
Hypothesis junk_size : zlen junk = PGSIZE.

Local Notation state := (displays A P S D W).

(** Mapping the framebuffer: with the window free in a well-formed table and
    enough frames for the tables, it covers the window with the framebuffer,
    and doing it again in the same process brings the kernel down. *)
Lemma map_framebuffer_twice cur p fb fb' sh n (s : state) : zget (procs (dk s)) cur = Some p ->
  pt_wf (frames (kvm (dk s))) sh (p_pgdir p) -> frames_ok (kvm (dk s)) n -> 8198 <= n -> 0 <= fb -> fb + 16 * 1024 * 1024 <= 2 ^ 32 ->
  (forall va, is_u32 va -> PROC_MMAP_BOTTOM <= PGROUNDDOWN va < PROC_MMAP_BOTTOM + 16 * 1024 * 1024 -> pte_of (frames (kvm (dk s))) (p_pgdir p) va = None) ->
  exists s', map_framebuffer junk cur fb s = Ret s' /\
    mapped (frames (kvm (dk s))) (frames (kvm (dk s'))) (p_pgdir p) PROC_MMAP_BOTTOM (PROC_MMAP_BOTTOM + 16 * 1024 * 1024 - PGSIZE) fb (Z.lor PTE_U PTE_W) /\
    map_framebuffer junk cur fb' s' = Panic "remap".
Proof.
  intros Hp Hwf Hf Hn Hfb Hfb32 Hnone. unfold map_framebuffer at 1, get_proc. rewrite Hp. cbn [of_option obind].
  assert (Hlast : PGROUNDDOWN (PROC_MMAP_BOTTOM + 16 * 1024 * 1024 - 1) = PROC_MMAP_BOTTOM + 16 * 1024 * 1024 - PGSIZE) by reflexivity.
  assert (Hfirst : PGROUNDDOWN PROC_MMAP_BOTTOM = PROC_MMAP_BOTTOM) by reflexivity.
  destruct (mappages_ok junk junk_size (kvm (dk s)) sh (p_pgdir p) PROC_MMAP_BOTTOM (16 * 1024 * 1024) n fb (Z.lor PTE_U PTE_W))
    as (v & sh' & n' & -> & Hwf' & Hf' & Hn' & _ & _ & Hm);
    [done|done|change (Z.lor PTE_U PTE_W) with 6; lia|unfold PROC_MMAP_BOTTOM; lia|lia|unfold PROC_MMAP_BOTTOM; lia|lia|rewrite Hlast, Hfirst; unfold PGSIZE; lia|
     change (16 * 1024 * 1024 / PGSIZE) with 4096; lia| |].
  { rewrite Hlast, Hfirst. intros va Hva Hr. apply Hnone; [done|]. unfold PGSIZE in *. lia. }
  rewrite Hlast, Hfirst in Hm. cbn [obind]. eexists. split; [done|]. split; [exact Hm|].
  unfold map_framebuffer, get_proc. cbn [with_dk dk with_vm procs kvm]. rewrite Hp. cbn [of_option obind].
  assert (He : pte_of (frames v) (p_pgdir p) PROC_MMAP_BOTTOM = Some (pte_val (fb + (PROC_MMAP_BOTTOM - PROC_MMAP_BOTTOM)) (Z.lor PTE_U PTE_W))).
  { rewrite Hm by (unfold is_u32, PROC_MMAP_BOTTOM; lia). rewrite Hfirst. apply decide_True. unfold PROC_MMAP_BOTTOM, PGSIZE. lia. }
  unfold mappages. rewrite Hfirst. change (16 * 1024 * 1024 / PGSIZE) with 4096 in Hn'.
  destruct (page_count _ _) as [|k]; cbn [mappages_loop]; (rewrite (map_page_remaps junk junk_size v sh' _ _ n' _ _ _ Hwf' Hf' ltac:(lia) He); done).
Qed.
End enabling.

(** An identification block with one detailed timing, upright at 1080 x 1920. *)
Definition ex_edid : list Z :=
  [0; 255; 255; 255; 255; 255; 255; 0; 30; 109] ++ repeat 0 8 ++ [1; 4; 128] ++ repeat 0 17 ++ repeat 1 16 ++
  [1; 1; 56; 0; 64; 128; 0; 112] ++ repeat 0 66.

(** The preferred mode of such a monitor is one that enabling it refuses: the
    maximum is raised only by a mode that is larger both ways. *)
Lemma preferred_mode_refused : exists dev, edid_modes ex_edid (FbDev (D := unit) (Some tt) None 0 1024 768 1920 1080) = Ret dev /\
  mode_refused dev (preferred_xres dev) (preferred_yres dev) = true.
Proof. eexists. split; vm_compute; reflexivity. Qed.

(** A driver whose hardware is the identification block it sends. *)
#[local] Instance ex_driver : FramebufferDriver unit (list Z) := {
  drv_enable _ _ _ _ w := Ret (0xfd000000, w);
  drv_disable _ _ w := Ret w;
  drv_update _ := None;
  drv_read_edid _ := Some (fun _ buf n w => if (zlen w =? n) && forallb (fun b => (0 <=? b) && (b <? 256)) w then Ret (n, w, w) else Ret (0, buf, w))
}.

#[local, refine] Instance ex_driver_laws : FramebufferLaws unit (list Z) := { drv_ready _ _ _ := True }.
Proof.
  intros d rd priv buf n w _ [= <-] Hb Hu. destruct (Z.eqb_spec (zlen w) n); cbn [andb]; [|by exists 0, buf, w].
  destruct (forallb _ w) eqn:E; [|by exists 0, buf, w]. exists n, w, w. split; [done|]. split; [done|]. apply Forall_forall. intros b Hbw.
  apply list_elem_of_In in Hbw. apply (proj1 (forallb_forall _ _) E) in Hbw. unfold is_u8. lia.
Defined.

Lemma display_modes_bounded_witness : exists s' dev,
  hal_display_register_device (repeat 0 128) [] None 0 tt
    (Displays (ex_kernel RUNNING ChanNull RUNNABLE empty_queue) ex_console ex_edid (repeat no_device HAL_DISPLAY_MAX)
      (BootMode BOOT_GRAPHICS_MODE_VGA_TEXT 0 0 0)) = Ret s' /\
  framebuffer_device s' !! 0%nat = Some dev /\ modes_ok dev.
Proof.
  destruct (display_modes_bounded (repeat 0 128) [] eq_refl ltac:(repeat constructor; done) None 0 tt
    (Displays (ex_kernel RUNNING ChanNull RUNNABLE empty_queue) ex_console ex_edid (repeat no_device HAL_DISPLAY_MAX)
      (BootMode BOOT_GRAPHICS_MODE_VGA_TEXT 0 0 0)) 0) as [Hok _];
    [exact ex_console_printable|reflexivity|reflexivity|exact I|].
  destruct Hok as (s' & dev & Hr & Hf & _ & _ & _ & _ & Hm).
  - intros rd edid w' [= <-] E _ b Hb. injection E as <- <-. injection Hb as <-. by right.
  - exists s', dev. split; [exact Hr|]. split; [rewrite Hf; reflexivity|exact Hm].
Defined.
