(* ===== verification/VirtGpu.v ===== *)
(** module/virtgpu: the driver of virtio graphics adapters, a loadable module.

    A display is a resource of the adapter, which has pixels in memory of the driver and is
    shown on a head (a scanout).  Each command is a chain in the control queue of
    [Virtio], with pages from the allocator for the request and the answer; the driver waits for the
    answer in a loop.  The adapter is a parameter: what it does between two looks at
    the queue.  What the virtio specification says the commands do is
    [gpu_does], and the law of an adapter is that it does it, once, after it was notified.

    The theorems: what is in the framebuffer of a display when it is updated is
    what its head shows; and the driver keeps its promise to [Display] about
    identification blocks. *)

From stdpp Require Import base list gmap sets strings.
From Stdlib Require Import ZArith Lia.
From S2P Require Import Prelude Mmu Vm Vfs Proc Virtio Console Display Machine Pci VirtioPci.

Local Open Scope Z_scope.
Local Open Scope hw_scope.

(** ** Commands *)

Definition VIRTIO_GPU_CMD_GET_DISPLAY_INFO : Z := 0x100.
Definition VIRTIO_GPU_CMD_RESOURCE_CREATE_2D : Z := 0x101.
Definition VIRTIO_GPU_CMD_SET_SCANOUT : Z := 0x103.
Definition VIRTIO_GPU_CMD_RESOURCE_FLUSH : Z := 0x104.
Definition VIRTIO_GPU_CMD_TRANSFER_TO_HOST_2D : Z := 0x105.
Definition VIRTIO_GPU_CMD_RESOURCE_ATTACH_BACKING : Z := 0x106.
Definition VIRTIO_GPU_CMD_GET_EDID : Z := 0x10a.

Definition VIRTIO_GPU_RESP_OK_NODATA : Z := 0x1100.
Definition VIRTIO_GPU_RESP_OK_DISPLAY_INFO : Z := 0x1101.
Definition VIRTIO_GPU_RESP_OK_EDID : Z := 0x1104.
Definition VIRTIO_GPU_RESP_ERR_INVALID_SCANOUT_ID : Z := 0x1202.
Definition VIRTIO_GPU_RESP_ERR_INVALID_RESOURCE_ID : Z := 0x1203.
Definition VIRTIO_GPU_RESP_ERR_INVALID_PARAMETER : Z := 0x1205.

Definition VIRTIO_GPU_MAX_SCANOUTS : Z := 16.
Definition VIRTIO_GPU_FORMAT_B8G8R8X8_UNORM : Z := 2.

(** Fields of a structure, at their offsets; the driver leaves out the padding. *)
Definition fields : Type := list (Z * list Z).

(** [struct virtio_gpu_ctrl_hdr]: type, flags, fence_id, ctx_id. *)
Definition ctrl_hdr (type : Z) : fields := [(0, le_bytes 4 type); (4, le_bytes 4 0); (8, le_bytes 8 0); (16, le_bytes 4 0)].
Definition ctrl_hdr_size : Z := 24.

(** [struct virtio_gpu_rect] at the origin. *)
Definition rect_fields (w h : Z) : fields := [(24, le_bytes 4 0); (28, le_bytes 4 0); (32, le_bytes 4 w); (36, le_bytes 4 h)].

Definition display_one_size : Z := 24.

(** ** State *)

(** [struct VirtioGPUDevice], with the places of the register for notifications and of the
    configuration. *)
Record VirtioGPUDevice := Gpu {
  controlq : VirtioQueue;
  g_lock : bool;
  num_display : Z;
  f_edid : bool;
  f_virgl : bool;
  res_id : Z;
  q_notify : Z;
  g_devcfg : Z
}.

Record VirtioGPUDisplay := GpuDisplay {
  xres : Z;
  yres : Z;
  framebuffer : Z;
  enabled : Z;
  resource_id : Z;
  scanout : Z
}.

(** One adapter, its displays, and how far the interrupt handler has looked. *)
Record gpu_vars := GpuVars { g_dev : VirtioGPUDevice; g_displays : list VirtioGPUDisplay; g_last : Z }.

Definition set_controlq (d : VirtioGPUDevice) (q : VirtioQueue) : VirtioGPUDevice :=
  Gpu q (g_lock d) (num_display d) (f_edid d) (f_virgl d) (res_id d) (q_notify d) (g_devcfg d).
Definition set_glock (d : VirtioGPUDevice) (b : bool) : VirtioGPUDevice :=
  Gpu (controlq d) b (num_display d) (f_edid d) (f_virgl d) (res_id d) (q_notify d) (g_devcfg d).
Definition set_num_display (d : VirtioGPUDevice) (n : Z) : VirtioGPUDevice :=
  Gpu (controlq d) (g_lock d) n (f_edid d) (f_virgl d) (res_id d) (q_notify d) (g_devcfg d).
Definition set_res_id (d : VirtioGPUDevice) (n : Z) : VirtioGPUDevice :=
  Gpu (controlq d) (g_lock d) (num_display d) (f_edid d) (f_virgl d) n (q_notify d) (g_devcfg d).
Definition with_gdev (v : gpu_vars) (d : VirtioGPUDevice) : gpu_vars := GpuVars d (g_displays v) (g_last v).

(** What an adapter does between two looks of the driver at the queue. *)
Class GpuDevice (H : Type) := { gpu_turn : VirtioQueue -> H -> VirtioQueue * H }.

(** ** The driver *)

Section driver.
Context {A H : Type} `{PageAllocator A} `{Machine H} `{GpuDevice H}.
(** Turns of the loop that waits for the adapter. *)
Variable fuel : nat.

Local Notation state := (Machine.driver A gpu_vars H).

Definition get_gpu : hw state VirtioGPUDevice := v <~ get_local; mret (g_dev v).
Definition put_gpu (d : VirtioGPUDevice) : hw state unit := v <~ get_local; put_local (with_gdev v d).

Definition gpu_acquire : hw state unit := d <~ get_gpu; b <~ mlift (acquire_b (g_lock d)); put_gpu (set_glock d b).
Definition gpu_release : hw state unit := d <~ get_gpu; b <~ mlift (release_b (g_lock d)); put_gpu (set_glock d b).

(** Operations on the control queue. *)
Definition on_controlq {X} (f : VirtioQueue -> outcome (X * VirtioQueue)) : hw state X :=
  d <~ get_gpu; r <~ mlift (f (controlq d)); put_gpu (set_controlq d (snd r)) ;> mret (fst r).

Definition put_fields (p : Z) (fs : fields) : hw state unit := each (fun f => modify (ram_put (p + fst f) (snd f))) fs.

(** The adapter goes on. *)
Definition device_turn : hw state unit := fun s =>
  let d := g_dev (dlocal s) in
  let '(q, h) := gpu_turn (controlq d) (dhw s) in
  Ret (tt, Driver (dpool s) (with_gdev (dlocal s) (set_controlq d q)) h).

Fixpoint wait_used (n : nat) (prev : Z) : hw state unit :=
  d <~ get_gpu;
  if prev =? used_idx (controlq d) then
    match n with O => fun _ => NoFuel | S n' => device_turn ;> wait_used n' prev end
  else mret tt.

(** [virtio_queue_notify_wait] of modlib. *)
Definition gpu_notify_wait : hw state unit :=
  d <~ get_gpu;
  store32 (q_notify d) 0 ;>
  wait_used fuel (used_idx (controlq d)).

(** *** cmds.c *)

(** The descriptors [l] for buffers, one after the other; the adapter may write the last. *)
Fixpoint fill_chain (l : list (Z * (Z * Z))) (q : VirtioQueue) : outcome VirtioQueue :=
  match l with
  | [] => Ret q
  | (d, (a, n)) :: l' =>
    obind (set_desc q d (match l' with
                         | [] => Desc (V2P a) n VIRTQ_DESC_F_WRITE 0
                         | (d', _) :: _ => Desc (V2P a) n VIRTQ_DESC_F_NEXT (u16 d')
                         end)) (fill_chain l')
  end.

(** The stretch every command has: descriptors for the buffers, the chain in the queue, the
    wait.  The head of the chain is returned. *)
Definition gpu_submit (bufs : list (Z * Z)) : hw state Z :=
  r <~ on_controlq (virtio_alloc_desc (length bufs));
  match r with
  | Some (d0 :: ds) =>
    on_controlq (fun q => obind (fill_chain (zip (d0 :: ds) bufs) q) (fun q' => Ret (tt, q'))) ;>
    on_controlq (fun q => obind (virtio_queue_avail_insert d0 q) (fun q' => Ret (tt, q'))) ;>
    gpu_notify_wait ;>
    mret d0
  | _ => fun _ => Panic "virtio-gpu out of desc"
  end.

Definition gpu_free_chain (d0 : Z) : hw state unit :=
  on_controlq (fun q => obind (virtio_free_desc (length (q_desc q)) d0 q) (fun q' => Ret (tt, q'))).

(** Memory of the driver. *)
Definition ram_read (p n : Z) : hw state (list Z) := fun s => Ret (ram_get p n s, s).

(** A command of one structure, with [answer] looking at the response. *)
Definition command {X} (fs : fields) (size resp_size : Z) (answer : Z -> hw state X) : hw state X :=
  gpu_acquire ;>
  req <~ d_kalloc;
  resp <~ d_kalloc;
  put_fields req fs ;>
  d0 <~ gpu_submit [(req, size); (resp, resp_size)];
  x <~ answer resp;
  d_kfree req ;>
  d_kfree resp ;>
  gpu_free_chain d0 ;>
  gpu_release ;>
  mret x.

(** The modes of the heads go to [display_info], an array of the caller. *)
Definition virtio_gpu_get_display_info (display_info : list Z) : hw state (Z * list Z) :=
  command (ctrl_hdr VIRTIO_GPU_CMD_GET_DISPLAY_INFO) ctrl_hdr_size (ctrl_hdr_size + display_one_size * VIRTIO_GPU_MAX_SCANOUTS) (fun resp =>
    type <~ ram_read resp 4;
    if negb (le_val type =? VIRTIO_GPU_RESP_OK_DISPLAY_INFO) then mret (-1, display_info) else
    pmodes <~ ram_read (resp + 24) (display_one_size * VIRTIO_GPU_MAX_SCANOUTS);
    info <~ mlift (copy_into display_info 0 pmodes);
    mret (0, info)).

(** The length is that the adapter reports. *)
Definition virtio_gpu_get_edid (scanout : Z) (edid : list Z) : hw state (Z * list Z) :=
  command (ctrl_hdr VIRTIO_GPU_CMD_GET_EDID ++ [(24, le_bytes 4 scanout)]) 32 1056 (fun resp =>
    type <~ ram_read resp 4;
    if negb (le_val type =? VIRTIO_GPU_RESP_OK_EDID) then mret (0, edid) else
    sz <~ ram_read (resp + 24) 4;
    data <~ ram_read (resp + 32) (le_val sz);
    edid' <~ mlift (copy_into edid 0 data);
    mret (le_val sz, edid')).

Definition virtio_gpu_res_create_2d (resource_id format w h : Z) : hw state unit :=
  command (ctrl_hdr VIRTIO_GPU_CMD_RESOURCE_CREATE_2D ++
    [(24, le_bytes 4 resource_id); (28, le_bytes 4 format); (32, le_bytes 4 w); (36, le_bytes 4 h)]) 40 ctrl_hdr_size (fun _ => mret tt).

Definition virtio_gpu_set_scanout (scanout resource_id w h : Z) : hw state unit :=
  command (ctrl_hdr VIRTIO_GPU_CMD_SET_SCANOUT ++ rect_fields w h ++ [(40, le_bytes 4 scanout); (44, le_bytes 4 resource_id)]) 48 ctrl_hdr_size (fun _ => mret tt).

Definition virtio_gpu_flush (resource_id w h : Z) : hw state unit :=
  command (ctrl_hdr VIRTIO_GPU_CMD_RESOURCE_FLUSH ++ rect_fields w h ++ [(40, le_bytes 4 resource_id)]) 48 ctrl_hdr_size (fun _ => mret tt).

Definition virtio_gpu_xfer_to_host_2d (resource_id w h : Z) : hw state unit :=
  command (ctrl_hdr VIRTIO_GPU_CMD_TRANSFER_TO_HOST_2D ++ rect_fields w h ++ [(40, le_bytes 8 0); (48, le_bytes 4 resource_id)]) 56 ctrl_hdr_size (fun _ => mret tt).

(** The list of the pieces of memory is a structure of its own. *)
Definition virtio_gpu_attach_banking (resource_id fb length : Z) : hw state unit :=
  gpu_acquire ;>
  req <~ d_kalloc;
  resp <~ d_kalloc;
  mement <~ d_kalloc;
  put_fields req (ctrl_hdr VIRTIO_GPU_CMD_RESOURCE_ATTACH_BACKING ++ [(24, le_bytes 4 resource_id); (28, le_bytes 4 1)]) ;>
  put_fields mement [(0, le_bytes 8 fb); (8, le_bytes 4 length)] ;>
  d0 <~ gpu_submit [(req, 32); (mement, 16); (resp, ctrl_hdr_size)];
  d_kfree req ;>
  d_kfree mement ;>
  d_kfree resp ;>
  gpu_free_chain d0 ;>
  gpu_release.

(** *** virtio-gpu.c *)

(** The loop of the interrupt handler, which has nothing to do for a chain. *)
Fixpoint skip_used (n : nat) (last idx : Z) : Z :=
  match n with
  | O => last
  | S n' => if last =? idx then last else skip_used n' (u16 (last + 1)) idx
  end.

Definition virtio_gpu_controlq_intr : hw state unit :=
  gpu_acquire ;>
  d <~ get_gpu;
  events <~ load32 (g_devcfg d);
  (if events =? 0 then mret tt else
   shown <~ load32 (g_devcfg d);
   again <~ load32 (g_devcfg d);
   store32 (g_devcfg d + 4) again) ;>
  v <~ get_local;
  put_local (GpuVars (g_dev v) (g_displays v) (skip_used (Z.to_nat (2 ^ 16)) (g_last v) (used_idx (controlq (g_dev v))))) ;>
  gpu_release.

Definition virtio_gpu_alloc_resource_id : hw state Z :=
  d <~ get_gpu; put_gpu (set_res_id d (u32 (res_id d + 1))) ;> mret (res_id d).

(** *** display.c *)

(** A display is its place among those of the adapter. *)
Definition get_display (i : Z) : hw state VirtioGPUDisplay := v <~ get_local; mlift (of_option (zget (g_displays v) i)).
Definition put_display (i : Z) (disp : VirtioGPUDisplay) : hw state unit :=
  v <~ get_local; l <~ mlift (of_option (zset (g_displays v) i disp)); put_local (GpuVars (g_dev v) l (g_last v)).

Definition virtio_gpu_display_update (i : Z) : hw state unit :=
  disp <~ get_display i;
  virtio_gpu_xfer_to_host_2d (resource_id disp) (xres disp) (yres disp) ;>
  virtio_gpu_flush (resource_id disp) (xres disp) (yres disp).

Definition d_pgalloc (n : Z) : hw state Z := fun s =>
  obind (pa_pgalloc n (dpool s)) (fun r => Ret (fst r, Driver (snd r) (dlocal s) (dhw s))).
Definition d_pgfree (p n : Z) : hw state unit := fun s =>
  obind (pa_pgfree p n (dpool s)) (fun a => Ret (tt, Driver a (dlocal s) (dhw s))).

(** 16 MB for any mode. *)
Definition virtio_gpu_display_enable (i xres' yres' : Z) : hw state Z :=
  id <~ virtio_gpu_alloc_resource_id;
  disp <~ get_display i;
  fb <~ d_pgalloc 4096;
  put_display i (GpuDisplay (xres disp) (yres disp) (V2P fb) (enabled disp) id (scanout disp)) ;>
  virtio_gpu_res_create_2d id VIRTIO_GPU_FORMAT_B8G8R8X8_UNORM xres' yres' ;>
  virtio_gpu_attach_banking id (V2P fb) (16 * 1024 * 1024) ;>
  virtio_gpu_set_scanout (scanout disp) id xres' yres' ;>
  put_display i (GpuDisplay xres' yres' (V2P fb) (enabled disp) id (scanout disp)) ;>
  mret (V2P fb).

Definition virtio_gpu_display_disable (i : Z) : hw state unit :=
  disp <~ get_display i;
  if framebuffer disp =? 0 then mret tt else d_pgfree (P2V (framebuffer disp)) 4096.

(** [edid0]: what is on the stack. *)
Definition virtio_gpu_display_read_edid (edid0 : list Z) (i : Z) (buffer : list Z) (bytes : Z) : hw state (Z * list Z) :=
  disp <~ get_display i;
  d <~ get_gpu;
  if negb (f_edid d) then mret (0, buffer) else
  r <~ virtio_gpu_get_edid (scanout disp) edid0;
  let '(sz, edid) := r in
  if sz =? 0 then mret (0, buffer) else
  let n := if sz <? bytes then sz else bytes in
  data <~ mlift (copy_from edid 0 n);
  buffer' <~ mlift (copy_into buffer 0 data);
  mret (n, buffer').
End driver.

(** The operations the module gives to [Display]. *)
Inductive gpu_fb_driver := virtio_gpu_fb_driver.

#[export] Instance virtio_gpu_fb {A H} `{PageAllocator A} `{Machine H} `{GpuDevice H} (fuel : nat) (edid0 : list Z) :
  FramebufferDriver gpu_fb_driver (Machine.driver A gpu_vars H) := {
  drv_enable _ i x y := virtio_gpu_display_enable fuel i x y;
  drv_disable _ i w := obind (virtio_gpu_display_disable i w) (fun r => Ret (snd r));
  drv_update _ := Some (fun i w => obind (virtio_gpu_display_update fuel i w) (fun r => Ret (snd r)));
  drv_read_edid _ := Some (fun i buffer bytes w => obind (virtio_gpu_display_read_edid fuel edid0 i buffer bytes w) (fun r => Ret (fst (fst r), snd (fst r), snd r)))
}.

(** *** Displays of an adapter *)

Section dev_init.
Context {A P S A' H : Type} `{PageAllocator A'} `{Machine H} `{GpuDevice H}.
(** What is on the stack, the font, and the turns of the loop that waits for the adapter. *)
Variable fuel : nat.
Variable edid0 info0 : list Z.
Variable stack_edid : list Z.
Variable font16 : list Z.

Local Notation W := (Machine.driver A' gpu_vars H).
Local Notation state := (displays A P S gpu_fb_driver W).

(** Code of the driver in the kernel. *)
Definition in_driver {X} (m : hw W X) (s : state) : outcome (X * state) := obind (m (Display.dhw s)) (fun r => Ret (fst r, with_dhw s (snd r))).

(** The heads, and their modes. *)
Definition read_heads : hw W (list Z) :=
  d <~ get_gpu;
  n <~ load32 (g_devcfg d + 8);
  put_gpu (set_num_display d n) ;>
  r <~ virtio_gpu_get_display_info fuel info0;
  mret (snd r).

(** A structure for head [i], at the end of the displays. *)
Definition add_display (info : list Z) (i : Z) : hw W Z :=
  page <~ d_kalloc;
  one <~ mlift (copy_from info (display_one_size * i) display_one_size);
  let on := get32 16 one in
  v <~ get_local;
  put_local (GpuVars (g_dev v) (g_displays v ++
    [if on =? 0 then GpuDisplay 0 0 0 0 0 i else GpuDisplay (s32 (get32 8 one)) (s32 (get32 12 one)) 0 on 0 i]) (g_last v)) ;>
  mret (zlen (g_displays v)).

Fixpoint register_heads (info : list Z) (heads : list Z) (s : state) : outcome state :=
  match heads with
  | [] => Ret s
  | i :: heads' =>
    obind (in_driver (add_display info i) s) (fun r =>
    obind (hal_display_register_device (H1 := virtio_gpu_fb fuel edid0) stack_edid font16 (Some (literal "virtio-gpu")) (fst r) virtio_gpu_fb_driver (snd r))
    (register_heads info heads'))
  end.

Definition virtio_gpu_display_dev_init (s : state) : outcome state :=
  obind (in_driver read_heads s) (fun r =>
  let n := num_display (g_dev (dlocal (Display.dhw (snd r)))) in
  obind (print font16 (line "[virtio-gpu] heads %d") [VWord n] (snd r))
  (register_heads (fst r) (seqZ 0 n))).
End dev_init.

(** *** Set-up of an adapter *)

Definition VIRTIO_GPU_F_VIRGL : Z := 2 ^ 0.
Definition VIRTIO_GPU_F_EDID : Z := 2 ^ 1.

Definition virtio_gpu_virtio_driver : VirtioDriver := VDriver 0 16 VIRTIO_GPU_F_EDID.

Section init.
Context {A H : Type} `{PageAllocator A} `{Machine H}.
Local Notation state := (Machine.driver A pci_vars (vio H)).
Variable pci_host : PciHost state.
Variable fuel : nat.
Variable virtio_pci_queue_msix_handler : Z.
Variable stack_message : MSIMessage.
(** The structure of an adapter: its bytes, and where its queues are in it; the
    handlers of their interrupts. *)
Variable sizeof_dev controlq_off cursorq_off : Z.
Variable virtio_gpu_controlq_handler virtio_gpu_cursorq_handler : Z.
(** The displays, which are in the state of [virtio_gpu_display_dev_init]. *)
Variable display_dev_init : VirtioGPUDevice -> hw state unit.

(** What the commands start with: the control queue is the one in memory. *)
Definition virtio_gpu_init (i features : Z) : hw state unit :=
  dev <~ d_kalloc;
  modify (ram_put dev (repeat 0 (Z.to_nat sizeof_dev))) ;>
  d <~ get_vdevice i;
  set_vdevice i (set_vprivate d dev) ;>
  q <~ virtio_init_queue virtio_pci_queue_msix_handler stack_message i (dev + controlq_off) 0 virtio_gpu_controlq_handler;
  virtio_init_queue virtio_pci_queue_msix_handler stack_message i (dev + cursorq_off) 1 virtio_gpu_cursorq_handler ;>
  fun s => display_dev_init (Gpu (queue_in_memory s q) false 0
    (negb (Z.land features VIRTIO_GPU_F_EDID =? 0)) (negb (Z.land features VIRTIO_GPU_F_VIRGL =? 0)) 1 (qs_notify q) (devcfg d)) s.

(** [module_init] of the module; its driver's pointer is [gpu_driver]. *)
Definition virtgpu_module_init (gpu_driver : Z) : hw state unit :=
  virtio_register_driver pci_host fuel virtio_gpu_init gpu_driver virtio_gpu_virtio_driver.
End init.

(** ** The adapter *)

(** What the virtio specification says about the commands of the driver: resources with
    a size, the memory behind them, the copies the adapter has of their pixels, the
    resource of each of the [a_count] heads, and what the heads show. *)
Record adapter := Adapter {
  a_count : Z;
  a_modes : list Z;
  a_edid : gmap Z (list Z);
  a_resources : gmap Z (Z * Z);
  a_backing : gmap Z (Z * Z);
  a_pixels : gmap Z (list Z);
  a_heads : gmap Z Z;
  a_screen : gmap Z (list Z)
}.

Definition response (type : Z) (data : list Z) : list Z := le_bytes 4 type ++ repeat 0 20 ++ data.

(** Bytes of [w] times [h] pixels. *)
Definition pixel_bytes (w h : Z) : Z := 4 * (w * h).

Definition with_resource (g : adapter) (id w h : Z) : adapter :=
  Adapter (a_count g) (a_modes g) (a_edid g) (<[id := (w, h)]> (a_resources g)) (a_backing g) (<[id := repeat 0 (Z.to_nat (pixel_bytes w h))]> (a_pixels g)) (a_heads g) (a_screen g).
Definition with_backing (g : adapter) (id a n : Z) : adapter :=
  Adapter (a_count g) (a_modes g) (a_edid g) (a_resources g) (<[id := (a, n)]> (a_backing g)) (a_pixels g) (a_heads g) (a_screen g).
Definition with_head (g : adapter) (head id : Z) : adapter :=
  Adapter (a_count g) (a_modes g) (a_edid g) (a_resources g) (a_backing g) (a_pixels g) (<[head := id]> (a_heads g)) (a_screen g).
Definition with_pixels (g : adapter) (id : Z) (px : list Z) : adapter :=
  Adapter (a_count g) (a_modes g) (a_edid g) (a_resources g) (a_backing g) (<[id := px]> (a_pixels g)) (a_heads g) (a_screen g).
(** Every head of the resource shows its pixels. *)
Definition with_flushed (g : adapter) (id : Z) (px : list Z) : adapter :=
  Adapter (a_count g) (a_modes g) (a_edid g) (a_resources g) (a_backing g) (a_pixels g) (a_heads g)
    (map_imap (fun _ _ => Some px) (filter (fun p => p.2 = id) (a_heads g)) ∪ a_screen g).

Definition whole (req : list Z) (w h : Z) : bool := (get32 24 req =? 0) && (get32 28 req =? 0) && (get32 32 req =? w) && (get32 36 req =? h).

(** The answer to a request and the adapter after it, where the specification fixes them for
    the driver: [None] for what the driver does not do, such as parts of a
    resource.  [mem] is physical memory. *)
Definition gpu_does (mem : Z -> Z -> list Z) (req : list Z) (g : adapter) : option (list Z * adapter) :=
  let type := get32 0 req in
  let ok g' := Some (response VIRTIO_GPU_RESP_OK_NODATA [], g') in
  if type =? VIRTIO_GPU_CMD_GET_DISPLAY_INFO then Some (response VIRTIO_GPU_RESP_OK_DISPLAY_INFO (a_modes g), g)
  else if type =? VIRTIO_GPU_CMD_GET_EDID then
    match a_edid g !! get32 24 req with
    | Some e => Some (response VIRTIO_GPU_RESP_OK_EDID (le_bytes 4 (zlen e) ++ repeat 0 4 ++ e ++ repeat 0 (1024 - length e)), g)
    | None => Some (response VIRTIO_GPU_RESP_ERR_INVALID_SCANOUT_ID [], g)
    end
  else if type =? VIRTIO_GPU_CMD_RESOURCE_CREATE_2D then
    let id := get32 24 req in
    if (id =? 0) || bool_decide (is_Some (a_resources g !! id)) then Some (response VIRTIO_GPU_RESP_ERR_INVALID_RESOURCE_ID [], g)
    else if get32 28 req =? VIRTIO_GPU_FORMAT_B8G8R8X8_UNORM then ok (with_resource g id (get32 32 req) (get32 36 req)) else None
  else if type =? VIRTIO_GPU_CMD_RESOURCE_ATTACH_BACKING then
    match a_resources g !! get32 24 req with
    | Some _ => if get32 28 req =? 1 then ok (with_backing g (get32 24 req) (get64 32 req) (get32 40 req)) else None
    | None => Some (response VIRTIO_GPU_RESP_ERR_INVALID_RESOURCE_ID [], g)
    end
  else if type =? VIRTIO_GPU_CMD_SET_SCANOUT then
    match a_resources g !! get32 44 req with
    | Some (w, h) =>
      if a_count g <=? get32 40 req then Some (response VIRTIO_GPU_RESP_ERR_INVALID_SCANOUT_ID [], g)
      else if whole req w h then ok (with_head g (get32 40 req) (get32 44 req)) else None
    | None => Some (response VIRTIO_GPU_RESP_ERR_INVALID_RESOURCE_ID [], g)
    end
  else if type =? VIRTIO_GPU_CMD_TRANSFER_TO_HOST_2D then
    match a_resources g !! get32 48 req, a_backing g !! get32 48 req with
    | Some (w, h), Some (a, n) =>
      if whole req w h && (get64 40 req =? 0) && (pixel_bytes w h <=? n) then ok (with_pixels g (get32 48 req) (mem a (pixel_bytes w h))) else None
    | _, _ => None
    end
  else if type =? VIRTIO_GPU_CMD_RESOURCE_FLUSH then
    match a_resources g !! get32 40 req, a_pixels g !! get32 40 req with
    | Some (w, h), Some px => if whole req w h then ok (with_flushed g (get32 40 req) px) else None
    | _, _ => None
    end
  else None.

(** Physical memory. *)
Definition phys_mem {H} `{Machine H} (h : H) (a n : Z) : list Z := ram_get (P2V a) n h.

(** The buffers [l] of a chain: descriptors with addresses and lengths. *)
Fixpoint chain_at (ds : list VirtqDesc) (l : list (Z * (Z * Z))) : Prop :=
  match l with
  | [] => True
  | (d, (a, n)) :: l' =>
    zget ds d = Some (match l' with [] => Desc a n VIRTQ_DESC_F_WRITE 0 | (d', _) :: _ => Desc a n VIRTQ_DESC_F_NEXT d' end) /\ chain_at ds l'
  end.

Definition gather {H} `{Machine H} (h : H) (bufs : list (Z * Z)) : list Z := concat ((fun b => phys_mem h (fst b) (snd b)) <$> bufs).

Fixpoint gpu_turns {H} `{GpuDevice H} (n : nat) (q : VirtioQueue) (h : H) : VirtioQueue * H :=
  match n with
  | O => (q, h)
  | S n' => let '(q', h') := gpu_turn q h in gpu_turns n' q' h'
  end.

(** An adapter that is notified by the register at [notify] of a chain when it has
    no other to do: after at most [gpu_patience] turns it has done it, once, written the answer where the chain
    says, and nothing else. *)
Class GpuLaws (H : Type) `{Machine H} `{GpuDevice H} (notify : Z) := {
  gpu_ram :: RamLaws H;
  adapter_of : H -> adapter;
  gpu_patience : nat;
  adapter_ram a l h : adapter_of (ram_put a l h) = adapter_of h;
  gpu_serves q h head l ins out len resp g : queue_ok q -> used_idx q = u16 (avail_idx q - 1) ->
    zget (avail_ring q) (used_idx q mod q_size q) = Some head -> chain_at (q_desc q) l -> fst <$> l !! 0%nat = Some head -> zlen l <= 3 -> snd <$> l = ins ++ [(out, len)] ->
    gpu_does (phys_mem h) (gather h ins) (adapter_of h) = Some (resp, g) -> bytes_ok resp -> zlen resp <= len ->
    exists n ring h', (n <= gpu_patience)%nat /\ gpu_turns n q (mm_store 4 notify 0 h) = (complete_queue q ring, h') /\ zlen ring = zlen (used_ring q) /\
      (forall m, (m < n)%nat -> used_idx (fst (gpu_turns m q (mm_store 4 notify 0 h))) = used_idx q) /\
      adapter_of h' = g /\ phys_mem h' out (zlen resp) = resp /\
      forall a k, a + k <= P2V out \/ P2V out + zlen resp <= a -> ram_get a k h' = ram_get a k h
}.

(** ** The queue *)

(** No chain in the queue. *)
Record at_rest (q : VirtioQueue) : Prop := {
  ar_ok : queue_ok q;
  ar_size : 3 <= q_size q;
  ar_free j d : 0 <= j < q_size q -> zget (q_desc q) j = Some d -> d_addr d = 0;
  ar_used : used_idx q = avail_idx q;
  ar_idx : 0 <= avail_idx q < 2 ^ 16
}.

Lemma find_desc_at ds k : forall n j d, j <= k < j + Z.of_nat n -> (forall i, j <= i < k -> exists x, zget ds i = Some x /\ d_addr x <> 0) ->
  zget ds k = Some d -> d_addr d = 0 -> find_desc n j ds = Ret (Some k).
Proof.
  induction n as [|n IH]; intros j d Hk Hu Hd Ha; [lia|]. cbn [find_desc]. destruct (decide (j = k)) as [->|Hne].
  - rewrite Hd. cbn. by rewrite Ha.
  - destruct (Hu j) as (x & -> & Hx); [lia|]. cbn [of_option obind]. destruct (Z.eqb_spec (d_addr x) 0); [done|]. apply (IH _ d); [lia| |done|done]. intros i Hi. apply Hu. lia.
Qed.

(** The descriptors from the first free one on are given out. *)
Lemma alloc_desc_run num : forall q k, zlen (q_desc q) = VIRTIO_QUEUE_SIZE_MAX -> q_size q <= VIRTIO_QUEUE_SIZE_MAX -> 0 <= k -> k + Z.of_nat num <= q_size q ->
  (forall i, 0 <= i < k -> exists x, zget (q_desc q) i = Some x /\ d_addr x <> 0) ->
  (forall i, k <= i < k + Z.of_nat num -> exists x, zget (q_desc q) i = Some x /\ d_addr x = 0) ->
  exists ds, virtio_alloc_desc num q = Ret (Some (seqZ k (Z.of_nat num)), with_desc q ds) /\ same_desc (seqZ k (Z.of_nat num)) (q_desc q) ds.
Proof.
  induction num as [|num IH]; intros q k Hl Hs Hk Hn Hu Hf.
  - exists (q_desc q). split; [by destruct q|]. split; [done|]. done.
  - cbn [virtio_alloc_desc]. destruct (Hf k) as (x & Hx & Ha); [lia|]. rewrite (find_desc_at _ k _ _ x) by (done || lia). cbn [obind]. rewrite Hx. cbn [of_option obind].
    destruct (zset_desc (q_desc q) k (set_addr x 0xffffffff)) as (ds & -> & Hsame & Hnew); [lia|]. cbn [of_option obind].
    destruct (IH (with_desc q ds) (k + 1)) as (ds' & E & Hs'); cbn [with_desc q_desc q_size]; [destruct Hsame; lia|lia|lia|lia| | |].
    + intros i Hi. destruct (decide (i = k)) as [->|Hne]; [by eexists|]. rewrite (proj2 Hsame) by (by rewrite list_elem_of_singleton). apply Hu. lia.
    + intros i Hi. rewrite (proj2 Hsame) by (rewrite list_elem_of_singleton; lia). apply Hf. lia.
    + rewrite E. cbn [obind]. rewrite Nat2Z.inj_succ, (seqZ_cons k) by lia. replace (Z.succ k) with (k + 1) by lia. rewrite Z.pred_succ. exists ds'. split; [done|].
      by apply (same_desc_trans [k] _ _ ds).
Qed.

(** The buffers with physical addresses. *)
Definition in_phys (l : list (Z * (Z * Z))) : list (Z * (Z * Z)) := (fun x => (fst x, (V2P (fst (snd x)), snd (snd x)))) <$> l.

Lemma in_phys_fst l : fst <$> in_phys l = fst <$> l.
Proof. unfold in_phys. rewrite <- list_fmap_compose. done. Qed.

Lemma chain_at_same l : forall ds ds', (forall j, j ∈ fst <$> l -> zget ds' j = zget ds j) -> chain_at ds l -> chain_at ds' l.
Proof.
  induction l as [|[d [a n]] l IH]; intros ds ds' Hs; [done|]. cbn [chain_at]. intros [Hd Hl]. split; [rewrite Hs; [done|]; left|].
  apply (IH ds); [|done]. intros j Hj. apply Hs. by right.
Qed.

Lemma fill_chain_ok l : forall q, NoDup (fst <$> l) -> Forall (fun d => 0 <= d < zlen (q_desc q) /\ d < 2 ^ 16) (fst <$> l) ->
  exists ds, fill_chain l q = Ret (with_desc q ds) /\ same_desc (fst <$> l) (q_desc q) ds /\ chain_at ds (in_phys l).
Proof.
  induction l as [|[d [a n]] l IH]; intros q Hn Hr.
  - exists (q_desc q). split; [by destruct q|]. done.
  - cbn [fmap list_fmap fst] in Hn, Hr. apply NoDup_cons in Hn as [Hd Hn]. apply Forall_cons in Hr as [Hdr Hr].
    cbn [fill_chain]. unfold set_desc. set (x := match l with [] => _ | _ => _ end).
    destruct (zset_desc (q_desc q) d x) as (ds & -> & Hs & Hx); [lia|]. cbn [of_option obind].
    destruct (IH (with_desc q ds)) as (ds' & -> & Hs' & Hc); [done|cbn; by rewrite (proj1 Hs)|]. exists ds'. split; [done|]. cbn [with_desc q_desc] in Hs'.
    split; [by apply (same_desc_trans [d] _ _ ds)|]. change (in_phys ((d, (a, n)) :: l)) with ((d, (V2P a, n)) :: in_phys l). cbn [chain_at]. split; [|done].
    rewrite (proj2 Hs') by done. rewrite Hx. subst x. destruct l as [|[d' b] l]; [done|]. cbn. apply Forall_cons in Hr as [[Hr1 Hr2] _]. cbn in Hr1, Hr2.
    unfold u16. by rewrite Z.mod_small by lia.
Qed.

(** Freeing a chain frees its descriptors. *)
Lemma gpu_free_chain_ok l : forall n q d b, NoDup (fst <$> (d, b) :: l) -> Forall (fun d => 0 <= d < zlen (q_desc q)) (fst <$> (d, b) :: l) ->
  chain_at (q_desc q) ((d, b) :: l) -> (length l <= n)%nat ->
  exists ds, virtio_free_desc n d q = Ret (with_desc q ds) /\ same_desc (fst <$> (d, b) :: l) (q_desc q) ds /\
    forall j x, j ∈ fst <$> (d, b) :: l -> zget ds j = Some x -> d_addr x = 0.
Proof.
  induction l as [|[d' b'] l IH]; intros n q d [a m] Hn Hr Hc Hle; destruct Hc as [Hd Hc]; apply Forall_cons in Hr as [Hdr Hr].
  - cbn [fst] in Hdr. set (x := set_addr (Desc a m VIRTQ_DESC_F_WRITE 0) 0). destruct (zset_desc (q_desc q) d x Hdr) as (ds & E & Hs & Hx). exists ds. split; [|split; [done|]].
    + destruct n; cbn [virtio_free_desc]; rewrite Hd; cbn [of_option obind]; fold x; rewrite E; done.
    + intros j y [->|Hj]%elem_of_cons Hy; [|by apply not_elem_of_nil in Hj]. cbn in Hy. rewrite Hx in Hy. by injection Hy as <-.
  - cbn [fst] in Hdr. set (x := set_addr (Desc a m VIRTQ_DESC_F_NEXT d') 0). destruct (zset_desc (q_desc q) d x Hdr) as (ds & E & Hs & Hx).
    cbn [fmap list_fmap fst] in Hn, Hr. apply NoDup_cons in Hn as [Hnd Hn].
    destruct n as [|n]; [cbn in Hle; lia|]. cbn [virtio_free_desc]. rewrite Hd. cbn [of_option obind]. fold x. rewrite E. cbn [of_option obind].
    change (Z.land (d_flags (Desc a m VIRTQ_DESC_F_NEXT d')) VIRTQ_DESC_F_NEXT =? 0) with false. cbn [d_next].
    destruct (IH n (with_desc q ds) d' b') as (ds' & -> & Hs' & Hz); [done|cbn [with_desc q_desc]; by rewrite (proj1 Hs)| |cbn in Hle; lia|].
    { apply (chain_at_same _ (q_desc q)); [|done]. intros j Hj. cbn [with_desc q_desc]. apply (proj2 Hs). rewrite list_elem_of_singleton. intros ->. done. }
    exists ds'. split; [done|]. split; [by apply (same_desc_trans [d] _ _ ds)|]. cbn [with_desc q_desc] in Hs'.
    intros j y [->|Hj]%elem_of_cons Hy; [|by apply (Hz j)]. cbn [fst] in Hy. rewrite (proj2 Hs') in Hy by done. rewrite Hx in Hy. by injection Hy as <-.
Qed.

(** Fields of known sizes are in order. *)
Ltac layout := repeat split; rewrite ?zlen_le_bytes; try apply le_bytes_ok; lia.

(** ** The commands *)

Section commands.
Context {A H : Type} `{AllocatorLaws A} `{GpuLaws H notify}.
Variable fuel : nat.
Hypothesis fuel_enough : (gpu_patience <= fuel)%nat.

Local Notation state := (Machine.driver A gpu_vars H).

(** Nothing in the queue, and the frames [held] in use. *)
Record gpu_ready (held : gset Z) (free : Z) (s : state) : Prop := {
  rd_pool : pa_holds (dpool s) held free;
  rd_free : 3 <= free;
  rd_frames : set_Forall frame_ok held;
  rd_lock : g_lock (g_dev (dlocal s)) = false;
  rd_queue : at_rest (controlq (g_dev (dlocal s)));
  rd_notify : q_notify (g_dev (dlocal s)) = notify
}.

(** Memory in frames. *)
Definition same_held (held : gset Z) (h h' : H) : Prop := forall p i, p ∈ held -> 0 <= i < PGSIZE -> ram_get (p + i) 1 h' = ram_get (p + i) 1 h.

Definition set_gpu_queue (v : gpu_vars) (q : VirtioQueue) (lock : bool) : gpu_vars := with_gdev v (set_glock (set_controlq (g_dev v) q) lock).

(** Steps of the driver. *)
Lemma run_acquire {X} (k : unit -> hw state X) p v h : g_lock (g_dev v) = false ->
  mbind gpu_acquire k (Driver p v h) = k tt (Driver p (set_gpu_queue v (controlq (g_dev v)) true) h).
Proof. intros Hl. unfold gpu_acquire, get_gpu, put_gpu, mbind, get_local, mret, mlift. cbn. rewrite Hl. cbn. do 2 f_equal. Qed.

Lemma run_release {X} (k : unit -> hw state X) p v q h :
  mbind gpu_release k (Driver p (set_gpu_queue v q true) h) = k tt (Driver p (set_gpu_queue v q false) h).
Proof. done. Qed.

Lemma run_on_controlq {X Y} (f : VirtioQueue -> outcome (X * VirtioQueue)) (k : X -> hw state Y) p v q b h x q' : f q = Ret (x, q') ->
  mbind (on_controlq f) k (Driver p (set_gpu_queue v q b) h) = k x (Driver p (set_gpu_queue v q' b) h).
Proof. intros E. unfold on_controlq, get_gpu, put_gpu, mbind, get_local, mret, mlift. cbn. rewrite E. done. Qed.

Lemma run_kalloc {X} (k : Z -> hw state X) p v h a p' : pa_alloc p = Ret (a, p') -> mbind d_kalloc k (Driver p v h) = k a (Driver p' v h).
Proof. intros E. unfold d_kalloc, mbind. cbn. by rewrite E. Qed.

Lemma run_kfree {X} (k : unit -> hw state X) p v h a p' : pa_free a p = Ret p' -> mbind (d_kfree a) k (Driver p v h) = k tt (Driver p' v h).
Proof. intros E. unfold d_kfree, mbind. cbn. by rewrite E. Qed.

Lemma wait_used_ok n : forall fl (p : A) v q h q' h' prev, gpu_turns n q h = (q', h') -> (forall m, (m < n)%nat -> used_idx (fst (gpu_turns m q h)) = prev) -> used_idx q' <> prev ->
  (n <= fl)%nat -> wait_used fl prev (Driver p (set_gpu_queue v q true) h) = Ret (tt, Driver p (set_gpu_queue v q' true) h').
Proof.
  induction n as [|n IH]; intros fl p v q h q' h' prev Ht Hm Hu Hf.
  - injection Ht as -> ->. destruct fl; cbn [wait_used]; unfold get_gpu, mbind, get_local, mret; cbn; destruct (Z.eqb_spec prev (used_idx q')); done.
  - destruct fl as [|fl]; [lia|]. cbn [wait_used]. unfold get_gpu. unfold mbind at 1 2, get_local, mret. cbn [obind fst snd dlocal set_gpu_queue with_gdev g_dev set_glock set_controlq controlq].
    pose proof (Hm 0%nat ltac:(lia)) as E0. cbn in E0. rewrite E0, Z.eqb_refl. unfold mbind, device_turn. cbn [dlocal set_gpu_queue with_gdev g_dev set_glock set_controlq controlq dhw].
    cbn [gpu_turns] in Ht. destruct (gpu_turn q h) as [q1 h1] eqn:E. cbn [obind fst snd]. refine (IH fl p v q1 h1 q' h' prev Ht _ Hu _); [|lia]. intros m Hlt.
    specialize (Hm (S m) ltac:(lia)). cbn [gpu_turns] in Hm. by rewrite E in Hm.
Qed.

(** One chain, of the first descriptors, in the queue, and it is done. *)
Record one_done (bufs : list (Z * Z)) (q : VirtioQueue) : Prop := {
  od_ok : queue_ok q;
  od_size : 3 <= q_size q;
  od_chain : chain_at (q_desc q) (in_phys (zip (seqZ 0 (zlen bufs)) bufs));
  od_free j d : zlen bufs <= j < q_size q -> zget (q_desc q) j = Some d -> d_addr d = 0;
  od_used : used_idx q = avail_idx q;
  od_idx : 0 <= avail_idx q < 2 ^ 16
}.

Lemma zip_ids (bufs : list (Z * Z)) : fst <$> zip (seqZ 0 (zlen bufs)) bufs = seqZ 0 (zlen bufs).
Proof. apply fst_zip. rewrite length_seqZ. unfold zlen. lia. Qed.

Lemma queue_ok_desc q ds : queue_ok q -> zlen ds = zlen (q_desc q) -> queue_ok (with_desc q ds).
Proof. intros [? ? ? ? ?] Hl. constructor; try done. cbn. lia. Qed.

(** Freeing the chain leaves the queue at rest. *)
Lemma free_one_done bufs q : one_done bufs q -> bufs <> [] -> zlen bufs <= 3 ->
  exists q', virtio_free_desc (length (q_desc q)) 0 q = Ret q' /\ at_rest q'.
Proof.
  intros [Hok Hs Hc Hf Hu Hi] Hb Hl. pose proof (q_desc_len _ Hok) as Hd. pose proof (q_size_range _ Hok) as Hr.
  destruct (in_phys (zip (seqZ 0 (zlen bufs)) bufs)) as [|[d b] l] eqn:El.
  { destruct bufs as [|b bufs]; [done|]. unfold zlen in El. cbn [length] in El. rewrite Nat2Z.inj_succ, seqZ_cons in El by lia. done. }
  assert (Eids : fst <$> (d, b) :: l = seqZ 0 (zlen bufs)) by (rewrite <- El, in_phys_fst; apply zip_ids).
  assert (d = 0) as ->.
  { destruct bufs as [|b' bufs]; [done|]. unfold zlen in Eids. cbn [length] in Eids. rewrite Nat2Z.inj_succ, seqZ_cons in Eids by lia. by injection Eids. }
  destruct (gpu_free_chain_ok l (length (q_desc q)) q 0 b) as (ds & -> & Hsame & Hz); [rewrite Eids; apply NoDup_seqZ| |done| |].
  - rewrite Eids. apply Forall_forall. intros j Hj%elem_of_seqZ. rewrite Hd. unfold VIRTIO_QUEUE_SIZE_MAX. lia.
  - pose proof (f_equal length Eids) as E. rewrite length_fmap, length_seqZ in E. cbn in E. unfold zlen, VIRTIO_QUEUE_SIZE_MAX in *. lia.
  - eexists. split; [done|]. constructor; [apply queue_ok_desc; [done|apply Hsame]|done| |done|done]. cbn [with_desc q_desc q_size]. intros j x Hj Hx.
    rewrite Eids in Hz, Hsame. destruct (decide (j < zlen bufs)); [apply (Hz j); [apply elem_of_seqZ; lia|done]|].
    rewrite (proj2 Hsame) in Hx by (rewrite elem_of_seqZ; lia). apply (Hf j x); [lia|done].
Qed.

Lemma u16_succ_ne x : 0 <= x < 2 ^ 16 -> u16 (x + 1) <> x.
Proof. intros Hx E. unfold u16 in E. destruct (decide (x + 1 = 2 ^ 16)) as [E1|E1]; [rewrite E1 in E; vm_compute in E; subst; lia|rewrite Z.mod_small in E; lia]. Qed.

(** What the adapter is given and what is in the queue when a chain has been put
    there. *)
Lemma chain_ready bufs q : at_rest q -> bufs <> [] -> zlen bufs <= 3 -> exists ds q1,
  virtio_alloc_desc (length bufs) q = Ret (Some (seqZ 0 (zlen bufs)), with_desc q ds) /\
  exists ds1, fill_chain (zip (seqZ 0 (zlen bufs)) bufs) (with_desc q ds) = Ret (with_desc q ds1) /\ virtio_queue_avail_insert 0 (with_desc q ds1) = Ret q1 /\
  queue_ok q1 /\ 3 <= q_size q1 /\ used_idx q1 = used_idx q /\ avail_idx q1 = u16 (avail_idx q + 1) /\ zget (avail_ring q1) (avail_idx q mod q_size q1) = Some 0 /\
  chain_at (q_desc q1) (in_phys (zip (seqZ 0 (zlen bufs)) bufs)) /\ forall j d, zlen bufs <= j < q_size q1 -> zget (q_desc q1) j = Some d -> d_addr d = 0.
Proof.
  intros [Hok Hs Hf Hu Hi] Hb Hl. pose proof (q_desc_len _ Hok) as Hd. pose proof (q_size_range _ Hok) as Hr. pose proof (zlen_nonneg bufs) as Hz.
  assert (Hg : forall i, 0 <= i < q_size q -> exists x, zget (q_desc q) i = Some x /\ d_addr x = 0).
  { intros i Hi'. destruct (zget_is_Some (q_desc q) i) as [x Hx]; [rewrite Hd; lia|]. exists x. eauto. }
  destruct (alloc_desc_run (length bufs) q 0) as (ds & Ea & Hs1); [done|lia|lia|unfold zlen in *; lia|lia|intros i Hi'; apply Hg; unfold zlen in *; lia|].
  fold (zlen bufs) in Ea, Hs1. destruct (fill_chain_ok (zip (seqZ 0 (zlen bufs)) bufs) (with_desc q ds)) as (ds1 & Ef & Hs2 & Hc).
  { rewrite zip_ids. apply NoDup_seqZ. }
  { rewrite zip_ids. apply Forall_forall. intros j Hj%elem_of_seqZ. cbn. rewrite (proj1 Hs1), Hd. unfold VIRTIO_QUEUE_SIZE_MAX. lia. }
  rewrite zip_ids in Hs2. cbn [with_desc q_desc] in Hs2.
  assert (Hm : 0 <= avail_idx q mod q_size q < q_size q) by (apply Z.mod_pos_bound; lia). pose proof (q_avail_len _ Hok) as Hv.
  pose proof (zset_Some (avail_ring q) (avail_idx q mod q_size q) (u16 0)) as Er. specialize (Er ltac:(lia)).
  exists ds, (VQueue (q_size q) ds1 (u16 (avail_idx q + 1)) (<[Z.to_nat (avail_idx q mod q_size q) := u16 0]> (avail_ring q)) (used_idx q) (used_ring q)).
  split; [done|]. exists ds1. split; [done|]. split; [unfold virtio_queue_avail_insert; cbn [with_desc q_size q_desc avail_idx avail_ring]; rewrite Er; done|].
  split; [|split; [done|split; [done|split; [done|split; [by apply (zget_zset_eq _ _ _ _ Er)|split; [done|]]]]]].
  - destruct Hok as [B1 B2 B3 B4 B5]. constructor; cbn; [done|done|rewrite (proj1 Hs2), (proj1 Hs1); done|by rewrite zlen_insert|done].
  - cbn. intros j d Hj Hx. rewrite (proj2 Hs2), (proj2 Hs1) in Hx by (rewrite elem_of_seqZ; lia). apply (Hf j d); [lia|done].
Qed.

(** A chain of the buffers [ins] and one for the answer is done when [gpu_submit]
    returns. *)
Lemma gpu_submit_ok ins out len {X} (k : Z -> hw state X) p v q h resp g : at_rest q -> q_notify (g_dev v) = notify -> zlen ins <= 2 ->
  gpu_does (phys_mem h) (gather h ((fun b => (V2P (fst b), snd b)) <$> ins)) (adapter_of h) = Some (resp, g) -> bytes_ok resp -> zlen resp <= len ->
  exists q' h', mbind (gpu_submit fuel (ins ++ [(out, len)])) k (Driver p (set_gpu_queue v q true) h) = k 0 (Driver p (set_gpu_queue v q' true) h') /\
    one_done (ins ++ [(out, len)]) q' /\ adapter_of h' = g /\ phys_mem h' (V2P out) (zlen resp) = resp /\
    forall a n, a + n <= P2V (V2P out) \/ P2V (V2P out) + zlen resp <= a -> ram_get a n h' = ram_get a n h.
Proof.
  intros Hq Hnot Hins Hdoes Hby Hresp. set (bufs := ins ++ [(out, len)]). assert (Hb : bufs <> []) by (subst bufs; by destruct ins).
  assert (Hl : 1 <= zlen bufs <= 3) by (subst bufs; rewrite zlen_app; pose proof (zlen_nonneg ins); unfold zlen in *; cbn; lia).
  destruct (chain_ready bufs q Hq Hb ltac:(lia)) as (ds & q1 & Ea & ds1 & Ef & Ei & Hok & Hs & Hu & Hv & Hring & Hc & Hfree). pose proof (ar_idx _ Hq) as Hidx. pose proof (ar_used _ Hq) as Hused.
  destruct (gpu_serves q1 h 0 (in_phys (zip (seqZ 0 (zlen bufs)) bufs)) ((fun b => (V2P (fst b), snd b)) <$> ins) (V2P out) len resp g) as (n & ring & h' & Hn & Ht & Hrl & Hm & Hg & Hr & Hother);
    [done| | |done| | | |done|done|done|].
  { rewrite Hu, Hv, Hused. unfold u16. rewrite Zminus_mod_idemp_l. replace (avail_idx q + 1 - 1) with (avail_idx q) by lia. rewrite Z.mod_small; lia. }
  { by rewrite Hu, Hused. }
  { assert (E : fst <$> in_phys (zip (seqZ 0 (zlen bufs)) bufs) = seqZ 0 (zlen bufs)) by (rewrite in_phys_fst; apply zip_ids).
    apply (f_equal (fun l => l !! 0%nat)) in E. rewrite list_lookup_fmap in E. rewrite E. by rewrite lookup_seqZ_lt by lia. }
  { unfold in_phys, zlen. rewrite length_fmap, length_zip_with, length_seqZ. unfold zlen in Hl |- *. lia. }
  { unfold in_phys. rewrite <- list_fmap_compose. transitivity ((fun b : Z * Z => (V2P (fst b), snd b)) <$> (snd <$> zip (seqZ 0 (zlen bufs)) bufs)); [by rewrite <- list_fmap_compose|].
    rewrite snd_zip by (rewrite length_seqZ; unfold zlen; lia). subst bufs. by rewrite fmap_app. }
  exists (complete_queue q1 ring), h'. split; [|split; [|done]].
  - rewrite (mbind_run _ _ _ 0 (Driver p (set_gpu_queue v (complete_queue q1 ring) true) h')); [done|]. unfold gpu_submit. fold bufs. rewrite (run_on_controlq _ _ p v q true h _ _ Ea).
    assert (Eq : seqZ 0 (zlen bufs) = 0 :: seqZ 1 (zlen bufs - 1)) by (rewrite seqZ_cons by lia; do 2 f_equal; lia). rewrite Eq.
    erewrite run_on_controlq by (rewrite <- Eq, Ef; reflexivity). erewrite run_on_controlq by (rewrite Ei; reflexivity).
    rewrite (mbind_run _ _ _ tt (Driver p (set_gpu_queue v (complete_queue q1 ring) true) h')); [done|]. unfold gpu_notify_wait, get_gpu.
    unfold mbind, get_local, mret, store32, modify. cbn [obind fst snd dlocal set_gpu_queue with_gdev g_dev set_glock set_controlq q_notify controlq]. rewrite Hnot.
    refine (wait_used_ok n fuel p v q1 _ _ h' _ Ht Hm _ ltac:(lia)). cbn. rewrite Hu, Hused. by apply u16_succ_ne.
  - constructor; [|done|done|done|cbn; by rewrite Hu, Hv, Hused|cbn; rewrite Hv; unfold u16; apply Z.mod_pos_bound; lia].
    destruct Hok as [B1 B2 B3 B4 B5]. constructor; cbn; [done..|]. by rewrite Hrl.
Qed.

(** *** Fields of a request *)

(** In order, and within [size] bytes. *)
Fixpoint fields_ok (lo size : Z) (fs : fields) : Prop :=
  match fs with
  | [] => True
  | (off, l) :: fs' => lo <= off /\ bytes_ok l /\ off + zlen l <= size /\ fields_ok (off + zlen l) size fs'
  end.

Definition has_fields (fs : fields) (req : list Z) : Prop := Forall (fun f => slice (fst f) (zlen (snd f)) req = snd f) fs.

Lemma put_fields_ok size fs : forall lo p a v (h : H), 0 <= lo -> fields_ok lo size fs -> exists h',
  put_fields a fs (Driver p v h) = Ret (tt, Driver (A := A) p v h') /\ Forall (fun f => ram_get (a + fst f) (zlen (snd f)) h' = snd f) fs /\ adapter_of h' = adapter_of h /\
  forall b n, 0 <= n -> b + n <= a + lo \/ a + size <= b -> ram_get b n h' = ram_get b n h.
Proof.
  induction fs as [|[off l] fs IH]; intros lo p a v h Hlo Hok; [by exists h|]. destruct Hok as (H5 & H6 & H7 & H8). pose proof (zlen_nonneg l).
  destruct (IH (off + zlen l) p a v (ram_put (a + off) l h)) as (h' & E & Hf & Ha & Ho); [lia|done|]. exists h'. split; [exact E|]. split.
  - apply Forall_cons; cbn [fst snd]. split; [|done]. rewrite Ho by lia. by apply ram_get_same.
  - split; [rewrite Ha; apply adapter_ram|]. intros b n Hn Hd. rewrite Ho by lia. apply ram_get_other; [done|lia|lia].
Qed.

Lemma fields_present a size fs (h : H) : forall lo, 0 <= lo -> fields_ok lo size fs -> Forall (fun f => ram_get (a + fst f) (zlen (snd f)) h = snd f) fs -> has_fields fs (ram_get a size h).
Proof.
  induction fs as [|[off l] fs IH]; intros lo Hlo Hok Hf; [constructor|]. destruct Hok as (H5 & H6 & H7 & H8). pose proof (zlen_nonneg l). apply Forall_cons in Hf as [E Hf]. cbn in E.
  constructor; [cbn|apply (IH (off + zlen l)); [lia|done|done]]. rewrite <- ram_slice by lia. done.
Qed.

(** *** Commands *)

(** The state after a command: pages, lock and queue are as they were, the adapter is
    [g], and memory in use is not changed. *)
Record done_with (held : gset Z) (free : Z) (s s' : state) (g : adapter) : Prop := {
  dw_ready : gpu_ready held free s';
  dw_vars : exists q, dlocal s' = set_gpu_queue (dlocal s) q false;
  dw_adapter : adapter_of (dhw s') = g;
  dw_mem : same_held held (dhw s) (dhw s')
}.

Lemma frame_away p q i n : frame_ok p -> frame_ok q -> p <> q -> 0 <= i -> i + n <= PGSIZE -> p + i + n <= q \/ q + PGSIZE <= p + i.
Proof.
  intros Hp Hq Hne Hi Hn. pose proof (pages_apart p q Hp Hq Hne). unfold PGSIZE in *. lia.
Qed.

Lemma same_held_trans held h1 h2 h3 : same_held held h1 h2 -> same_held held h2 h3 -> same_held held h1 h3.
Proof. intros E1 E2 p i Hp Hi. by rewrite E2, E1. Qed.

(** A page that is not in use may be written. *)
Lemma same_held_away held q (h h' : H) n : set_Forall frame_ok held -> frame_ok q -> q ∉ held -> n <= PGSIZE ->
  (forall b k, 0 <= k -> b + k <= q \/ q + n <= b -> ram_get b k h' = ram_get b k h) -> same_held held h h'.
Proof.
  intros Hh Hq Hn Hle Ho p i Hp Hi. apply Ho; [lia|]. destruct (frame_away p q i 1) as [?|?]; [by apply Hh|done|by intros ->|lia|unfold PGSIZE in *; lia|lia|lia].
Qed.

Lemma two_pages p held free : pa_holds p held free -> 3 <= free -> exists a b p1 p2, pa_alloc p = Ret (a, p1) /\ pa_alloc p1 = Ret (b, p2) /\
  frame_ok a /\ frame_ok b /\ a <> b /\ a ∉ held /\ b ∉ held /\ pa_holds p2 ({[b]} ∪ ({[a]} ∪ held)) (free - 2).
Proof.
  intros Hh Hf. destruct (pa_alloc_law p held free Hh ltac:(lia)) as (a & p1 & E1 & Ha & Hfa & H5). destruct (pa_alloc_law p1 _ _ H5 ltac:(lia)) as (b & p2 & E2 & Hb & Hfb & H6).
  exists a, b, p1, p2. rewrite not_elem_of_union, not_elem_of_singleton in Hb. replace (free - 2) with (free - 1 - 1) by lia. intuition.
Qed.

(** Pages are given back. *)
Lemma two_back p held free a b : a <> b -> a ∉ held -> b ∉ held -> pa_holds p ({[b]} ∪ ({[a]} ∪ held)) (free - 2) ->
  exists p1 p2, pa_free a p = Ret p1 /\ pa_free b p1 = Ret p2 /\ pa_holds p2 held free.
Proof.
  intros Hab Ha Hb Hp. destruct (pa_free_law p _ _ a Hp ltac:(set_solver)) as (p1 & E1 & Hp1). destruct (pa_free_law p1 _ _ b Hp1 ltac:(set_solver)) as (p2 & E2 & Hp2).
  exists p1, p2. split; [done|]. split; [done|]. replace held with ((({[b]} ∪ ({[a]} ∪ held)) ∖ {[a]}) ∖ {[b]} : gset Z) by set_solver. by replace free with (free - 2 + 1 + 1) by lia.
Qed.

Lemma three_back p held free a b c : a <> b -> a <> c -> b <> c -> a ∉ held -> b ∉ held -> c ∉ held -> pa_holds p ({[c]} ∪ ({[b]} ∪ ({[a]} ∪ held))) (free - 3) ->
  exists p1 p2 p3, pa_free a p = Ret p1 /\ pa_free c p1 = Ret p2 /\ pa_free b p2 = Ret p3 /\ pa_holds p3 held free.
Proof.
  intros Hab Hac Hbc Ha Hb Hc Hp. destruct (pa_free_law p _ _ a Hp ltac:(set_solver)) as (p1 & E1 & Hp1). exists p1.
  replace (({[c]} ∪ ({[b]} ∪ ({[a]} ∪ held))) ∖ {[a]} : gset Z) with ({[b]} ∪ ({[c]} ∪ held) : gset Z) in Hp1 by set_solver.
  replace (free - 3 + 1) with (free - 2) in Hp1 by lia. destruct (two_back p1 held free c b) as (p2 & p3 & E2 & E3 & Hp3); [done..|]. by exists p2, p3.
Qed.

Lemma done_intro held free p v h p' q h' g : pa_holds p' held free -> 3 <= free -> set_Forall frame_ok held -> at_rest q -> q_notify (g_dev v) = notify ->
  adapter_of h' = g -> same_held held h h' -> done_with held free (Driver p v h) (Driver p' (set_gpu_queue v q false) h') g.
Proof. intros. constructor; [by constructor|by eexists|done|done]. Qed.

Lemma command_ok {X} fs size rsize (answer : Z -> hw state X) held free s resp g x : gpu_ready held free s -> fields_ok 0 size fs -> 0 <= size <= PGSIZE -> bytes_ok resp -> zlen resp <= rsize <= PGSIZE ->
  (forall req h1, has_fields fs req -> zlen req = size -> same_held held (dhw s) h1 -> gpu_does (phys_mem h1) req (adapter_of (dhw s)) = Some (resp, g)) ->
  (forall r p v h, ram_get r (zlen resp) h = resp -> answer r (Driver p v h) = Ret (x, Driver p v h)) ->
  exists s', command fuel fs size rsize answer s = Ret (x, s') /\ done_with held free s s' g.
Proof.
  intros [Hp Hfree Hfr Hlk Hq Hnot] Hfs Hsz Hby Hrs Hdoes Hans. destruct s as [p v h]. cbn [dpool dlocal dhw] in *.
  destruct (two_pages p held free Hp Hfree) as (a & b & p1 & p2 & E1 & E2 & Ha & Hb & Hab & Hna & Hnb & Hp2).
  unfold command. rewrite run_acquire by done. rewrite (run_kalloc _ _ _ _ _ _ E1), (run_kalloc _ _ _ _ _ _ E2).
  destruct (put_fields_ok size fs 0 p2 a (set_gpu_queue v (controlq (g_dev v)) true) h ltac:(lia) Hfs) as (h1 & Ep & Hf1 & Had1 & Ho1).
  rewrite (mbind_run _ _ _ _ _ Ep).
  assert (Hs1 : same_held held h h1) by (apply (same_held_away held a h h1 size); [done|done|done|lia|intros c k Hk Hc; apply Ho1; lia]).
  destruct (V2P_frame a Ha) as (_ & _ & _ & Ea). destruct (V2P_frame b Hb) as (_ & _ & _ & Eb). pose proof (zlen_nonneg resp).
  assert (Hd1 : gpu_does (phys_mem h1) (gather h1 ((fun b => (V2P (fst b), snd b)) <$> [(a, size)])) (adapter_of h1) = Some (resp, g)).
  { unfold gather. cbn [fmap list_fmap fst snd concat]. rewrite app_nil_r. unfold phys_mem at 2. rewrite Ea, Had1.
    apply Hdoes; [by apply (fields_present a size fs h1 0)|apply ram_len; lia|done]. }
  destruct (gpu_submit_ok [(a, size)] b rsize (fun d0 => x <~ answer b; d_kfree a ;> d_kfree b ;> gpu_free_chain d0 ;> gpu_release ;> mret x) p2 v _ h1 resp g Hq Hnot ltac:(done) Hd1 Hby ltac:(lia))
    as (q' & h' & Es & Hod & Had & Hr & Ho).
  cbn [app] in Es. rewrite Es. clear Es.
  rewrite Eb in Ho. unfold phys_mem in Hr. rewrite Eb in Hr. rewrite (mbind_run _ _ _ _ _ (Hans b p2 (set_gpu_queue v q' true) h' Hr)).
  destruct (two_back p2 held free a b Hab Hna Hnb Hp2) as (p3 & p4 & E3 & E4 & Hp4).
  rewrite (run_kfree _ _ _ _ _ _ E3), (run_kfree _ _ _ _ _ _ E4).
  destruct (free_one_done _ q' Hod ltac:(done) ltac:(done)) as (q2 & E5 & Hq2). unfold gpu_free_chain. erewrite run_on_controlq by (rewrite E5; reflexivity). rewrite run_release.
  exists (Driver p4 (set_gpu_queue v q2 false) h'). split; [reflexivity|]. apply done_intro; [done..|].
  apply (same_held_trans held h h1 h' Hs1). apply (same_held_away held b h1 h' (zlen resp)); [done|done|done|lia|]. intros c k Hk Hc. by apply Ho.
Qed.

Lemma fields_kept a size fs (h h' : H) : forall lo, 0 <= lo -> fields_ok lo size fs -> (forall b n, 0 <= n -> a <= b -> b + n <= a + size -> ram_get b n h' = ram_get b n h) ->
  Forall (fun f => ram_get (a + fst f) (zlen (snd f)) h = snd f) fs -> Forall (fun f => ram_get (a + fst f) (zlen (snd f)) h' = snd f) fs.
Proof.
  induction fs as [|[off l] fs IH]; intros lo Hlo Hok Hk Hf; [constructor|]. destruct Hok as (H5 & H6 & H7 & H8). pose proof (zlen_nonneg l). apply Forall_cons in Hf as [E Hf].
  constructor; [cbn in *; by rewrite Hk by lia|]. apply (IH (off + zlen l)); [lia|done|done|done].
Qed.

Definition nodata : list Z := response VIRTIO_GPU_RESP_OK_NODATA [].

Lemma response_bytes type data : bytes_ok data -> bytes_ok (response type data).
Proof. intros Hd. unfold response. apply Forall_app. split; [apply le_bytes_ok|]. apply Forall_app. split; [apply zero_bytes|done]. Qed.

Lemma nodata_bytes : bytes_ok nodata.
Proof. apply response_bytes. constructor. Qed.

(** The command with a list of pieces of memory: three structures. *)
Lemma attach_ok id fb len held free s g : gpu_ready held free s ->
  (forall req mem h1, has_fields (ctrl_hdr VIRTIO_GPU_CMD_RESOURCE_ATTACH_BACKING ++ [(24, le_bytes 4 id); (28, le_bytes 4 1)]) req -> zlen req = 32 ->
     has_fields [(0, le_bytes 8 fb); (8, le_bytes 4 len)] mem -> zlen mem = 16 ->
     gpu_does (phys_mem h1) (req ++ mem) (adapter_of (dhw s)) = Some (response VIRTIO_GPU_RESP_OK_NODATA [], g)) ->
  exists s', virtio_gpu_attach_banking fuel id fb len s = Ret (tt, s') /\ done_with held free s s' g.
Proof.
  intros [Hp Hfree Hfr Hlk Hq Hnot] Hdoes. destruct s as [p v h]. cbn [dpool dlocal dhw] in *.
  destruct (three_pages p held free Hp Hfree) as (a & b & c & p1 & p2 & p3 & E1 & E2 & E3 & Hnd & Hin & Hp3). rewrite !Forall_cons in Hin. destruct Hin as ([Ha Hna] & [Hb Hnb] & [Hc Hnc] & _).
  assert (a <> b /\ a <> c /\ b <> c) as (Hab & Hac & Hbc) by (rewrite !NoDup_cons in Hnd; set_solver).
  unfold virtio_gpu_attach_banking. rewrite run_acquire by done. rewrite (run_kalloc _ _ _ _ _ _ E1), (run_kalloc _ _ _ _ _ _ E2), (run_kalloc _ _ _ _ _ _ E3).
  set (fs := ctrl_hdr _ ++ _) in *. set (ms := [(0, le_bytes 8 fb); _]) in *. assert (Hfs : fields_ok 0 32 fs) by layout. assert (Hms : fields_ok 0 16 ms) by layout.
  set (v1 := set_gpu_queue v (controlq (g_dev v)) true). destruct (put_fields_ok 32 fs 0 p3 a v1 h ltac:(lia) Hfs) as (h1 & Ep1 & Hf1 & Had1 & Ho1).
  destruct (put_fields_ok 16 ms 0 p3 c v1 h1 ltac:(lia) Hms) as (h2 & Ep2 & Hf2 & Had2 & Ho2). rewrite (mbind_run _ _ _ _ _ Ep1), (mbind_run _ _ _ _ _ Ep2).
  destruct (V2P_frame a Ha) as (_ & _ & _ & Ea). destruct (V2P_frame b Hb) as (_ & _ & _ & Eb). destruct (V2P_frame c Hc) as (_ & _ & _ & Ec). pose proof (pages_apart a c Ha Hc ltac:(done)) as Dac.
  assert (Hd : gpu_does (phys_mem h2) (gather h2 ((fun b => (V2P (fst b), snd b)) <$> [(a, 32); (c, 16)])) (adapter_of h2) = Some (response VIRTIO_GPU_RESP_OK_NODATA [], g)).
  { unfold gather. cbn [fmap list_fmap fst snd concat]. rewrite app_nil_r. unfold phys_mem at 2 3. rewrite Ea, Ec, Had2, Had1.
    apply Hdoes; [|apply ram_len; lia|by apply (fields_present c 16 ms h2 0)|apply ram_len; lia]. apply (fields_present a 32 fs h2 0); [lia|done|].
    apply (fields_kept a 32 fs h1 h2 0); [lia|done|intros; apply Ho2; lia|done]. }
  destruct (gpu_submit_ok [(a, 32); (c, 16)] b ctrl_hdr_size (fun d0 => d_kfree a ;> d_kfree c ;> d_kfree b ;> gpu_free_chain d0 ;> gpu_release) p3 v _ h2 _ g Hq Hnot ltac:(done) Hd nodata_bytes ltac:(done))
    as (q' & h' & Es & Hod & Had & Hr & Ho).
  cbn [app] in Es. subst v1. rewrite Es. clear Es. rewrite Eb in Ho.
  destruct (three_back p3 held free a b c Hab Hac Hbc Hna Hnb Hnc Hp3) as (p4 & p5 & p6 & E4 & E5 & E6 & Hp6). rewrite (run_kfree _ _ _ _ _ _ E4), (run_kfree _ _ _ _ _ _ E5), (run_kfree _ _ _ _ _ _ E6).
  destruct (free_one_done _ q' Hod ltac:(done) ltac:(done)) as (q2 & E7 & Hq2). unfold gpu_free_chain. erewrite run_on_controlq by (rewrite E7; reflexivity).
  exists (Driver p6 (set_gpu_queue v q2 false) h'). split; [reflexivity|]. apply done_intro; [done..|].
  apply (same_held_trans held h h1 h'); [apply (same_held_away held a h h1 32); [done|done|done|unfold PGSIZE; lia|intros x k Hk Hx; apply Ho1; lia]|].
  apply (same_held_trans held h1 h2 h'); [apply (same_held_away held c h1 h2 16); [done|done|done|unfold PGSIZE; lia|intros x k Hk Hx; apply Ho2; lia]|].
  apply (same_held_away held b h2 h' 24); [done|done|done|unfold PGSIZE; lia|intros x k Hk Hx; by apply Ho].
Qed.

(** *** What each command does *)

Lemma field32 off req w : slice off (Z.of_nat 4) req = le_bytes 4 w -> get32 off req = u32 w.
Proof. intros E. unfold get32. change 4 with (Z.of_nat 4) at 1. rewrite E, le_val_bytes_mod. done. Qed.

Lemma field64 off req w : slice off (Z.of_nat 8) req = le_bytes 8 w -> get64 off req = w mod 2 ^ 64.
Proof. intros E. unfold get64. change 8 with (Z.of_nat 8) at 1. rewrite E, le_val_bytes_mod. done. Qed.

(** The values of the fields of a request. *)
Ltac read_fields Hf := unfold has_fields in Hf; cbn [ctrl_hdr rect_fields app] in Hf;
  repeat (let E := fresh "Field" in apply Forall_cons in Hf as [E Hf]; cbn [fst snd] in E; rewrite zlen_le_bytes in E; first [apply field32 in E | apply field64 in E]).

(** Comparisons of the codes of commands. *)
Ltac codes := repeat match goal with
  | |- context [?x =? ?y] => let r := eval vm_compute in (x =? y) in
      match r with true => change (x =? y) with true | false => change (x =? y) with false end
  end; cbv beta iota zeta; cbn [andb orb].

Lemma create_2d_ok id w ht held free s : gpu_ready held free s -> 0 < id < 2 ^ 32 -> is_u32 w -> is_u32 ht -> a_resources (adapter_of (dhw s)) !! id = None ->
  exists s', virtio_gpu_res_create_2d fuel id VIRTIO_GPU_FORMAT_B8G8R8X8_UNORM w ht s = Ret (tt, s') /\ done_with held free s s' (with_resource (adapter_of (dhw s)) id w ht).
Proof.
  intros Hr Hid Hw Hh Hn. apply (command_ok _ _ _ _ _ _ _ nodata); [done|layout|done|exact nodata_bytes|done| |done]. intros req h1 Hf Hlen Hm. read_fields Hf. unfold gpu_does.
  rewrite Field, Field3, Field4, Field5, Field6, !u32_small by (done || unfold is_u32; lia). codes. rewrite Hn. destruct (Z.eqb_spec id 0); [lia|]. done.
Qed.

Lemma whole_ok req w ht : get32 24 req = u32 0 -> get32 28 req = u32 0 -> get32 32 req = u32 w -> get32 36 req = u32 ht -> is_u32 w -> is_u32 ht -> whole req w ht = true.
Proof. intros E1 E2 E3 E4 Hw Hh. unfold whole. rewrite E1, E2, E3, E4, !(u32_small w), !(u32_small ht), !Z.eqb_refl by done. done. Qed.

Lemma set_scanout_ok head id w ht held free s : gpu_ready held free s -> is_u32 head -> is_u32 id -> is_u32 w -> is_u32 ht -> head < a_count (adapter_of (dhw s)) ->
  a_resources (adapter_of (dhw s)) !! id = Some (w, ht) ->
  exists s', virtio_gpu_set_scanout fuel head id w ht s = Ret (tt, s') /\ done_with held free s s' (with_head (adapter_of (dhw s)) head id).
Proof.
  intros Hr Hhd Hid Hw Hh Hc Hn. apply (command_ok _ _ _ _ _ _ _ nodata); [done|layout|done|exact nodata_bytes|done| |done]. intros req h1 Hf Hlen Hm. read_fields Hf. unfold gpu_does.
  rewrite Field, Field7, Field8, !u32_small by done. codes. rewrite Hn, (whole_ok req w ht) by done. destruct (Z.leb_spec (a_count (adapter_of (dhw s))) head); [lia|done].
Qed.

Lemma flush_ok id w ht px held free s : gpu_ready held free s -> is_u32 id -> is_u32 w -> is_u32 ht ->
  a_resources (adapter_of (dhw s)) !! id = Some (w, ht) -> a_pixels (adapter_of (dhw s)) !! id = Some px ->
  exists s', virtio_gpu_flush fuel id w ht s = Ret (tt, s') /\ done_with held free s s' (with_flushed (adapter_of (dhw s)) id px).
Proof.
  intros Hr Hid Hw Hh Hn Hp. apply (command_ok _ _ _ _ _ _ _ nodata); [done|layout|done|exact nodata_bytes|done| |done]. intros req h1 Hf Hlen Hm. read_fields Hf. unfold gpu_does.
  rewrite Field, Field7, !u32_small by done. codes. by rewrite Hn, Hp, (whole_ok req w ht).
Qed.

(** The pixels are those in memory in use. *)
Lemma transfer_ok id w ht a n held free s : gpu_ready held free s -> is_u32 id -> is_u32 w -> is_u32 ht ->
  a_resources (adapter_of (dhw s)) !! id = Some (w, ht) -> a_backing (adapter_of (dhw s)) !! id = Some (a, n) -> pixel_bytes w ht <= n ->
  (forall h1, same_held held (dhw s) h1 -> phys_mem h1 a (pixel_bytes w ht) = phys_mem (dhw s) a (pixel_bytes w ht)) ->
  exists s', virtio_gpu_xfer_to_host_2d fuel id w ht s = Ret (tt, s') /\ done_with held free s s' (with_pixels (adapter_of (dhw s)) id (phys_mem (dhw s) a (pixel_bytes w ht))).
Proof.
  intros Hr Hid Hw Hh Hn Hb Hle Hmem. apply (command_ok _ _ _ _ _ _ _ nodata); [done|layout|done|exact nodata_bytes|done| |done]. intros req h1 Hf Hlen Hm. read_fields Hf. unfold gpu_does.
  rewrite Field, Field7, Field8, !u32_small by done. codes. rewrite Hn, Hb, (whole_ok req w ht) by done. destruct (Z.leb_spec (pixel_bytes w ht) n); [|lia].
  cbn [andb]. by rewrite Hmem.
Qed.

Lemma slice_front {X} off n (l1 l2 : list X) : 0 <= off -> 0 <= n -> off + n <= zlen l1 -> slice off n (l1 ++ l2) = slice off n l1.
Proof. intros Ho Hn Hl. unfold slice, zlen in *. rewrite drop_app_le by lia. apply take_app_le. rewrite length_drop. lia. Qed.

Lemma slice_back {X} off n (l1 l2 : list X) : 0 <= off -> slice (zlen l1 + off) n (l1 ++ l2) = slice off n l2.
Proof. intros Ho. unfold slice, zlen. rewrite drop_app_ge by lia. do 2 f_equal. lia. Qed.

Lemma attach_backing_ok id fb len r held free s : gpu_ready held free s -> is_u32 id -> is_u32 fb -> is_u32 len -> a_resources (adapter_of (dhw s)) !! id = Some r ->
  exists s', virtio_gpu_attach_banking fuel id fb len s = Ret (tt, s') /\ done_with held free s s' (with_backing (adapter_of (dhw s)) id fb len).
Proof.
  intros Hr Hid Hfb Hlen Hn. apply attach_ok; [done|]. intros req mem h1 Hf Hl Hf2 Hl2. read_fields Hf. read_fields Hf2. unfold gpu_does.
  assert (G : forall off, 0 <= off <= 28 -> get32 off (req ++ mem) = get32 off req) by (intros off Ho; unfold get32; by rewrite slice_front by lia).
  assert (G64 : get64 32 (req ++ mem) = get64 0 mem) by (unfold get64; rewrite <- (slice_back 0 8 req mem), Hl by lia; done).
  assert (G32 : get32 40 (req ++ mem) = get32 8 mem) by (unfold get32; rewrite <- (slice_back 8 4 req mem), Hl by lia; done).
  rewrite G64, G32, !G by lia. rewrite Field, Field3, Field4, Field5, Field6, !u32_small by done. codes. rewrite Hn. rewrite Z.mod_small by (unfold is_u32 in *; lia). done.
Qed.

(** ** Displays *)

Definition head_shows (s : state) (head : Z) : option (list Z) := a_screen (adapter_of (dhw s)) !! head.

(** Display [i] shows [fb] on its head. *)
Record set_up (s : state) (i : Z) (disp : VirtioGPUDisplay) : Prop := {
  su_display : zget (g_displays (dlocal s)) i = Some disp;
  su_words : is_u32 (xres disp) /\ is_u32 (yres disp) /\ is_u32 (resource_id disp);
  su_resource : a_resources (adapter_of (dhw s)) !! resource_id disp = Some (xres disp, yres disp);
  su_backing : a_backing (adapter_of (dhw s)) !! resource_id disp = Some (framebuffer disp, 16 * 1024 * 1024);
  su_fits : pixel_bytes (xres disp) (yres disp) <= 16 * 1024 * 1024;
  su_head : a_heads (adapter_of (dhw s)) !! scanout disp = Some (resource_id disp)
}.

(** The frames of a framebuffer. *)
Definition fb_held (held : gset Z) (fb : Z) : Prop := forall i, 0 <= i < 4096 -> fb + PGSIZE * i ∈ held.

Lemma fb_bytes held fb n (h h1 : H) : fb_held held fb -> 0 <= n <= 16 * 1024 * 1024 -> same_held held h h1 -> ram_get fb n h1 = ram_get fb n h.
Proof.
  intros Hfb Hn Hs. apply zget_all_eq; [by rewrite !ram_len by lia|]. intros i Hi. rewrite ram_len in Hi by lia.
  assert (E : forall h, zget (ram_get fb n h) i = zget (ram_get (fb + i) 1 h) 0).
  { intros h0. rewrite (ram_slice fb n i 1 h0) by lia. unfold zget. destruct (Z.ltb_spec i 0); [lia|]. unfold slice. rewrite lookup_take_lt by (cbn; lia). rewrite lookup_drop. f_equal. cbn. lia. }
  rewrite !E. pose proof (Z.div_mod i PGSIZE ltac:(done)) as Hd. pose proof (Z.mod_pos_bound i PGSIZE ltac:(done)) as Hm.
  specialize (Hs (fb + PGSIZE * (i / PGSIZE)) (i mod PGSIZE)). rewrite <- Z.add_assoc, <- Hd in Hs. rewrite Hs; [done| |done]. apply Hfb. unfold PGSIZE in *. lia.
Qed.

(** Updating a display shows what is in its memory. *)
Lemma display_update_ok i disp held free s : gpu_ready held free s -> set_up s i disp -> fb_held held (P2V (framebuffer disp)) ->
  exists s', virtio_gpu_display_update fuel i s = Ret (tt, s') /\ gpu_ready held free s' /\ set_up s' i disp /\ same_held held (dhw s) (dhw s') /\
    head_shows s' (scanout disp) = Some (phys_mem (dhw s) (framebuffer disp) (pixel_bytes (xres disp) (yres disp))).
Proof.
  intros Hr [S1 (W1 & W2 & W3) S2 S3 S4 S5] Hfb. unfold virtio_gpu_display_update, get_display. unfold mbind at 1 2, get_local, mlift. cbn [obind fst snd]. rewrite S1. cbn [of_option obind fst snd].
  assert (0 <= pixel_bytes (xres disp) (yres disp)) by (unfold pixel_bytes, is_u32 in *; nia).
  destruct (transfer_ok (resource_id disp) (xres disp) (yres disp) _ _ held free s Hr W3 W1 W2 S2 S3 S4) as (s1 & E1 & [D1 [q1 D2] D3 D4]).
  { intros h1 Hs. unfold phys_mem. by apply (fb_bytes held). }
  rewrite (mbind_run _ _ _ _ _ E1). destruct (flush_ok (resource_id disp) (xres disp) (yres disp) (phys_mem (dhw s) (framebuffer disp) (pixel_bytes (xres disp) (yres disp))) held free s1) as (s2 & E2 & [F1 [q2 F2] F3 F4]);
    [done|done|done|done|by rewrite D3|rewrite D3; apply lookup_insert_eq|].
  exists s2. split; [exact E2|]. split; [done|]. split; [|split; [by apply (same_held_trans held _ (dhw s1))|]].
  - constructor; rewrite ?F3, ?D3; try done. by rewrite F2, D2.
  - unfold head_shows. rewrite F3, D3. cbn. apply lookup_union_Some_l. rewrite map_lookup_imap, map_lookup_filter, S5. cbn. by rewrite option_guard_True.
Qed.

Definition enabled_display (disp : VirtioGPUDisplay) (x y fb id : Z) : VirtioGPUDisplay := GpuDisplay x y fb (enabled disp) id (scanout disp).

(** What enabling a display needs: an adapter with its head and without its next
    resource, and memory for any mode, which [fb] is. *)
Record can_enable (s : state) (i x y : Z) (disp : VirtioGPUDisplay) (fb : Z) (p1 : A) (held1 : gset Z) (free1 : Z) : Prop := {
  ce_display : zget (g_displays (dlocal s)) i = Some disp;
  ce_head : is_u32 (scanout disp) /\ scanout disp < a_count (adapter_of (dhw s));
  ce_mode : is_u32 x /\ is_u32 y /\ pixel_bytes x y <= 16 * 1024 * 1024;
  ce_id : 0 < res_id (g_dev (dlocal s)) < 2 ^ 32 /\ a_resources (adapter_of (dhw s)) !! res_id (g_dev (dlocal s)) = None;
  ce_alloc : pa_pgalloc 4096 (dpool s) = Ret (fb, p1);
  ce_pool : pa_holds p1 held1 free1 /\ 3 <= free1 /\ set_Forall frame_ok held1;
  ce_fb : fb_held held1 fb
}.

(** Changes of a display do not matter for the queue. *)
Lemma ready_vars held free s l r d : gpu_ready held free s -> controlq d = controlq (g_dev (dlocal s)) -> g_lock d = g_lock (g_dev (dlocal s)) -> q_notify d = q_notify (g_dev (dlocal s)) ->
  gpu_ready held free (Driver (dpool s) (GpuVars d l r) (dhw s)).
Proof. intros [R1 R2 R3 R4 R5 R6] Eq El En. constructor; cbn; rewrite ?Eq, ?El, ?En; done. Qed.

Lemma run_alloc_id {X} (k : Z -> hw state X) p v h :
  mbind virtio_gpu_alloc_resource_id k (Driver p v h) = k (res_id (g_dev v)) (Driver p (with_gdev v (set_res_id (g_dev v) (u32 (res_id (g_dev v) + 1)))) h).
Proof. done. Qed.

Lemma run_get_display {X} (k : VirtioGPUDisplay -> hw state X) p v h i disp : zget (g_displays v) i = Some disp -> mbind (get_display i) k (Driver p v h) = k disp (Driver p v h).
Proof. intros E. unfold get_display, mbind, get_local, mlift. cbn. by rewrite E. Qed.

Lemma run_pgalloc {X} (k : Z -> hw state X) p v h n a p' : pa_pgalloc n p = Ret (a, p') -> mbind (d_pgalloc n) k (Driver p v h) = k a (Driver p' v h).
Proof. intros E. unfold d_pgalloc, mbind. cbn. by rewrite E. Qed.

Lemma run_put_display {X} (k : unit -> hw state X) i disp s l : zset (g_displays (dlocal s)) i disp = Some l ->
  mbind (put_display i disp) k s = k tt (Driver (dpool s) (GpuVars (g_dev (dlocal s)) l (g_last (dlocal s))) (dhw s)).
Proof. intros E. unfold put_display, mbind, get_local, mlift, put_local. cbn. by rewrite E. Qed.

Lemma display_enable_ok i x y disp fb p1 held free held1 free1 s : gpu_ready held free s -> can_enable s i x y disp fb p1 held1 free1 ->
  exists s', virtio_gpu_display_enable fuel i x y s = Ret (V2P fb, s') /\ gpu_ready held1 free1 s' /\
    set_up s' i (enabled_display disp x y (V2P fb) (res_id (g_dev (dlocal s)))) /\ P2V (V2P fb) = fb.
Proof.
  intros [R1 R2 R3 R4 R5 R6] [C1 [C2 C3] (C4 & C5 & C6) [C7 C8] C9 (P1 & P2 & P3) C10]. destruct s as [p v h]. cbn [dpool dlocal dhw] in *.
  assert (Hfb : frame_ok fb) by (specialize (C10 0 ltac:(lia)); rewrite Z.add_0_r in C10; by apply P3). destruct (V2P_frame fb Hfb) as (Hu & _ & _ & Efb).
  assert (Hi : 0 <= i < zlen (g_displays v)) by (apply zget_lookup in C1 as [? ?%lookup_lt_Some]; unfold zlen; lia). set (id := res_id (g_dev v)) in *.
  unfold virtio_gpu_display_enable. rewrite run_alloc_id. fold id. set (v1 := with_gdev v _). rewrite (run_get_display _ p v1 h i disp C1), (run_pgalloc _ _ _ _ _ _ _ C9).
  match goal with |- context [put_display i ?d ;> _] => set (d1 := d) end.
  rewrite (run_put_display _ i d1 (Driver p1 v1 h) _ (zset_Some _ i d1 Hi)). cbn [dpool dlocal dhw]. set (s0 := Driver p1 _ h).
  assert (Hr0 : gpu_ready held1 free1 s0) by (constructor; done).
  destruct (create_2d_ok id x y held1 free1 s0 Hr0 C7 C4 C5 C8) as (s1 & E1 & [D1 [q1 D2] D3 D4]). rewrite (mbind_run _ _ _ _ _ E1).
  destruct (attach_backing_ok id (V2P fb) (16 * 1024 * 1024) (x, y) held1 free1 s1 D1 ltac:(unfold is_u32; lia) Hu ltac:(done)) as (s2 & E2 & [F1 [q2 F2] F3 F4]); [rewrite D3; apply lookup_insert_eq|].
  rewrite (mbind_run _ _ _ _ _ E2).
  destruct (set_scanout_ok (scanout disp) id x y held1 free1 s2 F1 C2 ltac:(unfold is_u32; lia) C4 C5) as (s3 & E3 & [G1 [q3 G2] G3 G4]); [rewrite F3, D3; exact C3|rewrite F3, D3; apply lookup_insert_eq|].
  rewrite (mbind_run _ _ _ _ _ E3). assert (Ed : g_displays (dlocal s3) = <[Z.to_nat i := d1]> (g_displays v)) by (by rewrite G2, F2, D2).
  set (d2 := GpuDisplay x y (V2P fb) (enabled disp) id (scanout disp)). rewrite (run_put_display _ i d2 s3 _ (zset_Some (g_displays (dlocal s3)) i d2 ltac:(rewrite Ed, zlen_insert; exact Hi))).
  eexists. split; [reflexivity|]. split; [by apply ready_vars|]. split; [|done].
  constructor; cbn [dpool dlocal dhw g_displays d2 enabled_display xres yres framebuffer resource_id scanout]; rewrite ?G3, ?F3, ?D3; try done.
  - apply zget_insert_eq. rewrite Ed, zlen_insert. exact Hi.
  - split; [done|]. split; [done|]. unfold is_u32. lia.
  - apply lookup_insert_eq.
  - apply lookup_insert_eq.
  - apply lookup_insert_eq.
Qed.

(** C26: A display is enabled, a program draws in its framebuffer, and the display is
    updated: the head of the display shows what was drawn, byte for byte. *)
Theorem framebuffer_shown i x y disp fb p1 held free held1 free1 (s : state) px : gpu_ready held free s -> can_enable s i x y disp fb p1 held1 free1 ->
  zlen px = pixel_bytes x y -> bytes_ok px ->
  exists s1 s2, virtio_gpu_display_enable fuel i x y s = Ret (V2P fb, s1) /\ virtio_gpu_display_update fuel i (on_hw (ram_put fb px) s1) = Ret (tt, s2) /\
    head_shows s2 (scanout disp) = Some px /\ gpu_ready held1 free1 s2.
Proof.
  intros Hr Hc Hl Hpx. destruct (display_enable_ok _ _ _ _ _ _ _ _ _ _ _ Hr Hc) as (s1 & E1 & [R1 R2 R3 R4 R5 R6] & Hsu & Efb). exists s1.
  destruct (display_update_ok i (enabled_display disp x y (V2P fb) (res_id (g_dev (dlocal s)))) held1 free1 (on_hw (ram_put fb px) s1)) as (s2 & E2 & Hr2 & _ & _ & Hs).
  - by constructor.
  - destruct Hsu as [S1 S2 S3 S4 S5 S6]. constructor; cbn [on_hw dlocal dhw]; rewrite ?adapter_ram; done.
  - cbn [enabled_display framebuffer]. rewrite Efb. apply Hc.
  - exists s2. split; [done|]. split; [done|]. split; [|done]. cbn [enabled_display scanout] in Hs. rewrite Hs. f_equal. cbn [on_hw dhw enabled_display framebuffer xres yres].
    unfold phys_mem. rewrite Efb, <- Hl. by apply ram_get_same.
Qed.

(** *** Identification blocks *)

Lemma slice_at {X} (l1 l2 : list X) off n : zlen l1 = off -> slice off n (l1 ++ l2) = slice 0 n l2.
Proof. intros <-. rewrite <- (slice_back 0 n l1 l2) by lia. f_equal. lia. Qed.

Definition edids_ok (g : adapter) : Prop := map_Forall (fun _ e => bytes_ok e /\ zlen e <= 1024) (a_edid g).

Definition edid_response (e : list Z) : list Z := response VIRTIO_GPU_RESP_OK_EDID (le_bytes 4 (zlen e) ++ repeat 0 4 ++ e ++ repeat 0 (1024 - length e)).

Lemma edid_response_parts e : zlen e <= 1024 -> zlen (edid_response e) = 1056 /\ le_val (slice 0 4 (edid_response e)) = VIRTIO_GPU_RESP_OK_EDID /\
  le_val (slice 24 4 (edid_response e)) = zlen e /\ slice 32 (zlen e) (edid_response e) = e.
Proof.
  intros He. pose proof (zlen_nonneg e) as Hz. unfold edid_response, response. split; [unfold zlen in *; rewrite !length_app, !le_bytes_length, !repeat_length; lia|]. split; [|split].
  - by rewrite slice_app_full.
  - rewrite app_assoc. rewrite (slice_at _ _ 24) by done. rewrite slice_app_full by done. apply le_val_bytes. change (256 ^ Z.of_nat 4) with (2 ^ 32). lia.
  - rewrite !app_assoc. rewrite <- (app_assoc _ e), (slice_at _ _ 32) by done. by apply slice_app_full.
Qed.

Lemma edid_response_bytes e : bytes_ok e -> bytes_ok (edid_response e).
Proof.
  intros He. apply response_bytes. apply Forall_app. split; [apply le_bytes_ok|]. apply Forall_app. split; [apply zero_bytes|]. apply Forall_app. split; [done|apply zero_bytes].
Qed.

(** The block of a head, or nothing. *)
Lemma get_edid_ok head edid0 held free s : gpu_ready held free s -> is_u32 head -> edids_ok (adapter_of (dhw s)) -> zlen edid0 = 1024 ->
  exists s', virtio_gpu_get_edid fuel head edid0 s = Ret (match a_edid (adapter_of (dhw s)) !! head with Some e => (zlen e, splice 0 e edid0) | None => (0, edid0) end, s') /\
    done_with held free s s' (adapter_of (dhw s)).
Proof.
  intros Hr Hh Hok Hl. assert (Hread : forall n m r p v (h : H) resp, ram_get r (zlen resp) h = resp -> 0 <= n -> 0 <= m -> n + m <= zlen resp ->
    ram_read (r + n) m (Driver (A := A) p v h) = Ret (slice n m resp, Driver p v h)).
  { intros n m r p v h resp E Hn Hm Hle. unfold ram_read. cbn. by rewrite (ram_slice r (zlen resp) n m h), E by lia. }
  assert (Hread0 : forall r p v (h : H) resp, ram_get r (zlen resp) h = resp -> 4 <= zlen resp -> ram_read r 4 (Driver (A := A) p v h) = Ret (slice 0 4 resp, Driver p v h)).
  { intros r p v h resp E Hle. rewrite <- (Hread 0 4 r p v h _ E) by lia. by rewrite Z.add_0_r. }
  destruct (a_edid (adapter_of (dhw s)) !! head) as [e|] eqn:E.
  - destruct (Hok _ _ E) as [Hb He]. destruct (edid_response_parts e He) as (L & T & Sz & D). pose proof (zlen_nonneg e) as Hz.
    apply (command_ok _ _ _ _ _ _ _ (edid_response e)); [done|layout|done|by apply edid_response_bytes|by rewrite L| |].
    + intros req h1 Hf Hlen Hm. read_fields Hf. unfold gpu_does. rewrite Field, Field3, !u32_small by done. codes. by rewrite E.
    + intros r p v h Hresp. rewrite (mbind_run _ _ _ _ _ (Hread0 r p v h _ Hresp ltac:(lia))).
      rewrite T. change (negb _) with false. cbv iota. rewrite (mbind_run _ _ _ _ _ (Hread 24 4 r p v h _ Hresp ltac:(lia) ltac:(lia) ltac:(lia))). rewrite Sz.
      rewrite (mbind_run _ _ _ _ _ (Hread 32 (zlen e) r p v h _ Hresp ltac:(lia) ltac:(lia) ltac:(lia))). rewrite D.
      unfold mbind, mlift, mret. rewrite copy_into_ok by lia. done.
  - apply (command_ok _ _ _ _ _ _ _ (response VIRTIO_GPU_RESP_ERR_INVALID_SCANOUT_ID [])); [done|layout|done|apply response_bytes; constructor|done| |].
    + intros req h1 Hf Hlen Hm. read_fields Hf. unfold gpu_does. rewrite Field, Field3, !u32_small by done. codes. by rewrite E.
    + intros r p v h Hresp. rewrite (mbind_run _ _ _ _ _ (Hread0 r p v h _ Hresp ltac:(done))).
      done.
Qed.

(** What [Display] relies on. *)
Definition edid_ready (i : Z) (s : state) : Prop :=
  (exists held free, gpu_ready held free s) /\ (exists disp, zget (g_displays (dlocal s)) i = Some disp /\ is_u32 (scanout disp)) /\ edids_ok (adapter_of (dhw s)).

Lemma splice_bytes off (l l' : list Z) : bytes_ok l -> bytes_ok l' -> bytes_ok (splice off l l').
Proof. intros H5 H6. unfold splice. apply Forall_app. split; [by apply Forall_take|]. apply Forall_app. split; [done|by apply Forall_drop]. Qed.

(** As much of the block as there is room for is stored. *)
Lemma read_edid_run edid0 i buffer bytes s : zlen edid0 = 1024 -> bytes_ok edid0 -> edid_ready i s -> zlen buffer = bytes -> bytes_ok buffer ->
  exists r buffer' s', virtio_gpu_display_read_edid fuel edid0 i buffer bytes s = Ret (r, buffer', s') /\ zlen buffer' = bytes /\ bytes_ok buffer' /\ edid_ready i s' /\ 0 <= r <= bytes.
Proof.
  intros H5 H5b ((held & free & Hr) & (disp & Hd & Hs) & Hok) Hb Hbb. destruct s as [p v h]. pose proof (zlen_nonneg buffer). unfold virtio_gpu_display_read_edid. rewrite (run_get_display _ _ _ _ _ _ Hd).
  unfold get_gpu. unfold mbind at 1 2, get_local, mret. cbn [obind fst snd dlocal]. destruct (f_edid (g_dev v)) eqn:Ef; cbn [negb].
  2:{ exists 0, buffer, (Driver p v h). repeat (split; [done || lia|]). split; [|lia]. split; [by exists held, free|]. split; [by exists disp|done]. }
  destruct (get_edid_ok (scanout disp) edid0 held free _ Hr Hs Hok H5) as (s1 & E1 & [D1 [q D2] D3 D4]). rewrite (mbind_run _ _ _ _ _ E1).
  assert (Hrdy : edid_ready i s1).
  { split; [by exists held, free|]. split; [exists disp; by rewrite D2|by rewrite D3]. }
  destruct (a_edid _ !! scanout disp) as [e|] eqn:Ee; [|exists 0, buffer, s1; repeat (split; [done|]); lia].
  destruct (Hok _ _ Ee) as [He1 He2]. pose proof (zlen_nonneg e). cbv iota beta. destruct (Z.eqb_spec (zlen e) 0) as [?|Hne]; [exists 0, buffer, s1; repeat (split; [done|]); lia|].
  set (n := if zlen e <? bytes then zlen e else bytes). assert (Hn : 0 <= n /\ n <= zlen e /\ n <= bytes) by (subst n; destruct (Z.ltb_spec (zlen e) bytes); lia).
  assert (Hlen : zlen (splice 0 e edid0) = 1024) by (rewrite splice_length; lia).
  unfold mbind, mlift, mret. rewrite copy_from_ok by lia. cbn [obind fst snd]. assert (Hsl : zlen (slice 0 n (splice 0 e edid0)) = n) by (apply slice_length; lia).
  rewrite copy_into_ok by lia. cbn [obind fst snd]. eexists n, _, s1. split; [done|]. split; [rewrite splice_length; lia|]. split; [|split; [done|lia]].
  apply splice_bytes; [|done]. unfold slice. apply Forall_take, Forall_drop. by apply splice_bytes.
Qed.
End commands.

#[export, refine] Instance virtio_gpu_fb_laws {A H} `{AllocatorLaws A} `{GpuLaws H notify} (edid0 : list Z) : zlen edid0 = 1024 -> bytes_ok edid0 ->
  FramebufferLaws (H := virtio_gpu_fb gpu_patience edid0) gpu_fb_driver (Machine.driver A gpu_vars H) := fun Hl Hb => {|
  drv_ready _ i s := edid_ready i s
|}.
Proof.
  intros d rd i buf n w Hr [= <-] Hbuf Hbytes. destruct (read_edid_run gpu_patience (le_n _) edid0 i buf n w Hl Hb Hr Hbuf Hbytes) as (r & buf' & w' & E & Hl' & Hb' & _ & _).
  exists r, buf', w'. cbn in *. by rewrite E.
Defined.

(** ** What goes wrong *)

Section flaws.
Context {A H : Type} `{PageAllocator A} `{Machine H} `{GpuDevice H}.

(** Disabling a display frees its memory and changes nothing else: the display still has the address of
    the memory, so that disabling it again frees it again, and the adapter still shows it. *)
Lemma disable_keeps_framebuffer i disp p p' v (h : H) : zget (g_displays v) i = Some disp -> framebuffer disp <> 0 ->
  pa_pgfree (P2V (framebuffer disp)) 4096 p = Ret p' -> virtio_gpu_display_disable i (Driver (A := A) p v h) = Ret (tt, Driver p' v h).
Proof.
  intros Hd Hf E. unfold virtio_gpu_display_disable, get_display, d_pgfree, mbind, get_local, mlift. cbn. rewrite Hd. cbn. destruct (Z.eqb_spec (framebuffer disp) 0); [done|]. cbn. by rewrite E.
Qed.

(** The array for the modes has sixteen entries, whatever number of heads the adapter has. *)
Lemma too_many_heads info i p page p' v (h : H) : zlen info = display_one_size * VIRTIO_GPU_MAX_SCANOUTS -> VIRTIO_GPU_MAX_SCANOUTS <= i ->
  pa_alloc p = Ret (page, p') -> add_display (A' := A) info i (Driver p v h) = Fault.
Proof.
  intros Hl Hi E. unfold add_display, d_kalloc, mbind. cbn [dpool]. rewrite E. cbn [obind fst snd]. unfold mlift, copy_from. rewrite Hl.
  unfold display_one_size, VIRTIO_GPU_MAX_SCANOUTS in *. destruct (Z.leb_spec (24 * i + 24) (24 * 16)); [lia|]. by rewrite andb_false_r.
Qed.
End flaws.

(** The interrupt handler has looked at all chains when its loop ends. *)
Lemma skip_used_all n : forall last idx, 0 <= last < 2 ^ 16 -> 0 <= idx < 2 ^ 16 -> u16 (idx - last) <= Z.of_nat n -> skip_used n last idx = idx.
Proof.
  induction n as [|n IH]; intros last idx Hl Hi Hn; cbn [skip_used]; destruct (Z.eqb_spec last idx) as [->|Hne]; try done.
  - unfold u16 in Hn. pose proof (Z.mod_pos_bound (idx - last) (2 ^ 16)). assert (E : (idx - last) mod 2 ^ 16 = 0) by lia.
    apply Z.mod_divide in E as [k E]; [|lia]. lia.
  - assert (E : u16 (idx - u16 (last + 1)) = u16 (idx - last) - 1).
    { unfold u16. rewrite Zminus_mod_idemp_r. assert (Hp : (idx - last) mod 2 ^ 16 <> 0).
      { intros E. apply Z.mod_divide in E as [k E]; [|lia]. lia. }
      pose proof (Z.mod_pos_bound (idx - last) (2 ^ 16)). pose proof (Z.div_mod (idx - last) (2 ^ 16)).
      symmetry. apply (Z.mod_unique_pos _ _ ((idx - last) / 2 ^ 16)); lia. }
    apply IH; [unfold u16; apply Z.mod_pos_bound; lia|done|]. rewrite E. lia.
Qed.

(** ** An adapter *)

(** The adapter as specified, with memory: it answers at its first turn after the bell. *)
Record toy_gpu := ToyGpu { tg_adapter : adapter; tg_ram : Z -> Z; tg_bell : bool }.

Definition toy_notify : Z := 0xfe003000.

#[local] Instance toy_gpu_machine : Machine toy_gpu := {
  io_in w p h := (0, h);
  io_out w p v h := h;
  mm_load w a h := (if a =? 8 then 1 else 0, h);
  mm_store w a v h := if a =? toy_notify then ToyGpu (tg_adapter h) (tg_ram h) true else h;
  ram_get a n h := fget (tg_ram h) a n;
  ram_put a l h := ToyGpu (tg_adapter h) (fput a l (tg_ram h)) (tg_bell h)
}.

#[local] Instance toy_gpu_ram : RamLaws toy_gpu.
Proof. constructor; cbn; intros. - by apply fget_len. - apply fget_bytes. - by apply fget_fput. - by apply fget_slice. Qed.

(** The buffers of a chain, and the last. *)
Fixpoint walk (n : nat) (ds : list VirtqDesc) (d : Z) : option (list (Z * Z) * (Z * Z)) :=
  match zget ds d with
  | Some x =>
    if d_flags x =? VIRTQ_DESC_F_WRITE then Some ([], (d_addr x, d_len x))
    else match n with O => None | S n' => (fun r => ((d_addr x, d_len x) :: fst r, snd r)) <$> walk n' ds (d_next x) end
  | None => None
  end.

Definition toy_serve (q : VirtioQueue) (h : toy_gpu) : option (VirtioQueue * toy_gpu) :=
  match zget (avail_ring q) (used_idx q mod q_size q) with
  | Some head =>
    match walk 2 (q_desc q) head with
    | Some (ins, (out, len)) =>
      match gpu_does (phys_mem h) (gather h ins) (tg_adapter h) with
      | Some (resp, g) =>
        (fun ring => (complete_queue q ring, ToyGpu g (fput (P2V out) resp (tg_ram h)) false)) <$> zset (used_ring q) (used_idx q mod q_size q) (head, zlen resp)
      | None => None
      end
    | None => None
    end
  | None => None
  end.

#[local] Instance toy_gpu_device : GpuDevice toy_gpu := {
  gpu_turn q h := if tg_bell h then default (q, h) (toy_serve q h) else (q, h)
}.

Lemma walk_chain ds ins : forall l head n out, chain_at ds l -> fst <$> l !! 0%nat = Some head -> snd <$> l = ins ++ [out] -> (length ins <= n)%nat -> walk n ds head = Some (ins, out).
Proof.
  induction ins as [|b ins IH]; intros l head n out Hc Hh Hs Hn.
  - destruct l as [|[d [a m]] [|y l]]; [done| |done]. injection Hs as <-. injection Hh as ->. destruct Hc as [Hd _]. destruct n; cbn [walk]; by rewrite Hd.
  - destruct l as [|[d [a m]] l]; [done|]. injection Hs as <- Hs. injection Hh as ->. destruct Hc as [Hd Hc]. destruct l as [|[d' b'] l]; [by destruct ins|].
    destruct n as [|n]; [cbn in Hn; lia|]. cbn [walk]. rewrite Hd. cbn [d_flags]. change (VIRTQ_DESC_F_NEXT =? VIRTQ_DESC_F_WRITE) with false. cbn [d_next d_addr d_len].
    rewrite (IH ((d', b') :: l) d' n out); [done|done|done|done|cbn in Hn; lia].
Qed.

#[local, refine] Instance toy_gpu_laws : GpuLaws toy_gpu toy_notify := { adapter_of := tg_adapter; gpu_patience := 1 }.
Proof.
  - done.
  - intros q h head l ins out len resp g Hok Hu Hr Hc Hh Hl Hs Hd Hb Hle. set (h1 := mm_store 4 toy_notify 0 h).
    assert (Hlen : (length ins <= 2)%nat) by (apply (f_equal length) in Hs; rewrite length_fmap, length_app in Hs; cbn in Hs; unfold zlen in Hl; lia).
    pose proof (Z.mod_pos_bound (used_idx q) (q_size q) ltac:(apply Hok)) as Hm. pose proof (q_size_range _ Hok) as Hsz.
    pose proof (zset_Some (used_ring q) (used_idx q mod q_size q) (head, zlen resp) ltac:(rewrite (q_used_len _ Hok); lia)) as Er.
    assert (Et : gpu_turn q h1 = (complete_queue q (<[Z.to_nat (used_idx q mod q_size q) := (head, zlen resp)]> (used_ring q)), ToyGpu g (fput (P2V out) resp (tg_ram h)) false)).
    { change (gpu_turn q h1) with (default (q, h1) (toy_serve q h1)). unfold toy_serve. rewrite Hr. rewrite (walk_chain _ ins l head 2 (out, len)) by done.
      change (gpu_does (phys_mem h1) (gather h1 ins) (tg_adapter h1)) with (gpu_does (phys_mem h) (gather h ins) (tg_adapter h)). rewrite Hd. rewrite Er. done. }
    eexists 1%nat, _, _. split; [lia|]. split; [cbn [gpu_turns]; rewrite Et; reflexivity|]. split; [by rewrite zlen_insert|]. split; [intros m Hm1; by replace m with 0%nat by lia|].
    split; [done|]. split; [exact (ram_get_same (P2V out) resp h Hb)|]. intros a k Ha.
    assert (Hk : 0 <= k \/ k < 0) by lia. destruct Hk as [Hk|Hk]; [exact (ram_get_other a k (P2V out) resp h Hb Hk Ha)|].
    cbn. unfold fget. replace (seqZ 0 k) with (@nil Z) by (symmetry; apply seqZ_nil; lia). done.
Defined.

#[local] Existing Instances list_allocator list_allocator_laws.

(** One head, and no resource. *)
Definition ex_gpu_adapter : adapter := Adapter 1 (repeat 0 384) ∅ ∅ ∅ ∅ ∅ ∅.
Definition ex_gpu : VirtioGPUDevice := Gpu (new_queue 16) false 1 true false 1 toy_notify 0.
Definition ex_display : VirtioGPUDisplay := GpuDisplay 0 0 0 0 0 0.
Definition ex_fb : Z := 0x81000000.
Definition ex_pages : list Z := [0x80100000; 0x80101000; 0x80102000].
Definition ex_gpu_state : Machine.driver (list Z) gpu_vars toy_gpu := Driver (ex_fb :: ex_pages) (GpuVars ex_gpu [ex_display] 0) (ToyGpu ex_gpu_adapter (fun _ => 0) false).
Definition ex_fb_frames : list Z := (fun i => ex_fb + PGSIZE * i) <$> seqZ 0 4096.

Lemma new_queue_rest n : 3 <= n <= 256 -> 2 ^ 16 mod n = 0 -> at_rest (new_queue n).
Proof.
  intros Hn Hp. constructor; [constructor; done || (cbn; unfold VIRTIO_QUEUE_SIZE_MAX; lia)|cbn; lia| |done|done].
  intros j d Hj. cbn [new_queue q_desc]. rewrite zget_lookup. intros [_ E%list_elem_of_lookup_2%list_elem_of_In]. apply repeat_spec in E as ->. done.
Qed.

Lemma ex_fb_frames_ok p : p ∈ ex_fb_frames -> frame_ok p /\ ex_fb <= p.
Proof.
  intros (i & -> & Hi%elem_of_seqZ)%list_elem_of_fmap. unfold frame_ok, ex_fb, PGSIZE, KERNBASE, PHYSTOP. split; [split; [|lia]|lia].
  rewrite Z.mul_comm, Z_mod_plus_full. done.
Qed.

Lemma ex_pages_ok : Forall frame_ok (ex_fb :: ex_pages).
Proof. repeat (apply Forall_cons; split; [split; [done|unfold ex_fb, KERNBASE, PHYSTOP; lia]|]). constructor. Qed.

Lemma ex_ready : gpu_ready (notify := toy_notify) ∅ 4 ex_gpu_state.
Proof.
  constructor; [|lia|done|done|by apply new_queue_rest|done]. split; [|split; [exact ex_pages_ok|split; [intros p Hp; set_solver|split; [set_solver|done]]]].
  change (NoDup [0x81000000; 0x80100000; 0x80101000; 0x80102000]). repeat (apply NoDup_cons; split; [rewrite ?elem_of_cons, elem_of_nil; lia|]). constructor.
Qed.

Lemma ex_can_enable : can_enable (notify := toy_notify) ex_gpu_state 0 1 1 ex_display ex_fb ex_pages (list_to_set ex_fb_frames) 3.
Proof.
  constructor; [done|done|done|done|done| |].
  - assert (Hf : set_Forall frame_ok (list_to_set ex_fb_frames : gset Z)) by (intros p Hp%elem_of_list_to_set; by apply ex_fb_frames_ok).
    split; [|by split]. split; [|split; [exact (Forall_inv_tail ex_pages_ok)|split; [done|split; [|done]]]].
    + unfold ex_pages. repeat (apply NoDup_cons; split; [rewrite ?elem_of_cons, elem_of_nil; lia|]). constructor.
    + intros p Hp [_ Hge]%elem_of_list_to_set%ex_fb_frames_ok. unfold ex_pages in Hp. rewrite !elem_of_cons, elem_of_nil in Hp. unfold ex_fb in Hge. lia.
  - intros i Hi. apply elem_of_list_to_set. unfold ex_fb_frames. apply (list_elem_of_fmap_2' _ _ i); [apply elem_of_seqZ; lia|done].
Qed.

Lemma ex_patience : (gpu_patience (H := toy_gpu) (notify := toy_notify) <= 1)%nat.
Proof. done. Qed.

Lemma framebuffer_shown_witness : exists s1 s2, virtio_gpu_display_enable 1 0 1 1 ex_gpu_state = Ret (0x1000000, s1) /\
  virtio_gpu_display_update 1 0 (on_hw (ram_put ex_fb [1; 2; 3; 4]) s1) = Ret (tt, s2) /\ head_shows (notify := toy_notify) s2 0 = Some [1; 2; 3; 4].
Proof.
  assert (Hb : bytes_ok [1; 2; 3; 4]) by (repeat (apply Forall_cons; split; [done|]); constructor).
  destruct (framebuffer_shown (notify := toy_notify) 1 ex_patience 0 1 1 ex_display ex_fb ex_pages ∅ 4 (list_to_set ex_fb_frames) 3 ex_gpu_state [1; 2; 3; 4] ex_ready ex_can_enable eq_refl Hb) as (s1 & s2 & E1 & E2 & E3 & _).
  exists s1, s2. split; [exact E1|]. split; [exact E2|exact E3].
Defined.
