(* ===== verification/Module.v ===== *)
(** kernel/hal/module.c: loadable kernel modules.

    A module is an ELF file loaded above [PROC_MODULE_BOTTOM] in the kernel's
    page table and then made visible in the page table of every process.  Its
    entry point is code that is not part of the kernel: running it is the
    argument [entry_point] of [module_load].  The service table through which
    modules call the kernel only stores function pointers and is not modelled. *)

From stdpp Require Import base list gmap strings.
From Stdlib Require Import ZArith Lia.
From S2P Require Import Prelude Mmu KString VfsPath Vfs Vm UserMem Proc Exec Console.

Local Open Scope Z_scope.
Local Open Scope outcome_scope.

Definition MAX_MODULES : nat := 64.

Record ModuleInfo := Module_ { mi_name : list Z; mi_base : Z }.

Definition empty_module : ModuleInfo := Module_ (repeat 0 64) 0.

(** The part of [module_init] that is state of its own. *)
Definition module_init : list ModuleInfo := repeat empty_module MAX_MODULES.

(** The first free entry takes the name; when there is none, nothing happens. *)
Fixpoint module_info_add (name : list Z) (base : Z) (ms : list ModuleInfo) : outcome (list ModuleInfo) :=
  match ms with
  | [] => Ret []
  | m :: ms' =>
    if mi_base m =? 0 then bs <- of_option (strncpy name 64) ;; Ret (Module_ (splice 0 bs (mi_name m)) base :: ms')
    else ms2 <- module_info_add name base ms' ;; Ret (m :: ms2)
  end.

(** "Kernel modules:\n" and "%x %s\n". *)
Definition modules_heading : list Z := [75; 101; 114; 110; 101; 108; 32; 109; 111; 100; 117; 108; 101; 115; 58; 10; 0].
Definition modules_line : list Z := [37; 120; 32; 37; 115; 10; 0].

Fixpoint print_modules (font16 : list Z) (ms : list ModuleInfo) (st : console) : outcome console :=
  match ms with
  | [] => Ret st
  | m :: ms' =>
    st1 <- (if mi_base m =? 0 then Ret st else cprintf font16 modules_line [VWord (mi_base m); VStr (Some (mi_name m))] st) ;;
    print_modules font16 ms' st1
  end.

Definition module_print (font16 : list Z) (ms : list ModuleInfo) (st : console) : outcome console :=
  st1 <- cprintf font16 modules_heading [] st ;;
  print_modules font16 ms st1.

Section operations.
Context {A P S : Type} `{PageAllocator A} `{FilesystemDriver P S}.
(** Contents of fresh memory. *)
Variable junk : list Z.

Local Notation state := (kernel A P S).

Definition close_with (r entry : Z) (fd : FileDesc) (k : state) : outcome (Z * Z * state) :=
  '(_, _, w) <- vfs_fd_close fd (kfs k) ;; Ret (r, entry, with_fs k w).

(** One program header to load: the new size, or [None] for an error. *)
Definition module_segment (pgdir base : Z) (ph : proghdr) (sz : Z) (fd : FileDesc) (k : state)
    : outcome (option Z * FileDesc * state) :=
  let off := ph_vaddr ph mod PGSIZE in
  '(r, v) <- allocuvm junk pgdir (u32 (base + ph_vaddr ph - off)) (u32 (base + ph_vaddr ph + ph_memsz ph))
     (if Z.land (ph_flags ph) ELF_PROG_FLAG_WRITE =? 0 then 0 else PTE_W) (kvm k) ;;
  if r =? 0 then Ret (None, fd, with_vm k v) else
  let top := u32 (ph_vaddr ph + ph_memsz ph) in
  let sz' := if sz <? top then top else sz in
  '(r2, fd2, k2) <- loaduvm junk pgdir (u32 (base + ph_vaddr ph - off)) fd (u32 (ph_off ph - off)) (u32 (off + ph_filesz ph)) (with_vm k v) ;;
  Ret (if r2 <? 0 then None else Some sz', fd2, k2).

Fixpoint module_elf_loop (fuel : nat) (pgdir base off limit sz entry : Z) (fd : FileDesc) (k : state) : outcome (Z * Z * state) :=
  if negb (off <? limit) then close_with (s32 sz) entry fd k else
  match fuel with
  | O => NoFuel
  | Datatypes.S fuel' =>
    let '(r, fd1) := vfs_fd_seek fd off SEEK_SET in
    if r <? 0 then close_with (-1) entry fd1 k else
    '(r2, bs, fd2, w) <- vfs_fd_read fd1 (slice 0 32 junk) 32 (kfs k) ;;
    let k1 := with_fs k w in
    if negb (r2 =? 32) then close_with (-1) entry fd2 k1 else
    let ph := proghdr_of bs in
    if negb (ph_type ph =? ELF_PROG_LOAD) then module_elf_loop fuel' pgdir base (u32 (off + 32)) limit sz entry fd2 k1
    else
      '(r3, fd3, k3) <- module_segment pgdir base ph sz fd2 k1 ;;
      match r3 with
      | None => close_with (-1) entry fd3 k3
      | Some sz' => module_elf_loop fuel' pgdir base (u32 (off + 32)) limit sz' entry fd3 k3
      end
  end.

(** Size or error, entry point (0 while unset), state. *)
Definition module_elf_load (cwd : VfsPath) (pgdir base : Z) (name : list Z) (k : state) : outcome (Z * Z * state) :=
  '(r, fd, w) <- vfs_fd_open junk cwd name O_READ (kfs k) ;;
  let k1 := with_fs k w in
  if r <? 0 then Ret (-1, 0, k1) else
  '(r2, bs, fd2, w2) <- vfs_fd_read fd (slice 0 52 junk) 52 (kfs k1) ;;
  let k2 := with_fs k1 w2 in
  if negb (r2 =? 52) then close_with (-1) 0 fd2 k2 else
  let elf := elfhdr_of bs in
  if negb (eh_magic elf =? ELF_MAGIC) then close_with (-1) 0 fd2 k2 else
  module_elf_loop (Z.to_nat (eh_phnum elf)) pgdir base (eh_phoff elf) (u32 (eh_phoff elf + eh_phnum elf * 32)) 0 (eh_entry elf) fd2 k2.

(** The mappings of the module into the page tables of the processes. *)
Fixpoint share_module (ps : list proc) (base size : Z) (v : vm A) : outcome (vm A) :=
  match ps with
  | [] => Ret v
  | p :: ps' =>
    if is_state UNUSED p || is_state EMBRYO p then share_module ps' base size v else
    '(r, v1) <- copypgdir junk (p_pgdir p) (kpgdir v) base (u32 (base + size)) v ;;
    if r =? 0 then Panic "module load copy failed" else share_module ps' base size v1
  end.

Definition set_module_base (v : vm A) (b : Z) : vm A := Vm (frames v) (pool v) (kpgdir v) b (cr3 v).

(** [entry_point a] runs the code at address [a]. *)
Definition module_load (entry_point : Z -> state -> outcome state) (cwd : VfsPath) (name : list Z)
    (ms : list ModuleInfo) (k : state) : outcome (Z * list ModuleInfo * state) :=
  let load_base := module_base (kvm k) in
  '(ret, entry, k1) <- module_elf_load cwd (kpgdir (kvm k)) load_base name k ;;
  if ret <? 0 then Ret (ret, ms, k1) else
  ms' <- module_info_add name load_base ms ;;
  k2 <- acquire_ptable k1 ;;
  v <- share_module (procs k2) load_base ret (kvm k2) ;;
  k3 <- release_ptable (with_vm k2 v) ;;
  let k4 := with_vm k3 (set_module_base (kvm k3) (u32 (module_base (kvm k3) + PGROUNDUP ret))) in
  k5 <- entry_point (u32 (load_base + entry)) k4 ;;
  Ret (0, ms', k5).

End operations.
