(* ===== verification/Syscall.v ===== *)
(** kernel/proc/syscall: the system calls.

    syscall.c fetches the arguments from the stack of the calling process and
    dispatches on the number in its eax; sysproc.c and sysfile.c have the calls.
    Pointers are dereferenced in the address space of the caller (UserMem.v),
    and nothing checks them: an address that is not mapped faults in the kernel.
    A call returns a value, does not come back ([exit]), or goes to sleep
    ([Blocked]) with what it needs to go on; [sys_resume] continues it after the
    scheduler has picked the process again.

    The theorems: a message queue delivers messages in order and intact; the
    read call takes the bytes of a file to the buffer of the user; calls on a
    descriptor that is not fit for them fail and change nothing. *)

From stdpp Require Import base list gmap strings.
From Stdlib Require Import ZArith Lia.
From S2P Require Import Prelude Mmu KString VfsPath Vfs Vm Ring UserMem Proc Exec Module Hid Pty Console.

Local Open Scope Z_scope.
Local Open Scope outcome_scope.

(** ** State *)

(** The kernel with its terminals, console, clock, table of kernel calls and
    modules.  [H] is the type of kernel call handlers. *)
Record system (A P S H : Type) := Sys {
  sk : kernel A P S;
  ptys : list PseudoTerminal;
  scons : console;
  ticks : Z;
  tickslock : bool;
  kcalls : list (KCallTable H);
  modules : list ModuleInfo
}.
Arguments Sys {A P S H}.
Arguments sk {A P S H}.
Arguments ptys {A P S H}.
Arguments scons {A P S H}.
Arguments ticks {A P S H}.
Arguments tickslock {A P S H}.
Arguments kcalls {A P S H}.
Arguments modules {A P S H}.

(** What a sleeping call has to remember. *)
Inductive blocked :=
| BWait
| BTicks (n ticks0 : Z)
| BMessage (data : Z)
| BPty (ptyid buf n : Z)
| BConsole (buf n target : Z).

Inductive sysret := Value (r : Z) | Exited | Blocked (b : blocked).

(** The process after a call: back with its result in the register, gone, or asleep. *)
Inductive progress := Returned | Gone | Asleep (b : blocked).

(** ** syscall.c: arguments *)

Section syscalls.
Context {A P S H : Type} `{PageAllocator A} `{FilesystemDriver P S}.
(** Contents of fresh memory, start of the kernel's data, fuel for strings and
    queues, the font, addresses used as sleep channels, contents of the argument
    array of [exec], code outside the kernel: kernel call handlers and modules. *)
Variable junk : list Z.
Variable data : Z.
Variable fuel : nat.
Variable font16 : list Z.
Variable ticks_addr input_r : Z.
Variable ustack0 : list Z.
Variable run_handler : H -> Z -> system A P S H -> outcome (Z * system A P S H).
Variable entry_point : Z -> kernel A P S -> outcome (kernel A P S).

Local Notation state := (system A P S H).

Definition with_k (s : state) (k : kernel A P S) : state :=
  Sys k (ptys s) (scons s) (ticks s) (tickslock s) (kcalls s) (modules s).
Definition with_ptys (s : state) (ts : list PseudoTerminal) : state :=
  Sys (sk s) ts (scons s) (ticks s) (tickslock s) (kcalls s) (modules s).
Definition with_cons (s : state) (c : console) : state :=
  Sys (sk s) (ptys s) c (ticks s) (tickslock s) (kcalls s) (modules s).
Definition with_tickslock (s : state) (l : bool) : state :=
  Sys (sk s) (ptys s) (scons s) (ticks s) l (kcalls s) (modules s).
Definition with_modules (s : state) (ms : list ModuleInfo) : state :=
  Sys (sk s) (ptys s) (scons s) (ticks s) (tickslock s) (kcalls s) ms.

Definition umem (s : state) : page_frames := frames (kvm (sk s)).
Definition with_umem (s : state) (f : page_frames) : state :=
  with_k s (with_vm (sk s) (with_frames (kvm (sk s)) f)).

(** [myproc()]. *)
Definition me (cur : Z) (s : state) : outcome proc := get_proc (sk s) cur.

(** [fetchint] and [fetchstr] in the address space of the caller; the latter
    gives the string with its terminator. *)
Definition fetchint (cur addr : Z) (s : state) : outcome Z :=
  p <- me cur s ;; vint (umem s) (p_pgdir p) addr.
Definition fetchstr (cur addr : Z) (s : state) : outcome (list Z) :=
  p <- me cur s ;; vstring fuel (umem s) (p_pgdir p) addr.

Definition argint (cur n : Z) (s : state) : outcome Z :=
  p <- me cur s ;; fetchint cur (u32 (tf_esp (p_tf p) + 4 + 4 * n)) s.
(** The size is not used. *)
Definition argptr (cur n size : Z) (s : state) : outcome Z :=
  i <- argint cur n s ;; Ret (u32 i).
Definition argstr (cur n : Z) (s : state) : outcome (list Z) :=
  addr <- argint cur n s ;; fetchstr cur (u32 addr) s.

(** Storing to user memory. *)
Definition user_store (cur addr : Z) (bs : list Z) (s : state) : outcome state :=
  p <- me cur s ;; f <- vwrite bs (umem s) (p_pgdir p) addr ;; Ret (with_umem s f).

(** A result of the kernel proper. *)
Definition ret_k (s : state) (m : outcome (Z * kernel A P S)) : outcome (sysret * state) :=
  '(r, k) <- m ;; Ret (Value r, with_k s k).

(** A result of the filesystem. *)
Definition ret_fs (s : state) (m : outcome (Z * vfs P S)) : outcome (sysret * state) :=
  '(r, w) <- m ;; Ret (Value r, with_k s (with_fs (sk s) w)).

Definition value (r : Z) (s : state) : outcome (sysret * state) := Ret (Value r, s).

(** The working directory of the caller. *)
Definition my_cwd (cur : Z) (s : state) : outcome VfsPath := p <- me cur s ;; cwd_of p (sk s).

(** ** sysproc.c *)

Definition sys_fork (cur : Z) (s : state) : outcome (sysret * state) := ret_k s (fork junk data cur (sk s)).

Definition sys_exit (cur : Z) (s : state) : outcome (sysret * state) :=
  status <- argint cur 0 s ;; k <- exit cur status (sk s) ;; Ret (Exited, with_k s k).

Definition sys_wait (cur : Z) (s : state) : outcome (sysret * state) :=
  k <- acquire_ptable (sk s) ;;
  '(r, k1) <- wait junk fuel cur k ;;
  Ret (match r with Reaped pid => Value pid | NoChild => Value (-1) | MustSleep => Blocked BWait end, with_k s k1).

Definition sys_kill (cur : Z) (s : state) : outcome (sysret * state) :=
  pid <- argint cur 0 s ;; ret_k s (kill pid (sk s)).

Definition sys_getpid (cur : Z) (s : state) : outcome (sysret * state) := p <- me cur s ;; value (p_pid p) s.

Definition sys_sbrk (cur : Z) (s : state) : outcome (sysret * state) :=
  n <- argint cur 0 s ;;
  p <- me cur s ;;
  let addr := s32 (PROC_HEAP_BOTTOM + p_heap_size p) in
  '(r, k) <- growproc junk cur n (sk s) ;;
  value (if r <? 0 then -1 else addr) (with_k s k).

(** The loop of [sys_sleep], with the lock held. *)
Definition sleep_loop (cur n ticks0 : Z) (s : state) : outcome (sysret * state) :=
  if u32 (ticks s - ticks0) <? u32 n then
    p <- me cur s ;;
    if negb (p_killed p =? 0) then l <- release_b (tickslock s) ;; value (-1) (with_tickslock s l) else
    '(lk, k) <- sleep cur (ChanOther ticks_addr) (Some (tickslock s)) (sk s) ;;
    Ret (Blocked (BTicks n ticks0), with_tickslock (with_k s k) (default false lk))
  else l <- release_b (tickslock s) ;; value 0 (with_tickslock s l).

Definition sys_sleep (cur : Z) (s : state) : outcome (sysret * state) :=
  n <- argint cur 0 s ;;
  l <- acquire_b (tickslock s) ;;
  sleep_loop cur n (ticks s) (with_tickslock s l).

Definition sys_uptime (s : state) : outcome (sysret * state) :=
  l <- acquire_b (tickslock s) ;; l' <- release_b l ;; value (s32 (ticks s)) (with_tickslock s l').

(** The file type bit of a mode. *)
Definition is_dir (mode : Z) : bool := negb (Z.land mode 0x4000 =? 0).

Definition set_cwd (p : proc) (parts buf : Z) : proc :=
  Proc (p_sz p) (p_stack_size p) (p_heap_size p) (p_pgdir p) (p_kstack p) (p_state p) (p_pid p) (p_parent p) (p_tf p) (p_context p)
    (p_chan p) (p_killed p) (p_name p) (p_files p) parts buf (p_dyn_base p) (p_msgqueue p) (p_pty p) (p_exit_status p).

(** [chdir] to an absolute path. *)
Definition chdir_absolute (cur : Z) (dir : list Z) (s : state) : outcome (sysret * state) :=
  cwd <- my_cwd cur s ;;
  '(mode, w) <- vfs_file_get_mode junk cwd dir (kfs (sk s)) ;;
  let s1 := with_k s (with_fs (sk s) w) in
  if mode <? 0 then value mode s1 else
  if negb (is_dir mode) then value ERROR_NOT_DIRECTORY s1 else
  p <- me cur s1 ;;
  '(n, buf) <- vfs_path_split dir (pathbuf cwd) ;;
  k <- put_proc (sk s1) cur (set_cwd p n (p_cwd_buf p)) ;;
  value 0 (with_umem (with_k s1 k) (<[p_cwd_buf p := buf]> (umem s1))).

(** [chdir] to a relative path; [fullpath] are the 64 bytes on the kernel stack.
    [vfs_get_absolute_path] replaces the page of the path by another. *)
Definition chdir_relative (cur : Z) (dir fullpath : list Z) (s : state) : outcome (sysret * state) :=
  cwd <- my_cwd cur s ;;
  '(a, k1) <- k_kalloc junk (sk s) ;;
  '(n, buf) <- vfs_path_split dir junk ;;
  '(b, k2) <- k_kalloc junk k1 ;;
  path <- vfs_get_absolute_path cwd junk (Path n buf) ;;
  k3 <- k_kfree a k2 ;;
  let s3 := with_umem (with_k s k3) (<[b := pathbuf path]> (frames (kvm k3))) in
  full <- vfs_path_tostring path fullpath ;;
  '(mode, w) <- vfs_file_get_mode junk cwd full (kfs (sk s3)) ;;
  let s4 := with_k s3 (with_fs (sk s3) w) in
  if mode <? 0 then k <- k_kfree b (sk s4) ;; value mode (with_k s4 k) else
  if is_dir mode then
    p <- me cur s4 ;;
    k <- k_kfree (p_cwd_buf p) (sk s4) ;;
    k' <- put_proc k cur (set_cwd p (parts path) b) ;;
    value 0 (with_k s4 k')
  else k <- k_kfree b (sk s4) ;; value ERROR_NOT_DIRECTORY (with_k s4 k).

Definition sys_chdir (cur : Z) (s : state) : outcome (sysret * state) :=
  dir <- argstr cur 0 s ;;
  c <- of_option (head dir) ;;
  if c =? 47 then chdir_absolute cur dir s else chdir_relative cur dir (slice 0 64 junk) s.

(** Characters of a path with [n] names, at most. *)
Definition path_chars (n : Z) : Z := 128 * n + 2.

(** The string is written to the user's buffer however long it is. *)
Definition sys_getcwd (cur : Z) (s : state) : outcome (sysret * state) :=
  _ <- argstr cur 0 s ;;
  dir <- argptr cur 0 0 s ;;
  cwd <- my_cwd cur s ;;
  full <- vfs_path_tostring cwd (repeat 0 (Z.to_nat (path_chars (parts cwd)))) ;;
  str <- string_chars full ;;
  s1 <- user_store cur dir (str ++ [0]) s ;;
  value 0 s1.

Definition sys_dynamic_load (cur : Z) (s : state) : outcome (sysret * state) :=
  name <- argstr cur 0 s ;;
  dynamic <- argptr cur 1 4 s ;;
  entry <- argptr cur 2 4 s ;;
  ret_k s (proc_load_dynamic junk cur name dynamic entry (sk s)).

Definition sys_kcall (cur : Z) (s : state) : outcome (sysret * state) :=
  name <- argstr cur 0 s ;;
  arg <- argint cur 1 s ;;
  h <- kcall name (kcalls s) ;;
  match h with
  | None => value (-1) s
  | Some h => '(r, s1) <- run_handler h (u32 arg) s ;; value r s1
  end.

(** *** Messages *)

(** [memmove] into the pages of a message from its start, page by page. *)
Fixpoint put_pages (pages : list Z) (bs : list Z) (f : page_frames) : outcome page_frames :=
  match bs with
  | [] => Ret f
  | _ :: _ =>
    match pages with
    | [] => Fault
    | p :: pages' =>
      f' <- write_frame f p 0 (slice 0 PGSIZE bs) ;;
      put_pages pages' (drop (Z.to_nat PGSIZE) bs) f'
    end
  end.

(** The first [n] bytes of those pages. *)
Fixpoint get_pages (pages : list Z) (n : Z) (f : page_frames) : outcome (list Z) :=
  if n <=? 0 then Ret [] else
  match pages with
  | [] => Fault
  | p :: pages' =>
    page <- of_option (f !! p) ;;
    bs <- copy_from page 0 (Z.min n PGSIZE) ;;
    rest <- get_pages pages' (n - PGSIZE) f ;;
    Ret (bs ++ rest)
  end.

(** Sending to the process in slot [d] the [size] bytes at [addr] of the caller. *)
Definition message_send (cur d size addr : Z) (k : kernel A P S) : outcome (kernel A P S) :=
  dest <- get_proc k d ;;
  l <- acquire_b (mq_lock (p_msgqueue dest)) ;;
  me <- get_proc k cur ;;
  let q := p_msgqueue dest in
  _ <- of_option (zget (mq_queue q) (mq_begin q)) ;;
  '(a, v) <- vm_pgalloc junk (msg_pages size) (kvm k) ;;
  bs <- vread (Z.to_nat (u32 size)) (frames v) (p_pgdir me) addr ;;
  f <- put_pages (block_frames a (msg_pages size)) bs (frames v) ;;
  ms <- of_option (zset (mq_queue q) (mq_begin q) (Msg (p_pid me) size a)) ;;
  k1 <- put_proc (with_vm k (with_frames v f)) d (set_queue dest (Queue l (advance MESSAGE_MAX (mq_begin q)) (mq_end q) ms)) ;;
  k2 <- wakeup (ChanQueue d) k1 ;;
  l' <- release_b l ;;
  update k2 d (fun p => set_queue p (Queue l' (mq_begin (p_msgqueue p)) (mq_end (p_msgqueue p)) (mq_queue (p_msgqueue p)))).

Definition sys_message_send (cur : Z) (s : state) : outcome (sysret * state) :=
  pid <- argint cur 0 s ;;
  size <- argint cur 1 s ;;
  addr <- argptr cur 2 size s ;;
  '(d, k) <- proc_search_pid pid (sk s) ;;
  if d <? 0 then value (-1) (with_k s k) else
  k1 <- message_send cur d size addr k ;;
  value 0 (with_k s k1).

(** Taking the first message of a queue that is not empty, with its lock held. *)
Definition take_message (cur addr : Z) (p : proc) (k : kernel A P S) : outcome (Z * kernel A P S) :=
  let q := p_msgqueue p in
  m <- of_option (zget (mq_queue q) (mq_end q)) ;;
  let pages := block_frames (msg_addr m) (msg_pages (msg_size m)) in
  bs <- get_pages pages (u32 (msg_size m)) (frames (kvm k)) ;;
  f <- vwrite bs (frames (kvm k)) (p_pgdir p) addr ;;
  v <- vm_pgfree (msg_addr m) (msg_pages (msg_size m)) (with_frames (kvm k) f) ;;
  l <- release_b (mq_lock q) ;;
  k1 <- put_proc (with_vm k v) cur (set_queue p (Queue l (mq_begin q) (advance MESSAGE_MAX (mq_end q)) (mq_queue q))) ;;
  Ret (msg_pid m, k1).

Definition lock_queue (p : proc) (l : bool) : proc :=
  let q := p_msgqueue p in set_queue p (Queue l (mq_begin q) (mq_end q) (mq_queue q)).

Definition message_receive (cur addr : Z) (k : kernel A P S) : outcome (Z * kernel A P S) :=
  p <- get_proc k cur ;;
  let q := p_msgqueue p in
  l <- acquire_b (mq_lock q) ;;
  if mq_begin q =? mq_end q then
    l' <- release_b l ;; k1 <- put_proc k cur (lock_queue p l') ;; Ret (0, k1)
  else take_message cur addr (lock_queue p l) k.

Definition sys_message_receive (cur : Z) (s : state) : outcome (sysret * state) :=
  addr <- argptr cur 0 (4 * 1024 * 1024) s ;;
  ret_k s (message_receive cur addr (sk s)).

(** The loop of [sys_message_wait]: [None] when it goes to sleep. *)
Definition message_wait (cur addr : Z) (k : kernel A P S) : outcome (option Z * kernel A P S) :=
  p <- get_proc k cur ;;
  let q := p_msgqueue p in
  l <- acquire_b (mq_lock q) ;;
  if mq_begin q =? mq_end q then
    '(lk, k1) <- sleep cur (ChanQueue cur) (Some l) k ;;
    k2 <- update k1 cur (fun p => lock_queue p (default false lk)) ;;
    Ret (None, k2)
  else '(r, k1) <- take_message cur addr (lock_queue p l) k ;; Ret (Some r, k1).

Definition sys_message_wait (cur : Z) (s : state) : outcome (sysret * state) :=
  addr <- argptr cur 0 (4 * 1024 * 1024) s ;;
  '(r, k) <- message_wait cur addr (sk s) ;;
  Ret (match r with Some r => Value r | None => Blocked (BMessage addr) end, with_k s k).

(** *** Other processes *)

(** The parent pointer of the first process is null. *)
Definition sys_getppid (cur : Z) (s : state) : outcome (sysret * state) :=
  p <- me cur s ;; q <- me (p_parent p) s ;; value (p_pid q) s.

(** The first process in use with a name; 0 when there is none. *)
Fixpoint search_name (name : list Z) (ps : list proc) : outcome Z :=
  match ps with
  | [] => Ret 0
  | p :: ps' =>
    if is_state UNUSED p then search_name name ps' else
    c <- of_option (strncmp name (p_name p) 16) ;;
    if c =? 0 then Ret (p_pid p) else search_name name ps'
  end.

Definition sys_proc_search (cur : Z) (s : state) : outcome (sysret * state) :=
  name <- argstr cur 0 s ;;
  k <- acquire_ptable (sk s) ;;
  r <- search_name name (procs k) ;;
  k1 <- release_ptable k ;;
  value r (with_k s k1).

Definition PROC_RUNNING : Z := 0.
Definition PROC_EXITED : Z := 1.
Definition PROC_NOT_EXIST : Z := 2.

Definition sys_proc_status (cur : Z) (s : state) : outcome (sysret * state) :=
  pid <- argint cur 0 s ;;
  exit_status <- argptr cur 1 4 s ;;
  '(d, k) <- proc_search_pid pid (sk s) ;;
  let s1 := with_k s k in
  if d <? 0 then value PROC_NOT_EXIST s1 else
  k1 <- acquire_ptable k ;;
  p <- get_proc k1 d ;;
  let s2 := with_k s k1 in
  if is_state RUNNING p || is_state RUNNABLE p then
    k2 <- release_ptable k1 ;; value PROC_RUNNING (with_k s k2)
  else if is_state ZOMBIE p then
    s3 <- user_store cur exit_status (le_bytes 4 (u32 (p_exit_status p))) s2 ;;
    k3 <- proc_free junk d (sk s3) ;;
    k4 <- release_ptable k3 ;;
    value PROC_EXITED (with_k s3 k4)
  else k2 <- release_ptable k1 ;; value PROC_NOT_EXIST (with_k s k2).

Definition sys_module_load (cur : Z) (s : state) : outcome (sysret * state) :=
  name <- argstr cur 0 s ;;
  cwd <- my_cwd cur s ;;
  '(r, ms, k) <- module_load junk entry_point cwd name (modules s) (sk s) ;;
  value r (with_modules (with_k s k) ms).

(** *** Terminals *)

Definition sys_pty_create (cur : Z) (s : state) : outcome (sysret * state) :=
  '(r, ts, k) <- pty_create junk cur (ptys s) (sk s) ;;
  value (s32 (r + 1)) (with_ptys (with_k s k) ts).

(** As many bytes of the user's buffer as can be accessed. *)
Definition user_buffer (cur : Z) (wr : bool) (addr n : Z) (s : state) : outcome (list Z) :=
  p <- me cur s ;; Ret (vview (Z.to_nat n) wr (umem s) (p_pgdir p) addr).

Definition sys_pty_read_output (cur : Z) (s : state) : outcome (sysret * state) :=
  ptyid <- argint cur 0 s ;;
  n <- argint cur 2 s ;;
  buf <- argptr cur 1 n s ;;
  '(r, bs, ts) <- pty_read_output cur (ptyid - 1) n (ptys s) (sk s) ;;
  s1 <- user_store cur buf bs (with_ptys s ts) ;;
  value r s1.

Definition sys_pty_write_input (cur : Z) (s : state) : outcome (sysret * state) :=
  ptyid <- argint cur 0 s ;;
  n <- argint cur 2 s ;;
  addr <- argptr cur 1 n s ;;
  buf <- user_buffer cur false addr n s ;;
  '(r, ts, k) <- pty_write_input cur (ptyid - 1) buf n (ptys s) (sk s) ;;
  value r (with_ptys (with_k s k) ts).

Definition sys_pty_close (cur : Z) (s : state) : outcome (sysret * state) :=
  ptyid <- argint cur 0 s ;;
  '(r, ts, k) <- pty_close cur (ptyid - 1) (ptys s) (sk s) ;;
  value r (with_ptys (with_k s k) ts).

Definition set_pty (p : proc) (t : Z) : proc :=
  Proc (p_sz p) (p_stack_size p) (p_heap_size p) (p_pgdir p) (p_kstack p) (p_state p) (p_pid p) (p_parent p) (p_tf p) (p_context p)
    (p_chan p) (p_killed p) (p_name p) (p_files p) (p_cwd_parts p) (p_cwd_buf p) (p_dyn_base p) (p_msgqueue p) t (p_exit_status p).

Definition sys_pty_switch (cur : Z) (s : state) : outcome (sysret * state) :=
  ptyid <- argint cur 0 s ;;
  k <- update (sk s) cur (fun p => set_pty p ptyid) ;;
  value 0 (with_k s k).

(** ** sysfile.c *)

Definition sys_dup (s : state) : outcome (sysret * state) := value 0 s.
Definition sys_link (s : state) : outcome (sysret * state) := value 0 s.
Definition sys_mknod (s : state) : outcome (sysret * state) := value 0 s.
Definition sys_pipe (s : state) : outcome (sysret * state) := value 0 s.

(** Descriptor [fd] of the caller; the index is not checked against the table. *)
Definition get_file (cur fd : Z) (s : state) : outcome FileDesc :=
  p <- me cur s ;; of_option (zget (p_files p) fd).
Definition put_file (cur fd : Z) (d : FileDesc) (w : vfs P S) (s : state) : outcome state :=
  p <- me cur s ;;
  fs <- of_option (zset (p_files p) fd d) ;;
  k <- put_proc (with_fs (sk s) w) cur (set_files p fs (p_exit_status p)) ;;
  Ret (with_k s k).

(** A stretch of a read from the console. *)
Definition console_read (cur buf n target : Z) (s : state) : outcome (sysret * state) :=
  p <- me cur s ;;
  '(r, c) <- consoleread n target (negb (p_killed p =? 0)) (scons s) ;;
  match r with
  | CReturn r bs => s1 <- user_store cur buf bs (with_cons s c) ;; value r s1
  | CSleep n' bs =>
    s1 <- user_store cur buf bs (with_cons s c) ;;
    '(_, k) <- sleep cur (ChanOther input_r) (Some true) (sk s1) ;;
    Ret (Blocked (BConsole (u32 (buf + zlen bs)) n' target), with_k s1 k)
  end.

(** A stretch of a read from a terminal. *)
Definition terminal_read (cur ptyid buf n : Z) (s : state) : outcome (sysret * state) :=
  '(r, ts) <- pty_read ptyid n (ptys s) (sk s) ;;
  match r with
  | Some (r, bs) => s1 <- user_store cur buf bs (with_ptys s ts) ;; value r s1
  | None =>
    '(_, k) <- sleep cur (ChanPty ptyid) (Some true) (sk s) ;;
    Ret (Blocked (BPty ptyid buf n), with_k (with_ptys s ts) k)
  end.

Definition sys_read (cur : Z) (s : state) : outcome (sysret * state) :=
  fd <- argint cur 0 s ;;
  n <- argint cur 2 s ;;
  addr <- argptr cur 1 n s ;;
  p <- me cur s ;;
  if fd <? 3 then
    if p_pty p =? 0 then console_read cur addr n n s else terminal_read cur (p_pty p - 1) addr n s
  else
    d <- get_file cur fd s ;;
    buf <- user_buffer cur true addr (u32 n) s ;;
    '(r, buf', d', w) <- vfs_fd_read d buf (u32 n) (kfs (sk s)) ;;
    s1 <- put_file cur fd d' w s ;;
    s2 <- user_store cur addr buf' s1 ;;
    value r s2.

Definition sys_write (cur : Z) (s : state) : outcome (sysret * state) :=
  fd <- argint cur 0 s ;;
  n <- argint cur 2 s ;;
  addr <- argptr cur 1 n s ;;
  p <- me cur s ;;
  if fd <? 3 then
    buf <- user_buffer cur false addr n s ;;
    if p_pty p =? 0 then
      '(r, c) <- consolewrite font16 buf n (scons s) ;; value r (with_cons s c)
    else
      '(r, ts, k) <- pty_write (p_pty p - 1) buf n (ptys s) (sk s) ;; value r (with_ptys (with_k s k) ts)
  else
    d <- get_file cur fd s ;;
    buf <- user_buffer cur false addr (u32 n) s ;;
    '(r, d', w) <- vfs_fd_write d buf (u32 n) (kfs (sk s)) ;;
    s1 <- put_file cur fd d' w s ;;
    value r s1.

Definition sys_close (cur : Z) (s : state) : outcome (sysret * state) :=
  fd <- argint cur 0 s ;;
  d <- get_file cur fd s ;;
  '(r, d', w) <- vfs_fd_close d (kfs (sk s)) ;;
  s1 <- put_file cur fd d' w s ;;
  value r s1.

(** A call on a file name. *)
Definition on_name (cur : Z) (op : VfsPath -> list Z -> vfs P S -> outcome (Z * vfs P S)) (s : state) : outcome (sysret * state) :=
  name <- argstr cur 0 s ;;
  cwd <- my_cwd cur s ;;
  ret_fs s (op cwd name (kfs (sk s))).

Definition sys_unlink (cur : Z) (s : state) : outcome (sysret * state) := on_name cur (vfs_file_remove junk) s.
Definition sys_mkdir (cur : Z) (s : state) : outcome (sysret * state) := on_name cur (vfs_mkdir junk) s.
Definition sys_file_get_size (cur : Z) (s : state) : outcome (sysret * state) := on_name cur (vfs_file_get_size junk) s.
Definition sys_file_get_mode (cur : Z) (s : state) : outcome (sysret * state) := on_name cur (vfs_file_get_mode junk) s.

(** The first free descriptor from 3 on. *)
Fixpoint free_file (i : Z) (fs : list FileDesc) : option Z :=
  match fs with
  | [] => None
  | d :: fs' => if negb (fd_used d) then Some i else free_file (i + 1) fs'
  end.

Definition sys_open (cur : Z) (s : state) : outcome (sysret * state) :=
  path <- argstr cur 0 s ;;
  omode <- argint cur 1 s ;;
  p <- me cur s ;;
  match free_file 3 (drop 3 (p_files p)) with
  | None => value (-1) s
  | Some i =>
    cwd <- my_cwd cur s ;;
    '(r, d, w) <- vfs_fd_open junk cwd path omode (kfs (sk s)) ;;
    s1 <- put_file cur i d w s ;;
    value (if r <? 0 then r else i) s1
  end.

Definition sys_dir_open (cur : Z) (s : state) : outcome (sysret * state) :=
  dirname <- argstr cur 0 s ;;
  p <- me cur s ;;
  match free_file 3 (drop 3 (p_files p)) with
  | None => value (-1) s
  | Some i =>
    cwd <- my_cwd cur s ;;
    '(r, d, w) <- vfs_dir_open junk cwd dirname (kfs (sk s)) ;;
    s1 <- put_file cur i d w s ;;
    value (if r <? 0 then -1 else i) s1
  end.

Definition sys_dir_read (cur : Z) (s : state) : outcome (sysret * state) :=
  handle <- argint cur 0 s ;;
  addr <- argptr cur 1 256 s ;;
  d <- get_file cur handle s ;;
  buf <- user_buffer cur true addr 256 s ;;
  '(r, buf', d', w) <- vfs_dir_read d buf (kfs (sk s)) ;;
  s1 <- put_file cur handle d' w s ;;
  s2 <- user_store cur addr buf' s1 ;;
  value r s2.

Definition sys_dir_close (cur : Z) (s : state) : outcome (sysret * state) :=
  handle <- argint cur 0 s ;;
  d <- get_file cur handle s ;;
  let '(r, d') := vfs_dir_close d in
  s1 <- put_file cur handle d' (kfs (sk s)) s ;;
  value r s1.

Definition seek_mode (whence : Z) : FileSeekMode :=
  if whence =? 0 then SEEK_SET else if whence =? 1 then SEEK_CUR else if whence =? 2 then SEEK_END else SEEK_OTHER.

Definition sys_lseek (cur : Z) (s : state) : outcome (sysret * state) :=
  fd <- argint cur 0 s ;;
  offset <- argint cur 1 s ;;
  whence <- argint cur 2 s ;;
  d <- get_file cur fd s ;;
  let '(r, d') := vfs_fd_seek d (u32 offset) (seek_mode whence) in
  s1 <- put_file cur fd d' (kfs (sk s)) s ;;
  value r s1.

(** The strings of an argument vector in user memory, at most [n] of them and a
    null pointer; [None] when there is none. *)
Fixpoint fetch_args (n : nat) (cur uargv i : Z) (s : state) : outcome (option (list (list Z))) :=
  match n with
  | O => Ret None
  | Datatypes.S n' =>
    uarg <- fetchint cur (u32 (uargv + 4 * i)) s ;;
    if uarg =? 0 then Ret (Some []) else
    a <- fetchstr cur (u32 uarg) s ;;
    rest <- fetch_args n' cur uargv (i + 1) s ;;
    Ret (match rest with None => None | Some l => Some (a :: l) end)
  end.

Definition sys_exec (cur : Z) (s : state) : outcome (sysret * state) :=
  path <- argstr cur 0 s ;;
  uargv <- argint cur 1 s ;;
  argv <- fetch_args (Z.to_nat MAXARG) cur (u32 uargv) 0 s ;;
  match argv with
  | None => value (-1) s
  | Some argv => ret_k s (exec junk data cur ustack0 path argv (sk s))
  end.

(** ** syscall.c: dispatch *)

(** The table of system calls; there is none at number 0. *)
Definition syscalls (num : Z) : option (Z -> state -> outcome (sysret * state)) :=
  nth (Z.to_nat num)
    [None; Some sys_fork; Some sys_exit; Some sys_wait; Some (fun _ => sys_pipe); Some sys_read; Some sys_kill; Some sys_exec;
     Some sys_getcwd; Some sys_chdir; Some (fun _ => sys_dup); Some sys_getpid; Some sys_sbrk; Some sys_sleep; Some (fun _ => sys_uptime);
     Some sys_open; Some sys_write; Some (fun _ => sys_mknod); Some sys_unlink; Some (fun _ => sys_link); Some sys_mkdir; Some sys_close;
     Some sys_dir_open; Some sys_dir_read; Some sys_dir_close; Some sys_file_get_size; Some sys_lseek; Some sys_file_get_mode;
     Some sys_dynamic_load; Some sys_kcall; Some sys_message_send; Some sys_message_receive; Some sys_message_wait; Some sys_getppid;
     Some sys_proc_search; Some sys_pty_create; Some sys_pty_read_output; Some sys_pty_write_input; Some sys_pty_close;
     Some sys_pty_switch; Some sys_proc_status; Some sys_module_load] None.

Definition set_eax (tf : trapframe) (v : Z) : trapframe :=
  Trapframe (tf_edi tf) (tf_esi tf) (tf_ebp tf) (tf_oesp tf) (tf_ebx tf) (tf_edx tf) (tf_ecx tf) v
    (tf_gs tf) (tf_fs tf) (tf_es tf) (tf_ds tf) (tf_trapno tf) (tf_err tf) (tf_eip tf) (tf_cs tf) (tf_eflags tf) (tf_esp tf) (tf_ss tf).

Definition set_tf (p : proc) (tf : trapframe) : proc :=
  Proc (p_sz p) (p_stack_size p) (p_heap_size p) (p_pgdir p) (p_kstack p) (p_state p) (p_pid p) (p_parent p) tf (p_context p)
    (p_chan p) (p_killed p) (p_name p) (p_files p) (p_cwd_parts p) (p_cwd_buf p) (p_dyn_base p) (p_msgqueue p) (p_pty p) (p_exit_status p).

Definition return_value (cur r : Z) (s : state) : outcome state :=
  k <- update (sk s) cur (fun p => set_tf p (set_eax (p_tf p) (u32 r))) ;; Ret (with_k s k).

(** What is left of a call that did not return. *)
Definition finish (cur : Z) (rs : sysret * state) : outcome (progress * state) :=
  match rs with
  | (Value r, s) => s1 <- return_value cur r s ;; Ret (Returned, s1)
  | (Exited, s) => Ret (Gone, s)
  | (Blocked b, s) => Ret (Asleep b, s)
  end.

(** An unknown number is reported on the console and returns -1. *)
Definition unknown_format : list Z :=
  [37; 100; 32; 37; 115; 58; 32; 117; 110; 107; 110; 111; 119; 110; 32; 115; 121; 115; 32; 99; 97; 108; 108; 32; 37; 100; 10; 0].

Definition syscall (cur : Z) (s : state) : outcome (progress * state) :=
  p <- me cur s ;;
  let num := u32 (tf_eax (p_tf p)) in
  match (if (0 <? num) && (num <? 42) then syscalls num else None) with
  | Some f => r <- f cur s ;; finish cur r
  | None =>
    c <- cprintf font16 unknown_format [VWord (p_pid p); VStr (Some (p_name p)); VWord num] (scons s) ;;
    s1 <- return_value cur (-1) (with_cons s c) ;;
    Ret (Returned, s1)
  end.

(** A sleeping call goes on when its process runs again, with the table lock
    held by the scheduler: what [sleep] does last, then the loop it was in. *)
Definition sys_resume (cur : Z) (b : blocked) (s : state) : outcome (progress * state) :=
  match b with
  | BWait =>
    '(_, k) <- sleep_resume cur None (sk s) ;;
    '(r, k1) <- wait junk fuel cur k ;;
    finish cur (match r with Reaped pid => Value pid | NoChild => Value (-1) | MustSleep => Blocked BWait end, with_k s k1)
  | BTicks n ticks0 =>
    '(lk, k) <- sleep_resume cur (Some (tickslock s)) (sk s) ;;
    r <- sleep_loop cur n ticks0 (with_tickslock (with_k s k) (default false lk)) ;; finish cur r
  | BMessage addr =>
    '(_, k) <- sleep_resume cur (Some false) (sk s) ;;
    '(r, k1) <- message_wait cur addr k ;;
    finish cur (match r with Some r => Value r | None => Blocked (BMessage addr) end, with_k s k1)
  | BPty ptyid buf n =>
    '(_, k) <- sleep_resume cur (Some false) (sk s) ;;
    r <- terminal_read cur ptyid buf n (with_k s k) ;; finish cur r
  | BConsole buf n target =>
    '(_, k) <- sleep_resume cur (Some false) (sk s) ;;
    r <- console_read cur buf n target (with_k s k) ;; finish cur r
  end.

End syscalls.

(** ** Messages *)

Section messages.
Context {A P S : Type} `{AllocatorLaws A} `{FilesystemDriver P S}.
Variable junk : list Z.
Context (junk_page : zlen junk = PGSIZE).

Local Notation state := (kernel A P S).

(** A message of at most a page. *)
Lemma msg_pages_one n : 0 < n <= PGSIZE -> msg_pages n = 1.
Proof.
  unfold PGSIZE. intros Hn. unfold msg_pages, PGSIZE. rewrite land_page_mask. rewrite s32_small by lia.
  replace (n + 4096 - 1 - (n + 4096 - 1) mod 4096) with 4096 by (Z.div_mod_to_equations; lia). done.
Qed.

Lemma block_frames_one a : block_frames a 1 = [a].
Proof. unfold block_frames, PGSIZE. change (seq 0 (Z.to_nat 1)) with [0%nat]. cbn [fmap list_fmap Z.of_nat Z.mul]. by rewrite Z.add_0_r. Qed.

Lemma pgalloc_one (v : vm A) : vm_pgalloc junk 1 v = vm_kalloc junk v.
Proof.
  unfold vm_pgalloc, vm_kalloc, pa_alloc. destruct (pa_pgalloc 1 (pool v)) as [[p a]| | |]; [|done..]. cbn [obind]. by rewrite block_frames_one.
Qed.

Lemma pgfree_one (v : vm A) a : is_Some (frames v !! a) -> vm_pgfree a 1 v = vm_kfree a v.
Proof.
  intros Ha. unfold vm_pgfree, vm_kfree, pa_free. rewrite block_frames_one. destruct Ha as [pg E]. rewrite E.
  case_guard as Hg; [done|]. destruct Hg. constructor; [by eexists|constructor].
Qed.

(** A queue entry holds a message: the sender and the bytes, in a page of its own. *)
Definition message_is (f : page_frames) (m : Message) (msg : Z * list Z) : Prop :=
  msg_pid m = msg.1 /\ msg_size m = zlen msg.2 /\ 0 < zlen msg.2 <= PGSIZE /\
  exists page, f !! msg_addr m = Some page /\ zlen page = PGSIZE /\ slice 0 (zlen msg.2) page = msg.2.

(** The frame at [a] is not part of an address space. *)
Definition outside (sh : gmap Z role) (um : user_map) (a : Z) : Prop := sh !! a = None /\ forall va fl, um !! va <> Some (a, fl).

(** Process [d], whose address space is given by [sh] and [um], has the messages
    [l] in its queue, the oldest first. *)
Definition mailbox (k : state) (d : Z) (sh : gmap Z role) (um : user_map) (l : list (Z * list Z)) : Prop :=
  exists p ms, zget (procs k) d = Some p /\ mq_lock (p_msgqueue p) = false /\
    ring_holds MESSAGE_MAX (mq_begin (p_msgqueue p)) (mq_end (p_msgqueue p)) (mq_queue (p_msgqueue p)) ms /\
    Forall2 (message_is (frames (kvm k))) ms l /\ NoDup (msg_addr <$> ms) /\
    aspace (frames (kvm k)) sh (p_pgdir p) um /\ Forall (fun m => outside sh um (msg_addr m)) ms.

(** Frames that agree where a message is. *)
Lemma message_is_agree f f' m msg : message_is f m msg -> f' !! msg_addr m = f !! msg_addr m -> message_is f' m msg.
Proof. intros (? & ? & ? & page & ? & ?) E. split_and!; try done; try lia. exists page. by rewrite E. Qed.

(** A new frame holding a message. *)
Lemma write_new_frame f a bs : f !! a = Some junk -> 0 < zlen bs <= PGSIZE ->
  put_pages [a] bs f = Ret (<[a := splice 0 bs junk]> f).
Proof.
  intros Ha Hb. destruct bs as [|b bs0]; [by unfold zlen in Hb; cbn in Hb; lia|]. set (bs := b :: bs0) in *. unfold put_pages. fold bs.
  assert (Hs : slice 0 PGSIZE bs = bs) by (unfold slice; rewrite drop_0; apply take_ge; unfold zlen in *; lia).
  rewrite Hs. unfold write_frame. rewrite Ha. cbn [of_option obind]. rewrite copy_into_ok by lia. cbn [obind].
  by rewrite drop_ge by (unfold zlen in *; lia).
Qed.

Lemma read_frame_page f a page n : f !! a = Some page -> zlen page = PGSIZE -> 0 < n <= PGSIZE -> get_pages [a] n f = Ret (slice 0 n page).
Proof.
  intros Ha Hp Hn. cbn [get_pages]. destruct (Z.leb_spec n 0); [lia|]. rewrite Ha. cbn [of_option obind].
  rewrite Z.min_l, copy_from_ok by lia. cbn [obind]. destruct (Z.leb_spec (n - PGSIZE) 0); [|lia]. cbn [obind]. by rewrite app_nil_r.
Qed.

Lemma mailbox_fresh f a (ms : list Message) l : f !! a = None -> Forall2 (message_is f) ms l -> a ∉ msg_addr <$> ms.
Proof.
  intros Ha Hf Hin. apply list_elem_of_fmap in Hin as (m & -> & Hm). apply list_elem_of_lookup in Hm as [i Hi].
  destruct (Forall2_lookup_l _ _ _ _ _ Hf Hi) as (msg & _ & _ & _ & _ & page & E & _). congruence.
Qed.

Lemma user_byte_new f um a pg va b : f !! a = None -> user_byte f um va = Some b -> user_byte (<[a := pg]> f) um va = Some b.
Proof.
  intros Ha. unfold user_byte. destruct (um !! PGROUNDDOWN va) as [[p fl]|]; [|done]. destruct (f !! p) eqn:E; [|done].
  by rewrite lookup_insert_ne, E by congruence.
Qed.

Lemma zget_wakeup1 c ps i p : zget ps i = Some p -> exists p', zget (wakeup1 c ps) i = Some p' /\
  p_msgqueue p' = p_msgqueue p /\ p_pgdir p' = p_pgdir p.
Proof.
  intros (Hi & Hp)%zget_lookup. unfold wakeup1. eexists. split; [apply zget_lookup; split; [done|]; by rewrite list_lookup_fmap, Hp|].
  by destruct (is_state SLEEPING p && _).
Qed.

Lemma message_send_ok (k : state) cur d sh um l shS umS p bs addr n :
  mailbox k d sh um l -> zlen l + 1 < MESSAGE_MAX -> ptable_lock k = false -> frames_ok (kvm k) n -> 0 < n ->
  zget (procs k) cur = Some p -> aspace (frames (kvm k)) shS (p_pgdir p) umS ->
  0 < zlen bs <= PGSIZE -> 0 <= addr -> addr + zlen bs <= KERNBASE -> user_bytes (frames (kvm k)) umS addr bs ->
  exists k', message_send junk cur d (zlen bs) addr k = Ret k' /\ mailbox k' d sh um (l ++ [(p_pid p, bs)]) /\
    ptable_lock k' = false /\ frames_ok (kvm k') (n - 1) /\
    (forall q, is_Some (frames (kvm k) !! q) -> frames (kvm k') !! q = frames (kvm k) !! q).
Proof.
  intros (dest & ms & Hd & Hlk & Hring & Hms & Hnd & Has & Hout) Hroom Hk Hf Hn Hp HasS Hbs Ha Hak Hb.
  unfold message_send, get_proc. rewrite Hd. cbn [of_option obind]. rewrite Hlk. cbn [acquire_b obind]. rewrite Hp. cbn [of_option obind].
  pose proof (ring_begin _ _ _ _ _ Hring) as Hbeg. pose proof (ring_buf _ _ _ _ _ Hring) as Hbuf.
  destruct (zget_is_Some (mq_queue (p_msgqueue dest)) (mq_begin (p_msgqueue dest))) as [m0 ->]; [lia|]. cbn [of_option obind].
  rewrite msg_pages_one, pgalloc_one by done. destruct (kalloc_ok junk junk_page (kvm k) n Hf Hn) as (a & v & -> & Hnew & Hfa & Ef & Hf1 & _). cbn [obind].
  destruct (aspace_new_frame _ _ _ _ a junk HasS Hnew) as (_ & _ & HasS1). destruct (aspace_new_frame _ _ _ _ a (splice 0 bs junk) Has Hnew) as (Hsa & Hua & Has1).
  rewrite u32_small by (unfold is_u32, PGSIZE in *; lia). replace (Z.to_nat (zlen bs)) with (length bs) by (unfold zlen; lia).
  rewrite <- Ef in HasS1. rewrite (vread_user shS (p_pgdir p) umS bs) by (try done; intros i b Hi; rewrite Ef; by apply user_byte_new, Hb). cbn [obind].
  rewrite block_frames_one, write_new_frame by (done || by rewrite Ef, lookup_insert_eq). cbn [obind]. rewrite zset_Some by lia. cbn [of_option obind].
  unfold put_proc. cbn [procs with_vm]. pose proof (zget_Some _ _ _ Hd). rewrite zset_Some by done. cbn [of_option obind].
  set (q1 := set_queue dest _). set (f1 := <[a := splice 0 bs junk]> (frames v)).
  assert (Ef1 : f1 = <[a := splice 0 bs junk]> (frames (kvm k))) by (unfold f1; by rewrite Ef, insert_insert_eq).
  unfold wakeup, acquire_ptable. cbn [with_procs with_vm ptable_lock]. rewrite Hk. cbn [acquire_b obind with_lock release_ptable release_b ptable_lock procs with_procs].
  destruct (zget_wakeup1 (ChanQueue d) (<[Z.to_nat d := q1]> (procs k)) d q1) as (q2 & Hq2 & Eq & Epg); [by apply zget_insert_eq|].
  unfold update, get_proc. cbn [procs with_lock with_procs]. rewrite Hq2. cbn [of_option obind]. unfold put_proc. cbn [procs with_lock with_procs].
  pose proof (zget_Some _ _ _ Hq2). rewrite zset_Some by done. cbn [of_option obind]. eexists. split; [done|].
  cbn [with_lock with_procs with_vm kvm ptable_lock procs frames with_frames]. fold f1. split; [|split; [done|split]].
  - eexists _, (ms ++ [_]). split; [by apply zget_insert_eq|]. cbn [set_queue p_msgqueue p_pgdir mq_lock mq_begin mq_end mq_queue]. rewrite Eq, Epg.
    cbn [q1 set_queue p_msgqueue p_pgdir mq_lock mq_begin mq_end mq_queue].
    assert (Hzl : zlen ms = zlen l) by (unfold zlen; f_equal; by eapply Forall2_length).
    split; [done|]. split; [apply ring_push; [done|lia]|]. split; [|split; [|split]].
    + apply Forall2_app; [|constructor; [|constructor]].
      * eapply Forall2_impl; [exact Hms|]. intros m msg Hm. eapply message_is_agree; [done|]. cbn [kvm with_vm with_lock with_procs frames with_frames]. rewrite Ef1, lookup_insert_ne; [done|].
        destruct Hm as (_ & _ & _ & pg & ? & _). congruence.
      * split; [done|]. split; [done|]. split; [done|]. eexists. cbn [msg_addr kvm with_vm with_lock with_procs frames with_frames]. rewrite Ef1, lookup_insert_eq. split; [done|]. cbn [snd].
        split; [rewrite splice_length; lia|]. apply slice_splice_0. lia.
    + rewrite fmap_app. apply NoDup_app. split; [done|]. split; [|cbn; apply NoDup_singleton]. intros x Hx. cbn.
      rewrite list_elem_of_singleton. intros ->. by eapply mailbox_fresh.
    + cbn [kvm with_vm with_lock with_procs frames with_frames]. by rewrite Ef1.
    + apply Forall_app. split; [done|]. constructor; [|constructor]. split; [done|]. intros va fl. apply Hua.
  - destruct Hf1 as (Hd1 & Hh1 & Hsub). exists Hd1. split; [exact Hh1|]. cbn [frames with_frames kvm with_vm with_lock with_procs]. unfold f1. rewrite Ef in Hsub |- *. set_solver.
  - intros q [pg Hq]. rewrite Ef1, lookup_insert_ne; [done|congruence].
Qed.

(** Giving back a frame that an address space does not use. *)
Lemma aspace_delete f sh root um a : aspace f sh root um -> outside sh um a -> aspace (delete a f) sh root um.
Proof.
  intros Has [Hs Hu]. eapply aspace_agree; [done| |].
  - intros p [r Hp]. apply lookup_delete_ne. congruence.
  - intros va p fl Hl. rewrite lookup_delete_ne; [|intros ->; by eapply Hu].
    by destruct (as_page _ _ _ _ Has _ _ _ Hl) as (_ & _ & _ & _ & _ & _ & ?).
Qed.

Lemma user_bytes_delete f sh um a va bs : outside sh um a -> user_bytes f um va bs -> user_bytes (delete a f) um va bs.
Proof.
  intros [_ Hu] Hb i b Hi. specialize (Hb i b Hi). unfold user_byte in *. destruct (um !! PGROUNDDOWN (va + i)) as [[p fl]|] eqn:E; [|done].
  rewrite lookup_delete_ne; [done|]. intros ->. by eapply Hu.
Qed.

Lemma message_receive_ok (k : state) cur sh um pid bs l addr n :
  mailbox k cur sh um ((pid, bs) :: l) -> frames_ok (kvm k) n -> user_writable um addr (zlen bs) ->
  exists k', message_receive cur addr k = Ret (pid, k') /\ mailbox k' cur sh um l /\
    user_bytes (frames (kvm k')) um addr bs /\ frames_ok (kvm k') (n + 1).
Proof.
  intros (p & ms & Hp & Hlk & Hring & Hms & Hnd & Has & Hout) Hf Hw.
  inversion Hms as [|m msg ms' l' Hm Hms' E1 E2]. subst ms msg l'. clear Hms. destruct Hm as (Hpid & Hsz & Hbs & page & Hpage & Hlen & Hsl). cbn [fst snd] in *.
  apply Forall_cons in Hout as [Hom Hout]. rewrite fmap_cons in Hnd. apply NoDup_cons in Hnd as [Hnin Hnd].
  unfold message_receive, get_proc. rewrite Hp. cbn [of_option obind]. rewrite Hlk. cbn [acquire_b obind].
  destruct (Z.eqb_spec (mq_begin (p_msgqueue p)) (mq_end (p_msgqueue p))) as [E|_]; [by apply (ring_empty_iff _ _ _ _ _ Hring) in E|].
  destruct (ring_pop _ _ _ _ _ _ Hring) as [Hget Hring'].
  unfold take_message. cbn [lock_queue set_queue p_msgqueue p_pgdir mq_queue mq_end mq_begin mq_lock]. rewrite Hget. cbn [of_option obind].
  rewrite Hsz, msg_pages_one, block_frames_one by done. rewrite u32_small by (unfold is_u32, PGSIZE in *; lia).
  rewrite (read_frame_page _ _ page) by done. cbn [obind]. rewrite Hsl.
  destruct (vwrite_user sh (p_pgdir p) um bs (frames (kvm k)) addr Has Hw) as (f & -> & Has1 & Hb & Hc). cbn [obind].
  assert (Hkeep : forall q, outside sh um q -> f !! q = frames (kvm k) !! q) by (intros q [_ Hq]; by apply (uc_frames _ _ _ _ _ Hc)).
  rewrite pgfree_one by (cbn [with_frames frames]; rewrite Hkeep by done; eauto).
  assert (Hf1 : frames_ok (with_frames (kvm k) f) n).
  { destruct Hf as (Hd & Hh & Hsub). exists Hd. split; [exact Hh|]. cbn [with_frames frames]. intros q Hq. apply Hsub.
    rewrite elem_of_dom in Hq |- *. by apply (uc_dom _ _ _ _ _ Hc). }
  destruct (kfree_ok junk junk_page (with_frames (kvm k) f) n (msg_addr m) page Hf1) as (v & -> & Ev & Hf2 & _); [cbn; by rewrite Hkeep|].
  cbn [obind release_b]. unfold put_proc. cbn [with_vm procs]. pose proof (zget_Some _ _ _ Hp). rewrite zset_Some by done. cbn [of_option obind].
  rewrite Hpid. eexists. split; [done|]. cbn [with_procs with_vm kvm]. rewrite Ev. cbn [with_frames frames]. split; [|split; [|done]].
  - eexists _, ms'. split; [by apply zget_insert_eq|]. cbn [with_procs with_vm kvm set_queue p_msgqueue p_pgdir mq_queue mq_end mq_begin mq_lock].
    rewrite Ev. cbn [with_frames frames]. split; [done|]. split; [done|]. split; [|split; [done|split; [|done]]].
    + rewrite Forall2_lookup in Hms' |- *. intros i. specialize (Hms' i). inversion Hms' as [m1 msg1 Hm1 E3 E4|]; constructor.
      eapply message_is_agree; [exact Hm1|]. symmetry in E3. rewrite lookup_delete_ne.
      * apply Hkeep. rewrite Forall_lookup in Hout. by eapply Hout.
      * intros E. apply Hnin. rewrite E. apply list_elem_of_fmap_2. by eapply list_elem_of_lookup_2.
    + by apply aspace_delete.
  - by eapply user_bytes_delete.
Qed.

(** C10: messages arrive in order and intact.  Sending appends the sender's id
    and the bytes of its message to the queue of the receiver as long as there
    is room (64 slots hold 63 messages); receiving takes the oldest message,
    returns the id of its sender, stores exactly its bytes in the receiver's
    memory and frees its page.  Neither disturbs the other messages.  (For
    messages of one byte to a page.) *)
Theorem message_queue_fifo (k : state) d sh um l n : mailbox k d sh um l -> frames_ok (kvm k) n ->
  (forall cur shS umS p bs addr, zlen l + 1 < MESSAGE_MAX -> ptable_lock k = false -> 0 < n ->
     zget (procs k) cur = Some p -> aspace (frames (kvm k)) shS (p_pgdir p) umS ->
     0 < zlen bs <= PGSIZE -> 0 <= addr -> addr + zlen bs <= KERNBASE -> user_bytes (frames (kvm k)) umS addr bs ->
     exists k', message_send junk cur d (zlen bs) addr k = Ret k' /\ mailbox k' d sh um (l ++ [(p_pid p, bs)]) /\
       ptable_lock k' = false /\ frames_ok (kvm k') (n - 1)) /\
  (forall pid bs l' addr, l = (pid, bs) :: l' -> user_writable um addr (zlen bs) ->
     exists k', message_receive d addr k = Ret (pid, k') /\ mailbox k' d sh um l' /\
       user_bytes (frames (kvm k')) um addr bs /\ frames_ok (kvm k') (n + 1)).
Proof.
  intros Hm Hf. split.
  - intros cur shS umS p bs addr Hroom Hk Hn Hp HasS Hbs Ha Hak Hb.
    destruct (message_send_ok k cur d sh um l shS umS p bs addr n) as (k' & E & H' & H2' & H3' & _); [done..|]. by exists k'.
  - intros pid bs l' addr -> Hw. by eapply message_receive_ok.
Qed.

Lemma vint_user f sh root um a w : aspace f sh root um -> 0 <= a -> a + 4 <= KERNBASE -> is_u32 w ->
  user_bytes f um a (le_bytes 4 w) -> vint f root a = Ret (s32 w).
Proof.
  intros Has Ha Hk Hw Hb. unfold vint. pose proof (le_bytes_length 4 w) as Hl. rewrite <- Hl.
  rewrite (vread_user sh root um (le_bytes 4 w)) by (done || (unfold zlen; rewrite Hl; lia)). cbn [obind].
  by rewrite le_val_bytes.
Qed.
End messages.

(** ** A process that writes to itself *)

#[local] Existing Instance ex_allocator.
#[local] Existing Instance ex_allocator_laws.
#[local] Existing Instance ex_driver.

Definition ex_mailer : proc :=
  set_pgdir (ex_proc RUNNING ChanNull 1 (-1) (Queue false 5 5 (repeat (Msg 0 0 0) 64))) 0x80200000.

Definition ex_mail_kernel {A} (v : vm A) := Kernel [ex_mailer] false 0 2 v ex_vfs.

Lemma message_queue_fifo_witness : exists v k1 k2 b,
  message_send ex_junk_frame 0 0 1 (PROC_STACK_BOTTOM - PGSIZE) (ex_mail_kernel v) = Ret k1 /\
  message_receive 0 (PROC_STACK_BOTTOM - 16) k1 = Ret (1, k2) /\
  vload (frames v) 0x80200000 (PROC_STACK_BOTTOM - PGSIZE) = Some b.
Proof.
  destruct ex_stack_page as (v & sh & um & n & Has & Hf & Hn & (P1 & P2 & Hpg) & (W1 & W2 & Hw)).
  set (k := ex_mail_kernel v). set (a := PROC_STACK_BOTTOM - PGSIZE).
  assert (exists b, user_byte (frames v) um a = Some b) as [b Hb].
  { destruct (Hw a) as (p & fl & E & _); [unfold a, PGSIZE; lia|]. destruct (as_page _ _ _ _ Has _ _ _ E) as (_ & _ & _ & _ & _ & _ & pg & Ep & Lp).
    unfold user_byte. rewrite E, Ep. apply zget_is_Some. rewrite Lp. by apply Z.mod_pos_bound. }
  assert (Hm : mailbox k 0 sh um []).
  { exists ex_mailer, []. split; [done|]. split; [done|]. split; [apply ring_empty; done|]. split; [constructor|]. split; [constructor|]. split; [exact Has|constructor]. }
  destruct (message_queue_fifo ex_junk_frame ex_junk_frame_page k 0 sh um [] n Hm Hf) as [Hsend _].
  destruct (Hsend 0 sh um ex_mailer [b] a) as (k1 & E1 & Hm1 & _ & Hf1); [done|done|lia|done|exact Has|done|by vm_compute|by vm_compute| |].
  { intros i c Hi. pose proof (zget_Some _ _ _ Hi) as Hi0. change (zlen [b]) with 1 in Hi0. replace i with 0 in * by lia. rewrite Z.add_0_r. by injection Hi as <-. }
  destruct (message_queue_fifo ex_junk_frame ex_junk_frame_page k1 0 sh um [(1, [b])] (n - 1) Hm1 Hf1) as [_ Hrecv].
  destruct (Hrecv 1 [b] [] (PROC_STACK_BOTTOM - 16) eq_refl) as (k2 & E2 & _).
  { split; [by vm_compute|]. split; [by vm_compute|]. intros c Hc. apply Hw. change (zlen [b]) with 1 in Hc. unfold PGSIZE, PROC_STACK_BOTTOM in *. lia. }
  exists v, k1, k2, b. split; [exact E1|]. split; [exact E2|]. rewrite (vload_user sh 0x80200000 um); [done|exact Has|unfold a; by vm_compute].
Defined.

(** ** Reading a file *)

Section reading.
Context {A P S K : Type} `{PageAllocator A} `{FilesystemLaws P S}.
Variable input_r : Z.
Context (sh : gmap Z role) (um : user_map).

Local Notation state := (system A P S K).

Lemma user_bytes_app f va bs cs : user_bytes f um va (bs ++ cs) -> user_bytes f um va bs /\ user_bytes f um (va + zlen bs) cs.
Proof.
  intros Hb. split; intros i b Hi; pose proof (zget_Some _ _ _ Hi).
  - apply Hb. by apply zget_app_l.
  - rewrite <- Z.add_assoc. apply Hb. apply zget_lookup in Hi as [Hi0 Hi]. apply zget_lookup. split; [unfold zlen; lia|].
    rewrite lookup_app_r by (unfold zlen; lia). rewrite <- Hi. f_equal. unfold zlen. lia.
Qed.

(** Argument [i] of a system call. *)
Lemma argint_user cur i w p (s : state) : zget (procs (sk s)) cur = Some p -> aspace (umem s) sh (p_pgdir p) um ->
  0 <= i -> 0 <= tf_esp (p_tf p) -> tf_esp (p_tf p) + 4 + 4 * i + 4 <= KERNBASE -> is_u32 w ->
  user_bytes (umem s) um (tf_esp (p_tf p) + 4 + 4 * i) (le_bytes 4 w) -> argint cur i s = Ret (s32 w).
Proof.
  intros Hp Has Hi Hesp Hk Hw Hb. unfold argint, fetchint, me, get_proc. rewrite Hp. cbn [of_option obind].
  rewrite u32_small by (unfold is_u32, KERNBASE in *; lia). apply (vint_user _ sh _ um); (done || lia).
Qed.

(** The whole of a writable buffer can be accessed. *)
Lemma vview_user f root n : forall va, aspace f sh root um -> user_writable um va (Z.of_nat n) -> zlen (vview n true f root va) = Z.of_nat n.
Proof.
  induction n as [|n IH]; intros va Has Hw; cbn [vview]; [done|].
  destruct (user_writable_cons um va (Z.of_nat n)) as [H1' H2']; [lia|by replace (Z.of_nat n + 1) with (Z.of_nat (Datatypes.S n)) by lia|].
  destruct H1' as (Hva & Hk & Hw1). destruct (Hw1 va ltac:(lia)) as (p & fl & E & Hfl).
  destruct (as_page _ _ _ _ Has _ _ _ E) as (_ & _ & _ & _ & _ & _ & page & Ep & Lp).
  rewrite (vframe_user sh root um), E, Hfl by (done || lia). cbn [negb orb]. rewrite (vload_user sh root um) by (done || lia).
  unfold user_byte. rewrite E, Ep. destruct (zget_is_Some page (va mod PGSIZE)) as [b ->]; [rewrite Lp; by apply Z.mod_pos_bound|].
  rewrite u32_small by (unfold is_u32, KERNBASE in *; lia). specialize (IH _ Has H2'). unfold zlen in *. cbn [length]. lia.
Qed.

(** Storing what is there. *)
Lemma vwrite_same f root n : forall va, vwrite (vview n true f root va) f root va = Ret f.
Proof.
  induction n as [|n IH]; intros va; [done|]. cbn [vview]. destruct (vframe true f root va) as [q|] eqn:Ef; [|done].
  destruct (vload f root va) as [b|] eqn:El; [|done]. cbn [vwrite]. unfold vload in El. unfold vstore. rewrite Ef.
  assert (Ef' : vframe false f root va = Some q).
  { unfold vframe in *. destruct (pte_of f root va) as [e|]; [|done]. cbn [negb orb] in *. by destruct (Z.testbit _ 1). }
  rewrite Ef' in El. destruct (f !! q) as [page|] eqn:Eq; [|done]. pose proof (zget_Some _ _ _ El). rewrite zset_Some by done. cbn [of_option obind].
  rewrite list_insert_id by (by apply zget_lookup in El as [_ ?]). rewrite insert_id by done. apply IH.
Qed.

(** C9: the read system call, from the user's stack to the user's buffer.  With
    a descriptor, an address and a count on the stack of the calling process, the
    range asked for inside the clusters of the file and the address writable
    for the whole count, [sys_read] of an open file returns the number of bytes
    left up to the count, and the descriptor advances by as many.  The bytes
    returned are at the address; before the end of the file all of the count is
    stored, the rest of it being what the clusters hold past the end of the
    file; at the end of the file nothing is stored; and no memory outside the
    count of bytes at the address changes. *)
Theorem sys_read_correct (s : state) cur p d fd addr n dat cap :
  zget (procs (sk s)) cur = Some p -> aspace (umem s) sh (p_pgdir p) um -> 0 <= tf_esp (p_tf p) -> tf_esp (p_tf p) + 16 <= KERNBASE ->
  user_bytes (umem s) um (tf_esp (p_tf p) + 4) (le_bytes 4 fd ++ le_bytes 4 addr ++ le_bytes 4 n) ->
  3 <= fd < 2 ^ 31 -> zget (p_files p) fd = Some d -> fd_file (kfs (sk s)) d dat cap -> fd_read_ok d = true ->
  0 <= n -> fd_offset d + n <= zlen dat -> fd_offset d + n < 2 ^ 31 -> user_writable um addr n ->
  exists s' p' d', sys_read input_r cur s = Ret (Value (avail d n), s') /\ aspace (umem s') sh (p_pgdir p') um /\
    user_bytes (umem s') um addr (slice (fd_offset d) (avail d n) (fd_contents d dat)) /\ user_changed (umem s) (umem s') um addr n /\
    (fd_offset d < fd_size d -> user_bytes (umem s') um addr (slice (fd_offset d) n dat)) /\ (fd_size d <= fd_offset d -> umem s' = umem s) /\
    zget (procs (sk s')) cur = Some p' /\ zget (p_files p') fd = Some d' /\ fd_offset d' = fd_offset d + avail d n /\ fd_file (kfs (sk s')) d' dat cap.
Proof.
  intros Hp Has Hesp Hk Hargs Hfd Hd Hff Hrd Hn Hdat H31 Hw. pose proof Hff as (_ & _ & Ho & Hs & _).
  assert (Hl4 : forall w, zlen (le_bytes 4 w) = 4) by (intros w; unfold zlen; by rewrite le_bytes_length).
  destruct (user_bytes_app _ _ _ _ Hargs) as [Hb0 Hb1]. destruct (user_bytes_app _ _ _ _ Hb1) as [Hb1' Hb2]. rewrite !Hl4 in *. clear Hargs Hb1.
  destruct Hw as (Hw0 & Hw1 & Hw2). assert (Hu : is_u32 addr) by (unfold is_u32, KERNBASE in *; lia).
  assert (A0 : argint cur 0 s = Ret fd).
  { rewrite <- (s32_small fd) by lia. eapply argint_user; try done; try lia; [unfold is_u32; lia|]. by rewrite Z.mul_0_r, Z.add_0_r. }
  assert (A1 : argint cur 1 s = Ret (s32 addr)) by (eapply argint_user; try done; lia).
  assert (A2 : argint cur 2 s = Ret n).
  { rewrite <- (s32_small n) by lia. eapply argint_user; try done; try lia; [unfold is_u32; lia|]. by replace (tf_esp (p_tf p) + 4 + 4 * 2) with (tf_esp (p_tf p) + 4 + 4 + 4) by lia. }
  unfold sys_read. rewrite A0, A2. cbn [obind]. unfold argptr. rewrite A1. cbn [obind]. rewrite u32_s32, (u32_small addr) by done.
  unfold get_file, user_buffer, me, get_proc. rewrite Hp. cbn [of_option obind]. destruct (Z.ltb_spec fd 3); [lia|]. rewrite Hd. cbn [of_option obind].
  rewrite (u32_small n) by (unfold is_u32; lia).
  assert (Hv : zlen (vview (Z.to_nat n) true (umem s) (p_pgdir p) addr) = n).
  { rewrite vview_user; [lia|done|]. rewrite Z2Nat.id by done. done. }
  destruct (fd_read_ok' d _ n (kfs (sk s)) dat cap Hff Hrd Hn ltac:(rewrite Hv; lia) Hdat H31) as (buf & d' & w & -> & Hslice & Hoff & _ & Hff' & Hlen & Ebuf). cbn [obind].
  rewrite Hv in Hlen. unfold put_file, me, get_proc. rewrite Hp. cbn [of_option obind]. pose proof (zget_Some _ _ _ Hd). rewrite zset_Some by done. cbn [of_option obind].
  unfold put_proc. cbn [with_fs procs]. pose proof (zget_Some _ _ _ Hp). rewrite zset_Some by done. cbn [of_option obind].
  unfold user_store, me, get_proc. cbn [with_k sk with_procs with_fs procs]. rewrite zget_insert_eq by done. cbn [of_option obind set_files p_pgdir].
  match goal with |- context [vwrite _ (umem ?t) _ _] => change (umem t) with (umem s) end.
  destruct (vwrite_user sh (p_pgdir p) um buf (umem s) addr Has) as (f & Ef & Has' & Hb' & Hc'); [by rewrite Hlen|]. rewrite Ef. cbn [obind].
  eexists _, (set_files p (<[Z.to_nat fd := d']> (p_files p)) (p_exit_status p)), d'. split; [done|]. split; [exact Has'|]. split; [|split; [by rewrite Hlen in Hc'|split; [|split]]].
  - intros i b Hi. apply Hb'. rewrite <- Hslice in Hi. apply zget_lookup in Hi as [Hi0 Hi]. apply zget_lookup. split; [done|].
    unfold slice in Hi. rewrite drop_0 in Hi. apply lookup_take_Some in Hi as [Hi _]. done.
  - intros Hlt. destruct (Z.leb_spec (fd_size d) (fd_offset d)); [lia|]. intros i b Hi. apply Hb'. rewrite Ebuf, splice_0_app. by apply zget_app_l.
  - intros Hge. destruct (Z.leb_spec (fd_size d) (fd_offset d)); [|lia]. cbn [umem with_umem with_k sk with_vm with_procs with_fs]. rewrite Ebuf, vwrite_same in Ef. by injection Ef.
  - cbn [umem with_umem with_k sk with_vm with_procs with_fs procs kfs set_files p_files]. rewrite zget_insert_eq by done. split; [done|].
    split; [by apply zget_insert_eq|]. done.
Qed.
End reading.

(** ** Calls on a descriptor that is not fit for them *)

Section errors.
Context {A P S K : Type} `{PageAllocator A} `{FilesystemDriver P S}.
Variable junk : list Z.
Variables data : Z.
Variable fuel : nat.
Variable font16 : list Z.
Variable ticks_addr input_r : Z.
Variable ustack0 : list Z.
Variable run_handler : K -> Z -> system A P S K -> outcome (Z * system A P S K).
Variable entry_point : Z -> kernel A P S -> outcome (kernel A P S).
Context (sh : gmap Z role) (um : user_map).

Local Notation state := (system A P S K).
Local Notation run_call := (syscall junk data fuel font16 ticks_addr input_r ustack0 run_handler entry_point).

(** Calls by number, and the descriptors they do not work on: closed ones, files
    for the calls on directories and the other way round, files not opened for
    the access. *)
Definition refuses (num : Z) (d : FileDesc) : bool :=
  negb (fd_used d) ||
  (if num =? 5 then negb (fd_read_ok d) || fd_dir d
   else if num =? 16 then negb (fd_write_ok d) || fd_dir d
   else if num =? 23 then negb (fd_read_ok d) || negb (fd_dir d)
   else if num =? 24 then negb (fd_dir d)
   else fd_dir d).

(** Putting a descriptor back as it was. *)
Lemma put_file_same cur fd d p (s : state) : zget (procs (sk s)) cur = Some p -> zget (p_files p) fd = Some d -> put_file cur fd d (kfs (sk s)) s = Ret s.
Proof.
  intros Hp Hd. unfold put_file, me, get_proc. rewrite Hp. cbn [of_option obind]. rewrite zset_Some by (by eapply zget_Some). cbn [of_option obind].
  rewrite list_insert_id by (by apply zget_lookup in Hd as [_ ?]). unfold put_proc. cbn [procs with_fs]. rewrite zset_Some by (by eapply zget_Some). cbn [of_option obind].
  replace (set_files p (p_files p) (p_exit_status p)) with p by (by destruct p). rewrite list_insert_id by (by apply zget_lookup in Hp as [_ ?]).
  by destruct s as [[] ? ? ? ? ? ?].
Qed.

Lemma store_same cur n addr p (s : state) : zget (procs (sk s)) cur = Some p -> user_store cur addr (vview n true (umem s) (p_pgdir p) addr) s = Ret s.
Proof.
  intros Hp. unfold user_store, me, get_proc. rewrite Hp. cbn [of_option obind]. rewrite vwrite_same. cbn [obind]. by destruct s as [[? ? ? ? [] ?] ? ? ? ? ? ?].
Qed.

(** The arguments of a call on its caller's stack. *)
Lemma args_user cur p (s : state) a0 a1 a2 : zget (procs (sk s)) cur = Some p -> aspace (umem s) sh (p_pgdir p) um ->
  0 <= tf_esp (p_tf p) -> tf_esp (p_tf p) + 16 <= KERNBASE -> is_u32 a0 -> is_u32 a1 -> is_u32 a2 ->
  user_bytes (umem s) um (tf_esp (p_tf p) + 4) (le_bytes 4 a0 ++ le_bytes 4 a1 ++ le_bytes 4 a2) ->
  argint cur 0 s = Ret (s32 a0) /\ argint cur 1 s = Ret (s32 a1) /\ argint cur 2 s = Ret (s32 a2).
Proof.
  intros Hp Has Hesp Hk U0 U1 U2 Hargs. assert (Hl4 : forall w, zlen (le_bytes 4 w) = 4) by (intros w; unfold zlen; by rewrite le_bytes_length).
  destruct (user_bytes_app um _ _ _ _ Hargs) as [Hb0 Hb1]. destruct (user_bytes_app um _ _ _ _ Hb1) as [Hb1' Hb2]. rewrite !Hl4 in *.
  split_and!; eapply (argint_user sh um); try done; try lia.
  - by rewrite Z.mul_0_r, Z.add_0_r.
  - by replace (tf_esp (p_tf p) + 4 + 4 * 2) with (tf_esp (p_tf p) + 4 + 4 + 4) by lia.
Qed.

(** What is left of a refused call. *)
Lemma refused cur p (s : state) num f : zget (procs (sk s)) cur = Some p -> tf_eax (p_tf p) = num -> 0 < num < 42 ->
  syscalls junk data fuel font16 ticks_addr input_r ustack0 run_handler entry_point num = Some f -> f cur s = Ret (Value ERROR_INVAILD, s) ->
  run_call cur s = Ret (Returned, with_k s (with_procs (sk s) (<[Z.to_nat cur := set_tf p (set_eax (p_tf p) (u32 ERROR_INVAILD))]> (procs (sk s))))).
Proof.
  intros Hp En Hn Es Ef. unfold syscall, me, get_proc. rewrite Hp. cbn [of_option obind]. rewrite En, u32_small by (unfold is_u32; lia).
  destruct (Z.ltb_spec 0 num); [|lia]. destruct (Z.ltb_spec num 42); [|lia]. cbn [andb]. rewrite Es, Ef. cbn [obind finish].
  unfold return_value, update, get_proc. rewrite Hp. cbn [of_option obind]. unfold put_proc. rewrite zset_Some by (by eapply zget_Some). done.
Qed.

(** C11: Every call on a descriptor that is not fit for it fails
    with the error for invalid arguments, wherever its buffer is, and changes
    nothing but the register with the result. *)
Theorem unfit_descriptor_refused (s : state) cur p num fd a1 a2 d :
  zget (procs (sk s)) cur = Some p -> aspace (umem s) sh (p_pgdir p) um -> 0 <= tf_esp (p_tf p) -> tf_esp (p_tf p) + 16 <= KERNBASE ->
  tf_eax (p_tf p) = num -> num ∈ [5; 16; 21; 23; 24; 26] ->
  is_u32 a1 -> is_u32 a2 -> user_bytes (umem s) um (tf_esp (p_tf p) + 4) (le_bytes 4 fd ++ le_bytes 4 a1 ++ le_bytes 4 a2) ->
  3 <= fd < 2 ^ 31 -> zget (p_files p) fd = Some d -> refuses num d = true ->
  run_call cur s = Ret (Returned, with_k s (with_procs (sk s) (<[Z.to_nat cur := set_tf p (set_eax (p_tf p) (u32 ERROR_INVAILD))]> (procs (sk s))))).
Proof.
  intros Hp Has Hesp Hk En Hnum Hu1 Hu2 Hargs Hfd Hd Hr.
  destruct (args_user cur p s fd a1 a2) as (A0 & A1 & A2); try done; [unfold is_u32; lia|]. rewrite s32_small in A0 by lia.
  assert (Hme : me cur s = Ret p) by (unfold me, get_proc; by rewrite Hp).
  assert (Hf : get_file cur fd s = Ret d) by (unfold get_file; rewrite Hme; cbn [obind]; by rewrite Hd).
  assert (Hp' : forall n i, argptr cur i n s = (x <- argint cur i s ;; Ret (u32 x))) by done.
  pose proof (put_file_same cur fd d p s Hp Hd) as Hput. pose proof (fun n a => store_same cur n a p s Hp) as Hst.
  unfold refuses in Hr. apply orb_true_iff in Hr. assert (Hfd3 : (fd <? 3) = false) by (apply Z.ltb_ge; lia).
  repeat (apply elem_of_cons in Hnum as [->|Hnum]); [..|by apply elem_of_nil in Hnum]; (eapply refused; [done|done|done|reflexivity|]); cbn beta.
  - unfold sys_read. rewrite A0, A2. cbn [obind]. rewrite Hp', A1. cbn [obind]. rewrite Hme. cbn [obind]. rewrite Hfd3, Hf. unfold user_buffer. rewrite Hme. cbn [obind].
    unfold vfs_fd_read. destruct (fd_used d), (fd_read_ok d), (fd_dir d); try (by destruct Hr); cbn [negb obind]; rewrite Hput; cbn [obind]; by rewrite Hst.
  - unfold sys_write. rewrite A0, A2. cbn [obind]. rewrite Hp', A1. cbn [obind]. rewrite Hme. cbn [obind]. rewrite Hfd3, Hf. unfold user_buffer. rewrite Hme. cbn [obind].
    unfold vfs_fd_write. destruct (fd_used d), (fd_write_ok d), (fd_dir d); try (by destruct Hr); cbn [negb obind]; by rewrite Hput.
  - unfold sys_close. rewrite A0. cbn [obind]. rewrite Hf. cbn [obind].
    unfold vfs_fd_close. destruct (fd_used d), (fd_dir d); try (by destruct Hr); cbn [negb obind]; by rewrite Hput.
  - unfold sys_dir_read. rewrite A0. cbn [obind]. rewrite Hp', A1. cbn [obind]. rewrite Hf. unfold user_buffer. rewrite Hme. cbn [obind].
    unfold vfs_dir_read. destruct (fd_used d), (fd_read_ok d), (fd_dir d); try (by destruct Hr); cbn [negb obind]; rewrite Hput; cbn [obind]; by rewrite Hst.
  - unfold sys_dir_close. rewrite A0. cbn [obind]. rewrite Hf. cbn [obind].
    unfold vfs_dir_close. destruct (fd_used d), (fd_dir d); try (by destruct Hr); cbn [negb obind]; by rewrite Hput.
  - unfold sys_lseek. rewrite A0, A1, A2. cbn [obind]. rewrite Hf. cbn [obind].
    unfold vfs_fd_seek. destruct (fd_used d), (fd_dir d); try (by destruct Hr); cbn [negb obind]; by rewrite Hput.
Qed.
End errors.

From S2P Require Import Kalloc HalBlock Partition Fat32.

#[local] Existing Instance ex_driver_laws.

(** A process with an open file as descriptor 3, at [PROC_STACK_BOTTOM - 100] of its stack. *)
Definition ex_reader : proc :=
  Proc 0 0 0 0x80200000 0x80201000 RUNNING 1 (-1) (exec_tf zero_tf 0 (PROC_STACK_BOTTOM - 100)) AtSched ChanNull 0 (repeat 0 16)
    [zero_fd; zero_fd; zero_fd; ex_fd 850; zero_fd; zero_fd; zero_fd; zero_fd] 0 0 0 empty_queue 0 0.

Definition ex_system (v : vm kmem) := Sys (H := unit) (Kernel [ex_reader] false 0 2 v ex_vfs) [] ex_console 0 false [] [].

Lemma sys_read_correct_witness : exists v s', sys_read (H := unit) 0 0 (ex_system v) = Ret (Value 50, s').
Proof.
  destruct ex_stack_page as (v & sh & um & n & Has & _ & _ & _ & (W1 & W2 & Hw)).
  set (args := le_bytes 4 3 ++ le_bytes 4 (PROC_STACK_BOTTOM - PGSIZE) ++ le_bytes 4 60).
  assert (Hsub : forall a m, PROC_STACK_BOTTOM - PGSIZE <= a -> a + m <= PROC_STACK_BOTTOM -> user_writable um a m).
  { intros a m Ha Hm. assert (0 <= PROC_STACK_BOTTOM - PGSIZE /\ PROC_STACK_BOTTOM <= KERNBASE) by by vm_compute.
    split; [lia|]. split; [lia|]. intros b Hb. apply Hw. lia. }
  destruct (vwrite_user sh 0x80200000 um args (frames v) (PROC_STACK_BOTTOM - 96) Has) as (f & _ & Has' & Hb & _); [by apply Hsub|].
  destruct (sys_read_correct 0 sh um (ex_system (with_frames v f)) 0 ex_reader (ex_fd 850) 3 (PROC_STACK_BOTTOM - PGSIZE) 60
    (file_data ex_priv (ex_image 0) [3; 4]) 2560) as (s' & p' & d' & E & _);
    [reflexivity|exact Has'|by vm_compute|by vm_compute|exact Hb|lia|reflexivity|by apply ex_fd_file|reflexivity|lia|by vm_compute|by vm_compute|by apply Hsub|].
  exists (with_frames v f), s'. exact E.
Defined.

Definition ex_closer : proc := set_tf ex_reader (set_eax (p_tf ex_reader) 21).

Lemma unfit_descriptor_refused_witness : exists (v : vm kmem) s',
  syscall (H := unit) ex_junk_frame 0 0 [] 0 0 [] (fun _ _ => Ret ∘ pair 0) (fun _ => Ret) 0 (Sys (Kernel [ex_closer] false 0 2 v ex_vfs) [] ex_console 0 false [] []) = Ret (Returned, s').
Proof.
  destruct ex_stack_page as (v & sh & um & n & Has & _ & _ & _ & (W1 & W2 & Hw)).
  destruct (vwrite_user sh 0x80200000 um (le_bytes 4 4 ++ le_bytes 4 0 ++ le_bytes 4 0) (frames v) (PROC_STACK_BOTTOM - 96) Has) as (f & _ & Has' & Hb & _).
  { assert (0 <= PROC_STACK_BOTTOM - PGSIZE /\ PROC_STACK_BOTTOM <= KERNBASE) by by vm_compute.
    split; [by vm_compute|]. split; [by vm_compute|]. intros b Hb. apply Hw. change (zlen _) with 12 in Hb. unfold PGSIZE in *. lia. }
  exists (with_frames v f). eexists.
  apply (unfit_descriptor_refused ex_junk_frame 0 0 [] 0 0 [] (fun _ _ => Ret ∘ pair 0) (fun _ => Ret) sh um
    (Sys (Kernel [ex_closer] false 0 2 (with_frames v f) ex_vfs) [] ex_console 0 false [] []) 0 ex_closer 21 4 0 0 zero_fd);
    [reflexivity|exact Has'|by vm_compute|by vm_compute|reflexivity|by apply (bool_decide_unpack _)|by vm_compute|by vm_compute|exact Hb|lia|reflexivity|reflexivity].
Defined.
