(* ===== verification/Trap.v ===== *)
(** kernel/arch/x86/trap.c and kernel/driver/x86/uart.c: interrupts.

    [trap] runs the system call, or the handler of the device whose interrupt came in, and
    decides what becomes of the process it came in: it goes on, exits if it has been killed,
    or gives the processor up at a tick of the clock.  As in [Syscall], what happens after another process has run is a
    function of its own.

    The theorems: a process in a call of sleep is made runnable by the clock in time: it
    does not return before its time has passed, and returns as soon as it runs after
    that; a process that has been killed does not get back to user mode. *)

From stdpp Require Import base list gmap strings.
From Stdlib Require Import ZArith Lia.
From S2P Require Import Prelude Mmu Kalloc HalBlock Partition Fat32 VfsPath Vfs Vm Display Machine Ioapic Smp Proc Hid Pci UserMem Exec Module Pty Console Ps2 Syscall.

Local Open Scope Z_scope.

(** ** uart.c *)

Record UARTDevice := Uart { iobase : Z; exist : bool }.

Definition UART_REG_CHAR : Z := 0.
Definition UART_REG_INTR_ENABLE : Z := 1.
Definition UART_REG_INTR_ENABLE_DATA_READY : Z := 2 ^ 0.
Definition UART_REG_FIFO : Z := 2.
Definition UART_REG_LINE_CONTROL : Z := 3.
Definition UART_REG_LINE_CONTROL_DLAB : Z := 2 ^ 7.
Definition UART_REG_MODEM_CONTROL : Z := 4.
Definition UART_REG_LINE_STATUS : Z := 5.
Definition UART_REG_LINE_STATUS_DATA_READY : Z := 2 ^ 0.
Definition UART_REG_DIVISOR_LO : Z := 0.
Definition UART_REG_DIVISOR_HI : Z := 1.

Section uart.
Context {H : Type} `{Machine H}.
Local Open Scope hw_scope.

Definition uart_dev_init (base : Z) : hw H UARTDevice :=
  status <~ inb (base + UART_REG_LINE_STATUS);
  if status =? 0xff then mret (Uart base false) else
  Machine.outb (base + UART_REG_FIFO) 0 ;>
  Machine.outb (base + UART_REG_LINE_CONTROL) UART_REG_LINE_CONTROL_DLAB ;>
  Machine.outb (base + UART_REG_DIVISOR_LO) (115200 / 9600) ;>
  Machine.outb (base + UART_REG_DIVISOR_HI) 0 ;>
  Machine.outb (base + UART_REG_LINE_CONTROL) 0x03 ;>
  Machine.outb (base + UART_REG_MODEM_CONTROL) 0 ;>
  Machine.outb (base + UART_REG_INTR_ENABLE) UART_REG_INTR_ENABLE_DATA_READY ;>
  inb (base + UART_REG_FIFO) ;>
  inb (base + UART_REG_CHAR) ;>
  mret (Uart base true).

Fixpoint uart_dev_inits (bases : list Z) : hw H (list UARTDevice) :=
  match bases with
  | [] => mret []
  | b :: bases' => d <~ uart_dev_init b; ds <~ uart_dev_inits bases'; mret (d :: ds)
  end.

Definition uart_init (mmio : Z) : hw H (list UARTDevice) :=
  ds <~ uart_dev_inits [0x3f8; 0x2f8; 0x3e8; 0x2e8];
  ioapic_enable mmio 3 0 IOAPIC_EDGE_TRIGGER IOAPIC_ACTIVE_HIGH ;>
  ioapic_enable mmio 4 0 IOAPIC_EDGE_TRIGGER IOAPIC_ACTIVE_HIGH ;>
  mret ds.

(** The port of the first device, which the console writes to, if it is there. *)
Definition uart_console (ds : list UARTDevice) : option Z :=
  match ds with d :: _ => if exist d then Some (iobase d) else None | [] => None end.

Definition uartgetc (port : option Z) : hw H Z :=
  match port with
  | None => mret (-1)
  | Some b =>
    status <~ inb (b + UART_REG_LINE_STATUS);
    if Z.land status UART_REG_LINE_STATUS_DATA_READY =? 0 then mret (-1) else inb (b + UART_REG_CHAR)
  end.

(** The characters [consoleintr] takes from [uartgetc], up to the first negative one. *)
Fixpoint uart_chars (fuel : nat) (port : option Z) : hw H (list Z) :=
  c <~ uartgetc port;
  if c <? 0 then mret [] else
  match fuel with
  | O => fun _ => NoFuel
  | S fuel' => cs <~ uart_chars fuel' port; mret (c :: cs)
  end.
End uart.

(** ** trap.c *)

Definition T_SYSCALL : Z := 64.
Definition IRQ_KBD : Z := 1.
Definition IRQ_COM2 : Z := 3.
Definition IRQ_COM1 : Z := 4.
Definition IRQ_MOUSE : Z := 12.
Definition IRQ_IDE : Z := 14.
Definition T_MSI : Z := 65.
Definition T_MSI_END : Z := 0xfe.
Definition DPL_USER : Z := 3.

(** An entry of the interrupt table: selector, address of the code, kind of gate, and the
    least privilege that may raise it. *)
Record gate := Gate { g_selector : Z; g_offset : Z; g_trap : bool; g_dpl : Z }.

(** [vectors] has the addresses of the 256 entry points. *)
Definition tvinit (vectors : list Z) : option (list gate) :=
  zset (map (fun v => Gate (Z.shiftl 1 3) v false 0) vectors) T_SYSCALL (Gate (Z.shiftl 1 3) (default 0 (zget vectors T_SYSCALL)) true DPL_USER).

(** What interrupts work on, besides the variables of the PCI drivers: the system, the
    keyboard, the mouse, their queues, and the machine. *)
Record devices (A P S K H : Type) := Devices { d_sys : system A P S K; d_kbd : kbd; d_mouse : ps2_mouse; d_hid : hid; d_hw : H }.
Arguments Devices {A P S K H}.
Arguments d_sys {A P S K H}.
Arguments d_kbd {A P S K H}.
Arguments d_mouse {A P S K H}.
Arguments d_hid {A P S K H}.
Arguments d_hw {A P S K H}.

Definition with_hw {A P S K H} (d : devices A P S K H) (h : H) : devices A P S K H := Devices (d_sys d) (d_kbd d) (d_mouse d) (d_hid d) h.
Definition with_sys {A P S K H} (d : devices A P S K H) (s : system A P S K) : devices A P S K H := Devices s (d_kbd d) (d_mouse d) (d_hid d) (d_hw d).

#[export] Instance devices_machine {A P S K H} `{Machine H} : Machine (devices A P S K H) := {
  io_in w p d := let '(v, h) := io_in w p (d_hw d) in (v, with_hw d h);
  io_out w p v d := with_hw d (io_out w p v (d_hw d));
  mm_load w a d := let '(v, h) := mm_load w a (d_hw d) in (v, with_hw d h);
  mm_store w a v d := with_hw d (mm_store w a v (d_hw d));
  ram_get a n d := ram_get a n (d_hw d);
  ram_put a l d := with_hw d (ram_put a l (d_hw d))
}.

(** What becomes of the process an interrupt came in. *)
Inductive trapped := GoesOn | Exits | Sleeps (b : blocked) | Yields.

Section trap.
Context {A P S K H : Type} `{PageAllocator A} `{FilesystemDriver P S} `{Machine H}.
Variable junk : list Z.
Variable data : Z.
Variable fuel : nat.
Variable font16 : list Z.
Variable ticks_addr input_r : Z.
Variable ustack0 : list Z.
Variable run_handler : K -> Z -> system A P S K -> outcome (Z * system A P S K).
Variable entry_point : Z -> kernel A P S -> outcome (kernel A P S).

Local Notation world := (driver unit pci_vars (devices A P S K H)).
Local Notation sys := (system A P S K).

(** The configuration space, and the handlers of the PCI drivers: with the index of the device for
    a line, with their own argument for a message. *)
Variable pci_host : PciHost world.
Variable call_handler : Z -> Z -> hw world unit.

(** Code of the kernel and of the devices. *)
Definition sys_of (w : world) : sys := d_sys (dhw w).
Definition put_sys (s : sys) : hw world unit := modify (on_hw (fun d => with_sys d s)).
Definition on_sys {X} (f : sys -> outcome (X * sys)) : hw world X := fun w =>
  obind (f (sys_of w)) (fun r => Ret (fst r, on_hw (fun d => with_sys d (snd r)) w)).
Definition on_kernel (f : kernel A P S -> outcome (kernel A P S)) : hw world unit :=
  on_sys (fun s => k <- f (sk s) ;; Ret (tt, with_k s k))%outcome.
Definition get_sys : hw world sys := fun w => Ret (sys_of w, w).
Definition machine {X} (m : hw H X) : hw world X := fun w =>
  obind (m (d_hw (dhw w))) (fun r => Ret (fst r, on_hw (fun d => with_hw d (snd r)) w)).

Definition print_trap (fmt : list Z) (args : list vararg) : hw world unit :=
  on_sys (fun s => c <- cprintf font16 fmt args (scons s) ;; Ret (tt, with_cons s c))%outcome.

(** A tick, with the lock of the counter. *)
Definition with_ticks (s : sys) (t : Z) (l : bool) : sys := Sys (sk s) (ptys s) (scons s) t l (kcalls s) (modules s).

Definition clock_tick (s : sys) : outcome (unit * sys) :=
  (l <- acquire_b (tickslock s) ;;
   let t := u32 (ticks s + 1) in
   k <- wakeup (ChanOther ticks_addr) (sk s) ;;
   l' <- release_b l ;;
   Ret (tt, with_ticks (with_k s k) t l'))%outcome.

Local Open Scope hw_scope.

(** The keyboard works on the console and the kernel, the mouse on its queue, the serial
    port on the console. *)
Definition keyboard_intr : hw world unit := fun w =>
  let d := dhw w in let s := d_sys d in
  obind (ps2_keyboard_intr font16 input_r (Keyed (d_kbd d) (d_hid d) (scons s) (sk s)) (d_hw d)) (fun r =>
    let '(k, h) := r in
    Ret (tt, on_hw (fun _ => Devices (with_cons (with_k s (k_kernel k)) (k_cons k)) (k_kbd k) (d_mouse d) (k_hid k) h) w)).

Definition mouse_intr : hw world unit := fun w =>
  let d := dhw w in
  obind (ps2_mouse_intr (d_mouse d) (d_hid d) (d_hw d)) (fun r =>
    let '((m, q), h) := r in Ret (tt, on_hw (fun _ => Devices (d_sys d) (d_kbd d) m q h) w)).

Definition uart_intr (irq : Z) : hw world unit :=
  if irq =? 4 then
    s <~ get_sys;
    cs <~ machine (uart_chars fuel (uart (scons s)));
    on_sys (fun s => '(c, k) <- consoleintr font16 input_r cs (scons s) (sk s) ;; Ret (tt, with_cons (with_k s k) c))%outcome
  else mret tt.

(** The interrupts of parallel disks are not used. *)
Definition pata_adapter_legacy_intr (irq : Z) : hw world unit := mret tt.

Definition msi_interrupt (vector : Z) : hw world unit :=
  v <~ get_local;
  r <~ mlift (msi_intr vector (msi_vector v));
  match r with Some (h, private) => call_handler h private | None => mret tt end.

(** The handler of an interrupt, followed by its acknowledgement; [None] for a trap that is not one. *)
Definition interrupt (cpu trapno : Z) (tf : trapframe) : option (hw world unit) :=
  let irq := trapno - T_IRQ0 in
  if irq =? IRQ_TIMER then Some ((if cpu =? 0 then on_sys clock_tick else mret tt) ;> lapiceoi)
  else if irq =? IRQ_MOUSE then Some (mouse_intr ;> lapiceoi)
  else if (irq =? IRQ_IDE) || (irq =? IRQ_IDE + 1) then Some (pata_adapter_legacy_intr irq ;> lapiceoi)
  else if irq =? IRQ_KBD then Some (keyboard_intr ;> lapiceoi)
  else if (irq =? IRQ_COM1) || (irq =? IRQ_COM2) then Some (uart_intr irq ;> lapiceoi)
  else if (irq =? 5) || (irq =? 9) || (irq =? 10) || (irq =? 11) then Some (pci_interrupt pci_host call_handler irq ;> lapiceoi)
  else if (irq =? 7) || (irq =? IRQ_SPURIOUS) then
    Some (print_trap (line "cpu%d: spurious interrupt at %x:%x") [VWord cpu; VWord (tf_cs tf); VWord (tf_eip tf)] ;> lapiceoi)
  else if (T_MSI <=? trapno) && (trapno <=? T_MSI_END) then Some (msi_interrupt trapno ;> lapiceoi)
  else None.

(** Process [cur] is the one that runs, [-1] for none. *)
Definition my_proc (cur : Z) : hw world (option proc) := fun w =>
  if cur <? 0 then Ret (None, w) else obind (get_proc (sk (sys_of w)) cur) (fun p => Ret (Some p, w)).

Definition user_mode (tf : trapframe) : bool := Z.land (tf_cs tf) 3 =? DPL_USER.

(** Any other trap: in the kernel it is the end, in a process it kills it. *)
Definition unexpected (cpu cr2 cur : Z) (tf : trapframe) : hw world unit :=
  me <~ my_proc cur;
  match me with
  | Some p =>
    if Z.land (tf_cs tf) 3 =? 0 then
      print_trap (line "unexpected trap %d from cpu %d eip %x (cr2=0x%x)") [VWord (tf_trapno tf); VWord cpu; VWord (tf_eip tf); VWord cr2] ;> (fun _ => Panic "trap")
    else
      print_trap (line "pid %d %s: trap %d err %d on cpu %d eip 0x%x addr 0x%x--kill proc")
        [VWord (p_pid p); VStr (Some (p_name p)); VWord (tf_trapno tf); VWord (tf_err tf); VWord cpu; VWord (tf_eip tf); VWord cr2] ;>
      on_kernel (fun k => update k cur (fun p => set_killed p 1 (p_state p)))
  | None =>
    print_trap (line "unexpected trap %d from cpu %d eip %x (cr2=0x%x)") [VWord (tf_trapno tf); VWord cpu; VWord (tf_eip tf); VWord cr2] ;> (fun _ => Panic "trap")
  end.

Definition is_killed (p : option proc) : bool := match p with Some p => negb (p_killed p =? 0) | None => false end.

(** The end of a trap: a killed process exits on its way to user mode. *)
Definition check_killed (cur : Z) (user : bool) (k : hw world trapped) : hw world trapped :=
  me <~ my_proc cur;
  if is_killed me && user then on_kernel (exit cur (-1)) ;> mret Exits else k.

(** After a system call. *)
Definition syscall_done (cur : Z) (r : progress) : hw world trapped :=
  match r with
  | Returned => check_killed cur true (mret GoesOn)
  | Gone => mret Exits
  | Asleep b => mret (Sleeps b)
  end.

Definition trap_syscall (cur : Z) (tf : trapframe) : hw world trapped :=
  check_killed cur true (
    on_kernel (fun k => update k cur (fun p => set_tf p tf)) ;>
    r <~ on_sys (syscall junk data fuel font16 ticks_addr input_r ustack0 run_handler entry_point cur);
    syscall_done cur r).

(** [trap] on processor [cpu] with the fault address [cr2], up to the point where it returns or another process runs. *)
Definition trap (cpu cr2 cur : Z) (tf : trapframe) : hw world trapped :=
  if tf_trapno tf =? T_SYSCALL then trap_syscall cur tf else
  (match interrupt cpu (tf_trapno tf) tf with Some h => h | None => unexpected cpu cr2 cur tf end) ;>
  check_killed cur (user_mode tf) (
    me <~ my_proc cur;
    match me with
    | Some p =>
      if is_state RUNNING p && (tf_trapno tf =? T_IRQ0 + IRQ_TIMER)
      then on_kernel (yield cur) ;> mret Yields
      else check_killed cur (user_mode tf) (mret GoesOn)
    | None => mret GoesOn
    end).

(** The rest of it when the process runs again, with the lock of the process table held: the end of
    [yield] or of the sleeping call. *)
Definition trap_resume (cur : Z) (tf : trapframe) (t : trapped) : hw world trapped :=
  match t with
  | Yields => on_kernel release_ptable ;> check_killed cur (user_mode tf) (mret GoesOn)
  | Sleeps b => r <~ on_sys (sys_resume junk fuel ticks_addr input_r cur b); syscall_done cur r
  | GoesOn | Exits => mret t
  end.
End trap.

(** ** What others do to a process *)

Section views.
Context {A P S : Type} `{PageAllocator A} `{FilesystemDriver P S}.
Variable cur : Z.

(** What decides when a process runs. *)
Definition view_proc (p : proc) : procstate * channel * Z := (p_state p, p_chan p, p_killed p).
Definition view (ps : list proc) : option (procstate * channel * Z) := view_proc <$> zget ps cur.

Lemma view_other ps i p : i <> cur -> 0 <= i -> view (<[Z.to_nat i := p]> ps) = view ps.
Proof. intros Hi Hn0. unfold view. destruct (decide (0 <= cur)); [by rewrite zget_insert_ne by lia|]. unfold zget. by destruct (Z.ltb_spec cur 0); [|lia]. Qed.

(** A process that does not wait for a child. *)
Definition no_child_wait (ps : list proc) : Prop := forall p i, zget ps cur = Some p -> p_chan p <> ChanProc i.

Lemma no_child_view ps ps' : view ps' = view ps -> no_child_wait ps -> no_child_wait ps'.
Proof.
  intros Hv Hn p i Hp Hc. unfold view in Hv. rewrite Hp in Hv. cbn in Hv. destruct (zget ps cur) as [q|] eqn:Hq; [|done].
  injection Hv as _ E _. apply (Hn q i Hq). congruence.
Qed.

Lemma view_wakeup1 i ps : no_child_wait ps -> view (wakeup1 (ChanProc i) ps) = view ps.
Proof.
  intros Hn. unfold view, zget. destruct (Z.ltb_spec cur 0); [done|]. unfold wakeup1. rewrite list_lookup_fmap. destruct (ps !! Z.to_nat cur) as [p|] eqn:E; [|done]. cbn.
  rewrite bool_decide_false; [by rewrite andb_false_r|]. apply (Hn p). apply zget_lookup. done.
Qed.

Lemma view_reparent other init n : forall i ps ps', 0 <= i -> no_child_wait ps -> reparent other init n i ps = Ret ps' -> view ps' = view ps.
Proof.
  induction n as [|n IH]; intros i ps ps' Hi Hn; cbn [reparent]; [by intros [= <-]|]. destruct (zget ps i) as [p|] eqn:Hp; cbn [of_option obind]; [|done].
  destruct (p_parent p =? other); [|apply IH; [lia|done]]. rewrite zset_Some by (by eapply zget_Some). cbn [of_option obind].
  assert (Hv : view (<[Z.to_nat i := set_parent p init]> ps) = view ps).
  { destruct (decide (i = cur)) as [->|Hne]; [|by apply view_other]. unfold view. rewrite zget_insert_eq, Hp by (by eapply zget_Some). done. }
  pose proof (no_child_view _ _ Hv Hn) as Hn1. destruct (is_state ZOMBIE p).
  - intros E. apply IH in E; [|lia|apply (no_child_view (<[Z.to_nat i := set_parent p init]> ps)); [by apply view_wakeup1|done]]. rewrite E. by rewrite view_wakeup1.
  - intros E. apply IH in E; [|lia|done]. by rewrite E.
Qed.

Lemma view_exit other status (k k' : kernel A P S) : other <> cur -> no_child_wait (procs k) -> exit other status k = Ret k' -> view (procs k') = view (procs k).
Proof.
  intros Ho Hn. unfold exit. destruct (other =? initproc k); [done|]. intros Hr. ret_inv Hr. unfold get_proc in E. destruct (zget (procs k) other) as [p0|] eqn:Hp; [|done]. injection E as <-.
  apply put_proc_inv in E1 as [Hi ->]. apply acquire_inv in E2 as ->. cbn [with_lock with_procs procs] in *.
  set (ps1 := <[Z.to_nat other := set_files p0 l status]> (procs k)) in *. assert (V1 : view ps1 = view (procs k)) by (apply view_other; [done|lia]).
  pose proof (no_child_view _ _ V1 Hn) as N1. assert (V2 : view (wakeup1 (ChanProc (p_parent p0)) ps1) = view ps1) by (by apply view_wakeup1).
  apply view_reparent in E3; [|lia|by apply (no_child_view ps1)]. apply update_inv in E4 as (q & [Hq Hps] & _). cbn [procs with_procs] in Hps. rewrite Hps, view_other by (done || lia). congruence.
Qed.

Lemma view_yield other (k k' : kernel A P S) : other <> cur -> yield other k = Ret k' -> view (procs k') = view (procs k).
Proof.
  intros Ho. unfold yield. intros Hr. ret_inv Hr. apply acquire_inv in E as ->. apply update_inv in E0 as (q & [Hq Hps] & _). cbn [procs with_lock] in *.
  rewrite Hps. apply view_other; [done|]. pose proof (zget_Some _ _ _ Hq). lia.
Qed.
End views.

(** ** What a trap does *)

Section laws.
Context {A P S K H : Type} `{PageAllocator A} `{FilesystemDriver P S} `{Machine H}.
Variable junk : list Z.
Variable data : Z.
Variable fuel : nat.
Variable font16 : list Z.
Variable ticks_addr input_r : Z.
Variable ustack0 : list Z.
Variable run_handler : K -> Z -> system A P S K -> outcome (Z * system A P S K).
Variable entry_point : Z -> kernel A P S -> outcome (kernel A P S).

Local Notation world := (driver unit pci_vars (devices A P S K H)).
Local Notation sys := (system A P S K).

Variable pci_host : PciHost world.
Variable call_handler : Z -> Z -> hw world unit.

Local Notation run_trap := (trap junk data fuel font16 ticks_addr input_r ustack0 run_handler entry_point pci_host call_handler).
Local Notation run_resume := (trap_resume (K := K) (H := H) junk fuel ticks_addr input_r).

Lemma on_sys_inv {X} (f : sys -> outcome (X * sys)) (w w' : world) x : on_sys f w = Ret (x, w') -> exists s, f (sys_of w) = Ret (x, s) /\ sys_of w' = s.
Proof. unfold on_sys. destruct (f (sys_of w)) as [[y s]| | |]; [|done..]. cbn. intros [= <- <-]. by exists s. Qed.

Lemma on_kernel_inv f (w w' : world) u : on_kernel f w = Ret (u, w') -> exists k, f (sk (sys_of w)) = Ret k /\ sys_of w' = with_k (sys_of w) k.
Proof. unfold on_kernel. intros (s & E & <-)%on_sys_inv. destruct (f (sk (sys_of w))) as [k| | |]; [|done..]. cbn in E. injection E as _ <-. by exists k. Qed.

Lemma my_proc_inv cur (w w' : world) p : my_proc cur w = Ret (p, w') ->
  w' = w /\ match p with Some p => 0 <= cur /\ zget (procs (sk (sys_of w))) cur = Some p | None => cur < 0 end.
Proof.
  unfold my_proc. destruct (Z.ltb_spec cur 0); [by intros [= <- <-]|]. unfold get_proc. destruct (zget (procs (sk (sys_of w))) cur); [|done]. by intros [= <- <-].
Qed.

(** A killed process on its way to user mode exits. *)
Lemma check_killed_inv cur user m (w w' : world) t : check_killed cur user m w = Ret (t, w') ->
  t = Exits /\ (exists k, exit cur (-1) (sk (sys_of w)) = Ret k /\ sys_of w' = with_k (sys_of w) k) \/
  m w = Ret (t, w') /\ (user = true -> 0 <= cur -> exists p, zget (procs (sk (sys_of w))) cur = Some p /\ p_killed p = 0).
Proof.
  unfold check_killed. rewrite mbind_Ret. intros (p & w1 & [-> Hp]%my_proc_inv & Hm). destruct (is_killed p && user) eqn:E.
  - left. apply mbind_Ret in Hm as (u & w2 & Hk%on_kernel_inv & [= <- <-]). done.
  - right. split; [done|]. intros -> Hc. destruct p as [p|]; [|lia]. exists p. split; [apply Hp|]. cbn in E. rewrite andb_true_r in E. by apply negb_false_iff, Z.eqb_eq in E.
Qed.

Lemma syscall_done_inv cur r (w w' : world) t : syscall_done cur r w = Ret (t, w') -> t = GoesOn -> 0 <= cur ->
  exists p, zget (procs (sk (sys_of w'))) cur = Some p /\ p_killed p = 0.
Proof.
  intros Hr -> Hc. destruct r as [| |b]; [|done|done]. apply check_killed_inv in Hr as [[? _]|[[= <-] Hk]]; [done|]. by apply Hk.
Qed.

(** C12: A process that goes on in user mode after a trap, at
    once or after other processes have run, has not been killed. *)
Theorem killed_never_returns cpu cr2 cur tf (w w' : world) : 0 <= cur -> user_mode tf = true ->
  run_trap cpu cr2 cur tf w = Ret (GoesOn, w') \/ (exists t, (t = Yields \/ exists b, t = Sleeps b) /\ run_resume cur tf t w = Ret (GoesOn, w')) ->
  exists p, zget (procs (sk (sys_of w'))) cur = Some p /\ p_killed p = 0.
Proof.
  intros Hc Hu [Ht|(t & Ht & Hr)].
  - unfold trap in Ht. destruct (tf_trapno tf =? T_SYSCALL).
    + unfold trap_syscall in Ht. apply check_killed_inv in Ht as [[? _]|[Ht _]]; [done|]. apply mbind_Ret in Ht as (u & w1 & _ & Ht).
      apply mbind_Ret in Ht as (r & w2 & _ & Ht). by eapply syscall_done_inv.
    + apply mbind_Ret in Ht as (u & w1 & _ & Ht). apply check_killed_inv in Ht as [[? _]|[Ht _]]; [done|]. apply mbind_Ret in Ht as (p & w2 & [-> Hp]%my_proc_inv & Ht).
      destruct p as [p|]; [|lia]. destruct (is_state RUNNING p && _).
      * by apply mbind_Ret in Ht as (? & ? & _ & [=]).
      * apply check_killed_inv in Ht as [[? _]|[[= <-] Hk]]; [done|]. by apply Hk.
  - destruct Ht as [->|[b ->]]; cbn [trap_resume] in Hr.
    + apply mbind_Ret in Hr as (u & w1 & _ & Hr). apply check_killed_inv in Hr as [[? _]|[[= <-] Hk]]; [done|]. by apply Hk.
    + apply mbind_Ret in Hr as (r & w1 & _ & Hr). by eapply syscall_done_inv.
Qed.

(** *** Ticks of the clock *)

Lemma lapiceoi_inv (w w' : world) u : lapiceoi w = Ret (u, w') -> sys_of w' = sys_of w.
Proof.
  unfold lapiceoi, lapicw. rewrite mbind_Ret. intros (? & w1 & [= _ <-] & Hr). apply mbind_Ret in Hr as (v & w2 & Hl & [= _ <-]). unfold load32 in Hl. injection Hl as Hl.
  cbn in Hl. destruct (mm_load _ _ _) as [y h]. by injection Hl as _ <-.
Qed.

Variable cur n t0 : Z.

(** A process in the call, asleep on the counter of ticks or woken. *)
Definition dozes (v : procstate * channel * Z) : Prop := v = (SLEEPING, ChanOther ticks_addr, 0) \/ exists c, v = (RUNNABLE, c, 0) /\ forall i, c <> ChanProc i.

Lemma dozes_no_child ps v : view cur ps = Some v -> dozes v -> no_child_wait cur ps.
Proof.
  intros Hv Hd p i Hp. unfold view in Hv. rewrite Hp in Hv. injection Hv as <-. unfold view_proc in Hd. destruct Hd as [[= _ -> _]|(c & [= _ -> _] & Hc)]; [done|apply Hc].
Qed.

Lemma tick_view (s s' : sys) u v : clock_tick ticks_addr s = Ret (u, s') -> view cur (procs (sk s)) = Some v -> dozes v ->
  ticks s' = u32 (ticks s + 1) /\ tickslock s' = false /\ exists v', view cur (procs (sk s')) = Some v' /\ dozes v' /\ v'.1.1 = RUNNABLE.
Proof.
  unfold clock_tick, acquire_b. intros Hr Hv Hd. destruct (tickslock s); [done|]. cbn [obind release_b] in Hr. ret_inv Hr. unfold wakeup in E. ret_inv E. apply acquire_inv in E0 as ->. apply release_inv in E as ->.
  split; [done|]. split; [done|]. cbn [with_ticks with_k sk procs with_lock with_procs].
  unfold view in *. destruct (zget (procs (sk s)) cur) as [p|] eqn:Hp; [|done]. injection Hv as <-. unfold view_proc in Hd.
  assert (Hw : zget (wakeup1 (ChanOther ticks_addr) (procs (sk s))) cur = Some (if is_state SLEEPING p && bool_decide (p_chan p = ChanOther ticks_addr) then set_state p RUNNABLE else p)).
  { apply zget_lookup in Hp as [Hc Hp]. apply zget_lookup. split; [done|]. unfold wakeup1. rewrite list_lookup_fmap, Hp. done. }
  rewrite Hw. eexists. split; [done|]. unfold is_state. destruct Hd as [[= Es Ec Ek]|(c & [= Es Ec Ek] & Hc)].
  - rewrite Es, Ec, !bool_decide_true by done. cbn. unfold view_proc. cbn. rewrite Ec, Ek. split; [right; by eexists|done].
  - rewrite Es, bool_decide_false by done. cbn. unfold view_proc. rewrite Es, Ec, Ek. split; [right; by eexists|done].
Qed.

(** What an interrupt of the clock in another process, or in none, does to the counter
    and to a process in the call. *)
Lemma timer_trap cpu cr2 other tf (w w' : world) t v : tf_trapno tf = T_IRQ0 + IRQ_TIMER -> other <> cur -> run_trap cpu cr2 other tf w = Ret (t, w') ->
  tickslock (sys_of w) = false -> view cur (procs (sk (sys_of w))) = Some v -> dozes v ->
  ticks (sys_of w') = (if cpu =? 0 then u32 (ticks (sys_of w) + 1) else ticks (sys_of w)) /\ tickslock (sys_of w') = false /\
  exists v', view cur (procs (sk (sys_of w'))) = Some v' /\ dozes v' /\ if cpu =? 0 then v'.1.1 = RUNNABLE else v' = v.
Proof.
  intros Htf Ho Ht Hl Hv Hd. unfold trap in Ht. rewrite Htf in Ht. change (T_IRQ0 + IRQ_TIMER =? T_SYSCALL) with false in Ht.
  unfold interrupt in Ht. change (T_IRQ0 + IRQ_TIMER - T_IRQ0 =? IRQ_TIMER) with true in Ht. cbn iota in Ht. apply mbind_Ret in Ht as (u1 & w2 & Hi & Ht).
  apply mbind_Ret in Hi as (u2 & w1 & Hi & E2%lapiceoi_inv).
  assert (Hmid : ticks (sys_of w1) = (if cpu =? 0 then u32 (ticks (sys_of w) + 1) else ticks (sys_of w)) /\ tickslock (sys_of w1) = false /\
    exists v', view cur (procs (sk (sys_of w1))) = Some v' /\ dozes v' /\ if cpu =? 0 then v'.1.1 = RUNNABLE else v' = v).
  { destruct (cpu =? 0); [|injection Hi as _ <-; split; [done|]; split; [done|]; by exists v]. apply on_sys_inv in Hi as (s & Hs & ->). by apply (tick_view _ _ _ v Hs). }
  rewrite <- E2 in Hmid. clear w1 Hi E2. destruct Hmid as (M1 & M2 & v' & Mv & Md & Mr). pose proof (dozes_no_child _ _ Mv Md) as Hn.
  assert (Hend : forall f k, f (sk (sys_of w2)) = Ret k -> sys_of w' = with_k (sys_of w2) k -> view cur (procs k) = view cur (procs (sk (sys_of w2))) ->
    ticks (sys_of w') = (if cpu =? 0 then u32 (ticks (sys_of w) + 1) else ticks (sys_of w)) /\ tickslock (sys_of w') = false /\
    exists v', view cur (procs (sk (sys_of w'))) = Some v' /\ dozes v' /\ if cpu =? 0 then v'.1.1 = RUNNABLE else v' = v).
  { intros f k Hf -> Hvk. cbn [with_k ticks tickslock sk]. rewrite Hvk. split; [done|]. split; [done|]. by exists v'. }
  apply check_killed_inv in Ht as [[_ (k & Hk & Ek)]|[Ht _]]; [by apply (Hend _ k Hk Ek); eapply view_exit|].
  apply mbind_Ret in Ht as (p & w3 & [-> Hp]%my_proc_inv & Ht). destruct p as [p|]; [|injection Ht as _ <-; split; [done|]; split; [done|]; by exists v'].
  destruct (is_state RUNNING p && _).
  - apply mbind_Ret in Ht as (u & w4 & (k & Hk & Ek)%on_kernel_inv & [= _ <-]). by apply (Hend _ k Hk Ek); eapply view_yield.
  - apply check_killed_inv in Ht as [[_ (k & Hk & Ek)]|[[= _ <-] _]]; [by apply (Hend _ k Hk Ek); eapply view_exit|split; [done|]; split; [done|]; by exists v'].
Qed.

(** The scheduler takes the process. *)
Definition picked (w w1 : world) : Prop :=
  (exists p, zget (procs (sk (sys_of w))) cur = Some p /\ p_state p = RUNNABLE) /\ on_kernel (fun k => obind (acquire_ptable k) (scheduler_pick cur)) w = Ret (tt, w1).

(** What goes on while it is in the call, with the number of ticks of the boot
    processor: interrupts of the clock, anything else that leaves it and the counter alone, and the process
    itself, when it runs and sleeps again. *)
Inductive nap : Z * world -> Z * world -> Prop :=
| nap_clock k w w' cpu cr2 other tf t : tf_trapno tf = T_IRQ0 + IRQ_TIMER -> other <> cur -> run_trap cpu cr2 other tf w = Ret (t, w') -> nap (k, w) (if cpu =? 0 then k + 1 else k, w')
| nap_other k w w' : ticks (sys_of w') = ticks (sys_of w) -> tickslock (sys_of w') = tickslock (sys_of w) -> view cur (procs (sk (sys_of w'))) = view cur (procs (sk (sys_of w))) -> nap (k, w) (k, w')
| nap_again k w w1 w' tf : picked w w1 -> run_resume cur tf (Sleeps (BTicks n t0)) w1 = Ret (Sleeps (BTicks n t0), w') -> nap (k, w) (k, w').

Lemma picked_inv (w w1 : world) v : picked w w1 -> view cur (procs (sk (sys_of w))) = Some v -> dozes v ->
  exists p vm, zget (procs (sk (sys_of w1))) cur = Some p /\ p_state p = RUNNING /\ p_killed p = 0 /\
    sys_of w1 = with_k (sys_of w) (with_vm (with_procs (with_lock (sk (sys_of w)) true) (procs (sk (sys_of w1)))) vm).
Proof.
  intros [(p & Hp & Hst) Hk] Hv Hd. apply on_kernel_inv in Hk as (k & Hk & Es). destruct (acquire_ptable (sk (sys_of w))) as [k1| | |] eqn:Ea; [|done..]. cbn [obind] in Hk. apply acquire_inv in Ea as ->.
  unfold scheduler_pick, get_proc in Hk. cbn [with_lock procs] in Hk. rewrite Hp in Hk. cbn [of_option obind] in Hk. unfold is_state in Hk. rewrite Hst, bool_decide_true in Hk by done. cbn [negb] in Hk.
  ret_inv Hk. apply put_proc_inv in Hk as [Hi ->]. rewrite Es. unfold view in Hv. rewrite Hp in Hv. injection Hv as <-.
  eexists (set_state p RUNNING), _. cbn [with_k sk with_procs with_vm with_lock procs]. split; [by apply zget_insert_eq|]. split; [done|]. split; [|reflexivity].
  cbn. unfold view_proc in Hd. destruct Hd as [[= _ _ ->]|(c & [= _ _ ->] & _)]; done.
Qed.

(** Fewer than [n] ticks since the call: it sleeps again.  Otherwise it returns 0. *)
Lemma resume_sys k (s : sys) p : 0 <= k < 2 ^ 32 -> is_u32 t0 -> ticks s = u32 (t0 + k) -> tickslock s = false -> ptable_lock (sk s) = true ->
  zget (procs (sk s)) cur = Some p -> p_killed p = 0 ->
  exists r s', sys_resume junk fuel ticks_addr input_r cur (BTicks n t0) s = Ret (r, s') /\ ticks s' = ticks s /\ tickslock s' = false /\
    if decide (k < u32 n) then r = Asleep (BTicks n t0) /\ view cur (procs (sk s')) = Some (SLEEPING, ChanOther ticks_addr, 0)
    else r = Returned /\ exists p', zget (procs (sk s')) cur = Some p' /\ tf_eax (p_tf p') = 0 /\ p_killed p' = 0.
Proof.
  intros Hk Ht0 Ht Hl Hlk Hp Hkl. pose proof (zget_Some _ _ _ Hp) as Hi. assert (Hu : u32 (ticks s - t0) = k).
  { rewrite Ht. unfold u32. rewrite Zminus_mod_idemp_l. replace (t0 + k - t0) with k by lia. by apply Z.mod_small. }
  cbn [sys_resume]. unfold sleep_resume, get_proc. rewrite Hp. cbn [of_option obind]. unfold put_proc. rewrite zset_Some by done. cbn [of_option obind].
  set (p1 := set_chan p ChanNull (p_state p)). set (ps := <[Z.to_nat cur := p1]> (procs (sk s))). assert (Hp1 : zget ps cur = Some p1) by (by apply zget_insert_eq).
  assert (Hz : 0 <= cur < zlen ps) by (unfold ps, zlen; rewrite length_insert; exact Hi).
  unfold release_ptable. cbn [with_procs ptable_lock]. rewrite Hlk, Hl. cbn [release_b acquire_b obind with_lock with_procs procs ptable_lock].
  unfold sleep_loop. change (default false (Some true)) with true. cbn [with_tickslock with_k ticks tickslock sk]. rewrite Hu.
  destruct (decide (k < u32 n)) as [Hlt|Hge]; [rewrite (proj2 (Z.ltb_lt k (u32 n)) Hlt)|rewrite (proj2 (Z.ltb_ge k (u32 n)) ltac:(lia))].
  - unfold me, get_proc. cbn [sk procs with_lock with_procs with_k with_tickslock]. rewrite Hp1. cbn [of_option obind]. change (p_killed p1) with (p_killed p). rewrite Hkl. cbn [Z.eqb negb].
    unfold sleep. destruct (Z.ltb_spec cur 0); [lia|]. unfold acquire_ptable. cbn [ptable_lock acquire_b obind release_b with_lock].
    unfold update, get_proc. cbn [procs with_lock with_procs]. fold ps. rewrite Hp1. cbn [of_option obind]. unfold put_proc. cbn [procs with_lock with_procs]. rewrite zset_Some by done. cbn [of_option obind with_procs].
    unfold sched, get_proc. cbn [procs ptable_lock negb with_lock with_procs]. rewrite zget_insert_eq by done. cbn [of_option obind]. change (is_state RUNNING _) with false. cbn [negb Z.eqb Pos.eqb obind].
    eexists _, _. split; [reflexivity|]. split; [done|]. split; [done|]. split; [done|]. cbn [with_tickslock with_k sk procs with_lock with_procs].
    unfold view. rewrite zget_insert_eq by done. cbn. unfold view_proc. cbn. by rewrite Hkl.
  - cbn [release_b obind value]. unfold finish, return_value, update, get_proc. cbn [with_tickslock with_k sk procs with_lock with_procs]. rewrite Hp1. cbn [of_option obind]. unfold put_proc. cbn [procs with_lock with_procs]. rewrite zset_Some by done. cbn [of_option obind].
    eexists _, _. split; [reflexivity|]. split; [done|]. split; [done|]. split; [done|]. cbn [with_k sk with_procs procs].
    eexists. rewrite zget_insert_eq by done. split; [done|]. by split.
Qed.

Lemma resume_sleeps k tf (w w1 : world) v : 0 <= k < 2 ^ 32 -> is_u32 t0 -> ticks (sys_of w) = u32 (t0 + k) -> tickslock (sys_of w) = false ->
  view cur (procs (sk (sys_of w))) = Some v -> dozes v -> picked w w1 ->
  exists r w', run_resume cur tf (Sleeps (BTicks n t0)) w1 = Ret (r, w') /\ ticks (sys_of w') = ticks (sys_of w) /\ tickslock (sys_of w') = false /\
    if decide (k < u32 n) then r = Sleeps (BTicks n t0) /\ view cur (procs (sk (sys_of w'))) = Some (SLEEPING, ChanOther ticks_addr, 0)
    else r = GoesOn /\ exists p', zget (procs (sk (sys_of w'))) cur = Some p' /\ tf_eax (p_tf p') = 0.
Proof.
  intros Hk Ht0 Ht Hl Hv Hd Hpick. destruct (picked_inv w w1 v Hpick Hv Hd) as (p & vm & Hp & Hst & Hkl & Es).
  destruct (resume_sys k (sys_of w1) p Hk Ht0) as (r & s' & E & Ht' & Hl' & Hr); [by rewrite Es|by rewrite Es|by rewrite Es|done|done|].
  set (w2 := on_hw (fun d => with_sys d s') w1). assert (E1 : on_sys (sys_resume junk fuel ticks_addr input_r cur (BTicks n t0)) w1 = Ret (r, w2)) by (unfold on_sys; by rewrite E).
  cbn [trap_resume]. rewrite (mbind_run _ _ _ _ _ E1). assert (Etk : ticks s' = ticks (sys_of w)) by (rewrite Ht', Es; done).
  destruct (decide (k < u32 n)).
  - destruct Hr as [-> Hview]. exists (Sleeps (BTicks n t0)), w2. done.
  - destruct Hr as [-> (p' & Hp' & He & Hk')]. exists GoesOn, w2. split; [|by split; [|split; [|split; [|exists p']]]].
    cbn [syscall_done]. unfold check_killed, my_proc, mbind. destruct (Z.ltb_spec cur 0); [by apply zget_Some in Hp'; lia|].
    change (sys_of w2) with s'. unfold get_proc. rewrite Hp'. cbn. by rewrite Hk'.
Qed.

Lemma sys_sleep_inv (s s1 : sys) : sys_sleep ticks_addr cur s = Ret (Blocked (BTicks n t0), s1) ->
  ticks s = t0 /\ ticks s1 = t0 /\ tickslock s1 = false /\ view cur (procs (sk s1)) = Some (SLEEPING, ChanOther ticks_addr, 0) /\ 0 < u32 n.
Proof.
  unfold sys_sleep, sleep_loop, acquire_b. intros Hr. destruct (argint cur 0 s) as [m| | |]; [|done..]. cbn [obind] in Hr. destruct (tickslock s); [done|]. cbn [obind with_tickslock ticks tickslock] in Hr.
  rewrite Z.sub_diag in Hr. change (u32 0) with 0 in Hr. destruct (Z.ltb_spec 0 (u32 m)) as [Hm|]; [|done].
  unfold me, get_proc in Hr. cbn [sk with_tickslock] in Hr. destruct (zget (procs (sk s)) cur) as [p|] eqn:Hp; [|done]. cbn [of_option obind] in Hr. destruct (Z.eqb_spec (p_killed p) 0) as [Hk|]; [|done]. cbn [negb] in Hr.
  destruct (sleep _ _ _ _) as [[lk k]| | |] eqn:Es; [|done..]. cbn [obind] in Hr. injection Hr as Em Et <-. subst m.
  assert (lk = Some false) as ->.
  { unfold sleep in Es. destruct (cur <? 0); [done|]. destruct (acquire_ptable (sk s)) as [k0| | |]; [|done..]. cbn [obind release_b] in Es. by ret_inv Es. }
  apply sleep_inv in Es as (q & l & Hq & ->). rewrite Hp in Hq. injection Hq as <-. split; [done|]. split; [done|]. split; [done|]. split; [|done].
  cbn [with_tickslock with_k sk with_procs procs]. unfold view. rewrite zget_insert_eq by (by eapply zget_Some). cbn. unfold view_proc. cbn. by rewrite Hk.
Qed.

(** The invariant of the call. *)
Definition napping (k : Z) (w : world) : Prop :=
  0 <= k /\ ticks (sys_of w) = u32 (t0 + k) /\ tickslock (sys_of w) = false /\ exists v, view cur (procs (sk (sys_of w))) = Some v /\ dozes v /\ (v.1.1 = SLEEPING -> k < u32 n).

Lemma nap_napping k w k' w' : is_u32 t0 -> nap (k, w) (k', w') -> k' < 2 ^ 32 -> napping k w -> napping k' w' /\ k <= k'.
Proof.
  intros Ht0 Hs Hb (Hk & Ht & Hl & v & Hv & Hd & Hsl). inversion Hs as [k1 w1 w1' cpu cr2 other tf t Htf Ho Htr|k1 w1 w1' E1 E2 E3|k1 w1 w2 w1' tf Hp Hr]; subst.
  - destruct (timer_trap cpu cr2 other tf w w' t v Htf Ho Htr Hl Hv Hd) as (T1 & T2 & v' & Tv & Td & Tr). destruct (cpu =? 0).
    + split; [|lia]. split; [lia|]. split; [rewrite T1, Ht, u32_add_l; f_equal; lia|]. split; [done|]. exists v'. split; [done|]. split; [done|]. by rewrite Tr.
    + split; [|lia]. split; [lia|]. split; [congruence|]. split; [done|]. exists v'. by subst v'.
  - split; [|lia]. split; [done|]. split; [congruence|]. split; [congruence|]. exists v. split; [congruence|]. done.
  - destruct (resume_sleeps k' tf w w2 v ltac:(lia) Ht0 Ht Hl Hv Hd Hp) as (r & w3 & E & T1 & T2 & Hr3). rewrite E in Hr. injection Hr as -> ->.
    split; [|lia]. split; [done|]. split; [congruence|]. split; [done|]. destruct (decide (k' < u32 n)) as [Hlt|]; [|by destruct Hr3]. destruct Hr3 as [_ Hv3].
    eexists. split; [exact Hv3|]. split; [by left|done].
Qed.

Lemma nap_mono x y : nap x y -> x.1 <= y.1.
Proof. intros []; cbn; [destruct (cpu =? 0)|..]; lia. Qed.

(** C13: A process calls sleep for [n] ticks and sleeps.  After
    any number [k] of ticks, whatever else has happened, it is asleep or woken, and woken once
    [n] ticks have passed; when the scheduler takes it, it sleeps again if fewer than
    [n] ticks have passed and else returns 0. *)
Theorem sleep_lasts (s0 : sys) (w1 w : world) k : is_u32 (ticks s0) -> sys_sleep ticks_addr cur s0 = Ret (Blocked (BTicks n t0), sys_of w1) ->
  rtc nap (0, w1) (k, w) -> k < 2 ^ 32 ->
  (exists st c, view cur (procs (sk (sys_of w))) = Some (st, c, 0) /\ (st = SLEEPING \/ st = RUNNABLE) /\ (u32 n <= k -> st = RUNNABLE)) /\
  forall tf w2, picked w w2 -> exists r w', run_resume cur tf (Sleeps (BTicks n t0)) w2 = Ret (r, w') /\
    if decide (k < u32 n) then r = Sleeps (BTicks n t0) else r = GoesOn /\ exists p', zget (procs (sk (sys_of w'))) cur = Some p' /\ tf_eax (p_tf p') = 0.
Proof.
  intros Hu Hs Hr Hk. apply sys_sleep_inv in Hs as (E0 & E1 & E2 & Ev & Hn). rewrite E0 in Hu.
  assert (Hnap : forall b, rtc nap (0, w1) b -> b.1 < 2 ^ 32 -> napping b.1 b.2).
  { apply (rtc_ind_r (fun b => b.1 < 2 ^ 32 -> napping b.1 b.2)).
    - intros _. cbn. split; [lia|]. rewrite Z.add_0_r, u32_small by done. split; [done|]. split; [done|]. eexists. split; [exact Ev|]. split; [by left|done].
    - intros [k1 w1'] [k2 w2] _ Hstep IH Hb. pose proof (nap_mono _ _ Hstep) as Hle. cbn in *. eapply nap_napping; [done|exact Hstep|done|]. apply IH. lia. }
  specialize (Hnap _ Hr Hk). cbn in Hnap.
  destruct Hnap as (H0' & Ht & Hl & [[st c] kl] & Hv & Hd & Hsl). cbn in Hsl. split.
  - exists st, c. destruct Hd as [[= -> -> ->]|(c' & [= -> -> ->] & _)]; (split; [done|]).
    + split; [by left|]. intros ?. specialize (Hsl eq_refl). lia.
    + split; [by right|done].
  - intros tf w2 Hp. destruct (resume_sleeps k tf w w2 _ ltac:(lia) Hu Ht Hl Hv Hd Hp) as (r & w' & E & _ & _ & Hres). exists r, w'. split; [done|].
    destruct (decide (k < u32 n)); [by destruct Hres|done].
Qed.
End laws.

(** The local interrupt controller is told to report its errors as interrupt 19, which
    is taken for a fault: of the process that runs, or of the kernel. *)
Lemma apic_error_unhandled {A P S K H} `{PageAllocator A} `{Machine H} fuel font16 ticks_addr input_r pci_host call_handler cpu tf :
  interrupt (A := A) (P := P) (S := S) (K := K) (H := H) fuel font16 ticks_addr input_r pci_host call_handler cpu (T_IRQ0 + IRQ_ERROR) tf = None.
Proof. reflexivity. Qed.

(** ** A machine without devices *)

#[local] Instance no_machine : Machine unit := {
  io_in w p h := (0, h); io_out w p v h := h; mm_load w a h := (0, h); mm_store w a v h := h; ram_get a n h := repeat 0 (Z.to_nat n); ram_put b l h := h
}.

#[local] Existing Instances ex_allocator Vfs.ex_driver.

Definition ex_queues : hid := Hid (EvQ [0; 0] 0 0 false) (EvQ [0; 0] 0 0 false) false.

Definition ex_world (s : system kmem _ _ unit) : driver unit pci_vars (devices kmem FAT32Private (fs (hal ramdisk)) unit unit) :=
  Driver tt (PciVars [] [] []) (Devices s (Kbd 0 0) (Ps2Mouse PS2_MOUSE_WITHOUT_WHEEL [0; 0; 0; 0] 0) ex_queues tt).

Definition ex_host {M} : PciHost M :=
  Host (fun _ _ => mret 0) (fun _ _ => mret 0) (fun _ _ => mret 0) (fun _ _ _ => mret tt) (fun _ _ _ => mret tt) (fun _ _ _ => mret tt) 0 0.

(** A trap frame of user mode. *)
Definition ex_trap (trapno : Z) : trapframe := Trapframe 0 0 0 0 0 0 0 0 0 0 0 0 trapno 0 0x1000 0x1b 0x200 0x2000 0x23.

(** The interrupt of a disk. *)
Lemma killed_never_returns_witness : exists w' p,
  trap (K := unit) ex_junk_frame 0 0 [] 0 0 [] (fun _ _ => Ret ∘ pair 0) (fun _ => Ret) ex_host (fun _ _ => mret tt) 0 0 0 (ex_trap 46) (ex_world (ex_system ex_vm)) = Ret (GoesOn, w') /\
  zget (procs (sk (sys_of w'))) 0 = Some p /\ p_killed p = 0.
Proof.
  destruct (killed_never_returns ex_junk_frame 0 0 [] 0 0 [] (fun _ _ => Ret ∘ pair 0) (fun _ => Ret) ex_host (fun _ _ => mret tt) 0 0 0 (ex_trap 46)
    (ex_world (ex_system ex_vm)) (ex_world (ex_system ex_vm))) as (p & Hp & Hk); [lia|reflexivity|left; reflexivity|].
  exists (ex_world (ex_system ex_vm)), p. split; [reflexivity|]. split; [exact Hp|exact Hk].
Defined.

(** Asleep for two ticks, of which one has passed. *)
Definition ex_asleep (v : vm kmem) (st : procstate) (t : Z) : system kmem FAT32Private (fs (hal ramdisk)) unit :=
  Sys (Kernel [set_chan ex_reader (ChanOther 0) st] (if decide (st = SLEEPING) then true else false) 0 2 v ex_vfs) [] ex_console t false [] [].

Lemma sleep_lasts_witness : exists v st c,
  rtc (nap (K := unit) ex_junk_frame 0 0 [] 0 0 [] (fun _ _ => Ret ∘ pair 0) (fun _ => Ret) ex_host (fun _ _ => mret tt) 0 2 0) (0, ex_world (ex_asleep v SLEEPING 0)) (1, ex_world (ex_asleep v RUNNABLE 1)) /\
  view 0 (procs (sk (ex_asleep v RUNNABLE 1))) = Some (st, c, 0) /\ (st = SLEEPING \/ st = RUNNABLE).
Proof.
  destruct ex_stack_page as (v & sh & um & n & Has & _ & _ & _ & (W1 & W2 & Hw)).
  destruct (vwrite_user sh 0x80200000 um (le_bytes 4 2) (frames v) (PROC_STACK_BOTTOM - 96) Has) as (f & _ & Has' & Hb & _).
  { assert (0 <= PROC_STACK_BOTTOM - PGSIZE /\ PROC_STACK_BOTTOM <= KERNBASE) by by vm_compute.
    split; [by vm_compute|]. split; [by vm_compute|]. intros b Hb. apply Hw. change (zlen _) with 4 in Hb. unfold PGSIZE in *. lia. }
  assert (Ea : argint 0 0 (ex_system (with_frames v f)) = Ret 2).
  { apply (argint_user sh um 0 0 2 ex_reader (ex_system (with_frames v f))); [reflexivity|exact Has'|done|by vm_compute|by vm_compute|by vm_compute|exact Hb]. }
  set (run := nap _ _ _ _ _ _ _ _ _ _ _ _ _ _).
  assert (Hn : rtc run (0, ex_world (ex_asleep (with_frames v f) SLEEPING 0)) (1, ex_world (ex_asleep (with_frames v f) RUNNABLE 1))).
  { eapply rtc_l; [apply nap_other with (w' := ex_world (Sys (Kernel [set_chan ex_reader (ChanOther 0) SLEEPING] false 0 2 (with_frames v f) ex_vfs) [] ex_console 0 false [] [])); reflexivity|].
    apply rtc_once. refine (nap_clock _ _ _ _ _ _ _ _ _ _ _ _ _ _ 0 _ _ 0 0 (-1) (ex_trap 32) GoesOn eq_refl _ _); [done|reflexivity]. }
  exists (with_frames v f).
  destruct (sleep_lasts ex_junk_frame 0 0 [] 0 0 [] (fun _ _ => Ret ∘ pair 0) (fun _ => Ret) ex_host (fun _ _ => mret tt) 0 2 0 (ex_system (with_frames v f))
    (ex_world (ex_asleep (with_frames v f) SLEEPING 0)) (ex_world (ex_asleep (with_frames v f) RUNNABLE 1)) 1) as [(st & c & Hv & Hst & _) _].
  - done.
  - unfold sys_sleep. rewrite Ea. reflexivity.
  - exact Hn.
  - done.
  - exists st, c. split; [exact Hn|]. split; [exact Hv|exact Hst].
Defined.
