(* ===== verification/Board.v ===== *)
(** Devices of the board: the clock (kernel/driver/x86/rtc.c), the old interrupt
    controllers (pic.c), the switch-off of kernel/hal/power.c, the tables of
    kernel/driver/acpi and the display adapter of kernel/driver/bochs-display.

    The theorems: on a clock that counts in BCD the program that asks for the date gets
    the date of the clock; a mode set on the adapter is the one asked for, and the adapter is a driver as
    [Display] relies on; the tables of the RSDT are found. *)

From stdpp Require Import base list gmap strings.
From Stdlib Require Import ZArith Lia.
From S2P Require Import Prelude Mmu Vfs Vm Display Machine Smp Proc Hid Pci UserMem Module Pty Console Syscall.

Local Open Scope Z_scope.
Local Open Scope hw_scope.

(** ** rtc.c *)

Definition RTC_REG_SECOND : Z := 0.
Definition RTC_REG_MINUTE : Z := 2.
Definition RTC_REG_HOUR : Z := 4.
Definition RTC_REG_DAY_OF_WEEK : Z := 6.
Definition RTC_REG_DAY_OF_MONTH : Z := 7.
Definition RTC_REG_MONTH : Z := 8.
Definition RTC_REG_YEAR : Z := 9.
Definition RTC_REG_STATUS_B : Z := 0xb.

Record KernelTime := Time { year : Z; month : Z; day_of_week : Z; day_of_month : Z; hour : Z; minute : Z; second : Z }.

Section rtc.
Context {H : Type} `{Machine H}.

Definition cmos_read (reg : Z) : hw H Z := Machine.outb 0x70 reg ;> v <~ inb 0x71; mret (u8 v).

(** The value of a register with two decimal digits. *)
Definition digits (v : Z) : Z := Z.shiftr v 4 * 10 + Z.land v 0xf.

Definition rtc_get_year : hw H Z := v <~ cmos_read RTC_REG_YEAR; mret (2000 + Z.shiftr v 4 * 10 + Z.land v 0xf).
Definition rtc_get_month : hw H Z := v <~ cmos_read RTC_REG_MONTH; mret (digits v).
Definition rtc_get_day_of_week : hw H Z := v <~ cmos_read RTC_REG_DAY_OF_WEEK; mret (digits v).
Definition rtc_get_day_of_month : hw H Z := v <~ cmos_read RTC_REG_DAY_OF_MONTH; mret (digits v).
Definition rtc_get_hour : hw H Z := v <~ cmos_read RTC_REG_HOUR; mret (digits v).
Definition rtc_get_minute : hw H Z := v <~ cmos_read RTC_REG_MINUTE; mret (digits v).
Definition rtc_get_second : hw H Z := v <~ cmos_read RTC_REG_SECOND; mret (digits v).

Definition rtc_time : hw H KernelTime :=
  y <~ rtc_get_year; mo <~ rtc_get_month; dw <~ rtc_get_day_of_week; dm <~ rtc_get_day_of_month;
  h <~ rtc_get_hour; mi <~ rtc_get_minute; s <~ rtc_get_second;
  mret (Time y mo dw dm h mi s).

(** The warnings and the date of the message. *)
Definition rtc_init : hw H (bool * bool * list Z) :=
  b1 <~ cmos_read RTC_REG_STATUS_B;
  b2 <~ cmos_read RTC_REG_STATUS_B;
  y <~ rtc_get_year; mo <~ rtc_get_month; dm <~ rtc_get_day_of_month; h <~ rtc_get_hour; mi <~ rtc_get_minute; s <~ rtc_get_second;
  mret (Z.testbit b1 2, negb (Z.testbit b2 1), [y; mo; dm; h; mi; s]).
End rtc.

(** The structure in the memory of the caller. *)
Definition time_bytes (t : KernelTime) : list Z :=
  [year t; month t; day_of_week t; day_of_month t; hour t; minute t; second t] ≫= (fun v => le_bytes 4 (u32 v)).

Section handlers.
Context {A P S K H : Type} `{PageAllocator A} `{FilesystemDriver P S} `{Machine H}.

(** The handler of the kernel call ["date"], with the address given to it. *)
Definition date_kcall_handler (cur p : Z) (s : system A P S K) : hw H (Z * system A P S K) :=
  t <~ rtc_time;
  s1 <~ mlift (user_store cur p (time_bytes t) s);
  mret (0, s1).
End handlers.

(** ** power.c *)

Section power.
Context {H : Type} `{Machine H}.

(** Both end in a panic, when the machine goes on all the same; the messages are left
    out. *)
Definition hal_shutdown : hw H unit := outw 0x604 0x2000 ;> outw 0xB004 0x2000 ;> outw 0x4004 0x3400 ;> (fun _ => Panic "You can safely power off your computer").
Definition hal_reboot : hw H unit := Machine.outb 0xcf9 6 ;> (fun _ => Panic "You can safely reboot your computer").

Definition power_kcall_handler (op : Z) : hw H Z :=
  if op =? 0 then hal_shutdown ;> mret ERROR_INVAILD
  else if op =? 1 then hal_reboot ;> mret ERROR_INVAILD
  else mret ERROR_INVAILD.
End power.

(** ** pic.c *)

Definition IO_PIC1 : Z := 0x20.
Definition IO_PIC2 : Z := 0xA0.

Definition picinit {H} `{Machine H} : hw H unit :=
  Machine.outb (IO_PIC1 + 1) 0xFF ;> Machine.outb (IO_PIC2 + 1) 0xFF ;>
  Machine.outb IO_PIC1 0x11 ;> Machine.outb IO_PIC2 0x11 ;>
  Machine.outb (IO_PIC1 + 1) 32 ;> Machine.outb (IO_PIC2 + 1) 40 ;>
  Machine.outb (IO_PIC1 + 1) 0x04 ;> Machine.outb (IO_PIC2 + 1) 0x02 ;>
  Machine.outb (IO_PIC1 + 1) 0x01 ;> Machine.outb (IO_PIC1 + 1) 0x01.

(** ** acpi.c *)

(** ["RSD PTR "]. *)
Definition RSDP_SIGNATURE : list Z := [82; 83; 68; 32; 80; 84; 82; 32].

Definition sizeof_rsdt_header : Z := 36.

Section acpi.
Context {H : Type} `{Machine H}.

Fixpoint rsdp_search (n : nat) (p : Z) : hw H Z :=
  match n with
  | O => mret 0
  | Datatypes.S n' => bs <~ mem_get p 8; if bool_decide (bs = RSDP_SIGNATURE) then mret p else rsdp_search n' (p + 16)
  end.

(** The tables of the messages: signature, physical address and length. *)
Fixpoint rsdt_tables (n : nat) (entry : Z) : hw H (list (list Z * Z * Z)) :=
  match n with
  | O => mret []
  | Datatypes.S n' =>
    e <~ mem_get entry 4;
    let header := P2V (le_val e) in
    sig <~ mem_get header 4;
    len <~ mem_get (header + 4) 4;
    rest <~ rsdt_tables n' (entry + 4);
    mret ((sig, V2P header, le_val len) :: rest)
  end.

Definition acpi_init : hw H (option (list (list Z * Z * Z))) :=
  rsdp <~ rsdp_search 8192 (P2V 0xe0000);
  if rsdp =? 0 then mret None else
  ra <~ mem_get (rsdp + 16) 4;
  let rsdt := P2V (le_val ra) in
  len <~ mem_get (rsdt + 4) 4;
  ts <~ rsdt_tables (Z.to_nat (u32 (le_val len - sizeof_rsdt_header) / 4)) (rsdt + sizeof_rsdt_header);
  mret (Some ts).
End acpi.

(** ** bochs-display.c *)

Definition VBE_DISPI_IOPORT_INDEX : Z := 0x01CE.
Definition VBE_DISPI_IOPORT_DATA : Z := 0x01CF.

Definition VBE_DISPI_INDEX_ID : Z := 0x0.
Definition VBE_DISPI_INDEX_XRES : Z := 0x1.
Definition VBE_DISPI_INDEX_YRES : Z := 0x2.
Definition VBE_DISPI_INDEX_BPP : Z := 0x3.
Definition VBE_DISPI_INDEX_ENABLE : Z := 0x4.

Definition VBE_DISPI_ENABLED : Z := 0x01.
Definition VBE_DISPI_VBE_ENABLED : Z := 0x40.

Definition BOCHS_DISPLAY_MMIO_OFFSET : Z := 0x500.

(** Addresses; [0] is null. *)
Record BochsDisplayDevice := Bochs { bd_mmio : Z; bd_edid_blob : Z; bd_vram : Z }.

Section bochs.
Context {H : Type} `{Machine H}.

Definition vbe_read (dev : BochsDisplayDevice) (reg : Z) : hw H Z :=
  if bd_mmio dev =? 0 then outw VBE_DISPI_IOPORT_INDEX reg ;> inw VBE_DISPI_IOPORT_DATA else load16 (bd_mmio dev + 2 * reg).

Definition vbe_write (dev : BochsDisplayDevice) (reg val : Z) : hw H unit :=
  if bd_mmio dev =? 0 then outw VBE_DISPI_IOPORT_INDEX reg ;> outw VBE_DISPI_IOPORT_DATA val else store16 (bd_mmio dev + 2 * reg) val.

Definition bochs_display_enable (dev : BochsDisplayDevice) (xres yres : Z) : hw H Z :=
  vbe_write dev VBE_DISPI_INDEX_XRES xres ;>
  vbe_write dev VBE_DISPI_INDEX_YRES yres ;>
  vbe_write dev VBE_DISPI_INDEX_BPP 32 ;>
  vbe_write dev VBE_DISPI_INDEX_ENABLE (Z.lor VBE_DISPI_ENABLED VBE_DISPI_VBE_ENABLED) ;>
  mret (bd_vram dev).

Definition bochs_display_disable (dev : BochsDisplayDevice) : hw H unit := vbe_write dev VBE_DISPI_INDEX_ENABLE 0.

(** Bytes of the adapter's memory, as [memmove] reads them. *)
Fixpoint mmio_bytes (a : Z) (n : nat) : hw H (list Z) :=
  match n with
  | O => mret []
  | Datatypes.S n' => b <~ load8 a; bs <~ mmio_bytes (a + 1) n'; mret (u8 b :: bs)
  end.

(** The result and the buffer. *)
Definition bochs_display_read_edid (dev : BochsDisplayDevice) (buffer : list Z) (bytes : Z) : hw H (Z * list Z) :=
  if bd_edid_blob dev =? 0 then mret (0, buffer) else
  if 0x400 <? bytes then mret (0, buffer) else
  bs <~ mmio_bytes (bd_edid_blob dev) (Z.to_nat bytes);
  b <~ mlift (copy_into buffer 0 bs);
  mret (bytes, b).
End bochs.

(** The structures of the adapters by address, and the machine. *)
Record bochs_hw (H : Type) := BochsHw { b_devs : gmap Z BochsDisplayDevice; b_machine : H }.
Arguments BochsHw {H}.
Arguments b_devs {H}.
Arguments b_machine {H}.

Definition bochs_run {H X} (private : Z) (f : BochsDisplayDevice -> hw H X) (w : bochs_hw H) : outcome (X * bochs_hw H) :=
  (dev <- of_option (b_devs w !! private) ;; '(x, h) <- f dev (b_machine w) ;; Ret (x, BochsHw (b_devs w) h))%outcome.

#[export] Instance bochs_display_driver {H} `{Machine H} : FramebufferDriver unit (bochs_hw H) := {
  drv_enable _ private xres yres := bochs_run private (fun dev => bochs_display_enable dev xres yres);
  drv_disable _ private w := ('(_, w') <- bochs_run private bochs_display_disable w ;; Ret w')%outcome;
  drv_update _ := None;
  drv_read_edid _ := Some (fun private buffer bytes w => '(r, b, w') <- bochs_run private (fun dev => bochs_display_read_edid dev buffer bytes) w ;; Ret (r, b, w'))%outcome
}.

Section bochs_init.
Context {A H : Type} `{PageAllocator A} `{Machine H}.
Local Notation state := (driver A pci_vars H).
Variable pci_host : PciHost state.

Definition bochs_display_is_qemu_stdvga (addr : PciAddress) : hw state bool :=
  v <~ read16 pci_host addr 0x0;
  if negb (v =? 0x1234) then mret false else
  d <~ read16 pci_host addr 0x2;
  if negb (d =? 0x1111) then mret false else
  sv <~ read16 pci_host addr 0x2c;
  if negb (sv =? 0x1af4) then mret false else
  sd <~ read16 pci_host addr 0x2e;
  mret (sd =? 0x1100).

(** The page of the structure, and the structure to register with [hal_display_register_device]. *)
Definition bochs_display_dev_init (addr : PciAddress) : hw state (Z * BochsDisplayDevice) :=
  dev <~ d_kalloc;
  std <~ bochs_display_is_qemu_stdvga addr;
  mm <~ (if std : bool
         then bar <~ pci_read_bar pci_host addr 2; base <~ mlift (map_mmio_region bar 4096); mret (Some base)
         else mret None);
  vram <~ pci_read_bar pci_host addr 0;
  let d := match mm with Some base => Bochs (base + BOCHS_DISPLAY_MMIO_OFFSET) base vram | None => Bochs 0 0 vram end in
  vbe_read d VBE_DISPI_INDEX_ID ;>
  pci_read_bar_size pci_host addr 0 ;>
  mret (dev, d).
End bochs_init.

(** ["bochs-display"] for three adapters. *)
Definition bochs_display_pci_driver : PCIDriver := PciDriver (literal "bochs-display") (Some [(0x1234, 0x1111); (0x80ee, 0xbeef); (0x1b36, 0x0100); (0, 0)]) 0.

Definition bochs_display_init {A H} `{Machine H} (pci_host : PciHost (driver A pci_vars H)) (call_init : Z -> Z -> hw (driver A pci_vars H) unit)
    (drv : Z) : hw (driver A pci_vars H) unit := pci_register_driver pci_host call_init drv bochs_display_pci_driver.

(** ** The clock *)

(** The registers of a clock that does not advance while it is read: [cmos_at] has
    their values. *)
Class Cmos (H : Type) `{Machine H} := {
  cmos_at : H -> Z -> Z;
  cmos_byte h r : is_u8 (cmos_at h r);
  cmos_law r h : 0 <= r < 128 -> exists h', io_in 1 0x71 (io_out 1 0x70 r h) = (cmos_at h r, h') /\ cmos_at h' = cmos_at h
}.

Definition bcd (v : Z) : Z := 16 * (v / 10) + v mod 10.

Lemma digits_bcd v : 0 <= v < 100 -> digits (bcd v) = v /\ Z.shiftr (bcd v) 4 * 10 + Z.land (bcd v) 0xf = v.
Proof.
  intros Hv. assert (Hall : forallb (fun v => digits (bcd v) =? v) (seqZ 0 100) = true) by (by vm_compute). rewrite forallb_forall in Hall.
  assert (E : digits (bcd v) = v) by (apply Z.eqb_eq, Hall, list_elem_of_In, elem_of_seqZ; lia). by split.
Qed.

(** The clock shows a date. *)
Record shows {H} `{Cmos H} (h : H) (t : KernelTime) : Prop := {
  sh_year : 2000 <= year t < 2100 /\ cmos_at h RTC_REG_YEAR = bcd (year t - 2000);
  sh_month : 0 <= month t < 100 /\ cmos_at h RTC_REG_MONTH = bcd (month t);
  sh_day_of_week : 0 <= day_of_week t < 100 /\ cmos_at h RTC_REG_DAY_OF_WEEK = bcd (day_of_week t);
  sh_day_of_month : 0 <= day_of_month t < 100 /\ cmos_at h RTC_REG_DAY_OF_MONTH = bcd (day_of_month t);
  sh_hour : 0 <= hour t < 100 /\ cmos_at h RTC_REG_HOUR = bcd (hour t);
  sh_minute : 0 <= minute t < 100 /\ cmos_at h RTC_REG_MINUTE = bcd (minute t);
  sh_second : 0 <= second t < 100 /\ cmos_at h RTC_REG_SECOND = bcd (second t)
}.

Section clock.
Context {H : Type} `{Cmos H}.

Lemma cmos_read_ok r (h : H) : 0 <= r < 128 -> exists h', cmos_read r h = Ret (cmos_at h r, h') /\ cmos_at h' = cmos_at h.
Proof.
  intros Hr. destruct (cmos_law r h Hr) as (h' & E & Hs). exists h'. split; [|done]. unfold cmos_read, mbind, Machine.outb, inb, modify, mret. cbn [obind fst snd].
  assert (Er : u8 r = r) by (unfold u8; apply Z.mod_small; lia). assert (Ev : u8 (cmos_at h r) = cmos_at h r) by (apply Z.mod_small, cmos_byte).
  rewrite Er, E. cbn [obind fst snd]. by rewrite Ev.
Qed.

Lemma digits_read r v (h : H) : 0 <= r < 128 -> 0 <= v < 100 -> cmos_at h r = bcd v -> exists h', (x <~ cmos_read r; mret (digits x)) h = Ret (v, h') /\ cmos_at h' = cmos_at h.
Proof.
  intros Hr Hv Hc. destruct (cmos_read_ok r h Hr) as (h' & E & Hs). exists h'. split; [|done]. rewrite (mbind_run _ _ _ _ _ E), Hc. by rewrite (proj1 (digits_bcd v Hv)).
Qed.

Lemma year_read y (h : H) : 2000 <= y < 2100 -> cmos_at h RTC_REG_YEAR = bcd (y - 2000) -> exists h', rtc_get_year h = Ret (y, h') /\ cmos_at h' = cmos_at h.
Proof.
  intros Hy Hc. destruct (cmos_read_ok RTC_REG_YEAR h ltac:(done)) as (h' & E & Hs). exists h'. split; [|done]. unfold rtc_get_year. rewrite (mbind_run _ _ _ _ _ E), Hc.
  rewrite <- Z.add_assoc, (proj2 (digits_bcd (y - 2000) ltac:(lia))). unfold mret. do 2 f_equal. lia.
Qed.

Lemma rtc_time_ok (h : H) t : shows h t -> exists h', rtc_time h = Ret (t, h') /\ cmos_at h' = cmos_at h.
Proof.
  intros [[B1 R1] [B2 R2] [B3 R3] [B4 R4] [B5 R5] [B6 R6] [B7 R7]]. unfold rtc_time.
  destruct (year_read _ h B1 R1) as (h1 & E1 & S1). rewrite (mbind_run _ _ _ _ _ E1).
  destruct (digits_read RTC_REG_MONTH _ h1 ltac:(done) B2 ltac:(congruence)) as (h2 & E2 & S2). rewrite (mbind_run _ _ _ _ _ E2).
  destruct (digits_read RTC_REG_DAY_OF_WEEK _ h2 ltac:(done) B3 ltac:(congruence)) as (h3 & E3 & S3). rewrite (mbind_run _ _ _ _ _ E3).
  destruct (digits_read RTC_REG_DAY_OF_MONTH _ h3 ltac:(done) B4 ltac:(congruence)) as (h4 & E4 & S4). rewrite (mbind_run _ _ _ _ _ E4).
  destruct (digits_read RTC_REG_HOUR _ h4 ltac:(done) B5 ltac:(congruence)) as (h5 & E5 & S5). rewrite (mbind_run _ _ _ _ _ E5).
  destruct (digits_read RTC_REG_MINUTE _ h5 ltac:(done) B6 ltac:(congruence)) as (h6 & E6 & S6). rewrite (mbind_run _ _ _ _ _ E6).
  destruct (digits_read RTC_REG_SECOND _ h6 ltac:(done) B7 ltac:(congruence)) as (h7 & E7 & S7). rewrite (mbind_run _ _ _ _ _ E7).
  exists h7. split; [by destruct t|congruence].
Qed.
End clock.

(** The date of the clock arrives in the structure of the caller, and nothing else of its
    memory changes. *)
Lemma date_reported {A P S K H} `{PageAllocator A} `{FilesystemDriver P S} `{Cmos H} sh um (s : system A P S K) cur p addr (h : H) t :
  shows h t -> zget (procs (sk s)) cur = Some p -> aspace (umem s) sh (p_pgdir p) um -> user_writable um addr 28 ->
  exists s' h', date_kcall_handler cur addr s h = Ret ((0, s'), h') /\ user_bytes (umem s') um addr (time_bytes t) /\ user_changed (umem s) (umem s') um addr 28.
Proof.
  intros Hs Hp Has Hw. destruct (rtc_time_ok h t Hs) as (h' & E & _). unfold date_kcall_handler. rewrite (mbind_run _ _ _ _ _ E).
  assert (Hl : zlen (time_bytes t) = 28) by done. destruct (vwrite_user sh (p_pgdir p) um (time_bytes t) (umem s) addr Has) as (f & Ef & _ & Hb & Hc); [by rewrite Hl|].
  rewrite (mbind_run _ _ _ (with_umem s f) h') by (unfold mlift, user_store, me, get_proc; rewrite Hp; cbn [of_option obind]; by rewrite Ef).
  exists (with_umem s f), h'. split; [done|]. split; [exact Hb|]. by rewrite <- Hl.
Qed.

(** ** The old controllers *)

(** A controller after the first byte of a set-up expects two or three more on its other
    port; afterwards that port has the mask, which the first byte clears. *)
Record i8259 := Pic { pic_expects : nat; pic_icw4 : bool; pic_mask : Z }.

Definition pic_command (v : Z) (p : i8259) : i8259 := if Z.testbit v 4 then Pic (if Z.testbit v 0 then 3 else 2) false 0 else p.
Definition pic_data (v : Z) (p : i8259) : i8259 :=
  match pic_expects p with
  | O => Pic 0 (pic_icw4 p) v
  | Datatypes.S n => Pic n (pic_icw4 p || (n =? 0)%nat) (pic_mask p)
  end.

#[local] Instance two_pics : Machine (i8259 * i8259) := {
  io_in w p h := (0, h);
  io_out w p v h :=
    if p =? IO_PIC1 then (pic_command v h.1, h.2) else if p =? IO_PIC1 + 1 then (pic_data v h.1, h.2)
    else if p =? IO_PIC2 then (h.1, pic_command v h.2) else if p =? IO_PIC2 + 1 then (h.1, pic_data v h.2) else h;
  mm_load w a h := (0, h); mm_store w a v h := h; ram_get a n h := repeat 0 (Z.to_nat n); ram_put b l h := h
}.

(** The second controller does not get its last byte, which goes to the first one a second time and
    is its mask: all lines but one are open. *)
Lemma picinit_incomplete p1 p2 : pic_expects p1 = O -> pic_expects p2 = O -> picinit (p1, p2) = Ret (tt, (Pic 0 true 1, Pic 1 false 0)).
Proof. destruct p1 as [e1 i1 m1], p2 as [e2 i2 m2]. cbn [pic_expects]. intros -> ->. by vm_compute. Qed.

(** ** The tables *)

Section tables.
Context {H : Type} `{RamLaws H}.

Lemma mem_get_run a n (h : H) : mem_get a n h = Ret (ram_get a n h, h).
Proof. done. Qed.

Lemma rsdp_search_ok n : forall k p (h : H), (k < n)%nat -> ram_get (p + 16 * Z.of_nat k) 8 h = RSDP_SIGNATURE ->
  (forall j, (j < k)%nat -> ram_get (p + 16 * Z.of_nat j) 8 h <> RSDP_SIGNATURE) -> rsdp_search n p h = Ret (p + 16 * Z.of_nat k, h).
Proof.
  induction n as [|n IH]; intros k p h Hk Hm Hj; [lia|]. cbn [rsdp_search]. rewrite (mbind_run _ _ _ _ _ (mem_get_run p 8 h)). destruct k as [|k].
  - rewrite Z.mul_0_r, Z.add_0_r in *. by rewrite bool_decide_true.
  - pose proof (Hj 0%nat ltac:(lia)) as H0'. rewrite Z.mul_0_r, Z.add_0_r in H0'. rewrite bool_decide_false by done. rewrite (IH k).
    + do 2 f_equal. lia.
    + lia.
    + by replace (p + 16 + 16 * Z.of_nat k) with (p + 16 * Z.of_nat (Datatypes.S k)) by lia.
    + intros j Hlt. replace (p + 16 + 16 * Z.of_nat j) with (p + 16 * Z.of_nat (Datatypes.S j)) by lia. apply Hj. lia.
Qed.

(** A table at a physical address. *)
Definition table_at (h : H) (a : Z) : list Z * Z * Z := (ram_get (P2V a) 4 h, a, le_val (ram_get (P2V a + 4) 4 h)).

Lemma rsdt_tables_ok addrs : forall entry (h : H), Forall is_u32 addrs -> (forall i a, addrs !! i = Some a -> ram_get (entry + 4 * Z.of_nat i) 4 h = le_bytes 4 a) ->
  rsdt_tables (length addrs) entry h = Ret (map (table_at h) addrs, h).
Proof.
  induction addrs as [|a addrs IH]; intros entry h Hu Ha; [done|]. apply Forall_cons in Hu as [Hua Hu]. cbn [length rsdt_tables].
  pose proof (Ha 0%nat a eq_refl) as H0'. rewrite Z.mul_0_r, Z.add_0_r in H0'. rewrite (mbind_run _ _ _ _ _ (mem_get_run entry 4 h)), H0', le_val_bytes by done.
  rewrite (mbind_run _ _ _ _ _ (mem_get_run _ 4 h)), (mbind_run _ _ _ _ _ (mem_get_run _ 4 h)).
  rewrite (mbind_run _ _ _ (map (table_at h) addrs) h); [by rewrite V2P_P2V by done|]. apply IH; [done|]. intros i b Hi.
  replace (entry + 4 + 4 * Z.of_nat i) with (entry + 4 * Z.of_nat (Datatypes.S i)) by lia. by apply Ha.
Qed.

(** The tables of the RSDT are listed in order. *)
Lemma acpi_init_ok (h : H) k rsdt addrs : (k < 8192)%nat -> let rsdp := P2V 0xe0000 + 16 * Z.of_nat k in
  ram_get rsdp 8 h = RSDP_SIGNATURE -> (forall j, (j < k)%nat -> ram_get (P2V 0xe0000 + 16 * Z.of_nat j) 8 h <> RSDP_SIGNATURE) ->
  ram_get (rsdp + 16) 4 h = le_bytes 4 rsdt -> is_u32 rsdt -> zlen addrs <= 64 -> le_val (ram_get (P2V rsdt + 4) 4 h) = 36 + 4 * zlen addrs -> Forall is_u32 addrs ->
  (forall i a, addrs !! i = Some a -> ram_get (P2V rsdt + 36 + 4 * Z.of_nat i) 4 h = le_bytes 4 a) ->
  acpi_init h = Ret (Some (map (table_at h) addrs), h).
Proof.
  intros Hk rsdp Hs Hj Hr Hu Hn Hl Ha He. unfold acpi_init. rewrite (mbind_run _ _ _ _ _ (rsdp_search_ok 8192 k (P2V 0xe0000) h Hk Hs Hj)). fold rsdp.
  destruct (Z.eqb_spec rsdp 0) as [E0|]; [change (P2V 0xe0000) with 0x800e0000 in *; unfold rsdp in E0; lia|].
  rewrite (mbind_run _ _ _ _ _ (mem_get_run _ 4 h)), Hr, le_val_bytes by done. rewrite (mbind_run _ _ _ _ _ (mem_get_run _ 4 h)), Hl.
  pose proof (zlen_nonneg addrs). unfold sizeof_rsdt_header. replace (36 + 4 * zlen addrs - 36) with (zlen addrs * 4) by lia. rewrite u32_small by (unfold is_u32; lia). rewrite Z.div_mul by lia.
  replace (Z.to_nat (zlen addrs)) with (length addrs) by (unfold zlen; lia). by rewrite (mbind_run _ _ _ _ _ (rsdt_tables_ok addrs _ h Ha He)).
Qed.
End tables.

(** ** The adapter *)

(** The registers of an adapter that has them in memory at [mmio], and behind two ports. *)
Class Vbe (H : Type) `{Machine H} (mmio : Z) := {
  vbe_reg : H -> Z -> Z;
  vbe_index : H -> Z;
  vbe_store r v h : 0 <= r < 10 -> forall x, vbe_reg (mm_store 2 (mmio + 2 * r) v h) x = if decide (x = r) then v else vbe_reg h x;
  vbe_port_index i h : let h' := io_out 2 VBE_DISPI_IOPORT_INDEX i h in vbe_index h' = i /\ vbe_reg h' = vbe_reg h;
  vbe_port_data v h : 0 <= vbe_index h < 10 -> forall x, vbe_reg (io_out 2 VBE_DISPI_IOPORT_DATA v h) x = if decide (x = vbe_index h) then v else vbe_reg h x
}.

Section adapter.
Context {H : Type} `{Vbe H mmio}.

Lemma vbe_write_ok dev r v (h : H) : bd_mmio dev = 0 \/ bd_mmio dev = mmio -> 0 <= r < 10 -> is_u16 v ->
  exists h', vbe_write dev r v h = Ret (tt, h') /\ forall x, vbe_reg h' x = if decide (x = r) then v else vbe_reg h x.
Proof.
  intros Hd Hr Hv. assert (Ev : u16 v = v) by (by apply Z.mod_small). assert (Er : u16 r = r) by (unfold u16; apply Z.mod_small; lia).
  unfold vbe_write. destruct (Z.eqb_spec (bd_mmio dev) 0) as [E|E].
  - destruct (vbe_port_index r h) as [I1 I2]. exists (io_out 2 VBE_DISPI_IOPORT_DATA v (io_out 2 VBE_DISPI_IOPORT_INDEX r h)). split.
    + unfold mbind, outw, modify. cbn [obind fst snd]. by rewrite Ev, Er.
    + intros x. rewrite vbe_port_data by (by rewrite I1). by rewrite I1, I2.
  - destruct Hd as [|Hd]; [done|]. rewrite Hd. exists (mm_store 2 (mmio + 2 * r) v h). split; [unfold store16, modify; by rewrite Ev|]. intros x. by apply vbe_store.
Qed.

(** Whichever way its registers are reached, the adapter gets the mode asked for. *)
Lemma bochs_mode_set dev xres yres (h : H) : bd_mmio dev = 0 \/ bd_mmio dev = mmio -> is_u16 xres -> is_u16 yres ->
  exists h', bochs_display_enable dev xres yres h = Ret (bd_vram dev, h') /\
    vbe_reg h' VBE_DISPI_INDEX_XRES = xres /\ vbe_reg h' VBE_DISPI_INDEX_YRES = yres /\ vbe_reg h' VBE_DISPI_INDEX_BPP = 32 /\ vbe_reg h' VBE_DISPI_INDEX_ENABLE = 0x41.
Proof.
  intros Hd Hx Hy. unfold bochs_display_enable.
  destruct (vbe_write_ok dev VBE_DISPI_INDEX_XRES xres h Hd ltac:(done) Hx) as (h1 & E1 & R1). rewrite (mbind_run _ _ _ _ _ E1).
  destruct (vbe_write_ok dev VBE_DISPI_INDEX_YRES yres h1 Hd ltac:(done) Hy) as (h2 & E2 & R2). rewrite (mbind_run _ _ _ _ _ E2).
  destruct (vbe_write_ok dev VBE_DISPI_INDEX_BPP 32 h2 Hd ltac:(done) ltac:(done)) as (h3 & E3 & R3). rewrite (mbind_run _ _ _ _ _ E3).
  destruct (vbe_write_ok dev VBE_DISPI_INDEX_ENABLE 0x41 h3 Hd ltac:(done) ltac:(done)) as (h4 & E4 & R4).
  change (Z.lor VBE_DISPI_ENABLED VBE_DISPI_VBE_ENABLED) with 0x41. rewrite (mbind_run _ _ _ _ _ E4). exists h4. split; [done|].
  rewrite !R4, !R3, !R2, !R1. done.
Qed.
End adapter.

Lemma mmio_bytes_ok {H} `{Machine H} n : forall a (h : H), exists bs h', mmio_bytes a n h = Ret (bs, h') /\ length bs = n /\ bytes_ok bs.
Proof.
  induction n as [|n IH]; intros a h; [exists [], h; split; [done|]; split; [done|apply Forall_nil_2]|]. cbn [mmio_bytes]. unfold mbind at 1, load8. cbn [obind]. destruct (mm_load 1 a h) as [v h1]. cbn [fst snd].
  destruct (IH (a + 1) h1) as (bs & h2 & E & Hl & Hb). rewrite (mbind_run _ _ _ _ _ E). eexists _, h2. split; [done|]. split; [cbn; lia|].
  apply Forall_cons. split; [unfold is_u8, u8; apply Z.mod_pos_bound; lia|done].
Qed.

(** The adapter is a driver as the display layer relies on, once its structure is
    there. *)
#[export, refine] Instance bochs_display_laws {H} `{Machine H} : FramebufferLaws unit (bochs_hw H) := {
  drv_ready _ private w := is_Some (b_devs w !! private)
}.
Proof.
  intros d rd priv buf n w [dev Hd] [= <-] Hl Hb. unfold bochs_run. rewrite Hd. cbn [of_option obind]. unfold bochs_display_read_edid.
  destruct (bd_edid_blob dev =? 0); [by eexists _, _, _|]. destruct (0x400 <? n); [by eexists _, _, _|].
  destruct (mmio_bytes_ok (Z.to_nat n) (bd_edid_blob dev) (b_machine w)) as (bs & h' & E & Hbl & Hbs). rewrite (mbind_run _ _ _ _ _ E).
  pose proof (zlen_nonneg buf). assert (Hz : zlen bs = n) by (unfold zlen; lia).
  rewrite (mbind_run _ _ _ (splice 0 bs buf) h') by (unfold mlift; by rewrite copy_into_ok by lia). cbn [mret obind fst snd].
  eexists _, _, _. split; [reflexivity|]. split; [rewrite splice_length; lia|].
  rewrite splice_0_app. apply Forall_app. split; [done|]. by apply Forall_drop.
Defined.
