(* ===== verification/LibC.v ===== *)
(** library/libc: string and number routines, streams and program exit.

    Buffers are lists of bytes that start at the pointer the routine is given;
    reading behind the end of the list is a fault.  A routine that stores
    returns the bytes it stores, from its destination on.  A stream is a
    descriptor; the system calls below it are arguments: [fgets] works on the
    list of characters that [fgetc] is going to deliver, [fopen] on what [open]
    returns.  The formatted output of printf.c is the code of the kernel's
    console character for character and shares its definitions.

    The theorem: a number that [printf] prints is what [atoi] reads. *)

From stdpp Require Import base list strings.
From Stdlib Require Import ZArith Lia.
From S2P Require Import Prelude Vfs Console.

Local Open Scope Z_scope.
Local Open Scope outcome_scope.

(** ** string *)

(** The offset of a character in a string; the terminator is not found. *)
Fixpoint strchr (s : list Z) (c : Z) : outcome (option Z) :=
  match s with
  | [] => Fault
  | x :: s' =>
    if x =? 0 then Ret None else
    if x =? c then Ret (Some 0) else
    r <- strchr s' c ;; Ret (match r with Some i => Some (i + 1) | None => None end)
  end.

(** [char] is signed, [c] is an [int]. *)
Fixpoint memchr (s : list Z) (c : Z) (n : nat) : outcome (option Z) :=
  match n with
  | O => Ret None
  | S n' =>
    x <- of_option (head s) ;;
    if s8 x =? c then Ret (Some 0) else
    r <- memchr (tail s) c n' ;; Ret (match r with Some i => Some (i + 1) | None => None end)
  end.

Fixpoint memcmp (p q : list Z) (n : nat) : outcome Z :=
  match n with
  | O => Ret 0
  | S n' =>
    x <- of_option (head p) ;;
    y <- of_option (head q) ;;
    if s8 x =? s8 y then memcmp (tail p) (tail q) n' else Ret (s8 x - s8 y)
  end.

Fixpoint strlen (s : list Z) : outcome Z :=
  match s with
  | [] => Fault
  | x :: s' => if x =? 0 then Ret 0 else n <- strlen s' ;; Ret (n + 1)
  end.

Fixpoint strcmp (p q : list Z) : outcome Z :=
  x <- of_option (head p) ;;
  y <- of_option (head q) ;;
  match p with
  | _ :: p' => if negb (x =? 0) && (x =? y) then strcmp p' (tail q) else Ret (s8 x - s8 y)
  | [] => Fault
  end.

Fixpoint strncmp (p q : list Z) (n : nat) : outcome Z :=
  match n with
  | O => Ret 0
  | S n' =>
    x <- of_option (head p) ;;
    y <- of_option (head q) ;;
    if negb (x =? y) then Ret (s8 x - s8 y) else
    if x =? 0 then Ret 0 else strncmp (tail p) (tail q) n'
  end.

Fixpoint strcpy (t : list Z) : outcome (list Z) :=
  match t with
  | [] => Fault
  | x :: t' => if x =? 0 then Ret [0] else bs <- strcpy t' ;; Ret (x :: bs)
  end.

(** The end is tested after the source has been advanced. *)
Fixpoint strncpy (t : list Z) (n : nat) : outcome (list Z) :=
  match n with
  | O => Ret []
  | S n' =>
    x <- of_option (head t) ;;
    y <- of_option (head (tail t)) ;;
    if y =? 0 then Ret (x :: repeat 0 n') else
    bs <- strncpy (tail t) n' ;; Ret (x :: bs)
  end.

(** The contents of the destination [s] afterwards. *)
Definition strcat (s t : list Z) : outcome (list Z) :=
  n <- strlen s ;; bs <- strcpy t ;; copy_into s n bs.

Definition strncat (s t : list Z) (n : nat) : outcome (list Z) :=
  k <- strlen s ;; bs <- strncpy t n ;; copy_into s k bs.

(** ** stdlib *)

(** The result of an addition of type [int] or [long long] of [w] bits; an
    overflow is undefined. *)
Definition in_width (w x : Z) : outcome Z :=
  if (- 2 ^ (w - 1) <=? x) && (x <? 2 ^ (w - 1)) then Ret x else Fault.

(** The loop of [atoi], [atol] and [atoll]. *)
Fixpoint ato_loop (w : Z) (s : list Z) (n : Z) (neg : bool) : outcome (Z * bool) :=
  match s with
  | [] => Fault
  | c :: s' =>
    if c =? 0 then Ret (n, neg) else
    if (48 <=? s8 c) && (s8 c <=? 57) then n' <- in_width w (n * 10 + (s8 c - 48)) ;; ato_loop w s' n' neg
    else if c =? 45 then ato_loop w s' n true
    else if c =? 43 then ato_loop w s' n false
    else ato_loop w s' n neg
  end.

Definition ato (w : Z) (s : list Z) : outcome Z :=
  '(n, neg) <- ato_loop w s 0 false ;; Ret (if neg then - n else n).

Definition atoi (s : list Z) : outcome Z := ato 32 s.
Definition atol (s : list Z) : outcome Z := ato 32 s.
Definition atoll (s : list Z) : outcome Z := ato 64 s.

(** The absolute value of the least number is undefined. *)
Definition abs (j : Z) : outcome Z := if 0 <? j then Ret j else in_width 32 (- j).
Definition llabs (j : Z) : outcome Z := if 0 <? j then Ret j else in_width 64 (- j).

(** The functions registered with [atexit], of type [F], and the index of the last. *)
Record exit_table (F : Type) := ExitTable { atexit_funcs : list (option F); atexit_count : Z }.
Arguments ExitTable {F}.
Arguments atexit_funcs {F}.
Arguments atexit_count {F}.

Definition ATEXIT_MAX : Z := 32.

Section exit.
Context {F : Type}.

Definition no_functions : exit_table F := ExitTable (repeat None 32) (-1).

Definition atexit (f : F) (t : exit_table F) : outcome (Z * exit_table F) :=
  if ATEXIT_MAX - 1 <=? atexit_count t then Ret (-1, t) else
  let c := atexit_count t + 1 in
  fs <- of_option (zset (atexit_funcs t) c (Some f)) ;;
  Ret (0, ExitTable fs c).

(** The functions [exit] calls, in order; [n] is above the count. *)
Fixpoint exit_calls (n : nat) (t : exit_table F) : outcome (list F) :=
  match n with
  | O => Ret []
  | S n' =>
    f <- of_option (zget (atexit_funcs t) (Z.of_nat n')) ;;
    f <- of_option f ;;
    fs <- exit_calls n' t ;; Ret (f :: fs)
  end.

Definition exit (t : exit_table F) : outcome (list F) := exit_calls (Z.to_nat (atexit_count t + 1)) t.
End exit.

(** ** stdio *)

Definition EOF : Z := -1.

(** The mode string of [fopen]; [None] when it is refused. *)
Definition fopen_mode (mode : list Z) : outcome (option Z) :=
  let at_ i := of_option (zget mode i) in
  let is_ c x := c =? x in
  m0 <- at_ 0 ;;
  if is_ m0 119 then
    m1 <- at_ 1 ;;
    if is_ m1 120 then Ret (Some (Z.lor O_WRITE O_CREATE))
    else if is_ m1 98 then
      m2 <- at_ 2 ;;
      if is_ m2 120 then Ret (Some (Z.lor O_WRITE O_CREATE))
      else if is_ m2 43 then
        m3 <- at_ 3 ;;
        Ret (Some (if is_ m3 120 then Z.lor (Z.lor O_WRITE O_READ) O_CREATE
                   else Z.lor (Z.lor (Z.lor O_WRITE O_READ) O_CREATE) O_TRUNC))
      else Ret (Some (Z.lor (Z.lor O_WRITE O_CREATE) O_TRUNC))
    else if is_ m1 43 then
      m2 <- at_ 2 ;;
      if is_ m2 120 then Ret (Some (Z.lor (Z.lor O_WRITE O_READ) O_CREATE))
      else if is_ m2 98 then
        m3 <- at_ 3 ;;
        Ret (Some (if is_ m3 120 then Z.lor (Z.lor O_WRITE O_READ) O_CREATE
                   else Z.lor (Z.lor (Z.lor O_WRITE O_READ) O_CREATE) O_TRUNC))
      else Ret (Some (Z.lor (Z.lor (Z.lor O_WRITE O_READ) O_CREATE) O_TRUNC))
    else Ret (Some (Z.lor (Z.lor O_WRITE O_CREATE) O_TRUNC))
  else if is_ m0 114 then
    m1 <- at_ 1 ;;
    if is_ m1 98 then m2 <- at_ 2 ;; Ret (Some (if is_ m2 43 then Z.lor O_READ O_WRITE else O_READ))
    else Ret (Some (if is_ m1 43 then Z.lor O_READ O_WRITE else O_READ))
  else if is_ m0 97 then
    m1 <- at_ 1 ;;
    if is_ m1 98 then
      m2 <- at_ 2 ;;
      Ret (Some (if is_ m2 43 then Z.lor (Z.lor (Z.lor O_WRITE O_READ) O_APPEND) O_CREATE
                 else Z.lor (Z.lor O_WRITE O_APPEND) O_CREATE))
    else Ret (Some (if is_ m1 43 then Z.lor (Z.lor (Z.lor O_WRITE O_READ) O_APPEND) O_CREATE
                    else Z.lor (Z.lor O_WRITE O_APPEND) O_CREATE))
  else Ret None.

(** The descriptor of the new stream, or [None] and the new [errno]. *)
Definition fopen (open : list Z -> Z -> Z) (filename mode : list Z) : outcome (option Z * option Z) :=
  m <- fopen_mode mode ;;
  match m with
  | None => Ret (None, None)
  | Some omode =>
    let fd := open filename omode in
    Ret (if fd <? 0 then (None, Some fd) else (Some fd, None))
  end.

(** [input] is what [fgetc] is going to return, [EOF] when it is used up.  The
    bytes stored, whether the result is not null, and the rest of the input. *)
Fixpoint fgets_loop (n : nat) (input : list Z) : list Z * bool * list Z :=
  match n with
  | O => ([], true, input)
  | S n' =>
    match input with
    | [] => ([0], false, [])
    | c :: input' =>
      if c =? 10 then ([c; 0], true, input') else
      if c =? EOF then ([0], false, input') else
      let '(bs, ok, rest) := fgets_loop n' input' in (c :: bs, ok, rest)
    end
  end.

(** [while (--n)], for a positive [n]. *)
Definition fgets (n : Z) (input : list Z) : list Z * bool * list Z := fgets_loop (Z.to_nat (n - 1)) input.

(** What [printf] writes. *)
Definition printf (fmt : list Z) (args : list vararg) : outcome (list Z) := format fmt FPlain args.

(** ** Reading what was printed *)

Definition decimal (c : Z) : Prop := 48 <= c <= 57.

Lemma digit_loop_decimal cpt room : forall x ds, digit_loop room x 10 cpt = Ret ds -> Forall decimal ds.
Proof.
  induction room as [|room IH]; intros x ds E; [done|]. cbn [digit_loop] in E.
  pose proof (Z.mod_pos_bound x 10 ltac:(lia)) as Hm.
  destruct (zget (digits cpt) (x mod 10)) as [d|] eqn:Ed; [|done]. cbn [of_option obind] in E.
  assert (Hd : decimal d).
  { apply zget_lookup in Ed as [_ Ed]. unfold digits in Ed. rewrite lookup_app_l in Ed by (cbn; lia).
    assert (Hl : Forall decimal [48; 49; 50; 51; 52; 53; 54; 55; 56; 57]) by (repeat constructor; unfold decimal; lia).
    exact (proj1 (Forall_lookup _ _) Hl _ _ Ed). }
  destruct (x / 10 =? 0); [injection E as <-; by constructor|].
  destruct (digit_loop room (x / 10) 10 cpt) as [ds'| | |] eqn:E'; [|done..]. injection E as <-. constructor; [done|by eapply IH].
Qed.

Lemma read_number_grows cs : Forall decimal cs -> forall n, 0 <= n ->
  n <= fold_left (fun acc c => acc * 10 + digit_value c) cs n.
Proof.
  induction 1 as [|c cs Hc _ IH]; intros n Hn; [done|]. cbn [fold_left].
  assert (Hv : 0 <= digit_value c) by (unfold digit_value, decimal in *; destruct (Z.ltb_spec c 65); lia).
  specialize (IH (n * 10 + digit_value c) ltac:(lia)). lia.
Qed.

(** On digits, the loop computes the number as long as it fits. *)
Lemma ato_loop_digits w cs rest : Forall decimal cs -> forall n, 0 <= n ->
  fold_left (fun acc c => acc * 10 + digit_value c) cs n < 2 ^ (w - 1) ->
  ato_loop w (cs ++ 0 :: rest) n false = Ret (fold_left (fun acc c => acc * 10 + digit_value c) cs n, false).
Proof.
  induction 1 as [|c cs Hc Hcs IH]; intros n Hn Hb; [done|]. cbn [fold_left app ato_loop] in *. unfold decimal in Hc.
  destruct (Z.eqb_spec c 0); [lia|]. assert (Hs : s8 c = c) by (unfold s8, u8; rewrite Z.mod_small by lia; destruct (Z.ltb_spec c (2 ^ 7)); lia).
  rewrite Hs. assert (Hv : digit_value c = c - 48) by (unfold digit_value; destruct (Z.ltb_spec c 65); lia).
  destruct (Z.leb_spec 48 c); [|lia]. destruct (Z.leb_spec c 57); [|lia]. cbn [andb]. rewrite Hv in *.
  pose proof (read_number_grows cs Hcs (n * 10 + (c - 48)) ltac:(lia)). unfold in_width.
  destruct (Z.leb_spec (- 2 ^ (w - 1)) (n * 10 + (c - 48))); [|lia]. destruct (Z.ltb_spec (n * 10 + (c - 48)) (2 ^ (w - 1))); [|lia].
  cbn [andb obind]. apply IH; [lia|done].
Qed.

(** [atoi] reads back what [printf] prints: for every number an [int] can hold
    that is not negative, [%d] and [%u] print decimal digits, from which [atoi]
    computes the number again. *)
Theorem atoi_printf n : 0 <= n < 2 ^ 31 -> exists cs,
  printf [37; 100; 0] [VWord n] = Ret cs /\ printf [37; 117; 0] [VWord n] = Ret cs /\ Forall decimal cs /\ atoi (cs ++ [0]) = Ret n.
Proof.
  intros Hn. assert (Hp : exists cs, (forall sgn, printint n 10 sgn false = Ret cs) /\ Forall decimal cs /\ read_number 10 cs = n).
  { destruct (digit_loop_ok false 10 ltac:(lia) 64 n) as (ds & E & Hv & _); [change (Z.of_nat 64) with 64; lia|lia|].
    exists (rev ds). split; [|split].
    - intros sgn. unfold printint. destruct (Z.ltb_spec n 0); [lia|]. rewrite Bool.andb_false_r, E. done.
    - apply Forall_rev. by eapply digit_loop_decimal.
    - unfold read_number. by rewrite <- fold_left_rev_right, rev_involutive. }
  destruct Hp as (cs & Hp & Hd & Hv). exists cs.
  assert (Hu : u64 (s32 n) = n /\ u32 n = n).
  { rewrite s32_small by lia. split; [unfold u64; apply Z.mod_small; lia|apply u32_small; unfold is_u32; lia]. }
  destruct Hu as [Hu1 Hu2].
  split; [|split; [|split; [done|]]].
  - unfold printf. cbn -[printint]. unfold word_value. rewrite Hu1, Hp. cbn. by rewrite app_nil_r.
  - unfold printf. cbn -[printint]. unfold word_value. rewrite Hu2, Hp. cbn. by rewrite app_nil_r.
  - unfold atoi, ato. unfold read_number in Hv. rewrite ato_loop_digits by (done || lia). rewrite Hv. done.
Qed.

Lemma atoi_printf_witness : exists cs,
  printf [37; 100; 0] [VWord 1024] = Ret cs /\ printf [37; 117; 0] [VWord 1024] = Ret cs /\ Forall decimal cs /\ atoi (cs ++ [0]) = Ret 1024.
Proof. apply (atoi_printf 1024). lia. Defined.

(** [atoi] does not stop at the end of the number: "7-1" is minus seventy-one. *)
Lemma atoi_reads_on : atoi [55; 45; 49; 0] = Ret (-71).
Proof. reflexivity. Qed.

(** ** Strings *)

(** Copying the empty string looks behind its terminator. *)
Lemma strncpy_empty_overreads n : strncpy [0] (S n) = Fault.
Proof. reflexivity. Qed.

(** Whatever follows an empty string is copied with it. *)
Lemma strncpy_empty_copies_on c : c <> 0 -> strncpy [0; c; 0] 2 = Ret [0; c].
Proof. intros Hc. cbn. destruct (Z.eqb_spec c 0); done. Qed.

(** Characters from 128 on are not found. *)
Lemma memchr_misses_high c rest : 128 <= c < 256 -> memchr (c :: rest) c 1 = Ret None.
Proof.
  intros Hc. assert (Hs : s8 c = c - 256).
  { unfold s8, u8. rewrite Z.mod_small by lia. destruct (Z.ltb_spec c (2 ^ 7)); lia. }
  cbn [memchr head tail of_option obind]. rewrite Hs. destruct (Z.eqb_spec (c - 256) c); [lia|]. done.
Qed.

(** [fgets] leaves a line that fills the buffer without a terminator. *)
Lemma fgets_full cs rest : Forall (fun c => c <> 10 /\ c <> EOF) cs -> fgets (zlen cs + 1) (cs ++ rest) = (cs, true, rest).
Proof.
  intros H. unfold fgets. replace (Z.to_nat (zlen cs + 1 - 1)) with (length cs) by (unfold zlen; lia).
  induction H as [|c cs [H1 H2] _ IH]; [done|]. cbn [length app fgets_loop].
  destruct (Z.eqb_spec c 10); [done|]. destruct (Z.eqb_spec c EOF); [done|]. by rewrite IH.
Qed.

(** ** Program exit *)

Section exits.
Context {F : Type}.

Fixpoint register (fs : list F) (t : exit_table F) : outcome (exit_table F) :=
  match fs with
  | [] => Ret t
  | f :: fs' => '(r, t') <- atexit f t ;; if r <? 0 then Panic "atexit" else register fs' t'
  end.

(** A table with [fs] registered, the last first. *)
Definition registered (t : exit_table F) (fs : list F) : Prop :=
  atexit_count t = zlen fs - 1 /\ length (atexit_funcs t) = 32%nat /\
  forall i f, fs !! i = Some f -> atexit_funcs t !! (length fs - 1 - i)%nat = Some (Some f).

Lemma atexit_ok f t fs : registered t fs -> (length fs < 32)%nat ->
  exists t', atexit f t = Ret (0, t') /\ registered t' (f :: fs).
Proof.
  intros (Hc & Hl & Hf) Hn. unfold atexit, ATEXIT_MAX. rewrite Hc. unfold zlen.
  destruct (Z.leb_spec (32 - 1) (Z.of_nat (length fs) - 1)); [lia|].
  replace (Z.of_nat (length fs) - 1 + 1) with (Z.of_nat (length fs)) by lia.
  rewrite zset_Some by (unfold zlen; lia). cbn [of_option obind]. eexists. split; [done|]. split; [|split].
  - unfold zlen. cbn [atexit_count length]. lia.
  - cbn [atexit_funcs]. by rewrite length_insert.
  - intros i g Hi. cbn [atexit_funcs length]. rewrite Nat2Z.id. destruct i as [|i].
    + injection Hi as <-. replace (S (length fs) - 1 - 0)%nat with (length fs) by lia. apply list_lookup_insert_eq. lia.
    + cbn in Hi. pose proof (lookup_lt_Some _ _ _ Hi). rewrite list_lookup_insert_ne by lia.
      replace (S (length fs) - 1 - S i)%nat with (length fs - 1 - i)%nat by lia. by apply Hf.
Qed.

Lemma exit_calls_ok t fs : registered t fs -> forall n, (n <= length fs)%nat -> exit_calls n t = Ret (drop (length fs - n) fs).
Proof.
  intros (_ & _ & Hf) n. induction n as [|n IH]; intros Hn; [by rewrite Nat.sub_0_r, drop_all|]. cbn [exit_calls].
  destruct (lookup_lt_is_Some_2 fs (length fs - S n)%nat ltac:(lia)) as [f Ef]. pose proof (Hf _ _ Ef) as Hg.
  replace (length fs - 1 - (length fs - S n))%nat with n in Hg by lia.
  rewrite (proj2 (zget_lookup _ _ (Some f))) by (rewrite Nat2Z.id; split; [lia|done]). cbn [of_option obind].
  rewrite IH by lia. cbn [obind]. rewrite (drop_S _ _ _ Ef). by replace (S (length fs - S n)) with (length fs - n)%nat by lia.
Qed.

(** [exit] calls the functions registered with [atexit], up to thirty-two of
    them, in the reverse order of their registration. *)
Theorem exit_reverses fs : (length fs <= 32)%nat -> exists t, register fs no_functions = Ret t /\ exit t = Ret (rev fs).
Proof.
  intros Hn. assert (G : forall fs done t, registered t done -> (length fs + length done <= 32)%nat ->
    exists t', register fs t = Ret t' /\ registered t' (rev fs ++ done)).
  { clear. induction fs as [|f fs IH]; intros done t Ht Hl; [by exists t|]. cbn [register length] in *.
    destruct (atexit_ok f t done Ht) as (t' & -> & Ht'); [lia|]. cbn [obind]. change (0 <? 0) with false. cbn iota.
    destruct (IH _ _ Ht') as (t2 & E & H2); [cbn [length]; lia|]. exists t2. split; [done|]. cbn [rev]. by rewrite <- app_assoc. }
  destruct (G fs [] no_functions) as (t & E & Ht); [|cbn; lia|].
  { split; [done|]. split; [done|]. intros i f Hi. by rewrite lookup_nil in Hi. }
  rewrite app_nil_r in Ht. exists t. split; [done|]. unfold exit. destruct Ht as (Hc & Ht2). rewrite Hc.
  replace (Z.to_nat (zlen (rev fs) - 1 + 1)) with (length (rev fs)) by (unfold zlen; lia).
  rewrite (exit_calls_ok t (rev fs)); [by rewrite Nat.sub_diag|by split|done].
Qed.
End exits.
