(* ===== verification/Wm.v ===== *)
(** program/wm/wm.c, the window manager.

    The screen is a stack of sheets, linked from the bottom to the top; a window is
    a sheet with a title bar and a buffer of its own that is copied below the bar.
    Sheets, windows and pixel buffers are objects at addresses, the memory that
    malloc (which is sbrk) hands out and free never takes back; an access outside
    an object is a fault.  A pixel is the word of its COLOUR.  Clients and the
    window manager exchange messages, which are bytes; a turn of the main loop gets
    a message, a key and a mouse event and leaves its own messages in [outputs].

    The theorems: the pixels of the screen outside of the mouse cursor are those of
    the topmost sheet there, or the background, after any sequence of turns whose
    sheets stay on the screen; and a click reaches the bottommost sheet under the
    cursor. *)

From stdpp Require Import base list gmap strings.
From Stdlib Require Import ZArith Lia.
From S2P Require Import Prelude LibC.

Local Open Scope Z_scope.
Local Open Scope outcome_scope.

(** ** Data *)

Record Window := MkWindow { w_width : Z; w_height : Z; w_buffer : Z; title : list Z }.

Record Sheet := MkSheet {
  sh_x : Z;
  sh_y : Z;
  sh_width : Z;
  sh_height : Z;
  owner_pid : Z;
  sh_buffer : Z;
  sh_window : Z;
  sh_next : Z
}.

(** Bytes [b], [g], [r] and [x], which is zero. *)
Definition COLOUR (r g b : Z) : Z := le_val [u8 b; u8 g; u8 r; 0].

Definition light_blue : Z := COLOUR 40 200 255.
Definition dark_blue : Z := COLOUR 0 0 255.
Definition red : Z := COLOUR 255 0 0.
Definition gray : Z := COLOUR 200 200 200.
Definition white : Z := COLOUR 255 255 255.

Definition CURSOR_WIDTH : Z := 5.
Definition CURSOR_HEIGHT : Z := 5.

(** What the program asks the kernel for. *)
Inductive output := Send (pid : Z) (msg : list Z) | Update (id : Z).

Record wm := Wm {
  sheets : gmap Z Sheet;
  windows : gmap Z Window;
  bufs : gmap Z (list Z);
  brk : Z;
  fb : list Z;
  sheet_list : Z;
  cur_x : Z;
  cur_y : Z;
  win_moving : Z;
  prev_x : Z;
  prev_y : Z;
  prevbtn : Z;
  outputs : list output
}.

Definition set_sheets (f : gmap Z Sheet -> gmap Z Sheet) (s : wm) : wm :=
  Wm (f (sheets s)) (windows s) (bufs s) (brk s) (fb s) (sheet_list s) (cur_x s) (cur_y s) (win_moving s) (prev_x s) (prev_y s) (prevbtn s) (outputs s).
Definition set_windows (f : gmap Z Window -> gmap Z Window) (s : wm) : wm :=
  Wm (sheets s) (f (windows s)) (bufs s) (brk s) (fb s) (sheet_list s) (cur_x s) (cur_y s) (win_moving s) (prev_x s) (prev_y s) (prevbtn s) (outputs s).
Definition set_bufs (f : gmap Z (list Z) -> gmap Z (list Z)) (s : wm) : wm :=
  Wm (sheets s) (windows s) (f (bufs s)) (brk s) (fb s) (sheet_list s) (cur_x s) (cur_y s) (win_moving s) (prev_x s) (prev_y s) (prevbtn s) (outputs s).
Definition set_brk (b : Z) (s : wm) : wm :=
  Wm (sheets s) (windows s) (bufs s) b (fb s) (sheet_list s) (cur_x s) (cur_y s) (win_moving s) (prev_x s) (prev_y s) (prevbtn s) (outputs s).
Definition set_fb (b : list Z) (s : wm) : wm :=
  Wm (sheets s) (windows s) (bufs s) (brk s) b (sheet_list s) (cur_x s) (cur_y s) (win_moving s) (prev_x s) (prev_y s) (prevbtn s) (outputs s).
Definition set_list (p : Z) (s : wm) : wm :=
  Wm (sheets s) (windows s) (bufs s) (brk s) (fb s) p (cur_x s) (cur_y s) (win_moving s) (prev_x s) (prev_y s) (prevbtn s) (outputs s).
Definition set_cursor (x y : Z) (s : wm) : wm :=
  Wm (sheets s) (windows s) (bufs s) (brk s) (fb s) (sheet_list s) x y (win_moving s) (prev_x s) (prev_y s) (prevbtn s) (outputs s).
Definition set_moving (p x y : Z) (s : wm) : wm :=
  Wm (sheets s) (windows s) (bufs s) (brk s) (fb s) (sheet_list s) (cur_x s) (cur_y s) p x y (prevbtn s) (outputs s).
Definition set_prevbtn (b : Z) (s : wm) : wm :=
  Wm (sheets s) (windows s) (bufs s) (brk s) (fb s) (sheet_list s) (cur_x s) (cur_y s) (win_moving s) (prev_x s) (prev_y s) b (outputs s).
Definition emit (o : output) (s : wm) : wm :=
  Wm (sheets s) (windows s) (bufs s) (brk s) (fb s) (sheet_list s) (cur_x s) (cur_y s) (win_moving s) (prev_x s) (prev_y s) (prevbtn s) (outputs s ++ [o]).

Definition set_next (sh : Sheet) (n : Z) : Sheet :=
  MkSheet (sh_x sh) (sh_y sh) (sh_width sh) (sh_height sh) (owner_pid sh) (sh_buffer sh) (sh_window sh) n.
Definition set_pos (sh : Sheet) (x y : Z) : Sheet :=
  MkSheet x y (sh_width sh) (sh_height sh) (owner_pid sh) (sh_buffer sh) (sh_window sh) (sh_next sh).
Definition set_owner (sh : Sheet) (pid : Z) : Sheet :=
  MkSheet (sh_x sh) (sh_y sh) (sh_width sh) (sh_height sh) pid (sh_buffer sh) (sh_window sh) (sh_next sh).
Definition set_window (sh : Sheet) (w : Z) : Sheet :=
  MkSheet (sh_x sh) (sh_y sh) (sh_width sh) (sh_height sh) (owner_pid sh) (sh_buffer sh) w (sh_next sh).

Definition get_sheet (p : Z) (s : wm) : outcome Sheet := of_option (sheets s !! p).
Definition get_window (p : Z) (s : wm) : outcome Window := of_option (windows s !! p).
Definition get_buf (p : Z) (s : wm) : outcome (list Z) := of_option (bufs s !! p).
Definition put_sheet (p : Z) (sh : Sheet) : wm -> wm := set_sheets (<[p := sh]>).
Definition put_window (p : Z) (w : Window) : wm -> wm := set_windows (<[p := w]>).
Definition put_buf (p : Z) (b : list Z) : wm -> wm := set_bufs (<[p := b]>).

(** ** Pixels *)

Fixpoint fastmemcpy32 (n : nat) (dest : list Z) (doff : Z) (src : list Z) (soff : Z) : outcome (list Z) :=
  match n with
  | O => Ret dest
  | S n' => v <- of_option (zget src soff) ;; d <- of_option (zset dest doff v) ;; fastmemcpy32 n' d (doff + 1) src (soff + 1)
  end.

Fixpoint fastmemset32 (n : nat) (dest : list Z) (off val : Z) : outcome (list Z) :=
  match n with
  | O => Ret dest
  | S n' => d <- of_option (zset dest off val) ;; fastmemset32 n' d (off + 1) val
  end.

(** The rows of [wm_fill_buffer] and [wm_copy_buffer]. *)
Fixpoint fill_rows (n : nat) (buf : list Z) (x y w width colour : Z) : outcome (list Z) :=
  match n with
  | O => Ret buf
  | S n' => b <- fastmemset32 (Z.to_nat w) buf (y * width + x) colour ;; fill_rows n' b x (y + 1) w width colour
  end.

Definition wm_fill_buffer (buf : list Z) (x y w h width colour : Z) : outcome (list Z) := fill_rows (Z.to_nat h) buf x y w width colour.

Fixpoint copy_rows (n : nat) (dest : list Z) (dest_x dest_y dest_width : Z) (src : list Z) (src_x src_y src_width width : Z) : outcome (list Z) :=
  match n with
  | O => Ret dest
  | S n' =>
    d <- fastmemcpy32 (Z.to_nat width) dest (dest_y * dest_width + dest_x) src (src_y * src_width + src_x) ;;
    copy_rows n' d dest_x (dest_y + 1) dest_width src src_x (src_y + 1) src_width width
  end.

Definition wm_copy_buffer (dest : list Z) (dest_x dest_y dest_width : Z) (src : list Z) (src_x src_y src_width width height : Z) : outcome (list Z) :=
  copy_rows (Z.to_nat height) dest dest_x dest_y dest_width src src_x src_y src_width width.

Section window_manager.
(** The glyphs of font.c, the mode of the screen, where the heap has to end, and
    the parent process. *)
Variable font16 : list Z.
Variables xres yres : Z.
Variable heap_end : Z.
Variable need_update : bool.
Variable display_id : Z.
Variable ppid : Z.

(** Bits 0 to 7 of a row of a glyph are its pixels from the right. *)
Definition glyph_row (row : Z) (buf : list Z) (p colour : Z) : outcome (list Z) :=
  foldl (fun o k => b <- o ;; if Z.testbit row k then of_option (zset b (p + 7 - k) colour) else Ret b) (Ret buf) (seqZ 0 8).

Fixpoint char_rows (n : nat) (i c : Z) (buf : list Z) (x y width colour : Z) : outcome (list Z) :=
  match n with
  | O => Ret buf
  | S n' =>
    row <- of_option (zget font16 (c * 16 + i)) ;;
    b <- glyph_row row buf ((y + i) * width + x) colour ;;
    char_rows n' (i + 1) c b x y width colour
  end.

(** [c] is a signed character. *)
Definition wm_print_char (c : Z) (buf : list Z) (x y width colour : Z) : outcome (list Z) := char_rows 16 0 (s8 c) buf x y width colour.

(** The bytes of the string are read up to its end or a line feed. *)
Fixpoint wm_print_string (buf : list Z) (str : list Z) (x y width colour : Z) : outcome (list Z) :=
  match str with
  | [] => Fault
  | c :: str' =>
    if (c =? 0) || (c =? 10) then Ret buf
    else b <- wm_print_char c buf x y width colour ;; wm_print_string b str' (x + 8) y width colour
  end.

(** ** Sheets *)

(** [sbrk]: the old end of the heap, or [-1]; the size is an [int] for the kernel,
    and a negative one, which would give memory back, is taken for a fault. *)
Definition malloc (size : Z) (s : wm) : outcome (Z * wm) :=
  let n := s32 (u32 size) in
  if n <? 0 then Fault
  else if brk s + n <=? heap_end then Ret (brk s, set_brk (brk s + n) s) else Ret (2 ^ 32 - 1, s).

Definition MALLOC_FAILED : Z := 2 ^ 32 - 1.

(** A new object of type [Sheet] or [Window]: it is written to at once. *)
Definition malloc_object (size : Z) (s : wm) : outcome (Z * wm) :=
  '(p, s1) <- malloc size s ;; if p =? MALLOC_FAILED then Fault else Ret (p, s1).

(** [width * height] pixels, which are zero as all fresh memory. *)
Definition malloc_pixels (width height : Z) (s : wm) : outcome (Z * wm) :=
  let size := u32 (4 * width * height) in
  '(p, s1) <- malloc size s ;;
  Ret (p, if p =? MALLOC_FAILED then s1 else put_buf p (repeat 0 (Z.to_nat (size / 4))) s1).

Definition render_title (buf : list Z) (sh : Sheet) (w : Window) (title_colour : Z) : outcome (list Z) :=
  b1 <- wm_fill_buffer buf 0 0 (sh_width sh) 32 (sh_width sh) title_colour ;;
  b2 <- wm_print_string b1 (title w) 8 8 (sh_width sh) white ;;
  b3 <- wm_fill_buffer b2 (sh_width sh - 28) 4 24 24 (sh_width sh) red ;;
  wm_print_string b3 [88; 0] (sh_width sh - 20) 8 (sh_width sh) white.

Definition wm_render_window (p title_colour : Z) (s : wm) : outcome wm :=
  sh <- get_sheet p s ;;
  w <- get_window (sh_window sh) s ;;
  b <- get_buf (sh_buffer sh) s ;;
  b1 <- render_title b sh w title_colour ;;
  wb <- get_buf (w_buffer w) s ;;
  b2 <- wm_copy_buffer b1 0 32 (sh_width sh) wb 0 0 (w_width w) (w_width w) (w_height w) ;;
  Ret (put_buf (sh_buffer sh) b2 s).

(** The last sheet of the list from [p] on. *)
Fixpoint last_sheet (n : nat) (p : Z) (s : wm) : outcome Z :=
  sh <- get_sheet p s ;;
  if sh_next sh =? 0 then Ret p else match n with O => NoFuel | S n' => last_sheet n' (sh_next sh) s end.

Definition nsheets (s : wm) : nat := size (sheets s).

Definition link (p n : Z) (s : wm) : outcome wm := sh <- get_sheet p s ;; Ret (put_sheet p (set_next sh n) s).

Definition render_if_window (p title_colour : Z) (s : wm) : outcome wm :=
  sh <- get_sheet p s ;; if sh_window sh =? 0 then Ret s else wm_render_window p title_colour s.

Definition wm_create_sheet (x y width height : Z) (s : wm) : outcome (Z * wm) :=
  '(p, s1) <- malloc_object 32 s ;;
  '(b, s2) <- malloc_pixels width height s1 ;;
  let s3 := put_sheet p (MkSheet x y width height 0 b 0 0) s2 in
  if sheet_list s =? 0 then Ret (p, set_list p s3)
  else l <- last_sheet (nsheets s3) (sheet_list s3) s3 ;;
       s4 <- render_if_window l gray s3 ;;
       s5 <- link l p s4 ;;
       Ret (p, s5).

Definition wm_create_window (width height x y : Z) (s : wm) : outcome (Z * wm) :=
  '(p, s1) <- wm_create_sheet x y width (height + 32) s ;;
  '(w, s2) <- malloc_object 76 s1 ;;
  '(b, s3) <- malloc_pixels width height s2 ;;
  sh <- get_sheet p s3 ;;
  let s4 := put_window w (MkWindow width height b (repeat 0 64)) (put_sheet p (set_window sh w) s3) in
  wb <- get_buf b s4 ;;
  wb' <- wm_fill_buffer wb 0 0 width height width white ;;
  s5 <- wm_render_window p dark_blue (put_buf b wb' s4) ;;
  Ret (p, s5).

(** Rendering with the colour of the topmost window, or of the others. *)
Definition render_again (p : Z) (s : wm) : outcome wm :=
  sh <- get_sheet p s ;; wm_render_window p (if sh_next sh =? 0 then dark_blue else gray) s.

(** [strcpy] into the 64 bytes of the title. *)
Definition wm_window_set_title (p : Z) (new_title : list Z) (s : wm) : outcome wm :=
  sh <- get_sheet p s ;;
  w <- get_window (sh_window sh) s ;;
  bytes <- strcpy new_title ;;
  t <- copy_into (title w) 0 bytes ;;
  render_again p (put_window (sh_window sh) (MkWindow (w_width w) (w_height w) (w_buffer w) t) s).

Definition wm_draw_sheet (p : Z) (s : wm) : outcome wm :=
  sh <- get_sheet p s ;;
  b <- get_buf (sh_buffer sh) s ;;
  f <- wm_copy_buffer (fb s) (sh_x sh) (sh_y sh) xres b 0 0 (sh_width sh) (sh_width sh) (sh_height sh) ;;
  Ret (set_fb f s).

Fixpoint draw_from (n : nat) (p : Z) (s : wm) : outcome wm :=
  if p =? 0 then Ret s else
  match n with
  | O => NoFuel
  | S n' => s1 <- wm_draw_sheet p s ;; sh <- get_sheet p s1 ;; draw_from n' (sh_next sh) s1
  end.

(** All sheets, from the bottom to the top. *)
Definition draw_sheets (s : wm) : outcome wm := draw_from (nsheets s) (sheet_list s) s.

Definition fill_screen (x y w h colour : Z) (s : wm) : outcome wm :=
  f <- wm_fill_buffer (fb s) x y w h xres colour ;; Ret (set_fb f s).

(** The sheet whose successor is [target]; [None] at the end of the list. *)
Fixpoint find_prev (n : nat) (p target : Z) (s : wm) : outcome (option Z) :=
  sh <- get_sheet p s ;;
  if sh_next sh =? target then Ret (Some p)
  else if sh_next sh =? 0 then Ret None
  else match n with O => NoFuel | S n' => find_prev n' (sh_next sh) target s end.

(** Taking a sheet out of the list; [None] when it is not there. *)
Definition unlink (p : Z) (s : wm) : outcome (option wm) :=
  if p =? sheet_list s then sh <- get_sheet p s ;; Ret (Some (set_list (sh_next sh) s))
  else prev <- find_prev (nsheets s) (sheet_list s) p s ;;
       match prev with
       | None => Ret None
       | Some q => sh <- get_sheet p s ;; s1 <- link q (sh_next sh) s ;; Ret (Some s1)
       end.

Definition sheet_remove (to_remove : Z) (s : wm) : outcome wm :=
  sh <- get_sheet to_remove s ;;
  r <- unlink to_remove s ;;
  match r with
  | None => Ret s
  | Some s1 => s2 <- fill_screen (sh_x sh) (sh_y sh) (sh_width sh) (sh_height sh) light_blue s1 ;; draw_sheets s2
  end.

Definition window_close (to_remove : Z) (s : wm) : outcome wm :=
  sh <- get_sheet to_remove s ;; _ <- get_window (sh_window sh) s ;; sheet_remove to_remove s.

Definition window_move_top (to_move : Z) (s : wm) : outcome wm :=
  r <- unlink to_move s ;;
  match r with
  | None => Ret s
  | Some s1 =>
    l <- last_sheet (nsheets s1) (sheet_list s1) s1 ;;
    s2 <- render_if_window l gray s1 ;;
    s3 <- link l to_move s2 ;;
    s4 <- wm_render_window to_move dark_blue s3 ;;
    s5 <- link to_move 0 s4 ;;
    draw_sheets s5
  end.

(** ** Events *)

(** A message of words. *)
Definition words (ws : list Z) : list Z := ws ≫= (fun w => le_bytes 4 (u32 w)).

Definition WM_MESSAGE_RETURN_HANDLE : Z := 0.
Definition WM_MESSAGE_KEYBOARD_EVENT : Z := 1.
Definition WM_MESSAGE_MOUSE_BUTTON_EVENT : Z := 2.
Definition WM_MESSAGE_WINDOW_CLOSE_EVENT : Z := 3.

Definition send (pid : Z) (ws : list Z) : wm -> wm := emit (Send pid (words ws)).

Definition window_onclick (p btn : Z) (s : wm) : outcome wm :=
  sh <- get_sheet p s ;;
  if Z.testbit btn 0 && (cur_y s <? sh_y sh + 32) && (win_moving s =? 0) then
    if (sh_x sh + sh_width sh - 28 <=? cur_x s) && (cur_x s <? sh_x sh + sh_width sh - 4) && (sh_y sh + 4 <=? cur_y s) && (cur_y s <? sh_y sh + 28)
    then Ret (if owner_pid sh =? 0 then s else send (owner_pid sh) [WM_MESSAGE_WINDOW_CLOSE_EVENT; p] s)
    else let s1 := set_moving p (u32 (cur_x s - sh_x sh)) (u32 (cur_y s - sh_y sh)) s in
         if sh_next sh =? 0 then Ret s1 else window_move_top p s1
  else Ret (if negb (win_moving s =? 0) && negb (Z.testbit btn 0) then set_moving 0 (prev_x s) (prev_y s) s else s).

Definition mouse_cursor_event (s : wm) : outcome wm :=
  if win_moving s =? 0 then Ret s else
  sh <- get_sheet (win_moving s) s ;;
  if cur_y s <? sh_y sh + 32 then
    s1 <- fill_screen (sh_x sh) (sh_y sh) (sh_width sh) (sh_height sh) light_blue s ;;
    draw_sheets (put_sheet (win_moving s) (set_pos sh (s32 (cur_x s - prev_x s)) (s32 (cur_y s - prev_y s))) s1)
  else Ret s.

Definition under_cursor (s : wm) (sh : Sheet) : bool :=
  (sh_x sh <=? cur_x s) && (cur_x s <? sh_x sh + sh_width sh) && (sh_y sh <=? cur_y s) && (cur_y s <? sh_y sh + sh_height sh).

(** The first sheet of the list under the cursor, or [0]. *)
Fixpoint find_hit (n : nat) (p : Z) (s : wm) : outcome Z :=
  if p =? 0 then Ret 0 else
  sh <- get_sheet p s ;;
  if under_cursor s sh then Ret p else match n with O => NoFuel | S n' => find_hit n' (sh_next sh) s end.

Definition mouse_button_event (btn : Z) (s : wm) : outcome wm :=
  p <- find_hit (nsheets s) (sheet_list s) s ;;
  if p =? 0 then Ret s else
  sh <- get_sheet p s ;;
  s1 <- (if sh_window sh =? 0 then Ret s else window_onclick p btn s) ;;
  let event y := send (owner_pid sh) [WM_MESSAGE_MOUSE_BUTTON_EVENT; p; cur_x s1 - sh_x sh; y; btn] s1 in
  if sh_window sh =? 0 then Ret (event (cur_y s1 - sh_y sh))
  else if cur_y s1 <? sh_y sh + 32 then Ret s1 else Ret (event (cur_y s1 - sh_y sh - 32)).

(** The last window of the list from [p] on, or [wnd]. *)
Fixpoint last_window (n : nat) (p wnd : Z) (s : wm) : outcome Z :=
  if p =? 0 then Ret wnd else
  match n with
  | O => NoFuel
  | S n' => sh <- get_sheet p s ;; last_window n' (sh_next sh) (if sh_window sh =? 0 then wnd else p) s
  end.

Definition keyboard_event (keycode : Z) (s : wm) : outcome wm :=
  let key := Z.land keycode 0xff in
  let up := if Z.testbit keycode 8 then 1 else 0 in
  let s1 := send ppid [WM_MESSAGE_KEYBOARD_EVENT; 0; key; up] s in
  wnd <- last_window (nsheets s1) (sheet_list s1) 0 s1 ;;
  if wnd =? 0 then Ret s1
  else sh <- get_sheet wnd s1 ;; Ret (send (owner_pid sh) [WM_MESSAGE_KEYBOARD_EVENT; wnd; key; up] s1).

(** ** Requests *)

Definition WM_MESSAGE_CREATE_SHEET : Z := 0.
Definition WM_MESSAGE_FILL_SHEET : Z := 1.
Definition WM_MESSAGE_PRINT_TEXT : Z := 2.
Definition WM_MESSAGE_CREATE_WINDOW : Z := 3.
Definition WM_MESSAGE_WINDOW_SET_TITLE : Z := 4.
Definition WM_MESSAGE_REMOVE_SHEET : Z := 5.
Definition WM_MESSAGE_DRAW_RECT : Z := 6.
Definition WM_MESSAGE_DRAW_BUFFER : Z := 7.

(** Word [i] of a message. *)
Definition field (msg : list Z) (i : Z) : Z := s32 (get32 (4 * i) msg).

(** Four bytes each. *)
Fixpoint pixels (bytes : list Z) : list Z :=
  match bytes with
  | b :: g :: r :: x :: rest => le_val [b; g; r; x] :: pixels rest
  | _ => []
  end.

(** Drawing to the buffer of a sheet, or to that of a window, which is rendered. *)
Definition on_canvas (p : Z) (draw : list Z -> Z -> Z -> outcome (list Z)) (s : wm) : outcome wm :=
  sh <- get_sheet p s ;;
  if sh_window sh =? 0 then
    b <- get_buf (sh_buffer sh) s ;; b' <- draw b (sh_width sh) (sh_height sh) ;; Ret (put_buf (sh_buffer sh) b' s)
  else
    w <- get_window (sh_window sh) s ;;
    b <- get_buf (w_buffer w) s ;; b' <- draw b (w_width w) (w_height w) ;; render_again p (put_buf (w_buffer w) b' s).

(** A new sheet belongs to the sender, who gets its address. *)
Definition give_sheet (pid : Z) (new : Z * wm) : outcome wm :=
  let '(p, s) := new in
  sh <- get_sheet p s ;; Ret (send pid [WM_MESSAGE_RETURN_HANDLE; p] (put_sheet p (set_owner sh pid) s)).

(** The request, without the drawing that follows every message; the line printed
    for an unknown one is left out.  Handles are [int]s, addresses unsigned. *)
Definition handle_message (pid : Z) (msg : list Z) (s : wm) : outcome wm :=
  let f := field msg in
  let id := u32 (f 1) in
  if f 0 =? WM_MESSAGE_CREATE_SHEET then new <- wm_create_sheet (f 1) (f 2) (f 3) (f 4) s ;; give_sheet pid new
  else if f 0 =? WM_MESSAGE_FILL_SHEET then
    on_canvas id (fun b w h => wm_fill_buffer b 0 0 w h w (COLOUR (f 2) (f 3) (f 4))) s
  else if f 0 =? WM_MESSAGE_PRINT_TEXT then
    on_canvas id (fun b w h => wm_print_string b (drop 28 msg) (f 2) (f 3) w (COLOUR (f 4) (f 5) (f 6))) s
  else if f 0 =? WM_MESSAGE_CREATE_WINDOW then new <- wm_create_window (f 1) (f 2) 200 200 s ;; give_sheet pid new
  else if f 0 =? WM_MESSAGE_WINDOW_SET_TITLE then wm_window_set_title id (drop 8 msg) s
  else if f 0 =? WM_MESSAGE_REMOVE_SHEET then
    sh <- get_sheet id s ;; if sh_window sh =? 0 then sheet_remove id s else window_close id s
  else if f 0 =? WM_MESSAGE_DRAW_RECT then
    on_canvas id (fun b w h => wm_fill_buffer b (f 2) (f 3) (f 4) (f 5) w (COLOUR (f 6) (f 7) (f 8))) s
  else if f 0 =? WM_MESSAGE_DRAW_BUFFER then
    on_canvas id (fun b w h => wm_copy_buffer b (f 2) (f 3) w (pixels (drop 24 msg)) 0 0 (f 4) (f 4) (f 5)) s
  else Ret s.

Definition message_received (pid : Z) (msg : list Z) (s : wm) : outcome wm :=
  s1 <- handle_message pid msg s ;; draw_sheets s1.

(** ** The main loop *)

(** What a turn gets: the sender and the contents of the message buffer, and the
    words of the keyboard and mouse calls. *)
Record input := Input { in_msg : option (Z * list Z); in_kbd : Z; in_mouse : Z }.

Definition update_display (s : wm) : wm := if need_update then emit (Update display_id) s else s.

(** A mouse event: buttons, horizontal and vertical movement in its bytes. *)
Definition mouse_event (m : Z) (s : wm) : outcome wm :=
  s1 <- fill_screen (cur_x s) (cur_y s) CURSOR_WIDTH CURSOR_HEIGHT light_blue s ;;
  s2 <- draw_sheets s1 ;;
  let movex := s8 (Z.land (Z.shiftr m 16) 0xff) in
  let movey := s8 (Z.land (Z.shiftr m 8) 0xff) in
  let s3 := set_cursor (cur_x s2 + movex) (cur_y s2 - movey) s2 in
  s4 <- (if negb (movex =? 0) || negb (movey =? 0) then mouse_cursor_event s3 else Ret s3) ;;
  s5 <- fill_screen (cur_x s4) (cur_y s4) CURSOR_WIDTH CURSOR_HEIGHT red s4 ;;
  let btn := Z.land (Z.shiftr m 24) 7 in
  if prevbtn s5 =? btn then Ret s5 else s6 <- mouse_button_event btn s5 ;; Ret (set_prevbtn btn s6).

Definition turn (inp : input) (s : wm) : outcome wm :=
  s1 <- match in_msg inp with Some (pid, msg) => message_received pid msg s | None => Ret s end ;;
  s2 <- (if negb (in_kbd inp =? 0) && negb (in_kbd inp =? 0x100) then keyboard_event (in_kbd inp) s1 else Ret s1) ;;
  s3 <- (if in_mouse inp =? 0 then Ret s2 else mouse_event (in_mouse inp) s2) ;;
  Ret (update_display s3).

Fixpoint turns (l : list input) (s : wm) : outcome wm :=
  match l with
  | [] => Ret s
  | inp :: l' => s1 <- turn inp s ;; turns l' s1
  end.

(** The screen is filled and the message buffer allocated. *)
Definition wm_start (brk0 : Z) (fb0 : list Z) : outcome wm :=
  f <- wm_fill_buffer fb0 0 0 xres yres xres light_blue ;;
  '(_, s) <- malloc (1024 * 4096) (Wm ∅ ∅ ∅ brk0 f 0 200 200 0 0 0 0 []) ;;
  Ret s.
End window_manager.

(** ** Pixels of a buffer *)

Definition in_rect (x y w h i j : Z) : bool := (x <=? i) && (i <? x + w) && (y <=? j) && (j <? y + h).

Lemma in_rect_spec x y w h i j : in_rect x y w h i j = true <-> x <= i < x + w /\ y <= j < y + h.
Proof. unfold in_rect. lia. Qed.

Lemma in_rect_false x y w h i j : in_rect x y w h i j = false <-> ~ (x <= i < x + w /\ y <= j < y + h).
Proof. rewrite <- in_rect_spec. destruct (in_rect x y w h i j); split; congruence. Qed.

(** Places of a range of a row among all pixels. *)
Lemma row_index width x w y i j : 0 <= i < width -> 0 <= x -> x + w <= width ->
  (y * width + x <= j * width + i < y * width + x + w <-> j = y /\ x <= i < x + w).
Proof. intros Hi Hx Hw. split; [|nia]. intros H. assert (j = y) by nia. nia. Qed.

Lemma fastmemset32_ok n : forall buf off val, 0 <= off -> off + Z.of_nat n <= zlen buf ->
  exists b, fastmemset32 n buf off val = Ret b /\ zlen b = zlen buf /\
    forall k, zget b k = if decide (off <= k < off + Z.of_nat n) then Some val else zget buf k.
Proof.
  induction n as [|n IH]; intros buf off val Ho Hl.
  - exists buf. split; [done|]. split; [done|]. intros k. rewrite decide_False by lia. done.
  - cbn [fastmemset32]. rewrite zset_Some by lia. cbn [of_option obind]. assert (Hz : zlen (<[Z.to_nat off := val]> buf) = zlen buf) by (unfold zlen; by rewrite length_insert).
    destruct (IH (<[Z.to_nat off := val]> buf) (off + 1) val) as (b & E & L & G); [lia|lia|]. exists b. split; [done|]. split; [lia|]. intros k. rewrite G.
    destruct (decide (off <= k < off + Z.of_nat (S n))); [|rewrite decide_False, zget_insert_ne by lia; done].
    destruct (decide (k = off)) as [->|]; [rewrite decide_False, zget_insert_eq by lia; done|]. by rewrite decide_True by lia.
Qed.

Lemma fastmemcpy32_ok n : forall dest doff src soff, 0 <= doff -> doff + Z.of_nat n <= zlen dest -> 0 <= soff -> soff + Z.of_nat n <= zlen src ->
  exists b, fastmemcpy32 n dest doff src soff = Ret b /\ zlen b = zlen dest /\
    forall k, zget b k = if decide (doff <= k < doff + Z.of_nat n) then zget src (soff + (k - doff)) else zget dest k.
Proof.
  induction n as [|n IH]; intros dest doff src soff Hd Hld Hs Hls.
  - exists dest. split; [done|]. split; [done|]. intros k. rewrite decide_False by lia. done.
  - cbn [fastmemcpy32]. destruct (zget_is_Some src soff) as [v Ev]; [lia|]. rewrite Ev. cbn [of_option obind]. rewrite zset_Some by lia. cbn [of_option obind].
    assert (Hz : zlen (<[Z.to_nat doff := v]> dest) = zlen dest) by (unfold zlen; by rewrite length_insert).
    destruct (IH (<[Z.to_nat doff := v]> dest) (doff + 1) src (soff + 1)) as (b & E & L & G); [lia..|]. exists b. split; [done|]. split; [lia|]. intros k. rewrite G.
    destruct (decide (doff <= k < doff + Z.of_nat (S n))); [|rewrite decide_False, zget_insert_ne by lia; done].
    destruct (decide (k = doff)) as [->|]; [rewrite decide_False, zget_insert_eq by lia; rewrite <- Ev; f_equal; lia|]. rewrite decide_True by lia. f_equal. lia.
Qed.

(** Filling a rectangle changes its pixels and no others. *)
Lemma fill_rows_ok n : forall buf x y w width colour, 0 <= x -> 0 <= w -> x + w <= width -> 0 <= y -> (y + Z.of_nat n) * width <= zlen buf ->
  exists b, fill_rows n buf x y w width colour = Ret b /\ zlen b = zlen buf /\
    forall i j, 0 <= i < width -> zget b (j * width + i) = if in_rect x y w (Z.of_nat n) i j then Some colour else zget buf (j * width + i).
Proof.
  induction n as [|n IH]; intros buf x y w width colour Hx Hw Hxw Hy Hl.
  - exists buf. split; [done|]. split; [done|]. intros i j Hi. assert (E : in_rect x y w (Z.of_nat 0) i j = false) by (apply in_rect_false; lia). by rewrite E.
  - cbn [fill_rows]. destruct (fastmemset32_ok (Z.to_nat w) buf (y * width + x) colour) as (b1 & E1 & L1 & G1); [nia|nia|]. rewrite E1. cbn [obind].
    destruct (IH b1 x (y + 1) w width colour) as (b & E & L & G); [lia..|rewrite L1; nia|]. exists b. split; [done|]. split; [lia|].
    intros i j Hi. rewrite G, G1 by done. rewrite Z2Nat.id by done. pose proof (row_index width x w y i j Hi Hx Hxw) as Hri.
    destruct (decide (y * width + x <= j * width + i < y * width + x + w)) as [Hin|Hout].
    + apply Hri in Hin as [-> Hin]. assert (Et : in_rect x y w (Z.of_nat (S n)) i y = true) by (apply in_rect_spec; lia). rewrite Et. by destruct (in_rect x (y + 1) w (Z.of_nat n) i y).
    + assert (Et : in_rect x y w (Z.of_nat (S n)) i j = in_rect x (y + 1) w (Z.of_nat n) i j); [|by rewrite Et].
      apply eq_iff_eq_true. rewrite !in_rect_spec. rewrite Hri in Hout. lia.
Qed.

Lemma wm_fill_buffer_ok buf x y w h width height colour : zlen buf = width * height -> 0 <= x -> 0 <= w -> x + w <= width -> 0 <= y -> 0 <= h -> y + h <= height ->
  exists b, wm_fill_buffer buf x y w h width colour = Ret b /\ zlen b = zlen buf /\
    forall i j, 0 <= i < width -> zget b (j * width + i) = if in_rect x y w h i j then Some colour else zget buf (j * width + i).
Proof.
  intros Hl Hx Hw Hxw Hy Hh Hyh. unfold wm_fill_buffer. destruct (fill_rows_ok (Z.to_nat h) buf x y w width colour) as (b & E & L & G); [lia..|rewrite Z2Nat.id by done; nia|].
  rewrite Z2Nat.id in G by done. eauto.
Qed.

Lemma copy_rows_ok n : forall dest dx dy dw src sx sy sw w, 0 <= dx -> 0 <= w -> dx + w <= dw -> 0 <= dy -> (dy + Z.of_nat n) * dw <= zlen dest ->
  0 <= sx -> sx + w <= sw -> 0 <= sy -> (sy + Z.of_nat n) * sw <= zlen src ->
  exists b, copy_rows n dest dx dy dw src sx sy sw w = Ret b /\ zlen b = zlen dest /\
    forall i j, 0 <= i < dw -> zget b (j * dw + i) = if in_rect dx dy w (Z.of_nat n) i j then zget src ((j - dy + sy) * sw + (i - dx + sx)) else zget dest (j * dw + i).
Proof.
  induction n as [|n IH]; intros dest dx dy dw src sx sy sw w Hdx Hw Hdw Hdy Hld Hsx Hsw Hsy Hls.
  - exists dest. split; [done|]. split; [done|]. intros i j Hi. assert (E : in_rect dx dy w (Z.of_nat 0) i j = false) by (apply in_rect_false; lia). by rewrite E.
  - cbn [copy_rows]. destruct (fastmemcpy32_ok (Z.to_nat w) dest (dy * dw + dx) src (sy * sw + sx)) as (b1 & E1 & L1 & G1); [nia|nia|nia|nia|]. rewrite E1. cbn [obind].
    destruct (IH b1 dx (dy + 1) dw src sx (sy + 1) sw w) as (b & E & L & G); [lia|lia|lia|lia|rewrite L1; nia|lia|lia|lia|nia|]. exists b. split; [done|]. split; [lia|].
    intros i j Hi. rewrite G, G1 by done. rewrite Z2Nat.id by done. pose proof (row_index dw dx w dy i j Hi Hdx Hdw) as Hri.
    destruct (decide (dy * dw + dx <= j * dw + i < dy * dw + dx + w)) as [Hin|Hout].
    + apply Hri in Hin as [-> Hin]. assert (Et : in_rect dx dy w (Z.of_nat (S n)) i dy = true) by (apply in_rect_spec; lia).
      assert (Ef : in_rect dx (dy + 1) w (Z.of_nat n) i dy = false) by (apply in_rect_false; lia). rewrite Et, Ef. f_equal. lia.
    + assert (Et : in_rect dx dy w (Z.of_nat (S n)) i j = in_rect dx (dy + 1) w (Z.of_nat n) i j) by (apply eq_iff_eq_true; rewrite !in_rect_spec; rewrite Hri in Hout; lia).
      rewrite Et. destruct (in_rect dx (dy + 1) w (Z.of_nat n) i j); [|done]. f_equal. lia.
Qed.

Lemma wm_copy_buffer_ok dest dx dy dw dh src sw sh w h : zlen dest = dw * dh -> sw * sh <= zlen src -> 0 <= dx -> 0 <= w -> dx + w <= dw -> 0 <= dy -> 0 <= h -> dy + h <= dh ->
  w <= sw -> h <= sh ->
  exists b, wm_copy_buffer dest dx dy dw src 0 0 sw w h = Ret b /\ zlen b = zlen dest /\
    forall i j, 0 <= i < dw -> zget b (j * dw + i) = if in_rect dx dy w h i j then zget src ((j - dy) * sw + (i - dx)) else zget dest (j * dw + i).
Proof.
  intros Hd Hs Hdx Hw Hdw Hdy Hh Hdh Hsw Hsh. unfold wm_copy_buffer.
  destruct (copy_rows_ok (Z.to_nat h) dest dx dy dw src 0 0 sw w) as (b & E & L & G); [lia..|rewrite Z2Nat.id by done; nia|lia|lia|lia|rewrite Z2Nat.id by done; nia|].
  exists b. split; [done|]. split; [done|]. intros i j Hi. rewrite G by done. rewrite Z2Nat.id by done. by rewrite !Z.add_0_r.
Qed.

(** *** Text *)

Section text.
Variable font16 : list Z.
Hypothesis font_len : zlen font16 = 4096.

Lemma glyph_row_ok row p (colour : Z) ks : (forall k, k ∈ ks -> 0 <= k < 8) -> forall buf : list Z, 0 <= p -> p + 8 <= zlen buf ->
  exists b, foldl (fun o k => b <- o ;; if Z.testbit row k then of_option (zset b (p + 7 - k) colour) else Ret b) (Ret buf) ks = Ret b /\
    zlen b = zlen buf /\ forall k, ~ p <= k < p + 8 -> zget b k = zget buf k.
Proof.
  induction ks as [|k ks IH]; intros Hk buf Hp Hl; [by exists buf|]. cbn [foldl obind].
  assert (Hk0 : 0 <= k < 8) by (apply Hk; left).
  assert (H1 : exists b1, (if Z.testbit row k then of_option (zset buf (p + 7 - k) colour) else Ret buf) = Ret b1 /\ zlen b1 = zlen buf /\ forall k, ~ p <= k < p + 8 -> zget b1 k = zget buf k).
  { destruct (Z.testbit row k); [|by exists buf]. rewrite zset_Some by lia. eexists. split; [reflexivity|]. split; [unfold zlen; by rewrite length_insert|].
    intros k' Hk'. apply zget_insert_ne; lia. }
  destruct H1 as (b1 & -> & L1 & G1). destruct (IH (fun k' Hk' => Hk k' ltac:(by right)) b1 Hp) as (b & E & L & G); [lia|]. exists b. split; [done|].
  split; [lia|]. intros k' Hk'. by rewrite G, G1.
Qed.

Lemma char_rows_ok n : forall i c buf x y width colour, 0 <= i -> i + Z.of_nat n <= 16 -> 0 <= c < 128 -> 0 <= x -> x + 8 <= width -> 0 <= y -> (y + 16) * width <= zlen buf ->
  exists b, char_rows font16 n i c buf x y width colour = Ret b /\ zlen b = zlen buf /\
    forall i' j', 0 <= i' < width -> in_rect x y 8 16 i' j' = false -> zget b (j' * width + i') = zget buf (j' * width + i').
Proof.
  induction n as [|n IH]; intros i c buf x y width colour Hi Hn Hc Hx Hw Hy Hl; [by exists buf|]. cbn [char_rows].
  destruct (zget_is_Some font16 (c * 16 + i)) as [row ->]; [lia|]. cbn [of_option obind]. unfold glyph_row.
  destruct (glyph_row_ok row ((y + i) * width + x) colour (seqZ 0 8)) with (buf := buf) as (b1 & -> & L1 & G1); [intros k Hk%elem_of_seqZ; lia|nia|nia|]. cbn [obind].
  destruct (IH (i + 1) c b1 x y width colour) as (b & E & L & G); [lia..|rewrite L1; lia|]. exists b. split; [done|]. split; [lia|].
  intros i' j' Hi' Hr. rewrite G, G1; [done| |done|done]. apply in_rect_false in Hr. rewrite (row_index width x 8 (y + i) i' j') by lia. lia.
Qed.

(** A text that can be printed: up to its end or a line feed, [n] characters with a
    glyph. *)
Inductive printable : list Z -> Z -> Prop :=
| printable_end c t : c = 0 \/ c = 10 -> printable (c :: t) 0
| printable_char c t n : 0 < c < 128 -> c <> 10 -> printable t n -> printable (c :: t) (n + 1).

Lemma printable_nonneg t n : printable t n -> 0 <= n.
Proof. induction 1; lia. Qed.

Lemma wm_print_string_ok t n : printable t n -> forall buf x y width colour, 0 <= x -> x + 8 * n <= width -> 0 <= y -> (y + 16) * width <= zlen buf ->
  exists b, wm_print_string font16 buf t x y width colour = Ret b /\ zlen b = zlen buf /\
    forall i j, 0 <= i < width -> in_rect x y (8 * n) 16 i j = false -> zget b (j * width + i) = zget buf (j * width + i).
Proof.
  induction 1 as [c t Hc|c t n Hc Hn Ht IH]; intros buf x y width colour Hx Hw Hy Hl; cbn [wm_print_string].
  - exists buf. assert (E : (c =? 0) || (c =? 10) = true) by lia. rewrite E. done.
  - assert (E : (c =? 0) || (c =? 10) = false) by lia. rewrite E. pose proof (printable_nonneg t n Ht) as Hn0. unfold wm_print_char.
    assert (Es : s8 c = c) by (unfold s8, u8; rewrite Z.mod_small by lia; destruct (Z.ltb_spec c (2 ^ 7)); lia).
    rewrite Es. destruct (char_rows_ok 16 0 c buf x y width colour) as (b1 & -> & L1 & G1); [lia..|]. cbn [obind].
    destruct (IH b1 (x + 8) y width colour) as (b & E2 & L & G); [lia..|]. exists b. split; [done|]. split; [lia|].
    intros i j Hi Hr. apply in_rect_false in Hr. rewrite G, G1; [done|done| |done|]; apply in_rect_false; lia.
Qed.
End text.

(** ** The list of sheets *)

(** The sheets from [p] up to [r]. *)
Inductive lseg (m : gmap Z Sheet) : Z -> list Z -> Z -> Prop :=
| lseg_nil p : lseg m p [] p
| lseg_cons p sh l r : p <> 0 -> m !! p = Some sh -> lseg m (sh_next sh) l r -> lseg m p (p :: l) r.

Lemma lseg_nil_inv m p r : lseg m p [] r -> p = r.
Proof. by inversion 1. Qed.

Lemma lseg_app m p l1 l2 r : lseg m p (l1 ++ l2) r <-> exists q, lseg m p l1 q /\ lseg m q l2 r.
Proof.
  split.
  - revert p. induction l1 as [|x l1 IH]; intros p H; [exists p; split; [constructor|done]|]. inversion H as [|? sh ? ? Hp Hm Hl]; subst.
    destruct (IH _ Hl) as (q & H1 & H2). exists q. split; [by econstructor|done].
  - intros (q & H1 & H2). induction H1 as [p|p sh l q Hp Hm Hl IH]; [done|]. cbn [app]. econstructor; eauto.
Qed.

Lemma lseg_insert m p l r q x : q ∉ l -> lseg m p l r -> lseg (<[q := x]> m) p l r.
Proof.
  intros Hq. induction 1 as [p|p sh l r Hp Hm Hl IH]; [constructor|]. apply not_elem_of_cons in Hq as [Hne Hq].
  econstructor; [done|by rewrite lookup_insert_ne|auto].
Qed.

Lemma lseg_first m p l r : lseg m p l r -> l <> [] -> p <> 0 /\ p ∈ l.
Proof. destruct 1; [done|]. split; [done|left]. Qed.

Lemma app_one_not_nil {X} (l : list X) x : l ++ [x] <> [].
Proof. by destruct l. Qed.

Lemma lseg_unique m p l : lseg m p l 0 -> forall l', lseg m p l' 0 -> l = l'.
Proof.
  revert p. induction l as [|x l IH]; intros p H l' H'; inversion H as [|? sh ? ? Hp Hm Hl]; inversion H' as [|? sh' ? ? Hp' Hm' Hl']; subst; try done.
  rewrite Hm in Hm'. injection Hm' as <-. f_equal. eauto.
Qed.

Lemma lseg_NoDup m l : forall p, lseg m p l 0 -> NoDup l.
Proof.
  induction l as [|x l IH]; intros p H; [constructor|]. inversion H as [|? sh ? ? Hp Hm Hl]; subst. constructor; [|eauto].
  intros Hx. apply list_elem_of_split in Hx as (l1 & l2 & ->). apply lseg_app in Hl as (q & H1 & H2).
  assert (q = x) by (inversion H2; by subst). subst q. pose proof (lseg_unique _ _ _ H _ H2) as E. apply (f_equal length) in E. cbn in E. rewrite length_app in E. cbn in E. lia.
Qed.

Lemma lseg_elem m p l r q : lseg m p l r -> q ∈ l -> q <> 0 /\ exists sh, m !! q = Some sh.
Proof. induction 1 as [|p sh l r Hp Hm Hl IH]; [by intros ?%not_elem_of_nil|]. intros [->|Hq]%elem_of_cons; eauto. Qed.

Lemma lseg_size m p l : lseg m p l 0 -> (length l <= size m)%nat.
Proof.
  intros H. pose proof (lseg_NoDup _ _ _ H) as Hd. rewrite <- size_dom, <- (size_list_to_set (C := gset Z) l Hd). apply subseteq_size.
  intros q Hq%elem_of_list_to_set. apply elem_of_dom. by destruct (lseg_elem _ _ _ _ _ H Hq) as (_ & sh & ->).
Qed.

Lemma last_sheet_ok l q n : forall p s, lseg (sheets s) p (l ++ [q]) 0 -> (length l <= n)%nat -> last_sheet n p s = Ret q.
Proof.
  revert n. induction l as [|x l IH]; intros n p s H Hn; inversion H as [|? sh ? ? Hp Hm Hl]; subst.
  - destruct n; cbn [last_sheet]; unfold get_sheet; rewrite Hm; cbn [of_option obind]; apply lseg_nil_inv in Hl; by rewrite Hl.
  - destruct n as [|n]; [cbn in Hn; lia|]. cbn [last_sheet]. unfold get_sheet at 1. rewrite Hm. cbn [of_option obind].
    assert (E : (sh_next sh =? 0) = false) by (destruct (lseg_first _ _ _ _ Hl (app_one_not_nil _ _)); lia). rewrite E. apply IH; [done|cbn in Hn; lia].
Qed.

Lemma find_prev_ok l q t n : forall p s, lseg (sheets s) p (l ++ [q]) t -> t ∉ l ++ [q] -> t <> 0 -> (length l <= n)%nat -> find_prev n p t s = Ret (Some q).
Proof.
  revert n. induction l as [|x l IH]; intros n p s H Ht Ht0 Hn; inversion H as [|? sh ? ? Hp Hm Hl]; subst.
  - destruct n; cbn [find_prev]; unfold get_sheet; rewrite Hm; cbn [of_option obind]; apply lseg_nil_inv in Hl; subst t; by rewrite Z.eqb_refl.
  - apply not_elem_of_cons in Ht as [Hx Ht]. destruct n as [|n]; [cbn in Hn; lia|]. cbn [find_prev]. unfold get_sheet at 1. rewrite Hm. cbn [of_option obind].
    assert (Hh : sh_next sh <> 0 /\ sh_next sh <> t).
    { destruct (lseg_first _ _ _ _ Hl (app_one_not_nil _ _)) as [? Hin]. split; [done|]. intros Ee. apply Ht. by rewrite Ee in Hin. }
    destruct Hh as [Hh0 Hht]. assert (E1 : (sh_next sh =? t) = false) by lia. assert (E2 : (sh_next sh =? 0) = false) by lia. rewrite E1, E2. apply IH; [done|done|done|cbn in Hn; lia].
Qed.

(** States that differ in the links only. *)
Definition unlinked (m : gmap Z Sheet) : gmap Z Sheet := (fun sh => set_next sh 0) <$> m.

Definition relinked (s s' : wm) : Prop :=
  unlinked (sheets s) = unlinked (sheets s') /\ s' = set_sheets (fun _ => sheets s') (set_list (sheet_list s') s).

#[export] Instance relinked_equivalence : Equivalence relinked.
Proof.
  split.
  - intros []. by split.
  - intros [] [] [E1 E2]. split; [done|]. unfold set_sheets, set_list in *. cbn in *. injection E2. by intros; subst.
  - intros [] [] [] [E1 E2] [E3 E4]. split; [by rewrite E1|]. unfold set_sheets, set_list in *. cbn in *. injection E2. injection E4. by intros; subst.
Qed.

Lemma relink_next p sh n s : sheets s !! p = Some sh -> relinked s (put_sheet p (set_next sh n) s).
Proof.
  intros Hp. split; [|by destruct s]. unfold unlinked. cbn [put_sheet set_sheets sheets]. rewrite fmap_insert. symmetry. apply insert_id. rewrite lookup_fmap, Hp. done.
Qed.

Lemma relink_head p s : relinked s (set_list p s).
Proof. split; [done|by destruct s]. Qed.

Lemma link_ok p sh n s : sheets s !! p = Some sh -> link p n s = Ret (put_sheet p (set_next sh n) s).
Proof. intros Hp. unfold link, get_sheet. by rewrite Hp. Qed.

(** Taking a sheet out of the list leaves the others in their order. *)
Lemma unlink_ok s l1 p l2 : lseg (sheets s) (sheet_list s) (l1 ++ p :: l2) 0 ->
  exists s', unlink p s = Ret (Some s') /\ relinked s s' /\ lseg (sheets s') (sheet_list s') (l1 ++ l2) 0 /\ sheets s' !! p = sheets s !! p.
Proof.
  intros H. pose proof (lseg_NoDup _ _ _ H) as Hd. pose proof (lseg_size _ _ _ H) as Hs. apply lseg_app in H as (q & H1 & H2). inversion H2 as [|? sh ? ? Hp Hm Hl]; subst. unfold unlink.
  destruct l1 as [|x l1 _] using rev_ind.
  - inversion H1; subst. rewrite Z.eqb_refl. unfold get_sheet. rewrite Hm. cbn [of_option obind]. eexists. split; [reflexivity|]. split; [apply relink_head|]. done.
  - assert (Hne : p ∉ l1 ++ [x]) by (intros Hx; apply NoDup_app in Hd as (_ & Hd & _); by apply (Hd p Hx); left).
    assert (Hh : (p =? sheet_list s) = false).
    { apply Z.eqb_neq. intros ->. apply Hne. by destruct (lseg_first _ _ _ _ H1 (app_one_not_nil _ _)). }
    rewrite Hh. assert (Hn : (length l1 <= nsheets s)%nat) by (rewrite !length_app in Hs; cbn [length] in Hs; unfold nsheets; lia).
    rewrite (find_prev_ok l1 x p _ _ _ H1 Hne Hp Hn). cbn [obind]. unfold get_sheet. rewrite Hm. cbn [of_option obind].
    apply lseg_app in H1 as (q & H1a & H1b). inversion H1b as [|? shx ? ? Hx Hmx Hlx]; subst. apply lseg_nil_inv in Hlx. rewrite (link_ok x shx) by done. cbn [obind].
    eexists. split; [reflexivity|]. split; [by apply relink_next|]. cbn [put_sheet set_sheets sheets sheet_list].
    rewrite <- app_assoc in Hd. cbn [app] in Hd. apply NoDup_app in Hd as (_ & Hdq & Hd). apply NoDup_cons in Hd as [Hqn Hd]. apply not_elem_of_cons in Hqn as [Hqp Hqn].
    split; [|by rewrite lookup_insert_ne]. rewrite <- app_assoc. apply lseg_app. exists x. split.
    + apply lseg_insert; [|done]. intros Hq. apply (Hdq x Hq). left.
    + cbn [app]. econstructor; [done|by rewrite lookup_insert_eq|]. cbn [sh_next set_next]. by apply lseg_insert.
Qed.

(** ** Objects *)

Section invariant.
Variable font16 : list Z.
Variables xres yres : Z.
Variable heap_end : Z.
Hypothesis font_len : zlen font16 = 4096.

Definition on_screen (sh : Sheet) : Prop :=
  0 <= sh_x sh /\ 0 <= sh_width sh /\ sh_x sh + sh_width sh <= xres /\ 0 <= sh_y sh /\ 0 <= sh_height sh /\ sh_y sh + sh_height sh <= yres.

(** Below its title a window shows the buffer of its owner. *)
Definition rendered (sh : Sheet) (b : list Z) (w : Window) (wb : list Z) : Prop :=
  forall i j, 0 <= i < w_width w -> 0 <= j < w_height w -> zget b ((j + 32) * sh_width sh + i) = zget wb (j * w_width w + i).

Definition window_ok (sh : Sheet) (w : Window) (wb : list Z) : Prop :=
  w_width w = sh_width sh /\ w_height w + 32 = sh_height sh /\ 0 <= w_height w /\ 28 <= sh_width sh /\ zlen wb = w_width w * w_height w /\
  zlen (title w) = 64 /\ exists n, printable (title w) n /\ 8 + 8 * n <= sh_width sh.

(** A sheet on the screen with its buffer; a window is rendered unless it is the
    one being drawn to. *)
Definition sheet_ok (dirty : bool) (s : wm) (sh : Sheet) : Prop :=
  on_screen sh /\ exists b, bufs s !! sh_buffer sh = Some b /\ zlen b = sh_width sh * sh_height sh /\
  (sh_window sh <> 0 -> exists w wb, windows s !! sh_window sh = Some w /\ bufs s !! w_buffer w = Some wb /\ window_ok sh w wb /\ (dirty = false -> rendered sh b w wb)).

(** All objects: those that were removed included, since memory is not freed. *)
Record objects (dirty : Z) (s : wm) : Prop := {
  obj_fb : zlen (fb s) = xres * yres;
  obj_brk : 0 < brk s <= heap_end;
  obj_fresh p : brk s <= p -> sheets s !! p = None /\ windows s !! p = None /\ bufs s !! p = None;
  obj_null : sheets s !! 0 = None;
  obj_sheet p sh : sheets s !! p = Some sh -> sheet_ok (bool_decide (p = dirty)) s sh;
  obj_buffers p q sh sh' : sheets s !! p = Some sh -> sheets s !! q = Some sh' -> sh_buffer sh = sh_buffer sh' -> p = q;
  obj_windows p q sh sh' : sheets s !! p = Some sh -> sheets s !! q = Some sh' -> sh_window sh <> 0 -> sh_window sh = sh_window sh' -> p = q;
  obj_window_buffers p q w w' : windows s !! p = Some w -> windows s !! q = Some w' -> w_buffer w = w_buffer w' -> p = q;
  obj_window_buf q w : windows s !! q = Some w -> is_Some (bufs s !! w_buffer w);
  obj_disjoint p q sh w : sheets s !! p = Some sh -> windows s !! q = Some w -> sh_buffer sh <> w_buffer w;
  obj_moving : win_moving s = 0 \/ is_Some (sheets s !! win_moving s)
}.

(** No sheet is at address zero. *)
Notation clean := (objects 0).

Lemma clean_sheet s p sh : clean s -> sheets s !! p = Some sh -> sheet_ok false s sh.
Proof.
  intros Ho Hp. pose proof (obj_sheet _ _ Ho p sh Hp) as H. rewrite bool_decide_false in H; [done|]. intros ->. by rewrite (obj_null _ _ Ho) in Hp.
Qed.

Lemma sheet_ok_weaken d s sh : sheet_ok false s sh -> sheet_ok d s sh.
Proof. intros (Hs & b & Hb & Hl & Hw). split; [done|]. exists b. split; [done|]. split; [done|]. intros Hn. destruct (Hw Hn) as (w & wb & ? & ? & ? & Hr). eauto 8. Qed.

Lemma objects_weaken d s : clean s -> objects d s.
Proof. intros H. pose proof (clean_sheet s) as Hc. destruct H. constructor; try done. intros p sh Hp. apply sheet_ok_weaken, (Hc p); done. Qed.

(** Changing the contents of a buffer concerns the sheet it belongs to. *)
Lemma sheet_ok_put_buf d s sh k b : sheet_ok d s sh -> sh_buffer sh <> k -> (forall w, windows s !! sh_window sh = Some w -> sh_window sh <> 0 -> w_buffer w <> k) ->
  sheet_ok d (put_buf k b s) sh.
Proof.
  intros (Hs & b0 & Hb & Hl & Hw) Hk Hkw. split; [done|]. exists b0. cbn [put_buf set_bufs bufs windows]. rewrite lookup_insert_ne by done.
  split; [done|]. split; [done|]. intros Hn. destruct (Hw Hn) as (w & wb & Hw1 & Hw2 & Hw3). exists w, wb. rewrite lookup_insert_ne by (intros E; by apply (Hkw w Hw1 Hn)). done.
Qed.

Lemma objects_put_buf d d' s p sh k b : objects d s -> sheets s !! p = Some sh -> (d <> 0 -> d = p) -> is_Some (bufs s !! k) ->
  (k = sh_buffer sh \/ sh_window sh <> 0 /\ exists w, windows s !! sh_window sh = Some w /\ k = w_buffer w) ->
  sheet_ok (bool_decide (p = d')) (put_buf k b s) sh -> objects d' (put_buf k b s).
Proof.
  intros Ho Hp Hd Hk Hown Hsh. pose proof Ho as [Hfb Hbrk Hfresh Hnull Hsheet Hbuf Hwin Hwb Hwx Hdis Hmov]. constructor; cbn [put_buf set_bufs sheets windows bufs brk fb win_moving]; try done.
  - intros q Hq. destruct (Hfresh q Hq) as (F1 & F2 & F3). split; [done|]. split; [done|]. rewrite lookup_insert_ne; [done|]. intros ->. rewrite F3 in Hk. by destruct Hk.
  - intros q sh' Hq. destruct (decide (q = p)) as [->|Hne]; [by simplify_eq|]. 
    assert (Hq' : sheet_ok false s sh').
    { pose proof (Hsheet q sh' Hq) as Hx. rewrite bool_decide_false in Hx; [done|]. intros ->. destruct (Z.eq_dec d 0) as [->|Hd0]; [by rewrite Hnull in Hq|]. by apply Hne, Hd. }
    apply sheet_ok_put_buf; [by apply sheet_ok_weaken| |].
    + destruct Hown as [->|(Hn & w & Hw & ->)]; [intros E; by apply Hne, (Hbuf q p sh' sh)|by apply (Hdis q (sh_window sh) sh' w)].
    + intros w' Hw' Hn'. destruct Hown as [->|(Hn & w & Hw & ->)]; [intros E; by apply (Hdis p (sh_window sh') sh w')|].
      intros E. apply Hne. apply (Hwin q p sh' sh); [done|done|done|]. by apply (Hwb _ _ w' w).
  - intros q w Hq. destruct (decide (k = w_buffer w)) as [->|]; [by rewrite lookup_insert_eq|rewrite lookup_insert_ne by done; by apply (Hwx q)].
Qed.

(** Rendering a window makes it show its buffer and changes nothing else. *)
Lemma render_title_ok b sh w wb colour : on_screen sh -> zlen b = sh_width sh * sh_height sh -> window_ok sh w wb ->
  exists b', render_title font16 b sh w colour = Ret b' /\ zlen b' = zlen b.
Proof.
  intros (Hx & Hw & _ & _ & Hh & _) Hb (Ew & Eh & Hwh & Hw28 & _ & _ & n & Hpr & Hn). unfold render_title.
  destruct (wm_fill_buffer_ok b 0 0 (sh_width sh) 32 (sh_width sh) (sh_height sh) colour) as (b1 & -> & L1 & _); [lia..|]. cbn [obind].
  destruct (wm_print_string_ok font16 font_len (title w) n Hpr b1 8 8 (sh_width sh) white) as (b2 & -> & L2 & _); [lia|lia|lia|nia|]. cbn [obind].
  destruct (wm_fill_buffer_ok b2 (sh_width sh - 28) 4 24 24 (sh_width sh) (sh_height sh) red) as (b3 & -> & L3 & _); [lia..|]. cbn [obind].
  assert (Hx1 : printable [88; 0] 1) by (apply (printable_char 88 [0] 0); [lia|lia|constructor; by left]).
  destruct (wm_print_string_ok font16 font_len [88; 0] 1 Hx1 b3 (sh_width sh - 20) 8 (sh_width sh) white) as (b4 & -> & L4 & _); [lia|lia|lia|nia|].
  exists b4. split; [done|lia].
Qed.

Lemma wm_render_window_ok d p sh colour s : objects d s -> (d <> 0 -> d = p) -> sheets s !! p = Some sh -> sh_window sh <> 0 ->
  exists b, wm_render_window font16 p colour s = Ret (put_buf (sh_buffer sh) b s) /\ clean (put_buf (sh_buffer sh) b s).
Proof.
  intros Ho Hd Hp Hn. destruct (obj_sheet _ _ Ho p sh Hp) as (Hs & b & Hb & Hl & Hw). destruct (Hw Hn) as (w & wb & Hw1 & Hw2 & Hok & _).
  unfold wm_render_window, get_sheet, get_window, get_buf. rewrite Hp. cbn [of_option obind]. rewrite Hw1, Hb. cbn [of_option obind].
  destruct (render_title_ok b sh w wb colour Hs Hl Hok) as (b1 & -> & L1). cbn [obind]. rewrite Hw2. cbn [of_option obind].
  pose proof Hok as (Ew & Eh & Hwh & Hw28 & Lwb & _). destruct Hs as (Hx & Hsw & _ & _ & Hsh & _).
  destruct (wm_copy_buffer_ok b1 0 32 (sh_width sh) (sh_height sh) wb (w_width w) (w_height w) (w_width w) (w_height w)) as (b2 & -> & L2 & G2); [lia..|]. cbn [obind].
  exists b2. split; [done|]. assert (Hne : sh_buffer sh <> w_buffer w) by exact (obj_disjoint _ _ Ho _ _ _ _ Hp Hw1).
  apply (objects_put_buf d 0 s p sh); [done|done|done|by rewrite Hb|by left|]. split; [by apply (obj_sheet _ _ Ho p sh)|]. exists b2. cbn [put_buf set_bufs bufs windows]. rewrite lookup_insert_eq.
  split; [done|]. split; [lia|]. intros _. exists w, wb. rewrite lookup_insert_ne by done. split_and!; [done|done|done|]. intros _ i j Hi Hj. rewrite G2 by lia.
  assert (Er : in_rect 0 32 (w_width w) (w_height w) i (j + 32) = true) by (apply in_rect_spec; lia). rewrite Er. f_equal. lia.
Qed.
Lemma relinked_lookup s s' p : relinked s s' -> (fun sh => set_next sh 0) <$> (sheets s !! p) = (fun sh => set_next sh 0) <$> (sheets s' !! p).
Proof. intros [E _]. apply (f_equal (fun m => m !! p)) in E. unfold unlinked in E. by rewrite !lookup_fmap in E. Qed.

Lemma relinked_Some s s' p sh : relinked s s' -> sheets s !! p = Some sh -> exists sh', sheets s' !! p = Some sh' /\ set_next sh 0 = set_next sh' 0.
Proof.
  intros Hr Hp. pose proof (relinked_lookup s s' p Hr) as E. rewrite Hp in E. cbn in E. destruct (sheets s' !! p) as [sh'|]; [|done]. exists sh'. split; [done|]. by apply (inj Some) in E.
Qed.

Lemma objects_relinked d s s' : relinked s s' -> objects d s -> objects d s'.
Proof.
  intros Hr Ho. assert (Hb : forall p sh, sheets s' !! p = Some sh -> exists sh0, sheets s !! p = Some sh0 /\ set_next sh 0 = set_next sh0 0) by (intros p sh; by apply relinked_Some).
  assert (Hnone : forall p, sheets s !! p = None -> sheets s' !! p = None).
  { intros p Hp. destruct (sheets s' !! p) eqn:E; [|done]. destruct (Hb _ _ E) as (? & ? & _). congruence. }
  destruct Ho as [Hfb Hbrk Hfresh Hnull Hsheet Hbuf Hwin Hwb Hwx Hdis Hmov]. pose proof Hr as [_ E]. rewrite E. clear E.
  constructor; cbn [set_sheets set_list sheets windows bufs brk fb win_moving]; try done.
  - intros p Hp. destruct (Hfresh p Hp) as (? & ? & ?). auto.
  - auto.
  - intros p sh Hp. destruct (Hb _ _ Hp) as (sh0 & Hp0 & Es). pose proof (Hsheet p sh0 Hp0) as Hok.
    change (sheet_ok (bool_decide (p = d)) s (set_next sh0 0)) in Hok. rewrite <- Es in Hok. exact Hok.
  - intros p q sh sh' Hp Hq E. destruct (Hb _ _ Hp) as (x & Hx & Ex), (Hb _ _ Hq) as (y & Hy & Ey). apply (Hbuf p q x y Hx Hy).
    apply (f_equal sh_buffer) in Ex, Ey. cbn in Ex, Ey. congruence.
  - intros p q sh sh' Hp Hq Hn E. destruct (Hb _ _ Hp) as (x & Hx & Ex), (Hb _ _ Hq) as (y & Hy & Ey). apply (f_equal sh_window) in Ex, Ey. cbn in Ex, Ey.
    apply (Hwin p q x y Hx Hy); congruence.
  - intros p q sh w Hp Hq. destruct (Hb _ _ Hp) as (x & Hx & Ex). apply (f_equal sh_buffer) in Ex. cbn in Ex. rewrite Ex. by apply (Hdis p q).
  - destruct Hmov as [|[sh Hm]]; [by left|]. right. destruct (relinked_Some s s' _ sh Hr Hm) as (sh' & -> & _). done.
Qed.

Lemma clean_set_fb d s f : objects d s -> zlen f = zlen (fb s) -> objects d (set_fb f s).
Proof. intros [Hfb Hbrk Hfresh Hnull Hsheet Hbuf Hwin Hwb Hwx Hdis Hmov] Hl. constructor; cbn [set_fb sheets windows bufs brk fb win_moving]; try done. by rewrite Hl. Qed.

(** ** The screen *)

Definition covers (sh : Sheet) (i j : Z) : bool := in_rect (sh_x sh) (sh_y sh) (sh_width sh) (sh_height sh) i j.

(** The pixel of a sheet at a place of the screen. *)
Definition sheet_pixel (s : wm) (i j p : Z) : option Z :=
  sh ← sheets s !! p;
  if covers sh i j then b ← bufs s !! sh_buffer sh; zget b ((j - sh_y sh) * sh_width sh + (i - sh_x sh)) else None.

(** The topmost of the sheets [l], over [v]. *)
Definition over (s : wm) (i j v : Z) (l : list Z) : Z := foldl (fun v p => default v (sheet_pixel s i j p)) v l.

Definition on_display (i j : Z) : Prop := 0 <= i < xres /\ 0 <= j < yres.

(** Outside of [R] the screen shows the sheets over the background. *)
Definition screen (R : Z -> Z -> bool) (s : wm) (l : list Z) : Prop :=
  forall i j, on_display i j -> R i j = false -> zget (fb s) (j * xres + i) = Some (over s i j light_blue l).

(** Where there is no sheet it shows the background. *)
Definition background (R : Z -> Z -> bool) (s : wm) (l : list Z) : Prop :=
  forall i j, on_display i j -> R i j = false -> (forall p sh, p ∈ l -> sheets s !! p = Some sh -> covers sh i j = false) ->
    zget (fb s) (j * xres + i) = Some light_blue.

Lemma pixel_none s i j p : (forall sh, sheets s !! p = Some sh -> covers sh i j = false) -> sheet_pixel s i j p = None.
Proof. intros H. unfold sheet_pixel. destruct (sheets s !! p) as [sh|]; [|done]. cbn. by rewrite (H sh eq_refl). Qed.

Lemma over_none s i j v l : (forall p, p ∈ l -> sheet_pixel s i j p = None) -> over s i j v l = v.
Proof.
  revert v. induction l as [|p l IH]; intros v H; [done|]. unfold over. cbn [foldl]. rewrite (H p) by left. apply IH. intros q Hq. apply H. by right.
Qed.

Lemma over_some s i j v v' l : (exists p, p ∈ l /\ sheet_pixel s i j p <> None) -> over s i j v l = over s i j v' l.
Proof.
  revert v v'. induction l as [|p l IH]; intros v v' (q & Hq & Hn); [by apply not_elem_of_nil in Hq|]. unfold over. cbn [foldl].
  destruct (sheet_pixel s i j p) as [x|] eqn:E; [done|]. apply IH. exists q. apply elem_of_cons in Hq as [->|Hq]; [done|]. done.
Qed.

Lemma screen_background R s l : screen R s l -> background R s l.
Proof.
  intros Hs i j Hd HR Hc. rewrite (Hs i j Hd HR). f_equal. apply over_none. intros p Hp. apply pixel_none. eauto.
Qed.

Lemma wm_draw_sheet_ok s p sh : clean s -> sheets s !! p = Some sh ->
  exists f, wm_draw_sheet xres p s = Ret (set_fb f s) /\ zlen f = zlen (fb s) /\
    forall i j, on_display i j -> zget f (j * xres + i) = match sheet_pixel s i j p with Some v => Some v | None => zget (fb s) (j * xres + i) end.
Proof.
  intros Ho Hp. destruct (clean_sheet s p sh Ho Hp) as ((Hx & Hw & Hxw & Hy & Hh & Hyh) & b & Hb & Hl & _). pose proof (obj_fb _ _ Ho) as Hfb.
  unfold wm_draw_sheet, get_sheet, get_buf. rewrite Hp. cbn [of_option obind]. rewrite Hb. cbn [of_option obind].
  destruct (wm_copy_buffer_ok (fb s) (sh_x sh) (sh_y sh) xres yres b (sh_width sh) (sh_height sh) (sh_width sh) (sh_height sh)) as (f & -> & Lf & Gf); [lia..|]. cbn [obind].
  exists f. split; [done|]. split; [done|]. intros i j [Hi Hj]. rewrite Gf by done. unfold sheet_pixel. rewrite Hp. cbn. fold (covers sh i j).
  destruct (covers sh i j) eqn:Ec; [|done]. rewrite Hb. cbn. apply in_rect_spec in Ec. destruct (zget_is_Some b ((j - sh_y sh) * sh_width sh + (i - sh_x sh))) as [v Ev]; [nia|]. by rewrite Ev.
Qed.

Lemma draw_from_ok l : forall s p n, clean s -> lseg (sheets s) p l 0 -> (length l <= n)%nat ->
  exists f, draw_from xres n p s = Ret (set_fb f s) /\ zlen f = zlen (fb s) /\
    forall i j, on_display i j -> zget f (j * xres + i) = (fun v => over s i j v l) <$> zget (fb s) (j * xres + i).
Proof.
  induction l as [|q l IH]; intros s p n Ho Hs Hn.
  - apply lseg_nil_inv in Hs as ->. exists (fb s). split; [by destruct n; destruct s|]. split; [done|]. intros i j _. by destruct (zget _ _).
  - inversion Hs as [|? sh ? ? Hq Hm Hl]; subst. destruct n as [|n]; [cbn in Hn; lia|]. cbn [draw_from]. assert (E0 : (q =? 0) = false) by lia. rewrite E0.
    destruct (wm_draw_sheet_ok s q sh Ho Hm) as (f1 & -> & L1 & G1). cbn [obind]. unfold get_sheet at 1. cbn [sheets set_fb]. rewrite Hm. cbn [of_option obind].
    destruct (IH (set_fb f1 s) (sh_next sh) n) as (f & E & L & G); [by apply clean_set_fb|done|cbn in Hn; lia|]. exists f. rewrite E. split; [by destruct s|]. split; [cbn in L; lia|].
    intros i j Hd. rewrite (G i j Hd). cbn [fb set_fb]. rewrite (G1 i j Hd). change (sheet_pixel s i j q) with (sheet_pixel (set_fb f1 s) i j q) at 1.
    assert (Hz : exists v, zget (fb s) (j * xres + i) = Some v) by (apply zget_is_Some; rewrite (obj_fb _ _ Ho); destruct Hd; nia). destruct Hz as [v Hz]. rewrite Hz.
    unfold over. cbn [foldl]. change (sheet_pixel (set_fb f1 s)) with (sheet_pixel s). by destruct (sheet_pixel s i j q).
Qed.

(** Drawing all sheets puts them over the background. *)
Lemma draw_sheets_ok R s l : clean s -> lseg (sheets s) (sheet_list s) l 0 -> background R s l ->
  exists f, draw_sheets xres s = Ret (set_fb f s) /\ clean (set_fb f s) /\ screen R (set_fb f s) l.
Proof.
  intros Ho Hl Hb. destruct (draw_from_ok l s (sheet_list s) (nsheets s) Ho Hl (lseg_size _ _ _ Hl)) as (f & E & L & G). exists f. split; [done|].
  split; [by apply clean_set_fb|]. intros i j Hd HR. cbn [fb set_fb]. rewrite (G i j Hd).
  assert (Hz : exists v, zget (fb s) (j * xres + i) = Some v) by (apply zget_is_Some; rewrite (obj_fb _ _ Ho); destruct Hd; nia). destruct Hz as [v Hz]. rewrite Hz. cbn [fmap option_fmap option_map]. f_equal.
  transitivity (over s i j light_blue l); [|done].
  destruct (decide (Exists (fun p => sheet_pixel s i j p <> None) l)) as [He|Hne].
  - apply Exists_exists in He as (p & Hp & Hn). apply over_some. eauto.
  - assert (Hnone : forall p, p ∈ l -> sheet_pixel s i j p = None).
    { intros p Hp. destruct (sheet_pixel s i j p) eqn:Ep; [|done]. destruct Hne. apply Exists_exists. exists p. by rewrite Ep. }
    rewrite !over_none by done. rewrite (Hb i j Hd HR) in Hz; [by injection Hz|]. intros p sh Hp Hsh. destruct (covers sh i j) eqn:Ec; [|done]. exfalso.
    pose proof (Hnone p Hp) as Hx. unfold sheet_pixel in Hx. rewrite Hsh in Hx. cbn in Hx. rewrite Ec in Hx.
    destruct (clean_sheet s p sh Ho Hsh) as ((? & ? & ? & ? & ? & ?) & b & Hbf & Hlb & _). rewrite Hbf in Hx. cbn in Hx. apply in_rect_spec in Ec.
    destruct (zget_is_Some b ((j - sh_y sh) * sh_width sh + (i - sh_x sh))) as [x Ex]; [nia|]. by rewrite Ex in Hx.
Qed.
(** ** Operations keep the screen *)

(** All objects are fine, the sheets [l] are linked, and the background is there. *)
Definition good (R : Z -> Z -> bool) (s : wm) (l : list Z) : Prop :=
  clean s /\ lseg (sheets s) (sheet_list s) l 0 /\ background R s l.

(** The cursor and the move in progress. *)
Definition ui (s : wm) : Z * Z * Z * Z * Z * Z := (cur_x s, cur_y s, win_moving s, prev_x s, prev_y s, prevbtn s).

Lemma background_mono R s s' l l' : fb s' = fb s ->
  (forall p sh, p ∈ l -> sheets s !! p = Some sh -> exists sh', p ∈ l' /\ sheets s' !! p = Some sh' /\ set_next sh 0 = set_next sh' 0) ->
  background R s l -> background R s' l'.
Proof.
  intros Hfb H Hb i j Hd HR Hc. rewrite Hfb. apply (Hb i j Hd HR). intros p sh Hp Hsh. destruct (H p sh Hp Hsh) as (sh' & Hp' & Hsh' & E).
  change (covers (set_next sh 0) i j = false). rewrite E. exact (Hc p sh' Hp' Hsh').
Qed.

Lemma background_relinked R s s' l : relinked s s' -> background R s l -> background R s' l.
Proof.
  intros Hr. apply background_mono; [destruct Hr as [_ E]; by rewrite E|]. intros p sh Hp Hsh. destruct (relinked_Some s s' p sh Hr Hsh) as (sh' & ? & ?). eauto.
Qed.

Lemma relinked_ui s s' : relinked s s' -> ui s' = ui s /\ brk s' = brk s /\ outputs s' = outputs s.
Proof. intros [_ E]. rewrite E. done. Qed.

Lemma good_member R s l p : good R s l -> p ∈ l -> exists sh, sheets s !! p = Some sh /\ p <> 0.
Proof. intros (_ & Hl & _) Hp. destruct (lseg_elem _ _ _ _ _ Hl Hp) as (? & sh & ?). eauto. Qed.

(** A change of the contents of buffers only. *)
Definition redrawn (s s' : wm) : Prop :=
  clean s' /\ sheets s' = sheets s /\ sheet_list s' = sheet_list s /\ fb s' = fb s /\ ui s' = ui s /\ outputs s' = outputs s /\ brk s' = brk s.

Lemma background_redrawn R s s' l : redrawn s s' -> background R s l -> background R s' l.
Proof. intros (_ & Es & _ & Ef & _) Hb i j Hd HR Hc. rewrite Ef. apply (Hb i j Hd HR). rewrite <- Es. exact Hc. Qed.

Lemma good_redrawn R s s' l : good R s l -> redrawn s s' -> good R s' l.
Proof.
  intros (_ & Hl & Hb) Hr. split; [apply Hr|]. split; [|by apply (background_redrawn R s)]. destruct Hr as (_ & Es & El & _). by rewrite Es, El.
Qed.

Lemma render_redrawn s d p sh colour : objects d s -> (d <> 0 -> d = p) -> sheets s !! p = Some sh -> sh_window sh <> 0 ->
  exists s', wm_render_window font16 p colour s = Ret s' /\ redrawn s s'.
Proof.
  intros Ho Hd Hp Hn. destruct (wm_render_window_ok d p sh colour s Ho Hd Hp Hn) as (b & E & Hc). eexists. split; [exact E|]. by split.
Qed.

Lemma redrawn_refl s : clean s -> redrawn s s.
Proof. by split. Qed.

Lemma render_if_window_redrawn s p sh colour : clean s -> sheets s !! p = Some sh -> exists s', render_if_window font16 p colour s = Ret s' /\ redrawn s s'.
Proof.
  intros Ho Hp. unfold render_if_window, get_sheet. rewrite Hp. cbn [of_option obind]. destruct (Z.eqb_spec (sh_window sh) 0) as [|Hn]; [exists s; auto using redrawn_refl|].
  by apply (render_redrawn s 0 p sh).
Qed.

(** A drawing that stays inside its canvas. *)
Definition draws (draw : list Z -> Z -> Z -> outcome (list Z)) (w h : Z) : Prop :=
  forall b, zlen b = w * h -> exists b', draw b w h = Ret b' /\ zlen b' = zlen b.

(** The size of what a client draws to. *)
Definition canvas (sh : Sheet) : Z * Z := (sh_width sh, if sh_window sh =? 0 then sh_height sh else sh_height sh - 32).

Lemma render_again_redrawn s d p sh : objects d s -> (d <> 0 -> d = p) -> sheets s !! p = Some sh -> sh_window sh <> 0 ->
  exists s', render_again font16 p s = Ret s' /\ redrawn s s'.
Proof. intros Ho Hd Hp Hn. unfold render_again, get_sheet. rewrite Hp. cbn [of_option obind]. by apply (render_redrawn s d p sh). Qed.

Lemma on_canvas_redrawn s p sh draw : clean s -> sheets s !! p = Some sh -> draws draw (fst (canvas sh)) (snd (canvas sh)) ->
  exists s', on_canvas font16 p draw s = Ret s' /\ redrawn s s'.
Proof.
  intros Ho Hp Hdr. unfold on_canvas, get_sheet, get_window, get_buf. rewrite Hp. cbn [of_option obind]. unfold canvas in Hdr. cbn [fst snd] in Hdr.
  destruct (clean_sheet s p sh Ho Hp) as (Hs & b & Hbf & Hlb & Hw). destruct (Z.eqb_spec (sh_window sh) 0) as [E0|Hn].
  - rewrite Hbf. cbn [of_option obind]. destruct (Hdr b Hlb) as (b' & -> & Lb). cbn [obind]. eexists. split; [reflexivity|]. split; [|done].
    apply (objects_put_buf 0 0 s p sh); [done|done|done|by rewrite Hbf|by left|]. split; [done|]. exists b'. cbn [put_buf set_bufs bufs]. rewrite lookup_insert_eq.
    split; [done|]. split; [lia|]. by rewrite E0.
  - destruct (Hw Hn) as (w & wb & Hw1 & Hw2 & Hok & Hr). rewrite Hw1. cbn [of_option obind]. rewrite Hw2. cbn [of_option obind]. pose proof Hok as (Ew & Eh & Hwh & _ & Lwb & Ht).
    rewrite Ew in *. replace (w_height w) with (sh_height sh - 32) in * by lia. destruct (Hdr wb Lwb) as (b' & -> & Lb). cbn [obind].
    assert (Hne : sh_buffer sh <> w_buffer w) by exact (obj_disjoint _ _ Ho _ _ _ _ Hp Hw1).
    destruct (render_again_redrawn (put_buf (w_buffer w) b' s) p p sh) as (s' & E & G); [|done|done|done|by exists s'].
    apply (objects_put_buf 0 p s p sh); [done|done|done|by rewrite Hw2|right; eauto|]. rewrite bool_decide_true by done. split; [done|]. exists b. cbn [put_buf set_bufs bufs windows].
    rewrite lookup_insert_ne by done. split; [done|]. split; [done|]. intros _. exists w, b'. rewrite lookup_insert_eq. split_and!; [done|done| |done].
    unfold window_ok in *. intuition lia.
Qed.
(** *** Creation *)

Hypothesis heap_small : heap_end < 2 ^ 31.

Lemma s32_u32_small n : 0 <= n < 2 ^ 31 -> s32 (u32 n) = n.
Proof. intros Hn. assert (E : n mod 2 ^ 32 = n) by (apply Z.mod_small; lia). unfold s32, u32. rewrite !E. cbn zeta. destruct (Z.ltb_spec n (2 ^ 31)); lia. Qed.

Lemma malloc_ok size s : 0 < brk s -> 0 <= size -> brk s + size <= heap_end -> malloc heap_end size s = Ret (brk s, set_brk (brk s + size) s).
Proof.
  intros Hb Hs He. unfold malloc. rewrite s32_u32_small by lia. destruct (Z.ltb_spec size 0); [lia|]. destruct (Z.leb_spec (brk s + size) heap_end); [done|lia].
Qed.

Lemma malloc_object_ok size s : 0 < brk s -> 0 <= size -> brk s + size <= heap_end -> malloc_object heap_end size s = Ret (brk s, set_brk (brk s + size) s).
Proof.
  intros Hb Hs He. unfold malloc_object. rewrite malloc_ok by done. cbn [obind]. destruct (Z.eqb_spec (brk s) MALLOC_FAILED); [unfold MALLOC_FAILED in *; lia|done].
Qed.

Lemma malloc_pixels_ok w h s : 0 < brk s -> 0 < w -> 0 < h -> brk s + 4 * w * h <= heap_end ->
  malloc_pixels heap_end w h s = Ret (brk s, put_buf (brk s) (repeat 0 (Z.to_nat (w * h))) (set_brk (brk s + 4 * w * h) s)).
Proof.
  intros Hb Hw Hh He. unfold malloc_pixels. assert (E : u32 (4 * w * h) = 4 * w * h) by (apply Z.mod_small; nia). rewrite E, malloc_ok by nia. cbn [obind].
  destruct (Z.eqb_spec (brk s) MALLOC_FAILED); [unfold MALLOC_FAILED in *; nia|]. do 4 f_equal. replace (4 * w * h) with (w * h * 4) by lia. by rewrite Z.div_mul.
Qed.

Lemma objects_grow d s b : objects d s -> brk s <= b <= heap_end -> objects d (set_brk b s).
Proof.
  intros [Hfb Hbrk Hfresh Hnull Hsheet Hbuf Hwin Hwb Hwx Hdis Hmov] Hb. constructor; cbn [set_brk sheets windows bufs brk fb win_moving]; try done; [lia|]. intros p Hp. apply Hfresh. lia.
Qed.

(** Sheets are the same over a store with one more buffer. *)
Lemma sheet_ok_fresh_buf d s sh k b : bufs s !! k = None -> sheet_ok d s sh -> sheet_ok d (put_buf k b s) sh.
Proof.
  intros Hk H. pose proof H as (_ & b0 & Hb & _ & Hw). apply sheet_ok_put_buf; [done|intros E; rewrite E in Hb; congruence|].
  intros w Hw1 Hn E. destruct (Hw Hn) as (w' & wb & H1 & H2 & _). rewrite Hw1 in H1. injection H1 as <-. rewrite E, Hk in H2. done.
Qed.

(** A sheet at [p] with its buffer behind it. *)
Lemma objects_new_sheet s x y w h : clean s -> 0 < w -> 0 < h -> on_screen (MkSheet x y w h 0 0 0 0) -> brk s + 32 + 4 * w * h <= heap_end ->
  let p := brk s in
  clean (put_sheet p (MkSheet x y w h 0 (p + 32) 0 0) (put_buf (p + 32) (repeat 0 (Z.to_nat (w * h))) (set_brk (p + 32 + 4 * w * h) s))).
Proof.
  intros Ho Hw Hh Hs He p. pose proof Ho as [Hfb Hbrk Hfresh Hnull Hsheet Hbuf Hwin Hwb Hwx Hdis Hmov]. destruct (Hfresh p) as (Fs & Fw & Fb); [lia|].
  destruct (Hfresh (p + 32)) as (Fs2 & Fw2 & Fb2); [lia|].
  assert (Hold : forall q sh, sheets s !! q = Some sh -> sh_buffer sh <> p + 32).
  { intros q sh Hq E. destruct (Hsheet q sh Hq) as (_ & b & Hb & _). rewrite E, Fb2 in Hb. done. }
  constructor; cbn [put_sheet put_buf set_brk set_sheets set_bufs sheets windows bufs brk fb win_moving]; try done.
  - lia.
  - intros q Hq. rewrite !lookup_insert_ne by lia. apply Hfresh. lia.
  - rewrite lookup_insert_ne by lia. done.
  - intros q sh. destruct (decide (q = p)) as [->|Hq].
    + rewrite lookup_insert_eq. intros [= <-]. split; [exact Hs|]. exists (repeat 0 (Z.to_nat (w * h))). cbn [put_sheet put_buf set_brk set_sheets set_bufs bufs sh_buffer sh_width sh_height sh_window].
      rewrite lookup_insert_eq. split; [done|]. split; [unfold zlen; rewrite repeat_length; lia|done].
    + rewrite lookup_insert_ne by done. intros Hsh. exact (sheet_ok_fresh_buf _ s sh (p + 32) _ Fb2 (Hsheet q sh Hsh)).
  - intros q r sh sh'. destruct (decide (q = p)) as [->|Hq], (decide (r = p)) as [->|Hr]; rewrite ?lookup_insert_eq, ?lookup_insert_ne by done; try done.
    + intros [= <-] Hr' E. cbn in E. destruct (Hold r sh' Hr'). done.
    + intros Hq' [= <-] E. cbn in E. destruct (Hold q sh Hq'). done.
    + by apply Hbuf.
  - intros q r sh sh'. destruct (decide (q = p)) as [->|Hq], (decide (r = p)) as [->|Hr]; rewrite ?lookup_insert_eq, ?lookup_insert_ne by done; try done.
    + intros [= <-] _ []. done.
    + intros Hq' [= <-] Hn E. cbn in E. done.
    + by apply Hwin.
  - intros q v Hv. destruct (decide (p + 32 = w_buffer v)) as [->|]; [by rewrite lookup_insert_eq|rewrite lookup_insert_ne by done; by apply (Hwx q)].
  - intros q r sh v. destruct (decide (q = p)) as [->|Hq]; rewrite ?lookup_insert_eq, ?lookup_insert_ne by done; [|by apply Hdis]. intros [= <-] Hv E. cbn in E.
    destruct (Hwx r v Hv) as [b Hb]. rewrite <- E, Fb2 in Hb. done.
  - destruct Hmov as [|Hm]; [by left|]. right. destruct (decide (p = win_moving s)) as [->|]; [rewrite lookup_insert_eq; done|by rewrite lookup_insert_ne].
Qed.
(** The last sheet is linked to [p], which is the last one then. *)
Lemma link_last s l q p shq shp : lseg (sheets s) (sheet_list s) (l ++ [q]) 0 -> p ∉ l ++ [q] -> sheets s !! q = Some shq -> sheets s !! p = Some shp -> sh_next shp = 0 -> p <> 0 ->
  lseg (sheets (put_sheet q (set_next shq p) s)) (sheet_list s) ((l ++ [q]) ++ [p]) 0.
Proof.
  intros Hl Hp Hq Hsp Hn H0. cbn [put_sheet set_sheets sheets]. pose proof (lseg_NoDup _ _ _ Hl) as Hd. apply lseg_app in Hl as (r & H1 & H2). inversion H2 as [|? sh ? ? Hr Hm He]; subst.
  rewrite <- app_assoc. apply lseg_app. exists q. apply not_elem_of_app in Hp as [Hp1 Hp2]. apply not_elem_of_cons in Hp2 as [Hp2 _]. split.
  - apply lseg_insert; [|done]. apply NoDup_app in Hd as (_ & Hd & _). intros Hx. apply (Hd q Hx). left.
  - cbn [app]. econstructor; [done|by rewrite lookup_insert_eq|]. cbn [sh_next set_next]. econstructor; [done|rewrite lookup_insert_ne by done; done|]. rewrite Hn. constructor.
Qed.

Lemma create_sheet_good R s l x y w h : good R s l -> 0 < w -> 0 < h -> on_screen (MkSheet x y w h 0 0 0 0) -> brk s + 32 + 4 * w * h <= heap_end ->
  exists s', wm_create_sheet font16 heap_end x y w h s = Ret (brk s, s') /\ good R s' (l ++ [brk s]) /\
    sheets s' !! brk s = Some (MkSheet x y w h 0 (brk s + 32) 0 0) /\ ui s' = ui s /\ outputs s' = outputs s /\ brk s' = brk s + 32 + 4 * w * h.
Proof.
  intros (Ho & Hl & Hb) Hw Hh Hs He. pose proof (obj_brk _ _ Ho) as Hbrk. pose proof (objects_new_sheet s x y w h Ho Hw Hh Hs He) as Hc. cbn zeta in Hc.
  destruct (obj_fresh _ _ Ho (brk s)) as (Fs & _); [lia|].
  unfold wm_create_sheet. rewrite malloc_object_ok by nia. cbn [obind]. rewrite malloc_pixels_ok by (cbn [brk set_brk]; nia). cbn [obind brk set_brk].
  set (sh := MkSheet x y w h 0 (brk s + 32) 0 0) in *. set (zeros := repeat 0 (Z.to_nat (w * h))) in *.
  change (set_brk (brk s + 32 + 4 * w * h) (set_brk (brk s + 32) s)) with (set_brk (brk s + 32 + 4 * w * h) s).
  set (s3 := put_sheet (brk s) sh _) in *.
  assert (Hp : brk s ∉ l) by (intros Hx; destruct (lseg_elem _ _ _ _ _ Hl Hx) as (_ & sh' & E); congruence).
  assert (Hl3 : lseg (sheets s3) (sheet_list s3) l 0) by (apply lseg_insert; done).
  assert (Hp3 : sheets s3 !! brk s = Some sh) by (apply lookup_insert_eq).
  assert (Hb3 : background R s3 l).
  { apply (background_mono R s s3 l l); [done| |exact Hb]. intros q shq Hq Hshq. exists shq. split; [done|]. split; [|done]. cbn [s3 put_sheet set_sheets sheets]. rewrite lookup_insert_ne; [done|]. intros E. by rewrite E in Hp. }
  destruct (Z.eqb_spec (sheet_list s) 0) as [E0|Hn0].
  - assert (l = []) as -> by (destruct l as [|q l]; [done|]; destruct (lseg_first _ _ _ _ Hl) as [? _]; [done|congruence]).
    eexists. split; [reflexivity|]. split; [|done]. split; [exact (objects_relinked 0 s3 _ (relink_head _ _) Hc)|]. split.
    + cbn [app set_list sheets sheet_list]. econstructor; [lia|exact Hp3|constructor].
    + apply (background_mono R s3 _ [] _); [done|intros q shq Hq; by apply not_elem_of_nil in Hq|exact Hb3].
  - destruct l as [|q l _] using rev_ind; [apply lseg_nil_inv in Hl; done|].
    assert (Hlen : (length l <= nsheets s3)%nat) by (pose proof (lseg_size _ _ _ Hl3) as Hz; rewrite length_app in Hz; cbn [length] in Hz; unfold nsheets; lia).
    rewrite (last_sheet_ok l q _ _ s3 Hl3 Hlen). cbn [obind].
    destruct (lseg_elem _ _ _ _ q Hl3) as (Hq0 & shq & Hq); [apply elem_of_app; right; left|].
    destruct (render_if_window_redrawn s3 q shq gray Hc Hq) as (s4 & -> & Hr4). destruct (good_redrawn R s3 s4 (l ++ [q])) as (Ho4 & Hl4 & Hb4); [done|done|].
    destruct Hr4 as (_ & Es4 & El4 & Ef4 & Eu4 & Eo4 & Ek4). cbn [obind].
    rewrite Es4 in *. rewrite (link_ok q shq) by (by rewrite Es4). cbn [obind]. eexists. split; [reflexivity|]. split; [|].
    + split; [exact (objects_relinked 0 s4 _ (relink_next q shq (brk s) s4 ltac:(by rewrite Es4)) Ho4)|]. split.
      * apply (link_last s4 l q (brk s) shq sh); try rewrite Es4; done || lia.
      * apply (background_mono R s4 _ (l ++ [q]) _); [done| |exact Hb4]. intros r shr Hr Hshr. destruct (relinked_Some s4 _ r shr (relink_next q shq (brk s) s4 ltac:(by rewrite Es4)) Hshr) as (sh' & ? & ?).
        exists sh'. split; [apply elem_of_app; by left|done].
    + split; [|done]. cbn [put_sheet set_sheets sheets]. rewrite lookup_insert_ne, Es4; [done|]. intros E. apply Hp, elem_of_app. right. rewrite <- E. left.
Qed.
(** A sheet becomes a window, with a buffer of its own. *)
Lemma objects_new_window s p sh w h wb : clean s -> sheets s !! p = Some sh -> sh_window sh = 0 -> 28 <= w -> 0 < h -> sh_width sh = w -> sh_height sh = h + 32 ->
  zlen wb = w * h -> brk s + 76 + 4 * w * h <= heap_end ->
  let q := brk s in
  objects p (put_buf (q + 76) wb (put_window q (MkWindow w h (q + 76) (repeat 0 64)) (put_sheet p (set_window sh q) (set_brk (q + 76 + 4 * w * h) s)))).
Proof.
  intros Ho Hp Hw0 Hw Hh Ew Eh Lwb He q. pose proof Ho as [Hfb Hbrk Hfresh Hnull Hsheet Hbuf Hwin Hwb Hwx Hdis Hmov].
  destruct (Hfresh q) as (Fs & Fw & Fb); [lia|]. destruct (Hfresh (q + 76)) as (_ & _ & Fb2); [lia|].
  assert (Hsb : forall r shr, sheets s !! r = Some shr -> sh_buffer shr <> q + 76).
  { intros r shr Hr E. destruct (Hsheet r shr Hr) as (_ & b & Hb & _). rewrite E, Fb2 in Hb. done. }
  assert (Hsw : forall r shr, sheets s !! r = Some shr -> sh_window shr <> q).
  { intros r shr Hr E. destruct (Hsheet r shr Hr) as (_ & b & _ & _ & Hx). destruct Hx as (v & vb & Hv & _); [lia|]. rewrite E, Fw in Hv. done. }
  assert (Hvb : forall r v, windows s !! r = Some v -> w_buffer v <> q + 76).
  { intros r v Hr E. destruct (Hwx r v Hr) as [b Hb]. rewrite E, Fb2 in Hb. done. }
  assert (Hpne : p <> 0) by (intros ->; congruence).
  constructor; cbn [put_sheet put_buf put_window set_brk set_sheets set_bufs set_windows sheets windows bufs brk fb win_moving]; try done.
  - nia.
  - intros r Hr. assert (r <> p) by (intros ->; destruct (Hfresh p); [nia|congruence]). rewrite !lookup_insert_ne by nia. apply Hfresh. nia.
  - rewrite lookup_insert_ne by done. done.
  - intros r shr. destruct (decide (r = p)) as [->|Hr].
    + rewrite lookup_insert_eq. intros [= <-]. rewrite bool_decide_true by done. destruct (clean_sheet s p sh Ho Hp) as (Hs & b & Hb & Hlb & _). split; [exact Hs|].
      exists b. cbn [put_sheet put_buf put_window set_brk set_sheets set_bufs set_windows bufs windows sh_buffer set_window sh_width sh_height sh_window].
      rewrite lookup_insert_ne by (apply not_eq_sym; by apply (Hsb p)). split; [done|]. split; [done|]. intros _. exists (MkWindow w h (q + 76) (repeat 0 64)), wb.
      rewrite lookup_insert_eq. cbn [w_buffer]. rewrite lookup_insert_eq. split_and!; [done|done| |done]. unfold window_ok. cbn [w_width w_height title sh_width sh_height set_window].
      split_and!; [lia|lia|lia|lia|done|done|]. exists 0. split; [|lia]. apply printable_end. by left.
    + rewrite lookup_insert_ne by done. intros Hsh. rewrite bool_decide_false by done. pose proof (clean_sheet s r shr Ho Hsh) as Hok.
      assert (Hok2 : sheet_ok false (put_window q (MkWindow w h (q + 76) (repeat 0 64)) (put_sheet p (set_window sh q) (set_brk (q + 76 + 4 * w * h) s))) shr).
      { destruct Hok as (Hs & b & Hb & Hlb & Hwd). split; [done|]. exists b. split; [done|]. split; [done|]. intros Hn. destruct (Hwd Hn) as (v & vb & Hv & Hvb' & ?). exists v, vb.
        cbn [put_window set_windows windows put_sheet set_sheets set_brk]. rewrite lookup_insert_ne by (apply not_eq_sym; by apply (Hsw r)). done. }
      refine (sheet_ok_fresh_buf _ _ _ (q + 76) wb _ Hok2). exact Fb2.
  - intros r t shr sht. destruct (decide (r = p)) as [->|Hr], (decide (t = p)) as [->|Ht]; rewrite ?lookup_insert_eq, ?lookup_insert_ne by done; try done.
    + intros [= <-] Ht' E. by apply (Hbuf p t sh sht).
    + intros Hr' [= <-] E. by apply (Hbuf r p shr sh).
    + by apply Hbuf.
  - intros r t shr sht. destruct (decide (r = p)) as [->|Hr], (decide (t = p)) as [->|Ht]; rewrite ?lookup_insert_eq, ?lookup_insert_ne by done; try done.
    + intros [= <-] Ht' _ E. cbn in E. by destruct (Hsw t sht Ht').
    + intros Hr' [= <-] _ E. cbn in E. by destruct (Hsw r shr Hr').
    + by apply Hwin.
  - intros r t v v'. destruct (decide (r = q)) as [->|Hr], (decide (t = q)) as [->|Ht]; rewrite ?lookup_insert_eq, ?lookup_insert_ne by done; try done.
    + intros [= <-] Ht' E. cbn in E. by destruct (Hvb t v' Ht').
    + intros Hr' [= <-] E. cbn in E. by destruct (Hvb r v Hr').
    + by apply Hwb.
  - intros r v. destruct (decide (r = q)) as [->|Hr]; rewrite ?lookup_insert_eq, ?lookup_insert_ne by done.
    + intros [= <-]. cbn [w_buffer]. by rewrite lookup_insert_eq.
    + intros Hv. rewrite lookup_insert_ne by (apply not_eq_sym; by apply (Hvb r)). by apply (Hwx r).
  - intros r t shr v. destruct (decide (r = p)) as [->|Hr], (decide (t = q)) as [->|Ht]; rewrite ?lookup_insert_eq, ?lookup_insert_ne by done.
    + intros [= <-] [= <-]. cbn [sh_buffer set_window w_buffer]. by apply (Hsb p).
    + intros [= <-] Hv. by apply (Hdis p t sh v).
    + intros Hr' [= <-]. cbn [w_buffer]. by apply (Hsb r).
    + by apply Hdis.
  - destruct Hmov as [|Hm]; [by left|]. right. destruct (decide (p = win_moving s)) as [->|]; [rewrite lookup_insert_eq; done|by rewrite lookup_insert_ne].
Qed.

Lemma put_buf_again k b b0 q w p sh s : put_buf k b (put_window q w (put_sheet p sh (put_buf k b0 s))) = put_buf k b (put_window q w (put_sheet p sh s)).
Proof. unfold put_buf at 1 3. unfold set_bufs. f_equal. cbn [put_window put_sheet put_buf set_windows set_sheets set_bufs bufs]. apply insert_insert_eq. Qed.

Lemma create_window_good R s l x y w h : good R s l -> 28 <= w -> 0 < h -> on_screen (MkSheet x y w (h + 32) 0 0 0 0) ->
  brk s + 32 + 4 * w * (h + 32) + 76 + 4 * w * h <= heap_end ->
  exists s' sh, wm_create_window font16 heap_end w h x y s = Ret (brk s, s') /\ good R s' (l ++ [brk s]) /\ sheets s' !! brk s = Some sh /\ ui s' = ui s /\ outputs s' = outputs s.
Proof.
  intros Hg Hw Hh Hs He. pose proof (obj_brk _ _ (proj1 Hg)) as Hbrk.
  destruct (create_sheet_good R s l x y w (h + 32) Hg) as (s1 & E1 & (Ho1 & Hl1 & Hb1) & Hp1 & Eu1 & Eo1 & Ek1); [lia|lia|done|nia|].
  unfold wm_create_window. rewrite E1. cbn [obind]. rewrite malloc_object_ok by nia. cbn [obind]. rewrite malloc_pixels_ok by (cbn [brk set_brk]; nia). cbn [obind brk set_brk].
  unfold get_sheet at 1. cbn [sheets put_buf set_bufs set_brk]. rewrite Hp1. cbn [of_option obind]. set (sh := MkSheet x y w (h + 32) 0 (brk s + 32) 0 0) in *. set (q := brk s1) in *.
  unfold get_buf at 1. cbn [put_window put_sheet put_buf set_windows set_sheets set_bufs set_brk bufs]. rewrite lookup_insert_eq. cbn [of_option obind].
  destruct (wm_fill_buffer_ok (repeat 0 (Z.to_nat (w * h))) 0 0 w h w h white) as (wb & -> & Lwb & _); [unfold zlen; rewrite repeat_length; nia|lia..|]. cbn [obind].
  assert (Lwb' : zlen wb = w * h) by (rewrite Lwb; unfold zlen; rewrite repeat_length; nia).
  pose proof (objects_new_window s1 (brk s) sh w h wb Ho1 Hp1 eq_refl Hw Hh eq_refl eq_refl Lwb' ltac:(lia)) as Ho2. cbn zeta in Ho2. fold q in Ho2.
  match goal with |- context [wm_render_window _ _ _ ?st] => set (s2 := st) end.
  assert (E2 : s2 = put_buf (q + 76) wb (put_window q (MkWindow w h (q + 76) (repeat 0 64)) (put_sheet (brk s) (set_window sh q) (set_brk (q + 76 + 4 * w * h) s1)))).
  { unfold s2. rewrite put_buf_again. reflexivity. }
  rewrite <- E2 in Ho2. assert (Hp2 : sheets s2 !! brk s = Some (set_window sh q)) by (rewrite E2; apply lookup_insert_eq).
  assert (Hl2 : lseg (sheets s2) (sheet_list s2) (l ++ [brk s]) 0).
  { rewrite E2. cbn [put_buf put_window put_sheet set_bufs set_windows set_sheets set_brk sheets sheet_list]. apply lseg_app in Hl1 as (r & Ha & Hz). inversion Hz as [|? shz ? ? Hr0 Hm Hn]; subst.
    apply lseg_app. exists (brk s). split.
    - apply lseg_insert; [|done]. intros Hx. destruct Hg as (Ho & Hl & _). destruct (lseg_elem _ _ _ _ _ Hl Hx) as (_ & sh' & E). destruct (obj_fresh _ _ Ho (brk s)) as (F & _); [lia|]. congruence.
    - econstructor; [lia|by rewrite lookup_insert_eq|]. rewrite Hp1 in Hm. injection Hm as <-. apply lseg_nil_inv in Hn. cbn [sh_next set_window]. cbn in Hn. constructor. }
  assert (Hb2 : background R s2 (l ++ [brk s])).
  { rewrite E2. intros i j Hd HR Hc. apply (Hb1 i j Hd HR). intros r shr Hr Hshr. destruct (decide (r = brk s)) as [->|Hne].
    - rewrite Hp1 in Hshr. injection Hshr as <-. exact (Hc (brk s) (set_window sh q) Hr (lookup_insert_eq _ _ _)).
    - apply (Hc r shr Hr). cbn [put_buf put_window put_sheet set_bufs set_windows set_sheets set_brk sheets]. by rewrite lookup_insert_ne. }
  destruct (render_redrawn s2 (brk s) (brk s) (set_window sh q) dark_blue Ho2) as (s' & -> & Hr); [done|done| |].
  { cbn [sh_window set_window]. unfold q. pose proof (obj_brk _ _ Ho1). lia. }
  cbn [obind]. exists s', (set_window sh q). split; [done|]. split; [|destruct Hr as (_ & Es & _ & _ & Eu & Eo & _); rewrite Es; split; [done|]; rewrite Eu, Eo; split; [exact Eu1|exact Eo1]].
  split; [apply Hr|]. split; [|by apply (background_redrawn R s2)]. destruct Hr as (_ & Es & El & _). by rewrite Es, El.
Qed.
(** *** Titles *)

Lemma printable_app t n r : printable t n -> printable (t ++ r) n.
Proof. induction 1; cbn [app]; by constructor. Qed.

(** A title that fits its bytes and its bar. *)
Definition title_fits (sh : Sheet) (t : list Z) : Prop :=
  exists bytes n, strcpy t = Ret bytes /\ zlen bytes <= 64 /\ printable bytes n /\ 8 + 8 * n <= sh_width sh.

Lemma objects_new_title s p sh w t : clean s -> sheets s !! p = Some sh -> sh_window sh <> 0 -> windows s !! sh_window sh = Some w ->
  zlen t = 64 -> (exists n, printable t n /\ 8 + 8 * n <= sh_width sh) ->
  clean (put_window (sh_window sh) (MkWindow (w_width w) (w_height w) (w_buffer w) t) s).
Proof.
  intros Ho Hp Hn Hw Ht Hpr. pose proof Ho as [Hfb Hbrk Hfresh Hnull Hsheet Hbuf Hwin Hwb Hwx Hdis Hmov]. set (q := sh_window sh) in *.
  assert (Hlook : forall r v, <[q := MkWindow (w_width w) (w_height w) (w_buffer w) t]> (windows s) !! r = Some v -> exists v0, windows s !! r = Some v0 /\ w_buffer v0 = w_buffer v).
  { intros r v. destruct (decide (r = q)) as [->|Hr]; [rewrite lookup_insert_eq; intros [= <-]; eauto|rewrite lookup_insert_ne by done; eauto]. }
  constructor; cbn [put_window set_windows sheets windows bufs brk fb win_moving]; try done.
  - intros r Hr. destruct (Hfresh r Hr) as (F1 & F2 & F3). split; [done|]. split; [|done]. rewrite lookup_insert_ne; [done|]. intros <-. congruence.
  - intros r shr Hr. destruct (Hsheet r shr Hr) as (Hs & b & Hb & Hlb & Hwd). split; [done|]. exists b. split; [done|]. split; [done|]. intros Hn'. destruct (Hwd Hn') as (v & vb & Hv & Hvb & Hok & Hrd).
    cbn [put_window set_windows windows bufs]. destruct (decide (sh_window shr = q)) as [Eq|Hne].
    + assert (r = p) as -> by (by apply (Hwin r p shr sh)). rewrite Hr in Hp. injection Hp as ->. fold q in Hv. rewrite Hw in Hv. injection Hv as <-. fold q.
      exists (MkWindow (w_width w) (w_height w) (w_buffer w) t), vb. rewrite lookup_insert_eq. split_and!; [done|done| |done]. unfold window_ok in *. cbn [w_width w_height title]. intuition.
    + exists v, vb. rewrite lookup_insert_ne by done. done.
  - intros r t' v v' Hr Hr' E. destruct (Hlook _ _ Hr) as (x & Hx & Ex), (Hlook _ _ Hr') as (y & Hy & Ey). apply (Hwb r t' x y); congruence.
  - intros r v Hr. destruct (Hlook _ _ Hr) as (x & Hx & Ex). rewrite <- Ex. by apply (Hwx r).
  - intros r t' shr v Hr Hv. destruct (Hlook _ _ Hv) as (x & Hx & Ex). rewrite <- Ex. by apply (Hdis r t').
Qed.

Lemma set_title_redrawn s p sh t : clean s -> sheets s !! p = Some sh -> sh_window sh <> 0 -> title_fits sh t ->
  exists s', wm_window_set_title font16 p t s = Ret s' /\ redrawn s s'.
Proof.
  intros Ho Hp Hn (bytes & n & E & Hl & Hpr & Hf). destruct (clean_sheet s p sh Ho Hp) as (_ & b & _ & _ & Hw). destruct (Hw Hn) as (w & wb & Hw1 & _ & Hok & _).
  unfold wm_window_set_title, get_sheet, get_window. rewrite Hp. cbn [of_option obind]. rewrite Hw1. cbn [of_option obind]. rewrite E. cbn [obind].
  pose proof Hok as (_ & _ & _ & _ & _ & Ht & _). rewrite copy_into_ok by lia. cbn [obind].
  assert (Hc : clean (put_window (sh_window sh) (MkWindow (w_width w) (w_height w) (w_buffer w) (splice 0 bytes (title w))) s)).
  { apply (objects_new_title s p sh w); [done..| |]; [rewrite splice_length; lia|]. exists n. split; [|done]. rewrite splice_0_app. by apply printable_app. }
  destruct (render_again_redrawn _ 0 p sh Hc) as (s' & E' & Hr); [done|done|done|]. exists s'. split; [exact E'|]. exact Hr.
Qed.

(** *** Removing and raising *)

Lemma fill_screen_ok d s x y w h colour : objects d s -> 0 <= x -> 0 <= w -> x + w <= xres -> 0 <= y -> 0 <= h -> y + h <= yres ->
  exists f, fill_screen xres x y w h colour s = Ret (set_fb f s) /\ zlen f = zlen (fb s) /\
    forall i j, on_display i j -> zget f (j * xres + i) = if in_rect x y w h i j then Some colour else zget (fb s) (j * xres + i).
Proof.
  intros Ho Hx Hw Hxw Hy Hh Hyh. unfold fill_screen. destruct (wm_fill_buffer_ok (fb s) x y w h xres yres colour) as (f & -> & L & G); [apply (obj_fb _ _ Ho)|lia..|].
  exists f. split; [done|]. split; [done|]. intros i j [Hi _]. by apply G.
Qed.

(** Covering a sheet that is not in the list any more. *)
Lemma background_cover R s s1 l l' f sh : background R s l -> fb s1 = fb s ->
  (forall p sh', p ∈ l -> sheets s !! p = Some sh' -> set_next sh' 0 = set_next sh 0 \/ exists sh'', p ∈ l' /\ sheets s1 !! p = Some sh'' /\ set_next sh' 0 = set_next sh'' 0) ->
  (forall i j, on_display i j -> zget f (j * xres + i) = if covers sh i j then Some light_blue else zget (fb s1) (j * xres + i)) ->
  background R (set_fb f s1) l'.
Proof.
  intros Hb Hfb Hl Hf i j Hd HR Hc. cbn [fb set_fb]. rewrite (Hf i j Hd). destruct (covers sh i j) eqn:Ec; [done|]. rewrite Hfb. apply (Hb i j Hd HR).
  intros p sh' Hp Hsh'. destruct (Hl p sh' Hp Hsh') as [E|(sh'' & Hp' & Hs'' & E)].
  - change (covers (set_next sh' 0) i j = false). rewrite E. exact Ec.
  - change (covers (set_next sh' 0) i j = false). rewrite E. exact (Hc p sh'' Hp' Hs'').
Qed.

Lemma remove_good R s l1 p l2 : good R s (l1 ++ p :: l2) ->
  exists s', sheet_remove xres p s = Ret s' /\ good R s' (l1 ++ l2) /\ screen R s' (l1 ++ l2) /\ ui s' = ui s /\ outputs s' = outputs s.
Proof.
  intros (Ho & Hl & Hb). destruct (lseg_elem _ _ _ _ p Hl) as (Hp0 & sh & Hp); [apply elem_of_app; right; left|].
  destruct (unlink_ok s l1 p l2 Hl) as (s1 & E1 & Hr & Hl1 & Hp1). unfold sheet_remove, get_sheet. rewrite Hp. cbn [of_option obind]. rewrite E1. cbn [obind].
  pose proof (objects_relinked 0 s s1 Hr Ho) as Ho1. destruct (clean_sheet s p sh Ho Hp) as ((? & ? & ? & ? & ? & ?) & _).
  destruct (fill_screen_ok 0 s1 (sh_x sh) (sh_y sh) (sh_width sh) (sh_height sh) light_blue Ho1) as (f & -> & Lf & Gf); [lia..|]. cbn [obind].
  assert (Hfb : fb s1 = fb s) by (destruct Hr as [_ E]; by rewrite E).
  destruct (draw_sheets_ok R (set_fb f s1) (l1 ++ l2)) as (f' & -> & Hc & Hs).
  - by apply clean_set_fb.
  - done.
  - apply (background_cover R s s1 (l1 ++ p :: l2) _ f sh Hb Hfb); [|exact Gf]. intros q sh' Hq Hsh'. destruct (decide (q = p)) as [->|Hne]; [left; congruence|]. right.
    destruct (relinked_Some s s1 q sh' Hr Hsh') as (sh'' & ? & ?). exists sh''. split; [|done]. apply elem_of_app in Hq as [Hq|Hq]; apply elem_of_app; [by left|]. apply elem_of_cons in Hq as [->|Hq]; [done|by right].
  - eexists. split; [reflexivity|]. split; [split; [done|]; split; [done|by apply screen_background]|]. split; [done|]. by destruct (relinked_ui s s1 Hr) as (? & ? & ?).
Qed.

Lemma move_top_good R s l1 p l2 sh : good R s (l1 ++ p :: l2) -> l1 ++ l2 <> [] -> sheets s !! p = Some sh -> sh_window sh <> 0 ->
  exists s', window_move_top font16 xres p s = Ret s' /\ good R s' ((l1 ++ l2) ++ [p]) /\ screen R s' ((l1 ++ l2) ++ [p]) /\ ui s' = ui s /\ outputs s' = outputs s.
Proof.
  intros (Ho & Hl & Hb) Hne Hp Hn. pose proof (lseg_NoDup _ _ _ Hl) as Hd. destruct (lseg_elem _ _ _ _ p Hl) as (Hp0 & _); [apply elem_of_app; right; left|].
  destruct (unlink_ok s l1 p l2 Hl) as (s1 & E1 & Hr1 & Hl1 & Hp1). unfold window_move_top. rewrite E1. cbn [obind]. pose proof (objects_relinked 0 s s1 Hr1 Ho) as Ho1. rewrite Hp in Hp1.
  assert (Hpn : p ∉ l1 ++ l2) by (apply NoDup_app in Hd as (_ & Hd1 & Hd2); apply NoDup_cons in Hd2 as [Hd2 _]; intros [Hx|Hx]%elem_of_app; [by apply (Hd1 p Hx); left|done]).
  destruct (exists_last Hne) as (l & q & El). rewrite El in *. assert (Hlen : (length l <= nsheets s1)%nat) by (pose proof (lseg_size _ _ _ Hl1) as Hz; rewrite length_app in Hz; cbn [length] in Hz; unfold nsheets; lia).
  rewrite (last_sheet_ok l q _ _ s1 Hl1 Hlen). cbn [obind]. destruct (lseg_elem _ _ _ _ q Hl1) as (Hq0 & shq & Hq); [apply elem_of_app; right; left|].
  assert (Hpq : p <> q) by (intros ->; apply Hpn, elem_of_app; right; left).
  destruct (render_if_window_redrawn s1 q shq gray Ho1 Hq) as (s2 & -> & Hr2). cbn [obind]. pose proof Hr2 as (Ho2 & Es2 & El2 & Ef2 & Eu2 & Eo2 & _). rewrite <- Es2 in Hq, Hp1.
  rewrite (link_ok q shq) by done. cbn [obind]. set (s3 := put_sheet q (set_next shq p) s2). pose proof (relink_next q shq p s2 Hq) as Hr3. fold s3 in Hr3. pose proof (objects_relinked 0 s2 s3 Hr3 Ho2) as Ho3.
  assert (Hp3 : sheets s3 !! p = Some sh) by (cbn [s3 put_sheet set_sheets sheets]; by rewrite lookup_insert_ne).
  destruct (render_redrawn s3 0 p sh dark_blue Ho3) as (s4 & -> & Hr4); [done|done|done|]. cbn [obind]. pose proof Hr4 as (Ho4 & Es4 & El4 & Ef4 & Eu4 & Eo4 & _). rewrite <- Es4 in Hp3.
  rewrite (link_ok p sh) by done. cbn [obind]. set (s5 := put_sheet p (set_next sh 0) s4). pose proof (relink_next p sh 0 s4 Hp3) as Hr5. fold s5 in Hr5. pose proof (objects_relinked 0 s4 s5 Hr5 Ho4) as Ho5.
  assert (Hl5 : lseg (sheets s5) (sheet_list s5) ((l ++ [q]) ++ [p]) 0).
  { cbn [s5 put_sheet set_sheets sheets sheet_list]. rewrite Es4, El4. cbn [s3 put_sheet set_sheets sheets sheet_list]. rewrite Es2, El2 in *.
    assert (E : <[p := set_next sh 0]> (<[q := set_next shq p]> (sheets s1)) = <[q := set_next shq p]> (<[p := set_next sh 0]> (sheets s1))) by (by apply insert_insert_ne). rewrite E.
    apply (link_last (put_sheet p (set_next sh 0) s1) l q p shq (set_next sh 0)); cbn [put_sheet set_sheets sheets sheet_list]; [|done|by rewrite lookup_insert_ne|by rewrite lookup_insert_eq|done|done].
    by apply lseg_insert. }
  assert (Hb5 : background R s5 ((l ++ [q]) ++ [p])).
  { apply (background_relinked R s4 s5 _ Hr5), (background_redrawn R s3 s4 _ Hr4), (background_relinked R s2 s3 _ Hr3), (background_redrawn R s1 s2 _ Hr2).
    apply (background_mono R s s1 (l1 ++ p :: l2)); [by destruct Hr1 as [_ E]; rewrite E| |done]. intros r shr Hr Hshr. destruct (relinked_Some s s1 r shr Hr1 Hshr) as (sh'' & ? & ?). exists sh''.
    split; [|done]. rewrite <- El. apply elem_of_app in Hr as [Hr|Hr]; rewrite !elem_of_app; [by left; left|]. apply elem_of_cons in Hr as [->|Hr]; [right; left|left; by right]. }
  destruct (draw_sheets_ok R s5 _ Ho5 Hl5 Hb5) as (f & -> & Hc & Hs). eexists. split; [reflexivity|]. split; [split; [done|]; split; [done|by apply screen_background]|]. split; [done|].
  destruct (relinked_ui s s1 Hr1) as (U1 & _ & O1), (relinked_ui s2 s3 Hr3) as (U3 & _ & O3), (relinked_ui s4 s5 Hr5) as (U5 & _ & O5). cbn [set_fb]. split.
  - change (ui (set_fb f s5)) with (ui s5). congruence.
  - change (outputs s5 = outputs s). congruence.
Qed.
(** *** Positions and owners *)

Lemma objects_ext d s s' : sheets s' = sheets s -> windows s' = windows s -> bufs s' = bufs s -> brk s' = brk s -> fb s' = fb s -> win_moving s' = win_moving s \/ win_moving s' = 0 \/ is_Some (sheets s !! win_moving s') ->
  objects d s -> objects d s'.
Proof.
  intros E1 E2 E3 E4 E5 E6 [Hfb Hbrk Hfresh Hnull Hsheet Hbuf Hwin Hwb Hwx Hdis Hmov]. constructor; rewrite ?E1, ?E2, ?E3, ?E4, ?E5; try done.
  - intros p sh Hp. specialize (Hsheet p sh Hp). unfold sheet_ok in *. by rewrite E2, E3.
  - destruct E6 as [->|[|]]; auto.
Qed.

(** A sheet with another position, owner or successor. *)
Definition same_shape (sh sh' : Sheet) : Prop :=
  sh_width sh' = sh_width sh /\ sh_height sh' = sh_height sh /\ sh_buffer sh' = sh_buffer sh /\ sh_window sh' = sh_window sh.

Lemma objects_update d s p sh sh' : objects d s -> sheets s !! p = Some sh -> same_shape sh sh' -> on_screen sh' -> objects d (put_sheet p sh' s).
Proof.
  intros Ho Hp (Ew & Eh & Eb & En) Hs. destruct Ho as [Hfb Hbrk Hfresh Hnull Hsheet Hbuf Hwin Hwb Hwx Hdis Hmov].
  assert (Hlook : forall q x, <[p := sh']> (sheets s) !! q = Some x -> exists y, sheets s !! q = Some y /\ sh_buffer x = sh_buffer y /\ sh_window x = sh_window y).
  { intros q x. destruct (decide (q = p)) as [->|]; [rewrite lookup_insert_eq; intros [= <-]; eauto|rewrite lookup_insert_ne by done; eauto]. }
  constructor; cbn [put_sheet set_sheets sheets windows bufs brk fb win_moving]; try done.
  - intros q Hq. destruct (Hfresh q Hq) as (F1 & F2 & F3). split; [|done]. rewrite lookup_insert_ne; [done|]. intros ->. congruence.
  - rewrite lookup_insert_ne; [done|]. intros ->. congruence.
  - intros q x. destruct (decide (q = p)) as [->|]; [rewrite lookup_insert_eq; intros [= <-]|rewrite lookup_insert_ne by done; apply Hsheet].
    destruct (Hsheet p sh Hp) as (_ & b & Hb & Hl & Hw). split; [done|]. exists b. rewrite Ew, Eh, Eb, En. split; [done|]. split; [done|]. intros Hn.
    destruct (Hw Hn) as (w & wb & H1 & H2 & H3 & H4). exists w, wb. unfold window_ok, rendered in *. rewrite Ew, Eh. eauto.
  - intros q r x y Hq Hr E. destruct (Hlook _ _ Hq) as (x' & ? & ? & ?), (Hlook _ _ Hr) as (y' & ? & ? & ?). apply (Hbuf q r x' y'); congruence.
  - intros q r x y Hq Hr Hn E. destruct (Hlook _ _ Hq) as (x' & ? & ? & ?), (Hlook _ _ Hr) as (y' & ? & ? & ?). apply (Hwin q r x' y'); congruence.
  - intros q r x w Hq Hw. destruct (Hlook _ _ Hq) as (x' & ? & E & ?). rewrite E. by apply (Hdis q r).
  - destruct Hmov as [|Hm]; [by left|]. right. destruct (decide (p = win_moving s)) as [->|]; [rewrite lookup_insert_eq; done|by rewrite lookup_insert_ne].
Qed.

Lemma lseg_update m p sh sh' h l r : m !! p = Some sh -> sh_next sh' = sh_next sh -> lseg m h l r -> lseg (<[p := sh']> m) h l r.
Proof.
  intros Hp En. induction 1 as [q|q x l r Hq Hm Hl IH]; [constructor|]. destruct (decide (q = p)) as [->|Hne].
  - rewrite Hp in Hm. injection Hm as <-. econstructor; [done|by rewrite lookup_insert_eq|by rewrite En].
  - econstructor; [done|by rewrite lookup_insert_ne|done].
Qed.

Lemma give_sheet_good R pid s l p sh : good R s l -> sheets s !! p = Some sh ->
  exists s', give_sheet pid (p, s) = Ret s' /\ good R s' l /\ ui s' = ui s.
Proof.
  intros (Ho & Hl & Hb) Hp. unfold give_sheet, get_sheet. rewrite Hp. cbn [of_option obind]. eexists. split; [reflexivity|]. split; [|done]. split.
  - apply (objects_ext 0 (put_sheet p (set_owner sh pid) s)); try done; [by left|]. apply (objects_update 0 s p sh); [done|done|done|]. exact (proj1 (clean_sheet s p sh Ho Hp)).
  - split; [by apply (lseg_update _ p sh)|]. intros i j Hd HR Hc. apply (Hb i j Hd HR). intros q shq Hq Hshq. destruct (decide (q = p)) as [->|Hne].
    + rewrite Hp in Hshq. injection Hshq as <-. exact (Hc p (set_owner sh pid) Hq (lookup_insert_eq _ _ _)).
    + apply (Hc q shq Hq). cbn [send emit put_sheet set_sheets sheets]. by rewrite lookup_insert_ne.
Qed.

(** ** Requests that stay inside their bounds *)

Definition inside (x y w h : Z) (c : Z * Z) : Prop := 0 <= x /\ 0 <= w /\ x + w <= fst c /\ 0 <= y /\ 0 <= h /\ y + h <= snd c.

Definition message_ok (s : wm) (l : list Z) (msg : list Z) : Prop :=
  let f := field msg in
  let id := u32 (f 1) in
  if f 0 =? WM_MESSAGE_CREATE_SHEET then
    0 < f 3 /\ 0 < f 4 /\ on_screen (MkSheet (f 1) (f 2) (f 3) (f 4) 0 0 0 0) /\ brk s + 32 + 4 * f 3 * f 4 <= heap_end
  else if f 0 =? WM_MESSAGE_FILL_SHEET then is_Some (sheets s !! id)
  else if f 0 =? WM_MESSAGE_PRINT_TEXT then
    exists sh n, sheets s !! id = Some sh /\ printable (drop 28 msg) n /\ inside (f 2) (f 3) (8 * n) 16 (canvas sh)
  else if f 0 =? WM_MESSAGE_CREATE_WINDOW then
    28 <= f 1 /\ 0 < f 2 /\ on_screen (MkSheet 200 200 (f 1) (f 2 + 32) 0 0 0 0) /\ brk s + 32 + 4 * f 1 * (f 2 + 32) + 76 + 4 * f 1 * f 2 <= heap_end
  else if f 0 =? WM_MESSAGE_WINDOW_SET_TITLE then exists sh, sheets s !! id = Some sh /\ sh_window sh <> 0 /\ title_fits sh (drop 8 msg)
  else if f 0 =? WM_MESSAGE_REMOVE_SHEET then id ∈ l
  else if f 0 =? WM_MESSAGE_DRAW_RECT then exists sh, sheets s !! id = Some sh /\ inside (f 2) (f 3) (f 4) (f 5) (canvas sh)
  else if f 0 =? WM_MESSAGE_DRAW_BUFFER then
    exists sh, sheets s !! id = Some sh /\ inside (f 2) (f 3) (f 4) (f 5) (canvas sh) /\ f 4 * f 5 <= zlen (pixels (drop 24 msg))
  else True.

(** The sheets after a request. *)
Definition next_list (s : wm) (l : list Z) (msg : list Z) : list Z :=
  let f := field msg in
  if (f 0 =? WM_MESSAGE_CREATE_SHEET) || (f 0 =? WM_MESSAGE_CREATE_WINDOW) then l ++ [brk s]
  else if f 0 =? WM_MESSAGE_REMOVE_SHEET then filter (fun p => p <> u32 (f 1)) l else l.

Lemma fill_draws x y w h c colour : inside x y w h c -> draws (fun b W H => wm_fill_buffer b x y w h W colour) (fst c) (snd c).
Proof. intros (? & ? & ? & ? & ? & ?) b Hb. destruct (wm_fill_buffer_ok b x y w h (fst c) (snd c) colour) as (b' & E & L & _); [done..|]. eauto. Qed.

Lemma text_draws t n x y c colour : printable t n -> inside x y (8 * n) 16 c -> draws (fun b W H => wm_print_string font16 b t x y W colour) (fst c) (snd c).
Proof.
  intros Hp (? & ? & ? & ? & ? & ?) b Hb. destruct (wm_print_string_ok font16 font_len t n Hp b x y (fst c) colour) as (b' & E & L & _); [lia|lia|lia|nia|]. eauto.
Qed.

Lemma buffer_draws src x y w h c : inside x y w h c -> w * h <= zlen src -> draws (fun b W H => wm_copy_buffer b x y W src 0 0 w w h) (fst c) (snd c).
Proof. intros (? & ? & ? & ? & ? & ?) Hs b Hb. destruct (wm_copy_buffer_ok b x y (fst c) (snd c) src w h w h) as (b' & E & L & _); [lia..|]. eauto. Qed.

Lemma filter_keep (p : Z) (l : list Z) : p ∉ l -> filter (fun q => q <> p) l = l.
Proof.
  induction l as [|x l IH]; [done|]. intros [Hx Hl]%not_elem_of_cons. rewrite filter_cons_True by (intros E; by apply Hx). by rewrite IH.
Qed.

Lemma filter_remove l1 (p : Z) l2 : NoDup (l1 ++ p :: l2) -> filter (fun q => q <> p) (l1 ++ p :: l2) = l1 ++ l2.
Proof.
  intros Hd. apply NoDup_app in Hd as (_ & H1 & H2). apply NoDup_cons in H2 as [H2 _]. rewrite filter_app, filter_cons_False by (intros H; by apply H).
  rewrite !filter_keep; [done|done|]. intros Hp. apply (H1 p Hp). left.
Qed.

Lemma handle_message_good R pid msg s l : good R s l -> message_ok s l msg ->
  exists s', handle_message font16 xres heap_end pid msg s = Ret s' /\ good R s' (next_list s l msg) /\ ui s' = ui s.
Proof.
  intros Hg Hm. pose proof Hg as (Ho & Hl & Hb). unfold handle_message, message_ok, next_list in *. set (f := field msg) in *. set (id := u32 (f 1)) in *.
  assert (Hcanvas : forall draw sh, sheets s !! id = Some sh -> draws draw (fst (canvas sh)) (snd (canvas sh)) ->
    exists s', on_canvas font16 id draw s = Ret s' /\ good R s' l /\ ui s' = ui s).
  { intros draw sh Hsh Hdr. destruct (on_canvas_redrawn s id sh draw Ho Hsh Hdr) as (s' & E & Hr). exists s'. split; [done|]. split; [by apply (good_redrawn R s)|apply Hr]. }
  destruct (Z.eqb_spec (f 0) WM_MESSAGE_CREATE_SHEET) as [E0|_]; cbn [orb].
  { destruct Hm as (Hw & Hh & Hs & He). destruct (create_sheet_good R s l (f 1) (f 2) (f 3) (f 4) Hg Hw Hh Hs He) as (s1 & -> & Hg1 & Hp & Eu & _). cbn [obind].
    destruct (give_sheet_good R pid s1 _ _ _ Hg1 Hp) as (s' & -> & Hg' & Eu'). exists s'. split; [done|]. split; [done|congruence]. }
  destruct (Z.eqb_spec (f 0) WM_MESSAGE_FILL_SHEET) as [E1|_].
  { rewrite E1. destruct Hm as [sh Hsh]. apply (Hcanvas _ sh Hsh). pose proof (clean_sheet s id sh Ho Hsh) as ((? & ? & ? & ? & ? & ?) & b & _ & _ & Hw).
    intros bb Hbb. assert (Hc : 0 <= fst (canvas sh) /\ 0 <= snd (canvas sh)).
    { unfold canvas. cbn [fst snd]. split; [done|]. destruct (Z.eqb_spec (sh_window sh) 0) as [|Hn]; [done|]. destruct (Hw Hn) as (w & wb & _ & _ & Hok & _). unfold window_ok in Hok. lia. }
    destruct (wm_fill_buffer_ok bb 0 0 (fst (canvas sh)) (snd (canvas sh)) (fst (canvas sh)) (snd (canvas sh)) (COLOUR (f 2) (f 3) (f 4))) as (b' & E & L & _); [lia..|]. eauto. }
  destruct (Z.eqb_spec (f 0) WM_MESSAGE_PRINT_TEXT) as [E2|_].
  { rewrite E2. destruct Hm as (sh & n & Hsh & Hp & Hi). apply (Hcanvas _ sh Hsh). exact (text_draws _ n _ _ _ _ Hp Hi). }
  destruct (Z.eqb_spec (f 0) WM_MESSAGE_CREATE_WINDOW) as [E3|_].
  { destruct Hm as (Hw & Hh & Hs & He). destruct (create_window_good R s l 200 200 (f 1) (f 2) Hg Hw Hh Hs He) as (s1 & sh & -> & Hg1 & Hp & Eu & _). cbn [obind].
    destruct (give_sheet_good R pid s1 _ _ _ Hg1 Hp) as (s' & -> & Hg' & Eu'). exists s'. split; [done|]. split; [done|congruence]. }
  destruct (Z.eqb_spec (f 0) WM_MESSAGE_WINDOW_SET_TITLE) as [E4|_].
  { rewrite E4. destruct Hm as (sh & Hsh & Hn & Ht). destruct (set_title_redrawn s id sh _ Ho Hsh Hn Ht) as (s' & -> & Hr). exists s'. split; [done|]. split; [by apply (good_redrawn R s)|apply Hr]. }
  destruct (Z.eqb_spec (f 0) WM_MESSAGE_REMOVE_SHEET) as [E5|_].
  { destruct (good_member R s l id Hg Hm) as (sh & Hsh & _). unfold get_sheet at 1. rewrite Hsh. cbn [of_option obind]. apply list_elem_of_split in Hm as (l1 & l2 & ->).
    rewrite filter_remove by exact (lseg_NoDup _ _ _ Hl). destruct (remove_good R s l1 id l2 Hg) as (s' & E & Hg' & _ & Eu & _). exists s'. split; [|done].
    destruct (Z.eqb_spec (sh_window sh) 0) as [|Hn]; [done|]. unfold window_close, get_sheet, get_window. rewrite Hsh. cbn [of_option obind].
    destruct (clean_sheet s id sh Ho Hsh) as (_ & b & _ & _ & Hw). destruct (Hw Hn) as (w & wb & -> & _). exact E. }
  destruct (Z.eqb_spec (f 0) WM_MESSAGE_DRAW_RECT) as [E6|_].
  { destruct Hm as (sh & Hsh & Hi). apply (Hcanvas _ sh Hsh). exact (fill_draws _ _ _ _ _ _ Hi). }
  destruct (Z.eqb_spec (f 0) WM_MESSAGE_DRAW_BUFFER) as [E7|_].
  { destruct Hm as (sh & Hsh & Hi & Hp). apply (Hcanvas _ sh Hsh). exact (buffer_draws _ _ _ _ _ _ Hi Hp). }
  by exists s.
Qed.

Lemma message_received_good R pid msg s l : good R s l -> message_ok s l msg ->
  exists s', message_received font16 xres heap_end pid msg s = Ret s' /\ good R s' (next_list s l msg) /\ screen R s' (next_list s l msg) /\ ui s' = ui s.
Proof.
  intros Hg Hm. destruct (handle_message_good R pid msg s l Hg Hm) as (s1 & E1 & (Ho & Hl & Hb) & Eu). unfold message_received. rewrite E1. cbn [obind].
  destruct (draw_sheets_ok R s1 _ Ho Hl Hb) as (f & -> & Hc & Hs). eexists. split; [reflexivity|]. split; [split; [done|]; split; [done|by apply screen_background]|]. split; [done|exact Eu].
Qed.
(** ** Events *)

(** States that differ in what is not on the screen. *)
Definition same_picture (s s' : wm) : Prop :=
  sheets s' = sheets s /\ windows s' = windows s /\ bufs s' = bufs s /\ brk s' = brk s /\ fb s' = fb s /\ sheet_list s' = sheet_list s /\
  (win_moving s' = win_moving s \/ win_moving s' = 0 \/ is_Some (sheets s !! win_moving s')).

Lemma good_same R s s' l : same_picture s s' -> good R s l -> good R s' l.
Proof.
  intros (E1 & E2 & E3 & E4 & E5 & E6 & E7) (Ho & Hl & Hb). split; [by apply (objects_ext 0 s)|]. split; [by rewrite E1, E6|].
  intros i j Hd HR Hc. rewrite E5. apply (Hb i j Hd HR). by rewrite <- E1.
Qed.

Lemma over_ext s s' i j v l : (forall p, sheet_pixel s' i j p = sheet_pixel s i j p) -> over s' i j v l = over s i j v l.
Proof. intros Ep. revert v. induction l as [|p l IH]; intros v; [done|]. unfold over. cbn [foldl]. rewrite Ep. apply IH. Qed.

Lemma screen_same R s s' l : same_picture s s' -> screen R s l -> screen R s' l.
Proof.
  intros (E1 & E2 & E3 & E4 & E5 & E6 & E7) Hs i j Hd HR. rewrite E5, (Hs i j Hd HR). f_equal. symmetry. apply over_ext. intros p. unfold sheet_pixel. by rewrite E1, E3.
Qed.

Definition shown (R : Z -> Z -> bool) (s : wm) (l : list Z) : Prop := good R s l /\ screen R s l.

Lemma shown_same R s s' l : same_picture s s' -> shown R s l -> shown R s' l.
Proof. intros E [Hg Hs]. split; [by apply (good_same R s)|by apply (screen_same R s)]. Qed.

Definition hit (s : wm) (p : Z) : bool := match sheets s !! p with Some sh => under_cursor s sh | None => false end.

Lemma find_hit_ok l : forall s p n, lseg (sheets s) p l 0 -> (length l <= n)%nat ->
  find_hit n p s = Ret (default 0 (head (filter (fun q => hit s q = true) l))).
Proof.
  induction l as [|q l IH]; intros s p n Hl Hn.
  - apply lseg_nil_inv in Hl as ->. by destruct n.
  - inversion Hl as [|? sh ? ? Hq Hm Hl']; subst. assert (E0 : (q =? 0) = false) by lia.
    assert (Ef : find_hit n q s = if under_cursor s sh then Ret q else match n with O => NoFuel | S n' => find_hit n' (sh_next sh) s end).
    { destruct n; cbn [find_hit]; rewrite E0; unfold get_sheet; by rewrite Hm. }
    assert (Eh : hit s q = under_cursor s sh) by (unfold hit; by rewrite Hm). rewrite Ef, filter_cons, Eh. destruct (under_cursor s sh) eqn:Eu.
    + by rewrite decide_True by done.
    + rewrite decide_False by done. destruct n as [|n]; [cbn in Hn; lia|]. apply IH; [done|cbn in Hn; lia].
Qed.
Definition pointer (s : wm) : Z * Z := (cur_x s, cur_y s).

Lemma onclick_shown R s l p sh btn : shown R s l -> p ∈ l -> sheets s !! p = Some sh -> sh_window sh <> 0 ->
  exists s' l', window_onclick font16 xres p btn s = Ret s' /\ shown R s' l' /\ pointer s' = pointer s.
Proof.
  intros Hs Hp Hsh Hn. unfold window_onclick, get_sheet. rewrite Hsh. cbn [of_option obind]. destruct (_ && (win_moving s =? 0)).
  - destruct (_ && (cur_y s <? sh_y sh + 28)).
    + destruct (owner_pid sh =? 0); [by exists s, l|]. eexists _, l. split; [reflexivity|]. split; [|done]. by apply (shown_same R s); [split_and!; auto|].
    + set (s1 := set_moving p _ _ s). assert (Hs1 : shown R s1 l) by (apply (shown_same R s); [split_and!; try done; right; right; by exists sh|done]).
      destruct (Z.eqb_spec (sh_next sh) 0) as [|Hnx]; [by exists s1, l|]. destruct Hs1 as [Hg1 _]. pose proof Hg1 as (_ & Hl & _). apply list_elem_of_split in Hp as (l1 & l2 & ->).
      assert (Hne : l1 ++ l2 <> []).
      { destruct l2; [|by destruct l1]. apply lseg_app in Hl as (q & _ & Hq). inversion Hq as [|? sh' ? ? _ Hm Hx]; subst. change (sheets s !! p = Some sh') in Hm. rewrite Hsh in Hm. injection Hm as <-.
        by apply lseg_nil_inv in Hx. }
      destruct (move_top_good R s1 l1 p l2 sh Hg1 Hne Hsh Hn) as (s' & E & Hg' & Hs' & Eu & _). exists s', ((l1 ++ l2) ++ [p]). split; [done|]. split; [done|].
      unfold ui in Eu. unfold pointer. cbn [s1 set_moving cur_x cur_y] in Eu. congruence.
  - destruct (_ && negb (Z.testbit btn 0)); [|by exists s, l]. eexists _, l. split; [reflexivity|]. split; [|done]. by apply (shown_same R s); [split_and!; auto|].
Qed.

Lemma mouse_button_shown R s l btn : shown R s l -> exists s' l', mouse_button_event font16 xres btn s = Ret s' /\ shown R s' l' /\ pointer s' = pointer s.
Proof.
  intros Hs. pose proof Hs as [(Ho & Hl & Hb) _]. unfold mouse_button_event. rewrite (find_hit_ok l s (sheet_list s) (nsheets s) Hl (lseg_size _ _ _ Hl)). cbn [obind].
  destruct (head _) as [p|] eqn:Eh; [change (default 0 (Some p)) with p|by exists s, l].
  assert (Hp : p ∈ l) by (eapply (list_elem_of_filter (fun q => hit s q = true)); destruct (filter _ l); [done|]; injection Eh as ->; left).
  destruct (lseg_elem _ _ _ _ _ Hl Hp) as (Hp0 & sh & Hsh). assert (E0 : (p =? 0) = false) by lia. rewrite E0. unfold get_sheet at 1. rewrite Hsh. cbn [of_option obind].
  assert (H1 : exists s1 l1, (if sh_window sh =? 0 then Ret s else window_onclick font16 xres p btn s) = Ret s1 /\ shown R s1 l1 /\ pointer s1 = pointer s).
  { destruct (Z.eqb_spec (sh_window sh) 0) as [|Hn]; [by exists s, l|]. by apply (onclick_shown R s l p sh). }
  destruct H1 as (s1 & l1 & -> & Hs1 & Ep). cbn [obind].
  assert (Hsend : forall ws, exists s' l', Ret (send (owner_pid sh) ws s1) = Ret s' /\ shown R s' l' /\ pointer s' = pointer s).
  { intros ws. eexists _, l1. split; [reflexivity|]. split; [|done]. by apply (shown_same R s1); [split_and!; auto|]. }
  destruct (sh_window sh =? 0); [apply Hsend|]. destruct (cur_y s1 <? sh_y sh + 32); [by exists s1, l1|apply Hsend].
Qed.

Lemma last_window_ok l : forall s p n wnd, lseg (sheets s) p l 0 -> (length l <= n)%nat -> exists r, last_window n p wnd s = Ret r /\ (r = wnd \/ r ∈ l).
Proof.
  induction l as [|q l IH]; intros s p n wnd Hl Hn.
  - apply lseg_nil_inv in Hl as ->. exists wnd. split; [by destruct n|by left].
  - inversion Hl as [|? sh ? ? Hq Hm Hl']; subst. destruct n as [|n]; [cbn in Hn; lia|]. cbn [last_window]. assert (E0 : (q =? 0) = false) by lia. rewrite E0. unfold get_sheet. rewrite Hm. cbn [of_option obind].
    destruct (IH s (sh_next sh) n (if sh_window sh =? 0 then wnd else q) Hl') as (r & Er & Hr); [cbn in Hn; lia|]. exists r. split; [done|].
    destruct Hr as [->|Hr]; [|right; by right]. destruct (sh_window sh =? 0); [by left|right; left].
Qed.

Lemma keyboard_shown R ppid s l key : shown R s l -> exists s', keyboard_event ppid key s = Ret s' /\ shown R s' l /\ same_picture s s' /\ ui s' = ui s.
Proof.
  intros Hs. unfold keyboard_event. set (s1 := send _ _ s). pose proof Hs as [(Ho & Hl & Hb) _]. assert (E1 : same_picture s s1) by (split_and!; auto).
  destruct (last_window_ok l s1 (sheet_list s1) (nsheets s1) 0) as (r & -> & Hr); [exact Hl|exact (lseg_size _ _ _ Hl)|]. cbn [obind].
  destruct (Z.eqb_spec r 0) as [|Hr0]; [exists s1; split; [done|]; split; [by apply (shown_same R s)|done]|]. destruct Hr as [|Hr]; [done|].
  destruct (lseg_elem _ _ _ _ _ Hl Hr) as (_ & sh & Hsh). unfold get_sheet. change (sheets s1 !! r) with (sheets s !! r). rewrite Hsh. cbn [of_option obind]. eexists. split; [reflexivity|].
  assert (E2 : same_picture s (send (owner_pid sh) [WM_MESSAGE_KEYBOARD_EVENT; r; Z.land key 255; if Z.testbit key 8 then 1 else 0] s1)) by (split_and!; auto).
  split; [by apply (shown_same R s)|done].
Qed.

(** *** The mouse *)

Definition cursor (s : wm) (i j : Z) : bool := in_rect (cur_x s) (cur_y s) CURSOR_WIDTH CURSOR_HEIGHT i j.
Definition nothing (i j : Z) : bool := false.

Definition cursor_fits (x y : Z) : Prop := 0 <= x /\ x + CURSOR_WIDTH <= xres /\ 0 <= y /\ y + CURSOR_HEIGHT <= yres.

(** The sheet that is moved stays on the screen. *)
Definition move_ok (s : wm) : Prop := forall sh, win_moving s <> 0 -> sheets s !! win_moving s = Some sh -> cur_y s < sh_y sh + 32 ->
  on_screen (set_pos sh (s32 (cur_x s - prev_x s)) (s32 (cur_y s - prev_y s))).

Lemma cursor_event_shown R s l : shown R s l -> move_ok s -> exists s', mouse_cursor_event xres s = Ret s' /\ shown R s' l /\ ui s' = ui s.
Proof.
  intros Hs Hm. pose proof Hs as [(Ho & Hl & Hb) _]. unfold mouse_cursor_event. destruct (Z.eqb_spec (win_moving s) 0) as [|Hn]; [by exists s|].
  destruct (obj_moving _ _ Ho) as [|[sh Hsh]]; [done|]. unfold get_sheet. rewrite Hsh. cbn [of_option obind]. destruct (Z.ltb_spec (cur_y s) (sh_y sh + 32)) as [Hy|]; [|by exists s].
  specialize (Hm sh Hn Hsh Hy). set (sh' := set_pos sh _ _) in *. destruct (clean_sheet s _ sh Ho Hsh) as ((? & ? & ? & ? & ? & ?) & _).
  destruct (fill_screen_ok 0 s (sh_x sh) (sh_y sh) (sh_width sh) (sh_height sh) light_blue Ho) as (f & -> & Lf & Gf); [lia..|]. cbn [obind].
  set (s2 := put_sheet (win_moving s) sh' (set_fb f s)). destruct (draw_sheets_ok R s2 l) as (f' & -> & Hc & Hsc).
  - apply (objects_update 0 (set_fb f s) _ sh); [by apply clean_set_fb|done|done|done].
  - by apply (lseg_update _ _ sh).
  - change (background R (set_fb f (put_sheet (win_moving s) sh' s)) l). apply (background_cover R s (put_sheet (win_moving s) sh' s) l l f sh Hb eq_refl); [|exact Gf].
    intros q shq Hq Hshq. destruct (decide (q = win_moving s)) as [->|Hne]; [left; congruence|]. right. exists shq. split; [done|]. split; [|done]. cbn [put_sheet set_sheets sheets]. by rewrite lookup_insert_ne.
  - eexists. split; [reflexivity|]. split; [|done]. split; [|done]. split; [done|]. split; [by apply (lseg_update _ _ sh)|by apply screen_background].
Qed.

(** Where the event moves the cursor to. *)
Definition moved (m : Z) (s : wm) : wm := set_cursor (cur_x s + s8 (Z.land (Z.shiftr m 16) 0xff)) (cur_y s - s8 (Z.land (Z.shiftr m 8) 0xff)) s.

Definition mouse_ok (m : Z) (s : wm) : Prop := m <> 0 -> cursor_fits (cur_x (moved m s)) (cur_y (moved m s)) /\ move_ok (moved m s).

Lemma mouse_event_shown m s l : shown (cursor s) s l -> cursor_fits (cur_x s) (cur_y s) -> m <> 0 -> mouse_ok m s ->
  exists s' l', mouse_event font16 xres m s = Ret s' /\ shown (cursor s') s' l' /\ cursor_fits (cur_x s') (cur_y s').
Proof.
  intros [(Ho & Hl & Hb) Hs] (Hcx & Hcw & Hcy & Hch) Hm0 Hmo. destruct (Hmo Hm0) as [Hfit Hmv]. unfold mouse_event, CURSOR_WIDTH, CURSOR_HEIGHT in *.
  destruct (fill_screen_ok 0 s (cur_x s) (cur_y s) 5 5 light_blue Ho) as (f1 & -> & L1 & G1); [lia..|]. cbn [obind].
  destruct (draw_sheets_ok nothing (set_fb f1 s) l) as (f2 & -> & Ho2 & Hs2); [by apply clean_set_fb|done| |].
  { intros i j Hd _ Hc. cbn [fb set_fb]. rewrite (G1 i j Hd). destruct (in_rect _ _ 5 5 i j) eqn:Er; [done|]. by apply (Hb i j Hd). }
  cbn [obind]. change (set_fb f2 (set_fb f1 s)) with (set_fb f2 s) in *. set (s3 := set_cursor _ _ (set_fb f2 s)).
  assert (Hs3 : shown nothing s3 l).
  { apply (shown_same nothing (set_fb f2 s)); [split_and!; auto|]. split; [|done]. split; [done|]. split; [done|by apply screen_background]. }
  assert (Hmv3 : move_ok s3) by exact Hmv.
  assert (H4 : exists s4, (if negb (s8 (Z.land (Z.shiftr m 16) 255) =? 0) || negb (s8 (Z.land (Z.shiftr m 8) 255) =? 0) then mouse_cursor_event xres s3 else Ret s3) = Ret s4 /\ shown nothing s4 l /\ ui s4 = ui s3).
  { destruct (_ || _); [by apply cursor_event_shown|by exists s3]. }
  destruct H4 as (s4 & -> & Hs4 & Eu4). cbn [obind].
  assert (Epos : cur_x s4 = cur_x (moved m s) /\ cur_y s4 = cur_y (moved m s)) by (unfold ui in Eu4; split; [change (cur_x (moved m s)) with (cur_x s3)|change (cur_y (moved m s)) with (cur_y s3)]; congruence).
  destruct Epos as [Ex Ey]. destruct Hfit as (Hfx & Hfw & Hfy & Hfh). unfold CURSOR_WIDTH, CURSOR_HEIGHT in *. destruct Hs4 as [(Ho4 & Hl4 & Hb4) Hsc4].
  destruct (fill_screen_ok 0 s4 (cur_x s4) (cur_y s4) 5 5 red Ho4) as (f5 & -> & L5 & G5); [lia..|]. cbn [obind]. set (s5 := set_fb f5 s4).
  assert (Hs5 : shown (cursor s5) s5 l).
  { assert (Hscr : screen (cursor s5) s5 l).
    { intros i j Hd HR. cbn [fb s5 set_fb]. rewrite (G5 i j Hd). unfold cursor, CURSOR_WIDTH, CURSOR_HEIGHT in HR. cbn [s5 set_fb cur_x cur_y] in HR. rewrite HR. exact (Hsc4 i j Hd eq_refl). }
    split; [|done]. split; [by apply clean_set_fb|]. split; [done|by apply screen_background]. }
  assert (Hfit5 : cursor_fits (cur_x s5) (cur_y s5)) by (unfold cursor_fits, CURSOR_WIDTH, CURSOR_HEIGHT; cbn [s5 set_fb cur_x cur_y]; lia).
  destruct (prevbtn s5 =? _); [by exists s5, l|]. destruct (mouse_button_shown (cursor s5) s5 l (Z.land (Z.shiftr m 24) 7) Hs5) as (s6 & l6 & -> & Hs6 & Ep6). cbn [obind].
  eexists _, l6. split; [reflexivity|]. unfold pointer in Ep6. injection Ep6 as Ex6 Ey6. assert (Ec : cursor s5 = cursor (set_prevbtn (Z.land (Z.shiftr m 24) 7) s6)) by (unfold cursor; cbn [set_prevbtn cur_x cur_y]; by rewrite Ex6, Ey6).
  split; [rewrite <- Ec; by apply (shown_same _ s6); [split_and!; auto|]|]. cbn [set_prevbtn cur_x cur_y]. by rewrite Ex6, Ey6.
Qed.
(** ** Turns of the main loop *)

(** A turn up to the mouse. *)
Definition before_mouse (ppid : Z) (inp : input) (s : wm) : outcome wm :=
  s1 <- match in_msg inp with Some (pid, msg) => message_received font16 xres heap_end pid msg s | None => Ret s end ;;
  if negb (in_kbd inp =? 0) && negb (in_kbd inp =? 0x100) then keyboard_event ppid (in_kbd inp) s1 else Ret s1.

Definition request_safe (inp : input) (s : wm) : Prop :=
  match in_msg inp with Some (_, msg) => exists l, lseg (sheets s) (sheet_list s) l 0 /\ message_ok s l msg | None => True end.

Variables (need_update : bool) (display_id ppid : Z).

Notation turn := (turn font16 xres heap_end need_update display_id ppid).
Notation turns := (turns font16 xres heap_end need_update display_id ppid).

(** Inputs whose requests stay inside their bounds, and which keep the cursor and a
    window that is moved on the screen. *)
Fixpoint safe (l : list input) (s : wm) : Prop :=
  match l with
  | [] => True
  | inp :: l' =>
    request_safe inp s /\ (forall s2, before_mouse ppid inp s = Ret s2 -> mouse_ok (in_mouse inp) s2) /\ (forall s', turn inp s = Ret s' -> safe l' s')
  end.

(** The screen between turns. *)
Definition displayed (s : wm) (l : list Z) : Prop := shown (cursor s) s l /\ cursor_fits (cur_x s) (cur_y s).

Lemma ui_cursor s s' : ui s' = ui s -> cursor s' = cursor s /\ cur_x s' = cur_x s /\ cur_y s' = cur_y s.
Proof. intros E. unfold ui in E. unfold cursor. assert (cur_x s' = cur_x s) as -> by congruence. assert (cur_y s' = cur_y s) as -> by congruence. done. Qed.

Lemma before_mouse_displayed inp s l : displayed s l -> request_safe inp s -> exists s' l', before_mouse ppid inp s = Ret s' /\ displayed s' l'.
Proof.
  intros [Hs Hf] Hr. unfold before_mouse, request_safe in *.
  assert (H1 : exists s1 l1, match in_msg inp with Some (pid, msg) => message_received font16 xres heap_end pid msg s | None => Ret s end = Ret s1 /\ displayed s1 l1).
  { destruct (in_msg inp) as [[pid msg]|]; [|by exists s, l]. destruct Hr as (l0 & Hl0 & Hm). destruct Hs as [Hg Hsc].
    assert (l0 = l) as -> by (destruct Hg as (_ & Hl & _); by eapply lseg_unique). destruct (message_received_good (cursor s) pid msg s l Hg Hm) as (s1 & E & Hg1 & Hs1 & Eu).
    destruct (ui_cursor _ _ Eu) as (Ec & Ex & Ey). exists s1, (next_list s l msg). split; [done|]. unfold displayed, shown. by rewrite Ec, Ex, Ey. }
  destruct H1 as (s1 & l1 & -> & Hs1 & Hf1). cbn [obind]. destruct (_ && _); [|by exists s1, l1].
  destruct (keyboard_shown _ ppid s1 l1 (in_kbd inp) Hs1) as (s' & E & Hs' & _ & Eu). destruct (ui_cursor _ _ Eu) as (Ec & Ex & Ey). exists s', l1. split; [done|]. unfold displayed. by rewrite Ec, Ex, Ey.
Qed.

Lemma turn_displayed inp s l : displayed s l -> request_safe inp s -> (forall s2, before_mouse ppid inp s = Ret s2 -> mouse_ok (in_mouse inp) s2) ->
  exists s' l', turn inp s = Ret s' /\ displayed s' l'.
Proof.
  intros Hs Hr Hm. destruct (before_mouse_displayed inp s l Hs Hr) as (s2 & l2 & E2 & [Hs2 Hf2]). specialize (Hm s2 E2). unfold before_mouse in E2. unfold Wm.turn.
  destruct (match in_msg inp with Some _ => _ | None => _ end) as [s1| | |]; cbn [obind] in *; try done. rewrite E2. cbn [obind].
  assert (H3 : exists s3 l3, (if in_mouse inp =? 0 then Ret s2 else mouse_event font16 xres (in_mouse inp) s2) = Ret s3 /\ displayed s3 l3).
  { destruct (Z.eqb_spec (in_mouse inp) 0) as [|Hn]; [by exists s2, l2|]. by apply (mouse_event_shown _ s2 l2). }
  destruct H3 as (s3 & l3 & -> & [Hs3 Hf3]). cbn [obind]. eexists _, l3. split; [reflexivity|]. unfold update_display. destruct need_update; [|done]. split; [|done].
  apply (shown_same (cursor s3) s3); [split_and!; auto|done].
Qed.

Lemma turns_displayed inputs : forall s l, displayed s l -> safe inputs s -> exists s' l', turns inputs s = Ret s' /\ displayed s' l'.
Proof.
  induction inputs as [|inp inputs IH]; intros s l Hs Hsafe; [by exists s, l|]. destruct Hsafe as (Hr & Hm & Hnext). cbn [Wm.turns].
  destruct (turn_displayed inp s l Hs Hr Hm) as (s1 & l1 & E1 & Hs1). rewrite E1. cbn [obind]. exact (IH s1 l1 Hs1 (Hnext s1 E1)).
Qed.

Lemma start_displayed brk0 fb0 : 205 <= xres -> 205 <= yres -> zlen fb0 = xres * yres -> 0 < brk0 -> brk0 + 1024 * 4096 <= heap_end ->
  exists s, wm_start xres yres heap_end brk0 fb0 = Ret s /\ displayed s [].
Proof.
  intros Hx Hy Hl Hb He. unfold wm_start. destruct (wm_fill_buffer_ok fb0 0 0 xres yres xres yres light_blue) as (f & -> & Lf & Gf); [lia..|]. cbn [obind].
  rewrite malloc_ok by (cbn [brk]; lia). cbn [obind set_brk sheets windows bufs brk fb sheet_list cur_x cur_y win_moving prev_x prev_y prevbtn outputs].
  eexists. split; [reflexivity|]. assert (Hpix : forall i j, on_display i j -> zget f (j * xres + i) = Some light_blue).
  { intros i j [Hi Hj]. rewrite (Gf i j Hi). assert (E : in_rect 0 0 xres yres i j = true) by (apply in_rect_spec; lia). by rewrite E. }
  split; [|unfold cursor_fits, CURSOR_WIDTH, CURSOR_HEIGHT; cbn; lia]. split; [split; [|split]|].
  - constructor; cbn [set_brk sheets windows bufs brk fb win_moving].
    + lia.
    + lia.
    + done.
    + done.
    + intros p sh Hp. by rewrite lookup_empty in Hp.
    + intros p q sh sh' Hp. by rewrite lookup_empty in Hp.
    + intros p q sh sh' Hp. by rewrite lookup_empty in Hp.
    + intros p q w w' Hp. by rewrite lookup_empty in Hp.
    + intros q w Hp. by rewrite lookup_empty in Hp.
    + intros p q sh w Hp. by rewrite lookup_empty in Hp.
    + by left.
  - constructor.
  - intros i j Hd _ _. by apply Hpix.
  - intros i j Hd _. cbn [fb over foldl]. by apply Hpix.
Qed.

(** C28: After any sequence of turns, every pixel outside of the mouse cursor is that of
    the topmost sheet there, or the background; and below the title of a window are
    the pixels its owner drew.  This holds from the start, for requests that stay
    inside their sheets and a cursor and windows that stay on the screen; the
    window manager then never leaves its buffers. *)
Theorem wm_screen_correct brk0 fb0 inputs : 205 <= xres -> 205 <= yres -> zlen fb0 = xres * yres -> 0 < brk0 -> brk0 + 1024 * 4096 <= heap_end ->
  exists s0, wm_start xres yres heap_end brk0 fb0 = Ret s0 /\
  (safe inputs s0 -> exists s l, turns inputs s0 = Ret s /\ lseg (sheets s) (sheet_list s) l 0 /\
    (forall i j, 0 <= i < xres -> 0 <= j < yres -> cursor s i j = false -> zget (fb s) (j * xres + i) = Some (over s i j light_blue l)) /\
    (forall p sh, p ∈ l -> sheets s !! p = Some sh -> sh_window sh <> 0 -> exists w b wb, windows s !! sh_window sh = Some w /\ bufs s !! sh_buffer sh = Some b /\
      bufs s !! w_buffer w = Some wb /\ rendered sh b w wb)).
Proof.
  intros Hx Hy Hl Hb He. destruct (start_displayed brk0 fb0 Hx Hy Hl Hb He) as (s0 & E0 & Hd). exists s0. split; [done|]. intros Hs.
  destruct (turns_displayed inputs s0 [] Hd Hs) as (s & l & E & [[(Ho & Hls & _) Hsc] _]). exists s, l. split; [done|]. split; [done|]. split; [intros i j Hi Hj HR; by apply Hsc|].
  intros p sh Hp Hsh Hn. destruct (clean_sheet s p sh Ho Hsh) as (_ & b & Hbf & _ & Hw). destruct (Hw Hn) as (w & wb & ? & ? & _ & Hr). exists w, b, wb. auto.
Qed.
End invariant.

(** ** Where the code differs from what it is meant to do *)

(** A click goes to the first sheet of the list under the cursor, the one at the
    bottom, whatever is drawn over it. *)
Lemma click_reaches_the_bottom s l1 p l2 q sh : lseg (sheets s) (sheet_list s) (l1 ++ p :: l2) 0 -> sheets s !! p = Some sh -> under_cursor s sh = true ->
  (forall r, r ∈ l1 -> hit s r = false) -> q ∈ l2 -> hit s q = true -> find_hit (nsheets s) (sheet_list s) s = Ret p.
Proof.
  intros Hl Hp Hu H1 Hq Hh. rewrite (find_hit_ok _ s (sheet_list s) (nsheets s) Hl (lseg_size _ _ _ Hl)). f_equal. rewrite filter_app.
  assert (E1 : filter (fun q => hit s q = true) l1 = []).
  { clear Hl. induction l1 as [|x l1 IH]; [done|]. rewrite filter_cons_False by (rewrite (H1 x) by left; done). apply IH. intros r Hr. apply H1. by right. }
  rewrite E1. cbn [app]. rewrite filter_cons_True; [done|]. unfold hit. by rewrite Hp.
Qed.

(** The cursor is not kept on the screen: above its upper edge, drawing it leaves
    the framebuffer. *)
Lemma cursor_above_screen_faults xres s x y colour : y * xres + x < 0 -> fill_screen xres x y CURSOR_WIDTH CURSOR_HEIGHT colour s = Fault.
Proof.
  intros H. unfold fill_screen, wm_fill_buffer, CURSOR_WIDTH, CURSOR_HEIGHT. change (Z.to_nat 5) with 5%nat. cbn [fill_rows].
  change (Z.to_nat 5) with 5%nat. cbn [fastmemset32]. unfold zset. destruct (Z.ltb_spec (y * xres + x) 0); [done|lia].
Qed.

Lemma wm_start_fields xres yres heap_end brk0 fb0 s : heap_end < 2 ^ 31 -> 0 < brk0 -> brk0 + 1024 * 4096 <= heap_end -> wm_start xres yres heap_end brk0 fb0 = Ret s ->
  sheets s = ∅ /\ sheet_list s = 0 /\ brk s = brk0 + 1024 * 4096.
Proof.
  intros Hh Hb He. unfold wm_start. destruct (wm_fill_buffer _ _ _ _ _ _ _) as [f| | |]; cbn [obind]; [|done..]. rewrite malloc_ok by (cbn [brk]; lia).
  cbn [obind]. intros [= <-]. done.
Qed.

(** A client creates a sheet on a screen of 205 by 205 pixels. *)
Lemma wm_screen_correct_witness :
  let font := repeat 0 4096 in
  let inputs := [Input (Some (7, words [WM_MESSAGE_CREATE_SHEET; 10; 10; 20; 20])) 0 0] in
  exists s0 s l, wm_start 205 205 (2 ^ 30) 4096 (repeat 0 (Z.to_nat (205 * 205))) = Ret s0 /\ turns font 205 (2 ^ 30) false 0 1 inputs s0 = Ret s /\
    forall i j, 0 <= i < 205 -> 0 <= j < 205 -> cursor s i j = false -> zget (fb s) (j * 205 + i) = Some (over s i j light_blue l).
Proof.
  intros font inputs. assert (Hfont : zlen font = 4096) by (unfold zlen, font; by rewrite repeat_length). clearbody font. set (fb0 := repeat 0 _).
  assert (Hfb : zlen fb0 = 205 * 205) by (unfold zlen, fb0; rewrite repeat_length; lia). clearbody fb0.
  destruct (wm_screen_correct font 205 205 (2 ^ 30) Hfont ltac:(lia) false 0 1 4096 fb0 inputs) as (s0 & E0 & H); [lia|lia|exact Hfb|lia|lia|].
  destruct (wm_start_fields 205 205 (2 ^ 30) 4096 _ s0 ltac:(lia) ltac:(lia) ltac:(lia) E0) as (Es & El & Eb).
  destruct H as (s & l & Et & _ & Hs & _); [|exists s0, s, l; split; [exact E0|]; split; [exact Et|exact Hs]].
  cbn [inputs safe]. split; [|split; [intros s2 _ Hm; done|done]]. exists []. split; [rewrite El; constructor|].

  assert (Hm : 0 < 20 /\ 0 < 20 /\ on_screen 205 205 (MkSheet 10 10 20 20 0 0 0 0) /\ brk s0 + 32 + 4 * 20 * 20 <= 2 ^ 30) by (unfold on_screen; cbn [sh_x sh_y sh_width sh_height]; lia).
  exact Hm.
Defined.
