(* ===== verification/LibWm.v ===== *)
(** library/libwm, the library of the window manager's clients, and the protocol
    between the two.

    A client has the results of its calls of [message_receive] and [message_wait]
    in [inbox] and leaves the messages it sends in [sent].  A message is the bytes
    of a structure of protocol.h; the kernel copies the whole of it to the place the
    receiver names, so that a message longer than the variable there is a fault.
    Where a structure is sent with bytes that were never written, these are an
    argument, [junk].

    The theorems: whatever follows a request in the receiver's buffer, the window
    manager does exactly what the arguments of the client's call say; and the events
    that the window manager sends are reported to the program as they happened. *)

From stdpp Require Import base list gmap strings.
From Stdlib Require Import ZArith Lia.
From S2P Require Import Prelude KString LibC Wm.

Local Open Scope Z_scope.
Local Open Scope outcome_scope.

Module Client.

(** [None] is a call that found no message. *)
Record client := MkClient {
  wm_pid : Z;
  inbox : list (option (list Z));
  sent : list (Z * list Z);
  wait_prevbtn : Z;
  catch_prevbtn : Z
}.

Definition message_send (msg : list Z) (c : client) : client :=
  MkClient (wm_pid c) (inbox c) (sent c ++ [(wm_pid c, msg)]) (wait_prevbtn c) (catch_prevbtn c).

Definition set_inbox (l : list (option (list Z))) (c : client) : client :=
  MkClient (wm_pid c) l (sent c) (wait_prevbtn c) (catch_prevbtn c).

(** The bytes of a COLOUR. *)
Definition colour_r (colour : Z) : Z := u8 (Z.shiftr colour 16).
Definition colour_g (colour : Z) : Z := u8 (Z.shiftr colour 8).
Definition colour_b (colour : Z) : Z := u8 colour.

(** [proc_search] gives the number of the process with a name, or 0. *)
Definition wm_init (proc_search : string -> Z) (c : client) : Z * client :=
  let pid := proc_search "wm"%string in
  (if pid =? 0 then 0 else 1, MkClient pid (inbox c) (sent c) (wait_prevbtn c) (catch_prevbtn c)).

(** The loop that waits for a handle, in the eight bytes [ret_handle]. *)
Fixpoint wait_handle (l : list (option (list Z))) (ret_handle : list Z) : outcome (Z * list (option (list Z))) :=
  match l with
  | [] => NoFuel
  | None :: l' => wait_handle l' ret_handle
  | Some msg :: l' =>
    r <- copy_into ret_handle 0 msg ;;
    if field r 0 =? WM_MESSAGE_RETURN_HANDLE then Ret (field r 1, l') else wait_handle l' r
  end.

Definition receive_handle (junk : list Z) (c : client) : outcome (Z * client) :=
  '(h, l) <- wait_handle (inbox c) junk ;; Ret (h, set_inbox l c).

Definition wm_create_sheet (x y width height : Z) (junk : list Z) (c : client) : outcome (Z * client) :=
  receive_handle junk (message_send (words [WM_MESSAGE_CREATE_SHEET; x; y; width; height]) c).

Definition wm_fill_sheet (handle colour : Z) (c : client) : client :=
  message_send (words [WM_MESSAGE_FILL_SHEET; handle; colour_r colour; colour_g colour; colour_b colour]) c.

Definition print_text_header (handle x y colour : Z) : list Z :=
  words [WM_MESSAGE_PRINT_TEXT; handle; x; y; colour_r colour; colour_g colour; colour_b colour].

(** [junk] are the 256 bytes of the text before it is copied there. *)
Definition wm_print_text (handle x y colour : Z) (text junk : list Z) (c : client) : outcome client :=
  bytes <- strcpy text ;;
  t <- copy_into junk 0 bytes ;;
  Ret (message_send (print_text_header handle x y colour ++ t) c).

Definition wm_print_text_n (handle x y colour : Z) (text : list Z) (n : Z) (junk : list Z) (c : client) : outcome client :=
  bytes <- copy_from text 0 n ;;
  t <- copy_into junk 0 bytes ;;
  t' <- copy_into t n [0] ;;
  Ret (message_send (print_text_header handle x y colour ++ t') c).

Definition wm_create_window (width height : Z) (junk : list Z) (c : client) : outcome (Z * client) :=
  receive_handle junk (message_send (words [WM_MESSAGE_CREATE_WINDOW; width; height]) c).

(** [junk] are the 64 bytes of the title before it is copied there. *)
Definition wm_window_set_title (handle : Z) (new_title junk : list Z) (c : client) : outcome client :=
  bytes <- strcpy new_title ;;
  t <- copy_into junk 0 bytes ;;
  Ret (message_send (words [WM_MESSAGE_WINDOW_SET_TITLE; handle] ++ t) c).

Definition wm_remove_sheet (handle : Z) (c : client) : client := message_send (words [WM_MESSAGE_REMOVE_SHEET; handle]) c.

Definition wm_fill_rect (handle x y width height colour : Z) (c : client) : client :=
  message_send (words [WM_MESSAGE_DRAW_RECT; handle; x; y; width; height; colour_r colour; colour_g colour; colour_b colour]) c.

(** Pixels of the program, of which [width * height] are copied to the three
    million bytes [junk]. *)
Definition wm_draw_buffer (handle x y width height : Z) (buffer junk : list Z) (c : client) : outcome client :=
  bytes <- copy_from (words buffer) 0 (u32 (width * height * 4)) ;;
  t <- copy_into junk 0 bytes ;;
  Ret (message_send (words [WM_MESSAGE_DRAW_BUFFER; handle; x; y; width; height] ++ t) c).

(** ** Events *)

Inductive WmEventType :=
  WM_EVENT_KEY_DOWN | WM_EVENT_KEY_UP | WM_EVENT_MOUSE_BUTTON_DOWN | WM_EVENT_MOUSE_BUTTON_UP | WM_EVENT_WINDOW_CLOSE.

Record WmEvent := MkEvent { event_type : WmEventType; handle : Z; keycode : Z; ev_x : Z; ev_y : Z }.

Definition WM_MOUSE_LEFT : Z := 0.
Definition WM_MOUSE_RIGHT : Z := 1.
Definition WM_MOUSE_MIDDLE : Z := 2.

(** The first button of left, right and middle that changed, and how. *)
Definition button_change (prevbtn button : Z) : option (WmEventType * Z) :=
  if negb (Z.testbit prevbtn 0) && Z.testbit button 0 then Some (WM_EVENT_MOUSE_BUTTON_DOWN, WM_MOUSE_LEFT)
  else if Z.testbit prevbtn 0 && negb (Z.testbit button 0) then Some (WM_EVENT_MOUSE_BUTTON_UP, WM_MOUSE_LEFT)
  else if negb (Z.testbit prevbtn 1) && Z.testbit button 1 then Some (WM_EVENT_MOUSE_BUTTON_DOWN, WM_MOUSE_RIGHT)
  else if Z.testbit prevbtn 1 && negb (Z.testbit button 1) then Some (WM_EVENT_MOUSE_BUTTON_UP, WM_MOUSE_RIGHT)
  else if negb (Z.testbit prevbtn 2) && Z.testbit button 2 then Some (WM_EVENT_MOUSE_BUTTON_DOWN, WM_MOUSE_MIDDLE)
  else if Z.testbit prevbtn 2 && negb (Z.testbit button 2) then Some (WM_EVENT_MOUSE_BUTTON_UP, WM_MOUSE_MIDDLE)
  else None.

(** What both functions do with the message in [buf]: whether there is an event,
    the caller's structure and the buttons. *)
Definition decode_event (buf : list Z) (prevbtn : Z) (e : WmEvent) : bool * WmEvent * Z :=
  let f := field buf in
  if f 0 =? WM_MESSAGE_KEYBOARD_EVENT then
    (true, MkEvent (if f 3 =? 0 then WM_EVENT_KEY_DOWN else WM_EVENT_KEY_UP) (f 1) (f 2) (ev_x e) (ev_y e), prevbtn)
  else if f 0 =? WM_MESSAGE_MOUSE_BUTTON_EVENT then
    let '(t, k) := match button_change prevbtn (f 4) with Some change => change | None => (event_type e, keycode e) end in
    (true, MkEvent t (f 1) k (f 2) (f 3), f 4)
  else if f 0 =? WM_MESSAGE_WINDOW_CLOSE_EVENT then (true, MkEvent WM_EVENT_WINDOW_CLOSE (f 1) (keycode e) (ev_x e) (ev_y e), prevbtn)
  else (false, e, prevbtn).

(** [message_wait] sleeps until there is a message: calls that find none are
    passed over.  [junk] are the 256 bytes of the buffer. *)
Fixpoint wait_message (l : list (option (list Z))) : outcome (list Z * list (option (list Z))) :=
  match l with
  | [] => NoFuel
  | None :: l' => wait_message l'
  | Some msg :: l' => Ret (msg, l')
  end.

Definition wm_wait_event (junk : list Z) (e : WmEvent) (c : client) : outcome (bool * WmEvent * client) :=
  '(msg, l) <- wait_message (inbox c) ;;
  buf <- copy_into junk 0 msg ;;
  let '(r, e', b) := decode_event buf (wait_prevbtn c) e in
  Ret (r, e', MkClient (wm_pid c) l (sent c) b (catch_prevbtn c)).

Definition wm_catch_event (junk : list Z) (e : WmEvent) (c : client) : outcome (bool * WmEvent * client) :=
  match inbox c with
  | [] => NoFuel
  | None :: l => Ret (false, e, set_inbox l c)
  | Some msg :: l =>
    buf <- copy_into junk 0 msg ;;
    let '(r, e', b) := decode_event buf (catch_prevbtn c) e in
    Ret (r, e', MkClient (wm_pid c) l (sent c) (wait_prevbtn c) b)
  end.
End Client.

(** ** Messages *)

Lemma get32_words ws rest (i : nat) w : ws !! i = Some w -> get32 (4 * Z.of_nat i) (words ws ++ rest) = u32 w.
Proof.
  revert i. induction ws as [|v ws IH]; intros [|i] Hi; try done.
  - cbn in Hi. injection Hi as ->. unfold get32, slice, words. change (Z.to_nat (4 * Z.of_nat 0)) with 0%nat. change (Z.to_nat 4) with 4%nat. rewrite bind_cons, <- app_assoc, drop_0, take_app_length' by (by rewrite le_bytes_length).
    apply le_val_bytes, u32_range.
  - cbn in Hi. rewrite <- (IH i Hi). unfold get32, slice, words. rewrite bind_cons, <- app_assoc. replace (Z.to_nat (4 * Z.of_nat (S i))) with (4 + Z.to_nat (4 * Z.of_nat i))%nat by lia.
    rewrite <- drop_drop, drop_app_length' by (by rewrite le_bytes_length). done.
Qed.

Lemma field_words ws rest (i : nat) w : ws !! i = Some w -> is_s32 w -> field (words ws ++ rest) (Z.of_nat i) = w.
Proof. intros Hi Hw. unfold field. by rewrite (get32_words ws rest i w Hi), s32_u32, s32_id. Qed.

Lemma words_length ws : length (words ws) = (4 * length ws)%nat.
Proof. unfold words. induction ws as [|w ws IH]; [done|]. rewrite bind_cons, length_app, le_bytes_length, IH. cbn. lia. Qed.

(** Pixels survive the way through the bytes of a message. *)
Lemma pixels_words ps rest : Forall is_u32 ps -> pixels (words ps ++ rest) = ps ++ pixels rest.
Proof.
  induction 1 as [|p ps Hp _ IH]; [done|]. unfold words. rewrite bind_cons, <- app_assoc. fold (words ps).
  change (pixels (le_bytes 4 (u32 p) ++ words ps ++ rest)) with (le_val (le_bytes 4 (u32 p)) :: pixels (words ps ++ rest)). rewrite IH. cbn [app]. f_equal.
  rewrite u32_small by done. by apply le_val_bytes.
Qed.

Lemma strcpy_holds w t : holds_str w t -> LibC.strcpy t = Ret (w ++ [0]).
Proof.
  intros [Hw (r & ->)]. induction Hw as [|c w Hc _ IH]; [done|]. cbn [app LibC.strcpy]. destruct (Z.eqb_spec c 0); [lia|]. by rewrite IH.
Qed.

(** Printing stops at the end of the string. *)
Lemma print_string_holds font16 w t t' : holds_str w t -> holds_str w t' -> forall buf x y width colour,
  wm_print_string font16 buf t x y width colour = wm_print_string font16 buf t' x y width colour.
Proof.
  intros [Hw (r & ->)] [_ (r' & ->)]. induction Hw as [|c w Hc _ IH]; intros buf x y width colour; [done|]. cbn [app wm_print_string]. destruct (_ || _); [done|].
  destruct (wm_print_char _ _ _ _ _ _ _); cbn [obind]; [|done..]. apply IH.
Qed.

Lemma fastmemcpy32_src n : forall dest doff src src' soff, (forall k, soff <= k < soff + Z.of_nat n -> zget src k = zget src' k) ->
  fastmemcpy32 n dest doff src soff = fastmemcpy32 n dest doff src' soff.
Proof.
  induction n as [|n IH]; intros dest doff src src' soff H; [done|]. cbn [fastmemcpy32]. rewrite (H soff) by lia. destruct (zget src' soff); cbn [of_option obind]; [|done].
  destruct (zset dest doff _); cbn [of_option obind]; [|done]. apply IH. intros k Hk. apply H. lia.
Qed.

(** Copying [n] rows looks at no pixels behind them. *)
Lemma copy_rows_src n : forall dest dx dy dw src src' sy w, 0 <= w -> 0 <= sy -> (forall k, 0 <= k < (sy + Z.of_nat n) * w -> zget src k = zget src' k) ->
  copy_rows n dest dx dy dw src 0 sy w w = copy_rows n dest dx dy dw src' 0 sy w w.
Proof.
  induction n as [|n IH]; intros dest dx dy dw src src' sy w Hw Hsy H; [done|]. cbn [copy_rows]. rewrite (fastmemcpy32_src _ dest (dy * dw + dx) src src') by (intros k Hk; apply H; nia).
  destruct (fastmemcpy32 _ _ _ _ _); cbn [obind]; [|done..]. apply IH; [done|lia|]. intros k Hk. apply H. nia.
Qed.

Lemma on_canvas_ext font16 p draw draw' s : (forall b w h, draw b w h = draw' b w h) -> on_canvas font16 p draw s = on_canvas font16 p draw' s.
Proof.
  intros H. unfold on_canvas. destruct (get_sheet p s) as [sh| | |]; cbn [obind]; [|done..]. destruct (sh_window sh =? 0).
  - destruct (get_buf _ s); cbn [obind]; [|done..]. by rewrite H.
  - destruct (get_window _ s) as [w| | |]; cbn [obind]; [|done..]. destruct (get_buf _ s); cbn [obind]; [|done..]. by rewrite H.
Qed.

Lemma colour_again c : 0 <= c < 2 ^ 24 -> COLOUR (Client.colour_r c) (Client.colour_g c) (Client.colour_b c) = c.
Proof.
  intros Hc. unfold COLOUR, Client.colour_r, Client.colour_g, Client.colour_b. cbn [le_val]. rewrite !Z.shiftr_div_pow2 by lia. unfold u8.
  change (2 ^ 16) with 65536. change (2 ^ 8) with 256. change (2 ^ 24) with 16777216 in Hc. rewrite !Z.mod_mod by lia. Z.to_euclidean_division_equations. lia.
Qed.

(** ** Requests *)

Lemma field_at ws rest i w : ws !! Z.to_nat i = Some w -> 0 <= i -> is_s32 w -> field (words ws ++ rest) i = w.
Proof. intros Hi H0 Hw. rewrite <- (Z2Nat.id i) by done. by apply field_words. Qed.

Lemma byte_s32 x : is_s32 (u8 x).
Proof. unfold is_s32, u8. pose proof (Z.mod_pos_bound x (2 ^ 8)). lia. Qed.

(** The fields of a message of words. *)
Ltac fields := repeat match goal with
  | |- context [field (words ?ws ++ ?rest) ?i] => rewrite (field_at ws rest i _ eq_refl) by first [lia | assumption | apply byte_s32 | by vm_compute]
  end.

(** The branch of the kind of the message. *)
Ltac select_request := cbn [Z.eqb Pos.eqb WM_MESSAGE_CREATE_SHEET WM_MESSAGE_FILL_SHEET WM_MESSAGE_PRINT_TEXT WM_MESSAGE_CREATE_WINDOW WM_MESSAGE_WINDOW_SET_TITLE
  WM_MESSAGE_REMOVE_SHEET WM_MESSAGE_DRAW_RECT WM_MESSAGE_DRAW_BUFFER].

Section requests.
Variable font16 : list Z.
Variables xres heap_end : Z.

(** The last message the client has sent makes the window manager do [effect],
    whatever its buffer holds behind the message. *)
Definition requests (c c' : Client.client) (effect : Z -> wm -> outcome wm) : Prop :=
  exists msg, Client.sent c' = Client.sent c ++ [(Client.wm_pid c, msg)] /\
    forall pid stale s, handle_message font16 xres heap_end pid (msg ++ stale) s = effect pid s.

Lemma wait_handle_ok n p l junk : zlen junk = 8 -> Client.wait_handle (replicate n None ++ Some (words [WM_MESSAGE_RETURN_HANDLE; p]) :: l) junk = Ret (s32 p, l).
Proof.
  intros Hj. induction n as [|n IH]; [|exact IH]. cbn [replicate app Client.wait_handle]. rewrite copy_into_ok by (rewrite ?Hj; done). cbn [obind].
  unfold zlen in Hj. rewrite splice_0_app, drop_ge, app_nil_r by (rewrite words_length; cbn [length]; lia).
  rewrite <- (app_nil_r (words _)). rewrite (field_at [WM_MESSAGE_RETURN_HANDLE; p] [] 0 _ eq_refl) by done. cbn [Z.eqb WM_MESSAGE_RETURN_HANDLE].
  f_equal. f_equal. unfold field. change (4 * 1) with (4 * Z.of_nat 1). rewrite (get32_words [WM_MESSAGE_RETURN_HANDLE; p] [] 1 p eq_refl). apply s32_u32.
Qed.

(** The handle that the window manager sends back. *)
Lemma receive_handle_ok n p l junk c : zlen junk = 8 -> Client.inbox c = replicate n None ++ Some (words [WM_MESSAGE_RETURN_HANDLE; p]) :: l ->
  Client.receive_handle junk c = Ret (s32 p, Client.set_inbox l c).
Proof. intros Hj Hi. unfold Client.receive_handle. by rewrite Hi, wait_handle_ok. Qed.

Lemma create_sheet_request x y w h n p l junk c : is_s32 x -> is_s32 y -> is_s32 w -> is_s32 h -> zlen junk = 8 ->
  Client.inbox c = replicate n None ++ Some (words [WM_MESSAGE_RETURN_HANDLE; p]) :: l ->
  exists c', Client.wm_create_sheet x y w h junk c = Ret (s32 p, c') /\ requests c c' (fun pid s => new <- wm_create_sheet font16 heap_end x y w h s ;; give_sheet pid new).
Proof.
  intros Hx Hy Hw Hh Hj Hi. unfold Client.wm_create_sheet. rewrite (receive_handle_ok n p l) by done. eexists. split; [reflexivity|]. eexists. split; [reflexivity|].
  intros pid stale s. unfold handle_message. fields. done.
Qed.

Lemma create_window_request w h n p l junk c : is_s32 w -> is_s32 h -> zlen junk = 8 ->
  Client.inbox c = replicate n None ++ Some (words [WM_MESSAGE_RETURN_HANDLE; p]) :: l ->
  exists c', Client.wm_create_window w h junk c = Ret (s32 p, c') /\ requests c c' (fun pid s => new <- wm_create_window font16 heap_end w h 200 200 s ;; give_sheet pid new).
Proof.
  intros Hw Hh Hj Hi. unfold Client.wm_create_window. rewrite (receive_handle_ok n p l) by done. eexists. split; [reflexivity|]. eexists. split; [reflexivity|].
  intros pid stale s. unfold handle_message. fields. done.
Qed.

Lemma fill_sheet_request p colour c : is_s32 p -> 0 <= colour < 2 ^ 24 ->
  requests c (Client.wm_fill_sheet p colour c) (fun _ s => on_canvas font16 (u32 p) (fun b w h => wm_fill_buffer b 0 0 w h w colour) s).
Proof.
  intros Hp Hc. eexists. split; [reflexivity|]. intros pid stale s. unfold handle_message. fields. select_request. apply on_canvas_ext. intros b w h. by rewrite colour_again.
Qed.

Lemma fill_rect_request p x y w h colour c : is_s32 p -> is_s32 x -> is_s32 y -> is_s32 w -> is_s32 h -> 0 <= colour < 2 ^ 24 ->
  requests c (Client.wm_fill_rect p x y w h colour c) (fun _ s => on_canvas font16 (u32 p) (fun b width _ => wm_fill_buffer b x y w h width colour) s).
Proof.
  intros Hp Hx Hy Hw Hh Hc. eexists. split; [reflexivity|]. intros pid stale s. unfold handle_message. fields. select_request.
  apply on_canvas_ext. intros b w' h'. by rewrite colour_again.
Qed.

Lemma remove_sheet_request p c : is_s32 p ->
  requests c (Client.wm_remove_sheet p c) (fun _ s => sh <- get_sheet (u32 p) s ;; if sh_window sh =? 0 then sheet_remove xres (u32 p) s else window_close xres (u32 p) s).
Proof. intros Hp. eexists. split; [reflexivity|]. intros pid stale s. unfold handle_message. fields. done. Qed.

Lemma drop_message ws t (n : nat) : n = (4 * length ws)%nat -> drop n (words ws ++ t) = t.
Proof. intros ->. apply drop_app_length'. by rewrite words_length. Qed.

Lemma holds_text w t junk rest : holds_str w t -> zlen w < zlen junk -> holds_str w (splice 0 (w ++ [0]) junk ++ rest).
Proof. intros [Hw _] Hl. split; [done|]. rewrite splice_0_app, <- !app_assoc. cbn [app]. eauto. Qed.

Lemma copy_string w t junk : holds_str w t -> zlen w < zlen junk -> copy_into junk 0 (w ++ [0]) = Ret (splice 0 (w ++ [0]) junk).
Proof. intros Hw Hl. apply copy_into_ok; [done|]. rewrite zlen_app. unfold zlen at 2. cbn [length]. lia. Qed.

Lemma print_text_request p x y colour text w junk c : is_s32 p -> is_s32 x -> is_s32 y -> 0 <= colour < 2 ^ 24 -> holds_str w text -> zlen w < zlen junk ->
  exists c', Client.wm_print_text p x y colour text junk c = Ret c' /\
    requests c c' (fun _ s => on_canvas font16 (u32 p) (fun b width _ => wm_print_string font16 b text x y width colour) s).
Proof.
  intros Hp Hx Hy Hc Hw Hl. unfold Client.wm_print_text. rewrite (strcpy_holds w) by done. cbn [obind]. rewrite (copy_string w text) by done. cbn [obind].
  eexists. split; [reflexivity|]. eexists. split; [reflexivity|]. intros pid stale s. unfold handle_message, Client.print_text_header. rewrite <- app_assoc. fields. select_request.
  apply on_canvas_ext. intros b wd h. rewrite colour_again, drop_message by done. apply (print_string_holds font16 w); [by apply holds_text with text|done].
Qed.

Lemma print_text_n_request p x y colour text n junk c : is_s32 p -> is_s32 x -> is_s32 y -> 0 <= colour < 2 ^ 24 -> 0 <= n <= zlen text -> n < zlen junk ->
  Forall (fun ch => ch <> 0) (slice 0 n text) ->
  exists c', Client.wm_print_text_n p x y colour text n junk c = Ret c' /\
    requests c c' (fun _ s => on_canvas font16 (u32 p) (fun b width _ => wm_print_string font16 b (slice 0 n text ++ [0]) x y width colour) s).
Proof.
  intros Hp Hx Hy Hc Hn Hl Hz. assert (Ln : zlen (slice 0 n text) = n) by (apply slice_length; lia). unfold Client.wm_print_text_n. rewrite copy_from_ok by lia. cbn [obind].
  rewrite copy_into_ok by lia. cbn [obind]. set (w := slice 0 n text) in *. assert (Lw : length w = Z.to_nat n) by (unfold zlen in Ln; lia).
  rewrite copy_into_ok by (first [lia | rewrite splice_length by lia; change (zlen [0]) with 1; lia]). cbn [obind].
  assert (Et : splice n [0] (splice 0 w junk) = w ++ 0 :: drop (S (length w)) junk).
  { rewrite splice_0_app. unfold splice. rewrite take_app_length' by done. f_equal. cbn [app length]. f_equal. rewrite drop_app_ge by lia. rewrite drop_drop. f_equal. lia. }
  rewrite Et. eexists. split; [reflexivity|]. eexists. split; [reflexivity|]. intros pid stale s. unfold handle_message, Client.print_text_header. rewrite <- app_assoc. fields. select_request.
  apply on_canvas_ext. intros b wd h. rewrite colour_again, drop_message by done. apply (print_string_holds font16 w); split; try done; [rewrite <- app_assoc; cbn [app]; eauto|by exists []].
Qed.

Lemma set_title_request p new_title w junk c : is_s32 p -> holds_str w new_title -> zlen w < zlen junk ->
  exists c', Client.wm_window_set_title p new_title junk c = Ret c' /\ requests c c' (fun _ s => wm_window_set_title font16 (u32 p) new_title s).
Proof.
  intros Hp Hw Hl. unfold Client.wm_window_set_title. rewrite (strcpy_holds w) by done. cbn [obind]. rewrite (copy_string w new_title) by done. cbn [obind].
  eexists. split; [reflexivity|]. eexists. split; [reflexivity|]. intros pid stale s. unfold handle_message. rewrite <- app_assoc. fields. select_request.
  rewrite drop_message by done. unfold wm_window_set_title. destruct (get_sheet _ _); cbn [obind]; [|done..]. destruct (get_window _ _); cbn [obind]; [|done..].
  rewrite (strcpy_holds w new_title), (strcpy_holds w) by (try done; by apply holds_text with new_title). done.
Qed.

Lemma draw_buffer_request p x y w h buffer junk c : is_s32 p -> is_s32 x -> is_s32 y -> 0 <= w < 2 ^ 31 -> 0 <= h < 2 ^ 31 -> w * h <= zlen buffer -> w * h * 4 <= zlen junk < 2 ^ 32 ->
  Forall is_u32 buffer ->
  exists c', Client.wm_draw_buffer p x y w h buffer junk c = Ret c' /\
    requests c c' (fun _ s => on_canvas font16 (u32 p) (fun b width _ => wm_copy_buffer b x y width buffer 0 0 w w h) s).
Proof.
  intros Hp Hx Hy Hw Hh Hb Hj Hu. set (n := w * h) in *. assert (Hn : 0 <= n) by (unfold n; nia). unfold Client.wm_draw_buffer. fold n. rewrite u32_small by (unfold is_u32; lia).
  assert (Lb : zlen (words buffer) = 4 * zlen buffer) by (unfold zlen; rewrite words_length; lia).
  rewrite copy_from_ok by lia. cbn [obind]. assert (Ls : zlen (slice 0 (n * 4) (words buffer)) = n * 4) by (apply slice_length; lia).
  rewrite copy_into_ok by lia. cbn [obind]. eexists. split; [reflexivity|]. eexists. split; [reflexivity|].
  assert (Hsw : is_s32 w) by (unfold is_s32; lia). assert (Hsh : is_s32 h) by (unfold is_s32; lia).
  assert (Ep : slice 0 (n * 4) (words buffer) = words (take (Z.to_nat n) buffer)).
  { rewrite <- (take_drop (Z.to_nat n) buffer) at 1. unfold words, slice. change (Z.to_nat 0) with 0%nat. rewrite bind_app, drop_0. apply take_app_length'.
    fold (words (take (Z.to_nat n) buffer)). rewrite words_length, length_take. unfold zlen in Hb. lia. }
  intros pid stale s. unfold handle_message. rewrite <- app_assoc. fields. select_request. rewrite drop_message by done.
  apply on_canvas_ext. intros b wd hd. unfold wm_copy_buffer. apply copy_rows_src; [lia|lia|]. intros k Hk. rewrite Z2Nat.id in Hk by lia.
  rewrite splice_0_app, <- app_assoc, Ep, pixels_words by (by apply Forall_take). unfold zget. destruct (Z.ltb_spec k 0); [lia|].
  unfold zlen in Hb. rewrite lookup_app_l by (rewrite length_take; unfold n in *; lia). apply lookup_take_lt. unfold n in *. lia.
Qed.

(** The calls of a client and what they ask for. *)
Inductive request :=
  | CreateSheet (x y width height : Z)
  | CreateWindow (width height : Z)
  | FillSheet (p colour : Z)
  | PrintText (p x y colour : Z) (text : list Z)
  | PrintTextN (p x y colour : Z) (text : list Z) (n : Z)
  | SetTitle (p : Z) (text : list Z)
  | RemoveSheet (p : Z)
  | FillRect (p x y width height colour : Z)
  | DrawBuffer (p x y width height : Z) (buffer : list Z).

Definition issue (r : request) (junk : list Z) (c : Client.client) : outcome Client.client :=
  match r with
  | CreateSheet x y w h => '(_, c') <- Client.wm_create_sheet x y w h junk c ;; Ret c'
  | CreateWindow w h => '(_, c') <- Client.wm_create_window w h junk c ;; Ret c'
  | FillSheet p colour => Ret (Client.wm_fill_sheet p colour c)
  | PrintText p x y colour text => Client.wm_print_text p x y colour text junk c
  | PrintTextN p x y colour text n => Client.wm_print_text_n p x y colour text n junk c
  | SetTitle p text => Client.wm_window_set_title p text junk c
  | RemoveSheet p => Ret (Client.wm_remove_sheet p c)
  | FillRect p x y w h colour => Ret (Client.wm_fill_rect p x y w h colour c)
  | DrawBuffer p x y w h buffer => Client.wm_draw_buffer p x y w h buffer junk c
  end.

Definition effect (r : request) (pid : Z) (s : wm) : outcome wm :=
  match r with
  | CreateSheet x y w h => new <- wm_create_sheet font16 heap_end x y w h s ;; give_sheet pid new
  | CreateWindow w h => new <- wm_create_window font16 heap_end w h 200 200 s ;; give_sheet pid new
  | FillSheet p colour => on_canvas font16 (u32 p) (fun b w h => wm_fill_buffer b 0 0 w h w colour) s
  | PrintText p x y colour text => on_canvas font16 (u32 p) (fun b w _ => wm_print_string font16 b text x y w colour) s
  | PrintTextN p x y colour text n => on_canvas font16 (u32 p) (fun b w _ => wm_print_string font16 b (slice 0 n text ++ [0]) x y w colour) s
  | SetTitle p text => wm_window_set_title font16 (u32 p) text s
  | RemoveSheet p => sh <- get_sheet (u32 p) s ;; if sh_window sh =? 0 then sheet_remove xres (u32 p) s else window_close xres (u32 p) s
  | FillRect p x y w h colour => on_canvas font16 (u32 p) (fun b width _ => wm_fill_buffer b x y w h width colour) s
  | DrawBuffer p x y w h buffer => on_canvas font16 (u32 p) (fun b width _ => wm_copy_buffer b x y width buffer 0 0 w w h) s
  end.

(** Arguments are [int]s, colours have three bytes, texts and pixels end inside the
    structure of the message (others leave it: [long_text_faults]), and for a call
    that waits the next message is its handle (another one is written over the
    stack: [event_overruns_handle]). *)
Definition reply_comes (c : Client.client) : Prop := exists n p l, Client.inbox c = replicate n None ++ Some (words [WM_MESSAGE_RETURN_HANDLE; p]) :: l.
Definition colour_ok (colour : Z) : Prop := 0 <= colour < 2 ^ 24.

Definition request_ok (r : request) (c : Client.client) : Prop :=
  match r with
  | CreateSheet x y w h => is_s32 x /\ is_s32 y /\ is_s32 w /\ is_s32 h /\ reply_comes c
  | CreateWindow w h => is_s32 w /\ is_s32 h /\ reply_comes c
  | FillSheet p colour => is_s32 p /\ colour_ok colour
  | PrintText p x y colour text => is_s32 p /\ is_s32 x /\ is_s32 y /\ colour_ok colour /\ exists w, holds_str w text /\ zlen w < 256
  | PrintTextN p x y colour text n =>
    is_s32 p /\ is_s32 x /\ is_s32 y /\ colour_ok colour /\ 0 <= n <= zlen text /\ n < 256 /\ Forall (fun ch => ch <> 0) (slice 0 n text)
  | SetTitle p text => is_s32 p /\ exists w, holds_str w text /\ zlen w < 64
  | RemoveSheet p => is_s32 p
  | FillRect p x y w h colour => is_s32 p /\ is_s32 x /\ is_s32 y /\ is_s32 w /\ is_s32 h /\ colour_ok colour
  | DrawBuffer p x y w h buffer =>
    is_s32 p /\ is_s32 x /\ is_s32 y /\ 0 <= w < 2 ^ 31 /\ 0 <= h < 2 ^ 31 /\ w * h <= zlen buffer /\ w * h * 4 <= 3000000 /\ Forall is_u32 buffer
  end.

(** The size of the variable of the call that is not written at once. *)
Definition junk_size (r : request) : Z :=
  match r with CreateSheet _ _ _ _ | CreateWindow _ _ => 8 | PrintText _ _ _ _ _ | PrintTextN _ _ _ _ _ _ => 256 | SetTitle _ _ => 64 | DrawBuffer _ _ _ _ _ _ => 3000000 | _ => 0 end.

(** C29: Every call of the library whose arguments fit ([request_ok]: a text of fewer
    than 256 characters, a title of fewer than 64, at most 3,000,000 bytes of pixels,
    and for a call that waits for a handle the answer as the next message) sends one
    message, and this message, whatever follows it in the window manager's buffer,
    makes the window manager do what the call's arguments say: the same
    coordinates, colours, texts and pixels reach the sheet of the handle. *)
Theorem client_requests_served r junk c : request_ok r c -> zlen junk = junk_size r ->
  exists c', issue r junk c = Ret c' /\ requests c c' (effect r).
Proof.
  unfold colour_ok, reply_comes. destruct r; cbn [request_ok junk_size issue effect]; intros Hr Hj.
  - destruct Hr as (? & ? & ? & ? & n & p & l & Hi). destruct (create_sheet_request x y width height n p l junk c) as (c' & -> & ?); [done..|]. eauto.
  - destruct Hr as (? & ? & n & p & l & Hi). destruct (create_window_request width height n p l junk c) as (c' & -> & ?); [done..|]. eauto.
  - destruct Hr as (? & ?). eexists. split; [reflexivity|]. by apply fill_sheet_request.
  - destruct Hr as (? & ? & ? & ? & w & ? & ?). apply (print_text_request _ _ _ _ _ w); [done..|lia].
  - destruct Hr as (? & ? & ? & ? & ? & ? & ?). apply print_text_n_request; [done..|lia|done].
  - destruct Hr as (? & w & ? & ?). apply (set_title_request _ _ w); [done..|lia].
  - eexists. split; [reflexivity|]. by apply remove_sheet_request.
  - destruct Hr as (? & ? & ? & ? & ? & ?). eexists. split; [reflexivity|]. by apply fill_rect_request.
  - destruct Hr as (? & ? & ? & ? & ? & ? & ? & ?). apply draw_buffer_request; try done. lia.
Qed.
End requests.

(** A program prints two letters red at a place of its sheet. *)
Lemma client_requests_served_witness : exists c', issue (PrintText 4096 8 8 (COLOUR 255 0 0) [72; 105; 0]) (repeat 0 (Z.to_nat 256)) (Client.MkClient 2 [] [] 0 0) = Ret c' /\
  requests (repeat 0 4096) 1024 (2 ^ 30) (Client.MkClient 2 [] [] 0 0) c'
    (fun _ s => on_canvas (repeat 0 4096) 4096 (fun b w _ => wm_print_string (repeat 0 4096) b [72; 105; 0] 8 8 w (COLOUR 255 0 0)) s).
Proof.
  apply (client_requests_served (repeat 0 4096) 1024 (2 ^ 30) (PrintText 4096 8 8 (COLOUR 255 0 0) [72; 105; 0])); [|by rewrite zlen_repeat].
  cbn [request_ok]. unfold is_s32, colour_ok. change (COLOUR 255 0 0) with 16711680. split; [lia|]. split; [lia|]. split; [lia|]. split; [lia|]. exists [72; 105]. split; [|done].
  split; [repeat constructor; lia|by exists []].
Defined.

(** ** Events *)

(** A program that gets the message next is told [e'], by either function; the
    function remembers buttons [b'] where it remembered [b]. *)
Definition reports (junk msg : list Z) (b : Z) (e e' : Client.WmEvent) (b' : Z) : Prop :=
  forall c l, Client.inbox c = Some msg :: l ->
    (Client.wait_prevbtn c = b -> Client.wm_wait_event junk e c = Ret (true, e', Client.MkClient (Client.wm_pid c) l (Client.sent c) b' (Client.catch_prevbtn c))) /\
    (Client.catch_prevbtn c = b -> Client.wm_catch_event junk e c = Ret (true, e', Client.MkClient (Client.wm_pid c) l (Client.sent c) (Client.wait_prevbtn c) b')).

Lemma decode_reports junk ws b e e' b' : zlen junk = 256 -> (4 * length ws <= 256)%nat ->
  (forall rest, Client.decode_event (words ws ++ rest) b e = (true, e', b')) -> reports junk (words ws) b e e' b'.
Proof.
  intros Hj Hl Hd c l Hi. assert (Hc : copy_into junk 0 (words ws) = Ret (words ws ++ drop (length (words ws)) junk)).
  { rewrite copy_into_ok; [by rewrite splice_0_app|done|]. unfold zlen at 1. rewrite words_length. lia. }
  unfold Client.wm_wait_event, Client.wm_catch_event. rewrite Hi. cbn [Client.wait_message obind]. rewrite Hc. cbn [obind].
  split; intros ->; by rewrite Hd.
Qed.

(** Exactly button [k] of three is different from the state [b] of the last message
    the program got.  With a release it was not told of this does not hold:
    [missed_release_is_no_event]. *)
Definition flipped (b btn k : Z) : Prop := 0 <= k < 3 /\ 0 <= btn < 8 /\ forall j, 0 <= j < 3 -> (Z.testbit b j = Z.testbit btn j <-> j <> k).

Lemma flipped_change b btn k : flipped b btn k ->
  Client.button_change b btn = Some (if Z.testbit btn k then Client.WM_EVENT_MOUSE_BUTTON_DOWN else Client.WM_EVENT_MOUSE_BUTTON_UP, k).
Proof.
  intros (Hk & _ & Hj). pose proof (Hj 0 ltac:(lia)) as H0. pose proof (Hj 1 ltac:(lia)) as H1. pose proof (Hj 2 ltac:(lia)) as H2. unfold Client.button_change.
  assert (k = 0 \/ k = 1 \/ k = 2) as [-> | [-> | ->]] by lia.
  - destruct (Z.testbit b 0), (Z.testbit btn 0); try done; exfalso; by apply H0.
  - rewrite (proj2 H0) by lia. destruct (Z.testbit btn 0); cbn [negb andb]; (destruct (Z.testbit b 1), (Z.testbit btn 1); try done; exfalso; by apply H1).
  - rewrite (proj2 H0), (proj2 H1) by lia. destruct (Z.testbit btn 0), (Z.testbit btn 1); cbn [negb andb]; (destruct (Z.testbit b 2), (Z.testbit btn 2); try done; exfalso; by apply H2).
Qed.

(** A field whose word may be any. *)
Lemma field_any ws rest i w : ws !! Z.to_nat i = Some w -> 0 <= i -> field (words ws ++ rest) i = s32 w.
Proof. intros Hi H0. unfold field. rewrite <- (Z2Nat.id i) by done. by rewrite (get32_words ws rest _ w Hi), s32_u32. Qed.

Ltac any_fields := repeat match goal with
  | |- context [field (words ?ws ++ ?rest) ?i] => rewrite (field_any ws rest i _ eq_refl) by lia
  end.

Lemma key_reports junk p key up b e : zlen junk = 256 -> 0 <= key < 256 ->
  reports junk (words [WM_MESSAGE_KEYBOARD_EVENT; p; key; if up : bool then 1 else 0]) b e
    (Client.MkEvent (if up then Client.WM_EVENT_KEY_UP else Client.WM_EVENT_KEY_DOWN) (s32 p) key (Client.ev_x e) (Client.ev_y e)) b.
Proof.
  intros Hj Hk. apply decode_reports; [done|cbn; lia|]. intros rest. unfold Client.decode_event. any_fields. rewrite (s32_small key) by lia. by destruct up.
Qed.

Lemma button_reports junk p x y b btn k e : zlen junk = 256 -> flipped b btn k ->
  reports junk (words [WM_MESSAGE_MOUSE_BUTTON_EVENT; p; x; y; btn]) b e
    (Client.MkEvent (if Z.testbit btn k then Client.WM_EVENT_MOUSE_BUTTON_DOWN else Client.WM_EVENT_MOUSE_BUTTON_UP) (s32 p) k (s32 x) (s32 y)) btn.
Proof.
  intros Hj Hf. apply decode_reports; [done|cbn; lia|]. intros rest. unfold Client.decode_event. any_fields. assert (Hb : s32 btn = btn) by (apply s32_small; destruct Hf as (_ & ? & _); lia).
  rewrite Hb, (flipped_change b btn k Hf). done.
Qed.

Lemma close_reports junk p b e : zlen junk = 256 ->
  reports junk (words [WM_MESSAGE_WINDOW_CLOSE_EVENT; p]) b e (Client.MkEvent Client.WM_EVENT_WINDOW_CLOSE (s32 p) (Client.keycode e) (Client.ev_x e) (Client.ev_y e)) b.
Proof. intros Hj. apply decode_reports; [done|cbn; lia|]. intros rest. unfold Client.decode_event. any_fields. done. Qed.

(** What the window manager sends. *)
Lemma keyboard_sends ppid kc s wnd sh : last_window (nsheets s) (sheet_list s) 0 s = Ret wnd -> wnd <> 0 -> sheets s !! wnd = Some sh ->
  exists s' msg, keyboard_event ppid kc s = Ret s' /\
    outputs s' = outputs s ++ [Send ppid msg; Send (owner_pid sh) (words [WM_MESSAGE_KEYBOARD_EVENT; wnd; Z.land kc 0xff; if Z.testbit kc 8 then 1 else 0])].
Proof.
  intros Hw Hn Hs. unfold keyboard_event. set (s1 := send ppid _ s).
  assert (Ew : forall n p w, last_window n p w s1 = last_window n p w s).
  { induction n as [|n IH]; intros p w; [done|]. cbn [last_window]. change (get_sheet p s1) with (get_sheet p s). destruct (p =? 0); [done|]. destruct (get_sheet p s); cbn [obind]; [apply IH|done..]. }
  change (nsheets s1) with (nsheets s). change (sheet_list s1) with (sheet_list s). rewrite Ew, Hw. cbn [obind]. destruct (Z.eqb_spec wnd 0); [done|].
  unfold get_sheet. change (sheets s1) with (sheets s). rewrite Hs. cbn [of_option obind]. eexists _, _. split; [reflexivity|]. unfold s1, send, emit. cbn [outputs]. rewrite <- app_assoc. reflexivity.
Qed.

Lemma sheet_click_sends font16 xres btn s p sh : find_hit (nsheets s) (sheet_list s) s = Ret p -> p <> 0 -> sheets s !! p = Some sh -> sh_window sh = 0 ->
  exists s', mouse_button_event font16 xres btn s = Ret s' /\
    outputs s' = outputs s ++ [Send (owner_pid sh) (words [WM_MESSAGE_MOUSE_BUTTON_EVENT; p; cur_x s - sh_x sh; cur_y s - sh_y sh; btn])].
Proof.
  intros Hh Hp Hs Hw. unfold mouse_button_event, get_sheet. rewrite Hh. cbn [obind]. destruct (Z.eqb_spec p 0); [done|]. rewrite Hs. cbn [of_option obind]. rewrite Hw. cbn [Z.eqb obind]. eauto.
Qed.

Lemma window_click_sends font16 xres btn s p sh : find_hit (nsheets s) (sheet_list s) s = Ret p -> p <> 0 -> sheets s !! p = Some sh -> sh_window sh <> 0 -> sh_y sh + 32 <= cur_y s ->
  exists s', mouse_button_event font16 xres btn s = Ret s' /\
    outputs s' = outputs s ++ [Send (owner_pid sh) (words [WM_MESSAGE_MOUSE_BUTTON_EVENT; p; cur_x s - sh_x sh; cur_y s - sh_y sh - 32; btn])].
Proof.
  intros Hh Hp Hs Hw Hy. unfold mouse_button_event, get_sheet. rewrite Hh. cbn [obind]. destruct (Z.eqb_spec p 0); [done|]. rewrite Hs. cbn [of_option obind].
  destruct (Z.eqb_spec (sh_window sh) 0); [done|]. unfold window_onclick, get_sheet. rewrite Hs. cbn [of_option obind]. destruct (Z.ltb_spec (cur_y s) (sh_y sh + 32)); [lia|].
  rewrite andb_false_r. cbn [andb]. destruct (negb (win_moving s =? 0) && negb (Z.testbit btn 0)); cbn [obind set_moving cur_y]; destruct (Z.ltb_spec (cur_y s) (sh_y sh + 32)); try lia; eexists; split; reflexivity.
Qed.

Definition on_close_button (s : wm) (sh : Sheet) : Prop :=
  sh_x sh + sh_width sh - 28 <= cur_x s < sh_x sh + sh_width sh - 4 /\ sh_y sh + 4 <= cur_y s < sh_y sh + 28.

Lemma close_click_sends font16 xres btn s p sh : find_hit (nsheets s) (sheet_list s) s = Ret p -> p <> 0 -> sheets s !! p = Some sh -> sh_window sh <> 0 -> owner_pid sh <> 0 ->
  Z.testbit btn 0 = true -> win_moving s = 0 -> on_close_button s sh ->
  exists s', mouse_button_event font16 xres btn s = Ret s' /\ outputs s' = outputs s ++ [Send (owner_pid sh) (words [WM_MESSAGE_WINDOW_CLOSE_EVENT; p])].
Proof.
  intros Hh Hp Hs Hw Ho Hb Hm [[Hx1 Hx2] [Hy1 Hy2]]. unfold mouse_button_event, get_sheet. rewrite Hh. cbn [obind]. destruct (Z.eqb_spec p 0); [done|]. rewrite Hs. cbn [of_option obind].
  destruct (Z.eqb_spec (sh_window sh) 0); [done|]. unfold window_onclick, get_sheet. rewrite Hs. cbn [of_option obind]. rewrite Hb, Hm.
  assert (Hc : (cur_y s <? sh_y sh + 32) = true) by lia. rewrite Hc. cbn [andb Z.eqb].
  destruct (Z.leb_spec (sh_x sh + sh_width sh - 28) (cur_x s)), (Z.ltb_spec (cur_x s) (sh_x sh + sh_width sh - 4)), (Z.leb_spec (sh_y sh + 4) (cur_y s)), (Z.ltb_spec (cur_y s) (sh_y sh + 28)); try lia.
  cbn [andb]. destruct (Z.eqb_spec (owner_pid sh) 0); [done|]. cbn [obind]. unfold send, emit. cbn [cur_y]. rewrite Hc. eauto.
Qed.

(** C30: A key goes to the owner of the topmost window (and to the parent of the window
    manager); a change of exactly one button against the last message the program
    got goes to the owner of the lowest sheet under the cursor (the one [find_hit]
    chooses), below its title if it is a window, with the place relative to it; and the left
    button on the close button of a window, while none is moved, closes: in each
    case the owner gets one message, and the library tells the owner the key, the
    button and the place, or that the window closes. *)
Theorem client_events_reported font16 xres ppid s junk e p sh : zlen junk = 256 -> p <> 0 -> sheets s !! p = Some sh ->
  (forall kc b, last_window (nsheets s) (sheet_list s) 0 s = Ret p -> exists s' msg msg', keyboard_event ppid kc s = Ret s' /\
    outputs s' = outputs s ++ [Send ppid msg; Send (owner_pid sh) msg'] /\
    reports junk msg' b e (Client.MkEvent (if Z.testbit kc 8 then Client.WM_EVENT_KEY_UP else Client.WM_EVENT_KEY_DOWN) (s32 p) (Z.land kc 0xff) (Client.ev_x e) (Client.ev_y e)) b) /\
  (find_hit (nsheets s) (sheet_list s) s = Ret p ->
    (forall b btn k, flipped b btn k -> sh_window sh = 0 \/ sh_y sh + 32 <= cur_y s -> exists s' msg, mouse_button_event font16 xres btn s = Ret s' /\
      outputs s' = outputs s ++ [Send (owner_pid sh) msg] /\
      reports junk msg b e (Client.MkEvent (if Z.testbit btn k then Client.WM_EVENT_MOUSE_BUTTON_DOWN else Client.WM_EVENT_MOUSE_BUTTON_UP) (s32 p) k
        (s32 (cur_x s - sh_x sh)) (s32 (cur_y s - (sh_y sh + if sh_window sh =? 0 then 0 else 32)))) btn) /\
    (forall b btn, sh_window sh <> 0 -> owner_pid sh <> 0 -> Z.testbit btn 0 = true -> win_moving s = 0 -> on_close_button s sh -> exists s' msg,
      mouse_button_event font16 xres btn s = Ret s' /\ outputs s' = outputs s ++ [Send (owner_pid sh) msg] /\
      reports junk msg b e (Client.MkEvent Client.WM_EVENT_WINDOW_CLOSE (s32 p) (Client.keycode e) (Client.ev_x e) (Client.ev_y e)) b)).
Proof.
  intros Hj Hp Hs. split; [|intros Hh; split].
  - intros kc b Hl. destruct (keyboard_sends ppid kc s p sh Hl Hp Hs) as (s' & msg & E & Ho). eexists s', msg, _. split; [done|]. split; [done|]. apply key_reports; [done|].
    change 255 with (Z.ones 8). rewrite Z.land_ones by lia. by apply Z.mod_pos_bound.
  - intros b btn k Hf Hy. destruct (Z.eqb_spec (sh_window sh) 0) as [Hw|Hw].
    + destruct (sheet_click_sends font16 xres btn s p sh Hh Hp Hs Hw) as (s' & E & Ho). eexists s', _. split; [done|]. split; [done|]. rewrite Z.add_0_r. by apply button_reports.
    + destruct Hy as [|Hy]; [done|]. destruct (window_click_sends font16 xres btn s p sh Hh Hp Hs Hw Hy) as (s' & E & Ho). eexists s', _. split; [done|]. split; [done|].
      rewrite Z.sub_add_distr. by apply button_reports.
  - intros b btn Hw Ho Hb Hm Hc. destruct (close_click_sends font16 xres btn s p sh Hh Hp Hs Hw Ho Hb Hm Hc) as (s' & E & Hs'). eexists s', _. split; [done|]. split; [done|]. by apply close_reports.
Qed.

(** One sheet at [(10, 10)], the cursor on it: a press of the left button. *)
Lemma client_events_reported_witness :
  let s := Wm {[ 4096 := MkSheet 10 10 20 20 7 5000 0 0 ]} ∅ ∅ 8192 [] 4096 15 16 0 0 0 0 [] in
  let e := Client.MkEvent Client.WM_EVENT_KEY_DOWN 0 0 0 0 in
  exists s' msg, mouse_button_event [] 205 1 s = Ret s' /\ outputs s' = [Send 7 msg] /\
    reports (repeat 0 (Z.to_nat 256)) msg 0 e (Client.MkEvent Client.WM_EVENT_MOUSE_BUTTON_DOWN 4096 0 5 6) 1.
Proof.
  intros s e. destruct (client_events_reported [] 205 1 s (repeat 0 (Z.to_nat 256)) e 4096 (MkSheet 10 10 20 20 7 5000 0 0)) as [_ H]; [by rewrite zlen_repeat|done|done|].
  destruct H as [H _]; [by vm_compute|]. destruct (H 0 1 0) as (s' & msg & E & Ho & Hr); [|by left|by exists s', msg].
  split; [lia|]. split; [lia|]. intros j Hj. assert (j = 0 \/ j = 1 \/ j = 2) as [-> | [-> | ->]] by lia; by vm_compute.
Defined.

(** ** Where the library differs from what it is meant to do *)

(** When a button was released outside of the program's sheets, the next press is an
    event whose kind and button are those that the program's structure had before. *)
Lemma missed_release_is_no_event junk p x y e : zlen junk = 256 ->
  reports junk (words [WM_MESSAGE_MOUSE_BUTTON_EVENT; p; x; y; 1]) 1 e (Client.MkEvent (Client.event_type e) (s32 p) (Client.keycode e) (s32 x) (s32 y)) 1.
Proof. intros Hj. apply decode_reports; [done|cbn; lia|]. intros rest. unfold Client.decode_event. any_fields. done. Qed.

(** A key pressed while a program waits for a handle is written over the end of the
    eight bytes that wait for it. *)
Lemma event_overruns_handle p key up l junk : zlen junk = 8 -> Client.wait_handle (Some (words [WM_MESSAGE_KEYBOARD_EVENT; p; key; up]) :: l) junk = Fault.
Proof. intros Hj. cbn [Client.wait_handle]. unfold copy_into. rewrite Hj. done. Qed.

(** A text of 256 characters or more leaves the message on the stack. *)
Lemma long_text_faults p x y colour w text junk c : holds_str w text -> 256 <= zlen w -> zlen junk = 256 -> Client.wm_print_text p x y colour text junk c = Fault.
Proof.
  intros Hw Hl Hj. unfold Client.wm_print_text. rewrite (strcpy_holds w) by done. cbn [obind]. unfold copy_into. rewrite zlen_app. change (zlen [0]) with 1.
  destruct (Z.leb_spec (0 + (zlen w + 1)) (zlen junk)); [lia|done].
Qed.
