(* ===== verification/Sh.v ===== *)
(** program/sh/sh.c: the shell.

    A command line is a buffer [buf] of bytes; pointers into it are offsets, and
    [es] is the offset of its terminator.  The recursive descent parser takes
    and returns the position [*ps].  Its calls of [panic] end the shell's child
    process and are [Panic].  A command tree points into the buffer: a word is
    the pair of its start and its end ([argv] and [eargv], [file] and [efile]),
    and [nulterminate] stores a terminator at every end.  The allocations of the
    tree nodes are taken to succeed.  [runcmd] is a program of system calls: a
    tree of the calls it makes, each with what is done on its result.

    The theorems: on every line the parser ends, within the line, with a tree or
    a syntax error, and the words of the tree are strings afterwards; and parsing
    is the inverse of printing commands. *)

From stdpp Require Import base list strings.
From Stdlib Require Import ZArith Lia.
From S2P Require Import Prelude KString Vfs LibC.

Local Open Scope Z_scope.
Local Open Scope outcome_scope.

(** ** Commands *)

Definition O_RDONLY : Z := 0.
Definition O_WRONLY : Z := 1.
Definition O_CREATE : Z := 0x200.
Definition MAXARGS : Z := 10.

(** [EXEC] lists the pairs of [argv] and [eargv] that are set. *)
Inductive cmd :=
| EXEC (args : list (Z * Z))
| REDIR (c : cmd) (file efile mode fd : Z)
| PIPE (left right : cmd)
| LIST (left right : cmd)
| BACK (c : cmd).

(** ** Tokens *)

Definition whitespace : list Z := [32; 9; 13; 10; 11; 0].
Definition symbols : list Z := [60; 124; 62; 38; 59; 40; 41; 0].

Section line.
Context (buf : list Z) (es : Z).

Definition is_in (toks : list Z) (c : Z) : outcome bool :=
  r <- LibC.strchr toks c ;; Ret (match r with Some _ => true | None => false end).

(** [while (s < es && strchr(whitespace, *s))]. *)
Fixpoint skip_white (n : nat) (s : Z) : outcome Z :=
  if negb (s <? es) then Ret s else
  c <- of_option (zget buf s) ;;
  w <- is_in whitespace c ;;
  if negb w then Ret s else
  match n with O => NoFuel | S n' => skip_white n' (s + 1) end.

(** [while (s < es && !strchr(whitespace, *s) && !strchr(symbols, *s))]. *)
Fixpoint skip_word (n : nat) (s : Z) : outcome Z :=
  if negb (s <? es) then Ret s else
  c <- of_option (zget buf s) ;;
  w <- is_in whitespace c ;;
  if w then Ret s else
  y <- is_in symbols c ;;
  if y then Ret s else
  match n with O => NoFuel | S n' => skip_word n' (s + 1) end.

(** Rounds that are enough for a scan. *)
Definition room : nat := Z.to_nat es.

(** The token, its start and its end, and the new position.  Words are ['a']
    (97), [>>] is ['+'] (43). *)
Definition gettoken (s : Z) : outcome (Z * Z * Z * Z) :=
  q <- skip_white room s ;;
  c <- of_option (zget buf q) ;;
  '(ret, eq) <- (if c =? 0 then Ret (0, q)
    else if (c =? 124) || (c =? 40) || (c =? 41) || (c =? 59) || (c =? 38) || (c =? 60) then Ret (c, q + 1)
    else if c =? 62 then
      c2 <- of_option (zget buf (q + 1)) ;; Ret (if c2 =? 62 then (43, q + 2) else (c, q + 1))
    else e <- skip_word room q ;; Ret (97, e)) ;;
  s' <- skip_white room eq ;;
  Ret (ret, q, eq, s').

Definition peek (s : Z) (toks : list Z) : outcome (bool * Z) :=
  s' <- skip_white room s ;;
  c <- of_option (zget buf s') ;;
  b <- (if c =? 0 then Ret false else is_in toks c) ;;
  Ret (b, s').

(** ** The parser *)

Definition tok_amp : list Z := [38; 0].
Definition tok_semi : list Z := [59; 0].
Definition tok_bar : list Z := [124; 0].
Definition tok_open : list Z := [40; 0].
Definition tok_close : list Z := [41; 0].
Definition tok_redir : list Z := [60; 62; 0].
Definition tok_end : list Z := [124; 41; 38; 59; 0].
Definition tok_none : list Z := [0].

Fixpoint parseredirs (n : nat) (c : cmd) (s : Z) : outcome (cmd * Z) :=
  match n with
  | O => NoFuel
  | S n' =>
    '(b, s1) <- peek s tok_redir ;;
    if negb b then Ret (c, s1) else
    '(tok, _, _, s2) <- gettoken s1 ;;
    '(tok2, q, eq, s3) <- gettoken s2 ;;
    if negb (tok2 =? 97) then Panic "missing file for redirection" else
    let c' := if tok =? 60 then REDIR c q eq O_RDONLY 0
              else if (tok =? 62) || (tok =? 43) then REDIR c q eq (Z.lor O_WRONLY O_CREATE) 1
              else c in
    parseredirs n' c' s3
  end.

(** The node made by [execcmd] stays at the bottom of the redirections put
    around it; this adds an argument to it. *)
Fixpoint add_arg (ret : cmd) (q eq : Z) : cmd :=
  match ret with
  | EXEC args => EXEC (args ++ [(q, eq)])
  | REDIR c f e m d => REDIR (add_arg c q eq) f e m d
  | _ => ret
  end.

(** The loop of [parseexec]. *)
Fixpoint exec_loop (n : nat) (argc : Z) (ret : cmd) (s : Z) : outcome (cmd * Z) :=
  match n with
  | O => NoFuel
  | S n' =>
    '(b, s1) <- peek s tok_end ;;
    if b then Ret (ret, s1) else
    '(tok, q, eq, s2) <- gettoken s1 ;;
    if tok =? 0 then Ret (ret, s2) else
    if negb (tok =? 97) then Panic "syntax" else
    if MAXARGS <=? argc + 1 then Panic "too many args" else
    '(ret', s3) <- parseredirs n' (add_arg ret q eq) s2 ;;
    exec_loop n' (argc + 1) ret' s3
  end.

(** The loop of [parseline]. *)
Fixpoint back_loop (n : nat) (c : cmd) (s : Z) : outcome (cmd * Z) :=
  match n with
  | O => NoFuel
  | S n' =>
    '(b, s1) <- peek s tok_amp ;;
    if negb b then Ret (c, s1) else
    '(_, _, _, s2) <- gettoken s1 ;;
    back_loop n' (BACK c) s2
  end.

Fixpoint parseline (n : nat) (s : Z) : outcome (cmd * Z) :=
  match n with
  | O => NoFuel
  | S n' =>
    '(c, s1) <- parsepipe n' s ;;
    '(c1, s2) <- back_loop n' c s1 ;;
    '(b, s3) <- peek s2 tok_semi ;;
    if negb b then Ret (c1, s3) else
    '(_, _, _, s4) <- gettoken s3 ;;
    '(c2, s5) <- parseline n' s4 ;;
    Ret (LIST c1 c2, s5)
  end
with parsepipe (n : nat) (s : Z) : outcome (cmd * Z) :=
  match n with
  | O => NoFuel
  | S n' =>
    '(c, s1) <- parseexec n' s ;;
    '(b, s2) <- peek s1 tok_bar ;;
    if negb b then Ret (c, s2) else
    '(_, _, _, s3) <- gettoken s2 ;;
    '(c2, s4) <- parsepipe n' s3 ;;
    Ret (PIPE c c2, s4)
  end
with parseexec (n : nat) (s : Z) : outcome (cmd * Z) :=
  match n with
  | O => NoFuel
  | S n' =>
    '(b, s1) <- peek s tok_open ;;
    if b then parseblock n' s1 else
    '(ret, s2) <- parseredirs n' (EXEC []) s1 ;;
    exec_loop n' 0 ret s2
  end
with parseblock (n : nat) (s : Z) : outcome (cmd * Z) :=
  match n with
  | O => NoFuel
  | S n' =>
    '(b, s1) <- peek s tok_open ;;
    if negb b then Panic "parseblock" else
    '(_, _, _, s2) <- gettoken s1 ;;
    '(c, s3) <- parseline n' s2 ;;
    '(b2, s4) <- peek s3 tok_close ;;
    if negb b2 then Panic "syntax - missing )" else
    '(_, _, _, s5) <- gettoken s4 ;;
    parseredirs n' c s5
  end.
End line.

(** A terminator at the end of every word. *)
Fixpoint end_args (args : list (Z * Z)) (buf : list Z) : outcome (list Z) :=
  match args with
  | [] => Ret buf
  | (_, e) :: args' => buf' <- of_option (zset buf e 0) ;; end_args args' buf'
  end.

Fixpoint nulterminate (c : cmd) (buf : list Z) : outcome (list Z) :=
  match c with
  | EXEC args => end_args args buf
  | REDIR c _ efile _ _ => buf' <- nulterminate c buf ;; of_option (zset buf' efile 0)
  | PIPE l r => buf' <- nulterminate l buf ;; nulterminate r buf'
  | LIST l r => buf' <- nulterminate l buf ;; nulterminate r buf'
  | BACK c => nulterminate c buf
  end.

(** The calls nest at most four deep for every byte of the line. *)
Definition parse_fuel (es : Z) : nat := (4 * Z.to_nat es + 4)%nat.

Definition parsecmd (buf : list Z) : outcome (cmd * list Z) :=
  es <- LibC.strlen buf ;;
  '(c, s) <- parseline buf es (parse_fuel es) 0 ;;
  '(_, s') <- peek buf es s tok_none ;;
  if negb (s' =? es) then Panic "syntax" else
  buf' <- nulterminate c buf ;;
  Ret (c, buf').

(** ** Running commands *)

(** A program of system calls; [Stuck] is an access outside an array. *)
Inductive prog :=
| Exit (status : Z)
| Printf (fmt : string) (arg : list Z) (k : prog)
| Fork (k : Z -> prog)
| Wait (k : prog)
| Exec (path : list Z) (argv : list (list Z)) (k : prog)
| Open (file : list Z) (mode : Z) (k : Z -> prog)
| Close (fd : Z) (k : prog)
| Dup (fd : Z) (k : prog)
| Pipe (k : Z -> Z -> Z -> prog)
| Chdir (dir : list Z) (k : Z -> prog)
| Stuck.

Definition EXIT_FAILURE : Z := 1.

(** [panic]. *)
Definition die (msg : string) : prog := Printf msg [] (Exit EXIT_FAILURE).

Definition fork1 (k : Z -> prog) : prog := Fork (fun pid => if pid =? -1 then die "fork" else k pid).

(** The string a pointer into the line points to. *)
Definition string_at (b : list Z) (q : Z) : list Z := cstr (drop (Z.to_nat q) b).

Definition bin_prefix : list Z := [47; 98; 105; 110; 47].

(** [char exe[100]]: the path and its terminator have to fit. *)
Definition EXE_SIZE : Z := 100.

(** [buf] is the line after [nulterminate]. *)
Fixpoint runcmd (buf : list Z) (c : cmd) : prog :=
  match c with
  | EXEC [] => Exit EXIT_FAILURE
  | EXEC ((q, e) :: args) =>
    let argv := map (fun w => string_at buf (fst w)) ((q, e) :: args) in
    let exe := bin_prefix ++ string_at buf q in
    if EXE_SIZE <? zlen exe + 1 then Stuck else
    Exec exe argv (Printf "exec %s failed" (string_at buf q) (Exit EXIT_FAILURE))
  | REDIR c file _ mode fd =>
    Close fd (Open (string_at buf file) mode (fun r =>
      if r <? 0 then Printf "open %s failed" (string_at buf file) (Exit EXIT_FAILURE) else runcmd buf c))
  | LIST l r => fork1 (fun pid => if pid =? 0 then runcmd buf l else Wait (runcmd buf r))
  | PIPE l r =>
    Pipe (fun res p0 p1 =>
      if res <? 0 then die "pipe" else
      fork1 (fun pid => if pid =? 0 then Close 1 (Dup p1 (Close p0 (Close p1 (runcmd buf l)))) else
      fork1 (fun pid => if pid =? 0 then Close 0 (Dup p0 (Close p0 (Close p1 (runcmd buf r)))) else
      Close p0 (Close p1 (Wait (Wait (Exit EXIT_FAILURE)))))))
  | BACK c => fork1 (fun pid => if pid =? 0 then runcmd buf c else Exit EXIT_FAILURE)
  end.

(** What [main] does with a line it has read; [k] goes on with the next one. *)
Definition run_line (buf : list Z) (k : prog) : prog :=
  match buf with
  | 99 :: 100 :: 32 :: dir =>
    match LibC.strlen buf with
    | Ret n =>
      match zset buf (n - 1) 0 with
      | Some buf' => Chdir (string_at buf' 3) (fun r => if r <? 0 then Printf "cannot cd %s" (string_at buf' 3) k else k)
      | None => Stuck
      end
    | _ => Stuck
    end
  | 101 :: 120 :: 105 :: 116 :: 10 :: _ => Exit 0
  | _ =>
    fork1 (fun pid =>
      if pid =? 0 then
        match parsecmd buf with
        | Ret (c, buf') => runcmd buf' c
        | Panic msg => die msg
        | _ => Stuck
        end
      else Wait k)
  end.

(** ** The parser ends *)

(** A computation that ends with a result in [P] or an error message. *)
Definition ends {A} (P : A -> Prop) (m : outcome A) : Prop :=
  match m with Ret a => P a | Panic _ => True | _ => False end.

Lemma ends_bind {A B} (P : A -> Prop) (Q : B -> Prop) (m : outcome A) (k : A -> outcome B) :
  ends P m -> (forall a, P a -> ends Q (k a)) -> ends Q (obind m k).
Proof. destruct m; cbn; auto. Qed.

Definition mem (l : list Z) (c : Z) : bool := existsb (Z.eqb c) l.

Lemma is_in_mem l c : Forall (fun x => x <> 0) l -> is_in (l ++ [0]) c = Ret (mem l c).
Proof.
  unfold is_in. induction 1 as [|x l Hx _ IH]; [done|]. cbn [app strchr mem existsb]. destruct (Z.eqb_spec x 0); [done|].
  rewrite (Z.eqb_sym c x). destruct (x =? c); [done|]. cbn [orb]. unfold mem in IH. rewrite <- IH.
  destruct (strchr (l ++ [0]) c) as [[i|]| | |]; done.
Qed.

Definition white (c : Z) : bool := mem [32; 9; 13; 10; 11] c.
Definition symbol (c : Z) : bool := mem [60; 124; 62; 38; 59; 40; 41] c.
(** A character of words. *)
Definition plain (c : Z) : bool := negb (c =? 0) && negb (white c) && negb (symbol c).

Lemma is_white c : is_in whitespace c = Ret (white c).
Proof. apply (is_in_mem [32; 9; 13; 10; 11]). repeat constructor; lia. Qed.

Lemma is_symbol c : is_in symbols c = Ret (symbol c).
Proof. apply (is_in_mem [60; 124; 62; 38; 59; 40; 41]). repeat constructor; lia. Qed.

(** The words of a command. *)
Fixpoint words (c : cmd) : list (Z * Z) :=
  match c with
  | EXEC args => args
  | REDIR c f e _ _ => words c ++ [(f, e)]
  | PIPE l r | LIST l r => words l ++ words r
  | BACK c => words c
  end.

Section total.
Context (buf : list Z) (es : Z).

(** The line: [es] bytes that are not zero and a terminator. *)
Record line_at : Prop := {
  la_es : 0 <= es;
  la_end : zget buf es = Some 0;
  la_text : forall i, 0 <= i < es -> exists c, zget buf i = Some c /\ c <> 0;
}.

(** A word of the line and what ends it. *)
Definition word_at (w : Z * Z) : Prop :=
  0 <= fst w < snd w /\ snd w <= es /\
  (forall i, fst w <= i < snd w -> exists c, zget buf i = Some c /\ plain c = true) /\
  (exists c, zget buf (snd w) = Some c /\ plain c = false).

Definition cmd_ok (c : cmd) : Prop := Forall word_at (words c).

Context (L : line_at).

Lemma skip_white_ok n : forall s, 0 <= s <= es -> es - s <= Z.of_nat n ->
  exists s', skip_white buf es n s = Ret s' /\ s <= s' <= es /\ (s' < es -> exists c, zget buf s' = Some c /\ c <> 0 /\ white c = false).
Proof.
  induction n as [|n IH]; intros s Hs Hn; cbn [skip_white]; destruct (Z.ltb_spec s es) as [Hl|Hl]; cbn [negb];
    try (exists s; split; [done|]; split; [lia|]; lia); [lia|].
  destruct (la_text L s) as (c & Ec & Hc); [lia|]. rewrite Ec. cbn [of_option obind]. rewrite is_white. cbn [obind].
  destruct (white c) eqn:Ew; cbn [negb]; [|exists s; split; [done|]; split; [lia|]; eauto].
  destruct (IH (s + 1)) as (s' & -> & H1 & H2); [lia..|]. exists s'. split; [done|]. split; [lia|done].
Qed.

Lemma skip_word_ok n : forall s, 0 <= s <= es -> es - s <= Z.of_nat n ->
  exists s', skip_word buf es n s = Ret s' /\ s <= s' <= es /\
    (forall i, s <= i < s' -> exists c, zget buf i = Some c /\ plain c = true) /\ (exists c, zget buf s' = Some c /\ plain c = false).
Proof.
  induction n as [|n IH]; intros s Hs Hn; cbn [skip_word]; destruct (Z.ltb_spec s es) as [Hl|Hl]; cbn [negb];
    try (exists s; split; [done|]; split; [lia|]; split; [lia|]; replace s with es by lia; exists 0; split; [apply L|done]); [lia|].
  destruct (la_text L s) as (c & Ec & Hc); [lia|]. rewrite Ec. cbn [of_option obind]. rewrite is_white. cbn [obind].
  destruct (white c) eqn:Ew.
  { exists s. split; [done|]. split; [lia|]. split; [lia|]. exists c. split; [done|]. unfold plain. rewrite Ew. by rewrite Bool.andb_false_r. }
  rewrite is_symbol. cbn [obind]. destruct (symbol c) eqn:Ey.
  { exists s. split; [done|]. split; [lia|]. split; [lia|]. exists c. split; [done|]. unfold plain. rewrite Ey. by rewrite Bool.andb_false_r. }
  destruct (IH (s + 1)) as (s' & -> & H1 & H2 & H3); [lia..|]. exists s'. split; [done|]. split; [lia|]. split; [|done].
  intros i Hi. destruct (Z.eq_dec i s) as [->|]; [|apply H2; lia]. exists c. split; [done|]. unfold plain. rewrite Ew, Ey.
  destruct (Z.eqb_spec c 0); done.
Qed.

Lemma room_enough s : 0 <= s <= es -> es - s <= Z.of_nat (room es).
Proof. unfold room. lia. Qed.

(** What a token is: nothing at the end of the line, else at least a byte. *)
Lemma gettoken_ok s : 0 <= s <= es -> exists ret q e s', gettoken buf es s = Ret (ret, q, e, s') /\
  s <= q /\ q <= e /\ e <= s' /\ s' <= es /\ (s < es -> s < s') /\ (ret = 97 -> word_at (q, e)).
Proof.
  intros Hs. unfold gettoken. destruct (skip_white_ok _ s Hs (room_enough s Hs)) as (q & -> & Hq & Hw). cbn [obind].
  assert (Hc : exists c, zget buf q = Some c /\ (q < es -> c <> 0 /\ white c = false) /\ (q = es -> c = 0)).
  { destruct (Z.eq_dec q es) as [->|Hne]; [exists 0; split; [apply L|]; split; [lia|done]|].
    destruct Hw as (c & E & H1 & H2); [lia|]. exists c. split; [done|]. split; [done|lia]. }
  destruct Hc as (c & Ec & Hlt & Heq). rewrite Ec. cbn [of_option obind].
  assert (Hend : forall ret e, q <= e <= es -> (s < es -> s < e) -> (ret = 97 -> word_at (q, e)) ->
    exists r q' e' s', obind (skip_white buf es (room es) e) (fun s' => Ret (ret, q, e, s')) = Ret (r, q', e', s') /\
      s <= q' /\ q' <= e' /\ e' <= s' /\ s' <= es /\ (s < es -> s < s') /\ (r = 97 -> word_at (q', e'))).
  { intros ret e He H1 H2. destruct (skip_white_ok _ e ltac:(lia) (room_enough e ltac:(lia))) as (s' & -> & Hs' & _). cbn [obind].
    exists ret, q, e, s'. split; [done|]. split_and!; try lia; done. }
  destruct (Z.eqb_spec c 0) as [->|Hc0]; [cbn [obind]; apply Hend; [lia| |lia]; intros Hlt'; destruct (Z.eq_dec q es); [lia|destruct (Hlt ltac:(lia)); done]|].
  assert (Hqe : q < es) by (destruct (Z.eq_dec q es) as [E|]; [by apply Heq in E|lia]). destruct (Hlt Hqe) as [_ Hwh].
  destruct (_ || _ || _ || _ || _ || _) eqn:Esym.
  { cbn [obind]. apply Hend; [lia|lia|]. intros ->. done. }
  destruct (Z.eqb_spec c 62) as [->|H62].
  { assert (H2 : exists c2, zget buf (q + 1) = Some c2 /\ (c2 = 62 -> q + 2 <= es)).
    { destruct (Z.eq_dec (q + 1) es) as [->|]; [exists 0; split; [apply L|lia]|].
      destruct (la_text L (q + 1)) as (c2 & E & _); [lia|]. exists c2. split; [done|lia]. }
    destruct H2 as (c2 & -> & H2). cbn [of_option obind]. destruct (Z.eqb_spec c2 62) as [E|_]; cbn [obind]; apply Hend; lia. }
  assert (Hpl : plain c = true).
  { unfold plain, symbol, mem. rewrite Hwh. cbn [existsb]. apply Bool.orb_false_iff in Esym. repeat rewrite Bool.orb_false_iff in Esym. lia. }
  destruct (skip_word_ok _ q ltac:(lia) (room_enough q ltac:(lia))) as (e & -> & He & Hin & Hout). cbn [obind].
  assert (Hlt' : q < e).
  { destruct (Z.eq_dec q e) as [<-|]; [|lia]. destruct Hout as (c' & E' & Hp). congruence. }
  apply Hend; [lia|lia|]. intros _. split; [cbn; lia|]. split; [cbn; lia|]. done.
Qed.

Lemma peek_ok s toks l : 0 <= s <= es -> toks = l ++ [0] -> Forall (fun x => x <> 0) l ->
  exists b s', peek buf es s toks = Ret (b, s') /\ s <= s' <= es /\ (b = true -> s' < es /\ exists c, zget buf s' = Some c /\ mem l c = true).
Proof.
  intros Hs -> Hl. unfold peek. destruct (skip_white_ok _ s Hs (room_enough s Hs)) as (s' & -> & Hs' & Hw). cbn [obind].
  destruct (Z.eq_dec s' es) as [->|Hne].
  { rewrite (la_end L). cbn. exists false, es. split; [done|]. split; [lia|done]. }
  destruct Hw as (c & Ec & H0 & _); [lia|]. rewrite Ec. cbn [of_option obind]. destruct (Z.eqb_spec c 0); [done|].
  rewrite is_in_mem by done. cbn [obind]. exists (mem l c), s'. split; [done|]. split; [lia|]. intros Hm. split; [lia|]. eauto.
Qed.

(** The result of a parsing function that started at [s]. *)
Definition parsed (s : Z) (r : cmd * Z) : Prop := cmd_ok (fst r) /\ s <= snd r <= es.

Lemma parsed_le s s1 m : s <= s1 -> ends (parsed s1) m -> ends (parsed s) m.
Proof. intros Hs. destruct m; [|done..]. cbn. intros [H1 H2]. split; [done|lia]. Qed.

Ltac peek_at toks l :=
  lazymatch goal with |- ends _ (obind (peek buf es ?s toks) _) =>
    let b := fresh "b" in let s' := fresh "s" in let E := fresh in let Hb := fresh "Hb" in let Hs := fresh "Hs" in
    destruct (peek_ok s toks l) as (b & s' & E & Hs & Hb); [lia|reflexivity|repeat constructor; lia|];
    rewrite E; clear E; cbn [obind]; destruct b; cbn [negb]; [specialize (Hb eq_refl); destruct Hb as [Hb _]|clear Hb]
  end.

Ltac token :=
  lazymatch goal with |- ends _ (obind (gettoken buf es ?s) _) =>
    let r := fresh "tok" in let q := fresh "q" in let e := fresh "e" in let s' := fresh "s" in let E := fresh in let W := fresh "Hword" in
    destruct (gettoken_ok s) as (r & q & e & s' & E & ? & ? & ? & ? & ? & W); [lia|]; rewrite E; clear E; cbn [obind]
  end.

Lemma parseredirs_ok n : forall c s, 0 <= s <= es -> es - s < Z.of_nat n -> cmd_ok c -> ends (parsed s) (parseredirs buf es n c s).
Proof.
  induction n as [|n IH]; intros c s Hs Hn Hc; [lia|]. cbn [parseredirs]. peek_at tok_redir [60; 62]; [|split; [done|cbn; lia]].
  token. token. destruct (Z.eqb_spec tok0 97) as [->|]; cbn [negb]; [|done].
  match goal with |- ends _ (parseredirs buf es n ?c' ?s') => assert (Hc' : cmd_ok c') end.
  { repeat case_match; try done; (apply Forall_app; split; [done|]); constructor; auto. }
  eapply parsed_le; [|apply IH; [| |exact Hc']]; lia.
Qed.

Lemma add_arg_ok ret q e : cmd_ok ret -> word_at (q, e) -> cmd_ok (add_arg ret q e).
Proof.
  intros Hr Hw. unfold cmd_ok in *. induction ret as [args|c IH f e' m d|l _ r _|l _ r _|c _]; cbn [add_arg words] in *; try done.
  - apply Forall_app. split; [done|]. by constructor.
  - apply Forall_app in Hr as [H1 H2]. apply Forall_app. auto.
Qed.

Lemma exec_loop_ok n : forall argc ret s, 0 <= s <= es -> es - s < Z.of_nat n -> cmd_ok ret -> ends (parsed s) (exec_loop buf es n argc ret s).
Proof.
  induction n as [|n IH]; intros argc ret s Hs Hn Hr; [lia|]. cbn [exec_loop].
  peek_at tok_end [124; 41; 38; 59]; [split; [done|cbn; lia]|]. token.
  destruct (Z.eqb_spec tok 0); [split; [done|cbn; lia]|]. destruct (Z.eqb_spec tok 97) as [->|]; cbn [negb]; [|done].
  destruct (MAXARGS <=? argc + 1); [done|].
  destruct (Z.eq_dec s0 es) as [->|].
  { (* the end of the line holds no word *)
    destruct (Hword eq_refl) as (Hq & Hq' & _). cbn in Hq, Hq'. lia. }
  eapply ends_bind; [apply (parseredirs_ok n); [lia|lia|by apply add_arg_ok; auto]|].
  intros [ret' s'] [Hok Hs']. cbn in Hok, Hs'.
  eapply parsed_le; [|apply IH; [| |exact Hok]]; lia.
Qed.

Lemma back_loop_ok n : forall c s, 0 <= s <= es -> es - s < Z.of_nat n -> cmd_ok c -> ends (parsed s) (back_loop buf es n c s).
Proof.
  induction n as [|n IH]; intros c s Hs Hn Hc; [lia|]. cbn [back_loop]. peek_at tok_amp [38]; [|split; [done|cbn; lia]].
  token. eapply parsed_le; [|apply IH; [| |exact Hc]]; lia.
Qed.

Lemma cmd_ok_pair l r : cmd_ok l -> cmd_ok r -> cmd_ok (PIPE l r) /\ cmd_ok (LIST l r).
Proof. intros Hl Hr. split; apply Forall_app; done. Qed.

(** Each parsing function ends when the calls may nest four deep for every byte left. *)
Lemma parse_ok n :
  (forall s, 0 <= s <= es -> 4 * (es - s) + 4 <= Z.of_nat n -> ends (parsed s) (parseline buf es n s)) /\
  (forall s, 0 <= s <= es -> 4 * (es - s) + 3 <= Z.of_nat n -> ends (parsed s) (parsepipe buf es n s)) /\
  (forall s, 0 <= s <= es -> 4 * (es - s) + 2 <= Z.of_nat n -> ends (parsed s) (parseexec buf es n s)) /\
  (forall s, 0 <= s <= es -> 4 * (es - s) + 1 <= Z.of_nat n -> ends (parsed s) (parseblock buf es n s)).
Proof.
  induction n as [|n (IHl & IHp & IHe & IHb)]; [split_and!; intros; lia|].
  split_and!; intros s Hs Hn; cbn [parseline parsepipe parseexec parseblock].
  - eapply ends_bind; [apply IHp; lia|]. intros [c s1] [Hc H1]. cbn in Hc, H1.
    eapply ends_bind; [apply back_loop_ok; [lia|lia|done]|]. intros [c1 s2] [Hc1 H2]. cbn in Hc1, H2.
    peek_at tok_semi [59]; [|split; [done|cbn; lia]]. token.
    eapply ends_bind; [apply IHl; lia|]. intros [c2 sf] [Hc2 Hf]. cbn in Hc2, Hf. split; [by apply cmd_ok_pair|cbn; lia].
  - eapply ends_bind; [apply IHe; lia|]. intros [c s1] [Hc H1]. cbn in Hc, H1.
    peek_at tok_bar [124]; [|split; [done|cbn; lia]]. token.
    eapply ends_bind; [apply IHp; lia|]. intros [c2 sf] [Hc2 Hf]. cbn in Hc2, Hf. split; [by apply cmd_ok_pair|cbn; lia].
  - peek_at tok_open [40].
    + eapply parsed_le; [|apply IHb]; lia.
    + eapply ends_bind; [apply (parseredirs_ok n); [lia|lia|by constructor]|]. intros [c s1] [Hc H1]. cbn in Hc, H1.
      eapply parsed_le; [|apply exec_loop_ok; [| |exact Hc]]; lia.
  - peek_at tok_open [40]; [|done]. token.
    eapply ends_bind; [apply IHl; lia|]. intros [c sl] [Hc Hl]. cbn in Hc, Hl.
    peek_at tok_close [41]; [|done]. token.
    eapply parsed_le; [|apply parseredirs_ok; [| |exact Hc]]; lia.
Qed.

(** *** Terminators *)

(** [b'] is [b] with a zero at the end of the words [ws]. *)
Definition cut_at (ws : list (Z * Z)) (b b' : list Z) : Prop :=
  zlen b' = zlen b /\ forall i, zget b' i = if existsb (fun w => snd w =? i) ws then Some 0 else zget b i.

Lemma cut_at_app ws1 ws2 b b1 b2 : cut_at ws1 b b1 -> cut_at ws2 b1 b2 -> cut_at (ws1 ++ ws2) b b2.
Proof.
  intros [L1 G1] [L2 G2]. split; [congruence|]. intros i. rewrite existsb_app, G2, G1.
  destruct (existsb _ ws1), (existsb _ ws2); done.
Qed.

Lemma cut_at_one q e b : 0 <= e < zlen b -> exists b', zset b e 0 = Some b' /\ cut_at [(q, e)] b b'.
Proof.
  intros He. destruct (zset b e 0) as [b'|] eqn:E; [|by rewrite zset_Some in E]. exists b'. split; [done|].
  split; [by eapply zset_zlen|]. intros i. cbn [existsb snd orb]. destruct (Z.eqb_spec e i) as [<-|Hne]; cbn [orb].
  - by eapply zget_zset_eq.
  - by eapply zget_zset_ne.
Qed.

Lemma end_args_ok args : forall b, Forall (fun w : Z * Z => 0 <= snd w < zlen b) args -> exists b', end_args args b = Ret b' /\ cut_at args b b'.
Proof.
  induction args as [|[q e] args IH]; intros b Ha; [exists b; done|]. inversion_clear Ha as [|? ? He Ha']. cbn [snd] in He.
  cbn [end_args]. destruct (cut_at_one q e b He) as (b1 & -> & C1). cbn [of_option obind].
  destruct (IH b1) as (b' & -> & C2); [by rewrite (proj1 C1)|]. exists b'. split; [done|]. exact (cut_at_app [(q, e)] _ _ _ _ C1 C2).
Qed.

Lemma nulterminate_ok c : forall b, Forall (fun w : Z * Z => 0 <= snd w < zlen b) (words c) ->
  exists b', nulterminate c b = Ret b' /\ cut_at (words c) b b'.
Proof.
  assert (Hlen : forall ws ws' b b', cut_at ws b b' -> Forall (fun w : Z * Z => 0 <= snd w < zlen b) ws' -> Forall (fun w => 0 <= snd w < zlen b') ws').
  { intros ws ws' b b' [-> _]. done. }
  induction c as [args|c IH f e m d|l IHl r IHr|l IHl r IHr|c IH]; intros b Hw; cbn [words nulterminate] in *.
  - by apply end_args_ok.
  - apply Forall_app in Hw as [H1 H2]. destruct (IH b H1) as (b1 & -> & C1). cbn [obind].
    pose proof (Hlen _ _ _ _ C1 H2) as H2'. inversion_clear H2' as [|? ? He _]. destruct (cut_at_one f e b1 He) as (b2 & -> & C2).
    exists b2. split; [done|]. by eapply cut_at_app.
  - apply Forall_app in Hw as [H1 H2]. destruct (IHl b H1) as (b1 & -> & C1). cbn [obind].
    destruct (IHr b1) as (b2 & -> & C2); [by eapply Hlen|]. exists b2. split; [done|]. by eapply cut_at_app.
  - apply Forall_app in Hw as [H1 H2]. destruct (IHl b H1) as (b1 & -> & C1). cbn [obind].
    destruct (IHr b1) as (b2 & -> & C2); [by eapply Hlen|]. exists b2. split; [done|]. by eapply cut_at_app.
  - by apply IH.
Qed.

Lemma zget_is_lookup {A} (l : list A) i : 0 <= i -> zget l i = l !! Z.to_nat i.
Proof.
  intros Hi. destruct (zget l i) as [x|] eqn:E; [by apply zget_lookup in E as [_ ->]|].
  destruct (l !! Z.to_nat i) as [x|] eqn:E2; [|done]. assert (zget l i = Some x) by (by apply zget_lookup). congruence.
Qed.

(** A word of the line is a string once the ends of all words are zero: no end
    falls inside a word. *)
Lemma word_string ws b' q e : cut_at ws buf b' -> Forall word_at ws -> (q, e) ∈ ws ->
  slice q (e - q) buf <> [] /\ Forall (fun c => plain c = true) (slice q (e - q) buf) /\
  holds_str (slice q (e - q) buf) (drop (Z.to_nat q) b').
Proof.
  intros [Cl Cg] Hws Hin. pose proof (proj1 (Forall_forall _ _) Hws _ Hin) as (Hq & He & Hpl & Hout). cbn [fst snd] in *.
  destruct Hout as (ce & Ece & Hce). pose proof (zget_Some _ _ _ Ece) as Hlen.
  assert (Hsl : zlen (slice q (e - q) buf) = e - q) by (apply slice_length; lia).
  assert (Hall : forall (k : nat) c, slice q (e - q) buf !! k = Some c -> Z.of_nat k < e - q /\ zget buf (q + Z.of_nat k) = Some c).
  { intros k c Hk. pose proof (lookup_lt_Some _ _ _ Hk). unfold zlen in Hsl. split; [lia|].
    unfold slice in Hk. rewrite lookup_take_lt, lookup_drop in Hk by lia. apply zget_lookup. split; [lia|]. rewrite <- Hk. f_equal. lia. }
  assert (Hp : Forall (fun c => plain c = true) (slice q (e - q) buf)).
  { apply Forall_lookup. intros k c Hk. destruct (Hall k c Hk) as [Hk1 Hk2]. destruct (Hpl (q + Z.of_nat k)) as (c' & E & Hc'); [lia|]. congruence. }
  split; [intros E; rewrite E in Hsl; change (zlen (@nil Z)) with 0 in Hsl; lia|]. split; [done|]. split.
  { eapply Forall_impl; [exact Hp|]. intros c Hc ->. done. }
  exists (drop (Z.to_nat (e + 1)) b'). rewrite <- (take_drop (Z.to_nat (e - q)) (drop (Z.to_nat q) b')). f_equal.
  - apply list_eq. intros k. destruct (slice q (e - q) buf !! k) as [c|] eqn:Hk.
    + destruct (Hall k c Hk) as [Hk1 Hk2]. rewrite lookup_take_lt, lookup_drop by lia.
      replace (Z.to_nat q + k)%nat with (Z.to_nat (q + Z.of_nat k)) by lia. rewrite <- zget_is_lookup, Cg by lia.
      destruct (existsb _ ws) eqn:Ex; [|done]. apply existsb_exists in Ex as ([q2 e2] & Hin2 & Heq). cbn [snd] in Heq.
      apply Z.eqb_eq in Heq as ->. apply list_elem_of_In in Hin2. pose proof (proj1 (Forall_forall _ _) Hws _ Hin2) as (_ & _ & _ & c2 & Ec2 & Hc2).
      cbn [snd] in Ec2. destruct (Hpl (q + Z.of_nat k)) as (c' & E & Hc'); [lia|]. congruence.
    + apply lookup_ge_None in Hk. apply lookup_take_ge. unfold zlen in Hsl. lia.
  - rewrite drop_drop. replace (Z.to_nat q + Z.to_nat (e - q))%nat with (Z.to_nat e) by lia.
    replace (Z.to_nat (e + 1)) with (S (Z.to_nat e)) by lia. apply drop_S. rewrite <- zget_is_lookup, Cg by lia.
    replace (existsb _ ws) with true; [done|]. symmetry. apply existsb_exists. exists (q, e). split; [by apply list_elem_of_In|]. apply Z.eqb_refl.
Qed.
End total.

Lemma libc_strlen w s : holds_str w s -> LibC.strlen s = Ret (zlen w).
Proof.
  intros (Hnz & rest & ->). induction Hnz as [|c w Hc _ IH]; [done|]. cbn [app LibC.strlen]. destruct (Z.eqb_spec c 0); [done|].
  rewrite IH. cbn [obind]. f_equal. unfold zlen. cbn [length]. lia.
Qed.

Lemma holds_line w s : holds_str w s -> line_at s (zlen w).
Proof.
  intros (Hnz & rest & ->). unfold zlen. split; [lia| |].
  - apply zget_lookup. split; [lia|]. rewrite Nat2Z.id, lookup_app_r, Nat.sub_diag by done. done.
  - intros i Hi. destruct (lookup_lt_is_Some_2 w (Z.to_nat i) ltac:(lia)) as [c Ec]. exists c. split.
    + apply zget_lookup. split; [lia|]. by apply lookup_app_l_Some.
    + exact (proj1 (Forall_lookup _ _) Hnz _ _ Ec).
Qed.

(** C35: parsing a command line ends.  Whatever the line, [parsecmd] stops with a
    message or returns a command, without an access outside the line; and every
    word of the command, argument or file name, is after [nulterminate] the
    string of the characters it had in the line: no terminator falls into
    another word. *)
Theorem parsecmd_total w line : holds_str w line ->
  (exists msg, parsecmd line = Panic msg) \/
  (exists c line', parsecmd line = Ret (c, line') /\ zlen line' = zlen line /\
     Forall (fun x => exists t, slice (fst x) (snd x - fst x) line = t /\ t <> [] /\ Forall (fun a => plain a = true) t /\
       holds_str t (drop (Z.to_nat (fst x)) line')) (words c)).
Proof.
  intros Hl. pose proof (holds_line _ _ Hl) as L. pose proof (la_es _ _ L). unfold parsecmd. rewrite (libc_strlen _ _ Hl). cbn [obind].
  pose proof (proj1 (parse_ok line (zlen w) L (parse_fuel (zlen w))) 0 ltac:(lia) ltac:(unfold parse_fuel; lia)) as HP.
  destruct (parseline line (zlen w) (parse_fuel (zlen w)) 0) as [[c s]|msg| |]; [|by left; exists msg|done..].
  destruct HP as [Hc Hs]. cbn [fst snd obind] in *.
  destruct (peek_ok line (zlen w) L s tok_none []) as (b & s' & -> & _); [lia|done|done|]. cbn [obind].
  destruct (negb (s' =? zlen w)); [left; eauto|]. right. unfold cmd_ok in Hc.
  destruct (nulterminate_ok c line) as (line' & -> & Hcut).
  { eapply Forall_impl; [exact Hc|]. intros [q e] (H1 & H2 & _ & c' & E & _). apply zget_Some in E. cbn [fst snd] in *. lia. }
  exists c, line'. split; [done|]. split; [apply Hcut|]. apply Forall_forall. intros [q e] Hin. eexists. split; [done|].
  by eapply word_string.
Qed.

(** "ls -l | cat > x" *)
Lemma parsecmd_total_witness :
  let line := [108; 115; 32; 45; 108; 32; 124; 32; 99; 97; 116; 32; 62; 32; 120; 10; 0] in
  (exists msg, parsecmd line = Panic msg) \/
  (exists c line', parsecmd line = Ret (c, line') /\ zlen line' = zlen line /\
     Forall (fun x => exists t, slice (fst x) (snd x - fst x) line = t /\ t <> [] /\ Forall (fun a => plain a = true) t /\
       holds_str t (drop (Z.to_nat (fst x)) line')) (words c)).
Proof.
  apply (parsecmd_total [108; 115; 32; 45; 108; 32; 124; 32; 99; 97; 116; 32; 62; 32; 120; 10]).
  split; [repeat constructor; lia|]. by exists [].
Defined.

(** ** Parsing what was printed

    The grammar of command lines, as trees of words. *)

Inductive rkind := RIn | ROut | RAppend.
Record redir := Redir { r_kind : rkind; r_file : list Z }.

Inductive aline := LineEnd (p : apipe) (bg : nat) | LineSeq (p : apipe) (bg : nat) (l : aline)
with apipe := PipeEnd (c : acmd) | PipeSeq (c : acmd) (p : apipe)
with acmd := Simple (ws : list (list Z)) (rs : list redir) | Block (l : aline) (rs : list redir).

(** Every token is followed by a space. *)
Definition print_word (w : list Z) : list Z := w ++ [32].
Definition redir_sign (k : rkind) : list Z := match k with RIn => [60] | ROut => [62] | RAppend => [62; 62] end.
Definition print_redir (r : redir) : list Z := redir_sign (r_kind r) ++ [32] ++ print_word (r_file r).
Definition print_redirs (rs : list redir) : list Z := flat_map print_redir rs.

Fixpoint print_amps (n : nat) : list Z := match n with O => [] | S n' => [38; 32] ++ print_amps n' end.

Fixpoint print_line (l : aline) : list Z :=
  match l with
  | LineEnd p bg => print_pipe p ++ print_amps bg
  | LineSeq p bg l => print_pipe p ++ print_amps bg ++ [59; 32] ++ print_line l
  end
with print_pipe (p : apipe) : list Z :=
  match p with
  | PipeEnd c => print_cmd c
  | PipeSeq c p => print_cmd c ++ [124; 32] ++ print_pipe p
  end
with print_cmd (c : acmd) : list Z :=
  match c with
  | Simple ws rs => flat_map print_word ws ++ print_redirs rs
  | Block l rs => [40; 32] ++ print_line l ++ [41; 32] ++ print_redirs rs
  end.

(** What a line means: the tree of commands, with the words themselves. *)
Inductive tree :=
| TExec (ws : list (list Z))
| TRedir (t : tree) (file : list Z) (mode fd : Z)
| TPipe (l r : tree)
| TList (l r : tree)
| TBack (t : tree).

Definition redirect (t : tree) (r : redir) : tree :=
  match r_kind r with
  | RIn => TRedir t (r_file r) O_RDONLY 0
  | ROut | RAppend => TRedir t (r_file r) (Z.lor O_WRONLY O_CREATE) 1
  end.

Fixpoint background (n : nat) (t : tree) : tree := match n with O => t | S n' => background n' (TBack t) end.

Fixpoint mean_line (l : aline) : tree :=
  match l with
  | LineEnd p bg => background bg (mean_pipe p)
  | LineSeq p bg l => TList (background bg (mean_pipe p)) (mean_line l)
  end
with mean_pipe (p : apipe) : tree :=
  match p with
  | PipeEnd c => mean_cmd c
  | PipeSeq c p => TPipe (mean_cmd c) (mean_pipe p)
  end
with mean_cmd (c : acmd) : tree :=
  match c with
  | Simple ws rs => fold_left redirect rs (TExec ws)
  | Block l rs => fold_left redirect rs (mean_line l)
  end.

(** Words have characters, all plain; a command has at most nine. *)
Definition word_ok (w : list Z) : Prop := w <> [] /\ Forall (fun c => plain c = true) w.
Definition redirs_ok (rs : list redir) : Prop := Forall (fun r => word_ok (r_file r)) rs.

Fixpoint line_ok (l : aline) : Prop :=
  match l with
  | LineEnd p _ => pipe_ok p
  | LineSeq p _ l => pipe_ok p /\ line_ok l
  end
with pipe_ok (p : apipe) : Prop :=
  match p with
  | PipeEnd c => acmd_ok c
  | PipeSeq c p => acmd_ok c /\ pipe_ok p
  end
with acmd_ok (c : acmd) : Prop :=
  match c with
  | Simple ws rs => Forall word_ok ws /\ zlen ws < MAXARGS /\ redirs_ok rs
  | Block l rs => line_ok l /\ redirs_ok rs
  end.

(** The command with its words read by [word]. *)
Fixpoint read_cmd (word : Z * Z -> list Z) (c : cmd) : tree :=
  match c with
  | EXEC args => TExec (map word args)
  | REDIR c f e m d => TRedir (read_cmd word c) (word (f, e)) m d
  | PIPE l r => TPipe (read_cmd word l) (read_cmd word r)
  | LIST l r => TList (read_cmd word l) (read_cmd word r)
  | BACK c => TBack (read_cmd word c)
  end.

Lemma read_cmd_ext f g c : (forall w, w ∈ words c -> f w = g w) -> read_cmd f c = read_cmd g c.
Proof.
  induction c as [args|c IH fl e m d|l IHl r IHr|l IHl r IHr|c IH]; intros H; cbn [read_cmd words] in *.
  - f_equal. apply map_ext_in. intros w Hw. apply H. by apply list_elem_of_In.
  - rewrite IH, H; [done|apply elem_of_app; right; by apply list_elem_of_singleton|intros w Hw; apply H, elem_of_app; by left].
  - rewrite IHl, IHr; [done|intros w Hw; apply H, elem_of_app; by right|intros w Hw; apply H, elem_of_app; by left].
  - rewrite IHl, IHr; [done|intros w Hw; apply H, elem_of_app; by right|intros w Hw; apply H, elem_of_app; by left].
  - by rewrite IH.
Qed.

Section reading.
Context (buf : list Z) (es : Z).

(** The text [l] is left at position [s]. *)
Definition here (s : Z) (l : list Z) : Prop := 0 <= s /\ s + zlen l = es /\ drop (Z.to_nat s) buf = l ++ [0].

(** Text that does not begin with a space. *)
Definition start (l : list Z) : Prop := match l with [] => True | c :: _ => c <> 0 /\ white c = false end.

Lemma parseline_eq n s : parseline buf es (S n) s =
  ('(c, s1) <- parsepipe buf es n s ;;
    '(c1, s2) <- back_loop buf es n c s1 ;;
    '(b, s3) <- peek buf es s2 tok_semi ;;
    if negb b then Ret (c1, s3) else
    '(_, _, _, s4) <- gettoken buf es s3 ;;
    '(c2, s5) <- parseline buf es n s4 ;;
    Ret (LIST c1 c2, s5)).
Proof. reflexivity. Qed.

Lemma parsepipe_eq n s : parsepipe buf es (S n) s =
  ('(c, s1) <- parseexec buf es n s ;;
    '(b, s2) <- peek buf es s1 tok_bar ;;
    if negb b then Ret (c, s2) else
    '(_, _, _, s3) <- gettoken buf es s2 ;;
    '(c2, s4) <- parsepipe buf es n s3 ;;
    Ret (PIPE c c2, s4)).
Proof. reflexivity. Qed.

Lemma parseexec_eq n s : parseexec buf es (S n) s =
  ('(b, s1) <- peek buf es s tok_open ;;
    if b then parseblock buf es n s1 else
    '(ret, s2) <- parseredirs buf es n (EXEC []) s1 ;;
    exec_loop buf es n 0 ret s2).
Proof. reflexivity. Qed.

Lemma parseblock_eq n s : parseblock buf es (S n) s =
  ('(b, s1) <- peek buf es s tok_open ;;
    if negb b then Panic "parseblock" else
    '(_, _, _, s2) <- gettoken buf es s1 ;;
    '(c, s3) <- parseline buf es n s2 ;;
    '(b2, s4) <- peek buf es s3 tok_close ;;
    if negb b2 then Panic "syntax - missing )" else
    '(_, _, _, s5) <- gettoken buf es s4 ;;
    parseredirs buf es n c s5).
Proof. reflexivity. Qed.

Lemma here_cons s c l : here s (c :: l) -> zget buf s = Some c /\ s < es /\ here (s + 1) l.
Proof.
  intros (H1 & H2 & H3). unfold zlen in *. cbn [length] in H2. split; [|split; [lia|]].
  - apply zget_lookup. split; [done|]. rewrite <- (Nat.add_0_r (Z.to_nat s)), <- lookup_drop, H3. done.
  - split; [lia|]. split; [unfold zlen; lia|]. replace (Z.to_nat (s + 1)) with (Z.to_nat s + 1)%nat by lia. by rewrite <- drop_drop, H3.
Qed.

Lemma here_nil s : here s [] -> s = es /\ zget buf s = Some 0.
Proof.
  intros (H1 & H2 & H3). change (zlen (@nil Z)) with 0 in H2. split; [lia|]. apply zget_lookup. split; [done|].
  rewrite <- (Nat.add_0_r (Z.to_nat s)), <- lookup_drop, H3. done.
Qed.

Lemma here_app s w l : here s (w ++ l) -> here (s + zlen w) l.
Proof.
  revert s. induction w as [|c w IH]; intros s H; [by rewrite Z.add_0_r|]. apply here_cons in H as (_ & _ & H). apply IH in H.
  replace (s + zlen (c :: w)) with (s + 1 + zlen w) by (unfold zlen; cbn [length]; lia). done.
Qed.

Lemma here_slice s w l : here s (w ++ l) -> slice s (s + zlen w - s) buf = w.
Proof.
  intros (H1 & H2 & H3). unfold slice. rewrite H3. replace (Z.to_nat (s + zlen w - s)) with (length w) by (unfold zlen; lia).
  rewrite <- app_assoc. apply take_app_length.
Qed.

Lemma skip_white_start n s l : here s l -> start l -> skip_white buf es n s = Ret s.
Proof.
  intros H Hs. destruct l as [|c l].
  - apply here_nil in H as [-> _]. destruct n; cbn [skip_white]; by rewrite Z.ltb_irrefl.
  - apply here_cons in H as (E & Hl & _). destruct Hs as [_ Hw].
    destruct n; cbn [skip_white]; destruct (Z.ltb_spec s es); try lia; cbn [negb]; rewrite E; cbn [of_option obind]; rewrite is_white, Hw; done.
Qed.

Lemma skip_white_space s l : here s (32 :: l) -> start l -> skip_white buf es (room es) s = Ret (s + 1).
Proof.
  intros H Hs. pose proof H as (H1 & _). apply here_cons in H as (E & Hl & H). unfold room. destruct (Z.to_nat es) as [|n] eqn:En; [lia|].
  cbn [skip_white]. destruct (Z.ltb_spec s es); [|lia]. cbn [negb]. rewrite E. cbn [of_option obind]. rewrite is_white. cbn. by eapply skip_white_start.
Qed.

Lemma skip_word_here w l : Forall (fun c => plain c = true) w -> forall n s, here s (w ++ 32 :: l) -> (length w <= n)%nat ->
  skip_word buf es n s = Ret (s + zlen w).
Proof.
  induction 1 as [|c w Hc _ IH]; intros n s H Hn; cbn [app] in H; apply here_cons in H as (E & Hl & H).
  - destruct n; cbn [skip_word]; destruct (Z.ltb_spec s es); try lia; cbn [negb]; rewrite E; cbn [of_option obind]; rewrite is_white; cbn; by rewrite Z.add_0_r.
  - cbn [length] in Hn. destruct n as [|n]; [lia|]. cbn [skip_word]. destruct (Z.ltb_spec s es); [|lia]. cbn [negb]. rewrite E. cbn [of_option obind].
    unfold plain in Hc. apply andb_prop in Hc as [Hc Hy]. apply andb_prop in Hc as [_ Hw]. rewrite is_white.
    destruct (white c); [done|]. cbn [obind]. rewrite is_symbol. destruct (symbol c); [done|]. cbn [obind].
    rewrite (IH n (s + 1)) by (done || lia). f_equal. unfold zlen. cbn [length]. lia.
Qed.

Lemma plain_start c : plain c = true -> c <> 0 /\ white c = false /\ symbol c = false.
Proof. unfold plain. destruct (Z.eqb_spec c 0), (white c), (symbol c); done. Qed.

Lemma gettoken_word s w l : word_ok w -> here s (print_word w ++ l) -> start l ->
  exists e, gettoken buf es s = Ret (97, s, e, s + zlen (print_word w)) /\ slice s (e - s) buf = w /\ here (s + zlen (print_word w)) l.
Proof.
  intros [Hne Hp] H Hs. pose proof (here_app _ _ _ H) as Hend. unfold print_word in *. rewrite <- app_assoc in H. cbn [app] in H.
  destruct w as [|c w]; [done|]. pose proof (Forall_inv Hp) as Hc. destruct (plain_start c Hc) as (H0 & Hw & Hy).
  exists (s + zlen (c :: w)). split; [|split; [by eapply here_slice|done]]. unfold gettoken.
  rewrite (skip_white_start _ s _ H) by done. cbn [obind]. pose proof H as Hh. cbn [app] in Hh. apply here_cons in Hh as (E & Hl & _). rewrite E. cbn [of_option obind].
  destruct (Z.eqb_spec c 0); [done|]. unfold symbol, mem in Hy. cbn [existsb] in Hy. repeat rewrite Bool.orb_false_iff in Hy.
  destruct Hy as (Y1 & Y2 & Y3 & Y4 & Y5 & Y6 & Y7 & _). rewrite Y1, Y2, Y3, Y4, Y5, Y6, Y7. cbn [orb].
  rewrite (skip_word_here (c :: w) l Hp _ s H). 2: { unfold room. destruct H as (H1 & H2 & _). rewrite zlen_app in H2. unfold zlen in H2. lia. }
  cbn [obind]. apply here_app in H. rewrite (skip_white_space _ _ H) by done. cbn [obind]. rewrite zlen_app. do 2 f_equal. change (zlen [32]) with 1. lia.
Qed.

(** A sign of one character. *)
Lemma gettoken_sign s c l : mem [124; 40; 41; 59; 38; 60] c = true \/ c = 62 -> here s (c :: 32 :: l) -> start l ->
  gettoken buf es s = Ret (c, s, s + 1, s + 2) /\ here (s + 2) l.
Proof.
  intros Hc H Hs. pose proof (here_cons _ _ _ H) as (E & Hl & H1). pose proof (here_cons _ _ _ H1) as (E1 & _ & H2).
  replace (s + 1 + 1) with (s + 2) in H2 by lia. split; [|done]. unfold gettoken.
  assert (Hst : start (c :: 32 :: l)).
  { destruct Hc as [Hm| ->]; [|done]. unfold mem in Hm. apply existsb_exists in Hm as (x & Hx & ->%Z.eqb_eq).
    repeat destruct Hx as [<-|Hx]; done. }
  rewrite (skip_white_start _ s _ H) by done. cbn [obind]. rewrite E. cbn [of_option obind]. destruct (Z.eqb_spec c 0); [by destruct Hst|].
  pose proof (skip_white_space _ _ H1 Hs) as Hsk. replace (s + 1 + 1) with (s + 2) in Hsk by lia.
  destruct Hc as [Hm| ->].
  - unfold mem in Hm. cbn [existsb] in Hm. destruct (_ || _ || _ || _ || _ || _) eqn:Eo; [|exfalso; lia]. cbn [obind]. by rewrite Hsk.
  - cbn. rewrite E1. cbn. by rewrite Hsk.
Qed.

Lemma gettoken_append s l : here s (62 :: 62 :: 32 :: l) -> start l -> gettoken buf es s = Ret (43, s, s + 2, s + 3) /\ here (s + 3) l.
Proof.
  intros H Hs. pose proof (here_cons _ _ _ H) as (E & Hl & H1). pose proof (here_cons _ _ _ H1) as (E1 & _ & H2).
  pose proof (here_cons _ _ _ H2) as (_ & _ & H3). replace (s + 1 + 1 + 1) with (s + 3) in H3 by lia. replace (s + 1 + 1) with (s + 2) in H2 by lia.
  split; [|done]. unfold gettoken. rewrite (skip_white_start _ s _ H) by done. cbn [obind]. rewrite E. cbn. rewrite E1. cbn.
  rewrite (skip_white_space _ _ H2) by done. cbn [obind]. by replace (s + 2 + 1) with (s + 3) by lia.
Qed.

(** What a text begins with, when it is not at its end. *)
Definition begins (ts l : list Z) : bool := match l with [] => false | c :: _ => mem ts c end.

Lemma peek_here s l toks ts : here s l -> start l -> toks = ts ++ [0] -> Forall (fun x => x <> 0) ts ->
  peek buf es s toks = Ret (begins ts l, s).
Proof.
  intros H Hs -> Ht. unfold peek. rewrite (skip_white_start _ s _ H Hs). cbn [obind]. destruct l as [|c l].
  - apply here_nil in H as [_ ->]. done.
  - apply here_cons in H as (-> & _). cbn [of_option obind]. destruct Hs as [H0 _]. destruct (Z.eqb_spec c 0); [done|]. by rewrite is_in_mem.
Qed.

(** The words of a command in the line. *)
Definition text (w : Z * Z) : list Z := slice (fst w) (snd w - fst w) buf.

(** Text that is at its end or goes on with one of the given signs. *)
Definition follow (ts l : list Z) : Prop := match l with [] => True | c :: _ => mem ts c = true end.

Definition ends_cmd : list Z := [124; 41; 38; 59].

Lemma follow_case ts l : follow ts l -> l = [] \/ exists c r, l = c :: r /\ In c ts.
Proof.
  destruct l as [|c r]; [by left|]. intros (x & Hx & ->%Z.eqb_eq)%existsb_exists. right. eauto.
Qed.

Lemma follow_sub ts us l : follow ts l -> Forall (fun c => mem us c = true) ts -> follow us l.
Proof. intros [->|(c & r & -> & Hc)]%follow_case Hts; [done|]. exact (proj1 (List.Forall_forall _ _) Hts _ Hc). Qed.

Lemma follow_other ts us l : follow ts l -> Forall (fun c => mem us c = false) ts -> begins us l = false.
Proof. intros [->|(c & r & -> & Hc)]%follow_case Hts; [done|]. exact (proj1 (List.Forall_forall _ _) Hts _ Hc). Qed.

Lemma follow_start l : follow ends_cmd l -> start l.
Proof. intros [->|(c & r & -> & Hc)]%follow_case; [done|]. repeat destruct Hc as [<-|Hc]; done. Qed.

(** Text that no redirection begins. *)
Definition no_redir (l : list Z) : Prop := begins [60; 62] l = false.

Lemma follow_no_redir l : follow ends_cmd l -> no_redir l.
Proof. intros Hf. apply (follow_other _ _ _ Hf). by repeat constructor. Qed.

Lemma word_start w l : word_ok w -> start (print_word w ++ l) /\ no_redir (print_word w ++ l) /\
  match print_word w ++ l with [] => False | c :: _ => mem ends_cmd c = false /\ c <> 40 end.
Proof.
  intros [Hne Hp]. destruct w as [|c w]; [done|]. destruct (plain_start c (Forall_inv Hp)) as (H0 & Hw & Hy). unfold no_redir. cbn [print_word app start begins].
  unfold symbol, mem, ends_cmd in *. cbn [existsb] in *. repeat rewrite Bool.orb_false_iff in Hy. destruct Hy as (Y1 & Y2 & Y3 & Y4 & Y5 & Y6 & Y7 & _).
  rewrite Y1, Y2, Y3, Y4, Y5, Y7. split; [done|]. split; [done|]. split; [done|]. by apply Z.eqb_neq.
Qed.

Lemma words_start ws l : Forall word_ok ws -> start l -> start (flat_map print_word ws ++ l).
Proof. intros Hws Hl. destruct Hws as [|w ws Hw _]; [done|]. cbn [flat_map]. rewrite <- app_assoc. by apply word_start. Qed.

Lemma redirs_start rs l : start l -> start (print_redirs rs ++ l).
Proof. intros Hl. destruct rs as [|[k f] rs]; [done|]. by destruct k. Qed.

Lemma parseredirs_none n c s l : here s l -> start l -> no_redir l -> (0 < n)%nat -> parseredirs buf es n c s = Ret (c, s).
Proof.
  intros H Hs Hl Hn. destruct n as [|n]; [lia|]. cbn [parseredirs].
  rewrite (peek_here s _ tok_redir [60; 62] H Hs) by (done || (repeat constructor; lia)). cbn [obind].
  by rewrite Hl.
Qed.

Lemma here_room s l n : here s l -> es - s < Z.of_nat n -> (0 < n)%nat.
Proof. intros (_ & H & _) Hn. pose proof (zlen_nonneg l). lia. Qed.

Lemma parseredirs_here rs : redirs_ok rs -> forall n c s l, here s (print_redirs rs ++ l) -> start l -> no_redir l -> es - s < Z.of_nat n ->
  exists c' s', parseredirs buf es n c s = Ret (c', s') /\ here s' l /\ read_cmd text c' = fold_left redirect rs (read_cmd text c).
Proof.
  induction 1 as [|[k f] rs Hf _ IH]; intros n c s l H Hs Hl Hn; pose proof (here_room _ _ _ H Hn).
  - exists c, s. rewrite (parseredirs_none n c s l) by done. done.
  - destruct n as [|n]; [lia|]. cbn [parseredirs]. unfold print_redirs in H. cbn [flat_map] in H. fold (print_redirs rs) in H. unfold print_redir in H. cbn [r_kind r_file] in H.
    rewrite <- !app_assoc in H. cbn [r_file] in Hf.
    pose proof (redirs_start rs l Hs) as Hs2. destruct (word_start f (print_redirs rs ++ l) Hf) as (Hs1 & _ & _).
    assert (Hpk : peek buf es s tok_redir = Ret (true, s)).
    { rewrite (peek_here s _ tok_redir [60; 62] H); [by destruct k|by destruct k|done|repeat constructor; lia]. }
    rewrite Hpk. cbn [obind negb].
    assert (Htk : exists tok q e s2, gettoken buf es s = Ret (tok, q, e, s2) /\ here s2 (print_word f ++ print_redirs rs ++ l) /\ s < s2 /\
      (forall q e, slice q (e - q) buf = f -> read_cmd text (if tok =? 60 then REDIR c q e O_RDONLY 0
        else if (tok =? 62) || (tok =? 43) then REDIR c q e (Z.lor O_WRONLY O_CREATE) 1 else c) = redirect (read_cmd text c) (Redir k f))).
    { destruct k; cbn [redir_sign app] in H.
      - destruct (gettoken_sign s 60 _ (or_introl eq_refl) H Hs1) as [-> H2]. exists 60, s, (s + 1), (s + 2).
        split; [done|]. split; [done|]. split; [lia|]. intros q e Hq. cbn. unfold text. cbn. by rewrite Hq.
      - destruct (gettoken_sign s 62 _ (or_intror eq_refl) H Hs1) as [-> H2]. exists 62, s, (s + 1), (s + 2).
        split; [done|]. split; [done|]. split; [lia|]. intros q e Hq. cbn. unfold text. cbn. by rewrite Hq.
      - destruct (gettoken_append s _ H Hs1) as [-> H2]. exists 43, s, (s + 2), (s + 3).
        split; [done|]. split; [done|]. split; [lia|]. intros q e Hq. cbn. unfold text. cbn. by rewrite Hq. }
    destruct Htk as (tok & q & e & s2 & -> & H2 & Hlt & Hrd). cbn [obind].
    destruct (gettoken_word s2 f _ Hf H2 Hs2) as (e2 & -> & Hsl & H3). cbn [obind]. change (97 =? 97) with true. cbn [negb].
    destruct (IH n (if tok =? 60 then REDIR c s2 e2 O_RDONLY 0 else if (tok =? 62) || (tok =? 43) then REDIR c s2 e2 (Z.lor O_WRONLY O_CREATE) 1 else c)
      _ l H3 Hs Hl) as (c' & s' & -> & H4 & Hr); [pose proof (zlen_nonneg (print_word f)); lia|].
    exists c', s'. split; [done|]. split; [done|]. cbn [fold_left]. by rewrite Hr, Hrd.
Qed.

(** The loop over the arguments stops at what ends a command. *)
Lemma exec_loop_stop n argc ret s l : here s l -> follow ends_cmd l -> (0 < n)%nat -> exec_loop buf es n argc ret s = Ret (ret, s).
Proof.
  intros H Hf Hn. destruct n as [|n]; [lia|]. cbn [exec_loop].
  assert (Hs : start l) by by apply follow_start.
  rewrite (peek_here s l tok_end ends_cmd H Hs) by (done || (repeat constructor; lia)). cbn [obind]. destruct l as [|c l]; [|cbn [begins]; by rewrite Hf].
  unfold gettoken. rewrite (skip_white_start _ s _ H Hs). cbn [obind]. apply here_nil in H as [Es ->]. cbn [of_option obind Z.eqb].
  unfold skip_white. destruct (room es); by rewrite Es, Z.ltb_irrefl.
Qed.

Lemma exec_loop_here ws : Forall word_ok ws -> forall rs n argc args s l, redirs_ok rs -> ws <> [] ->
  here s (flat_map print_word ws ++ print_redirs rs ++ l) -> follow ends_cmd l -> argc + zlen ws < MAXARGS -> es - s < Z.of_nat n ->
  exists c s', exec_loop buf es n argc (EXEC args) s = Ret (c, s') /\ here s' l /\
    read_cmd text c = fold_left redirect rs (TExec (map text args ++ ws)).
Proof.
  induction 1 as [|w ws Hw Hws IH]; intros rs n argc args s l Hrs Hne H Hf Hm Hn; [done|]. pose proof (here_room _ _ _ H Hn). destruct n as [|n]; [lia|].
  cbn [exec_loop]. assert (Hsl : start l) by by apply follow_start.
  cbn [flat_map] in H. rewrite <- app_assoc in H. set (rest := flat_map print_word ws ++ print_redirs rs ++ l) in H.
  assert (Hsr : start rest) by (apply words_start; [done|by apply redirs_start]).
  destruct (word_start w rest Hw) as (Hs1 & _ & Hhd).
  rewrite (peek_here s _ tok_end ends_cmd H Hs1) by (done || (repeat constructor; lia)). cbn [obind].
  replace (begins ends_cmd (print_word w ++ rest)) with false by (destruct (print_word w ++ rest); [done|by destruct Hhd]).
  destruct (gettoken_word s w rest Hw H Hsr) as (e & -> & Ht & H2). cbn [obind]. change (97 =? 0) with false. change (97 =? 97) with true. cbn [negb]. cbn iota.
  assert (Hz : zlen (w :: ws) = zlen ws + 1) by (unfold zlen; cbn [length]; lia). pose proof (zlen_nonneg ws).
  destruct (Z.leb_spec MAXARGS (argc + 1)); [lia|]. cbn [add_arg]. destruct Hw as [Hw0 _].
  assert (Hpw : 2 <= zlen (print_word w)) by (destruct w; [done|]; unfold print_word; rewrite zlen_app; unfold zlen; cbn [length]; lia).
  assert (Htw : map text (args ++ [(s, e)]) = map text args ++ [w]) by (rewrite map_app; cbn [map]; unfold text at 2; cbn [fst snd]; by rewrite Ht).
  pose proof H2 as (Hp0 & Hp1 & _). pose proof (zlen_nonneg rest).
  destruct ws as [|w2 ws].
  - destruct (parseredirs_here rs Hrs n (EXEC (args ++ [(s, e)])) _ l H2 Hsl (follow_no_redir l Hf)) as (c' & s' & -> & Hh & Hr); [lia|]. cbn [obind].
    rewrite (exec_loop_stop n _ _ s' l Hh Hf) by lia. exists c', s'. split; [done|]. split; [done|]. rewrite Hr. cbn [read_cmd]. by rewrite Htw.
  - pose proof (Forall_inv Hws) as Hw2.
    rewrite (parseredirs_none n _ _ rest H2 Hsr) by (lia || (subst rest; cbn [flat_map]; rewrite <- app_assoc; by apply word_start)).
    cbn [obind]. destruct (IH rs n (argc + 1) (args ++ [(s, e)]) _ l Hrs ltac:(done) H2 Hf) as (c & s2 & -> & Hh & Hr); [lia|lia|].
    exists c, s2. split; [done|]. split; [done|]. by rewrite Hr, Htw, <- app_assoc.
Qed.

Lemma back_loop_here bg : forall n c s l, here s (print_amps bg ++ l) -> start l -> begins [38] l = false -> es - s < Z.of_nat n ->
  exists c' s', back_loop buf es n c s = Ret (c', s') /\ here s' l /\ read_cmd text c' = background bg (read_cmd text c).
Proof.
  induction bg as [|bg IH]; intros n c s l H Hs Hl Hn; pose proof (here_room _ _ _ H Hn); (destruct n as [|n]; [lia|]); cbn [back_loop].
  - rewrite (peek_here s _ tok_amp [38] H Hs) by (done || (repeat constructor; lia)). cbn [obind print_amps app]. rewrite Hl. by exists c, s.
  - cbn [print_amps app] in H. assert (Hs1 : start (print_amps bg ++ l)) by (destruct bg; [done|by split]).
    rewrite (peek_here s _ tok_amp [38] H) by (done || (repeat constructor; lia)). cbn [obind]. change (begins [38] _) with true. cbn [negb].
    destruct (gettoken_sign s 38 _ (or_introl eq_refl) H Hs1) as [-> H2]. cbn [obind].
    destruct (IH n (BACK c) (s + 2) l H2 Hs Hl) as (c' & s' & -> & H3 & Hr); [lia|]. by exists c', s'.
Qed.

Lemma cmd_start c l : acmd_ok c -> start l -> start (print_cmd c ++ l).
Proof.
  destruct c as [ws rs|a rs]; cbn [acmd_ok print_cmd]; intros Hc Hl; [|by split].
  rewrite <- app_assoc. apply words_start; [apply Hc|by apply redirs_start].
Qed.

Lemma pipe_start p l : pipe_ok p -> start l -> start (print_pipe p ++ l).
Proof.
  destruct p as [c|c p]; cbn [pipe_ok print_pipe]; intros Hp Hl; [by apply cmd_start|]. rewrite <- app_assoc. by apply cmd_start; [apply Hp|split].
Qed.

Lemma line_start a l : line_ok a -> start l -> start (print_line a ++ l).
Proof.
  destruct a as [p [|bg]|p [|bg] a]; cbn [line_ok print_line]; intros Ha Hl; rewrite <- !app_assoc; (apply pipe_start; [apply Ha|]); done.
Qed.

(** A simple command does not begin with a parenthesis. *)
Lemma simple_not_open ws rs l : Forall word_ok ws -> follow ends_cmd l -> begins [40] (flat_map print_word ws ++ print_redirs rs ++ l) = false.
Proof.
  intros Hws Hf. destruct Hws as [|w ws Hw _].
  - destruct rs as [|[k f] rs]; [|by destruct k]. apply (follow_other _ _ _ Hf). by repeat constructor.
  - cbn [flat_map]. rewrite <- app_assoc. set (r := flat_map print_word ws ++ _). destruct (word_start w r Hw) as (_ & _ & Hhd).
    destruct (print_word w ++ r) as [|c t]; [done|]. destruct Hhd as [_ Hc]. unfold begins, mem. cbn. rewrite Bool.orb_false_r. by apply Z.eqb_neq.
Qed.

(** What the parsing functions do with [n] levels of calls left. *)
Definition line_reads (n : nat) : Prop := forall a s l, line_ok a -> here s (print_line a ++ l) -> follow [41] l -> 4 * (es - s) + 4 <= Z.of_nat n ->
  exists c s', parseline buf es n s = Ret (c, s') /\ here s' l /\ read_cmd text c = mean_line a.
Definition pipe_reads (n : nat) : Prop := forall p s l, pipe_ok p -> here s (print_pipe p ++ l) -> follow [41; 38; 59] l -> 4 * (es - s) + 3 <= Z.of_nat n ->
  exists c s', parsepipe buf es n s = Ret (c, s') /\ here s' l /\ read_cmd text c = mean_pipe p.
Definition cmd_reads (n : nat) : Prop := forall a s l, acmd_ok a -> here s (print_cmd a ++ l) -> follow ends_cmd l -> 4 * (es - s) + 2 <= Z.of_nat n ->
  exists c s', parseexec buf es n s = Ret (c, s') /\ here s' l /\ read_cmd text c = mean_cmd a.
Definition block_reads (n : nat) : Prop := forall a rs s l, acmd_ok (Block a rs) -> here s (print_cmd (Block a rs) ++ l) -> follow ends_cmd l ->
  4 * (es - s) + 1 <= Z.of_nat n ->
  exists c s', parseblock buf es n s = Ret (c, s') /\ here s' l /\ read_cmd text c = mean_cmd (Block a rs).

(** Later text is at a later position. *)
Lemma here_le s x l s' : here s (x ++ l) -> here s' l -> s' = s + zlen x.
Proof. intros (_ & H & _) (_ & H' & _). rewrite zlen_app in H. lia. Qed.

(** A pipeline and the ampersands behind it. *)
Lemma amps_step n p bg s r : pipe_reads n -> pipe_ok p -> here s (print_pipe p ++ print_amps bg ++ r) -> follow [41; 59] r ->
  4 * (es - s) + 4 <= Z.of_nat (S n) ->
  exists c0 s1 c s2, parsepipe buf es n s = Ret (c0, s1) /\ back_loop buf es n c0 s1 = Ret (c, s2) /\ here s2 r /\
    read_cmd text c = background bg (mean_pipe p).
Proof.
  intros IHp Hp H Hr Hn. assert (Hsr : start r) by (apply follow_start, (follow_sub _ _ _ Hr); by repeat constructor).
  destruct (IHp p s (print_amps bg ++ r) Hp H) as (c & s1 & E1 & H1 & Hr1); [|lia|].
  { destruct bg; [|done]. apply (follow_sub _ _ _ Hr). by repeat constructor. }
  pose proof (here_le _ _ _ _ H H1). pose proof (zlen_nonneg (print_pipe p)).
  destruct (back_loop_here bg n c s1 r H1 Hsr) as (c2 & s2 & E2 & Hh2 & Hr2); [apply (follow_other _ _ _ Hr); by repeat constructor|lia|].
  exists c, s1, c2, s2. by rewrite Hr2, Hr1.
Qed.

Lemma line_step n : pipe_reads n -> line_reads n -> line_reads (S n).
Proof.
  intros IHp IHl a s l Ha H Hf Hn. assert (Hs : start l) by (apply follow_start, (follow_sub _ _ _ Hf); by repeat constructor).
  rewrite parseline_eq. destruct a as [p bg|p bg a]; cbn [line_ok print_line mean_line] in *; rewrite <- ?app_assoc in H.
  - destruct (amps_step n p bg s l IHp Ha H) as (c0 & s1 & c & s2 & -> & E2 & H2 & Hr); [apply (follow_sub _ _ _ Hf); by repeat constructor|done|].
    cbn [obind]. rewrite E2. cbn [obind]. rewrite (peek_here s2 l tok_semi [59] H2 Hs) by (done || (repeat constructor; lia)). cbn [obind].
    rewrite (follow_other _ [59] _ Hf) by by repeat constructor. by exists c, s2.
  - destruct Ha as [Hp Ha]. destruct (amps_step n p bg s _ IHp Hp H) as (c0 & s1 & c & s2 & -> & E2 & H2 & Hr); [done|done|].
    cbn [obind]. rewrite E2. cbn [obind]. rewrite (peek_here s2 _ tok_semi [59] H2) by (done || (repeat constructor; lia)). cbn [obind app] in *.
    change (begins [59] _) with true. cbn [negb].
    destruct (gettoken_sign s2 59 _ (or_introl eq_refl) H2) as [-> H4]; [by apply line_start|]. cbn [obind].
    rewrite app_assoc in H. pose proof (here_le _ _ _ _ H H2). pose proof (zlen_nonneg (print_pipe p ++ print_amps bg)).
    destruct (IHl a (s2 + 2) l Ha H4 Hf) as (c2 & s5 & -> & Hh5 & Hr5); [lia|]. cbn [obind]. exists (LIST c c2), s5.
    split; [done|]. split; [done|]. cbn [read_cmd]. by rewrite Hr, Hr5.
Qed.

Lemma pipe_step n : cmd_reads n -> pipe_reads n -> pipe_reads (S n).
Proof.
  intros IHc IHp p s l Hp H Hf Hn. assert (Hfe : follow ends_cmd l) by (apply (follow_sub _ _ _ Hf); by repeat constructor).
  pose proof (follow_start l Hfe) as Hs. rewrite parsepipe_eq. destruct p as [c|c p]; cbn [pipe_ok print_pipe mean_pipe] in *; rewrite <- ?app_assoc in H.
  - destruct (IHc c s l Hp H Hfe) as (c1 & s1 & -> & H1 & Hr); [lia|].
    cbn [obind]. rewrite (peek_here s1 l tok_bar [124] H1 Hs) by (done || (repeat constructor; lia)). cbn [obind].
    rewrite (follow_other _ [124] _ Hf) by by repeat constructor. by exists c1, s1.
  - destruct Hp as [Hc Hp]. destruct (IHc c s _ Hc H) as (c1 & s1 & -> & H1 & Hr); [done|lia|]. cbn [obind].
    rewrite (peek_here s1 _ tok_bar [124] H1) by (done || (repeat constructor; lia)). cbn [obind app] in *. change (begins [124] _) with true. cbn [negb].
    destruct (gettoken_sign s1 124 _ (or_introl eq_refl) H1) as [-> H4]; [by apply pipe_start|]. cbn [obind].
    pose proof (here_le _ _ _ _ H H1). pose proof (zlen_nonneg (print_cmd c)).
    destruct (IHp p (s1 + 2) l Hp H4 Hf) as (c2 & s5 & -> & Hh5 & Hr5); [lia|]. cbn [obind]. exists (PIPE c1 c2), s5.
    split; [done|]. split; [done|]. cbn [read_cmd]. by rewrite Hr, Hr5.
Qed.

Lemma cmd_step n : block_reads n -> cmd_reads (S n).
Proof.
  intros IHb a s l Ha H Hf Hn. pose proof (follow_start l Hf) as Hs. pose proof (follow_no_redir l Hf) as Hnr. rewrite parseexec_eq.
  rewrite (peek_here s _ tok_open [40] H (cmd_start _ _ Ha Hs)) by (done || (repeat constructor; lia)). cbn [obind].
  pose proof H as (_ & Hz & _). pose proof (zlen_nonneg (print_cmd a ++ l)).
  destruct a as [ws rs|a rs]; [|change (begins [40] _) with true; cbn iota; apply (IHb a rs s l Ha H Hf); lia].
  cbn [print_cmd] in *. rewrite <- app_assoc in *. destruct Ha as (Hws & Hmax & Hrs). rewrite (simple_not_open ws rs l Hws Hf).
  destruct ws as [|w ws].
  - destruct (parseredirs_here rs Hrs n (EXEC []) s l H Hs Hnr) as (c & s1 & -> & Hh1 & Hr); [lia|]. cbn [obind].
    rewrite (exec_loop_stop n 0 c s1 l Hh1 Hf) by lia. by exists c, s1.
  - assert (Hst : start (flat_map print_word (w :: ws) ++ print_redirs rs ++ l)) by (apply words_start; [done|by apply redirs_start]).
    rewrite (parseredirs_none n (EXEC []) s _ H Hst); [|cbn [flat_map]; rewrite <- app_assoc; apply word_start; by apply Forall_inv in Hws|lia].
    cbn [obind]. destruct (exec_loop_here (w :: ws) Hws rs n 0 [] s l Hrs ltac:(done) H Hf) as (c & s' & -> & Hh & Hr); [lia|lia|]. by exists c, s'.
Qed.

Lemma block_step n : line_reads n -> block_reads (S n).
Proof.
  intros IHl a rs s l (Ha & Hrs) H Hf Hn. pose proof (follow_start l Hf) as Hs. rewrite parseblock_eq.
  cbn [print_cmd mean_cmd] in *. rewrite <- !app_assoc in H. cbn [app] in H.
  rewrite (peek_here s _ tok_open [40] H) by (done || (repeat constructor; lia)). cbn [obind]. change (begins [40] _) with true. cbn [negb].
  destruct (gettoken_sign s 40 _ (or_introl eq_refl) H) as [-> H2]; [by apply line_start|]. cbn [obind].
  destruct (IHl a (s + 2) _ Ha H2) as (c & s3 & -> & H3 & Hr); [done|lia|]. cbn [obind].
  rewrite (peek_here s3 _ tok_close [41] H3) by (done || (repeat constructor; lia)). cbn [obind]. change (begins [41] _) with true. cbn [negb].
  destruct (gettoken_sign s3 41 _ (or_introl eq_refl) H3) as [-> H5]; [by apply redirs_start|]. cbn [obind].
  pose proof (here_le _ _ _ _ H2 H3). pose proof (zlen_nonneg (print_line a)).
  destruct (parseredirs_here rs Hrs n c (s3 + 2) l H5 Hs (follow_no_redir l Hf)) as (c' & s' & -> & Hh6 & Hr6); [lia|].
  exists c', s'. split; [done|]. split; [done|]. by rewrite Hr6, Hr.
Qed.

Lemma parse_here n : line_reads n /\ pipe_reads n /\ cmd_reads n /\ block_reads n.
Proof.
  induction n as [|n (IHl & IHp & IHc & IHb)].
  - unfold line_reads, pipe_reads, cmd_reads, block_reads.
    split_and!; intros *; intros; exfalso; match goal with H : here _ ?x |- _ => destruct H as (_ & H & _); pose proof (zlen_nonneg x) end; lia.
  - split; [by apply line_step|]. split; [by apply pipe_step|]. split; [by apply cmd_step|by apply block_step].
Qed.
End reading.

Scheme aline_mut := Induction for aline Sort Prop
  with apipe_mut := Induction for apipe Sort Prop
  with acmd_mut := Induction for acmd Sort Prop.
Combined Scheme grammar_ind from aline_mut, apipe_mut, acmd_mut.

Definition text_ok (l : list Z) : Prop := Forall (fun c => c <> 0) l.

Lemma word_text w : word_ok w -> text_ok (print_word w).
Proof.
  intros [_ Hw]. apply Forall_app. split; [|by repeat constructor]. eapply Forall_impl; [exact Hw|]. intros c Hc. by apply plain_start in Hc as [H _].
Qed.

Lemma redirs_text rs : redirs_ok rs -> text_ok (print_redirs rs).
Proof.
  induction 1 as [|[k f] rs Hf _ IH]; [constructor|]. cbn [print_redirs flat_map]. apply Forall_app. split; [|done].
  unfold print_redir. apply Forall_app. split; [by destruct k; repeat constructor|]. apply Forall_app. split; [by repeat constructor|]. by apply word_text.
Qed.

Lemma printed_text :
  (forall a, line_ok a -> text_ok (print_line a)) /\ (forall p, pipe_ok p -> text_ok (print_pipe p)) /\ (forall c, acmd_ok c -> text_ok (print_cmd c)).
Proof.
  assert (Ha : forall bg, text_ok (print_amps bg)) by (induction bg; cbn; [constructor|by repeat constructor]). unfold text_ok in *.
  apply grammar_ind; cbn [line_ok pipe_ok acmd_ok print_line print_pipe print_cmd]; rewrite ?Forall_app; unfold text_ok in *.
  - intros p Hp bg Hok. rewrite Forall_app. auto.
  - intros p Hp bg l Hl [Hok1 Hok2]. rewrite !Forall_app. split_and!; auto; by repeat constructor.
  - intros c Hc Hok. auto.
  - intros c Hc p Hp [Hok1 Hok2]. rewrite !Forall_app. split_and!; auto; by repeat constructor.
  - intros ws rs (Hws & _ & Hrs). rewrite Forall_app. split; [|by apply redirs_text].
    induction Hws as [|w ws Hw _ IH]; [constructor|]. cbn [flat_map]. apply Forall_app. split; [by apply word_text|done].
  - intros l Hl rs [Hok Hrs]. rewrite !Forall_app. split_and!; [by repeat constructor|auto|by repeat constructor|by apply redirs_text].
Qed.

(** C34: parsing is the inverse of printing.  A line of the grammar (commands of up
    to nine words, redirections, pipes, blocks, background and sequences)
    printed and parsed gives a command tree of the same shape whose pointers,
    after [nulterminate], point to exactly the words of the line. *)
Theorem parse_print (a : aline) : line_ok a ->
  exists c line', parsecmd (print_line a ++ [0]) = Ret (c, line') /\ read_cmd (fun w => string_at line' (fst w)) c = mean_line a.
Proof.
  intros Ha. set (line := print_line a ++ [0]). set (es := zlen (print_line a)).
  assert (Hl : holds_str (print_line a) line) by (split; [by apply printed_text|by exists []]). pose proof (holds_line _ _ Hl) as L.
  pose proof (la_es _ _ L) as Hes. fold es in L, Hes. unfold parsecmd. rewrite (libc_strlen _ _ Hl). cbn [obind]. fold es.
  assert (H0 : here line es 0 (print_line a ++ [])) by (rewrite app_nil_r; split; [done|split; [lia|done]]).
  destruct (proj1 (parse_here line es (parse_fuel es)) a 0 [] Ha H0) as (c & s & E & Hs & Hr); [done|unfold parse_fuel; lia|].
  pose proof (proj1 (parse_ok line es L (parse_fuel es)) 0 ltac:(lia) ltac:(unfold parse_fuel; lia)) as HP. rewrite E in HP. destruct HP as [Hc _]. cbn [fst] in Hc.
  rewrite E. cbn [obind]. rewrite (peek_here line es s [] tok_none []) by done. cbn [obind]. destruct (here_nil _ _ _ Hs) as [-> _].
  rewrite Z.eqb_refl. cbn [negb]. destruct (nulterminate_ok c line) as (line' & -> & Hcut).
  { eapply Forall_impl; [exact Hc|]. intros [q e] (H1 & H2 & _ & c' & E' & _). apply zget_Some in E'. cbn [fst snd] in *. lia. }
  exists c, line'. split; [done|]. rewrite <- Hr. apply read_cmd_ext. intros [q e] Hin. cbn [fst].
  destruct (word_string line es (words c) line' q e Hcut Hc Hin) as (_ & _ & Hstr). unfold string_at. by rewrite (holds_str_cstr _ _ Hstr).
Qed.

(** "( ls -l | wc & ; cat < in ) >> out" *)
Definition ex_line : aline :=
  LineEnd (PipeEnd (Block
    (LineSeq (PipeSeq (Simple [[108; 115]; [45; 108]] []) (PipeEnd (Simple [[119; 99]] []))) 1
       (LineEnd (PipeEnd (Simple [[99; 97; 116]] [Redir RIn [105; 110]])) 0))
    [Redir RAppend [111; 117; 116]])) 0.

Lemma parse_print_witness : exists c line',
  parsecmd (print_line ex_line ++ [0]) = Ret (c, line') /\ read_cmd (fun w => string_at line' (fst w)) c = mean_line ex_line.
Proof. apply (parse_print ex_line). cbn. repeat (split || constructor); done. Defined.

(** ** Running *)

(** A command whose name has ninety-five characters or more overruns the buffer
    for its path; lines may have ninety-eight. *)
Lemma long_command_overruns buf q e args : EXE_SIZE - 5 <= zlen (string_at buf q) -> runcmd buf (EXEC ((q, e) :: args)) = Stuck.
Proof.
  intros H. cbn [runcmd map]. unfold EXE_SIZE in *. rewrite zlen_app. change (zlen bin_prefix) with 5. destruct (Z.ltb_spec 100 (5 + zlen (string_at buf q) + 1)); [done|lia].
Qed.

(** The flags of the shell are not those of the kernel: a file opened for input
    is not readable, one opened for output is not writable and not created. *)
Lemma redirection_flags_differ :
  Z.land O_RDONLY Vfs.O_READ = 0 /\ Z.land (Z.lor O_WRONLY O_CREATE) Vfs.O_WRITE = 0 /\ Z.land (Z.lor O_WRONLY O_CREATE) Vfs.O_CREATE = 0.
Proof. done. Qed.
