(* ===== verification/Ld.v ===== *)
(** library/ld/ld.c: the dynamic linker.

    The linker runs in the process it prepares.  The memory of the process is a
    finite map from addresses to bytes, and pointers are addresses; an access to
    an address that is not mapped faults.  The two tables of the linker are kept
    apart from that memory: [dl_info], a library in each entry, and
    [symbol_table]; an entry is free when its name is the null pointer, whose
    memory, the start of the program, the code compares names with.  Code the
    linker calls is an argument: the system call that loads a library and the
    functions of the libraries.  [proc_exit] after a message is the second side of
    a sum, with the message.

    The theorems: the symbol table is a finite map; relocating a table of
    relocations stores exactly the addresses it should; libraries that need each
    other are loaded to a bounded depth. *)

From stdpp Require Import base list gmap strings.
From Stdlib Require Import ZArith Lia.
From S2P Require Import Prelude.

Local Open Scope Z_scope.
Local Open Scope outcome_scope.

(** ** Memory *)

Notation memory := (gmap Z Z).

Definition load8 (m : memory) (a : Z) : outcome Z := of_option (m !! a).

Fixpoint load_bytes (n : nat) (m : memory) (a : Z) : outcome (list Z) :=
  match n with
  | O => Ret []
  | S n' => b <- load8 m a ;; bs <- load_bytes n' m (u32 (a + 1)) ;; Ret (b :: bs)
  end.

Definition load16 (m : memory) (a : Z) : outcome Z := bs <- load_bytes 2 m a ;; Ret (le_val bs).
Definition load32 (m : memory) (a : Z) : outcome Z := bs <- load_bytes 4 m a ;; Ret (le_val bs).

Definition store8 (m : memory) (a b : Z) : outcome memory :=
  _ <- load8 m a ;; Ret (<[a := b]> m).

Fixpoint store_bytes (bs : list Z) (m : memory) (a : Z) : outcome memory :=
  match bs with
  | [] => Ret m
  | b :: bs' => m' <- store8 m a b ;; store_bytes bs' m' (u32 (a + 1))
  end.

Definition store32 (m : memory) (a w : Z) : outcome memory := store_bytes (le_bytes 4 w) m a.

(** [memcpy], [strcmp] and [strlen] of the C library, the last with the bytes it
    counts. *)
Fixpoint memcpy (n : nat) (dest from : Z) (m : memory) : outcome memory :=
  match n with
  | O => Ret m
  | S n' => b <- load8 m from ;; m' <- store8 m dest b ;; memcpy n' (u32 (dest + 1)) (u32 (from + 1)) m'
  end.

Fixpoint strcmp (n : nat) (m : memory) (s1 s2 : Z) : outcome Z :=
  x <- load8 m s1 ;;
  y <- load8 m s2 ;;
  if negb (x =? 0) && (x =? y) then
    match n with
    | O => NoFuel
    | S n' => strcmp n' m (u32 (s1 + 1)) (u32 (s2 + 1))
    end
  else Ret (s8 x - s8 y).

Fixpoint string_at (n : nat) (m : memory) (s : Z) : outcome (list Z) :=
  x <- load8 m s ;;
  if x =? 0 then Ret [] else
  match n with
  | O => NoFuel
  | S n' => xs <- string_at n' m (u32 (s + 1)) ;; Ret (x :: xs)
  end.

(** ** State *)

Definition DL_INFO_MAX : nat := 64.
Definition SYMBOL_TABLE_MAX : nat := 1024.

Record DlInfo := Dl {
  dl_name : Z;
  dl_load : Z;
  dl_dynamic : Z;
  dl_dynsym : Z;
  dl_dynsym_num : Z;
  dl_dynstr : Z;
  dl_reldyn : Z;
  dl_reldyn_num : Z;
  dl_relplt : Z;
  dl_relplt_num : Z;
  dl_fini_array : Z;
  dl_fini_array_size : Z
}.

Record Symbol := Sym { sym_name : Z; sym_addr : Z }.

Record linker := Linker { lmem : memory; dl_info : list DlInfo; symbol_table : list Symbol }.

Definition with_mem (s : linker) (m : memory) : linker := Linker m (dl_info s) (symbol_table s).
Definition with_table (s : linker) (t : list Symbol) : linker := Linker (lmem s) (dl_info s) t.
Definition with_dl (s : linker) (l : list DlInfo) : linker := Linker (lmem s) l (symbol_table s).

Section linker.
(** The length of strings, and of dynamic sections, the code is followed for. *)
Variable fuel : nat.

(** ** The symbol table *)

(** [None] when the table is full. *)
Fixpoint ld_insert_symbol (name sym : Z) (m : memory) (t : list Symbol) : outcome (option (list Symbol)) :=
  match t with
  | [] => Ret None
  | e :: t' =>
    if sym_name e =? 0 then Ret (Some (Sym name sym :: t')) else
    c <- strcmp fuel m (sym_name e) name ;;
    if c =? 0 then Ret (Some (Sym (sym_name e) sym :: t')) else
    r <- ld_insert_symbol name sym m t' ;; Ret (cons e <$> r)
  end.

Fixpoint ld_lookup_symbol (name : Z) (m : memory) (t : list Symbol) : outcome Z :=
  match t with
  | [] => Ret 0
  | e :: t' => c <- strcmp fuel m (sym_name e) name ;; if c =? 0 then Ret (sym_addr e) else ld_lookup_symbol name m t'
  end.

(** ** Relocation *)

Definition R_386_COPY : Z := 5.
Definition R_386_GLOB_DAT : Z := 6.
Definition R_386_JMP_SLOT : Z := 7.
Definition R_386_RELATIVE : Z := 8.

Definition ELF32_R_SYM (i : Z) : Z := Z.shiftr i 8.
Definition ELF32_R_TYPE (i : Z) : Z := u8 i.

(** The entry of a symbol in the dynamic symbol table. *)
Definition sym_entry (dynsym i : Z) : Z := u32 (dynsym + 16 * i).

(** The address of the symbol a relocation names; its name when there is none. *)
Definition resolve (dynsym strtab info : Z) (t : list Symbol) (m : memory) : outcome (Z + list Z) :=
  st_name <- load32 m (sym_entry dynsym (ELF32_R_SYM info)) ;;
  let name := u32 (strtab + st_name) in
  sym <- ld_lookup_symbol name m t ;;
  if sym =? 0 then msg <- string_at fuel m name ;; Ret (inr msg) else Ret (inl sym).

(** One round of the loop of [ld_relocate]. *)
Definition relocate_one (load_base rel dynsym strtab : Z) (t : list Symbol) (m : memory) : outcome (memory + list Z) :=
  r_offset <- load32 m rel ;;
  r_info <- load32 m (u32 (rel + 4)) ;;
  let type := ELF32_R_TYPE r_info in
  let target := u32 (load_base + r_offset) in
  if type =? R_386_COPY then
    r <- resolve dynsym strtab r_info t m ;;
    match r with
    | inr msg => Ret (inr msg)
    | inl sym =>
      st_size <- load32 m (u32 (sym_entry dynsym (ELF32_R_SYM r_info) + 8)) ;;
      m' <- memcpy (Z.to_nat st_size) target sym m ;; Ret (inl m')
    end
  else if (type =? R_386_GLOB_DAT) || (type =? R_386_JMP_SLOT) then
    r <- resolve dynsym strtab r_info t m ;;
    match r with
    | inr msg => Ret (inr msg)
    | inl sym => m' <- store32 m target sym ;; Ret (inl m')
    end
  else if type =? R_386_RELATIVE then
    v <- load32 m target ;; m' <- store32 m target (u32 (v + load_base)) ;; Ret (inl m')
  else Ret (inl m).

Fixpoint relocate_loop (n : nat) (load_base rel dynsym strtab : Z) (t : list Symbol) (m : memory) : outcome (memory + list Z) :=
  match n with
  | O => Ret (inl m)
  | S n' =>
    r <- relocate_one load_base rel dynsym strtab t m ;;
    match r with
    | inr msg => Ret (inr msg)
    | inl m' => relocate_loop n' load_base (u32 (rel + 8)) dynsym strtab t m'
    end
  end.

Definition ld_relocate (load_base rel_table dynsym strtab num : Z) (t : list Symbol) (m : memory) : outcome (memory + list Z) :=
  relocate_loop (Z.to_nat num) load_base rel_table dynsym strtab t m.

(** ** Loading a library *)

Definition DT_NEEDED : Z := 1.
Definition DT_PLTRELSZ : Z := 2.
Definition DT_STRTAB : Z := 5.
Definition DT_SYMTAB : Z := 6.
Definition DT_REL : Z := 17.
Definition DT_RELSZ : Z := 18.
Definition DT_JMPREL : Z := 23.
Definition DT_INIT_ARRAY : Z := 25.
Definition DT_FINI_ARRAY : Z := 26.
Definition DT_INIT_ARRAYSZ : Z := 27.
Definition DT_FINI_ARRAYSZ : Z := 28.

(** What a dynamic section gives: the fields of the library, the names of the
    libraries it needs, and its constructors. *)
Record dynamic := Dynamic { dy_dl : DlInfo; needed : list Z; init_array : Z; init_array_size : Z }.

(** The first free place of [needed]; a seventeenth name is dropped. *)
Fixpoint add_needed (v : Z) (l : list Z) : list Z :=
  match l with
  | [] => []
  | x :: l' => if x =? 0 then v :: l' else x :: add_needed v l'
  end.

Definition dl_set (d : dynamic) (f : DlInfo -> DlInfo) : dynamic := Dynamic (f (dy_dl d)) (needed d) (init_array d) (init_array_size d).

(** One entry of a dynamic section of a library loaded at [load]. *)
Definition dyn_entry (load tag val : Z) (d : dynamic) : dynamic :=
  let ptr := u32 (load + val) in
  if tag =? DT_NEEDED then Dynamic (dy_dl d) (add_needed (s32 val) (needed d)) (init_array d) (init_array_size d) else
  if tag =? DT_SYMTAB then dl_set d (fun l => Dl (dl_name l) (dl_load l) (dl_dynamic l) ptr (dl_dynsym_num l) (dl_dynstr l)
    (dl_reldyn l) (dl_reldyn_num l) (dl_relplt l) (dl_relplt_num l) (dl_fini_array l) (dl_fini_array_size l)) else
  if tag =? DT_STRTAB then dl_set d (fun l => Dl (dl_name l) (dl_load l) (dl_dynamic l) (dl_dynsym l) (dl_dynsym_num l) ptr
    (dl_reldyn l) (dl_reldyn_num l) (dl_relplt l) (dl_relplt_num l) (dl_fini_array l) (dl_fini_array_size l)) else
  if tag =? DT_REL then dl_set d (fun l => Dl (dl_name l) (dl_load l) (dl_dynamic l) (dl_dynsym l) (dl_dynsym_num l) (dl_dynstr l)
    ptr (dl_reldyn_num l) (dl_relplt l) (dl_relplt_num l) (dl_fini_array l) (dl_fini_array_size l)) else
  if tag =? DT_JMPREL then dl_set d (fun l => Dl (dl_name l) (dl_load l) (dl_dynamic l) (dl_dynsym l) (dl_dynsym_num l) (dl_dynstr l)
    (dl_reldyn l) (dl_reldyn_num l) ptr (dl_relplt_num l) (dl_fini_array l) (dl_fini_array_size l)) else
  if tag =? DT_RELSZ then dl_set d (fun l => Dl (dl_name l) (dl_load l) (dl_dynamic l) (dl_dynsym l) (dl_dynsym_num l) (dl_dynstr l)
    (dl_reldyn l) (val / 8) (dl_relplt l) (dl_relplt_num l) (dl_fini_array l) (dl_fini_array_size l)) else
  if tag =? DT_PLTRELSZ then dl_set d (fun l => Dl (dl_name l) (dl_load l) (dl_dynamic l) (dl_dynsym l) (dl_dynsym_num l) (dl_dynstr l)
    (dl_reldyn l) (dl_reldyn_num l) (dl_relplt l) (val / 8) (dl_fini_array l) (dl_fini_array_size l)) else
  if tag =? DT_INIT_ARRAY then Dynamic (dy_dl d) (needed d) ptr (init_array_size d) else
  if tag =? DT_INIT_ARRAYSZ then Dynamic (dy_dl d) (needed d) (init_array d) (val / 4) else
  if tag =? DT_FINI_ARRAY then dl_set d (fun l => Dl (dl_name l) (dl_load l) (dl_dynamic l) (dl_dynsym l) (dl_dynsym_num l) (dl_dynstr l)
    (dl_reldyn l) (dl_reldyn_num l) (dl_relplt l) (dl_relplt_num l) ptr (dl_fini_array_size l)) else
  if tag =? DT_FINI_ARRAYSZ then dl_set d (fun l => Dl (dl_name l) (dl_load l) (dl_dynamic l) (dl_dynsym l) (dl_dynsym_num l) (dl_dynstr l)
    (dl_reldyn l) (dl_reldyn_num l) (dl_relplt l) (dl_relplt_num l) (dl_fini_array l) (val / 4)) else d.

(** The loop over a dynamic section, up to the entry with tag zero. *)
Fixpoint read_dynamic (n : nat) (load dyn : Z) (m : memory) (d : dynamic) : outcome dynamic :=
  tag <- load32 m dyn ;;
  if tag =? 0 then Ret d else
  val <- load32 m (u32 (dyn + 4)) ;;
  match n with
  | O => NoFuel
  | S n' => read_dynamic n' load (u32 (dyn + 8)) m (dyn_entry load tag val d)
  end.

(** The entry of a library that is loaded: true when there is one. *)
Fixpoint is_loaded (name : Z) (m : memory) (l : list DlInfo) : outcome bool :=
  match l with
  | [] => Ret false
  | d :: l' => c <- strcmp fuel m (dl_name d) name ;; if c =? 0 then Ret true else is_loaded name m l'
  end.

(** The last free entry. *)
Fixpoint free_dl (i : Z) (l : list DlInfo) : option Z :=
  match l with
  | [] => None
  | d :: l' => match free_dl (i + 1) l' with
               | Some j => Some j
               | None => if dl_name d =? 0 then Some i else None
               end
  end.

(** "/lib/" followed by the name, in an array of fifty bytes. *)
Definition lib_prefix : list Z := [47; 108; 105; 98; 47].

Definition lib_file (name : Z) (m : memory) : outcome (list Z) :=
  s <- string_at fuel m name ;;
  if 50 <? zlen lib_prefix + zlen s + 1 then Fault else Ret (lib_prefix ++ s ++ [0]).

(** The symbols of a library from entry [i] on; false when the table is full. *)
Fixpoint add_symbols (n : nat) (i : Z) (dl : DlInfo) (m : memory) (t : list Symbol) : outcome (bool * list Symbol) :=
  match n with
  | O => Ret (true, t)
  | S n' =>
    let e := sym_entry (dl_dynsym dl) i in
    st_shndx <- load16 m (u32 (e + 14)) ;;
    if st_shndx =? 0 then add_symbols n' (i + 1) dl m t else
    st_info <- load8 m (u32 (e + 12)) ;;
    let bind := Z.shiftr st_info 4 in
    if negb (bind =? 1) && negb (bind =? 2) then add_symbols n' (i + 1) dl m t else
    st_name <- load32 m e ;;
    st_value <- load32 m (u32 (e + 4)) ;;
    r <- ld_insert_symbol (u32 (dl_dynstr dl + st_name)) (u32 (dl_load dl + st_value)) m t ;;
    match r with
    | None => Ret (false, t)
    | Some t' => add_symbols n' (i + 1) dl m t'
    end
  end.

(** Code of the libraries, and the system call: the address the file was loaded
    at, zero on failure, and its dynamic section. *)
Variable run_function : Z -> memory -> outcome memory.
Variable dynamic_load : list Z -> memory -> outcome (Z * Z * memory).

(** Calling the functions of an array. *)
Fixpoint call_functions (n : nat) (array : Z) (m : memory) : outcome memory :=
  match n with
  | O => Ret m
  | S n' => f <- load32 m array ;; m' <- run_function f m ;; call_functions n' (u32 (array + 4)) m'
  end.

(** A relocation table, if there is one. *)
Definition relocate_table (load rel num : Z) (dl : DlInfo) (s : linker) : outcome (linker + list Z) :=
  if rel =? 0 then Ret (inl s) else
  r <- ld_relocate load rel (dl_dynsym dl) (dl_dynstr dl) num (symbol_table s) (lmem s) ;;
  match r with
  | inl m => Ret (inl (with_mem s m))
  | inr msg => Ret (inr msg)
  end.

(** The libraries in [needed], up to the first free place, by [load]; one that
    cannot be loaded ends the process. *)
Fixpoint load_needed (load : Z -> linker -> outcome (bool * linker + list Z)) (dynstr : Z) (l : list Z) (s : linker) : outcome (linker + list Z) :=
  match l with
  | [] => Ret (inl s)
  | v :: l' =>
    if v =? 0 then Ret (inl s) else
    let name := u32 (dynstr + v) in
    r <- load name s ;;
    match r with
    | inr msg => Ret (inr msg)
    | inl (true, s') => load_needed load dynstr l' s'
    | inl (false, s') => msg <- string_at fuel (lmem s') name ;; Ret (inr msg)
    end
  end.

(** What is done with a library once its needs are loaded: true when all its
    symbols had room. *)
Definition link_library (i : Z) (d : dynamic) (s : linker) : outcome (bool * linker + list Z) :=
  dl <- of_option (zget (dl_info s) i) ;;
  r1 <- relocate_table (dl_load dl) (dl_relplt dl) (dl_relplt_num dl) dl s ;;
  match r1 with
  | inr msg => Ret (inr msg)
  | inl s1 =>
    r2 <- relocate_table (dl_load dl) (dl_reldyn dl) (dl_reldyn_num dl) dl s1 ;;
    match r2 with
    | inr msg => Ret (inr msg)
    | inl s2 =>
      '(ok, t) <- add_symbols (Z.to_nat (dl_dynsym_num dl)) 0 dl (lmem s2) (symbol_table s2) ;;
      let s3 := with_table s2 t in
      if negb ok then Ret (inl (false, s3)) else
      m <- (if (init_array d =? 0) || (init_array_size d =? 0) then Ret (lmem s3)
            else call_functions (Z.to_nat (init_array_size d)) (init_array d) (lmem s3)) ;;
      Ret (inl (true, with_mem s3 m))
    end
  end.

(** The fields of a new entry; [sizeof(Elf32_Sym)] makes the division unsigned. *)
Definition start_dl (name load dyn : Z) (dl : DlInfo) : DlInfo :=
  Dl name load dyn (dl_dynsym dl) (dl_dynsym_num dl) (dl_dynstr dl) (dl_reldyn dl) (dl_reldyn_num dl)
    (dl_relplt dl) (dl_relplt_num dl) (dl_fini_array dl) (dl_fini_array_size dl).

Definition count_symbols (dl : DlInfo) : DlInfo :=
  Dl (dl_name dl) (dl_load dl) (dl_dynamic dl) (dl_dynsym dl) (s32 (u32 (dl_dynstr dl - dl_dynsym dl) / 16)) (dl_dynstr dl)
    (dl_reldyn dl) (dl_reldyn_num dl) (dl_relplt dl) (dl_relplt_num dl) (dl_fini_array dl) (dl_fini_array_size dl).

Definition put_dl (i : Z) (dl : DlInfo) (s : linker) : outcome linker :=
  l <- of_option (zset (dl_info s) i dl) ;; Ret (with_dl s l).

(** [depth] bounds the libraries loaded for one another. *)
Fixpoint ld_load_library (depth : nat) (name : Z) (s : linker) : outcome (bool * linker + list Z) :=
  found <- is_loaded name (lmem s) (dl_info s) ;;
  if found then Ret (inl (true, s)) else
  match free_dl 0 (dl_info s) with
  | None => Ret (inl (false, s))
  | Some i =>
    path <- lib_file name (lmem s) ;;
    '(load, dyn, m) <- dynamic_load path (lmem s) ;;
    let s1 := with_mem s m in
    dl <- of_option (zget (dl_info s1) i) ;;
    if load =? 0 then
      s2 <- put_dl i (start_dl (dl_name dl) 0 (dl_dynamic dl) dl) s1 ;; Ret (inl (false, s2))
    else
    d <- read_dynamic fuel load dyn m (Dynamic (start_dl name load dyn dl) (repeat 0 16) 0 0) ;;
    s2 <- put_dl i (count_symbols (dy_dl d)) s1 ;;
    match depth with
    | O => NoFuel
    | S depth' =>
      r <- load_needed (ld_load_library depth') (dl_dynstr (dy_dl d)) (needed d) s2 ;;
      match r with
      | inr msg => Ret (inr msg)
      | inl s3 => link_library i d s3
      end
    end
  end.

(** ** Starting a program *)

(** From the last library to the first. *)
Fixpoint fini_loop (l : list DlInfo) (m : memory) : outcome memory :=
  match l with
  | [] => Ret m
  | dl :: l' =>
    m' <- (if (dl_fini_array dl =? 0) || (dl_fini_array_size dl =? 0) then Ret m
           else call_functions (Z.to_nat (dl_fini_array_size dl)) (dl_fini_array dl) m) ;;
    fini_loop l' m'
  end.

Definition _dl_fini (s : linker) : outcome linker :=
  m <- fini_loop (rev (dl_info s)) (lmem s) ;; Ret (with_mem s m).

Definition no_dl : DlInfo := Dl 0 0 0 0 0 0 0 0 0 0 0 0.

(** The variables [ld_main] starts with; those it does not set are [undef]. *)
Definition main_dl (undef : Z) : DlInfo := Dl 0 0 0 undef 0 0 0 undef 0 undef 0 0.

(** The result of [ld_insert_symbol] is not looked at. *)
Definition insert_ignore (name sym : Z) (s : linker) : outcome linker :=
  r <- ld_insert_symbol name sym (lmem s) (symbol_table s) ;; Ret (with_table s (default (symbol_table s) r)).

(** The addresses of the three names in the linker, and of [_dl_fini]. *)
Variable start_name end_name dl_fini_name dl_fini_addr : Z.

Definition ld_main (depth : nat) (undef dynamic : Z) (m : memory) : outcome (linker + list Z) :=
  let s := Linker m (repeat no_dl DL_INFO_MAX) (repeat (Sym 0 0) SYMBOL_TABLE_MAX) in
  d <- read_dynamic fuel 0 dynamic m (Dynamic (main_dl undef) (repeat 0 16) 0 0) ;;
  let dl := dy_dl d in
  let has_fini := negb (dl_fini_array dl =? 0) && negb (dl_fini_array_size dl =? 0) in
  s1 <- insert_ignore start_name (if has_fini then dl_fini_array dl else 0xffffffff) s ;;
  s2 <- insert_ignore end_name (if has_fini then u32 (dl_fini_array dl + 4 * dl_fini_array_size dl) else 0xffffffff) s1 ;;
  s3 <- insert_ignore dl_fini_name dl_fini_addr s2 ;;
  r <- load_needed (ld_load_library depth) (dl_dynstr dl) (needed d) s3 ;;
  match r with
  | inr msg => Ret (inr msg)
  | inl s4 =>
    r1 <- relocate_table 0 (dl_relplt dl) (dl_relplt_num dl) dl s4 ;;
    match r1 with
    | inr msg => Ret (inr msg)
    | inl s5 => relocate_table 0 (dl_reldyn dl) (dl_reldyn_num dl) dl s5
    end
  end.
End linker.

(** ** Bytes in memory *)

(** The bytes [bs] are at [a], outside of the addresses [T] that are written. *)
Definition bytes_at (T : Z -> Prop) (m : memory) (a : Z) (bs : list Z) : Prop :=
  forall i b, bs !! i = Some b -> m !! u32 (a + Z.of_nat i) = Some b /\ ~ T (u32 (a + Z.of_nat i)).

Definition word_at (T : Z -> Prop) (m : memory) (a w : Z) : Prop := is_u32 w /\ bytes_at T m a (le_bytes 4 w).

(** The string [s] with its terminator. *)
Definition cstr (T : Z -> Prop) (m : memory) (p : Z) (s : list Z) : Prop :=
  Forall (fun c => 0 < c < 256) s /\ bytes_at T m p (s ++ [0]).

(** Memory that changed only inside [T]. *)
Definition keeps (T : Z -> Prop) (m m' : memory) : Prop := forall a, ~ T a -> m' !! a = m !! a.

Definition nowhere : Z -> Prop := fun _ => False.

Lemma bytes_at_keeps T m m' a bs : bytes_at T m a bs -> keeps T m m' -> bytes_at T m' a bs.
Proof. intros Hb Hk i b Hi. destruct (Hb i b Hi) as [Hm HT]. split; [|done]. by rewrite Hk. Qed.

Lemma bytes_at_cons T m a b bs : bytes_at T m a (b :: bs) -> m !! u32 a = Some b /\ bytes_at T m (u32 (a + 1)) bs.
Proof.
  intros H. split.
  - destruct (H 0%nat b eq_refl) as [Hb _]. by rewrite Z.add_0_r in Hb.
  - intros i c Hi. specialize (H (S i) c Hi). rewrite u32_add_l. by replace (a + 1 + Z.of_nat i) with (a + Z.of_nat (S i)) by lia.
Qed.

Lemma load_bytes_ok T m bs : forall a, is_u32 a -> bytes_at T m a bs -> load_bytes (length bs) m a = Ret bs.
Proof.
  induction bs as [|b bs IH]; intros a Ha H; cbn [length load_bytes]; [done|]. apply bytes_at_cons in H as [Hb H].
  rewrite u32_small in Hb by done. unfold load8. rewrite Hb. cbn [of_option obind]. rewrite IH; [done|apply u32_range|done].
Qed.

Lemma load32_ok T m a w : is_u32 a -> word_at T m a w -> load32 m a = Ret w.
Proof.
  intros Ha [Hw Hb]. unfold load32. apply (load_bytes_ok T) in Hb; [|done]. rewrite le_bytes_length in Hb. rewrite Hb. cbn [obind].
  by rewrite le_val_bytes.
Qed.

Lemma word_at_keeps T m m' a w : word_at T m a w -> keeps T m m' -> word_at T m' a w.
Proof. intros [Hw Hb] Hk. split; [done|]. by eapply bytes_at_keeps. Qed.

(** The addresses of the [n] bytes at [a]. *)
Definition range (a : Z) (n : nat) (x : Z) : Prop := exists i, (i < n)%nat /\ x = u32 (a + Z.of_nat i).

Lemma range_cons a n x : range (u32 (a + 1)) n x -> range a (S n) x.
Proof. intros (i & Hi & ->). exists (S i). split; [lia|]. rewrite u32_add_l. f_equal. lia. Qed.

Lemma range_first a n : is_u32 a -> range a (S n) a.
Proof. intros Ha. exists 0%nat. split; [lia|]. by rewrite Z.add_0_r, u32_small. Qed.

(** Bytes close to each other are at different addresses. *)
Lemma range_not_first a n : is_u32 a -> Z.of_nat n < 2 ^ 32 - 1 -> ~ range (u32 (a + 1)) n a.
Proof. intros Ha Hn (i & Hi & E). rewrite u32_add_l in E. unfold u32, is_u32 in *. Z.div_mod_to_equations. lia. Qed.

Lemma store_bytes_ok bs : forall m a, is_u32 a -> Z.of_nat (length bs) < 2 ^ 32 -> (forall x, range a (length bs) x -> is_Some (m !! x)) ->
  exists m', store_bytes bs m a = Ret m' /\ bytes_at nowhere m' a bs /\ keeps (range a (length bs)) m m' /\ forall x, is_Some (m !! x) -> is_Some (m' !! x).
Proof.
  induction bs as [|b bs IH]; intros m a Ha Hl Hm; cbn [store_bytes length].
  { exists m. split; [done|]. split; [intros i c Hi; done|]. split; [intros x _; done|done]. }
  unfold store8, load8. destruct (Hm a) as [b0 Hb0]; [by apply range_first|]. rewrite Hb0. cbn [of_option obind].
  destruct (IH (<[a := b]> m) (u32 (a + 1))) as (m' & E & Hb & Hk & Hd); [apply u32_range|cbn [length] in Hl; lia| |].
  { intros x Hx. rewrite lookup_insert_is_Some'. right. apply Hm. by apply range_cons. }
  exists m'. split; [done|]. cbn [length] in Hl.
  assert (Hfirst : m' !! a = Some b) by (rewrite Hk by (apply range_not_first; [done|lia]); apply lookup_insert_eq).
  split; [|split].
  - intros [|i] c Hi.
    + injection Hi as <-. rewrite Z.add_0_r, u32_small by done. split; [done|intros []].
    + destruct (Hb i c Hi) as [Hc _]. rewrite u32_add_l in Hc. replace (a + Z.of_nat (S i)) with (a + 1 + Z.of_nat i) by lia. split; [done|intros []].
  - intros x Hx. rewrite Hk by (intros Hr; apply Hx; by apply range_cons).
    rewrite lookup_insert_ne; [done|]. intros <-. apply Hx. by apply range_first.
  - intros x Hx. apply Hd. rewrite lookup_insert_is_Some'. by right.
Qed.

Lemma store32_ok m a w : is_u32 a -> is_u32 w -> (forall x, range a 4 x -> is_Some (m !! x)) ->
  exists m', store32 m a w = Ret m' /\ load32 m' a = Ret w /\ keeps (range a 4) m m' /\ forall x, is_Some (m !! x) -> is_Some (m' !! x).
Proof.
  intros Ha Hw Hm. unfold store32. pose proof (le_bytes_length 4 w) as Hl.
  destruct (store_bytes_ok (le_bytes 4 w) m a Ha) as (m' & E & Hb & Hk & Hd); [lia|by rewrite Hl|].
  exists m'. split; [done|]. rewrite Hl in Hk. split; [|done]. by apply (load32_ok nowhere).
Qed.

(** [load32] depends on the four bytes. *)
Lemma load_bytes_keeps (T : Z -> Prop) m m' n : forall a, is_u32 a -> keeps T m m' -> (forall x, range a n x -> ~ T x) -> load_bytes n m' a = load_bytes n m a.
Proof.
  induction n as [|n IH]; intros a Ha Hk Hr; cbn [load_bytes]; [done|]. unfold load8. rewrite Hk by (apply Hr; by apply range_first).
  destruct (m !! a); [|done]. cbn [of_option obind]. rewrite IH; [done|apply u32_range|done|]. intros x Hx. by apply Hr, range_cons.
Qed.

Lemma load32_keeps (T : Z -> Prop) m m' a : is_u32 a -> keeps T m m' -> (forall x, range a 4 x -> ~ T x) -> load32 m' a = load32 m a.
Proof. intros Ha Hk Hr. unfold load32. by rewrite (load_bytes_keeps T m m' 4 a). Qed.

(** ** Comparing strings *)

Lemma cstr_cons T m p c s : cstr T m p (c :: s) -> 0 < c < 256 /\ m !! u32 p = Some c /\ cstr T m (u32 (p + 1)) s.
Proof. intros [Hf Hb]. apply Forall_cons in Hf as [Hc Hf]. apply bytes_at_cons in Hb as [Hm Hb]. done. Qed.

Lemma cstr_nil T m p : cstr T m p [] -> m !! u32 p = Some 0.
Proof. intros [_ Hb]. by apply bytes_at_cons in Hb as [Hm _]. Qed.

Lemma s8_sub_zero x y : 0 <= x < 256 -> 0 <= y < 256 -> s8 x - s8 y = 0 <-> x = y.
Proof. intros Hx Hy. unfold s8, u8. rewrite !Z.mod_small by lia. destruct (Z.ltb_spec x (2 ^ 7)), (Z.ltb_spec y (2 ^ 7)); lia. Qed.

Lemma strcmp_ok T m n : forall s t p q, (length s <= n)%nat -> is_u32 p -> is_u32 q -> cstr T m p s -> cstr T m q t ->
  exists c, strcmp n m p q = Ret c /\ (c = 0 <-> s = t).
Proof.
  induction n as [|n IH]; intros s t p q Hn Hp Hq Hs Ht.
  all: destruct s as [|c s]; [apply cstr_nil in Hs as Hx|apply cstr_cons in Hs as (Hc & Hx & Hs')].
  all: destruct t as [|d t]; [apply cstr_nil in Ht as Hy|apply cstr_cons in Ht as (Hd & Hy & Ht')].
  all: rewrite u32_small in Hx, Hy by done; cbn [strcmp]; unfold load8; rewrite Hx, Hy; cbn [of_option obind length] in *; try lia.
  all: try (eexists; split; [done|]; rewrite s8_sub_zero by lia; split; [intros; first [done|lia]|intros; first [done|congruence]]).
  - destruct (Z.eqb_spec c 0); [lia|]. cbn [negb andb]. eexists. split; [done|]. rewrite s8_sub_zero by lia. split; [lia|done].
  - destruct (Z.eqb_spec c 0); [lia|]. destruct (Z.eqb_spec c d) as [<-|Hne]; cbn [negb andb].
    + destruct (IH s t (u32 (p + 1)) (u32 (q + 1))) as (e & -> & He); [lia|apply u32_range|apply u32_range|done|done|].
      exists e. split; [done|]. rewrite He. split; [intros ->; done|congruence].
    + eexists. split; [done|]. rewrite s8_sub_zero by lia. split; [lia|congruence].
Qed.

(** ** The symbol table *)

Section symbols.
Variable fuel : nat.

(** A table holds symbols with their names and addresses, and then free entries. *)
Inductive holds (T : Z -> Prop) (m : memory) : list Symbol -> list (list Z * Z) -> Prop :=
| holds_free t : Forall (fun e => sym_name e = 0) t -> holds T m t []
| holds_cons e t s l : sym_name e <> 0 -> is_u32 (sym_name e) -> cstr T m (sym_name e) s -> (length s <= fuel)%nat -> holds T m t l ->
    holds T m (e :: t) ((s, sym_addr e) :: l).

(** Defining a name: its place or a new one at the end. *)
Fixpoint define (s : list Z) (v : Z) (l : list (list Z * Z)) : list (list Z * Z) :=
  match l with
  | [] => [(s, v)]
  | (s', v') :: l' => if decide (s' = s) then (s', v) :: l' else (s', v') :: define s v l'
  end.

Lemma define_map s v l : list_to_map (define s v l) =@{gmap (list Z) Z} <[s := v]> (list_to_map l).
Proof.
  induction l as [|[s' v'] l IH]; cbn [define list_to_map foldr uncurry]; [done|]. case_decide as E; cbn.
  - subst. by rewrite insert_insert_eq.
  - rewrite IH. by rewrite insert_insert_ne.
Qed.

Lemma define_names s v l x : x ∈ (define s v l).*1 <-> x = s \/ x ∈ l.*1.
Proof.
  induction l as [|[s' v'] l IH]; cbn; [set_solver|]. case_decide as E; cbn; [subst; set_solver|]. rewrite !elem_of_cons, IH. tauto.
Qed.

Lemma define_NoDup s v l : NoDup l.*1 -> NoDup (define s v l).*1.
Proof.
  induction l as [|[s' v'] l IH]; cbn; [intros _; apply NoDup_singleton|]. intros [Hn Hd]%NoDup_cons. case_decide as E; cbn; [by apply NoDup_cons|].
  apply NoDup_cons. split; [|by apply IH]. rewrite define_names. intros [->|]; done.
Qed.

Lemma insert_symbol_ok T m p s v t l : holds T m t l -> cstr T m p s -> is_u32 p -> p <> 0 -> (length s <= fuel)%nat -> (length (define s v l) <= length t)%nat ->
  exists t', ld_insert_symbol fuel p v m t = Ret (Some t') /\ holds T m t' (define s v l) /\ length t' = length t.
Proof.
  intros Hh Hs Hp Hp0 Hf. induction Hh as [t Ht|e t s' l He0 He Hes Hef Hh IH]; cbn [define].
  - destruct t as [|e t]; cbn [length ld_insert_symbol]; [lia|]. intros _. apply Forall_cons in Ht as [-> Ht]. cbn.
    eexists. split; [done|]. split; [|done]. change v with (sym_addr (Sym p v)) at 2. constructor; try done. by constructor.
  - cbn [ld_insert_symbol]. destruct (Z.eqb_spec (sym_name e) 0); [done|].
    destruct (strcmp_ok T m fuel s' s (sym_name e) p) as (c & -> & Hc); [done..|]. cbn [obind]. destruct (Z.eqb_spec c 0) as [E|E].
    + apply Hc in E as ->. rewrite decide_True by done. intros _. eexists. split; [done|]. split; [|done].
      change v with (sym_addr (Sym (sym_name e) v)) at 2. by constructor.
    + rewrite decide_False by (intros ->; by apply E, Hc). cbn [length]. intros Hl. destruct IH as (t' & -> & Ht' & Hl'); [lia|].
      cbn. eexists. split; [done|]. split; [by constructor|]. cbn. lia.
Qed.

Lemma lookup_symbol_ok T m p s v t l : holds T m t l -> cstr T m p s -> is_u32 p -> (list_to_map l : gmap (list Z) Z) !! s = Some v ->
  ld_lookup_symbol fuel p m t = Ret v.
Proof.
  intros Hh Hs Hp. induction Hh as [t Ht|e t s' l He0 He Hes Hef Hh IH]; [done|]. rewrite list_to_map_cons.
  cbn [ld_lookup_symbol]. destruct (strcmp_ok T m fuel s' s (sym_name e) p) as (c & -> & Hc); [done..|]. cbn [obind]. intros Hl.
  destruct (Z.eqb_spec c 0) as [E|E].
  - apply Hc in E as ->. rewrite lookup_insert_eq in Hl. by injection Hl as ->.
  - apply IH. rewrite lookup_insert_ne in Hl; [done|]. intros ->. by apply E, Hc.
Qed.

(** Looking up a name that is not defined goes on to the free entries and reads
    the name of the first of them at the null pointer. *)
Lemma undefined_symbol_reads_null T m p s t l : holds T m t l -> cstr T m p s -> is_u32 p -> (length l < length t)%nat ->
  (list_to_map l : gmap (list Z) Z) !! s = None -> m !! 0 = None -> ld_lookup_symbol fuel p m t = Fault.
Proof.
  intros Hh Hs Hp Hl Hn H0. induction Hh as [t Ht|e t s' l He0 He Hes Hef Hh IH].
  - destruct t as [|e t]; [cbn in Hl; lia|]. apply Forall_cons in Ht as [He _]. cbn [ld_lookup_symbol]. rewrite He.
    destruct fuel; cbn [strcmp]; unfold load8; by rewrite H0.
  - rewrite list_to_map_cons, lookup_insert_None in Hn. destruct Hn as [Hn Hne]. cbn [ld_lookup_symbol length] in *.
    destruct (strcmp_ok T m fuel s' s (sym_name e) p) as (c & -> & Hc); [done..|]. cbn [obind].
    destruct (Z.eqb_spec c 0) as [E|E]; [by apply Hc in E|]. apply IH; [lia|done].
Qed.

(** A sequence of definitions, by the linker and on a finite map. *)
Fixpoint insert_symbols (ops : list (Z * Z)) (m : memory) (t : list Symbol) : outcome (option (list Symbol)) :=
  match ops with
  | [] => Ret (Some t)
  | (p, v) :: ops' =>
    r <- ld_insert_symbol fuel p v m t ;;
    match r with
    | None => Ret None
    | Some t' => insert_symbols ops' m t'
    end
  end.

Definition defined (ops : list (Z * list Z * Z)) (M : gmap (list Z) Z) : gmap (list Z) Z :=
  fold_left (fun M '(_, s, v) => <[s := v]> M) ops M.

Definition named (m : memory) (p : Z) (s : list Z) : Prop := cstr nowhere m p s /\ is_u32 p /\ p <> 0 /\ (length s <= fuel)%nat.

Lemma defined_size ops : forall M, (size M <= size (defined ops M))%nat.
Proof.
  unfold defined. induction ops as [|[[p s] v] ops IH]; intros M; cbn [fold_left]; [done|]. etrans; [|apply IH].
  rewrite map_size_insert. destruct (M !! s); cbn; lia.
Qed.

Lemma insert_symbols_ok m ops : forall t l, Forall (fun '(p, s, _) => named m p s) ops -> holds nowhere m t l -> NoDup l.*1 ->
  (size (defined ops (list_to_map l)) <= length t)%nat ->
  exists t' l', insert_symbols (map (fun '(p, _, v) => (p, v)) ops) m t = Ret (Some t') /\ holds nowhere m t' l' /\
    list_to_map l' = defined ops (list_to_map l).
Proof.
  induction ops as [|[[p s] v] ops IH]; intros t l Ho Hh Hd Hsz; cbn [map insert_symbols defined fold_left]; [by exists t, l|].
  apply Forall_cons in Ho as [(Hs & Hp & Hp0 & Hf) Ho]. cbn [defined fold_left] in Hsz. rewrite <- (define_map s v l) in Hsz.
  pose proof (define_NoDup s v l Hd) as Hd'.
  assert (length (define s v l) <= length t)%nat as Hl.
  { etrans; [|exact Hsz]. etrans; [|apply defined_size]. rewrite map_size_list_to_map by done. by rewrite ?length_fmap. }
  destruct (insert_symbol_ok nowhere m p s v t l Hh Hs Hp Hp0 Hf Hl) as (t1 & -> & Ht1 & Hl1). cbn [obind].
  rewrite <- define_map. apply IH; [done|done|done|]. by rewrite Hl1.
Qed.

(** The symbol table is a finite map: after any sequence of definitions
    with at most as many different names as the table has entries, every
    definition found room, and looking up a name that was defined, whatever copy
    of the string names it, gives the address it was defined with last. *)
Theorem symbol_table_refines_map m ops p s v :
  Forall (fun '(p, s, _) => named m p s) ops -> (size (defined ops ∅) <= SYMBOL_TABLE_MAX)%nat ->
  named m p s -> defined ops ∅ !! s = Some v ->
  exists t, insert_symbols (map (fun '(p, _, v) => (p, v)) ops) m (repeat (Sym 0 0) SYMBOL_TABLE_MAX) = Ret (Some t) /\
    ld_lookup_symbol fuel p m t = Ret v.
Proof.
  intros Ho Hsz (Hs & Hp & _ & _) Hv.
  destruct (insert_symbols_ok m ops (repeat (Sym 0 0) SYMBOL_TABLE_MAX) []) as (t & l & E & Hh & Hl); [done| |constructor|by rewrite repeat_length|].
  { constructor. apply Forall_forall. intros e He. apply list_elem_of_In, repeat_spec in He. by subst. }
  exists t. split; [done|]. eapply lookup_symbol_ok; [done|done|done|]. by rewrite Hl.
Qed.
End symbols.

(** ** Relocation *)

(** Copying to where the bytes copied are not is storing them. *)
Lemma memcpy_store (T : Z -> Prop) bs : forall m dest from, is_u32 dest -> is_u32 from -> bytes_at T m from bs ->
  (forall x, range dest (length bs) x -> T x) -> memcpy (length bs) dest from m = store_bytes bs m dest.
Proof.
  induction bs as [|b bs IH]; intros m dest from Hd Hf Hb HT; cbn [length memcpy store_bytes]; [done|].
  pose proof (bytes_at_cons _ _ _ _ _ Hb) as [Hm Hb']. rewrite u32_small in Hm by done. unfold load8 at 1. rewrite Hm. cbn [of_option obind].
  unfold store8. destruct (load8 m dest) as [b0| | |]; cbn [obind]; try done. apply IH; [apply u32_range|apply u32_range| |].
  - eapply bytes_at_keeps; [exact Hb'|]. intros a Ha. apply lookup_insert_ne. intros <-. apply Ha, HT. by apply range_first.
  - intros x Hx. by apply HT, range_cons.
Qed.

Section relocation.
Variable fuel : nat.
(** The library, the symbols, and the relocations with the bytes they leave. *)
Variable load_base rel_table dynsym strtab : Z.
Variable t : list Symbol.
Variable l : list (list Z * Z).
Variable rels : list (Z * Z * list Z).
Variable m : memory.

Definition target (r : Z * Z) : Z := u32 (load_base + r.1).

(** The addresses that relocations [rs] write. *)
Definition written (rs : list (Z * Z * list Z)) (x : Z) : Prop := exists r, r ∈ rs /\ range (target r.1) (length r.2) x.

(** The symbol of a relocation has the address [v]. *)
Definition symbol_is (r : Z * Z) (v : Z) : Prop := exists st_name s,
  word_at (written rels) m (sym_entry dynsym (ELF32_R_SYM r.2)) st_name /\ cstr (written rels) m (u32 (strtab + st_name)) s /\
  (list_to_map l : gmap (list Z) Z) !! s = Some v /\ v <> 0 /\ is_u32 v.

(** The bytes a relocation is to leave at its target: the address of its symbol;
    the word there moved by the load address; a copy of the object of its
    symbol, as many bytes as the symbol table of the library says; none for a type
    that the linker does not know. *)
Inductive relocates (r : Z * Z) : list Z -> Prop :=
| relocates_symbol v : ELF32_R_TYPE r.2 = R_386_GLOB_DAT \/ ELF32_R_TYPE r.2 = R_386_JMP_SLOT -> symbol_is r v -> relocates r (le_bytes 4 v)
| relocates_relative w : ELF32_R_TYPE r.2 = R_386_RELATIVE -> load32 m (target r) = Ret w -> relocates r (le_bytes 4 (u32 (w + load_base)))
| relocates_copy v bs : ELF32_R_TYPE r.2 = R_386_COPY -> symbol_is r v ->
    word_at (written rels) m (u32 (sym_entry dynsym (ELF32_R_SYM r.2) + 8)) (zlen bs) -> bytes_at (written rels) m v bs -> relocates r bs
| relocates_unknown : ELF32_R_TYPE r.2 ∉ [R_386_COPY; R_386_GLOB_DAT; R_386_JMP_SLOT; R_386_RELATIVE] -> relocates r [].

(** The table of relocations, the symbols, the strings and the objects copied are
    apart from the targets, which are mapped and do not overlap. *)
Record relocatable : Prop := {
  rel_table_u32 : is_u32 rel_table;
  rel_entries k r : rels !! k = Some r ->
    word_at (written rels) m (u32 (rel_table + 8 * Z.of_nat k)) r.1.1 /\ word_at (written rels) m (u32 (rel_table + 8 * Z.of_nat k + 4)) r.1.2;
  rel_symbols : holds fuel (written rels) m t l;
  rel_mapped r x : r ∈ rels -> range (target r.1) (length r.2) x -> is_Some (m !! x);
  rel_disjoint i j r r' x : rels !! i = Some r -> rels !! j = Some r' -> range (target r.1) (length r.2) x -> range (target r'.1) (length r'.2) x -> i = j
}.

Lemma holds_keeps T m1 m2 t' l' : holds fuel T m1 t' l' -> keeps T m1 m2 -> holds fuel T m2 t' l'.
Proof.
  intros Hh Hk. induction Hh as [t' Ht|e t' s l' He0 He [Hs1 Hs2] Hef Hh IH]; constructor; try done. split; [done|]. by eapply bytes_at_keeps.
Qed.

Lemma keeps_weaken (T T' : Z -> Prop) m1 m2 : keeps T m1 m2 -> (forall x, T x -> T' x) -> keeps T' m1 m2.
Proof. intros Hk Hs a Ha. apply Hk. intros Hx. by apply Ha, Hs. Qed.

Lemma bytes_at_other (T : Z -> Prop) m1 m2 a bs : bytes_at nowhere m1 a bs -> keeps T m1 m2 -> (forall x, range a (length bs) x -> ~ T x) -> bytes_at nowhere m2 a bs.
Proof.
  intros Hb Hk Hr i b Hi. split; [|by intros []]. rewrite Hk; [by apply (Hb i b)|]. apply Hr. exists i. split; [|done]. by eapply lookup_lt_Some.
Qed.

Hypothesis ok : relocatable.

Lemma resolve_ok r v m1 : symbol_is r v -> keeps (written rels) m m1 -> resolve fuel dynsym strtab r.2 t m1 = Ret (inl v).
Proof.
  intros (st_name & s & Hsym & Hstr & Hv & Hv0 & Hvu) Hm1. unfold resolve.
  rewrite (load32_ok (written rels) m1 _ st_name) by (try apply u32_range; by eapply word_at_keeps). cbn [obind].
  rewrite (lookup_symbol_ok fuel (written rels) m1 (u32 (strtab + st_name)) s v t l);
    [|eapply holds_keeps; [apply ok|done]|destruct Hstr; split; [done|by eapply bytes_at_keeps]|apply u32_range|done].
  cbn [obind]. by destruct (Z.eqb_spec v 0).
Qed.

Lemma relocates_short r bs : relocates r bs -> Z.of_nat (length bs) < 2 ^ 32.
Proof. intros [v _ _|w _ _|v bs' _ _ [Hl _] _|_]; rewrite ?le_bytes_length; try lia; [|cbn; lia]. unfold zlen, is_u32 in Hl. lia. Qed.

(** One relocation is a store of its bytes, with memory changed only at targets of
    others. *)
Lemma relocate_one_store k r bs m1 : rels !! k = Some (r, bs) -> relocates r bs -> keeps (written rels) m m1 ->
  (forall x, range (target r) (length bs) x -> m1 !! x = m !! x) ->
  relocate_one fuel load_base (u32 (rel_table + 8 * Z.of_nat k)) dynsym strtab t m1 = (m' <- store_bytes bs m1 (target r) ;; Ret (inl m')).
Proof.
  intros Hk Hw Hm1 Hold. destruct (rel_entries ok k _ Hk) as [Ho Hi]. cbn [fst snd] in Ho, Hi. unfold relocate_one.
  rewrite (load32_ok (written rels) m1 _ r.1) by (try apply u32_range; by eapply word_at_keeps). cbn [obind].
  rewrite u32_add_l. rewrite (load32_ok (written rels) m1 _ r.2) by (try apply u32_range; by eapply word_at_keeps). cbn [obind].
  fold (target r). destruct Hw as [v Hty Hs|w Hty Hw|v bs Hty Hs Hsize Hb|Hty].
  - replace (ELF32_R_TYPE r.2 =? R_386_COPY) with false by (destruct Hty as [-> | ->]; done).
    replace ((ELF32_R_TYPE r.2 =? R_386_GLOB_DAT) || (ELF32_R_TYPE r.2 =? R_386_JMP_SLOT)) with true by (destruct Hty as [-> | ->]; done).
    rewrite (resolve_ok r v) by done. done.
  - rewrite Hty. change (R_386_RELATIVE =? R_386_COPY) with false.
    change ((R_386_RELATIVE =? R_386_GLOB_DAT) || (R_386_RELATIVE =? R_386_JMP_SLOT)) with false. rewrite Z.eqb_refl.
    assert (Hl : load32 m1 (target r) = Ret w); [|by rewrite Hl].
    rewrite <- Hw. apply (load32_keeps (fun x => m1 !! x <> m !! x)); [apply u32_range| |by intros x Hx []; apply Hold].
    intros x Hx. by apply dec_stable.
  - rewrite Hty, Z.eqb_refl. rewrite (resolve_ok r v) by done. cbn [obind].
    rewrite (load32_ok (written rels) m1 _ (zlen bs)) by (try apply u32_range; by eapply word_at_keeps). cbn [obind]. unfold zlen. rewrite Nat2Z.id.
    rewrite (memcpy_store (written rels)); [done|apply u32_range|by destruct Hs as (? & ? & _ & _ & _ & _ & ?)|by eapply bytes_at_keeps|].
    intros x Hx. exists (r, bs). split; [by eapply list_elem_of_lookup_2|done].
  - rewrite !not_elem_of_cons in Hty. destruct Hty as (H1 & H2 & H3 & H4 & _).
    rewrite !(proj2 (Z.eqb_neq _ _)) by done. done.
Qed.

Lemma relocate_one_ok k r bs m1 : rels !! k = Some (r, bs) -> relocates r bs -> keeps (written rels) m m1 ->
  (forall x, is_Some (m !! x) -> is_Some (m1 !! x)) -> (forall x, range (target r) (length bs) x -> m1 !! x = m !! x) ->
  exists m2, relocate_one fuel load_base (u32 (rel_table + 8 * Z.of_nat k)) dynsym strtab t m1 = Ret (inl m2) /\
    bytes_at nowhere m2 (target r) bs /\ keeps (range (target r) (length bs)) m1 m2 /\ forall x, is_Some (m1 !! x) -> is_Some (m2 !! x).
Proof.
  intros Hk Hw Hm1 Hdom Hold. destruct (store_bytes_ok bs m1 (target r)) as (m2 & E & Hr); [apply u32_range|by eapply relocates_short| |].
  { intros x Hx. apply Hdom. apply (rel_mapped ok (r, bs)); [by eapply list_elem_of_lookup_2|done]. }
  exists m2. split; [|done]. by rewrite (relocate_one_store k r bs), E.
Qed.

Lemma written_mono rs rs' x : rs ⊆ rs' -> written rs x -> written rs' x.
Proof. intros Hs (r & Hr & Hx). exists r. split; [by apply Hs|done]. Qed.

(** The loop, with the relocations [rs] done and [rest] to do. *)
Lemma relocate_loop_ok rest : forall rs m1, rels = rs ++ rest -> Forall (fun r => relocates r.1 r.2) rest ->
  keeps (written rs) m m1 -> (forall x, is_Some (m !! x) -> is_Some (m1 !! x)) -> Forall (fun r => bytes_at nowhere m1 (target r.1) r.2) rs ->
  exists m2, relocate_loop fuel (length rest) load_base (u32 (rel_table + 8 * zlen rs)) dynsym strtab t m1 = Ret (inl m2) /\
    keeps (written rels) m m2 /\ Forall (fun r => bytes_at nowhere m2 (target r.1) r.2) rels.
Proof.
  induction rest as [|[r bs] rest IH]; intros rs m1 Hrels Hw Hk Hd Hdone; cbn [length relocate_loop].
  { rewrite app_nil_r in *. subst rs. by exists m1. }
  apply Forall_cons in Hw as [Hr Hrest]. cbn [fst snd] in Hr.
  assert (Hkr : rels !! length rs = Some (r, bs)) by (rewrite Hrels, lookup_app_r, Nat.sub_diag by lia; done).
  assert (Hother : forall r' x, r' ∈ rs -> range (target r'.1) (length r'.2) x -> ~ range (target r) (length bs) x).
  { intros r' x Hr' Hx Hx'. apply list_elem_of_lookup in Hr' as [i Hi]. pose proof (lookup_lt_Some _ _ _ Hi). enough (i = length rs) by lia.
    apply (rel_disjoint ok i (length rs) r' (r, bs) x); [rewrite Hrels; by apply lookup_app_l_Some|done..]. }
  destruct (relocate_one_ok (length rs) r bs m1 Hkr Hr) as (m2 & E & Hl & Hk2 & Hd2); [|done| |].
  { eapply keeps_weaken; [done|]. intros x. apply written_mono. rewrite Hrels. set_solver. }
  { intros x Hx. apply Hk. intros (r' & Hr' & Hx'). by apply (Hother r' x). }
  change (Z.of_nat (length rs)) with (zlen rs) in E. rewrite E. cbn [obind]. rewrite u32_add_l.
  replace (rel_table + 8 * zlen rs + 8) with (rel_table + 8 * zlen (rs ++ [(r, bs)])) by (unfold zlen; rewrite length_app; cbn; lia).
  apply (IH (rs ++ [(r, bs)]) m2); [by rewrite <- app_assoc|done| |by auto|].
  - intros x Hx. rewrite Hk2 by (intros Hxr; apply Hx; exists (r, bs); split; [set_solver|done]). apply Hk. intros Hxr. apply Hx. eapply written_mono; [|done]. set_solver.
  - apply Forall_app. split; [|apply Forall_cons_2; [exact Hl|apply Forall_nil_2]]. rewrite Forall_forall in Hdone |- *. intros r' Hr'. eapply bytes_at_other; [by apply Hdone|exact Hk2|]. intros x. by apply Hother.
Qed.

Lemma relocate_ok : Forall (fun r => relocates r.1 r.2) rels ->
  exists m', ld_relocate fuel load_base rel_table dynsym strtab (zlen rels) t m = Ret (inl m') /\
    Forall (fun r => bytes_at nowhere m' (target r.1) r.2) rels /\ keeps (written rels) m m'.
Proof.
  intros Hw. destruct (relocate_loop_ok rels [] m eq_refl Hw) as (m' & E & Hk & Hf); [by intros x _|done|constructor|].
  unfold ld_relocate, zlen. rewrite Nat2Z.id. change (8 * zlen (@nil (Z * Z * list Z))) with 0 in E. rewrite Z.add_0_r, u32_small in E by apply ok. eauto.
Qed.
End relocation.

(** C36: Relocation: for every table of relocations of the library whose symbols
    are defined, with targets that are mapped and do not overlap each other, the
    tables, the names or the objects copied, [ld_relocate] leaves at each target the
    address of its symbol ([R_386_GLOB_DAT], [R_386_JMP_SLOT]), the old word moved
    by the load address ([R_386_RELATIVE]) or the bytes of the object of its symbol
    ([R_386_COPY]), passes over relocations of other types, and changes no other
    byte. *)
Theorem ld_relocate_correct fuel load_base rel_table dynsym strtab t l rels m :
  relocatable fuel load_base rel_table t l rels m -> Forall (fun r => relocates load_base dynsym strtab l rels m r.1 r.2) rels ->
  exists m', ld_relocate fuel load_base rel_table dynsym strtab (zlen rels) t m = Ret (inl m') /\
    Forall (fun r => bytes_at nowhere m' (target load_base r.1) r.2) rels /\
    forall a, ~ written load_base rels a -> m' !! a = m !! a.
Proof. intros Hok Hw. by apply (relocate_ok fuel load_base rel_table dynsym strtab t l). Qed.

(** ** Depth *)

Section depth.
Variable fuel : nat.
Variable run_function : Z -> memory -> outcome memory.
Variable dynamic_load : list Z -> memory -> outcome (Z * Z * memory).

Local Notation load := (ld_load_library fuel run_function dynamic_load).

(** The entries that are free. *)
Definition free_of (ds : list DlInfo) : nat := length (filter (fun d => dl_name d = 0) ds).
Definition free_entries (s : linker) : nat := free_of (dl_info s).

Lemma strcmp_same n m : forall p c, strcmp n m p p = Ret c -> c = 0.
Proof.
  induction n as [|n IH]; intros p c; cbn [strcmp]; unfold load8; destruct (m !! p) as [x|]; cbn [of_option obind]; try done.
  all: destruct (Z.eqb_spec x 0); cbn [negb andb]; [intros [= <-]; lia|]; rewrite Z.eqb_refl; first [done|apply IH].
Qed.

(** A name that is not loaded is not the null pointer while an entry is free. *)
Lemma is_loaded_name name m ds : is_loaded fuel name m ds = Ret false -> name ∉ dl_name <$> ds.
Proof.
  induction ds as [|d ds IH]; cbn [is_loaded fmap list_fmap]; [intros _; apply not_elem_of_nil|].
  destruct (strcmp fuel m (dl_name d) name) as [c| | |] eqn:E; cbn [obind]; [|done..]. destruct (Z.eqb_spec c 0); [done|]. intros H.
  apply not_elem_of_cons. split; [|by apply IH]. intros ->. by apply strcmp_same in E.
Qed.

Lemma free_dl_ok ds : forall i j, free_dl i ds = Some j -> exists d, i <= j /\ ds !! Z.to_nat (j - i) = Some d /\ dl_name d = 0.
Proof.
  induction ds as [|d ds IH]; intros i j; cbn [free_dl]; [done|]. destruct (free_dl (i + 1) ds) as [j'|] eqn:E.
  - intros [= <-]. destruct (IH _ _ E) as (d' & Hj & Hd & H0). exists d'. split; [lia|]. split; [|done].
    replace (Z.to_nat (j' - i)) with (S (Z.to_nat (j' - (i + 1)))) by lia. done.
  - destruct (Z.eqb_spec (dl_name d) 0); [|done]. intros [= <-]. exists d. rewrite Z.sub_diag. split; [lia|done].
Qed.

Lemma dyn_entry_name lb tag val d : dl_name (dy_dl (dyn_entry lb tag val d)) = dl_name (dy_dl d).
Proof. unfold dyn_entry. repeat case_match; done. Qed.

Lemma read_dynamic_name n lb m : forall dyn d d', read_dynamic n lb dyn m d = Ret d' -> dl_name (dy_dl d') = dl_name (dy_dl d).
Proof.
  induction n as [|n IH]; intros dyn d d'; cbn [read_dynamic]; destruct (load32 m dyn) as [tag| | |]; cbn [obind]; try done.
  all: destruct (tag =? 0); [by intros [= <-]|]; destruct (load32 m (u32 (dyn + 4))) as [val| | |]; cbn [obind]; try done.
  intros H. apply IH in H. by rewrite H, dyn_entry_name.
Qed.

Lemma free_insert ds i d d' : ds !! i = Some d -> dl_name d = 0 ->
  free_of (<[i := d']> ds) = if decide (dl_name d' = 0) then free_of ds else (free_of ds - 1)%nat.
Proof.
  intros Hi Hd. assert (Happ : forall x y, free_of (x ++ y) = (free_of x + free_of y)%nat) by (intros x y; unfold free_of; by rewrite filter_app, length_app).
  assert (Hcons : forall x y, free_of (x :: y) = if decide (dl_name x = 0) then S (free_of y) else free_of y).
  { intros x y. unfold free_of. rewrite filter_cons. by case_decide. }
  rewrite (insert_take_drop ds i d') by (by eapply lookup_lt_Some).
  assert (E : free_of ds = (free_of (take i ds) + S (free_of (drop (S i) ds)))%nat).
  { rewrite <- (take_drop_middle ds i d Hi) at 1. by rewrite Happ, Hcons, decide_True. }
  rewrite Happ, Hcons. case_decide; lia.
Qed.

Lemma relocate_table_free lb rel num dl s s' : relocate_table fuel lb rel num dl s = Ret (inl s') -> free_entries s' = free_entries s.
Proof.
  unfold relocate_table. destruct (rel =? 0); [by intros [= <-]|]. destruct (ld_relocate _ _ _ _ _ _ _ _) as [[m|msg]| | |]; cbn; try done.
  by intros [= <-].
Qed.

Lemma link_library_free i d s b s' : link_library fuel run_function i d s = Ret (inl (b, s')) -> free_entries s' = free_entries s.
Proof.
  unfold link_library. destruct (zget (dl_info s) i) as [dl|]; cbn [of_option obind]; [|done].
  destruct (relocate_table fuel _ (dl_relplt dl) _ _ _) as [[s1|]| | |] eqn:E1; cbn [obind]; try done. apply relocate_table_free in E1 as <-.
  destruct (relocate_table fuel _ (dl_reldyn dl) _ _ _) as [[s2|]| | |] eqn:E2; cbn [obind]; try done. apply relocate_table_free in E2 as <-.
  destruct (add_symbols _ _ _ _ _ _) as [[ok t']| | |]; cbn [obind]; try done. destruct ok; cbn [negb]; [|by intros [= <- <-]].
  destruct (_ || _); cbn [obind]; [by intros [= <- <-]|]. destruct (call_functions _ _ _ _) as [m| | |]; cbn [obind]; try done. by intros [= <- <-].
Qed.

(** [f] does not free entries. *)
Definition keeps_entries (f : Z -> linker -> outcome (bool * linker + list Z)) : Prop :=
  forall name s b s', f name s = Ret (inl (b, s')) -> (free_entries s' <= free_entries s)%nat.

Lemma load_needed_free f dynstr ns : keeps_entries f -> forall s s', load_needed fuel f dynstr ns s = Ret (inl s') -> (free_entries s' <= free_entries s)%nat.
Proof.
  intros Hf. induction ns as [|v ns IH]; intros s s'; cbn [load_needed]; [by intros [= <-]|]. destruct (v =? 0); [by intros [= <-]|].
  destruct (f _ s) as [[[[] s1]|]| | |] eqn:E; cbn [obind]; try done; [|destruct (string_at _ _ _); done].
  apply Hf in E. intros H%IH. lia.
Qed.

(** Two loaders that agree on states with few free entries. *)
Lemma load_needed_agree f g dynstr n ns : keeps_entries f -> (forall name s, (free_entries s <= n)%nat -> f name s = g name s) ->
  forall s, (free_entries s <= n)%nat -> load_needed fuel f dynstr ns s = load_needed fuel g dynstr ns s.
Proof.
  intros Hf Hfg. induction ns as [|v ns IH]; intros s Hs; cbn [load_needed]; [done|]. destruct (v =? 0); [done|].
  rewrite <- Hfg by done. destruct (f _ s) as [[[[] s1]|]| | |] eqn:E; cbn [obind]; try done. apply Hf in E. apply IH. lia.
Qed.

(** The new entry of a library that is being loaded. *)
Lemma put_new_dl name i m dl s s' : is_loaded fuel name (lmem s) (dl_info s) = Ret false -> free_dl 0 (dl_info s) = Some i ->
  dl_name dl = name -> put_dl i dl (with_mem s m) = Ret s' -> (S (free_entries s') = free_entries s)%nat.
Proof.
  intros Hn Hi Hdl. apply free_dl_ok in Hi as (d & Hi & Hd' & H0). rewrite Z.sub_0_r in Hd'.
  unfold put_dl. cbn [with_mem dl_info]. destruct (zset (dl_info s) i dl) as [ds|] eqn:E; cbn [of_option obind]; [|done]. intros [= <-].
  unfold free_entries. cbn [with_dl dl_info]. rewrite zset_Some in E by (apply lookup_lt_Some in Hd'; unfold zlen; lia). injection E as <-.
  rewrite (free_insert _ _ d) by done. apply is_loaded_name in Hn.
  assert (In d (filter (fun d => dl_name d = 0) (dl_info s))) as Hin.
  { apply list_elem_of_In, list_elem_of_filter. split; [done|]. by eapply list_elem_of_lookup_2. }
  rewrite decide_False.
  - unfold free_of. destruct (filter _ _); [done|cbn; lia].
  - intros E0. apply Hn. apply list_elem_of_fmap. exists d. split; [congruence|]. by eapply list_elem_of_lookup_2.
Qed.

Lemma put_free_dl i m d0 dl s s' : zget (dl_info s) i = Some d0 -> dl_name d0 = 0 -> dl_name dl = 0 -> put_dl i dl (with_mem s m) = Ret s' -> free_entries s' = free_entries s.
Proof.
  intros [Hi Hd]%zget_lookup H0 Hdl. unfold put_dl. cbn [with_mem dl_info].
  rewrite zset_Some by (apply lookup_lt_Some in Hd; unfold zlen; lia). cbn [of_option obind]. intros [= <-].
  unfold free_entries. cbn [with_dl dl_info]. rewrite (free_insert _ _ d0) by done. by rewrite decide_True.
Qed.
(** [ld_load_library] over the loader for the libraries that are needed. *)
Definition load_body (rec : option (Z -> linker -> outcome (bool * linker + list Z))) (name : Z) (s : linker) : outcome (bool * linker + list Z) :=
  found <- is_loaded fuel name (lmem s) (dl_info s) ;;
  if found then Ret (inl (true, s)) else
  match free_dl 0 (dl_info s) with
  | None => Ret (inl (false, s))
  | Some i =>
    path <- lib_file fuel name (lmem s) ;;
    '(lb, dyn, m) <- dynamic_load path (lmem s) ;;
    dl <- of_option (zget (dl_info s) i) ;;
    if lb =? 0 then
      s2 <- put_dl i (start_dl (dl_name dl) 0 (dl_dynamic dl) dl) (with_mem s m) ;; Ret (inl (false, s2))
    else
    d <- read_dynamic fuel lb dyn m (Dynamic (start_dl name lb dyn dl) (repeat 0 16) 0 0) ;;
    s2 <- put_dl i (count_symbols (dy_dl d)) (with_mem s m) ;;
    match rec with
    | None => NoFuel
    | Some f =>
      r <- load_needed fuel f (dl_dynstr (dy_dl d)) (needed d) s2 ;;
      match r with
      | inr msg => Ret (inr msg)
      | inl s3 => link_library fuel run_function i d s3
      end
    end
  end.

Lemma load_eq d name s : load d name s = load_body (match d with O => None | S d' => Some (load d') end) name s.
Proof. by destruct d. Qed.

(** Where the recursion of [load_body] starts, an entry less is free. *)
Lemma load_body_cases f g name s :
  (forall name s', (S (free_entries s') <= free_entries s)%nat -> f name s' = g name s') -> keeps_entries f ->
  load_body (Some f) name s = load_body (Some g) name s.
Proof.
  intros Hfg Hf. unfold load_body. destruct (is_loaded _ _ _ _) as [[]| | |] eqn:El; cbn [obind]; try done.
  destruct (free_dl 0 (dl_info s)) as [i|] eqn:Ei; [|done]. destruct (lib_file _ _ _) as [path| | |]; cbn [obind]; try done.
  destruct (dynamic_load path (lmem s)) as [[[lb dyn] m]| | |]; cbn [obind]; try done.
  destruct (zget (dl_info s) i) as [dl|] eqn:Edl; cbn [of_option obind]; [|done]. destruct (lb =? 0); [done|].
  destruct (read_dynamic _ _ _ _ _) as [d| | |] eqn:Ed; cbn [obind]; try done. apply read_dynamic_name in Ed. cbn in Ed.
  destruct (put_dl _ _ _) as [s2| | |] eqn:Ep; cbn [obind]; try done. eapply put_new_dl in Ep; [|done|done|exact Ed].
  rewrite (load_needed_agree f g _ (free_entries s2)); [done|done| |done]. intros name' s' Hs'. apply Hfg. lia.
Qed.

Lemma load_body_free rec name s b s' : (forall f, rec = Some f -> keeps_entries f) -> load_body rec name s = Ret (inl (b, s')) -> (free_entries s' <= free_entries s)%nat.
Proof.
  intros Hf. unfold load_body. destruct (is_loaded _ _ _ _) as [[]| | |] eqn:El; cbn [obind]; try done; [by intros [= <- <-]|].
  destruct (free_dl 0 (dl_info s)) as [i|] eqn:Ei; [|by intros [= <- <-]]. destruct (lib_file _ _ _) as [path| | |]; cbn [obind]; try done.
  destruct (dynamic_load path (lmem s)) as [[[lb dyn] m]| | |]; cbn [obind]; try done.
  destruct (zget (dl_info s) i) as [dl|] eqn:Edl; cbn [of_option obind]; [|done]. destruct (lb =? 0).
  { destruct (free_dl_ok _ _ _ Ei) as (d & Hi & Hd & H0). rewrite Z.sub_0_r in Hd. pose proof (proj1 (zget_lookup _ _ _) Edl) as [_ Hd']. simplify_eq.
    destruct (put_dl _ _ _) as [s2| | |] eqn:Ep; cbn [obind]; try done. intros [= <- <-]. eapply put_free_dl in Ep; [lia|done|done|done]. }
  destruct (read_dynamic _ _ _ _ _) as [d| | |] eqn:Ed; cbn [obind]; try done. apply read_dynamic_name in Ed. cbn in Ed.
  destruct (put_dl _ _ _) as [s2| | |] eqn:Ep; cbn [obind]; try done. eapply put_new_dl in Ep; [|done|done|exact Ed].
  destruct rec as [f|]; [|done]. destruct (load_needed _ _ _ _ _) as [[s3|]| | |] eqn:En; cbn [obind]; try done.
  apply load_needed_free in En; [|by apply Hf]. intros H%link_library_free. lia.
Qed.

(** Without a free entry nothing is loaded. *)
Lemma load_body_full rec rec' name s : free_entries s = 0%nat -> load_body rec name s = load_body rec' name s.
Proof.
  intros H0. unfold load_body. destruct (is_loaded _ _ _ _) as [[]| | |]; cbn [obind]; try done.
  destruct (free_dl 0 (dl_info s)) as [i|] eqn:Ei; [|done]. exfalso. apply free_dl_ok in Ei as (d & _ & Hd & Hd0).
  apply length_zero_iff_nil in H0. assert (d ∈ filter (fun d => dl_name d = 0) (dl_info s)) as Hin.
  { apply list_elem_of_filter. split; [done|]. by eapply list_elem_of_lookup_2. }
  rewrite H0 in Hin. by apply not_elem_of_nil in Hin.
Qed.

Lemma load_keeps_entries d : keeps_entries (load d).
Proof.
  induction d as [|d IH]; intros name s b s'; rewrite load_eq; apply load_body_free; [done|]. by intros f [= <-].
Qed.

Lemma load_depth d : forall d' name s, (free_entries s <= d)%nat -> (free_entries s <= d')%nat -> load d name s = load d' name s.
Proof.
  induction d as [|d IH]; intros d' name s Hd Hd'; rewrite !load_eq; [apply load_body_full; lia|].
  destruct d' as [|d']; [apply load_body_full; lia|]. apply load_body_cases; [|apply load_keeps_entries].
  intros name' s' Hs'. apply IH; lia.
Qed.
End depth.

(** Loading libraries terminates: however the libraries need each other,
    [ld_load_library] never has more than sixty-four calls of itself open, so a
    depth of sixty-four gives the result of every larger one. *)
Theorem ld_load_library_depth fuel run_function dynamic_load depth name s : zlen (dl_info s) = Z.of_nat DL_INFO_MAX -> (DL_INFO_MAX <= depth)%nat ->
  ld_load_library fuel run_function dynamic_load depth name s = ld_load_library fuel run_function dynamic_load DL_INFO_MAX name s.
Proof.
  intros Hl Hd. assert (free_entries s <= DL_INFO_MAX)%nat.
  { unfold free_entries, free_of. pose proof (length_filter (fun d => dl_name d = 0) (dl_info s)). unfold zlen in Hl. lia. }
  apply load_depth; lia.
Qed.

(** ** Examples *)

Definition place (a : Z) (bs : list Z) : list (Z * Z) := imap (fun i b => (a + Z.of_nat i, b)) bs.

(** Three relocations at 100, two symbols at 216 whose names are at 301 and 303,
    other copies of the names at 400, an object of three bytes at 500, and what
    they change at 4096. *)
Definition ex_memory : memory :=
  list_to_map (place 100 (le_bytes 4 0 ++ le_bytes 4 262 ++ le_bytes 4 4 ++ le_bytes 4 8 ++ le_bytes 4 8 ++ le_bytes 4 517) ++
    place 216 (le_bytes 4 1) ++ place 232 (le_bytes 4 3) ++ place 240 (le_bytes 4 3) ++ place 300 [0; 102; 0; 103; 0] ++ place 400 [102; 0; 103; 0] ++
    place 500 [7; 8; 9] ++ place 4096 (le_bytes 4 0 ++ le_bytes 4 16 ++ [0; 0; 0])).

Definition ex_rels : list (Z * Z * list Z) := [((0, 262), le_bytes 4 0x1234); ((4, 8), le_bytes 4 4112); ((8, 517), [7; 8; 9])].

(** A check for [bytes_at], with the written addresses from [lo] to [hi]. *)
Lemma bytes_at_check (T : Z -> Prop) lo hi m a bs : (forall x, T x -> lo <= x < hi) ->
  forallb (fun '(i, b) => bool_decide (m !! u32 (a + Z.of_nat i) = Some b) && ((u32 (a + Z.of_nat i) <? lo) || (hi <=? u32 (a + Z.of_nat i))))
    (imap pair bs) = true -> bytes_at T m a bs.
Proof.
  intros HT Hc i b Hi. assert (In (i, b) (imap pair bs)) as Hin.
  { apply list_elem_of_In, elem_of_lookup_imap. by exists i, b. }
  apply (proj1 (forallb_forall _ _) Hc) in Hin. cbn in Hin. apply andb_prop in Hin as [H1 H2]. apply bool_decide_eq_true in H1. split; [done|].
  intros HTx. apply HT in HTx. apply orb_prop in H2. lia.
Qed.

Lemma ex_written x : written 4096 ex_rels x -> 4096 <= x < 4107.
Proof.
  intros (r & Hr & i & Hi & ->). unfold ex_rels in Hr. rewrite !elem_of_cons in Hr. destruct Hr as [->|[->|[->|Hr]]]; [..|by apply not_elem_of_nil in Hr].
  all: cbn in Hi; unfold target; rewrite u32_add_l; cbn [fst]; rewrite u32_small by (unfold is_u32; lia); lia.
Qed.

Definition ex_table : list Symbol := Sym 400 0x1234 :: Sym 402 500 :: repeat (Sym 0 0) 1022.
Definition ex_symbols : list (list Z * Z) := [([102], 0x1234); ([103], 500)].

(** Bytes of the example that no relocation writes. *)
Ltac ex_bytes := apply (bytes_at_check _ 4096 4107); [exact ex_written|vm_compute; reflexivity].

Lemma ex_relocatable : relocatable 10 4096 100 ex_table ex_symbols ex_rels ex_memory.
Proof.
  constructor.
  - done.
  - intros [|[|[|k]]] r [= <-]; split; (split; [unfold is_u32; cbn; lia|ex_bytes]).
  - apply (holds_cons 10 _ _ (Sym 400 0x1234)); [done|unfold is_u32; cbn; lia|split; [repeat constructor; lia|ex_bytes]|cbn; lia|].
    apply (holds_cons 10 _ _ (Sym 402 500)); [done|unfold is_u32; cbn; lia|split; [repeat constructor; lia|ex_bytes]|cbn; lia|].
    apply holds_free, Forall_forall. intros e He. apply list_elem_of_In, repeat_spec in He. by subst.
  - intros r x Hr Hx. assert (Hw : 4096 <= x < 4107) by (apply ex_written; by exists r).
    assert (In x (seqZ 4096 11)) as Hin by (apply list_elem_of_In, elem_of_seqZ; lia). revert Hin. cbn. intros Hin.
    repeat destruct Hin as [<-|Hin]; try done; eexists; vm_compute; reflexivity.
  - intros [|[|[|i]]] [|[|[|j]]] r r' x [= <-] [= <-] (a & Ha & ->) (b & Hb & E); try done.
    all: cbn in Ha, Hb; unfold target in E; rewrite !u32_add_l in E; cbn [fst] in E; rewrite !u32_small in E by (unfold is_u32; lia); lia.
Qed.

Lemma ld_relocate_correct_witness : exists m', ld_relocate 10 4096 100 200 300 3 ex_table ex_memory = Ret (inl m') /\
  bytes_at nowhere m' 4096 (le_bytes 4 0x1234) /\ bytes_at nowhere m' 4100 (le_bytes 4 4112) /\ bytes_at nowhere m' 4104 [7; 8; 9].
Proof.
  destruct (ld_relocate_correct 10 4096 100 200 300 ex_table ex_symbols ex_rels ex_memory ex_relocatable) as (m' & E & Hf & _).
  - unfold ex_rels. apply Forall_cons_2; [|apply Forall_cons_2; [|apply Forall_cons_2; [|apply Forall_nil_2]]]; cbn [fst snd].
    + apply relocates_symbol; [by left|]. exists 1, [102]. split; [split; [unfold is_u32; lia|ex_bytes]|].
      split; [split; [repeat constructor; lia|ex_bytes]|]. split; [done|]. split; [done|unfold is_u32; lia].
    + assert (Hw : load32 ex_memory (target 4096 (4, 8)) = Ret 16) by (vm_compute; reflexivity). exact (relocates_relative 4096 200 300 ex_symbols ex_rels ex_memory (4, 8) 16 eq_refl Hw).
    + apply (relocates_copy _ _ _ _ _ _ _ 500); [done| |split; [unfold is_u32, zlen; cbn; lia|ex_bytes]|ex_bytes].
      exists 3, [103]. split; [split; [unfold is_u32; lia|ex_bytes]|].
      split; [split; [repeat constructor; lia|ex_bytes]|]. split; [done|]. split; [done|unfold is_u32; lia].
  - exists m'. split; [exact E|]. unfold ex_rels in Hf. apply Forall_cons in Hf as [H1 Hf]. apply Forall_cons in Hf as [H2 Hf]. apply Forall_cons in Hf as [H3 _].
    split; [exact H1|]. split; [exact H2|exact H3].
Defined.

Lemma ex_named p : p = 301 \/ p = 400 -> named 10 ex_memory p [102].
Proof.
  intros Hp. split; [|split; [|split]]; [|unfold is_u32; lia|lia|cbn; lia]. split; [repeat constructor; lia|].
  destruct Hp as [-> | ->]; (apply (bytes_at_check _ 0 0); [done|vm_compute; reflexivity]).
Qed.

(** The second definition of a name replaces the first. *)
Lemma symbol_table_refines_map_witness : exists t,
  insert_symbols 10 [(400, 1); (301, 2)] ex_memory (repeat (Sym 0 0) SYMBOL_TABLE_MAX) = Ret (Some t) /\ ld_lookup_symbol 10 400 ex_memory t = Ret 2.
Proof.
  apply (symbol_table_refines_map 10 ex_memory [(400, [102], 1); (301, [102], 2)] 400 [102] 2).
  - apply Forall_cons_2; [apply ex_named; auto|]. apply Forall_cons_2; [apply ex_named; auto|]. apply Forall_nil_2.
  - vm_compute. lia.
  - apply ex_named. auto.
  - reflexivity.
Defined.

(** A library that cannot be loaded. *)
Lemma ld_load_library_depth_witness :
  let s := Linker ex_memory (repeat no_dl DL_INFO_MAX) ex_table in
  ld_load_library 10 (fun _ => Ret) (fun _ m => Ret (0, 0, m)) 100 400 s = ld_load_library 10 (fun _ => Ret) (fun _ m => Ret (0, 0, m)) 64 400 s.
Proof. apply (ld_load_library_depth 10); [reflexivity|unfold DL_INFO_MAX; lia]. Defined.
